(* ===== verification/_CoqProject ===== *)
-Q . S2P
Prelude.v
PyText.v
PosixPath.v
Regex.v
PyLines.v
Sandbox.v
SafeExtract.v
Json.v
Jsonb.v
JsonbColumns.v
JsonbBoundary.v
VirtualFs.v
DetectLinux.v
UnpackControl.v
AnalysisCache.v
BootImage.v
SbomData.v
ComponentStore.v
Enrichment.v
Output.v
ToolRegistry.v
MbrVbr.v
Findings.v
FirmwareModel.v
Reaper.v
Sorting.v
ManifestLib.v
IcsSchema.v
IcsResolver.v
IcsCatalog.v
IcsWalk.v
FormatSchema.v
FormatData.v
FormatResolver.v
TextFormat.v
FormatPlugins.v
FormatCatalog.v
FormatCache.v
YamlCache.v
HwPatterns.v
MtkLk.v
HwClassifier.v
WalkStatus.v
OtaPayload.v
UploadStore.v
UploadPipeline.v
RootSearch.v
LinuxPersist.v
PersistWalk.v
PersistFindings.v
SbomPackages.v
SbomScan.v
KernelVulns.v
CveMatcher.v
CveRun.v
