(* ===== verification/Prelude.v ===== *)
(** * Verification of the Wairz backend (root file)

    Wairz is a firmware analysis platform.  Its Python backend (src/backend/app) takes
    an uploaded image, extracts it, detects root file system, kernel and architecture,
    walks it for components and artefacts, stores what it found in JSONB columns and
    answers tool calls of an MCP client and REST requests.  This library models the
    parts of that backend that decide what is read, written, stored and reported, and
    proves what they promise.  Each definition has the name it has in the source where
    Rocq allows it.

    ** Parts, and where they are modelled

    Text and values.
    - [Prelude]: the error monad [res], bytes as lists of [Byte.byte] with Python slices
      ([zslice], [ztake], [zdrop]), little- and big-endian integers.
    - [PyText]: the string methods the code calls.  [PosixPath]: os.path of POSIX.
    - [Regex]: the regular expressions of the walkers, with a matcher proved to decide what
      an expression matches.  [PyLines]: decoding with replacement, splitting into lines and
      words.
    - [Json]: JSON values as Python sees them ([isinstance], truth, [str], [repr], [int])
      and insertion-ordered dictionaries.

    Paths: which file is opened.
    - [Sandbox] (utils/sandbox.py): [validate_path] and the loop that follows links; the
      file system is [readlink] and [realpath].
    - [VirtualFs] (services/file_service.py): [FileService], the virtual map, [_resolve] and
      [to_virtual_path], over the record [os] of the system calls used; the class
      [RealpathLaws] states what the round trip needs of [os.path.realpath], and [plain_os]
      implements it for trees without links.
    - [UnpackControl] (services/unpack_control_service.py): the four manual requests as
      functions on the firmware record; [DetectLinux] (workers/unpack_linux.py,
      workers/unpack_common.py): kernel and U-Boot detection, which a re-detection calls.
    - [SafeExtract] (workers/safe_extract.py): [safe_extract_zip] over an explicit disk.

    Storage: what a column means.
    - [Jsonb], [JsonbColumns], [JsonbBoundary] (services/jsonb_normalizers.py,
      ai/tools/windows_efs.py): the shared shapes of the boundary, every normaliser and
      stamp of the file, and their theorems, which quantify over the tables of columns.
    - [AnalysisCache] (services/_cache.py): the cache as a table of rows, refined to a finite
      map; the class [Pick] leaves the row of a LIMIT 1 query to the database.

    Analysis: what is found.
    - [BootImage] (hardware_firmware/parsers/android_boot_image.py): headers v0 to v4.
    - [OtaPayload] (hardware_firmware/parsers/android_ota_payload.py): the [CrAU] header, the
      protobuf manifest and the verdict on the boot partition.
    - [MbrVbr] (services/mbr_vbr_walker.py): boot sectors, partition table, walk of an image.
    - [Findings] (services/finding_service.py): PowerShell, Authenticode, MFT and boot-sector
      classifiers and two emission loops; they read the rows of [MbrVbr] and the columns of
      [JsonbColumns].
    - [LinuxPersist] (services/linux_persistence_walker.py): the patterns on one line and the
      parsers of shell histories, crontabs and ld.so.preload files; [PersistWalk] (the same
      file, models/linux_*.py): the scans over [VirtualFs.os], the walk that stores the lines
      as rows, and its runners on rows of [FirmwareModel]; [PersistFindings]
      (services/finding_service.py): the findings made from these rows.
    - [SbomData], [ComponentStore], [Enrichment] (services/sbom/): component store and merge
      rule, CPE and package-URL builders, service risks, the five-step CPE pipeline and the
      canonical kernel version.  The class [SetOrder] leaves the order of [list(set(l))] open.
    - [SbomPackages] (services/sbom/strategies/dpkg, opkg, loose_deb and python_packages):
      the strategies that read lists of packages; [SbomScan] (services/sbom/service.py, kernel
      and firmware_markers): the others that are modelled, the roots of a scan and
      [generate_sbom], which runs them over one [ComponentStore] and ends with [Enrichment].
    - [KernelVulns] (services/hardware_firmware/kernel_vulns_index.py): the kernel's CVE
      records, projected to entries per directory and version, their storage and lookup;
      [CveMatcher] (services/hardware_firmware/cve_matcher.py): the curated file, which is
      read through [YamlCache], the tiers of the matcher, of which the last asks
      [KernelVulns], and the table of vulnerabilities they fill.

    Uploads: how a firmware enters.
    - [UploadStore] (services/firmware_service.py): the request up to the new row, over a
      store of rows and files; the classification of ZIP archives and the version labels.
    - [UploadPipeline] (services/firmware_service.py): the background pipeline from the
      stored upload to [ready] and its runner, in a state and exception monad.  It reads the
      archive with the tests of [UploadStore], writes rows of [FirmwareModel] and the columns
      of [JsonbColumns], and a crash of it is settled by [Reaper].

    - [RootSearch] (workers/unpack_common.py): the tests for archive wrappers and file-system
      images, the expansion of nested archives and the choice of the root file system over a
      tree; it computes what [UploadPipeline] takes as the answer of its search.

    File formats: what a blob is.
    - [FormatSchema] (schemas/file_format.py): manifests and their validators; [FormatData]:
      five of the shipped manifests.  [ManifestLib]: what the two kinds of manifest share.
    - [FormatResolver] (services/file_format_catalog/resolver.py): the signal evaluators, one
      manifest against a blob, the choice among manifests and the chain of dispatches;
      [TextFormat]: its evaluator of text formats against a description of record streams.
    - [FormatPlugins] (services/file_format_catalog/plugins/): the plugin registry and the
      bundled RTOS matcher.
    - [FormatCatalog], [FormatCache] (services/file_format_catalog/catalog.py, snapshot.py):
      walking and reloading the files, the passes that drop manifests, the snapshot with its
      cache; and what they answer after any history of calls.
    - [YamlCache] (utils/yaml_cache.py): the loader of one hot-reloaded YAML file.
    - [HwPatterns] (services/hardware_firmware/patterns_loader.py): the tables of name and
      path rules that such files hold, and their look-ups.
    - [MtkLk] (services/hardware_firmware/parsers/mediatek_gfh.py): MediaTek LK containers.
    - [HwClassifier] (services/hardware_firmware/classifier.py): from head, path and size to a
      classification; it asks [FormatCatalog] and [FormatResolver] first, then the rules of
      [HwPatterns], and refines MediaTek images by the names of [MtkLk].

    Background work: what a status column means.
    - [FirmwareModel] (models/firmware.py): the columns of the firmware table with their
      types, nullability and defaults; a row is a finite map from column names to cells.
    - [Reaper] (workers/walker_registry.py, main.py): the two registries of status columns
      and the sweep of a restarting back end, statement by statement.
    - [WalkStatus] (ai/tools/ics_protocol.py, services/ics_protocol_walker.py): the trigger
      of a walk, its background runner and the automatic run as functions on the table, and
      the system they form with crashes of the tool process and restarts of the back end
      ([step], one transaction each).  It writes rows of [FirmwareModel] and its restart is
      the sweep of [Reaper].
    - [CveRun] (routers/hardware_firmware.py, routers/sbom.py): the request that runs
      [CveMatcher], its runner, and the run that follows a component scan, on rows of
      [FirmwareModel].

    ICS protocols: what firmware speaks.
    - [Sorting]: Python's stable [sorted] with its lemmas.
    - [IcsSchema] (schemas/ics_protocol.py): manifests and their validators.
    - [IcsResolver] (services/ics_protocol_catalog/resolver.py): the signal evaluators, one
      manifest against one binary, all manifests against one binary.
    - [IcsCatalog] (services/ics_protocol_catalog/catalog.py, snapshot.py): loading of the
      bundled and overlay trees, the collision check, and the cache that serves snapshots.
    - [IcsWalk] (services/ics_protocol_walker.py, ai/tools/ics_protocol.py): the walk over the
      binaries of a firmware with snapshots of [IcsCatalog] and [resolve_all] of
      [IcsResolver], the result it stores, and the lookup across firmware that reads it.

    Answers: what leaves the server.
    - [Output] (utils/truncation.py, utils/untrusted.py, utils/log_sanitize.py): size limit,
      fence around firmware text, log sanitizer.
    - [ToolRegistry] (ai/tool_registry.py): [ToolContext], which calls [VirtualFs], and
      [ToolRegistry.execute], which calls the handlers and then [Output].

    ** What the theorems show

    - Sandbox: every returned path is textually below the root whatever the links are;
      without links the function is lexical resolution; two trees show where the kernel,
      opening the returned path, still leaves the root.
    - Zip extraction: nothing outside the destination changes in any outcome, the
      decompressed bytes are bounded in any outcome, a success writes exactly the admitted
      entries; a failure on the running total leaves the offending entry on disk.
    - Columns: every normaliser is an idempotent retraction onto the shape of its column and
      raises on one kind of value only; stamping then reading returns the payload; the USN
      reason decoder is bitwise exact.
    - Virtual paths: round trip for unshadowed files, containment of every answer, and the
      pairs of paths for which the round trip fails.
    - Unpack control: every sequence of manual requests keeps rootfs and kernel inside the
      firmware's tree; a re-detection may not; kernel detection returns the best candidate.
    - Cache: replies to any sequence of operations are those of a finite map.
    - Tool replies: the text of a tool in the list cannot close its fence; truncation keeps exactly the whole
      lines that fit; the base paths of a context contain what it resolves, with the two
      cases where they do not.
    - Analysis: boot image round trip and bounds; rows and findings of a disk image from its
      bytes; findings of an MFT walk row by row; the merge rule of the store; convergence of
      CPE enrichment; what the kernel-version patterns extract.
    - Linux persistence: a written crontab parses back; which files the three scans pick, and
      which of them may lie outside the firmware; a walk stores exactly the first lines of
      each kind or, when a column refuses one, nothing; repeated runs pile up rows and findings; and from
      the files to the findings, with the line that keeps all of them from being created.

    - Component scan: a written package database gives its packages; no root is scanned
      twice; every component that a strategy reports has exactly one row, by name and version;
      and the two kinds of file that leave the scan without any.
    - CVE matching: what the kernel index answers after a synchronisation and for which
      versions a record is reported; which rows a run of the matcher adds, and that a second
      run adds none; the evidence behind a curated match; how a requested run ends; and the
      record, the family and the exception that stop the index, the matcher and its runs.
    - Uploads: a file name derived from a client's is a plain component; every row names a
      file of its own directory with the size it records and no two rows of a project share
      a digest; the same bytes sent again are refused; automatic labels are fresh.  A run of
      the pipeline commits its stages in order and ends ready or failed with a bounded error;
      wherever it is cut, a later sweep settles the row.
    - Root search: the root found is the best candidate by markers, size of etc and entries;
      the two mutually recursive tests for wrappers decide an inductive description; a second
      expansion of nested archives finds nothing to do; a ZIP taken for a root file system
      that the search declines is lost.
    - File formats: the resolver answers the manifest that no other outranks and follows its
      dispatches within their bound; what a catalogue holds is valid, of its tier and free of
      collisions, removed targets and expensive chains; the cached snapshot is that of the
      files as they are; which of several files gets an identifier; and what breaks this: an
      unreadable file, the mode extend, a recognised RTOS, a threshold of zero.
    - Classification: a classification is a function of the catalogue at the call; exactly
      which blobs are skipped; answers are typed; a recognised RTOS hides the rules on names.
      The loader of a YAML file serves its last good version; a written LK container walks
      back, and on any bytes the walk stays in the data.
    - OTA payload: its loops end on any input; a written manifest parses back.
    - Walk states: under any interleaving that loses no task every walk ends; with one call
      at a time, and restarts only between walks, a firmware has one runner and its columns tell the outcome; after a crash the
      next sweep ends what was in flight; and the runs in which overlap breaks this.
    - Reaper: the registries fit the table and cover its status columns; a sweep is the
      independent effect of its entries; nothing but a young upload stays in progress.
    - ICS catalog: what a rebuild holds is valid, of its tier and free of collisions; the
      overlay cannot touch the bundled manifests of the two top tiers unless one of its files
      makes a rebuild raise; the cache is fresh up to its debounce; when a rebuild raises; which manifests the collision check drops without need.
    - ICS resolver and walk: a manifest matches exactly when its rule is met; the report is
      sorted and independent of the order of the snapshot; what the code-table scan finds and
      misses; the walk aggregates exactly the admitted files; the lookup reads back the counts.

    ** Conventions

    - A Python [str] is its UTF-8 encoding; [lower], [strip], digits and white space are those
      of ASCII, lengths count code points.  A lone surrogate is not representable.
    - A regular expression is the value of [Regex.regex] its text denotes; only whether it
      matches somewhere is observed.  Its classes are those of ASCII.
    - A TEXT column refuses the NUL character, a VARCHAR column also what is too long; a JSON
      object comes back with its keys in any order, a query without an order in any order of
      rows.
    - A Python [int] is [Z]; integers read from binary headers are bounded by the width of
      the field, and the theorems state those bounds.  A float is what the code observes of
      it; [int] of an infinity counts as rejected.
    - An exception is an error value; where the code distinguishes classes, so does the error
      type.  Log calls and counters that only feed the log are left out.
    - In-place mutation is a returned value: the functions modelled here are the only owners
      of what they change.  The store and the disk are passed explicitly.
    - The file system does not change between two calls of one function (no races), and time
      is an argument.  Database rows are lists, those of the firmware table finite maps; a
      transaction that raises has no result.
    - A read of a Redis client that answers the ping succeeds; a pipeline of writes may break
      after any part of its commands.  A stored value is what [json.loads] makes of it.
    - The widths of columns are modelled where a property depends on them; the insertions of
      [AnalysisCache] and the commit of [UploadStore] never refuse a value for its length.
    - Concurrency is interleaving of transactions: in [WalkStatus] a session that ends later
      writes only the columns whose value differs from the one it loaded, as the object
      mapper does.  The runner of a call is taken to read after the call has committed.
    - Weights and scores of manifests are IEEE doubles ([SpecFloat] with 53 bits).

    ** Fuel

    [Sandbox.follow_links] has the 40 steps of the source, so it needs no argument that they
    suffice.  [OtaPayload.message_loop] has the length of the buffer, and
    [ota_loops_terminate] shows that no input exhausts it; its varints have the ten bytes of
    the source.  [PyText.hex_pad] prints up to 64 digits and is only used below 2^64.  Everything
    else is structural recursion.  The runs of [WalkStatus.step] need none: their tasks have
    the measure [steps_left], which every transaction of a task decreases.
    [FormatCatalog.chain_search] has [search_fuel], the number of edges of the dispatch graph
    and one more, and [chains_expensive_spec] shows that it always ends within it;
    [FormatResolver.follow] has the bound that the manifest itself sets (depth_max), and
    [MtkLk.walk_from] the limit of records of the source.  [VirtualFs.os_walk] takes the
    depth to which it descends: with the depth of the tree it is the walk of the source, and
    its theorems hold at every depth.  The matcher of [Regex] repeats as often as there are
    characters left, which [accepts_iff] shows to be enough.

    ** Not modelled

    Handlers and routers format results of the services and hold little else; the walkers
    around third-party parsers (dissect, regipy, LnkParse3), the runs of external programs
    (unblob, Ghidra, radare2, Grype, QEMU), the database layer, the web client and the
    container images are calls of code that is not here.  Of the ICS catalogue the plugin
    registry, which nothing fills, and the two tools that print one stored result.
    Parameters stand for code that is not part of the repository: zipfile's entries and
    chunks, SHA-256, the NVD index behind [lookup_fuzzy], packageurl, the YAML parser, the
    fresh fence identifier, the tools 7z, ar, tar and strings.  The SBOM strategies that search
    binaries, read Android packages or call Syft are parameters of [generate_sbom], which
    [sbom_complete] asks only to add to the store.  Of the CVE matcher the git commands, the
    versions of packaging and the rounding of scores by the database are parameters; the two
    tiers that answer nothing and the findings made from the rows are left out.  The helpers the upload pipeline runs on the
    extracted tree (root search, nested archives, architecture and OS detection) are inputs
    of [UploadPipeline]: each may return or raise anything; the first two are those of
    [RootSearch].  Of the classifier's tables the Bluetooth code names and banner pins are
    not modelled, and a regular expression read from a file is a predicate.

    ** Order of extension

    What could be added in the same way: the other binary header parsers of
    hardware_firmware/parsers, the remaining classifiers of finding_service.py with the pure
    helpers of the USN, MFT, LNK and BCD walkers, the container and journald walkers, the
    listing and search functions of file_service.py, and the SBOM strategies for Android
    and for the version strings of binaries. *)

From stdpp Require Export base list option numbers strings gmap pretty.
From Stdlib Require Export ZArith Lia.
From Stdlib Require Strings.Byte.

#[global] Set Default Goal Selector "!".
#[global] Open Scope Z_scope.

(** ** Notation scope of the development *)

Declare Scope wairz_scope.
Delimit Scope wairz_scope with wz.
#[global] Open Scope wairz_scope.

(** ** Fallible results: a Python call either returns or raises *)

Inductive res (E A : Type) : Type :=
  | Ok (a : A)
  | Err (e : E).
Arguments Ok {E A} a.
Arguments Err {E A} e.

#[export] Instance res_ret (E : Type) : MRet (res E) := fun A a => Ok a.
#[export] Instance res_bind (E : Type) : MBind (res E) :=
  fun A B f r => match r with Ok a => f a | Err e => Err e end.
#[export] Instance res_fmap (E : Type) : FMap (res E) :=
  fun A B f r => match r with Ok a => Ok (f a) | Err e => Err e end.

Definition is_ok {E A} (r : res E A) : bool :=
  match r with Ok _ => true | Err _ => false end.

Lemma res_bind_ok {E A B} (f : A -> res E B) (r : res E A) (b : B) :
  r ≫= f = Ok b <-> exists a, r = Ok a /\ f a = Ok b.
Proof. destruct r; cbn; naive_solver. Qed.

(** ** Bytes *)

Abbreviation byte := Byte.byte.
Abbreviation bytes := (list Byte.byte).

#[export] Instance byte_eq_dec : EqDecision byte := Byte.byte_eq_dec.

(** A bytes literal: [bs "ANDROID!"]. *)
Definition bs (s : string) : bytes := String.list_byte_of_string s.

Definition byteZ (b : byte) : Z := Z.of_N (Byte.to_N b).

Definition byte_of_Z (z : Z) : byte :=
  default Byte.x00 (Byte.of_N (Z.to_N (z mod 256))).

Lemma byteZ_range (b : byte) : 0 <= byteZ b < 256.
Proof.
  unfold byteZ. pose proof (Byte.to_N_bounded b). lia.
Qed.

Lemma byteZ_of_Z (z : Z) : byteZ (byte_of_Z z) = z mod 256.
Proof.
  unfold byteZ, byte_of_Z.
  pose proof (Z.mod_pos_bound z 256 ltac:(lia)) as Hb.
  destruct (Byte.of_N (Z.to_N (z mod 256))) as [b|] eqn:E; simpl.
  - apply Byte.to_of_N in E. rewrite E. lia.
  - apply Byte.of_N_None_iff in E. lia.
Qed.

(** [a <= z <= b] *)
Definition in_range (a z b : Z) : bool := (a <=? z) && (z <=? b).

(** Tests of all elements of a list. *)
Lemma forallb_perm {A} (f : A -> bool) (l l' : list A) : l ≡ₚ l' -> forallb f l = forallb f l'.
Proof.
  induction 1 as [|x l l' _ IH|x y l|l1 l2 l3 _ IH1 _ IH2]; cbn; [done|by rewrite IH| |congruence].
  by destruct (f x), (f y).
Qed.

Lemma forallb_fmap {A B} (f : B -> bool) (g : A -> B) (l : list A) : forallb f (g <$> l) = forallb (fun x => f (g x)) l.
Proof. induction l as [|x l IH]; [done|]. cbn. by rewrite IH. Qed.

Lemma elem_of_filter_bool {A} (f : A -> bool) (l : list A) (x : A) : x ∈ List.filter f l <-> x ∈ l /\ f x = true.
Proof. rewrite !list_elem_of_In. apply filter_In. Qed.

(** Length as an integer, [data[i:j]] and [data[i:]] for non-negative bounds:
    Python clamps both ends to the length. *)
Definition zlen {A} (l : list A) : Z := Z.of_nat (length l).

Definition zdrop {A} (i : Z) (l : list A) : list A :=
  drop (Z.to_nat (Z.min i (zlen l))) l.

Definition ztake {A} (n : Z) (l : list A) : list A :=
  take (Z.to_nat (Z.min n (zlen l))) l.

Definition zslice {A} (i j : Z) (l : list A) : list A :=
  ztake (j - i) (zdrop i l).

Lemma zlen_nonneg {A} (l : list A) : 0 <= zlen l.
Proof. unfold zlen. lia. Qed.

Lemma zlen_nil {A} : zlen (@nil A) = 0.
Proof. done. Qed.

Lemma zlen_cons {A} (x : A) (l : list A) : zlen (x :: l) = 1 + zlen l.
Proof. unfold zlen. simpl. lia. Qed.

Lemma zlen_app {A} (l k : list A) : zlen (l ++ k) = zlen l + zlen k.
Proof. unfold zlen. rewrite length_app. lia. Qed.

Lemma zlen_replicate {A} (n : nat) (x : A) : zlen (replicate n x) = Z.of_nat n.
Proof. unfold zlen. by rewrite length_replicate. Qed.

Lemma zlen_fmap {A B} (f : A -> B) (l : list A) : zlen (f <$> l) = zlen l.
Proof. unfold zlen. by rewrite length_fmap. Qed.

Lemma zlen_zdrop {A} (i : Z) (l : list A) :
  0 <= i -> zlen (zdrop i l) = Z.max 0 (zlen l - i).
Proof. intros. unfold zdrop, zlen. rewrite length_drop. lia. Qed.

Lemma zlen_ztake {A} (n : Z) (l : list A) :
  zlen (ztake n l) = Z.max 0 (Z.min n (zlen l)).
Proof. unfold ztake, zlen. rewrite length_take. lia. Qed.

Lemma zlen_zslice {A} (i j : Z) (l : list A) :
  0 <= i -> zlen (zslice i j l) = Z.max 0 (Z.min (j - i) (zlen l - i)).
Proof. intros. unfold zslice. rewrite zlen_ztake, zlen_zdrop by done. lia. Qed.

Lemma zdrop_app {A} (i : Z) (l k : list A) :
  i = zlen l -> zdrop i (l ++ k) = k.
Proof.
  intros ->. unfold zdrop. rewrite zlen_app.
  pose proof (zlen_nonneg k). rewrite Z.min_l by lia.
  unfold zlen. rewrite Nat2Z.id. apply drop_app_length.
Qed.

Lemma ztake_app {A} (n : Z) (l k : list A) :
  n = zlen l -> ztake n (l ++ k) = l.
Proof.
  intros ->. unfold ztake. rewrite zlen_app.
  pose proof (zlen_nonneg k). rewrite Z.min_l by lia.
  unfold zlen. rewrite Nat2Z.id. apply take_app_length.
Qed.

(** The workhorse of the round trips: a slice that falls exactly on the middle
    of a concatenation. *)
Lemma zslice_mid {A} (i j : Z) (l m r : list A) :
  i = zlen l -> j = zlen l + zlen m -> zslice i j (l ++ m ++ r) = m.
Proof.
  intros -> ->. unfold zslice. rewrite zdrop_app by done. apply ztake_app. lia.
Qed.

(** The clamped forms compute on huge offsets; these equations are for proofs. *)
Lemma zdrop_eq {A} (i : Z) (l : list A) : zdrop i l = drop (Z.to_nat i) l.
Proof.
  unfold zdrop, zlen. destruct (decide (i <= Z.of_nat (length l))).
  - by rewrite Z.min_l.
  - rewrite Z.min_r by lia. rewrite !drop_ge by lia. done.
Qed.

Lemma ztake_eq {A} (n : Z) (l : list A) : ztake n l = take (Z.to_nat n) l.
Proof.
  unfold ztake, zlen. destruct (decide (n <= Z.of_nat (length l))).
  - by rewrite Z.min_l.
  - rewrite Z.min_r by lia. rewrite !take_ge by lia. done.
Qed.

Lemma zdrop_zdrop {A} (i k : Z) (l : list A) :
  0 <= i -> 0 <= k -> zdrop i (zdrop k l) = zdrop (i + k) l.
Proof. intros. rewrite !zdrop_eq, drop_drop. f_equal. lia. Qed.

Lemma zslice_zdrop {A} (i j k : Z) (l : list A) :
  0 <= i -> 0 <= k -> zslice i j (zdrop k l) = zslice (i + k) (j + k) l.
Proof.
  intros. unfold zslice. rewrite zdrop_zdrop by done. f_equal. lia.
Qed.

Lemma zslice_ztake {A} (i j n : Z) (l : list A) :
  0 <= i -> j <= n -> zslice i j (ztake n l) = zslice i j l.
Proof.
  intros. unfold zslice. rewrite !ztake_eq, !zdrop_eq.
  rewrite skipn_firstn_comm, take_take. f_equal. lia.
Qed.

Lemma zslice_app_l {A} (i j : Z) (l k : list A) :
  0 <= i -> j <= zlen l -> zslice i j (l ++ k) = zslice i j l.
Proof.
  intros Hi Hj. rewrite <- (zslice_ztake i j (zlen l) (l ++ k)) by done.
  by rewrite ztake_app.
Qed.

Lemma zslice_app_r {A} (i j : Z) (l k : list A) :
  zlen l <= i -> zslice i j (l ++ k) = zslice (i - zlen l) (j - zlen l) k.
Proof.
  intros Hi. pose proof (zlen_nonneg l).
  assert (k = zdrop (zlen l) (l ++ k)) as Hk by (symmetry; by apply zdrop_app).
  rewrite Hk at 2. rewrite zslice_zdrop by lia. f_equal; lia.
Qed.

Lemma zslice_full {A} (n : Z) (l : list A) : zlen l <= n -> zslice 0 n l = l.
Proof.
  unfold zslice, zlen. intros. rewrite ztake_eq, zdrop_eq. simpl.
  apply take_ge. lia.
Qed.

(** ** Little- and big-endian integers ([struct] and [int.from_bytes]) *)

Fixpoint le_val (l : bytes) : Z :=
  match l with
  | [] => 0
  | b :: t => byteZ b + 256 * le_val t
  end.

Fixpoint be_acc (acc : Z) (l : bytes) : Z :=
  match l with
  | [] => acc
  | b :: t => be_acc (256 * acc + byteZ b) t
  end.
Definition be_val (l : bytes) : Z := be_acc 0 l.

(** [int.to_bytes(n, "little")]. *)
Fixpoint le_enc (n : nat) (z : Z) : bytes :=
  match n with
  | O => []
  | S n => byte_of_Z z :: le_enc n (z / 256)
  end.

Lemma le_val_range (l : bytes) : 0 <= le_val l < 256 ^ zlen l.
Proof.
  induction l as [|b l IH]; cbn [le_val].
  - done.
  - rewrite zlen_cons, Z.pow_add_r by (pose proof (zlen_nonneg l); lia).
    pose proof (byteZ_range b). lia.
Qed.

Lemma length_le_enc (n : nat) (z : Z) : length (le_enc n z) = n.
Proof. revert z. induction n; intros; simpl; by f_equal. Qed.

Lemma zlen_le_enc (n : nat) (z : Z) : zlen (le_enc n z) = Z.of_nat n.
Proof. unfold zlen. by rewrite length_le_enc. Qed.

Lemma le_val_enc (n : nat) (z : Z) :
  0 <= z < 256 ^ Z.of_nat n -> le_val (le_enc n z) = z.
Proof.
  revert z. induction n as [|n IH]; intros z Hz; cbn [le_enc le_val].
  - lia.
  - rewrite Nat2Z.inj_succ, Z.pow_succ_r in Hz by lia.
    rewrite byteZ_of_Z, IH.
    + pose proof (Z.div_mod z 256). lia.
    + split; [apply Z.div_pos; lia | apply Z.div_lt_upper_bound; lia].
Qed.

Lemma be_acc_app (acc : Z) (l k : bytes) : be_acc acc (l ++ k) = be_acc (be_acc acc l) k.
Proof. revert acc. induction l; intros; cbn; auto. Qed.

Lemma be_acc_range (acc : Z) (l : bytes) :
  0 <= acc -> 0 <= be_acc acc l < (acc + 1) * 256 ^ zlen l.
Proof.
  revert acc. induction l as [|b l IH]; intros acc H; cbn [be_acc].
  - change (zlen (@nil byte)) with 0. lia.
  - rewrite zlen_cons, Z.pow_add_r by (pose proof (zlen_nonneg l); lia).
    pose proof (byteZ_range b) as Hb. specialize (IH (256 * acc + byteZ b)).
    pose proof (Z.pow_pos_nonneg 256 (zlen l) ltac:(lia) (zlen_nonneg l)). nia.
Qed.

Lemma be_val_range (l : bytes) : 0 <= be_val l < 256 ^ zlen l.
Proof. unfold be_val. pose proof (be_acc_range 0 l). lia. Qed.

(** [struct.unpack_from("<I", data, off)]: [None] is the [struct.error]. *)
Definition u32le (data : bytes) (off : Z) : option Z :=
  if decide (off + 4 <= zlen data)
  then Some (le_val (zslice off (off + 4) data))
  else None.

Definition u16le (data : bytes) (off : Z) : option Z :=
  if decide (off + 2 <= zlen data)
  then Some (le_val (zslice off (off + 2) data))
  else None.

Lemma u32le_range (data : bytes) (off v : Z) :
  0 <= off -> u32le data off = Some v -> 0 <= v < 2 ^ 32.
Proof.
  unfold u32le. intros Hoff Hu. case_decide; simplify_eq.
  pose proof (le_val_range (zslice off (off + 4) data)) as Hr.
  rewrite zlen_zslice in Hr by done.
  replace (Z.max 0 _) with 4 in Hr by lia. done.
Qed.

Lemma u32le_Some (data : bytes) (off : Z) :
  off + 4 <= zlen data -> is_Some (u32le data off).
Proof. unfold u32le. intros. rewrite decide_True by done. eauto. Qed.

Lemma forallb_elem {A} (f : A -> bool) (l : list A) : forallb f l = true <-> forall x, x ∈ l -> f x = true.
Proof. rewrite forallb_forall. by setoid_rewrite list_elem_of_In. Qed.

(** Reading back a field written at its place. *)
Lemma u32le_field (l r : bytes) (off v : Z) :
  off = zlen l -> 0 <= v < 2 ^ 32 -> u32le (l ++ le_enc 4 v ++ r) off = Some v.
Proof.
  intros -> Hv. unfold u32le. pose proof (zlen_nonneg r).
  rewrite decide_True by (rewrite !zlen_app, zlen_le_enc; lia).
  rewrite zslice_mid by (rewrite ?zlen_le_enc; lia). by rewrite le_val_enc.
Qed.
