(* ===== verification/PyText.v ===== *)
(** * Python text: the [str] and [bytes] operations the backend uses

    A [str] is modelled by its UTF-8 encoding, a [string] of bytes: equality,
    concatenation, prefix and substring tests and splitting on an ASCII
    character agree with the code-point operations. Lengths and slices are
    counted in code points ([py_len], [take_chars]). [lower], [strip] and the
    character classes act on the ASCII range and leave other code points
    unchanged. *)

From S2P Require Import Prelude.
From Stdlib Require Import Ascii String.
Import (notations) Ascii String.
#[local] Open Scope Z_scope.

(** ** Conversions *)

(** [s.encode()] of an ASCII or UTF-8 string, and the inverse. *)
Definition encode (s : string) : bytes := String.list_byte_of_string s.
Definition decode_bytes (b : bytes) : string := String.string_of_list_byte b.

Lemma decode_encode (s : string) : decode_bytes (encode s) = s.
Proof. apply String.string_of_list_byte_of_string. Qed.

Lemma encode_decode (b : bytes) : encode (decode_bytes b) = b.
Proof. apply String.list_byte_of_string_of_list_byte. Qed.

(** ** Concatenation and prefixes *)

Lemma append_cons (a : ascii) (s t : string) : String a s +:+ t = String a (s +:+ t).
Proof. done. Qed.

Lemma append_nil_r (s : string) : s +:+ "" = s.
Proof. induction s as [|a s IH]; [done|]. rewrite append_cons. by f_equal. Qed.

Lemma append_assoc (s t u : string) : (s +:+ t) +:+ u = s +:+ (t +:+ u).
Proof. induction s as [|a s IH]; [done|]. rewrite !append_cons. by f_equal. Qed.

Lemma append_nil_l (s : string) : "" +:+ s = s.
Proof. done. Qed.

Lemma append_eq_nil (s t : string) : s +:+ t = "" -> s = "" /\ t = "".
Proof. destruct s; [done|]. by rewrite append_cons. Qed.

Ltac str_eq := rewrite ?append_cons, ?append_nil_l in *; simplify_eq.

(** [s.startswith(p)]. *)
Fixpoint startswith (s p : string) {struct p} : bool :=
  match p, s with
  | "", _ => true
  | String b p', String a s' => if decide (a = b) then startswith s' p' else false
  | String _ _, "" => false
  end.

Lemma startswith_spec (s p : string) :
  startswith s p = true <-> exists t, s = p +:+ t.
Proof.
  revert s. induction p as [|b p IH]; intros s; cbn.
  - split; [intros _; by exists s | done].
  - destruct s as [|a s]; [split; [done | intros [t Ht]; by str_eq]|].
    case_decide as Hab; [subst a; rewrite IH|]; split.
    + intros [t ->]. by exists t.
    + intros [t Ht]. str_eq. by exists t.
    + done.
    + intros [t Ht]. by str_eq.
Qed.

Lemma startswith_app (p t : string) : startswith (p +:+ t) p = true.
Proof. apply startswith_spec. eauto. Qed.

Lemma startswith_refl (s : string) : startswith s s = true.
Proof. apply startswith_spec. exists "". by rewrite append_nil_r. Qed.

(** [s.endswith(p)]. *)
Fixpoint endswith (s p : string) {struct s} : bool :=
  bool_decide (s = p) || match s with "" => false | String _ s' => endswith s' p end.

Lemma endswith_spec (s p : string) :
  endswith s p = true <-> exists t, s = t +:+ p.
Proof.
  induction s as [|a s IH]; cbn [endswith]; rewrite orb_true_iff, bool_decide_eq_true.
  - split; [intros [<-|?]; [by exists ""|done] | intros [t Ht]].
    symmetry in Ht. apply append_eq_nil in Ht as [-> ->]. by left.
  - rewrite IH. split.
    + intros [<- | [t ->]]; [by exists "" | by exists (String a t)].
    + intros [[|b t] Ht]; str_eq; eauto.
Qed.

(** [needle in s]. *)
Fixpoint contains (needle s : string) : bool :=
  startswith s needle ||
  match s with
  | "" => false
  | String _ s' => contains needle s'
  end.

Lemma contains_spec (n s : string) :
  contains n s = true <-> exists l r, s = l +:+ n +:+ r.
Proof.
  induction s as [|a s IH]; cbn.
  - rewrite orb_false_r, startswith_spec. split.
    + intros [t Ht]. by exists "", t.
    + intros (l & r & H). symmetry in H. apply append_eq_nil in H as [-> H]. by exists r.
  - rewrite orb_true_iff, startswith_spec, IH. split.
    + intros [[t Ht] | (l & r & ->)]; [by exists "", t | by exists (String a l), r].
    + intros ([|b l] & r & H); [left; by exists r|].
      str_eq. right. by exists l, r.
Qed.

(** [needle in data] on bytes. *)
Fixpoint prefixb (p s : bytes) : bool :=
  match p, s with
  | [], _ => true
  | b :: p', a :: s' => bool_decide (a = b) && prefixb p' s'
  | _ :: _, [] => false
  end.

Fixpoint bcontains (needle s : bytes) : bool :=
  prefixb needle s || match s with [] => false | _ :: s' => bcontains needle s' end.

Lemma prefixb_spec (p s : bytes) : prefixb p s = true <-> exists t, s = p ++ t.
Proof.
  revert s. induction p as [|b p IH]; intros s; cbn.
  - split; [intros _; by exists s | done].
  - destruct s as [|a s]; [split; [done | by intros [t Ht]]|].
    rewrite andb_true_iff, bool_decide_eq_true, IH. split.
    + intros [-> [t ->]]. by exists t.
    + intros [t Ht]. simplify_list_eq. eauto.
Qed.

Lemma bcontains_spec (n s : bytes) :
  bcontains n s = true <-> exists l r, s = l ++ n ++ r.
Proof.
  induction s as [|a s IH]; cbn.
  - rewrite orb_false_r, prefixb_spec. split.
    + intros [t Ht]. by exists [], t.
    + intros (l & r & H). symmetry in H. apply app_eq_nil in H as [-> H]. by exists r.
  - rewrite orb_true_iff, prefixb_spec, IH. split.
    + intros [[t Ht] | (l & r & ->)]; [by exists [], t | by exists (a :: l), r].
    + intros ([|b l] & r & H); [left; by exists r|].
      simplify_list_eq. right. eauto.
Qed.

(** ** Characters *)

Definition is_upper (a : ascii) : bool :=
  let n := N_of_ascii a in (65 <=? n)%N && (n <=? 90)%N.
Definition is_lower (a : ascii) : bool :=
  let n := N_of_ascii a in (97 <=? n)%N && (n <=? 122)%N.
Definition is_digit (a : ascii) : bool :=
  let n := N_of_ascii a in (48 <=? n)%N && (n <=? 57)%N.

(** [str.isspace] on ASCII: tab to carriage return, the separators 0x1c to
    0x1f, and the space. *)
Definition is_space (a : ascii) : bool :=
  let n := N_of_ascii a in
  ((9 <=? n) && (n <=? 13))%N || ((28 <=? n) && (n <=? 32))%N.

Definition char_lower (a : ascii) : ascii :=
  if is_upper a then ascii_of_N (N_of_ascii a + 32) else a.
Definition char_upper (a : ascii) : ascii :=
  if is_lower a then ascii_of_N (N_of_ascii a - 32) else a.

Fixpoint smap (f : ascii -> ascii) (s : string) : string :=
  match s with "" => "" | String a s' => String (f a) (smap f s') end.

Definition lower : string -> string := smap char_lower.
Definition upper : string -> string := smap char_upper.

(** Bytes: [data.lower()]. *)
Definition byte_lower (b : byte) : byte :=
  byte_of_ascii (char_lower (ascii_of_byte b)).
Definition blower (b : bytes) : bytes := byte_lower <$> b.

Lemma char_lower_idem (a : ascii) : char_lower (char_lower a) = char_lower a.
Proof. by destruct a as [[] [] [] [] [] [] [] []]. Qed.

Lemma lower_idem (s : string) : lower (lower s) = lower s.
Proof.
  induction s as [|a s IH]; [done|]. cbn. rewrite char_lower_idem. by f_equal.
Qed.

(** ** Stripping *)

Fixpoint lstrip_if (f : ascii -> bool) (s : string) : string :=
  match s with
  | "" => ""
  | String a s' => if f a then lstrip_if f s' else s
  end.

Fixpoint rstrip_if (f : ascii -> bool) (s : string) : string :=
  match s with
  | "" => ""
  | String a s' =>
      match rstrip_if f s' with
      | "" => if f a then "" else String a ""
      | r => String a r
      end
  end.

(** [s.strip()], and [s.strip("/")], [s.lstrip("/")], [s.rstrip("/")]. *)
Definition strip (s : string) : string := rstrip_if is_space (lstrip_if is_space s).
Definition is_char (c a : ascii) : bool := bool_decide (a = c).
Definition strip_char (c : ascii) (s : string) : string :=
  rstrip_if (is_char c) (lstrip_if (is_char c) s).
Definition lstrip_char (c : ascii) : string -> string := lstrip_if (is_char c).
Definition rstrip_char (c : ascii) : string -> string := rstrip_if (is_char c).

Lemma rstrip_if_cons (f : ascii -> bool) (a : ascii) (s : string) :
  rstrip_if f (String a s) =
    if decide (rstrip_if f s = "") then (if f a then "" else String a "")
    else String a (rstrip_if f s).
Proof. cbn. destruct (rstrip_if f s); case_decide; done. Qed.

Lemma rstrip_if_app_r (f : ascii -> bool) (s t : string) :
  rstrip_if f t <> "" -> rstrip_if f (s +:+ t) = s +:+ rstrip_if f t.
Proof.
  intros Ht. induction s as [|a s IH]; [done|].
  rewrite !append_cons, rstrip_if_cons, IH. rewrite decide_False; [done|].
  intros [_ H]%append_eq_nil. done.
Qed.

Lemma rstrip_if_app_l (f : ascii -> bool) (s t : string) :
  rstrip_if f t = "" -> rstrip_if f (s +:+ t) = rstrip_if f s.
Proof.
  intros Ht. induction s as [|a s IH]; [done|].
  rewrite append_cons, !rstrip_if_cons, IH. done.
Qed.

Lemma rstrip_if_length (f : ascii -> bool) (s : string) :
  (String.length (rstrip_if f s) <= String.length s)%nat.
Proof.
  induction s as [|a s IH]; [done|]. rewrite rstrip_if_cons. cbn.
  case_decide; [destruct (f a); cbn; lia | cbn; lia].
Qed.

Lemma length_append (s t : string) :
  String.length (s +:+ t) = (String.length s + String.length t)%nat.
Proof. induction s as [|a s IH]; [done|]. rewrite append_cons. cbn. by rewrite IH. Qed.

(** ** Splitting and joining *)

(** [s.split(c)] for a one-character separator. *)
Fixpoint split_char (c : ascii) (s : string) : list string :=
  match s with
  | "" => [""]
  | String a s' =>
      if decide (a = c) then "" :: split_char c s'
      else match split_char c s' with
           | h :: t => String a h :: t
           | [] => [String a ""]
           end
  end.

(** [sep.join(l)]. *)
Fixpoint join (sep : string) (l : list string) : string :=
  match l with
  | [] => ""
  | [x] => x
  | x :: l' => x +:+ sep +:+ join sep l'
  end.

Fixpoint has_char (c : ascii) (s : string) : bool :=
  match s with "" => false | String a s' => bool_decide (a = c) || has_char c s' end.

Lemma split_char_nonempty (c : ascii) (s : string) : split_char c s <> [].
Proof.
  destruct s as [|a s]; cbn; [done|]. case_decide; [done|]. by destruct (split_char c s).
Qed.

Lemma split_char_no_sep (c : ascii) (s : string) :
  Forall (fun p => has_char c p = false) (split_char c s).
Proof.
  induction s as [|a s IH]; cbn; [by repeat constructor|].
  case_decide; subst; [by constructor|].
  destruct (split_char c s) as [|h t].
  - repeat constructor. cbn. rewrite orb_false_r. by apply bool_decide_eq_false_2.
  - apply Forall_cons in IH as [Hh Ht]. constructor; [|done]. cbn. rewrite Hh.
    by rewrite bool_decide_eq_false_2.
Qed.

(** [s.replace(a, b)] for one-character [a]. *)
Fixpoint replace_char (a : ascii) (r s : string) : string :=
  match s with
  | "" => ""
  | String x s' =>
      if decide (x = a) then r +:+ replace_char a r s'
      else String x (replace_char a r s')
  end.

(** ** Code points *)

(** A UTF-8 continuation byte is [10xxxxxx]. *)
Definition is_cont (a : ascii) : bool :=
  let n := N_of_ascii a in (128 <=? n)%N && (n <? 192)%N.

Fixpoint py_len (s : string) : Z :=
  match s with
  | "" => 0
  | String a s' => (if is_cont a then 0 else 1) + py_len s'
  end.

(** [s[:n]]: the first [n] code points. *)
Fixpoint take_chars (n : nat) (s : string) : string :=
  match s with
  | "" => ""
  | String a s' =>
      if is_cont a then String a (take_chars n s')
      else match n with O => "" | S n' => String a (take_chars n' s') end
  end.

Lemma py_len_nonneg (s : string) : 0 <= py_len s.
Proof. induction s as [|a s IH]; cbn; [done|]. destruct (is_cont a); lia. Qed.

Lemma py_len_take_chars (n : nat) (s : string) : py_len (take_chars n s) <= Z.of_nat n.
Proof.
  revert n. induction s as [|a s IH]; intros n; cbn; [lia|].
  destruct (is_cont a) eqn:E; cbn; [rewrite E; specialize (IH n); lia|].
  destruct n as [|n]; cbn; [done|]. rewrite E. specialize (IH n). lia.
Qed.

Lemma py_len_app (s t : string) : py_len (s +:+ t) = py_len s + py_len t.
Proof. induction s as [|a s IH]; [done|]. rewrite append_cons. cbn. rewrite IH. lia. Qed.

Fixpoint skip_chars (n : nat) (s : string) : string :=
  match s with
  | "" => ""
  | String a s' =>
      match n with
      | O => if is_cont a then skip_chars 0 s' else s
      | S n' => if is_cont a then skip_chars n s' else skip_chars n' s'
      end
  end.

(** [text[-n:]]. *)
Definition last_chars (n : Z) (s : string) : string := skip_chars (Z.to_nat (py_len s - n)) s.

Lemma py_len_skip_chars (n : nat) (s : string) : py_len (skip_chars n s) <= Z.max 0 (py_len s - Z.of_nat n).
Proof.
  revert n. induction s as [|a s IH]; intros n; cbn; [lia|].
  pose proof (py_len_nonneg s). destruct n as [|n]; destruct (is_cont a) eqn:E; cbn; rewrite ?E.
  - specialize (IH 0%nat). lia.
  - lia.
  - specialize (IH (S n)). lia.
  - specialize (IH n). lia.
Qed.

Lemma last_chars_bound (n : Z) (s : string) : 0 <= n -> py_len (last_chars n s) <= n.
Proof.
  intros Hn. unfold last_chars. pose proof (py_len_skip_chars (Z.to_nat (py_len s - n)) s).
  pose proof (py_len_nonneg s). lia.
Qed.

(** ** Numbers as text *)

(** [str(n)]. *)
Definition str_int (z : Z) : string := pretty z.

(** [str(b)] for a bool. *)
Definition str_bool (b : bool) : string := if b then "True" else "False".

Definition hex_digit (z : Z) : string :=
  match z with
  | 0 => "0" | 1 => "1" | 2 => "2" | 3 => "3" | 4 => "4" | 5 => "5" | 6 => "6"
  | 7 => "7" | 8 => "8" | 9 => "9" | 10 => "a" | 11 => "b" | 12 => "c"
  | 13 => "d" | 14 => "e" | _ => "f"
  end.

(** [f"{z:0nx}"]: lower-case hexadecimal, at least [n] digits; [fuel] bounds the
    number of digits printed and 64 is enough for every integer below 2^256. *)
Fixpoint hex_aux (fuel n : nat) (z : Z) : string :=
  match fuel with
  | O => ""
  | S fuel' =>
      if decide (z = 0) then String.concat "" (replicate n "0")
      else hex_aux fuel' (Nat.pred n) (z / 16) +:+ hex_digit (z mod 16)
  end.
Definition hex_pad (n : nat) (z : Z) : string :=
  match hex_aux 64 n z with "" => "0" | s => s end.

(** [data.hex()]. *)
Definition hex_bytes (b : bytes) : string :=
  String.concat "" ((fun x => hex_pad 2 (byteZ x)) <$> b).

Example hex_pad_ex : hex_pad 8 0x844BDCD1 = "844bdcd1" /\ hex_pad 0 0 = "0"
  /\ hex_pad 2 10 = "0a".
Proof. by vm_compute. Qed.

(** ** Truthiness of an optional string: [None] and the empty string are false *)
Definition truthy (s : option string) : bool :=
  match s with None | Some "" => false | Some _ => true end.

(** [a or b] on optional strings. *)
Definition str_or (a b : option string) : option string := if truthy a then a else b.

(** [a or b] where the last alternative is a plain string. *)
Definition or_str (a : option string) (b : string) : string :=
  match a with None | Some "" => b | Some s => s end.
