(* ===== verification/PosixPath.v ===== *)
(** * [posixpath]: the [os.path] string functions the backend calls

    [join], [dirname], [basename] and [normpath] are string functions of the
    Python library; they are translated from their documented behaviour and do
    not read the file system. *)

From S2P Require Import Prelude PyText.
From Stdlib Require Import Ascii String.
Import (notations) Ascii String.
#[local] Open Scope Z_scope.

Definition slash : ascii := "/".

Definition isabs (p : string) : bool := startswith p "/".

(** [os.path.join(a, b)]. *)
Definition path_join (a b : string) : string :=
  if isabs b then b
  else if bool_decide (a = "") || endswith a "/" then a +:+ b
  else a +:+ "/" +:+ b.

(** The last slash of [p] splits it: the part up to and including the slash,
    and the rest. *)
Fixpoint rsplit_slash (p : string) : string * string :=
  match p with
  | "" => ("", "")
  | String a p' =>
      let '(h, t) := rsplit_slash p' in
      match h with
      | "" => if decide (a = slash) then ("/", t) else ("", String a t)
      | _ => (String a h, t)
      end
  end.

Definition all_slashes (p : string) : bool :=
  bool_decide (lstrip_char slash p = "").

(** [os.path.dirname]: the head, without trailing slashes unless it is all slashes. *)
Definition dirname (p : string) : string :=
  let head := (rsplit_slash p).1 in
  if bool_decide (head <> "") && negb (all_slashes head)
  then rstrip_char slash head else head.

Definition basename (p : string) : string := (rsplit_slash p).2.

(** [os.path.normpath]: the components are scanned with a stack (kept reversed). *)
Fixpoint norm_comps (absolute : bool) (stack comps : list string) : list string :=
  match comps with
  | [] => rev stack
  | c :: comps' =>
      if bool_decide (c = "") || bool_decide (c = ".") then norm_comps absolute stack comps'
      else if bool_decide (c <> "..")
              || (negb absolute && bool_decide (stack = []))
              || bool_decide (head stack = Some "..")
      then norm_comps absolute (c :: stack) comps'
      else norm_comps absolute (tail stack) comps'
  end.

(** POSIX keeps exactly two leading slashes. *)
Definition initial_slashes (p : string) : string :=
  if startswith p "//" && negb (startswith p "///") then "//"
  else if startswith p "/" then "/" else "".

Definition normpath (p : string) : string :=
  if bool_decide (p = "") then "."
  else
    let r := initial_slashes p +:+
             join "/" (norm_comps (isabs p) [] (split_char slash p)) in
    if bool_decide (r = "") then "." else r.

Example normpath_ex1 : normpath "/a/./b//../c" = "/a/c".
Proof. by vm_compute. Qed.
Example normpath_ex2 : normpath "/r/../../etc" = "/etc" /\ normpath "../x" = "../x".
Proof. by vm_compute. Qed.
Example dirname_ex :
  dirname "/r/a/b" = "/r/a" /\ dirname "/r" = "/" /\ dirname "x" = "" /\ dirname "/r//a" = "/r".
Proof. by vm_compute. Qed.
Example path_join_ex :
  path_join "/r" "a" = "/r/a" /\ path_join "/r/" "a" = "/r/a" /\ path_join "/r" "/a" = "/a".
Proof. by vm_compute. Qed.

(** ** Containment: [root] itself, or a path below it *)

Definition under (root p : string) : Prop := p = root \/ exists t, p = root +:+ "/" +:+ t.

(** The code's own test for containment. *)
Definition under_check (root p : string) : bool :=
  bool_decide (p = root) || startswith p (root +:+ "/").

Lemma under_check_spec (root p : string) : under_check root p = true <-> under root p.
Proof.
  unfold under_check, under. rewrite orb_true_iff, bool_decide_eq_true, startswith_spec.
  split; intros [?|[t Ht]]; eauto; right; exists t; by rewrite append_assoc in *.
Qed.

#[export] Instance under_dec (root p : string) : Decision (under root p).
Proof.
  refine (cast_if (decide (under_check root p = true)));
    by rewrite <- under_check_spec.
Defined.

Lemma under_refl (root : string) : under root root.
Proof. by left. Qed.

(** A root that does not end in a slash, as [os.path.realpath] returns it for
    any directory but ["/"]. *)
Definition good_root (root : string) : Prop := rstrip_char slash root = root /\ root <> "".

#[export] Instance good_root_dec root : Decision (good_root root).
Proof. unfold good_root. apply _. Defined.

Lemma rsplit_slash_app (p q : string) :
  (rsplit_slash q).1 <> "" ->
  rsplit_slash (p +:+ q) = (p +:+ (rsplit_slash q).1, (rsplit_slash q).2).
Proof.
  intros Hq. induction p as [|a p IH].
  - rewrite !append_nil_l. by destruct (rsplit_slash q).
  - rewrite append_cons. cbn [rsplit_slash]. rewrite IH.
    rewrite append_cons. destruct (p +:+ (rsplit_slash q).1) eqn:E; [|done].
    apply append_eq_nil in E as [_ E]. done.
Qed.

Lemma rsplit_slash_cons (t : string) :
  exists u, (rsplit_slash (String slash t)).1 = String slash u.
Proof.
  cbn. destruct (rsplit_slash t) as [[|a h] q]; cbn; eauto.
Qed.

Lemma rstrip_slash_cons (u : string) :
  rstrip_char slash (String slash u) = "" \/
  exists v, rstrip_char slash (String slash u) = String slash v.
Proof.
  unfold rstrip_char. rewrite rstrip_if_cons. case_decide; [left; done | right; eauto].
Qed.

Lemma good_root_not_slashes (root t : string) :
  good_root root -> all_slashes (root +:+ t) = false.
Proof.
  intros [Hr Hn]. unfold all_slashes. apply bool_decide_eq_false_2. intros Hs.
  assert (forall s, lstrip_char slash (s +:+ t) = "" -> rstrip_char slash s = "") as Hall.
  { induction s as [|a s IH]; [done|]. rewrite append_cons.
    unfold lstrip_char, rstrip_char in *. rewrite rstrip_if_cons. cbn [lstrip_if].
    unfold is_char. case_bool_decide; [|done]. intros H0.
    rewrite decide_True by auto. done. }
  apply Hn. rewrite <- Hr. by apply Hall.
Qed.

(** [dirname] of a path strictly below a good root stays at or below it. *)
Lemma under_dirname (root t : string) :
  good_root root -> under root (dirname (root +:+ "/" +:+ t)).
Proof.
  intros Hg. unfold dirname.
  destruct (rsplit_slash_cons t) as [u Hu].
  change ("/" +:+ t) with (String slash t).
  rewrite rsplit_slash_app by (rewrite Hu; done). rewrite Hu. cbn [fst].
  rewrite good_root_not_slashes by done.
  rewrite bool_decide_true by (intros [_ H]%append_eq_nil; done). cbn.
  unfold rstrip_char. destruct (rstrip_slash_cons u) as [E|[v E]]; unfold rstrip_char in E.
  - rewrite rstrip_if_app_l by done. left. apply Hg.
  - rewrite rstrip_if_app_r by (rewrite E; done). rewrite E. right. by exists v.
Qed.

Lemma good_root_no_slash (root : string) : good_root root -> endswith root "/" = false.
Proof.
  intros [Hr _]. destruct (endswith root "/") eqn:E; [|done].
  apply endswith_spec in E as [t ->]. exfalso.
  assert (String.length (rstrip_char slash (t +:+ "/")) <= String.length t)%nat as Hl.
  { unfold rstrip_char. rewrite rstrip_if_app_l by done. apply rstrip_if_length. }
  rewrite Hr, length_append in Hl. cbn in Hl. lia.
Qed.

Lemma under_nonempty (root p : string) : good_root root -> under root p -> p <> "".
Proof.
  intros [_ Hg] [-> | [t ->]]; [done|]. intros [-> _]%append_eq_nil. done.
Qed.

(** Joining a relative component keeps a path below the root. *)
Lemma path_join_under (root p part : string) :
  good_root root -> under root p -> isabs part = false -> under root (path_join p part).
Proof.
  intros Hg Hp Hpart. unfold path_join. rewrite Hpart.
  pose proof (under_nonempty _ _ Hg Hp) as Hne.
  rewrite (bool_decide_eq_false_2 _ Hne), orb_false_l.
  destruct Hp as [-> | [t ->]].
  - rewrite good_root_no_slash by done. right. by exists part.
  - right. destruct (endswith _ _).
    + exists (t +:+ part). by rewrite !append_assoc.
    + exists (t +:+ "/" +:+ part). by rewrite !append_assoc.
Qed.

Lemma has_char_isabs (s : string) : has_char slash s = false -> isabs s = false.
Proof.
  destruct s as [|a s]; [done|]. cbn. rewrite orb_false_iff, bool_decide_eq_false.
  intros [Ha _]. by rewrite decide_False.
Qed.

(** [target.lstrip("/")] is relative. *)
Lemma isabs_lstrip (s : string) : isabs (lstrip_char slash s) = false.
Proof.
  unfold lstrip_char, is_char. induction s as [|a s IH]; [done|]. cbn.
  case_bool_decide; [done|]. cbn. by rewrite decide_False.
Qed.

(** The split loses nothing, and its head is empty or ends in a slash. *)
Lemma rsplit_slash_spec (s : string) :
  s = (rsplit_slash s).1 +:+ (rsplit_slash s).2 /\
  ((rsplit_slash s).1 = "" \/ endswith (rsplit_slash s).1 "/" = true) /\
  has_char slash (rsplit_slash s).2 = false.
Proof.
  induction s as [|a s IH]; [by repeat constructor|].
  cbn [rsplit_slash]. destruct (rsplit_slash s) as [h t]. cbn [fst snd] in IH.
  destruct IH as (-> & Hh & Ht). destruct h as [|b h]; cbn [fst snd].
  - rewrite append_nil_l. case_decide as Ha; cbn [fst snd].
    + subst a. split_and!; [done | by right | done].
    + rewrite append_nil_l. split_and!; [done | by left|].
      cbn. rewrite Ht, orb_false_r. by apply bool_decide_eq_false_2.
  - split_and!; [done | right | done]. destruct Hh as [|Hh]; [done|].
    cbn. rewrite orb_true_iff. right. apply Hh.
Qed.

Lemma dirname_shorter (s : string) :
  good_root s -> (String.length (dirname s) < String.length s)%nat.
Proof.
  intros Hg. destruct (rsplit_slash_spec s) as (Hs & Hh & Ht).
  assert ((rsplit_slash s).2 <> "") as Ht'.
  { intros E. rewrite E, append_nil_r in Hs. destruct Hg as [Hg Hne].
    destruct Hh as [Hh|Hh]; [congruence|]. rewrite <- Hs in Hh.
    pose proof (good_root_no_slash s (conj Hg Hne)). congruence. }
  apply (f_equal String.length) in Hs. rewrite length_append in Hs.
  assert (0 < String.length (rsplit_slash s).2)%nat.
  { destruct (rsplit_slash s).2; [done | cbn; lia]. }
  assert (String.length (dirname s) <= String.length (rsplit_slash s).1)%nat; [|lia].
  unfold dirname. case_match; [apply rstrip_if_length | done].
Qed.

(** ** Paths without [..] components *)

Definition dotfree (p : string) : Prop := ".." ∉ split_char slash p.

#[export] Instance dotfree_dec p : Decision (dotfree p).
Proof. unfold dotfree. apply _. Defined.

Lemma split_char_app (p q : string) :
  split_char slash (p +:+ "/" +:+ q) = split_char slash p ++ split_char slash q.
Proof.
  induction p as [|a p IH].
  - rewrite append_nil_l. done.
  - rewrite append_cons. cbn [split_char]. rewrite IH. case_decide; [done|].
    pose proof (split_char_nonempty slash p). by destruct (split_char slash p).
Qed.

Lemma dotfree_app (p q : string) : dotfree (p +:+ "/" +:+ q) <-> dotfree p /\ dotfree q.
Proof. unfold dotfree. rewrite split_char_app, elem_of_app. naive_solver. Qed.

Lemma dotfree_nil : dotfree "".
Proof. unfold dotfree. cbn. set_solver. Qed.

Lemma dotfree_component (c : string) :
  has_char slash c = false -> c <> ".." -> dotfree c.
Proof.
  intros Hc Hne. unfold dotfree. assert (split_char slash c = [c]) as ->; [|set_solver].
  clear Hne. induction c as [|a c IH]; [done|]. cbn in Hc |- *.
  apply orb_false_iff in Hc as [Ha Hc]. apply bool_decide_eq_false in Ha.
  rewrite decide_False by done. by rewrite IH.
Qed.

Lemma endswith_slash (p : string) : endswith p "/" = true -> exists q, p = q +:+ "/" +:+ "".
Proof. intros [t ->]%endswith_spec. by exists t. Qed.

Lemma path_join_dotfree (p c : string) : dotfree p -> dotfree c -> dotfree (path_join p c).
Proof.
  intros Hp Hc. unfold path_join. destruct (isabs c); [done|].
  destruct (bool_decide (p = "")) eqn:E; cbn.
  - apply bool_decide_eq_true in E as ->. by rewrite append_nil_l.
  - destruct (endswith p "/") eqn:Ee; [|by apply dotfree_app].
    apply endswith_slash in Ee as [q ->]. apply dotfree_app in Hp as [Hq _].
    rewrite !append_assoc, append_nil_l. by apply dotfree_app.
Qed.

Lemma rstrip_slash_split (s : string) :
  s = rstrip_char slash s \/ exists w, s = rstrip_char slash s +:+ "/" +:+ w.
Proof.
  unfold rstrip_char. induction s as [|a s IH]; [by left|].
  rewrite rstrip_if_cons. destruct (decide (rstrip_if _ s = "")) as [E|E].
  - destruct (is_char slash a) eqn:Ha.
    + apply bool_decide_eq_true in Ha as ->. right. exists s. done.
    + destruct IH as [IH | [w IH]]; rewrite E in IH.
      * left. by rewrite IH.
      * right. exists w. by rewrite IH.
  - destruct IH as [IH | [w IH]].
    + left. by rewrite <- IH.
    + right. exists w. rewrite append_cons. by rewrite <- IH.
Qed.

Lemma rstrip_dotfree (s : string) : dotfree s -> dotfree (rstrip_char slash s).
Proof.
  destruct (rstrip_slash_split s) as [<- | [w E]]; [done|].
  rewrite E at 1. by intros [? _]%dotfree_app.
Qed.

Lemma lstrip_dotfree (s : string) : dotfree s -> dotfree (lstrip_char slash s).
Proof.
  unfold lstrip_char, is_char. induction s as [|a s IH]; [done|]. cbn.
  case_bool_decide as Ha; [subst a|done]. intros Hs. apply IH.
  change (String slash s) with ("" +:+ "/" +:+ s) in Hs. by apply dotfree_app in Hs as [_ ?].
Qed.

Lemma dirname_dotfree (s : string) : dotfree s -> dotfree (dirname s).
Proof.
  intros Hs. destruct (rsplit_slash_spec s) as (E & Hh & _).
  assert (dotfree (rsplit_slash s).1) as Hd.
  { destruct Hh as [-> | [q Hq]%endswith_slash]; [apply dotfree_nil|].
    rewrite Hq in E |- *. rewrite E, !append_assoc, append_nil_l in Hs.
    apply dotfree_app in Hs as [? _]. apply dotfree_app. split; [done | apply dotfree_nil]. }
  unfold dirname. case_match; [by apply rstrip_dotfree | done].
Qed.

Lemma isabs_spec (p : string) : isabs p = true <-> exists t, p = String slash t.
Proof. unfold isabs. apply startswith_spec. Qed.

Lemma isabs_dirname (p : string) : isabs p = true -> isabs (dirname p) = true.
Proof.
  intros [t ->]%isabs_spec. unfold dirname.
  destruct (rsplit_slash_cons t) as [u ->].
  case_match eqn:E; [|by apply isabs_spec; eauto].
  apply andb_true_iff in E as [_ E]. unfold all_slashes in E.
  apply negb_true_iff, bool_decide_eq_false in E.
  destruct (rstrip_slash_cons u) as [Hr | [v ->]]; [|by apply isabs_spec; eauto].
  exfalso. apply E. clear E. revert Hr. generalize (String slash u). clear.
  unfold rstrip_char, lstrip_char. intros s. induction s as [|a s IH]; [done|].
  rewrite rstrip_if_cons. cbn [lstrip_if]. case_decide; [|done].
  destruct (is_char slash a); [auto | done].
Qed.

Lemma isabs_join (p c : string) : isabs p = true -> isabs (path_join p c) = true.
Proof.
  intros Hp. unfold path_join. destruct (isabs c) eqn:Hc; [done|].
  apply isabs_spec in Hp as [t ->]. case_match; by apply isabs_spec; eexists.
Qed.

(** [normpath] of an absolute path has no [..] left. *)
Lemma norm_comps_no_dotdot (stack comps : list string) :
  ".." ∉ stack -> ".." ∉ norm_comps true stack comps.
Proof.
  revert stack. induction comps as [|c comps IH]; intros stack Hs; cbn.
  - by rewrite list_elem_of_In, <- in_rev, <- list_elem_of_In.
  - destruct (_ || _); [by apply IH|]. case_match eqn:E; apply IH.
    + rewrite orb_false_r, orb_true_iff, !bool_decide_eq_true in E.
      destruct E as [E|E]; [set_solver|].
      destruct stack; [done|]. cbn in E. set_solver.
    + destruct stack; set_solver.
Qed.

Lemma norm_comps_slash_free (b : bool) (stack comps : list string) :
  Forall (fun c => has_char slash c = false) stack ->
  Forall (fun c => has_char slash c = false) comps ->
  Forall (fun c => has_char slash c = false) (norm_comps b stack comps).
Proof.
  intros Hs Hc. revert stack Hs. induction Hc as [|c comps Hc _ IH]; intros stack Hs; cbn.
  - by apply Forall_rev.
  - destruct (_ || _); [by apply IH|]. case_match; apply IH; [by constructor|].
    destruct Hs; [done | done].
Qed.

Lemma split_join (l : list string) :
  Forall (fun c => has_char slash c = false) l ->
  forall x, x ∈ split_char slash (PyText.join "/" l) -> x = "" \/ x ∈ l.
Proof.
  intros H x. induction H as [|c l Hc Hl IH]; [cbn; set_solver|].
  assert (split_char slash c = [c]) as E.
  { clear -Hc. induction c as [|a c IH]; [done|]. cbn in Hc |- *.
    apply orb_false_iff in Hc as [Ha Hc]. apply bool_decide_eq_false in Ha.
    rewrite decide_False by done. by rewrite IH. }
  destruct l as [|d l]; [cbn; rewrite E; set_solver|].
  change (PyText.join "/" (c :: d :: l)) with (c +:+ "/" +:+ PyText.join "/" (d :: l)).
  rewrite split_char_app, E, elem_of_app. set_solver.
Qed.

Lemma normpath_dotfree (p : string) : isabs p = true -> dotfree (normpath p).
Proof.
  intros Hp. unfold normpath. rewrite Hp. case_bool_decide as Hn; [by subst p|].
  assert (dotfree (initial_slashes p +:+
            PyText.join "/" (norm_comps true [] (split_char slash p)))) as Hd.
  { assert (dotfree (PyText.join "/" (norm_comps true [] (split_char slash p)))) as Hj.
    { unfold dotfree. intros [?|Hin]%split_join; [done | |].
      - by apply (norm_comps_no_dotdot [] (split_char slash p) (not_elem_of_nil _)).
      - apply norm_comps_slash_free; [done | apply split_char_no_sep]. }
    unfold initial_slashes. case_match; [|case_match]; [| |done].
    - change ("//" +:+ ?q) with ("" +:+ "/" +:+ "" +:+ "/" +:+ q).
      rewrite !dotfree_app. auto using dotfree_nil.
    - change ("/" +:+ ?q) with ("" +:+ "/" +:+ q). rewrite dotfree_app. auto using dotfree_nil. }
  case_bool_decide; [|done]. unfold dotfree. by vm_compute; intros ?%list_elem_of_singleton.
Qed.

Lemma isabs_normpath (p : string) : isabs p = true -> isabs (normpath p) = true.
Proof.
  intros Hp. unfold normpath. case_bool_decide as Hn; [by subst p|].
  assert (exists t, initial_slashes p = String slash t) as [t ->].
  { unfold initial_slashes. case_match; [by eexists|]. unfold isabs in Hp. rewrite Hp. by eexists. }
  rewrite append_cons. case_bool_decide; [done|]. by apply isabs_spec; eexists.
Qed.
