(* ===== verification/Regex.v ===== *)
(** * Regular expressions

    The fragment of Python's [re] that the walkers use on one line of text: classes,
    sequences, alternatives, repetition, and the assertions [^], [$] and [\b] without the
    flag MULTILINE.  [matches] says what an expression matches; [accepts] decides it with a
    continuation, as a backtracking matcher does.  Only whether something matches is
    observed, so greediness plays no part.  Classes are those of ASCII. *)

From S2P Require Import Prelude PyText.
From Stdlib Require Import Ascii String.
Import (notations) Ascii String.
#[local] Open Scope nat_scope.

Inductive regex :=
  | Eps
  | Chr (f : ascii -> bool)
  | Seq (a b : regex)
  | Alt (a b : regex)
  | Star (a : regex)
  | Bol
  | Eol
  | WordB.

(** ** What an expression matches *)

Definition alnum (a : ascii) : bool := is_lower a || is_upper a || is_digit a.
Definition word_char (a : ascii) : bool := alnum a || is_char "_"%char a.

Definition line_feed : ascii := ascii_of_N 10.

(** [$] holds at the end and before a last line feed. *)
Definition at_end (s : string) : bool := bool_decide (s = "") || bool_decide (s = String line_feed "").

Definition word_at (c : option ascii) : bool := match c with Some a => word_char a | None => false end.
Definition first_char (s : string) : option ascii := match s with String a _ => Some a | "" => None end.
Definition at_boundary (p : option ascii) (s : string) : bool := xorb (word_at p) (word_at (first_char s)).

(** [matches r p s p' s']: with the character [p] before and the text [s] ahead, [r]
    matches up to a place with [p'] before and [s'] ahead. *)
Inductive matches : regex -> option ascii -> string -> option ascii -> string -> Prop :=
  | m_eps p s : matches Eps p s p s
  | m_chr f p a s : f a = true -> matches (Chr f) p (String a s) (Some a) s
  | m_seq a b p s p1 s1 p2 s2 : matches a p s p1 s1 -> matches b p1 s1 p2 s2 -> matches (Seq a b) p s p2 s2
  | m_left a b p s p1 s1 : matches a p s p1 s1 -> matches (Alt a b) p s p1 s1
  | m_right a b p s p1 s1 : matches b p s p1 s1 -> matches (Alt a b) p s p1 s1
  | m_none a p s : matches (Star a) p s p s
  | m_more a p s p1 s1 p2 s2 : matches a p s p1 s1 -> matches (Star a) p1 s1 p2 s2 -> matches (Star a) p s p2 s2
  | m_bol s : matches Bol None s None s
  | m_eol p s : at_end s = true -> matches Eol p s p s
  | m_word p s : at_boundary p s = true -> matches WordB p s p s.

#[export] Hint Constructors matches : core.

(** ** The matcher *)

Notation cont := (option ascii -> string -> bool).

(** As many rounds as there are characters ahead: a round that consumes nothing is not
    taken.  Conditionals, unlike the connectives on [bool], leave the branch that is not
    taken unevaluated. *)
Fixpoint accepts (r : regex) (k : cont) (p : option ascii) (s : string) {struct r} : bool :=
  match r with
  | Eps => k p s
  | Chr f => match s with String a s' => if f a then k (Some a) s' else false | "" => false end
  | Seq a b => accepts a (accepts b k) p s
  | Alt a b => if accepts a k p s then true else accepts b k p s
  | Star a =>
      (fix loop (n : nat) (p : option ascii) (s : string) : bool :=
         if k p s then true
         else
           match n with
           | O => false
           | S n => accepts a (fun p1 s1 => if String.length s1 <? String.length s then loop n p1 s1 else false) p s
           end) (String.length s) p s
  | Bol => match p with None => k p s | Some _ => false end
  | Eol => if at_end s then k p s else false
  | WordB => if at_boundary p s then k p s else false
  end.

Definition rounds (a : regex) (k : cont) : nat -> cont :=
  fix loop (n : nat) (p : option ascii) (s : string) : bool :=
    if k p s then true
    else
      match n with
      | O => false
      | S n => accepts a (fun p1 s1 => if String.length s1 <? String.length s then loop n p1 s1 else false) p s
      end.

Lemma accepts_star (a : regex) (k : cont) (p : option ascii) (s : string) :
  accepts (Star a) k p s = rounds a k (String.length s) p s.
Proof. done. Qed.

(** The equations with the connectives. *)
Lemma accepts_chr (f : ascii -> bool) (k : cont) (p : option ascii) (a : ascii) (s : string) :
  accepts (Chr f) k p (String a s) = f a && k (Some a) s.
Proof. done. Qed.

Lemma accepts_alt (a b : regex) (k : cont) (p : option ascii) (s : string) :
  accepts (Alt a b) k p s = accepts a k p s || accepts b k p s.
Proof. done. Qed.

Lemma accepts_eol (k : cont) (p : option ascii) (s : string) : accepts Eol k p s = at_end s && k p s.
Proof. done. Qed.

Lemma accepts_word (k : cont) (p : option ascii) (s : string) : accepts WordB k p s = at_boundary p s && k p s.
Proof. done. Qed.

Lemma rounds_O (a : regex) (k : cont) (p : option ascii) (s : string) : rounds a k 0 p s = k p s.
Proof. cbn. by destruct (k p s). Qed.

Lemma rounds_S (a : regex) (k : cont) (n : nat) (p : option ascii) (s : string) :
  rounds a k (S n) p s =
    k p s || accepts a (fun p1 s1 => (String.length s1 <? String.length s) && rounds a k n p1 s1) p s.
Proof. done. Qed.

(** A match consumes text or leaves everything in place. *)
Lemma matches_shrinks (r : regex) (p : option ascii) (s : string) (p' : option ascii) (s' : string) :
  matches r p s p' s' -> (p' = p /\ s' = s) \/ String.length s' < String.length s.
Proof.
  induction 1 as [| | a b p s p1 s1 p2 s2 _ IH1 _ IH2 | | | | a p s p1 s1 p2 s2 _ IH1 _ IH2 | | | ]; cbn; try (by left); try done.
  - right. lia.
  - destruct IH1 as [[-> ->]|], IH2 as [[-> ->]|]; (by left) || (right; lia).
  - destruct IH1 as [[-> ->]|], IH2 as [[-> ->]|]; (by left) || (right; lia).
Qed.

Definition decides (r : regex) : Prop := forall k p s,
  accepts r k p s = true <-> exists p' s', matches r p s p' s' /\ k p' s' = true.

(** The rounds of a repetition, by the length of what is ahead and, for the converse, along
    the repetition. *)
Lemma rounds_spec (a : regex) (k : cont) (n : nat) (p : option ascii) (s : string) :
  decides a -> String.length s <= n ->
  rounds a k n p s = true <-> exists p' s', matches (Star a) p s p' s' /\ k p' s' = true.
Proof.
  intros Ha. revert p s. induction n as [|n IH]; intros p s Hn; split.
  - rewrite rounds_O. eauto.
  - intros (p' & s' & Hm & Hk). rewrite rounds_O.
    destruct (matches_shrinks _ _ _ _ _ Hm) as [[-> ->]|]; [done|lia].
  - rewrite rounds_S. intros [Hk|Hr]%orb_true_iff; [eauto|]. apply Ha in Hr as (p1 & s1 & H1 & [Hl Hr]%andb_true_iff).
    apply IH in Hr as (p' & s' & Hm & Hk); [eauto|]. apply Nat.ltb_lt in Hl. lia.
  - intros (p' & s' & Hm & Hk). remember (Star a) as r eqn:Er. induction Hm; try done; injection Er as ->.
    + rewrite rounds_S. by rewrite Hk.
    + destruct (matches_shrinks _ _ _ _ _ Hm1) as [[-> ->]|Hl]; [by apply IHHm2|]. rewrite rounds_S. apply orb_true_iff. right.
      apply Ha. exists p1, s1. split; [done|]. apply andb_true_iff. split; [by apply Nat.ltb_lt|]. apply IH; [lia|eauto].
Qed.

Lemma accepts_decides (r : regex) : decides r.
Proof.
  induction r as [|f|a IHa b IHb|a IHa b IHb|a IHa| | |]; intros k p s; unfold decides in *.
  - split; [eauto|]. by intros (p' & s' & H & ?); inversion H; subst.
  - destruct s as [|c s].
    + split; [done|]. intros (p' & s' & H & _). inversion H.
    + rewrite accepts_chr, andb_true_iff. split; [intros [? ?]; eauto|]. by intros (p' & s' & H & ?); inversion H; subst.
  - cbn. rewrite IHa. split.
    + intros (p1 & s1 & H1 & (p2 & s2 & H2 & Hk)%IHb). eauto.
    + intros (p2 & s2 & H & Hk). inversion H; subst. eexists _, _. split; [done|]. apply IHb. eauto.
  - rewrite accepts_alt, orb_true_iff, IHa, IHb. split.
    + intros [(p1 & s1 & H1 & Hk)|(p1 & s1 & H1 & Hk)]; eauto.
    + intros (p1 & s1 & H & Hk). inversion H; subst; eauto.
  - rewrite accepts_star. by apply rounds_spec.
  - cbn. destruct p as [c|].
    + split; [done|]. intros (p' & s' & H & _). inversion H.
    + split; [eauto|]. by intros (p' & s' & H & ?); inversion H; subst.
  - rewrite accepts_eol, andb_true_iff. split; [intros [? ?]; eauto|]. by intros (p' & s' & H & ?); inversion H; subst.
  - rewrite accepts_word, andb_true_iff. split; [intros [? ?]; eauto|]. by intros (p' & s' & H & ?); inversion H; subst.
Qed.

Lemma accepts_iff (r : regex) (k : cont) (p : option ascii) (s : string) :
  accepts r k p s = true <-> exists p' s', matches r p s p' s' /\ k p' s' = true.
Proof. apply accepts_decides. Qed.

(** ** [match] and [search] *)

Definition anything : cont := fun _ _ => true.

(** [r.match(s)] *)
Definition match_start (r : regex) (s : string) : bool := accepts r anything None s.

Fixpoint search_from (r : regex) (p : option ascii) (s : string) : bool :=
  if accepts r anything p s then true else match s with String a s' => search_from r (Some a) s' | "" => false end.

(** [r.search(s)] *)
Definition search (r : regex) (s : string) : bool := search_from r None s.

(** The character before what follows [pre], if [p] is before [pre]. *)
Fixpoint behind (p : option ascii) (pre : string) : option ascii :=
  match pre with String a pre' => behind (Some a) pre' | "" => p end.

Lemma search_from_eq (r : regex) (p : option ascii) (s : string) :
  search_from r p s = accepts r anything p s || match s with String a s' => search_from r (Some a) s' | "" => false end.
Proof. by destruct s. Qed.

Lemma search_from_spec (r : regex) (p : option ascii) (s : string) :
  search_from r p s = true <->
  exists pre t p' post, s = pre +:+ t /\ matches r (behind p pre) t p' post.
Proof.
  revert p. induction s as [|a s IH]; intros p; rewrite search_from_eq, orb_true_iff, accepts_iff.
  - split.
    + intros [(p' & post & H & _)|?]; [|done]. by exists "", "", p', post.
    + intros (pre & t & p' & post & E & H). left. symmetry in E. apply append_eq_nil in E as [-> ->]. by exists p', post.
  - rewrite IH. split.
    + intros [(p' & post & H & _)|(pre & t & p' & post & -> & H)]; [by exists "", (String a s), p', post|].
      by exists (String a pre), t, p', post.
    + intros (pre & t & p' & post & E & H). destruct pre as [|b pre].
      * left. rewrite append_nil_l in E. subst t. by exists p', post.
      * right. rewrite append_cons in E. injection E as -> ->. by exists pre, t, p', post.
Qed.

(** [search] finds a match exactly where there is one. *)
Lemma search_spec (r : regex) (s : string) :
  search r s = true <-> exists pre t p' post, s = pre +:+ t /\ matches r (behind None pre) t p' post.
Proof. apply search_from_spec. Qed.

Lemma match_start_spec (r : regex) (s : string) : match_start r s = true <-> exists p' post, matches r None s p' post.
Proof.
  unfold match_start. rewrite accepts_iff. split; [intros (p' & t & ? & _); eauto|]. intros (p' & t & ?). by exists p', t.
Qed.

(** ** Notation of patterns *)

Definition same_letter (a b : ascii) : bool := bool_decide (char_lower a = char_lower b).

(** Text as it is, and under IGNORECASE. *)
Fixpoint lit (s : string) : regex := match s with "" => Eps | String a s' => Seq (Chr (is_char a)) (lit s') end.
Fixpoint ilit (s : string) : regex := match s with "" => Eps | String a s' => Seq (Chr (same_letter a)) (ilit s') end.

Definition one_of (cs : string) : regex := Chr (fun a => has_char a cs).
Definition ione_of (cs : string) : regex := Chr (fun a => has_char (char_lower a) cs).
Definition Plus (a : regex) : regex := Seq a (Star a).
Definition Opt (a : regex) : regex := Alt a Eps.
Fixpoint Seqs (l : list regex) : regex := match l with [] => Eps | [a] => a | a :: l => Seq a (Seqs l) end.
Fixpoint Alts (l : list regex) : regex := match l with [] => Chr (fun _ => false) | [a] => a | a :: l => Alt a (Alts l) end.
Definition Blank : regex := Chr is_space.
Definition Digit : regex := Chr is_digit.

Lemma matches_lit (t : string) (p : option ascii) (s : string) : matches (lit t) p (t +:+ s) (behind p t) s.
Proof. revert p. induction t as [|a t IH]; intros p; [by cbn|]. rewrite append_cons. cbn. econstructor; [constructor|apply IH]. by apply bool_decide_eq_true. Qed.
