(* ===== verification/PyLines.v ===== *)
(** * Lines and words of decoded text

    [bytes.decode("utf-8", errors="replace")], [str.splitlines] and [str.split] with white
    space, on the UTF-8 encoding of text. *)

From S2P Require Import Prelude PyText.
From Stdlib Require Import Ascii String.
Import (notations) Ascii String.
#[local] Open Scope Z_scope.

(** ** Decoding *)

Definition replacement : bytes := Eval vm_compute in byte_of_Z <$> [0xef; 0xbf; 0xbd].

(** How many bytes follow a leading byte, and the range of the first of them. *)
Definition lead (b : byte) : option (nat * (Z * Z)) :=
  let n := byteZ b in
  if in_range 0xc2 n 0xdf then Some (1%nat, (0x80, 0xbf))
  else if n =? 0xe0 then Some (2%nat, (0xa0, 0xbf))
  else if n =? 0xed then Some (2%nat, (0x80, 0x9f))
  else if in_range 0xe1 n 0xef then Some (2%nat, (0x80, 0xbf))
  else if n =? 0xf0 then Some (3%nat, (0x90, 0xbf))
  else if n =? 0xf4 then Some (3%nat, (0x80, 0x8f))
  else if in_range 0xf1 n 0xf3 then Some (3%nat, (0x80, 0xbf))
  else None.

Definition continues (b : byte) : bool := in_range 0x80 (byteZ b) 0xbf.

(** Each maximal start of a character that is not completed becomes one replacement
    character. *)
Fixpoint decode_replace (s : bytes) : bytes :=
  match s with
  | [] => []
  | b :: s1 =>
      if byteZ b <? 0x80 then b :: decode_replace s1
      else
        match lead b with
        | None => replacement ++ decode_replace s1
        | Some (n, (lo, hi)) =>
            match s1 with
            | [] => replacement
            | c :: s2 =>
                if negb (in_range lo (byteZ c) hi) then replacement ++ decode_replace s1
                else if (n =? 1)%nat then b :: c :: decode_replace s2
                else
                  match s2 with
                  | [] => replacement
                  | d :: s3 =>
                      if negb (continues d) then replacement ++ decode_replace s2
                      else if (n =? 2)%nat then b :: c :: d :: decode_replace s3
                      else
                        match s3 with
                        | [] => replacement
                        | e :: s4 =>
                            if negb (continues e) then replacement ++ decode_replace s3
                            else b :: c :: d :: e :: decode_replace s4
                        end
                  end
            end
        end
  end%list.

(** Well-formed UTF-8. *)
Inductive utf8 : bytes -> Prop :=
  | u_nil : utf8 []
  | u_ascii b s : byteZ b <? 0x80 = true -> utf8 s -> utf8 (b :: s)
  | u_two b c s lo hi : lead b = Some (1%nat, (lo, hi)) -> in_range lo (byteZ c) hi = true -> utf8 s -> utf8 (b :: c :: s)
  | u_three b c d s lo hi :
      lead b = Some (2%nat, (lo, hi)) -> in_range lo (byteZ c) hi = true -> continues d = true -> utf8 s -> utf8 (b :: c :: d :: s)
  | u_four b c d e s lo hi :
      lead b = Some (3%nat, (lo, hi)) -> in_range lo (byteZ c) hi = true -> continues d = true -> continues e = true -> utf8 s ->
      utf8 (b :: c :: d :: e :: s).

Lemma lead_high (b : byte) (n : nat) (r : Z * Z) : lead b = Some (n, r) -> byteZ b <? 0x80 = false /\ (n = 1 \/ n = 2 \/ n = 3)%nat.
Proof.
  unfold lead, in_range. intros H. destruct (byteZ b <? 0x80) eqn:E.
  - exfalso. repeat case_match; simplify_eq; lia.
  - split; [done|]. repeat case_match; simplify_eq; auto.
Qed.

(** What is well-formed decodes to itself. *)
Lemma decode_utf8 (s : bytes) : utf8 s -> decode_replace s = s.
Proof.
  induction 1 as [|b s Hb _ IH|b c s lo hi Hl Hc _ IH|b c d s lo hi Hl Hc Hd _ IH|b c d e s lo hi Hl Hc Hd He _ IH]; [done|..];
    cbn [decode_replace].
  - by rewrite Hb, IH.
  - destruct (lead_high b _ _ Hl) as [-> _]. by rewrite Hl, Hc, IH.
  - destruct (lead_high b _ _ Hl) as [-> _]. by rewrite Hl, Hc, Hd, IH.
  - destruct (lead_high b _ _ Hl) as [-> _]. by rewrite Hl, Hc, Hd, He, IH.
Qed.

Lemma utf8_replacement (s : bytes) : utf8 s -> utf8 (replacement ++ s).
Proof. intros H. by apply (u_three _ _ _ s 0x80 0xbf). Qed.

(** What decoding gives is well-formed. *)
Lemma decode_replace_utf8 (s : bytes) : utf8 (decode_replace s).
Proof.
  remember (List.length s) as n eqn:E. revert s E. induction (lt_wf n) as [n _ IH]. intros [|b s1] ->; [constructor|].
  assert (IH1 : forall t, (List.length t <= List.length s1)%nat -> utf8 (decode_replace t)) by (intros t Ht; apply (IH (List.length t)); [cbn; lia|done]).
  clear IH. cbn [decode_replace]. destruct (byteZ b <? 0x80) eqn:Eb; [by apply u_ascii, IH1|].
  destruct (lead b) as [[n [lo hi]]|] eqn:El; [|by apply utf8_replacement, IH1].
  destruct (lead_high b _ _ El) as [_ Hn].
  destruct s1 as [|c s2]; [apply (utf8_replacement [] u_nil)|]. destruct (in_range lo _ hi) eqn:Ec; cbn [negb]; [|by apply utf8_replacement, IH1].
  assert (IH2 : forall t, (List.length t <= List.length s2)%nat -> utf8 (decode_replace t)) by (intros t Ht; apply IH1; cbn; lia).
  destruct Hn as [->|[->| ->]]; cbn [Nat.eqb].
  - by eapply u_two; [..|apply IH2].
  - destruct s2 as [|d s3]; [apply (utf8_replacement [] u_nil)|]. destruct (continues d) eqn:Ed; cbn [negb]; [|by apply utf8_replacement, IH2].
    eapply u_three; [done..|]. apply IH2. cbn. lia.
  - destruct s2 as [|d s3]; [apply (utf8_replacement [] u_nil)|]. destruct (continues d) eqn:Ed; cbn [negb]; [|by apply utf8_replacement, IH2].
    destruct s3 as [|e s4]; [apply (utf8_replacement [] u_nil)|].
    destruct (continues e) eqn:Ee; cbn [negb]; [|apply utf8_replacement, IH2; cbn; lia].
    eapply u_four; [done..|]. apply IH2. cbn. lia.
Qed.

(** [raw.decode("utf-8", errors="replace")] *)
Definition decode (raw : bytes) : string := decode_bytes (decode_replace raw).

(** ** Lines *)

Definition code (n : Z) (a : ascii) : bool := Z.of_N (N_of_ascii a) =? n.

(** The breaks of one byte but CR: LF, VT, FF and the separators 0x1c to 0x1e. *)
Definition simple_break (a : ascii) : bool :=
  let n := Z.of_N (N_of_ascii a) in in_range 10 n 12 || in_range 28 n 30.

Definition push (a : ascii) (lines : list string) : list string :=
  match lines with [] => [String a ""] | l :: ls => String a l :: ls end.

(** [splitlines()]: lines end with CR LF, CR, a simple break, U+0085, U+2028 or U+2029. *)
Fixpoint splitlines (s : string) : list string :=
  match s with
  | "" => []
  | String a s1 =>
      if code 13 a then
        "" :: match s1 with
              | String b s2 => if code 10 b then splitlines s2 else splitlines s1
              | "" => []
              end
      else if simple_break a then "" :: splitlines s1
      else if code 0xc2 a then
        match s1 with
        | String b s2 => if code 0x85 b then "" :: splitlines s2 else push a (splitlines s1)
        | "" => push a (splitlines s1)
        end
      else if code 0xe2 a then
        match s1 with
        | String b (String c s3) =>
            if code 0x80 b && (code 0xa8 c || code 0xa9 c) then "" :: splitlines s3 else push a (splitlines s1)
        | _ => push a (splitlines s1)
        end
      else push a (splitlines s1)
  end.

(** Characters of ASCII that break no line. *)
Definition inline (a : ascii) : bool := negb (code 13 a) && negb (simple_break a) && (Z.of_N (N_of_ascii a) <? 128).
Definition all_chars (f : ascii -> bool) (s : string) : bool := forallb f (String.list_ascii_of_string s).

Definition nl : string := String (ascii_of_N 10) "".

Lemma inline_code (a : ascii) : inline a = true ->
  code 13 a = false /\ simple_break a = false /\ code 0xc2 a = false /\ code 0xe2 a = false.
Proof. unfold inline, code. intros [[H1 H2]%andb_true_iff H3]%andb_true_iff. apply negb_true_iff in H1, H2. split_and!; [done|done|lia..]. Qed.

Lemma splitlines_line (line text : string) :
  all_chars inline line = true -> splitlines (line +:+ nl +:+ text) = line :: splitlines text.
Proof.
  unfold all_chars. induction line as [|a line IH]; [done|]. cbn [String.list_ascii_of_string forallb]. intros [Ha H]%andb_true_iff.
  rewrite append_cons. cbn [splitlines]. destruct (inline_code a Ha) as (-> & -> & -> & ->). by rewrite IH.
Qed.

(** Text written line by line splits into its lines. *)
Lemma splitlines_lines (lines : list string) :
  Forall (fun l => all_chars inline l = true) lines -> splitlines (foldr (fun l t => l +:+ nl +:+ t) "" lines) = lines.
Proof. induction 1 as [|l lines Hl _ IH]; [done|]. cbn [foldr]. by rewrite splitlines_line, IH. Qed.

(** ** Words *)

(** The longest start of [s] of characters in [f], and the rest. *)
Fixpoint span (f : ascii -> bool) (s : string) : string * string :=
  match s with
  | "" => ("", "")
  | String a s' => if f a then let '(w, t) := span f s' in (String a w, t) else ("", s)
  end.

Definition not_space (a : ascii) : bool := negb (is_space a).

(** [s.split(None, 1)] of text without white space at its ends: no part, one or two. *)
Definition split_once (s : string) : option (string * option string) :=
  let '(w, t) := span not_space s in
  if truthy (Some w) then
    let rest := lstrip_if is_space t in
    Some (w, if truthy (Some rest) then Some rest else None)
  else None.

(** [s.split()] *)
Fixpoint split_from (word : string) (s : string) : list string :=
  match s with
  | "" => if truthy (Some word) then [word] else []
  | String a s' =>
      if is_space a then (if truthy (Some word) then word :: split_from "" s' else split_from "" s')
      else split_from (word +:+ String a "") s'
  end.
Definition split (s : string) : list string := split_from "" s.

Lemma span_spec (f : ascii -> bool) (s w t : string) :
  span f s = (w, t) <-> s = w +:+ t /\ all_chars f w = true /\ match t with String a _ => f a = false | "" => True end.
Proof.
  unfold all_chars. revert w t. induction s as [|a s IH]; intros w t; cbn [span].
  - split; [by intros [= <- <-]|]. intros (E & _ & _). symmetry in E. by apply append_eq_nil in E as [-> ->].
  - destruct (f a) eqn:Ea.
    + destruct (span f s) as [w' t'] eqn:Es. split.
      * intros [= <- <-]. destruct (proj1 (IH w' t') eq_refl) as (-> & H1 & H2). split_and!; [done| |done].
        cbn. by rewrite Ea.
      * intros (E & H1 & H2). destruct w as [|b w].
        { rewrite append_nil_l in E. subst t. by rewrite Ea in H2. }
        rewrite append_cons in E. injection E as <- E. cbn in H1. apply andb_true_iff in H1 as [_ H1].
        assert (Hs : (w', t') = (w, t)) by (apply IH; done). by injection Hs as -> ->.
    + split.
      * intros [= <- <-]. by split_and!.
      * intros (E & H1 & H2). destruct w as [|b w]; [by rewrite append_nil_l in E; subst t|].
        rewrite append_cons in E. injection E as <- E. cbn in H1. by rewrite Ea in H1.
Qed.
