(* ===== verification/Sandbox.v ===== *)
(** * Path sandbox ([utils/sandbox.py])

    [validate_path] resolves a requested path inside an extracted firmware tree.
    The file system is a parameter: [readlink p] is [Some target] when
    [os.path.islink(p)] holds, and [realpath] is [os.path.realpath]; both are
    fixed during one call.  [Kernel] gives the path walk of the operating
    system over a table of symbolic links; it is the yardstick for what the
    returned string denotes when it is opened. *)

From S2P Require Import Prelude PyText PosixPath.
From Stdlib Require Import Ascii String.
Import (notations) Ascii String.
#[local] Open Scope Z_scope.

Inductive sandbox_error := PathTraversalError.

#[export] Instance sandbox_error_eq_dec : EqDecision sandbox_error.
Proof. solve_decision. Defined.

(** ** The operations *)

(** [[p for p in path.strip("/").split("/") if p and p != "."]] *)
Definition path_parts (path : string) : list string :=
  filter (fun p => p <> "" /\ p <> ".") (split_char slash (strip_char slash path)).

Section Sandbox.
Context (readlink : string -> option string) (realpath : string -> string).

(** One hop: an absolute target is rewritten below the root, a relative one is
    normalised from the directory of the link. *)
Definition link_target (root candidate target : string) : string :=
  if startswith target "/" then path_join root (lstrip_char slash target)
  else normpath (path_join (dirname candidate) target).

(** The [while] loop; [depth] counts down from [max_depth].  A candidate met
    before ends the loop without the containment check. *)
Fixpoint follow_links (root : string) (depth : nat) (candidate : string)
    (seen : gset string) : res sandbox_error (string * gset string) :=
  match depth, readlink candidate with
  | S depth', Some target =>
      let candidate' := link_target root candidate target in
      if decide (candidate' ∈ seen) then Ok (candidate', seen)
      else if negb (startswith candidate' (root +:+ "/")) && bool_decide (candidate' <> root)
      then Err PathTraversalError
      else follow_links root depth' candidate' ({[candidate']} ∪ seen)
  | _, _ => Ok (candidate, seen)
  end.

(** One turn of the [for part in parts] loop. *)
Definition resolve_part (root : string) (max_depth : nat)
    (st : string * gset string) (part : string) : res sandbox_error (string * gset string) :=
  let '(resolved, seen) := st in
  if decide (part = "..") then
    let parent := dirname resolved in
    if startswith parent root then Ok (parent, seen) else Err PathTraversalError
  else follow_links root max_depth (path_join resolved part) seen.

Fixpoint resolve_parts (root : string) (max_depth : nat) (st : string * gset string)
    (parts : list string) : res sandbox_error (string * gset string) :=
  match parts with
  | [] => Ok st
  | part :: parts' =>
      st' ← resolve_part root max_depth st part; resolve_parts root max_depth st' parts'
  end.

Definition resolve_within_root (root path : string) (max_depth : nat)
    : res sandbox_error string :=
  fst <$> resolve_parts root max_depth (root, ∅) (path_parts path).

Definition validate_path (extracted_root requested_path : string)
    : res sandbox_error string :=
  let real_root := realpath extracted_root in
  full_path ← resolve_within_root real_root requested_path 40;
  if bool_decide (full_path <> real_root) && negb (startswith full_path (real_root +:+ "/"))
  then Err PathTraversalError
  else Ok full_path.
End Sandbox.

(** ** Reference semantics *)

(** Resolution in a tree without symbolic links: a stack of components below the
    root ([None]: a [..] above the root). *)
Fixpoint lexical_resolve (stack parts : list string) : option (list string) :=
  match parts with
  | [] => Some stack
  | p :: parts' =>
      if decide (p = "..") then
        match stack with [] => None | _ :: stack' => lexical_resolve stack' parts' end
      else lexical_resolve (p :: stack) parts'
  end.

(** The path a stack (innermost component first) stands for. *)
Fixpoint render (root : string) (stack : list string) : string :=
  match stack with
  | [] => root
  | c :: stack' => render root stack' +:+ "/" +:+ c
  end.

Definition lexical_path (root path : string) : res sandbox_error string :=
  match lexical_resolve [] (path_parts path) with
  | Some stack => Ok (render root stack)
  | None => Err PathTraversalError
  end.

Module Kernel.
(** [links] maps the canonical path of each symbolic link to its target.
    [walk] is POSIX path resolution: [cur] is a link-free directory, [todo]
    the components left; [fuel] bounds the link expansions. *)
Fixpoint walk (links : string -> option string) (fuel : nat) (cur : string)
    (todo : list string) : option string :=
  match fuel with
  | O => None
  | S fuel' =>
      match todo with
      | [] => Some cur
      | c :: todo' =>
          if bool_decide (c = "") || bool_decide (c = ".") then walk links fuel' cur todo'
          else if bool_decide (c = "..") then walk links fuel' (dirname cur) todo'
          else
            let p := path_join cur c in
            match links p with
            | None => walk links fuel' p todo'
            | Some target =>
                let start := if isabs target then "/" else cur in
                walk links fuel' start (split_char slash target ++ todo')
            end
      end
  end.

Definition resolve (links : string -> option string) (p : string) : option string :=
  walk links 200 "/" (split_char slash p).

(** [os.readlink]: the kernel resolves the directory, then reads the last
    component. *)
Definition readlink (links : string -> option string) (p : string) : option string :=
  d ← resolve links (dirname p); links (path_join d (basename p)).
End Kernel.

(** ** Containment *)

Section Containment.
Context (readlink : string -> option string) (realpath : string -> string).

Definition all_under (root : string) (st : string * gset string) : Prop :=
  under root st.1 /\ forall p, p ∈ st.2 -> under root p.

Lemma follow_links_under (root : string) (depth : nat) (c : string) (seen : gset string) st :
  all_under root (c, seen) ->
  follow_links readlink root depth c seen = Ok st -> all_under root st.
Proof.
  revert c seen. induction depth as [|depth IH]; intros c seen [Hc Hs] Hf; cbn in Hf.
  - by simplify_eq.
  - destruct (readlink c) as [t|]; [|by simplify_eq].
    case_decide as Hin; [simplify_eq; split; [by apply Hs | done]|].
    destruct (under_check root (link_target root c t)) eqn:Hu.
    + apply under_check_spec in Hu.
      destruct (negb _ && _) in Hf; [done|].
      apply (IH (link_target root c t) ({[link_target root c t]} ∪ seen)); [|done].
      split; [done|]. cbn. intros p [->%elem_of_singleton|]%elem_of_union; auto.
    + unfold under_check in Hu. apply orb_false_iff in Hu as [Hu1 Hu2].
      rewrite Hu2 in Hf. apply bool_decide_eq_false in Hu1.
      rewrite bool_decide_true in Hf by done. done.
Qed.

Lemma path_parts_clean (path : string) :
  Forall (fun p => p <> "" /\ p <> "." /\ has_char slash p = false) (path_parts path).
Proof.
  unfold path_parts. apply Forall_forall. intros p [[H1 H2] Hp]%list_elem_of_filter.
  pose proof (split_char_no_sep slash (strip_char slash path)) as Hs.
  rewrite Forall_forall in Hs. auto.
Qed.

Lemma resolve_part_under (root : string) (depth : nat) st st' (part : string) :
  good_root root -> has_char slash part = false -> all_under root st ->
  resolve_part readlink root depth st part = Ok st' -> all_under root st'.
Proof.
  destruct st as [p seen]. intros Hg Hpart [Hp Hs]. cbn. case_decide as Hd.
  - destruct (startswith _ _) eqn:E; [|done]. intros [= <-]. split; [|done]. cbn.
    destruct Hp as [Hp | [t Ht]]; cbn in *; subst.
    + exfalso. apply startswith_spec in E as [t E].
      apply (f_equal String.length) in E. rewrite length_append in E.
      pose proof (dirname_shorter root Hg). lia.
    + by apply under_dirname.
  - apply follow_links_under. split; [|done]. cbn.
    apply path_join_under; [done..|]. by apply has_char_isabs.
Qed.
Lemma resolve_parts_under (root : string) (depth : nat) st st' (parts : list string) :
  good_root root -> Forall (fun p => has_char slash p = false) parts ->
  all_under root st ->
  resolve_parts readlink root depth st parts = Ok st' -> all_under root st'.
Proof.
  intros Hg Hp. revert st. induction Hp as [|p parts Hp _ IH]; intros st Hst.
  - cbn. by intros [= <-].
  - intros (st1 & H1 & H2)%res_bind_ok. eapply IH; [|done].
    by eapply resolve_part_under.
Qed.

Lemma resolve_within_root_under (root path : string) (depth : nat) (p : string) :
  good_root root ->
  resolve_within_root readlink root path depth = Ok p -> under root p.
Proof.
  intros Hg. unfold resolve_within_root.
  destruct (resolve_parts _ _ _ _ _) as [st|] eqn:E; [|done]. intros [= <-].
  refine (proj1 (resolve_parts_under root depth (root, ∅) st _ Hg _ _ E)).
  - eapply Forall_impl; [apply path_parts_clean | naive_solver].
  - split; [by left | done].
Qed.
End Containment.

(** ** The link-free reference *)

Section LinkFree.
Context (root : string) (Hroot : good_root root).

Definition clean (c : string) : Prop := c <> "" /\ has_char slash c = false.

Lemma clean_no_trailing (c : string) : clean c -> rstrip_char slash c = c.
Proof.
  intros [_ Hc]. induction c as [|a c IH]; [done|]. cbn in Hc.
  apply orb_false_iff in Hc as [Ha Hc]. specialize (IH Hc).
  unfold rstrip_char in *. rewrite rstrip_if_cons, IH.
  unfold is_char. rewrite Ha. by destruct (decide (c = "")) as [-> |].
Qed.

Lemma rsplit_clean (c : string) : has_char slash c = false -> rsplit_slash c = ("", c).
Proof.
  induction c as [|a c IH]; [done|]. cbn. rewrite orb_false_iff, bool_decide_eq_false.
  intros [Ha Hc]. rewrite IH by done. by rewrite decide_False.
Qed.

Lemma render_good (stack : list string) : Forall clean stack -> good_root (render root stack).
Proof.
  induction 1 as [|c stack Hc _ IH]; [done|]. cbn. destruct Hc as [Hne Hc].
  assert (rstrip_char slash ("/" +:+ c) = "/" +:+ c) as E.
  { unfold rstrip_char. rewrite rstrip_if_app_r; [f_equal; by apply clean_no_trailing|].
    fold (rstrip_char slash c). by rewrite clean_no_trailing. }
  split; [|by intros [_ ?]%append_eq_nil].
  unfold rstrip_char in *. rewrite rstrip_if_app_r by (by rewrite E). by rewrite E.
Qed.

Lemma dirname_render (c : string) (stack : list string) :
  clean c -> Forall clean stack -> dirname (render root (c :: stack)) = render root stack.
Proof.
  intros [Hne Hc] Hs. pose proof (render_good _ Hs) as Hg. cbn. unfold dirname.
  change ("/" +:+ c) with (String slash c).
  assert (rsplit_slash (String slash c) = ("/", c)) as E by (cbn; by rewrite rsplit_clean).
  rewrite rsplit_slash_app, E by (by rewrite E). cbn [fst].
  rewrite good_root_not_slashes by done.
  rewrite bool_decide_true by (by intros [_ ?]%append_eq_nil). cbn.
  unfold rstrip_char. rewrite rstrip_if_app_l by done. apply Hg.
Qed.

Lemma join_render (c : string) (stack : list string) :
  clean c -> Forall clean stack -> path_join (render root stack) c = render root (c :: stack).
Proof.
  intros [Hne Hc] Hs. pose proof (render_good _ Hs) as Hg. unfold path_join.
  rewrite has_char_isabs by done. rewrite good_root_no_slash by done.
  by rewrite (bool_decide_eq_false_2 _ (proj2 Hg)).
Qed.

Lemma render_under (stack : list string) : Forall clean stack -> under root (render root stack).
Proof.
  induction 1 as [|c stack Hc Hs IH]; [by left|].
  rewrite <- join_render by done. apply path_join_under; [done..|].
  apply has_char_isabs, Hc.
Qed.

Lemma dirname_root_outside : startswith (dirname root) root = false.
Proof.
  destruct (startswith _ _) eqn:E; [|done]. apply startswith_spec in E as [t E].
  apply (f_equal String.length) in E. rewrite length_append in E.
  pose proof (dirname_shorter root Hroot). lia.
Qed.

Lemma under_startswith (p : string) : under root p -> startswith p root = true.
Proof.
  intros [-> | [t ->]]; apply startswith_spec; [exists ""; by rewrite append_nil_r | eauto].
Qed.

Lemma resolve_parts_link_free (depth : nat) (parts stack : list string) (seen : gset string) :
  Forall clean parts -> Forall clean stack ->
  fst <$> resolve_parts (fun _ => None) root depth (render root stack, seen) parts =
  match lexical_resolve stack parts with
  | Some stack' => Ok (render root stack')
  | None => Err PathTraversalError
  end.
Proof.
  intros Hp. revert stack seen. induction Hp as [|p parts Hp Hps IH]; intros stack seen Hs.
  - done.
  - cbn [resolve_parts lexical_resolve resolve_part]. case_decide as Hd.
    + destruct stack as [|c stack]; [cbn [render]; by rewrite dirname_root_outside|].
      apply Forall_cons in Hs as [Hc Hs]. rewrite dirname_render by done.
      rewrite under_startswith by (by apply render_under). by apply IH.
    + rewrite join_render by done.
      assert (follow_links (fun _ => None) root depth (render root (p :: stack)) seen
              = Ok (render root (p :: stack), seen)) as -> by (by destruct depth).
      apply IH. by constructor.
Qed.
End LinkFree.

Lemma path_parts_all_clean (path : string) : Forall clean (path_parts path).
Proof. eapply Forall_impl; [apply path_parts_clean|]. unfold clean. naive_solver. Qed.

(** ** Dot-dot freeness *)

Section DotFree.
Context (readlink : string -> option string).
Context (Htargets : forall p t, readlink p = Some t -> isabs t = true -> dotfree t).

Definition all_dotfree (st : string * gset string) : Prop :=
  (isabs st.1 = true /\ dotfree st.1) /\ forall p, p ∈ st.2 -> isabs p = true /\ dotfree p.

Lemma link_target_dotfree (root c t : string) :
  isabs root = true -> dotfree root -> isabs c = true -> readlink c = Some t ->
  isabs (link_target root c t) = true /\ dotfree (link_target root c t).
Proof.
  intros Hr Hd Hc Ht. unfold link_target. destruct (startswith t "/") eqn:E.
  - split; [by apply isabs_join|].
    apply path_join_dotfree; [done|]. apply lstrip_dotfree. by eapply Htargets.
  - assert (isabs (path_join (dirname c) t) = true) as Hj by (by apply isabs_join, isabs_dirname).
    split; [by apply isabs_normpath | by apply normpath_dotfree].
Qed.

Lemma follow_links_dotfree (root : string) (depth : nat) (c : string) (seen : gset string) st :
  isabs root = true -> dotfree root -> all_dotfree (c, seen) ->
  follow_links readlink root depth c seen = Ok st -> all_dotfree st.
Proof.
  intros Hr Hd. revert c seen. induction depth as [|depth IH]; intros c seen [Hc Hs] Hf; cbn in Hf.
  - by simplify_eq.
  - destruct (readlink c) as [t|] eqn:Ht; [|by simplify_eq].
    pose proof (link_target_dotfree root c t Hr Hd (proj1 Hc) Ht) as Hl.
    case_decide; [simplify_eq; by split|]. case_match; [done|].
    eapply IH; [|done]. split; [done|]. cbn [fst snd].
    intros p [->%elem_of_singleton|]%elem_of_union; auto.
Qed.

Lemma resolve_parts_dotfree (root : string) (depth : nat) st st' (parts : list string) :
  isabs root = true -> dotfree root -> Forall clean parts -> all_dotfree st ->
  resolve_parts readlink root depth st parts = Ok st' -> all_dotfree st'.
Proof.
  intros Hr Hd Hp. revert st. induction Hp as [|p parts Hp _ IH]; intros [q seen] [[Hq1 Hq2] Hs].
  - intros [= <-]. split; [split|]; done.
  - intros (st1 & H1 & H2)%res_bind_ok. eapply IH; [|done]. clear H2. cbn [resolve_part] in H1.
    case_decide as Hdd.
    + case_match; [|done]. simplify_eq. split; [|done]. cbn [fst snd] in *.
      split; [by apply isabs_dirname | by apply dirname_dotfree].
    + eapply (follow_links_dotfree root depth _ _ _ Hr Hd); [|exact H1]. split; [|done]. cbn [fst snd] in *.
      split; [by apply isabs_join|]. apply path_join_dotfree; [done|].
      by apply dotfree_component; [apply Hp|].
Qed.
End DotFree.

Lemma validate_path_eq readlink realpath (extracted_root requested : string) :
  good_root (realpath extracted_root) ->
  validate_path readlink realpath extracted_root requested
    = resolve_within_root readlink (realpath extracted_root) requested 40.
Proof.
  intros Hg. unfold validate_path. set (root := realpath extracted_root) in *.
  destruct (resolve_within_root readlink root requested 40) as [p|] eqn:Hp; [|done].
  cbn. apply resolve_within_root_under, under_check_spec in Hp; [|done].
  unfold under_check in Hp. destruct (startswith p _); [by rewrite andb_false_r|].
  rewrite orb_false_r, bool_decide_eq_true in Hp. by rewrite bool_decide_false by naive_solver.
Qed.

(** The string [validate_path] accepts, opened through the kernel, lands outside
    the root. *)
Definition escapes (links : string -> option string) (root requested : string) : bool :=
  match validate_path (Kernel.readlink links) id root requested with
  | Ok p => match Kernel.resolve links p with
            | Some q => negb (under_check root q)
            | None => false
            end
  | Err _ => false
  end.

(** A tree with one absolute link whose target climbs with [..]. *)
Definition links_climbing (p : string) : option string :=
  if decide (p = "/srv/fw/cfg") then Some "/../../etc" else None.

(** A tree with a chain of two links, the second one absolute and clean. *)
Definition links_chain (p : string) : option string :=
  if decide (p = "/srv/fw/a") then Some "b"
  else if decide (p = "/srv/fw/b") then Some "/etc" else None.

(** ** Properties *)

(** C1. For every set of symbolic links and every requested path, a root without a
    trailing slash makes the final prefix test of [validate_path] redundant: the
    resolution loop alone already returns the root or a string below it, cycle
    breaks and [..] included. *)
Theorem validate_path_contained readlink realpath (extracted_root requested : string) :
  good_root (realpath extracted_root) ->
  validate_path readlink realpath extracted_root requested
    = resolve_within_root readlink (realpath extracted_root) requested 40 /\
  forall p, validate_path readlink realpath extracted_root requested = Ok p ->
    under (realpath extracted_root) p.
Proof.
  intros Hg. rewrite validate_path_eq by done. split; [done|].
  intros p. by apply resolve_within_root_under.
Qed.

Lemma validate_path_contained_witness :
  validate_path links_chain id "/srv/fw" "a/../x" = Ok "/srv/fw/x" /\
  under "/srv/fw" "/srv/fw/x".
Proof.
  split; [by vm_compute|].
  apply (validate_path_contained links_chain id "/srv/fw" "a/../x"); [by vm_compute|].
  by vm_compute.
Defined.

(** Without symbolic links [validate_path] is exactly lexical resolution: a stack
    of components below the root, [PathTraversalError] when a [..] leaves it. *)
Theorem validate_path_link_free realpath (extracted_root requested : string) :
  good_root (realpath extracted_root) ->
  validate_path (fun _ => None) realpath extracted_root requested
    = lexical_path (realpath extracted_root) requested.
Proof.
  intros Hg. rewrite validate_path_eq by done.
  apply (resolve_parts_link_free _ Hg 40 (path_parts requested) [] ∅).
  - apply path_parts_all_clean.
  - constructor.
Qed.

Lemma validate_path_link_free_witness :
  validate_path (fun _ => None) id "/srv/fw" "/etc//./../passwd"
    = lexical_path "/srv/fw" "/etc//./../passwd" /\
  lexical_path "/srv/fw" "/etc//./../passwd" = Ok "/srv/fw/passwd".
Proof.
  split; [|by vm_compute]. apply (validate_path_link_free id "/srv/fw"). by vm_compute.
Defined.

(** If the root is absolute and [..]-free and no absolute link target has a [..]
    component, the path [validate_path] returns has no [..] component either, so
    the textual containment is not undone by normalisation. *)
Theorem validate_path_dotfree readlink realpath (extracted_root requested p : string) :
  good_root (realpath extracted_root) ->
  isabs (realpath extracted_root) = true -> dotfree (realpath extracted_root) ->
  (forall q t, readlink q = Some t -> isabs t = true -> dotfree t) ->
  validate_path readlink realpath extracted_root requested = Ok p ->
  under (realpath extracted_root) p /\ dotfree p.
Proof.
  intros Hg Ha Hd Ht Hp. rewrite validate_path_eq in Hp by done.
  split; [by eapply resolve_within_root_under|]. unfold resolve_within_root in Hp.
  destruct (resolve_parts _ _ _ _ _) as [st|] eqn:E; [|done]. injection Hp as <-.
  refine (proj2 (proj1 (resolve_parts_dotfree _ Ht _ 40 _ st _ Ha Hd (path_parts_all_clean requested) _ E))).
  by split.
Qed.

Lemma validate_path_dotfree_witness :
  under "/srv/fw" "/srv/fw/etc/x" /\ dotfree "/srv/fw/etc/x".
Proof.
  apply (validate_path_dotfree links_chain id "/srv/fw" "a/x"); try (by vm_compute).
  - vm_compute. intros H. by repeat (apply elem_of_cons in H as [H|H]; [done|]); apply not_elem_of_nil in H.
  - intros q t. unfold links_chain. repeat case_decide; [|intros [= <-]|done];
      intros; simplify_eq; vm_compute; intros H';
      by repeat (apply elem_of_cons in H' as [H'|H']; [done|]); apply not_elem_of_nil in H'.
Defined.

(** The containment is textual only.  An absolute link whose target climbs with
    [..] is joined to the root without normalisation, and a link met twice ends
    the loop at an unresolved link; both trees make [validate_path] accept a path
    that opens a file outside the root. *)
Theorem validate_path_escape :
  escapes links_climbing "/srv/fw" "cfg/passwd" = true /\
  escapes links_chain "/srv/fw" "a/../a/passwd" = true.
Proof. by vm_compute. Qed.
