(* ===== verification/SafeExtract.v ===== *)
(** * Zip extraction ([workers/safe_extract.py])

    [safe_extract_zip] over an explicit disk: a map of files and a set of
    directories, threaded through success and failure alike, because what a
    failed extraction leaves behind is part of the behaviour.  An archive entry
    carries the chunks that [ZipExtFile.read] delivers, which need not agree
    with the declared size.  [realpath] is the operating system's; extraction
    creates no links, so it is fixed during the call. *)

From S2P Require Import Prelude PyText PosixPath.
From Stdlib Require Import Ascii String.
Import (notations) Ascii String.
#[local] Open Scope Z_scope.

(** ** Disk *)

Record disk := Disk { files : gmap string bytes; dirs : gset string }.

(** The ancestors of a path, nearest first. *)
Fixpoint parents (fuel : nat) (p : string) : list string :=
  match fuel with
  | O => []
  | S fuel' =>
      let d := dirname p in
      if bool_decide (d = p) || bool_decide (d = "") then [] else d :: parents fuel' d
  end.

Definition path_exists (d : disk) (p : string) : bool :=
  bool_decide (p ∈ d.(dirs)) || bool_decide (is_Some (d.(files) !! p)).

(** [os.makedirs(p, exist_ok=True)]; [None] is an [OSError] (a component is a file). *)
Definition makedirs (d : disk) (p : string) : option disk :=
  let chain := p :: parents (String.length p) p in
  if decide (Exists (fun q => is_Some (d.(files) !! q)) chain) then None
  else Some (Disk d.(files) (list_to_set chain ∪ d.(dirs))).

(** [open(p, "wb")]: [None] is an [OSError] (a directory, or a file as parent). *)
Definition open_wb (d : disk) (p : string) : option disk :=
  if decide (p ∈ d.(dirs) \/ is_Some (d.(files) !! dirname p)) then None
  else Some (Disk (<[p := []]> d.(files)) d.(dirs)).

(** [dst.write(chunk)] on the file just opened. *)
Definition append_file (d : disk) (p : string) (chunk : bytes) : disk :=
  Disk (<[p := default [] (d.(files) !! p) ++ chunk]> d.(files)) d.(dirs).

Definition unlink (d : disk) (p : string) : disk :=
  Disk (delete p d.(files)) d.(dirs).

(** ** Archive *)

Record ZipInfo := {
  filename : string;
  file_size : Z;       (* declared, attacker-controlled *)
  external_attr : Z;
  chunks : list bytes  (* what the decompressor delivers *)
}.

Definition _DECLARED_SIZE_SLOP : Z := 1024.

(** The file-type mask 0o170000, symbolic link 0o120000, directory 0o040000. *)
Definition _S_IFMT : Z := 0xF000.
Definition _S_IFLNK : Z := 0xA000.
Definition S_IFDIR : Z := 0x4000.

Inductive zip_error :=
  | DeclaredTooLarge
  | SymlinkRejected (name : string)
  | PathEscape (name : string)
  | EntryTooLarge (name : string)  (* ExtractionSizeError, entry overran its size *)
  | TotalTooLarge (target : string) (* ExtractionSizeError, running total *)
  | OsError.

Definition unix_mode (info : ZipInfo) : Z :=
  Z.land (Z.shiftr info.(external_attr) 16) _S_IFMT.

Section Extract.
Context (realpath : string -> string).
Context (real_dest : string) (max_size : Z) (entry_filter : option (string -> bool)).

Definition target_of (info : ZipInfo) : string :=
  realpath (path_join real_dest (lstrip_char slash info.(filename))).

(** The [while True] loop over [src.read]: an empty chunk ends the entry; an entry
    that overruns its declared size plus slop is unlinked. *)
Fixpoint stream (d : disk) (target : string) (limit entry_bytes : Z) (name : string)
    (cs : list bytes) : disk * res zip_error Z :=
  match cs with
  | [] | [] :: _ => (d, Ok entry_bytes)
  | c :: cs' =>
      let entry_bytes' := entry_bytes + zlen c in
      if decide (entry_bytes' > limit) then (unlink d target, Err (EntryTooLarge name))
      else stream (append_file d target c) target limit entry_bytes' name cs'
  end.

Definition filtered_out (info : ZipInfo) : bool :=
  match entry_filter with Some f => negb (f info.(filename)) | None => false end.

Definition is_directory_entry (info : ZipInfo) : bool :=
  endswith info.(filename) "/" || bool_decide (unix_mode info = S_IFDIR).

(** Writing one file entry, after the checks. *)
Definition write_entry (d : disk) (bytes_written : Z) (info : ZipInfo) : disk * res zip_error Z :=
  let target := target_of info in
  let parent := dirname target in
  let made := if bool_decide (parent <> "") && negb (path_exists d parent)
              then makedirs d parent else Some d in
  match made with
  | None => (d, Err OsError)
  | Some d1 =>
      match open_wb d1 target with
      | None => (d1, Err OsError)
      | Some d2 =>
          match stream d2 target (info.(file_size) + _DECLARED_SIZE_SLOP) 0 info.(filename) info.(chunks) with
          | (d3, Err e) => (d3, Err e)
          | (d3, Ok entry_bytes) =>
              let total := bytes_written + entry_bytes in
              if decide (total > max_size) then (d3, Err (TotalTooLarge target))
              else (d3, Ok total)
          end
      end
  end.

(** One turn of the [for info in entries] loop. *)
Definition extract_entry (d : disk) (bytes_written : Z) (info : ZipInfo) : disk * res zip_error Z :=
  if decide (unix_mode info = _S_IFLNK) then (d, Err (SymlinkRejected info.(filename)))
  else
    let clean_name := lstrip_char slash info.(filename) in
    if bool_decide (clean_name = "") || bool_decide (clean_name = ".") then (d, Ok bytes_written)
    else
      let target := target_of info in
      if bool_decide (target <> real_dest) && negb (startswith target (real_dest +:+ "/"))
      then (d, Err (PathEscape info.(filename)))
      else if filtered_out info then (d, Ok bytes_written)
      else if is_directory_entry info then
        match makedirs d target with
        | None => (d, Err OsError)
        | Some d' => (d', Ok bytes_written)
        end
      else write_entry d bytes_written info.

Fixpoint extract_entries (d : disk) (bytes_written : Z) (entries : list ZipInfo) : disk * res zip_error Z :=
  match entries with
  | [] => (d, Ok bytes_written)
  | info :: entries' =>
      match extract_entry d bytes_written info with
      | (d', Ok n) => extract_entries d' n entries'
      | (d', Err e) => (d', Err e)
      end
  end.

(** ** Reference: what a successful extraction writes *)

(** The data of an entry: its chunks up to the first empty one. *)
Fixpoint entry_data (cs : list bytes) : bytes :=
  match cs with
  | [] | [] :: _ => []
  | c :: cs' => c ++ entry_data cs'
  end.

(** The entries that are written as files. *)
Definition written (info : ZipInfo) : bool :=
  let clean_name := lstrip_char slash info.(filename) in
  negb (bool_decide (clean_name = "") || bool_decide (clean_name = ".")
        || filtered_out info || is_directory_entry info).

Definition expected_files (fs : gmap string bytes) (entries : list ZipInfo) : gmap string bytes :=
  foldl (fun fs info => if written info then <[target_of info := entry_data info.(chunks)]> fs else fs)
        fs entries.
End Extract.

Definition declared_total (entries : list ZipInfo) : Z :=
  foldr (fun e acc => e.(file_size) + acc) 0 entries.

Definition safe_extract_zip (realpath : string -> string) (max_size : Z)
    (entry_filter : option (string -> bool)) (dest : string) (d : disk)
    (entries : list ZipInfo) : disk * res zip_error Z :=
  let real_dest := realpath dest in
  if decide (declared_total entries > max_size) then (d, Err DeclaredTooLarge)
  else extract_entries realpath real_dest max_size entry_filter d 0 entries.

(** ** The bytes on a disk *)

Definition disk_bytes (d : disk) : Z := map_fold (fun _ b acc => zlen b + acc) 0 d.(files).

Lemma fold_insert_None (m : gmap string bytes) p b :
  m !! p = None ->
  map_fold (fun _ b acc => zlen b + acc) 0 (<[p := b]> m)
    = zlen b + map_fold (fun _ b acc => zlen b + acc) 0 m.
Proof. intros Hp. rewrite map_fold_insert_L; [done | intros; lia | done]. Qed.

Lemma fold_insert (m : gmap string bytes) p b :
  map_fold (fun _ b acc => zlen b + acc) 0 (<[p := b]> m)
    = map_fold (fun _ b acc => zlen b + acc) 0 m - zlen (default [] (m !! p)) + zlen b.
Proof.
  destruct (m !! p) as [b0|] eqn:E; cbn.
  - rewrite <- (insert_delete_eq m p b), fold_insert_None by apply lookup_delete_eq.
    assert (m = <[p := b0]> (delete p m)) as Hm by (by rewrite insert_delete_id).
    rewrite Hm at 2. rewrite fold_insert_None by apply lookup_delete_eq. lia.
  - rewrite fold_insert_None by done. pose proof (@zlen_nil byte). lia.
Qed.

Lemma disk_bytes_open d p d' : open_wb d p = Some d' -> disk_bytes d' <= disk_bytes d.
Proof.
  unfold open_wb. case_decide; [done|]. intros [= <-]. unfold disk_bytes; cbn.
  rewrite fold_insert. pose proof (@zlen_nil byte). pose proof (zlen_nonneg (default [] (files d !! p))). lia.
Qed.

Lemma disk_bytes_append d p c : disk_bytes (append_file d p c) = disk_bytes d + zlen c.
Proof. unfold disk_bytes, append_file; cbn. rewrite fold_insert, zlen_app. lia. Qed.

Lemma disk_bytes_unlink d p : disk_bytes (unlink d p) <= disk_bytes d.
Proof.
  unfold disk_bytes, unlink; cbn. destruct (files d !! p) as [b|] eqn:E.
  - assert (files d = <[p := b]> (delete p (files d))) as Hm by (by rewrite insert_delete_id).
    rewrite Hm at 2. rewrite fold_insert_None by apply lookup_delete_eq.
    pose proof (zlen_nonneg b). lia.
  - by rewrite delete_id.
Qed.

Lemma makedirs_files d p d' : makedirs d p = Some d' -> files d' = files d.
Proof. unfold makedirs. case_decide; [done|]. by intros [= <-]. Qed.

Lemma disk_bytes_files d d' : files d' = files d -> disk_bytes d' = disk_bytes d.
Proof. unfold disk_bytes. by intros ->. Qed.

(** ** One entry *)

Lemma stream_frame d t limit eb name cs p :
  p <> t -> files (stream d t limit eb name cs).1 !! p = files d !! p.
Proof.
  intros Hp. revert d eb. induction cs as [|[|b c] cs IH]; intros d eb; cbn [stream]; [done..|].
  case_decide; cbn.
  - by rewrite lookup_delete_ne.
  - rewrite IH. cbn. by rewrite lookup_insert_ne.
Qed.

Lemma stream_bytes d t limit eb name cs :
  eb <= limit ->
  disk_bytes (stream d t limit eb name cs).1 <= disk_bytes d + (limit - eb) /\
  forall n, (stream d t limit eb name cs).2 = Ok n ->
    eb <= n <= limit /\ disk_bytes (stream d t limit eb name cs).1 = disk_bytes d + (n - eb).
Proof.
  revert d eb. induction cs as [|[|b c] cs IH]; intros d eb Hl; cbn [stream].
  - cbn. split; [lia|]. intros n [= <-]. lia.
  - cbn. split; [lia|]. intros n [= <-]. lia.
  - case_decide as Hgt; cbn.
    + pose proof (disk_bytes_unlink d t). split; [lia | done].
    + destruct (IH (append_file d t (b :: c)) (eb + zlen (b :: c)) ltac:(lia)) as [H1 H2].
      rewrite disk_bytes_append in *. pose proof (zlen_nonneg (b :: c)).
      split; [lia|]. intros n Hn. specialize (H2 n Hn). lia.
Qed.

Lemma stream_ok d t limit eb name cs n old :
  files d !! t = Some old ->
  (stream d t limit eb name cs).2 = Ok n ->
  files (stream d t limit eb name cs).1 = <[t := old ++ entry_data cs]> (files d) /\
  n = eb + zlen (entry_data cs).
Proof.
  revert d eb old. induction cs as [|[|b c] cs IH]; intros d eb old Hold; cbn [stream entry_data].
  - cbn. intros [= <-]. rewrite app_nil_r, zlen_nil, insert_id by done. split; [done|lia].
  - cbn. intros [= <-]. rewrite app_nil_r, zlen_nil, insert_id by done. split; [done|lia].
  - case_decide; [done|]. intros Hn.
    destruct (IH (append_file d t (b :: c)) (eb + zlen (b :: c)) (old ++ b :: c)) as [H1 H2];
      [cbn; rewrite Hold; apply lookup_insert_eq | done |].
    split; [|rewrite zlen_app; lia].
    rewrite H1. cbn. by rewrite insert_insert_eq, <- app_assoc.
Qed.

Lemma stream_dirs d t limit eb name cs : dirs (stream d t limit eb name cs).1 = dirs d.
Proof.
  revert d eb. induction cs as [|[|b c] cs IH]; intros d eb; cbn [stream]; [done..|].
  case_decide; [done|]. by rewrite IH.
Qed.

(** The ancestors of a path below the root are below it or are its own ancestors. *)
Lemma parents_under root n p q :
  good_root root -> under root p -> q ∈ parents n p ->
  under root q \/ exists m, q ∈ parents m root.
Proof.
  intros Hg. revert p. induction n as [|n IH]; intros p Hp Hq; cbn in Hq; [set_solver|].
  destruct Hp as [-> | [t Ht]]; [right; by exists (S n)|].
  destruct (_ || _); [set_solver|]. pose proof (under_dirname root t Hg) as Hd.
  rewrite <- Ht in Hd. apply elem_of_cons in Hq as [-> | Hq]; [by left | by apply (IH (dirname p))].
Qed.

(** The destination exists: it and its ancestors are directories. *)
Definition dest_exists (root : string) (d : disk) : Prop :=
  root ∈ dirs d /\ forall m q, q ∈ parents m root -> q ∈ dirs d.

(** Two disks that agree outside [root]. *)
Definition same_outside (root : string) (d d' : disk) : Prop :=
  dirs d ⊆ dirs d' /\
  forall q, ~ under root q -> files d' !! q = files d !! q /\ (q ∈ dirs d' <-> q ∈ dirs d).

#[export] Instance same_outside_preorder root : PreOrder (same_outside root).
Proof.
  split; [by intros d; split | intros d1 d2 d3 [S1 H1] [S2 H2]].
  split; [set_solver|]. intros q Hq. specialize (H1 q Hq). specialize (H2 q Hq).
  destruct H1, H2. split; [congruence|]. tauto.
Qed.

Lemma same_outside_exists root d d' :
  same_outside root d d' -> dest_exists root d -> dest_exists root d'.
Proof. intros [Hs _] [Hr Hp]. split; [set_solver | intros m q Hq; set_solver]. Qed.

Lemma makedirs_outside root d p d' :
  good_root root -> under root p -> dest_exists root d -> makedirs d p = Some d' ->
  same_outside root d d'.
Proof.
  intros Hg Hp [_ Hex] H. pose proof (makedirs_files _ _ _ H) as Hf.
  unfold makedirs in H. case_decide; [done|]. injection H as <-. cbn in *.
  split; cbn; [set_solver|]. intros q Hq. split; [done|].
  rewrite !elem_of_union, elem_of_singleton, elem_of_list_to_set. split; [|by auto].
  intros [[->|Hin]|?]; [done | | done].
  destruct (parents_under root _ p q Hg Hp Hin) as [?|[m ?]]; [done | by eapply Hex].
Qed.

Lemma file_outside root d d' t :
  under root t -> dirs d' = dirs d -> (forall q, q <> t -> files d' !! q = files d !! q) ->
  same_outside root d d'.
Proof.
  intros Ht Hd Hf. split; [by rewrite Hd|]. intros q Hq. rewrite Hd.
  split; [apply Hf; by intros -> | done].
Qed.

Section Entry.
Context (realpath : string -> string) (root : string) (max_size : Z).
Context (entry_filter : option (string -> bool)) (Hroot : good_root root).

Lemma write_entry_outside d n info :
  under root (target_of realpath root info) -> dest_exists root d ->
  same_outside root d (write_entry realpath root max_size d n info).1.
Proof.
  intros Ht Hex. unfold write_entry. set (t := target_of realpath root info) in *.
  destruct (if _ && _ then _ else _) as [d1|] eqn:E1; [|done].
  assert (same_outside root d d1) as S1.
  { destruct (_ && _) eqn:Ec; [|by injection E1 as <-].
    eapply makedirs_outside; [done | | done | done].
    destruct Ht as [Ht | [u Hu]]; [|rewrite Hu; by apply under_dirname].
    exfalso. rewrite Ht in Ec. apply andb_true_iff in Ec as [Hne Ec].
    apply bool_decide_eq_true in Hne. pose proof (dirname_shorter root Hroot).
    unfold path_exists in Ec. rewrite bool_decide_eq_true_2 in Ec; [done|].
    apply (proj2 Hex 1%nat). cbn. rewrite !bool_decide_eq_false_2; [set_solver | done |].
    intros E. rewrite E in *. lia. }
  destruct (open_wb d1 t) as [d2|] eqn:E2; [|done].
  assert (same_outside root d d2) as S2.
  { etransitivity; [exact S1|]. unfold open_wb in E2. case_decide; [done|]. injection E2 as <-.
    apply (file_outside root _ _ t); cbn; [done.. |]. intros q Hq. by rewrite lookup_insert_ne. }
  assert (same_outside root d (stream d2 t (file_size info + _DECLARED_SIZE_SLOP) 0
                                (filename info) (chunks info)).1) as S3.
  { etransitivity; [exact S2|]. apply (file_outside root _ _ t); [done | apply stream_dirs|].
    intros q Hq. by apply stream_frame. }
  destruct (stream _ _ _ _ _ _) as [d3 [m|e]]; cbn in *; [|done]. by destruct (decide _).
Qed.

Lemma extract_entry_outside d n info :
  dest_exists root d ->
  same_outside root d (extract_entry realpath root max_size entry_filter d n info).1.
Proof.
  intros Hex. unfold extract_entry. case_decide; [done|].
  destruct (_ || _); [done|]. set (t := target_of realpath root info) in *.
  destruct (bool_decide (t <> root) && _) eqn:Ec; [done|].
  assert (under root t) as Ht.
  { apply under_check_spec. unfold under_check. rewrite bool_decide_not in Ec.
    by destruct (bool_decide (t = root)), (startswith t _). }
  destruct (filtered_out _ _); [done|]. destruct (is_directory_entry _).
  - destruct (makedirs d t) as [d'|] eqn:E; [|done]. by apply (makedirs_outside root d t).
  - by apply write_entry_outside.
Qed.

Lemma extract_entries_outside d n infos :
  dest_exists root d ->
  same_outside root d (extract_entries realpath root max_size entry_filter d n infos).1.
Proof.
  revert d n. induction infos as [|info infos IH]; intros d n Hex; cbn [extract_entries]; [done|].
  pose proof (extract_entry_outside d n info Hex) as H.
  destruct (extract_entry _ _ _ _ _ _ _) as [d' [m|e]]; cbn in *; [|done].
  etransitivity; [exact H|]. apply IH. by eapply same_outside_exists.
Qed.
End Entry.

(** ** Accounting *)

Section Budget.
Context (realpath : string -> string) (root : string) (max_size : Z).
Context (entry_filter : option (string -> bool)).

Lemma write_entry_bytes d n info :
  0 <= file_size info ->
  let r := write_entry realpath root max_size d n info in
  disk_bytes r.1 <= disk_bytes d + file_size info + _DECLARED_SIZE_SLOP /\
  forall m, r.2 = Ok m -> n <= m <= max_size /\ disk_bytes r.1 <= disk_bytes d + (m - n).
Proof.
  intros Hsz r. subst r. unfold write_entry, _DECLARED_SIZE_SLOP.
  set (t := target_of realpath root info).
  destruct (if _ && _ then _ else _) as [d1|] eqn:E1; [|cbn; split; [lia|done]].
  assert (disk_bytes d1 = disk_bytes d) as H1.
  { destruct (_ && _); [|by injection E1 as <-]. apply disk_bytes_files. by eapply makedirs_files. }
  destruct (open_wb d1 t) as [d2|] eqn:E2; [|cbn; split; [lia|done]].
  apply disk_bytes_open in E2.
  destruct (stream_bytes d2 t (file_size info + 1024) 0 (filename info) (chunks info) ltac:(lia)) as [H3 H4].
  destruct (stream _ _ _ _ _ _) as [d3 [m|e]]; cbn [fst snd] in *; [|split; [lia|done]].
  destruct (H4 m eq_refl) as [H5 H6].
  clear E1. case_decide; cbn; (split; [lia|]); [done|]. intros k [= <-]. lia.
Qed.

Lemma extract_entry_bytes d n info :
  0 <= file_size info ->
  let r := extract_entry realpath root max_size entry_filter d n info in
  disk_bytes r.1 <= disk_bytes d + file_size info + _DECLARED_SIZE_SLOP /\
  forall m, r.2 = Ok m -> n <= m /\ (n <= max_size -> m <= max_size) /\
                          disk_bytes r.1 <= disk_bytes d + (m - n).
Proof.
  intros Hsz r. subst r. unfold extract_entry.
  assert (0 <= _DECLARED_SIZE_SLOP) as Hs by done.
  case_decide; [cbn; split; [lia|done]|].
  destruct (_ || _); [cbn; split; [lia | intros ? [= <-]; lia]|].
  destruct (_ && _); [cbn; split; [lia|done]|].
  destruct (filtered_out _ _); [cbn; split; [lia | intros ? [= <-]; lia]|].
  destruct (is_directory_entry _).
  - destruct (makedirs _ _) as [d'|] eqn:E; cbn; [|split; [lia|done]].
    rewrite (disk_bytes_files d d') by (by eapply makedirs_files).
    split; [lia | intros ? [= <-]; lia].
  - destruct (write_entry_bytes d n info Hsz) as [H1 H2]. split; [done|].
    intros m Hm. specialize (H2 m Hm). lia.
Qed.

Lemma declared_total_nonneg infos :
  Forall (fun i => 0 <= file_size i <= max_size) infos -> 0 <= declared_total infos.
Proof. induction 1; cbn; [done|]. unfold declared_total in *. lia. Qed.

Lemma extract_entries_bytes d n infos :
  0 <= n <= max_size -> Forall (fun i => 0 <= file_size i <= max_size) infos ->
  let r := extract_entries realpath root max_size entry_filter d n infos in
  disk_bytes r.1 <= disk_bytes d + declared_total infos + _DECLARED_SIZE_SLOP * zlen infos /\
  disk_bytes r.1 <= disk_bytes d + (max_size - n) + max_size + _DECLARED_SIZE_SLOP /\
  forall m, r.2 = Ok m -> n <= m <= max_size /\ disk_bytes r.1 <= disk_bytes d + (m - n).
Proof.
  intros Hn Hsz. revert d n Hn. assert (0 <= _DECLARED_SIZE_SLOP) as Hs by done.
  induction Hsz as [|info infos Hi H' IH]; intros d n Hn r; subst r; cbn [extract_entries].
  - cbn. change (zlen (@nil ZipInfo)) with 0. split; [lia|]. split; [lia|]. intros m [= <-]. lia.
  - destruct (extract_entry_bytes d n info (proj1 Hi)) as [H1 H2]. cbn [declared_total foldr].
    rewrite zlen_cons. fold (declared_total infos).
    unfold _DECLARED_SIZE_SLOP in *. pose proof (zlen_nonneg infos). pose proof (declared_total_nonneg infos H').
    destruct (extract_entry _ _ _ _ _ _ _) as [d' [m|e]]; cbn [fst snd] in *;
      [|split; [lia|]; split; [lia|done]].
    destruct (H2 m eq_refl) as (Hm & Hmx & Hd). destruct (IH d' m ltac:(lia)) as (I1 & I2 & I3).
    split; [lia|]. split; [lia|]. intros k Hk. specialize (I3 k Hk). lia.
Qed.
End Budget.

(** ** What a successful run wrote, and what it refused *)

Section Success.
Context (realpath : string -> string) (root : string) (max_size : Z).
Context (entry_filter : option (string -> bool)).

Lemma write_entry_files d n info d' m :
  write_entry realpath root max_size d n info = (d', Ok m) ->
  files d' = <[target_of realpath root info := entry_data (chunks info)]> (files d) /\
  m = n + zlen (entry_data (chunks info)).
Proof.
  unfold write_entry. set (t := target_of realpath root info).
  destruct (if _ && _ then _ else _) as [d1|] eqn:E1; [|done].
  assert (files d1 = files d) as H1.
  { destruct (_ && _); [|by injection E1 as <-]. by eapply makedirs_files. }
  clear E1. destruct (open_wb d1 t) as [d2|] eqn:E2; [|done].
  unfold open_wb in E2. destruct (decide _) in E2; [done|]. injection E2 as <-.
  destruct (stream _ _ _ _ _ _) as [d3 [k|e]] eqn:E3; [|done].
  case_decide; [done|]. intros [= <- <-].
  destruct (stream_ok (Disk (<[t:=[]]> (files d1)) (dirs d1)) t
    (file_size info + _DECLARED_SIZE_SLOP) 0 (filename info) (chunks info) k [])
    as [H2 ->]; [apply lookup_insert_eq | by rewrite E3 |].
  rewrite E3 in H2. cbn in H2. rewrite H2, insert_insert_eq, H1. split; [done|lia].
Qed.

(** What the checks establish about an entry that did not raise. *)
Definition entry_safe (info : ZipInfo) : Prop :=
  unix_mode info <> _S_IFLNK /\
  (lstrip_char slash (filename info) <> "" -> lstrip_char slash (filename info) <> "." ->
   under root (target_of realpath root info)).

Lemma extract_entry_ok d n info d' m :
  extract_entry realpath root max_size entry_filter d n info = (d', Ok m) ->
  entry_safe info /\
  files d' = if written entry_filter info
             then <[target_of realpath root info := entry_data (chunks info)]> (files d)
             else files d.
Proof.
  unfold extract_entry, written, entry_safe. case_decide; [done|].
  destruct (_ || _) eqn:Es; cbn [orb negb].
  { intros [= <- <-]. split; [|done]. split; [done|].
    apply orb_true_iff in Es as [Es|Es]; apply bool_decide_eq_true in Es; done. }
  destruct (_ && _) eqn:Ec; [done|].
  assert (under root (target_of realpath root info)) as Ht.
  { apply under_check_spec. unfold under_check. rewrite bool_decide_not in Ec.
    by destruct (bool_decide (target_of realpath root info = root)), (startswith _ _). }
  destruct (filtered_out _ _); cbn [orb negb]; [by intros [= <- <-]|].
  destruct (is_directory_entry _); cbn [negb].
  - destruct (makedirs _ _) eqn:E; [|done]. intros [= <- <-].
    split; [done | by eapply makedirs_files].
  - intros Hw. split; [done|]. by apply write_entry_files in Hw as [-> _].
Qed.

Lemma extract_entries_ok d n infos d' m :
  extract_entries realpath root max_size entry_filter d n infos = (d', Ok m) ->
  Forall entry_safe infos /\
  files d' = expected_files realpath root entry_filter (files d) infos.
Proof.
  revert d n. induction infos as [|info infos IH]; intros d n; cbn [extract_entries].
  - by intros [= <- <-].
  - destruct (extract_entry _ _ _ _ _ _ _) as [d1 [k|e]] eqn:E; [|done].
    apply extract_entry_ok in E as [Hs Hf]. intros [Hss Hff]%IH.
    split; [by constructor|]. rewrite Hff, Hf. cbn. by destruct (written _ _).
Qed.
End Success.

(** ** Properties *)

(** A disk with an empty destination, and a realpath that normalises. *)
Definition fresh_disk : disk := Disk {[ "/etc/passwd" := bs "root" ]} {[ "/"; "/w"; "/etc" ]}.
Definition plain_entry (name : string) (size : Z) (cs : list bytes) : ZipInfo :=
  {| filename := name; file_size := size; external_attr := 0; chunks := cs |}.

(** C2. Whatever the archive holds and however the extraction ends, nothing outside
    the destination directory is created, changed or removed. *)
Theorem safe_extract_zip_contained realpath max_size entry_filter dest d entries p :
  good_root (realpath dest) -> dest_exists (realpath dest) d -> ~ under (realpath dest) p ->
  let d' := (safe_extract_zip realpath max_size entry_filter dest d entries).1 in
  files d' !! p = files d !! p /\ (p ∈ dirs d' <-> p ∈ dirs d).
Proof.
  intros Hg Hex Hp. unfold safe_extract_zip. case_decide; [done|].
  by apply (proj2 (extract_entries_outside realpath _ max_size entry_filter Hg d 0 entries Hex)).
Qed.

Lemma safe_extract_zip_contained_witness :
  let d' := (safe_extract_zip normpath 4096 None "/w" fresh_disk
               [plain_entry "a/b" 3 [bs "abc"]; plain_entry "../etc/passwd" 1 [bs "x"]]).1 in
  files d' !! "/etc/passwd" = files fresh_disk !! "/etc/passwd" /\
  ("/etc/passwd" ∈ dirs d' <-> "/etc/passwd" ∈ dirs fresh_disk).
Proof.
  apply (safe_extract_zip_contained normpath 4096 None "/w" fresh_disk
           [plain_entry "a/b" 3 [bs "abc"]; plain_entry "../etc/passwd" 1 [bs "x"]] "/etc/passwd").
  - by vm_compute.
  - split; [by vm_compute|]. intros [|[|m]] q; cbn; [set_solver..].
  - intros H. apply under_check_spec in H. by vm_compute in H.
Defined.

(** C35. Decompression is bounded whatever the headers declare: in every outcome the
    disk grows by at most the declared total plus 1 KiB per entry (the total was
    checked against [max_size] first) and by at most [2 * max_size + 1 KiB]; a
    successful run wrote at most [max_size] bytes. *)
Theorem safe_extract_zip_bounded realpath max_size entry_filter dest d entries :
  Forall (fun i => 0 <= file_size i) entries ->
  let r := safe_extract_zip realpath max_size entry_filter dest d entries in
  disk_bytes r.1 <= disk_bytes d + Z.max 0 max_size + _DECLARED_SIZE_SLOP * zlen entries /\
  disk_bytes r.1 <= disk_bytes d + 2 * Z.max 0 max_size + _DECLARED_SIZE_SLOP /\
  forall n, r.2 = Ok n -> 0 <= n <= max_size /\ disk_bytes r.1 <= disk_bytes d + n.
Proof.
  intros Hsz r. subst r. unfold safe_extract_zip. pose proof (zlen_nonneg entries).
  unfold _DECLARED_SIZE_SLOP. case_decide as Hd; [cbn; split_and!; [lia..|done]|].
  assert (Forall (fun i => 0 <= file_size i <= max_size) entries /\ 0 <= declared_total entries)
    as [Hsz' H0].
  { assert (declared_total entries <= max_size) as Hd' by lia. clear Hd H. rename Hd' into Hd.
    induction Hsz as [|i l Hi Hl IH]; cbn in Hd |- *; [by split|].
    assert (0 <= declared_total l) as H0.
    { clear -Hl. induction Hl; cbn; [done|]. unfold declared_total in *. lia. }
    unfold declared_total in *. destruct IH as [IH _]; [lia|]. split; [constructor; [lia|done]|lia]. }
  destruct (extract_entries_bytes realpath (realpath dest) max_size entry_filter d 0 entries
              ltac:(lia) Hsz') as (H1 & H2 & H3).
  unfold _DECLARED_SIZE_SLOP in *. split; [lia|]. split; [lia|].
  intros n Hn. specialize (H3 n Hn). lia.
Qed.

Definition bomb : list ZipInfo :=
  [plain_entry "ok" 4 [bs "abcd"]; plain_entry "bomb" 1 (replicate 30 (replicate 100 Byte.x00))].

Lemma safe_extract_zip_bounded_witness :
  let r := safe_extract_zip normpath 4096 None "/w" fresh_disk bomb in
  r.2 = Err (EntryTooLarge "bomb") /\
  disk_bytes r.1 <= disk_bytes fresh_disk + 2 * Z.max 0 4096 + _DECLARED_SIZE_SLOP.
Proof.
  split; [by vm_compute|].
  destruct (safe_extract_zip_bounded normpath 4096 None "/w" fresh_disk bomb) as (_ & H & _).
  - repeat constructor; done.
  - exact H.
Defined.

(** When the extraction succeeds, the files of the destination are exactly the old
    ones overwritten, in archive order, by the entries that pass the filter and
    are not directories, each with the whole data of its entry; and no entry of
    the archive, filtered out or not, was a symbolic link or left the destination. *)
Theorem safe_extract_zip_writes realpath max_size entry_filter dest d entries d' n :
  safe_extract_zip realpath max_size entry_filter dest d entries = (d', Ok n) ->
  files d' = expected_files realpath (realpath dest) entry_filter (files d) entries /\
  Forall (entry_safe realpath (realpath dest)) entries.
Proof.
  unfold safe_extract_zip. case_decide; [done|]. intros H'.
  by apply extract_entries_ok in H' as [? ?].
Qed.

Definition two_entries : list ZipInfo :=
  [plain_entry "a/" 0 []; plain_entry "/a/x" 4 [bs "ab"; bs "cd"]; plain_entry "skip" 2 [bs "zz"]].

Lemma safe_extract_zip_writes_witness :
  files (safe_extract_zip normpath 4096 (Some (fun n => negb (contains "skip" n))) "/w" fresh_disk
           two_entries).1
    = <["/w/a/x" := bs "abcd"]> (files fresh_disk).
Proof.
  set (flt := Some (fun n => negb (contains "skip" n))).
  destruct (safe_extract_zip normpath 4096 flt "/w" fresh_disk two_entries) as [d' r] eqn:E.
  assert (r = Ok 4) as -> by (apply (f_equal snd) in E; vm_compute in E; by rewrite <- E).
  destruct (safe_extract_zip_writes normpath 4096 flt "/w" fresh_disk two_entries d' 4 E) as [H _].
  cbn [fst]. rewrite H. by vm_compute.
Defined.

(** A run that fails on the running total leaves the payload of the offending entry
    on disk: only an entry that overruns its own declared size is removed.  Here
    one entry within its slop pushes the total over the limit and stays. *)
Theorem safe_extract_zip_leaves_payload :
  let r := safe_extract_zip normpath 100 None "/w" fresh_disk
             [plain_entry "big" 1 [replicate 500 Byte.x41]] in
  r.2 = Err (TotalTooLarge "/w/big") /\
  files r.1 !! "/w/big" = Some (replicate 500 Byte.x41).
Proof. by vm_compute. Qed.
