(* ===== verification/Json.v ===== *)
(** * JSON values as Python sees them

    The values a JSONB column can hold, with the tests and conversions the
    backend applies to them: [isinstance], truthiness, [==] with an integer,
    [str], [repr], [int] and dictionary access.  A dictionary keeps its insertion
    order.  A float is represented by what the code can observe of it. *)

From S2P Require Import Prelude PyText.
From Stdlib Require Import Ascii String.
Import (notations) Ascii String.
#[local] Open Scope Z_scope.

(** A float: its [repr], its truncation ([None] for infinities and NaN) and
    whether it is integral. *)
Record pyfloat := { f_repr : string; f_trunc : option Z; f_integral : bool }.

Inductive json :=
  | JNull
  | JBool (b : bool)
  | JInt (z : Z)
  | JFloat (f : pyfloat)
  | JStr (s : string)
  | JList (l : list json)
  | JDict (d : list (string * json)).

Abbreviation pydict := (list (string * json)).

(** ** Tests *)

Definition is_dict (v : json) : bool := match v with JDict _ => true | _ => false end.
Definition is_list (v : json) : bool := match v with JList _ => true | _ => false end.
Definition is_str (v : json) : bool := match v with JStr _ => true | _ => false end.
Definition is_null (v : json) : bool := match v with JNull => true | _ => false end.

Definition py_truthy (v : json) : bool :=
  match v with
  | JNull => false
  | JBool b => b
  | JInt z => negb (z =? 0)
  | JFloat f => negb (f.(f_integral) && bool_decide (f.(f_trunc) = Some 0))
  | JStr s => bool_decide (s <> "")
  | JList l => match l with [] => false | _ => true end
  | JDict d => match d with [] => false | _ => true end
  end.

(** [v == n]: [True == 1] and [1.0 == 1] hold in Python. *)
Definition py_eq_int (v : json) (n : Z) : bool :=
  match v with
  | JBool b => (if b then 1 else 0) =? n
  | JInt z => z =? n
  | JFloat f => f.(f_integral) && bool_decide (f.(f_trunc) = Some n)
  | _ => false
  end.

(** ** Dictionaries

    A [dict]: the bindings in insertion order. *)

Fixpoint dict_get {K} `{!EqDecision K} {A} (k : K) (d : list (K * A)) : option A :=
  match d with
  | [] => None
  | (k', v) :: d' => if decide (k' = k) then Some v else dict_get k d'
  end.

(** [d[k] = v]: replaced in place, or appended. *)
Fixpoint dict_set {K} `{!EqDecision K} {A} (k : K) (v : A) (d : list (K * A)) : list (K * A) :=
  match d with
  | [] => [(k, v)]
  | (k', v') :: d' => if decide (k' = k) then (k, v) :: d' else (k', v') :: dict_set k v d'
  end.

(** [d.get(k, default)] and [k in d]. *)
Definition dict_get_or {K} `{!EqDecision K} {A} (k : K) (dflt : A) (d : list (K * A)) : A := default dflt (dict_get k d).
Definition dict_has {K} `{!EqDecision K} {A} (k : K) (d : list (K * A)) : bool := bool_decide (is_Some (dict_get k d)).

Lemma dict_get_elem {K} `{!EqDecision K} {A} (k : K) (v : A) (d : list (K * A)) :
  dict_get k d = Some v -> (k, v) ∈ d.
Proof.
  induction d as [|[k' v'] d IH]; intros H; [done|]. cbn in H.
  case_decide; simplify_eq; [left|right; by apply IH].
Qed.

Lemma dict_get_set_eq {K} `{!EqDecision K} {A} (k : K) (v : A) d : dict_get k (dict_set k v d) = Some v.
Proof.
  induction d as [|[k' v'] d IH]; cbn; [by rewrite decide_True|].
  case_decide; cbn; [by rewrite decide_True|]. by rewrite decide_False.
Qed.

Lemma dict_get_set_ne {K} `{!EqDecision K} {A} (k k' : K) (v : A) d : k' <> k -> dict_get k' (dict_set k v d) = dict_get k' d.
Proof.
  intros Hk. induction d as [|[k1 v1] d IH]; cbn; [by rewrite decide_False|].
  case_decide as E; cbn; [subst; by rewrite !decide_False|]. by rewrite IH.
Qed.

Lemma dict_set_id {K} `{!EqDecision K} {A} (k : K) (v : A) d : dict_get k d = Some v -> dict_set k v d = d.
Proof.
  induction d as [|[k' v'] d IH]; cbn; [done|].
  case_decide; [intros [= ->]; by subst|]. intros Hd. by rewrite IH.
Qed.

Lemma dict_set_set {K} `{!EqDecision K} {A} (k : K) (v : A) d : dict_set k v (dict_set k v d) = dict_set k v d.
Proof. apply dict_set_id, dict_get_set_eq. Qed.

Lemma dict_set_nonempty {K} `{!EqDecision K} {A} (k : K) (v : A) d : dict_set k v d <> [].
Proof. destruct d as [|[k' v'] d]; cbn; [done|]. by case_decide. Qed.

Lemma dict_set_nodup_keys {K} `{!EqDecision K} {A} (k : K) (v : A) (d : list (K * A)) :
  NoDup d.*1 -> NoDup (dict_set k v d).*1 /\ forall k', k' ∈ (dict_set k v d).*1 <-> k' = k \/ k' ∈ d.*1.
Proof.
  induction d as [|[k1 v1] d IH]; intros Hn; cbn [dict_set].
  - split; [apply NoDup_singleton|]. intros k'. cbn. by rewrite elem_of_cons.
  - cbn in Hn. apply NoDup_cons in Hn as [H1 Hn]. case_decide as E.
    + subst k1. cbn. split; [by apply NoDup_cons|]. intros k'. rewrite elem_of_cons. naive_solver.
    + destruct (IH Hn) as [H2 H3]. cbn. split; [apply NoDup_cons; split; [rewrite H3; naive_solver|done]|].
      intros k'. rewrite !elem_of_cons, H3. naive_solver.
Qed.

(** ** [repr] and [str] *)

(** The escape of one character inside quotes [q]; characters from 0x80 up are
    printed as they are. *)
Definition repr_char (q : ascii) (a : ascii) : string :=
  let n := Z.of_N (N_of_ascii a) in
  if decide (a = q) then String "\" (String a "")
  else if decide (a = "\"%char) then "\\"
  else if decide (n = 10) then "\n" else if decide (n = 13) then "\r"
  else if decide (n = 9) then "\t"
  else if decide (n < 32 \/ n = 127) then "\x" +:+ hex_pad 2 n
  else String a "".

Fixpoint repr_body (q : ascii) (s : string) : string :=
  match s with "" => "" | String a s' => repr_char q a +:+ repr_body q s' end.

Definition dquote : ascii := ascii_of_N 34.

Definition repr_str (s : string) : string :=
  let q := if has_char "'" s && negb (has_char dquote s) then dquote else "'"%char in
  String q (repr_body q s +:+ String q "").

Fixpoint py_repr (v : json) : string :=
  match v with
  | JNull => "None"
  | JBool b => str_bool b
  | JInt z => str_int z
  | JFloat f => f.(f_repr)
  | JStr s => repr_str s
  | JList l => "[" +:+ PyText.join ", " (py_repr <$> l) +:+ "]"
  | JDict d => "{" +:+ PyText.join ", " ((fun kv => repr_str kv.1 +:+ ": " +:+ py_repr kv.2) <$> d) +:+ "}"
  end.

Definition py_str (v : json) : string := match v with JStr s => s | _ => py_repr v end.

Example py_repr_ex :
  py_repr (JDict [("a", JList [JInt 1; JStr "it's"; JNull]); ("b", JBool true)])
    = "{'a': [1, " +:+ String dquote "it's" +:+ String dquote ", None], 'b': True}".
Proof. by vm_compute. Qed.

(** ** [int] *)

(** Decimal digits with single underscores between them; [last] is true after an
    underscore, where a digit must follow. *)
Fixpoint digits_value (acc : Z) (last : bool) (s : string) : option Z :=
  match s with
  | "" => if last then None else Some acc
  | String a s' =>
      if is_digit a then digits_value (10 * acc + (Z.of_N (N_of_ascii a) - 48)) false s'
      else if bool_decide (a = "_"%char) && negb last then digits_value acc true s'
      else None
  end.

Definition unsigned_value (s : string) : option Z :=
  match s with
  | String a s' => if is_digit a then digits_value (Z.of_N (N_of_ascii a) - 48) false s' else None
  | "" => None
  end.

(** [int(s)] of text, [None] where it raises [ValueError]. *)
Definition py_int_str (s : string) : option Z :=
  match strip s with
  | String "+" s' => unsigned_value s'
  | String "-" s' => Z.opp <$> unsigned_value s'
  | s' => unsigned_value s'
  end.

(** [int(v)], [None] where it raises. *)
Definition py_int (v : json) : option Z :=
  match v with
  | JBool b => Some (if b then 1 else 0)
  | JInt z => Some z
  | JFloat f => f.(f_trunc)
  | JStr s => py_int_str s
  | JNull | JList _ | JDict _ => None
  end.

Example py_int_ex :
  py_int_str " -1_000 " = Some (-1000) /\ py_int_str "0x10" = None /\ py_int_str "1__0" = None
  /\ py_int_str "" = None.
Proof. by vm_compute. Qed.
