(* ===== verification/Jsonb.v ===== *)
(** * JSONB column idioms ([services/jsonb_normalizers.py])

    The handful of coercions out of which the column normalisers and the
    writer-side stamps are built, the canonical shapes they produce and the
    lemmas about them.  A function that mutates its payload and returns it is
    modelled by the value it returns. *)

From S2P Require Import Prelude PyText Json.
From Stdlib Require Import Ascii String.
Import (notations) Ascii String.
#[local] Open Scope Z_scope.

(** [TypeError], or whatever [int()] raises. *)
Inductive py_error := TypeError | IntError.

(** ** Reading *)

(** [if isinstance(value, dict): return value; return dflt]. *)
Definition dict_or (value dflt : json) : json := if is_dict value then value else dflt.

(** [if not isinstance(value, list): return []; return [v for v in value if p(v)]]. *)
Definition keep_if (p : json -> bool) (value : json) : json :=
  match value with JList l => JList (List.filter p l) | _ => JList [] end.

(** [[str(v) for v in l if v is not None]]. *)
Definition str_items (l : list json) : list json :=
  (fun v => JStr (py_str v)) <$> List.filter (fun v => negb (is_null v)) l.

(** The list inside [{"items": [...]}], or a bare list. *)
Definition envelope_items (value : json) : option (list json) :=
  match value with
  | JDict d => match dict_get "items" d with Some (JList l) => Some l | _ => None end
  | JList l => Some l
  | _ => None
  end.

(** The loop [for item in value]: a dictionary is kept, [None] is dropped, anything
    else is wrapped by [mk]. *)
Definition wrap_items (mk : json -> pydict) (l : list json) : list json :=
  omap (fun item => match item with
                    | JDict _ => Some item
                    | JNull => None
                    | _ => Some (JDict (mk item))
                    end) l.

(** ** Writing *)

(** [payload["schema_version"] = n; return payload]. *)
Definition stamp_version (n : Z) (payload : pydict) : pydict :=
  dict_set "schema_version" (JInt n) payload.

(** ... and [payload["provenance"] = "walker"]. *)
Definition stamp_walker (n : Z) (payload : pydict) : pydict :=
  dict_set "provenance" (JStr "walker") (stamp_version n payload).

(** [if not payload: return None], and [if payload is None: return None]. *)
Definition stamp_nonempty (n : Z) (payload : option pydict) : option pydict :=
  match payload with
  | None | Some [] => None
  | Some d => Some (stamp_version n d)
  end.
Definition stamp_nullable (n : Z) (payload : option pydict) : option pydict :=
  stamp_version n <$> payload.

(** The characters of a string, each with its UTF-8 continuation bytes. *)
Fixpoint code_points (s : string) : list string :=
  match s with
  | "" => []
  | String a s' =>
      match code_points s', s' with
      | h :: t, String b _ => if is_cont b then String a h :: t else String a "" :: h :: t
      | _, _ => [String a ""]
      end
  end.

(** [list(v)]. *)
Definition py_list (v : json) : res py_error (list json) :=
  match v with
  | JList l => Ok l
  | JDict d => Ok ((fun kv => JStr kv.1) <$> d)
  | JStr s => Ok (JStr <$> code_points s)
  | _ => Err TypeError
  end.

(** The [{"schema_version": n, "items": [...]}] envelope of a list column. *)
Definition stamp_envelope (n : Z) (items : json) : res py_error pydict :=
  let items' := match items with
                | JDict d => match dict_get "items" d with Some v => v | None => items end
                | _ => items
                end in
  l ← py_list items'; Ok [("schema_version", JInt n); ("items", JList l)].

(** [for entry in payload: entry["schema_version"] = n]. *)
Fixpoint stamp_entries (n : Z) (payload : list json) : res py_error (list json) :=
  match payload with
  | [] => Ok []
  | JDict d :: l => l' ← stamp_entries n l; Ok (JDict (stamp_version n d) :: l')
  | _ :: _ => Err TypeError
  end.

(** The sentinel dictionary in front of a list. *)
Definition stamp_sentinel (n : Z) (payload : list json) : list json :=
  let sentinel := JDict [("schema_version", JInt n)] in
  match payload with
  | [] => [sentinel]
  | JDict d :: _ =>
      if match dict_get "schema_version" d with Some v => py_eq_int v n | None => false end
      then payload else sentinel :: payload
  | _ => sentinel :: payload
  end.

(** ** Canonical shapes *)

Inductive shape := SDict | SDictOrNone | SDictList | SStrList.

Definition canonical (s : shape) (v : json) : bool :=
  match s, v with
  | SDict, JDict _ => true
  | SDictOrNone, (JDict _ | JNull) => true
  | SDictList, JList l => forallb is_dict l
  | SStrList, JList l => forallb is_str l
  | _, _ => false
  end.

(** A normaliser [f] is a retraction onto the shape [s]: every result has the shape
    and every value of the shape is left as it is. *)
Definition retraction (s : shape) (f : json -> res py_error json) : Prop :=
  (forall v w, f v = Ok w -> canonical s w = true) /\
  (forall v, canonical s v = true -> f v = Ok v).

Definition total (f : json -> json) : json -> res py_error json := fun v => Ok (f v).

(** ** Lemmas *)

Lemma filter_forallb (p : json -> bool) (l : list json) : forallb p (List.filter p l) = true.
Proof. induction l as [|v l IH]; cbn; [done|]. destruct (p v) eqn:E; cbn; by rewrite ?E. Qed.

Lemma filter_id (p : json -> bool) (l : list json) : forallb p l = true -> List.filter p l = l.
Proof.
  induction l as [|v l IH]; cbn; [done|]. intros [-> H]%andb_true_iff. by rewrite IH.
Qed.

Lemma forallb_weaken (p q : json -> bool) (l : list json) :
  (forall v, p v = true -> q v = true) -> forallb p l = true -> forallb q l = true.
Proof.
  intros Hpq. induction l as [|v l IH]; cbn; [done|].
  intros [?%Hpq ?]%andb_true_iff. by rewrite H, IH.
Qed.

Lemma str_items_str (l : list json) : forallb is_str (str_items l) = true.
Proof. unfold str_items. by induction (List.filter _ l). Qed.

Lemma str_items_id (l : list json) : forallb is_str l = true -> str_items l = l.
Proof.
  intros H. unfold str_items. rewrite filter_id.
  - induction l as [|[] l IH]; cbn in *; try done. f_equal. by apply IH.
  - by eapply forallb_weaken; [|done]; intros [].
Qed.

Lemma wrap_items_dict mk (l : list json) : forallb is_dict (wrap_items mk l) = true.
Proof. induction l as [|[] l IH]; done. Qed.

Lemma wrap_items_id mk (l : list json) : forallb is_dict l = true -> wrap_items mk l = l.
Proof.
  induction l as [|[] l IH]; cbn; try done. intros H. f_equal. by apply IH.
Qed.

Lemma dict_or_retraction_dict : retraction SDict (total (fun v => dict_or v (JDict []))).
Proof. split; [intros [] w [= <-]; done | intros []; done]. Qed.

Lemma dict_or_retraction_none : retraction SDictOrNone (total (fun v => dict_or v JNull)).
Proof. split; [intros [] w [= <-]; done | intros []; done]. Qed.

Lemma keep_dict_retraction : retraction SDictList (total (keep_if is_dict)).
Proof.
  split.
  - intros [] w [= <-]; cbn; try done. apply filter_forallb.
  - intros []; cbn; try done. intros H. unfold total. cbn. by rewrite filter_id.
Qed.

Lemma keep_str_retraction : retraction SStrList (total (keep_if is_str)).
Proof.
  split.
  - intros [] w [= <-]; cbn; try done. apply filter_forallb.
  - intros []; cbn; try done. intros H. unfold total. cbn. by rewrite filter_id.
Qed.

(** Restamping changes nothing, and only the stamped key changes. *)
Lemma stamp_version_idem n d : stamp_version n (stamp_version n d) = stamp_version n d.
Proof. apply dict_set_set. Qed.

Lemma stamp_version_get n d : dict_get "schema_version" (stamp_version n d) = Some (JInt n).
Proof. apply dict_get_set_eq. Qed.

Lemma stamp_version_frame n d k :
  k <> "schema_version" -> dict_get k (stamp_version n d) = dict_get k d.
Proof. apply dict_get_set_ne. Qed.

Lemma stamp_walker_idem n d : stamp_walker n (stamp_walker n d) = stamp_walker n d.
Proof.
  unfold stamp_walker, stamp_version. rewrite (dict_set_id "schema_version").
  - apply dict_set_set.
  - rewrite dict_get_set_ne by done. apply dict_get_set_eq.
Qed.
