(* ===== verification/JsonbColumns.v ===== *)
(** * The JSONB column boundary ([services/jsonb_normalizers.py])

    One definition per function of the module, in source order: a normaliser for
    every JSONB column, the stamp its writer applies and the schema versions. *)

From S2P Require Import Prelude PyText Json Jsonb.
From Stdlib Require Import Ascii String.
Import (notations) Ascii String.
#[local] Open Scope Z_scope.

Definition FIRMWARE_DEVICE_METADATA_SCHEMA_VERSION : Z := 1.

Definition _normalize_firmware_device_metadata (value : json) : json :=
  dict_or value (JDict []).
Definition _stamp_firmware_device_metadata (payload : option pydict) : option pydict :=
  stamp_nonempty FIRMWARE_DEVICE_METADATA_SCHEMA_VERSION payload.
Definition FIRMWARE_WINDOWS_ARTIFACTS_SCHEMA_VERSION : Z := 1.

Definition _normalize_firmware_windows_artifacts (value : json) : json :=
  dict_or value (JDict []).
Definition _stamp_firmware_windows_artifacts (payload : option pydict) : option pydict :=
  stamp_nonempty FIRMWARE_WINDOWS_ARTIFACTS_SCHEMA_VERSION payload.
Definition CONVERSATIONS_MESSAGES_SCHEMA_VERSION : Z := 1.

Definition _normalize_conversations_messages (value : json) : json := keep_if is_dict value.
Definition ANALYSIS_CACHE_RESULT_SCHEMA_VERSION : Z := 1.

Definition _normalize_analysis_cache_result (value : json) : json := dict_or value JNull.
Definition _stamp_analysis_cache_result (payload : pydict) : pydict :=
  stamp_version ANALYSIS_CACHE_RESULT_SCHEMA_VERSION payload.
Definition FIRMWARE_BINARY_INFO_SCHEMA_VERSION : Z := 1.

Definition _normalize_firmware_binary_info (value : json) : json := dict_or value JNull.
Definition _stamp_firmware_binary_info (payload : option pydict) : option pydict :=
  stamp_nullable FIRMWARE_BINARY_INFO_SCHEMA_VERSION payload.

Definition _normalize_firmware_cve_match_result (value : json) : json := dict_or value JNull.
Definition FIRMWARE_AUTHENTICODE_CHAIN_RESULT_SCHEMA_VERSION : Z := 1.

Definition _normalize_firmware_authenticode_chain_result (value : json) : json :=
  dict_or value JNull.
Definition _stamp_firmware_authenticode_chain_result (payload : pydict) : pydict :=
  stamp_version FIRMWARE_AUTHENTICODE_CHAIN_RESULT_SCHEMA_VERSION payload.
Definition WINDOWS_PE_SIGNATURES_ARCH_VIEW_SCHEMA_VERSION : Z := 1.

Definition _normalize_windows_pe_signatures_arch_view (value : json) : json :=
  dict_or value JNull.
Definition _stamp_windows_pe_signatures_arch_view (payload : option pydict) : option pydict :=
  stamp_nonempty WINDOWS_PE_SIGNATURES_ARCH_VIEW_SCHEMA_VERSION payload.
Definition WINDOWS_PE_SIGNATURES_RICH_HEADER_JSON_SCHEMA_VERSION : Z := 1.

Definition _normalize_windows_pe_signatures_rich_header_json (value : json) : json :=
  dict_or value JNull.
Definition _stamp_windows_pe_signatures_rich_header_json (payload : option pydict) : option pydict :=
  stamp_nonempty WINDOWS_PE_SIGNATURES_RICH_HEADER_JSON_SCHEMA_VERSION payload.
Definition FUZZING_CAMPAIGNS_CONFIG_SCHEMA_VERSION : Z := 1.

Definition _normalize_fuzzing_campaigns_config (value : json) : json :=
  dict_or value (JDict []).
Definition _stamp_fuzzing_campaigns_config (payload : pydict) : pydict :=
  stamp_version FUZZING_CAMPAIGNS_CONFIG_SCHEMA_VERSION payload.
Definition FUZZING_CAMPAIGNS_STATS_SCHEMA_VERSION : Z := 1.

Definition _normalize_fuzzing_campaigns_stats (value : json) : json :=
  dict_or value (JDict []).
Definition _stamp_fuzzing_campaigns_stats (payload : pydict) : pydict :=
  stamp_version FUZZING_CAMPAIGNS_STATS_SCHEMA_VERSION payload.
Definition EMULATION_SESSIONS_PORT_FORWARDS_SCHEMA_VERSION : Z := 1.

Definition _normalize_emulation_sessions_port_forwards (value : json) : json :=
  keep_if is_dict value.
Definition EMULATION_SESSIONS_DISCOVERED_SERVICES_SCHEMA_VERSION : Z := 1.

Definition _normalize_emulation_sessions_discovered_services (value : json) : json :=
  keep_if is_dict value.

Definition _normalize_emulation_sessions_nvram_state (value : json) : json :=
  dict_or value JNull.
Definition EMULATION_PRESETS_PORT_FORWARDS_SCHEMA_VERSION : Z := 1.

Definition _normalize_emulation_presets_port_forwards (value : json) : json :=
  keep_if is_dict value.
Definition ATTACK_SURFACE_ENTRIES_SCORE_BREAKDOWN_SCHEMA_VERSION : Z := 1.

Definition _normalize_attack_surface_entries_score_breakdown (value : json) : json :=
  dict_or value (JDict []).
Definition _stamp_attack_surface_entries_score_breakdown (payload : pydict) : pydict :=
  stamp_version ATTACK_SURFACE_ENTRIES_SCORE_BREAKDOWN_SCHEMA_VERSION payload.
Definition ATTACK_SURFACE_ENTRIES_DANGEROUS_IMPORTS_SCHEMA_VERSION : Z := 1.

Definition _normalize_attack_surface_entries_dangerous_imports (value : json) : json :=
  keep_if is_str value.
Definition ATTACK_SURFACE_ENTRIES_INPUT_CATEGORIES_SCHEMA_VERSION : Z := 1.

Definition _normalize_attack_surface_entries_input_categories (value : json) : json :=
  keep_if is_str value.
Definition SBOM_COMPONENTS_METADATA_SCHEMA_VERSION : Z := 1.

Definition _normalize_sbom_components_metadata (value : json) : json :=
  dict_or value (JDict []).
Definition HARDWARE_FIRMWARE_BLOBS_METADATA_SCHEMA_VERSION : Z := 1.

Definition _normalize_hardware_firmware_blobs_metadata (value : json) : json :=
  dict_or value (JDict []).
Definition _stamp_hardware_firmware_blobs_metadata (payload : pydict) : pydict :=
  stamp_version HARDWARE_FIRMWARE_BLOBS_METADATA_SCHEMA_VERSION payload.
Definition CRA_REQUIREMENT_RESULTS_FINDING_IDS_SCHEMA_VERSION : Z := 1.
Definition CRA_REQUIREMENT_RESULTS_TOOL_SOURCES_SCHEMA_VERSION : Z := 1.
Definition CRA_REQUIREMENT_RESULTS_RELATED_CWES_SCHEMA_VERSION : Z := 1.
Definition CRA_REQUIREMENT_RESULTS_RELATED_CVES_SCHEMA_VERSION : Z := 1.

Definition _normalize_str_list (value : json) : json := keep_if is_str value.

Definition _normalize_cra_requirement_results_finding_ids (value : json) : json :=
  _normalize_str_list value.

Definition _normalize_cra_requirement_results_tool_sources (value : json) : json :=
  _normalize_str_list value.

Definition _normalize_cra_requirement_results_related_cwes (value : json) : json :=
  _normalize_str_list value.

Definition _normalize_cra_requirement_results_related_cves (value : json) : json :=
  _normalize_str_list value.
Definition WINDOWS_REGISTRY_EXTRACTS_PARSED_TREE_SCHEMA_VERSION : Z := 1.

Definition _normalize_windows_registry_extracts_parsed_tree (value : json) : json :=
  dict_or value JNull.
Definition _stamp_windows_registry_extracts_parsed_tree (payload : option pydict) : option pydict :=
  stamp_nullable WINDOWS_REGISTRY_EXTRACTS_PARSED_TREE_SCHEMA_VERSION payload.
Definition WINDOWS_DRIVERS_INF_METADATA_SCHEMA_VERSION : Z := 1.

Definition _normalize_windows_drivers_inf_metadata (value : json) : json :=
  dict_or value JNull.
Definition _stamp_windows_drivers_inf_metadata (payload : option pydict) : option pydict :=
  stamp_nullable WINDOWS_DRIVERS_INF_METADATA_SCHEMA_VERSION payload.
Definition FIRMWARE_REGISTRY_HIVE_WALK_RESULT_SCHEMA_VERSION : Z := 1.

Definition _normalize_firmware_registry_hive_walk_result (value : json) : json :=
  dict_or value JNull.
Definition _stamp_firmware_registry_hive_walk_result (payload : pydict) : pydict :=
  stamp_version FIRMWARE_REGISTRY_HIVE_WALK_RESULT_SCHEMA_VERSION payload.
Definition FIRMWARE_WINDOWS_INFO_WALK_RESULT_SCHEMA_VERSION : Z := 1.

Definition _normalize_firmware_windows_info_walk_result (value : json) : json :=
  dict_or value JNull.
Definition _stamp_firmware_windows_info_walk_result (payload : pydict) : pydict :=
  stamp_version FIRMWARE_WINDOWS_INFO_WALK_RESULT_SCHEMA_VERSION payload.
Definition FIRMWARE_WINDOWS_PROCESSES_WALK_RESULT_SCHEMA_VERSION : Z := 1.

Definition _normalize_firmware_windows_processes_walk_result (value : json) : json :=
  dict_or value JNull.
Definition _stamp_firmware_windows_processes_walk_result (payload : pydict) : pydict :=
  stamp_version FIRMWARE_WINDOWS_PROCESSES_WALK_RESULT_SCHEMA_VERSION payload.
Definition VOLATILITY_PROCESS_RECORDS_ANOMALY_FLAGS_SCHEMA_VERSION : Z := 1.

Definition _normalize_volatility_process_records_anomaly_flags (value : json) : json :=
  dict_or value JNull.
Definition _stamp_volatility_process_records_anomaly_flags (payload : pydict) : pydict :=
  stamp_version VOLATILITY_PROCESS_RECORDS_ANOMALY_FLAGS_SCHEMA_VERSION payload.
Definition FIRMWARE_WINDOWS_INJECTION_WALK_RESULT_SCHEMA_VERSION : Z := 1.

Definition _normalize_firmware_windows_injection_walk_result (value : json) : json :=
  dict_or value JNull.
Definition _stamp_firmware_windows_injection_walk_result (payload : pydict) : pydict :=
  stamp_version FIRMWARE_WINDOWS_INJECTION_WALK_RESULT_SCHEMA_VERSION payload.
Definition VOLATILITY_INJECTION_RECORDS_EVIDENCE_SCHEMA_VERSION : Z := 1.

Definition _normalize_volatility_injection_records_evidence (value : json) : json :=
  dict_or value JNull.
Definition _stamp_volatility_injection_records_evidence (payload : pydict) : pydict :=
  stamp_version VOLATILITY_INJECTION_RECORDS_EVIDENCE_SCHEMA_VERSION payload.
Definition WINDOWS_UPDATE_PACKAGES_UPDATE_METADATA_SCHEMA_VERSION : Z := 1.

Definition _normalize_windows_update_packages_update_metadata (value : json) : json :=
  dict_or value JNull.
Definition _stamp_windows_update_packages_update_metadata (payload : option pydict) : option pydict :=
  stamp_nullable WINDOWS_UPDATE_PACKAGES_UPDATE_METADATA_SCHEMA_VERSION payload.
Definition FIRMWARE_DOTNET_DECOMPILE_RESULT_SCHEMA_VERSION : Z := 1.

Definition _normalize_firmware_dotnet_decompile_result (value : json) : json :=
  dict_or value JNull.
Definition _stamp_firmware_dotnet_decompile_result (payload : pydict) : pydict :=
  stamp_version FIRMWARE_DOTNET_DECOMPILE_RESULT_SCHEMA_VERSION payload.
Definition FIRMWARE_WINDOWS_UPDATE_DIFF_RESULT_SCHEMA_VERSION : Z := 1.

Definition _normalize_firmware_windows_update_diff_result (value : json) : json :=
  dict_or value JNull.
Definition _stamp_firmware_windows_update_diff_result (payload : pydict) : pydict :=
  stamp_version FIRMWARE_WINDOWS_UPDATE_DIFF_RESULT_SCHEMA_VERSION payload.
Definition FIRMWARE_EVTX_WALK_RESULT_SCHEMA_VERSION : Z := 1.

Definition _normalize_firmware_evtx_walk_result (value : json) : json := dict_or value JNull.
Definition _stamp_firmware_evtx_walk_result (payload : pydict) : pydict :=
  stamp_version FIRMWARE_EVTX_WALK_RESULT_SCHEMA_VERSION payload.
Definition WINDOWS_EVENT_RECORDS_MESSAGE_XML_SCHEMA_VERSION : Z := 1.

Definition _normalize_windows_event_records_message_xml (value : json) : json :=
  dict_or value JNull.
Definition _stamp_windows_event_records_message_xml (payload : pydict) : pydict :=
  stamp_version WINDOWS_EVENT_RECORDS_MESSAGE_XML_SCHEMA_VERSION payload.
Definition FIRMWARE_PREFETCH_WALK_RESULT_SCHEMA_VERSION : Z := 1.

Definition _normalize_firmware_prefetch_walk_result (value : json) : json :=
  dict_or value JNull.
Definition _stamp_firmware_prefetch_walk_result (payload : pydict) : pydict :=
  stamp_version FIRMWARE_PREFETCH_WALK_RESULT_SCHEMA_VERSION payload.
Definition WINDOWS_PREFETCH_RECORDS_ALL_RUN_TIMES_SCHEMA_VERSION : Z := 1.
Definition WINDOWS_PREFETCH_RECORDS_FILENAMES_REFERENCED_SCHEMA_VERSION : Z := 1.
Definition WINDOWS_PREFETCH_RECORDS_VOLUMES_SCHEMA_VERSION : Z := 1.

Definition _normalize_windows_prefetch_records_all_run_times (value : json) : json :=
  match envelope_items value with Some l => JList (str_items l) | None => JList [] end.
Definition _stamp_windows_prefetch_records_all_run_times (payload : json) : res py_error pydict :=
  stamp_envelope WINDOWS_PREFETCH_RECORDS_ALL_RUN_TIMES_SCHEMA_VERSION payload.

Definition _normalize_windows_prefetch_records_filenames_referenced (value : json) : json :=
  match envelope_items value with Some l => JList (str_items l) | None => JList [] end.
Definition _stamp_windows_prefetch_records_filenames_referenced (payload : json) : res py_error pydict :=
  stamp_envelope WINDOWS_PREFETCH_RECORDS_FILENAMES_REFERENCED_SCHEMA_VERSION payload.

Definition _normalize_windows_prefetch_records_volumes (value : json) : json :=
  match envelope_items value with
  | Some l => JList (List.filter is_dict l)
  | None => JList []
  end.
Definition _stamp_windows_prefetch_records_volumes (payload : json) : res py_error pydict :=
  stamp_envelope WINDOWS_PREFETCH_RECORDS_VOLUMES_SCHEMA_VERSION payload.
Definition WINDOWS_SRUM_RECORDS_EXTRA_METADATA_SCHEMA_VERSION : Z := 1.

Definition _normalize_windows_srum_records_extra_metadata (value : json) : json :=
  dict_or value JNull.
Definition _stamp_windows_srum_records_extra_metadata (payload : pydict) : pydict :=
  stamp_version WINDOWS_SRUM_RECORDS_EXTRA_METADATA_SCHEMA_VERSION payload.
Definition FIRMWARE_SRUM_WALK_RESULT_SCHEMA_VERSION : Z := 1.

Definition _normalize_firmware_srum_walk_result (value : json) : json := dict_or value JNull.
Definition _stamp_firmware_srum_walk_result (payload : pydict) : pydict :=
  stamp_version FIRMWARE_SRUM_WALK_RESULT_SCHEMA_VERSION payload.
Definition FIRMWARE_PYTHON_AST_WALK_RESULT_SCHEMA_VERSION : Z := 1.

Definition _normalize_firmware_python_ast_walk_result (value : json) : json :=
  dict_or value JNull.
Definition _stamp_firmware_python_ast_walk_result (payload : pydict) : pydict :=
  stamp_version FIRMWARE_PYTHON_AST_WALK_RESULT_SCHEMA_VERSION payload.
Definition FIRMWARE_DS1QRSETUP_CALLGRAPH_WALK_RESULT_SCHEMA_VERSION : Z := 1.

Definition _normalize_firmware_ds1qrsetup_callgraph_walk_result (value : json) : json :=
  dict_or value JNull.
Definition _stamp_firmware_ds1qrsetup_callgraph_walk_result (payload : pydict) : pydict :=
  stamp_version FIRMWARE_DS1QRSETUP_CALLGRAPH_WALK_RESULT_SCHEMA_VERSION payload.
Definition WINDOWS_SCHEDULED_TASKS_TRIGGERS_SCHEMA_VERSION : Z := 1.
Definition WINDOWS_SCHEDULED_TASKS_ACTIONS_SCHEMA_VERSION : Z := 1.
Definition WINDOWS_SCHEDULED_TASKS_PRINCIPAL_SCHEMA_VERSION : Z := 1.
Definition WINDOWS_SCHEDULED_TASKS_SETTINGS_SCHEMA_VERSION : Z := 1.

Definition _normalize_windows_scheduled_tasks_triggers (value : json) : json :=
  match envelope_items value with
  | Some l => JList (List.filter is_dict l)
  | None => JList []
  end.
Definition _stamp_windows_scheduled_tasks_triggers (payload : json) : res py_error pydict :=
  stamp_envelope WINDOWS_SCHEDULED_TASKS_TRIGGERS_SCHEMA_VERSION payload.

Definition _normalize_windows_scheduled_tasks_actions (value : json) : json :=
  match envelope_items value with
  | Some l => JList (List.filter is_dict l)
  | None => JList []
  end.
Definition _stamp_windows_scheduled_tasks_actions (payload : json) : res py_error pydict :=
  stamp_envelope WINDOWS_SCHEDULED_TASKS_ACTIONS_SCHEMA_VERSION payload.

Definition _normalize_windows_scheduled_tasks_principal (value : json) : json :=
  dict_or value (JDict []).
Definition _stamp_windows_scheduled_tasks_principal (payload : pydict) : pydict :=
  stamp_version WINDOWS_SCHEDULED_TASKS_PRINCIPAL_SCHEMA_VERSION payload.

Definition _normalize_windows_scheduled_tasks_settings (value : json) : json :=
  dict_or value (JDict []).
Definition _stamp_windows_scheduled_tasks_settings (payload : pydict) : pydict :=
  stamp_version WINDOWS_SCHEDULED_TASKS_SETTINGS_SCHEMA_VERSION payload.
Definition FIRMWARE_SCHEDULED_TASK_WALK_RESULT_SCHEMA_VERSION : Z := 1.

Definition _normalize_firmware_scheduled_task_walk_result (value : json) : json :=
  dict_or value JNull.
Definition _stamp_firmware_scheduled_task_walk_result (payload : pydict) : pydict :=
  stamp_version FIRMWARE_SCHEDULED_TASK_WALK_RESULT_SCHEMA_VERSION payload.
Definition WINDOWS_LNK_RECORDS_TARGET_METADATA_SCHEMA_VERSION : Z := 1.

Definition _normalize_windows_lnk_records_target_metadata (value : json) : json :=
  dict_or value (JDict []).
Definition _stamp_windows_lnk_records_target_metadata (payload : pydict) : pydict :=
  stamp_version WINDOWS_LNK_RECORDS_TARGET_METADATA_SCHEMA_VERSION payload.
Definition FIRMWARE_LNK_WALK_RESULT_SCHEMA_VERSION : Z := 1.

Definition _normalize_firmware_lnk_walk_result (value : json) : json := dict_or value JNull.
Definition _stamp_firmware_lnk_walk_result (payload : pydict) : pydict :=
  stamp_version FIRMWARE_LNK_WALK_RESULT_SCHEMA_VERSION payload.
Definition WINDOWS_MFT_RECORDS_ADS_STREAMS_SCHEMA_VERSION : Z := 1.
Definition WINDOWS_MFT_RECORDS_TARGET_METADATA_SCHEMA_VERSION : Z := 1.

Definition _normalize_windows_mft_records_ads_streams (value : json) : res py_error json :=
  match value with
  | JDict d =>
      let size := dict_get_or "size" JNull d in
      match py_int (if py_truthy size then size else JInt 0) with
      | None => Err IntError
      | Some size =>
          Ok (JList [JDict [("name", JStr (py_str (dict_get_or "name" (JStr "") d)));
                            ("size", JInt size);
                            ("data_size", dict_get_or "data_size" JNull d)]])
      end
  | JList l =>
      Ok (JList (wrap_items
            (fun item => [("name", JStr (py_str item)); ("size", JInt 0); ("data_size", JNull)]) l))
  | _ => Ok (JList [])
  end.

Definition _stamp_windows_mft_records_ads_streams (payload : list json) : res py_error (list json) :=
  stamp_entries WINDOWS_MFT_RECORDS_ADS_STREAMS_SCHEMA_VERSION payload.

Definition _normalize_windows_mft_records_target_metadata (value : json) : json :=
  dict_or value (JDict []).
Definition _stamp_windows_mft_records_target_metadata (payload : pydict) : pydict :=
  stamp_version WINDOWS_MFT_RECORDS_TARGET_METADATA_SCHEMA_VERSION payload.
Definition FIRMWARE_MFT_WALK_RESULT_SCHEMA_VERSION : Z := 1.

Definition _normalize_firmware_mft_walk_result (value : json) : json := dict_or value JNull.
Definition _stamp_firmware_mft_walk_result (payload : pydict) : pydict :=
  stamp_version FIRMWARE_MFT_WALK_RESULT_SCHEMA_VERSION payload.
Definition WINDOWS_BCD_ENTRIES_CUSTOM_ELEMENTS_SCHEMA_VERSION : Z := 1.

Definition _normalize_windows_bcd_entries_custom_elements (value : json) : json :=
  match value with
  | JDict d =>
      JList [JDict [("element_type", JStr (py_str (dict_get_or "element_type" (JStr "") d)));
                    ("element_value", dict_get_or "element_value" JNull d)]]
  | JList l =>
      JList (wrap_items
        (fun item => [("element_type", JStr (py_str item)); ("element_value", JNull)]) l)
  | _ => JList []
  end.

Definition _stamp_windows_bcd_entries_custom_elements (payload : list json) : res py_error (list json) :=
  stamp_entries WINDOWS_BCD_ENTRIES_CUSTOM_ELEMENTS_SCHEMA_VERSION payload.
Definition WINDOWS_BCD_ENTRIES_ANOMALY_FLAGS_SCHEMA_VERSION : Z := 1.

Definition _normalize_windows_bcd_entries_anomaly_flags (value : json) : json :=
  dict_or value (JDict []).
Definition _stamp_windows_bcd_entries_anomaly_flags (payload : pydict) : pydict :=
  stamp_version WINDOWS_BCD_ENTRIES_ANOMALY_FLAGS_SCHEMA_VERSION payload.
Definition FIRMWARE_BCD_WALK_RESULT_SCHEMA_VERSION : Z := 1.

Definition _normalize_firmware_bcd_walk_result (value : json) : json := dict_or value JNull.
Definition _stamp_firmware_bcd_walk_result (payload : pydict) : pydict :=
  stamp_version FIRMWARE_BCD_WALK_RESULT_SCHEMA_VERSION payload.
Definition WINDOWS_WMI_EVENTS_CONSUMER_PAYLOAD_SCHEMA_VERSION : Z := 1.

Definition _normalize_windows_wmi_events_consumer_payload (value : json) : json :=
  match value with
  | JDict d =>
      JList [JDict [("consumer_type", JStr (py_str (dict_get_or "consumer_type" (JStr "") d)));
                    ("arguments", JStr (py_str (dict_get_or "arguments" (JStr "") d)));
                    ("other", JStr (py_str (dict_get_or "other" (JStr "") d)))]]
  | JList l =>
      JList (wrap_items
        (fun item => [("consumer_type", JStr (py_str item)); ("arguments", JStr "");
                      ("other", JStr "")]) l)
  | _ => JList []
  end.

Definition _stamp_windows_wmi_events_consumer_payload (payload : list json) : res py_error (list json) :=
  stamp_entries WINDOWS_WMI_EVENTS_CONSUMER_PAYLOAD_SCHEMA_VERSION payload.
Definition WINDOWS_WMI_EVENTS_ANOMALY_FLAGS_SCHEMA_VERSION : Z := 1.

Definition _normalize_windows_wmi_events_anomaly_flags (value : json) : json :=
  dict_or value (JDict []).
Definition _stamp_windows_wmi_events_anomaly_flags (payload : pydict) : pydict :=
  stamp_version WINDOWS_WMI_EVENTS_ANOMALY_FLAGS_SCHEMA_VERSION payload.
Definition FIRMWARE_WMI_WALK_RESULT_SCHEMA_VERSION : Z := 1.

Definition _normalize_firmware_wmi_walk_result (value : json) : json := dict_or value JNull.
Definition _stamp_firmware_wmi_walk_result (payload : pydict) : pydict :=
  stamp_version FIRMWARE_WMI_WALK_RESULT_SCHEMA_VERSION payload.
Definition WINDOWS_ESP_ENTRIES_AUTHENTICODE_CHAIN_SCHEMA_VERSION : Z := 1.

Definition _normalize_windows_esp_entries_authenticode_chain (value : json) : json :=
  dict_or value (JDict []).
Definition _stamp_windows_esp_entries_authenticode_chain (payload : pydict) : pydict :=
  stamp_version WINDOWS_ESP_ENTRIES_AUTHENTICODE_CHAIN_SCHEMA_VERSION payload.
Definition WINDOWS_ESP_ENTRIES_DBX_REVOCATION_MATCH_SCHEMA_VERSION : Z := 1.

Definition _normalize_windows_esp_entries_dbx_revocation_match (value : json) : json :=
  dict_or value JNull.
Definition _stamp_windows_esp_entries_dbx_revocation_match (payload : pydict) : pydict :=
  stamp_version WINDOWS_ESP_ENTRIES_DBX_REVOCATION_MATCH_SCHEMA_VERSION payload.
Definition WINDOWS_ESP_ENTRIES_ANOMALY_FLAGS_SCHEMA_VERSION : Z := 1.

Definition _normalize_windows_esp_entries_anomaly_flags (value : json) : json :=
  dict_or value (JDict []).
Definition _stamp_windows_esp_entries_anomaly_flags (payload : pydict) : pydict :=
  stamp_version WINDOWS_ESP_ENTRIES_ANOMALY_FLAGS_SCHEMA_VERSION payload.
Definition FIRMWARE_ESP_WALK_RESULT_SCHEMA_VERSION : Z := 1.

Definition _normalize_firmware_esp_walk_result (value : json) : json := dict_or value JNull.
Definition _stamp_firmware_esp_walk_result (payload : pydict) : pydict :=
  stamp_version FIRMWARE_ESP_WALK_RESULT_SCHEMA_VERSION payload.
Definition WINDOWS_MBR_VBR_SECTORS_ANOMALY_FLAGS_SCHEMA_VERSION : Z := 1.

Definition _normalize_windows_mbr_vbr_sectors_anomaly_flags (value : json) : json :=
  dict_or value (JDict []).
Definition _stamp_windows_mbr_vbr_sectors_anomaly_flags (payload : pydict) : pydict :=
  stamp_version WINDOWS_MBR_VBR_SECTORS_ANOMALY_FLAGS_SCHEMA_VERSION payload.
Definition FIRMWARE_MBR_VBR_WALK_RESULT_SCHEMA_VERSION : Z := 1.

Definition _normalize_firmware_mbr_vbr_walk_result (value : json) : json :=
  dict_or value JNull.
Definition _stamp_firmware_mbr_vbr_walk_result (payload : pydict) : pydict :=
  stamp_version FIRMWARE_MBR_VBR_WALK_RESULT_SCHEMA_VERSION payload.
Definition WINDOWS_SDB_ENTRIES_SHIM_PAYLOAD_SCHEMA_VERSION : Z := 1.

Definition _normalize_windows_sdb_entries_shim_payload (value : json) : json :=
  dict_or value (JDict []).
Definition _stamp_windows_sdb_entries_shim_payload (payload : pydict) : pydict :=
  stamp_version WINDOWS_SDB_ENTRIES_SHIM_PAYLOAD_SCHEMA_VERSION payload.
Definition WINDOWS_SDB_ENTRIES_ANOMALY_FLAGS_SCHEMA_VERSION : Z := 1.

Definition _normalize_windows_sdb_entries_anomaly_flags (value : json) : json :=
  dict_or value (JDict []).
Definition _stamp_windows_sdb_entries_anomaly_flags (payload : pydict) : pydict :=
  stamp_version WINDOWS_SDB_ENTRIES_ANOMALY_FLAGS_SCHEMA_VERSION payload.
Definition FIRMWARE_SDB_WALK_RESULT_SCHEMA_VERSION : Z := 1.

Definition _normalize_firmware_sdb_walk_result (value : json) : json := dict_or value JNull.
Definition _stamp_firmware_sdb_walk_result (payload : pydict) : pydict :=
  stamp_version FIRMWARE_SDB_WALK_RESULT_SCHEMA_VERSION payload.
Definition LINUX_JOURNALD_ENTRIES_ANOMALY_FLAGS_SCHEMA_VERSION : Z := 1.

Definition _normalize_linux_journald_entries_anomaly_flags (value : json) : json :=
  dict_or value (JDict []).
Definition _stamp_linux_journald_entries_anomaly_flags (payload : pydict) : pydict :=
  stamp_version LINUX_JOURNALD_ENTRIES_ANOMALY_FLAGS_SCHEMA_VERSION payload.
Definition FIRMWARE_JOURNALD_WALK_RESULT_SCHEMA_VERSION : Z := 1.

Definition _normalize_firmware_journald_walk_result (value : json) : json :=
  dict_or value JNull.
Definition _stamp_firmware_journald_walk_result (payload : pydict) : pydict :=
  stamp_version FIRMWARE_JOURNALD_WALK_RESULT_SCHEMA_VERSION payload.

Definition _normalize_linux_systemd_units_wanted_by (value : json) : json :=
  match value with JList l => JList (str_items l) | _ => JList [] end.

Definition _normalize_linux_systemd_units_required_by (value : json) : json :=
  match value with JList l => JList (str_items l) | _ => JList [] end.

Definition _normalize_linux_systemd_units_requires (value : json) : json :=
  match value with JList l => JList (str_items l) | _ => JList [] end.

Definition _normalize_linux_systemd_units_after (value : json) : json :=
  match value with JList l => JList (str_items l) | _ => JList [] end.

Definition _normalize_linux_systemd_units_before (value : json) : json :=
  match value with JList l => JList (str_items l) | _ => JList [] end.

Definition _normalize_linux_systemd_units_triggers (value : json) : json :=
  dict_or value (JDict []).

Definition _normalize_linux_systemd_units_socket_listen (value : json) : json :=
  dict_or value (JDict []).
Definition LINUX_SYSTEMD_UNITS_ANOMALY_FLAGS_SCHEMA_VERSION : Z := 1.

Definition _normalize_linux_systemd_units_anomaly_flags (value : json) : json :=
  dict_or value (JDict []).
Definition _stamp_linux_systemd_units_anomaly_flags (payload : pydict) : pydict :=
  stamp_version LINUX_SYSTEMD_UNITS_ANOMALY_FLAGS_SCHEMA_VERSION payload.
Definition FIRMWARE_SYSTEMD_WALK_RESULT_SCHEMA_VERSION : Z := 1.

Definition _normalize_firmware_systemd_walk_result (value : json) : json :=
  dict_or value JNull.
Definition _stamp_firmware_systemd_walk_result (payload : pydict) : pydict :=
  stamp_version FIRMWARE_SYSTEMD_WALK_RESULT_SCHEMA_VERSION payload.
Definition WINDOWS_ETL_EVENTS_PAYLOAD_SCHEMA_VERSION : Z := 1.

Definition _normalize_windows_etl_events_payload (value : json) : json :=
  dict_or value (JDict []).
Definition _stamp_windows_etl_events_payload (payload : pydict) : pydict :=
  stamp_version WINDOWS_ETL_EVENTS_PAYLOAD_SCHEMA_VERSION payload.
Definition WINDOWS_ETL_EVENTS_ANOMALY_FLAGS_SCHEMA_VERSION : Z := 1.

Definition _normalize_windows_etl_events_anomaly_flags (value : json) : json :=
  dict_or value (JDict []).
Definition _stamp_windows_etl_events_anomaly_flags (payload : pydict) : pydict :=
  stamp_version WINDOWS_ETL_EVENTS_ANOMALY_FLAGS_SCHEMA_VERSION payload.
Definition FIRMWARE_ETL_WALK_RESULT_SCHEMA_VERSION : Z := 1.

Definition _normalize_firmware_etl_walk_result (value : json) : json := dict_or value JNull.
Definition _stamp_firmware_etl_walk_result (payload : pydict) : pydict :=
  stamp_version FIRMWARE_ETL_WALK_RESULT_SCHEMA_VERSION payload.
Definition FIRMWARE_EFS_WALK_RESULT_SCHEMA_VERSION : Z := 1.

Definition _normalize_firmware_efs_walk_result (value : json) : json := dict_or value JNull.
Definition _stamp_firmware_efs_walk_result (payload : pydict) : pydict :=
  stamp_version FIRMWARE_EFS_WALK_RESULT_SCHEMA_VERSION payload.
Definition WINDOWS_EFS_ENCRYPTED_FILES_DDF_USERS_SCHEMA_VERSION : Z := 1.

Definition _normalize_windows_efs_encrypted_files_ddf_users (value : json) : json :=
  keep_if is_dict value.
Definition _stamp_windows_efs_encrypted_files_ddf_users (payload : list json) : list json :=
  stamp_sentinel WINDOWS_EFS_ENCRYPTED_FILES_DDF_USERS_SCHEMA_VERSION payload.
Definition WINDOWS_EFS_ENCRYPTED_FILES_DRF_RECOVERY_AGENTS_SCHEMA_VERSION : Z := 1.

Definition _normalize_windows_efs_encrypted_files_drf_recovery_agents (value : json) : json :=
  keep_if is_dict value.
Definition _stamp_windows_efs_encrypted_files_drf_recovery_agents (payload : list json) : list json :=
  stamp_sentinel WINDOWS_EFS_ENCRYPTED_FILES_DRF_RECOVERY_AGENTS_SCHEMA_VERSION payload.
Definition WINDOWS_EFS_ENCRYPTED_FILES_ANOMALY_FLAGS_SCHEMA_VERSION : Z := 1.

Definition _normalize_windows_efs_encrypted_files_anomaly_flags (value : json) : json :=
  dict_or value (JDict []).
Definition _stamp_windows_efs_encrypted_files_anomaly_flags (payload : pydict) : pydict :=
  stamp_version WINDOWS_EFS_ENCRYPTED_FILES_ANOMALY_FLAGS_SCHEMA_VERSION payload.

Definition _normalize_linux_container_artifacts_mounts (value : json) : json :=
  keep_if is_dict value.

Definition _normalize_linux_container_artifacts_capabilities_add (value : json) : json :=
  match value with JList l => JList (str_items l) | _ => JList [] end.

Definition _normalize_linux_container_artifacts_capabilities_drop (value : json) : json :=
  match value with JList l => JList (str_items l) | _ => JList [] end.

Definition _normalize_linux_container_artifacts_env_vars (value : json) : json :=
  match value with JList l => JList (str_items l) | _ => JList [] end.
Definition LINUX_CONTAINER_ARTIFACTS_ANOMALY_FLAGS_SCHEMA_VERSION : Z := 1.

Definition _normalize_linux_container_artifacts_anomaly_flags (value : json) : json :=
  dict_or value (JDict []).
Definition _stamp_linux_container_artifacts_anomaly_flags (payload : pydict) : pydict :=
  stamp_version LINUX_CONTAINER_ARTIFACTS_ANOMALY_FLAGS_SCHEMA_VERSION payload.
Definition FIRMWARE_CONTAINER_WALK_RESULT_SCHEMA_VERSION : Z := 1.

Definition _normalize_firmware_container_walk_result (value : json) : json :=
  dict_or value JNull.
Definition _stamp_firmware_container_walk_result (payload : pydict) : pydict :=
  stamp_version FIRMWARE_CONTAINER_WALK_RESULT_SCHEMA_VERSION payload.
Definition WINDOWS_APPCOMPAT_ENTRIES_ANOMALY_FLAGS_SCHEMA_VERSION : Z := 1.

Definition _normalize_windows_appcompat_entries_anomaly_flags (value : json) : json :=
  dict_or value (JDict []).
Definition _stamp_windows_appcompat_entries_anomaly_flags (payload : pydict) : pydict :=
  stamp_version WINDOWS_APPCOMPAT_ENTRIES_ANOMALY_FLAGS_SCHEMA_VERSION payload.
Definition FIRMWARE_APPCOMPAT_WALK_RESULT_SCHEMA_VERSION : Z := 1.

Definition _normalize_firmware_appcompat_walk_result (value : json) : json :=
  dict_or value JNull.
Definition _stamp_firmware_appcompat_walk_result (payload : pydict) : pydict :=
  stamp_version FIRMWARE_APPCOMPAT_WALK_RESULT_SCHEMA_VERSION payload.
Definition LINUX_BASH_HISTORY_ENTRIES_SUSPICIOUS_FLAGS_SCHEMA_VERSION : Z := 1.

Definition _normalize_linux_bash_history_suspicious_flags (value : json) : json :=
  dict_or value (JDict []).
Definition _stamp_linux_bash_history_suspicious_flags (payload : pydict) : pydict :=
  stamp_version LINUX_BASH_HISTORY_ENTRIES_SUSPICIOUS_FLAGS_SCHEMA_VERSION payload.
Definition LINUX_CRON_JOBS_SUSPICIOUS_FLAGS_SCHEMA_VERSION : Z := 1.

Definition _normalize_linux_cron_suspicious_flags (value : json) : json :=
  dict_or value (JDict []).
Definition _stamp_linux_cron_suspicious_flags (payload : pydict) : pydict :=
  stamp_version LINUX_CRON_JOBS_SUSPICIOUS_FLAGS_SCHEMA_VERSION payload.
Definition LINUX_LD_PRELOAD_ENTRIES_SUSPICIOUS_FLAGS_SCHEMA_VERSION : Z := 1.

Definition _normalize_linux_ld_preload_suspicious_flags (value : json) : json :=
  dict_or value (JDict []).
Definition _stamp_linux_ld_preload_suspicious_flags (payload : pydict) : pydict :=
  stamp_version LINUX_LD_PRELOAD_ENTRIES_SUSPICIOUS_FLAGS_SCHEMA_VERSION payload.
Definition FIRMWARE_PERSISTENCE_WALK_RESULT_SCHEMA_VERSION : Z := 1.

Definition _normalize_firmware_persistence_walk_result (value : json) : json :=
  dict_or value JNull.
Definition _stamp_firmware_persistence_walk_result (payload : pydict) : pydict :=
  stamp_version FIRMWARE_PERSISTENCE_WALK_RESULT_SCHEMA_VERSION payload.
Definition WINDOWS_DPAPI_MASTER_KEYS_ANOMALY_FLAGS_SCHEMA_VERSION : Z := 1.

Definition _normalize_windows_dpapi_anomaly_flags (value : json) : json :=
  dict_or value (JDict []).
Definition _stamp_windows_dpapi_anomaly_flags (payload : pydict) : pydict :=
  stamp_version WINDOWS_DPAPI_MASTER_KEYS_ANOMALY_FLAGS_SCHEMA_VERSION payload.
Definition FIRMWARE_DPAPI_WALK_RESULT_SCHEMA_VERSION : Z := 1.

Definition _normalize_firmware_dpapi_walk_result (value : json) : json := dict_or value JNull.
Definition _stamp_firmware_dpapi_walk_result (payload : pydict) : pydict :=
  stamp_version FIRMWARE_DPAPI_WALK_RESULT_SCHEMA_VERSION payload.
Definition WINDOWS_USNJRNL_ENTRIES_REASON_FLAGS_SCHEMA_VERSION : Z := 1.

Definition _USN_REASON_BITS : list (string * Z) :=
  [("data_overwrite", 0x00000001);
   ("data_extend", 0x00000002);
   ("data_truncation", 0x00000004);
   ("named_data_overwrite", 0x00000010);
   ("named_data_extend", 0x00000020);
   ("named_data_truncation", 0x00000040);
   ("file_create", 0x00000100);
   ("file_delete", 0x00000200);
   ("ea_change", 0x00000400);
   ("security_change", 0x00000800);
   ("rename_old_name", 0x00001000);
   ("rename_new_name", 0x00002000);
   ("indexable_change", 0x00004000);
   ("basic_info_change", 0x00008000);
   ("hard_link_change", 0x00010000);
   ("compression_change", 0x00020000);
   ("encryption_change", 0x00040000);
   ("object_id_change", 0x00080000);
   ("reparse_point_change", 0x00100000);
   ("stream_change", 0x00200000);
   ("transacted_change", 0x00400000);
   ("integrity_change", 0x00800000);
   ("close", 0x80000000)].


Definition _decode_usn_reason_bitmask (raw : Z) : pydict :=
  let raw_int := Z.land raw 0xFFFFFFFF in
  ((fun nm => (nm.1, JBool (negb (Z.land raw_int nm.2 =? 0)))) <$> _USN_REASON_BITS)
    ++ [("_raw", JInt raw_int)].


Definition _normalize_windows_usnjrnl_reason_flags (value : json) : json :=
  match value with
  | JDict _ => value
  | JInt z => JDict (_decode_usn_reason_bitmask z)
  | JBool b => JDict (_decode_usn_reason_bitmask (if b then 1 else 0))
  | _ => JDict []
  end.

Definition _stamp_windows_usnjrnl_reason_flags (payload : pydict) : pydict :=
  stamp_version WINDOWS_USNJRNL_ENTRIES_REASON_FLAGS_SCHEMA_VERSION payload.
Definition FIRMWARE_USNJRNL_WALK_RESULT_SCHEMA_VERSION : Z := 1.

Definition _normalize_firmware_usnjrnl_walk_result (value : json) : json :=
  dict_or value JNull.
Definition _stamp_firmware_usnjrnl_walk_result (payload : pydict) : pydict :=
  stamp_version FIRMWARE_USNJRNL_WALK_RESULT_SCHEMA_VERSION payload.
Definition FIRMWARE_BARE_METAL_AUDIT_RESULT_SCHEMA_VERSION : Z := 1.

Definition _normalize_firmware_bare_metal_audit_result (value : json) : json :=
  dict_or value JNull.
Definition _stamp_firmware_bare_metal_audit_result (payload : pydict) : pydict :=
  stamp_version FIRMWARE_BARE_METAL_AUDIT_RESULT_SCHEMA_VERSION payload.
Definition BARE_METAL_DESCRIPTOR_PAYLOAD_SCHEMA_VERSION : Z := 1.

Definition _normalize_bare_metal_descriptor_payload (value : json) : json :=
  dict_or value (JDict []).
Definition _stamp_bare_metal_descriptor_payload (payload : pydict) : pydict :=
  stamp_version BARE_METAL_DESCRIPTOR_PAYLOAD_SCHEMA_VERSION payload.
Definition FIRMWARE_ICS_PROTOCOL_WALK_RESULT_SCHEMA_VERSION : Z := 1.

Definition _normalize_firmware_ics_protocol_walk_result (value : json) : json :=
  dict_or value JNull.
Definition _stamp_firmware_ics_protocol_walk_result (payload : pydict) : pydict :=
  stamp_walker FIRMWARE_ICS_PROTOCOL_WALK_RESULT_SCHEMA_VERSION payload.
Definition FIRMWARE_KERNEL_CONFIG_WALK_RESULT_SCHEMA_VERSION : Z := 1.

Definition _normalize_firmware_kernel_config_walk_result (value : json) : json :=
  dict_or value JNull.
Definition _stamp_firmware_kernel_config_walk_result (payload : pydict) : pydict :=
  stamp_walker FIRMWARE_KERNEL_CONFIG_WALK_RESULT_SCHEMA_VERSION payload.
Definition FIRMWARE_MODULE_REACHABILITY_WALK_RESULT_SCHEMA_VERSION : Z := 1.

Definition _normalize_firmware_module_reachability_walk_result (value : json) : json :=
  dict_or value JNull.
Definition _stamp_firmware_module_reachability_walk_result (payload : pydict) : pydict :=
  stamp_walker FIRMWARE_MODULE_REACHABILITY_WALK_RESULT_SCHEMA_VERSION payload.
Definition FIRMWARE_NETWORK_EXPOSURE_WALK_RESULT_SCHEMA_VERSION : Z := 1.

Definition _normalize_firmware_network_exposure_walk_result (value : json) : json :=
  dict_or value JNull.
Definition _stamp_firmware_network_exposure_walk_result (payload : pydict) : pydict :=
  stamp_walker FIRMWARE_NETWORK_EXPOSURE_WALK_RESULT_SCHEMA_VERSION payload.
Definition FIRMWARE_ANDROID_POSTURE_WALK_RESULT_SCHEMA_VERSION : Z := 1.

Definition _normalize_firmware_android_posture_walk_result (value : json) : json :=
  dict_or value JNull.
Definition _stamp_firmware_android_posture_walk_result (payload : pydict) : pydict :=
  stamp_walker FIRMWARE_ANDROID_POSTURE_WALK_RESULT_SCHEMA_VERSION payload.

Definition _coerce_symbol_list (value : json) : json := keep_if is_str value.

Definition _normalize_reachability_export_records_defined_symbols (value : json) : json :=
  _coerce_symbol_list value.

Definition _normalize_reachability_export_records_imported_symbols (value : json) : json :=
  _coerce_symbol_list value.
Definition FIRMWARE_REACHABILITY_EXPORT_WALK_RESULT_SCHEMA_VERSION : Z := 1.

Definition _normalize_firmware_reachability_export_walk_result (value : json) : json :=
  dict_or value JNull.
Definition _stamp_firmware_reachability_export_walk_result (payload : pydict) : pydict :=
  stamp_walker FIRMWARE_REACHABILITY_EXPORT_WALK_RESULT_SCHEMA_VERSION payload.
