(* ===== verification/JsonbBoundary.v ===== *)
(** * The JSONB boundary as a whole

    Registries of the columns of [JsonbColumns] and the theorems about all of
    them: every normaliser is a retraction onto the canonical shape of its
    column, reading back what a stamp wrote gives the payload, and the list
    columns with envelopes, per-entry stamps and sentinels round trip. *)

From S2P Require Import Prelude PyText Json Jsonb JsonbColumns.
From Stdlib Require Import Ascii String.
Import (notations) Ascii String.
#[local] Open Scope Z_scope.

(** [_strip_schema_sentinel] of [ai/tools/windows_efs.py]: the readers of the list
    columns that carry a sentinel drop it. *)
Definition _strip_schema_sentinel (items : list json) : list json :=
  List.filter (fun item => match item with
                           | JDict d => negb (dict_has "schema_version" d)
                           | _ => false
                           end) items.

(** ** Registries *)

Definition normalizer : Type := string * shape * (json -> res py_error json).

Definition columns : list normalizer :=
  [("firmware_device_metadata", SDict, total _normalize_firmware_device_metadata);
   ("firmware_windows_artifacts", SDict, total _normalize_firmware_windows_artifacts);
   ("conversations_messages", SDictList, total _normalize_conversations_messages);
   ("analysis_cache_result", SDictOrNone, total _normalize_analysis_cache_result);
   ("firmware_binary_info", SDictOrNone, total _normalize_firmware_binary_info);
   ("firmware_cve_match_result", SDictOrNone, total _normalize_firmware_cve_match_result);
   ("firmware_authenticode_chain_result", SDictOrNone, total _normalize_firmware_authenticode_chain_result);
   ("windows_pe_signatures_arch_view", SDictOrNone, total _normalize_windows_pe_signatures_arch_view);
   ("windows_pe_signatures_rich_header_json", SDictOrNone, total _normalize_windows_pe_signatures_rich_header_json);
   ("fuzzing_campaigns_config", SDict, total _normalize_fuzzing_campaigns_config);
   ("fuzzing_campaigns_stats", SDict, total _normalize_fuzzing_campaigns_stats);
   ("emulation_sessions_port_forwards", SDictList, total _normalize_emulation_sessions_port_forwards);
   ("emulation_sessions_discovered_services", SDictList, total _normalize_emulation_sessions_discovered_services);
   ("emulation_sessions_nvram_state", SDictOrNone, total _normalize_emulation_sessions_nvram_state);
   ("emulation_presets_port_forwards", SDictList, total _normalize_emulation_presets_port_forwards);
   ("attack_surface_entries_score_breakdown", SDict, total _normalize_attack_surface_entries_score_breakdown);
   ("attack_surface_entries_dangerous_imports", SStrList, total _normalize_attack_surface_entries_dangerous_imports);
   ("attack_surface_entries_input_categories", SStrList, total _normalize_attack_surface_entries_input_categories);
   ("sbom_components_metadata", SDict, total _normalize_sbom_components_metadata);
   ("hardware_firmware_blobs_metadata", SDict, total _normalize_hardware_firmware_blobs_metadata);
   ("cra_requirement_results_finding_ids", SStrList, total _normalize_cra_requirement_results_finding_ids);
   ("cra_requirement_results_tool_sources", SStrList, total _normalize_cra_requirement_results_tool_sources);
   ("cra_requirement_results_related_cwes", SStrList, total _normalize_cra_requirement_results_related_cwes);
   ("cra_requirement_results_related_cves", SStrList, total _normalize_cra_requirement_results_related_cves);
   ("windows_registry_extracts_parsed_tree", SDictOrNone, total _normalize_windows_registry_extracts_parsed_tree);
   ("windows_drivers_inf_metadata", SDictOrNone, total _normalize_windows_drivers_inf_metadata);
   ("firmware_registry_hive_walk_result", SDictOrNone, total _normalize_firmware_registry_hive_walk_result);
   ("firmware_windows_info_walk_result", SDictOrNone, total _normalize_firmware_windows_info_walk_result);
   ("firmware_windows_processes_walk_result", SDictOrNone, total _normalize_firmware_windows_processes_walk_result);
   ("volatility_process_records_anomaly_flags", SDictOrNone, total _normalize_volatility_process_records_anomaly_flags);
   ("firmware_windows_injection_walk_result", SDictOrNone, total _normalize_firmware_windows_injection_walk_result);
   ("volatility_injection_records_evidence", SDictOrNone, total _normalize_volatility_injection_records_evidence);
   ("windows_update_packages_update_metadata", SDictOrNone, total _normalize_windows_update_packages_update_metadata);
   ("firmware_dotnet_decompile_result", SDictOrNone, total _normalize_firmware_dotnet_decompile_result);
   ("firmware_windows_update_diff_result", SDictOrNone, total _normalize_firmware_windows_update_diff_result);
   ("firmware_evtx_walk_result", SDictOrNone, total _normalize_firmware_evtx_walk_result);
   ("windows_event_records_message_xml", SDictOrNone, total _normalize_windows_event_records_message_xml);
   ("firmware_prefetch_walk_result", SDictOrNone, total _normalize_firmware_prefetch_walk_result);
   ("windows_prefetch_records_all_run_times", SStrList, total _normalize_windows_prefetch_records_all_run_times);
   ("windows_prefetch_records_filenames_referenced", SStrList, total _normalize_windows_prefetch_records_filenames_referenced);
   ("windows_prefetch_records_volumes", SDictList, total _normalize_windows_prefetch_records_volumes);
   ("windows_srum_records_extra_metadata", SDictOrNone, total _normalize_windows_srum_records_extra_metadata);
   ("firmware_srum_walk_result", SDictOrNone, total _normalize_firmware_srum_walk_result);
   ("firmware_python_ast_walk_result", SDictOrNone, total _normalize_firmware_python_ast_walk_result);
   ("firmware_ds1qrsetup_callgraph_walk_result", SDictOrNone, total _normalize_firmware_ds1qrsetup_callgraph_walk_result);
   ("windows_scheduled_tasks_triggers", SDictList, total _normalize_windows_scheduled_tasks_triggers);
   ("windows_scheduled_tasks_actions", SDictList, total _normalize_windows_scheduled_tasks_actions);
   ("windows_scheduled_tasks_principal", SDict, total _normalize_windows_scheduled_tasks_principal);
   ("windows_scheduled_tasks_settings", SDict, total _normalize_windows_scheduled_tasks_settings);
   ("firmware_scheduled_task_walk_result", SDictOrNone, total _normalize_firmware_scheduled_task_walk_result);
   ("windows_lnk_records_target_metadata", SDict, total _normalize_windows_lnk_records_target_metadata);
   ("firmware_lnk_walk_result", SDictOrNone, total _normalize_firmware_lnk_walk_result);
   ("windows_mft_records_ads_streams", SDictList, _normalize_windows_mft_records_ads_streams);
   ("windows_mft_records_target_metadata", SDict, total _normalize_windows_mft_records_target_metadata);
   ("firmware_mft_walk_result", SDictOrNone, total _normalize_firmware_mft_walk_result);
   ("windows_bcd_entries_custom_elements", SDictList, total _normalize_windows_bcd_entries_custom_elements);
   ("windows_bcd_entries_anomaly_flags", SDict, total _normalize_windows_bcd_entries_anomaly_flags);
   ("firmware_bcd_walk_result", SDictOrNone, total _normalize_firmware_bcd_walk_result);
   ("windows_wmi_events_consumer_payload", SDictList, total _normalize_windows_wmi_events_consumer_payload);
   ("windows_wmi_events_anomaly_flags", SDict, total _normalize_windows_wmi_events_anomaly_flags);
   ("firmware_wmi_walk_result", SDictOrNone, total _normalize_firmware_wmi_walk_result);
   ("windows_esp_entries_authenticode_chain", SDict, total _normalize_windows_esp_entries_authenticode_chain);
   ("windows_esp_entries_dbx_revocation_match", SDictOrNone, total _normalize_windows_esp_entries_dbx_revocation_match);
   ("windows_esp_entries_anomaly_flags", SDict, total _normalize_windows_esp_entries_anomaly_flags);
   ("firmware_esp_walk_result", SDictOrNone, total _normalize_firmware_esp_walk_result);
   ("windows_mbr_vbr_sectors_anomaly_flags", SDict, total _normalize_windows_mbr_vbr_sectors_anomaly_flags);
   ("firmware_mbr_vbr_walk_result", SDictOrNone, total _normalize_firmware_mbr_vbr_walk_result);
   ("windows_sdb_entries_shim_payload", SDict, total _normalize_windows_sdb_entries_shim_payload);
   ("windows_sdb_entries_anomaly_flags", SDict, total _normalize_windows_sdb_entries_anomaly_flags);
   ("firmware_sdb_walk_result", SDictOrNone, total _normalize_firmware_sdb_walk_result);
   ("linux_journald_entries_anomaly_flags", SDict, total _normalize_linux_journald_entries_anomaly_flags);
   ("firmware_journald_walk_result", SDictOrNone, total _normalize_firmware_journald_walk_result);
   ("linux_systemd_units_wanted_by", SStrList, total _normalize_linux_systemd_units_wanted_by);
   ("linux_systemd_units_required_by", SStrList, total _normalize_linux_systemd_units_required_by);
   ("linux_systemd_units_requires", SStrList, total _normalize_linux_systemd_units_requires);
   ("linux_systemd_units_after", SStrList, total _normalize_linux_systemd_units_after);
   ("linux_systemd_units_before", SStrList, total _normalize_linux_systemd_units_before);
   ("linux_systemd_units_triggers", SDict, total _normalize_linux_systemd_units_triggers);
   ("linux_systemd_units_socket_listen", SDict, total _normalize_linux_systemd_units_socket_listen);
   ("linux_systemd_units_anomaly_flags", SDict, total _normalize_linux_systemd_units_anomaly_flags);
   ("firmware_systemd_walk_result", SDictOrNone, total _normalize_firmware_systemd_walk_result);
   ("windows_etl_events_payload", SDict, total _normalize_windows_etl_events_payload);
   ("windows_etl_events_anomaly_flags", SDict, total _normalize_windows_etl_events_anomaly_flags);
   ("firmware_etl_walk_result", SDictOrNone, total _normalize_firmware_etl_walk_result);
   ("firmware_efs_walk_result", SDictOrNone, total _normalize_firmware_efs_walk_result);
   ("windows_efs_encrypted_files_ddf_users", SDictList, total _normalize_windows_efs_encrypted_files_ddf_users);
   ("windows_efs_encrypted_files_drf_recovery_agents", SDictList, total _normalize_windows_efs_encrypted_files_drf_recovery_agents);
   ("windows_efs_encrypted_files_anomaly_flags", SDict, total _normalize_windows_efs_encrypted_files_anomaly_flags);
   ("linux_container_artifacts_mounts", SDictList, total _normalize_linux_container_artifacts_mounts);
   ("linux_container_artifacts_capabilities_add", SStrList, total _normalize_linux_container_artifacts_capabilities_add);
   ("linux_container_artifacts_capabilities_drop", SStrList, total _normalize_linux_container_artifacts_capabilities_drop);
   ("linux_container_artifacts_env_vars", SStrList, total _normalize_linux_container_artifacts_env_vars);
   ("linux_container_artifacts_anomaly_flags", SDict, total _normalize_linux_container_artifacts_anomaly_flags);
   ("firmware_container_walk_result", SDictOrNone, total _normalize_firmware_container_walk_result);
   ("windows_appcompat_entries_anomaly_flags", SDict, total _normalize_windows_appcompat_entries_anomaly_flags);
   ("firmware_appcompat_walk_result", SDictOrNone, total _normalize_firmware_appcompat_walk_result);
   ("linux_bash_history_suspicious_flags", SDict, total _normalize_linux_bash_history_suspicious_flags);
   ("linux_cron_suspicious_flags", SDict, total _normalize_linux_cron_suspicious_flags);
   ("linux_ld_preload_suspicious_flags", SDict, total _normalize_linux_ld_preload_suspicious_flags);
   ("firmware_persistence_walk_result", SDictOrNone, total _normalize_firmware_persistence_walk_result);
   ("windows_dpapi_anomaly_flags", SDict, total _normalize_windows_dpapi_anomaly_flags);
   ("firmware_dpapi_walk_result", SDictOrNone, total _normalize_firmware_dpapi_walk_result);
   ("windows_usnjrnl_reason_flags", SDict, total _normalize_windows_usnjrnl_reason_flags);
   ("firmware_usnjrnl_walk_result", SDictOrNone, total _normalize_firmware_usnjrnl_walk_result);
   ("firmware_bare_metal_audit_result", SDictOrNone, total _normalize_firmware_bare_metal_audit_result);
   ("bare_metal_descriptor_payload", SDict, total _normalize_bare_metal_descriptor_payload);
   ("firmware_ics_protocol_walk_result", SDictOrNone, total _normalize_firmware_ics_protocol_walk_result);
   ("firmware_kernel_config_walk_result", SDictOrNone, total _normalize_firmware_kernel_config_walk_result);
   ("firmware_module_reachability_walk_result", SDictOrNone, total _normalize_firmware_module_reachability_walk_result);
   ("firmware_network_exposure_walk_result", SDictOrNone, total _normalize_firmware_network_exposure_walk_result);
   ("firmware_android_posture_walk_result", SDictOrNone, total _normalize_firmware_android_posture_walk_result);
   ("reachability_export_records_defined_symbols", SStrList, total _normalize_reachability_export_records_defined_symbols);
   ("reachability_export_records_imported_symbols", SStrList, total _normalize_reachability_export_records_imported_symbols);
   ("firmware_reachability_export_walk_result", SDictOrNone, total _normalize_firmware_reachability_export_walk_result)].

(** Dictionary columns whose writer stamps the version in place. *)
Definition inline_columns : list ((json -> json) * (pydict -> pydict)) :=
  [(_normalize_analysis_cache_result, _stamp_analysis_cache_result);
   (_normalize_firmware_authenticode_chain_result, _stamp_firmware_authenticode_chain_result);
   (_normalize_fuzzing_campaigns_config, _stamp_fuzzing_campaigns_config);
   (_normalize_fuzzing_campaigns_stats, _stamp_fuzzing_campaigns_stats);
   (_normalize_attack_surface_entries_score_breakdown, _stamp_attack_surface_entries_score_breakdown);
   (_normalize_hardware_firmware_blobs_metadata, _stamp_hardware_firmware_blobs_metadata);
   (_normalize_firmware_registry_hive_walk_result, _stamp_firmware_registry_hive_walk_result);
   (_normalize_firmware_windows_info_walk_result, _stamp_firmware_windows_info_walk_result);
   (_normalize_firmware_windows_processes_walk_result, _stamp_firmware_windows_processes_walk_result);
   (_normalize_volatility_process_records_anomaly_flags, _stamp_volatility_process_records_anomaly_flags);
   (_normalize_firmware_windows_injection_walk_result, _stamp_firmware_windows_injection_walk_result);
   (_normalize_volatility_injection_records_evidence, _stamp_volatility_injection_records_evidence);
   (_normalize_firmware_dotnet_decompile_result, _stamp_firmware_dotnet_decompile_result);
   (_normalize_firmware_windows_update_diff_result, _stamp_firmware_windows_update_diff_result);
   (_normalize_firmware_evtx_walk_result, _stamp_firmware_evtx_walk_result);
   (_normalize_windows_event_records_message_xml, _stamp_windows_event_records_message_xml);
   (_normalize_firmware_prefetch_walk_result, _stamp_firmware_prefetch_walk_result);
   (_normalize_windows_srum_records_extra_metadata, _stamp_windows_srum_records_extra_metadata);
   (_normalize_firmware_srum_walk_result, _stamp_firmware_srum_walk_result);
   (_normalize_firmware_python_ast_walk_result, _stamp_firmware_python_ast_walk_result);
   (_normalize_firmware_ds1qrsetup_callgraph_walk_result, _stamp_firmware_ds1qrsetup_callgraph_walk_result);
   (_normalize_windows_scheduled_tasks_principal, _stamp_windows_scheduled_tasks_principal);
   (_normalize_windows_scheduled_tasks_settings, _stamp_windows_scheduled_tasks_settings);
   (_normalize_firmware_scheduled_task_walk_result, _stamp_firmware_scheduled_task_walk_result);
   (_normalize_windows_lnk_records_target_metadata, _stamp_windows_lnk_records_target_metadata);
   (_normalize_firmware_lnk_walk_result, _stamp_firmware_lnk_walk_result);
   (_normalize_windows_mft_records_target_metadata, _stamp_windows_mft_records_target_metadata);
   (_normalize_firmware_mft_walk_result, _stamp_firmware_mft_walk_result);
   (_normalize_windows_bcd_entries_anomaly_flags, _stamp_windows_bcd_entries_anomaly_flags);
   (_normalize_firmware_bcd_walk_result, _stamp_firmware_bcd_walk_result);
   (_normalize_windows_wmi_events_anomaly_flags, _stamp_windows_wmi_events_anomaly_flags);
   (_normalize_firmware_wmi_walk_result, _stamp_firmware_wmi_walk_result);
   (_normalize_windows_esp_entries_authenticode_chain, _stamp_windows_esp_entries_authenticode_chain);
   (_normalize_windows_esp_entries_dbx_revocation_match, _stamp_windows_esp_entries_dbx_revocation_match);
   (_normalize_windows_esp_entries_anomaly_flags, _stamp_windows_esp_entries_anomaly_flags);
   (_normalize_firmware_esp_walk_result, _stamp_firmware_esp_walk_result);
   (_normalize_windows_mbr_vbr_sectors_anomaly_flags, _stamp_windows_mbr_vbr_sectors_anomaly_flags);
   (_normalize_firmware_mbr_vbr_walk_result, _stamp_firmware_mbr_vbr_walk_result);
   (_normalize_windows_sdb_entries_shim_payload, _stamp_windows_sdb_entries_shim_payload);
   (_normalize_windows_sdb_entries_anomaly_flags, _stamp_windows_sdb_entries_anomaly_flags);
   (_normalize_firmware_sdb_walk_result, _stamp_firmware_sdb_walk_result);
   (_normalize_linux_journald_entries_anomaly_flags, _stamp_linux_journald_entries_anomaly_flags);
   (_normalize_firmware_journald_walk_result, _stamp_firmware_journald_walk_result);
   (_normalize_linux_systemd_units_anomaly_flags, _stamp_linux_systemd_units_anomaly_flags);
   (_normalize_firmware_systemd_walk_result, _stamp_firmware_systemd_walk_result);
   (_normalize_windows_etl_events_payload, _stamp_windows_etl_events_payload);
   (_normalize_windows_etl_events_anomaly_flags, _stamp_windows_etl_events_anomaly_flags);
   (_normalize_firmware_etl_walk_result, _stamp_firmware_etl_walk_result);
   (_normalize_firmware_efs_walk_result, _stamp_firmware_efs_walk_result);
   (_normalize_windows_efs_encrypted_files_anomaly_flags, _stamp_windows_efs_encrypted_files_anomaly_flags);
   (_normalize_linux_container_artifacts_anomaly_flags, _stamp_linux_container_artifacts_anomaly_flags);
   (_normalize_firmware_container_walk_result, _stamp_firmware_container_walk_result);
   (_normalize_windows_appcompat_entries_anomaly_flags, _stamp_windows_appcompat_entries_anomaly_flags);
   (_normalize_firmware_appcompat_walk_result, _stamp_firmware_appcompat_walk_result);
   (_normalize_linux_bash_history_suspicious_flags, _stamp_linux_bash_history_suspicious_flags);
   (_normalize_linux_cron_suspicious_flags, _stamp_linux_cron_suspicious_flags);
   (_normalize_linux_ld_preload_suspicious_flags, _stamp_linux_ld_preload_suspicious_flags);
   (_normalize_firmware_persistence_walk_result, _stamp_firmware_persistence_walk_result);
   (_normalize_windows_dpapi_anomaly_flags, _stamp_windows_dpapi_anomaly_flags);
   (_normalize_firmware_dpapi_walk_result, _stamp_firmware_dpapi_walk_result);
   (_normalize_windows_usnjrnl_reason_flags, _stamp_windows_usnjrnl_reason_flags);
   (_normalize_firmware_usnjrnl_walk_result, _stamp_firmware_usnjrnl_walk_result);
   (_normalize_firmware_bare_metal_audit_result, _stamp_firmware_bare_metal_audit_result);
   (_normalize_bare_metal_descriptor_payload, _stamp_bare_metal_descriptor_payload);
   (_normalize_firmware_ics_protocol_walk_result, _stamp_firmware_ics_protocol_walk_result);
   (_normalize_firmware_kernel_config_walk_result, _stamp_firmware_kernel_config_walk_result);
   (_normalize_firmware_module_reachability_walk_result, _stamp_firmware_module_reachability_walk_result);
   (_normalize_firmware_network_exposure_walk_result, _stamp_firmware_network_exposure_walk_result);
   (_normalize_firmware_android_posture_walk_result, _stamp_firmware_android_posture_walk_result);
   (_normalize_firmware_reachability_export_walk_result, _stamp_firmware_reachability_export_walk_result)].

(** The ones among them that also carry their provenance. *)
Definition walker_stamps : list (pydict -> pydict) :=
  [_stamp_firmware_ics_protocol_walk_result;
   _stamp_firmware_kernel_config_walk_result;
   _stamp_firmware_module_reachability_walk_result;
   _stamp_firmware_network_exposure_walk_result;
   _stamp_firmware_android_posture_walk_result;
   _stamp_firmware_reachability_export_walk_result].

(** Nullable columns: the stamp keeps [None], and for four of them also reads the
    empty dictionary as a request to clear the column. *)
Definition nullable_columns : list (bool * (json -> json) * (option pydict -> option pydict)) :=
  [(true, _normalize_firmware_device_metadata, _stamp_firmware_device_metadata);
   (true, _normalize_firmware_windows_artifacts, _stamp_firmware_windows_artifacts);
   (false, _normalize_firmware_binary_info, _stamp_firmware_binary_info);
   (true, _normalize_windows_pe_signatures_arch_view, _stamp_windows_pe_signatures_arch_view);
   (true, _normalize_windows_pe_signatures_rich_header_json, _stamp_windows_pe_signatures_rich_header_json);
   (false, _normalize_windows_registry_extracts_parsed_tree, _stamp_windows_registry_extracts_parsed_tree);
   (false, _normalize_windows_drivers_inf_metadata, _stamp_windows_drivers_inf_metadata);
   (false, _normalize_windows_update_packages_update_metadata, _stamp_windows_update_packages_update_metadata)].

(** List columns stored in an envelope, with the test their elements satisfy. *)
Definition envelope_columns : list ((json -> bool) * (json -> json) * (json -> res py_error pydict)) :=
  [(is_str, _normalize_windows_prefetch_records_all_run_times, _stamp_windows_prefetch_records_all_run_times);
   (is_str, _normalize_windows_prefetch_records_filenames_referenced, _stamp_windows_prefetch_records_filenames_referenced);
   (is_dict, _normalize_windows_prefetch_records_volumes, _stamp_windows_prefetch_records_volumes);
   (is_dict, _normalize_windows_scheduled_tasks_triggers, _stamp_windows_scheduled_tasks_triggers);
   (is_dict, _normalize_windows_scheduled_tasks_actions, _stamp_windows_scheduled_tasks_actions)].

(** List columns whose entries are stamped one by one. *)
Definition entry_columns : list ((json -> res py_error json) * (list json -> res py_error (list json))) :=
  [(_normalize_windows_mft_records_ads_streams, _stamp_windows_mft_records_ads_streams);
   (total _normalize_windows_bcd_entries_custom_elements, _stamp_windows_bcd_entries_custom_elements);
   (total _normalize_windows_wmi_events_consumer_payload, _stamp_windows_wmi_events_consumer_payload)].

(** List columns with a sentinel in front. *)
Definition sentinel_columns : list ((json -> json) * (list json -> list json)) :=
  [(_normalize_windows_efs_encrypted_files_ddf_users, _stamp_windows_efs_encrypted_files_ddf_users);
   (_normalize_windows_efs_encrypted_files_drf_recovery_agents, _stamp_windows_efs_encrypted_files_drf_recovery_agents)].

(** ** Lemmas *)

Lemma str_items_retraction :
  retraction SStrList (total (fun v => match v with JList l => JList (str_items l) | _ => JList [] end)).
Proof.
  split.
  - intros [] w [= <-]; cbn; try done. apply str_items_str.
  - intros []; cbn; try done. intros H. unfold total. by rewrite str_items_id.
Qed.

Lemma envelope_str_retraction :
  retraction SStrList (total (fun v => match envelope_items v with
                                       | Some l => JList (str_items l) | None => JList [] end)).
Proof.
  split.
  - intros v w [= <-]. destruct (envelope_items v); cbn; [apply str_items_str | done].
  - intros []; cbn; try done. intros H. unfold total. cbn. by rewrite str_items_id.
Qed.

Lemma envelope_dict_retraction :
  retraction SDictList (total (fun v => match envelope_items v with
                                        | Some l => JList (List.filter is_dict l) | None => JList [] end)).
Proof.
  split.
  - intros v w [= <-]. destruct (envelope_items v); cbn; [apply filter_forallb | done].
  - intros []; cbn; try done. intros H. unfold total. cbn. by rewrite filter_id.
Qed.

Lemma ads_streams_retraction : retraction SDictList _normalize_windows_mft_records_ads_streams.
Proof.
  split.
  - intros [] w; cbn [_normalize_windows_mft_records_ads_streams]; try by intros [= <-].
    + intros [= <-]. apply wrap_items_dict.
    + destruct (py_int _); [by intros [= <-] | done].
  - intros []; cbn; try done. intros H. by rewrite wrap_items_id.
Qed.

Lemma custom_elements_retraction :
  retraction SDictList (total _normalize_windows_bcd_entries_custom_elements).
Proof.
  split.
  - intros [] w [= <-]; cbn; try done. apply wrap_items_dict.
  - intros []; cbn; try done. intros H. unfold total. cbn. by rewrite wrap_items_id.
Qed.

Lemma consumer_payload_retraction :
  retraction SDictList (total _normalize_windows_wmi_events_consumer_payload).
Proof.
  split.
  - intros [] w [= <-]; cbn; try done. apply wrap_items_dict.
  - intros []; cbn; try done. intros H. unfold total. cbn. by rewrite wrap_items_id.
Qed.

Lemma reason_flags_retraction : retraction SDict (total _normalize_windows_usnjrnl_reason_flags).
Proof. split; [intros [] w [= <-]; done | intros []; done]. Qed.

Create HintDb jsonb.
#[export] Hint Resolve dict_or_retraction_dict dict_or_retraction_none keep_dict_retraction
  keep_str_retraction str_items_retraction envelope_str_retraction envelope_dict_retraction
  ads_streams_retraction custom_elements_retraction consumer_payload_retraction
  reason_flags_retraction : jsonb.

(** Case analysis on membership in a registry. *)
Ltac registry H :=
  repeat (apply elem_of_cons in H as [H|H]; [|try by apply not_elem_of_nil in H]);
  try by apply not_elem_of_nil in H.

Lemma columns_retraction : Forall (fun c => retraction c.1.2 c.2) columns.
Proof. unfold columns. repeat (apply Forall_cons; split; [cbn [fst snd]; auto with jsonb|]). apply Forall_nil; done. Qed.

(** ** Properties *)

(** C12. Every column normaliser is a retraction onto the canonical shape of its column:
    whatever the stored value, a result has the shape, and a value of the shape is
    returned unchanged.  In particular every normaliser is idempotent, as the
    module's conventions require. *)
Theorem normalizers_canonical (name : string) (s : shape) (f : json -> res py_error json) :
  (name, s, f) ∈ columns ->
  (forall v w, f v = Ok w -> canonical s w = true /\ f w = Ok w) /\
  (forall v, canonical s v = true -> f v = Ok v).
Proof.
  intros H. pose proof (proj1 (Forall_forall _ _) columns_retraction _ H) as [H1 H2].
  cbn [fst snd] in *. split; [|done]. intros v w Hv. split; [by eapply H1 | by eapply H2, H1].
Qed.

Lemma normalizers_canonical_witness :
  canonical SDictList (JList [JDict [("name", JInt 3)]]) = true /\
  _normalize_windows_mft_records_ads_streams (JList [JDict [("name", JInt 3)]])
    = Ok (JList [JDict [("name", JInt 3)]]).
Proof.
  refine (proj1 (normalizers_canonical "windows_mft_records_ads_streams" SDictList
    _normalize_windows_mft_records_ads_streams _) (JList [JNull; JDict [("name", JInt 3)]]) _ _).
  - apply (list_elem_of_lookup_2 _ 52). reflexivity.
  - by vm_compute.
Defined.

Lemma columns_raise :
  Forall (fun c : normalizer =>
            (c.1.1, c.2) = ("windows_mft_records_ads_streams", _normalize_windows_mft_records_ads_streams) \/
            forall v, is_ok (c.2 v) = true) columns.
Proof.
  unfold columns.
  repeat (apply Forall_cons; split; [cbn [fst snd]; first [by left | by right]|]). by apply Forall_nil.
Qed.

(** The boundary raises on exactly one kind of value, although the module promises to
    return a default instead: a dictionary in [ads_streams] whose truthy [size] is
    rejected by [int()]. *)
Theorem normalizers_raise (name : string) (s : shape) (f : json -> res py_error json) (v : json) (e : py_error) :
  (name, s, f) ∈ columns ->
  (f v = Err e ->
   name = "windows_mft_records_ads_streams" /\ e = IntError /\
   exists d, v = JDict d /\ py_truthy (dict_get_or "size" JNull d) = true /\
             py_int (dict_get_or "size" JNull d) = None) /\
  _normalize_windows_mft_records_ads_streams (JDict [("name", JStr "a"); ("size", JStr "n/a")])
    = Err IntError.
Proof.
  intros H. split; [|by vm_compute]. intros Hv.
  destruct (proj1 (Forall_forall _ _) columns_raise _ H) as [Hn | Ht]; cbn [fst snd] in *.
  - injection Hn as -> ->. destruct v as [| | | | |l|d]; try done.
    cbn [_normalize_windows_mft_records_ads_streams] in Hv.
    destruct (py_truthy _) eqn:Et; [|done].
    destruct (py_int _) eqn:Ei; [done|]. injection Hv as <-. eauto 6.
  - specialize (Ht v). by rewrite Hv in Ht.
Qed.

Lemma normalizers_raise_witness :
  exists d, JDict [("size", JList [JNull])] = JDict d /\
            py_truthy (dict_get_or "size" JNull d) = true /\
            py_int (dict_get_or "size" JNull d) = None.
Proof.
  refine (proj2 (proj2 (proj1 (normalizers_raise "windows_mft_records_ads_streams" SDictList
    _normalize_windows_mft_records_ads_streams (JDict [("size", JList [JNull])]) IntError _) _))).
  - apply (list_elem_of_lookup_2 _ 52). reflexivity.
  - by vm_compute.
Defined.

Definition ok_inline (c : (json -> json) * (pydict -> pydict)) : Prop :=
  forall d, c.1 (JDict (c.2 d)) = JDict (c.2 d) /\ c.2 (c.2 d) = c.2 d /\
    dict_get "schema_version" (c.2 d) = Some (JInt 1) /\
    (forall k, k <> "schema_version" -> k <> "provenance" -> dict_get k (c.2 d) = dict_get k d).

Lemma stamp_version_ok f : (forall d, f (JDict d) = JDict d) -> ok_inline (f, stamp_version 1).
Proof.
  intros Hf d. cbn [fst snd]. rewrite Hf. repeat split.
  - apply stamp_version_idem.
  - apply stamp_version_get.
  - intros k Hk _. by apply stamp_version_frame.
Qed.

Lemma stamp_walker_ok f : (forall d, f (JDict d) = JDict d) -> ok_inline (f, stamp_walker 1).
Proof.
  intros Hf d. cbn [fst snd]. rewrite Hf. repeat split.
  - apply stamp_walker_idem.
  - unfold stamp_walker. rewrite dict_get_set_ne by done. apply stamp_version_get.
  - intros k Hk Hp. unfold stamp_walker. rewrite dict_get_set_ne by done.
    by apply stamp_version_frame.
Qed.

Lemma inline_columns_ok : Forall ok_inline inline_columns.
Proof.
  unfold inline_columns.
  repeat (apply Forall_cons; split; [first [by apply stamp_version_ok | by apply stamp_walker_ok]|]).
  by apply Forall_nil.
Qed.

(** Write-read round trip of the seventy dictionary columns whose writer stamps in
    place: the reader returns the stamped payload, which carries version 1 and,
    apart from the stamped keys, every binding of the payload; stamping again
    changes nothing; and six of them also record their provenance. *)
Theorem stamp_normalize_roundtrip (norm : json -> json) (stamp : pydict -> pydict) (payload : pydict) :
  (norm, stamp) ∈ inline_columns ->
  norm (JDict (stamp payload)) = JDict (stamp payload) /\
  stamp (stamp payload) = stamp payload /\
  dict_get "schema_version" (stamp payload) = Some (JInt 1) /\
  (forall k, k <> "schema_version" -> k <> "provenance" ->
             dict_get k (stamp payload) = dict_get k payload) /\
  Forall (fun w => dict_get "provenance" (w payload) = Some (JStr "walker")) walker_stamps.
Proof.
  intros H. destruct (proj1 (Forall_forall _ _) inline_columns_ok _ H payload) as (H1 & H2 & H3 & H4).
  repeat split; try done. unfold walker_stamps. repeat (apply Forall_cons; split; [apply dict_get_set_eq|]).
  by apply Forall_nil.
Qed.

Lemma stamp_normalize_roundtrip_witness :
  _normalize_analysis_cache_result (JDict (_stamp_analysis_cache_result [("result", JInt 7)]))
    = JDict [("result", JInt 7); ("schema_version", JInt 1)].
Proof.
  refine (proj1 (stamp_normalize_roundtrip _normalize_analysis_cache_result
            _stamp_analysis_cache_result [("result", JInt 7)] _)).
  apply (list_elem_of_lookup_2 _ 0). reflexivity.
Defined.

Definition ok_nullable (c : bool * (json -> json) * (option pydict -> option pydict)) : Prop :=
  forall payload,
    c.2 None = None /\ (c.2 (Some []) = None <-> c.1.1 = true) /\
    (forall d, d <> [] -> c.2 (Some d) = Some (stamp_version 1 d)) /\
    c.2 (c.2 payload) = c.2 payload /\
    (forall d, c.2 payload = Some d -> c.1.2 (JDict d) = JDict d).

Lemma stamp_nonempty_ok f : (forall d, f (JDict d) = JDict d) -> ok_nullable (true, f, stamp_nonempty 1).
Proof.
  intros Hf p. cbn [fst snd]. repeat split; try done.
  - by intros [|kv d].
  - destruct p as [[|kv d]|]; try done.
    change (stamp_nonempty 1 (Some (kv :: d))) with (Some (stamp_version 1 (kv :: d))).
    pose proof (dict_set_nonempty "schema_version" (JInt 1) (kv :: d)) as Hne.
    pose proof (stamp_version_idem 1 (kv :: d)) as Hi. unfold stamp_version in *.
    destruct (dict_set _ _ (kv :: d)) as [|kv' d'] eqn:E; [done|].
    unfold stamp_nonempty, stamp_version. by rewrite Hi.
Qed.

Lemma stamp_nullable_ok f : (forall d, f (JDict d) = JDict d) -> ok_nullable (false, f, stamp_nullable 1).
Proof.
  intros Hf p. cbn [fst snd]. repeat split; try done.
  destruct p as [d|]; cbn; [|done]. by rewrite stamp_version_idem.
Qed.

Lemma nullable_columns_ok : Forall ok_nullable nullable_columns.
Proof.
  unfold nullable_columns.
  repeat (apply Forall_cons; split; [first [by apply stamp_nonempty_ok | by apply stamp_nullable_ok]|]).
  by apply Forall_nil.
Qed.

(** The eight nullable columns: [None] stays [None]; the empty dictionary clears the
    column for exactly the four columns whose stamp tests [not payload]; any other
    payload is stamped; stamping is idempotent and the reader returns what was
    stamped. *)
Theorem stamp_nullable_roundtrip (clears : bool) norm stamp (payload : option pydict) :
  (clears, norm, stamp) ∈ nullable_columns ->
  stamp None = None /\ (stamp (Some []) = None <-> clears = true) /\
  (forall d, d <> [] -> stamp (Some d) = Some (stamp_version 1 d)) /\
  stamp (stamp payload) = stamp payload /\
  (forall d, stamp payload = Some d -> norm (JDict d) = JDict d).
Proof.
  intros H. exact (proj1 (Forall_forall _ _) nullable_columns_ok _ H payload).
Qed.

Lemma stamp_nullable_roundtrip_witness :
  _stamp_firmware_device_metadata (Some []) = None /\
  _stamp_firmware_binary_info (Some []) = Some [("schema_version", JInt 1)].
Proof.
  split; [|by vm_compute].
  refine (proj2 (proj1 (proj2 (stamp_nullable_roundtrip true _normalize_firmware_device_metadata
           _stamp_firmware_device_metadata None _))) eq_refl).
  apply (list_elem_of_lookup_2 _ 0). reflexivity.
Defined.

Definition ok_envelope (c : (json -> bool) * (json -> json) * (json -> res py_error pydict)) : Prop :=
  forall l, forallb c.1.1 l = true ->
    exists d, c.2 (JList l) = Ok d /\ c.2 (JDict d) = Ok d /\
      c.1.2 (JDict d) = JList l /\ c.1.2 (JList l) = JList l.

Lemma envelope_items_stamped l :
  envelope_items (JDict [("schema_version", JInt 1); ("items", JList l)]) = Some l.
Proof. reflexivity. Qed.

Lemma envelope_str_ok :
  ok_envelope (is_str, (fun v => match envelope_items v with
                                 | Some l => JList (str_items l) | None => JList [] end),
               stamp_envelope 1).
Proof.
  intros l H. cbn [fst snd] in *. exists [("schema_version", JInt 1); ("items", JList l)].
  split; [done|]. split; [done|]. split.
  - rewrite envelope_items_stamped. by rewrite str_items_id.
  - cbn. by rewrite str_items_id.
Qed.

Lemma envelope_dict_ok :
  ok_envelope (is_dict, (fun v => match envelope_items v with
                                  | Some l => JList (List.filter is_dict l) | None => JList [] end),
               stamp_envelope 1).
Proof.
  intros l H. cbn [fst snd] in *. exists [("schema_version", JInt 1); ("items", JList l)].
  split; [done|]. split; [done|]. split.
  - rewrite envelope_items_stamped. by rewrite filter_id.
  - cbn. by rewrite filter_id.
Qed.

Lemma envelope_columns_ok : Forall ok_envelope envelope_columns.
Proof.
  unfold envelope_columns.
  repeat (apply Forall_cons; split; [first [by apply envelope_str_ok | by apply envelope_dict_ok]|]).
  by apply Forall_nil.
Qed.

(** The five enveloped list columns: a clean list survives writing and reading, a
    second stamp does not nest the envelope, and a legacy bare list reads as the
    enveloped one. *)
Theorem envelope_roundtrip (elt : json -> bool) norm stamp (items : list json) :
  (elt, norm, stamp) ∈ envelope_columns -> forallb elt items = true ->
  exists d, stamp (JList items) = Ok d /\ stamp (JDict d) = Ok d /\
    norm (JDict d) = JList items /\ norm (JList items) = norm (JDict d).
Proof.
  intros H Hl. destruct (proj1 (Forall_forall _ _) envelope_columns_ok _ H items Hl)
    as (d & H1 & H2 & H3 & H4).
  cbn [fst snd] in *. exists d. by rewrite H3, H4.
Qed.

Lemma envelope_roundtrip_witness :
  exists d, _stamp_windows_prefetch_records_all_run_times (JList [JStr "2024"]) = Ok d /\
    _normalize_windows_prefetch_records_all_run_times (JDict d) = JList [JStr "2024"].
Proof.
  destruct (envelope_roundtrip is_str _normalize_windows_prefetch_records_all_run_times
    _stamp_windows_prefetch_records_all_run_times [JStr "2024"]) as (d & H1 & _ & H3 & _).
  - apply (list_elem_of_lookup_2 _ 0). reflexivity.
  - by vm_compute.
  - by exists d.
Defined.

Lemma stamp_entries_spec n l :
  forallb is_dict l = true ->
  stamp_entries n l = Ok ((fun v => match v with JDict d => JDict (stamp_version n d) | _ => v end) <$> l).
Proof.
  induction l as [|[] l IH]; cbn; try done. intros H. by rewrite IH.
Qed.

Lemma stamp_entries_err n l : forallb is_dict l = false -> stamp_entries n l = Err TypeError.
Proof. induction l as [|[] l IH]; cbn; try done. intros H. by rewrite IH. Qed.

(** The three list columns stamped entry by entry: the stamp fails exactly on a list
    with an entry that is not a dictionary; otherwise every entry keeps its
    bindings and gains version 1, and the reader returns the stamped list. *)
Theorem entries_roundtrip norm stamp (payload : list json) :
  (norm, stamp) ∈ entry_columns ->
  (forallb is_dict payload = false -> stamp payload = Err TypeError) /\
  (forallb is_dict payload = true ->
   exists l, stamp payload = Ok l /\ stamp l = Ok l /\ norm (JList l) = Ok (JList l) /\
     Forall2 (fun v w => exists d, v = JDict d /\ w = JDict (stamp_version 1 d)) payload l).
Proof.
  intros H. assert (stamp = stamp_entries 1 /\ retraction SDictList norm) as [-> [_ Hr]].
  { unfold entry_columns in H. registry H; injection H as -> ->; split; auto with jsonb. }
  split; [apply stamp_entries_err|]. intros Hp. rewrite stamp_entries_spec by done.
  eexists. split; [done|].
  assert (forallb is_dict ((fun v => match v with JDict d => JDict (stamp_version 1 d) | _ => v end)
                             <$> payload) = true) as Hd.
  { clear Hr H. induction payload as [|[] l IH]; cbn in *; try done. by apply IH. }
  rewrite stamp_entries_spec by done. repeat split.
  - f_equal. clear Hr H Hd. induction payload as [|[] l IH]; cbn in *; try done.
    f_equal; [by rewrite stamp_version_idem | by apply IH].
  - apply Hr. by apply Hd.
  - clear Hr H Hd. induction payload as [|[] l IH]; cbn in *; try done.
    constructor; [by eexists | by apply IH].
Qed.

Lemma entries_roundtrip_witness :
  _stamp_windows_bcd_entries_custom_elements [JStr "x"] = Err TypeError.
Proof.
  apply (proj1 (entries_roundtrip (total _normalize_windows_bcd_entries_custom_elements)
    _stamp_windows_bcd_entries_custom_elements [JStr "x"]
    (list_elem_of_lookup_2 entry_columns 1 _ eq_refl))).
  reflexivity.
Defined.

Lemma strip_schema_sentinel_id (l : list json) :
  Forall (fun v => exists d, v = JDict d /\ dict_has "schema_version" d = false) l ->
  _strip_schema_sentinel l = l.
Proof.
  unfold _strip_schema_sentinel. induction 1 as [|v l [d [-> Hd]] Hl IH]; [done|].
  cbn [List.filter]. rewrite Hd. cbn [negb]. by rewrite IH.
Qed.

(** The EFS user lists: the writer puts a version sentinel in front of the list, once;
    the normaliser keeps it, and the readers' filter removes it and nothing else,
    so the entries come back as they were written. *)
Theorem sentinel_roundtrip norm stamp (payload : list json) :
  (norm, stamp) ∈ sentinel_columns ->
  Forall (fun v => exists d, v = JDict d /\ dict_has "schema_version" d = false) payload ->
  norm (JList (stamp payload)) = JList (JDict [("schema_version", JInt 1)] :: payload) /\
  _strip_schema_sentinel (stamp payload) = payload /\
  stamp (stamp payload) = stamp payload.
Proof.
  intros H Hp. assert (norm = keep_if is_dict /\ stamp = stamp_sentinel 1) as [-> ->].
  { unfold sentinel_columns in H. registry H; by injection H as -> ->. }
  assert (stamp_sentinel 1 payload = JDict [("schema_version", JInt 1)] :: payload) as ->.
  { destruct Hp as [|v l [d [-> Hd]] Hl]; [done|]. cbn. unfold dict_has in Hd.
    destruct (dict_get "schema_version" d); [|done]. by vm_compute in Hd. }
  assert (List.filter is_dict payload = payload) as Hf.
  { induction Hp as [|v l [d [-> Hd]] Hl IH]; cbn; [done|]. by rewrite IH. }
  repeat split.
  - cbn. by rewrite Hf.
  - change (_strip_schema_sentinel payload = payload). by apply strip_schema_sentinel_id.
Qed.

Lemma sentinel_roundtrip_witness :
  _strip_schema_sentinel (_stamp_windows_efs_encrypted_files_ddf_users [JDict [("sid", JStr "S-1-5-18")]])
    = [JDict [("sid", JStr "S-1-5-18")]].
Proof.
  refine (proj1 (proj2 (sentinel_roundtrip _normalize_windows_efs_encrypted_files_ddf_users
    _stamp_windows_efs_encrypted_files_ddf_users [JDict [("sid", JStr "S-1-5-18")]] _ _))).
  - apply (list_elem_of_lookup_2 _ 0). reflexivity.
  - repeat constructor. by eexists.
Defined.

(** The mask table: one bit each, distinct, below 2^32. *)
Lemma usn_bits_pow2 :
  forallb (fun nm => bool_decide (nm.2 = 2 ^ Z.log2 nm.2 /\ 0 <= Z.log2 nm.2 < 32)) _USN_REASON_BITS = true.
Proof. by vm_compute. Qed.

Lemma land_pow2 (a k : Z) : 0 <= k -> negb (Z.land a (2 ^ k) =? 0) = Z.testbit a k.
Proof.
  intros Hk. destruct (Z.testbit a k) eqn:E.
  - apply negb_true_iff, Z.eqb_neq. intros H.
    assert (Z.testbit (Z.land a (2 ^ k)) k = true) as H'
      by (by rewrite Z.land_spec, E, Z.pow2_bits_true by done).
    by rewrite H, Z.bits_0 in H'.
  - apply negb_false_iff, Z.eqb_eq. apply Z.bits_inj'. intros n Hn.
    rewrite Z.land_spec, Z.bits_0. destruct (decide (n = k)) as [->|Hne]; [by rewrite E|].
    rewrite Z.pow2_bits_false by lia. apply andb_false_r.
Qed.

Lemma dict_get_fmap (raw : Z) (bits : list (string * Z)) (tail : pydict) (name : string) (mask : Z) :
  NoDup bits.*1 -> (name, mask) ∈ bits ->
  dict_get name (((fun nm => (nm.1, JBool (negb (Z.land raw nm.2 =? 0)))) <$> bits) ++ tail)
    = Some (JBool (negb (Z.land raw mask =? 0))).
Proof.
  induction bits as [|[n m] bits IH]; cbn; [intros _ H; by apply not_elem_of_nil in H|].
  intros [Hn Hnd]%NoDup_cons [[= -> ->]|Hin]%elem_of_cons; [by rewrite decide_True|].
  rewrite decide_False; [by apply IH|]. intros ->. apply Hn.
  apply list_elem_of_fmap. by exists (name, mask).
Qed.

(** Decoding a USN reason word: each of the 23 names is bound to the value of its own
    bit of the word modulo 2^32, and [_raw] to that word, so nothing is lost below
    the 32-bit mask. *)
Theorem decode_usn_reason_spec (raw : Z) (name : string) (mask : Z) :
  (name, mask) ∈ _USN_REASON_BITS ->
  dict_get name (_decode_usn_reason_bitmask raw)
    = Some (JBool (Z.testbit (raw mod 2 ^ 32) (Z.log2 mask))) /\
  dict_get "_raw" (_decode_usn_reason_bitmask raw) = Some (JInt (raw mod 2 ^ 32)).
Proof.
  intros Hin. assert (Z.land raw 0xFFFFFFFF = raw mod 2 ^ 32) as Hraw.
  { change 0xFFFFFFFF with (Z.ones 32). by apply Z.land_ones. }
  pose proof usn_bits_pow2 as Hp. rewrite forallb_forall in Hp.
  specialize (Hp _ (proj1 (list_elem_of_In _ _) Hin)). apply bool_decide_eq_true in Hp as [Hm Hk].
  cbn [snd] in *. split.
  - unfold _decode_usn_reason_bitmask. rewrite dict_get_fmap with (mask := mask); [| |done].
    + rewrite Hraw. f_equal. f_equal. rewrite Hm at 1. apply land_pow2. lia.
    + by apply (bool_decide_unpack _); vm_compute.
  - unfold _decode_usn_reason_bitmask. rewrite Hraw. generalize (raw mod 2 ^ 32). intros z.
    cbn. done.
Qed.

Lemma decode_usn_reason_spec_witness :
  dict_get "file_delete" (_decode_usn_reason_bitmask 0x80000200) = Some (JBool true).
Proof.
  refine (proj1 (decode_usn_reason_spec 0x80000200 "file_delete" 0x200 _)).
  apply (list_elem_of_lookup_2 _ 7). reflexivity.
Defined.
