(* ===== verification/VirtualFs.v ===== *)
(** * The virtual firmware file system ([services/file_service.py])

    [FileService] shows several directories of one firmware as a single tree:
    [_resolve] maps a virtual path to a real one through [validate_path], and
    [to_virtual_path] is meant to be its inverse.  The operating system is a
    record of the calls the code makes; what the round trips need of
    [os.path.realpath] is stated as the class [RealpathLaws]. *)

From S2P Require Import Prelude PyText PosixPath Sandbox Json.
From Stdlib Require Import Ascii String.
Import (notations) Ascii String.
#[local] Open Scope Z_scope.

(** ** Operating system *)

(** A directory entry; both tests are those with [follow_symlinks=False]. *)
Record dentry := { d_name : string; d_is_dir : bool; d_is_file : bool }.

Record os := {
  realpath : string -> string;
  readlink : string -> option string;
  os_exists : string -> bool;
  isdir : string -> bool;
  isfile : string -> bool;
  scandir : string -> option (list dentry) (* None: OSError *)
}.

(** [os.listdir] *)
Definition listdir (fs : os) (path : string) : option (list string) :=
  (fun entries : list dentry => d_name <$> entries) <$> fs.(scandir) path.

(** [os.walk(p, followlinks=False)]: each directory with the names in it that are no
    directories, from the top down; [keep] tells the directories that are not pruned.  A link
    to a directory is not entered. *)
Fixpoint os_walk (fs : os) (keep : string -> bool) (depth : nat) (p : string) : list (string * list string) :=
  match depth with
  | O => []
  | S depth =>
      match fs.(scandir) p with
      | None => []
      | Some entries =>
          (p, List.filter (fun name => negb (fs.(isdir) (path_join p name))) (d_name <$> entries)) ::
          (entries ≫= fun e =>
             if e.(d_is_dir) && keep e.(d_name) then os_walk fs keep depth (path_join p e.(d_name)) else [])
      end
  end.

(** [os.path.relpath(path, start)] of absolute paths. *)
Fixpoint common_prefix (a b : list string) : nat :=
  match a, b with
  | x :: a', y :: b' => if decide (x = y) then S (common_prefix a' b') else 0
  | _, _ => 0
  end.

Definition abs_parts (p : string) : list string :=
  filter (fun x => x <> "") (split_char slash (normpath p)).

Definition relpath (path start : string) : string :=
  let start_list := abs_parts start in
  let path_list := abs_parts path in
  let i := common_prefix start_list path_list in
  match (replicate (List.length start_list - i) ".." ++ drop i path_list)%list with
  | [] => "."
  | rel_list => PyText.join "/" rel_list
  end.

(** [s[n:]] for an ASCII prefix, and [s.split(c, 1)] (the tail is absent without a
    separator). *)
Fixpoint sdrop (n : nat) (s : string) : string :=
  match n, s with S n', String _ s' => sdrop n' s' | _, _ => s end.

Fixpoint split1 (c : ascii) (s : string) : string * option string :=
  match s with
  | "" => ("", None)
  | String a s' =>
      if decide (a = c) then ("", Some s')
      else let '(h, t) := split1 c s' in (String a h, t)
  end.

(** ** State *)

Definition ROOTFS_VNAME : string := "rootfs".
Definition CARVED_VNAME : string := "_carved".
Definition FIRMWARE_VNAME : string := "firmware".

Record FileService := {
  extracted_root : string;
  extraction_dir : option string;
  carved_path : option string;
  firmware_path : option string;
  firmware_basename : option string;
  is_blob_only : bool;
  extra_roots : list (string * string)
}.

(** [^[a-z0-9]+-root(-\d+)?$]; the dollar also matches before a final newline. *)
Fixpoint span (f : ascii -> bool) (s : string) : string * string :=
  match s with
  | "" => ("", "")
  | String a s' => if f a then let '(h, t) := span f s' in (String a h, t) else ("", s)
  end.

Definition at_end (s : string) : bool :=
  bool_decide (s = "") || bool_decide (s = String (ascii_of_N 10) "").

Definition _ROOT_DIR_PATTERN (name : string) : bool :=
  let '(h, t) := span (fun a => is_lower a || is_digit a) name in
  bool_decide (h <> "") && startswith t "-root" &&
  let u := sdrop 5 t in
  at_end u ||
  (startswith u "-" && let '(d, v) := span is_digit (sdrop 1 u) in bool_decide (d <> "") && at_end v).

Section FileServiceOps.
Context (fs : os).

(** One turn of the loop over [extra_roots]; the state is the set of real paths seen
    and the named roots. *)
Definition add_extra_root (st : gset string * list (string * string)) (root : string)
    : gset string * list (string * string) :=
  let '(seen_real, roots) := st in
  if bool_decide (root = "") then st
  else
    let real := fs.(realpath) root in
    if bool_decide (real ∈ seen_real) || negb (fs.(isdir) real) then st
    else
      let name := or_str (Some (basename (rstrip_char slash real))) real in
      let name :=
        if dict_has name roots || bool_decide (name = ROOTFS_VNAME) then
          let parent := basename (dirname real) in
          if bool_decide (parent <> "") then parent +:+ "_" +:+ name
          else "root_" +:+ str_int (zlen roots)
        else name in
      ({[real]} ∪ seen_real, dict_set name real roots).

Definition FileService_init (extracted_root_ : string) (extraction_dir_ : option string)
    (extra_roots_ : list string) (carved_path_ firmware_path_ : option string) : FileService :=
  let real_root := fs.(realpath) extracted_root_ in
  let dir := match extraction_dir_ with
             | Some d => if bool_decide (d <> "") && bool_decide (fs.(realpath) d <> real_root)
                         then Some d else None
             | None => None
             end in
  let seen := match dir with
              | Some d => {[real_root; fs.(realpath) d]}
              | None => {[real_root]}
              end : gset string in
  let roots := (foldl add_extra_root (seen, []) extra_roots_).2 in
  {| extracted_root := extracted_root_;
     extraction_dir :=
       if bool_decide (roots <> []) && bool_decide (dir = None)
       then Some (or_str (Some (dirname real_root)) extracted_root_) else dir;
     carved_path := if truthy carved_path_ then carved_path_ else None;
     firmware_path := if truthy firmware_path_ then firmware_path_ else None;
     firmware_basename := if truthy firmware_path_ then basename <$> firmware_path_ else None;
     is_blob_only := truthy firmware_path_ && bool_decide (extracted_root_ = "");
     extra_roots := roots |}.

(** ** The map of virtual directories *)

(** The nested scan of a directory that does not match the pattern. *)
Definition add_child (rootfs_real dir : string) (vmap : list (string * string)) (child : dentry)
    : list (string * string) :=
  let path := path_join dir child.(d_name) in
  if negb child.(d_is_dir) then vmap
  else if bool_decide (fs.(realpath) path = rootfs_real) then vmap
  else if _ROOT_DIR_PATTERN child.(d_name) && negb (dict_has child.(d_name) vmap)
  then dict_set child.(d_name) path vmap else vmap.

Definition add_entry (rootfs_real dir : string) (vmap : list (string * string)) (entry : dentry)
    : list (string * string) :=
  let path := path_join dir entry.(d_name) in
  if negb entry.(d_is_dir) then vmap
  else
    let real := fs.(realpath) path in
    if bool_decide (real = rootfs_real) then vmap
    else if bool_decide (real ∈ fs.(realpath) <$> vmap.*2) then vmap
    else if _ROOT_DIR_PATTERN entry.(d_name) then dict_set entry.(d_name) path vmap
    else match fs.(scandir) path with
         | None => vmap
         | Some children => foldl (add_child rootfs_real path) vmap children
         end.

Definition _build_virtual_map (s : FileService) : list (string * string) :=
  match s.(extraction_dir) with
  | None => s.(extra_roots)
  | Some dir =>
      foldl (add_entry (fs.(realpath) s.(extracted_root)) dir) s.(extra_roots)
            (default [] (fs.(scandir) dir))
  end.

(** ** Resolution *)

Definition in_namespace (vname clean : string) : bool :=
  bool_decide (clean = vname) || startswith clean (vname +:+ "/").

Definition validate (root path : string) : res sandbox_error string :=
  validate_path fs.(readlink) fs.(realpath) root path.

(** [sub or "/"]. *)
Definition or_slash (sub : string) : string := if bool_decide (sub = "") then "/" else sub.

Definition resolve_firmware (fp : string) (fb : option string) (clean : string) : res sandbox_error string :=
  let sub := lstrip_char slash (sdrop (String.length FIRMWARE_VNAME) clean) in
  if bool_decide (sub = "") then Ok (fs.(realpath) (dirname fp))
  else if bool_decide (Some sub = fb) then Ok (fs.(realpath) fp)
  else Err PathTraversalError.

Definition resolve_blob_only (fp : string) (fb : option string) (clean : string) : res sandbox_error string :=
  if bool_decide (clean = "") then Ok (fs.(realpath) (dirname fp))
  else if bool_decide (Some clean = fb) then Ok (fs.(realpath) fp)
  else Err PathTraversalError.

(** The last stages, with an extraction directory [dir]: /rootfs, the virtual map, the
    rootfs itself when the file exists there, then the directory. *)
Definition resolve_in_extraction (s : FileService) (dir path clean : string) : res sandbox_error string :=
  if in_namespace ROOTFS_VNAME clean then
    validate s.(extracted_root) (or_slash (sdrop (String.length ROOTFS_VNAME) clean))
  else
    let '(top_name, rest) := split1 slash clean in
    match dict_get top_name (_build_virtual_map s) with
    | Some base_path =>
        validate base_path (match rest with Some r => "/" +:+ r | None => "/" end)
    | None =>
        match (if bool_decide (clean <> "") then validate s.(extracted_root) path
               else Err PathTraversalError) with
        | Ok resolved =>
            if fs.(os_exists) resolved then Ok resolved else validate dir path
        | Err _ => validate dir path
        end
    end.

Definition _resolve (s : FileService) (path : string) : res sandbox_error string :=
  let clean := strip_char slash path in
  let fp := default "" s.(firmware_path) in
  let cp := default "" s.(carved_path) in
  if bool_decide (is_Some s.(firmware_path)) && in_namespace FIRMWARE_VNAME clean
  then resolve_firmware fp s.(firmware_basename) clean
  else if bool_decide (is_Some s.(carved_path)) && in_namespace CARVED_VNAME clean
  then validate cp (or_slash (sdrop (String.length CARVED_VNAME) clean))
  else if s.(is_blob_only) then resolve_blob_only fp s.(firmware_basename) clean
  else match s.(extraction_dir) with
       | None => validate s.(extracted_root) path
       | Some dir => resolve_in_extraction s dir path clean
       end.

(** ** The inverse map *)

(** Longest real base that contains [real], with its virtual name. *)
Definition best_step (real : string) (best : option string * string) (entry : string * string)
    : option string * string :=
  let vreal := fs.(realpath) entry.2 in
  if (bool_decide (real = vreal) || startswith real (vreal +:+ "/")) && (py_len best.2 <? py_len vreal)
  then (Some entry.1, vreal) else best.

Definition virtual_in_extraction (s : FileService) (dir real : string) : option string :=
  let '(best_vname, best_vreal) := foldl (best_step real) (None, "") (_build_virtual_map s) in
  match best_vname with
  | Some vname =>
      if bool_decide (real = best_vreal) then Some ("/" +:+ vname)
      else Some ("/" +:+ vname +:+ "/" +:+ relpath real best_vreal)
  | None =>
      let extraction_real := fs.(realpath) dir in
      if bool_decide (real = extraction_real) then Some "/"
      else if startswith real (extraction_real +:+ "/") then Some ("/" +:+ relpath real extraction_real)
      else None
  end.

Definition virtual_in_rootfs (s : FileService) (real : string) : option string :=
  let rootfs_real := fs.(realpath) s.(extracted_root) in
  let has_dir := truthy s.(extraction_dir) in
  if bool_decide (real = rootfs_real) then
    Some (if has_dir then "/" +:+ ROOTFS_VNAME else "/")
  else if startswith real (rootfs_real +:+ "/") then
    let rel := relpath real rootfs_real in
    Some (if has_dir then "/" +:+ ROOTFS_VNAME +:+ "/" +:+ rel else "/" +:+ rel)
  else match s.(extraction_dir) with
       | None | Some "" => None
       | Some dir => virtual_in_extraction s dir real
       end.

Definition virtual_in_carved (s : FileService) (real : string) : option string :=
  match s.(carved_path) with
  | None | Some "" => virtual_in_rootfs s real
  | Some cp =>
      let carved_real := fs.(realpath) cp in
      if bool_decide (real = carved_real) then Some ("/" +:+ CARVED_VNAME)
      else if startswith real (carved_real +:+ "/")
      then Some ("/" +:+ CARVED_VNAME +:+ "/" +:+ relpath real carved_real)
      else virtual_in_rootfs s real
  end.

Definition to_virtual_path (s : FileService) (abs_path : string) : option string :=
  let real := fs.(realpath) abs_path in
  match s.(firmware_path) with
  | None | Some "" => virtual_in_carved s real
  | Some fp =>
      if bool_decide (real = fs.(realpath) fp)
      then Some ("/" +:+ FIRMWARE_VNAME +:+ "/" +:+ default "None" s.(firmware_basename))
      else virtual_in_carved s real
  end.
End FileServiceOps.

(** ** Canonical absolute paths *)

(** A component as [realpath] returns it. *)
Definition component (c : string) : Prop := clean c /\ c <> "." /\ c <> "..".

Definition abs_of (cs : list string) : string := "/" +:+ PyText.join "/" cs.

Lemma split_clean (c : string) : has_char slash c = false -> split_char slash c = [c].
Proof.
  induction c as [|a c IH]; [done|]. cbn. intros [Ha Hc]%orb_false_iff.
  apply bool_decide_eq_false in Ha. rewrite decide_False by done. by rewrite IH.
Qed.

Lemma join_cons (c : string) (cs : list string) :
  cs <> [] -> PyText.join "/" (c :: cs) = c +:+ "/" +:+ PyText.join "/" cs.
Proof. by destruct cs. Qed.

Lemma split_join_id (cs : list string) :
  cs <> [] -> Forall component cs -> split_char slash (PyText.join "/" cs) = cs.
Proof.
  intros Hne H. induction H as [|c cs [[Hc Hs] _] Hcs IH]; [done|].
  destruct cs as [|c' cs]; [by apply split_clean|].
  rewrite join_cons, split_char_app, split_clean, IH by done. done.
Qed.

Lemma split_abs_of (cs : list string) :
  cs <> [] -> Forall component cs -> split_char slash (abs_of cs) = "" :: cs.
Proof.
  intros Hne H. change (abs_of cs) with ("" +:+ "/" +:+ PyText.join "/" cs).
  by rewrite split_char_app, split_join_id.
Qed.

Lemma abs_of_app (rs ts : list string) :
  rs <> [] -> ts <> [] -> abs_of (rs ++ ts) = abs_of rs +:+ "/" +:+ PyText.join "/" ts.
Proof.
  intros Hr Ht. unfold abs_of. rewrite append_assoc. f_equal.
  induction rs as [|c rs IH]; [done|]. destruct rs as [|c' rs].
  - cbn [app]. rewrite join_cons by done. by cbn [PyText.join].
  - cbn [app] in *. rewrite !(join_cons c) by done. rewrite IH by done. by rewrite !append_assoc.
Qed.

Lemma lstrip_clean (c s : string) : clean c -> lstrip_char slash (c +:+ s) = c +:+ s.
Proof.
  intros [Hne Hc]. destruct c as [|a c]; [done|]. cbn in Hc. apply orb_false_iff in Hc as [Ha _].
  rewrite append_cons. unfold lstrip_char, is_char. cbn. by rewrite Ha.
Qed.

Lemma lstrip_join (cs : list string) :
  Forall component cs -> lstrip_char slash (PyText.join "/" cs) = PyText.join "/" cs.
Proof.
  intros [|c cs' [Hc _] _]; [done|]. destruct cs' as [|c' cs'].
  - rewrite <- (append_nil_r c) at 1. cbn. rewrite lstrip_clean by done. by rewrite append_nil_r.
  - rewrite join_cons by done. by apply lstrip_clean.
Qed.

Lemma rstrip_join (cs : list string) :
  Forall component cs -> rstrip_char slash (PyText.join "/" cs) = PyText.join "/" cs.
Proof.
  intros H. induction H as [|c cs [Hc _] Hcs IH]; [done|]. destruct cs as [|c' cs].
  - by apply clean_no_trailing.
  - rewrite join_cons by done. unfold rstrip_char in *.
    assert (PyText.join "/" (c' :: cs) <> "") as Hne.
    { intros E. apply Forall_cons in Hcs as [[[Hc' _] _] _]. destruct cs; cbn in E; [done|].
      by apply append_eq_nil in E as [-> _]. }
    rewrite rstrip_if_app_r.
    + rewrite rstrip_if_app_r by (by rewrite IH). by rewrite IH.
    + rewrite rstrip_if_app_r by (by rewrite IH). intros E%append_eq_nil. by destruct E.
Qed.

Lemma strip_abs_of (cs : list string) :
  Forall component cs -> strip_char slash (abs_of cs) = PyText.join "/" cs.
Proof.
  intros H. unfold abs_of, strip_char.
  assert (lstrip_if (is_char slash) ("/" +:+ PyText.join "/" cs) = PyText.join "/" cs) as ->
    by exact (lstrip_join cs H).
  by apply rstrip_join.
Qed.

Lemma filter_components (cs : list string) :
  Forall component cs -> filter (fun p => p <> "" /\ p <> ".") cs = cs.
Proof.
  induction 1 as [|c cs [[Hc _] [Hd _]] _ IH]; [done|]. rewrite filter_cons_True by done. by rewrite IH.
Qed.

Lemma path_parts_abs_of (cs : list string) : Forall component cs -> path_parts (abs_of cs) = cs.
Proof.
  intros H. unfold path_parts. rewrite strip_abs_of by done.
  destruct (decide (cs = [])) as [->|Hne]; [done|].
  rewrite split_join_id by done. by apply filter_components.
Qed.

(** ** [normpath] and [relpath] on canonical paths *)

Lemma norm_comps_components (b : bool) (stack cs : list string) :
  Forall component cs -> norm_comps b stack cs = rev stack ++ cs.
Proof.
  intros H. revert stack. induction H as [|c cs [[Hc _] [Hd Hdd]] _ IH]; intros stack; cbn.
  - by rewrite app_nil_r.
  - rewrite (bool_decide_eq_false_2 _ Hc), (bool_decide_eq_false_2 _ Hd). cbn.
    rewrite (bool_decide_eq_true_2 _ Hdd). cbn. rewrite IH. cbn. by rewrite <- app_assoc.
Qed.

Lemma join_not_slash (cs : list string) : Forall component cs -> isabs (PyText.join "/" cs) = false.
Proof.
  intros H. destruct H as [|c cs [[Hc Hs] _] _]; [done|].
  assert (forall s, isabs (c +:+ s) = false) as Hi.
  { intros s. destruct c as [|a c]; [done|]. cbn in Hs. apply orb_false_iff in Hs as [Ha _].
    apply bool_decide_eq_false in Ha. rewrite append_cons. cbn. by rewrite decide_False. }
  destruct cs as [|c' cs]; [rewrite <- (append_nil_r c); cbn; by rewrite append_nil_r; specialize (Hi ""); rewrite append_nil_r in Hi|].
  rewrite join_cons by done. apply Hi.
Qed.

Lemma normpath_abs_of (cs : list string) : Forall component cs -> normpath (abs_of cs) = abs_of cs.
Proof.
  intros H. unfold normpath. rewrite bool_decide_eq_false_2 by done.
  assert (initial_slashes (abs_of cs) = "/") as ->.
  { unfold initial_slashes. assert (startswith (abs_of cs) "//" = false) as ->.
    { unfold abs_of. cbn. exact (join_not_slash cs H). }
    done. }
  assert (norm_comps (isabs (abs_of cs)) [] (split_char slash (abs_of cs)) = cs) as ->; [|done].
  destruct (decide (cs = [])) as [->|Hne]; [done|].
  rewrite split_abs_of by done. cbn. by rewrite norm_comps_components.
Qed.

Lemma abs_parts_abs_of (cs : list string) : Forall component cs -> abs_parts (abs_of cs) = cs.
Proof.
  intros H. unfold abs_parts. rewrite normpath_abs_of by done.
  destruct (decide (cs = [])) as [->|Hne]; [done|]. rewrite split_abs_of by done.
  rewrite filter_cons_False by naive_solver. clear Hne.
  induction H as [|c cs [[Hc _] _] _ IH]; [done|]. rewrite filter_cons_True by done. by rewrite IH.
Qed.

Lemma common_prefix_app (rs ts : list string) : common_prefix rs (rs ++ ts) = List.length rs.
Proof. induction rs as [|c rs IH]; cbn; [done|]. rewrite decide_True by done. by rewrite IH. Qed.

Lemma relpath_below (rs ts : list string) :
  ts <> [] -> Forall component (rs ++ ts) ->
  relpath (abs_of (rs ++ ts)) (abs_of rs) = PyText.join "/" ts.
Proof.
  intros Ht H. unfold relpath. pose proof H as [Hr Hts]%Forall_app.
  rewrite !abs_parts_abs_of by done. rewrite common_prefix_app, Nat.sub_diag, drop_app_length.
  cbn. by destruct ts.
Qed.

(** The prefix test of the code, on canonical paths. *)
Lemma startswith_below (ps rs : list string) :
  Forall component ps -> Forall component rs ->
  startswith (abs_of ps) (abs_of rs +:+ "/") = true ->
  rs <> [] /\ exists ts, ts <> [] /\ ps = rs ++ ts.
Proof.
  intros Hp Hr [t E]%startswith_spec.
  destruct (decide (rs = [])) as [->|Hrs].
  { exfalso. pose proof (join_not_slash ps Hp) as Hn. unfold abs_of in E.
    rewrite !append_assoc, append_cons in E. injection E as E. rewrite append_nil_l in E.
    rewrite E in Hn. done. }
  split; [done|]. rewrite append_assoc in E. apply (f_equal (split_char slash)) in E.
  rewrite split_char_app, (split_abs_of rs) in E by done.
  destruct (decide (ps = [])) as [->|Hps].
  - exfalso. cbn in E. destruct rs as [|c rs]; [done|]. injection E as E1 E2.
    apply Forall_cons in Hr as [[[Hc _] _] _]. congruence.
  - rewrite split_abs_of in E by done. injection E as ->.
    exists (split_char slash t). split; [apply split_char_nonempty | done].
Qed.

Lemma under_below (ps rs : list string) :
  Forall component ps -> Forall component rs -> under (abs_of rs) (abs_of ps) ->
  ps = rs \/ (rs <> [] /\ exists ts, ts <> [] /\ ps = rs ++ ts).
Proof.
  intros Hp Hr [E | [t E]].
  - left. apply (f_equal abs_parts) in E. by rewrite !abs_parts_abs_of in E.
  - right. apply startswith_below; [done..|]. apply startswith_spec. exists t. by rewrite append_assoc.
Qed.

(** ** What [os.path.realpath] promises *)

Class RealpathLaws (fs : os) : Prop := {
  realpath_canonical q : exists cs, Forall component cs /\ fs.(realpath) q = abs_of cs;
  realpath_idem q : fs.(realpath) (fs.(realpath) q) = fs.(realpath) q;
  realpath_link_free q r : under r (fs.(realpath) q) -> fs.(readlink) r = None
}.

Lemma good_root_abs_of (rs : list string) : rs <> [] -> Forall component rs -> good_root (abs_of rs).
Proof.
  intros Hne H. split; [|done]. unfold abs_of, rstrip_char.
  pose proof (rstrip_join _ H) as Hs. unfold rstrip_char in Hs.
  rewrite rstrip_if_app_r; rewrite Hs; [done|].
  destruct H as [|c cs [[Hc _] _] _]; [done|]. destruct cs; cbn; [done|].
  by intros [-> _]%append_eq_nil.
Qed.

(** Validating a path below a canonical root, spelled as a virtual path. *)
Lemma resolve_parts_below readlink (depth : nat) (rs done ts : list string) (seen : gset string) :
  rs <> [] -> Forall component (rs ++ done ++ ts) ->
  (forall r, under r (abs_of (rs ++ done ++ ts)) -> readlink r = None) ->
  resolve_parts readlink (abs_of rs) depth (abs_of (rs ++ done), seen) ts
    = Ok (abs_of (rs ++ done ++ ts), seen).
Proof.
  intros Hrs. revert done. induction ts as [|t ts IH]; intros done H Hl; cbn [resolve_parts].
  - by rewrite app_nil_r.
  - assert (component t) as [[Htc Hts] [_ Htd]].
    { rewrite Forall_app, Forall_app, Forall_cons in H. naive_solver. }
    cbn [resolve_part]. rewrite decide_False by done.
    assert (path_join (abs_of (rs ++ done)) t = abs_of (rs ++ done ++ [t])) as Hj.
    { rewrite app_assoc, (abs_of_app (rs ++ done) [t]) by (try done; by destruct rs).
      unfold path_join. rewrite has_char_isabs by done.
      rewrite bool_decide_eq_false_2 by done. cbn [orb PyText.join].
      assert (Forall component (rs ++ done)) as Hrd.
      { rewrite !Forall_app in *. naive_solver. }
      assert (endswith (abs_of (rs ++ done)) "/" = false) as ->; [|done].
      apply good_root_no_slash, good_root_abs_of; [by destruct rs | done]. }
    rewrite Hj.
    assert (rs ++ done ++ t :: ts = rs ++ (done ++ [t]) ++ ts) as Hassoc by (by rewrite <- !app_assoc).
    assert (follow_links readlink (abs_of rs) depth (abs_of (rs ++ done ++ [t])) seen
              = Ok (abs_of (rs ++ done ++ [t]), seen)) as ->.
    { assert (readlink (abs_of (rs ++ done ++ [t])) = None) as Hn.
      { apply Hl. rewrite Hassoc, (app_assoc rs (done ++ [t]) ts).
        destruct (decide (ts = [])) as [->|Hts']; [rewrite app_nil_r; by left|].
        right. exists (PyText.join "/" ts). apply abs_of_app; [by destruct rs|done]. }
      destruct depth; cbn; by rewrite ?Hn. }
    cbn. rewrite Hassoc. apply IH; by rewrite <- Hassoc.
Qed.

Section RoundTrip.
Context (fs : os) {laws : RealpathLaws fs}.

Lemma validate_below (root q : string) (rs ts : list string) :
  fs.(realpath) root = abs_of rs -> rs <> [] ->
  Forall component (rs ++ ts) -> fs.(realpath) q = abs_of (rs ++ ts) ->
  validate fs root (abs_of ts) = Ok (abs_of (rs ++ ts)).
Proof.
  intros Hroot Hrs H Hq. unfold validate. pose proof H as [Hr Ht]%Forall_app.
  rewrite validate_path_eq by (rewrite Hroot; by apply good_root_abs_of).
  rewrite Hroot. unfold resolve_within_root. rewrite path_parts_abs_of by done.
  pose proof (resolve_parts_below fs.(readlink) 40 rs [] ts ∅ Hrs) as Hp.
  rewrite app_nil_r in Hp. cbn [app] in Hp. rewrite Hp; [done..|].
  intros r Hr'. apply (realpath_link_free q). by rewrite Hq.
Qed.

(** The virtual path below a namespace, and the one without. *)
Definition vpath (ns : list string) (ts : list string) : string := abs_of (ns ++ ts).

Lemma component_ns : component ROOTFS_VNAME /\ component CARVED_VNAME /\ component FIRMWARE_VNAME.
Proof. repeat split; by vm_compute. Qed.

Lemma sdrop_app (a b : string) : sdrop (String.length a) (a +:+ b) = b.
Proof. induction a as [|x a IH]; [by destruct b | done]. Qed.

(** What a namespace path resolves through. *)
Lemma in_namespace_below (vname : string) (ts : list string) :
  component vname -> Forall component ts ->
  in_namespace vname (PyText.join "/" (vname :: ts)) = true /\
  or_slash (sdrop (String.length vname) (PyText.join "/" (vname :: ts))) = abs_of ts.
Proof.
  intros Hv Ht. unfold in_namespace. destruct ts as [|t ts].
  - cbn. rewrite bool_decide_eq_true_2 by done. split; [done|].
    rewrite <- (append_nil_r vname) at 2. by rewrite sdrop_app.
  - rewrite join_cons by done. split.
    + rewrite <- append_assoc, startswith_app. apply orb_true_r.
    + rewrite sdrop_app. done.
Qed.

Lemma in_namespace_other (vname other : string) (ts : list string) :
  vname <> other -> component vname -> component other -> Forall component ts ->
  in_namespace vname (PyText.join "/" (other :: ts)) = false.
Proof.
  intros Hne [Hv _] Ho Ht. unfold in_namespace. apply orb_false_iff.
  pose proof (split_join_id (other :: ts) ltac:(done) ltac:(by constructor)) as Hs. split.
  - apply bool_decide_eq_false_2. intros E. rewrite E, split_clean in Hs by apply Hv.
    by injection Hs as ->.
  - destruct (startswith _ _) eqn:E; [|done]. apply startswith_spec in E as [t E].
    rewrite E, append_assoc, split_char_app, split_clean in Hs by apply Hv.
    by injection Hs as ->.
Qed.

(** What the constructor guarantees. *)
Record service_ok (s : FileService) : Prop := {
  ok_fp : s.(firmware_path) <> Some "";
  ok_cp : s.(carved_path) <> Some "";
  ok_dir : s.(extraction_dir) <> Some "";
  ok_fb : s.(firmware_basename) = basename <$> s.(firmware_path);
  ok_blob : s.(is_blob_only) = bool_decide (is_Some s.(firmware_path)) && bool_decide (s.(extracted_root) = "")
}.

Lemma init_ok root dir extras cp fp :
  root <> "" -> service_ok (FileService_init fs root dir extras cp fp).
Proof.
  intros Hr. constructor; cbn.
  - by destruct fp as [[]|].
  - by destruct cp as [[]|].
  - destruct (_ && bool_decide (_ = None)).
    + intros [= E]. unfold or_str in E. by destruct (dirname _).
    + destruct dir as [d|]; [|done]. destruct (bool_decide (d <> "") && _) eqn:E; [|done].
      intros [= ->]. by cbn in E.
  - by destruct fp as [[]|].
  - by destruct fp as [[]|].
Qed.

(** The one obstacle to the inverse: without an extraction directory a file of the
    rootfs is given its bare path, which another namespace may capture. *)
Definition shadowed (s : FileService) (real : string) : bool :=
  match s.(extraction_dir) with
  | Some _ => false
  | None =>
      let rel := relpath real (fs.(realpath) s.(extracted_root)) in
      (bool_decide (is_Some s.(firmware_path)) && in_namespace FIRMWARE_VNAME rel) ||
      (bool_decide (is_Some s.(carved_path)) && in_namespace CARVED_VNAME rel)
  end.

Section Service.
Context (s : FileService) (Hok : service_ok s).

Lemma resolve_firmware_blob fp :
  s.(firmware_path) = Some fp -> component (basename fp) ->
  _resolve fs s (abs_of [FIRMWARE_VNAME; basename fp]) = Ok (fs.(realpath) fp).
Proof.
  intros Hfp Hb. unfold _resolve.
  rewrite strip_abs_of by (repeat constructor; first [done | apply component_ns | apply Hb]).
  rewrite Hfp. rewrite bool_decide_eq_true_2 by done.
  destruct (in_namespace_below FIRMWARE_VNAME [basename fp]) as [-> _];
    [apply component_ns | by constructor |]. cbn [andb default].
  unfold resolve_firmware. rewrite join_cons by done. rewrite sdrop_app.
  assert (lstrip_char slash ("/" +:+ PyText.join "/" [basename fp]) = basename fp) as ->.
  { exact (lstrip_join [basename fp] ltac:(by constructor)). }
  rewrite (bool_decide_eq_false_2 _ (proj1 (proj1 Hb))).
  rewrite (ok_fb s Hok), Hfp. cbn. by rewrite bool_decide_eq_true_2.
Qed.

Lemma resolve_carved_below cp ts q :
  s.(carved_path) = Some cp -> fs.(realpath) cp <> "/" -> Forall component ts ->
  (exists cs, Forall component (cs ++ ts) /\ fs.(realpath) cp = abs_of cs /\
              fs.(realpath) q = abs_of (cs ++ ts)) ->
  _resolve fs s (abs_of (CARVED_VNAME :: ts)) = Ok (fs.(realpath) q).
Proof.
  intros Hcp Hne Ht (cs & Hcs & Ec & Eq). unfold _resolve.
  assert (Forall component (CARVED_VNAME :: ts)) as Hall by (constructor; [apply component_ns | done]).
  rewrite strip_abs_of by done. rewrite Hcp.
  rewrite in_namespace_other by (try done; apply component_ns). rewrite andb_false_r.
  rewrite bool_decide_eq_true_2 by done.
  destruct (in_namespace_below CARVED_VNAME ts) as [-> ->]; [apply component_ns | done |]. cbn [andb default].
  rewrite Eq. apply (validate_below _ q); try done. intros ->. by rewrite Ec in Hne.
Qed.

Lemma resolve_rootfs_below dir ts q :
  s.(extraction_dir) = Some dir -> s.(is_blob_only) = false ->
  fs.(realpath) s.(extracted_root) <> "/" -> Forall component ts ->
  (exists rs, Forall component (rs ++ ts) /\ fs.(realpath) s.(extracted_root) = abs_of rs /\
              fs.(realpath) q = abs_of (rs ++ ts)) ->
  _resolve fs s (abs_of (ROOTFS_VNAME :: ts)) = Ok (fs.(realpath) q).
Proof.
  intros Hdir Hb Hne Ht (rs & Hrs & Er & Eq). unfold _resolve.
  assert (Forall component (ROOTFS_VNAME :: ts)) as Hall by (constructor; [apply component_ns | done]).
  rewrite strip_abs_of by done. rewrite Hdir, Hb.
  rewrite !in_namespace_other by (try done; apply component_ns). rewrite !andb_false_r.
  unfold resolve_in_extraction.
  destruct (in_namespace_below ROOTFS_VNAME ts) as [-> ->]; [apply component_ns | done |].
  rewrite Eq. apply (validate_below _ q); try done. intros ->. by rewrite Er in Hne.
Qed.

Lemma resolve_plain_below ts q :
  s.(extraction_dir) = None -> s.(is_blob_only) = false ->
  fs.(realpath) s.(extracted_root) <> "/" -> Forall component ts ->
  (bool_decide (is_Some s.(firmware_path)) && in_namespace FIRMWARE_VNAME (PyText.join "/" ts)) = false ->
  (bool_decide (is_Some s.(carved_path)) && in_namespace CARVED_VNAME (PyText.join "/" ts)) = false ->
  (exists rs, Forall component (rs ++ ts) /\ fs.(realpath) s.(extracted_root) = abs_of rs /\
              fs.(realpath) q = abs_of (rs ++ ts)) ->
  _resolve fs s (abs_of ts) = Ok (fs.(realpath) q).
Proof.
  intros Hdir Hb Hne Ht Hf Hc (rs & Hrs & Er & Eq). unfold _resolve.
  rewrite strip_abs_of by done. rewrite Hdir, Hb, Hf, Hc.
  rewrite Eq. apply (validate_below _ q); try done. intros ->. by rewrite Er in Hne.
Qed.

(** A real path below a canonical root, split at the root. *)
Lemma below_split root q :
  under (fs.(realpath) root) (fs.(realpath) q) ->
  exists rs ts, Forall component (rs ++ ts) /\ Forall component ts /\
    fs.(realpath) root = abs_of rs /\ fs.(realpath) q = abs_of (rs ++ ts) /\
    (fs.(realpath) q = fs.(realpath) root <-> ts = []) /\
    (ts <> [] -> startswith (fs.(realpath) q) (fs.(realpath) root +:+ "/") = true /\
                 relpath (fs.(realpath) q) (fs.(realpath) root) = PyText.join "/" ts).
Proof.
  intros Hu. destruct (realpath_canonical root) as (rs & Hrs & Er).
  destruct (realpath_canonical q) as (qs & Hqs & Eq). rewrite Er, Eq in *.
  destruct (under_below qs rs Hqs Hrs Hu) as [-> | (Hne & ts & Hts & ->)].
  - exists rs, []. rewrite app_nil_r. repeat split; try done.
  - exists rs, ts. pose proof Hqs as [_ Ht]%Forall_app. split_and!; try done.
    + split; [|done]. intros E. apply (f_equal abs_parts) in E.
      rewrite !abs_parts_abs_of in E by done.
      rewrite <- (app_nil_r rs) in E at 2. by apply app_inv_head in E.
    + intros _. split; [|by apply relpath_below].
      rewrite abs_of_app by done. rewrite <- append_assoc. apply startswith_app.
Qed.
End Service.

Lemma virtual_in_rootfs_inverse s q v :
  service_ok s -> s.(is_blob_only) = false -> fs.(realpath) s.(extracted_root) <> "/" ->
  shadowed s (fs.(realpath) q) = false ->
  under (fs.(realpath) s.(extracted_root)) (fs.(realpath) q) ->
  virtual_in_rootfs fs s (fs.(realpath) q) = Some v -> _resolve fs s v = Ok (fs.(realpath) q).
Proof.
  intros Hok Hb Hne Hsh Hu.
  destruct (below_split _ q Hu) as (rs & ts & Hall & Hts & Er & Eq & Heq & Hst).
  assert (v = abs_of (if truthy s.(extraction_dir) then ROOTFS_VNAME :: ts else ts) ->
          _resolve fs s v = Ok (fs.(realpath) q)) as Hres.
  { intros ->. destruct (extraction_dir s) as [dir|] eqn:Hdir.
    - assert (truthy (Some dir) = true) as -> by (pose proof (ok_dir s Hok); destruct dir; [congruence|done]).
      eapply resolve_rootfs_below; eauto.
    - cbn [truthy]. unfold shadowed in Hsh. rewrite Hdir in Hsh.
      destruct (decide (ts = [])) as [->|Hn].
      + apply resolve_plain_below; eauto; by rewrite andb_false_r.
      + destruct (Hst Hn) as [_ Hrel]. rewrite Hrel in Hsh. apply orb_false_iff in Hsh as [? ?].
        apply resolve_plain_below; eauto. }
  unfold virtual_in_rootfs. case_bool_decide as E.
  - apply Heq in E as ->. intros [= <-]. apply Hres. by destruct (truthy _).
  - assert (ts <> []) as Hn by naive_solver. destruct (Hst Hn) as [-> ->]. intros [= <-].
    apply Hres. destruct (truthy _); [|done]. unfold abs_of. by rewrite join_cons.
Qed.

Lemma virtual_in_carved_inverse s q v :
  service_ok s -> s.(is_blob_only) = false -> fs.(realpath) s.(extracted_root) <> "/" ->
  (forall cp, s.(carved_path) = Some cp -> fs.(realpath) cp <> "/") ->
  shadowed s (fs.(realpath) q) = false ->
  ((exists cp, s.(carved_path) = Some cp /\ under (fs.(realpath) cp) (fs.(realpath) q)) \/
   under (fs.(realpath) s.(extracted_root)) (fs.(realpath) q)) ->
  virtual_in_carved fs s (fs.(realpath) q) = Some v -> _resolve fs s v = Ok (fs.(realpath) q).
Proof.
  intros Hok Hb Hne Hcn Hsh Hu. unfold virtual_in_carved.
  destruct (carved_path s) as [cp|] eqn:Hcp.
  2: { destruct Hu as [(cp & ? & _)|Hu]; [done|]. by apply virtual_in_rootfs_inverse. }
  destruct (decide (cp = "")) as [->|Hcp']; [by destruct (ok_cp s Hok)|].
  assert (forall A (a b : A), match cp with "" => a | _ => b end = b) as Hm by (by destruct cp).
  rewrite Hm. destruct (decide (under (fs.(realpath) cp) (fs.(realpath) q))) as [Hun|Hun].
  - destruct (below_split _ q Hun) as (rs & ts & Hall & Hts & Er & Eq & Heq & Hst).
    assert (v = abs_of (CARVED_VNAME :: ts) -> _resolve fs s v = Ok (fs.(realpath) q)) as Hres.
    { intros ->. eapply resolve_carved_below; eauto. }
    case_bool_decide as E.
    + apply Heq in E as ->. intros [= <-]. by apply Hres.
    + assert (ts <> []) as Hn by naive_solver. destruct (Hst Hn) as [-> ->]. intros [= <-].
      apply Hres. unfold abs_of. by rewrite join_cons.
  - destruct Hu as [(cp' & [= <-] & ?)|Hu]; [done|].
    assert (under_check (fs.(realpath) cp) (fs.(realpath) q) = false) as Hc.
    { destruct (under_check _ _) eqn:E; [|done]. by apply under_check_spec in E. }
    unfold under_check in Hc. apply orb_false_iff in Hc as [-> ->].
    by apply virtual_in_rootfs_inverse.
Qed.
End RoundTrip.

(** ** Properties *)

(** C14. [to_virtual_path] is inverted by [_resolve]: for a file that is the firmware blob
    or lies in the carved directory or in the rootfs, and is not shadowed, the
    virtual path that the indexers publish resolves to that very file. *)
Theorem virtual_path_roundtrip (fs : os) (laws : RealpathLaws fs)
    root dir extras carved fp (abs_path v : string) :
  let s := FileService_init fs root dir extras carved fp in
  let real := fs.(realpath) abs_path in
  root <> "" -> fs.(realpath) root <> "/" ->
  (forall cp, s.(carved_path) = Some cp -> fs.(realpath) cp <> "/") ->
  (forall f, s.(firmware_path) = Some f -> component (basename f)) ->
  (Some real = fs.(realpath) <$> s.(firmware_path) \/
   (exists cp, s.(carved_path) = Some cp /\ under (fs.(realpath) cp) real) \/
   under (fs.(realpath) root) real) ->
  shadowed fs s real = false ->
  to_virtual_path fs s abs_path = Some v -> _resolve fs s v = Ok real.
Proof.
  intros s real Hr Hne Hcn Hfb Howned Hsh. pose proof (init_ok fs root dir extras carved fp Hr) as Hok.
  fold s in Hok. assert (s.(extracted_root) = root) as Hroot by done.
  assert (s.(is_blob_only) = false) as Hb.
  { rewrite (ok_blob s Hok), Hroot, (bool_decide_eq_false_2 _ Hr). apply andb_false_r. }
  assert (((exists cp, s.(carved_path) = Some cp /\ under (fs.(realpath) cp) real) \/
           under (fs.(realpath) root) real) ->
          virtual_in_carved fs s real = Some v -> _resolve fs s v = Ok real) as Hcarved.
  { intros. by apply virtual_in_carved_inverse. }
  clearbody s. unfold to_virtual_path. fold real. destruct (firmware_path s) as [f|] eqn:Hfp.
  2: { apply Hcarved. by destruct Howned as [?|?]. }
  destruct (decide (f = "")) as [->|Hf]; [by destruct (ok_fp s Hok)|].
  assert (forall A (a b : A), match f with "" => a | _ => b end = b) as Hm by (by destruct f).
  rewrite Hm. case_bool_decide as E.
  - intros [= <-]. rewrite (ok_fb s Hok), Hfp, E. cbn [fmap option_fmap option_map default].
    apply (resolve_firmware_blob fs s Hok f Hfp), Hfb. done.
  - apply Hcarved. destruct Howned as [Ho|?]; [|done]. cbn in Ho. congruence.
Qed.


(** A tree without symbolic links, given by its files and directories. *)
Definition plain_realpath (p : string) : string := abs_of (norm_comps true [] (split_char slash p)).

Definition plain_os (files dirs : list string) : os :=
  {| realpath := plain_realpath;
     readlink := fun _ => None;
     os_exists := fun p => bool_decide (plain_realpath p ∈ files ++ dirs)%list;
     isdir := fun p => bool_decide (plain_realpath p ∈ dirs);
     isfile := fun p => bool_decide (plain_realpath p ∈ files);
     scandir := fun p =>
       if bool_decide (plain_realpath p ∈ dirs) then
         Some ((fun q => {| d_name := basename q; d_is_dir := bool_decide (q ∈ dirs);
                             d_is_file := bool_decide (q ∈ files) |})
                 <$> filter (fun q => dirname q = plain_realpath p /\ q <> "/") (files ++ dirs)%list)
       else None |}.

Lemma norm_comps_out (stack cs : list string) :
  Forall component stack -> Forall (fun c => has_char slash c = false) cs ->
  Forall component (norm_comps true stack cs).
Proof.
  intros Hs Hc. revert stack Hs. induction Hc as [|c cs Hc _ IH]; intros stack Hs; cbn.
  - by apply Forall_rev.
  - destruct (decide (c = "")) as [->|H1]; [by apply IH|].
    rewrite (bool_decide_eq_false_2 _ H1). destruct (decide (c = ".")) as [->|H2]; [by apply IH|].
    rewrite (bool_decide_eq_false_2 _ H2). cbn. destruct (decide (c = "..")) as [->|H3].
    + rewrite (bool_decide_eq_false_2 (".." <> "..")) by naive_solver.
      destruct stack as [|c' stack]; cbn; [by apply IH|].
      apply Forall_cons in Hs as [Hc' Hs]. rewrite bool_decide_eq_false_2; [by apply IH|].
      intros [= ->]. by destruct Hc' as (_ & _ & ?).
    + rewrite (bool_decide_eq_true_2 _ H3). cbn. apply IH. constructor; [|done]. by repeat split.
Qed.

#[export] Instance plain_os_laws files dirs : RealpathLaws (plain_os files dirs).
Proof.
  assert (forall p, Forall component (norm_comps true [] (split_char slash p))) as Hc.
  { intros p. apply norm_comps_out; [constructor | apply split_char_no_sep]. }
  split; cbn; [eauto | | done].
  intros q. unfold plain_realpath. f_equal.
  set (cs := norm_comps true [] (split_char slash q)) in *.
  assert (Forall component cs) as H by apply Hc.
  destruct (decide (cs = [])) as [->|Hne]; [done|]. rewrite split_abs_of by done. cbn.
  by rewrite norm_comps_components.
Qed.

Definition linux_os : os :=
  plain_os ["/fw/x/root/etc/passwd"; "/fw/x/init"; "/fw/x/root/init"; "/fw/x/root/firmware/modem.bin"]
           ["/fw"; "/fw/x"; "/fw/x/root"; "/fw/x/root/etc"; "/fw/x/root/firmware"].

Lemma virtual_path_roundtrip_witness :
  _resolve linux_os (FileService_init linux_os "/fw/x/root" (Some "/fw/x") [] None (Some "/fw/blob.bin"))
    "/rootfs/etc/passwd" = Ok "/fw/x/root/etc/passwd".
Proof.
  apply (virtual_path_roundtrip linux_os (plain_os_laws _ _) "/fw/x/root" (Some "/fw/x") [] None
           (Some "/fw/blob.bin") "/fw/x/root/etc/passwd" "/rootfs/etc/passwd").
  - done.
  - by vm_compute.
  - done.
  - intros f [= <-]. repeat split; by vm_compute.
  - right. right. apply under_check_spec. by vm_compute.
  - by vm_compute.
  - by vm_compute.
Defined.

(** Two virtual paths that do not come back.  Without an extraction directory the
    file /firmware/modem.bin of a rootfs is published as that path, which the
    firmware namespace rejects; and a file beside the rootfs is published by its
    bare name, which resolves to the file of the same name inside the rootfs. *)
Theorem virtual_path_shadowed :
  let s1 := FileService_init linux_os "/fw/x/root" None [] None (Some "/fw/blob.bin") in
  let s2 := FileService_init linux_os "/fw/x/root" (Some "/fw/x") [] None None in
  (to_virtual_path linux_os s1 "/fw/x/root/firmware/modem.bin" = Some "/firmware/modem.bin" /\
   _resolve linux_os s1 "/firmware/modem.bin" = Err PathTraversalError) /\
  (to_virtual_path linux_os s2 "/fw/x/init" = Some "/init" /\
   _resolve linux_os s2 "/init" = Ok "/fw/x/root/init").
Proof. by vm_compute. Qed.

(** ** Containment *)

(** The directories a service may serve files from. *)
Definition roots_of (fs : os) (s : FileService) : list string :=
  s.(extracted_root) :: option_list s.(extraction_dir) ++ option_list s.(carved_path)
    ++ (_build_virtual_map fs s).*2.

Definition served (fs : os) (s : FileService) (p : string) : Prop :=
  (exists r, r ∈ roots_of fs s /\ under (fs.(realpath) r) p) \/
  (exists fp, s.(firmware_path) = Some fp /\
     (p = fs.(realpath) fp \/ p = fs.(realpath) (dirname fp))).

Lemma validate_served fs s r path p :
  good_root (fs.(realpath) r) -> r ∈ roots_of fs s -> validate fs r path = Ok p -> served fs s p.
Proof.
  intros Hg Hr Hv. left. exists r. split; [done|]. unfold validate in Hv.
  rewrite validate_path_eq in Hv by done. by eapply resolve_within_root_under.
Qed.

Lemma dict_get_in {K} `{!EqDecision K} {A} (k : K) (v : A) d : dict_get k d = Some v -> v ∈ d.*2.
Proof.
  induction d as [|[k' v'] d IH]; cbn; [done|]. case_decide; [intros [= ->]; by left|].
  intros H'. right. by apply IH.
Qed.

Lemma resolve_in_extraction_served fs s dir path clean p :
  s.(extraction_dir) = Some dir ->
  (forall r, r ∈ roots_of fs s -> good_root (fs.(realpath) r)) ->
  resolve_in_extraction fs s dir path clean = Ok p -> served fs s p.
Proof.
  intros Hdir Hg. assert (s.(extracted_root) ∈ roots_of fs s) as Hroot by (by left).
  assert (dir ∈ roots_of fs s) as Hd by (unfold roots_of; rewrite Hdir; cbn; set_solver).
  unfold resolve_in_extraction. destruct (in_namespace _ _); [by apply validate_served; auto|].
  destruct (split1 slash clean) as [top rest].
  destruct (dict_get top (_build_virtual_map fs s)) as [base|] eqn:Eb.
  { assert (base ∈ roots_of fs s); [|by apply validate_served; auto].
    apply dict_get_in in Eb. unfold roots_of. set_solver. }
  destruct (if bool_decide (clean <> "") then _ else _) as [r|] eqn:Er.
  - destruct (os_exists fs r); [|by apply validate_served; auto]. intros [= <-].
    destruct (bool_decide _) in Er; [|done]. eapply validate_served; [| |exact Er]; auto.
  - by apply validate_served; auto.
Qed.

(** Whatever virtual path is asked for, [_resolve] answers with the firmware blob, its
    directory, or a path at or below the real path of the rootfs, the extraction
    directory, the carved directory or a directory of the virtual map. *)
Theorem resolve_contained (fs : os) (s : FileService) (path p : string) :
  (forall r, r ∈ roots_of fs s -> good_root (fs.(realpath) r)) ->
  (s.(is_blob_only) = true -> is_Some s.(firmware_path)) ->
  _resolve fs s path = Ok p -> served fs s p.
Proof.
  intros Hg Hb. unfold _resolve. destruct (bool_decide _ && in_namespace FIRMWARE_VNAME _) eqn:E1.
  { apply andb_true_iff in E1 as [[fp Hfp]%bool_decide_eq_true _]. rewrite Hfp. cbn.
    unfold resolve_firmware. case_bool_decide; [intros [= <-]; right; eauto|].
    case_bool_decide; [intros [= <-]; right; eauto | done]. }
  destruct (bool_decide _ && in_namespace CARVED_VNAME _) eqn:E2.
  { apply andb_true_iff in E2 as [[cp Hcp]%bool_decide_eq_true _]. rewrite Hcp. cbn [default].
    assert (cp ∈ roots_of fs s) by (unfold roots_of; rewrite Hcp; cbn; set_solver).
    apply validate_served; auto. }
  destruct (is_blob_only s) eqn:E3.
  { clear E1 E2. destruct (Hb eq_refl) as [fp Hfp]. rewrite Hfp. cbn. unfold resolve_blob_only.
    case_bool_decide; [intros [= <-]; right; eauto|].
    case_bool_decide; [intros [= <-]; right; eauto | done]. }
  destruct (extraction_dir s) as [dir|] eqn:E4.
  - by apply resolve_in_extraction_served.
  - assert (extracted_root s ∈ roots_of fs s) by (by left). apply validate_served; auto.
Qed.

Lemma resolve_contained_witness :
  served linux_os (FileService_init linux_os "/fw/x/root" (Some "/fw/x") [] None None) "/fw/x/root/init".
Proof.
  apply (resolve_contained linux_os
           (FileService_init linux_os "/fw/x/root" (Some "/fw/x") [] None None) "/etc/../init").
  - intros r Hr. vm_compute in Hr.
    repeat (apply elem_of_cons in Hr as [->|Hr]; [by vm_compute|]). by apply not_elem_of_nil in Hr.
  - done.
  - by vm_compute.
Defined.
