(* ===== verification/DetectLinux.v ===== *)
(** * Kernel and U-Boot detection ([workers/unpack_linux.py], [workers/unpack_common.py])

    [detect_kernel] and [detect_architecture_from_uboot] over the directory
    entries and file contents of [os]; the ELF type field is read by pyelftools
    and is a parameter. *)

From S2P Require Import Prelude PyText PosixPath Json VirtualFs.
From Stdlib Require Import Ascii String.
Import (notations) Ascii String.
#[local] Open Scope Z_scope.

(** ** Tables *)

Definition _FS_ROOT_NAMES : list string :=
  ["ext-root"; "squash-root"; "squashfs-root"; "ubifs-root"; "cpio-root"; "jffs2-root";
   "cramfs-root"; "romfs-root"].

Definition _KERNEL_NAME_PATTERNS : list string := ["vmlinux"; "zimage"; "uimage"; "bzimage"].

Definition _FS_IMAGE_EXTENSIONS : list string :=
  [".ext"; ".ext2"; ".ext3"; ".ext4"; ".yaffs"; ".yaffs2"; ".jffs2"; ".squashfs"; ".sqfs";
   ".cramfs"; ".ubifs"; ".ubi"; ".romfs"; ".cpio"].

Definition _UIMAGE_ARCH_MAP : list (Z * (string * string)) :=
  [(2, ("arm", "little")); (21, ("aarch64", "little")); (3, ("x86", "little"));
   (23, ("x86_64", "little")); (5, ("mips", "big")); (6, ("mips64", "big")); (7, ("ppc", "big"));
   (9, ("sh", "little")); (10, ("sparc", "big")); (11, ("sparc64", "big")); (25, ("riscv", "little"))].

Definition _UBOOT_MAGIC : bytes := [Byte.x27; Byte.x05; Byte.x19; Byte.x56].

(** ** Searching bytes *)

(** [data.find(needle)], [None] for -1. *)
Fixpoint bfind (needle s : bytes) : option Z :=
  if prefixb needle s then Some 0
  else match s with [] => None | _ :: s' => Z.succ <$> bfind needle s' end.

Lemma bfind_spec (needle s : bytes) (i : Z) :
  bfind needle s = Some i ->
  0 <= i /\ i + zlen needle <= zlen s /\ zslice i (i + zlen needle) s = needle.
Proof.
  revert i. induction s as [|b s IH]; intros i; cbn [bfind]; destruct (prefixb needle _) eqn:E.
  1,3: intros [= <-]; apply prefixb_spec in E as [t ->]; pose proof (zlen_nonneg t);
    rewrite zlen_app; split_and!; [done | lia |];
    rewrite <- (app_nil_l (needle ++ t)); by apply zslice_mid.
  - done.
  - destruct (bfind needle s) as [j|]; [|done]. intros [= <-].
    destruct (IH j eq_refl) as (H1 & H2 & H3). rewrite zlen_cons. split_and!; [lia..|].
    unfold zslice in *. rewrite ztake_eq, zdrop_eq in *.
    rewrite Z2Nat.inj_succ by done. cbn [drop].
    replace (Z.succ j + zlen needle - Z.succ j) with (j + zlen needle - j) by lia. done.
Qed.

(** ** U-Boot header *)

Definition uimage_arch (ih_arch : Z) : option string * option string :=
  match find (fun e => bool_decide (e.1 = ih_arch)) _UIMAGE_ARCH_MAP with
  | Some (_, (a, e)) => (Some a, Some e)
  | None => (None, None)
  end.

Definition detect_architecture_from_uboot (content : option bytes) : option string * option string :=
  match content with
  | None => (None, None)
  | Some data =>
      let head := ztake (256 * 1024) data in
      match (if bool_decide (ztake 4 head = _UBOOT_MAGIC) then Some 0 else bfind _UBOOT_MAGIC head) with
      | None => (None, None)
      | Some idx =>
          if decide (idx + 30 > zlen head) then (None, None)
          else uimage_arch (le_val (zslice (idx + 29) (idx + 30) head))
      end
  end.

(** ** Kernel image *)

(** [os.path.splitext(name)[1]] of a name without slashes: from the last dot on,
    unless only dots precede it. *)
Fixpoint rfind_dot (s : string) : option nat :=
  match s with
  | "" => None
  | String a s' =>
      match rfind_dot s' with
      | Some n => Some (S n)
      | None => if decide (a = "."%char) then Some 0%nat else None
      end
  end.

Definition splitext (name : string) : string :=
  match rfind_dot name with
  | None => ""
  | Some n =>
      if bool_decide (lstrip_char "." (String.substring 0 n name) = "") then "" else sdrop n name
  end.

Section DetectKernel.
Context (fs : os) (file_size : string -> option Z) (content : string -> option bytes).
Context (elf_e_type : bytes -> option string).

Definition read_at (path : string) (off n : Z) : option bytes := zslice off (off + n) <$> content path.

(** [_read_magic]. *)
Definition _read_magic (path : string) (num_bytes : Z) : bytes := default [] (read_at path 0 num_bytes).

(** The tests on magic numbers, in order: the priority of a candidate. *)
Definition kernel_priority (path name_lower : string) (size : Z) : option Z :=
  let magic := _read_magic path 4 in
  if existsb (fun p => contains p name_lower) _KERNEL_NAME_PATTERNS then Some 100
  else if bool_decide (magic = Byte.x7f :: bs "ELF") &&
          match content path with
          | Some data => bool_decide (elf_e_type data = Some "ET_EXEC") && (size >? 1000000)
          | None => false
          end then Some 95
  else if bool_decide (magic = [Byte.x27; Byte.x05; Byte.x19; Byte.x56]) then Some 90
  else if (size >? 1000000) &&
          bool_decide (read_at path 0x24 4 = Some [Byte.x18; Byte.x28; Byte.x6f; Byte.x01]) then Some 92
  else if bool_decide (ztake 2 magic = [Byte.x1f; Byte.x8b]) && (size >? 1000000) then Some 70
  else if bool_decide (ztake 3 magic = [Byte.x5d; Byte.x00; Byte.x00]) && (size >? 1000000) then Some 70
  else None.

(** One turn of the loop over the directory entries. *)
Definition kernel_candidate (scan_dir : string) (entry : dentry) : option (string * Z) :=
  let path := path_join scan_dir entry.(d_name) in
  let name_lower := lower entry.(d_name) in
  if negb entry.(d_is_file) then None
  else if bool_decide (name_lower ∈ _FS_ROOT_NAMES) then None
  else if endswith name_lower ".json" || endswith name_lower ".txt" then None
  else if bool_decide (splitext name_lower ∈ _FS_IMAGE_EXTENSIONS) then None
  else match file_size path with
       | None => None
       | Some size =>
           if size <? 500000 then None
           else (fun p => (path, p)) <$> kernel_priority path name_lower size
       end.

(** [candidates.sort(key=priority, reverse=True); return candidates[0][0]]: the sort is
    stable, so the first candidate of the highest priority. *)
Fixpoint best_candidate (l : list (string * Z)) : option (string * Z) :=
  match l with
  | [] => None
  | c :: l' =>
      match best_candidate l' with
      | Some c' => if c'.2 >? c.2 then Some c' else Some c
      | None => Some c
      end
  end.

(** An unreadable scan directory raises [OSError] from [os.scandir]; the outer option
    is that exception. *)
Definition detect_kernel (extraction_dir : string) (fs_root : option string) : option (option string) :=
  let scan_dir := match fs_root with
                  | Some r => if bool_decide (r <> "") then dirname r else extraction_dir
                  | None => extraction_dir
                  end in
  if negb (fs.(isdir) scan_dir) then Some None
  else match fs.(scandir) scan_dir with
       | None => None
       | Some entries => Some (fst <$> best_candidate (omap (kernel_candidate scan_dir) entries))
       end.
End DetectKernel.

(** ** Properties *)

Lemma best_candidate_in l c : best_candidate l = Some c -> c ∈ l.
Proof.
  revert c. induction l as [|x l IH]; intros c; cbn; [done|].
  destruct (best_candidate l) as [c'|]; [|intros [= <-]; by left].
  destruct (c'.2 >? x.2); intros [= <-]; [right; by apply IH | by left].
Qed.

Lemma best_candidate_max l c :
  best_candidate l = Some c ->
  exists l1 l2, l = l1 ++ c :: l2 /\ Forall (fun x => x.2 < c.2) l1 /\ Forall (fun x => x.2 <= c.2) l2.
Proof.
  revert c. induction l as [|x l IH]; intros c; cbn; [done|].
  destruct (best_candidate l) as [c'|] eqn:E.
  - destruct (IH c' eq_refl) as (l1 & l2 & -> & H1 & H2).
    destruct (Z.gtb_spec c'.2 x.2); intros [= <-].
    + exists (x :: l1), l2. split; [done|]. split; [by constructor | done].
    + exists [], (l1 ++ c' :: l2). split; [done|]. split; [constructor|].
      apply Forall_app. split; [|constructor; [done|]]; eapply Forall_impl; try done; cbn; lia.
  - intros [= <-]. exists [], l. split; [done|]. split; [constructor|].
    destruct l as [|y l]; [constructor|]. cbn in E. destruct (best_candidate l); [by case_match | done].
Qed.

Lemma kernel_candidate_inv file_size content elf scan_dir entry path p :
  kernel_candidate file_size content elf scan_dir entry = Some (path, p) ->
  path = path_join scan_dir (d_name entry) /\ d_is_file entry = true /\
  (exists size, file_size path = Some size /\ 500000 <= size) /\
  splitext (lower (d_name entry)) ∉ _FS_IMAGE_EXTENSIONS.
Proof.
  unfold kernel_candidate. destruct (d_is_file entry); [|done]. cbn [negb].
  case_bool_decide; [done|]. destruct (_ || _); [done|]. case_bool_decide; [done|].
  destruct (file_size _) as [size|] eqn:Es; [|done]. destruct (Z.ltb_spec size 500000); [done|].
  destruct (kernel_priority _ _ _ _ _); [|done]. intros [= <- <-]. split_and!; try done. by exists size.
Qed.

(** The kernel that is detected is a regular file of the scanned directory, of at least
    500 kB and without a file-system image extension, and no other candidate
    ranks higher: those before it rank strictly lower, those after it no higher.
    Nothing is detected exactly when there is no candidate. *)
Theorem detect_kernel_best (fs : os) file_size content elf extraction_dir fs_root entries :
  let scan_dir := match fs_root with
                  | Some r => if bool_decide (r <> "") then dirname r else extraction_dir
                  | None => extraction_dir
                  end in
  fs.(isdir) scan_dir = true -> fs.(scandir) scan_dir = Some entries ->
  let candidates := omap (kernel_candidate file_size content elf scan_dir) entries in
  exists r, detect_kernel fs file_size content elf extraction_dir fs_root = Some r /\
    (r = None <-> candidates = []) /\
    forall k, r = Some k ->
      exists l1 p l2, candidates = l1 ++ (k, p) :: l2 /\
        Forall (fun c => c.2 < p) l1 /\ Forall (fun c => c.2 <= p) l2 /\
        exists entry size, entry ∈ entries /\ k = path_join scan_dir (d_name entry) /\
          d_is_file entry = true /\ file_size k = Some size /\ 500000 <= size /\
          splitext (lower (d_name entry)) ∉ _FS_IMAGE_EXTENSIONS.
Proof.
  intros scan_dir Hdir Hent candidates. unfold detect_kernel. fold scan_dir.
  rewrite Hdir, Hent. fold candidates. cbn [negb].
  exists (fst <$> best_candidate candidates). split; [done|]. split.
  - destruct candidates as [|c l] eqn:E; [done|]. cbn.
    split; [|done]. by destruct (best_candidate l) as [c'|]; [destruct (c'.2 >? c.2)|].
  - intros k Hk. destruct (best_candidate candidates) as [[k' p]|] eqn:E; [|done].
    cbn in Hk. injection Hk as ->. pose proof (best_candidate_in _ _ E) as Hin.
    destruct (best_candidate_max _ _ E) as (l1 & l2 & H1 & H2 & H3).
    exists l1, p, l2. split; [done|]. split; [done|]. split; [done|].
    apply list_elem_of_omap in Hin as (entry & Hentry & Hc).
    destruct (kernel_candidate_inv _ _ _ _ _ _ _ Hc) as (H4 & H5 & (size & H6 & H7) & H8).
    by exists entry, size.
Qed.

Lemma detect_kernel_best_witness :
  detect_kernel (plain_os ["/x/zImage"; "/x/vmlinux.json"; "/x/a"] ["/x"]) (fun _ => Some 600000)
    (fun _ => Some _UBOOT_MAGIC) (fun _ => None) "/x" None = Some (Some "/x/zImage").
Proof.
  destruct (detect_kernel_best (plain_os ["/x/zImage"; "/x/vmlinux.json"; "/x/a"] ["/x"])
              (fun _ => Some 600000) (fun _ => Some _UBOOT_MAGIC) (fun _ => None) "/x" None
              [{| d_name := "zImage"; d_is_dir := false; d_is_file := true |};
               {| d_name := "vmlinux.json"; d_is_dir := false; d_is_file := true |};
               {| d_name := "a"; d_is_dir := false; d_is_file := true |}]) as (r & Hr & _).
  - by vm_compute.
  - by vm_compute.
  - rewrite Hr. rewrite <- Hr. by vm_compute.
Defined.
