(* ===== verification/UnpackControl.v ===== *)
(** * Manual unpack control ([services/unpack_control_service.py])

    The four operations that override firmware metadata by hand, as state passing
    on the firmware row.  A failing operation raises before it changes the row.
    Paths are resolved by [VirtualFs]; the rootfs and ELF scans of the unpack
    workers are the record [detectors]. *)

From S2P Require Import Prelude PyText PosixPath Sandbox Json VirtualFs DetectLinux.
From Stdlib Require Import Ascii String.
Import (notations) Ascii String.
#[local] Open Scope Z_scope.

Definition _VALID_ARCHES : gset string :=
  list_to_set ["arm"; "aarch64"; "mips"; "mipsel"; "mips64"; "x86"; "x86_64"; "ppc"; "ppc64";
               "sh"; "sparc"; "sparc64"; "riscv"].

Definition _ARCH_ALIASES : list (string * string) :=
  [("arm32", "arm"); ("armhf", "arm"); ("armel", "arm"); ("armv7", "arm");
   ("arm64", "aarch64"); ("armv8", "aarch64"); ("mipsbe", "mips"); ("mipseb", "mips");
   ("mipsle", "mipsel"); ("i386", "x86"); ("i686", "x86"); ("x86-64", "x86_64");
   ("amd64", "x86_64"); ("powerpc", "ppc"); ("powerpc64", "ppc64"); ("risc-v", "riscv");
   ("riscv64", "riscv"); ("riscv32", "riscv")].

Definition _VALID_ENDIAN : list string := ["little"; "big"].

Record Firmware := {
  storage_path : option string;
  fw_extracted_path : option string;
  fw_extraction_dir : option string;
  architecture : option string;
  endianness : option string;
  kernel_path : option string
}.

Inductive unpack_error :=
  | UnpackControlError (what : string)
  | OsError.

Record detectors := {
  find_filesystem_root : string -> option string;
  detect_architecture : string -> option string * option string;
  detect_kernel_in : string -> option string -> option (option string);
  uboot_content : string -> option bytes
}.

Section Service.
Context (fs : os) (det : detectors).

Definition _firmware_root (firmware : Firmware) : res unpack_error string :=
  match firmware.(storage_path) with
  | None | Some "" => Err (UnpackControlError "firmware has no storage_path on disk")
  | Some p => Ok (fs.(realpath) (dirname p))
  end.

Definition _carved_path (firmware : Firmware) : option string :=
  match firmware.(storage_path) with
  | None | Some "" => None
  | Some p => Some (path_join (dirname p) "carved")
  end.

Definition _file_service (firmware : Firmware) : FileService :=
  FileService_init fs (or_str firmware.(fw_extracted_path) "") firmware.(fw_extraction_dir) []
    (_carved_path firmware) firmware.(storage_path).

(** The final prefix test, repeated by the callers. *)
Definition within (root real : string) : bool :=
  bool_decide (real = root) || startswith real (root +:+ "/").

Definition _resolve_within_tree (firmware : Firmware) (virtual_path : json) : res unpack_error string :=
  match virtual_path with
  | JStr vp =>
      if bool_decide (strip vp = "") then Err (UnpackControlError "path is required")
      else match _resolve fs (_file_service firmware) vp with
           | Err _ => Err (UnpackControlError "could not resolve path")
           | Ok p =>
               let real := fs.(realpath) p in
               root ← _firmware_root firmware;
               if within root real then Ok real
               else Err (UnpackControlError "resolves outside the firmware's storage tree")
           end
  | _ => Err (UnpackControlError "path is required")
  end.

Definition set_architecture (firmware : Firmware) (architecture_ : json) (endianness_ : option string)
    : res unpack_error Firmware :=
  match architecture_ with
  | JStr a =>
      if bool_decide (strip a = "") then Err (UnpackControlError "architecture is required")
      else
        let arch := lower (strip a) in
        let arch := dict_get_or arch arch _ARCH_ALIASES in
        if decide (arch ∉ _VALID_ARCHES) then Err (UnpackControlError "unsupported architecture")
        else
          endian ← match endianness_ with
                   | Some e =>
                       let endian := lower (strip e) in
                       if decide (endian ∉ _VALID_ENDIAN)
                       then Err (UnpackControlError "endianness must be 'little' or 'big'")
                       else Ok (Some endian)
                   | None =>
                       if bool_decide (arch = "mipsel") then Ok (Some "little")
                       else Ok firmware.(endianness)
                   end;
          Ok {| storage_path := firmware.(storage_path);
                fw_extracted_path := firmware.(fw_extracted_path);
                fw_extraction_dir := firmware.(fw_extraction_dir);
                architecture := Some arch; endianness := endian;
                kernel_path := firmware.(kernel_path) |}
  | _ => Err (UnpackControlError "architecture is required")
  end.

(** The barrier before the file-system test: [real] again, against the root again. *)
Definition barrier (firmware : Firmware) (candidate : string) : res unpack_error string :=
  r ← _firmware_root firmware;
  let root := fs.(realpath) r in
  let real := fs.(realpath) candidate in
  if within root real then Ok real
  else Err (UnpackControlError "resolves outside the firmware's storage tree").

Definition set_rootfs (firmware : Firmware) (path : json) : res unpack_error Firmware :=
  candidate ← _resolve_within_tree firmware path;
  real ← barrier firmware candidate;
  if negb (fs.(isdir) real) then Err (UnpackControlError "not a directory")
  else Ok {| storage_path := firmware.(storage_path);
             fw_extracted_path := Some real; fw_extraction_dir := None;
             architecture := firmware.(architecture); endianness := firmware.(endianness);
             kernel_path := firmware.(kernel_path) |}.

Definition set_kernel (firmware : Firmware) (path : json) : res unpack_error Firmware :=
  candidate ← _resolve_within_tree firmware path;
  real ← barrier firmware candidate;
  if negb (fs.(isfile) real) then Err (UnpackControlError "not a file")
  else Ok {| storage_path := firmware.(storage_path);
             fw_extracted_path := firmware.(fw_extracted_path);
             fw_extraction_dir := firmware.(fw_extraction_dir);
             architecture := firmware.(architecture); endianness := firmware.(endianness);
             kernel_path := Some real |}.

(** ** Re-detection *)

Definition all_targets : list string := ["rootfs"; "arch"; "kernel"].

(** The recorded extraction directory, else extracted/ beside the blob, if it is a
    directory. *)
Definition existing_dir (d : option string) : bool :=
  match d with None | Some "" => false | Some d => fs.(isdir) d end.

Definition redetect_dir (firmware : Firmware) : res unpack_error string :=
  let dir :=
    if existing_dir firmware.(fw_extraction_dir) then firmware.(fw_extraction_dir)
    else match firmware.(storage_path) with
         | None | Some "" => firmware.(fw_extraction_dir)
         | Some p =>
             let candidate := path_join (dirname p) "extracted" in
             if fs.(isdir) candidate then Some candidate else None
         end in
  match dir with
  | Some d => if existing_dir dir then Ok d else Err (UnpackControlError "no extraction directory found")
  | None => Err (UnpackControlError "no extraction directory found")
  end.

Definition report := list (string * option string).

Definition redetect_rootfs (firmware : Firmware) (dir : string) (fs_root : option string) (rep : report)
    : Firmware * report :=
  match fs_root with
  | None | Some "" => (firmware, rep ++ [("rootfs", None)])
  | Some r =>
      let real := fs.(realpath) r in
      let extraction_real := fs.(realpath) dir in
      ({| storage_path := firmware.(storage_path);
          fw_extracted_path := Some real;
          fw_extraction_dir := if bool_decide (real <> extraction_real) then Some extraction_real else None;
          architecture := firmware.(architecture); endianness := firmware.(endianness);
          kernel_path := firmware.(kernel_path) |},
       rep ++ [("rootfs", Some real)])
  end%list.

(** [fs_root or firmware.extracted_path]. *)
Definition arch_root (firmware : Firmware) (fs_root : option string) : option string :=
  str_or fs_root firmware.(fw_extracted_path).

Definition redetect_arch (firmware : Firmware) (fs_root : option string) (rep : report)
    : Firmware * report :=
  let root := arch_root firmware fs_root in
  let ae := if existing_dir root then det.(detect_architecture) (or_str root "") else (None, None) in
  let ae := match ae.1, firmware.(storage_path) with
            | None, Some p => if bool_decide (p <> "")
                              then detect_architecture_from_uboot (det.(uboot_content) p) else ae
            | _, _ => ae
            end in
  let fw := match ae.1 with
            | Some arch =>
                {| storage_path := firmware.(storage_path);
                   fw_extracted_path := firmware.(fw_extracted_path);
                   fw_extraction_dir := firmware.(fw_extraction_dir);
                   architecture := Some arch; endianness := ae.2;
                   kernel_path := firmware.(kernel_path) |}
            | None => firmware
            end in
  let line := match ae.1 with
              | None | Some "" => None
              | Some arch => Some (arch +:+ "/" +:+ default "None" ae.2)
              end in
  (fw, rep ++ [("arch", line)])%list.

Definition redetect_kernel (firmware : Firmware) (dir : string) (fs_root : option string) (rep : report)
    : res unpack_error (Firmware * report) :=
  match det.(detect_kernel_in) dir (arch_root firmware fs_root) with
  | None => Err OsError
  | Some kernel =>
      match kernel with
      | None | Some "" => Ok (firmware, rep ++ [("kernel", None)])
      | Some k =>
          let real := fs.(realpath) k in
          Ok ({| storage_path := firmware.(storage_path);
                 fw_extracted_path := firmware.(fw_extracted_path);
                 fw_extraction_dir := firmware.(fw_extraction_dir);
                 architecture := firmware.(architecture); endianness := firmware.(endianness);
                 kernel_path := Some real |}, rep ++ [("kernel", Some real)])
      end
  end%list.

Definition redetect (firmware : Firmware) (targets : option (list string))
    : res unpack_error (Firmware * report) :=
  let wanted := match targets with None | Some [] => all_targets | Some l => l end in
  if decide (Exists (fun t => t ∉ all_targets) wanted)
  then Err (UnpackControlError "unknown redetect target(s)")
  else
    dir ← redetect_dir firmware;
    let fs_root := det.(find_filesystem_root) dir in
    let '(fw1, rep1) := if decide ("rootfs" ∈ wanted)
                        then redetect_rootfs firmware dir fs_root [] else (firmware, []) in
    let '(fw2, rep2) := if decide ("arch" ∈ wanted)
                        then redetect_arch fw1 fs_root rep1 else (fw1, rep1) in
    if decide ("kernel" ∈ wanted) then redetect_kernel fw2 dir fs_root rep2 else Ok (fw2, rep2).

(** ** Sequences of operations *)

Inductive op :=
  | SetArchitecture (architecture_ : json) (endianness_ : option string)
  | SetRootfs (path : json)
  | SetKernel (path : json)
  | Redetect (targets : option (list string)).

Definition run (o : op) (firmware : Firmware) : res unpack_error Firmware :=
  match o with
  | SetArchitecture a e => set_architecture firmware a e
  | SetRootfs p => set_rootfs firmware p
  | SetKernel p => set_kernel firmware p
  | Redetect t => fst <$> redetect firmware t
  end.

(** A request: the row it commits, which is the old one when the operation raises. *)
Definition request (firmware : Firmware) (o : op) : Firmware :=
  match run o firmware with Ok fw => fw | Err _ => firmware end.
End Service.

(** ** Lemmas *)

Definition in_tree (fs : os) (fw : Firmware) : Prop :=
  forall root p, _firmware_root fs fw = Ok root ->
    fw.(fw_extracted_path) = Some p \/ fw.(kernel_path) = Some p -> under root p.

Definition manual (o : op) : bool := match o with Redetect _ => false | _ => true end.

(** What the barrier lets through is in the tree. *)
Lemma barrier_under fs fw candidate real root :
  (forall q, fs.(realpath) (fs.(realpath) q) = fs.(realpath) q) ->
  barrier fs fw candidate = Ok real -> _firmware_root fs fw = Ok root -> under root real.
Proof.
  intros Hid. unfold barrier. rewrite res_bind_ok. intros (r & Hf & H) Hroot.
  rewrite Hroot in Hf. injection Hf as <-.
  destruct (within _ _) eqn:E; [|done]. injection H as <-. apply under_check_spec in E.
  assert (fs.(realpath) root = root) as Hr; [|by rewrite Hr in E].
  unfold _firmware_root in Hroot. destruct (storage_path fw) as [[]|]; try done.
  injection Hroot as <-. apply Hid.
Qed.

Lemma set_rootfs_ok fs fw p fw' :
  set_rootfs fs fw p = Ok fw' ->
  exists c real, barrier fs fw c = Ok real /\ fs.(isdir) real = true /\
    fw' = {| storage_path := storage_path fw; fw_extracted_path := Some real;
             fw_extraction_dir := None; architecture := architecture fw;
             endianness := endianness fw; kernel_path := kernel_path fw |}.
Proof.
  unfold set_rootfs. rewrite res_bind_ok. intros (c & _ & Hc).
  rewrite res_bind_ok in Hc. destruct Hc as (real & Hb & H).
  destruct (isdir _ _) eqn:E; [|done]. injection H as <-. by exists c, real.
Qed.

Lemma set_kernel_ok fs fw p fw' :
  set_kernel fs fw p = Ok fw' ->
  exists c real, barrier fs fw c = Ok real /\ fs.(isfile) real = true /\
    fw' = {| storage_path := storage_path fw; fw_extracted_path := fw_extracted_path fw;
             fw_extraction_dir := fw_extraction_dir fw; architecture := architecture fw;
             endianness := endianness fw; kernel_path := Some real |}.
Proof.
  unfold set_kernel. rewrite res_bind_ok. intros (c & _ & Hc).
  rewrite res_bind_ok in Hc. destruct Hc as (real & Hb & H).
  destruct (isfile _ _) eqn:E; [|done]. injection H as <-. by exists c, real.
Qed.

Lemma set_architecture_ok fw a e fw' :
  set_architecture fw a e = Ok fw' ->
  exists arch en, arch ∈ _VALID_ARCHES /\
    fw' = {| storage_path := storage_path fw; fw_extracted_path := fw_extracted_path fw;
             fw_extraction_dir := fw_extraction_dir fw; architecture := Some arch;
             endianness := en; kernel_path := kernel_path fw |}.
Proof.
  unfold set_architecture. destruct a as [| | | |a| |]; try done.
  case_bool_decide; [done|]. case_decide as Hv; [done|]. rewrite res_bind_ok.
  intros (e' & _ & [= <-]). eexists _, _. split; [|done]. by destruct (decide (dict_get_or (lower (strip a)) (lower (strip a)) _ARCH_ALIASES ∈ _VALID_ARCHES)).
Qed.

Lemma run_manual_in_tree fs det fw o fw' :
  (forall q, fs.(realpath) (fs.(realpath) q) = fs.(realpath) q) ->
  manual o = true -> in_tree fs fw -> run fs det o fw = Ok fw' ->
  storage_path fw' = storage_path fw /\ in_tree fs fw'.
Proof.
  intros Hid Hm Ht. destruct o as [a e|p|p|]; cbn [run]; [| | |done].
  - intros (arch & en & _ & ->)%set_architecture_ok. split; [done | exact Ht].
  - intros (c & real & Hb & _ & ->)%set_rootfs_ok. split; [done|].
    intros root q Hroot [[= <-]|Hq]; [by eapply barrier_under|].
    apply (Ht root q); [done | by right].
  - intros (c & real & Hb & _ & ->)%set_kernel_ok. split; [done|].
    intros root q Hroot [Hq|[= <-]]; [|by eapply barrier_under].
    apply (Ht root q); [done | by left].
Qed.

(** ** Properties *)

(** The documented guarantee of the manual operations: starting from a row whose
    rootfs and kernel lie in the firmware's storage tree, every sequence of
    set_architecture, set_rootfs and set_kernel requests, failing ones included,
    keeps them there and never moves the tree itself. *)
Theorem manual_requests_in_tree (fs : os) (det : detectors) (fw : Firmware) (ops : list op) :
  (forall q, fs.(realpath) (fs.(realpath) q) = fs.(realpath) q) ->
  forallb manual ops = true -> in_tree fs fw ->
  let fw' := foldl (request fs det) fw ops in
  storage_path fw' = storage_path fw /\ in_tree fs fw'.
Proof.
  intros Hid. revert fw. induction ops as [|o ops IH]; intros fw Hm Ht; cbn; [done|].
  cbn in Hm. apply andb_true_iff in Hm as [Ho Hops].
  assert (storage_path (request fs det fw o) = storage_path fw /\ in_tree fs (request fs det fw o))
    as [Hs Ht'].
  { unfold request. destruct (run fs det o fw) as [fw'|] eqn:E; [|done].
    by eapply run_manual_in_tree. }
  destruct (IH _ Hops Ht') as [IH1 IH2]. split; [by rewrite IH1 | done].
Qed.

(** An empty extraction; the rootfs scan finds nothing and the kernel scan is the one of
    [DetectLinux], every file being 600 kB of zeros. *)
Definition demo_os : os :=
  plain_os ["/p/fw/1/blob.bin"; "/p/fw/vmlinux"; "/p/fw/1/carved/root/vmlinux"]
           ["/p"; "/p/fw"; "/p/fw/1"; "/p/fw/1/extracted"; "/p/fw/1/carved"; "/p/fw/1/carved/root"].

Definition demo_detectors : detectors :=
  {| find_filesystem_root := fun _ => None;
     detect_architecture := fun _ => (None, None);
     detect_kernel_in := detect_kernel demo_os (fun _ => Some 600000) (fun _ => Some []) (fun _ => None);
     uboot_content := fun _ => None |}.

Definition demo_fw : Firmware :=
  {| storage_path := Some "/p/fw/1/blob.bin"; fw_extracted_path := None; fw_extraction_dir := None;
     architecture := None; endianness := None; kernel_path := None |}.

Lemma manual_requests_in_tree_witness :
  let fw' := foldl (request demo_os demo_detectors) demo_fw
               [SetRootfs (JStr "/_carved/root"); SetKernel (JStr "/_carved/root/vmlinux");
                SetRootfs (JStr "/_carved/../..")] in
  kernel_path fw' = Some "/p/fw/1/carved/root/vmlinux" /\
  fw_extracted_path fw' = Some "/p/fw/1/carved/root" /\ in_tree demo_os fw'.
Proof.
  intros fw'. split; [by vm_compute|]. split; [by vm_compute|].
  apply (manual_requests_in_tree demo_os demo_detectors demo_fw).
  - exact (realpath_idem (RealpathLaws := plain_os_laws _ _)).
  - by vm_compute.
  - by intros root p _ [|].
Defined.

(** Re-detection has no such guarantee: the tree root itself can be designated as the
    rootfs, and when no rootfs is found below the extraction directory the kernel
    scan then reads the parent of the tree and stores a path outside it. *)
Theorem redetect_leaves_tree :
  let fw := foldl (request demo_os demo_detectors) demo_fw
              [SetRootfs (JStr "/firmware"); Redetect (Some ["kernel"])] in
  _firmware_root demo_os fw = Ok "/p/fw/1" /\
  kernel_path fw = Some "/p/fw/vmlinux" /\ under_check "/p/fw/1" "/p/fw/vmlinux" = false.
Proof. by vm_compute. Qed.

(** [set_architecture] succeeds exactly on text whose trimmed, lower-cased and
    alias-resolved form is a supported architecture, with a byte order that is
    absent or little or big in any case; it then stores the canonical names, gives
    mipsel its order, keeps the old order otherwise, and touches no other field. *)
Theorem set_architecture_spec (fw : Firmware) (text : string) (e : option string) :
  let name := lower (strip text) in
  let arch := dict_get_or name name _ARCH_ALIASES in
  let valid := strip text <> "" /\ arch ∈ _VALID_ARCHES /\
               (forall en, e = Some en -> lower (strip en) ∈ _VALID_ENDIAN) in
  (valid <-> is_ok (set_architecture fw (JStr text) e) = true) /\
  (valid ->
   set_architecture fw (JStr text) e
     = Ok {| storage_path := storage_path fw; fw_extracted_path := fw_extracted_path fw;
             fw_extraction_dir := fw_extraction_dir fw; architecture := Some arch;
             endianness := match e with
                           | Some en => Some (lower (strip en))
                           | None => if decide (arch = "mipsel") then Some "little" else endianness fw
                           end;
             kernel_path := kernel_path fw |}).
Proof.
  intros name arch valid. unfold set_architecture. fold name. fold arch.
  destruct (decide (strip text = "")) as [Hs|Hs].
  { rewrite bool_decide_eq_true_2 by done. split; [split; [by intros [] | done] | by intros []]. }
  rewrite bool_decide_eq_false_2 by done.
  destruct (decide (arch ∈ _VALID_ARCHES)) as [Ha|Ha].
  2: { rewrite decide_True by done. split; [split; [by intros (_ & ? & _) | done] | by intros (_ & ? & _)]. }
  rewrite decide_False by naive_solver. destruct e as [en|].
  - destruct (decide (lower (strip en) ∈ _VALID_ENDIAN)) as [He|He].
    + rewrite decide_False by naive_solver. split; [|done].
      split; [done|]. intros _. repeat split; [done..|]. by intros ? [= <-].
    + rewrite decide_True by done.
      split; [split; [intros (_ & _ & H); by destruct He; apply H | done]
             | intros (_ & _ & H); by destruct He; apply H].
  - destruct (decide (arch = "mipsel")) as [Hm|Hm].
    + rewrite bool_decide_eq_true_2 by done. repeat split; done.
    + rewrite bool_decide_eq_false_2 by done. repeat split; done.
Qed.

Lemma set_architecture_spec_witness :
  set_architecture demo_fw (JStr " MIPSLE ") None
    = Ok {| storage_path := storage_path demo_fw; fw_extracted_path := None; fw_extraction_dir := None;
            architecture := Some "mipsel"; endianness := Some "little"; kernel_path := None |}.
Proof.
  refine (proj2 (set_architecture_spec demo_fw " MIPSLE " None) _).
  split; [by vm_compute|]. split; [by vm_compute | done].
Defined.

(** A successful re-detection touches only what was asked for: the storage path never,
    the rootfs pair, the architecture pair and the kernel only under their target;
    and the report has one line per requested target, in the fixed order. *)
Theorem redetect_frame (fs : os) (det : detectors) (fw fw' : Firmware) targets rep :
  redetect fs det fw targets = Ok (fw', rep) ->
  let wanted := match targets with None | Some [] => all_targets | Some l => l end in
  storage_path fw' = storage_path fw /\
  ("rootfs" ∉ wanted -> fw_extracted_path fw' = fw_extracted_path fw /\
                        fw_extraction_dir fw' = fw_extraction_dir fw) /\
  ("arch" ∉ wanted -> architecture fw' = architecture fw /\ endianness fw' = endianness fw) /\
  ("kernel" ∉ wanted -> kernel_path fw' = kernel_path fw) /\
  rep.*1 = filter (fun t => t ∈ wanted) all_targets.
Proof.
  intros H wanted. unfold redetect in H. fold wanted in H.
  destruct (decide (Exists _ wanted)); [done|]. rewrite res_bind_ok in H.
  destruct H as (dir & _ & H). cbn zeta in H.
  unfold all_targets. rewrite !filter_cons, filter_nil.
  unfold redetect_rootfs, redetect_arch, redetect_kernel in H.
  repeat (case_match; simplify_eq/=; try done).
Qed.

Lemma redetect_frame_witness :
  exists fw' rep,
    redetect demo_os demo_detectors demo_fw (Some ["kernel"; "arch"]) = Ok (fw', rep) /\
    fw_extracted_path fw' = None /\ rep.*1 = ["arch"; "kernel"].
Proof.
  destruct (redetect demo_os demo_detectors demo_fw (Some ["kernel"; "arch"])) as [[fw' rep]|] eqn:E;
    [|by vm_compute in E].
  exists fw', rep. split; [done|].
  destruct (redetect_frame demo_os demo_detectors demo_fw fw' (Some ["kernel"; "arch"]) rep E)
    as (_ & H1 & _ & _ & H2).
  split.
  - apply H1. intros H. by vm_compute in H; repeat (apply elem_of_cons in H as [H|H]; [done|]); apply not_elem_of_nil in H.
  - rewrite H2. by vm_compute.
Defined.
