(* ===== verification/AnalysisCache.v ===== *)
(** * The analysis cache ([services/_cache.py])

    The four helpers over the [analysis_cache] table, a bag of rows.  SQL leaves
    open which row a [LIMIT 1] without an order returns: that choice is the class
    [Pick].  The specification is a finite map from cache keys to entries. *)

From S2P Require Import Prelude PyText Json Jsonb JsonbColumns.
From Stdlib Require Import Ascii String.
Import (notations) Ascii String.
#[local] Open Scope Z_scope.

Record AnalysisCache := {
  firmware_id : string;
  binary_path : option string;
  binary_sha256 : option string;
  operation : string;
  result : json;
  created_at : Z  (* seconds, UTC *)
}.

Abbreviation table := (list AnalysisCache).

(** The row a [LIMIT 1] query returns. *)
Class Pick := pick : table -> option AnalysisCache.
Class PickLaws (P : Pick) : Prop := {
  pick_nil : pick [] = None;
  pick_cons r l : exists x, pick (r :: l) = Some x /\ x ∈ r :: l
}.

(** The WHERE clause shared by the helpers: [IS NULL] when no digest is given, and an
    equality, false on NULL, when one is. *)
Definition matches (fid op : string) (sha : option string) (r : AnalysisCache) : bool :=
  bool_decide (r.(firmware_id) = fid) && bool_decide (r.(operation) = op) &&
  match sha with
  | Some d => match r.(binary_sha256) with Some d' => bool_decide (d' = d) | None => false end
  | None => match r.(binary_sha256) with None => true | Some _ => false end
  end.

Definition select_rows (fid op : string) (sha : option string) (db : table) : table :=
  List.filter (matches fid op sha) db.

Section Cache.
Context {P : Pick}.

Definition exists_cached (db : table) (fid op : string) (sha : option string) : bool :=
  match pick (select_rows fid op sha db) with Some _ => true | None => false end.

Definition get_cached (db : table) (fid op : string) (sha : option string) : json :=
  _normalize_analysis_cache_result
    (match pick (select_rows fid op sha db) with Some r => r.(result) | None => JNull end).

Definition store_cached (now : Z) (db : table) (fid op : string) (res : pydict)
    (sha path : option string) : table :=
  List.filter (fun r => negb (matches fid op sha r)) db ++
  [{| firmware_id := fid; binary_path := path; binary_sha256 := sha; operation := op;
      result := JDict (_stamp_analysis_cache_result res); created_at := now |}].

(** The remaining rows and the number deleted. *)
Definition cleanup_older_than (now : Z) (db : table) (days : Z) : table * Z :=
  let cutoff := now - days * 86400 in
  (List.filter (fun r => negb (r.(created_at) <? cutoff)) db,
   zlen (List.filter (fun r => r.(created_at) <? cutoff) db)).

(** ** Requests *)

Inductive request :=
  | Exists_ (fid op : string) (sha : option string)
  | Get (fid op : string) (sha : option string)
  | Store (fid op : string) (res : pydict) (sha path : option string)
  | Cleanup (days : Z).

Inductive reply := RBool (b : bool) | RJson (v : json) | RNone | RCount (n : Z).

Definition serve (now : Z) (db : table) (q : request) : table * reply :=
  match q with
  | Exists_ fid op sha => (db, RBool (exists_cached db fid op sha))
  | Get fid op sha => (db, RJson (get_cached db fid op sha))
  | Store fid op res sha path => (store_cached now db fid op res sha path, RNone)
  | Cleanup days => let '(db', n) := cleanup_older_than now db days in (db', RCount n)
  end.

Fixpoint serve_all (db : table) (qs : list (Z * request)) : table * list reply :=
  match qs with
  | [] => (db, [])
  | (now, q) :: qs' =>
      let '(db1, r) := serve now db q in
      let '(db2, rs) := serve_all db1 qs' in (db2, r :: rs)
  end.
End Cache.

(** ** Specification: a finite map *)

Module Spec.
Abbreviation key := (string * string * option string)%type.
Record entry := { e_path : option string; e_result : pydict; e_time : Z }.
Abbreviation state := (gmap key entry).

Definition step (now : Z) (m : state) (q : request) : state * reply :=
  match q with
  | Exists_ fid op sha => (m, RBool (bool_decide (is_Some (m !! (fid, op, sha)))))
  | Get fid op sha =>
      (m, RJson (match m !! (fid, op, sha) with Some e => JDict e.(e_result) | None => JNull end))
  | Store fid op res sha path =>
      (<[(fid, op, sha) := {| e_path := path; e_time := now;
                              e_result := dict_set "schema_version" (JInt 1) res |}]> m, RNone)
  | Cleanup days =>
      (filter (fun ke => ~ ke.2.(e_time) < now - days * 86400) m,
       RCount (Z.of_nat (size (filter (fun ke => ke.2.(e_time) < now - days * 86400) m))))
  end.

Fixpoint run (m : state) (qs : list (Z * request)) : state * list reply :=
  match qs with
  | [] => (m, [])
  | (now, q) :: qs' =>
      let '(m1, r) := step now m q in
      let '(m2, rs) := run m1 qs' in (m2, r :: rs)
  end.

Definition row_of (ke : key * entry) : AnalysisCache :=
  {| firmware_id := ke.1.1.1; operation := ke.1.1.2; binary_sha256 := ke.1.2;
     binary_path := ke.2.(e_path); result := JDict ke.2.(e_result); created_at := ke.2.(e_time) |}.

(** The table holds one row per key, in any order. *)
Definition represents (db : table) (m : state) : Prop := db ≡ₚ row_of <$> map_to_list m.
End Spec.

Import Spec.

Lemma matches_row fid op sha (ke : key * entry) :
  matches fid op sha (row_of ke) = bool_decide (ke.1 = (fid, op, sha)).
Proof.
  destruct ke as [[[f o] s] e]. unfold matches; cbn. apply eq_true_iff_eq.
  rewrite !andb_true_iff, !bool_decide_eq_true. split.
  - intros [[-> ->] Hs]. destruct sha, s; try done. by apply bool_decide_eq_true in Hs as ->.
  - intros [= -> -> ->]. split; [done|]. destruct sha; [by apply bool_decide_eq_true | done].
Qed.

#[export] Instance filter_perm {A} (f : A -> bool) : Proper ((≡ₚ) ==> (≡ₚ)) (List.filter f).
Proof.
  intros l k H. induction H; cbn; [done | | |by etransitivity].
  - destruct (f x); [by constructor | done].
  - destruct (f x), (f y); try done. constructor.
Qed.

Lemma filter_fmap {A B} (g : A -> B) (f : B -> bool) (l : list A) :
  List.filter f (g <$> l) = g <$> List.filter (fun x => f (g x)) l.
Proof. induction l as [|x l IH]; cbn; [done|]. rewrite IH. by destruct (f (g x)). Qed.

Lemma filter_ext {A} (f g : A -> bool) (l : list A) :
  (forall x, x ∈ l -> f x = g x) -> List.filter f l = List.filter g l.
Proof.
  induction l as [|x l IH]; intros H; cbn; [done|]. rewrite (H x), IH; [done | | by left].
  intros y Hy. apply H. by right.
Qed.

(** Filtering the bindings is the list of the filtered map. *)
Lemma filter_map_to_list (Q : key * entry -> Prop) `{!forall ke, Decision (Q ke)} (m : state) :
  List.filter (fun ke => bool_decide (Q ke)) (map_to_list m) ≡ₚ map_to_list (filter Q m).
Proof.
  rewrite map_filter_alt. rewrite map_to_list_to_map.
  - induction (map_to_list m) as [|ke l IH]; [done|]. cbn [List.filter].
    destruct (decide (Q ke)).
    + rewrite bool_decide_eq_true_2, filter_cons_True by done. by rewrite IH.
    + rewrite bool_decide_eq_false_2, filter_cons_False by done. done.
  - apply NoDup_fmap_fst.
    + intros x y1 y2 [_ H1]%list_elem_of_filter [_ H2]%list_elem_of_filter.
      apply elem_of_map_to_list in H1, H2. congruence.
    + apply NoDup_filter, NoDup_map_to_list.
Qed.

Lemma filter_represents (f : AnalysisCache -> bool) (Q : key * entry -> Prop)
    `{!forall ke, Decision (Q ke)} db m :
  (forall ke, f (row_of ke) = bool_decide (Q ke)) -> represents db m ->
  List.filter f db ≡ₚ row_of <$> map_to_list (filter Q m).
Proof.
  intros Hf Hr. unfold represents in Hr. rewrite Hr, filter_fmap.
  rewrite (filter_ext _ (fun ke => bool_decide (Q ke))) by auto.
  apply Permutation_map, filter_map_to_list.
Qed.

Lemma filter_key (m : state) (k : key) :
  filter (fun ke : key * entry => ke.1 = k) m
    = match m !! k with Some e => {[k := e]} | None => ∅ end.
Proof.
  apply map_eq. intros i. rewrite map_lookup_filter.
  destruct (m !! k) as [e|] eqn:Ek; destruct (decide (i = k)) as [->|Hne].
  - rewrite Ek, lookup_singleton_eq. cbn. by case_guard.
  - rewrite lookup_singleton_ne by done. destruct (m !! i); cbn; [|done]. by case_guard.
  - by rewrite Ek.
  - rewrite lookup_empty. destruct (m !! i); cbn; [|done]. by case_guard.
Qed.

Section Refinement.
Context {P : Pick} {laws : PickLaws P}.

(** The rows of a key, and what any [LIMIT 1] makes of them. *)
Lemma pick_rows db m fid op sha :
  represents db m ->
  pick (select_rows fid op sha db) = (fun e => row_of ((fid, op, sha), e)) <$> (m !! (fid, op, sha)).
Proof.
  intros Hr. pose proof (filter_represents (matches fid op sha)
    (fun ke => ke.1 = (fid, op, sha)) db m (matches_row fid op sha) Hr) as Hp.
  fold (select_rows fid op sha db) in Hp. rewrite filter_key in Hp.
  destruct (m !! (fid, op, sha)) as [e|]; cbn.
  - rewrite map_to_list_singleton in Hp. cbn in Hp. apply Permutation_singleton_r in Hp as ->.
    destruct (pick_cons (row_of ((fid, op, sha), e)) []) as (x & -> & Hx).
    by apply list_elem_of_singleton in Hx as ->.
  - rewrite map_to_list_empty in Hp. apply Permutation_nil_r in Hp as ->. apply pick_nil.
Qed.

Lemma serve_refines now db m q :
  represents db m ->
  represents (serve now db q).1 (step now m q).1 /\ (serve now db q).2 = (step now m q).2.
Proof.
  intros Hr. destruct q as [fid op sha|fid op sha|fid op res sha path|days]; cbn [serve step fst snd].
  - split; [done|]. f_equal. unfold exists_cached. rewrite (pick_rows db m) by done.
    by destruct (m !! _).
  - split; [done|]. f_equal. unfold get_cached. rewrite (pick_rows db m) by done.
    by destruct (m !! _).
  - split; [|done]. unfold represents, store_cached.
    rewrite (filter_represents _ (fun ke => ke.1 <> (fid, op, sha)) db m); [| |done].
    2: { intros ke. rewrite matches_row. by case_bool_decide; case_bool_decide. }
    set (e := {| e_path := path; e_result := _; e_time := now |}).
    assert (filter (fun ke : key * entry => ke.1 <> (fid, op, sha)) m = delete (fid, op, sha) m) as ->.
    { apply map_eq. intros i. rewrite map_lookup_filter.
      destruct (decide (i = (fid, op, sha))) as [->|Hne].
      - rewrite lookup_delete_eq. destruct (m !! _); cbn; [|done]. by case_guard.
      - rewrite lookup_delete_ne by done. destruct (m !! i); cbn; [|done]. by case_guard. }
    rewrite <- (insert_delete_eq m (fid, op, sha) e).
    rewrite map_to_list_insert by apply lookup_delete_eq. cbn [fmap list_fmap].
    rewrite Permutation_app_comm. done.
  - cbn. split.
    + unfold represents. apply filter_represents; [|done]. intros ke. cbn.
      destruct (Z.ltb_spec (e_time ke.2) (now - days * 86400)); by case_bool_decide; lia || done.
    + f_equal. unfold zlen. f_equal.
      rewrite (filter_represents _ (fun ke => e_time ke.2 < now - days * 86400) db m); [| |done].
      * rewrite length_fmap. by rewrite length_map_to_list.
      * intros ke. cbn. destruct (Z.ltb_spec (e_time ke.2) (now - days * 86400)); by case_bool_decide; lia || done.
Qed.

Lemma serve_all_refines db m qs :
  represents db m ->
  represents (serve_all db qs).1 (run m qs).1 /\ (serve_all db qs).2 = (run m qs).2.
Proof.
  revert db m. induction qs as [|[now q] qs IH]; intros db m Hr; cbn [serve_all run]; [done|].
  destruct (serve_refines now db m q Hr) as [H1 H2].
  destruct (serve now db q) as [db1 r], (step now m q) as [m1 r']. cbn in *. subst r'.
  destruct (IH db1 m1 H1) as [H3 H4].
  destruct (serve_all db1 qs) as [db2 rs], (run m1 qs) as [m2 rs']. cbn in *. by subst.
Qed.
End Refinement.

(** ** Properties *)

(** C13. The cache is a finite map: started on an empty table, any sequence of lookups,
    stores and clean-ups gets the replies of a map from (firmware, operation,
    digest or none) to entries, whichever row the database returns for [LIMIT 1];
    firmware-wide and per-binary entries never meet, a store replaces, a clean-up
    deletes exactly the entries older than the window and reports their number. *)
Theorem cache_refines_map {P : Pick} {laws : PickLaws P} (qs : list (Z * request)) :
  (serve_all [] qs).2 = (run ∅ qs).2 /\ represents (serve_all [] qs).1 (run ∅ qs).1.
Proof.
  assert (represents [] ∅) as H0 by (unfold represents; by rewrite map_to_list_empty).
  by destruct (serve_all_refines [] ∅ qs H0).
Qed.

(** A database that returns the row inserted last. *)
#[export] Instance pick_last : Pick := fun db => last db.

#[export] Instance pick_last_laws : PickLaws pick_last.
Proof.
  split; [done|]. intros r l. unfold pick, pick_last.
  destruct (last (r :: l)) as [x|] eqn:E.
  - exists x. split; [done|]. by apply last_Some_elem_of.
  - by apply last_None in E.
Qed.

Definition demo_requests : list (Z * request) :=
  [(0, Store "f" "op" [("a", JInt 1)] None None); (5, Store "f" "op" [("b", JInt 2)] (Some "d") None);
   (90000, Get "f" "op" None); (90000, Cleanup 1); (90000, Exists_ "f" "op" (Some "d"))].

Lemma cache_refines_map_witness :
  (serve_all (P := pick_last) [] demo_requests).2
    = [RNone; RNone; RJson (JDict [("a", JInt 1); ("schema_version", JInt 1)]); RCount 2; RBool false].
Proof.
  rewrite (proj1 (cache_refines_map (P := pick_last) demo_requests)). by vm_compute.
Defined.

(** A store repairs its key on any table, duplicates included: afterwards the key has
    exactly the new row, every other key has the rows it had, and storing again is
    the same as storing once. *)
Theorem store_cached_spec (db : table) (now : Z) fid op res sha path fid' op' sha' :
  let new := {| firmware_id := fid; binary_path := path; binary_sha256 := sha; operation := op;
                result := JDict (dict_set "schema_version" (JInt 1) res); created_at := now |} in
  let db' := store_cached now db fid op res sha path in
  select_rows fid' op' sha' db'
    = (if decide ((fid', op', sha') = (fid, op, sha)) then [new] else select_rows fid' op' sha' db) /\
  store_cached now db' fid op res sha path = db'.
Proof.
  intros new db'. assert (matches fid op sha new = true) as Hnew.
  { unfold matches; cbn. rewrite !bool_decide_eq_true_2 by done. destruct sha; [|done].
    by rewrite bool_decide_eq_true_2. }
  assert (forall r, matches fid' op' sha' r = true -> matches fid op sha r = true ->
                    (fid', op', sha') = (fid, op, sha)) as Hkey.
  { intros r. unfold matches. rewrite !andb_true_iff, !bool_decide_eq_true.
    intros [[<- <-] H1] [[<- <-] H2]. f_equal.
    destruct (binary_sha256 r), sha', sha; try done.
    apply bool_decide_eq_true in H1, H2. congruence. }
  assert (store_cached now db' fid op res sha path
            = List.filter (fun r => negb (matches fid op sha r)) db' ++ [new]) as -> by done.
  assert (db' = List.filter (fun r => negb (matches fid op sha r)) db ++ [new]) as Hdb by done.
  clearbody new db'. subst db'. unfold select_rows. rewrite !List.filter_app. cbn [List.filter].
  rewrite Hnew. cbn [negb]. split.
  - case_decide as Hk.
    + injection Hk as -> -> ->. rewrite Hnew.
      enough (List.filter (matches fid op sha) (List.filter (fun r => negb (matches fid op sha r)) db) = [])
        as -> by done.
      induction db as [|r l IH]; cbn; [done|]. destruct (matches fid op sha r) eqn:E; cbn; [done|].
      by rewrite E.
    + destruct (matches fid' op' sha' new) eqn:En; [by destruct Hk; apply (Hkey new)|].
      rewrite app_nil_r. induction db as [|r l IH]; cbn; [done|].
      destruct (matches fid op sha r) eqn:E; cbn.
      * rewrite IH. destruct (matches fid' op' sha' r) eqn:E'; [|done]. by destruct Hk; apply (Hkey r).
      * by rewrite IH.
  - rewrite app_nil_r. f_equal. induction db as [|r l IH]; cbn; [done|].
    destruct (matches fid op sha r) eqn:E; cbn; [done|]. rewrite E. cbn. by rewrite IH.
Qed.
