(* ===== verification/BootImage.v ===== *)
(** * Android boot images ([services/hardware_firmware/parsers/android_boot_image.py])

    The header parser for versions 0 to 4 and the kernel carver, with encoders of
    both header layouts as the reference the round trips are stated against. *)

From S2P Require Import Prelude PyText.
From Stdlib Require Import Ascii String.
Import (notations) Ascii String.
#[local] Open Scope Z_scope.

Definition _BOOT_MAGIC : bytes := bs "ANDROID!".
Definition _BOOT_MAGIC_SIZE : Z := 8.
Definition _DEFAULT_PAGE_SIZE : Z := 4096.
Definition _MAX_KERNEL_SIZE : Z := 256 * 1024 * 1024.
Definition _MIN_PAGE_SIZE : Z := 256.
Definition _MAX_PAGE_SIZE : Z := 1024 * 1024.

Record BootImageLayout := {
  header_version : Z;
  kernel_offset : Z;
  kernel_size : Z;
  page_size : Z;
  os_version : option string;
  security_patch : option string
}.

(** [f"{month:02d}"]. *)
Definition pad2 (n : Z) : string := if n <? 10 then "0" +:+ str_int n else str_int n.

Definition _decode_os_version (packed : Z) : option string * option string :=
  if decide (packed = 0) then (None, None)
  else
    let version := Z.shiftr packed 11 in
    let a := Z.land (Z.shiftr version 14) 0x7F in
    let b := Z.land (Z.shiftr version 7) 0x7F in
    let c := Z.land version 0x7F in
    let patch_field := Z.land packed 0x7FF in
    let year := 2000 + Z.shiftr patch_field 4 in
    let month := Z.land patch_field 0xF in
    let os := str_int a +:+ "." +:+ str_int b +:+ "." +:+ str_int c in
    let bogus := negb ((2000 <=? year) && (year <=? 2100)) || negb ((1 <=? month) && (month <=? 12)) in
    (Some os, if bogus then None else Some (str_int year +:+ "-" +:+ pad2 month)).

Definition parse_boot_image (data : bytes) : option BootImageLayout :=
  if bool_decide (ztake _BOOT_MAGIC_SIZE data <> _BOOT_MAGIC) then None
  else if zlen data <? 44 then None
  else
    header_version ← u32le data 40;
    '(kernel_size, page_size, os_version_packed) ←
      (if header_version >=? 3 then
         ks ← u32le data 8; osv ← u32le data 16; Some (ks, _DEFAULT_PAGE_SIZE, osv)
       else if zlen data <? 48 then None
       else
         ks ← u32le data 8; ps ← u32le data 36; osv ← u32le data 44;
         if (_MIN_PAGE_SIZE <=? ps) && (ps <=? _MAX_PAGE_SIZE) then Some (ks, ps, osv) else None);
    if (kernel_size <=? 0) || (kernel_size >? _MAX_KERNEL_SIZE) then None
    else
      let '(os_version, security_patch) := _decode_os_version os_version_packed in
      Some {| header_version := header_version; kernel_offset := page_size;
              kernel_size := kernel_size; page_size := page_size;
              os_version := os_version; security_patch := security_patch |}.

Definition carve_kernel (data : bytes) (layout : BootImageLayout) : option bytes :=
  let end_ := layout.(kernel_offset) + layout.(kernel_size) in
  if zlen data <? end_ then None else Some (zslice layout.(kernel_offset) end_ data).

(** ** Reference encoders *)

(** [((a << 14) | (b << 7) | c) << 11 | (year - 2000) << 4 | month]. *)
Definition pack_os_version (a b c year month : Z) : Z :=
  (a * 2 ^ 14 + b * 2 ^ 7 + c) * 2 ^ 11 + (year - 2000) * 2 ^ 4 + month.

(** The v0-v2 header; [mid] are the bytes 12 to 35 and [pad] everything between the
    fields read and the kernel. *)
Definition encode_v0 (version ks ps osv : Z) (mid pad : bytes) : bytes :=
  _BOOT_MAGIC ++ le_enc 4 ks ++ mid ++ le_enc 4 ps ++ le_enc 4 version ++ le_enc 4 osv ++ pad.

(** The v3-v4 header; [ramdisk] are the bytes 12 to 15, [mid] the bytes 20 to 39. *)
Definition encode_v3 (version ks osv : Z) (ramdisk mid pad : bytes) : bytes :=
  _BOOT_MAGIC ++ le_enc 4 ks ++ ramdisk ++ le_enc 4 osv ++ mid ++ le_enc 4 version ++ pad.

(** ** Lemmas *)

Lemma zlen_magic : zlen _BOOT_MAGIC = 8.
Proof. done. Qed.

(** A field inside a right-nested concatenation. *)
Lemma u32le_skip (l r : bytes) (off : Z) :
  zlen l <= off -> u32le (l ++ r) off = u32le r (off - zlen l).
Proof.
  intros H. pose proof (zlen_nonneg l). unfold u32le. rewrite zlen_app.
  destruct (decide (off + 4 <= zlen l + zlen r)).
  - rewrite decide_True by lia. rewrite zslice_app_r by done. do 3 f_equal. lia.
  - by rewrite decide_False by lia.
Qed.

Lemma u32le_here (r : bytes) (v : Z) : 0 <= v < 2 ^ 32 -> u32le (le_enc 4 v ++ r) 0 = Some v.
Proof. intros. by apply (u32le_field [] r). Qed.

Ltac field :=
  repeat (rewrite u32le_skip by (rewrite ?zlen_magic, ?zlen_le_enc; lia);
          rewrite ?zlen_magic, ?zlen_le_enc);
  match goal with
  | |- u32le _ ?o = _ => replace o with 0 by lia; apply u32le_here; lia
  end.

Lemma encode_v0_fields version ks ps osv mid pad :
  zlen mid = 24 -> 0 <= version < 2 ^ 32 -> 0 <= ks < 2 ^ 32 -> 0 <= ps < 2 ^ 32 -> 0 <= osv < 2 ^ 32 ->
  let data := encode_v0 version ks ps osv mid pad in
  u32le data 40 = Some version /\ u32le data 8 = Some ks /\ u32le data 36 = Some ps /\
  u32le data 44 = Some osv.
Proof.
  intros Hm Hv Hk Hp Ho data. unfold data, encode_v0. split_and!.
  - field.
  - field.
  - field.
  - field.
Qed.

Lemma encode_v3_fields version ks osv ramdisk mid pad :
  zlen ramdisk = 4 -> zlen mid = 20 -> 0 <= version < 2 ^ 32 -> 0 <= ks < 2 ^ 32 -> 0 <= osv < 2 ^ 32 ->
  let data := encode_v3 version ks osv ramdisk mid pad in
  u32le data 40 = Some version /\ u32le data 8 = Some ks /\ u32le data 16 = Some osv.
Proof.
  intros Hr Hm Hv Hk Ho data. unfold data, encode_v3. split_and!.
  - field.
  - field.
  - field.
Qed.

(** The padding is the tail of the header. *)
Lemma encode_v0_split version ks ps osv mid pad r :
  encode_v0 version ks ps osv mid (pad ++ r) = encode_v0 version ks ps osv mid pad ++ r.
Proof. unfold encode_v0. by rewrite <- !app_assoc. Qed.

Lemma encode_v3_split version ks osv ramdisk mid pad r :
  encode_v3 version ks osv ramdisk mid (pad ++ r) = encode_v3 version ks osv ramdisk mid pad ++ r.
Proof. unfold encode_v3. by rewrite <- !app_assoc. Qed.

Lemma zlen_encode_v0 version ks ps osv mid pad :
  zlen mid = 24 -> zlen (encode_v0 version ks ps osv mid pad) = 48 + zlen pad.
Proof. intros. unfold encode_v0. rewrite !zlen_app, !zlen_le_enc, zlen_magic. lia. Qed.

Lemma zlen_encode_v3 version ks osv ramdisk mid pad :
  zlen ramdisk = 4 -> zlen mid = 20 ->
  zlen (encode_v3 version ks osv ramdisk mid pad) = 44 + zlen pad.
Proof. intros. unfold encode_v3. rewrite !zlen_app, !zlen_le_enc, zlen_magic. lia. Qed.

Lemma magic_prefix (r : bytes) : ztake _BOOT_MAGIC_SIZE (_BOOT_MAGIC ++ r) = _BOOT_MAGIC.
Proof. by apply ztake_app. Qed.

Lemma decode_pack a b c year month :
  0 <= a < 128 -> 0 <= b < 128 -> 0 <= c < 128 -> 2000 <= year < 2128 -> 1 <= month <= 12 ->
  _decode_os_version (pack_os_version a b c year month)
    = (Some (str_int a +:+ "." +:+ str_int b +:+ "." +:+ str_int c),
       if decide (year <= 2100) then Some (str_int year +:+ "-" +:+ pad2 month) else None).
Proof.
  intros Ha Hb Hc Hy Hm. unfold _decode_os_version, pack_os_version.
  set (p := (a * 2 ^ 14 + b * 2 ^ 7 + c) * 2 ^ 11 + (year - 2000) * 2 ^ 4 + month).
  rewrite decide_False by (subst p; lia).
  assert (Z.land (Z.shiftr (Z.shiftr p 11) 14) 0x7F = a) as ->.
  { change 0x7F with (Z.ones 7). rewrite Z.land_ones, !Z.shiftr_div_pow2 by done. subst p. Z.to_euclidean_division_equations. lia. }
  assert (Z.land (Z.shiftr (Z.shiftr p 11) 7) 0x7F = b) as ->.
  { change 0x7F with (Z.ones 7). rewrite Z.land_ones, !Z.shiftr_div_pow2 by done. subst p. Z.to_euclidean_division_equations. lia. }
  assert (Z.land (Z.shiftr p 11) 0x7F = c) as ->.
  { change 0x7F with (Z.ones 7). rewrite Z.land_ones, !Z.shiftr_div_pow2 by done. subst p. Z.to_euclidean_division_equations. lia. }
  assert (Z.shiftr (Z.land p 0x7FF) 4 = year - 2000) as ->.
  { change 0x7FF with (Z.ones 11). rewrite Z.land_ones, Z.shiftr_div_pow2 by done. subst p. Z.to_euclidean_division_equations. lia. }
  assert (Z.land (Z.land p 0x7FF) 0xF = month) as ->.
  { change 0x7FF with (Z.ones 11). change 0xF with (Z.ones 4). rewrite !Z.land_ones by done. subst p. Z.to_euclidean_division_equations. lia. }
  replace (2000 + (year - 2000)) with year by lia. f_equal.
  destruct (Z.leb_spec 2000 year), (Z.leb_spec year 2100), (Z.leb_spec 1 month), (Z.leb_spec month 12);
    case_decide; try lia; done.
Qed.

(** When every field reads and is in range the header is accepted. *)
Lemma parse_boot_image_fields data v ks ps osv :
  ztake _BOOT_MAGIC_SIZE data = _BOOT_MAGIC -> 48 <= zlen data ->
  u32le data 40 = Some v -> u32le data 8 = Some ks ->
  (if v >=? 3 then u32le data 16 = Some osv /\ ps = 4096
   else u32le data 36 = Some ps /\ u32le data 44 = Some osv /\ _MIN_PAGE_SIZE <= ps <= _MAX_PAGE_SIZE) ->
  0 < ks <= _MAX_KERNEL_SIZE ->
  parse_boot_image data
    = Some {| header_version := v; kernel_offset := ps; kernel_size := ks; page_size := ps;
              os_version := (_decode_os_version osv).1; security_patch := (_decode_os_version osv).2 |}.
Proof.
  intros Hm Hlen Ev Ek Hrest Hks. unfold parse_boot_image.
  rewrite bool_decide_eq_false_2 by auto. destruct (Z.ltb_spec (zlen data) 44); [lia|].
  rewrite Ev, Ek. cbn [mbind option_bind].
  assert (forall x, (if (ks <=? 0) || (ks >? _MAX_KERNEL_SIZE) then None else x) = x :> option BootImageLayout) as Hx.
  { intros x. destruct (Z.leb_spec ks 0); [lia|]. by destruct (Z.gtb_spec ks _MAX_KERNEL_SIZE); [lia|]. }
  destruct (v >=? 3).
  - destruct Hrest as [-> ->]. cbn [mbind option_bind]. rewrite Hx. by destruct (_decode_os_version osv).
  - destruct Hrest as (-> & -> & Hps). destruct (Z.ltb_spec (zlen data) 48); [lia|].
    cbn [mbind option_bind].
    destruct (Z.leb_spec _MIN_PAGE_SIZE ps), (Z.leb_spec ps _MAX_PAGE_SIZE); try lia.
    cbn [andb mbind option_bind]. rewrite Hx. by destruct (_decode_os_version osv).
Qed.

Lemma carve_mid (pre kernel rest : bytes) layout :
  kernel_offset layout = zlen pre -> kernel_size layout = zlen kernel ->
  carve_kernel (pre ++ kernel ++ rest) layout = Some kernel.
Proof.
  intros Ho Hk. unfold carve_kernel. rewrite Ho, Hk, !zlen_app.
  pose proof (zlen_nonneg rest). destruct (Z.ltb_spec (zlen pre + (zlen kernel + zlen rest)) (zlen pre + zlen kernel)); [lia|].
  f_equal. by apply zslice_mid.
Qed.

(** ** Properties *)

(** Writing then parsing a boot image, in both header layouts: the layout comes back
    field by field, the release and patch level are the ones that were packed, and
    carving returns the kernel that was placed on the page after the header. *)
Theorem boot_image_roundtrip (version ps a b c year month : Z) (ramdisk mid mid3 pad kernel rest : bytes) :
  let osv := pack_os_version a b c year month in
  let ks := zlen kernel in
  let data := if version >=? 3 then encode_v3 version ks osv ramdisk mid3 (pad ++ kernel ++ rest)
              else encode_v0 version ks ps osv mid (pad ++ kernel ++ rest) in
  let page := if version >=? 3 then 4096 else ps in
  0 <= version < 2 ^ 32 -> 0 < ks <= _MAX_KERNEL_SIZE -> _MIN_PAGE_SIZE <= ps <= _MAX_PAGE_SIZE ->
  0 <= a < 128 -> 0 <= b < 128 -> 0 <= c < 128 -> 2000 <= year < 2128 -> 1 <= month <= 12 ->
  zlen ramdisk = 4 -> zlen mid = 24 -> zlen mid3 = 20 ->
  zlen pad = page - (if version >=? 3 then 44 else 48) ->
  exists layout,
    parse_boot_image data = Some layout /\ header_version layout = version /\
    page_size layout = page /\ kernel_offset layout = page /\ kernel_size layout = ks /\
    os_version layout = Some (str_int a +:+ "." +:+ str_int b +:+ "." +:+ str_int c) /\
    security_patch layout = (if decide (year <= 2100) then Some (str_int year +:+ "-" +:+ pad2 month) else None) /\
    carve_kernel data layout = Some kernel.
Proof.
  intros osv ks data page Hv Hks Hps Ha Hb Hc Hy Hm Hr H24 H20 Hpad.
  assert (0 <= osv < 2 ^ 32) as Hosv by (unfold osv, pack_os_version; lia).
  pose proof (decode_pack a b c year month Ha Hb Hc Hy Hm) as Hdec. fold osv in Hdec.
  pose proof (zlen_nonneg pad). pose proof (zlen_nonneg rest).
  assert (0 <= ks < 2 ^ 32) as Hks' by (unfold _MAX_KERNEL_SIZE in Hks; lia).
  assert (0 <= ps < 2 ^ 32) as Hps' by (unfold _MIN_PAGE_SIZE, _MAX_PAGE_SIZE in Hps; lia).
  eexists. split; [apply (parse_boot_image_fields data version ks page osv)|]; unfold data, page in *;
    destruct (version >=? 3) eqn:Ev; try done.
  - apply magic_prefix.
  - apply magic_prefix.
  - rewrite zlen_encode_v3, !zlen_app by done. lia.
  - rewrite zlen_encode_v0, !zlen_app by done. lia.
  - by apply encode_v3_fields.
  - by apply encode_v0_fields.
  - by apply encode_v3_fields.
  - by apply encode_v0_fields.
  - split; [by apply encode_v3_fields | done].
  - split_and!; try lia; by apply encode_v0_fields.
  - cbn [header_version kernel_offset kernel_size page_size os_version security_patch].
    rewrite Hdec. split_and!; try done. rewrite encode_v3_split. apply carve_mid; [|done].
    cbn [kernel_offset]. rewrite zlen_encode_v3 by done. lia.
  - cbn [header_version kernel_offset kernel_size page_size os_version security_patch].
    rewrite Hdec. split_and!; try done. rewrite encode_v0_split. apply carve_mid; [|done].
    cbn [kernel_offset]. rewrite zlen_encode_v0 by done. lia.
Qed.

Lemma boot_image_roundtrip_witness :
  exists layout,
    parse_boot_image (encode_v3 3 5 (pack_os_version 11 0 0 2023 2) (replicate 4 Byte.x00)
       (replicate 20 Byte.x00) (replicate 4052 Byte.x00 ++ bs "MZker" ++ bs "tail")) = Some layout /\
    os_version layout = Some "11.0.0" /\ security_patch layout = Some "2023-02".
Proof.
  destruct (boot_image_roundtrip 3 4096 11 0 0 2023 2 (replicate 4 Byte.x00) (replicate 24 Byte.x00)
    (replicate 20 Byte.x00) (replicate 4052 Byte.x00) (bs "MZker") (bs "tail"))
    as (layout & H1 & _ & _ & _ & _ & H2 & H3 & _); try (by vm_compute); try done.
  exists layout. split; [exact H1|]. split; [by rewrite H2; vm_compute | by rewrite H3; vm_compute].
Defined.

(** Whatever the bytes, an accepted header starts with the magic, has a page size
    between 256 bytes and 1 MiB and a kernel of 1 byte to 256 MiB that starts on the
    page after the header; carving then either reports a truncated image or cuts
    exactly those bytes out of it. *)
Theorem boot_image_bounds (data : bytes) (layout : BootImageLayout) :
  parse_boot_image data = Some layout ->
  (exists r, data = _BOOT_MAGIC ++ r) /\
  0 <= header_version layout < 2 ^ 32 /\
  _MIN_PAGE_SIZE <= page_size layout <= _MAX_PAGE_SIZE /\ kernel_offset layout = page_size layout /\
  0 < kernel_size layout <= _MAX_KERNEL_SIZE /\
  (carve_kernel data layout = None <-> zlen data < kernel_offset layout + kernel_size layout) /\
  forall k, carve_kernel data layout = Some k ->
    exists pre post, data = pre ++ k ++ post /\ zlen pre = page_size layout /\ zlen k = kernel_size layout.
Proof.
  intros H. unfold parse_boot_image in H. destruct (decide (ztake _BOOT_MAGIC_SIZE data = _BOOT_MAGIC)) as [Hmagic|Hmagic];
    [rewrite bool_decide_eq_false_2 in H by auto | by rewrite bool_decide_eq_true_2 in H].
  destruct (Z.ltb_spec (zlen data) 44) as [|Hlen]; [done|].
  destruct (u32le data 40) as [v|] eqn:Ev; [|done]. cbn [mbind option_bind] in H.
  assert (exists ks ps osv, 0 <= ks < 2 ^ 32 /\ 256 <= ps <= 1024 * 1024 /\
    (if (ks <=? 0) || (ks >? _MAX_KERNEL_SIZE) then None
     else let '(os, sp) := _decode_os_version osv in
          Some {| header_version := v; kernel_offset := ps; kernel_size := ks; page_size := ps;
                  os_version := os; security_patch := sp |}) = Some layout) as (ks & ps & osv & Hks & Hps & H').
  { destruct (v >=? 3).
    - destruct (u32le data 8) as [ks|] eqn:E8; [|done]. cbn [mbind option_bind] in H.
      destruct (u32le data 16) as [osv|] eqn:E16; [|done]. cbn [mbind option_bind] in H.
      exists ks, 4096, osv. split; [by eapply u32le_range; [|exact E8]|]. split; [lia | exact H].
    - destruct (zlen data <? 48); [done|].
      destruct (u32le data 8) as [ks|] eqn:E8; [|done]. cbn [mbind option_bind] in H.
      destruct (u32le data 36) as [ps|]; [|done]. cbn [mbind option_bind] in H.
      destruct (u32le data 44) as [osv|]; [|done]. cbn [mbind option_bind] in H.
      unfold _MIN_PAGE_SIZE, _MAX_PAGE_SIZE in H.
      destruct (Z.leb_spec 256 ps), (Z.leb_spec ps (1024 * 1024)); try done. cbn in H.
      exists ks, ps, osv. split; [by eapply u32le_range; [|exact E8]|]. split; [lia | exact H]. }
  clear H. unfold _MAX_KERNEL_SIZE, _MIN_PAGE_SIZE, _MAX_PAGE_SIZE in *.
  destruct (Z.leb_spec ks 0); [done|]. destruct (Z.gtb_spec ks (256 * 1024 * 1024)); [done|]. cbn in H'.
  destruct (_decode_os_version osv) as [os sp]. injection H' as <-.
  cbn [header_version kernel_offset kernel_size page_size]. split_and!; try done; try lia.
  - exists (zdrop _BOOT_MAGIC_SIZE data). rewrite <- Hmagic, ztake_eq, zdrop_eq. symmetry. apply take_drop.
  - by eapply u32le_range; [|exact Ev].
  - by eapply u32le_range; [|exact Ev].
  - unfold carve_kernel. cbn. destruct (Z.ltb_spec (zlen data) (ps + ks)); [done|].
    split; [done | lia].
  - intros k. unfold carve_kernel. cbn. destruct (Z.ltb_spec (zlen data) (ps + ks)); [done|].
    intros [= <-]. exists (ztake ps data), (zdrop (ps + ks) data). split_and!.
    + unfold zslice. rewrite !ztake_eq, !zdrop_eq. replace (ps + ks - ps) with ks by lia.
      rewrite <- (take_drop (Z.to_nat ps) data) at 1. f_equal.
      rewrite <- (take_drop (Z.to_nat ks) (drop (Z.to_nat ps) data)) at 1. f_equal.
      rewrite drop_drop. f_equal. lia.
    + rewrite zlen_ztake. lia.
    + rewrite zlen_zslice by lia. lia.
Qed.

Lemma boot_image_bounds_witness :
  exists layout,
    parse_boot_image (encode_v3 4 7 0 (replicate 4 Byte.x00) (replicate 20 Byte.x00) []) = Some layout /\
    0 < kernel_size layout <= _MAX_KERNEL_SIZE /\
    carve_kernel (encode_v3 4 7 0 (replicate 4 Byte.x00) (replicate 20 Byte.x00) []) layout = None.
Proof.
  destruct (parse_boot_image (encode_v3 4 7 0 (replicate 4 Byte.x00) (replicate 20 Byte.x00) []))
    as [layout|] eqn:E; [|by vm_compute in E].
  exists layout. split; [done|].
  destruct (boot_image_bounds _ layout E) as (_ & _ & _ & _ & H1 & H2 & _). split; [exact H1|].
  apply H2. vm_compute in E. injection E as <-. by vm_compute.
Defined.
