(* ===== verification/SbomData.v ===== *)
(** * SBOM data ([services/sbom/constants.py])

    The component record every detection strategy produces and the two tables the
    post-processing passes look names up in. *)

From S2P Require Import Prelude PyText Json.
From Stdlib Require Import Ascii String.
Import (notations) Ascii String.
#[local] Open Scope Z_scope.

Record IdentifiedComponent := {
  name : string;
  version : option string;
  type_ : string;
  cpe : option string;
  purl : option string;
  supplier : option string;
  detection_source : string;
  detection_confidence : string;
  file_paths : list string;
  metadata : pydict;
  source_partition : option string
}.

(** The assignments [comp.field = v]. *)
Definition set_cpe (v : option string) (c : IdentifiedComponent) : IdentifiedComponent :=
  {| name := name c; version := version c; type_ := type_ c; cpe := v; purl := purl c;
     supplier := supplier c; detection_source := detection_source c;
     detection_confidence := detection_confidence c; file_paths := file_paths c;
     metadata := metadata c; source_partition := source_partition c |}.

Definition set_supplier (v : option string) (c : IdentifiedComponent) : IdentifiedComponent :=
  {| name := name c; version := version c; type_ := type_ c; cpe := cpe c; purl := purl c;
     supplier := v; detection_source := detection_source c;
     detection_confidence := detection_confidence c; file_paths := file_paths c;
     metadata := metadata c; source_partition := source_partition c |}.

Definition set_confidence (v : string) (c : IdentifiedComponent) : IdentifiedComponent :=
  {| name := name c; version := version c; type_ := type_ c; cpe := cpe c; purl := purl c;
     supplier := supplier c; detection_source := detection_source c;
     detection_confidence := v; file_paths := file_paths c;
     metadata := metadata c; source_partition := source_partition c |}.

Definition set_file_paths (v : list string) (c : IdentifiedComponent) : IdentifiedComponent :=
  {| name := name c; version := version c; type_ := type_ c; cpe := cpe c; purl := purl c;
     supplier := supplier c; detection_source := detection_source c;
     detection_confidence := detection_confidence c; file_paths := v;
     metadata := metadata c; source_partition := source_partition c |}.

Definition set_partition_of (v : option string) (c : IdentifiedComponent) : IdentifiedComponent :=
  {| name := name c; version := version c; type_ := type_ c; cpe := cpe c; purl := purl c;
     supplier := supplier c; detection_source := detection_source c;
     detection_confidence := detection_confidence c; file_paths := file_paths c;
     metadata := metadata c; source_partition := v |}.

(** [comp.metadata[k] = v]. *)
Definition set_meta (k : string) (v : json) (c : IdentifiedComponent) : IdentifiedComponent :=
  {| name := name c; version := version c; type_ := type_ c; cpe := cpe c; purl := purl c;
     supplier := supplier c; detection_source := detection_source c;
     detection_confidence := detection_confidence c; file_paths := file_paths c;
     metadata := dict_set k v (metadata c); source_partition := source_partition c |}.

Definition CPE_VENDOR_MAP : list (string * (string * string)) :=
  [("busybox", ("busybox", "busybox")); ("glibc", ("gnu", "glibc"));
   ("libc", ("gnu", "glibc")); ("uclibc", ("uclibc", "uclibc"));
   ("musl", ("musl-libc", "musl")); ("bash", ("gnu", "bash"));
   ("openssl", ("openssl", "openssl")); ("libssl", ("openssl", "openssl"));
   ("libcrypto", ("openssl", "openssl")); ("wolfssl", ("wolfssl", "wolfssl"));
   ("libwolfssl", ("wolfssl", "wolfssl")); ("mbedtls", ("arm", "mbed_tls"));
   ("libmbedtls", ("arm", "mbed_tls")); ("libmbedcrypto", ("arm", "mbed_tls"));
   ("gnutls", ("gnu", "gnutls")); ("libgnutls", ("gnu", "gnutls"));
   ("libsodium", ("libsodium_project", "libsodium")); ("libgcrypt", ("gnupg", "libgcrypt"));
   ("libnettle", ("gnu", "nettle")); ("nginx", ("f5", "nginx"));
   ("lighttpd", ("lighttpd", "lighttpd")); ("apache", ("apache", "http_server"));
   ("httpd", ("apache", "http_server")); ("mini_httpd", ("acme", "mini_httpd"));
   ("uhttpd", ("openwrt", "uhttpd")); ("goahead", ("embedthis", "goahead"));
   ("boa", ("boa", "boa_web_server")); ("thttpd", ("acme", "thttpd"));
   ("mongoose", ("cesanta", "mongoose")); ("dropbear", ("matt_johnston", "dropbear"));
   ("openssh", ("openbsd", "openssh")); ("dnsmasq", ("thekelleys", "dnsmasq"));
   ("unbound", ("nlnetlabs", "unbound")); ("curl", ("haxx", "curl"));
   ("libcurl", ("haxx", "curl")); ("wget", ("gnu", "wget")); ("hostapd", ("w1.fi", "hostapd"));
   ("wpa_supplicant", ("w1.fi", "wpa_supplicant")); ("openvpn", ("openvpn", "openvpn"));
   ("samba", ("samba", "samba")); ("mosquitto", ("eclipse", "mosquitto"));
   ("avahi", ("avahi", "avahi")); ("iptables", ("netfilter", "iptables"));
   ("ip6tables", ("netfilter", "iptables")); ("nftables", ("netfilter", "nftables"));
   ("proftpd", ("proftpd", "proftpd")); ("vsftpd", ("beasts", "vsftpd"));
   ("miniupnpd", ("miniupnp_project", "miniupnpd")); ("ntpd", ("ntp", "ntp"));
   ("netatalk", ("netatalk", "netatalk")); ("uboot", ("denx", "u-boot"));
   ("u-boot", ("denx", "u-boot")); ("zlib", ("zlib", "zlib"));
   ("sqlite", ("sqlite", "sqlite")); ("libjpeg", ("ijg", "libjpeg"));
   ("libpng", ("libpng", "libpng")); ("lua", ("lua", "lua")); ("perl", ("perl", "perl"));
   ("python", ("python", "python")); ("json-c", ("json-c_project", "json-c"));
   ("libxml2", ("xmlsoft", "libxml2")); ("pcre", ("pcre", "pcre"));
   ("expat", ("libexpat_project", "libexpat")); ("dbus", ("freedesktop", "dbus"));
   ("readline", ("gnu", "readline")); ("ncurses", ("gnu", "ncurses"));
   ("ubus", ("openwrt", "ubus")); ("libubox", ("openwrt", "libubox"));
   ("uci", ("openwrt", "uci")); ("gcc", ("gnu", "gcc")); ("uclibc-ng", ("uclibc", "uclibc"));
   ("net-snmp", ("net-snmp", "net-snmp")); ("iproute2", ("iproute2_project", "iproute2"));
   ("pppd", ("samba", "ppp")); ("libnl", ("infradead", "libnl"));
   ("syslog-ng", ("balabit", "syslog-ng")); ("libcoap", ("libcoap", "libcoap"));
   ("lwip", ("lwip_project", "lwip")); ("contiki", ("contiki-os", "contiki"));
   ("contiki-ng", ("contiki-ng", "contiki-ng")); ("tinydtls", ("eclipse", "tinydtls"));
   ("mbed-os-connectivity", ("arm", "mbed_os")); ("mbed-os", ("arm", "mbed_os"));
   ("cwmpd", ("cwmp", "cwmpd")); ("grub", ("gnu", "grub2")); ("grub2", ("gnu", "grub2"));
   ("coreboot", ("coreboot", "coreboot")); ("barebox", ("barebox", "barebox"));
   ("arm-trusted-firmware", ("arm", "arm-trusted-firmware"));
   ("atf", ("arm", "arm-trusted-firmware")); ("bl1", ("arm", "arm-trusted-firmware"));
   ("bl2", ("arm", "arm-trusted-firmware")); ("bl31", ("arm", "arm-trusted-firmware"));
   ("edk2", ("tianocore", "edk2")); ("tianocore", ("tianocore", "edk2"));
   ("android", ("google", "android")); ("webview", ("google", "android"));
   ("android-runtime", ("google", "android")); ("libmtk", ("mediatek", "mt_system_software"));
   ("libmtk_bsg", ("mediatek", "mt_system_software"));
   ("libmtk_vpu", ("mediatek", "mt_system_software"));
   ("libnvram", ("mediatek", "mt_system_software"));
   ("libcam_utils", ("mediatek", "mt_system_software"));
   ("mtk-ccci", ("mediatek", "mt_system_software"));
   ("mediatek-telephony", ("mediatek", "mt_system_software")); ("libqmi", ("qualcomm", "mdm"));
   ("libqmi_cci", ("qualcomm", "mdm")); ("libqmi_csi", ("qualcomm", "mdm"));
   ("libdiag", ("qualcomm", "mdm")); ("libqti", ("qualcomm", "mdm"));
   ("libadsprpc", ("qualcomm", "mdm")); ("libcdsprpc", ("qualcomm", "mdm"));
   ("adreno", ("qualcomm", "adreno_gpu")); ("libgsl", ("qualcomm", "adreno_gpu"));
   ("qca-wifi", ("qualcomm", "qca_wifi_firmware")); ("libmodbus", ("libmodbus", "libmodbus"));
   ("open62541", ("open62541", "open62541")); ("libopen62541", ("open62541", "open62541"));
   ("opcua", ("opcfoundation", "ua-.net_standard")); ("bacnet", ("bacnet", "bacnet_stack"));
   ("libcanopen", ("canopen", "canopen")); ("libevent", ("libevent_project", "libevent"));
   ("libev", ("libev_project", "libev")); ("libuv", ("libuv_project", "libuv"));
   ("protobuf", ("google", "protobuf")); ("grpc", ("grpc", "grpc"));
   ("libmicrohttpd", ("gnu", "libmicrohttpd")); ("lldpd", ("lldpd_project", "lldpd"));
   ("snmpd", ("net-snmp", "net-snmp")); ("chrony", ("chrony_project", "chrony"));
   ("bluez", ("bluez", "bluez")); ("libbluetooth", ("bluez", "bluez"));
   ("iw", ("kernel", "iw"));
   ("wireless-tools", ("hewlett_packard_enterprise", "wireless_tools"))].

Definition KNOWN_SERVICE_RISKS : list (string * string) :=
  [("telnetd", "critical"); ("utelnetd", "critical"); ("rlogind", "critical");
   ("rshd", "critical"); ("rexecd", "critical"); ("tftpd", "critical"); ("ftpd", "high");
   ("vsftpd", "high"); ("proftpd", "high"); ("httpd", "high"); ("uhttpd", "high");
   ("lighttpd", "high"); ("goahead", "high"); ("miniupnpd", "high"); ("snmpd", "high");
   ("smbd", "high"); ("cwmpd", "high"); ("mini_httpd", "high"); ("boa", "high");
   ("mongoose", "high"); ("sshd", "medium"); ("dropbear", "medium"); ("dnsmasq", "medium");
   ("hostapd", "medium"); ("openvpn", "medium"); ("mosquitto", "medium"); ("rssh", "medium");
   ("stunnel", "medium"); ("socat", "medium"); ("ncat", "medium"); ("xinetd", "medium");
   ("rsh", "high"); ("rexec", "high"); ("inetd", "high"); ("ntpd", "low"); ("crond", "low");
   ("syslogd", "low"); ("avahi-daemon", "low")].
