(* ===== verification/ComponentStore.v ===== *)
(** * Component deduplication and names ([services/sbom/normalization.py], [purl.py],
    [service_risks.py])

    [ComponentStore] merges the components that the detection strategies report
    under a normalised name and version.  The order of [list(set(paths))] is
    arbitrary in Python and is the class [SetOrder]. *)

From S2P Require Import Prelude PyText PosixPath Json SbomData.
From Stdlib Require Import Ascii String.
Import (notations) Ascii String.
#[local] Open Scope Z_scope.

Definition normalize_name (name : string) : string := replace_char "_" "-" (lower name).

Definition normalize_version (version : option string) : option string :=
  match version with
  | None => None
  | Some v => if bool_decide (v ∈ [""; "0.0.0"; "UNKNOWN"]) then None else Some v
  end.

(** [re.fullmatch(r"\d+", version)]. *)
Fixpoint all_digits (s : string) : bool :=
  match s with "" => true | String a s' => is_digit a && all_digits s' end.

Definition is_useless_version (version : option string) : bool :=
  match version with None | Some "" => true | Some v => all_digits v end.

(** ** CPE and package URLs *)

Definition build_cpe (vendor product : string) (version : option string) (part : string) : option string :=
  match version with
  | None | Some "" => None
  | Some v =>
      Some ("cpe:2.3:" +:+ part +:+ ":" +:+ vendor +:+ ":" +:+ product +:+ ":" +:+ strip v +:+ ":*:*:*:*:*:*:*")
  end.

Definition build_os_cpe (vendor product : string) (version : option string) : option string :=
  match version with
  | None | Some "" => None
  | Some v =>
      Some ("cpe:2.3:o:" +:+ vendor +:+ ":" +:+ product +:+ ":" +:+ strip v +:+ ":*:*:*:*:*:*:*")
  end.

(** [package_url] is packageurl-python, [None] where it raises. *)
Definition build_purl (package_url : string -> string -> string -> option string)
    (name : string) (version : option string) (pkg_type : string) : option string :=
  match version with
  | None | Some "" => None
  | Some v =>
      match package_url pkg_type name v with
      | Some p => Some p
      | None => Some ("pkg:" +:+ pkg_type +:+ "/" +:+ name +:+ "@" +:+ v)
      end
  end.

(** ** The store *)

Abbreviation key := (string * option string)%type.

Record ComponentStore := {
  components : list (key * IdentifiedComponent);
  current_partition : option string
}.

Definition empty_store : ComponentStore := {| components := []; current_partition := None |}.

(** [list(set(l))]. *)
Class SetOrder := set_list : list string -> list string.
Class SetOrderLaws (S : SetOrder) : Prop :=
  set_list_elem l x : x ∈ set_list l <-> x ∈ l.

Definition _CONFIDENCE_RANK : list (string * Z) := [("high", 3); ("medium", 2); ("low", 1)].

Definition rank (c : IdentifiedComponent) : Z := dict_get_or (detection_confidence c) 0 _CONFIDENCE_RANK.

Definition comp_key (c : IdentifiedComponent) : key :=
  (normalize_name (name c), normalize_version (version c)).

Section Store.
Context {S : SetOrder}.

Definition set_partition (partition_name : option string) (s : ComponentStore) : ComponentStore :=
  {| components := components s; current_partition := partition_name |}.

(** The partition of the scan is stamped on a component that has none. *)
Definition stamp_partition (partition : option string) (c : IdentifiedComponent) : IdentifiedComponent :=
  if truthy partition && negb (truthy (source_partition c)) then set_partition_of partition c else c.

Definition add (c : IdentifiedComponent) (s : ComponentStore) : ComponentStore :=
  let comp := stamp_partition (current_partition s) c in
  let key := comp_key comp in
  let components' :=
    match dict_get key (components s) with
    | None => dict_set key comp (components s)
    | Some existing =>
        let merged_paths := set_list (file_paths existing ++ file_paths comp)%list in
        if rank comp >? rank existing
        then dict_set key (set_file_paths merged_paths comp) (components s)
        else dict_set key (set_file_paths merged_paths existing) (components s)
    end in
  {| components := components'; current_partition := current_partition s |}.

Definition get (k : key) (s : ComponentStore) : option IdentifiedComponent := dict_get k (components s).

(** ** Service risks *)

Definition _DAEMON_DIRS : list string := ["/usr/sbin"; "/sbin"; "/usr/bin"; "/bin"].

(** [comp.name.lower() == entry or entry in (p.rsplit("/", 1)[-1] for p in paths)]. *)
Definition names_service (entry : string) (c : IdentifiedComponent) : bool :=
  bool_decide (lower (name c) = entry) || existsb (fun p => bool_decide (basename p = entry)) (file_paths c).

(** The first component that matches is tagged; [None] when the loop falls through. *)
Fixpoint tag_first (entry risk : string) (l : list (key * IdentifiedComponent))
    : option (list (key * IdentifiedComponent)) :=
  match l with
  | [] => None
  | (k, c) :: l' =>
      if names_service entry c then Some ((k, set_meta "service_risk" (JStr risk) c) :: l')
      else (fun r => (k, c) :: r) <$> tag_first entry risk l'
  end.

Definition annotate_entry (daemon_dir : string) (s : ComponentStore) (entry : string) : ComponentStore :=
  match dict_get entry KNOWN_SERVICE_RISKS with
  | None => s
  | Some risk =>
      match tag_first entry risk (components s) with
      | Some l => {| components := l; current_partition := current_partition s |}
      | None =>
          add {| name := entry; version := None; type_ := "application"; cpe := None; purl := None;
                 supplier := fst <$> dict_get (lower entry) CPE_VENDOR_MAP;
                 detection_source := "binary_strings"; detection_confidence := "low";
                 file_paths := [daemon_dir +:+ "/" +:+ entry];
                 metadata := [("service_risk", JStr risk)]; source_partition := None |} s
      end
  end.

(** [listdir] is [None] for a path that is not a readable directory. *)
Definition annotate_service_risks (listdir : string -> option (list string)) (extracted_root : string)
    (s : ComponentStore) : ComponentStore :=
  foldl (fun s daemon_dir =>
           match listdir (path_join extracted_root (lstrip_char slash daemon_dir)) with
           | None => s
           | Some entries => foldl (annotate_entry daemon_dir) s entries
           end) s _DAEMON_DIRS.
End Store.

(** ** Runs of a store *)

Inductive store_op := SetPartition (p : option string) | Add (c : IdentifiedComponent).

Section Runs.
Context {S : SetOrder} {laws : SetOrderLaws S}.

Definition store_step (s : ComponentStore) (o : store_op) : ComponentStore :=
  match o with SetPartition p => set_partition p s | Add c => add c s end.

Definition run_store (ops : list store_op) : ComponentStore := foldl store_step empty_store ops.

(** The components of a run as they are handed to the merge, with their partition. *)
Fixpoint reported (p : option string) (ops : list store_op) : list IdentifiedComponent :=
  match ops with
  | [] => []
  | SetPartition p' :: ops' => reported p' ops'
  | Add c :: ops' => stamp_partition p c :: reported p ops'
  end.

Definition group (k : key) (l : list IdentifiedComponent) : list IdentifiedComponent :=
  filter (fun c => comp_key c = k) l.

(** [c] is the first report of the highest rank in [g], with the paths of all of them. *)
Definition merge_of (g : list IdentifiedComponent) (c : IdentifiedComponent) : Prop :=
  exists g1 w g2 paths,
    g = (g1 ++ w :: g2)%list /\ Forall (fun x => rank x < rank w) g1 /\
    Forall (fun x => rank x <= rank w) g2 /\ c = set_file_paths paths w /\
    forall p, p ∈ paths <-> exists x, x ∈ g /\ p ∈ file_paths x.

Definition store_spec (s : ComponentStore) (l : list IdentifiedComponent) : Prop :=
  forall k, match get k s with
            | None => group k l = []
            | Some c => merge_of (group k l) c
            end.

Lemma merge_single c : merge_of [c] c.
Proof.
  exists [], c, [], (file_paths c). split; [done|]. split; [constructor|]. split; [constructor|].
  split; [by destruct c|]. intros p. split; [intros; exists c; split; [by left | done]|].
  by intros (x & ->%list_elem_of_singleton & ?).
Qed.

Lemma merge_add g c comp :
  merge_of g c ->
  merge_of (g ++ [comp])
    (if rank comp >? rank c
     then set_file_paths (set_list (file_paths c ++ file_paths comp)%list) comp
     else set_file_paths (set_list (file_paths c ++ file_paths comp)%list) c).
Proof.
  intros (g1 & w & g2 & paths & -> & H1 & H2 & -> & Hp).
  change (rank (set_file_paths paths w)) with (rank w).
  change (file_paths (set_file_paths paths w)) with paths.
  assert (forall p, p ∈ set_list (paths ++ file_paths comp)%list <->
                    exists x, x ∈ (g1 ++ w :: g2) ++ [comp] /\ p ∈ file_paths x) as Hm.
  { intros p. rewrite set_list_elem, elem_of_app, Hp. split.
    - intros [(x & Hx & ?)|?]; [exists x | exists comp]; rewrite elem_of_app; set_solver.
    - intros (x & [Hx | ->%list_elem_of_singleton]%elem_of_app & ?); [left; eauto | by right]. }
  destruct (Z.gtb_spec (rank comp) (rank w)).
  - exists (g1 ++ w :: g2), comp, [], (set_list (paths ++ file_paths comp)%list).
    split; [done|]. split; [|done]. apply Forall_app. split; [|constructor; [lazy beta; lia|]];
      eapply Forall_impl; try done; lazy beta; lia.
  - exists g1, w, (g2 ++ [comp]), (set_list (paths ++ file_paths comp)%list).
    split; [by rewrite <- app_assoc|]. split; [done|]. split; [|done].
    apply Forall_app. split; [done|]. by repeat constructor.
Qed.

Lemma add_spec s l c :
  store_spec s l -> store_spec (add c s) (l ++ [stamp_partition (current_partition s) c]).
Proof.
  intros Hs k. unfold add, get. set (comp := stamp_partition (current_partition s) c). cbn [components].
  unfold group. rewrite filter_app. fold (group k l). rewrite filter_cons, filter_nil.
  specialize (Hs (comp_key comp)) as Hk. unfold get in Hk.
  destruct (decide (comp_key comp = k)) as [<-|Hne].
  - destruct (dict_get (comp_key comp) (components s)) as [e|] eqn:E.
    + pose proof (merge_add _ _ comp Hk) as Hm.
      destruct (rank comp >? rank e); by rewrite dict_get_set_eq.
    + rewrite dict_get_set_eq, Hk. apply merge_single.
  - rewrite app_nil_r. specialize (Hs k). unfold get in Hs.
    destruct (dict_get (comp_key comp) (components s)); [destruct (rank comp >? rank _)|];
      by rewrite dict_get_set_ne.
Qed.

Lemma run_store_spec_aux ops s l :
  store_spec s l -> store_spec (foldl store_step s ops) (l ++ reported (current_partition s) ops).
Proof.
  revert s l. induction ops as [|[p|c] ops IH]; intros s l Hs; cbn [foldl store_step reported].
  - by rewrite app_nil_r.
  - apply (IH (set_partition p s)). exact Hs.
  - rewrite cons_middle, app_assoc. apply (IH (add c s)). by apply add_spec.
Qed.
End Runs.

(** ** Properties *)

(** What the store holds after any run of reports and partition switches: nothing
    under a key that was never reported; otherwise the first report of the highest
    confidence, stamped with its partition, whose paths are exactly those of all
    the reports of that key. *)
Theorem store_merges {S : SetOrder} {laws : SetOrderLaws S} (ops : list store_op) (k : key) :
  match get k (run_store ops) with
  | None => group k (reported None ops) = []
  | Some c => merge_of (group k (reported None ops)) c
  end.
Proof. exact (run_store_spec_aux ops empty_store [] (fun _ => eq_refl) k). Qed.

#[export] Instance set_list_dedup : SetOrder := remove_dups.
#[export] Instance set_list_dedup_laws : SetOrderLaws set_list_dedup.
Proof. intros l x. apply elem_of_remove_dups. Qed.

Definition demo_component (n : string) (v : option string) (conf : string) (paths : list string)
    : IdentifiedComponent :=
  {| name := n; version := v; type_ := "library"; cpe := None; purl := None; supplier := None;
     detection_source := conf; detection_confidence := conf; file_paths := paths; metadata := [];
     source_partition := None |}.

Lemma store_merges_witness :
  exists c,
    get ("lib-z", None) (run_store (S := set_list_dedup)
      [Add (demo_component "lib_z" None "low" ["/a"]); SetPartition (Some "vendor");
       Add (demo_component "LIB-Z" (Some "0.0.0") "high" ["/b"])]) = Some c /\
    detection_source c = "high" /\
    merge_of [demo_component "lib_z" None "low" ["/a"];
              stamp_partition (Some "vendor") (demo_component "LIB-Z" (Some "0.0.0") "high" ["/b"])] c.
Proof.
  set (ops := [Add (demo_component "lib_z" None "low" ["/a"]); SetPartition (Some "vendor");
               Add (demo_component "LIB-Z" (Some "0.0.0") "high" ["/b"])]).
  pose proof (store_merges (S := set_list_dedup) ops ("lib-z", None)) as H.
  destruct (get ("lib-z", None) (run_store (S := set_list_dedup) ops)) as [c|] eqn:E; [|by vm_compute in E].
  exists c. split; [done|]. split; [vm_compute in E; by injection E as <- | exact H].
Defined.
