(* ===== verification/Enrichment.v ===== *)
(** * CPE enrichment and kernel versions ([services/sbom/enrichment.py],
    [version_normalize.py])

    The five-step enrichment over a [ComponentStore] and the extraction of a
    canonical kernel version.  The CPE dictionary (rapidfuzz over the NVD data)
    is a parameter. *)

From S2P Require Import Prelude PyText Json Jsonb SbomData ComponentStore.
From Stdlib Require Import Ascii String.
Import (notations) Ascii String.
#[local] Open Scope Z_scope.

Definition ANDROID_API_TO_VERSION : list (Z * string) :=
  [(21, "5.0"); (22, "5.1"); (23, "6.0"); (24, "7.0"); (25, "7.1"); (26, "8.0"); (27, "8.1");
   (28, "9"); (29, "10"); (30, "11"); (31, "12"); (32, "12L"); (33, "13"); (34, "14"); (35, "15")].

(** ** Predicates *)

Definition find_kernel_version (s : ComponentStore) : option string :=
  match find (fun kc => bool_decide (name kc.2 = "linux-kernel") && truthy (version kc.2)) (components s) with
  | Some (_, c) => version c
  | None => None
  end.

(** [needle in v]: a [TypeError] for values without membership. *)
Definition py_in (needle : string) (v : json) : res py_error bool :=
  match v with
  | JStr s => Ok (contains needle s)
  | JList l => Ok (existsb (fun x => match x with JStr s => bool_decide (s = needle) | _ => false end) l)
  | JDict d => Ok (dict_has needle d)
  | _ => Err TypeError
  end.

Definition is_kernel_module (c : IdentifiedComponent) : res py_error bool :=
  if bool_decide (type_ c = "kernel-module") then Ok true
  else
    b ← py_in "kernel_module" (dict_get_or "type" (JStr "") (metadata c));
    if (b : bool) then Ok true
    else if bool_decide (detection_source c ∈ ["android_kernel_module"; "kernel_module"]) then Ok true
    else Ok (existsb (fun fp => endswith fp ".ko" || contains "/modules/" fp) (file_paths c)).

Definition json_is_str (v : option json) (s : string) : bool :=
  match v with Some (JStr x) => bool_decide (x = s) | _ => false end.

Definition is_android_component (c : IdentifiedComponent) : bool :=
  bool_decide (detection_source c ∈ ["android_apk"; "android_init_service"]) ||
  json_is_str (dict_get "source" (metadata c)) "android".

(** ** Local fuzzy lookup *)

Definition drop_end (n : nat) (s : string) : string := String.substring 0 (String.length s - n) s.
Fixpoint drop_start (n : nat) (s : string) : string :=
  match n, s with S n', String _ s' => drop_start n' s' | _, _ => s end.

Definition suffixes : list string :=
  ["-dev"; "-dbg"; "-bin"; "-utils"; "-tools"; "-client"; "-server"; "-common"; "-core"].

(** The candidate names, in the order they are appended. *)
Definition fuzzy_candidates (name : string) : list string :=
  let name_lower := strip (lower name) in
  let lib := startswith name_lower "lib" in
  let base := drop_start 3 name_lower in
  (if lib then [base] else []) ++
  [replace_char "-" "_" name_lower; replace_char "_" "-" name_lower] ++
  (if lib then [replace_char "-" "_" base; replace_char "_" "-" base] else []) ++
  flat_map (fun suffix =>
      if endswith name_lower suffix then
        let b := drop_end (String.length suffix) name_lower in
        b :: (if startswith b "lib" then [drop_start 3 b] else [])
      else []) suffixes ++
  (let stripped := rstrip_if (fun a => bool_decide (a = "-"%char) || bool_decide (a = "_"%char))
                     (rstrip_if (fun a => is_digit a || bool_decide (a = "."%char)) name_lower) in
   if bool_decide (stripped <> "") && bool_decide (stripped <> name_lower) then
     stripped :: (if startswith stripped "lib" then [drop_start 3 stripped] else [])
   else []).

(** First occurrences of the non-empty names not in [seen]. *)
Fixpoint unique_from (seen : list string) (l : list string) : list string :=
  match l with
  | [] => []
  | c :: l' =>
      if bool_decide (c = "") || bool_decide (c ∈ seen) then unique_from seen l'
      else c :: unique_from (c :: seen) l'
  end.

Definition cpe_part (comp_type : string) : string :=
  if bool_decide (comp_type = "operating-system") then "o" else "a".

Definition fuzzy_cpe_lookup (name : string) (version : option string) (comp_type : string) : option string :=
  match find (fun c => dict_has c CPE_VENDOR_MAP)
             (unique_from [strip (lower name)] (fuzzy_candidates name)) with
  | Some candidate =>
      match dict_get candidate CPE_VENDOR_MAP with
      | Some (vendor, product) => build_cpe vendor product version (cpe_part comp_type)
      | None => None
      end
  | None => None
  end.

(** ** The pipeline *)

(** What the dictionary answers: its best match, whether the confidence reaches
    [CONFIDENCE_AUTO], and the confidence rounded to two digits. *)
Record cpe_match := { cpe23 : string; m_vendor : string; m_source : string;
                      m_auto : bool; m_confidence : pyfloat }.

Definition pf (repr : string) : json :=
  JFloat {| f_repr := repr; f_trunc := Some 0; f_integral := bool_decide (repr = "0.0") |}.

Section Enrich.
(** [None] while the dictionary is not loaded or has no match. *)
Context (lookup_fuzzy : string -> string -> option cpe_match).

Definition tag (source : string) (confidence : json) (c : IdentifiedComponent) : IdentifiedComponent :=
  set_meta "cpe_confidence" confidence (set_meta "enrichment_source" (JStr source) c).

(** [comp.supplier or vendor]. *)
Definition or_supplier (vendor : string) (c : IdentifiedComponent) : IdentifiedComponent :=
  set_supplier (str_or (supplier c) (Some vendor)) c.

(** Each step returns the enriched component, or [None] when it does not apply. *)
Definition step_direct (c : IdentifiedComponent) : option IdentifiedComponent :=
  match dict_get (lower (name c)) CPE_VENDOR_MAP with
  | Some (vendor, product) =>
      if truthy (version c) then
        Some (tag "exact_match" (pf "0.95")
               (or_supplier vendor (set_cpe (build_cpe vendor product (version c) (cpe_part (type_ c))) c)))
      else None
  | None => None
  end.

Definition step_local (c : IdentifiedComponent) : option IdentifiedComponent :=
  if truthy (version c) then
    let fuzzy_cpe := fuzzy_cpe_lookup (name c) (version c) (type_ c) in
    if truthy fuzzy_cpe then Some (tag "local_fuzzy" (pf "0.85") (set_cpe fuzzy_cpe c)) else None
  else None.

Definition step_nvd (c : IdentifiedComponent) : option IdentifiedComponent :=
  match version c with
  | None | Some "" => None
  | Some v =>
      match lookup_fuzzy (name c) v with
      | Some best =>
          if m_auto best then
            Some (tag (m_source best) (JFloat (m_confidence best))
                   (or_supplier (m_vendor best) (set_cpe (Some (cpe23 best)) c)))
          else None
      | None => None
      end
  end.

Definition step_kernel (kernel_version : option string) (c : IdentifiedComponent)
    : res py_error (option IdentifiedComponent) :=
  if truthy kernel_version then
    b ← is_kernel_module c;
    Ok (if b : bool then
          Some (tag "inherited" (pf "0.8") (set_meta "cpe_inherited_from" (JStr "linux-kernel")
                 (set_cpe (build_os_cpe "linux" "linux_kernel" kernel_version) c)))
        else None)
  else Ok None.

Definition step_android (c : IdentifiedComponent) : option IdentifiedComponent :=
  if is_android_component c then
    match dict_get "targetSdkVersion" (metadata c) with
    | Some sdk_version =>
        if py_truthy sdk_version then
          api_level ← py_int sdk_version;
          android_ver ← dict_get api_level ANDROID_API_TO_VERSION;
          Some (tag "android_sdk" (pf "0.9") (set_cpe (build_os_cpe "google" "android" (Some android_ver)) c))
        else None
    | None => None
    end
  else None.

(** The first step that applies. *)
Definition first_step (kernel_version : option string) (c : IdentifiedComponent)
    : res py_error (option IdentifiedComponent) :=
  match step_direct c with
  | Some c' => Ok (Some c')
  | None =>
      match step_local c with
      | Some c' => Ok (Some c')
      | None =>
          match step_nvd c with
          | Some c' => Ok (Some c')
          | None =>
              k ← step_kernel kernel_version c;
              Ok (match k with Some c' => Some c' | None => step_android c end)
          end
      end
  end.

Definition promote (c : IdentifiedComponent) : IdentifiedComponent :=
  if bool_decide (detection_confidence c = "low") &&
     json_is_str (dict_get "detection_method" (metadata c)) "generic_filename_match"
  then set_meta "generic_detection_validated" (JBool true) (set_confidence "medium" c) else c.

Definition enrich_one (kernel_version : option string) (c : IdentifiedComponent)
    : res py_error IdentifiedComponent :=
  if truthy (cpe c) then
    Ok (if dict_has "enrichment_source" (metadata c) then c else tag "scanner" (pf "0.9") c)
  else
    r ← first_step kernel_version c;
    Ok (match r with Some c' => promote c' | None => tag "none" (pf "0.0") c end).

Fixpoint enrich_all (kernel_version : option string) (l : list (key * IdentifiedComponent))
    : res py_error (list (key * IdentifiedComponent)) :=
  match l with
  | [] => Ok []
  | (k, c) :: l' =>
      c' ← enrich_one kernel_version c;
      r ← enrich_all kernel_version l';
      Ok ((k, c') :: r)
  end.

Definition enrich_cpes (s : ComponentStore) : res py_error ComponentStore :=
  l ← enrich_all (find_kernel_version s) (components s);
  Ok {| components := l; current_partition := current_partition s |}.
End Enrich.

(** ** Lemmas *)

Lemma build_cpe_truthy vendor product v part :
  truthy (build_cpe vendor product v part) = truthy v.
Proof. by destruct v as [[]|]. Qed.

Lemma build_os_cpe_truthy vendor product v : truthy (build_os_cpe vendor product v) = truthy v.
Proof. by destruct v as [[]|]. Qed.

(** The fields that enrichment reads but never writes. *)
Definition same_identity (c c' : IdentifiedComponent) : Prop :=
  name c' = name c /\ version c' = version c /\ type_ c' = type_ c /\
  detection_source c' = detection_source c /\ file_paths c' = file_paths c /\
  source_partition c' = source_partition c /\ purl c' = purl c.

#[export] Instance same_identity_preorder : PreOrder same_identity.
Proof. split; [by repeat split | unfold same_identity; intros a b c; naive_solver congruence]. Qed.

Definition has_source (c : IdentifiedComponent) : Prop := dict_has "enrichment_source" (metadata c) = true.

Lemma tag_facts source conf c :
  same_identity c (tag source conf c) /\ cpe (tag source conf c) = cpe c /\
  dict_get "enrichment_source" (metadata (tag source conf c)) = Some (JStr source) /\
  (forall k, k <> "enrichment_source" -> k <> "cpe_confidence" ->
     dict_get k (metadata (tag source conf c)) = dict_get k (metadata c)).
Proof.
  split; [done|]. split; [done|]. cbn. split.
  - rewrite dict_get_set_ne by done. apply dict_get_set_eq.
  - intros k H1 H2. by rewrite !dict_get_set_ne.
Qed.

Lemma tag_has_source source conf c : has_source (tag source conf c).
Proof.
  unfold has_source, dict_has. destruct (tag_facts source conf c) as (_ & _ & -> & _). done.
Qed.

Lemma tag_idem source conf c : tag source conf (tag source conf c) = tag source conf c.
Proof.
  unfold tag, set_meta. cbn. f_equal. rewrite (dict_set_id "enrichment_source").
  - apply dict_set_set.
  - rewrite dict_get_set_ne by done. apply dict_get_set_eq.
Qed.

Lemma promote_facts c :
  same_identity c (promote c) /\ cpe (promote c) = cpe c /\ (has_source c -> has_source (promote c)).
Proof.
  unfold promote. destruct (_ && _); [|done]. split; [done|]. split; [done|].
  unfold has_source, dict_has. cbn. by rewrite dict_get_set_ne.
Qed.

Section EnrichLemmas.
Context (lookup_fuzzy : string -> string -> option cpe_match).
Context (Hnvd : forall n v m, lookup_fuzzy n v = Some m -> cpe23 m <> "").

(** What an applied step leaves. *)
Definition enriched (c c' : IdentifiedComponent) : Prop :=
  same_identity c c' /\ truthy (cpe c') = true /\ has_source c'.

Lemma step_direct_enriched c c' : step_direct c = Some c' -> enriched c c'.
Proof.
  unfold step_direct. destruct (dict_get _ _) as [[v p]|]; [|done].
  destruct (truthy (version c)) eqn:E; [|done]. intros [= <-].
  split; [done|]. split; [|apply tag_has_source]. cbn. by rewrite build_cpe_truthy.
Qed.

Lemma step_local_enriched c c' : step_local c = Some c' -> enriched c c'.
Proof.
  unfold step_local. destruct (truthy (version c)); [|done].
  destruct (truthy (fuzzy_cpe_lookup _ _ _)) eqn:E; [|done]. intros [= <-].
  split; [done|]. split; [done | apply tag_has_source].
Qed.

Lemma step_nvd_enriched c c' : step_nvd lookup_fuzzy c = Some c' -> enriched c c'.
Proof.
  unfold step_nvd. destruct (version c) as [[|a v]|]; [done| |done].
  destruct (lookup_fuzzy _ _) as [m|] eqn:E; [|done]. apply Hnvd in E.
  destruct (m_auto m); [|done]. intros [= <-].
  split; [done|]. split; [|apply tag_has_source]. cbn. by destruct (cpe23 m).
Qed.

Lemma step_kernel_enriched kv c c' : step_kernel kv c = Ok (Some c') -> enriched c c'.
Proof.
  unfold step_kernel. destruct (truthy kv) eqn:E; [|done]. rewrite res_bind_ok.
  intros (b & _ & H). destruct b; [|done]. injection H as <-.
  split; [done|]. split; [|apply tag_has_source]. cbn. by rewrite build_os_cpe_truthy.
Qed.

Lemma step_android_enriched c c' : step_android c = Some c' -> enriched c c'.
Proof.
  unfold step_android. destruct (is_android_component c); [|done].
  destruct (dict_get "targetSdkVersion" _) as [sdk|]; [|done]. destruct (py_truthy sdk); [|done].
  destruct (py_int sdk) as [api|]; [|done]. cbn [mbind option_bind].
  destruct (dict_get api ANDROID_API_TO_VERSION) as [ver|] eqn:E; [|done]. cbn [mbind option_bind].
  intros [= <-]. split; [done|]. split; [|apply tag_has_source]. change (truthy (build_os_cpe "google" "android" (Some ver)) = true).
  rewrite build_os_cpe_truthy. cbn in E. by repeat (case_decide; [by injection E as <-|]).
Qed.

Lemma first_step_enriched kv c c' : first_step lookup_fuzzy kv c = Ok (Some c') -> enriched c c'.
Proof.
  unfold first_step. destruct (step_direct c) eqn:E1; [intros [= <-]; by apply step_direct_enriched|].
  destruct (step_local c) eqn:E2; [intros [= <-]; by apply step_local_enriched|].
  destruct (step_nvd _ c) eqn:E3; [intros [= <-]; by apply step_nvd_enriched|].
  rewrite res_bind_ok. intros (k & Hk & H). destruct k as [c1|].
  - injection H as <-. by eapply step_kernel_enriched.
  - injection H as H. by apply step_android_enriched.
Qed.

(** The bookkeeping tags do not influence which step applies. *)
Lemma first_step_tag_none kv source conf c :
  first_step lookup_fuzzy kv c = Ok None -> first_step lookup_fuzzy kv (tag source conf c) = Ok None.
Proof.
  destruct (tag_facts source conf c) as (_ & _ & _ & Hmeta).
  unfold first_step.
  assert (step_direct c = None -> step_direct (tag source conf c) = None) as Hd.
  { unfold step_direct. cbn [name version tag set_meta]. destruct (dict_get _ _) as [[]|]; [|done].
    by destruct (truthy _). }
  assert (step_local c = None -> step_local (tag source conf c) = None) as Hl.
  { unfold step_local. cbn [name version type_ tag set_meta]. destruct (truthy (version c)); [|done].
    by destruct (truthy _). }
  assert (step_nvd lookup_fuzzy c = None -> step_nvd lookup_fuzzy (tag source conf c) = None) as Hn.
  { unfold step_nvd. cbn [name version tag set_meta]. destruct (version c) as [[]|]; try done.
    destruct (lookup_fuzzy _ _) as [m|]; [|done]. by destruct (m_auto m). }
  destruct (step_direct c); [done|]. rewrite Hd by done.
  destruct (step_local c); [done|]. rewrite Hl by done.
  destruct (step_nvd _ c); [done|]. rewrite Hn by done.
  rewrite !res_bind_ok. intros (k & Hk & H). destruct k; [done|]. injection H as H.
  exists None. split.
  - unfold step_kernel in *. destruct (truthy kv); [|done].
    apply res_bind_ok in Hk as (b & Hb & Hk). apply res_bind_ok. exists b. split; [|by destruct b].
    rewrite <- Hb. unfold is_kernel_module, dict_get_or. by rewrite Hmeta.
  - f_equal. unfold step_android in *. unfold is_android_component in *.
    change (detection_source (tag source conf c)) with (detection_source c).
    rewrite !Hmeta by done. destruct (_ || _); [|done].
    destruct (dict_get "targetSdkVersion" _) as [sdk|]; [|done]. destruct (py_truthy sdk); [|done].
    destruct (py_int sdk) as [api|]; [|done]. cbn [mbind option_bind] in *.
    by destruct (dict_get api _).
Qed.

(** The outcome of one component, and that it is a fixed point. *)
Lemma enrich_one_spec kv c c' :
  enrich_one lookup_fuzzy kv c = Ok c' ->
  same_identity c c' /\ (truthy (cpe c) = true -> cpe c' = cpe c) /\ has_source c' /\
  (truthy (cpe c') = false -> dict_get "enrichment_source" (metadata c') = Some (JStr "none")) /\
  enrich_one lookup_fuzzy kv c' = Ok c'.
Proof.
  unfold enrich_one at 1. destruct (truthy (cpe c)) eqn:Ec.
  - destruct (dict_has _ _) eqn:Eh; intros [= <-].
    + split_and!; try done; [congruence|]. unfold enrich_one. by rewrite Ec, Eh.
    + destruct (tag_facts "scanner" (pf "0.9") c) as (H1 & H2 & _ & _).
      pose proof (tag_has_source "scanner" (pf "0.9") c) as Hs.
      split_and!; try done; [rewrite H2; congruence|]. unfold enrich_one. by rewrite H2, Ec, Hs.
  - rewrite res_bind_ok. intros (r & Hr & H). injection H as <-. destruct r as [c1|].
    + apply first_step_enriched in Hr as (H1 & H2 & H3).
      destruct (promote_facts c1) as (P1 & P2 & P3). specialize (P3 H3).
      split_and!; [by etransitivity | done | done | congruence |].
      unfold enrich_one. by rewrite P2, H2, P3.
    + destruct (tag_facts "none" (pf "0.0") c) as (H1 & H2 & H3 & _).
      pose proof (tag_has_source "none" (pf "0.0") c) as Hs.
      split_and!; try done. unfold enrich_one. rewrite H2, Ec.
      rewrite first_step_tag_none by done. cbn. by rewrite tag_idem.
Qed.
End EnrichLemmas.

Lemma enrich_all_spec lookup kv l l' :
  (forall n v m, lookup n v = Some m -> cpe23 m <> "") ->
  enrich_all lookup kv l = Ok l' ->
  Forall2 (fun kc kc' => kc'.1 = kc.1 /\ same_identity kc.2 kc'.2 /\
             (truthy (cpe kc.2) = true -> cpe kc'.2 = cpe kc.2) /\ has_source kc'.2 /\
             (truthy (cpe kc'.2) = false ->
              dict_get "enrichment_source" (metadata kc'.2) = Some (JStr "none"))) l l' /\
  enrich_all lookup kv l' = Ok l'.
Proof.
  intros Hnvd. revert l'. induction l as [|[k c] l IH]; intros l'; cbn [enrich_all].
  - intros [= <-]. by split.
  - rewrite res_bind_ok. intros (c' & Hc & H). apply res_bind_ok in H as (r & Hr & H).
    injection H as <-. apply enrich_one_spec in Hc as (H1 & H2 & H3 & H4 & H5); [|done].
    destruct (IH r Hr) as [IH1 IH2]. split.
    + constructor; [by split_and! | done].
    + cbn [enrich_all]. rewrite H5. cbn. rewrite IH2. done.
Qed.

Lemma find_kernel_version_same (s s' : ComponentStore) :
  Forall2 (fun kc kc' => same_identity kc.2 kc'.2) (components s) (components s') ->
  find_kernel_version s' = find_kernel_version s.
Proof.
  unfold find_kernel_version. intros H.
  induction H as [|[k c] [k' c'] l l' (Hn & Hv & _) _ IH]; cbn in *; [done|].
  rewrite Hn, Hv. destruct (_ && _); [by rewrite Hv | done].
Qed.

(** ** Canonical kernel version *)

(** [n] runs of digits separated by dots at the head of [s]; the rest follows. *)
Fixpoint span_digits (s : string) : string * string :=
  match s with
  | "" => ("", "")
  | String a s' => if is_digit a then let '(h, t) := span_digits s' in (String a h, t) else ("", s)
  end.

Fixpoint dotted (n : nat) (s : string) : option (string * string) :=
  let '(d, t) := span_digits s in
  if bool_decide (d = "") then None
  else match n with
       | O => Some (d, t)
       | S n' => match t with
                 | String a t' =>
                     if decide (a = "."%char) then
                       match dotted n' t' with
                       | Some (r, u) => Some (d +:+ "." +:+ r, u)
                       | None => None
                       end
                     else None
                 | "" => None
                 end
       end.

Definition is_alnum (a : ascii) : bool := is_digit a || is_upper a || is_lower a.

(** [re.search(r"(?:^|[^0-9a-zA-Z])(\d+\.\d+...)(?:[^0-9]|$)")]: [boundary] says that the
    current position is the start or follows a character outside [0-9a-zA-Z]. *)
Fixpoint search_dotted (n : nat) (boundary : bool) (s : string) : option string :=
  match (if boundary then fst <$> dotted n s else None) with
  | Some v => Some v
  | None => match s with
            | "" => None
            | String a s' => search_dotted n (negb (is_alnum a)) s'
            end
  end.

Definition _SEMVER_RE (s : string) : option string := search_dotted 2 true s.
Definition _TWO_PART_RE (s : string) : option string := search_dotted 1 true s.

Definition at_dollar (s : string) : bool :=
  bool_decide (s = "") || bool_decide (s = String (ascii_of_N 10) "").

Definition dotted_end (n : nat) (s : string) : bool :=
  match dotted n s with Some (_, t) => at_dollar t | None => false end.

Definition four_digits (s : string) : bool := bool_decide (String.length (span_digits s).1 = 4%nat).

(** The two patterns: [^R\d+\.\d+(\.\d+)?$] and, ignoring case,
    [^v?\d{4}\.\d+(\.\d+)?$]. *)
Definition _NON_CANONICAL (s : string) : bool :=
  (match s with
   | String "R" t => dotted_end 1 t || dotted_end 2 t
   | _ => false
   end) ||
  (let t := match s with String "v" t | String "V" t => t | _ => s end in
   four_digits t && (dotted_end 1 t || dotted_end 2 t)).

Fixpoint first_some (f : string -> option string) (l : list string) : option string :=
  match l with
  | [] => None
  | s :: l' => match f s with Some v => Some v | None => first_some f l' end
  end.

Definition canonical_kernel_version (raw : option string) (sibling_versions : list string) : option string :=
  let candidates := match raw with
                    | None | Some "" => sibling_versions
                    | Some r => r :: sibling_versions
                    end in
  match first_some (fun s => if bool_decide (s = "") then None else _SEMVER_RE s) candidates with
  | Some v => Some v
  | None =>
      first_some (fun s => if bool_decide (s = "") || _NON_CANONICAL s then None else _TWO_PART_RE s) candidates
  end.

Example canonical_ex :
  canonical_kernel_version (Some "4.9.140-tegra-32.3.1") [] = Some "4.9.140" /\
  canonical_kernel_version (Some "R32.3.1") ["nvidia 4.9.140-tegra"] = Some "4.9.140" /\
  canonical_kernel_version (Some "5.4") [] = Some "5.4" /\
  canonical_kernel_version (Some "v2024.1") [] = None.
Proof. by vm_compute. Qed.

(** ** What the kernel-version patterns find *)

Definition starts_digit (s : string) : bool :=
  match s with String a _ => is_digit a | "" => false end.

(** [S n] non-empty runs of digits joined by dots. *)
Inductive dotted_num : nat -> string -> Prop :=
| dotted_one d : d <> "" -> all_digits d = true -> dotted_num 0 d
| dotted_more n d r : d <> "" -> all_digits d = true -> dotted_num n r -> dotted_num (S n) (d +:+ "." +:+ r).

(** Whether the text before an occurrence leaves a boundary. *)
Fixpoint boundary (b : bool) (pre : string) : bool :=
  match pre with "" => b | String a p => boundary (negb (is_alnum a)) p end.

(** [v] is a maximal run of [S n] dotted numbers of [s] behind a boundary. *)
Definition occurs_in (n : nat) (b : bool) (v s : string) : Prop :=
  exists pre post, s = pre +:+ v +:+ post /\ dotted_num n v /\
    boundary b pre = true /\ starts_digit post = false.

Lemma span_digits_spec s d t :
  span_digits s = (d, t) <-> s = d +:+ t /\ all_digits d = true /\ starts_digit t = false.
Proof.
  revert d t. induction s as [|a s IH]; intros d t; cbn [span_digits].
  - split; [intros [= <- <-]; done|]. intros (H & _ & _). symmetry in H.
    by apply append_eq_nil in H as [-> ->].
  - destruct (is_digit a) eqn:Ea.
    + destruct (span_digits s) as [h u] eqn:Es. pose proof (proj1 (IH h u) eq_refl) as (E1 & E2 & E3). split.
      * intros [= <- <-]. rewrite append_cons, E1. split_and!; [done | cbn; by rewrite Ea | done].
      * intros (H & Hd & Ht). destruct d as [|a' d].
        { rewrite append_nil_l in H. subst t. cbn in Ht. congruence. }
        rewrite append_cons in H. injection H as <- H. cbn in Hd. rewrite Ea in Hd.
        assert ((h, u) = (d, t)) as [= <- <-]; [|done]. by apply IH.
    + split.
      * intros [= <- <-]. split_and!; [by rewrite append_nil_l | done | done].
      * intros (H & Hd & Ht). destruct d as [|a' d]; [by rewrite append_nil_l in H; subst|].
        rewrite append_cons in H. injection H as <- H. cbn in Hd. by rewrite Ea in Hd.
Qed.

Lemma dotted_spec n s v t :
  dotted n s = Some (v, t) <-> s = v +:+ t /\ dotted_num n v /\ starts_digit t = false.
Proof.
  revert s v t. induction n as [|n IH]; intros s v t; cbn [dotted];
    destruct (span_digits s) as [d u] eqn:Es; pose proof (proj1 (span_digits_spec _ _ _) Es) as (E1 & E2 & E3).
  - split.
    + case_bool_decide; [done|]. intros [= <- <-]. split_and!; [done | by constructor | done].
    + intros (H & Hn & Ht). inversion Hn as [d' Hd1 Hd2 |]; subst d'.
      assert (span_digits s = (v, t)) as Hs by by apply span_digits_spec.
      rewrite Es in Hs. injection Hs as <- <-. by rewrite bool_decide_eq_false_2.
  - split.
    + case_bool_decide; [done|]. destruct u as [|a u]; [done|]. destruct (decide _) as [->|]; [|done].
      destruct (dotted n u) as [[r w]|] eqn:Ed; [|done]. intros [= <- <-].
      apply IH in Ed as (F1 & F2 & F3). split_and!; [|by constructor | done].
      rewrite E1, F1, !append_assoc, !append_cons, append_nil_l. done.
    + intros (H & Hn & Ht). inversion Hn as [|? d' r Hd1 Hd2 Hr]; subst n0 v.
      rewrite !append_assoc, append_cons, append_nil_l in H.
      assert (span_digits s = (d', String "." (r +:+ t))) as Hs by by apply span_digits_spec.
      rewrite Es in Hs. injection Hs as -> ->. rewrite bool_decide_eq_false_2 by done.
      destruct (decide _) as [_|]; [|done].
      assert (dotted n (r +:+ t) = Some (r, t)) as -> by by apply IH. done.
Qed.

Lemma search_dotted_Some n b s v : search_dotted n b s = Some v -> occurs_in n b v s.
Proof.
  revert b. induction s as [|a s IH]; intros b; cbn [search_dotted].
  all: destruct (if b then _ else _) as [w|] eqn:E.
  all: try (destruct b; [|done]; destruct (dotted _ _) as [[w' t]|] eqn:Ed; [|done];
            cbn in E; injection E as ->; intros [= ->]; apply dotted_spec in Ed as (H1 & H2 & H3);
            exists "", t; by rewrite append_nil_l).
  1: done.
  intros (pre & post & -> & H1 & H2 & H3)%IH. exists (String a pre), post. by rewrite append_cons.
Qed.

Lemma search_dotted_None n b s v : search_dotted n b s = None -> ~ occurs_in n b v s.
Proof.
  intros H (pre & post & Hs & Hv & Hb & Hp). revert b s Hs H Hb.
  induction pre as [|a pre IH]; intros b s -> H Hb.
  - rewrite append_nil_l in H. cbn in Hb. subst b.
    assert (dotted n (v +:+ post) = Some (v, post)) as Hd by by apply dotted_spec.
    destruct (v +:+ post) as [|a s]; cbn [search_dotted] in H; by rewrite Hd in H.
  - rewrite append_cons in H. cbn [search_dotted] in H. destruct (if b then _ else _); [done|].
    by apply (IH _ _ eq_refl H).
Qed.

Lemma dotted_num_nonempty n v : dotted_num n v -> v <> "".
Proof. destruct 1; [done|]. by intros [-> _]%append_eq_nil. Qed.

Lemma search_dotted_nil n b v : ~ occurs_in n b v "".
Proof.
  intros (pre & post & H & Hv & _). symmetry in H. apply append_eq_nil in H as [_ H].
  apply append_eq_nil in H as [-> _]. by apply dotted_num_nonempty in Hv.
Qed.

Lemma first_some_spec f l :
  match first_some f l with
  | Some v => exists l1 s l2, l = (l1 ++ s :: l2)%list /\ f s = Some v /\ Forall (fun x => f x = None) l1
  | None => Forall (fun x => f x = None) l
  end.
Proof.
  induction l as [|s l IH]; cbn; [done|]. destruct (f s) eqn:E.
  - by exists [], s, l.
  - destruct (first_some f l).
    + destruct IH as (l1 & s' & l2 & -> & H1 & H2). exists (s :: l1), s', l2. split_and!; [done..|]. by constructor.
    + by constructor.
Qed.

(** Finding a pattern among the non-empty admissible candidates. *)
Definition first_occurrence (n : nat) (ok : string -> bool) (cs : list string) (v : string) : Prop :=
  exists l1 s l2, cs = (l1 ++ s :: l2)%list /\ ok s = true /\ occurs_in n true v s /\
    Forall (fun x => ok x = true -> forall w, ~ occurs_in n true w x) l1.

Lemma first_search_spec n skip cs :
  match first_some (fun s => if bool_decide (s = "") || skip s then None else search_dotted n true s) cs with
  | Some v => first_occurrence n (fun s => negb (skip s)) cs v
  | None => Forall (fun x => negb (skip x) = true -> forall w, ~ occurs_in n true w x) cs
  end.
Proof.
  set (f := fun s => _).
  assert (forall x, f x = None -> negb (skip x) = true -> forall w, ~ occurs_in n true w x) as Hf.
  { intros x. unfold f. case_bool_decide as Hx; cbn; [subst; intros _ _ w; apply search_dotted_nil|].
    destruct (skip x); [done|]. intros H _ w. by apply search_dotted_None. }
  pose proof (first_some_spec f cs) as H. destruct (first_some f cs) as [v|].
  - destruct H as (l1 & s & l2 & -> & H1 & H2). exists l1, s, l2. split; [done|].
    unfold f in H1. destruct (bool_decide (s = "")); [done|]. cbn in H1. destruct (skip s); [done|].
    split; [done|]. split; [by apply search_dotted_Some|].
    eapply Forall_impl; [done|]. intros x Hx. by apply Hf.
  - eapply Forall_impl; [done|]. intros x Hx. by apply Hf.
Qed.

Definition candidates_of (raw : option string) (sibling_versions : list string) : list string :=
  match raw with Some r => if bool_decide (r = "") then sibling_versions else r :: sibling_versions
               | None => sibling_versions end.

Lemma canonical_unfold raw sibs :
  canonical_kernel_version raw sibs =
  match first_some (fun s => if bool_decide (s = "") || (fun _ => false) s then None else _SEMVER_RE s)
          (candidates_of raw sibs) with
  | Some v => Some v
  | None => first_some (fun s => if bool_decide (s = "") || _NON_CANONICAL s then None else _TWO_PART_RE s)
              (candidates_of raw sibs)
  end.
Proof.
  unfold canonical_kernel_version, candidates_of.
  assert (forall l, first_some (fun s => if bool_decide (s = "") || (fun _ => false) s then None else _SEMVER_RE s) l =
    first_some (fun s => if bool_decide (s = "") then None else _SEMVER_RE s) l) as E.
  { induction l as [|x l IH]; cbn; [done|]. by rewrite orb_false_r, IH. }
  rewrite E. destruct raw as [[|a r]|]; done.
Qed.

(** *** Release tags *)

Definition digits (d : string) : Prop := d <> "" /\ all_digits d = true.

Lemma span_digits_app d t : all_digits d = true -> starts_digit t = false -> span_digits (d +:+ t) = (d, t).
Proof. intros. by apply span_digits_spec. Qed.

Lemma search_after_digits n b d t :
  digits d -> (b = true -> dotted n (d +:+ t) = None) ->
  search_dotted n b (d +:+ t) = search_dotted n false t.
Proof.
  intros [Hd1 Hd2]. destruct d as [|a d]; [done|]. clear Hd1. cbn in Hd2. apply andb_true_iff in Hd2 as [Ha Hd].
  rewrite append_cons. intros Hb. cbn [search_dotted].
  assert ((if b then fst <$> dotted n (String a (d +:+ t)) else None) = None) as ->.
  { destruct b; [|done]. by rewrite Hb. }
  assert (is_alnum a = true) as -> by (unfold is_alnum; by rewrite Ha). cbn [negb]. clear Ha Hb a.
  induction d as [|a d IH]; [done|]. cbn in Hd. apply andb_true_iff in Hd as [Ha Hd].
  rewrite append_cons. cbn [search_dotted]. unfold is_alnum. rewrite Ha. by apply IH.
Qed.

Lemma dotted_short n d : digits d -> dotted (S n) d = None.
Proof.
  intros [H1 H2]. cbn [dotted]. rewrite <- (append_nil_r d), span_digits_app by done.
  by case_bool_decide.
Qed.

Lemma dotted_next n d t :
  digits d -> dotted (S n) (d +:+ "." +:+ t) =
              match dotted n t with Some (r, u) => Some (d +:+ "." +:+ r, u) | None => None end.
Proof.
  intros [H1 H2]. change ("." +:+ t) with (String "." t). cbn [dotted].
  rewrite span_digits_app by done. by rewrite bool_decide_eq_false_2.
Qed.

(** At a dot the search restarts behind a boundary. *)
Lemma search_dot n t : search_dotted n false ("." +:+ t) = search_dotted n true t.
Proof. done. Qed.

Lemma search_short n b d : digits d -> search_dotted (S n) b d = None.
Proof.
  intros Hd. rewrite <- (append_nil_r d), search_after_digits by (rewrite ?append_nil_r; auto using dotted_short).
  done.
Qed.

Lemma dotted_one_eq d : digits d -> dotted 0 d = Some (d, "").
Proof.
  intros [H1 H2]. cbn [dotted]. rewrite <- (append_nil_r d) at 1. rewrite span_digits_app by done.
  by rewrite bool_decide_eq_false_2.
Qed.

Lemma dotted_end_two a b : digits a -> digits b -> dotted_end 1 (a +:+ "." +:+ b) = true.
Proof. intros Ha Hb. unfold dotted_end. by rewrite dotted_next, dotted_one_eq. Qed.

Lemma dotted_end_three a b c :
  digits a -> digits b -> digits c -> dotted_end 2 (a +:+ "." +:+ b +:+ "." +:+ c) = true.
Proof. intros Ha Hb Hc. unfold dotted_end. by rewrite !dotted_next, dotted_one_eq. Qed.

Lemma tag_noncanonical t : dotted_end 1 t || dotted_end 2 t = true -> _NON_CANONICAL ("R" +:+ t) = true.
Proof. intros H. unfold _NON_CANONICAL. change ("R" +:+ t) with (String "R" t). cbn [orb]. by rewrite H. Qed.

Lemma tag_no_semver t : search_dotted 2 false t = None -> _SEMVER_RE ("R" +:+ t) = None.
Proof. done. Qed.

(** What canonical_kernel_version answers, for every raw version and every
    list of sibling versions: the first x.y.z number group that stands behind a
    non-alphanumeric character and is not followed by a digit, in the first
    candidate that has one; only when no candidate has one, the first x.y group of
    the first candidate that is not a recognised release tag; and None exactly
    when neither exists. *)
Theorem canonical_kernel_version_spec raw sibling_versions :
  let cs := candidates_of raw sibling_versions in
  match canonical_kernel_version raw sibling_versions with
  | Some v =>
      first_occurrence 2 (fun _ => true) cs v \/
      (Forall (fun x => forall w, ~ occurs_in 2 true w x) cs /\
       first_occurrence 1 (fun x => negb (_NON_CANONICAL x)) cs v)
  | None =>
      Forall (fun x => (forall w, ~ occurs_in 2 true w x) /\
                       (_NON_CANONICAL x = false -> forall w, ~ occurs_in 1 true w x)) cs
  end.
Proof.
  intros cs. rewrite canonical_unfold. fold cs. unfold _SEMVER_RE, _TWO_PART_RE.
  pose proof (first_search_spec 2 (fun _ => false) cs) as H3.
  pose proof (first_search_spec 1 _NON_CANONICAL cs) as H2. cbn beta in H3, H2 |- *.
  destruct (first_some _ cs) as [v|]; [by left|].
  destruct (first_some _ cs) as [v|].
  - right. split; [|done]. eapply Forall_impl; [exact H3|]. intros x Hx. by apply Hx.
  - rewrite Forall_forall in H3, H2. apply Forall_forall. intros x Hx.
    specialize (H3 x Hx). specialize (H2 x Hx). cbn in H3, H2. rename H3 into Hx1, H2 into Hx2.
    split; [by apply Hx1|]. intros E. apply Hx2. by rewrite E.
Qed.

(** Release tags. An L4T tag R<a>.<b> or R<a>.<b>.<c> standing alone gives no
    kernel version, whatever its numbers. Two tags are passed through all the same:
    a dated tag with a patch level, which the list of non-canonical patterns
    names but the x.y.z pass does not consult, and the long form of an L4T tag. *)
Theorem release_tags_dropped a b c :
  digits a -> digits b -> digits c ->
  canonical_kernel_version (Some ("R" +:+ a +:+ "." +:+ b)) [] = None /\
  canonical_kernel_version (Some ("R" +:+ a +:+ "." +:+ b +:+ "." +:+ c)) [] = None /\
  (_NON_CANONICAL "2024.1.1" = true /\ canonical_kernel_version (Some "2024.1.1") [] = Some "2024.1.1") /\
  canonical_kernel_version (Some "R32 (release), REVISION: 3.1") [] = Some "3.1".
Proof.
  intros Ha Hb Hc.
  assert (forall t, search_dotted 2 false t = None -> dotted_end 1 t || dotted_end 2 t = true ->
            canonical_kernel_version (Some ("R" +:+ t)) [] = None) as Hnone.
  { intros t H1 H2. rewrite canonical_unfold. unfold candidates_of. cbn [first_some orb].
    rewrite bool_decide_eq_false_2 by done. cbn [first_some orb].
    rewrite bool_decide_eq_false_2 by done. cbn [orb].
    by rewrite tag_no_semver, tag_noncanonical. }
  split; [|split; [|by vm_compute]]; apply Hnone.
  - rewrite search_after_digits, search_dot by done. by apply search_short.
  - by rewrite dotted_end_two.
  - rewrite search_after_digits, search_dot by done.
    rewrite search_after_digits; [rewrite search_dot; by apply search_short | done |].
    intros _. by rewrite dotted_next, dotted_short.
  - by rewrite dotted_end_three, orb_true_r.
Qed.

Lemma release_tags_dropped_witness :
  digits "32" /\ digits "3" /\ digits "1" /\ canonical_kernel_version (Some "R32.3.1") [] = None.
Proof.
  assert (digits "32" /\ digits "3" /\ digits "1") as (H1 & H2 & H3) by (repeat split; try done).
  split; [exact H1|]. split; [exact H2|]. split; [exact H3|].
  refine (proj1 (proj2 (release_tags_dropped "32" "3" "1" H1 H2 H3))).
Defined.

(** Enrichment converges in one pass and keeps what it may not change. When the
    CPE dictionary never answers with an empty CPE: the keys, their order and the
    identity of every component (name, version, type, detection source, paths,
    partition, purl) are kept, an existing CPE is never overwritten, every
    component says where its CPE came from, one without a CPE says none, and a
    second run over the result changes nothing. *)
Theorem enrich_cpes_idempotent lookup_fuzzy s s' :
  (forall n v m, lookup_fuzzy n v = Some m -> cpe23 m <> "") ->
  enrich_cpes lookup_fuzzy s = Ok s' ->
  Forall2 (fun kc kc' => kc'.1 = kc.1 /\ same_identity kc.2 kc'.2 /\
             (truthy (cpe kc.2) = true -> cpe kc'.2 = cpe kc.2) /\ has_source kc'.2 /\
             (truthy (cpe kc'.2) = false ->
              dict_get "enrichment_source" (metadata kc'.2) = Some (JStr "none")))
    (components s) (components s') /\
  current_partition s' = current_partition s /\
  enrich_cpes lookup_fuzzy s' = Ok s'.
Proof.
  intros Hnvd H. apply res_bind_ok in H as (l & Hl & H). injection H as <-.
  destruct (enrich_all_spec _ _ _ _ Hnvd Hl) as [HF Hidem]. split; [exact HF|]. split; [done|].
  unfold enrich_cpes. rewrite (find_kernel_version_same s).
  - cbn [components current_partition]. rewrite Hidem. done.
  - eapply Forall2_impl; [exact HF|]. by intros ?? (_ & ? & _).
Qed.

Definition component (n : string) (v : option string) (t : string) : IdentifiedComponent :=
  {| name := n; version := v; type_ := t; cpe := None; purl := None; supplier := None;
     detection_source := "opkg"; detection_confidence := "low"; file_paths := [];
     metadata := [("detection_method", JStr "generic_filename_match")]; source_partition := None |}.

Definition sample_store : ComponentStore :=
  {| components := [(("busybox", Some "1.30"), component "busybox" (Some "1.30") "application");
                    (("linux-kernel", Some "4.9"), component "linux-kernel" (Some "4.9") "operating-system");
                    (("8188eu", None), component "8188eu" None "kernel-module");
                    (("unknown", None), component "unknown" None "application")];
     current_partition := None |}.

Definition sample_lookup (n _ : string) : option cpe_match :=
  if decide (n = "linux-kernel") then
    Some {| cpe23 := "cpe:2.3:o:linux:linux_kernel:4.9:*:*:*:*:*:*:*"; m_vendor := "linux";
            m_source := "nvd_exact"; m_auto := true;
            m_confidence := {| f_repr := "0.95"; f_trunc := Some 0; f_integral := false |} |}
  else None.

Definition enriched_sample : ComponentStore :=
  match enrich_cpes sample_lookup sample_store with Ok s => s | Err _ => sample_store end.

Lemma enrich_cpes_idempotent_witness :
  (fun kc => cpe kc.2) <$> components enriched_sample =
    [Some "cpe:2.3:a:busybox:busybox:1.30:*:*:*:*:*:*:*"; Some "cpe:2.3:o:linux:linux_kernel:4.9:*:*:*:*:*:*:*";
     Some "cpe:2.3:o:linux:linux_kernel:4.9:*:*:*:*:*:*:*"; None] /\
  enrich_cpes sample_lookup enriched_sample = Ok enriched_sample.
Proof.
  split; [by vm_compute|].
  refine (proj2 (proj2 (enrich_cpes_idempotent sample_lookup sample_store enriched_sample _ _))).
  - intros n v m. unfold sample_lookup. destruct (decide _); [|done]. by intros [= <-].
  - by vm_compute.
Defined.
