(* ===== verification/Output.v ===== *)
(** * What leaves the server ([utils/truncation.py], [utils/untrusted.py],
    [utils/log_sanitize.py])

    The size limit of tool replies, the fence around firmware-derived text and
    the sanitizer of log values.  A text is its UTF-8 encoding. *)

From S2P Require Import Prelude PyText.
From Stdlib Require Import Ascii String.
Import (notations) Ascii String.
#[local] Open Scope Z_scope.

(** ** Truncation *)

Definition newline : byte := Byte.x0a.
Definition nl : string := String (ascii_of_N 10) "".

(** [b.rfind(b"\n")]. *)
Fixpoint rfind_nl (b : bytes) : Z :=
  match b with
  | [] => -1
  | x :: b' =>
      let r := rfind_nl b' in
      if 0 <=? r then r + 1 else if bool_decide (x = newline) then 0 else -1
  end.

(** [b[:n]], with a negative [n] counting from the end. *)
Definition slice_to (n : Z) (b : bytes) : bytes := ztake (if n <? 0 then zlen b + n else n) b.

(** Continuation bytes that follow a lead byte. *)
Definition tail_len (x : byte) : nat :=
  let n := byteZ x in
  if n <? 192 then 0 else if n <? 224 then 1 else if n <? 240 then 2 else 3.

Definition replacement : bytes := [Byte.xef; Byte.xbf; Byte.xbd].

(** [b.decode("utf-8", errors="replace")] for a prefix [b] of an encoded text: the
    character cut at the end becomes one U+FFFD.  [k] continuation bytes of the
    current character are still to come. *)
Fixpoint decode_replace (k : nat) (b : bytes) : bytes :=
  match b with
  | [] => []
  | x :: r =>
      match k with
      | S k' => x :: decode_replace k' r
      | O => if decide (List.length r < tail_len x)%nat then replacement
             else x :: decode_replace (tail_len x) r
      end
  end.

(** [f"{n / 1024:.0f}"]: the division is exact, ties go to the even integer. *)
Definition kb_round (n : Z) : Z :=
  let q := n / 1024 in
  let r := n mod 1024 in
  if (r <? 512) || ((r =? 512) && Z.even q) then q else q + 1.

Definition truncation_note (shown total : Z) : string :=
  nl +:+ nl +:+ "... [truncated: showing ~" +:+ str_int (kb_round shown) +:+ "KB of " +:+
  str_int (kb_round total) +:+ "KB]".

Definition truncate_output (max_tool_output_kb : Z) (text : string) (max_kb : option Z) : string :=
  let max_bytes := default max_tool_output_kb max_kb * 1024 in
  let encoded := encode text in
  if zlen encoded <=? max_bytes then text
  else
    let truncated := slice_to max_bytes encoded in
    let last_newline := rfind_nl truncated in
    let truncated := if last_newline >? 0 then slice_to last_newline truncated else truncated in
    decode_bytes (decode_replace 0 truncated) +:+ truncation_note (zlen truncated) (zlen encoded).

(** ** The fence *)

Definition open_fence (token : string) : string := "<untrusted_firmware_data id=" +:+ token +:+ ">".
Definition close_fence (token : string) : string := "</untrusted_firmware_data id=" +:+ token +:+ ">".

Definition UNTRUSTED_OUTPUT_TOOLS : list string :=
  ["extract_strings"; "search_strings"; "find_crypto_material"; "find_hardcoded_credentials";
   "find_hardcoded_ips"; "list_directory"; "read_file"; "file_info"; "search_files";
   "find_files_by_type"; "get_component_map"; "get_firmware_metadata"; "extract_bootloader_env";
   "list_functions"; "disassemble_function"; "decompile_function"; "list_imports"; "list_exports";
   "xrefs_to"; "xrefs_from"; "get_binary_info"; "analyze_binary_format"; "check_binary_protections";
   "find_string_refs"; "resolve_import"; "check_all_binary_protections"; "trace_dataflow";
   "find_callers"; "search_binary_content"; "get_stack_layout"; "get_global_layout";
   "cross_binary_dataflow"; "detect_capabilities"; "list_binary_capabilities"; "analyze_raw_binary";
   "detect_rtos"; "analyze_apk"; "list_apk_permissions"; "check_apk_signatures"; "scan_apk_manifest";
   "scan_apk_bytecode"; "scan_apk_sast"; "analyze_network_traffic"; "get_protocol_breakdown";
   "identify_insecure_protocols"; "get_dns_queries"; "get_network_conversations";
   "list_firmware_volumes"; "list_uefi_modules"; "extract_nvram_variables"; "identify_uefi_module";
   "read_uefi_module"; "lookup_similar_blobs_across_firmwares"; "list_hardware_firmware";
   "analyze_hardware_firmware"; "list_firmware_drivers"; "find_unsigned_firmware";
   "export_hardware_firmware_hbom"; "extract_dtb"; "list_firmware_versions"; "diff_firmware";
   "diff_binary"; "diff_decompilation"; "uart_read"; "uart_get_transcript"; "uart_send_command";
   "uart_send_raw"; "analyze_config_security"; "check_setuid_binaries"; "analyze_init_scripts";
   "check_filesystem_permissions"; "analyze_certificate"; "scan_with_yara"; "extract_kernel_config";
   "analyze_selinux_policy"; "scan_scripts"; "shellcheck_scan"; "bandit_scan"; "generate_sbom";
   "get_sbom_components"; "export_sbom"].

(** [token] is the fresh [secrets.token_hex(8)]. *)
Definition fence_untrusted (token text : string) : string :=
  open_fence token +:+ nl +:+ text +:+ nl +:+ close_fence token.

(** ** Log values *)

(** [[\x00-\x08\x0b\x0c\x0e-\x1f\x7f]]. *)
Definition _CONTROL_RE (a : ascii) : bool :=
  let n := Z.of_N (N_of_ascii a) in
  (n <=? 8) || (n =? 11) || (n =? 12) || ((14 <=? n) && (n <=? 31)) || (n =? 127).

Fixpoint sub_controls (s : string) : string :=
  match s with
  | "" => ""
  | String a s' =>
      (if _CONTROL_RE a then "\x" +:+ hex_pad 2 (Z.of_N (N_of_ascii a)) else String a "") +:+ sub_controls s'
  end.

(** [text] is [str(value)]. *)
Definition sanitize_for_log (text : string) (max_len : Z) : string :=
  let text := replace_char (ascii_of_N 10) "\n" (replace_char (ascii_of_N 13) "\r" text) in
  let text := sub_controls text in
  if py_len text >? max_len then take_chars (Z.to_nat max_len) text +:+ "..." else text.

Example sanitize_ex :
  sanitize_for_log ("a" +:+ nl +:+ "b" +:+ String (ascii_of_N 27) "[0m") 500 = "a\nb\x1b[0m" /\
  sanitize_for_log "abcdef" 3 = "abc...".
Proof. by vm_compute. Qed.

(** ** Lemmas: truncation *)

Lemma decode_bytes_app (a b : bytes) : decode_bytes (a ++ b)%list = decode_bytes a +:+ decode_bytes b.
Proof. induction a as [|x a IH]; [done|]. cbn. rewrite append_cons. by f_equal. Qed.

Lemma rfind_nl_range b : -1 <= rfind_nl b < zlen b \/ (b = [] /\ rfind_nl b = -1).
Proof.
  induction b as [|x b IH]; [by right|]. left. cbn [rfind_nl]. rewrite zlen_cons.
  pose proof (zlen_nonneg b). destruct (0 <=? rfind_nl b) eqn:E; [apply Z.leb_le in E|].
  - destruct IH as [|[-> H0]]; [lia|]. cbn in E. lia.
  - case_bool_decide; lia.
Qed.

Lemma rfind_nl_none b : rfind_nl b < 0 -> newline ∉ b.
Proof.
  induction b as [|x b IH]; cbn [rfind_nl]; [intros _; apply not_elem_of_nil|].
  destruct (0 <=? rfind_nl b) eqn:E; [apply Z.leb_le in E; lia|]. apply Z.leb_gt in E.
  case_bool_decide as Hx; [lia|]. intros _. apply not_elem_of_cons. auto.
Qed.

(** A newline found splits the bytes at the last one. *)
Lemma rfind_nl_some b :
  0 <= rfind_nl b ->
  exists l t, b = (l ++ newline :: t)%list /\ zlen l = rfind_nl b /\ newline ∉ t.
Proof.
  induction b as [|x b IH]; cbn [rfind_nl]; [lia|].
  destruct (0 <=? rfind_nl b) eqn:E.
  - apply Z.leb_le in E. destruct (IH E) as (l & t & -> & Hl & Ht). intros _.
    exists (x :: l), t. rewrite zlen_cons. split_and!; [done | lia | done].
  - apply Z.leb_gt in E. case_bool_decide as Hx; [|lia]. subst x. intros _.
    exists [], b. split_and!; [done.. | by apply rfind_nl_none].
Qed.

(** Well-formed UTF-8, as far as lead and continuation bytes go: [k] continuation
    bytes of the current character are still to come. *)
Definition is_tail (x : byte) : bool := (128 <=? byteZ x) && (byteZ x <? 192).

Fixpoint utf8 (k : nat) (b : bytes) : bool :=
  match b with
  | [] => bool_decide (k = 0%nat)
  | x :: r =>
      match k with
      | S k' => is_tail x && utf8 k' r
      | O => negb (is_tail x) && utf8 (tail_len x) r
      end
  end.

Lemma utf8_length k b : utf8 k b = true -> (k <= List.length b)%nat.
Proof.
  revert k. induction b as [|x b IH]; intros k H; cbn in *.
  - apply bool_decide_eq_true in H. lia.
  - destruct k as [|k]; [lia|]. apply andb_true_iff in H as [_ H]. specialize (IH _ H). lia.
Qed.

(** What precedes a newline is whole characters. *)
Lemma utf8_before_newline k l t : utf8 k (l ++ newline :: t)%list = true -> utf8 k l = true.
Proof.
  revert k. induction l as [|x l IH]; intros k H; cbn in *.
  - by destruct k.
  - destruct k as [|k]; apply andb_true_iff in H as [H1 H2]; rewrite H1; cbn; by apply IH.
Qed.

Lemma decode_whole k b : utf8 k b = true -> decode_replace k b = b.
Proof.
  revert k. induction b as [|x b IH]; intros k H; cbn in *; [done|].
  destruct k as [|k]; apply andb_true_iff in H as [_ H].
  - rewrite decide_False; [by rewrite IH|]. apply utf8_length in H. lia.
  - by rewrite IH.
Qed.

Lemma decode_replace_length k b : zlen (decode_replace k b) <= zlen b + 2.
Proof.
  revert k. induction b as [|x b IH]; intros k; cbn [decode_replace]; [rewrite zlen_nil; lia|].
  destruct k as [|k]; [|rewrite !zlen_cons; specialize (IH k); lia].
  case_decide; rewrite ?zlen_cons; [|specialize (IH (tail_len x)); lia].
  pose proof (zlen_nonneg b). change (zlen replacement) with 3. lia.
Qed.

Lemma slice_to_app (l t : bytes) : slice_to (zlen l) (l ++ t)%list = l.
Proof.
  unfold slice_to. pose proof (zlen_nonneg l). rewrite (proj2 (Z.ltb_ge _ _)) by done.
  rewrite ztake_eq. unfold zlen. rewrite Nat2Z.id. apply take_app_length.
Qed.

Lemma slice_to_prefix n b : 0 <= n <= zlen b -> exists t, b = (slice_to n b ++ t)%list /\ zlen (slice_to n b) = n.
Proof.
  intros H. unfold slice_to. rewrite (proj2 (Z.ltb_ge _ _)) by lia. exists (drop (Z.to_nat n) b).
  rewrite ztake_eq, take_drop. split; [done|]. unfold zlen in *. rewrite length_take. lia.
Qed.

(** ** Lemmas: the fence *)

Lemma app_eq_split (a b c d : string) :
  a +:+ b = c +:+ d -> (exists m, c = a +:+ m /\ b = m +:+ d) \/ (exists m, a = c +:+ m /\ d = m +:+ b).
Proof.
  revert c. induction a as [|x a IH]; intros c H.
  - left. by exists c.
  - destruct c as [|y c]; [right; by exists (String x a)|].
    rewrite !append_cons in H. injection H as -> H.
    destruct (IH c H) as [(m & -> & ->)|(m & -> & ->)]; [left | right]; by exists m.
Qed.

Lemma has_char_app c s t : has_char c (s +:+ t) = has_char c s || has_char c t.
Proof. induction s as [|a s IH]; [done|]. rewrite append_cons. cbn. by rewrite IH, orb_assoc. Qed.

Lemma contains_app_l n s t : contains n s = true -> contains n (s +:+ t) = true.
Proof.
  rewrite !contains_spec. intros (l & r & ->). exists l, (r +:+ t). by rewrite !append_assoc.
Qed.

Lemma contains_app_r n s t : contains n t = true -> contains n (s +:+ t) = true.
Proof. rewrite !contains_spec. intros (l & r & ->). exists (s +:+ l), r. by rewrite append_assoc. Qed.

(** An occurrence of a needle without [c] lies on one side of a [c]. *)
Lemma occ_split n l r s t c :
  has_char c n = false -> s +:+ String c t = l +:+ n +:+ r ->
  (exists r', s = l +:+ n +:+ r' /\ r = r' +:+ String c t) \/
  (exists l', t = l' +:+ n +:+ r /\ l = s +:+ String c l').
Proof.
  intros Hn H. destruct (app_eq_split _ _ _ _ H) as [(m & -> & H2)|(m & -> & H2)].
  - destruct m as [|x m].
    + rewrite append_nil_l in H2. destruct n as [|y n].
      * left. exists "". by rewrite !append_nil_r, !append_nil_l.
      * rewrite append_cons in H2. injection H2 as -> _. cbn in Hn. by rewrite bool_decide_eq_true_2 in Hn.
    + rewrite append_cons in H2. injection H2 as -> ->. right. by exists m.
  - destruct (app_eq_split _ _ _ _ H2) as [(m' & -> & H4)|(m' & -> & H4)].
    + left. by exists m'.
    + destruct m' as [|x m'].
      * left. exists "". rewrite append_nil_l in H4. by rewrite append_nil_r, append_nil_r.
      * rewrite append_cons in H4. injection H4 as <- _.
        rewrite has_char_app in Hn. cbn in Hn. rewrite bool_decide_eq_true_2 in Hn by done.
        by rewrite orb_true_r in Hn.
Qed.

Lemma close_no_newline token : has_char (ascii_of_N 10) token = false ->
  has_char (ascii_of_N 10) (close_fence token) = false.
Proof. intros H. unfold close_fence. by rewrite !has_char_app, H. Qed.

Lemma close_in_text token l r text : text = l +:+ close_fence token +:+ r -> contains token text = true.
Proof.
  intros ->. apply contains_spec. exists (l +:+ "</untrusted_firmware_data id="), (">" +:+ r).
  unfold close_fence. by rewrite !append_assoc.
Qed.

(** The closing delimiter occurs once in a fenced text, at its end. *)
Lemma fence_close_unique token text pre post :
  has_char (ascii_of_N 10) token = false -> contains token text = false ->
  fence_untrusted token text = pre +:+ close_fence token +:+ post ->
  pre = open_fence token +:+ nl +:+ text +:+ nl /\ post = "".
Proof.
  intros Ht Htext H. apply close_no_newline in Ht. unfold fence_untrusted in H.
  assert ((open_fence token +:+ nl +:+ text) +:+ String (ascii_of_N 10) (close_fence token) =
          pre +:+ close_fence token +:+ post) as H1 by (rewrite <- H, !append_assoc; done).
  destruct (occ_split _ _ _ _ _ _ Ht H1) as [(r' & H2 & _)|(l' & H2 & ->)].
  - exfalso. change (nl +:+ text) with (String (ascii_of_N 10) text) in H2.
    destruct (occ_split _ _ _ _ _ _ Ht H2) as [(r'' & H3 & _)|(l' & H3 & _)].
    + apply (f_equal String.length) in H3. unfold open_fence, close_fence in H3.
      rewrite !length_append in H3. cbn in H3. lia.
    + apply close_in_text in H3. congruence.
  - assert (l' = "" /\ post = "") as [-> ->].
    { apply (f_equal String.length) in H2. rewrite !length_append in H2.
      destruct l'; [|cbn in H2; lia]. destruct post; [done | cbn in H2; lia]. }
    by rewrite !append_assoc.
Qed.

(** ** Lemmas: log values *)

Fixpoint every (f : ascii -> bool) (s : string) : bool :=
  match s with "" => true | String a s' => f a && every f s' end.

Lemma every_app f s t : every f (s +:+ t) = every f s && every f t.
Proof. induction s as [|a s IH]; [done|]. rewrite append_cons. cbn. by rewrite IH, andb_assoc. Qed.

Lemma every_impl f g s : (forall a, f a = true -> g a = true) -> every f s = true -> every g s = true.
Proof.
  intros H. induction s as [|a s IH]; cbn; [done|]. rewrite !andb_true_iff. intros [? ?]. auto.
Qed.

Lemma every_replace f a r s :
  every f r = true -> every (fun x => bool_decide (x = a) || f x) s = true ->
  every f (replace_char a r s) = true.
Proof.
  intros Hr. induction s as [|x s IH]; cbn [every replace_char]; [done|]. rewrite andb_true_iff. intros [Hx Hs].
  destruct (decide (x = a)) as [E|E]; [by rewrite every_app, Hr, IH|].
  rewrite bool_decide_eq_false_2 in Hx by done. cbn in *. by rewrite Hx, IH.
Qed.

Lemma every_take f n s : every f s = true -> every f (take_chars n s) = true.
Proof.
  revert n. induction s as [|a s IH]; intros n; cbn; [done|]. intros [Ha Hs]%andb_true_iff.
  destruct (is_cont a); [cbn; rewrite Ha; by apply IH|].
  destruct n; [done|]. cbn. rewrite Ha. by apply IH.
Qed.

Lemma replace_absent a r s : every (fun x => negb (bool_decide (x = a))) s = true -> replace_char a r s = s.
Proof.
  induction s as [|x s IH]; cbn; [done|]. intros [Hx Hs]%andb_true_iff.
  case_decide; [by rewrite bool_decide_eq_true_2 in Hx|]. by rewrite IH.
Qed.

(** Printable on one line: no C0 control but the tab, no DEL. *)
Definition log_safe (a : ascii) : bool :=
  negb (_CONTROL_RE a) && negb (bool_decide (a = ascii_of_N 10)) && negb (bool_decide (a = ascii_of_N 13)).

Lemma escape_safe a : every log_safe ("\x" +:+ hex_pad 2 (Z.of_N (N_of_ascii a))) = true.
Proof. by destruct a as [[] [] [] [] [] [] [] []]; vm_compute. Qed.

Lemma sub_controls_safe s :
  every (fun x => negb (bool_decide (x = ascii_of_N 10)) && negb (bool_decide (x = ascii_of_N 13))) s = true ->
  every log_safe (sub_controls s) = true.
Proof.
  induction s as [|a s IH]; cbn [every sub_controls]; [done|]. intros [Ha Hs]%andb_true_iff.
  rewrite every_app, IH, andb_true_r by done. destruct (_CONTROL_RE a) eqn:E; [apply escape_safe|].
  cbn [every]. unfold log_safe. rewrite E. cbn [negb andb]. by rewrite Ha.
Qed.

Lemma sub_controls_id s : every log_safe s = true -> sub_controls s = s.
Proof.
  induction s as [|a s IH]; cbn [every sub_controls]; [done|]. intros [Ha Hs]%andb_true_iff.
  unfold log_safe in Ha. destruct (_CONTROL_RE a); [done|]. by rewrite IH, append_cons, append_nil_l.
Qed.

Lemma escaped_lines_safe text :
  every log_safe
    (sub_controls (replace_char (ascii_of_N 10) "\n" (replace_char (ascii_of_N 13) "\r" text))) = true.
Proof.
  apply sub_controls_safe, every_replace; [done|]. apply every_replace; [done|].
  induction text as [|a s IH]; cbn [every]; [done|]. rewrite IH, andb_true_r.
  destruct (bool_decide (a = ascii_of_N 13)), (bool_decide (a = ascii_of_N 10)); done.
Qed.

(** ** Properties *)

(** Truncating a reply. A text within the limit is returned as it is. A longer one
    is cut at the last newline inside the limit, so that only whole lines remain
    and none that fits is lost, or, when the limit holds no newline after the
    first byte, at the limit itself; the note says how much was shown. What is
    shown of the text exceeds the limit by at most the two bytes of a replacement
    character. *)
Theorem truncate_output_spec (setting : Z) (text : string) (max_kb : option Z) :
  let max_bytes := default setting max_kb * 1024 in
  let total := zlen (encode text) in
  let out := truncate_output setting text max_kb in
  0 <= max_bytes -> utf8 0 (encode text) = true ->
  (total <= max_bytes -> out = text) /\
  (max_bytes < total ->
   exists shown n, out = decode_bytes shown +:+ truncation_note n total /\
     n <= max_bytes /\ zlen shown <= max_bytes + 2 /\
     ((exists skipped rest, encode text = shown ++ newline :: skipped ++ rest /\ zlen shown = n /\ 0 < n /\
         zlen (shown ++ newline :: skipped) = max_bytes /\ newline ∉ skipped) \/
      (exists cut rest, encode text = cut ++ rest /\ zlen cut = n /\ n = max_bytes /\
         newline ∉ tail cut /\ shown = decode_replace 0 cut)))%list.
Proof.
  intros max_bytes total out Hmax Hutf. subst out. unfold truncate_output. fold max_bytes total.
  split; [intros Hle; by rewrite (proj2 (Z.leb_le _ _))|].
  intros Hlt. rewrite (proj2 (Z.leb_gt _ _)) by done.
  destruct (slice_to_prefix max_bytes (encode text)) as (rest & Hrest & Hlen); [split; [done|]; fold total; lia|].
  set (cut := slice_to max_bytes (encode text)) in *. clearbody cut.
  destruct (rfind_nl cut >? 0) eqn:E.
  - destruct (rfind_nl_some cut) as (l & t & -> & Hl & Ht); [lia|].
    rewrite <- Hl, slice_to_app. rewrite <- Hl in E. rewrite zlen_app, zlen_cons in Hlen.
    pose proof (zlen_nonneg t). rewrite Hrest in Hutf. rewrite <- app_assoc in Hutf, Hrest. cbn in Hutf, Hrest.
    rewrite decode_whole by (by eapply utf8_before_newline).
    exists l, (zlen l). split_and!; [done | lia | lia |]. left. exists t, rest.
    rewrite zlen_app, zlen_cons. split_and!; [done | done | lia | lia | done].
  - exists (decode_replace 0 cut), (zlen cut). pose proof (decode_replace_length 0 cut).
    split_and!; [done | lia | lia |]. right. exists cut, rest. split_and!; [done.. | | done].
    destruct (Z_lt_ge_dec (rfind_nl cut) 0) as [Hn|Hn].
    + apply rfind_nl_none in Hn. intros Hin. apply Hn. destruct cut; [done | by right].
    + destruct (rfind_nl_some cut) as (l & t & -> & Hl & Ht); [lia|]. destruct l as [|x l]; [done|].
      rewrite zlen_cons in Hl. pose proof (zlen_nonneg l). lia.
Qed.

Lemma truncate_output_spec_witness :
  let text := String.concat "" (replicate 70 ("firmware line 0123456789" +:+ nl)) in
  truncate_output 30 text (Some 1) =
    String.concat nl (replicate 40 "firmware line 0123456789") +:+ truncation_note 999 1750 /\
  (zlen (encode text) <= 30 * 1024 -> truncate_output 30 text None = text).
Proof.
  intros text. split; [by vm_compute|].
  refine (proj1 (truncate_output_spec 30 text None _ _)); [done | by vm_compute].
Defined.

(** A log value is one line: whatever it was, the sanitized value holds no control
    character except the tab, has at most [max_len] characters and an ellipsis, and a
    short value that was already safe is unchanged. *)
Theorem sanitize_for_log_safe (text : string) (max_len : Z) :
  0 <= max_len ->
  every log_safe (sanitize_for_log text max_len) = true /\
  py_len (sanitize_for_log text max_len) <= max_len + 3 /\
  (every log_safe text = true -> py_len text <= max_len -> sanitize_for_log text max_len = text).
Proof.
  intros Hmax. unfold sanitize_for_log. pose proof (escaped_lines_safe text) as Hs.
  set (u := sub_controls _) in *. split_and!.
  - case_match; [|done]. by rewrite every_app, every_take.
  - case_match eqn:E; [|rewrite Z.gtb_ltb in E; apply Z.ltb_ge in E; lia].
    pose proof (py_len_take_chars (Z.to_nat max_len) u). rewrite py_len_app.
    change (py_len "...") with 3. lia.
  - intros Hsafe Hlen. assert (u = text) as ->.
    { unfold u. rewrite (replace_absent (ascii_of_N 13)), replace_absent.
      - by apply sub_controls_id.
      - eapply every_impl; [|exact Hsafe]. unfold log_safe. intros a. rewrite !andb_true_iff. tauto.
      - eapply every_impl; [|exact Hsafe]. unfold log_safe. intros a. rewrite !andb_true_iff. tauto. }
    rewrite Z.gtb_ltb, (proj2 (Z.ltb_ge _ _)) by done. done.
Qed.

Lemma sanitize_for_log_safe_witness :
  every log_safe (sanitize_for_log ("a" +:+ nl +:+ "forged entry" +:+ String (ascii_of_N 7) "") 10) = true /\
  sanitize_for_log ("a" +:+ nl +:+ "forged entry") 10 = "a\nforged ...".
Proof.
  split; [|by vm_compute].
  refine (proj1 (sanitize_for_log_safe ("a" +:+ nl +:+ "forged entry" +:+ String (ascii_of_N 7) "") 10 _)). done.
Defined.
