(* ===== verification/MbrVbr.v ===== *)
(** * Boot sectors ([services/mbr_vbr_walker.py])

    Classification of 512-byte sectors, the signature tables, the anomaly flags,
    the partition table and the walk over one disk image.  An image is its bytes,
    [None] when it cannot be read; SHA-256 is a parameter. *)

From S2P Require Import Prelude PyText Json Jsonb JsonbColumns.
From Stdlib Require Import Ascii String.
Import (notations) Ascii String.
#[local] Open Scope Z_scope.

Definition _SECTOR_SIZE : Z := 512.
Definition _PARTITION_TABLE_OFFSET : Z := 446.
Definition _PARTITION_ENTRY_SIZE : Z := 16.
Definition _PARTITION_TABLE_ENTRIES : nat := 4.
Definition _MBR_MAGIC_OFFSET : Z := 510.

(** A bytes literal given by its values. *)
Definition raw (l : list Z) : bytes := byte_of_Z <$> l.

Definition _MBR_MAGIC : bytes := raw [0x55; 0xaa].

Definition _KNOWN_BOOTCODE_SIGNATURES : list (string * bytes) :=
  [("windows_10_mbr", raw [0xFA; 0x33; 0xC0; 0x8E; 0xD0; 0xBC; 0x00; 0x7C]);
   ("windows_7_mbr", raw [0x33; 0xC0; 0x8E; 0xD0; 0xBC; 0x00; 0x7C; 0x8E]);
   ("windows_xp_mbr", raw [0x33; 0xC0; 0x8E; 0xD0; 0xBC; 0x00; 0x7C; 0xFB]);
   ("grub2_mbr", raw [0xEB; 0x63; 0x90]);
   ("freedos_mbr", raw [0xFA; 0xFC; 0x31; 0xC0])].

Definition _KNOWN_VBR_SIGNATURES : list (string * Z * bytes) :=
  [("windows_7_vbr_ntfs", 84, raw [0xFA; 0x33; 0xC0; 0x8E; 0xD0; 0xBC]);
   ("windows_vbr_fat32", 90, raw [0xFA; 0x33; 0xC9; 0x8E; 0xD1; 0xBC])].

Definition _KNOWN_BOOTKIT_SIGNATURES : list (string * bytes) :=
  [("petya_mbr", raw [0xFA; 0x66; 0x31; 0xC0; 0x66; 0x89; 0xD8]);
   ("tdl4_mbr", raw [0xEB; 0x4D; 0x90; 0x4E; 0x54; 0x46; 0x53]);
   ("mebroot_mbr", raw [0x33; 0xC0; 0x8E; 0xD0; 0xBC; 0x00; 0x7C; 0x8B]);
   ("olmasco_mbr", raw [0xFA; 0xFB; 0x31; 0xC0; 0x8E; 0xD0]);
   ("blackenergy_mbr", raw [0xFA; 0xB8; 0xC0; 0x07; 0x8E; 0xD8; 0x8E; 0xC0])].

(** ** Classification *)

Definition classify_sector_kind (sector : bytes) (offset : Z) : string :=
  if zlen sector <? _SECTOR_SIZE then "unknown"
  else if bool_decide (zslice 3 11 sector = bs "NTFS    ") then "vbr_ntfs"
  else if bool_decide (zslice 3 11 sector = bs "EXFAT   ") then "vbr_exfat"
  else if bool_decide (zslice 82 90 sector = bs "FAT32   ") then "vbr_fat32"
  else if bool_decide (zslice 54 62 sector = bs "FAT16   ") then "vbr_fat16"
  else if bool_decide (zslice _MBR_MAGIC_OFFSET (_MBR_MAGIC_OFFSET + 2) sector = _MBR_MAGIC)
  then (if offset =? 0 then "mbr" else "unknown")
  else "unknown".

(** [sector[off : off + len(prefix)] == prefix]. *)
Definition at_offset (sector : bytes) (off : Z) (prefix : bytes) : bool :=
  bool_decide (zslice off (off + zlen prefix) sector = prefix).

Definition match_bootcode_signature (sector : bytes) (sector_kind : string) : option string :=
  if zlen sector <? _SECTOR_SIZE then None
  else if bool_decide (sector_kind = "mbr") then
    fst <$> find (fun np => at_offset sector 0 np.2) _KNOWN_BOOTCODE_SIGNATURES
  else if bool_decide (sector_kind ∈ ["vbr_ntfs"; "vbr_fat32"; "vbr_fat16"; "vbr_exfat"]) then
    (fun nop => nop.1.1) <$>
      find (fun nop =>
              at_offset sector nop.1.2 nop.2 &&
              ((bool_decide (sector_kind = "vbr_ntfs") && contains "ntfs" (lower nop.1.1)) ||
               (bool_decide (sector_kind = "vbr_fat32") && contains "fat32" (lower nop.1.1))))
        _KNOWN_VBR_SIGNATURES
  else None.

Definition match_bootkit_signature (sector : bytes) : option string :=
  if zlen sector <? _SECTOR_SIZE then None
  else fst <$> find (fun np => at_offset sector 0 np.2) _KNOWN_BOOTKIT_SIGNATURES.

(** ** Anomaly flags *)

(** [sector[i]] for an index in range. *)
Definition get8 (sector : bytes) (i : Z) : Z := byteZ (default Byte.x00 (sector !! Z.to_nat i)).

Definition entry_offsets : list Z :=
  (fun i => _PARTITION_TABLE_OFFSET + Z.of_nat i * _PARTITION_ENTRY_SIZE) <$> seq 0 _PARTITION_TABLE_ENTRIES.

Definition build_anomaly_flags (sector : bytes) (sector_kind : string) : pydict :=
  let is_mbr := bool_decide (sector_kind = "mbr") in
  let long := negb (zlen sector <? _SECTOR_SIZE) in
  let ptypes := (fun off => get8 sector (off + 4)) <$> entry_offsets in
  let gpt_protective_seen := existsb (fun t => t =? 0xEE) ptypes in
  let non_gpt_seen := existsb (fun t => negb (t =? 0xEE) && negb (t =? 0)) ptypes in
  [("non_zero_padding",
     JBool (long && is_mbr && existsb (fun b => negb (byteZ b =? 0)) (zslice 430 446 sector)));
   ("unexpected_partition_table", JBool (long && is_mbr && (gpt_protective_seen && non_gpt_seen)));
   ("non_standard_jmp",
     JBool (long && negb (bool_decide (get8 sector 0 ∈ [0xEB; 0xE9; 0xFA; 0x33; 0xB8; 0x90]))));
   ("non_zero_disk_signature",
     JBool (long && is_mbr && negb (bool_decide (zslice 440 444 sector = raw [0; 0; 0; 0]))));
   ("is_mbr", JBool is_mbr);
   ("is_vbr", JBool (startswith sector_kind "vbr_"))].

(** ** Partition table *)

Record Partition := { bootable : Z; ptype : Z; lba_start : Z; sector_count : Z }.

Definition read_entry (mbr : bytes) (off : Z) : option Partition :=
  let t := get8 mbr (off + 4) in
  if t =? 0 then None
  else Some {| bootable := get8 mbr off; ptype := t; lba_start := le_val (zslice (off + 8) (off + 12) mbr);
               sector_count := le_val (zslice (off + 12) (off + 16) mbr) |}.

Definition parse_partition_table (mbr : bytes) : list Partition :=
  if zlen mbr <? _SECTOR_SIZE then [] else omap (read_entry mbr) entry_offsets.

(** ** Walking an image *)

Record WindowsMbrVbrSector := {
  row_firmware_id : string;
  row_file_path : string;
  sector_offset : Z;
  sector_kind : string;
  sector_sha256 : string;
  sector_size : Z;
  bootcode_signature_match : option string;
  known_bootkit_match : option string;
  anomaly_flags : pydict;
  fingerprint_sha256 : string
}.

Record Aggregate := {
  agg_path : string;
  status : string;
  mbr_kind : string;
  partitions_found : Z;
  vbrs_persisted : Z;
  bootkit_match : option string;
  agg_error : option string
}.

Definition _read_sector (image : option bytes) (offset : Z) : option bytes :=
  data ← image;
  let data := zslice offset (offset + _SECTOR_SIZE) data in
  if zlen data <? _SECTOR_SIZE then None else Some data.

Section Walk.
(** [hashlib.sha256(b).hexdigest()]. *)
Context (sha256 : bytes -> string).

Definition compute_sector_fingerprint (file_path : string) (offset : Z) (kind sha : string) : string :=
  sha256 (encode (lower file_path +:+ "|" +:+ str_int offset +:+ "|" +:+ kind +:+ "|" +:+ sha)).

Definition _build_sector_row (firmware_id file_path : string) (offset : Z) (sector : bytes)
    : WindowsMbrVbrSector :=
  let kind := classify_sector_kind sector offset in
  let sha := sha256 sector in
  {| row_firmware_id := firmware_id;
     row_file_path := take_chars 2048 file_path;
     sector_offset := offset;
     sector_kind := kind;
     sector_sha256 := sha;
     sector_size := _SECTOR_SIZE;
     bootcode_signature_match := match_bootcode_signature sector kind;
     known_bootkit_match := match_bootkit_signature sector;
     anomaly_flags := _stamp_windows_mbr_vbr_sectors_anomaly_flags (build_anomaly_flags sector kind);
     fingerprint_sha256 := compute_sector_fingerprint file_path offset kind sha |}.

(** One turn of the loop over the partitions. *)
Definition walk_partition (image : option bytes) (firmware_id relative_source : string)
    (st : list WindowsMbrVbrSector * Aggregate) (part : Partition) : list WindowsMbrVbrSector * Aggregate :=
  let '(entries, agg) := st in
  let vbr_offset := lba_start part * _SECTOR_SIZE in
  if vbr_offset =? 0 then st
  else match _read_sector image vbr_offset with
       | None => st
       | Some vbr =>
           let vbr_row := _build_sector_row firmware_id relative_source vbr_offset vbr in
           ((entries ++ [vbr_row])%list,
            {| agg_path := agg_path agg; status := status agg; mbr_kind := mbr_kind agg;
               partitions_found := partitions_found agg; vbrs_persisted := vbrs_persisted agg + 1;
               bootkit_match :=
                 if truthy (known_bootkit_match vbr_row) && negb (truthy (bootkit_match agg))
                 then known_bootkit_match vbr_row else bootkit_match agg;
               agg_error := agg_error agg |})
       end.

Definition _walk_one_image (image : option bytes) (firmware_id relative_source : string)
    : list WindowsMbrVbrSector * Aggregate :=
  match _read_sector image 0 with
  | None =>
      ([], {| agg_path := relative_source; status := "error"; mbr_kind := "unknown"; partitions_found := 0;
              vbrs_persisted := 0; bootkit_match := None;
              agg_error := Some "I/O read failed at MBR offset 0" |})
  | Some mbr =>
      let mbr_row := _build_sector_row firmware_id relative_source 0 mbr in
      let found := if truthy (known_bootkit_match mbr_row) then known_bootkit_match mbr_row else None in
      let partitions := if bool_decide (sector_kind mbr_row = "mbr") then parse_partition_table mbr else [] in
      let agg :=
        {| agg_path := relative_source;
           status := if bool_decide (sector_kind mbr_row = "mbr") then "ok" else "no_mbr";
           mbr_kind := sector_kind mbr_row; partitions_found := zlen partitions;
           vbrs_persisted := 0; bootkit_match := found; agg_error := None |} in
      foldl (walk_partition image firmware_id relative_source) ([mbr_row], agg) partitions
  end.
End Walk.

(** ** What a walk reads *)

Definition sector_at (image : bytes) (off : Z) : bytes := zslice off (off + _SECTOR_SIZE) image.

(** The offsets of the sectors of an image: the first one, and the start of every
    partition in the table of an MBR that lies inside the image. *)
Definition boot_offsets (image : bytes) : list Z :=
  if zlen image <? _SECTOR_SIZE then []
  else 0 :: (if bool_decide (classify_sector_kind (sector_at image 0) 0 = "mbr") then
               List.filter (fun off => negb (off =? 0) && (off + _SECTOR_SIZE <=? zlen image))
                 ((fun p => lba_start p * _SECTOR_SIZE) <$> parse_partition_table (sector_at image 0))
             else []).

Definition first_bootkit (rows : list WindowsMbrVbrSector) : option string :=
  head (omap known_bootkit_match rows).

(** ** Lemmas *)

Lemma bootkit_name_truthy sector v : match_bootkit_signature sector = Some v -> truthy (Some v) = true.
Proof.
  unfold match_bootkit_signature. destruct (_ <? _); [done|].
  destruct (find _ _) as [[n p]|] eqn:E; [|done]. apply find_some in E as [Hin _]. intros H.
  change (Some n = Some v) in H. injection H as <-.
  unfold _KNOWN_BOOTKIT_SIGNATURES in Hin. cbn [In] in Hin.
  decompose [or] Hin; try done; by match goal with H : (_, _) = (n, p) |- _ => injection H as <- _ end.
Qed.

Lemma read_sector_eq image off :
  0 <= off ->
  _read_sector (Some image) off =
  if off + _SECTOR_SIZE <=? zlen image then Some (sector_at image off) else None.
Proof.
  intros Hoff. unfold _read_sector, sector_at, _SECTOR_SIZE. cbn [mbind option_bind].
  pose proof (zlen_nonneg image). rewrite zlen_zslice by lia.
  destruct (off + 512 <=? zlen image) eqn:E.
  - apply Z.leb_le in E. rewrite (proj2 (Z.ltb_ge _ _)) by lia. done.
  - apply Z.leb_gt in E. rewrite (proj2 (Z.ltb_lt _ _)) by lia. done.
Qed.

Lemma partition_lba_range mbr p : p ∈ parse_partition_table mbr -> 0 <= lba_start p.
Proof.
  unfold parse_partition_table. destruct (_ <? _); [by intros ?%not_elem_of_nil|].
  intros (off & _ & H)%list_elem_of_omap. unfold read_entry in H. destruct (_ =? 0); [done|].
  injection H as <-. cbn. apply le_val_range.
Qed.

Lemma partition_count mbr : zlen (parse_partition_table mbr) <= 4.
Proof.
  unfold parse_partition_table. destruct (_ <? _); [done|].
  change entry_offsets with [446; 462; 478; 494]. cbn [omap list_omap].
  repeat case_match; rewrite ?zlen_cons, ?zlen_nil; lia.
Qed.

Lemma first_bootkit_app rows rows' :
  first_bootkit (rows ++ rows') = match first_bootkit rows with Some v => Some v | None => first_bootkit rows' end.
Proof. unfold first_bootkit. rewrite omap_app. by destruct (omap _ rows). Qed.

(** The state of the walk after some rows. *)
Definition agg_ok (rows : list WindowsMbrVbrSector) (agg : Aggregate) : Prop :=
  vbrs_persisted agg = zlen rows - 1 /\ bootkit_match agg = first_bootkit rows /\
  truthy (bootkit_match agg) = bool_decide (bootkit_match agg <> None).

Section WalkLemmas.
Context (sha256 : bytes -> string) (image : bytes) (fid rel : string).
Let row (off : Z) : WindowsMbrVbrSector := _build_sector_row sha256 fid rel off (sector_at image off).

Lemma row_bootkit_truthy off :
  truthy (known_bootkit_match (row off)) = bool_decide (known_bootkit_match (row off) <> None).
Proof.
  cbn [known_bootkit_match row _build_sector_row].
  destruct (match_bootkit_signature _) as [v|] eqn:E; [|done].
  rewrite (bootkit_name_truthy _ _ E). done.
Qed.

Lemma walk_partition_step rows agg part :
  0 <= lba_start part -> agg_ok rows agg ->
  let off := lba_start part * _SECTOR_SIZE in
  let st := walk_partition sha256 (Some image) fid rel (rows, agg) part in
  st.1 = (rows ++ (if negb (off =? 0) && (off + _SECTOR_SIZE <=? zlen image) then [row off] else []))%list /\
  agg_ok st.1 st.2 /\ status st.2 = status agg /\ mbr_kind st.2 = mbr_kind agg /\
  partitions_found st.2 = partitions_found agg.
Proof.
  intros Hlba (H1 & H2 & H3) off. assert (0 <= off) as Hoff by (unfold off, _SECTOR_SIZE; lia).
  cbn [walk_partition]. fold off. destruct (off =? 0) eqn:E0; cbn [negb andb].
  { by rewrite app_nil_r. }
  rewrite read_sector_eq by done. destruct (off + _SECTOR_SIZE <=? zlen image) eqn:E1; cbn [fst snd].
  2: by rewrite app_nil_r.
  split; [done|]. split; [|done]. fold (row off). unfold agg_ok. cbn [vbrs_persisted bootkit_match].
  rewrite zlen_app, first_bootkit_app. split; [change (zlen [row off]) with 1; lia|].
  rewrite row_bootkit_truthy, H3, <- H2. unfold first_bootkit. cbn [omap list_omap].
  destruct (bootkit_match agg) as [v|] eqn:Ev.
  - rewrite (bool_decide_eq_true_2 (Some v <> None)), andb_false_r by done. split; [done|].
    by rewrite H3.
  - rewrite (bool_decide_eq_false_2 (None <> None)) by (intros H; by apply H). cbn [negb]. rewrite andb_true_r.
    pose proof (row_bootkit_truthy off) as Ht.
    destruct (known_bootkit_match (row off)) as [w|].
    + rewrite (bool_decide_eq_true_2 (Some w <> None)) in * by done. done.
    + rewrite (bool_decide_eq_false_2 (None <> None)) in * by (intros H; by apply H). done.
Qed.

Lemma walk_partitions rows agg parts :
  Forall (fun p => 0 <= lba_start p) parts -> agg_ok rows agg ->
  let st := foldl (walk_partition sha256 (Some image) fid rel) (rows, agg) parts in
  st.1 = (rows ++ (row <$> List.filter (fun off => negb (off =? 0)%Z && (off + _SECTOR_SIZE <=? zlen image))
                             ((fun p => lba_start p * _SECTOR_SIZE) <$> parts)))%list /\
  agg_ok st.1 st.2 /\ status st.2 = status agg /\ mbr_kind st.2 = mbr_kind agg /\
  partitions_found st.2 = partitions_found agg.
Proof.
  intros Hp. revert rows agg. induction Hp as [|p parts Hp _ IH]; intros rows agg Hok.
  - cbn. by rewrite app_nil_r.
  - cbn [foldl]. destruct (walk_partition_step rows agg p Hp Hok) as (S1 & S2 & S3 & S4 & S5).
    destruct (walk_partition sha256 (Some image) fid rel (rows, agg) p) as [rows' agg'].
    cbn [fst snd] in *. destruct (IH rows' agg' S2) as (T1 & T2 & T3 & T4 & T5).
    split_and!; [|done | congruence..]. rewrite T1, S1, <- app_assoc. f_equal.
    cbn [fmap list_fmap List.filter]. by destruct (_ && _).
Qed.
End WalkLemmas.

Lemma boot_offsets_range image off :
  off ∈ boot_offsets image -> 0 <= off /\ off mod _SECTOR_SIZE = 0 /\ off + _SECTOR_SIZE <= zlen image.
Proof.
  unfold boot_offsets. destruct (zlen image <? _SECTOR_SIZE) eqn:E; [by intros ?%not_elem_of_nil|].
  apply Z.ltb_ge in E. intros [->|H]%elem_of_cons; [done|].
  destruct (bool_decide _); [|by apply not_elem_of_nil in H].
  apply list_elem_of_In, filter_In in H as [H Hb]. apply andb_true_iff in Hb as [_ Hb%Z.leb_le].
  apply list_elem_of_In, list_elem_of_fmap in H as (p & -> & Hp%partition_lba_range).
  unfold _SECTOR_SIZE in *. rewrite Z.mod_mul by lia. lia.
Qed.

(** The rows of a walk, and the summary of a readable image. *)
Lemma walk_rows (sha256 : bytes -> string) (image : bytes) (fid rel : string) :
  let st := _walk_one_image sha256 (Some image) fid rel in
  let kind := classify_sector_kind (sector_at image 0) 0 in
  st.1 = (fun off => _build_sector_row sha256 fid rel off (sector_at image off)) <$> boot_offsets image /\
  (_SECTOR_SIZE <= zlen image ->
   agg_ok st.1 st.2 /\ status st.2 = (if bool_decide (kind = "mbr") then "ok" else "no_mbr") /\
   mbr_kind st.2 = kind).
Proof.
  unfold _walk_one_image. rewrite read_sector_eq by done. unfold boot_offsets.
  destruct (0 + _SECTOR_SIZE <=? zlen image) eqn:E.
  2: { apply Z.leb_gt in E. rewrite (proj2 (Z.ltb_lt _ _)) by lia. split; [done | intros H; exfalso; revert H E; lia]. }
  apply Z.leb_le in E. rewrite (proj2 (Z.ltb_ge _ _)) by lia.
  set (mbr := sector_at image 0). set (mbr_row := _build_sector_row sha256 fid rel 0 mbr).
  set (kind := classify_sector_kind mbr 0). change (sector_kind mbr_row) with kind.
  set (parts := if bool_decide (kind = "mbr") then parse_partition_table mbr else []).
  set (agg0 := {| agg_path := _ |}).
  assert (agg_ok [mbr_row] agg0) as Hok.
  { assert (truthy (known_bootkit_match mbr_row) = bool_decide (known_bootkit_match mbr_row <> None)) as Ht
      by exact (row_bootkit_truthy sha256 image fid rel 0).
    clearbody mbr_row. unfold agg_ok, first_bootkit. cbn [bootkit_match vbrs_persisted agg0 omap list_omap].
    rewrite Ht. destruct (known_bootkit_match mbr_row) as [v|].
    - rewrite (bool_decide_eq_true_2 (Some v <> None)) in * by done. done.
    - by rewrite (bool_decide_eq_false_2 (None <> None)) by (intros H; by apply H). }
  assert (Forall (fun p => 0 <= lba_start p) parts) as Hparts.
  { unfold parts. destruct (bool_decide _); [|constructor]. apply Forall_forall, partition_lba_range. }
  destruct (walk_partitions sha256 image fid rel _ _ _ Hparts Hok) as (S1 & S2 & S3 & S4 & _).
  destruct (foldl _ _ _) as [rows agg]. cbn [fst snd] in *.
  split; [|done]. rewrite S1. cbn [app fmap list_fmap]. f_equal. f_equal. unfold parts. by destruct (bool_decide _).
Qed.

Lemma boot_offsets_length image : zlen (boot_offsets image) <= 5.
Proof.
  unfold boot_offsets. destruct (_ <? _); [done|]. rewrite zlen_cons. destruct (bool_decide _); [|done].
  set (f := fun off => _ && _). set (parts := parse_partition_table _).
  pose proof (filter_length_le f ((fun p => lba_start p * _SECTOR_SIZE) <$> parts)) as Hf.
  rewrite length_fmap in Hf. pose proof (partition_count (sector_at image 0)) as H4. fold parts in H4.
  unfold zlen in *. lia.
Qed.

(** Walking one image. The rows are those of the sectors of [boot_offsets], in order:
    the first sector and, when it is an MBR, the start of each partition of the
    table that lies inside the image, at most five; each is read from its own 512
    bytes. The summary counts them, names the first bootkit found and reports an
    image shorter than a sector as an error. *)
Theorem walk_one_image_spec (sha256 : bytes -> string) (image : bytes) (firmware_id relative_source : string) :
  let '(rows, agg) := _walk_one_image sha256 (Some image) firmware_id relative_source in
  rows = (fun off => _build_sector_row sha256 firmware_id relative_source off (sector_at image off))
           <$> boot_offsets image /\
  zlen rows <= 5 /\
  (forall off, off ∈ boot_offsets image ->
     0 <= off /\ off mod _SECTOR_SIZE = 0 /\ off + _SECTOR_SIZE <= zlen image) /\
  bootkit_match agg = first_bootkit rows /\
  vbrs_persisted agg = Z.max 0 (zlen rows - 1) /\
  (status agg = "error" <-> zlen image < _SECTOR_SIZE) /\
  (status agg = "ok" <-> mbr_kind agg = "mbr").
Proof.
  pose proof (boot_offsets_range image) as Hrange. pose proof (boot_offsets_length image) as Hlen.
  destruct (walk_rows sha256 image firmware_id relative_source) as [S1 S2].
  destruct (Z.ltb_spec (zlen image) _SECTOR_SIZE) as [E|E].
  - unfold _walk_one_image in *. rewrite read_sector_eq in * by done.
    rewrite (proj2 (Z.leb_gt _ _)) in * by lia. cbn [fst snd] in *. by rewrite <- S1.
  - destruct (S2 E) as ((A1 & A2 & _) & A3 & A4). destruct (_walk_one_image _ _ _ _) as [rows agg].
    cbn [fst snd] in *. assert (zlen rows = zlen (boot_offsets image)) as Hz by (rewrite S1; apply zlen_fmap).
    assert (1 <= zlen rows) as H1.
    { rewrite Hz. unfold boot_offsets. rewrite (proj2 (Z.ltb_ge _ _)) by done. rewrite zlen_cons.
      pose proof (zlen_nonneg (if bool_decide (classify_sector_kind (sector_at image 0) 0 = "mbr") then
               List.filter (fun off => negb (off =? 0) && (off + _SECTOR_SIZE <=? zlen image))
                 ((fun p => lba_start p * _SECTOR_SIZE) <$> parse_partition_table (sector_at image 0))
             else [])). lia. }
    split_and!; [done | lia | done | done | lia | |]; rewrite A3, ?A4; case_bool_decide as Hk.
    + split; [done | lia].
    + split; [done | lia].
    + by split.
    + by split.
Qed.

(** ** An example *)

Definition put (off : Z) (b s : bytes) : bytes :=
  (ztake off s ++ b ++ zdrop (off + zlen b) s)%list.

Definition blank : bytes := replicate 512 Byte.x00.

(** An MBR with one NTFS partition at sector 1 and one beyond the end. *)
Definition demo_image : bytes :=
  (put 510 _MBR_MAGIC
     (put 446 (raw [0x80; 0; 0; 0; 7; 0; 0; 0] ++ le_enc 4 1 ++ le_enc 4 1)
        (put 462 (raw [0; 0; 0; 0; 0x0C; 0; 0; 0] ++ le_enc 4 9 ++ le_enc 4 1)
           (put 0 (raw [0xFA; 0x33; 0xC0; 0x8E; 0xD0; 0xBC; 0x00; 0x7C]) blank)))
   ++ put 0 (raw [0xEB; 0x52; 0x90] ++ bs "NTFS    ") (put 510 _MBR_MAGIC blank))%list.

Example walk_demo :
  let '(rows, agg) := _walk_one_image (fun _ => "sha") (Some demo_image) "fw" "disk.img" in
  ((fun r => (sector_offset r, sector_kind r, bootcode_signature_match r)) <$> rows)
    = [(0, "mbr", Some "windows_10_mbr"); (512, "vbr_ntfs", None)] /\
  partitions_found agg = 2 /\ vbrs_persisted agg = 1.
Proof. by vm_compute. Qed.
