(* ===== verification/Findings.v ===== *)
(** * Findings ([services/finding_service.py])

    The pure classifiers that turn walker rows into finding drafts (PowerShell
    events, Authenticode verdicts, MFT records, boot sectors) and the emission
    loops over the rows of a firmware.  Persisting a draft is an insertion in the
    database and is represented by the list of emitted findings. *)

From S2P Require Import Prelude PyText PosixPath Json Jsonb JsonbColumns MbrVbr.
From Stdlib Require Import Ascii String.
Import (notations) Ascii String.
#[local] Open Scope Z_scope.

(** ** Drafts *)

Inductive Severity := sev_critical | sev_high | sev_medium | sev_low | sev_info.
Inductive Confidence := conf_high | conf_medium | conf_low.

#[export] Instance Severity_eq_dec : EqDecision Severity.
Proof. solve_decision. Defined.
#[export] Instance Confidence_eq_dec : EqDecision Confidence.
Proof. solve_decision. Defined.

(** [_MFTFindingDraft], [_MBRVBRFindingDraft] and the others have these fields;
    [_PEFindingDraft] has no confidence. *)
Record FindingDraft := {
  source : string;
  severity : Severity;
  title : string;
  description : string;
  evidence : string;
  confidence : Confidence
}.

Record PEFindingDraft := {
  pe_source : string;
  pe_severity : Severity;
  pe_title : string;
  pe_description : string;
  pe_evidence : string
}.

(** What [create] stores of a draft. *)
Record Finding := { f_draft : FindingDraft; f_file_path : string }.

(** An optional string in an f-string. *)
Definition shown (s : option string) : string := default "None" s.

Definition lines (l : list string) : string := PyText.join (String (ascii_of_N 10) "") l.

(** ** PowerShell events *)

Definition _POWERSHELL_OBFUSCATION_INDICATORS : list string :=
  ["FromBase64String"; "EncodedCommand"; "-enc "; "-Enc "; "-EC "; "Invoke-Expression ";
   "Invoke-Expression("; " IEX "; " IEX("; "[char[]]("; "[Convert]::FromBase64";
   "[System.Convert]::FromBase64"; "DownloadString("; "DownloadFile("; "WebClient).DownloadString";
   "Reflection.Assembly]::Load"].

Definition _classify_powershell_event (eid : Z) (raw_xml : string) : option (Confidence * string) :=
  if eid =? 4103 then Some (conf_low, "PowerShell module-load event (EID 4103)")
  else if eid =? 4104 then
    if existsb (fun indicator => contains indicator raw_xml) _POWERSHELL_OBFUSCATION_INDICATORS
    then Some (conf_high, "PowerShell ScriptBlock event with obfuscation (EID 4104)")
    else Some (conf_medium, "PowerShell ScriptBlock event (EID 4104)")
  else None.

(** ** Authenticode verdicts *)

Definition _SOURCE_AUTHENTICODE : string := "windows_authenticode".
Definition _SOURCE_DBX_REVOKED : string := "windows_dbx_revoked".

Definition kv (k : string) (v : option string) : list string :=
  if truthy v then [k +:+ "=" +:+ shown v] else [].

Definition _format_authenticode_evidence (signed : bool) (chain_status : string)
    (leaf_serial signer_subject : option string) : string :=
  PyText.join "; " (["signed=" +:+ str_bool signed; "chain_status=" +:+ chain_status]
                    ++ kv "leaf_serial" leaf_serial ++ kv "signer_subject" signer_subject)%list.

Definition _format_dbx_evidence (leaf_serial dbx_revocation_kb : option string) : string :=
  let parts := (kv "leaf_serial" leaf_serial ++ kv "dbx_revocation_kb" dbx_revocation_kb)%list in
  PyText.join "; " (match parts with [] => ["source=microsoft_dbxupdate"] | _ => parts end).

(** Severity and description of a chain status. *)
Definition authenticode_verdict (name : string) (signed : bool) (chain_status : string)
    : option (Severity * string) :=
  if bool_decide (chain_status = "revoked") then
    Some (sev_high,
   "Authenticode certificate chain reports REVOKED for " +:+ name +:+ ". The signing " +:+
   "certificate (or one of its issuers) was revoked by its CA before the " +:+
   "firmware was assembled — the binary was either signed with an already-revoked cert or " +:+
   "had its trusted timestamp invalidated. Treat as untrusted code.")
  else if bool_decide (chain_status = "never_valid") then
    Some (sev_high,
   "Authenticode certificate chain is NEVER VALID for " +:+ name +:+ ". Chain construction " +:+
   "failed against the trusted-roots bundle (self-signed, " +:+
   "expired-at-signing, or no path to a trusted root). The signature cannot be relied on " +:+
   "for code-trust.")
  else if bool_decide (chain_status = "unknown") && signed then
    Some (sev_medium,
   "Authenticode chain status is UNKNOWN for signed PE " +:+ name +:+ ". The signature was " +:+
   "parsed but verification could not complete (missing intermediate, " +:+
   "missing timestamp, parser error). Manual review recommended before relying on the " +:+
   "signature.")
  else None.

Definition classify_pe_verdict_findings (blob_path : string) (signed : bool) (chain_status : string)
    (dbx_revoked : bool) (leaf_serial signer_subject dbx_revocation_kb : option string)
    : list PEFindingDraft :=
  let name := or_str (Some (basename blob_path)) blob_path in
  ((match authenticode_verdict name signed chain_status with
    | Some (ac_severity, ac_description) =>
        [{| pe_source := _SOURCE_AUTHENTICODE; pe_severity := ac_severity;
            pe_title := "Authenticode chain " +:+ chain_status +:+ " for " +:+ name;
            pe_description := ac_description;
            pe_evidence := _format_authenticode_evidence signed chain_status leaf_serial signer_subject |}]
    | None => []
    end) ++
   (if dbx_revoked then
      [{| pe_source := _SOURCE_DBX_REVOKED; pe_severity := sev_critical;
          pe_title := "Microsoft DBX revoked PE: " +:+ name;
          pe_description :=
   "PE leaf certificate for " +:+ name +:+ " matches an entry in the Microsoft Secure Boot " +:+
   "DBX revocation bundle. Continued " +:+
   "execution risks running attacker-trusted code with valid-looking but offline-revoked " +:+
   "signature.";
          pe_evidence := _format_dbx_evidence leaf_serial dbx_revocation_kb |}]
    else []))%list.

(** ** MFT records *)

Definition _SOURCE_MFT_ADS_HIDDEN_CONTENT : string := "windows_mft_ads_hidden_content".
Definition _SOURCE_MFT_TIMESTOMPING : string := "windows_mft_timestomping".
Definition _MFT_ADS_HIGH_CONFIDENCE_BYTES : Z := 16 * 1024.
Definition _MFT_ADS_MEDIUM_CONFIDENCE_BYTES : Z := 1024.

(** The columns of [WindowsMftRecord] that are read. *)
Record MftRecord := {
  filename : option string;
  source_path : string;
  full_path : option string;
  ads_streams : json;
  si_creation_ns : option Z;
  si_last_modification_ns : option Z;
  si_last_change_ns : option Z;
  si_last_access_ns : option Z;
  fn_creation_ns : option Z;
  fn_last_modification_ns : option Z;
  fn_last_change_ns : option Z;
  fn_last_access_ns : option Z
}.

(** [filename or full_path or source_path]. *)
Definition display_name_of (r : MftRecord) : string :=
  or_str (filename r) (or_str (full_path r) (source_path r)).

(** [int(stream.get("size") or 0)]. *)
Definition stream_size_of (d : pydict) : option Z :=
  let v := dict_get_or "size" JNull d in py_int (if py_truthy v then v else JInt 0).

Definition stream_name_of (d : pydict) : string :=
  let v := dict_get_or "name" JNull d in strip (if py_truthy v then py_str v else "").

(** One turn of the loop over the streams. *)
Definition classify_stream (r : MftRecord) (stream : json) : option FindingDraft :=
  match stream with
  | JDict d =>
      let stream_name := stream_name_of d in
      match stream_size_of d with
      | None => None
      | Some stream_size =>
          if bool_decide (stream_name = "") then None
          else if stream_size <? _MFT_ADS_MEDIUM_CONFIDENCE_BYTES then None
          else
            let display_name := display_name_of r in
            let high := stream_size >? _MFT_ADS_HIGH_CONFIDENCE_BYTES in
            let tier_label :=
              if high then
                "HIGH (named ADS '" +:+ stream_name +:+ "' size " +:+ str_int stream_size +:+ " B > " +:+
                str_int _MFT_ADS_HIGH_CONFIDENCE_BYTES +:+
                " B — ProcessHollower / Pegasus / generic AV-evasion drop pattern)"
              else
                "MEDIUM (named ADS '" +:+ stream_name +:+ "' size " +:+ str_int stream_size +:+
                " B — small payload or metadata)" in
            Some {| source := _SOURCE_MFT_ADS_HIDDEN_CONTENT;
                    severity := if high then sev_high else sev_medium;
                    title := "MFT hidden ADS: " +:+ display_name +:+ ":" +:+ stream_name;
                    description :=
   "Windows NTFS MFT record for " +:+ display_name +:+ " carries a non-trivial named " +:+
   "Alternate Data Stream '" +:+ stream_name +:+ "'. ADS payloads of this size are atypical " +:+
   "for legitimate Zone.Identifier MOTW tags " +:+
   "(~100 B) and are a known persistence + AV-evasion channel. Investigate the ADS content " +:+
   "(T1564.004 Hide Artifacts: NTFS File Attributes).";
                    evidence := lines
                      ["Tier: " +:+ tier_label;
                       "Source image: " +:+ source_path r;
                       "MFT path: " +:+ or_str (full_path r) "(orphan)";
                       "Filename: " +:+ or_str (filename r) "(unnamed)";
                       "ADS name: " +:+ stream_name;
                       "ADS size: " +:+ str_int stream_size +:+ " B"];
                    confidence := if high then conf_high else conf_medium |}
      end
  | _ => None
  end.

Definition _classify_mft_ads_hidden (r : MftRecord) (streams : list json) : list FindingDraft :=
  omap (classify_stream r) streams.

(** [si is not None and fn is not None and si < fn]. *)
Definition older (si fn : option Z) : bool :=
  match si, fn with Some a, Some b => a <? b | _, _ => false end.

Definition all_four_inverted (r : MftRecord) : bool :=
  older (si_creation_ns r) (fn_creation_ns r) && older (si_last_modification_ns r) (fn_last_modification_ns r) &&
  older (si_last_change_ns r) (fn_last_change_ns r) && older (si_last_access_ns r) (fn_last_access_ns r).

Definition _classify_mft_timestomp (r : MftRecord) : list FindingDraft :=
  match si_last_modification_ns r, fn_last_modification_ns r with
  | Some si, Some fn =>
      if fn <=? si then []
      else
        let all_four := all_four_inverted r in
        let tier_label :=
          if all_four then
            "HIGH (ALL FOUR $SI timestamps strictly older than $FN — timestomp.exe-style full-tuple " +:+
            "rewrite signal)"
          else "MEDIUM ($SI mtime older than $FN mtime — single-pair timestomp signal)" in
        let display_name := display_name_of r in
        [{| source := _SOURCE_MFT_TIMESTOMPING;
            severity := if all_four then sev_high else sev_medium;
            title := "MFT timestomp: " +:+ display_name;
            description :=
   "Windows NTFS MFT record for " +:+ display_name +:+ " shows $STANDARD_INFORMATION mtime " +:+
   "older than $FILE_NAME mtime. The kernel writes $SI " +:+
   "on every metadata change but $FN only on create/rename — a healthy record has $SI ≥ " +:+
   "$FN. Inversion indicates an anti-forensics rewrite (timestomp.exe / SetMACE / " +:+
   "PowerShell SetCreation — T1070.006 Indicator Removal: Timestomp).";
            evidence := lines
              (["Tier: " +:+ tier_label;
                "Source image: " +:+ source_path r;
                "MFT path: " +:+ or_str (full_path r) "(orphan)";
                "Filename: " +:+ or_str (filename r) "(unnamed)";
                "$SI mtime (ns): " +:+ str_int si;
                "$FN mtime (ns): " +:+ str_int fn;
                "$SI - $FN delta (ns): " +:+ str_int (si - fn)] ++
               (if all_four then ["All four $SI/$FN pairs inverted."] else []))%list;
            confidence := if all_four then conf_high else conf_medium |}]
  | _, _ => []
  end.

Definition classify_mft_findings (r : MftRecord) (streams : list json) : list FindingDraft :=
  (_classify_mft_ads_hidden r streams ++ _classify_mft_timestomp r)%list.

(** The emission loop: the column is normalised first, which may raise. *)
Fixpoint emit_mft_findings_from_walk (rows : list MftRecord) : res py_error (list Finding) :=
  match rows with
  | [] => Ok []
  | r :: rows' =>
      v ← _normalize_windows_mft_records_ads_streams (ads_streams r);
      let streams := match v with JList l => l | _ => [] end in
      let found := (fun d => {| f_draft := d; f_file_path := source_path r |}) <$> classify_mft_findings r streams in
      rest ← emit_mft_findings_from_walk rows';
      Ok (found ++ rest)%list
  end.

(** ** Boot sectors *)

Definition _SOURCE_MBR_BOOTKIT : string := "windows_mbr_bootkit".
Definition _SOURCE_VBR_ANOMALY : string := "windows_vbr_anomaly".

Definition _MBR_VBR_ANOMALY_FLAG_KEYS : list string :=
  ["non_zero_padding"; "unexpected_partition_table"; "non_standard_jmp"].

(** [bool(anomaly_flags.get(key))]. *)
Definition flag (key : string) (flags : pydict) : bool := py_truthy (dict_get_or key JNull flags).

Definition _count_mbr_vbr_anomalies (flags : pydict) : Z :=
  zlen (List.filter (fun key => flag key flags) _MBR_VBR_ANOMALY_FLAG_KEYS).

(** The evidence common to both drafts. *)
Definition sector_evidence (row : WindowsMbrVbrSector) (flags : pydict) (tier_label bootkit : string) : string :=
  lines ["Tier: " +:+ tier_label;
         "File path: " +:+ row_file_path row;
         "Sector offset: " +:+ str_int (sector_offset row);
         "Sector kind: " +:+ sector_kind row;
         "Sector SHA256: " +:+ sector_sha256 row;
         "Sector size: " +:+ str_int (sector_size row) +:+ " bytes";
         "Known bootkit match: " +:+ bootkit;
         "Bootcode signature match: " +:+ or_str (bootcode_signature_match row) "(none)";
         "Anomaly flags raised: " +:+ str_int (_count_mbr_vbr_anomalies flags);
         "non_zero_padding: " +:+ str_bool (flag "non_zero_padding" flags);
         "unexpected_partition_table: " +:+ str_bool (flag "unexpected_partition_table" flags);
         "non_standard_jmp: " +:+ str_bool (flag "non_standard_jmp" flags)].

Definition mbr_bootkit_draft (row : WindowsMbrVbrSector) (flags : pydict) : FindingDraft :=
  let bootkit := shown (known_bootkit_match row) in
  {| source := _SOURCE_MBR_BOOTKIT;
     severity := sev_high;
     title := "MBR bootkit detected: " +:+ bootkit +:+ " in " +:+
              or_str (Some (basename (row_file_path row))) (row_file_path row);
     description :=
   "The Master Boot Record (MBR — first 512 bytes of the disk image, with bytes 0..445 as " +:+
   "16-bit x86 boot code) matches a known malicious bootkit signature ('" +:+ bootkit +:+
   "'). The MBR is loaded by the CPU BIOS at 0x7C00 BEFORE any OS code runs; adversary " +:+
   "modification achieves Ring -2 persistence that survives reboot at the highest possible " +:+
   "privilege level. Adversary tradecraft: TDL4/TDSS (Kaspersky 2011 — MBR + driver " +:+
   "hijack), Petya/NotPetya (2016-2017 ransomware MBR replacement), Mebroot/Sinowal " +:+
   "(2008-2010 banking-trojan MBR modification), Olmasco (2011-2013 MBR variant with " +:+
   "VBR-overwrite), BlackEnergy 3 (2015-2016 Ukrainian grid attack — KillDisk MBR-wipe). " +:+
   "The boot code is surfaced as DATA in WindowsMbrVbrSector.sector_sha256 + this evidence " +:+
   "field; wairz NEVER invokes the boot sector code (Rule #36 no-execute discipline).";
     evidence := sector_evidence row flags
       ("HIGH (named bootkit '" +:+ bootkit +:+
        "' — direct T1542.003 Pre-OS Boot: Bootkit signal at the BIOS / legacy boot layer)") bootkit;
     confidence := conf_high |}.

Definition vbr_anomaly_draft (row : WindowsMbrVbrSector) (flags : pydict) (emit_high : bool) : FindingDraft :=
  let tier_label :=
    if emit_high then
      "HIGH (named VBR bootkit '" +:+ shown (known_bootkit_match row) +:+
      "' — Mebroot/Olmasco VBR variant or similar)"
    else
      "MEDIUM (modified VBR without a named bootkit match — bootcode_signature_match=NULL AND " +:+
      str_int (_count_mbr_vbr_anomalies flags) +:+
      " anomaly flags raised; supply-chain compromise candidate; operator triages)" in
  {| source := _SOURCE_VBR_ANOMALY;
     severity := if emit_high then sev_high else sev_medium;
     title := "VBR anomaly: " +:+ sector_kind row +:+ " at offset " +:+ str_int (sector_offset row) +:+ " in " +:+
              or_str (Some (basename (row_file_path row))) (row_file_path row);
     description :=
   "A Volume Boot Record (VBR — first sector of a FAT/NTFS partition, containing the " +:+
   "partition-format BIOS Parameter Block plus partition bootloader code) shows signs of " +:+
   "adversary modification. The VBR runs after the MBR JMPs to the active partition's first " +:+
   "sector but BEFORE the OS bootmgr; a modified VBR achieves the same Ring -2 persistence " +:+
   "shape as a modified MBR. Known VBR-modifying tradecraft: Mebroot VBR variant (2008-2010 " +:+
   "banking trojan), Olmasco's secondary VBR-overwrite component, supply-chain compromises " +:+
   "that replace the bootmgr loader at the partition layer. The boot code is surfaced as " +:+
   "DATA in WindowsMbrVbrSector.sector_sha256 + this evidence field; wairz NEVER invokes " +:+
   "the boot sector code (Rule #36 no-execute discipline).";
     evidence := sector_evidence row flags tier_label (or_str (known_bootkit_match row) "(none)");
     confidence := if emit_high then conf_high else conf_medium |}.

Definition classify_mbr_vbr_findings (row : WindowsMbrVbrSector) (flags : pydict) : list FindingDraft :=
  let bootkit := truthy (known_bootkit_match row) in
  let emit_medium := bool_decide (bootcode_signature_match row = None) &&
                     (_count_mbr_vbr_anomalies flags >=? 2) in
  ((if bool_decide (sector_kind row = "mbr") && bootkit then [mbr_bootkit_draft row flags] else []) ++
   (if startswith (sector_kind row) "vbr_" && (bootkit || emit_medium)
    then [vbr_anomaly_draft row flags bootkit] else []))%list.

Definition emit_mbr_vbr_findings_from_walk (rows : list WindowsMbrVbrSector) : list Finding :=
  flat_map (fun record =>
    let flags := match _normalize_windows_mbr_vbr_sectors_anomaly_flags (JDict (anomaly_flags record)) with
                 | JDict d => d | _ => [] end in
    (fun d => {| f_draft := d; f_file_path := row_file_path record |}) <$> classify_mbr_vbr_findings record flags)
    rows.

Example medium_tier :
  (fun d => (source d, severity d, confidence d)) <$>
    classify_mbr_vbr_findings
      {| row_firmware_id := "fw"; row_file_path := "d.img"; sector_offset := 512; sector_kind := "vbr_ntfs";
         sector_sha256 := ""; sector_size := 512; bootcode_signature_match := None; known_bootkit_match := None;
         anomaly_flags := []; fingerprint_sha256 := "" |}
      [("non_zero_padding", JBool true); ("non_standard_jmp", JBool true)]
  = [("windows_vbr_anomaly", sev_medium, conf_medium)].
Proof. by vm_compute. Qed.

(** ** Properties: boot sectors *)

(** The flags of a walked sector that is not an MBR: at most the jump byte counts. *)
Lemma count_non_mbr sector kind n :
  kind <> "mbr" ->
  _count_mbr_vbr_anomalies (stamp_version n (build_anomaly_flags sector kind)) <= 1.
Proof.
  intros Hk. unfold _count_mbr_vbr_anomalies, build_anomaly_flags.
  rewrite (bool_decide_eq_false_2 _ Hk), !andb_false_r. cbn [andb].
  generalize (JBool (startswith kind "vbr_")). intros v.
  destruct (negb (zlen sector <? _SECTOR_SIZE) && _) eqn:E; by vm_compute.
Qed.

Lemma kind_mbr_not_vbr kind : kind = "mbr" -> startswith kind "vbr_" = false.
Proof. by intros ->. Qed.

(** A sector that carries a known bootkit signature. *)
Definition infected (row : WindowsMbrVbrSector) : bool :=
  truthy (known_bootkit_match row) &&
  (bool_decide (sector_kind row = "mbr") || startswith (sector_kind row) "vbr_").

(** The finding of an infected sector. *)
Definition bootkit_finding (row : WindowsMbrVbrSector) : Finding :=
  {| f_draft := if bool_decide (sector_kind row = "mbr") then mbr_bootkit_draft row (anomaly_flags row)
                else vbr_anomaly_draft row (anomaly_flags row) true;
     f_file_path := row_file_path row |}.

Lemma emit_one_row sha256 fid path off sector :
  let row := _build_sector_row sha256 fid path off sector in
  emit_mbr_vbr_findings_from_walk [row] = if infected row then [bootkit_finding row] else [].
Proof.
  intros row. unfold emit_mbr_vbr_findings_from_walk. cbn [flat_map]. rewrite app_nil_r.
  change (match _normalize_windows_mbr_vbr_sectors_anomaly_flags (JDict (anomaly_flags row)) with
          | JDict d => d | _ => [] end) with (anomaly_flags row).
  assert (sector_kind row <> "mbr" -> (_count_mbr_vbr_anomalies (anomaly_flags row) >=? 2) = false) as Hc.
  { intros Hk. pose proof (count_non_mbr sector (sector_kind row) WINDOWS_MBR_VBR_SECTORS_ANOMALY_FLAGS_SCHEMA_VERSION Hk) as H.
    change (_count_mbr_vbr_anomalies (anomaly_flags row) <= 1) in H. rewrite Z.geb_leb. apply Z.leb_gt. lia. }
  clearbody row. unfold classify_mbr_vbr_findings, infected, bootkit_finding.
  destruct (decide (sector_kind row = "mbr")) as [Hk|Hk].
  - rewrite (kind_mbr_not_vbr _ Hk), (bool_decide_eq_true_2 _ Hk). cbn [andb orb].
    rewrite andb_true_r, app_nil_r. by destruct (truthy _).
  - rewrite (Hc Hk), (bool_decide_eq_false_2 _ Hk), andb_false_r, orb_false_r. cbn [andb orb app].
    rewrite andb_comm. destruct (truthy _), (startswith _ _); done.
Qed.

Lemma emit_app rows rows' :
  emit_mbr_vbr_findings_from_walk (rows ++ rows') =
  (emit_mbr_vbr_findings_from_walk rows ++ emit_mbr_vbr_findings_from_walk rows')%list.
Proof. apply flat_map_app. Qed.

(** From the bytes of a disk image to its findings. Walking the image and emitting
    over the rows gives exactly one finding per sector that carries a known bootkit
    signature and is an MBR or a recognised VBR, in the order of the sectors, and
    every finding has severity and confidence high. In particular the medium tier
    (a modified VBR without a known signature) is never reached from a walked
    image: the walker raises at most one of the counted flags on a VBR and the
    classifier asks for two. *)
Theorem boot_findings_spec (sha256 : bytes -> string) (image : bytes) (fid path : string) :
  let rows := (_walk_one_image sha256 (Some image) fid path).1 in
  emit_mbr_vbr_findings_from_walk rows = bootkit_finding <$> List.filter infected rows /\
  (forall f, f ∈ emit_mbr_vbr_findings_from_walk rows ->
     severity (f_draft f) = sev_high /\ confidence (f_draft f) = conf_high).
Proof.
  intros rows. assert (emit_mbr_vbr_findings_from_walk rows = bootkit_finding <$> List.filter infected rows) as E.
  { unfold rows. rewrite (proj1 (walk_rows sha256 image fid path)). induction (boot_offsets image) as [|off l IH]; [done|].
    rewrite fmap_cons. change (?x :: ?y) with ([x] ++ y)%list. rewrite emit_app, emit_one_row, IH.
    cbn [app List.filter]. by destruct (infected _). }
  split; [exact E|]. rewrite E. intros f (row & -> & _)%list_elem_of_fmap.
  unfold bootkit_finding. cbn [f_draft]. by destruct (bool_decide _).
Qed.

(** ** Properties: MFT records *)

(** A record has a named stream of at least 1 KiB; the tier depends on its size. *)
Definition hidden (r : MftRecord) (c : Confidence) : Prop :=
  exists l d size, _normalize_windows_mft_records_ads_streams (ads_streams r) = Ok (JList l) /\
    JDict d ∈ l /\ stream_name_of d <> "" /\ stream_size_of d = Some size /\ 1024 <= size /\
    c = if decide (16384 < size) then conf_high else conf_medium.

(** A record whose $SI modification time precedes its $FN modification time. *)
Definition stomped (r : MftRecord) (c : Confidence) : Prop :=
  exists si fn, si_last_modification_ns r = Some si /\ fn_last_modification_ns r = Some fn /\ si < fn /\
    c = if all_four_inverted r then conf_high else conf_medium.

Definition severity_of (c : Confidence) : Severity :=
  match c with conf_high => sev_high | conf_medium => sev_medium | conf_low => sev_low end.

Lemma classify_stream_spec r stream s c :
  (exists f, classify_stream r stream = Some f /\ source f = s /\ confidence f = c /\ severity f = severity_of c) <->
  s = _SOURCE_MFT_ADS_HIDDEN_CONTENT /\
  exists d size, stream = JDict d /\ stream_name_of d <> "" /\ stream_size_of d = Some size /\ 1024 <= size /\
    c = if decide (16384 < size) then conf_high else conf_medium.
Proof.
  unfold classify_stream, _MFT_ADS_MEDIUM_CONFIDENCE_BYTES, _MFT_ADS_HIGH_CONFIDENCE_BYTES.
  destruct stream as [| | | | | |d]; try (split; [by intros (? & ? & _) | by intros (_ & d & ? & ? & _)]).
  destruct (stream_size_of d) as [size|] eqn:Es.
  2: split; [by intros (f & ? & _) | intros (_ & d' & ? & [= <-] & _ & H & _); congruence].
  case_bool_decide as En.
  { split; [by intros (f & ? & _) | by intros (_ & d' & ? & [= <-] & ? & _)]. }
  destruct (size <? 1024) eqn:El; [apply Z.ltb_lt in El | apply Z.ltb_ge in El].
  { split; [by intros (f & ? & _) |]. intros (_ & d' & z & [= <-] & _ & H & ? & _). rewrite Es in H.
    injection H as ->. lia. }
  change (16 * 1024) with 16384. rewrite Z.gtb_ltb. split.
  - intros (f & [= <-] & <- & <- & _). split; [done|]. exists d, size. split_and!; [done..|]. cbn [confidence].
    destruct (Z.ltb_spec 16384 size), (decide _); done || lia.
  - intros (-> & d' & z & [= <-] & _ & H & _ & ->). rewrite Es in H. injection H as <-.
    eexists. split; [done|]. cbn [source confidence severity].
    destruct (Z.ltb_spec 16384 size), (decide _); done || lia.
Qed.

Lemma timestomp_spec r s c :
  (exists f, f ∈ _classify_mft_timestomp r /\ source f = s /\ confidence f = c /\ severity f = severity_of c) <->
  s = _SOURCE_MFT_TIMESTOMPING /\ stomped r c.
Proof.
  unfold _classify_mft_timestomp, stomped.
  destruct (si_last_modification_ns r) as [si|], (fn_last_modification_ns r) as [fn|];
    try (split; [by intros (? & ?%not_elem_of_nil & _) | by intros (_ & ? & ? & ? & ? & _)]).
  destruct (Z.leb_spec fn si) as [E|E].
  { split; [by intros (f & ?%not_elem_of_nil & _)|]. intros (_ & a & b & [= <-] & [= <-] & ? & _). lia. }
  split.
  - intros (f & ->%list_elem_of_singleton & <- & <- & _). split; [done|]. by exists si, fn.
  - intros (-> & a & b & [= <-] & [= <-] & _ & ->). eexists. split; [by apply list_elem_of_singleton|].
    cbn [source confidence severity]. by destruct (all_four_inverted r).
Qed.

(** Every draft has the severity of its tier. *)
Lemma mft_draft_severity r streams f :
  f ∈ classify_mft_findings r streams -> severity f = severity_of (confidence f).
Proof.
  unfold classify_mft_findings. intros [(stream & _ & H)%list_elem_of_omap|H]%elem_of_app.
  - unfold classify_stream in H. repeat case_match; try done; injection H as <-; done.
  - unfold _classify_mft_timestomp in H. repeat case_match; try by apply not_elem_of_nil in H.
    all: apply list_elem_of_singleton in H as ->; cbn; by destruct (all_four_inverted r).
Qed.

Lemma classify_mft_spec r l s c :
  _normalize_windows_mft_records_ads_streams (ads_streams r) = Ok (JList l) ->
  (exists f, f ∈ classify_mft_findings r l /\ source f = s /\ confidence f = c) <->
  (s = _SOURCE_MFT_ADS_HIDDEN_CONTENT /\ hidden r c) \/ (s = _SOURCE_MFT_TIMESTOMPING /\ stomped r c).
Proof.
  intros Hl. split.
  - intros (f & Hf & Hs & Hc). pose proof (mft_draft_severity _ _ _ Hf) as Hsev. rewrite Hc in Hsev.
    apply elem_of_app in Hf as [(stream & Hin & H)%list_elem_of_omap|H].
    + left. destruct (proj1 (classify_stream_spec r stream s c)) as (-> & d & size & -> & H1 & H2 & H3 & H4);
        [by exists f|]. split; [done|]. by exists l, d, size.
    + right. apply timestomp_spec. by exists f.
  - intros [(-> & l' & d & size & Hl' & H1 & H2 & H3 & H4 & H5)|H].
    + rewrite Hl in Hl'. injection Hl' as <-.
      destruct (proj2 (classify_stream_spec r (JDict d) _SOURCE_MFT_ADS_HIDDEN_CONTENT c)) as (f & F1 & F2 & F3 & _).
      { split; [done|]. by exists d, size. }
      exists f. split; [|done]. apply elem_of_app. left. apply list_elem_of_omap. by exists (JDict d).
    + apply timestomp_spec in H as (f & F1 & F2 & F3 & _). exists f. split; [|done].
      apply elem_of_app. by right.
Qed.

Lemma ads_streams_list v w : _normalize_windows_mft_records_ads_streams v = Ok w -> exists l, w = JList l.
Proof.
  unfold _normalize_windows_mft_records_ads_streams. destruct v; try (intros [= <-]; eauto).
  destruct (py_int _); [intros [= <-]; eauto | done].
Qed.

(** The size of a legacy dictionary column is rejected by [int]. *)
Definition bad_size (r : MftRecord) : Prop :=
  exists d, ads_streams r = JDict d /\
    py_int (let v := dict_get_or "size" JNull d in if py_truthy v then v else JInt 0) = None.

Lemma ads_streams_raises r e :
  _normalize_windows_mft_records_ads_streams (ads_streams r) = Err e <-> e = IntError /\ bad_size r.
Proof.
  unfold _normalize_windows_mft_records_ads_streams, bad_size.
  destruct (ads_streams r) as [| | | | | |d]; try (split; [done | by intros (_ & ? & ? & _)]).
  cbn zeta. destruct (py_int _) as [z|] eqn:E.
  - split; [done|]. intros (_ & ? & [= <-] & H). congruence.
  - split; [intros [= <-]; eauto | by intros [-> _]].
Qed.

(** The findings of an MFT walk, over all rows of a firmware. When the emission ends,
    there is a finding of a source, tier and image exactly when some row of that
    image has a named stream of at least 1 KiB (high above 16 KiB, else medium), or
    an $SI modification time before the $FN one (high when all four pairs are
    inverted, else medium); the severity is that of the tier. The emission fails
    exactly when the size in some row's legacy stream dictionary is not a number:
    one such row suppresses the findings of every other row. *)
Theorem emit_mft_findings_spec (rows : list MftRecord) :
  match emit_mft_findings_from_walk rows with
  | Ok found =>
      (forall path s c,
         (exists f, f ∈ found /\ f_file_path f = path /\ source (f_draft f) = s /\ confidence (f_draft f) = c) <->
         (exists r, r ∈ rows /\ source_path r = path /\
            ((s = _SOURCE_MFT_ADS_HIDDEN_CONTENT /\ hidden r c) \/ (s = _SOURCE_MFT_TIMESTOMPING /\ stomped r c)))) /\
      (forall f, f ∈ found -> severity (f_draft f) = severity_of (confidence (f_draft f))) /\
      (forall r, r ∈ rows -> ~ bad_size r)
  | Err e => e = IntError /\ exists r, r ∈ rows /\ bad_size r
  end.
Proof.
  induction rows as [|r rows IH]; cbn [emit_mft_findings_from_walk].
  { split_and!; try (intros ? ?%not_elem_of_nil; done).
    intros path s c. split; intros (? & ?%not_elem_of_nil & _); done. }
  destruct (_normalize_windows_mft_records_ads_streams (ads_streams r)) as [w|e] eqn:Ew; cbn [mbind res_bind].
  2: { apply ads_streams_raises in Ew as [-> Hb]. split; [done|]. exists r. split; [by left | done]. }
  destruct (ads_streams_list _ _ Ew) as [l ->].
  assert (~ bad_size r) as Hgood.
  { intros Hb. assert (_normalize_windows_mft_records_ads_streams (ads_streams r) = Err IntError) as He
      by by apply ads_streams_raises. congruence. }
  destruct (emit_mft_findings_from_walk rows) as [found|e]; cbn [mbind res_bind].
  2: { destruct IH as (-> & r' & Hr' & Hb). split; [done|]. exists r'. split; [by right | done]. }
  destruct IH as (IH1 & IH2 & IH3). split_and!.
  - intros path s c. split.
    + intros (f & [(d & -> & Hd)%list_elem_of_fmap|Hf]%elem_of_app & Hp & Hs & Hc).
      * exists r. split; [by left|]. split; [done|]. apply (classify_mft_spec r l s c Ew). by exists d.
      * destruct (proj1 (IH1 path s c)) as (r' & Hr' & H); [by exists f|]. exists r'. split; [by right | done].
    + intros (r' & [->|Hr']%elem_of_cons & Hp & H).
      * apply (classify_mft_spec r l s c Ew) in H as (d & Hd & Hs & Hc).
        exists {| f_draft := d; f_file_path := source_path r |}. split; [|done].
        apply elem_of_app. left. apply list_elem_of_fmap. by exists d.
      * destruct (proj2 (IH1 path s c)) as (f & Hf & H'); [by exists r'|]. exists f. split; [|done].
        apply elem_of_app. by right.
  - intros f [(d & -> & Hd)%list_elem_of_fmap|Hf]%elem_of_app; [by eapply mft_draft_severity | by apply IH2].
  - intros r' [->|Hr']%elem_of_cons; [done | by apply IH3].
Qed.

Definition demo_record (streams : json) (si fn : option Z) : MftRecord :=
  {| filename := Some "a.txt"; source_path := "disk.img"; full_path := None; ads_streams := streams;
     si_creation_ns := None; si_last_modification_ns := si; si_last_change_ns := None; si_last_access_ns := None;
     fn_creation_ns := None; fn_last_modification_ns := fn; fn_last_change_ns := None;
     fn_last_access_ns := None |}.

Example emit_mft_demo :
  match emit_mft_findings_from_walk
      [demo_record (JList [JDict [("name", JStr "payload"); ("size", JInt 20000)];
                           JDict [("name", JStr "Zone.Identifier"); ("size", JInt 100)]]) (Some 5) (Some 9);
       demo_record (JList [JStr "legacy"]) None None]
  with Ok found => (fun f => (source (f_draft f), confidence (f_draft f))) <$> found | Err _ => [] end
  = [(_SOURCE_MFT_ADS_HIDDEN_CONTENT, conf_high); (_SOURCE_MFT_TIMESTOMPING, conf_medium)].
Proof. by vm_compute. Qed.
