(* ===== verification/FirmwareModel.v ===== *)
(** * The firmware row ([models/firmware.py])

    The columns of the [firmware] table with their SQL types, and a row as a map from
    column names to cells.  The reaper, the walk runners and the upload runner read and
    write this row. *)

From S2P Require Import Prelude PyText Json.
From Stdlib Require Import Ascii String.
Import (notations) Ascii String.
#[local] Open Scope Z_scope.

(** ** Columns *)

Inductive sqltype :=
  | Uuid | String_ (n : Z) | Text | Integer | BigInteger | DateTime | JSONB.

Record column := { c_type : sqltype; c_nullable : bool }.

Definition nullable (t : sqltype) : column := {| c_type := t; c_nullable := true |}.
Definition required (t : sqltype) : column := {| c_type := t; c_nullable := false |}.

Definition firmware_columns : list (string * column) :=
  [("id", required Uuid); ("project_id", required Uuid); ("original_filename", nullable (String_ 255));
   ("sha256", required (String_ 64)); ("file_size", nullable BigInteger);
   ("storage_path", nullable (String_ 512)); ("extracted_path", nullable (String_ 512));
   ("extraction_dir", nullable (String_ 512)); ("architecture", nullable (String_ 50));
   ("endianness", nullable (String_ 10)); ("os_info", nullable Text);
   ("kernel_path", nullable (String_ 512)); ("version_label", nullable (String_ 100));
   ("firmware_kind", required (String_ 20)); ("firmware_kind_source", nullable (String_ 20));
   ("rtos_flavor", nullable (String_ 40)); ("unpack_log", nullable Text);
   ("unpack_stage", nullable (String_ 100)); ("unpack_progress", nullable Integer);
   ("binary_info", nullable JSONB); ("device_metadata", nullable JSONB);
   ("cve_match_status", required (String_ 20)); ("cve_match_started_at", nullable DateTime);
   ("cve_match_finished_at", nullable DateTime); ("cve_match_error", nullable Text);
   ("cve_match_result", nullable JSONB); ("vuln_scan_status", required (String_ 20));
   ("vuln_scan_started_at", nullable DateTime); ("vuln_scan_finished_at", nullable DateTime);
   ("vuln_scan_error", nullable Text); ("sbom_status", required (String_ 20));
   ("sbom_status_started_at", nullable DateTime); ("sbom_status_finished_at", nullable DateTime);
   ("sbom_status_error", nullable Text); ("sbom_result", nullable JSONB);
   ("upload_stage", required (String_ 16)); ("upload_stage_started_at", nullable DateTime);
   ("upload_stage_finished_at", nullable DateTime); ("upload_stage_error", nullable Text);
   ("detected_format", nullable (String_ 48)); ("authenticode_chain_status", required (String_ 20));
   ("authenticode_chain_started_at", nullable DateTime);
   ("authenticode_chain_finished_at", nullable DateTime); ("authenticode_chain_error", nullable Text);
   ("authenticode_chain_result", nullable JSONB); ("registry_hive_walk_status", required (String_ 20));
   ("registry_hive_walk_started_at", nullable DateTime);
   ("registry_hive_walk_finished_at", nullable DateTime); ("registry_hive_walk_error", nullable Text);
   ("registry_hive_walk_result", nullable JSONB); ("dotnet_decompile_status", required (String_ 20));
   ("dotnet_decompile_started_at", nullable DateTime); ("dotnet_decompile_finished_at", nullable DateTime);
   ("dotnet_decompile_error", nullable Text); ("dotnet_decompile_result", nullable JSONB);
   ("windows_update_diff_status", required (String_ 20));
   ("windows_update_diff_started_at", nullable DateTime);
   ("windows_update_diff_finished_at", nullable DateTime); ("windows_update_diff_error", nullable Text);
   ("windows_update_diff_result", nullable JSONB); ("evtx_walk_status", required (String_ 20));
   ("evtx_walk_started_at", nullable DateTime); ("evtx_walk_finished_at", nullable DateTime);
   ("evtx_walk_error", nullable Text); ("evtx_walk_result", nullable JSONB);
   ("prefetch_walk_status", required (String_ 20)); ("prefetch_walk_started_at", nullable DateTime);
   ("prefetch_walk_finished_at", nullable DateTime); ("prefetch_walk_error", nullable Text);
   ("prefetch_walk_result", nullable JSONB); ("srum_walk_status", required (String_ 20));
   ("srum_walk_started_at", nullable DateTime); ("srum_walk_finished_at", nullable DateTime);
   ("srum_walk_error", nullable Text); ("srum_walk_result", nullable JSONB);
   ("scheduled_task_walk_status", required (String_ 20));
   ("scheduled_task_walk_started_at", nullable DateTime);
   ("scheduled_task_walk_finished_at", nullable DateTime); ("scheduled_task_walk_error", nullable Text);
   ("scheduled_task_walk_result", nullable JSONB); ("lnk_walk_status", required (String_ 20));
   ("lnk_walk_started_at", nullable DateTime); ("lnk_walk_finished_at", nullable DateTime);
   ("lnk_walk_error", nullable Text); ("lnk_walk_result", nullable JSONB);
   ("mft_walk_status", required (String_ 20)); ("mft_walk_started_at", nullable DateTime);
   ("mft_walk_finished_at", nullable DateTime); ("mft_walk_error", nullable Text);
   ("mft_walk_result", nullable JSONB); ("bcd_walk_status", required (String_ 20));
   ("bcd_walk_started_at", nullable DateTime); ("bcd_walk_finished_at", nullable DateTime);
   ("bcd_walk_error", nullable Text); ("bcd_walk_result", nullable JSONB);
   ("journald_walk_status", required (String_ 20)); ("journald_walk_started_at", nullable DateTime);
   ("journald_walk_finished_at", nullable DateTime); ("journald_walk_error", nullable Text);
   ("journald_walk_result", nullable JSONB); ("systemd_walk_status", required (String_ 20));
   ("systemd_walk_started_at", nullable DateTime); ("systemd_walk_finished_at", nullable DateTime);
   ("systemd_walk_error", nullable Text); ("systemd_walk_result", nullable JSONB);
   ("etl_walk_status", required (String_ 20)); ("etl_walk_started_at", nullable DateTime);
   ("etl_walk_finished_at", nullable DateTime); ("etl_walk_error", nullable Text);
   ("etl_walk_result", nullable JSONB); ("efs_walk_status", required (String_ 20));
   ("efs_walk_started_at", nullable DateTime); ("efs_walk_finished_at", nullable DateTime);
   ("efs_walk_error", nullable Text); ("efs_walk_result", nullable JSONB);
   ("container_walk_status", required (String_ 20)); ("container_walk_started_at", nullable DateTime);
   ("container_walk_finished_at", nullable DateTime); ("container_walk_error", nullable Text);
   ("container_walk_result", nullable JSONB); ("appcompat_walk_status", required (String_ 20));
   ("appcompat_walk_started_at", nullable DateTime); ("appcompat_walk_finished_at", nullable DateTime);
   ("appcompat_walk_error", nullable Text); ("appcompat_walk_result", nullable JSONB);
   ("persistence_walk_status", required (String_ 20)); ("persistence_walk_started_at", nullable DateTime);
   ("persistence_walk_finished_at", nullable DateTime); ("persistence_walk_error", nullable Text);
   ("persistence_walk_result", nullable JSONB); ("dpapi_walk_status", required (String_ 20));
   ("dpapi_walk_started_at", nullable DateTime); ("dpapi_walk_finished_at", nullable DateTime);
   ("dpapi_walk_error", nullable Text); ("dpapi_walk_result", nullable JSONB);
   ("usnjrnl_walk_status", required (String_ 20)); ("usnjrnl_walk_started_at", nullable DateTime);
   ("usnjrnl_walk_finished_at", nullable DateTime); ("usnjrnl_walk_error", nullable Text);
   ("usnjrnl_walk_result", nullable JSONB); ("bare_metal_audit_status", required (String_ 20));
   ("bare_metal_audit_started_at", nullable DateTime); ("bare_metal_audit_finished_at", nullable DateTime);
   ("bare_metal_audit_error", nullable Text); ("bare_metal_audit_result", nullable JSONB);
   ("kernel_config_audit_status", required (String_ 20));
   ("kernel_config_audit_started_at", nullable DateTime);
   ("kernel_config_audit_finished_at", nullable DateTime); ("kernel_config_audit_error", nullable Text);
   ("kernel_config_audit_result", nullable JSONB); ("kernel_config_walk_status", required (String_ 20));
   ("kernel_config_walk_started_at", nullable DateTime);
   ("kernel_config_walk_finished_at", nullable DateTime); ("kernel_config_walk_error", nullable Text);
   ("kernel_config_walk_result", nullable JSONB);
   ("module_reachability_walk_status", required (String_ 20));
   ("module_reachability_walk_started_at", nullable DateTime);
   ("module_reachability_walk_finished_at", nullable DateTime);
   ("module_reachability_walk_error", nullable Text); ("module_reachability_walk_result", nullable JSONB);
   ("network_exposure_walk_status", required (String_ 20));
   ("network_exposure_walk_started_at", nullable DateTime);
   ("network_exposure_walk_finished_at", nullable DateTime);
   ("network_exposure_walk_error", nullable Text); ("network_exposure_walk_result", nullable JSONB);
   ("android_posture_walk_status", required (String_ 20));
   ("android_posture_walk_started_at", nullable DateTime);
   ("android_posture_walk_finished_at", nullable DateTime); ("android_posture_walk_error", nullable Text);
   ("android_posture_walk_result", nullable JSONB); ("wmi_walk_status", required (String_ 20));
   ("wmi_walk_started_at", nullable DateTime); ("wmi_walk_finished_at", nullable DateTime);
   ("wmi_walk_error", nullable Text); ("wmi_walk_result", nullable JSONB);
   ("esp_walk_status", required (String_ 20)); ("esp_walk_started_at", nullable DateTime);
   ("esp_walk_finished_at", nullable DateTime); ("esp_walk_error", nullable Text);
   ("esp_walk_result", nullable JSONB); ("mbr_vbr_walk_status", required (String_ 20));
   ("mbr_vbr_walk_started_at", nullable DateTime); ("mbr_vbr_walk_finished_at", nullable DateTime);
   ("mbr_vbr_walk_error", nullable Text); ("mbr_vbr_walk_result", nullable JSONB);
   ("sdb_walk_status", required (String_ 20)); ("sdb_walk_started_at", nullable DateTime);
   ("sdb_walk_finished_at", nullable DateTime); ("sdb_walk_error", nullable Text);
   ("sdb_walk_result", nullable JSONB); ("memory_dump_walk_status", required (String_ 20));
   ("memory_dump_walk_started_at", nullable DateTime); ("memory_dump_walk_finished_at", nullable DateTime);
   ("memory_dump_walk_error", nullable Text); ("memory_dump_walk_result", nullable JSONB);
   ("windows_info_walk_status", required (String_ 20));
   ("windows_info_walk_started_at", nullable DateTime);
   ("windows_info_walk_finished_at", nullable DateTime); ("windows_info_walk_error", nullable Text);
   ("windows_info_walk_result", nullable JSONB); ("windows_processes_walk_status", required (String_ 20));
   ("windows_processes_walk_started_at", nullable DateTime);
   ("windows_processes_walk_finished_at", nullable DateTime);
   ("windows_processes_walk_error", nullable Text); ("windows_processes_walk_result", nullable JSONB);
   ("windows_injection_walk_status", required (String_ 20));
   ("windows_injection_walk_started_at", nullable DateTime);
   ("windows_injection_walk_finished_at", nullable DateTime);
   ("windows_injection_walk_error", nullable Text); ("windows_injection_walk_result", nullable JSONB);
   ("ics_protocol_walk_status", required (String_ 20));
   ("ics_protocol_walk_started_at", nullable DateTime);
   ("ics_protocol_walk_finished_at", nullable DateTime); ("ics_protocol_walk_error", nullable Text);
   ("ics_protocol_walk_result", nullable JSONB); ("python_ast_walk_status", required (String_ 20));
   ("python_ast_walk_started_at", nullable DateTime); ("python_ast_walk_finished_at", nullable DateTime);
   ("python_ast_walk_error", nullable Text); ("python_ast_walk_result", nullable JSONB);
   ("ds1qrsetup_callgraph_walk_status", required (String_ 20));
   ("ds1qrsetup_callgraph_walk_started_at", nullable DateTime);
   ("ds1qrsetup_callgraph_walk_finished_at", nullable DateTime);
   ("ds1qrsetup_callgraph_walk_error", nullable Text);
   ("ds1qrsetup_callgraph_walk_result", nullable JSONB);
   ("reachability_export_walk_status", required (String_ 20));
   ("reachability_export_walk_started_at", nullable DateTime);
   ("reachability_export_walk_finished_at", nullable DateTime);
   ("reachability_export_walk_error", nullable Text); ("reachability_export_walk_result", nullable JSONB);
   ("created_at", required DateTime)].

Definition has_column (name : string) : bool := dict_has name firmware_columns.

(** ** Rows *)

(** A cell: SQL NULL, a text, an integer, a UUID (as its 128-bit integer), a time in
    microseconds or a JSON document. *)
Inductive cell :=
  | CNull
  | CText (s : string)
  | CInt (z : Z)
  | CUuid (z : Z)
  | CTime (t : Z)
  | CJson (j : json).

Abbreviation row := (gmap string cell).

(** [row.column]: every column of a stored row has a value, NULL when it was not set. *)
Definition field (r : row) (name : string) : cell := default CNull (r !! name).

Definition is_null_cell (c : cell) : bool := match c with CNull => true | _ => false end.

(** What the column accepts. *)
Definition cell_ok (col : column) (c : cell) : bool :=
  match col.(c_type), c with
  | _, CNull => col.(c_nullable)
  | Uuid, CUuid z => bool_decide (0 <= z < 2 ^ 128)
  | String_ n, CText s => bool_decide (py_len s <= n)
  | Text, CText _ => true
  | Integer, CInt z => bool_decide (- 2 ^ 31 <= z < 2 ^ 31)
  | BigInteger, CInt z => bool_decide (- 2 ^ 63 <= z < 2 ^ 63)
  | DateTime, CTime _ => true
  | JSONB, CJson _ => true
  | _, _ => false
  end.

(** A row the table can hold: its cells are of their columns' types and there are no
    others. *)
Definition row_ok (r : row) : Prop :=
  (forall name col, dict_get name firmware_columns = Some col -> cell_ok col (field r name) = true) /\
  (forall name, is_Some (r !! name) -> has_column name = true).

(** Whether an assignment of a cell to a column is accepted. *)
Definition assign_ok (name : string) (c : cell) : bool :=
  match dict_get name firmware_columns with
  | Some col => cell_ok col c
  | None => false
  end.

Definition text_in (c : cell) (l : list string) : bool :=
  match c with CText s => bool_decide (s ∈ l) | _ => false end.

(** ** Lemmas *)

Lemma field_insert_eq (r : row) (name : string) (c : cell) : field (<[name:=c]> r) name = c.
Proof. unfold field. by rewrite lookup_insert_eq. Qed.

Lemma field_insert_ne (r : row) (name name' : string) (c : cell) :
  name <> name' -> field (<[name:=c]> r) name' = field r name'.
Proof. intros H. unfold field. by rewrite lookup_insert_ne. Qed.

#[export] Hint Rewrite field_insert_eq : firmware.
#[export] Hint Rewrite field_insert_ne using done : firmware.

(** Reads of a column after writes to named columns. *)
Ltac row_simpl := autorewrite with firmware in *.

Lemma row_ok_insert (r : row) (name : string) (c : cell) :
  row_ok r -> assign_ok name c = true -> row_ok (<[name:=c]> r).
Proof.
  intros [Hc Hn] Ha. unfold assign_ok in Ha.
  destruct (dict_get name firmware_columns) as [col|] eqn:E; [|done]. split.
  - intros n col' Hg. destruct (decide (name = n)) as [<-|Hne]; row_simpl; [congruence|].
    by apply Hc.
  - intros n. destruct (decide (name = n)) as [<-|Hne].
    + intros _. unfold has_column, dict_has. rewrite E. by apply bool_decide_eq_true_2.
    + rewrite lookup_insert_ne by done. apply Hn.
Qed.

Lemma text_in_true (c : cell) (l : list string) :
  text_in c l = true <-> exists s, c = CText s /\ s ∈ l.
Proof.
  destruct c; cbn; try (split; [done|naive_solver]).
  rewrite bool_decide_eq_true. naive_solver.
Qed.

(** Deciding [row_ok] on a concrete row. *)
Definition row_okb (r : row) : bool :=
  forallb (fun nc => cell_ok nc.2 (field r nc.1)) firmware_columns &&
  forallb (fun nc => has_column nc.1) (map_to_list r).

Lemma row_okb_sound (r : row) : row_okb r = true -> row_ok r.
Proof.
  unfold row_okb. rewrite andb_true_iff, !forallb_forall. intros [H1 H2]. split.
  - intros n col Hg%dict_get_elem. by apply (H1 (n, col)), list_elem_of_In.
  - intros n [c Hc]. apply (H2 (n, c)), list_elem_of_In. by apply elem_of_map_to_list.
Qed.

(** A row as [Firmware()] inserts it, server defaults filled in. *)
Definition default_cell (name : string) (col : column) : cell :=
  if col.(c_nullable) then CNull
  else match col.(c_type) with
       | Uuid => CUuid 0
       | DateTime => CTime 0
       | JSONB => CJson JNull
       | Integer | BigInteger => CInt 0
       | String_ _ | Text =>
           CText (if bool_decide (name = "upload_stage") then "ready"
                  else if bool_decide (name = "firmware_kind") then "unknown"
                  else if endswith name "_status" then "idle" else "")
       end.

Definition new_row : row :=
  list_to_map ((fun nc => (nc.1, default_cell nc.1 nc.2)) <$> firmware_columns).

Lemma new_row_ok : row_ok new_row.
Proof. apply row_okb_sound. vm_compute. reflexivity. Qed.
