(* ===== verification/Reaper.v ===== *)
(** * Orphan reaping at start-up ([workers/walker_registry.py], [main.py])

    The registries of status columns and the sweep that the back end runs once when it
    starts: a run left in progress by a process that died is marked failed.  Each entry
    is one UPDATE on the firmware table; an entry whose statement fails is logged and
    skipped. *)

From S2P Require Import Prelude PyText Json FirmwareModel.
From Stdlib Require Import Ascii String.
Import (notations) Ascii String.
#[local] Open Scope Z_scope.

(** ** The registries *)

Record WalkerReaperConfig := {
  column_name : string;
  in_progress_states : list string;
  failure_message : string;
  finished_at_column : option string;
  error_column : option string;
  started_at_column : option string;
  grace_minutes : option Z
}.

Definition STATE_MACHINE_REAPER_CONFIGS : list (string * WalkerReaperConfig) :=
  [("cve_match_status",
    {| column_name := "cve_match_status"; in_progress_states := ["queued"; "running"];
       failure_message := "Backend restarted; runner state lost";
       finished_at_column := Some "cve_match_finished_at"; error_column := Some "cve_match_error";
       started_at_column := None; grace_minutes := None |});
   ("vuln_scan_status",
    {| column_name := "vuln_scan_status"; in_progress_states := ["queued"; "running"];
       failure_message := "Backend restarted; runner state lost";
       finished_at_column := Some "vuln_scan_finished_at"; error_column := Some "vuln_scan_error";
       started_at_column := None; grace_minutes := None |});
   ("sbom_status",
    {| column_name := "sbom_status"; in_progress_states := ["queued"; "running"];
       failure_message := "Backend restarted; runner state lost";
       finished_at_column := Some "sbom_status_finished_at"; error_column := Some "sbom_status_error";
       started_at_column := None; grace_minutes := None |});
   ("bare_metal_audit_status",
    {| column_name := "bare_metal_audit_status"; in_progress_states := ["queued"; "running"];
       failure_message := "Backend restarted; runner state lost";
       finished_at_column := Some "bare_metal_audit_finished_at"; error_column := Some "bare_metal_audit_error";
       started_at_column := None; grace_minutes := None |});
   ("kernel_config_audit_status",
    {| column_name := "kernel_config_audit_status"; in_progress_states := ["queued"; "running"];
       failure_message := "Backend restarted; runner state lost";
       finished_at_column := Some "kernel_config_audit_finished_at"; error_column := Some "kernel_config_audit_error";
       started_at_column := None; grace_minutes := None |});
   ("kernel_config_walk_status",
    {| column_name := "kernel_config_walk_status"; in_progress_states := ["queued"; "running"];
       failure_message := "Backend restarted; runner state lost";
       finished_at_column := Some "kernel_config_walk_finished_at"; error_column := Some "kernel_config_walk_error";
       started_at_column := None; grace_minutes := None |});
   ("module_reachability_walk_status",
    {| column_name := "module_reachability_walk_status"; in_progress_states := ["queued"; "running"];
       failure_message := "Backend restarted; runner state lost";
       finished_at_column := Some "module_reachability_walk_finished_at"; error_column := Some "module_reachability_walk_error";
       started_at_column := None; grace_minutes := None |});
   ("network_exposure_walk_status",
    {| column_name := "network_exposure_walk_status"; in_progress_states := ["queued"; "running"];
       failure_message := "Backend restarted; runner state lost";
       finished_at_column := Some "network_exposure_walk_finished_at"; error_column := Some "network_exposure_walk_error";
       started_at_column := None; grace_minutes := None |});
   ("android_posture_walk_status",
    {| column_name := "android_posture_walk_status"; in_progress_states := ["queued"; "running"];
       failure_message := "Backend restarted; runner state lost";
       finished_at_column := Some "android_posture_walk_finished_at"; error_column := Some "android_posture_walk_error";
       started_at_column := None; grace_minutes := None |});
   ("ics_protocol_walk_status",
    {| column_name := "ics_protocol_walk_status"; in_progress_states := ["queued"; "running"];
       failure_message := "Backend restarted; runner state lost";
       finished_at_column := Some "ics_protocol_walk_finished_at"; error_column := Some "ics_protocol_walk_error";
       started_at_column := None; grace_minutes := None |});
   ("authenticode_chain_status",
    {| column_name := "authenticode_chain_status"; in_progress_states := ["queued"; "running"];
       failure_message := "Backend restarted; runner state lost";
       finished_at_column := Some "authenticode_chain_finished_at"; error_column := Some "authenticode_chain_error";
       started_at_column := None; grace_minutes := None |});
   ("dotnet_decompile_status",
    {| column_name := "dotnet_decompile_status"; in_progress_states := ["queued"; "running"];
       failure_message := "Backend restarted; runner state lost";
       finished_at_column := Some "dotnet_decompile_finished_at"; error_column := Some "dotnet_decompile_error";
       started_at_column := None; grace_minutes := None |});
   ("windows_update_diff_status",
    {| column_name := "windows_update_diff_status"; in_progress_states := ["queued"; "running"];
       failure_message := "Backend restarted; runner state lost";
       finished_at_column := Some "windows_update_diff_finished_at"; error_column := Some "windows_update_diff_error";
       started_at_column := None; grace_minutes := None |});
   ("reachability_export_walk_status",
    {| column_name := "reachability_export_walk_status"; in_progress_states := ["queued"; "running"];
       failure_message := "Backend restarted; runner state lost";
       finished_at_column := Some "reachability_export_walk_finished_at"; error_column := Some "reachability_export_walk_error";
       started_at_column := None; grace_minutes := None |});
   ("upload_stage",
    {| column_name := "upload_stage"; in_progress_states := ["detecting"; "extracting"; "analyzing"];
       failure_message := "Backend restarted; upload runner state lost";
       finished_at_column := Some "upload_stage_finished_at"; error_column := Some "upload_stage_error";
       started_at_column := Some "upload_stage_started_at"; grace_minutes := Some 15 |})].

(** [str.removesuffix]. *)
Definition removesuffix (s suffix : string) : string :=
  if endswith s suffix && negb (bool_decide (suffix = ""))
  then String.substring 0 (String.length s - String.length suffix) s else s.

Definition _walker_reaper (column : string) (prefix : option string) : WalkerReaperConfig :=
  let base := or_str prefix (removesuffix column "_walk_status") in
  {| column_name := column;
     in_progress_states := ["queued"; "running"];
     failure_message := "Backend restarted; walker runner state lost";
     finished_at_column := Some (base +:+ "_walk_finished_at");
     error_column := Some (base +:+ "_walk_error");
     started_at_column := None;
     grace_minutes := None |}.

Definition WALKER_REAPER_CONFIGS : list (string * WalkerReaperConfig) :=
  [("registry_hive_walk_status", _walker_reaper "registry_hive_walk_status" None);
   ("evtx_walk_status", _walker_reaper "evtx_walk_status" None);
   ("prefetch_walk_status", _walker_reaper "prefetch_walk_status" None);
   ("srum_walk_status", _walker_reaper "srum_walk_status" None);
   ("scheduled_task_walk_status", _walker_reaper "scheduled_task_walk_status" None);
   ("lnk_walk_status", _walker_reaper "lnk_walk_status" None);
   ("mft_walk_status", _walker_reaper "mft_walk_status" None);
   ("bcd_walk_status", _walker_reaper "bcd_walk_status" None);
   ("journald_walk_status", _walker_reaper "journald_walk_status" None);
   ("systemd_walk_status", _walker_reaper "systemd_walk_status" None);
   ("etl_walk_status", _walker_reaper "etl_walk_status" None);
   ("efs_walk_status", _walker_reaper "efs_walk_status" None);
   ("container_walk_status", _walker_reaper "container_walk_status" None);
   ("appcompat_walk_status", _walker_reaper "appcompat_walk_status" None);
   ("persistence_walk_status", _walker_reaper "persistence_walk_status" None);
   ("dpapi_walk_status", _walker_reaper "dpapi_walk_status" None);
   ("usnjrnl_walk_status", _walker_reaper "usnjrnl_walk_status" None);
   ("wmi_walk_status", _walker_reaper "wmi_walk_status" None);
   ("esp_walk_status", _walker_reaper "esp_walk_status" None);
   ("mbr_vbr_walk_status", _walker_reaper "mbr_vbr_walk_status" None);
   ("sdb_walk_status", _walker_reaper "sdb_walk_status" None);
   ("memory_dump_walk_status", _walker_reaper "memory_dump_walk_status" None);
   ("windows_info_walk_status", _walker_reaper "windows_info_walk_status" None);
   ("windows_processes_walk_status", _walker_reaper "windows_processes_walk_status" None);
   ("windows_injection_walk_status", _walker_reaper "windows_injection_walk_status" None);
   ("ics_protocol_walk_status", _walker_reaper "ics_protocol_walk_status" None);
   ("kernel_config_walk_status", _walker_reaper "kernel_config_walk_status" None);
   ("module_reachability_walk_status", _walker_reaper "module_reachability_walk_status" None);
   ("network_exposure_walk_status", _walker_reaper "network_exposure_walk_status" None);
   ("android_posture_walk_status", _walker_reaper "android_posture_walk_status" None);
   ("python_ast_walk_status", _walker_reaper "python_ast_walk_status" None);
   ("ds1qrsetup_callgraph_walk_status", _walker_reaper "ds1qrsetup_callgraph_walk_status" None);
   ("reachability_export_walk_status", _walker_reaper "reachability_export_walk_status" None)].

(** ** The sweep *)

(** The clock and the fate of the database session of one [_reap_one_config] call. *)
Record reap_event := { ev_now : Z; ev_db_ok : bool }.

(** A list of optional names, absent and empty ones dropped ([if config.error_column]). *)
Definition given (c : option string) : option string :=
  match c with Some s => if bool_decide (s = "") then None else Some s | None => None end.

Definition cutoff (now minutes : Z) : Z := now - minutes * 60000000.

(** The columns [getattr] and [values] look up on the model. *)
Definition named_columns (config : WalkerReaperConfig) : list string :=
  config.(column_name) ::
  match config.(grace_minutes), given config.(started_at_column) with
  | Some _, Some c => [c] | _, _ => [] end ++
  option_list (given config.(error_column)) ++ option_list (given config.(finished_at_column)).

(** The WHERE clause; a comparison with NULL is not true. *)
Definition reap_where (now : Z) (config : WalkerReaperConfig) (r : row) : bool :=
  text_in (field r config.(column_name)) config.(in_progress_states) &&
  match config.(grace_minutes), given config.(started_at_column) with
  | Some minutes, Some c =>
      match field r c with CTime t => bool_decide (t < cutoff now minutes) | _ => false end
  | _, _ => true
  end.

(** The SET clause. *)
Definition reap_values (now : Z) (config : WalkerReaperConfig) : list (string * cell) :=
  (config.(column_name), CText "failed") ::
  match given config.(error_column) with
  | Some c => [(c, CText config.(failure_message))] | None => [] end ++
  match given config.(finished_at_column) with Some c => [(c, CTime now)] | None => [] end.

Definition set_columns (r : row) (values : list (string * cell)) : row :=
  foldl (fun r nc => <[nc.1:=nc.2]> r) r values.

Definition reap_row (now : Z) (config : WalkerReaperConfig) (r : row) : row :=
  if reap_where now config r then set_columns r (reap_values now config) else r.

(** One entry: an unknown column, a value its column does not take or a failing session
    raises inside the [try], which leaves the table as it was. *)
Definition _reap_one_config (ev : reap_event) (config : WalkerReaperConfig) (rows : list row) : list row :=
  if forallb has_column (named_columns config) &&
     forallb (fun nc => assign_ok nc.1 nc.2) (reap_values ev.(ev_now) config) && ev.(ev_db_ok)
  then reap_row ev.(ev_now) config <$> rows
  else rows.

Fixpoint reap_from (n : nat) (evs : nat -> reap_event) (configs : list WalkerReaperConfig)
    (rows : list row) : list row :=
  match configs with
  | [] => rows
  | config :: configs => reap_from (S n) evs configs (_reap_one_config (evs n) config rows)
  end.

Definition reaper_configs : list WalkerReaperConfig :=
  (STATE_MACHINE_REAPER_CONFIGS.*2 ++ WALKER_REAPER_CONFIGS.*2)%list.

(** The sweep of [lifespan]: state machines first, then walkers. *)
Definition reaper_sweep (evs : nat -> reap_event) (rows : list row) : list row :=
  reap_from 0 evs reaper_configs rows.

(** ** One entry on one row *)

Definition writes (config : WalkerReaperConfig) : list string := (reap_values 0 config).*1.

Definition reads (config : WalkerReaperConfig) : list string :=
  config.(column_name) ::
  match config.(grace_minutes), given config.(started_at_column) with
  | Some _, Some c => [c] | _, _ => [] end.

Lemma writes_now (now : Z) (config : WalkerReaperConfig) : (reap_values now config).*1 = writes config.
Proof.
  unfold writes, reap_values. by destruct (given (error_column config)), (given (finished_at_column config)).
Qed.

Lemma dict_get_notin (name : string) (vs : list (string * cell)) : name ∉ vs.*1 -> dict_get name vs = None.
Proof.
  induction vs as [|[m d] vs IH]; intros Hn; [done|]. cbn in *.
  rewrite decide_False by set_solver. apply IH. set_solver.
Qed.

Lemma field_set_columns (vs : list (string * cell)) (r : row) (name : string) :
  NoDup vs.*1 -> field (set_columns r vs) name = default (field r name) (dict_get name vs).
Proof.
  revert r. induction vs as [|[n c] vs IH]; intros r Hnd; [done|].
  apply NoDup_cons in Hnd as [Hn Hnd]. change (field (set_columns (<[n:=c]> r) vs) name = 
    default (field r name) (if decide (n = name) then Some c else dict_get name vs)).
  rewrite IH by done. destruct (decide (n = name)) as [->|Hne].
  - rewrite dict_get_notin by done. apply field_insert_eq.
  - by rewrite field_insert_ne.
Qed.

(** What a registry must satisfy for its entries not to interfere: the columns of one
    entry are distinct and its states are not the terminal one; two entries either have
    no column in common or are the same registration made twice. *)
Definition entry_ok (c : WalkerReaperConfig) : bool :=
  bool_decide (NoDup (writes c)) && bool_decide ("failed" ∉ c.(in_progress_states)) &&
  forallb has_column (named_columns c) &&
  forallb (fun nc => assign_ok nc.1 nc.2) (reap_values 0 c).

Definition separate (c c' : WalkerReaperConfig) : bool :=
  forallb (fun n => bool_decide (n ∉ writes c')) (reads c ++ writes c)%list &&
  forallb (fun n => bool_decide (n ∉ writes c)) (reads c').

Definition same_entry (c c' : WalkerReaperConfig) : bool :=
  bool_decide (c.(column_name) = c'.(column_name)) &&
  bool_decide (c.(in_progress_states) = c'.(in_progress_states)) &&
  bool_decide (writes c = writes c') &&
  bool_decide (c.(grace_minutes) = None) && bool_decide (c'.(grace_minutes) = None).

Fixpoint pairs_ok (cs : list WalkerReaperConfig) : bool :=
  match cs with
  | [] => true
  | c :: cs => forallb (fun c' => separate c c' || same_entry c c') cs && pairs_ok cs
  end.

Lemma reaper_configs_ok : forallb entry_ok reaper_configs = true /\ pairs_ok reaper_configs = true.
Proof. split; vm_compute; reflexivity. Qed.

Lemma assign_ok_time (n : string) (t t' : Z) : assign_ok n (CTime t) = assign_ok n (CTime t').
Proof. unfold assign_ok. by destruct (dict_get n firmware_columns) as [[[] ?]|]. Qed.

Lemma entry_ok_spec (c : WalkerReaperConfig) :
  entry_ok c = true ->
  NoDup (writes c) /\ "failed" ∉ c.(in_progress_states) /\
  forall now, forallb has_column (named_columns c) &&
              forallb (fun nc => assign_ok nc.1 nc.2) (reap_values now c) = true.
Proof.
  unfold entry_ok. rewrite !andb_true_iff, !bool_decide_eq_true. intros [[[H1 H2] H3] H4].
  split_and!; [done..|]. intros now. rewrite H3. etransitivity; [|exact H4]. unfold reap_values.
  destruct (given (error_column c)), (given (finished_at_column c)) as [f|]; try done.
  all: cbn [app forallb fst snd]; by rewrite (assign_ok_time f now 0).
Qed.

(** In progress, as the first conjunct of the WHERE clause sees it. *)
Definition in_progress (c : WalkerReaperConfig) (r : row) : bool :=
  text_in (field r c.(column_name)) c.(in_progress_states).

Lemma field_reap_row (now : Z) (c : WalkerReaperConfig) (r : row) (name : string) :
  entry_ok c = true ->
  field (reap_row now c r) name =
  if reap_where now c r then default (field r name) (dict_get name (reap_values now c)) else field r name.
Proof.
  intros (Hnd & _)%entry_ok_spec. unfold reap_row. case_match; [|done].
  apply field_set_columns. by rewrite writes_now.
Qed.

Lemma field_reap_row_other (now : Z) (c : WalkerReaperConfig) (r : row) (name : string) :
  entry_ok c = true -> name ∉ writes c -> field (reap_row now c r) name = field r name.
Proof.
  intros Hok Hn. rewrite field_reap_row by done. case_match; [|done].
  rewrite dict_get_notin; [done|]. by rewrite writes_now.
Qed.

Lemma separate_spec (c c' : WalkerReaperConfig) :
  separate c c' = true ->
  (forall n, n ∈ reads c -> n ∉ writes c') /\ (forall n, n ∈ writes c -> n ∉ writes c') /\
  (forall n, n ∈ reads c' -> n ∉ writes c).
Proof.
  unfold separate. rewrite andb_true_iff, !forallb_forall. intros [H1 H2].
  split_and!; intros n Hn%list_elem_of_In; eapply bool_decide_eq_true_1;
    [apply H1, in_app_iff|apply H1, in_app_iff|apply H2]; tauto.
Qed.

Lemma same_entry_spec (c c' : WalkerReaperConfig) :
  same_entry c c' = true ->
  c.(column_name) = c'.(column_name) /\ c.(in_progress_states) = c'.(in_progress_states) /\
  writes c = writes c' /\ c.(grace_minutes) = None /\ c'.(grace_minutes) = None.
Proof. unfold same_entry. rewrite !andb_true_iff, !bool_decide_eq_true. tauto. Qed.

Lemma reap_where_reads (now : Z) (c : WalkerReaperConfig) (r r' : row) :
  (forall n, n ∈ reads c -> field r' n = field r n) -> reap_where now c r' = reap_where now c r.
Proof.
  intros H. unfold reap_where. rewrite (H (column_name c)) by (unfold reads; set_solver).
  unfold reads in H. destruct (grace_minutes c), (given (started_at_column c)); try done.
  rewrite H by set_solver. done.
Qed.

Lemma quiet_where (now : Z) (c : WalkerReaperConfig) (r : row) :
  in_progress c r = false -> reap_where now c r = false.
Proof. unfold in_progress, reap_where. by intros ->. Qed.

Lemma same_entry_progress (c c' : WalkerReaperConfig) (r : row) :
  same_entry c c' = true -> in_progress c' r = in_progress c r.
Proof. intros (H1 & H2 & _)%same_entry_spec. unfold in_progress. by rewrite H1, H2. Qed.

(** After an entry without grace its column is settled. *)
Lemma reap_row_quiet (now : Z) (c : WalkerReaperConfig) (r : row) :
  entry_ok c = true -> reap_where now c r = true \/ in_progress c r = false ->
  in_progress c (reap_row now c r) = false.
Proof.
  intros Hok Hor. pose proof (entry_ok_spec c Hok) as (_ & Hf & _). unfold in_progress.
  rewrite field_reap_row by done. destruct (reap_where now c r) eqn:E.
  - cbn [reap_values dict_get]. rewrite decide_True by done. cbn. by apply bool_decide_eq_false_2.
  - destruct Hor; [done|]. done.
Qed.

Lemma no_grace_where (now : Z) (c : WalkerReaperConfig) (r : row) :
  c.(grace_minutes) = None -> reap_where now c r = in_progress c r.
Proof. intros H. unfold reap_where. rewrite H. apply andb_true_r. Qed.

(** ** The sweep, one row at a time *)

Fixpoint reap_row_from (n : nat) (evs : nat -> reap_event) (cs : list WalkerReaperConfig) (r : row) : row :=
  match cs with
  | [] => r
  | c :: cs =>
      reap_row_from (S n) evs cs
        (if (evs n).(ev_db_ok) then reap_row (evs n).(ev_now) c r else r)
  end.

Definition compat (c c' : WalkerReaperConfig) : bool := separate c c' || same_entry c c'.

Lemma reap_from_rows (n : nat) (evs : nat -> reap_event) (cs : list WalkerReaperConfig) (rows : list row) :
  forallb entry_ok cs = true -> reap_from n evs cs rows = reap_row_from n evs cs <$> rows.
Proof.
  revert n rows. induction cs as [|c cs IH]; intros n rows Hok; cbn [reap_from reap_row_from].
  - by rewrite list_fmap_id.
  - apply andb_true_iff in Hok as [Hc Hok]. rewrite IH by done.
    unfold _reap_one_config. pose proof (entry_ok_spec c Hc) as (_ & _ & Hv). rewrite Hv.
    destruct (ev_db_ok (evs n)); cbn [andb]; [by rewrite <- list_fmap_compose|done].
Qed.

Lemma reaper_sweep_rows (evs : nat -> reap_event) (rows : list row) :
  reaper_sweep evs rows = reap_row_from 0 evs reaper_configs <$> rows.
Proof. apply reap_from_rows, reaper_configs_ok. Qed.

(** Entries that have nothing in common with a column, or repeat a settled entry, leave
    it alone. *)
Lemma reap_row_from_settled (n : nat) (evs : nat -> reap_event) (cs : list WalkerReaperConfig)
    (c : WalkerReaperConfig) (r : row) :
  forallb entry_ok cs = true -> forallb (compat c) cs = true ->
  in_progress c r = false \/ forallb (separate c) cs = true ->
  forall name, name ∈ writes c \/ (name ∈ reads c /\ forallb (separate c) cs = true) ->
  field (reap_row_from n evs cs r) name = field r name.
Proof.
  revert n r. induction cs as [|c' cs IH]; intros n r Hok Hc Hq name Hn; [done|].
  cbn in Hok, Hc, Hq, Hn. rewrite !andb_true_iff in *. destruct Hok as [Hok' Hok], Hc as [Hc' Hc].
  set (r1 := if ev_db_ok (evs n) then reap_row (ev_now (evs n)) c' r else r).
  enough (Hf : (forall m, m ∈ writes c \/ (m ∈ reads c /\ separate c c' = true) -> field r1 m = field r m)).
  { change (field (reap_row_from (S n) evs cs r1) name = field r name).
    rewrite IH; [apply Hf; tauto|done|done| |tauto].
    destruct Hq as [Hq|[_ Hq]]; [left|by right]. rewrite <- Hq. unfold in_progress.
    rewrite Hf; [done|left]. unfold writes, reap_values. set_solver. }
  intros m Hm. subst r1. destruct (ev_db_ok (evs n)); [|done].
  apply orb_true_iff in Hc' as [Hs|Hs].
  - apply separate_spec in Hs as (Hs1 & Hs2 & _).
    apply field_reap_row_other; [done|]. destruct Hm as [Hm|[Hm _]]; auto.
  - destruct Hq as [Hq|[Hq _]].
    + unfold reap_row. rewrite quiet_where; [done|]. by rewrite (same_entry_progress c c').
    + apply separate_spec in Hq as (Hs1 & Hs2 & _).
      apply field_reap_row_other; [done|]. destruct Hm as [Hm|[Hm _]]; auto.
Qed.

(** The first entry that writes a column, with its position. *)
Fixpoint owner (n : nat) (name : string) (cs : list WalkerReaperConfig) : option (nat * WalkerReaperConfig) :=
  match cs with
  | [] => None
  | c :: cs => if decide (name ∈ writes c) then Some (n, c) else owner (S n) name cs
  end.

Lemma owner_in (n : nat) (name : string) (cs : list WalkerReaperConfig) (k : nat) (c : WalkerReaperConfig) :
  owner n name cs = Some (k, c) -> c ∈ cs /\ name ∈ writes c.
Proof.
  revert n. induction cs as [|c' cs IH]; intros n H; [done|]. cbn in H.
  case_decide; simplify_eq; [split; [left|done]|].
  apply IH in H as [? ?]. split; [by right|done].
Qed.

(** What the sweep leaves in a column: the first entry that writes it decides, on the
    row as it was before the sweep. *)
Definition reaped (evs : nat -> reap_event) (cs : list WalkerReaperConfig) (n : nat) (r : row) (name : string) : cell :=
  match owner n name cs with
  | Some (k, c) =>
      let now := (evs k).(ev_now) in
      if reap_where now c r then default (field r name) (dict_get name (reap_values now c)) else field r name
  | None => field r name
  end.

Lemma no_grace_quiet (now : Z) (c c' : WalkerReaperConfig) (r : row) :
  entry_ok c = true -> same_entry c c' = true -> in_progress c (reap_row now c r) = false.
Proof.
  intros Hok (_ & _ & _ & Hg & _)%same_entry_spec. apply reap_row_quiet; [done|].
  rewrite no_grace_where by done. by destruct (in_progress c r); auto.
Qed.

Lemma compat_split (c : WalkerReaperConfig) (cs : list WalkerReaperConfig) :
  forallb (compat c) cs = true -> (exists c', same_entry c c' = true) \/ forallb (separate c) cs = true.
Proof.
  induction cs as [|c' cs IH]; cbn; [by right|]. intros [Hc Hcs]%andb_true_iff.
  apply orb_true_iff in Hc as [Hc|Hc]; [|eauto]. destruct (IH Hcs) as [?|?]; [by left|right].
  by rewrite Hc.
Qed.

Lemma reap_row_from_spec (evs : nat -> reap_event) (cs : list WalkerReaperConfig) (n : nat) (r : row) (name : string) :
  (forall k, (evs k).(ev_db_ok) = true) -> forallb entry_ok cs = true -> pairs_ok cs = true ->
  field (reap_row_from n evs cs r) name = reaped evs cs n r name.
Proof.
  intros Hdb. revert n r. induction cs as [|c cs IH]; intros n r Hok Hp; [done|].
  cbn in Hok, Hp. apply andb_true_iff in Hok as [Hc Hok], Hp as [Hcs Hp].
  cbn [reap_row_from]. rewrite Hdb. unfold reaped. cbn [owner]. case_decide as Hin.
  - rewrite (reap_row_from_settled (S n) evs cs c); [by apply field_reap_row|done|done| |by left].
    destruct (compat_split c cs Hcs) as [[c' Hs]|?]; [left|by right]. by eapply no_grace_quiet.
  - rewrite IH by done. unfold reaped. rewrite field_reap_row_other by done.
    destruct (owner (S n) name cs) as [[k c']|] eqn:Ho; [|done].
    apply owner_in in Ho as [Hin' Hw]. cbn zeta. erewrite reap_where_reads; [done|].
    intros m Hm. apply field_reap_row_other; [done|].
    pose proof (proj1 (forallb_elem _ _) Hcs _ Hin') as Hcc. cbn in Hcc.
    apply orb_true_iff in Hcc as [Hs|Hs].
    + apply separate_spec in Hs as (_ & _ & H3). by apply H3.
    + apply same_entry_spec in Hs as (_ & _ & Heq & _). by rewrite Heq in Hin.
Qed.

(** ** Properties of the sweep *)

Lemma set_columns_ok (vs : list (string * cell)) (r : row) :
  forallb (fun nc => assign_ok nc.1 nc.2) vs = true -> row_ok r -> row_ok (set_columns r vs).
Proof.
  revert r. induction vs as [|[n c] vs IH]; intros r Hvs Hr; [done|].
  apply andb_true_iff in Hvs as [Hc Hvs]. apply IH; [done|]. by apply row_ok_insert.
Qed.

Lemma reap_row_from_ok (n : nat) (evs : nat -> reap_event) (cs : list WalkerReaperConfig) (r : row) :
  forallb entry_ok cs = true -> row_ok r -> row_ok (reap_row_from n evs cs r).
Proof.
  revert n r. induction cs as [|c cs IH]; intros n r Hok Hr; [done|].
  apply andb_true_iff in Hok as [Hc Hok]. apply IH; [done|]. destruct (ev_db_ok (evs n)); [|done].
  unfold reap_row. case_match; [|done]. apply set_columns_ok; [|done].
  pose proof (entry_ok_spec c Hc) as (_ & _ & Hv). specialize (Hv (ev_now (evs n))).
  by apply andb_true_iff in Hv as [_ Hv].
Qed.

(** What the registries must name: status columns with the columns beside them. *)
Definition registered (key : string) (c : WalkerReaperConfig) : bool :=
  bool_decide (key = c.(column_name)) && forallb has_column (named_columns c) &&
  forallb (fun s => assign_ok c.(column_name) (CText s)) c.(in_progress_states) &&
  match c.(grace_minutes), given c.(started_at_column) with
  | Some _, Some s => assign_ok s (CTime 0) | Some _, None => false | None, _ => true end.

(** The registries match the model: every entry is filed under its own column, names
    only columns of the firmware table, expects only states that fit the column, and
    has a start column when it has a grace; every [*_walk_status] column has a walker
    entry and every other [*_status] column a state-machine entry; and a sweep, whatever
    statements fail, leaves rows that the table accepts. *)
Theorem reaper_typed (evs : nat -> reap_event) (rows : list row) :
  Forall row_ok rows ->
  Forall row_ok (reaper_sweep evs rows) /\
  (forall key c, (key, c) ∈ (STATE_MACHINE_REAPER_CONFIGS ++ WALKER_REAPER_CONFIGS)%list ->
     registered key c = true) /\
  (forall name, has_column name = true -> endswith name "_status" = true ->
     dict_has name (if endswith name "_walk_status" then WALKER_REAPER_CONFIGS
                    else STATE_MACHINE_REAPER_CONFIGS) = true).
Proof.
  intros Hrows. split_and!.
  - rewrite reaper_sweep_rows. apply Forall_fmap. eapply Forall_impl; [done|]. intros r Hr.
    apply reap_row_from_ok; [apply reaper_configs_ok|done].
  - intros key c Hin. assert (H : forallb (fun kc => registered kc.1 kc.2)
      (STATE_MACHINE_REAPER_CONFIGS ++ WALKER_REAPER_CONFIGS) = true) by (vm_compute; reflexivity).
    by apply (proj1 (forallb_elem _ _) H _ Hin).
  - intros name Hcol Hs. unfold has_column, dict_has in Hcol.
    apply bool_decide_eq_true_1 in Hcol as [col Hcol]. apply dict_get_elem in Hcol.
    assert (H : forallb (fun nc => implb (endswith nc.1 "_status")
      (dict_has nc.1 (if endswith nc.1 "_walk_status" then WALKER_REAPER_CONFIGS
                      else STATE_MACHINE_REAPER_CONFIGS))) firmware_columns = true) by (vm_compute; reflexivity).
    pose proof (proj1 (forallb_elem _ _) H _ Hcol) as Hn. cbn [fst] in Hn. by rewrite Hs in Hn.
Qed.

Lemma reaper_typed_witness :
  Forall row_ok (reaper_sweep (fun _ => {| ev_now := 5; ev_db_ok := true |}) [new_row]).
Proof. apply (reaper_typed _ [new_row]). constructor; [apply new_row_ok|constructor]. Defined.

(** C32. A sweep whose statements all succeed does, in every row and column, exactly what
    the first registered entry that writes the column does to the row as it stood
    before the sweep: the second registration of a column changes nothing, entries do
    not interfere, and no other column is touched. *)
Theorem reaper_sweep_spec (evs : nat -> reap_event) (rows : list row) (i : nat) (r : row) :
  (forall k, (evs k).(ev_db_ok) = true) ->
  rows !! i = Some r ->
  exists r', reaper_sweep evs rows !! i = Some r' /\
    forall name, field r' name = reaped evs reaper_configs 0 r name.
Proof.
  intros Hdb Hi. eexists. rewrite reaper_sweep_rows, list_lookup_fmap, Hi. split; [done|].
  intros name. apply reap_row_from_spec; [done|apply reaper_configs_ok..].
Qed.

(** A row whose ICS walk was running and whose upload was analysing an hour ago. *)
Definition stale_row : row :=
  <["upload_stage":=CText "analyzing"]> (<["upload_stage_started_at":=CTime 0]>
    (<["ics_protocol_walk_status":=CText "running"]> new_row)).

Definition restart_at (t : Z) : nat -> reap_event := fun _ => {| ev_now := t; ev_db_ok := true |}.

Lemma reaper_sweep_spec_witness :
  exists r', reaper_sweep (restart_at 3600000000) [stale_row] !! 0%nat = Some r' /\
    field r' "ics_protocol_walk_status" = CText "failed" /\
    field r' "ics_protocol_walk_error" = CText "Backend restarted; runner state lost" /\
    field r' "upload_stage" = CText "failed" /\ field r' "mft_walk_status" = CText "idle".
Proof.
  destruct (reaper_sweep_spec (restart_at 3600000000) [stale_row] 0 stale_row) as (r' & H & Hf);
    [done|done|]. exists r'. split; [exact H|]. rewrite !Hf.
  split_and!; vm_compute; reflexivity.
Defined.

Lemma pairs_ok_lookup (cs : list WalkerReaperConfig) (k : nat) (c : WalkerReaperConfig) :
  pairs_ok cs = true -> cs !! k = Some c ->
  forallb (compat c) (drop (S k) cs) = true /\
  forall c', c' ∈ take k cs -> compat c' c = true.
Proof.
  revert k. induction cs as [|d cs IH]; intros [|k] Hp Hk; try done; cbn in Hp, Hk;
    apply andb_true_iff in Hp as [Hd Hp].
  - simplify_eq. split; [done|]. intros c' Hc'. by apply not_elem_of_nil in Hc'.
  - destruct (IH k Hp Hk) as [H1 H2]. split; [done|]. intros c' [->|Hc']%elem_of_cons; [|by apply H2].
    apply (proj1 (forallb_elem _ _) Hd). by eapply list_elem_of_lookup_2.
Qed.

Lemma reap_row_from_split (n k : nat) (evs : nat -> reap_event) (cs : list WalkerReaperConfig)
    (c : WalkerReaperConfig) (r : row) :
  cs !! k = Some c ->
  reap_row_from n evs cs r =
  reap_row_from (S (n + k)) evs (drop (S k) cs)
    (let r1 := reap_row_from n evs (take k cs) r in
     if (evs (n + k)%nat).(ev_db_ok) then reap_row (evs (n + k)%nat).(ev_now) c r1 else r1).
Proof.
  revert n k r. induction cs as [|d cs IH]; intros n [|k] r Hk; try done; cbn in Hk.
  - simplify_eq. by rewrite Nat.add_0_r.
  - cbn [reap_row_from take]. rewrite (IH (S n) k) by done. by rewrite Nat.add_succ_r.
Qed.

Lemma separate_sym (c c' : WalkerReaperConfig) : separate c c' = true -> separate c' c = true.
Proof.
  intros (H1 & H2 & H3)%separate_spec. unfold separate. rewrite andb_true_iff, !forallb_forall.
  split; intros n Hn; apply bool_decide_eq_true_2.
  - apply in_app_iff in Hn as [Hn|Hn]; [by apply H3, list_elem_of_In|].
    intros Hw. apply (H2 n Hw). by apply list_elem_of_In.
  - by apply H1, list_elem_of_In.
Qed.

Lemma same_entry_grace (c : WalkerReaperConfig) (cs : list WalkerReaperConfig) :
  forallb (compat c) cs = true -> c.(grace_minutes) <> None -> forallb (separate c) cs = true.
Proof.
  intros Hc Hg. destruct (compat_split c cs Hc) as [[c' (_ & _ & _ & Hn & _)%same_entry_spec]|?]; done.
Qed.

Definition grace_only_upload (c : WalkerReaperConfig) : bool :=
  bool_decide (c.(grace_minutes) = None) ||
  (bool_decide (c.(column_name) = "upload_stage") && bool_decide (c.(grace_minutes) = Some 15) &&
   bool_decide (c.(started_at_column) = Some "upload_stage_started_at")).

Lemma reaper_configs_grace : forallb grace_only_upload reaper_configs = true.
Proof. vm_compute. reflexivity. Qed.

Lemma column_written (c : WalkerReaperConfig) : column_name c ∈ writes c.
Proof. unfold writes, reap_values. cbn. left. Qed.

Lemma forallb_drop {A} (f : A -> bool) (k : nat) (l : list A) : forallb f l = true -> forallb f (drop k l) = true.
Proof. revert k. induction l as [|x l IH]; intros [|k]; cbn; try done. intros [_ ?]%andb_true_iff. auto. Qed.

Lemma reap_row_from_live (evs : nat -> reap_event) (cs : list WalkerReaperConfig) (k : nat)
    (c : WalkerReaperConfig) (r : row) :
  forallb entry_ok cs = true -> pairs_ok cs = true ->
  cs !! k = Some c -> (evs k).(ev_db_ok) = true ->
  let r' := reap_row_from 0 evs cs r in
  in_progress c r' = true -> c.(grace_minutes) <> None /\ reap_where (evs k).(ev_now) c r' = false.
Proof.
  intros Hall Hpairs Hk Hdb r' Hp.
  destruct (pairs_ok_lookup _ _ _ Hpairs Hk) as [Hafter _].
  pose proof (proj1 (forallb_elem _ _) Hall _ (list_elem_of_lookup_2 _ _ _ Hk)) as Hc.
  pose proof (forallb_drop _ (S k) _ Hall) as Hrest.
  subst r'. rewrite (reap_row_from_split 0 k evs cs c r Hk) in Hp |- *. cbn [Nat.add] in Hp |- *.
  rewrite Hdb in Hp |- *. cbn zeta in Hp |- *.
  set (r1 := reap_row_from 0 evs (take k cs) r) in *. clearbody r1.
  set (r2 := reap_row (ev_now (evs k)) c r1) in *.
  assert (Hquiet : in_progress c r2 = false -> False).
  { intros Hq. unfold in_progress in Hp. rewrite (reap_row_from_settled _ _ _ c) in Hp
      by (auto using column_written). unfold in_progress in Hq. congruence. }
  destruct (reap_where (ev_now (evs k)) c r1) eqn:Ew; [exfalso; apply Hquiet, reap_row_quiet; auto|].
  destruct (decide (grace_minutes c = None)) as [Hg|Hg].
  { exfalso. apply Hquiet, reap_row_quiet; [done|]. right. by rewrite no_grace_where in Ew. }
  split; [done|]. assert (Hr2 : r2 = r1) by (unfold r2, reap_row; by rewrite Ew).
  rewrite <- Ew, <- Hr2. apply reap_where_reads. intros n Hn.
  pose proof (same_entry_grace c _ Hafter Hg). apply (reap_row_from_settled _ _ _ c); auto.
Qed.

(** Whether the upload of a row is too young, at a given time, to be reaped. *)
Definition upload_young (now : Z) (r : row) : Prop :=
  match field r "upload_stage_started_at" with CTime t => cutoff now 15 <= t | _ => True end.

Lemma grace_young (c : WalkerReaperConfig) (now : Z) (r : row) :
  grace_only_upload c = true -> c.(grace_minutes) <> None ->
  in_progress c r = true -> reap_where now c r = false ->
  c.(column_name) = "upload_stage" /\ upload_young now r.
Proof.
  unfold grace_only_upload. rewrite orb_true_iff, !andb_true_iff, !bool_decide_eq_true.
  intros [?|[[Hn Hm] Hst]] Hg Hp Hw; [done|]. split; [done|].
  unfold in_progress in Hp. unfold reap_where in Hw. rewrite Hp, Hm, Hst in Hw.
  change (given (Some "upload_stage_started_at")) with (Some "upload_stage_started_at") in Hw.
  cbn [andb] in Hw. unfold upload_young.
  destruct (field r "upload_stage_started_at"); try done. rewrite bool_decide_eq_false in Hw. lia.
Qed.

Lemma reap_from_live (evs : nat -> reap_event) (cs : list WalkerReaperConfig) (rows : list row) (k : nat)
    (c : WalkerReaperConfig) (r' : row) :
  forallb entry_ok cs = true -> pairs_ok cs = true -> forallb grace_only_upload cs = true ->
  cs !! k = Some c -> (evs k).(ev_db_ok) = true -> r' ∈ reap_from 0 evs cs rows ->
  in_progress c r' = true -> c.(column_name) = "upload_stage" /\ upload_young (evs k).(ev_now) r'.
Proof.
  intros Hall Hpairs Hg Hk Hdb Hr' Hp. rewrite reap_from_rows in Hr' by done.
  apply list_elem_of_fmap in Hr' as (r & -> & _).
  destruct (reap_row_from_live evs cs k c r Hall Hpairs Hk Hdb Hp) as [Hgr Hw].
  apply grace_young; [|done..]. by eapply forallb_elem, list_elem_of_lookup_2.
Qed.

(** After the sweep nothing is left in progress: every registered column whose own
    statement succeeded, whatever became of the other statements, is out of its
    in-progress states in every row; the one exception is an upload that is in progress
    with no start time or one less than fifteen minutes old. *)
Theorem reaper_sweep_live (evs : nat -> reap_event) (rows : list row) (k : nat)
    (c : WalkerReaperConfig) (r' : row) :
  reaper_configs !! k = Some c ->
  (evs k).(ev_db_ok) = true ->
  r' ∈ reaper_sweep evs rows ->
  in_progress c r' = true ->
  c.(column_name) = "upload_stage" /\ upload_young (evs k).(ev_now) r'.
Proof.
  destruct reaper_configs_ok as [Hall Hpairs].
  exact (reap_from_live evs reaper_configs rows k c r' Hall Hpairs reaper_configs_grace).
Qed.

(** The sweep of a restart ten minutes after the upload started. *)
Definition upload_config : WalkerReaperConfig :=
  default (_walker_reaper "" None) (dict_get "upload_stage" STATE_MACHINE_REAPER_CONFIGS).
Definition restarted_row : row := reap_row_from 0 (restart_at 600000000) reaper_configs stale_row.

Lemma reaper_sweep_live_witness :
  reaper_sweep (restart_at 600000000) [stale_row] = [restarted_row] /\
  field restarted_row "upload_stage" = CText "analyzing" /\
  upload_young (ev_now (restart_at 600000000 14)) restarted_row.
Proof.
  assert (H1 : reaper_configs !! 14%nat = Some upload_config) by (vm_compute; reflexivity).
  assert (H2 : reaper_sweep (restart_at 600000000) [stale_row] = [restarted_row]) by (apply reaper_sweep_rows).
  assert (H3 : restarted_row ∈ reaper_sweep (restart_at 600000000) [stale_row]) by (rewrite H2; left).
  assert (H4 : in_progress upload_config restarted_row = true) by (vm_compute; reflexivity).
  split; [exact H2|]. split; [vm_compute; reflexivity|].
  exact (proj2 (reaper_sweep_live (restart_at 600000000) [stale_row] 14 upload_config restarted_row H1 eq_refl H3 H4)).
Defined.
