(* ===== verification/Sorting.v ===== *)
(** * [sorted] and [list.sort]

    Python's stable sort with a key, as insertion sort over a decidable total preorder,
    with the lemmas that make its result determined: it is a sorted permutation, it keeps
    the order of equal keys, and it commutes with filters. *)

From S2P Require Import Prelude.
From stdpp Require Export sorting.

Section Sort.
Context {A : Type} (R : relation A) `{!RelDecision R}.

Fixpoint insert_by (x : A) (l : list A) : list A :=
  match l with
  | [] => [x]
  | y :: l' => if decide (R x y) then x :: y :: l' else y :: insert_by x l'
  end.

Fixpoint sort_by (l : list A) : list A :=
  match l with
  | [] => []
  | x :: l' => insert_by x (sort_by l')
  end.

Lemma insert_by_perm (x : A) (l : list A) : insert_by x l ≡ₚ x :: l.
Proof.
  induction l as [|y l IH]; [done|]. cbn. case_decide; [done|]. rewrite IH. apply perm_swap.
Qed.

Lemma sort_by_perm (l : list A) : sort_by l ≡ₚ l.
Proof. induction l as [|x l IH]; [done|]. cbn. by rewrite insert_by_perm, IH. Qed.

Lemma elem_of_sort_by (x : A) (l : list A) : x ∈ sort_by l <-> x ∈ l.
Proof. by rewrite sort_by_perm. Qed.

Lemma length_sort_by (l : list A) : length (sort_by l) = length l.
Proof. by rewrite sort_by_perm. Qed.

Context `{!Transitive R, !Total R}.

Lemma insert_by_sorted (x : A) (l : list A) : StronglySorted R l -> StronglySorted R (insert_by x l).
Proof.
  induction 1 as [|y l Hl IH Hy]; cbn; [repeat constructor|]. case_decide as Hxy.
  - constructor; [by constructor|]. constructor; [done|].
    eapply Forall_impl; [done|]. intros z Hz. by etransitivity.
  - constructor; [done|]. rewrite insert_by_perm. constructor; [|done].
    by destruct (total R x y).
Qed.

Lemma sort_by_sorted (l : list A) : StronglySorted R (sort_by l).
Proof. induction l as [|x l IH]; [constructor|]. by apply insert_by_sorted. Qed.

(** A list that is sorted already is left alone. *)
Lemma insert_by_least (x : A) (l : list A) : Forall (R x) l -> insert_by x l = x :: l.
Proof. destruct 1 as [|y l H]; [done|]. cbn. by rewrite decide_True. Qed.

Lemma sort_by_id (l : list A) : StronglySorted R l -> sort_by l = l.
Proof. induction 1 as [|x l Hl IH Hx]; [done|]. cbn. rewrite IH. by apply insert_by_least. Qed.

(** Filtering before or after sorting is the same. *)
Lemma insert_by_filter (P : A -> Prop) `{!forall x, Decision (P x)} (x : A) (l : list A) :
  StronglySorted R l -> filter P (insert_by x l) =
    if decide (P x) then insert_by x (filter P l) else filter P l.
Proof.
  induction 1 as [|y l Hl IH Hy]; cbn [insert_by].
  - rewrite filter_cons. by destruct (decide (P x)).
  - destruct (decide (R x y)) as [Hxy|Hxy].
    + rewrite (filter_cons P x). destruct (decide (P x)); [|done]. rewrite insert_by_least; [done|].
      apply Forall_forall. intros z [_ Hz]%list_elem_of_filter. apply elem_of_cons in Hz as [->|Hz]; [done|].
      rewrite Forall_forall in Hy. etransitivity; [done|]. by apply Hy.
    + rewrite !filter_cons, IH. destruct (decide (P y)), (decide (P x)); try done.
      cbn [insert_by]. by rewrite decide_False.
Qed.

Lemma sort_by_filter (P : A -> Prop) `{!forall x, Decision (P x)} (l : list A) :
  sort_by (filter P l) = filter P (sort_by l).
Proof.
  induction l as [|x l IH]; [done|]. cbn [sort_by]. rewrite insert_by_filter by apply sort_by_sorted.
  rewrite filter_cons. destruct (decide (P x)); cbn [sort_by]; by rewrite IH.
Qed.

(** The result depends only on the elements when no two of them have equal keys. *)
Lemma sort_by_unique (l l' : list A) :
  (forall x y, x ∈ l -> y ∈ l -> R x y -> R y x -> x = y) -> l ≡ₚ l' -> sort_by l = sort_by l'.
Proof.
  intros Hanti Hp. apply (StronglySorted_unique_strong R); [|apply sort_by_sorted..|].
  - intros x y Hx Hy. rewrite elem_of_sort_by in Hx. rewrite elem_of_sort_by, <- Hp in Hy.
    by apply Hanti.
  - by rewrite !sort_by_perm.
Qed.

(** The head is the first element that is least. *)
Lemma sort_by_head (l : list A) (x : A) :
  head (sort_by l) = Some x ->
  exists l1 l2, l = (l1 ++ x :: l2)%list /\ Forall (fun y => ~ R y x) l1 /\ Forall (R x) l2.
Proof.
  revert x. induction l as [|a l IH]; intros x; [done|]. cbn [sort_by].
  destruct (sort_by l) as [|h s] eqn:E.
  - intros [= <-]. assert (l = []) as -> by (apply length_zero_iff_nil; by rewrite <- length_sort_by, E).
    exists [], []. by repeat constructor.
  - destruct (IH h eq_refl) as (l1 & l2 & -> & H1 & H2). cbn [insert_by]. case_decide as Ha; intros [= <-].
    + exists [], (l1 ++ h :: l2)%list. split_and!; [done|constructor|]. apply Forall_app. split.
      * eapply Forall_impl; [exact H1|]. intros y Hy. destruct (total R h y) as [?|?]; [by etransitivity|done].
      * constructor; [done|]. eapply Forall_impl; [exact H2|]. intros y Hy. by etransitivity.
    + exists (a :: l1), l2. split_and!; [done|by constructor|done].
Qed.

(** Of several elements of a sorted list that pass a test, the first is before the others. *)
Lemma find_sorted (f : A -> bool) (l : list A) :
  match find f (sort_by l) with
  | Some x => x ∈ l /\ f x = true /\ forall y, y ∈ l -> f y = true -> R x y
  | None => forall y, y ∈ l -> f y = false
  end.
Proof.
  assert (H : forall s, StronglySorted R s ->
    match find f s with
    | Some x => x ∈ s /\ f x = true /\ forall y, y ∈ s -> f y = true -> R x y
    | None => forall y, y ∈ s -> f y = false
    end).
  { induction 1 as [|x s Hs IH Hx]; cbn [find]; [by intros y Hy%not_elem_of_nil|]. destruct (f x) eqn:Ex.
    - split_and!; [by left|done|]. rewrite Forall_forall in Hx. intros y [->|Hy]%elem_of_cons Hf; [|by apply Hx].
      by destruct (total R x x).
    - destruct (find f s) as [z|].
      + destruct IH as (Hz & Hf & Hb). split_and!; [by right|done|]. intros y [->|Hy]%elem_of_cons Hy'; [congruence|by apply Hb].
      + intros y [->|Hy]%elem_of_cons; [done|by apply IH]. }
  specialize (H (sort_by l) (sort_by_sorted l)). destruct (find f _) as [x|].
  - destruct H as (Hx & Hf & Hb). rewrite elem_of_sort_by in Hx. split_and!; [done..|]. intros y Hy. by apply Hb, elem_of_sort_by.
  - intros y Hy. by apply H, elem_of_sort_by.
Qed.
End Sort.

(** Sorting by a key. *)
Definition key_rel {A K} (le : relation K) (f : A -> K) : relation A := fun x y => le (f x) (f y).

Section Key.
Context {A K : Type} (le : relation K) (f : A -> K).
#[export] Instance key_rel_dec `{!RelDecision le} : RelDecision (key_rel le f).
Proof. intros x y. unfold key_rel. apply _. Defined.
#[export] Instance key_rel_trans `{!Transitive le} : Transitive (key_rel le f).
Proof. intros x y z. unfold key_rel. apply transitivity. Qed.
#[export] Instance key_rel_total `{!Total le} : Total (key_rel le f).
Proof. intros x y. unfold key_rel. apply total, _. Qed.
End Key.

(** ** Tuples *)

(** Tuples compare by their first components, then by their second ones. *)
Definition lex {A B} (R : relation A) (S : relation B) : relation (A * B) :=
  fun x y => R x.1 y.1 /\ (R y.1 x.1 -> S x.2 y.2).

Section Lex.
Context {A B : Type} (R : relation A) (S : relation B).
#[export] Instance lex_dec `{!RelDecision R, !RelDecision S} : RelDecision (lex R S).
Proof. intros x y. unfold lex. apply _. Defined.
#[export] Instance lex_trans `{!Transitive R, !Transitive S} : Transitive (lex R S).
Proof.
  intros x y z [H1 H2] [H3 H4]. split; [by etransitivity|]. intros H5.
  etransitivity; [apply H2|apply H4]; by etransitivity.
Qed.
#[export] Instance lex_total `{!RelDecision R, !Total R, !Total S} : Total (lex R S).
Proof.
  intros x y. unfold lex. destruct (decide (R x.1 y.1)), (decide (R y.1 x.1)), (total S x.2 y.2),
    (total R x.1 y.1); tauto.
Qed.
Lemma not_lex `{!RelDecision R, !RelDecision S, !Total R} (x y : A * B) :
  ~ lex R S x y <-> ~ R x.1 y.1 \/ R x.1 y.1 /\ R y.1 x.1 /\ ~ S x.2 y.2.
Proof. unfold lex. destruct (decide (R x.1 y.1)), (decide (R y.1 x.1)), (decide (S x.2 y.2)); tauto. Qed.
End Lex.
