(* ===== verification/ManifestLib.v ===== *)
(** * What the two manifest catalogues share

    Doubles, [bytes.fromhex], the field constraints that both schemas use, the comparison
    under a mask, and lemmas on filtered signal lists.  The copies that the two packages
    hold in the source are the same text; the ICS ones are cited. *)

From S2P Require Import Prelude PyText Json.
From Stdlib Require Import Ascii String SpecFloat.
Import (notations) Ascii String.
#[local] Open Scope Z_scope.

(** ** Doubles *)

Definition fadd : spec_float -> spec_float -> spec_float := SFadd 53 1024.
Definition fmul : spec_float -> spec_float -> spec_float := SFmul 53 1024.
Definition float_of_Z (z : Z) : spec_float := binary_normalize 53 1024 z 0 false.

(** ** [bytes.fromhex] *)

Definition hex_value (a : ascii) : option Z :=
  let n := Z.of_N (N_of_ascii a) in
  if bool_decide (48 <= n <= 57) then Some (n - 48)
  else if bool_decide (97 <= n <= 102) then Some (n - 87)
  else if bool_decide (65 <= n <= 70) then Some (n - 55)
  else None.

(** ASCII white space, as [bytes.fromhex] skips it between bytes. *)
Definition is_hex_space (a : ascii) : bool :=
  let n := N_of_ascii a in bool_decide (n = 32 \/ 9 <= n <= 13)%N.

(** [None] where the call raises [ValueError]. *)
Fixpoint fromhex (s : string) : option bytes :=
  match s with
  | "" => Some []
  | String a s' =>
      if is_hex_space a then fromhex s'
      else match hex_value a, s' with
           | Some hi, String b s'' =>
               match hex_value b with
               | Some lo => (fun l => byte_of_Z (16 * hi + lo) :: l) <$> fromhex s''
               | None => None
               end
           | _, _ => None
           end
  end.

Example fromhex_ex :
  fromhex "4e 20" = Some [Byte.x4e; Byte.x20] /\ fromhex "    " = Some [] /\
  fromhex "4" = None /\ fromhex "4 e" = None /\ fromhex "zz" = None.
Proof. by vm_compute. Qed.

(** ** Field constraints *)

Definition opt_ok {A} (f : A -> bool) (o : option A) : bool := match o with Some a => f a | None => true end.
Definition max_len (n : Z) (s : string) : bool := py_len s <=? n.
Definition is_hex (s : string) : bool := match fromhex s with Some _ => true | None => false end.

Definition needle_ok (needle : string) : bool :=
  (py_len needle mod 2 =? 0) && in_range 4 (py_len needle) 128 && is_hex needle.

Definition nonempty {A} (o : option (list A)) : bool :=
  match o with Some (_ :: _) => true | _ => false end.

(** The pattern [^[a-z][a-z0-9_]*$]. *)
Definition id_char (a : ascii) : bool := is_lower a || is_digit a || is_char "_"%char a.

Definition manifest_id_ok (s : string) : bool :=
  match s with
  | String a s' => is_lower a && forallb id_char (String.list_ascii_of_string s')
  | "" => false
  end && max_len 64 s.

(** ** Paths *)

(** Paths compare by their parts. *)
Fixpoint parts_leb (a b : list string) : bool :=
  match a, b with
  | [], _ => true
  | _ :: _, [] => false
  | x :: a, y :: b => if bool_decide (x = y) then parts_leb a b else String.leb x y
  end.

(** ** Bytes under a mask, hits *)

Fixpoint map2 {A B C} (f : A -> B -> C) (l : list A) (k : list B) : list C :=
  match l, k with a :: l, b :: k => f a b :: map2 f l k | _, _ => [] end.

Definition masked (mask data : bytes) : list Z := map2 (fun d m => Z.land (byteZ d) (byteZ m)) data mask.

Definition count_true (l : list bool) : Z := zlen (List.filter id l).

(** ** Lists of signals *)

Lemma imap_pair_snd {A} (l : list A) : (imap (fun i s => (i, s)) l).*2 = l.
Proof.
  rewrite fmap_imap. rewrite (imap_ext _ (fun _ x => x)) by done.
  induction l as [|x l IH]; [done|]. cbn. f_equal. exact IH.
Qed.

Lemma filter_all {A} (f : A -> bool) (l : list A) : forallb f l = true -> List.filter f l = l.
Proof.
  induction l as [|x l IH]; cbn; [done|]. intros [Hx Hl]%andb_true_iff. by rewrite Hx, IH.
Qed.

(** An element of a filtered list and what it comes from. *)
Lemma omap_split {A B} (f : A -> option B) (l : list A) (k1 : list B) (y : B) (k2 : list B) :
  omap f l = (k1 ++ y :: k2)%list ->
  exists l1 x l2, l = (l1 ++ x :: l2)%list /\ omap f l1 = k1 /\ f x = Some y /\ omap f l2 = k2.
Proof.
  revert k1. induction l as [|a l IH]; intros k1 H; [by destruct k1|]. cbn in H.
  destruct (f a) as [b|] eqn:E; [|destruct (IH k1 H) as (l1 & x & l2 & -> & ? & ? & ?); exists (a :: l1), x, l2; cbn; by rewrite E].
  destruct k1 as [|z k1]; injection H as -> H.
  - by exists [], a, l.
  - destruct (IH k1 H) as (l1 & x & l2 & -> & ? & ? & ?). exists (a :: l1), x, l2. cbn. rewrite E. split_and!; congruence.
Qed.

(** ** Dictionaries *)

Lemma dict_get_or_set {K A} `{!EqDecision K} (k k' : K) (v dflt : A) (d : list (K * A)) :
  dict_get_or k' dflt (dict_set k v d) = if decide (k = k') then v else dict_get_or k' dflt d.
Proof.
  unfold dict_get_or. case_decide as Hk; [subst; by rewrite dict_get_set_eq|].
  by rewrite dict_get_set_ne.
Qed.

(** Keys of a dictionary built with [dict_set] are distinct, and each is found. *)
Lemma dict_set_keys {K A} `{!EqDecision K} (k : K) (v : A) (d : list (K * A)) (x : K) :
  x ∈ (dict_set k v d).*1 <-> x = k \/ x ∈ d.*1.
Proof.
  induction d as [|[k' v'] d IH]; cbn; [set_solver|]. case_decide; cbn; [set_solver|].
  rewrite !elem_of_cons, IH. tauto.
Qed.

Lemma dict_set_nodup {K A} `{!EqDecision K} (k : K) (v : A) (d : list (K * A)) :
  NoDup d.*1 -> NoDup (dict_set k v d).*1.
Proof.
  induction d as [|[k' v'] d IH]; cbn; intros H; [repeat constructor; by intros ?%elem_of_nil|].
  apply NoDup_cons in H as [Hk Hd]. case_decide as He; cbn; [subst; by constructor|].
  constructor; [|auto]. rewrite dict_set_keys. naive_solver.
Qed.

Lemma nodup_dict_get {K A} `{!EqDecision K} (k : K) (v : A) (d : list (K * A)) :
  NoDup d.*1 -> (k, v) ∈ d -> dict_get k d = Some v.
Proof.
  induction d as [|[k' v'] d IH]; intros Hnd Hin; [by apply not_elem_of_nil in Hin|].
  cbn in Hnd. apply NoDup_cons in Hnd as [Hk Hnd]. cbn. apply elem_of_cons in Hin as [[= <- <-]|Hin].
  - by rewrite decide_True.
  - rewrite decide_False; [auto|]. intros ->. apply Hk. apply list_elem_of_fmap. by exists (k, v).
Qed.

(** ** Groups *)

Section Group.
Context {K A : Type} `{!EqDecision K}.

(** [d.setdefault(key, []).append(value)]. *)
Definition file_under (d : list (K * list A)) (e : K * A) : list (K * list A) :=
  dict_set e.1 (dict_get_or e.1 [] d ++ [e.2])%list d.

Definition grouped (es : list (K * A)) : list (K * list A) := foldl file_under [] es.

Definition members_of (es : list (K * A)) (k : K) : list A := (List.filter (fun e => bool_decide (e.1 = k)) es).*2.

Lemma members_of_app (es es' : list (K * A)) (k : K) :
  members_of (es ++ es') k = (members_of es k ++ members_of es' k)%list.
Proof. unfold members_of. by rewrite List.filter_app, fmap_app. Qed.

Lemma elem_of_members (es : list (K * A)) (k : K) (x : A) : x ∈ members_of es k <-> (k, x) ∈ es.
Proof.
  unfold members_of. rewrite list_elem_of_fmap. setoid_rewrite list_elem_of_In.
  setoid_rewrite List.filter_In. setoid_rewrite bool_decide_eq_true. split.
  - intros ([k' x'] & -> & Hin & He). cbn in *. by subst.
  - intros H. by exists (k, x).
Qed.

Lemma grouped_get (es : list (K * A)) (d : list (K * list A)) (k : K) :
  dict_get_or k [] (foldl file_under d es) = (dict_get_or k [] d ++ members_of es k)%list.
Proof.
  revert d. induction es as [|[k' x] es IH]; intros d; [by rewrite app_nil_r|].
  cbn [foldl]. rewrite IH. unfold file_under. cbn [fst snd]. rewrite dict_get_or_set.
  unfold members_of at 2. cbn [List.filter fst]. destruct (decide (k' = k)) as [->|Hne].
  - rewrite bool_decide_eq_true_2 by done. cbn [fmap list_fmap]. by rewrite <- app_assoc.
  - by rewrite bool_decide_eq_false_2.
Qed.

Lemma grouped_nodup (es : list (K * A)) : NoDup (grouped es).*1.
Proof.
  unfold grouped. assert (H : NoDup (@nil (K * list A)).*1) by constructor. revert H.
  generalize (@nil (K * list A)). induction es as [|e es IH]; intros d H; [done|]. apply IH. by apply dict_set_nodup.
Qed.

Lemma grouped_members (es : list (K * A)) (k : K) (xs : list A) : (k, xs) ∈ grouped es -> xs = members_of es k.
Proof.
  intros Hin. apply nodup_dict_get in Hin; [|apply grouped_nodup].
  pose proof (grouped_get es [] k) as H. rewrite app_nil_l in H.
  rewrite <- H. unfold dict_get_or. unfold grouped in Hin. by rewrite Hin.
Qed.

Lemma grouped_complete (es : list (K * A)) (k : K) : members_of es k <> [] -> (k, members_of es k) ∈ grouped es.
Proof.
  intros Hne. pose proof (grouped_get es [] k) as H. rewrite app_nil_l in H.
  unfold dict_get_or in H. fold (grouped es) in H.
  destruct (dict_get k (grouped es)) as [xs|] eqn:E; cbn in H; [|done].
  apply dict_get_elem in E. by rewrite <- H.
Qed.
End Group.
