(* ===== verification/IcsSchema.v ===== *)
(** * ICS protocol manifests ([schemas/ics_protocol.py])

    The closed grammar of the detection manifests: the literals as inductive types, the
    Pydantic models as records, and their field constraints and validators as boolean
    predicates.  A document that does not fit the types is no value here; one that fits
    them is accepted when [manifest_ok] holds.  Floating-point weights are IEEE doubles
    ([SpecFloat]). *)

From S2P Require Import Prelude PyText ManifestLib.
From Stdlib Require Import Ascii String SpecFloat.
Import (notations) Ascii String.
#[local] Open Scope Z_scope.

(** ** Literals *)

Inductive IcsManifestSource :=
  | src_system | src_core | src_operator | src_attested_external | src_unauthenticated_external.
Inductive IcsProtocolFamily := modbus_tcp | modbus_rtu | dnp3 | s7comm | unknown_ics.
Inductive IcsLayer := layer_application | layer_transport | layer_data_link | layer_session.
Inductive IcsTransport := tcp | udp | ethernet_raw | serial_rs485 | any_transport.
Inductive IcsSignalKind :=
  | magic_bytes | port_signature | function_code_set | string_in_binary | library_symbol.
Inductive IcsArtifactSource := binary | config_file | embedded_blob | any_artifact.
Inductive IcsCertainty := stack_present | config_present | string_only.
Inductive IcsCombine := all_required | any_signal | weighted.
Inductive IcsConfidence := conf_high | conf_medium | conf_low.
Inductive IcsDeprecationStatus := active | deprecated | removed.
Inductive IcsVendorAuthority := curated | operator_supplied | community.
Inductive needle_combine := combine_any | combine_all.

#[export] Instance IcsManifestSource_eq : EqDecision IcsManifestSource.
Proof. solve_decision. Defined.
#[export] Instance IcsProtocolFamily_eq : EqDecision IcsProtocolFamily.
Proof. solve_decision. Defined.
#[export] Instance IcsSignalKind_eq : EqDecision IcsSignalKind.
Proof. solve_decision. Defined.
#[export] Instance IcsCombine_eq : EqDecision IcsCombine.
Proof. solve_decision. Defined.
#[export] Instance IcsConfidence_eq : EqDecision IcsConfidence.
Proof. solve_decision. Defined.
#[export] Instance IcsCertainty_eq : EqDecision IcsCertainty.
Proof. solve_decision. Defined.
#[export] Instance IcsTransport_eq : EqDecision IcsTransport.
Proof. solve_decision. Defined.
#[export] Instance IcsDeprecationStatus_eq : EqDecision IcsDeprecationStatus.
Proof. solve_decision. Defined.

(** ** Models *)

Record IcsStringInBinaryConstraint := {
  needles_hex : list string;
  case_sensitive : bool;
  needles_combine : needle_combine;
  needles_min_count : Z;
  search_offset : Z;
  search_length : option Z
}.

Record IcsFunctionCodeSetConstraint := {
  function_codes_hex : list string;
  codes_min_count : Z;
  window_bytes : Z
}.

Record IcsDetectionSignal := {
  kind : IcsSignalKind;
  weight : spec_float;
  artifact_source : IcsArtifactSource;
  offset : option Z;
  bytes_hex : option string;
  mask_hex : option string;
  ports : option (list Z);
  transport_required : option IcsTransport;
  function_code_constraint : option IcsFunctionCodeSetConstraint;
  string_in_binary_constraint : option IcsStringInBinaryConstraint;
  symbol_patterns_lower : option (list string);
  signal_description : option string
}.

Record IcsDetection := {
  combine : IcsCombine;
  signals : list IcsDetectionSignal;
  min_confidence_score : option spec_float;
  certainty : IcsCertainty
}.

Record IcsOutput := {
  protocol_family : IcsProtocolFamily;
  layer : IcsLayer;
  transport : IcsTransport;
  vendor : string;
  vendor_product : option string;
  protocol_version : option string;
  confidence : IcsConfidence
}.

Record IcsDeprecation := {
  status : IcsDeprecationStatus;
  replaced_by : option string;
  sunset_at : option string;
  deprecation_notes : option string
}.

Record IcsProtocolManifest := {
  manifest_id : string;
  manifest_source : IcsManifestSource;
  precedence : Z;
  detection : IcsDetection;
  output : IcsOutput;
  deprecation : IcsDeprecation;
  notes : option string;
  references : list string
}.

Record IcsProtocolMatch := {
  m_manifest_id : string;
  m_manifest_source : IcsManifestSource;
  m_protocol_family : IcsProtocolFamily;
  m_layer : IcsLayer;
  m_transport : IcsTransport;
  m_vendor : string;
  m_vendor_product : option string;
  m_protocol_version : option string;
  m_confidence : IcsConfidence;
  m_certainty : IcsCertainty;
  matched_signals : list IcsSignalKind
}.

(** ** Validation *)

Definition string_constraint_ok (c : IcsStringInBinaryConstraint) : bool :=
  in_range 1 (zlen c.(needles_hex)) 16 && in_range 1 c.(needles_min_count) 16 &&
  in_range 0 c.(search_offset) (2 ^ 16) && opt_ok (fun n => in_range 64 n (2 ^ 20)) c.(search_length) &&
  forallb needle_ok c.(needles_hex) && (c.(needles_min_count) <=? zlen c.(needles_hex)).

Definition code_ok (code : string) : bool := (py_len code =? 2) && is_hex code.

Definition codes_constraint_ok (c : IcsFunctionCodeSetConstraint) : bool :=
  in_range 2 (zlen c.(function_codes_hex)) 64 && in_range 2 c.(codes_min_count) 64 &&
  in_range 64 c.(window_bytes) 4096 &&
  forallb code_ok c.(function_codes_hex) && (c.(codes_min_count) <=? zlen c.(function_codes_hex)).

Definition magic_ok (bytes_hex mask_hex : option string) (offset : option Z) : bool :=
  match bytes_hex, offset with
  | Some b, Some _ =>
      (py_len b mod 2 =? 0) && (4 <=? py_len b) && is_hex b &&
      opt_ok (fun m => (py_len m =? py_len b) &&
                       negb (forallb (is_char "0"%char) (String.list_ascii_of_string m))) mask_hex
  | _, _ => false
  end.

Definition symbol_ok (sym : string) : bool := (5 <=? py_len sym) && bool_decide (sym = lower sym).

Definition is_kind (k : IcsSignalKind) (s : IcsDetectionSignal) : bool := bool_decide (s.(kind) = k).

Definition _check_kind_fields (s : IcsDetectionSignal) : bool :=
  implb (is_kind magic_bytes s) (magic_ok s.(bytes_hex) s.(mask_hex) s.(offset)) &&
  implb (is_kind port_signature s)
    (nonempty s.(ports) && opt_ok (forallb (fun p => (0 <? p) && (p <=? 65535))) s.(ports)) &&
  Bool.eqb (is_kind function_code_set s) (match s.(function_code_constraint) with Some _ => true | None => false end) &&
  Bool.eqb (is_kind string_in_binary s) (match s.(string_in_binary_constraint) with Some _ => true | None => false end) &&
  implb (is_kind library_symbol s)
    (nonempty s.(symbol_patterns_lower) && opt_ok (forallb symbol_ok) s.(symbol_patterns_lower)).

Definition signal_ok (s : IcsDetectionSignal) : bool :=
  SFleb (float_of_Z 0) s.(weight) && SFleb s.(weight) (float_of_Z 1) &&
  opt_ok (fun z => in_range 0 z (2 ^ 32 - 1)) s.(offset) &&
  opt_ok (max_len 1024) s.(bytes_hex) && opt_ok (max_len 1024) s.(mask_hex) &&
  opt_ok (fun l => zlen l <=? 8) s.(ports) && opt_ok (fun l => zlen l <=? 32) s.(symbol_patterns_lower) &&
  opt_ok (max_len 256) s.(signal_description) &&
  opt_ok codes_constraint_ok s.(function_code_constraint) &&
  opt_ok string_constraint_ok s.(string_in_binary_constraint) &&
  _check_kind_fields s.

Definition detection_ok (d : IcsDetection) : bool :=
  in_range 1 (zlen d.(signals)) 16 && forallb signal_ok d.(signals) &&
  opt_ok (fun f => SFleb (float_of_Z 0) f && SFleb f (float_of_Z 100)) d.(min_confidence_score) &&
  implb (bool_decide (d.(combine) = weighted))
        (match d.(min_confidence_score) with Some _ => true | None => false end).

Definition output_ok (o : IcsOutput) : bool :=
  in_range 1 (py_len o.(vendor)) 64 && opt_ok (max_len 64) o.(vendor_product) &&
  opt_ok (max_len 32) o.(protocol_version).

Definition deprecation_ok (d : IcsDeprecation) : bool :=
  opt_ok (max_len 64) d.(replaced_by) && opt_ok (max_len 64) d.(sunset_at) &&
  opt_ok (max_len 512) d.(deprecation_notes).

Definition manifest_ok (m : IcsProtocolManifest) : bool :=
  manifest_id_ok m.(manifest_id) && in_range 0 m.(precedence) 10000 &&
  detection_ok m.(detection) && output_ok m.(output) && deprecation_ok m.(deprecation) &&
  opt_ok (max_len 8192) m.(notes) && (zlen m.(references) <=? 16) &&
  negb ((m.(precedence) <? 10) && negb (bool_decide (m.(manifest_source) = src_system))).
