(* ===== verification/IcsResolver.v ===== *)
(** * ICS protocol resolver ([services/ics_protocol_catalog/resolver.py])

    The signal evaluators, the evaluation of one manifest and the resolution of a binary
    against a snapshot.  [None] from an evaluator is a raised exception, which
    [_evaluate_manifest] takes for no match. *)

From S2P Require Import Prelude PyText Json Sorting ManifestLib IcsSchema.
From Stdlib Require Import Ascii String SpecFloat.
Import (notations) Ascii String.
#[local] Open Scope Z_scope.

Definition _SOURCE_PRECEDENCE (s : IcsManifestSource) : Z :=
  match s with
  | src_system => 100 | src_core => 80 | src_operator => 60
  | src_attested_external => 40 | src_unauthenticated_external => 20
  end.

Definition _SIGNAL_COST_CLASS (k : IcsSignalKind) : Z :=
  match k with
  | port_signature => 0 | magic_bytes => 1 | function_code_set => 2 | library_symbol => 2
  | string_in_binary => 3
  end.

(** The symbol caches, by path; the walker never fills them. *)
Record IcsResolverContext := {
  elf_dynsym_cache : list (string * list string);
  pe_imports_cache : list (string * list string)
}.

Definition empty_context : IcsResolverContext := {| elf_dynsym_cache := []; pe_imports_cache := [] |}.

(** ** Evaluators *)

Definition _eval_magic_bytes (signal : IcsDetectionSignal) (blob_head : bytes) : bool :=
  match signal.(bytes_hex), signal.(offset) with
  | Some hex, Some off =>
      match fromhex hex with
      | None => false
      | Some expected =>
          let end_ := off + zlen expected in
          if zlen blob_head <? end_ then false
          else
            let actual := zslice off end_ blob_head in
            match signal.(mask_hex) with
            | None => bool_decide (actual = expected)
            | Some mhex =>
                match fromhex mhex with
                | None => false
                | Some mask =>
                    (zlen mask =? zlen expected) && bool_decide (masked mask actual = masked mask expected)
                end
            end
      end
  | _, _ => false
  end.

Definition string_window (c : IcsStringInBinaryConstraint) (blob_head : bytes) : bytes :=
  match c.(search_length) with
  | None => zdrop c.(search_offset) blob_head
  | Some n => zslice c.(search_offset) (c.(search_offset) + n) blob_head
  end.

Definition _eval_string_in_binary (signal : IcsDetectionSignal) (blob_head : bytes) : bool :=
  match signal.(string_in_binary_constraint) with
  | None => false
  | Some c =>
      match mapM fromhex c.(needles_hex) with
      | None => false
      | Some needles =>
          if zlen blob_head <=? c.(search_offset) then false
          else
            let fold := if c.(case_sensitive) then id else blower in
            let window := fold (string_window c blob_head) in
            let hits := count_true ((fun n => bcontains (fold n) window) <$> needles) in
            match c.(needles_combine) with
            | combine_all => hits =? zlen needles
            | combine_any => c.(needles_min_count) <=? hits
            end
      end
  end.

(** [bytes.fromhex(c)[0]]: no first byte raises [IndexError], caught like [ValueError]. *)
Definition function_code (c : string) : option byte := fromhex c ≫= head.

Definition target_codes (c : IcsFunctionCodeSetConstraint) : option (list byte) :=
  remove_dups <$> mapM function_code c.(function_codes_hex).

(** [range(0, n, step)]. *)
Definition range_step (n step : Z) : list Z :=
  (fun k => Z.of_nat k * step) <$> seq 0 (Z.to_nat ((n + step - 1) / step)).

(** [len(target_codes & set(window))]. *)
Definition codes_in (codes : list byte) (window : bytes) : Z :=
  zlen (List.filter (fun b => bool_decide (b ∈ window)) codes).

Definition scan_step (window : Z) : Z := Z.max (window / 4) 64.

Definition _eval_function_code_set (signal : IcsDetectionSignal) (blob_head : bytes) : bool :=
  match signal.(function_code_constraint) with
  | None => false
  | Some c =>
      match target_codes c with
      | None | Some [] => false
      | Some codes =>
          let n := zlen blob_head in
          if n <? c.(codes_min_count) then false
          else existsb (fun start =>
                 c.(codes_min_count) <=?
                   codes_in codes (zslice start (Z.min (start + c.(window_bytes)) n) blob_head))
               (range_step n (scan_step c.(window_bytes)))
      end
  end.

(** [to_bytes(2, "little")] raises [OverflowError] out of range. *)
Fixpoint port_found (ports : list Z) (blob_head : bytes) : option bool :=
  match ports with
  | [] => Some false
  | p :: ports =>
      if in_range 0 p 65535
      then if bcontains (le_enc 2 p) blob_head then Some true else port_found ports blob_head
      else None
  end.

Definition _eval_port_signature (signal : IcsDetectionSignal) (blob_head : bytes) : option bool :=
  match signal.(ports) with
  | None => Some false
  | Some ports => port_found ports blob_head
  end.

Definition _eval_library_symbol (signal : IcsDetectionSignal) (path : string)
    (context : option IcsResolverContext) : bool :=
  match signal.(symbol_patterns_lower), context with
  | Some patterns, Some context =>
      let cached := (dict_get_or path [] context.(elf_dynsym_cache) ++
                     dict_get_or path [] context.(pe_imports_cache))%list in
      existsb (fun p => existsb (fun s => contains p (lower s)) cached) patterns
  | _, _ => false
  end.

Definition SIGNAL_EVALUATORS (k : IcsSignalKind) (signal : IcsDetectionSignal) (blob_head : bytes)
    (path : string) (context : option IcsResolverContext) : option bool :=
  match k with
  | magic_bytes => Some (_eval_magic_bytes signal blob_head)
  | string_in_binary => Some (_eval_string_in_binary signal blob_head)
  | function_code_set => Some (_eval_function_code_set signal blob_head)
  | port_signature => _eval_port_signature signal blob_head
  | library_symbol => Some (_eval_library_symbol signal path context)
  end.

(** ** One manifest *)

Definition _certainty_to_confidence (d : IcsDetection) (operator_confidence : IcsConfidence) : IcsConfidence :=
  match d.(certainty) with
  | string_only => conf_low
  | config_present => match operator_confidence with conf_high => conf_medium | c => c end
  | stack_present => operator_confidence
  end.

Section Evaluate.
Context (blob_head : bytes) (path : string) (context : option IcsResolverContext).

(** [matched], a raising evaluator counted as a miss. *)
Definition fires (signal : IcsDetectionSignal) : bool :=
  default false (SIGNAL_EVALUATORS signal.(kind) signal blob_head path context).

(** The key [(cost class, position)] of the evaluation order. *)
Definition signal_key (p : nat * IcsDetectionSignal) : Z * nat := (_SIGNAL_COST_CLASS p.2.(kind), p.1).
Definition key_le : relation (Z * nat) := lex Z.le le.

Definition sorted_signals (d : IcsDetection) : list IcsDetectionSignal :=
  (sort_by (key_rel key_le signal_key) (imap (fun i s => (i, s)) d.(signals))).*2.

(** The loop over the sorted signals: [None] is the early return of [all_required]. *)
Fixpoint signal_loop (all_required_ : bool) (sigs : list IcsDetectionSignal)
    (matched_kinds : list IcsSignalKind) (weighted_score : spec_float)
    : option (list IcsSignalKind * spec_float) :=
  match sigs with
  | [] => Some (matched_kinds, weighted_score)
  | s :: sigs =>
      if fires s
      then signal_loop all_required_ sigs (matched_kinds ++ [s.(kind)])%list
             (fadd weighted_score (fmul s.(weight) (float_of_Z 100)))
      else if all_required_ then None
      else signal_loop all_required_ sigs matched_kinds weighted_score
  end.

Definition _evaluate_manifest (m : IcsProtocolManifest) : option IcsProtocolMatch :=
  let d := m.(detection) in
  let all := bool_decide (d.(combine) = all_required) in
  match signal_loop all (sorted_signals d) [] (float_of_Z 0) with
  | None => None
  | Some (matched_kinds, weighted_score) =>
      let rejected :=
        match matched_kinds with [] => true | _ => false end ||
        (bool_decide (d.(combine) = weighted) &&
         match d.(min_confidence_score) with
         | None => true
         | Some floor => SFltb weighted_score floor
         end) ||
        (all && negb (zlen matched_kinds =? zlen d.(signals))) in
      if rejected then None
      else Some {| m_manifest_id := m.(manifest_id); m_manifest_source := m.(manifest_source);
                   m_protocol_family := m.(output).(protocol_family);
                   m_layer := m.(output).(layer); m_transport := m.(output).(transport);
                   m_vendor := m.(output).(vendor); m_vendor_product := m.(output).(vendor_product);
                   m_protocol_version := m.(output).(protocol_version);
                   m_confidence := _certainty_to_confidence d m.(output).(confidence);
                   m_certainty := d.(certainty);
                   matched_signals := matched_kinds |}
  end.

(** ** A snapshot *)

Definition match_key (m : IcsProtocolMatch) : Z * string :=
  (- _SOURCE_PRECEDENCE m.(m_manifest_source), m.(m_manifest_id)).
Definition match_key_le : relation (Z * string) := lex Z.le String.le.

Definition is_removed (m : IcsProtocolManifest) : bool :=
  bool_decide (m.(deprecation).(status) = removed).
End Evaluate.

Definition resolve_all (blob_head : bytes) (path : string) (snapshot : list IcsProtocolManifest)
    (context : option IcsResolverContext) : list IcsProtocolMatch :=
  let context := Some (default empty_context context) in
  sort_by (key_rel match_key_le match_key)
    (omap (fun m => if is_removed m then None else _evaluate_manifest blob_head path context m) snapshot).

(** ** The evaluation of a manifest *)

Lemma signal_loop_spec (head : bytes) (path : string) (ctx : option IcsResolverContext) (all : bool)
    (sigs : list IcsDetectionSignal) (kinds : list IcsSignalKind) (w : spec_float) :
  let fired := List.filter (fires head path ctx) sigs in
  signal_loop head path ctx all sigs kinds w =
  if all && negb (forallb (fires head path ctx) sigs) then None
  else Some ((kinds ++ (kind <$> fired))%list,
             foldl (fun w s => fadd w (fmul s.(weight) (float_of_Z 100))) w fired).
Proof.
  revert kinds w. induction sigs as [|s sigs IH]; intros kinds w; cbn -[fires float_of_Z fadd fmul].
  - by rewrite andb_false_r, app_nil_r.
  - destruct (fires head path ctx s); cbn -[fires float_of_Z fadd fmul].
    + rewrite IH. cbn zeta. by rewrite <- app_assoc.
    + destruct all; [done|]. by rewrite IH.
Qed.

(** The signals that fire, cheapest class first. *)
Definition fired_signals (head : bytes) (path : string) (ctx : option IcsResolverContext)
    (d : IcsDetection) : list IcsDetectionSignal :=
  List.filter (fires head path ctx) (sorted_signals d).

Definition score (sigs : list IcsDetectionSignal) : spec_float :=
  foldl (fun w s => fadd w (fmul s.(weight) (float_of_Z 100))) (float_of_Z 0) sigs.

(** The match a manifest reports for the signals that fired. *)
Definition match_of (m : IcsProtocolManifest) (fired : list IcsDetectionSignal) : IcsProtocolMatch :=
  {| m_manifest_id := m.(manifest_id); m_manifest_source := m.(manifest_source);
     m_protocol_family := m.(output).(protocol_family);
     m_layer := m.(output).(layer); m_transport := m.(output).(transport);
     m_vendor := m.(output).(vendor); m_vendor_product := m.(output).(vendor_product);
     m_protocol_version := m.(output).(protocol_version);
     m_confidence := _certainty_to_confidence m.(detection) m.(output).(confidence);
     m_certainty := m.(detection).(certainty);
     matched_signals := kind <$> fired |}.

Lemma sorted_signals_perm (d : IcsDetection) : sorted_signals d ≡ₚ d.(signals).
Proof.
  unfold sorted_signals. rewrite sort_by_perm. by rewrite imap_pair_snd.
Qed.

Lemma manifest_signals (m : IcsProtocolManifest) :
  manifest_ok m = true -> m.(detection).(signals) <> [] /\
  (m.(detection).(combine) = weighted -> exists floor, m.(detection).(min_confidence_score) = Some floor).
Proof.
  unfold manifest_ok, detection_ok. rewrite !andb_true_iff.
  intros [[[[[[[_ _] [[[Hl _] _] Hw]] _] _] _] _] _]. split.
  - intros E. rewrite E in Hl. by vm_compute in Hl.
  - intros E. rewrite E in Hw. rewrite bool_decide_eq_true_2 in Hw by done.
    destruct (min_confidence_score _); [by eexists|done].
Qed.

(** What the combination rule asks of the signals that fire. *)
Definition combination_met (head : bytes) (path : string) (ctx : option IcsResolverContext)
    (d : IcsDetection) : Prop :=
  match d.(combine) with
  | all_required => forall s, s ∈ d.(signals) -> fires head path ctx s = true
  | any_signal => exists s, s ∈ d.(signals) /\ fires head path ctx s = true
  | weighted =>
      (exists s, s ∈ d.(signals) /\ fires head path ctx s = true) /\
      exists floor, d.(min_confidence_score) = Some floor /\
        SFltb (score (fired_signals head path ctx d)) floor = false
  end.

Lemma fired_nonempty (head : bytes) (path : string) (ctx : option IcsResolverContext) (d : IcsDetection) :
  fired_signals head path ctx d <> [] <-> exists s, s ∈ d.(signals) /\ fires head path ctx s = true.
Proof.
  unfold fired_signals. setoid_rewrite <- (sorted_signals_perm d). split.
  - destruct (List.filter _ _) as [|s l] eqn:E; [done|]. intros _. exists s.
    assert (Hs : In s (s :: l)) by by left. rewrite <- E in Hs. apply List.filter_In in Hs as [Hs Hf].
    split; [by apply list_elem_of_In|done].
  - intros (s & Hs & Hf) E. apply list_elem_of_In in Hs.
    assert (In s []) as []. rewrite <- E. by apply List.filter_In.
Qed.

Definition is_nil {A} (l : list A) : bool := match l with [] => true | _ => false end.

Lemma is_nil_fmap {A B} (f : A -> B) (l : list A) :
  match f <$> l with [] => true | _ => false end = is_nil l.
Proof. by destruct l. Qed.

Lemma is_nil_false {A} (l : list A) : is_nil l = false <-> l <> [].
Proof. by destruct l. Qed.

(** The combination rule, decided. *)
Definition accepts (head : bytes) (path : string) (ctx : option IcsResolverContext) (d : IcsDetection) : bool :=
  let fired := fired_signals head path ctx d in
  match d.(combine) with
  | all_required => forallb (fires head path ctx) d.(signals)
  | any_signal => negb (is_nil fired)
  | weighted =>
      negb (is_nil fired) &&
      match d.(min_confidence_score) with Some floor => negb (SFltb (score fired) floor) | None => false end
  end.

Lemma zlen_sorted_signals (d : IcsDetection) : zlen (sorted_signals d) = zlen d.(signals).
Proof. unfold zlen. by rewrite sorted_signals_perm. Qed.

Lemma evaluate_manifest_accepts (head : bytes) (path : string) (ctx : option IcsResolverContext)
    (m : IcsProtocolManifest) :
  m.(detection).(signals) <> [] ->
  _evaluate_manifest head path ctx m =
  if accepts head path ctx m.(detection)
  then Some (match_of m (fired_signals head path ctx m.(detection))) else None.
Proof.
  intros Hne. unfold _evaluate_manifest, accepts. set (d := detection m) in *.
  rewrite signal_loop_spec. cbn zeta. rewrite app_nil_l.
  rewrite (forallb_perm _ _ _ (sorted_signals_perm d)).
  fold (fired_signals head path ctx d). fold (score (fired_signals head path ctx d)).
  destruct (combine d) eqn:Ec.
  - rewrite bool_decide_eq_true_2 by done. rewrite (bool_decide_eq_false_2 (all_required = weighted)) by done.
    cbn [andb]. destruct (forallb _ (signals d)) eqn:Ef; cbn [negb]; [|done].
    assert (Hall : fired_signals head path ctx d = sorted_signals d).
    { apply filter_all. by rewrite (forallb_perm _ _ _ (sorted_signals_perm d)). }
    rewrite is_nil_fmap, Hall, zlen_fmap, zlen_sorted_signals, Z.eqb_refl.
    destruct (sorted_signals d) as [|s l] eqn:E; [|done].
    exfalso. apply Hne. pose proof (zlen_sorted_signals d) as Hz. rewrite E in Hz.
    destruct (signals d) as [|x k]; [done|]. by pose proof (zlen_nonneg k); rewrite zlen_cons, zlen_nil in Hz; lia.
  - rewrite !bool_decide_eq_false_2 by done. cbn [andb]. rewrite is_nil_fmap, !orb_false_r.
    by destruct (is_nil _).
  - rewrite (bool_decide_eq_false_2 (weighted = all_required)), bool_decide_eq_true_2 by done.
    cbn [andb]. rewrite is_nil_fmap, orb_false_r. destruct (is_nil _); [done|].
    destruct (min_confidence_score d); [|done]. cbn [orb negb andb]. by destruct (SFltb _ _).
Qed.

Lemma accepts_spec (head : bytes) (path : string) (ctx : option IcsResolverContext) (d : IcsDetection) :
  accepts head path ctx d = true <-> combination_met head path ctx d.
Proof.
  unfold accepts, combination_met. destruct (combine d).
  - rewrite forallb_forall. by setoid_rewrite list_elem_of_In.
  - by rewrite negb_true_iff, is_nil_false, fired_nonempty.
  - rewrite andb_true_iff, negb_true_iff, is_nil_false, fired_nonempty.
    destruct (min_confidence_score d); rewrite ?negb_true_iff; naive_solver.
Qed.

(** A manifest that passed validation matches a binary exactly when its combination
    rule is met by the signals that fire: all of them, at least one, or at least one with
    a score that reaches the floor.  The match carries the manifest's output, the
    confidence capped by the certainty, and the kinds that fired, cheapest class first.
    The order of the signals in the document has no part in the decision. *)
Theorem evaluate_manifest_spec (head : bytes) (path : string) (ctx : option IcsResolverContext)
    (m : IcsProtocolManifest) (r : IcsProtocolMatch) :
  manifest_ok m = true ->
  (_evaluate_manifest head path ctx m = Some r) <->
  combination_met head path ctx m.(detection) /\ r = match_of m (fired_signals head path ctx m.(detection)).
Proof.
  intros Hok. destruct (manifest_signals m Hok) as [Hne _].
  rewrite evaluate_manifest_accepts, <- accepts_spec by done. destruct (accepts _ _ _ _); naive_solver.
Qed.

(** The bundled DNP3 detector and a binary that carries its banner, port and codes. *)
Definition blank_signal (k : IcsSignalKind) : IcsDetectionSignal :=
  {| kind := k; weight := float_of_Z 1; artifact_source := any_artifact; offset := None; bytes_hex := None;
     mask_hex := None; ports := None; transport_required := None; function_code_constraint := None;
     string_in_binary_constraint := None; symbol_patterns_lower := None; signal_description := None |}.

Definition banner_signal (needles : list string) : IcsDetectionSignal :=
  {| kind := string_in_binary; weight := float_of_Z 1; artifact_source := any_artifact; offset := None;
     bytes_hex := None; mask_hex := None; ports := None; transport_required := None;
     function_code_constraint := None;
     string_in_binary_constraint := Some {| needles_hex := needles; case_sensitive := false;
       needles_combine := combine_any; needles_min_count := 1; search_offset := 0; search_length := None |};
     symbol_patterns_lower := None; signal_description := None |}.

Definition port_signal (p : Z) (t : option IcsTransport) : IcsDetectionSignal :=
  {| kind := port_signature; weight := float_of_Z 1; artifact_source := any_artifact; offset := None;
     bytes_hex := None; mask_hex := None; ports := Some [p]; transport_required := t;
     function_code_constraint := None; string_in_binary_constraint := None; symbol_patterns_lower := None;
     signal_description := None |}.

Definition codes_signal (codes : list string) (count window : Z) : IcsDetectionSignal :=
  {| kind := function_code_set; weight := float_of_Z 1; artifact_source := any_artifact; offset := None;
     bytes_hex := None; mask_hex := None; ports := None; transport_required := None;
     function_code_constraint := Some {| function_codes_hex := codes; codes_min_count := count;
       window_bytes := window |};
     string_in_binary_constraint := None; symbol_patterns_lower := None; signal_description := None |}.

Definition magic_signal (hex : string) (mask : option string) : IcsDetectionSignal :=
  {| kind := magic_bytes; weight := float_of_Z 1; artifact_source := any_artifact; offset := Some 0;
     bytes_hex := Some hex; mask_hex := mask; ports := None; transport_required := None;
     function_code_constraint := None; string_in_binary_constraint := None; symbol_patterns_lower := None;
     signal_description := None |}.

Definition manifest_with (id : string) (src : IcsManifestSource) (prec : Z) (vendor_ : string)
    (c : IcsCombine) (sigs : list IcsDetectionSignal) : IcsProtocolManifest :=
  {| manifest_id := id; manifest_source := src; precedence := prec;
     detection := {| combine := c; signals := sigs; min_confidence_score := None; certainty := stack_present |};
     output := {| protocol_family := dnp3; layer := layer_application; transport := tcp; vendor := vendor_;
                  vendor_product := None; protocol_version := None; confidence := conf_high |};
     deprecation := {| status := active; replaced_by := None; sunset_at := None; deprecation_notes := None |};
     notes := None; references := [] |}.

Definition dnp3_v0_system : IcsProtocolManifest :=
  manifest_with "dnp3_v0_system" src_system 5 "generic" all_required
    [banner_signal ["646e7033"; "6f70656e646e7033"; "6c6962646e7033"];
     port_signal 20000 (Some tcp);
     codes_signal ["01"; "02"; "03"; "04"; "05"; "06"; "0d"; "0e"; "14"; "15"; "17"; "18"; "81"; "82"] 3 512].

Definition dnp3_binary : bytes :=
  (bs "OpenDNP3 outstation" ++ [Byte.x20; Byte.x4e] ++ [Byte.x01; Byte.x02; Byte.x81])%list.

Lemma evaluate_manifest_spec_witness :
  manifest_ok dnp3_v0_system = true /\
  exists r, _evaluate_manifest dnp3_binary "/sbin/outstation" None dnp3_v0_system = Some r /\
    m_confidence r = conf_high /\ matched_signals r = [port_signature; function_code_set; string_in_binary].
Proof.
  split; [vm_compute; reflexivity|]. eexists. split; [|split].
  - apply (evaluate_manifest_spec dnp3_binary "/sbin/outstation" None dnp3_v0_system);
      [vm_compute; reflexivity|]. split; [|reflexivity].
    intros s Hs. unfold dnp3_v0_system, manifest_with in Hs. cbn [detection signals] in Hs.
    rewrite !elem_of_cons in Hs.
    destruct Hs as [->|[->|[->|[]%not_elem_of_nil]]]; vm_compute; reflexivity.
  - vm_compute. reflexivity.
  - vm_compute. reflexivity.
Defined.

(** ** The scan for function codes *)

Lemma codes_in_mono (codes : list byte) (w w' : bytes) :
  (forall b, b ∈ w -> b ∈ w') -> codes_in codes w <= codes_in codes w'.
Proof.
  intros Hw. unfold codes_in, zlen. induction codes as [|c codes IH]; cbn [List.filter]; [lia|].
  destruct (decide (c ∈ w)) as [H|H].
  - rewrite !bool_decide_eq_true_2 by auto. cbn [List.length]. lia.
  - rewrite (bool_decide_eq_false_2 _ H). destruct (bool_decide (c ∈ w')); cbn [List.length]; lia.
Qed.

Lemma codes_in_bound (codes : list byte) (w : bytes) : NoDup codes -> codes_in codes w <= zlen w.
Proof.
  intros Hnd. unfold codes_in, zlen. enough (List.length (List.filter (fun b => bool_decide (b ∈ w)) codes) <= List.length w)%nat by lia.
  apply submseteq_length, NoDup_submseteq.
  - induction Hnd as [|c codes Hc Hnd IH]; cbn [List.filter]; [constructor|].
    case_bool_decide; [|done]. constructor; [|done].
    rewrite list_elem_of_In, List.filter_In, <- list_elem_of_In. tauto.
  - intros b. rewrite list_elem_of_In, List.filter_In. intros [_ Hb]. by apply bool_decide_eq_true_1 in Hb.
Qed.

Lemma elem_of_zslice {A} (x : A) (i j : Z) (l : list A) :
  0 <= i -> x ∈ zslice i j l <-> exists k, i <= Z.of_nat k < j /\ l !! k = Some x.
Proof.
  intros Hi. unfold zslice. rewrite ztake_eq, zdrop_eq, list_elem_of_lookup.
  split.
  - intros [k Hk]. apply lookup_take_Some in Hk as [Hk Hlt]. rewrite lookup_drop in Hk.
    exists (Z.to_nat i + k)%nat. split; [lia|done].
  - intros (k & Hk & Hx). exists (k - Z.to_nat i)%nat. rewrite lookup_take_lt by lia.
    rewrite lookup_drop. by replace (Z.to_nat i + (k - Z.to_nat i))%nat with k by lia.
Qed.

Lemma elem_of_range_step (x n step : Z) :
  0 < step -> 0 <= n -> x ∈ range_step n step <-> exists k, 0 <= k /\ x = k * step /\ x < n.
Proof.
  intros Hs Hn. unfold range_step. rewrite list_elem_of_fmap. split.
  - intros (k & -> & Hk%elem_of_seq). exists (Z.of_nat k).
    assert (Z.of_nat k < (n + step - 1) / step) by lia.
    pose proof (Z.div_mod (n + step - 1) step ltac:(lia)).
    pose proof (Z.mod_pos_bound (n + step - 1) step Hs). split_and!; [lia|done|nia].
  - intros (k & Hk & -> & Hlt). exists (Z.to_nat k). rewrite elem_of_seq. split; [lia|].
    assert (k + 1 <= (n + step - 1) / step); [|lia].
    apply Z.div_le_lower_bound; [done|]. rewrite Z.mul_add_distr_l, (Z.mul_comm step k). lia.
Qed.

Lemma target_codes_some (c : IcsFunctionCodeSetConstraint) (codes : list byte) :
  target_codes c = Some codes -> NoDup codes.
Proof.
  unfold target_codes. destruct (mapM function_code (function_codes_hex c)); [|done].
  intros [= <-]. apply NoDup_remove_dups.
Qed.

(** The windows the scan looks at. *)
Definition scanned (c : IcsFunctionCodeSetConstraint) (head : bytes) (codes : list byte) : Prop :=
  exists k, 0 <= k /\ k * scan_step c.(window_bytes) < zlen head /\
    c.(codes_min_count) <= codes_in codes
      (zslice (k * scan_step c.(window_bytes)) (k * scan_step c.(window_bytes) + c.(window_bytes)) head).

Lemma zslice_clamp {A} (i j : Z) (l : list A) :
  0 <= i -> forall x, x ∈ zslice i (Z.min j (zlen l)) l <-> x ∈ zslice i j l.
Proof.
  intros Hi x. rewrite !elem_of_zslice by done. split; intros (k & Hk & Hx); exists k; (split; [|done]); [lia|].
  apply lookup_lt_Some in Hx. unfold zlen. lia.
Qed.

Lemma eval_function_code_set_scanned (s : IcsDetectionSignal) (c : IcsFunctionCodeSetConstraint)
    (codes : list byte) (head : bytes) :
  s.(function_code_constraint) = Some c -> 2 <= c.(codes_min_count) -> target_codes c = Some codes ->
  _eval_function_code_set s head = true <-> scanned c head codes.
Proof.
  intros Hs Hmin Hc. unfold _eval_function_code_set. rewrite Hs, Hc.
  pose proof (target_codes_some c codes Hc) as Hnd.
  assert (Hstep : 0 < scan_step (window_bytes c)) by (unfold scan_step; lia).
  pose proof (zlen_nonneg head) as Hn.
  assert (Hwin : forall k, 0 <= k -> codes_in codes (zslice (k * scan_step (window_bytes c))
      (Z.min (k * scan_step (window_bytes c) + window_bytes c) (zlen head)) head) =
    codes_in codes (zslice (k * scan_step (window_bytes c)) (k * scan_step (window_bytes c) + window_bytes c) head)).
  { intros k Hk. apply Z.le_antisymm; apply codes_in_mono; intros b; by rewrite zslice_clamp by lia. }
  transitivity (codes <> [] /\ codes_min_count c <= zlen head /\ scanned c head codes).
  - destruct codes as [|b0 codes]; [naive_solver|]. set (l := b0 :: codes) in *.
    destruct (Z.ltb_spec (zlen head) (codes_min_count c)) as [Hlt|Hge]; [split; [done|lia]|].
    rewrite existsb_exists. split.
    + intros (x & Hx & Hle). split_and!; [done|done|].
      apply list_elem_of_In, elem_of_range_step in Hx as (k & Hk & -> & Hlt); [|done|done].
      exists k. split_and!; [done|done|]. rewrite <- Hwin by done. by apply Z.leb_le.
    + intros (_ & _ & k & Hk & Hlt & Hle). exists (k * scan_step (window_bytes c)). split.
      * apply list_elem_of_In, elem_of_range_step; [done|done|]. by exists k.
      * apply Z.leb_le. by rewrite Hwin.
  - split; [tauto|]. intros Hsc. split_and!; [|..|done].
    + intros ->. destruct Hsc as (k & _ & _ & Hle). unfold codes_in in Hle. cbn in Hle. unfold zlen in Hle. cbn in Hle. lia.
    + destruct Hsc as (k & Hk & _ & Hle). rewrite (codes_in_bound codes _ Hnd) in Hle.
      etransitivity; [exact Hle|]. rewrite zlen_zslice by lia. nia.
Qed.

Lemma codes_constraint_bounds (c : IcsFunctionCodeSetConstraint) :
  codes_constraint_ok c = true -> 2 <= c.(codes_min_count) /\ 64 <= c.(window_bytes).
Proof. unfold codes_constraint_ok, in_range. rewrite !andb_true_iff, !Z.leb_le. lia. Qed.

Lemma codes_in_pos (codes : list byte) (w : bytes) : 0 < codes_in codes w -> exists b, b ∈ w.
Proof.
  unfold codes_in. intros H. destruct (List.filter _ codes) as [|b l] eqn:E; [done|].
  exists b. assert (Hb : In b (b :: l)) by by left. rewrite <- E in Hb.
  apply List.filter_In in Hb as [_ Hb]. by apply bool_decide_eq_true_1 in Hb.
Qed.

(** The scan for a function-code table never fires without a window of the declared
    size that holds the declared number of distinct codes, and it always fires when that
    many codes lie within the window less its step, that is within three quarters of a
    window of 256 bytes or more.  It does not look at every window, as its description
    says: with the smallest window, 64 bytes, the windows do not overlap and two codes
    side by side are missed. *)
Theorem function_code_scan (s : IcsDetectionSignal) (c : IcsFunctionCodeSetConstraint)
    (codes : list byte) (head : bytes) :
  codes_constraint_ok c = true ->
  s.(function_code_constraint) = Some c ->
  target_codes c = Some codes ->
  (_eval_function_code_set s head = true ->
     exists i, 0 <= i /\ c.(codes_min_count) <= codes_in codes (zslice i (i + c.(window_bytes)) head)) /\
  (forall i, 0 <= i ->
     c.(codes_min_count) <= codes_in codes (zslice i (i + (c.(window_bytes) - scan_step c.(window_bytes) + 1)) head) ->
     _eval_function_code_set s head = true) /\
  _eval_function_code_set (codes_signal ["01"; "02"] 2 64)
    (replicate 63 Byte.x00 ++ [Byte.x01; Byte.x02])%list = false.
Proof.
  intros Hok Hs Hc. destruct (codes_constraint_bounds c Hok) as [Hmin Hw].
  pose proof (eval_function_code_set_scanned s c codes head Hs Hmin Hc) as Hsc. split_and!.
  - intros (k & Hk & _ & Hle)%Hsc. eexists. split; [|exact Hle]. unfold scan_step. nia.
  - intros i Hi Hle. apply Hsc. clear Hsc. set (step := scan_step (window_bytes c)) in *.
    assert (Hstep : 0 < step) by (unfold step, scan_step; lia).
    pose proof (Z.div_mod i step ltac:(lia)) as Hd. pose proof (Z.mod_pos_bound i step Hstep) as Hm.
    exists (i / step). assert (0 <= i / step) by (apply Z.div_pos; lia). split_and!; [done| |].
    + destruct (codes_in_pos codes _ ltac:(eapply Z.lt_le_trans; [|exact Hle]; lia)) as [b Hb].
      apply elem_of_zslice in Hb as (k & Hk & Hb); [|done]. apply lookup_lt_Some in Hb.
      fold step. unfold zlen. nia.
    + etransitivity; [exact Hle|]. apply codes_in_mono. intros b.
      rewrite !elem_of_zslice by (fold step; nia). intros (k & Hk & Hb). exists k.
      split; [fold step; nia|done].
  - vm_compute. reflexivity.
Qed.

Lemma function_code_scan_witness :
  exists c codes, codes_constraint_ok c = true /\ target_codes c = Some codes /\
    _eval_function_code_set (codes_signal ["01"; "02"; "81"] 3 512) dnp3_binary = true.
Proof.
  exists {| function_codes_hex := ["01"; "02"; "81"]; codes_min_count := 3; window_bytes := 512 |},
    [Byte.x01; Byte.x02; Byte.x81].
  split; [vm_compute; reflexivity|]. split; [vm_compute; reflexivity|].
  refine (proj1 (proj2 (function_code_scan (codes_signal ["01"; "02"; "81"] 3 512)
    {| function_codes_hex := ["01"; "02"; "81"]; codes_min_count := 3; window_bytes := 512 |}
    [Byte.x01; Byte.x02; Byte.x81] dnp3_binary _ _ _)) 0 _ _).
  all: vm_compute; try reflexivity; discriminate.
Defined.

(** ** Resolution of a binary *)

Lemma match_of_id (head : bytes) (path : string) (ctx : option IcsResolverContext)
    (m : IcsProtocolManifest) (r : IcsProtocolMatch) :
  _evaluate_manifest head path ctx m = Some r ->
  m_manifest_id r = manifest_id m /\ m_manifest_source r = manifest_source m.
Proof.
  unfold _evaluate_manifest. destruct (signal_loop _ _ _ _ _ _ _) as [[k w]|]; [|done].
  case_match; [done|]. by intros [= <-].
Qed.

Definition live_match (head : bytes) (path : string) (ctx : option IcsResolverContext)
    (m : IcsProtocolManifest) : option IcsProtocolMatch :=
  if is_removed m then None else _evaluate_manifest head path ctx m.

Lemma live_match_id (head : bytes) (path : string) (ctx : option IcsResolverContext)
    (m : IcsProtocolManifest) (r : IcsProtocolMatch) :
  live_match head path ctx m = Some r -> m_manifest_id r = manifest_id m.
Proof. unfold live_match. case_match; [done|]. intros Hr. by destruct (match_of_id _ _ _ _ _ Hr). Qed.

Lemma nodup_ids_inj (snapshot : list IcsProtocolManifest) (m m' : IcsProtocolManifest) :
  NoDup (manifest_id <$> snapshot) -> m ∈ snapshot -> m' ∈ snapshot ->
  manifest_id m = manifest_id m' -> m = m'.
Proof.
  induction snapshot as [|x l IH]; intros Hnd Hm Hm' He; [by apply not_elem_of_nil in Hm|].
  apply NoDup_cons in Hnd as [Hx Hnd]. apply elem_of_cons in Hm as [->|Hm], Hm' as [->|Hm']; auto.
  - destruct Hx. rewrite He. by apply list_elem_of_fmap_2.
  - destruct Hx. rewrite <- He. by apply list_elem_of_fmap_2.
Qed.

(** Resolving a binary reports each manifest of the snapshot that is not removed and
    whose detection is met, each once, higher source tiers first and by identifier
    within a tier; the report does not depend on the order in which a snapshot with
    distinct identifiers lists its manifests. *)
Theorem resolve_all_spec (head : bytes) (path : string) (ctx : option IcsResolverContext)
    (snapshot snapshot' : list IcsProtocolManifest) :
  NoDup (manifest_id <$> snapshot) ->
  snapshot ≡ₚ snapshot' ->
  let matches := resolve_all head path snapshot ctx in
  let ctx' := Some (default empty_context ctx) in
  StronglySorted (key_rel match_key_le match_key) matches /\
  matches ≡ₚ omap (live_match head path ctx') snapshot /\
  NoDup (m_manifest_id <$> matches) /\
  resolve_all head path snapshot' ctx = matches.
Proof.
  intros Hnd Hp matches ctx'. unfold matches, resolve_all. fold ctx'.
  change (omap _ ?l) with (omap (live_match head path ctx') l). split_and!.
  - apply sort_by_sorted; apply _.
  - apply sort_by_perm.
  - rewrite sort_by_perm. clear Hp. induction snapshot as [|m l IH]; [constructor|].
    apply NoDup_cons in Hnd as [Hm Hnd]. cbn [omap list_omap]. destruct (live_match _ _ _ m) as [r|] eqn:E; [|auto].
    apply NoDup_cons. split; [|auto]. intros Hr. apply Hm.
    apply list_elem_of_fmap in Hr as (r' & He & Hr'). apply list_elem_of_omap in Hr' as (m' & Hm' & E').
    rewrite <- (live_match_id _ _ _ _ _ E), He, (live_match_id _ _ _ _ _ E'). by apply list_elem_of_fmap_2.
  - symmetry. apply sort_by_unique; [apply _..| |by rewrite Hp].
    intros x y Hx Hy Hxy Hyx. apply list_elem_of_omap in Hx as (m & Hm & Em), Hy as (m' & Hm' & Em').
    assert (manifest_id m = manifest_id m') as Hid.
    { rewrite <- (live_match_id _ _ _ _ _ Em), <- (live_match_id _ _ _ _ _ Em').
      unfold key_rel, match_key_le, match_key in Hxy, Hyx. cbn in Hxy, Hyx.
      apply (anti_symm String.le); destruct Hxy, Hyx; try lia; tauto. }
    rewrite (nodup_ids_inj snapshot m m') in Em by done. congruence.
Qed.

Lemma resolve_all_spec_witness :
  exists matches, resolve_all dnp3_binary "/sbin/outstation"
    [manifest_with "zz_copy" src_operator 100 "acme" any_signal [port_signal 20000 None]; dnp3_v0_system] None
    = matches /\ (m_manifest_id <$> matches) = ["dnp3_v0_system"; "zz_copy"].
Proof.
  destruct (resolve_all_spec dnp3_binary "/sbin/outstation" None
    [dnp3_v0_system; manifest_with "zz_copy" src_operator 100 "acme" any_signal [port_signal 20000 None]]
    [manifest_with "zz_copy" src_operator 100 "acme" any_signal [port_signal 20000 None]; dnp3_v0_system])
    as (_ & _ & _ & H); [| |].
  - apply (bool_decide_unpack _). vm_compute. exact I.
  - apply perm_swap.
  - eexists. split; [exact H|]. vm_compute. reflexivity.
Defined.

(** ** The two-byte floor of a magic *)

Definition no_space (s : string) : bool :=
  forallb (fun a => negb (is_hex_space a)) (String.list_ascii_of_string s).

Lemma hex_value_not_cont (a : ascii) (v : Z) : hex_value a = Some v -> is_cont a = false.
Proof. destruct a as [[] [] [] [] [] [] [] []]; vm_compute; congruence. Qed.

Lemma fromhex_py_len (s : string) (b : bytes) :
  no_space s = true -> fromhex s = Some b -> py_len s = 2 * zlen b.
Proof.
  remember (String.length s) as n eqn:Hn. revert s b Hn.
  induction (lt_wf n) as [n _ IH]. intros s b Hn Hs Hf. destruct s as [|x s]; [by simplify_eq/=|].
  unfold no_space in Hs. cbn [String.list_ascii_of_string forallb] in Hs.
  apply andb_true_iff in Hs as [Hx Hs]. apply negb_true_iff in Hx. cbn [fromhex] in Hf. rewrite Hx in Hf.
  destruct (hex_value x) as [hi|] eqn:Ex; [|done]. destruct s as [|y s]; [done|].
  cbn [String.list_ascii_of_string forallb] in Hs. apply andb_true_iff in Hs as [Hy Hs].
  destruct (hex_value y) as [lo|] eqn:Ey; [|done].
  destruct (fromhex s) as [l|] eqn:El; [|done]. injection Hf as <-.
  cbn [py_len]. rewrite (hex_value_not_cont x hi Ex), (hex_value_not_cont y lo Ey), zlen_cons.
  rewrite (IH (String.length s)) with (b := l); [lia|subst n; cbn; lia|done..].
Qed.

(** A validated magic written without white space is at least two bytes long, as its
    validator demands.  White space defeats the demand: [bytes.fromhex] skips it, so four
    blanks pass as a magic of two bytes and are one of none, and a validated manifest
    with that magic matches every binary there is. *)
Theorem magic_floor :
  (forall s hex, signal_ok s = true -> s.(kind) = magic_bytes -> s.(bytes_hex) = Some hex ->
     no_space hex = true -> exists expected, fromhex hex = Some expected /\ 2 <= zlen expected) /\
  exists m, manifest_ok m = true /\ m.(manifest_source) = src_operator /\
    forall head path ctx, is_Some (_evaluate_manifest head path ctx m).
Proof.
  split.
  - intros s hex Hok Hk Hb Hs. unfold signal_ok, _check_kind_fields, is_kind in Hok.
    rewrite !andb_true_iff, Hk, (bool_decide_eq_true_2 (magic_bytes = magic_bytes)) in Hok by done.
    destruct Hok as [_ [[[[Hm _] _] _] _]]. cbn [implb] in Hm. unfold magic_ok in Hm. rewrite Hb in Hm.
    destruct (offset s); [|done]. rewrite !andb_true_iff in Hm. destruct Hm as [[[_ H4] Hh] _].
    unfold is_hex in Hh. destruct (fromhex hex) as [b|] eqn:E; [|done]. exists b. split; [done|].
    apply Z.leb_le in H4. pose proof (fromhex_py_len hex b Hs E). lia.
  - exists (manifest_with "any" src_operator 100 "acme" all_required [magic_signal "    " None]).
    split; [vm_compute; reflexivity|]. split; [done|]. intros head path ctx.
    rewrite evaluate_manifest_accepts by done.
    replace (accepts _ _ _ _) with true; [by eexists|]. symmetry.
    unfold accepts, manifest_with. cbn [detection combine signals forallb]. rewrite andb_true_r.
    unfold fires, SIGNAL_EVALUATORS. cbn [kind magic_signal]. cbn [default from_option id].
    unfold _eval_magic_bytes. cbn [bytes_hex offset mask_hex magic_signal].
    change (fromhex "    ") with (Some (@nil byte)). cbn iota.
    destruct (Z.ltb_spec (zlen head) (0 + zlen (@nil byte))) as [Hlt|_];
      [pose proof (zlen_nonneg head); unfold zlen in Hlt at 2; cbn in Hlt; lia|].
    apply bool_decide_eq_true_2. unfold zslice. by rewrite ztake_eq.
Qed.
