(* ===== verification/IcsCatalog.v ===== *)
(** * ICS protocol catalog ([services/ics_protocol_catalog/catalog.py], [snapshot.py])

    Loading of the manifest files of the bundled directory and of the operator overlay,
    the collision check between vendors, and the cache that serves snapshots and rebuilds
    them when a file changed. *)

From S2P Require Import Prelude PyText Json Sorting ManifestLib IcsSchema IcsResolver.
From Stdlib Require Import Ascii String SpecFloat.
Import (notations) Ascii String.
#[local] Open Scope Z_scope.



(** ** Files *)

(** What reading and parsing one YAML file gives: text that is no UTF-8 and a mapping
    with a key that is no string raise exceptions the loader does not catch; [Doc] is a
    mapping that fits the types of the model. *)
Inductive yaml_doc :=
  | ReadError | DecodeError | YamlError | NotMapping | NonStringKey | IllTyped
  | Doc (m : IcsProtocolManifest).

Inductive data_tree := DataRoot | OverlayRoot.

(** A file below a root: its path relative to the root, its modification time ([None]
    when [stat] fails) and its content. *)
Record yaml_file := {
  f_parts : list string;
  f_mtime : option Z;
  f_doc : yaml_doc
}.

Definition _expected_source_for_path (parts : list string) : option IcsManifestSource :=
  match parts with
  | [] => None
  | first :: _ =>
      Some (if bool_decide (first = "_system") then src_system
            else if bool_decide (first = "_attested_external") then src_attested_external
            else if bool_decide (first = "_unauthenticated_external") then src_unauthenticated_external
            else src_core)
  end.

Definition _expected_source_for_overlay_path (parts : list string) : option IcsManifestSource :=
  match parts with
  | [] => None
  | first :: _ =>
      Some (if bool_decide (first = "_attested_external") then src_attested_external
            else if bool_decide (first = "_unauthenticated_external") then src_unauthenticated_external
            else src_operator)
  end.

Definition _expected_source (f : data_tree * yaml_file) : option IcsManifestSource :=
  match f.1 with
  | DataRoot => _expected_source_for_path f.2.(f_parts)
  | OverlayRoot => _expected_source_for_overlay_path f.2.(f_parts)
  end.

Definition path_le (f g : yaml_file) : Prop := parts_leb f.(f_parts) g.(f_parts) = true.
#[export] Instance path_le_dec : RelDecision path_le.
Proof. intros f g. unfold path_le. apply _. Defined.

(** The listing of a root: [None] when it is no directory. *)
Record disk := { data_files : option (list yaml_file); overlay_files : option (list yaml_file) }.

Definition listing (t : data_tree) (files : option (list yaml_file)) : list (data_tree * yaml_file) :=
  match files with
  | None => []
  | Some l => pair t <$> sort_by path_le l
  end.

Definition _iter_yaml_paths (d : disk) : list (data_tree * yaml_file) :=
  (listing DataRoot d.(data_files) ++ listing OverlayRoot d.(overlay_files))%list.

Definition _compute_mtime_signature (d : disk) : list (data_tree * list string * Z) :=
  omap (fun f => (fun t => (f.1, f.2.(f_parts), t)) <$> f.2.(f_mtime)) (_iter_yaml_paths d).

(** ** Loading *)

Inductive warning :=
  | WRead | WYaml | WNotMapping | WValidation | WNoTier | WWrongTier
  | WDuplicate (id : string)
  | WCollision (source : IcsManifestSource) (precedence : Z) (hex : string) (offset : Z) (dropped : list string).

Inductive load_error := UnicodeDecodeError | TypeError.

(** [None] is a skipped file, with the warning. *)
Definition _load_one (f : data_tree * yaml_file) : res load_error (IcsProtocolManifest + warning) :=
  match f.2.(f_doc) with
  | ReadError => Ok (inr WRead)
  | DecodeError => Err UnicodeDecodeError
  | YamlError => Ok (inr WYaml)
  | NotMapping => Ok (inr WNotMapping)
  | NonStringKey => Err TypeError
  | IllTyped => Ok (inr WValidation)
  | Doc m =>
      if negb (manifest_ok m) then Ok (inr WValidation)
      else match _expected_source f with
           | None => Ok (inr WNoTier)
           | Some s => if bool_decide (m.(manifest_source) = s) then Ok (inl m) else Ok (inr WWrongTier)
           end
  end.

(** A dictionary from identifiers to manifests, in insertion order. *)
Definition by_id := list (string * IcsProtocolManifest).

Fixpoint load_all (files : list (data_tree * yaml_file)) (ids : by_id) (warnings : list warning)
    : res load_error (by_id * list warning) :=
  match files with
  | [] => Ok (ids, warnings)
  | f :: files =>
      r ← _load_one f;
      match r with
      | inr w => load_all files ids (warnings ++ [w])%list
      | inl m =>
          if dict_has m.(manifest_id) ids
          then load_all files ids (warnings ++ [WDuplicate m.(manifest_id)])%list
          else load_all files (dict_set m.(manifest_id) m ids) warnings
      end
  end.

(** ** The collision check *)

(** What a magic is filed under: tier, precedence, lower-case magic, offset. *)
Abbreviation magic_key := (IcsManifestSource * Z * string * Z)%type.

(** [f"{manifest_id}:{vendor}"], as a pair. *)
Abbreviation member := (string * string)%type.

Definition magic_keys (m : IcsProtocolManifest) : list magic_key :=
  omap (fun s =>
    if bool_decide (s.(kind) = magic_bytes)
    then match s.(bytes_hex), s.(offset) with
         | Some hex, Some off => Some (m.(manifest_source), m.(precedence), lower hex, off)
         | _, _ => None
         end
    else None) m.(detection).(signals).

Definition member_of (m : IcsProtocolManifest) : member := (m.(manifest_id), m.(output).(vendor)).

Definition magic_entries (ids : by_id) : list (magic_key * member) :=
  im ← ids; k ← magic_keys im.2; [(k, member_of im.2)].

Definition fp_to_ids (ids : by_id) : list (magic_key * list member) :=
  grouped (magic_entries ids).

(** Members sort as the strings they stand for. *)
Definition member_text (m : member) : string := m.1 +:+ ":" +:+ m.2.

Definition drop_ids (members : list member) : list string :=
  if 2 <=? zlen (remove_dups members.*2)
  then (tail (sort_by (key_rel String.le member_text) members)).*1
  else [].

Fixpoint dict_pop {A} (k : string) (d : list (string * A)) : list (string * A) :=
  match d with
  | [] => []
  | (k', v) :: d => if decide (k' = k) then d else (k', v) :: dict_pop k d
  end.

Fixpoint check_keys (groups : list (magic_key * list member)) (ids : by_id) (warnings : list warning)
    : by_id * list warning :=
  match groups with
  | [] => (ids, warnings)
  | (k, members) :: groups =>
      if 2 <=? zlen (remove_dups members.*2)
      then check_keys groups (foldl (fun ids i => dict_pop i ids) ids (drop_ids members))
             (warnings ++ [WCollision k.1.1.1 k.1.1.2 k.1.2 k.2 (drop_ids members)])%list
      else check_keys groups ids warnings
  end.

Definition _check_i4_cross_vendor_collision (ids : by_id) (warnings : list warning) : by_id * list warning :=
  check_keys (fp_to_ids ids) ids warnings.

(** ** Snapshots and the cache *)

Record snapshot := { manifests : list IcsProtocolManifest; snapshot_id : string; loaded_at_unix_ns : Z }.

Definition id_le : relation IcsProtocolManifest := key_rel String.le manifest_id.

Section Catalog.
(** The digest of the canonical JSON of the manifests. *)
Context (digest : list IcsProtocolManifest -> string).

Definition from_dict (ids : by_id) (loaded_at : Z) : snapshot :=
  let ms := sort_by id_le ids.*2 in
  {| manifests := ms; snapshot_id := digest ms; loaded_at_unix_ns := loaded_at |}.

(** The result of one rebuild, before the time stamps. *)
Definition build (d : disk) : res load_error (by_id * list warning) :=
  r ← load_all (_iter_yaml_paths d) [] [];
  Ok (_check_i4_cross_vendor_collision r.1 r.2).

Record IcsProtocolCatalog := {
  cached_by_id : by_id;
  cached_snapshot : option snapshot;
  cached_mtime_signature : option (list (data_tree * list string * Z));
  cache_built_ns : Z;
  last_warning : option (list warning)
}.

Definition new_catalog : IcsProtocolCatalog :=
  {| cached_by_id := []; cached_snapshot := None; cached_mtime_signature := None; cache_built_ns := 0;
     last_warning := None |}.

Definition _CACHE_REBUILD_DEBOUNCE_NS : Z := 50000000.

#[local] Instance data_tree_eq : EqDecision data_tree.
Proof. solve_decision. Defined.

(** An exception leaves the catalog as it was: the fields are assigned at the end. *)
Definition _rebuild_if_stale (now_ns time_ns : Z) (d : disk) (c : IcsProtocolCatalog)
    : res load_error IcsProtocolCatalog :=
  if match c.(cached_snapshot) with Some _ => now_ns - c.(cache_built_ns) <? _CACHE_REBUILD_DEBOUNCE_NS
                               | None => false end
  then Ok c
  else
    let new_sig := _compute_mtime_signature d in
    if match c.(cached_snapshot) with Some _ => bool_decide (Some new_sig = c.(cached_mtime_signature))
                                 | None => false end
    then Ok {| cached_by_id := c.(cached_by_id); cached_snapshot := c.(cached_snapshot);
               cached_mtime_signature := c.(cached_mtime_signature); cache_built_ns := now_ns;
               last_warning := c.(last_warning) |}
    else
      r ← build d;
      Ok {| cached_by_id := r.1; cached_snapshot := Some (from_dict r.1 time_ns);
            cached_mtime_signature := Some new_sig; cache_built_ns := now_ns;
            last_warning := match r.2 with [] => None | ws => Some ws end |}.

(** The snapshot served, and the catalog after the call. *)
Definition get_snapshot (now_ns time_ns : Z) (d : disk) (c : IcsProtocolCatalog)
    : res load_error (option snapshot * IcsProtocolCatalog) :=
  c ← _rebuild_if_stale now_ns time_ns d c; Ok (c.(cached_snapshot), c).

Definition get_catalog (now_ns time_ns : Z) (d : disk) (c : IcsProtocolCatalog)
    : res load_error (by_id * IcsProtocolCatalog) :=
  c ← _rebuild_if_stale now_ns time_ns d c; Ok (c.(cached_by_id), c).

Definition reload (c : IcsProtocolCatalog) : IcsProtocolCatalog :=
  {| cached_by_id := c.(cached_by_id); cached_snapshot := None; cached_mtime_signature := None;
     cache_built_ns := 0; last_warning := c.(last_warning) |}.
End Catalog.

Definition snapshot_get (s : snapshot) (id : string) : option IcsProtocolManifest :=
  List.find (fun m => bool_decide (m.(manifest_id) = id)) s.(manifests).

(** ** The groups of the collision check *)

Lemma fp_to_ids_group (ids : by_id) (k : magic_key) (ms : list member) :
  (k, ms) ∈ fp_to_ids ids -> ms = members_of (magic_entries ids) k.
Proof. apply grouped_members. Qed.

Lemma fp_to_ids_complete (ids : by_id) (k : magic_key) :
  members_of (magic_entries ids) k <> [] -> (k, members_of (magic_entries ids) k) ∈ fp_to_ids ids.
Proof. apply grouped_complete. Qed.

(** ** What the check drops *)

Lemma dict_pop_filter {A} (k : string) (d : list (string * A)) :
  NoDup d.*1 -> dict_pop k d = List.filter (fun kv => negb (bool_decide (kv.1 = k))) d.
Proof.
  induction d as [|[k' v] d IH]; intros Hnd; [done|]. cbn in Hnd. apply NoDup_cons in Hnd as [Hk Hnd].
  cbn [dict_pop List.filter fst]. destruct (decide (k' = k)) as [->|Hne].
  - rewrite bool_decide_eq_true_2 by done. cbn [negb]. symmetry. apply filter_all, forallb_forall.
    intros [k2 v2] Hin%list_elem_of_In. cbn. apply negb_true_iff, bool_decide_eq_false_2. intros ->.
    apply Hk, list_elem_of_fmap. by exists (k, v2).
  - rewrite bool_decide_eq_false_2 by done. cbn [negb]. by rewrite IH.
Qed.

Lemma filter_filter {A} (f g : A -> bool) (l : list A) :
  List.filter f (List.filter g l) = List.filter (fun x => g x && f x) l.
Proof.
  induction l as [|x l IH]; [done|]. cbn. destruct (g x); cbn; [destruct (f x)|]; by rewrite ?IH.
Qed.


Lemma filter_ext' {A} (f g : A -> bool) (l : list A) :
  (forall x, x ∈ l -> f x = g x) -> List.filter f l = List.filter g l.
Proof.
  intros H. induction l as [|x l IH]; [done|]. cbn. rewrite (H x) by left.
  rewrite IH; [done|]. intros y Hy. apply H. by right.
Qed.

Lemma filter_nodup_keys {A} (f : string * A -> bool) (d : list (string * A)) :
  NoDup d.*1 -> NoDup (List.filter f d).*1.
Proof.
  induction d as [|x d IH]; [done|]. cbn. intros [Hx Hd]%NoDup_cons. destruct (f x); cbn; [|auto].
  constructor; [|auto]. intros Hin. apply Hx. apply list_elem_of_fmap in Hin as (y & -> & Hy).
  apply list_elem_of_In, List.filter_In in Hy as [Hy _]. apply list_elem_of_fmap_2. by apply list_elem_of_In.
Qed.

Definition keeps {A} (dropped : list string) (kv : string * A) : bool := negb (bool_decide (kv.1 ∈ dropped)).

Lemma pop_all_filter {A} (dropped : list string) (d : list (string * A)) :
  NoDup d.*1 -> foldl (fun ids i => dict_pop i ids) d dropped = List.filter (keeps dropped) d.
Proof.
  revert d. induction dropped as [|i l IH]; intros d Hnd; cbn [foldl].
  - symmetry. apply filter_all, forallb_forall. intros x _. unfold keeps.
    by rewrite bool_decide_eq_false_2 by apply not_elem_of_nil.
  - rewrite dict_pop_filter by done. rewrite IH by by apply filter_nodup_keys.
    rewrite filter_filter. apply filter_ext'. intros [k v] _. unfold keeps. cbn.
    destruct (decide (k = i)) as [->|Hne].
    + rewrite bool_decide_eq_true_2 by done. by rewrite (bool_decide_eq_true_2 (i ∈ i :: l)) by left.
    + rewrite (bool_decide_eq_false_2 (k = i)) by done. cbn. f_equal. apply bool_decide_ext.
      rewrite elem_of_cons. naive_solver.
Qed.

Lemma check_keys_filter (groups : list (magic_key * list member)) (ids : by_id) (ws : list warning) :
  NoDup ids.*1 ->
  (check_keys groups ids ws).1 = List.filter (keeps (mjoin ((fun g => drop_ids g.2) <$> groups))) ids.
Proof.
  revert ids ws. induction groups as [|[k ms] groups IH]; intros ids ws Hnd; cbn [check_keys].
  - symmetry. apply filter_all, forallb_forall. intros x _. unfold keeps.
    by rewrite bool_decide_eq_false_2 by apply not_elem_of_nil.
  - set (b := 2 <=? zlen (remove_dups ms.*2)).
    assert (Hd : b = false -> drop_ids ms = []) by (unfold drop_ids; fold b; by intros ->).
    transitivity (List.filter (keeps (mjoin ((fun g => drop_ids g.2) <$> groups)))
                   (List.filter (keeps (drop_ids ms)) ids)).
    + destruct b eqn:Eb.
      * rewrite IH, pop_all_filter; [done|done|]. rewrite pop_all_filter by done. by apply filter_nodup_keys.
      * rewrite IH by done. f_equal. rewrite Hd by done. symmetry. apply filter_all, forallb_forall.
        intros x _. unfold keeps. by rewrite bool_decide_eq_false_2 by apply not_elem_of_nil.
    + rewrite filter_filter. apply filter_ext'. intros x _. unfold keeps. cbn [fmap list_fmap mjoin list_join snd].
      rewrite <- negb_orb. f_equal. rewrite <- bool_decide_or. apply bool_decide_ext. by rewrite elem_of_app.
Qed.

(** A manifest is dropped exactly when it is behind the first member of some group. *)
Definition dropped_by (ids : by_id) (i : string) : Prop :=
  exists k, i ∈ drop_ids (members_of (magic_entries ids) k).

Lemma elem_of_dropped (ids : by_id) (i : string) :
  i ∈ mjoin ((fun g => drop_ids g.2) <$> fp_to_ids ids) <-> dropped_by ids i.
Proof.
  unfold dropped_by. rewrite list_elem_of_join. split.
  - intros (l & Hi & Hl). apply list_elem_of_fmap in Hl as ([k ms] & -> & Hg). cbn in Hi.
    apply fp_to_ids_group in Hg as ->. by exists k.
  - intros (k & Hk). exists (drop_ids (members_of (magic_entries ids) k)). split; [done|].
    apply list_elem_of_fmap. exists (k, members_of (magic_entries ids) k). split; [done|].
    apply fp_to_ids_complete. intros E. rewrite E in Hk. by apply not_elem_of_nil in Hk.
Qed.

Lemma i4_filter (ids : by_id) (ws : list warning) (i : string) (m : IcsProtocolManifest) :
  NoDup ids.*1 ->
  (i, m) ∈ (_check_i4_cross_vendor_collision ids ws).1 <-> (i, m) ∈ ids /\ ~ dropped_by ids i.
Proof.
  intros Hnd. unfold _check_i4_cross_vendor_collision. rewrite check_keys_filter by done.
  rewrite !list_elem_of_In, List.filter_In, <- !list_elem_of_In. unfold keeps. cbn [fst].
  by rewrite negb_true_iff, bool_decide_eq_false, elem_of_dropped.
Qed.

(** ** What is loaded *)

(** Manifests filed under their own identifiers, each of them valid. *)
Definition ids_ok (ids : by_id) : Prop :=
  NoDup ids.*1 /\ forall i m, (i, m) ∈ ids -> i = m.(manifest_id) /\ manifest_ok m = true.

Lemma load_one_spec (f : data_tree * yaml_file) (m : IcsProtocolManifest) :
  _load_one f = Ok (inl m) <->
  f.2.(f_doc) = Doc m /\ manifest_ok m = true /\ _expected_source f = Some m.(manifest_source).
Proof.
  unfold _load_one. destruct (f_doc f.2) as [| | | | | |m']; try (split; [done|by intros [? _]]).
  destruct (manifest_ok m') eqn:Ev; cbn [negb]; [|split; [done|]; intros ([= ->] & ? & _); congruence].
  destruct (_expected_source f) as [s|]; [|split; [done|by intros (_ & _ & ?)]].
  destruct (decide (manifest_source m' = s)) as [He|Hne].
  - rewrite bool_decide_eq_true_2 by done. split; [intros [= <-]; by subst|by intros ([= ->] & _)].
  - rewrite bool_decide_eq_false_2 by done. split; [done|]. intros ([= ->] & _ & [= ->]). done.
Qed.

Lemma dict_set_fresh {A} (k : string) (v : A) (d : list (string * A)) :
  dict_has k d = false -> dict_set k v d = (d ++ [(k, v)])%list.
Proof.
  unfold dict_has. rewrite bool_decide_eq_false. induction d as [|[k' v'] d IH]; intros H; [done|].
  cbn in *. case_decide; [destruct H; by eexists|]. by rewrite IH.
Qed.

Lemma dict_has_keys {A} (k : string) (d : list (string * A)) : dict_has k d = false -> k ∉ d.*1.
Proof.
  unfold dict_has. rewrite bool_decide_eq_false. induction d as [|[k' v'] d IH]; intros H; cbn in *;
    [apply not_elem_of_nil|]. case_decide; [destruct H; by eexists|]. rewrite elem_of_cons. naive_solver.
Qed.

(** Loading appends; what it appends comes from the files it reads. *)
Lemma load_all_spec (files : list (data_tree * yaml_file)) (ids ids' : by_id) (ws ws' : list warning) :
  ids_ok ids -> load_all files ids ws = Ok (ids', ws') ->
  ids_ok ids' /\ exists extra, ids' = (ids ++ extra)%list /\
    forall i m, (i, m) ∈ extra -> exists f, f ∈ files /\ _load_one f = Ok (inl m).
Proof.
  revert ids ws. induction files as [|f files IH]; intros ids ws Hok Hl; cbn [load_all] in Hl.
  - simplify_eq. split; [done|]. exists []. rewrite app_nil_r. split; [done|]. by intros i m ?%not_elem_of_nil.
  - apply res_bind_ok in Hl as (r & Hf & Hl).
    assert (Hskip : forall ws1, load_all files ids ws1 = Ok (ids', ws') ->
      ids_ok ids' /\ exists extra, ids' = (ids ++ extra)%list /\
        forall i m, (i, m) ∈ extra -> exists f0, f0 ∈ f :: files /\ _load_one f0 = Ok (inl m)).
    { intros ws1 Hs. destruct (IH _ _ Hok Hs) as (Hok' & extra & -> & He). split; [done|].
      exists extra. split; [done|]. intros i m Hin. destruct (He i m Hin) as (g & Hg & Hgl).
      exists g. split; [by right|done]. }
    destruct r as [m|w]; [|by eapply Hskip].
    destruct (dict_has (manifest_id m) ids) eqn:Ed; [by eapply Hskip|].
    rewrite dict_set_fresh in Hl by done.
    apply load_one_spec in Hf as Hf'. destruct Hf' as (_ & Hv & _).
    apply IH in Hl as (Hok' & extra & -> & He).
    + split; [done|]. exists ((manifest_id m, m) :: extra). rewrite <- app_assoc. split; [done|].
      intros i m' [[= -> ->]|Hin]%elem_of_cons; [exists f; split; [left|done]|].
      destruct (He i m' Hin) as (g & Hg & Hgl). exists g. split; [by right|done].
    + destruct Hok as [Hnd Hids]. split.
      * rewrite fmap_app. cbn. apply NoDup_app. split_and!; [done| |repeat constructor; by intros ?%elem_of_nil].
        intros x Hx Hx'. apply list_elem_of_singleton in Hx'. subst. by apply dict_has_keys in Ed.
      * intros i m' [Hin|Hin]%elem_of_app; [by apply Hids|]. by apply list_elem_of_singleton in Hin as [= -> ->].
Qed.


Lemma ids_ok_nil : ids_ok [].
Proof. split; [constructor|]. by intros i m ?%not_elem_of_nil. Qed.

Lemma ids_ok_inj (ids : by_id) (i : string) (m m' : IcsProtocolManifest) :
  ids_ok ids -> (i, m) ∈ ids -> (i, m') ∈ ids -> m = m'.
Proof.
  intros [Hnd _] H H'. apply nodup_dict_get in H, H'; [congruence|done..].
Qed.


Lemma elem_of_entries (ids : by_id) (k : magic_key) (x : member) :
  (k, x) ∈ magic_entries ids <-> exists i m, (i, m) ∈ ids /\ k ∈ magic_keys m /\ x = member_of m.
Proof.
  unfold magic_entries. rewrite list_elem_of_bind. split.
  - intros ([i m] & Hx & Hin). apply list_elem_of_bind in Hx as (k' & Hx & Hk).
    apply list_elem_of_singleton in Hx as [= -> ->]. by exists i, m.
  - intros (i & m & Hin & Hk & ->). exists (i, m). split; [|done]. apply list_elem_of_bind.
    exists k. split; [by left|done].
Qed.


(** Distinct vendors make a group collide, and then only its first member survives. *)
Lemma drop_ids_survivors (ms : list member) (x y : member) :
  x ∈ ms -> y ∈ ms -> x.2 <> y.2 -> x.1 ∉ drop_ids ms -> y.1 ∉ drop_ids ms -> False.
Proof.
  intros Hx Hy Hv Hdx Hdy. unfold drop_ids in Hdx, Hdy.
  assert (H2 : 2 <=? zlen (remove_dups ms.*2) = true).
  { apply Z.leb_le. assert (Hsx : x.2 ∈ remove_dups ms.*2) by by apply elem_of_remove_dups, list_elem_of_fmap_2.
    assert (Hsy : y.2 ∈ remove_dups ms.*2) by by apply elem_of_remove_dups, list_elem_of_fmap_2.
    destruct (remove_dups ms.*2) as [|a [|b l]].
    - by apply not_elem_of_nil in Hsx.
    - apply list_elem_of_singleton in Hsx, Hsy. congruence.
    - rewrite !zlen_cons. pose proof (zlen_nonneg l). lia. }
  rewrite H2 in Hdx, Hdy.
  rewrite <- (elem_of_sort_by (key_rel String.le member_text)) in Hx, Hy.
  destruct (sort_by _ ms) as [|h l]; [by apply not_elem_of_nil in Hx|]. cbn [tail] in *.
  apply elem_of_cons in Hx as [->|Hx], Hy as [->|Hy]; [done|..].
  - apply Hdy. by apply list_elem_of_fmap_2.
  - apply Hdx. by apply list_elem_of_fmap_2.
  - apply Hdx. by apply list_elem_of_fmap_2.
Qed.

(** ** Properties of the loader *)

Lemma build_spec (d : disk) (ids : by_id) (ws : list warning) :
  build d = Ok (ids, ws) ->
  exists ids0 ws0, load_all (_iter_yaml_paths d) [] [] = Ok (ids0, ws0) /\ ids_ok ids0 /\
    forall i m, (i, m) ∈ ids <-> (i, m) ∈ ids0 /\ ~ dropped_by ids0 i.
Proof.
  unfold build. intros (r & Hl & Hc)%res_bind_ok. injection Hc as Hc. destruct r as [ids0 ws0].
  exists ids0, ws0. split; [done|]. destruct (load_all_spec _ _ _ _ _ ids_ok_nil Hl) as (Hok & _).
  split; [done|]. intros i m. cbn [fst snd] in Hc. rewrite <- (i4_filter ids0 ws0) by apply Hok. by rewrite Hc.
Qed.

Lemma dropped_member (ids : by_id) (m : IcsProtocolManifest) (k : magic_key) :
  (manifest_id m, m) ∈ ids -> k ∈ magic_keys m ->
  member_of m ∈ members_of (magic_entries ids) k.
Proof. intros Hin Hk. apply elem_of_members, elem_of_entries. by exists (manifest_id m), m. Qed.

(** What a rebuild holds: each manifest is valid, comes from a file whose directory
    tier is the source it declares, and is filed once under its identifier; and no two
    of them share tier, precedence and magic while naming different vendors. *)
Theorem catalog_sound (d : disk) (ids : by_id) (ws : list warning) :
  build d = Ok (ids, ws) ->
  (forall i m, (i, m) ∈ ids -> i = m.(manifest_id) /\ manifest_ok m = true /\
     exists f, f ∈ _iter_yaml_paths d /\ f.2.(f_doc) = Doc m /\ _expected_source f = Some m.(manifest_source)) /\
  (forall i m m', (i, m) ∈ ids -> (i, m') ∈ ids -> m = m') /\
  (forall i j m m' k, (i, m) ∈ ids -> (j, m') ∈ ids -> k ∈ magic_keys m -> k ∈ magic_keys m' ->
     m.(output).(vendor) = m'.(output).(vendor)).
Proof.
  intros Hb. destruct (build_spec d ids ws Hb) as (ids0 & ws0 & Hl & Hok & Hiff).
  destruct (load_all_spec _ _ _ _ _ ids_ok_nil Hl) as (_ & extra & Heq & Hfrom). split_and!.
  - intros i m [Hin _]%Hiff. destruct Hok as [_ Hids]. destruct (Hids i m Hin) as [-> Hv].
    split_and!; [done|done|]. rewrite Heq in Hin. destruct (Hfrom _ _ Hin) as (f & Hf & Hlo).
    apply load_one_spec in Hlo as (Hd & _ & He). by exists f.
  - intros i m m' [H _]%Hiff [H' _]%Hiff. by eapply ids_ok_inj.
  - intros i j m m' k [H Hd]%Hiff [H' Hd']%Hiff Hk Hk'.
    destruct Hok as [Hnd Hids]. destruct (Hids i m H) as [-> _], (Hids j m' H') as [-> _].
    destruct (decide (vendor (output m) = vendor (output m'))) as [?|Hne]; [done|]. exfalso.
    eapply (drop_ids_survivors (members_of (magic_entries ids0) k) (member_of m) (member_of m'));
      [by apply dropped_member|by apply dropped_member|done| |]; intros Hx; [apply Hd|apply Hd']; by exists k.
Qed.

(** Two files of one tier with the same magic and different vendors. *)
Definition file_of (parts : list string) (doc : yaml_doc) : yaml_file :=
  {| f_parts := parts; f_mtime := Some 1; f_doc := doc |}.

Definition magic_manifest (id vendor_ : string) (sigs : list IcsDetectionSignal) : IcsProtocolManifest :=
  manifest_with id src_core 100 vendor_ any_signal sigs.

Definition two_vendors : disk :=
  {| data_files := Some [file_of ["beta"; "b.yaml"] (Doc (magic_manifest "b" "beta" [magic_signal "0300" None]));
                         file_of ["acme"; "a.yaml"] (Doc (magic_manifest "a" "acme" [magic_signal "0300" None]))];
     overlay_files := None |}.

Lemma catalog_sound_witness :
  exists ids ws, build two_vendors = Ok (ids, ws) /\ ids.*1 = ["a"] /\
    forall i m, (i, m) ∈ ids -> i = m.(manifest_id) /\ manifest_ok m = true /\
      exists f, f ∈ _iter_yaml_paths two_vendors /\ f.2.(f_doc) = Doc m /\ _expected_source f = Some m.(manifest_source).
Proof.
  destruct (build two_vendors) as [[ids ws]|e] eqn:E; [|vm_compute in E; discriminate].
  exists ids, ws. split; [reflexivity|]. split.
  - vm_compute in E. injection E as <- _. reflexivity.
  - exact (proj1 (catalog_sound two_vendors ids ws E)).
Defined.


Definition without_overlay (d : disk) : disk := {| data_files := d.(data_files); overlay_files := None |}.






#[export] Instance id_le_trans : Transitive id_le.
Proof. unfold id_le. apply _. Qed.
#[export] Instance id_le_total : Total id_le.
Proof. unfold id_le. apply _. Qed.





(** An overlay with a file that claims the bundled detector's identifier, one that claims
    a bundled tier, and an honest one. *)
Definition bundled : list yaml_file := [file_of ["_system"; "dnp3.yaml"] (Doc dnp3_v0_system)].

Definition hostile_overlay : disk :=
  {| data_files := Some bundled;
     overlay_files := Some
       [file_of ["a.yaml"] (Doc (manifest_with "dnp3_v0_system" src_operator 100 "acme" any_signal [port_signal 1 None]));
        file_of ["b.yaml"] (Doc (manifest_with "fake" src_system 5 "acme" any_signal [port_signal 1 None]));
        file_of ["c.yaml"] (Doc (manifest_with "honest" src_operator 100 "acme" any_signal [port_signal 1 None]))] |}.

(** The manifests a collision check leaves, by identifier. *)
Definition survivors (ms : list IcsProtocolManifest) : list string :=
  (_check_i4_cross_vendor_collision ((fun m => (m.(manifest_id), m)) <$> ms) []).1.*1.

(** The collision check is to keep the first manifest of every collision, and to drop
    nothing else.  It does not: a manifest that names one magic twice, under two masks,
    is its own second member and is dropped with its rival; and a manifest is dropped on
    account of a rival that another collision has dropped already, although it collides
    with none that is left; and a second manifest of the surviving vendor goes too. *)
Theorem i4_overdrops :
  (exists a b, manifest_ok a = true /\ manifest_ok b = true /\
     a.(manifest_id) = "a" /\ b.(manifest_id) = "b" /\ survivors [a; b] = []) /\
  (exists a b c, forallb manifest_ok [a; b; c] = true /\
     (manifest_id <$> [a; b; c]) = ["a"; "b"; "c"] /\
     (forall k, k ∈ magic_keys a -> k ∈ magic_keys c -> False) /\ survivors [a; b; c] = ["a"]) /\
  (exists a b c, forallb manifest_ok [a; b; c] = true /\
     (manifest_id <$> [a; b; c]) = ["a"; "b"; "c"] /\ a.(output).(vendor) = b.(output).(vendor) /\
     survivors [a; b; c] = ["a"]).
Proof.
  split_and!.
  - exists (magic_manifest "a" "acme" [magic_signal "0300" (Some "ffff"); magic_signal "0300" (Some "fff0")]),
           (magic_manifest "b" "beta" [magic_signal "0300" None]).
    split_and!; vm_compute; reflexivity.
  - exists (magic_manifest "a" "acme" [magic_signal "0300" None]),
           (magic_manifest "b" "beta" [magic_signal "0300" None; magic_signal "0400" None]),
           (magic_manifest "c" "corp" [magic_signal "0400" None]).
    split_and!; [vm_compute; reflexivity|vm_compute; reflexivity| |vm_compute; reflexivity].
    intros k Hk Hk'. unfold magic_keys, magic_manifest, manifest_with in Hk, Hk'. cbn in Hk, Hk'.
    apply list_elem_of_singleton in Hk, Hk'. rewrite Hk in Hk'. vm_compute in Hk'. discriminate.
  - exists (magic_manifest "a" "acme" [magic_signal "0300" None]),
           (magic_manifest "b" "acme" [magic_signal "0300" None]),
           (magic_manifest "c" "corp" [magic_signal "0300" None]).
    split_and!; vm_compute; reflexivity.
Qed.

(** A file whose content raises through the loader. *)
Definition poisoned (f : data_tree * yaml_file) : Prop :=
  f.2.(f_doc) = DecodeError \/ f.2.(f_doc) = NonStringKey.

Lemma load_one_raises (f : data_tree * yaml_file) : (exists e, _load_one f = Err e) <-> poisoned f.
Proof.
  unfold poisoned, _load_one. destruct (f_doc f.2) as [| | | | | |m]; try (split; [by intros [? ?]|by intros [|]]).
  - split; [by left|by eexists].
  - split; [by right|by eexists].
  - split; [|by intros [|]]. intros [e He]. destruct (negb (manifest_ok m)); [done|].
    destruct (_expected_source f); [|done]. by case_bool_decide.
Qed.

Lemma load_all_raises (files : list (data_tree * yaml_file)) (ids : by_id) (ws : list warning) :
  (exists e, load_all files ids ws = Err e) <-> exists f, f ∈ files /\ poisoned f.
Proof.
  revert ids ws. induction files as [|f files IH]; intros ids ws; cbn [load_all].
  - split; [by intros [? ?]|]. by intros (? & ?%not_elem_of_nil & _).
  - assert (Hcons : (exists g, g ∈ f :: files /\ poisoned g) <-> poisoned f \/ exists g, g ∈ files /\ poisoned g).
    { setoid_rewrite elem_of_cons. naive_solver. }
    rewrite Hcons. destruct (_load_one f) as [r|e] eqn:El; cbn [mbind res_bind].
    + assert (~ poisoned f) as Hp by (rewrite <- load_one_raises; intros [e He]; congruence).
      destruct r as [m|w]; [|rewrite IH; tauto]. case_match; rewrite IH; tauto.
    + split; [|by eexists]. intros _. left. apply load_one_raises. by exists e.
Qed.

(** The loader promises to skip any file it cannot read, but two kinds raise through
    it, and through every lookup in the catalog: a rebuild raises exactly when some file
    of either tree is not UTF-8 text or is a mapping with a key that is no string.  One
    such file in the overlay takes the bundled manifests down with it. *)
Theorem build_raises (d : disk) :
  ((exists e, build d = Err e) <-> exists f, f ∈ _iter_yaml_paths d /\ poisoned f) /\
  (exists d1 f ids ws, d1 = {| data_files := Some bundled; overlay_files := Some [f] |} /\
     build (without_overlay d1) = Ok (ids, ws) /\ ids <> [] /\ exists e, build d1 = Err e).
Proof.
  split.
  - rewrite <- (load_all_raises (_iter_yaml_paths d) [] []). unfold build.
    destruct (load_all (_iter_yaml_paths d) [] []) as [r|e]; cbn [mbind res_bind]; [|done].
    split; by intros [? ?].
  - exists {| data_files := Some bundled; overlay_files := Some [file_of ["x.yaml"] DecodeError] |},
      (file_of ["x.yaml"] DecodeError).
    destruct (build (without_overlay _)) as [[ids ws]|e] eqn:E; [|vm_compute in E; discriminate].
    exists ids, ws. split_and!; [done|reflexivity| |by exists UnicodeDecodeError].
    vm_compute in E. injection E as <- _. discriminate.
Qed.



(** ** The cache *)

Section Cache.
Context (digest : list IcsProtocolManifest -> string).

(** One lookup of a run: the monotonic clock, the wall clock and the files at the time. *)
Record lookup_event := { le_now : Z; le_time : Z; le_disk : disk }.

(** A run of lookups, with the snapshot each is served; a raising lookup serves none. *)
Fixpoint lookups (es : list lookup_event) (c : IcsProtocolCatalog) : list (option snapshot) :=
  match es with
  | [] => []
  | e :: es =>
      match get_snapshot digest e.(le_now) e.(le_time) e.(le_disk) c with
      | Ok (s, c') => s :: lookups es c'
      | Err _ => None :: lookups es c
      end
  end.

(** The manifests that a rebuild from these files would serve. *)
Definition fresh (d : disk) (s : snapshot) : Prop :=
  exists ids ws, build d = Ok (ids, ws) /\ s.(manifests) = sort_by id_le ids.*2 /\
    s.(snapshot_id) = digest s.(manifests).

(** The file system tells changes by modification times: equal signatures, equal
    rebuilds. *)
Definition mtimes_tell (ds : list disk) : Prop :=
  forall d d', d ∈ ds -> d' ∈ ds ->
    _compute_mtime_signature d = _compute_mtime_signature d' -> build d = build d'.

(** What a catalog remembers of the lookup that last looked at the files. *)
Definition remembers (past : list lookup_event) (c : IcsProtocolCatalog) : Prop :=
  forall s, c.(cached_snapshot) = Some s ->
    exists e, e ∈ past /\ c.(cache_built_ns) = e.(le_now) /\ fresh e.(le_disk) s /\
      c.(cached_mtime_signature) = Some (_compute_mtime_signature e.(le_disk)).

Lemma rebuilt (past : list lookup_event) (e : lookup_event) (ids : by_id) (ws : list warning)
    (c' : IcsProtocolCatalog) :
  build e.(le_disk) = Ok (ids, ws) ->
  c'.(cached_snapshot) = Some (from_dict digest ids e.(le_time)) ->
  c'.(cache_built_ns) = e.(le_now) ->
  c'.(cached_mtime_signature) = Some (_compute_mtime_signature e.(le_disk)) ->
  remembers (past ++ [e]) c' /\
  exists s e', c'.(cached_snapshot) = Some s /\ e' ∈ (past ++ [e])%list /\ fresh e'.(le_disk) s /\
    (e' = e \/ e.(le_now) - e'.(le_now) < _CACHE_REBUILD_DEBOUNCE_NS).
Proof.
  intros Hb Hs Hn Hg. assert (He : e ∈ (past ++ [e])%list) by (apply elem_of_app; right; left).
  assert (Hf : fresh (le_disk e) (from_dict digest ids (le_time e))) by by exists ids, ws.
  split.
  - intros s Hs'. rewrite Hs in Hs'. injection Hs' as <-. by exists e.
  - exists (from_dict digest ids (le_time e)), e. split_and!; [done|done|done|by left].
Qed.

Lemma rebuild_remembers (past : list lookup_event) (e : lookup_event) (c c' : IcsProtocolCatalog) :
  mtimes_tell (le_disk <$> (past ++ [e])%list) -> remembers past c ->
  _rebuild_if_stale digest e.(le_now) e.(le_time) e.(le_disk) c = Ok c' ->
  remembers (past ++ [e]) c' /\
  exists s e', c'.(cached_snapshot) = Some s /\ e' ∈ (past ++ [e])%list /\ fresh e'.(le_disk) s /\
    (e' = e \/ e.(le_now) - e'.(le_now) < _CACHE_REBUILD_DEBOUNCE_NS).
Proof.
  intros Hm Hr. unfold _rebuild_if_stale.
  assert (He : e ∈ (past ++ [e])%list) by (apply elem_of_app; right; left).
  destruct (cached_snapshot c) as [s|] eqn:Es.
  - destruct (Hr s Es) as (e0 & He0 & Hb & Hf & Hsig).
    assert (He0' : e0 ∈ (past ++ [e])%list) by (apply elem_of_app; by left).
    destruct (Z.ltb_spec (le_now e - cache_built_ns c) _CACHE_REBUILD_DEBOUNCE_NS) as [Hlt|Hge].
    + intros [= <-]. split.
      * intros s' Hs'. rewrite Es in Hs'. injection Hs' as <-. by exists e0.
      * exists s, e0. split_and!; [done|done|done|]. right. by rewrite <- Hb.
    + case_bool_decide as Hsame.
      * intros [= <-]. cbn. rewrite Hsig in Hsame. injection Hsame as Hsame.
        assert (Hfe : fresh (le_disk e) s).
        { destruct Hf as (ids & ws & Hbld & Hf). exists ids, ws. split; [|done].
          rewrite <- Hbld. apply Hm; [by apply list_elem_of_fmap_2..|done]. }
        split; [|by exists s, e; eauto].
        intros s' Hs'. cbn in Hs'. injection Hs' as <-. exists e. cbn.
        split_and!; [done|done|done|]. by rewrite Hsig, Hsame.
      * intros ([ids ws] & Hbld & [= <-])%res_bind_ok. by apply (rebuilt past e ids ws).
  - intros ([ids ws] & Hbld & [= <-])%res_bind_ok. by apply (rebuilt past e ids ws).
Qed.

Lemma lookups_fresh (es past : list lookup_event) (c : IcsProtocolCatalog) (i : nat) (s : snapshot) :
  mtimes_tell (le_disk <$> (past ++ es)%list) -> remembers past c ->
  lookups es c !! i = Some (Some s) ->
  exists e e', es !! i = Some e /\ e' ∈ (past ++ take (S i) es)%list /\ fresh e'.(le_disk) s /\
    (e' = e \/ e.(le_now) - e'.(le_now) < _CACHE_REBUILD_DEBOUNCE_NS).
Proof.
  revert past c i. induction es as [|e es IH]; intros past c i Hm Hr Hi; [done|].
  assert (Hm' : mtimes_tell (le_disk <$> ((past ++ [e]) ++ es)%list)) by by rewrite <- app_assoc.
  assert (Hmono : remembers past c -> remembers (past ++ [e]) c).
  { intros H s0 Hs0. destruct (H s0 Hs0) as (e0 & He0 & ?). exists e0. split; [|done]. apply elem_of_app. by left. }
  cbn [lookups] in Hi. unfold get_snapshot in Hi.
  destruct (_rebuild_if_stale digest (le_now e) (le_time e) (le_disk e) c) as [c'|x] eqn:Eb; cbn [mbind res_bind] in Hi.
  - apply (rebuild_remembers past) in Eb as (Hr' & s0 & e' & Hs0 & He' & Hf & Ht); [| |done].
    + destruct i as [|i]; cbn in Hi.
      * injection Hi as Hi. rewrite Hs0 in Hi. injection Hi as ->. exists e, e'. done.
      * destruct (IH _ _ _ Hm' Hr' Hi) as (e1 & e2 & H1 & H2 & H3). exists e1, e2. split; [done|].
        split; [|done]. cbn. by rewrite <- app_assoc in H2.
    + intros d d' Hd Hd'. apply Hm; rewrite fmap_app in Hd, Hd' |- *; cbn in Hd, Hd' |- *;
        apply elem_of_app; (apply elem_of_app in Hd as [?|?%list_elem_of_singleton]; [by left|subst; right; left])
        || (apply elem_of_app in Hd' as [?|?%list_elem_of_singleton]; [by left|subst; right; left]).
  - destruct i as [|i]; cbn in Hi; [done|].
    destruct (IH _ _ _ Hm' (Hmono Hr) Hi) as (e1 & e2 & H1 & H2 & H3). exists e1, e2. split; [done|].
    split; [|done]. cbn. by rewrite <- app_assoc in H2.
Qed.

(** The cache serves current manifests: in any run of lookups from a new catalog, with
    modification times that tell the contents apart, every snapshot served is the one a
    rebuild from the files would give at the time of the lookup or at an earlier lookup
    less than fifty milliseconds before it. *)
Theorem catalog_fresh (es : list lookup_event) (i : nat) (s : snapshot) :
  mtimes_tell (le_disk <$> es) ->
  lookups es new_catalog !! i = Some (Some s) ->
  exists e e', es !! i = Some e /\ e' ∈ take (S i) es /\ fresh e'.(le_disk) s /\
    (e' = e \/ e.(le_now) - e'.(le_now) < _CACHE_REBUILD_DEBOUNCE_NS).
Proof. intros Hm. apply (lookups_fresh es []); [done|]. by intros s0 Hs0. Qed.
End Cache.

(** The overlay appears between the second and the third lookup. *)
Definition appearing : list lookup_event :=
  [{| le_now := 0; le_time := 7; le_disk := without_overlay hostile_overlay |};
   {| le_now := 40000000; le_time := 8; le_disk := hostile_overlay |};
   {| le_now := 90000000; le_time := 9; le_disk := hostile_overlay |}].

Definition count_digest (ms : list IcsProtocolManifest) : string := str_int (zlen ms).

Lemma appearing_mtimes : mtimes_tell (le_disk <$> appearing).
Proof.
  intros d d' Hd Hd'. cbn in Hd, Hd'. rewrite !elem_of_cons, elem_of_nil in Hd, Hd'.
  destruct Hd as [->|[->|[->|[]]]], Hd' as [->|[->|[->|[]]]]; try done; vm_compute; discriminate.
Qed.

Lemma catalog_fresh_witness :
  mtimes_tell (le_disk <$> appearing) /\
  exists s, lookups count_digest appearing new_catalog !! 2%nat = Some (Some s) /\
    (manifest_id <$> manifests s) = ["dnp3_v0_system"; "honest"] /\
    exists e', e' ∈ appearing /\ fresh count_digest e'.(le_disk) s.
Proof.
  split; [exact appearing_mtimes|].
  destruct (lookups count_digest appearing new_catalog !! 2%nat) as [[s|]|] eqn:E; [|vm_compute in E; discriminate..].
  exists s. split; [reflexivity|]. split.
  - vm_compute in E. injection E as <-. reflexivity.
  - destruct (catalog_fresh count_digest appearing 2 s appearing_mtimes E) as (e & e' & _ & He' & Hf & _).
    by exists e'.
Defined.
