(* ===== verification/IcsWalk.v ===== *)
(** * ICS protocol walk ([services/ics_protocol_walker.py], [ai/tools/ics_protocol.py])

    The inner walk over the binaries of a firmware, its result document, and the tools
    that read results.  The directory walk, the catalog snapshots at entry and exit, the
    detection roots and the success of each finding insert are inputs. *)

From S2P Require Import Prelude PyText PosixPath Json Sorting JsonbColumns ManifestLib IcsSchema IcsResolver DetectLinux.
From Stdlib Require Import Ascii String.
Import (notations) Ascii String.
#[local] Open Scope Z_scope.

Definition _HEAD_BYTES : Z := 32 * 1024.
Definition _MAX_BINARIES_PER_WALK : Z := 2000.
Definition _MIN_BINARY_SIZE : Z := 64.
Definition _MAX_BINARY_SIZE : Z := 50 * 1024 * 1024.

Definition _BINARY_EXT_ALLOWLIST : list string :=
  [""; ".bin"; ".elf"; ".so"; ".ko"; ".dll"; ".exe"; ".out"; ".dylib"].

(** A file met by [os.walk], in its order: its size ([None] when [getsize] fails) and what
    reading it gives ([None] when [open] or [read] fails). *)
Record walk_entry := { w_dir : string; w_name : string; w_size : option Z; w_content : option bytes }.

Record candidate := { c_path : string; c_size : Z; c_content : option bytes }.

Definition candidate_of (e : walk_entry) : option candidate :=
  let ext := lower (splitext e.(w_name)) in
  if negb (bool_decide (ext = "")) && negb (bool_decide (ext ∈ _BINARY_EXT_ALLOWLIST)) then None
  else match e.(w_size) with
       | None => None
       | Some size =>
           if (size <? _MIN_BINARY_SIZE) || (_MAX_BINARY_SIZE <? size) then None
           else Some {| c_path := path_join e.(w_dir) e.(w_name); c_size := size; c_content := e.(w_content) |}
       end.

(** The count is tested before each file. *)
Fixpoint iter_binaries (entries : list walk_entry) (max_count : Z) (acc : list candidate) : list candidate :=
  match entries with
  | [] => acc
  | e :: entries =>
      if max_count <=? zlen acc then acc
      else match candidate_of e with
           | Some c => iter_binaries entries max_count (acc ++ [c])%list
           | None => iter_binaries entries max_count acc
           end
  end.

Definition _iter_binaries_sync (entries : list walk_entry) (max_count : Z) : list candidate :=
  iter_binaries entries max_count [].

Definition _read_head_sync (c : candidate) (head_bytes : Z) : option bytes :=
  ztake head_bytes <$> c.(c_content).

(** ** Names of the literals *)

Definition family_str (f : IcsProtocolFamily) : string :=
  match f with
  | modbus_tcp => "modbus_tcp" | modbus_rtu => "modbus_rtu" | dnp3 => "dnp3" | s7comm => "s7comm"
  | unknown_ics => "unknown_ics"
  end.
Definition source_str (s : IcsManifestSource) : string :=
  match s with
  | src_system => "_system" | src_core => "core" | src_operator => "operator"
  | src_attested_external => "attested_external" | src_unauthenticated_external => "unauthenticated_external"
  end.
Definition layer_str (l : IcsLayer) : string :=
  match l with
  | layer_application => "application" | layer_transport => "transport" | layer_data_link => "data_link"
  | layer_session => "session"
  end.
Definition transport_str (t : IcsTransport) : string :=
  match t with
  | tcp => "tcp" | udp => "udp" | ethernet_raw => "ethernet_raw" | serial_rs485 => "serial_rs485"
  | any_transport => "any"
  end.
Definition confidence_str (c : IcsConfidence) : string :=
  match c with conf_high => "high" | conf_medium => "medium" | conf_low => "low" end.
Definition certainty_str (c : IcsCertainty) : string :=
  match c with
  | stack_present => "stack_present" | config_present => "config_present" | string_only => "string_only"
  end.
Definition kind_str (k : IcsSignalKind) : string :=
  match k with
  | magic_bytes => "magic_bytes" | port_signature => "port_signature" | function_code_set => "function_code_set"
  | string_in_binary => "string_in_binary" | library_symbol => "library_symbol"
  end.

Definition opt_str (o : option string) : json := match o with Some s => JStr s | None => JNull end.

Definition match_dict (m : IcsProtocolMatch) : json :=
  JDict [("manifest_id", JStr m.(m_manifest_id)); ("manifest_source", JStr (source_str m.(m_manifest_source)));
         ("protocol_family", JStr (family_str m.(m_protocol_family))); ("layer", JStr (layer_str m.(m_layer)));
         ("transport", JStr (transport_str m.(m_transport))); ("vendor", JStr m.(m_vendor));
         ("vendor_product", opt_str m.(m_vendor_product)); ("protocol_version", opt_str m.(m_protocol_version));
         ("confidence", JStr (confidence_str m.(m_confidence))); ("certainty", JStr (certainty_str m.(m_certainty)));
         ("matched_signals", JList (JStr ∘ kind_str <$> m.(matched_signals)))].

(** ** The aggregate *)

Record aggregate := {
  per_binary : list (string * Z * list IcsProtocolMatch);
  family_counts : list (string * Z);
  manifest_ids : list string;
  manifest_sources : list string;
  errors : list string;
  binaries_total : Z
}.

Definition empty_aggregate : aggregate :=
  {| per_binary := []; family_counts := []; manifest_ids := []; manifest_sources := []; errors := [];
     binaries_total := 0 |}.

Definition append_new (l : list string) (s : string) : list string :=
  if bool_decide (s ∈ l) then l else (l ++ [s])%list.

Definition count_up (k : string) (d : list (string * Z)) : list (string * Z) :=
  dict_set k (dict_get_or k 0 d + 1) d.

Definition add_error (a : aggregate) (e : string) : aggregate :=
  {| per_binary := a.(per_binary); family_counts := a.(family_counts); manifest_ids := a.(manifest_ids);
     manifest_sources := a.(manifest_sources); errors := (a.(errors) ++ [e])%list;
     binaries_total := a.(binaries_total) |}.

Definition add_matches (a : aggregate) (path : string) (size : Z) (ms : list IcsProtocolMatch) : aggregate :=
  {| per_binary := (a.(per_binary) ++ [(path, size, ms)])%list;
     family_counts := foldl (fun d m => count_up (family_str m.(m_protocol_family)) d) a.(family_counts) ms;
     manifest_ids := foldl (fun l m => append_new l m.(m_manifest_id)) a.(manifest_ids) ms;
     manifest_sources := foldl (fun l m => append_new l (source_str m.(m_manifest_source))) a.(manifest_sources) ms;
     errors := a.(errors); binaries_total := a.(binaries_total) |}.

Definition count_binary (a : aggregate) : aggregate :=
  {| per_binary := a.(per_binary); family_counts := a.(family_counts); manifest_ids := a.(manifest_ids);
     manifest_sources := a.(manifest_sources); errors := a.(errors); binaries_total := a.(binaries_total) + 1 |}.

(** One binary: [resolve_all] catches what its evaluators raise, so the branch for a
    raising resolver is never taken. *)
Definition walk_binary (snapshot : list IcsProtocolManifest) (a : aggregate) (c : candidate) : aggregate :=
  let a := count_binary a in
  match _read_head_sync c _HEAD_BYTES with
  | None => add_error a ("read failed: " +:+ c.(c_path))
  | Some head =>
      match resolve_all head c.(c_path) snapshot (Some empty_context) with
      | [] => a
      | ms => add_matches a c.(c_path) c.(c_size) ms
      end
  end.

Definition cap_error : string :=
  "reached _MAX_BINARIES_PER_WALK=" +:+ str_int _MAX_BINARIES_PER_WALK +:+ " cap; later roots skipped".

Fixpoint walk_roots (snapshot : list IcsProtocolManifest) (roots : list (list walk_entry)) (a : aggregate) : aggregate :=
  match roots with
  | [] => a
  | entries :: roots =>
      let remaining := _MAX_BINARIES_PER_WALK - a.(binaries_total) in
      if remaining <=? 0 then add_error a cap_error
      else walk_roots snapshot roots (foldl (walk_binary snapshot) a (_iter_binaries_sync entries remaining))
  end.

(** ** Findings *)

Definition _ALLOWED_ICS_FINDING_SOURCES : list string :=
  ["ics_modbus_tcp_detected"; "ics_modbus_rtu_detected"; "ics_dnp3_detected"; "ics_s7comm_detected";
   "ics_unknown_ics_detected"].

Definition finding_source (family : string) : string := "ics_" +:+ family +:+ "_detected".

(** [create] is given by its outcome: [None] for a stored finding, [Some text] for an
    exception. *)
Definition emit_finding (create : string -> option string) (acc : Z * list string) (family : string) : Z * list string :=
  if bool_decide (finding_source family ∈ _ALLOWED_ICS_FINDING_SOURCES)
  then match create family with
       | None => (acc.1 + 1, acc.2)
       | Some exc => (acc.1, acc.2 ++ ["finding emit failed for " +:+ family +:+ ": " +:+ exc])%list
       end
  else (acc.1, acc.2 ++ ["protocol_family=" +:+ repr_str family +:+
         " has no declared finding source — manifest output declares a family the IcsProtocolFindingSource Literal does not list"])%list.

(** ** The result document *)

Definition strs (l : list string) : json := JList (JStr <$> l).

Definition drift_warning (entry exit : string) : json :=
  if bool_decide (entry = exit) then JNull
  else JStr ("catalog snapshot changed mid-walk (" +:+ take_chars 12 entry +:+ " -> " +:+ take_chars 12 exit +:+
             "); downstream consumers MUST refuse attribution").

Definition binary_dict (b : string * Z * list IcsProtocolMatch) : json :=
  JDict [("blob_path", JStr b.1.1); ("blob_size", JInt b.1.2); ("matches", JList (match_dict <$> b.2))].

Definition _empty_result_aggregate (walked_at entry : string) (errs : list string) : pydict :=
  [("walked_at", JStr walked_at); ("snapshot_id_at_entry", JStr entry); ("snapshot_id_at_exit", JStr entry);
   ("consistency_warning", JNull); ("binaries_scanned_count", JInt 0); ("binaries_total_count", JInt 0);
   ("per_binary", JList []); ("protocol_family_counts", JDict []); ("manifest_ids_seen", JList []);
   ("manifest_sources_seen", JList []); ("findings_emitted_count", JInt 0); ("errors", strs errs)].

Definition result_of (walked_at entry exit : string) (a : aggregate) (emitted : Z * list string) : pydict :=
  [("walked_at", JStr walked_at); ("snapshot_id_at_entry", JStr entry); ("snapshot_id_at_exit", JStr exit);
   ("consistency_warning", drift_warning entry exit);
   ("binaries_scanned_count", JInt (zlen a.(per_binary))); ("binaries_total_count", JInt a.(binaries_total));
   ("per_binary", JList (binary_dict <$> a.(per_binary)));
   ("protocol_family_counts", JDict ((fun kv => (kv.1, JInt kv.2)) <$> a.(family_counts)));
   ("manifest_ids_seen", strs a.(manifest_ids)); ("manifest_sources_seen", strs a.(manifest_sources));
   ("findings_emitted_count", JInt emitted.1); ("errors", strs (a.(errors) ++ emitted.2))].

(** What a walk sees of the world: the firmware row ([None] when it is gone), the walks of
    its detection roots, the snapshots at entry and at exit. *)
Record walk_world := {
  ww_firmware : bool;
  ww_roots : list (list walk_entry);
  ww_snapshot : list IcsProtocolManifest;
  ww_entry_id : string;
  ww_exit_id : string;
  ww_walked_at : string;
  ww_create : string -> option string
}.

Definition _do_ics_protocol_walk (firmware_id : string) (w : walk_world) : pydict :=
  if negb w.(ww_firmware)
  then _empty_result_aggregate w.(ww_walked_at) w.(ww_entry_id) ["firmware " +:+ firmware_id +:+ " not found"]
  else match w.(ww_roots) with
       | [] => _empty_result_aggregate w.(ww_walked_at) w.(ww_entry_id)
                 ["no detection_roots for firmware (extraction may have failed)"]
       | roots =>
           let a := walk_roots w.(ww_snapshot) roots empty_aggregate in
           let emitted := foldl (emit_finding w.(ww_create)) (0, []) a.(family_counts).*1 in
           result_of w.(ww_walked_at) w.(ww_entry_id) w.(ww_exit_id) a emitted
       end.

(** ** What the walk aggregates *)

(** The match list of a binary that is kept, and the error of one that cannot be read. *)
Definition hit (snapshot : list IcsProtocolManifest) (c : candidate) : option (string * Z * list IcsProtocolMatch) :=
  match _read_head_sync c _HEAD_BYTES with
  | None => None
  | Some head =>
      match resolve_all head c.(c_path) snapshot (Some empty_context) with
      | [] => None
      | ms => Some (c.(c_path), c.(c_size), ms)
      end
  end.

Definition unread (c : candidate) : option string :=
  match _read_head_sync c _HEAD_BYTES with None => Some ("read failed: " +:+ c.(c_path)) | Some _ => None end.

(** All matches of a list of kept binaries, in order. *)
Definition all_matches (l : list (string * Z * list IcsProtocolMatch)) : list IcsProtocolMatch := mjoin l.*2.

Definition count_family (f : string) (ms : list IcsProtocolMatch) : Z :=
  zlen (List.filter (fun m => bool_decide (family_str m.(m_protocol_family) = f)) ms).

Lemma count_family_nonneg (f : string) (ms : list IcsProtocolMatch) : 0 <= count_family f ms.
Proof. apply zlen_nonneg. Qed.

(** A counter after [n] more of one key: a key that never occurs has no entry. *)
Definition bump (o : option Z) (n : Z) : option Z := if n =? 0 then o else Some (default 0 o + n).

Lemma count_up_get (k f : string) (d : list (string * Z)) :
  dict_get f (count_up k d) = bump (dict_get f d) (if bool_decide (k = f) then 1 else 0).
Proof.
  unfold count_up, dict_get_or. destruct (decide (k = f)) as [->|Hne].
  - by rewrite dict_get_set_eq, bool_decide_eq_true_2.
  - by rewrite dict_get_set_ne, bool_decide_eq_false_2.
Qed.

Lemma bump_bump (o : option Z) (n m : Z) : 0 <= n -> 0 <= m -> bump (bump o n) m = bump o (n + m).
Proof.
  intros Hn Hm. unfold bump. destruct (Z.eqb_spec n 0), (Z.eqb_spec m 0), (Z.eqb_spec (n + m) 0);
    try done; try lia; subst; cbn; f_equal; lia.
Qed.

Lemma count_family_foldl (f : string) (ms : list IcsProtocolMatch) (d : list (string * Z)) :
  dict_get f (foldl (fun d m => count_up (family_str m.(m_protocol_family)) d) d ms) =
  bump (dict_get f d) (count_family f ms).
Proof.
  revert d. induction ms as [|m ms IH]; intros d; cbn [foldl]; [done|].
  rewrite IH, count_up_get, bump_bump; [|by destruct (bool_decide _)|apply count_family_nonneg].
  unfold count_family at 2. cbn [List.filter]. destruct (bool_decide _); rewrite ?zlen_cons; done.
Qed.

Lemma count_family_app (f : string) (l k : list IcsProtocolMatch) :
  count_family f (l ++ k) = count_family f l + count_family f k.
Proof. unfold count_family. by rewrite List.filter_app, zlen_app. Qed.

(** The state of the aggregate after some binaries. *)
Definition reflects (snapshot : list IcsProtocolManifest) (bins : list candidate) (a : aggregate) : Prop :=
  a.(binaries_total) = zlen bins /\
  a.(per_binary) = omap (hit snapshot) bins /\
  a.(errors) = omap unread bins /\
  (forall f, dict_get f a.(family_counts) = bump None (count_family f (all_matches a.(per_binary)))) /\
  (forall i, i ∈ a.(manifest_ids) <-> exists m, m ∈ all_matches a.(per_binary) /\ m.(m_manifest_id) = i) /\
  (forall s, s ∈ a.(manifest_sources) <->
     exists m, m ∈ all_matches a.(per_binary) /\ source_str m.(m_manifest_source) = s).

Lemma elem_of_append_new (l : list string) (x y : string) : y ∈ append_new l x <-> y = x \/ y ∈ l.
Proof.
  unfold append_new. case_bool_decide; [|rewrite elem_of_app, list_elem_of_singleton; tauto].
  split; [by right|]. by intros [->|?].
Qed.

Lemma elem_of_append_all {A} (g : A -> string) (ms : list A) (l : list string) (y : string) :
  y ∈ foldl (fun l m => append_new l (g m)) l ms <-> y ∈ l \/ exists m, m ∈ ms /\ g m = y.
Proof.
  revert l. induction ms as [|m ms IH]; intros l; cbn [foldl].
  - split; [by left|]. intros [?|(m & ?%not_elem_of_nil & _)]; done.
  - rewrite IH, elem_of_append_new. setoid_rewrite elem_of_cons. naive_solver.
Qed.

Lemma all_matches_snoc (l : list (string * Z * list IcsProtocolMatch)) (x : string * Z * list IcsProtocolMatch) :
  all_matches (l ++ [x]) = (all_matches l ++ x.2)%list.
Proof. unfold all_matches. rewrite fmap_app, join_app. cbn. by rewrite app_nil_r. Qed.

Lemma walk_binary_reflects (snapshot : list IcsProtocolManifest) (bins : list candidate) (a : aggregate) (c : candidate) :
  reflects snapshot bins a -> reflects snapshot (bins ++ [c]) (walk_binary snapshot a c).
Proof.
  intros (Ht & Hp & He & Hf & Hi & Hs). unfold reflects.
  rewrite zlen_app, !omap_app. unfold walk_binary. cbn [omap list_omap]. unfold hit at 2, unread at 2.
  destruct (_read_head_sync c _HEAD_BYTES) as [head|] eqn:Er; cbn.
  - destruct (resolve_all head (c_path c) snapshot (Some empty_context)) as [|m ms] eqn:Ems.
    + rewrite !app_nil_r. cbn. split_and!; try done. rewrite zlen_cons, zlen_nil. lia.
    + set (l := m :: ms) in *. rewrite app_nil_r.
      cbn [add_matches per_binary family_counts manifest_ids manifest_sources errors binaries_total count_binary].
      rewrite all_matches_snoc. cbn [snd]. split_and!; [rewrite zlen_cons, zlen_nil; lia|by rewrite Hp|done|..].
      * intros f. by rewrite count_family_foldl, Hf, count_family_app, bump_bump by apply count_family_nonneg.
      * intros i. rewrite elem_of_append_all, Hi. setoid_rewrite elem_of_app. naive_solver.
      * intros i. rewrite (elem_of_append_all (fun m => source_str (m_manifest_source m))), Hs.
        setoid_rewrite elem_of_app. naive_solver.
  - rewrite app_nil_r. cbn. split_and!; try done; [rewrite zlen_cons, zlen_nil; lia|by rewrite He].
Qed.

Lemma walk_binaries_reflects (snapshot : list IcsProtocolManifest) (cs bins : list candidate) (a : aggregate) :
  reflects snapshot bins a -> reflects snapshot (bins ++ cs) (foldl (walk_binary snapshot) a cs).
Proof.
  revert bins a. induction cs as [|c cs IH]; intros bins a H; [by rewrite app_nil_r|].
  cbn [foldl]. change (c :: cs) with ([c] ++ cs)%list. rewrite app_assoc. by apply IH, walk_binary_reflects.
Qed.

(** Listing stops at the count: the first admissible files. *)
Lemma iter_binaries_take (entries : list walk_entry) (n : Z) (acc : list candidate) :
  zlen acc <= n -> iter_binaries entries n acc = (acc ++ ztake (n - zlen acc) (omap candidate_of entries))%list.
Proof.
  revert acc. induction entries as [|e entries IH]; intros acc Hn; cbn [iter_binaries omap list_omap].
  - rewrite ztake_eq, take_nil. by rewrite app_nil_r.
  - destruct (Z.leb_spec n (zlen acc)) as [Hle|Hlt].
    + replace (n - zlen acc) with 0 by lia. rewrite ztake_eq. cbn. by rewrite app_nil_r.
    + destruct (candidate_of e) as [c|]; [|by rewrite IH].
      rewrite IH by (rewrite zlen_app, zlen_cons, zlen_nil; lia). rewrite <- app_assoc. f_equal.
      rewrite !ztake_eq, zlen_app, zlen_cons, zlen_nil.
      replace (Z.to_nat (n - zlen acc)) with (S (Z.to_nat (n - (zlen acc + (1 + 0))))) by lia. done.
Qed.

(** Whether the walk stops before a root because of the cap. *)
Fixpoint capped (roots : list (list walk_entry)) (total : Z) : bool :=
  match roots with
  | [] => false
  | entries :: roots =>
      (_MAX_BINARIES_PER_WALK <=? total) ||
      capped roots (total + zlen (ztake (_MAX_BINARIES_PER_WALK - total) (omap candidate_of entries)))
  end.

Lemma ztake_ztake_app {A} (n : Z) (l k : list A) :
  0 <= n -> ztake n (l ++ k) = (ztake n l ++ ztake (n - zlen (ztake n l)) k)%list.
Proof.
  intros Hn. rewrite zlen_ztake. rewrite !ztake_eq, take_app. do 2 f_equal. unfold zlen. lia.
Qed.

Lemma walk_roots_reflects (snapshot : list IcsProtocolManifest) (roots : list (list walk_entry))
    (bins : list candidate) (a : aggregate) :
  reflects snapshot bins a -> zlen bins <= _MAX_BINARIES_PER_WALK ->
  exists a0,
    reflects snapshot (bins ++ ztake (_MAX_BINARIES_PER_WALK - zlen bins) (omap candidate_of (mjoin roots))) a0 /\
    walk_roots snapshot roots a = if capped roots (zlen bins) then add_error a0 cap_error else a0.
Proof.
  revert bins a. induction roots as [|entries roots IH]; intros bins a Hr Hle; cbn [walk_roots capped mjoin list_join].
  - exists a. cbn. rewrite ztake_eq, take_nil, app_nil_r. done.
  - assert (Ht : binaries_total a = zlen bins) by apply Hr. rewrite Ht.
    destruct (Z.leb_spec (_MAX_BINARIES_PER_WALK - zlen bins) 0) as [Hcap|Hcap].
    + rewrite (proj2 (Z.leb_le _ _)) by lia. cbn [orb]. exists a. split; [|done].
      replace (_MAX_BINARIES_PER_WALK - zlen bins) with 0 by lia. rewrite ztake_eq. cbn. by rewrite app_nil_r.
    + rewrite (proj2 (Z.leb_gt _ _)) by lia. cbn [orb].
      unfold _iter_binaries_sync. rewrite iter_binaries_take by (rewrite zlen_nil; lia).
      rewrite zlen_nil, Z.sub_0_r, app_nil_l. set (cs := ztake _ (omap candidate_of entries)).
      assert (Hcs : zlen (bins ++ cs) <= _MAX_BINARIES_PER_WALK).
      { rewrite zlen_app. subst cs. rewrite zlen_ztake. lia. }
      destruct (IH _ _ (walk_binaries_reflects snapshot cs bins a Hr) Hcs) as (a0 & Ha0 & Heq).
      exists a0. rewrite zlen_app in Heq, Ha0. split; [|exact Heq].
      rewrite omap_app, ztake_ztake_app by lia. fold cs.
      rewrite <- app_assoc, Z.sub_add_distr in Ha0. exact Ha0.
Qed.

(** The binaries a walk looks at: the first two thousand admissible files of the roots. *)
Definition walked (roots : list (list walk_entry)) : list candidate :=
  ztake _MAX_BINARIES_PER_WALK (omap candidate_of (mjoin roots)).

Lemma reflects_empty (snapshot : list IcsProtocolManifest) : reflects snapshot [] empty_aggregate.
Proof.
  unfold reflects, empty_aggregate, all_matches. cbn. split_and!; try done.
  - intros i. split; [by intros ?%not_elem_of_nil|]. by intros (m & ?%not_elem_of_nil & _).
  - intros i. split; [by intros ?%not_elem_of_nil|]. by intros (m & ?%not_elem_of_nil & _).
Qed.

(** The walk looks at the first two thousand admissible files of all roots in order,
    whatever their division into roots; it keeps those with a match, counts every match
    under its family, collects exactly the identifiers and tiers that matched, and
    reports the files it could not read.  The error that tells of the cap is added only
    when a further root is left: a single root, however large, is cut without a word. *)
Theorem walk_aggregate_spec (snapshot : list IcsProtocolManifest) (roots : list (list walk_entry)) :
  let a := walk_roots snapshot roots empty_aggregate in
  a.(binaries_total) = zlen (walked roots) /\ a.(binaries_total) <= 2000 /\
  a.(per_binary) = omap (hit snapshot) (walked roots) /\
  a.(errors) = (omap unread (walked roots) ++ (if capped roots 0 then [cap_error] else []))%list /\
  (forall f, dict_get f a.(family_counts) = bump None (count_family f (all_matches a.(per_binary)))) /\
  (forall i, i ∈ a.(manifest_ids) <-> exists m, m ∈ all_matches a.(per_binary) /\ m.(m_manifest_id) = i) /\
  (forall s, s ∈ a.(manifest_sources) <->
     exists m, m ∈ all_matches a.(per_binary) /\ source_str m.(m_manifest_source) = s) /\
  (forall entries, capped [entries] 0 = false).
Proof.
  intros a. destruct (walk_roots_reflects snapshot roots [] empty_aggregate (reflects_empty snapshot) ltac:(done))
    as (a0 & (Ht & Hp & He & Hf & Hi & Hs) & Heq). cbn [app] in *.
  rewrite zlen_nil in Ht, Hp, He, Heq. rewrite Z.sub_0_r in Ht, Hp, He. fold (walked roots) in Ht, Hp, He. fold a in Heq.
  assert (Hb : zlen (walked roots) <= 2000).
  { unfold walked. rewrite zlen_ztake. unfold _MAX_BINARIES_PER_WALK. lia. }
  rewrite Heq. destruct (capped roots 0); cbn; rewrite ?app_nil_r, <- ?He; split_and!; try done; lia.
Qed.

(** ** Reading results *)

Definition json_get (k : string) (d : pydict) : json := dict_get_or k JNull d.

Definition is_str_eq (v : json) (s : string) : bool :=
  match v with JStr t => bool_decide (t = s) | _ => false end.

Definition _result_passes_provenance_gates (result : pydict) : bool * option string :=
  if negb (py_eq_int (json_get "schema_version" result) 1)
  then (false, Some "schema_version != 1 (legacy or unstamped)")
  else if negb (is_str_eq (json_get "provenance" result) "walker")
  then (false, Some ("provenance != 'walker' (got " +:+ py_repr (json_get "provenance" result) +:+
                     ") — possible descriptor pre-seed; refuse attribution"))
  else if py_truthy (json_get "consistency_warning" result)
  then (false, Some "consistency_warning set — refuse attribution")
  else (true, None).

(** One row of the join of firmware and project; an SQL NULL result is [JNull]. *)
Record fw_row := {
  fr_project_id : string;
  fr_project_name : string;
  fr_firmware_id : string;
  fr_sha256 : string;
  fr_filename : json;
  fr_version_label : json;
  fr_status : string;
  fr_result : json
}.

Definition _LOOKUP_LIMIT_MAX : Z := 500.
Definition _LOOKUP_LIMIT_DEFAULT : Z := 100.
Definition _SUPPLY_CHAIN_SIGNAL_MIN_MATCHES : Z := 2.
Definition _CURATED_MANIFEST_SOURCES : list string := ["_system"; "core"].

Inductive tool_error := AttributeError | PyTypeError | PyValueError.

(** [row.result or {}] of a stored document. *)
Definition result_dict (v : json) : res tool_error pydict :=
  if negb (py_truthy v) then Ok [] else match v with JDict d => Ok d | _ => Err AttributeError end.

(** [protocol_family in family_counts], and then the count under it. *)
Definition family_count (pf : json) (counts : json) : res tool_error (option Z) :=
  match counts with
  | JDict d =>
      match pf with
      | JStr s =>
          match dict_get s d with
          | None => Ok None
          | Some v => match py_int v with Some n => Ok (Some n) | None => Err PyValueError end
          end
      | JList _ | JDict _ => Err PyTypeError
      | _ => Ok None
      end
  | JList l =>
      match pf with JStr s => if existsb (fun v => is_str_eq v s) l then Err AttributeError else Ok None
               | _ => Err AttributeError end
  | JStr t => match pf with JStr s => if contains s t then Err AttributeError else Ok None | _ => Err PyTypeError end
  | _ => Err PyTypeError
  end.

(** [any(src in _CURATED_MANIFEST_SOURCES for src in manifest_sources)]. *)
Fixpoint any_curated (l : list json) : res tool_error bool :=
  match l with
  | [] => Ok false
  | JStr s :: l => if bool_decide (s ∈ _CURATED_MANIFEST_SOURCES) then Ok true else any_curated l
  | JList _ :: _ | JDict _ :: _ => Err PyTypeError
  | _ :: l => any_curated l
  end.

Definition curated_match (sources : json) : res tool_error bool :=
  match sources with
  | JList l => any_curated l
  | JDict d => any_curated (JStr ∘ fst <$> d)
  | JStr _ => Ok false
  | _ => Err PyTypeError
  end.

(** What the loop keeps of one row. *)
Inductive row_verdict :=
  | ExcludedProvenance
  | ExcludedNoFamily
  | Matched (curated : bool) (entry : pydict).

Definition lookup_row (pf : json) (r : fw_row) : res tool_error row_verdict :=
  result ← result_dict r.(fr_result);
  if negb (_result_passes_provenance_gates result).1 then Ok ExcludedProvenance
  else
    count ← family_count pf (dict_get_or "protocol_family_counts" (JDict []) result);
    match count with
    | None => Ok ExcludedNoFamily
    | Some n =>
        let sources := dict_get_or "manifest_sources_seen" (JList []) result in
        let sources := if py_truthy sources then sources else JList [] in
        curated ← curated_match sources;
        Ok (Matched curated
          [("project_id", JStr r.(fr_project_id)); ("project_name", JStr r.(fr_project_name));
           ("firmware_id", JStr r.(fr_firmware_id)); ("firmware_sha256", JStr r.(fr_sha256));
           ("firmware_original_filename", r.(fr_filename)); ("firmware_version_label", r.(fr_version_label));
           ("match_count", JInt n);
           ("manifest_ids_seen", dict_get_or "manifest_ids_seen" (JList []) result);
           ("manifest_sources_seen", sources); ("is_curated_match", JBool curated);
           ("walked_at", json_get "walked_at" result)])
    end.

(** A lookup's reply: an error, or the verdicts of the rows read with the signal. *)
Inductive lookup_reply :=
  | LookupError (what : string)
  | LookupFound (matches : list pydict) (excluded_provenance excluded_no_family : Z) (supply_chain_signal : bool).

Definition matched_entries (vs : list row_verdict) : list pydict :=
  omap (fun v => match v with Matched _ e => Some e | _ => None end) vs.
Definition count_verdict (f : row_verdict -> bool) (vs : list row_verdict) : Z := zlen (List.filter f vs).

(** The rows the query returns, oldest first. *)
Definition lookup_rows (scope_project : option string) (limit : Z) (rows : list fw_row) : list fw_row :=
  ztake limit (List.filter (fun r =>
    bool_decide (r.(fr_status) = "completed") && negb (is_null r.(fr_result)) &&
    match scope_project with Some p => bool_decide (r.(fr_project_id) = p) | None => true end) rows).

Definition _handle_lookup_ics_protocol_across_firmwares (input : pydict) (project_id : option string)
    (rows : list fw_row) : res tool_error lookup_reply :=
  let pf := json_get "protocol_family" input in
  if negb (py_truthy pf) then Ok (LookupError "protocol_family is required")
  else
    let scope := dict_get_or "scope" (JStr "project") input in
    match py_int (dict_get_or "limit" (JInt _LOOKUP_LIMIT_DEFAULT) input) with
    | None => Err PyValueError
    | Some n =>
        let limit := Z.max 1 (Z.min n _LOOKUP_LIMIT_MAX) in
        let project_scope := is_str_eq scope "project" in
        if project_scope && negb (truthy project_id)
        then Ok (LookupError "scope='project' requires an active project — call switch_project first or use scope='global'.")
        else
          vs ← mapM (lookup_row pf) (lookup_rows (if project_scope then project_id else None) limit rows);
          let matches := matched_entries vs in
          Ok (LookupFound matches
                (count_verdict (fun v => match v with ExcludedProvenance => true | _ => false end) vs)
                (count_verdict (fun v => match v with ExcludedNoFamily => true | _ => false end) vs)
                ((_SUPPLY_CHAIN_SIGNAL_MIN_MATCHES <=? zlen matches) &&
                 existsb (fun v => match v with Matched c _ => c | _ => false end) vs))
    end.

(** ** What the lookup makes of a walk's result *)

(** The document a completed walk leaves in the row. *)
Definition written (firmware_id : string) (w : walk_world) : pydict :=
  _stamp_firmware_ics_protocol_walk_result (_do_ics_protocol_walk firmware_id w).

Definition walk_matches (w : walk_world) : list IcsProtocolMatch :=
  all_matches (omap (hit w.(ww_snapshot)) (walked w.(ww_roots))).

Definition is_curated_source (m : IcsProtocolMatch) : bool :=
  bool_decide (source_str m.(m_manifest_source) ∈ _CURATED_MANIFEST_SOURCES).

Lemma dict_get_counts {A B} (g : A -> B) (k : string) (d : list (string * A)) :
  dict_get k ((fun kv => (kv.1, g kv.2)) <$> d) = g <$> dict_get k d.
Proof. induction d as [|[k' v] d IH]; [done|]. cbn. by case_decide. Qed.

Lemma any_curated_strs (l : list string) :
  any_curated (JStr <$> l) = Ok (existsb (fun s => bool_decide (s ∈ _CURATED_MANIFEST_SOURCES)) l).
Proof. induction l as [|s l IH]; [done|]. cbn. by case_bool_decide. Qed.

Lemma curated_match_strs (l : list string) :
  curated_match (if py_truthy (strs l) then strs l else JList []) =
  Ok (existsb (fun s => bool_decide (s ∈ _CURATED_MANIFEST_SOURCES)) l).
Proof. destruct l as [|s l]; [done|]. exact (any_curated_strs (s :: l)). Qed.

Lemma existsb_sources (l : list string) (ms : list IcsProtocolMatch) :
  (forall s, s ∈ l <-> exists m, m ∈ ms /\ source_str m.(m_manifest_source) = s) ->
  existsb (fun s => bool_decide (s ∈ _CURATED_MANIFEST_SOURCES)) l = existsb is_curated_source ms.
Proof.
  intros H. apply eq_bool_prop_intro. rewrite !Is_true_true, !existsb_exists. split.
  - intros (s & Hs & Hc). apply list_elem_of_In, H in Hs as (m & Hm & <-).
    exists m. split; [by apply list_elem_of_In|done].
  - intros (m & Hm & Hc). exists (source_str (m_manifest_source m)). split; [|done].
    apply list_elem_of_In, H. exists m. split; [by apply list_elem_of_In|done].
Qed.

Lemma written_result (fid : string) (w : walk_world) :
  w.(ww_firmware) = true -> w.(ww_roots) <> [] ->
  exists em, written fid w =
    _stamp_firmware_ics_protocol_walk_result
      (result_of w.(ww_walked_at) w.(ww_entry_id) w.(ww_exit_id)
         (walk_roots w.(ww_snapshot) w.(ww_roots) empty_aggregate) em).
Proof.
  intros Hf Hr. unfold written, _do_ics_protocol_walk. rewrite Hf. cbn [negb].
  destruct (ww_roots w) as [|r l]; [done|]. by eexists.
Qed.

Lemma walk_roots_final (snapshot : list IcsProtocolManifest) (roots : list (list walk_entry)) :
  exists a0, reflects snapshot (walked roots) a0 /\
    let a := walk_roots snapshot roots empty_aggregate in
    a.(family_counts) = a0.(family_counts) /\ a.(manifest_sources) = a0.(manifest_sources) /\
    a.(per_binary) = a0.(per_binary).
Proof.
  destruct (walk_roots_reflects snapshot roots [] empty_aggregate (reflects_empty snapshot) ltac:(done))
    as (a0 & Hr & Heq). rewrite zlen_nil, Z.sub_0_r, app_nil_l in Hr. fold (walked roots) in Hr.
  exists a0. split; [done|]. cbn zeta. rewrite Heq. by destruct (capped roots (zlen [])).
Qed.

Lemma drift_truthy (entry exit : string) : py_truthy (drift_warning entry exit) = negb (bool_decide (entry = exit)).
Proof. unfold drift_warning. case_bool_decide; [done|]. cbn. done. Qed.

(** A walk and the lookup agree: the result a completed walk stores is excluded when
    the catalog changed under the walk, is reported without the family when no binary
    matched it, and is otherwise a match whose count is the number of matches of that
    family over all binaries walked.  The match is called curated when some match of any
    family came from a bundled tier. *)
Theorem lookup_of_walk (fid f : string) (w : walk_world) (r : fw_row) :
  w.(ww_firmware) = true -> w.(ww_roots) <> [] ->
  r.(fr_result) = JDict (written fid w) ->
  let n := count_family f (walk_matches w) in
  exists v, lookup_row (JStr f) r = Ok v /\
    (w.(ww_entry_id) <> w.(ww_exit_id) -> v = ExcludedProvenance) /\
    (w.(ww_entry_id) = w.(ww_exit_id) -> n = 0 -> v = ExcludedNoFamily) /\
    (w.(ww_entry_id) = w.(ww_exit_id) -> n <> 0 ->
       exists e, v = Matched (existsb is_curated_source (walk_matches w)) e /\
         json_get "match_count" e = JInt n /\ json_get "firmware_id" e = JStr r.(fr_firmware_id)).
Proof.
  intros Hf Hr Hres n. destruct (written_result fid w Hf Hr) as [em Hw]. rewrite Hw in Hres.
  destruct (walk_roots_final (ww_snapshot w) (ww_roots w)) as (a0 & (_ & Hp & _ & Hc & _ & Hs) & Hfc & Hms & _).
  cbn zeta in Hfc, Hms. set (a := walk_roots _ _ _) in *. rewrite Hp in Hc, Hs. fold (walk_matches w) in Hc, Hs.
  unfold lookup_row. rewrite Hres. clear Hres Hw.
  set (d := _stamp_firmware_ics_protocol_walk_result _).
  change (result_dict (JDict d)) with (@Ok tool_error pydict d). cbn [mbind res_bind].
  unfold _result_passes_provenance_gates.
  change (json_get "schema_version" d) with (JInt 1). change (json_get "provenance" d) with (JStr "walker").
  change (json_get "consistency_warning" d) with (drift_warning (ww_entry_id w) (ww_exit_id w)).
  cbn [py_eq_int Z.eqb Pos.eqb negb is_str_eq]. rewrite (bool_decide_eq_true_2 ("walker" = "walker")) by done.
  cbn [negb]. rewrite drift_truthy. case_bool_decide as Hd; cbn [negb fst]; [|by eexists; naive_solver].
  change (dict_get_or "protocol_family_counts" (JDict []) d)
    with (JDict ((fun kv => (kv.1, JInt kv.2)) <$> family_counts a)).
  change (dict_get_or "manifest_sources_seen" (JList []) d) with (strs (manifest_sources a)).
  cbn [family_count]. rewrite dict_get_counts, Hfc, Hc. fold n. unfold bump.
  destruct (Z.eqb_spec n 0) as [Hn|Hn]; cbn [fmap option_fmap option_map from_option].
  - cbn. eexists. split; [done|]. naive_solver.
  - cbn [py_int default from_option id]. rewrite Z.add_0_l.
    cbn [mbind res_bind].
    rewrite curated_match_strs, Hms, (existsb_sources _ _ Hs). eexists. split; [reflexivity|].
    split; [done|]. split; [done|]. intros _ _. eexists. split; [done|]. split; reflexivity.
Qed.

(** A firmware with one binary, and a snapshot with the bundled DNP3 detector and an
    operator's detector of S7 by port alone. *)
Definition operator_s7 : IcsProtocolManifest :=
  {| manifest_id := "acme_s7"; manifest_source := src_operator; precedence := 100;
     detection := {| combine := any_signal; signals := [port_signal 20000 None]; min_confidence_score := None;
                     certainty := string_only |};
     output := {| protocol_family := s7comm; layer := layer_transport; transport := tcp; vendor := "acme";
                  vendor_product := None; protocol_version := None; confidence := conf_high |};
     deprecation := {| status := active; replaced_by := None; sunset_at := None; deprecation_notes := None |};
     notes := None; references := [] |}.

Definition world_of (snapshot : list IcsProtocolManifest) (content : bytes) : walk_world :=
  {| ww_firmware := true;
     ww_roots := [[{| w_dir := "/fw/sbin"; w_name := "outstation"; w_size := Some 100; w_content := Some content |};
                   {| w_dir := "/fw/etc"; w_name := "motd.txt"; w_size := Some 100; w_content := Some content |}]];
     ww_snapshot := snapshot; ww_entry_id := "0123456789abcdef"; ww_exit_id := "0123456789abcdef";
     ww_walked_at := "2026-06-01T00:00:00+00:00"; ww_create := fun _ => None |}.

Definition row_of (fid : string) (w : walk_world) : fw_row :=
  {| fr_project_id := "p1"; fr_project_name := "plant"; fr_firmware_id := fid; fr_sha256 := "00";
     fr_filename := JStr "a.bin"; fr_version_label := JNull; fr_status := "completed";
     fr_result := JDict (written fid w) |}.

Definition plant_world : walk_world := world_of [dnp3_v0_system; operator_s7] dnp3_binary.

Lemma lookup_of_walk_witness :
  exists e, lookup_row (JStr "dnp3") (row_of "f1" plant_world) = Ok (Matched true e) /\
    json_get "match_count" e = JInt 1.
Proof.
  assert (Hn : count_family "dnp3" (walk_matches plant_world) = 1) by (vm_compute; reflexivity).
  destruct (lookup_of_walk "f1" "dnp3" plant_world (row_of "f1" plant_world)) as (v & Hv & _ & _ & Hm);
    [reflexivity|discriminate|reflexivity|].
  destruct (Hm eq_refl) as (e & He & Hc & _); [rewrite Hn; discriminate|].
  exists e. rewrite Hv, He, Hc, Hn. split; [|reflexivity]. f_equal.
Defined.

(** The supply-chain signal of a family is to fire only when a bundled detector
    matched it; two firmware images whose S7 matches all come from an operator's
    detector raise it, because a bundled detector matched another family on each. *)
Theorem supply_chain_other_family :
  let rows := [row_of "f1" plant_world; row_of "f2" plant_world] in
  (exists matches, _handle_lookup_ics_protocol_across_firmwares [("protocol_family", JStr "s7comm")] (Some "p1") rows
     = Ok (LookupFound matches 0 0 true) /\ zlen matches = 2) /\
  (forall m, m ∈ walk_matches plant_world -> m.(m_protocol_family) = s7comm -> is_curated_source m = false).
Proof.
  split.
  - eexists. split; [vm_compute; reflexivity|]. vm_compute. reflexivity.
  - assert (H : forallb (fun m => implb (bool_decide (m.(m_protocol_family) = s7comm)) (negb (is_curated_source m)))
      (walk_matches plant_world) = true) by (vm_compute; reflexivity).
    intros m Hm Hf. rewrite forallb_forall in H. apply list_elem_of_In, H in Hm.
    rewrite bool_decide_eq_true_2 in Hm by done. by apply negb_true_iff in Hm.
Qed.
