(* ===== verification/FormatSchema.v ===== *)
(** * File-format manifests ([schemas/file_format.py])

    The closed grammar of the format catalogue: its literals as inductive types, the
    Pydantic models as records, and their field constraints and validators as boolean
    predicates.  A document that does not fit the types is no value here; one that fits
    them is accepted when [manifest_ok] holds.  Fields whose type has one value
    ([schema_version], [evaluation_mode], [side_effects]) are left out; a URL and a date
    are their text. *)

From S2P Require Import Prelude PyText Json ManifestLib.
From Stdlib Require Import Ascii String SpecFloat.
Import (notations) Ascii String.
#[local] Open Scope Z_scope.

(** ** Literals *)

Inductive ManifestSource :=
  | src_system | src_core | src_operator | src_attested_external | src_unauthenticated_external.
Inductive VendorAuthority := curated | operator_supplied | external_attested.
Inductive OverlayMode := mode_new | mode_override | mode_extend.
Inductive Combine := all_required | any_signal | weighted.
Inductive DetectionSignalKind :=
  | filename | path_context | size_range | elf_check | intel_hex_check | pe_check | text_format
  | magic_bytes | substring_in_head | zip_markers | tar_markers | rtos_check | always_matches.
Inductive DispatchKind :=
  | by_partition_name | by_zip_inner_file | by_inner_magic | by_rtos_family | alias | no_dispatch.
Inductive SortTier := floor | general | ceiling.
Inductive TextFormatCharset :=
  | hex_upper | hex_lower | hex_mixed | hex_space_separated | ascii_printable | base64_url.
Inductive TextFormatLineTerminator := lf | crlf | cr | any_terminator.
Inductive TextFormatFirstLine := record_start | any_line.
Inductive SubstringInHeadCombine := combine_any | combine_all.
Inductive PluginBind := eager | lazy.
Inductive PluginFallback := fallback_skip | fallback_reject | fallback_raw_bin.
Inductive PluginRole := role_primary | role_refine | role_none.
Inductive PluginDisagreement := log_warn | reject | plugin_wins | static_wins.
Inductive ExternalManifestsPolicy := deny | allow | require_attestation.
Inductive Confidence := conf_high | conf_medium | conf_low.
Inductive VendorPrecedence := filename_wins | path_wins.
Inductive TieBreaker := rule_specificity | vendor_lex_asc | filename_lex_asc.
Inductive AppliesWhen := category_is_other | applies_any.
Inductive DetectedFormat :=
  | linux_firmware_blob | android_apk | android_apex | android_ota | windows_installer_iso | acronis_backup
  | qnx_ifs | pe_executable | wim_archive | iso_9660 | tar_archive | zip_archive | windows_cab | windows_msi
  | windows_msix | windows_msu | windows_psf | windows_vhdx | windows_driver_package | unknown.
Inductive ExtractionCapability := full | partial | no_extraction.
Inductive DeprecationStatus := active | deprecated | removed.

#[export] Instance ManifestSource_eq : EqDecision ManifestSource.
Proof. solve_decision. Defined.
#[export] Instance OverlayMode_eq : EqDecision OverlayMode.
Proof. solve_decision. Defined.
#[export] Instance Combine_eq : EqDecision Combine.
Proof. solve_decision. Defined.
#[export] Instance DetectionSignalKind_eq : EqDecision DetectionSignalKind.
Proof. solve_decision. Defined.
#[export] Instance DispatchKind_eq : EqDecision DispatchKind.
Proof. solve_decision. Defined.
#[export] Instance SortTier_eq : EqDecision SortTier.
Proof. solve_decision. Defined.
#[export] Instance TextFormatCharset_eq : EqDecision TextFormatCharset.
Proof. solve_decision. Defined.
#[export] Instance TextFormatLineTerminator_eq : EqDecision TextFormatLineTerminator.
Proof. solve_decision. Defined.
#[export] Instance TextFormatFirstLine_eq : EqDecision TextFormatFirstLine.
Proof. solve_decision. Defined.
#[export] Instance PluginBind_eq : EqDecision PluginBind.
Proof. solve_decision. Defined.
#[export] Instance DeprecationStatus_eq : EqDecision DeprecationStatus.
Proof. solve_decision. Defined.

(** ** Detection *)

Record TextFormatConstraint := {
  record_start_byte_hex : string;
  charset : TextFormatCharset;
  line_terminator : TextFormatLineTerminator;
  min_line_length : Z;
  max_line_length : Z;
  first_line_must_match : TextFormatFirstLine;
  min_first_block_records : Z;
  header_pattern_hex : option string;
  terminator_record_hex : option string
}.

Record SubstringInHeadConstraint := {
  needles_hex : list string;
  case_sensitive : bool;
  needles_combine : SubstringInHeadCombine;
  min_count : Z;
  search_offset : Z;
  search_length : option Z
}.

Record DetectionSignal := {
  kind : DetectionSignalKind;
  weight : spec_float;
  stems_lower : option (list string);
  extensions_lower : option (list string);
  path_substrings_any_of : option (list string);
  size_min : option Z;
  size_max : option Z;
  offset : option Z;
  bytes_hex : option string;
  mask_hex : option string;
  inner_file_names : option (list string);
  inner_basenames : option (list string);
  inner_min_count : option Z;
  rtos_plugin_ref : option string;
  text_format_constraint : option TextFormatConstraint;
  substring_in_head_constraint : option SubstringInHeadConstraint;
  signal_description : option string
}.

Record Detection := {
  combine : Combine;
  signals : list DetectionSignal;
  min_confidence_score : option spec_float;
  catch_all : bool;  (** [always_matches] *)
  sort_tier : SortTier
}.

(** ** The other blocks *)

Record Dispatch := {
  dispatch_kind : DispatchKind;
  cases : list (string * string);
  dispatch_default : option string;
  depth_max : Z
}.

Record Refinement := {
  applies_when : AppliesWhen;
  refinement_substrings : list string;
  partition_prefixes : list string;
  output_category : string;
  output_vendor : string;
  output_confidence : Confidence;
  output_product : option string;
  vendor_precedence : VendorPrecedence
}.

Record PluginRef := {
  ref : string;
  bind : PluginBind;
  fallback : PluginFallback;
  role : PluginRole;
  on_disagreement : PluginDisagreement;
  applicable_format_ids : list string
}.

Record Plugin := { matcher : option PluginRef; parser : option PluginRef; unpack_pipeline : option PluginRef }.

Record Output := {
  classifier_format : string;
  classifier_category : string;
  classifier_vendor : string;
  classifier_product : option string;
  classifier_confidence : Confidence
}.

Record PreUploadHint := {
  detected_format : DetectedFormat;
  extraction_capability : ExtractionCapability;
  banner_note : option string
}.

Record ExternalManifestsPolicyBlock := { policy : ExternalManifestsPolicy; policy_scope : list string }.

Record Deprecation := {
  status : DeprecationStatus;
  replaced_by : option string;
  removal_phase : option string
}.

Record ProvenanceStub := {
  contributor_org : string;
  attestation_url : option string;
  signature : option string;
  received_at : option string;
  supersedes : option string
}.

Record FileFormatManifest := {
  format_id : string;
  alias_of : option string;
  mode : OverlayMode;
  overrides : option string;
  manifest_source : ManifestSource;
  precedence : Z;
  tie_breakers : list TieBreaker;
  category : string;
  vendor : string;
  product : option string;
  confidence : Confidence;
  notes : option string;
  detection : Detection;
  dispatch : Dispatch;
  refinement : option Refinement;
  plugin : Plugin;
  output : Output;
  pre_upload : option PreUploadHint;
  external_manifests : ExternalManifestsPolicyBlock;
  deprecation : Deprecation;
  provenance : option ProvenanceStub;
  references : list string;
  source_path : option string
}.

Record FormatMatch := {
  match_format_id : string;
  confidence_score : spec_float;
  evidence : list (DetectionSignalKind * bool);
  match_manifest_source : ManifestSource;
  match_source_path : string
}.

(** ** Validation *)

(** The pattern [^[0-9a-f]{a,b}$]. *)
Definition lower_hex_char (a : ascii) : bool :=
  is_digit a || (let n := N_of_ascii a in bool_decide (97 <= n <= 102)%N).
Definition lower_hex (a b : Z) (s : string) : bool :=
  forallb lower_hex_char (String.list_ascii_of_string s) && in_range a (py_len s) b.

Definition some_p {A} (o : option A) : bool := match o with Some _ => true | None => false end.

(** [_check_length_bounds] is the last line but one and the last. *)
Definition text_format_ok (c : TextFormatConstraint) : bool :=
  lower_hex 2 2 c.(record_start_byte_hex) &&
  in_range 4 c.(min_line_length) 4096 && in_range 4 c.(max_line_length) 4096 &&
  in_range 1 c.(min_first_block_records) 64 &&
  opt_ok (lower_hex 0 64) c.(header_pattern_hex) && opt_ok (lower_hex 0 128) c.(terminator_record_hex) &&
  (c.(min_line_length) <=? c.(max_line_length)) &&
  negb ((c.(min_first_block_records) <? 2) && (c.(min_line_length) <? 8)).

Definition substring_ok (c : SubstringInHeadConstraint) : bool :=
  in_range 1 (zlen c.(needles_hex)) 16 && in_range 1 c.(min_count) 16 &&
  in_range 0 c.(search_offset) (2 ^ 16) && opt_ok (fun n => in_range 64 n (2 ^ 20)) c.(search_length) &&
  forallb needle_ok c.(needles_hex) && (c.(min_count) <=? zlen c.(needles_hex)).

(** The digits of a magic are not examined. *)
Definition magic_ok (bytes_hex mask_hex : option string) (offset : option Z) : bool :=
  match bytes_hex, offset with
  | Some b, Some _ =>
      (py_len b mod 2 =? 0) && (4 <=? py_len b) &&
      opt_ok (fun m => (py_len m =? py_len b) &&
                       negb (forallb (is_char "0"%char) (String.list_ascii_of_string m))) mask_hex
  | _, _ => false
  end.

Definition path_floor (p : string) : bool := startswith p "/" && (6 <=? py_len p).

Definition is_kind (k : DetectionSignalKind) (s : DetectionSignal) : bool := bool_decide (s.(kind) = k).

Definition _check_kind_fields (s : DetectionSignal) : bool :=
  implb (is_kind magic_bytes s) (magic_ok s.(bytes_hex) s.(mask_hex) s.(offset)) &&
  implb (is_kind filename s)
    ((nonempty s.(stems_lower) || nonempty s.(extensions_lower)) &&
     opt_ok (forallb (fun x => 4 <=? py_len x)) s.(stems_lower)) &&
  implb (is_kind path_context s)
    (nonempty s.(path_substrings_any_of) && opt_ok (forallb path_floor) s.(path_substrings_any_of)) &&
  implb (is_kind size_range s)
    ((some_p s.(size_min) || some_p s.(size_max)) &&
     match s.(size_min), s.(size_max) with Some a, Some b => a <=? b | _, _ => true end) &&
  implb (is_kind rtos_check s) (truthy s.(rtos_plugin_ref)) &&
  implb (is_kind zip_markers s || is_kind tar_markers s)
    (nonempty s.(inner_file_names) || nonempty s.(inner_basenames)) &&
  Bool.eqb (is_kind text_format s) (some_p s.(text_format_constraint)) &&
  Bool.eqb (is_kind substring_in_head s) (some_p s.(substring_in_head_constraint)).

Definition max_items {A} (n : Z) (l : list A) : bool := zlen l <=? n.

Definition signal_ok (s : DetectionSignal) : bool :=
  SFleb (float_of_Z 0) s.(weight) && SFleb s.(weight) (float_of_Z 1) &&
  opt_ok (max_items 64) s.(stems_lower) && opt_ok (max_items 32) s.(extensions_lower) &&
  opt_ok (max_items 32) s.(path_substrings_any_of) &&
  opt_ok (fun z => in_range 0 z (2 ^ 40)) s.(size_min) && opt_ok (fun z => in_range 0 z (2 ^ 40)) s.(size_max) &&
  opt_ok (fun z => in_range 0 z (2 ^ 32 - 1)) s.(offset) &&
  opt_ok (max_len 1024) s.(bytes_hex) && opt_ok (max_len 1024) s.(mask_hex) &&
  opt_ok (max_items 32) s.(inner_file_names) && opt_ok (max_items 32) s.(inner_basenames) &&
  opt_ok (fun z => in_range 1 z 64) s.(inner_min_count) && opt_ok (max_len 64) s.(rtos_plugin_ref) &&
  opt_ok text_format_ok s.(text_format_constraint) && opt_ok substring_ok s.(substring_in_head_constraint) &&
  opt_ok (max_len 256) s.(signal_description) &&
  _check_kind_fields s.

(** [_check_combine_constraints] and [_check_sort_tier_invariants] are the last three. *)
Definition detection_ok (d : Detection) : bool :=
  in_range 1 (zlen d.(signals)) 32 && forallb signal_ok d.(signals) &&
  opt_ok (fun f => SFleb (float_of_Z 0) f && SFleb f (float_of_Z 100)) d.(min_confidence_score) &&
  implb (bool_decide (d.(combine) = weighted)) (some_p d.(min_confidence_score)) &&
  implb d.(catch_all) (forallb (is_kind always_matches) d.(signals)) &&
  implb d.(catch_all) (bool_decide (d.(sort_tier) = floor)).

(** [isalpha] of the first character. *)
Definition alpha_first (s : string) : bool :=
  match s with String a _ => is_lower a || is_upper a | "" => false end.

Definition dispatch_ok (d : Dispatch) : bool :=
  max_items 128 d.(cases) && opt_ok manifest_id_ok d.(dispatch_default) && in_range 1 d.(depth_max) 4 &&
  (let declared := negb (max_items 0 d.(cases)) || some_p d.(dispatch_default) in
   if bool_decide (d.(dispatch_kind) = no_dispatch) then negb declared else declared) &&
  forallb (fun c => max_len 128 c.1 && alpha_first c.2) d.(cases).

Definition refinement_ok (r : Refinement) : bool :=
  max_items 32 r.(refinement_substrings) && max_items 32 r.(partition_prefixes) &&
  in_range 1 (py_len r.(output_category)) 64 && in_range 1 (py_len r.(output_vendor)) 64 &&
  opt_ok (max_len 64) r.(output_product) && forallb path_floor r.(refinement_substrings).

Definition plugin_ref_ok (p : PluginRef) : bool :=
  manifest_id_ok p.(ref) && max_items 64 p.(applicable_format_ids).

Definition plugin_ok (p : Plugin) : bool :=
  opt_ok plugin_ref_ok p.(matcher) && opt_ok plugin_ref_ok p.(parser) && opt_ok plugin_ref_ok p.(unpack_pipeline).

Definition output_ok (o : Output) : bool :=
  manifest_id_ok o.(classifier_format) && in_range 1 (py_len o.(classifier_category)) 64 &&
  in_range 1 (py_len o.(classifier_vendor)) 64 && opt_ok (max_len 64) o.(classifier_product).

(** [_check_lifecycle] is the last two. *)
Definition deprecation_ok (d : Deprecation) : bool :=
  opt_ok manifest_id_ok d.(replaced_by) && opt_ok (max_len 32) d.(removal_phase) &&
  implb (negb (bool_decide (d.(status) = active))) (some_p d.(replaced_by)) &&
  implb (bool_decide (d.(status) = deprecated)) (truthy d.(removal_phase)).

Definition provenance_ok (p : ProvenanceStub) : bool :=
  in_range 1 (py_len p.(contributor_org)) 128 && opt_ok (max_len 4096) p.(signature) &&
  opt_ok (max_len 64) p.(supersedes).

Definition is_system (m : FileFormatManifest) : bool := bool_decide (m.(manifest_source) = src_system).

(** The floors a signal puts on the precedence of its manifest. *)
Definition signal_precedence_ok (m : FileFormatManifest) (s : DetectionSignal) : bool :=
  negb (is_kind magic_bytes s && truthy s.(bytes_hex) && opt_ok (max_len 4) s.(bytes_hex) &&
        (m.(precedence) <? 5000)) &&
  negb (is_kind text_format s &&
        match s.(text_format_constraint) with
        | Some c => bool_decide (c.(charset) = ascii_printable)
        | None => false
        end && negb (is_system m) && (m.(precedence) <? 5000)).

Definition _check_cross_field_invariants (m : FileFormatManifest) : bool :=
  (if bool_decide (m.(mode) = mode_override) then truthy m.(overrides) else negb (truthy m.(overrides))) &&
  negb (truthy m.(alias_of) && negb (bool_decide (m.(dispatch).(dispatch_kind) = no_dispatch))) &&
  negb ((m.(precedence) <? 10) && negb (is_system m)) &&
  implb m.(detection).(catch_all) (is_system m) &&
  implb (negb (bool_decide (m.(detection).(sort_tier) = general))) (is_system m) &&
  forallb (signal_precedence_ok m) m.(detection).(signals).

Definition manifest_ok (m : FileFormatManifest) : bool :=
  manifest_id_ok m.(format_id) && opt_ok manifest_id_ok m.(alias_of) && opt_ok (max_len 256) m.(overrides) &&
  in_range 0 m.(precedence) 10000 && max_items 8 m.(tie_breakers) &&
  in_range 1 (py_len m.(category)) 64 && in_range 1 (py_len m.(vendor)) 64 && opt_ok (max_len 64) m.(product) &&
  opt_ok (max_len 8192) m.(notes) &&
  detection_ok m.(detection) && dispatch_ok m.(dispatch) && opt_ok refinement_ok m.(refinement) &&
  plugin_ok m.(plugin) && output_ok m.(output) && opt_ok (fun p => opt_ok (max_len 2048) p.(banner_note)) m.(pre_upload) &&
  max_items 64 m.(external_manifests).(policy_scope) && deprecation_ok m.(deprecation) &&
  opt_ok provenance_ok m.(provenance) && max_items 16 m.(references) &&
  _check_cross_field_invariants m.
