(* ===== verification/FormatData.v ===== *)
(** * Some shipped format manifests

    Five of the manifests below services/file_format_catalog/data/file_formats, as the
    loader reads them: the catch-all, a text format, and the three that meet on an RTOS
    image of MediaTek.  Notes, descriptions, references and
    the hints for uploads are left out. *)

From S2P Require Import Prelude PyText ManifestLib FormatSchema.
From Stdlib Require Import Ascii String SpecFloat.
Import (notations) Ascii String.
#[local] Open Scope Z_scope.

(** ** Defaults of the models *)

(** A signal with only its kind. *)
Definition plain_signal (k : DetectionSignalKind) : DetectionSignal :=
  {| kind := k; weight := float_of_Z 1; stems_lower := None; extensions_lower := None; path_substrings_any_of := None;
     size_min := None; size_max := None; offset := None; bytes_hex := None; mask_hex := None; inner_file_names := None;
     inner_basenames := None; inner_min_count := None; rtos_plugin_ref := None; text_format_constraint := None;
     substring_in_head_constraint := None; signal_description := None |}.

Definition filename_signal (stems extensions : option (list string)) : DetectionSignal :=
  {| kind := filename; weight := float_of_Z 1; stems_lower := stems; extensions_lower := extensions;
     path_substrings_any_of := None; size_min := None; size_max := None; offset := None; bytes_hex := None;
     mask_hex := None; inner_file_names := None; inner_basenames := None; inner_min_count := None;
     rtos_plugin_ref := None; text_format_constraint := None; substring_in_head_constraint := None;
     signal_description := None |}.

Definition magic_signal (off : Z) (hex : string) : DetectionSignal :=
  {| kind := magic_bytes; weight := float_of_Z 1; stems_lower := None; extensions_lower := None;
     path_substrings_any_of := None; size_min := None; size_max := None; offset := Some off; bytes_hex := Some hex;
     mask_hex := None; inner_file_names := None; inner_basenames := None; inner_min_count := None;
     rtos_plugin_ref := None; text_format_constraint := None; substring_in_head_constraint := None;
     signal_description := None |}.

Definition rtos_signal (plugin_name : string) : DetectionSignal :=
  {| kind := rtos_check; weight := float_of_Z 1; stems_lower := None; extensions_lower := None;
     path_substrings_any_of := None; size_min := None; size_max := None; offset := None; bytes_hex := None;
     mask_hex := None; inner_file_names := None; inner_basenames := None; inner_min_count := None;
     rtos_plugin_ref := Some plugin_name; text_format_constraint := None; substring_in_head_constraint := None;
     signal_description := None |}.

Definition text_signal (c : TextFormatConstraint) : DetectionSignal :=
  {| kind := text_format; weight := float_of_Z 1; stems_lower := None; extensions_lower := None;
     path_substrings_any_of := None; size_min := None; size_max := None; offset := None; bytes_hex := None;
     mask_hex := None; inner_file_names := None; inner_basenames := None; inner_min_count := None;
     rtos_plugin_ref := None; text_format_constraint := Some c; substring_in_head_constraint := None;
     signal_description := None |}.

Definition no_dispatch_block : Dispatch :=
  {| dispatch_kind := no_dispatch; cases := []; dispatch_default := None; depth_max := 2 |}.

Definition no_plugin : Plugin := {| matcher := None; parser := None; unpack_pipeline := None |}.

(** A manifest with the optional blocks at their defaults; its output repeats its taxonomy. *)
Definition simple_manifest (id fmt : string) (source : ManifestSource) (prec : Z) (cat vend : string) (conf : Confidence)
    (det : Detection) (disp : Dispatch) (path : string) : FileFormatManifest :=
  {| format_id := id; alias_of := None; mode := mode_new; overrides := None; manifest_source := source;
     precedence := prec; tie_breakers := [rule_specificity; vendor_lex_asc; filename_lex_asc]; category := cat;
     vendor := vend; product := None; confidence := conf; notes := None; detection := det; dispatch := disp;
     refinement := None; plugin := no_plugin;
     output := {| classifier_format := fmt; classifier_category := cat; classifier_vendor := vend;
                  classifier_product := None; classifier_confidence := conf |};
     pre_upload := None; external_manifests := {| policy := deny; policy_scope := [] |};
     deprecation := {| status := active; replaced_by := None; removal_phase := None |};
     provenance := None; references := []; source_path := Some path |}.

Definition plain_detection (c : Combine) (sigs : list DetectionSignal) : Detection :=
  {| combine := c; signals := sigs; min_confidence_score := None; catch_all := false; sort_tier := general |}.

(** ** Manifests *)

Definition linux_blob_fallback : FileFormatManifest :=
  simple_manifest "linux_blob" "linux_blob" src_system 0 "linux_blob" "unknown" conf_low
    {| combine := any_signal; signals := [plain_signal always_matches]; min_confidence_score := None;
       catch_all := true; sort_tier := floor |}
    no_dispatch_block "/data/file_formats/_system/linux_blob_fallback.yaml".

Definition srec_constraint : TextFormatConstraint :=
  {| record_start_byte_hex := "53"; charset := hex_mixed; line_terminator := any_terminator;
     min_line_length := 10; max_line_length := 515; first_line_must_match := record_start;
     min_first_block_records := 4; header_pattern_hex := None; terminator_record_hex := None |}.

Definition motorola_srec : FileFormatManifest :=
  simple_manifest "motorola_srec" "motorola_srec" src_system 300 "linux_blob" "unknown" conf_medium
    (plain_detection all_required
       [text_signal srec_constraint;
        filename_signal None (Some [".srec"; ".s19"; ".s28"; ".s37"; ".mot"; ".sx"; ".rec"])])
    no_dispatch_block "/data/file_formats/_system/motorola_srec.yaml".

Definition mtk_lk : FileFormatManifest :=
  simple_manifest "mtk_lk" "mtk_lk" src_core 50 "bootloader" "mediatek" conf_high
    (plain_detection all_required [magic_signal 0 "88168858"])
    {| dispatch_kind := by_partition_name;
       cases := [("atf", "mtk_atf"); ("gz", "mtk_geniezone"); ("scp", "mtk_tinysys"); ("sspm", "mtk_tinysys");
                 ("mcupm", "mtk_tinysys"); ("dpm", "mtk_tinysys"); ("spmfw", "mtk_tinysys")];
       dispatch_default := None; depth_max := 2 |}
    "/data/file_formats/mediatek/mtk_lk.yaml".

Definition mtk_tinysys : FileFormatManifest :=
  simple_manifest "mtk_tinysys" "mtk_tinysys" src_core 100 "mcu" "mediatek" conf_high
    (plain_detection any_signal
       [filename_signal
          (Some ["scp.img"; "sspm.img"; "mcupm.img"; "dpm.img"; "spmfw.img";
                 "scp.bin"; "sspm.bin"; "mcupm.bin"; "dpm.bin"; "spmfw.bin"]) None])
    no_dispatch_block "/data/file_formats/mediatek/mtk_tinysys.yaml".

Definition rtos_dispatch : FileFormatManifest :=
  simple_manifest "rtos_dispatch" "rtos_blob" src_system 400 "rtos_blob" "unknown" conf_medium
    (plain_detection all_required [rtos_signal "rtos_detection_default"])
    {| dispatch_kind := by_rtos_family;
       cases := [("zephyr", "zephyr_elf"); ("freertos", "freertos_elf"); ("amazon-freertos", "amazon_freertos_elf");
                 ("vxworks", "vxworks_elf"); ("threadx", "threadx_elf"); ("qnx", "qnx_elf");
                 ("ucos-iii", "ucos_iii_elf"); ("ucos-ii", "ucos_ii_elf"); ("ucos", "ucos_elf");
                 ("safertos", "safertos_elf")];
       dispatch_default := None; depth_max := 2 |}
    "/data/file_formats/_system/rtos_dispatch.yaml".

(** By identifier, as in a snapshot. *)
Definition shipped : list FileFormatManifest := [linux_blob_fallback; motorola_srec; mtk_lk; mtk_tinysys; rtos_dispatch].

Example shipped_ok : forallb manifest_ok shipped = true.
Proof. by vm_compute. Qed.
