(* ===== verification/FormatResolver.v ===== *)
(** * File-format resolver ([services/file_format_catalog/resolver.py])

    The signal and dispatch evaluators, the registry of plugins, and [resolve]: it collects
    every live manifest that matches a blob, takes the least by a total key and follows its
    dispatch chain.  The context variable that carries the result of an RTOS plugin is
    threaded through the evaluation. *)

From S2P Require Import Prelude PyText PosixPath Json Sorting ManifestLib FormatSchema FormatData.
From Stdlib Require Import Ascii String SpecFloat.
Import (notations) Ascii String.
#[local] Open Scope Z_scope.

(** ** Tables *)

Definition _SOURCE_PRECEDENCE (s : ManifestSource) : Z :=
  match s with
  | src_system => 100 | src_core => 80 | src_operator => 60
  | src_attested_external => 40 | src_unauthenticated_external => 20
  end.

Definition _TIER_RANK (t : SortTier) : Z := match t with ceiling => 0 | general => 1 | floor => 2 end.

Definition _SIGNAL_COST_CLASS (k : DetectionSignalKind) : Z :=
  match k with
  | always_matches | filename | path_context | size_range => 0
  | elf_check | intel_hex_check | pe_check | text_format => 1
  | magic_bytes | substring_in_head => 2
  | zip_markers | tar_markers | rtos_check => 3
  end.

Definition _TEXT_FORMAT_CHARSET_BYTES (c : TextFormatCharset) : bytes :=
  match c with
  | hex_upper => bs "0123456789ABCDEF"
  | hex_lower => bs "0123456789abcdef"
  | hex_mixed => bs "0123456789abcdefABCDEF"
  | hex_space_separated => bs "0123456789abcdefABCDEF " ++ [byte_of_Z 9]
  | ascii_printable => (fun k => byte_of_Z (Z.of_nat k)) <$> seq 0x20 (0x7f - 0x20)
  | base64_url => bs "0123456789abcdefghijklmnopqrstuvwxyzABCDEFGHIJKLMNOPQRSTUVWXYZ-_="
  end%list.

Definition LF : byte := Byte.x0a.
Definition CR : byte := Byte.x0d.

Definition _TEXT_FORMAT_TERMINATORS (t : TextFormatLineTerminator) : list bytes :=
  match t with
  | lf => [[LF]] | crlf => [[CR; LF]] | cr => [[CR]]
  | any_terminator => [[CR; LF]; [LF]; [CR]]
  end.

Definition RTOS_FAMILY_ADVISORY : list string :=
  ["zephyr"; "freertos"; "amazon-freertos"; "vxworks"; "threadx"; "qnx"; "ucos"; "ucos-ii"; "ucos-iii"; "safertos"].

(** ** What the evaluators see of the system *)

(** [zipfile.ZipFile(path).namelist()]: the names, one of the two exceptions the code
    handles, or another one. *)
Inductive zip_listing := ZipNames (names : list string) | ZipRefused | ZipRaises.

Record RtosDetection := {
  rtos_family : string;
  rtos_confidence : Confidence;
  rtos_version : option string;
  rtos_metadata : option json
}.

(** What [detect] of a plugin does. *)
Inductive detect_result := DetectRaises | NoDetection | Verdict (b : bool) | Detected (d : RtosDetection) | OtherValue.

Record MatcherProto := {
  cost_class : Z;
  matcher_format_ids : list string;
  rtos_families : list string;
  detect : bytes -> string -> Z -> detect_result
}.

(** [PLUGIN_REGISTRY]. *)
Definition registry := list (string * MatcherProto).

(** ** Signal evaluators *)

(** The first component of [rpartition(c)]. *)
Fixpoint before_last (c : ascii) (s : string) : option string :=
  match s with
  | "" => None
  | String a s' =>
      match before_last c s' with
      | Some t => Some (String a t)
      | None => if is_char c a then Some "" else None
      end
  end.

Definition stem_of (s : string) : string := default "" (before_last "."%char s).

Definition lower_in (x : string) (l : list string) : bool := bool_decide (x ∈ lower <$> l).

Definition _eval_filename (signal : DetectionSignal) (path : string) : bool :=
  let base := lower (basename path) in
  match signal.(stems_lower) with
  | Some stems => lower_in base stems || (truthy (Some (stem_of base)) && lower_in (stem_of base) stems)
  | None => false
  end ||
  match signal.(extensions_lower) with
  | Some exts => existsb (fun ext => endswith base (lower ext)) exts
  | None => false
  end.

Definition _eval_path_context (signal : DetectionSignal) (path : string) : bool :=
  match signal.(path_substrings_any_of) with
  | Some subs => existsb (fun sub => contains (lower sub) (lower path)) subs
  | None => false
  end.

Definition _eval_size_range (signal : DetectionSignal) (size : Z) : bool :=
  opt_ok (fun n => negb (size <? n)) signal.(size_min) && opt_ok (fun n => negb (n <? size)) signal.(size_max).

Definition ELF_MAGIC : bytes := Eval vm_compute in byte_of_Z 127 :: bs "ELF".

Definition _eval_elf_check (blob_head : bytes) : bool := bool_decide (ztake 4 blob_head = ELF_MAGIC).

Definition intel_hex_chars : bytes := (bs "0123456789abcdefABCDEF" ++ [CR; LF])%list.

Definition _eval_intel_hex_check (blob_head : bytes) : bool :=
  bool_decide (ztake 1 blob_head = bs ":") &&
  match zslice 1 11 blob_head with
  | [] => false
  | sample => forallb (fun b => bool_decide (b ∈ intel_hex_chars)) sample
  end.

Definition _eval_pe_check (blob_head : bytes) : bool := bool_decide (ztake 2 blob_head = bs "MZ").

(** *** [_eval_text_format] *)

(** [splitlines(keepends=True)] of bytes: lines end with LF, CR or CR LF. *)
Fixpoint splitlines (s : bytes) : list bytes :=
  match s with
  | [] => []
  | b :: s' =>
      if bool_decide (b = LF) then [b] :: splitlines s'
      else if bool_decide (b = CR) then
        match s' with
        | c :: s'' => if bool_decide (c = LF) then [b; c] :: splitlines s'' else [b] :: splitlines s'
        | [] => [[b]]
        end
      else match splitlines s' with [] => [[b]] | l :: ls => (b :: l) :: ls end
  end.

(** ASCII white space of [bytes.strip]. *)
Definition bspace (b : byte) : bool := let z := byteZ b in bool_decide (z = 32 \/ 9 <= z <= 13).

(** Elements dropped from the end while [f] holds of them. *)
Fixpoint trim_end {A} (f : A -> bool) (line : list A) : list A :=
  match line with
  | x :: rest =>
      match trim_end f rest with
      | [] => if f x then [] else [x]
      | kept => x :: kept
      end
  | [] => line
  end.

Definition is_eol (b : byte) : bool := bool_decide (b = LF) || bool_decide (b = CR).

(** The loop that gathers the first records; [None]: the evaluator returns False. *)
Fixpoint gather (c : TextFormatConstraint) (start : byte) (lines : list bytes) (seen : bool)
    (record_lines : list bytes) : option (list bytes) :=
  match lines with
  | [] => Some record_lines
  | line :: lines =>
      match trim_end is_eol line with
      | [] => gather c start lines seen record_lines
      | b :: _ =>
          if bool_decide (b = start) then
            let record_lines := (record_lines ++ [line])%list in
            if c.(min_first_block_records) <=? zlen record_lines then Some record_lines
            else gather c start lines true record_lines
          else if seen then Some record_lines
          else if bool_decide (c.(first_line_must_match) = record_start) then None
          else gather c start lines seen record_lines
      end
  end.

Definition bendswith (s e : bytes) : bool := bool_decide (zdrop (zlen s - zlen e) s = e) && (zlen e <=? zlen s).

(** [content] and [observed_terminator] of a line. *)
Fixpoint cut_terminator (terms : list bytes) (line : bytes) : bytes * bytes :=
  match terms with
  | [] => (line, [])
  | t :: terms => if bendswith line t then (ztake (zlen line - zlen t) line, t) else cut_terminator terms line
  end.

Definition record_ok (c : TextFormatConstraint) (start : byte) (header : option bytes) (first last : bool)
    (line : bytes) : bool :=
  let '(content, observed_terminator) := cut_terminator (_TEXT_FORMAT_TERMINATORS c.(line_terminator)) line in
  (bool_decide (c.(line_terminator) = any_terminator) || negb (bool_decide (observed_terminator = [])) || last) &&
  in_range c.(min_line_length) (zlen content) c.(max_line_length) &&
  match content with
  | [] | [_] => false
  | b :: body =>
      bool_decide (b = start) && forallb (fun x => bool_decide (x ∈ _TEXT_FORMAT_CHARSET_BYTES c.(charset))) body
  end &&
  (negb first ||
   opt_ok (fun h => (1 + zlen h <=? zlen content) && bool_decide (zslice 1 (1 + zlen h) content = h)) header).

Definition records_ok (c : TextFormatConstraint) (start : byte) (header : option bytes) (lines : list bytes) : bool :=
  forallb id (imap (fun i line => record_ok c start header (i =? 0)%nat (S i =? List.length lines)%nat line) lines).

(** An empty or absent pattern is no pattern; the outer [None] is a [ValueError]. *)
Definition pattern_bytes (hex : option string) : option (option bytes) :=
  match hex with
  | Some (String _ _ as h) => Some <$> fromhex h
  | _ => Some None
  end.

Definition terminator_ok (c : TextFormatConstraint) (blob_head : bytes) (size : Z) : bool :=
  match pattern_bytes c.(terminator_record_hex) with
  | None => false
  | Some None => true
  | Some (Some term) => bcontains term (zdrop (zlen blob_head - 256) blob_head) || (zlen blob_head <? size)
  end.

Definition _eval_text_format (signal : DetectionSignal) (blob_head : bytes) (size : Z) : bool :=
  match signal.(text_format_constraint) with
  | None => false
  | Some c =>
      match fromhex c.(record_start_byte_hex), pattern_bytes c.(header_pattern_hex) with
      | Some [start], Some header =>
          match trim_end (fun l => bool_decide (trim_end bspace l = [])) (splitlines blob_head) with
          | [] => false
          | lines =>
              match gather c start lines false [] with
              | None => false
              | Some record_lines =>
                  (c.(min_first_block_records) <=? zlen record_lines) &&
                  records_ok c start header record_lines && terminator_ok c blob_head size
              end
          end
      | _, _ => false
      end
  end.

(** *** The other evaluators *)

Definition _eval_magic_bytes (signal : DetectionSignal) (blob_head : bytes) : bool :=
  match signal.(bytes_hex), signal.(offset) with
  | Some hex, Some off =>
      match fromhex hex with
      | None => false
      | Some expected =>
          let end_ := off + zlen expected in
          if zlen blob_head <? end_ then false
          else
            let actual := zslice off end_ blob_head in
            match signal.(mask_hex) with
            | None => bool_decide (actual = expected)
            | Some mhex =>
                match fromhex mhex with
                | None => false
                | Some mask =>
                    (zlen mask =? zlen expected) && bool_decide (masked mask actual = masked mask expected)
                end
            end
      end
  | _, _ => false
  end.

Definition head_window (c : SubstringInHeadConstraint) (blob_head : bytes) : bytes :=
  match c.(search_length) with
  | None => zdrop c.(search_offset) blob_head
  | Some n => zslice c.(search_offset) (c.(search_offset) + n) blob_head
  end.

Definition _eval_substring_in_head (signal : DetectionSignal) (blob_head : bytes) : bool :=
  match signal.(substring_in_head_constraint) with
  | None => false
  | Some c =>
      match mapM fromhex c.(needles_hex) with
      | None => false
      | Some needles =>
          if zlen blob_head <=? c.(search_offset) then false
          else
            let fold := if c.(case_sensitive) then id else blower in
            let window := fold (head_window c blob_head) in
            let hits := count_true ((fun n => bcontains (fold n) window) <$> needles) in
            match c.(needles_combine) with
            | combine_all => hits =? zlen needles
            | combine_any => c.(min_count) <=? hits
            end
      end
  end.

Definition PK_LOCAL : bytes := Eval vm_compute in (bs "PK" ++ [byte_of_Z 3; byte_of_Z 4])%list.
Definition PK_END : bytes := Eval vm_compute in (bs "PK" ++ [byte_of_Z 5; byte_of_Z 6])%list.

Section Evaluators.
(** [os.path.isfile] and the listing of an archive. *)
Context (isfile : string -> bool) (zip_names : string -> zip_listing).
Context (plugins : registry).

(** One inner name counts once. *)
Definition inner_hit (signal : DetectionSignal) (n : string) : bool :=
  lower_in n (default [] signal.(inner_file_names)) || lower_in (basename n) (default [] signal.(inner_basenames)).

(** [inner_min_count or 1]. *)
Definition needed_hits (signal : DetectionSignal) : Z :=
  match signal.(inner_min_count) with None | Some 0 => 1 | Some n => n end.

Definition _eval_zip_markers (signal : DetectionSignal) (blob_head : bytes) (path : string) : bool :=
  if negb (nonempty signal.(inner_file_names)) && negb (nonempty signal.(inner_basenames)) then false
  else if negb (bcontains PK_LOCAL (ztake 128 blob_head)) && negb (bcontains PK_END blob_head) then false
  else if truthy (Some path) && isfile path then
    match zip_names path with
    | ZipNames names => needed_hits signal <=? count_true ((fun n => inner_hit signal (lower n)) <$> names)
    | _ => false
    end
  else false.

Definition _eval_tar_markers (blob_head : bytes) : bool :=
  (0x108 <=? zlen blob_head) && bool_decide (zslice 0x101 0x106 blob_head = bs "ustar").

Definition family_char (a : ascii) : bool :=
  is_lower a || is_upper a || is_digit a || is_char "_"%char a || is_char "."%char a.

(** [_RTOS_FAMILY_SHAPE.match]: the dollar sign also matches before a final newline. *)
Definition family_body (s : string) : bool :=
  match s with
  | String a s' => family_char a && forallb (fun a => family_char a || is_char "-"%char a) (String.list_ascii_of_string s')
                   && (py_len s' <=? 63)
  | "" => false
  end.
Definition newline : ascii := ascii_of_N 10.
Definition _RTOS_FAMILY_SHAPE (s : string) : bool :=
  family_body s || (endswith s (String newline "") && family_body (String.substring 0 (String.length s - 1) s)).

(** The verdict, and the detection written to the context variable. *)
Definition _eval_rtos_check (signal : DetectionSignal) (blob_head : bytes) (path : string) (size : Z) :
    bool * option RtosDetection :=
  match signal.(rtos_plugin_ref) ≫= (fun r => dict_get r plugins) with
  | None => (false, None)
  | Some p =>
      match p.(detect) blob_head path size with
      | Verdict b => (b, None)
      | Detected d => if _RTOS_FAMILY_SHAPE d.(rtos_family) then (true, Some d) else (false, None)
      | _ => (false, None)
      end
  end.

Definition SIGNAL_EVALUATORS (signal : DetectionSignal) (blob_head : bytes) (path : string) (size : Z) : bool :=
  match signal.(kind) with
  | filename => _eval_filename signal path
  | path_context => _eval_path_context signal path
  | size_range => _eval_size_range signal size
  | elf_check => _eval_elf_check blob_head
  | intel_hex_check => _eval_intel_hex_check blob_head
  | pe_check => _eval_pe_check blob_head
  | text_format => _eval_text_format signal blob_head size
  | magic_bytes => _eval_magic_bytes signal blob_head
  | substring_in_head => _eval_substring_in_head signal blob_head
  | zip_markers => _eval_zip_markers signal blob_head path
  | tar_markers => _eval_tar_markers blob_head
  | rtos_check => (_eval_rtos_check signal blob_head path size).1
  | always_matches => true
  end.

(** What the evaluation of a signal leaves in the context variable. *)
Definition signal_context (signal : DetectionSignal) (blob_head : bytes) (path : string) (size : Z)
    (ctx : option RtosDetection) : option RtosDetection :=
  match signal.(kind) with
  | rtos_check => match (_eval_rtos_check signal blob_head path size).2 with Some d => Some d | None => ctx end
  | _ => ctx
  end.
End Evaluators.

(** ** One manifest *)

Section Evaluate.
Context (isfile : string -> bool) (zip_names : string -> zip_listing) (plugins : registry).
Context (blob_head : bytes) (path : string) (size : Z).

(** [hit]: an evaluator that raises counts as a miss. *)
Definition fires (signal : DetectionSignal) : bool :=
  SIGNAL_EVALUATORS isfile zip_names plugins signal blob_head path size.

Definition next_context (ctx : option RtosDetection) (signal : DetectionSignal) : option RtosDetection :=
  signal_context plugins signal blob_head path size ctx.

(** The key [(cost class, position)] of the evaluation order. *)
Definition signal_key (p : nat * DetectionSignal) : Z * nat := (_SIGNAL_COST_CLASS p.2.(kind), p.1).

Definition sorted_signals (d : Detection) : list DetectionSignal :=
  (sort_by (key_rel (lex Z.le le) signal_key) (imap (fun i s => (i, s)) d.(signals))).*2.

(** An entry of the evidence list; its cost class is that of the kind. *)
Abbreviation evidence_entry := (DetectionSignalKind * bool)%type.

Record tally := {
  t_evidence : list evidence_entry;
  matched_count : Z;
  weighted_sum : spec_float;
  weighted_max : spec_float
}.

Definition empty_tally : tally :=
  {| t_evidence := []; matched_count := 0; weighted_sum := float_of_Z 0; weighted_max := float_of_Z 0 |}.

Definition add_signal (t : tally) (s : DetectionSignal) : tally :=
  let hit := fires s in
  {| t_evidence := (t.(t_evidence) ++ [(s.(kind), hit)])%list;
     matched_count := if hit then t.(matched_count) + 1 else t.(matched_count);
     weighted_sum := if hit then fadd t.(weighted_sum) s.(weight) else t.(weighted_sum);
     weighted_max := fadd t.(weighted_max) s.(weight) |}.

(** The loop over the sorted signals; the flag tells whether it ran to the end. *)
Fixpoint signal_loop (stop_on_miss : bool) (sigs : list DetectionSignal) (t : tally) (ctx : option RtosDetection) :
    bool * tally * option RtosDetection :=
  match sigs with
  | [] => (true, t, ctx)
  | s :: sigs =>
      let t := add_signal t s in
      let ctx := next_context ctx s in
      if stop_on_miss && negb (fires s) then (false, t, ctx)
      else signal_loop stop_on_miss sigs t ctx
  end.

Definition fdiv : spec_float -> spec_float -> spec_float := SFdiv 53 1024.
Definition fzero (f : spec_float) : bool := match f with S754_zero _ => true | _ => false end.

(** [(matched, evidence, score)], and the context afterwards. *)
Definition _evaluate_detection (d : Detection) (ctx : option RtosDetection) :
    (bool * list evidence_entry * spec_float) * option RtosDetection :=
  let all := bool_decide (d.(combine) = all_required) in
  let '(complete, t, ctx) := signal_loop all (sorted_signals d) empty_tally ctx in
  let total := zlen d.(signals) in
  let fraction := fdiv (float_of_Z t.(matched_count)) (float_of_Z total) in
  if negb complete || (total =? 0) then ((false, t.(t_evidence), float_of_Z 0), ctx)
  else
    match d.(combine) with
    | all_required => ((t.(matched_count) =? total, t.(t_evidence), fraction), ctx)
    | any_signal => ((1 <=? t.(matched_count), t.(t_evidence), fraction), ctx)
    | weighted =>
        let score := if fzero t.(weighted_max) then float_of_Z 0 else fdiv t.(weighted_sum) t.(weighted_max) in
        let threshold := fdiv (default (float_of_Z 0) d.(min_confidence_score)) (float_of_Z 100) in
        ((SFleb threshold score, t.(t_evidence), score), ctx)
    end.
End Evaluate.

(** ** The order of the candidates *)

Definition _rule_specificity (m : FileFormatManifest) : Z :=
  zlen m.(detection).(signals) + zlen m.(dispatch).(cases) +
  match m.(refinement) with Some r => zlen r.(refinement_substrings) | None => 0 end.

(** [(tier, -source, precedence, -specificity, vendor, file)]. *)
Abbreviation sort_key := (Z * (Z * (Z * (Z * (string * string)))))%type.

Definition _compute_sort_key (m : FileFormatManifest) : sort_key :=
  (_TIER_RANK m.(detection).(sort_tier),
   (- _SOURCE_PRECEDENCE m.(manifest_source),
    (m.(precedence),
     (- _rule_specificity m,
      (lower m.(vendor), lower (basename (or_str m.(source_path) ""))))))).

Definition sort_key_le : relation sort_key :=
  lex Z.le (lex Z.le (lex Z.le (lex Z.le (lex String.le String.le)))).

Record candidate := {
  c_manifest : FileFormatManifest;
  c_evidence : list (DetectionSignalKind * bool);
  c_score : spec_float
}.

Definition candidate_le : relation candidate := key_rel sort_key_le (fun c => _compute_sort_key c.(c_manifest)).

(** ** Dispatch *)

(** Exceptions that leave [resolve]: of the archive reader, and of the check of the score
    in [FormatMatch]. *)
Inductive resolve_error := ZipError | ScoreOutOfRange.

(** [FormatCatalogSnapshot.get]. *)
Definition snapshot_get (manifests : list FileFormatManifest) (id : string) : option FileFormatManifest :=
  find (fun m => bool_decide (m.(format_id) = id)) manifests.

Section Dispatch.
Context (isfile : string -> bool) (zip_names : string -> zip_listing).
Context (blob_head : bytes) (path : string) (ctx : option RtosDetection).

Definition case_of (m : FileFormatManifest) (key : string) : option string := dict_get key m.(dispatch).(cases).

Definition _dispatch_by_partition_name (m : FileFormatManifest) : option string :=
  let base := lower (basename path) in
  let key := or_str (Some (stem_of base)) base in
  str_or (case_of m key) m.(dispatch).(dispatch_default).

(** The first inner file with a case. *)
Definition inner_target (m : FileFormatManifest) (names : list string) : option string :=
  head (omap (fun n => let t := case_of m (lower (basename n)) in if truthy t then t else None) names).

Definition _dispatch_by_zip_inner_file (m : FileFormatManifest) : res resolve_error (option string) :=
  let dflt := m.(dispatch).(dispatch_default) in
  if negb (truthy (Some path)) || negb (isfile path) then Ok dflt
  else match zip_names path with
       | ZipNames names => Ok (match inner_target m names with Some t => Some t | None => dflt end)
       | ZipRefused => Ok dflt
       | ZipRaises => Err ZipError
       end.

Definition _dispatch_by_rtos_family (m : FileFormatManifest) : option string :=
  match ctx ≫= (fun d => case_of m d.(rtos_family)) with
  | Some target => Some target
  | None => m.(dispatch).(dispatch_default)
  end.

Definition _dispatch_by_inner_magic (m : FileFormatManifest) : option string :=
  let head_hex := hex_bytes (ztake 16 blob_head) in
  match find (fun c => startswith head_hex (lower c.1)) m.(dispatch).(cases) with
  | Some c => Some c.2
  | None => m.(dispatch).(dispatch_default)
  end.

Definition _dispatch_alias (m : FileFormatManifest) : option string := m.(alias_of).
Definition _dispatch_none (m : FileFormatManifest) : option string := None.

Definition DISPATCH_EVALUATORS (m : FileFormatManifest) : res resolve_error (option string) :=
  match m.(dispatch).(dispatch_kind) with
  | by_partition_name => Ok (_dispatch_by_partition_name m)
  | by_zip_inner_file => _dispatch_by_zip_inner_file m
  | by_inner_magic => Ok (_dispatch_by_inner_magic m)
  | by_rtos_family => Ok (_dispatch_by_rtos_family m)
  | alias => Ok (_dispatch_alias m)
  | no_dispatch => Ok (_dispatch_none m)
  end.

(** The chain from [current], at most [budget] steps long: [max_depth - depth]. *)
Fixpoint follow (manifests : list FileFormatManifest) (budget : nat) (visited : list string)
    (current : FileFormatManifest) : res resolve_error FileFormatManifest :=
  match budget with
  | O => Ok current
  | S budget =>
      if bool_decide (current.(dispatch).(dispatch_kind) = no_dispatch) then Ok current
      else
        target ← DISPATCH_EVALUATORS current;
        match target with
        | None | Some "" => Ok current
        | Some target_id =>
            if bool_decide (target_id ∈ visited) then Ok current
            else match snapshot_get manifests target_id with
                 | None => Ok current
                 | Some target => follow manifests budget (current.(format_id) :: visited) target
                 end
        end
  end.
End Dispatch.

(** ** [resolve] *)

Section Resolve.
Context (isfile : string -> bool) (zip_names : string -> zip_listing) (plugins : registry).
Context (blob_head : bytes) (path : string) (size : Z).

Definition live (m : FileFormatManifest) : bool := negb (bool_decide (m.(deprecation).(status) = removed)).

(** The loop over the manifests: the candidates, and the context it leaves. *)
Fixpoint collect (manifests : list FileFormatManifest) (ctx : option RtosDetection) :
    list candidate * option RtosDetection :=
  match manifests with
  | [] => ([], ctx)
  | m :: manifests =>
      if live m then
        let '(matched, evidence, score, ctx) :=
          _evaluate_detection isfile zip_names plugins blob_head path size m.(detection) ctx in
        let '(candidates, ctx) := collect manifests ctx in
        ((if matched then {| c_manifest := m; c_evidence := evidence; c_score := score |} :: candidates
          else candidates), ctx)
      else collect manifests ctx
  end.

Definition match_of (c : candidate) (terminus : FileFormatManifest) : res resolve_error FormatMatch :=
  let score := fmul c.(c_score) (float_of_Z 100) in
  if SFleb (float_of_Z 0) score && SFleb score (float_of_Z 100)
  then Ok {| match_format_id := terminus.(format_id); confidence_score := score; evidence := c.(c_evidence);
             match_manifest_source := c.(c_manifest).(manifest_source);
             match_source_path := or_str c.(c_manifest).(source_path) "" |}
  else Err ScoreOutOfRange.

Definition resolve (manifests : list FileFormatManifest) : res resolve_error (option FormatMatch) :=
  let '(candidates, ctx) := collect manifests None in
  match sort_by candidate_le candidates with
  | [] => Ok None
  | best :: _ =>
      terminus ← follow isfile zip_names blob_head path ctx manifests
                   (Z.to_nat best.(c_manifest).(dispatch).(depth_max)) [] best.(c_manifest);
      m ← match_of best terminus;
      Ok (Some m)
  end.
End Resolve.

(** ** The plugin registry *)

Record registry_state := { PLUGIN_REGISTRY : registry; _PLUGIN_REGISTRY_FROZEN : bool }.

Definition no_plugins : registry_state := {| PLUGIN_REGISTRY := []; _PLUGIN_REGISTRY_FROZEN := false |}.

Inductive registry_error := Frozen | FamilyTaken.

(** [true]: the check raises. *)
Definition _a7_namespace_collision_check (plugins : registry) (name : string) (m : MatcherProto) : bool :=
  existsb (fun e => negb (bool_decide (e.1 = name)) &&
                    existsb (fun f => bool_decide (f ∈ e.2.(rtos_families))) m.(rtos_families)) plugins.

Definition register_matcher (s : registry_state) (name : string) (m : MatcherProto) : res registry_error registry_state :=
  if s.(_PLUGIN_REGISTRY_FROZEN) then Err Frozen
  else if _a7_namespace_collision_check s.(PLUGIN_REGISTRY) name m then Err FamilyTaken
  else Ok {| PLUGIN_REGISTRY := dict_set name m s.(PLUGIN_REGISTRY);
             _PLUGIN_REGISTRY_FROZEN := s.(_PLUGIN_REGISTRY_FROZEN) |}.

Definition freeze_plugin_registry (s : registry_state) : registry_state :=
  {| PLUGIN_REGISTRY := s.(PLUGIN_REGISTRY); _PLUGIN_REGISTRY_FROZEN := true |}.

Definition _unfreeze_plugin_registry_for_tests (s : registry_state) : registry_state :=
  {| PLUGIN_REGISTRY := s.(PLUGIN_REGISTRY); _PLUGIN_REGISTRY_FROZEN := false |}.

(** ** The evaluation of a detection block *)

Section EvaluateSpec.
Context (isfile : string -> bool) (zip_names : string -> zip_listing) (plugins : registry).
Context (blob_head : bytes) (path : string) (size : Z).
#[local] Abbreviation fires := (fires isfile zip_names plugins blob_head path size).
#[local] Abbreviation evaluate := (_evaluate_detection isfile zip_names plugins blob_head path size).
#[local] Abbreviation loop := (signal_loop isfile zip_names plugins blob_head path size).
#[local] Abbreviation add := (add_signal isfile zip_names plugins blob_head path size).
#[local] Abbreviation next := (next_context plugins blob_head path size).

(** The signals that are evaluated: with [all_required] those up to the first miss. *)
Fixpoint until_miss (sigs : list DetectionSignal) : list DetectionSignal :=
  match sigs with
  | [] => []
  | s :: sigs => if fires s then s :: until_miss sigs else [s]
  end.

Definition evaluated (stop_on_miss : bool) (sigs : list DetectionSignal) : list DetectionSignal :=
  if stop_on_miss then until_miss sigs else sigs.

Lemma format_loop_spec (stop : bool) (sigs : list DetectionSignal) (t : tally) (ctx : option RtosDetection) :
  loop stop sigs t ctx =
    (negb stop || forallb fires sigs, foldl add t (evaluated stop sigs), foldl next ctx (evaluated stop sigs)).
Proof.
  revert t ctx. unfold evaluated. induction sigs as [|s sigs IH]; intros t ctx.
  { by destruct stop. }
  cbn [signal_loop]. destruct stop; cbn [andb negb orb].
  - cbn [until_miss forallb]. destruct (fires s) eqn:E; cbn [negb]; [|by cbn [andb foldl]].
    rewrite IH. by cbn [negb orb andb foldl].
  - by rewrite IH.
Qed.

Lemma tally_spec (sigs : list DetectionSignal) (t : tally) :
  let t' := foldl add t sigs in
  t_evidence t' = (t_evidence t ++ ((fun s => (s.(kind), fires s)) <$> sigs))%list /\
  matched_count t' = matched_count t + zlen (List.filter fires sigs) /\
  weighted_sum t' = foldl fadd (weighted_sum t) (weight <$> List.filter fires sigs) /\
  weighted_max t' = foldl fadd (weighted_max t) (weight <$> sigs).
Proof.
  revert t. induction sigs as [|s sigs IH]; intros t; cbn zeta.
  { cbn. rewrite app_nil_r. split_and!; try done. unfold zlen. cbn. lia. }
  cbn [foldl]. destruct (IH (add t s)) as (-> & -> & -> & ->). unfold add_signal.
  cbn [t_evidence matched_count weighted_sum weighted_max List.filter].
  rewrite <- app_assoc, fmap_cons. destruct (fires s); split_and!; rewrite ?zlen_cons; try done; lia.
Qed.

Lemma format_signals_perm (d : Detection) : sorted_signals d ≡ₚ d.(signals).
Proof.
  unfold sorted_signals. rewrite (sort_by_perm (key_rel (lex Z.le le) signal_key)). by rewrite imap_pair_snd.
Qed.

(** Cheaper classes come first. *)
Lemma sorted_signals_cost (d : Detection) :
  StronglySorted (fun s s' => _SIGNAL_COST_CLASS s.(kind) <= _SIGNAL_COST_CLASS s'.(kind)) (sorted_signals d).
Proof.
  unfold sorted_signals. pose proof (sort_by_sorted (key_rel (lex Z.le le) signal_key)
    (imap (fun i s => (i, s)) d.(signals))) as H.
  induction H as [|p l Hl IH Hp]; [constructor|]. cbn. constructor; [done|].
  apply Forall_fmap. eapply Forall_impl; [exact Hp|]. intros q [Hq _]. exact Hq.
Qed.

(** The score of a match: the fraction of the signals that fire, or of their weights. *)
Definition score_of (d : Detection) : spec_float :=
  match d.(combine) with
  | weighted =>
      let top := foldl fadd (float_of_Z 0) (weight <$> sorted_signals d) in
      if fzero top then float_of_Z 0
      else fdiv (foldl fadd (float_of_Z 0) (weight <$> List.filter fires (sorted_signals d))) top
  | _ => fdiv (float_of_Z (zlen (List.filter fires d.(signals)))) (float_of_Z (zlen d.(signals)))
  end.

(** What the combination rule asks of the signals. *)
Definition rule_met (d : Detection) : Prop :=
  match d.(combine) with
  | all_required => forall s, s ∈ d.(signals) -> fires s = true
  | any_signal => exists s, s ∈ d.(signals) /\ fires s = true
  | weighted => exists f, d.(min_confidence_score) = Some f /\ SFleb (fdiv f (float_of_Z 100)) (score_of d) = true
  end.

Lemma zlen_filter_perm (l l' : list DetectionSignal) :
  l ≡ₚ l' -> zlen (List.filter fires l) = zlen (List.filter fires l').
Proof.
  induction 1 as [|x l l' _ IH|x y l|l1 l2 l3 _ IH1 _ IH2]; cbn; [done| | |congruence].
  - destruct (fires x); rewrite ?zlen_cons; lia.
  - by destruct (fires x), (fires y).
Qed.

Lemma filter_count_pos (l : list DetectionSignal) :
  (1 <=? zlen (List.filter fires l)) = true <-> exists s, s ∈ l /\ fires s = true.
Proof.
  split.
  - destruct (List.filter fires l) as [|s k] eqn:E; [done|]. intros _. exists s.
    rewrite list_elem_of_In. apply List.filter_In. rewrite E. by left.
  - intros (s & Hs & Hf). assert (H : In s (List.filter fires l)) by by rewrite List.filter_In, <- list_elem_of_In.
    destruct (List.filter fires l) as [|x k]; [done|]. rewrite zlen_cons. pose proof (zlen_nonneg k). lia.
Qed.

Lemma until_miss_all (l : list DetectionSignal) : forallb fires l = true -> until_miss l = l.
Proof. induction l as [|s l IH]; cbn; [done|]. destruct (fires s); [|done]. intros H. by rewrite IH. Qed.

Lemma evaluate_spec (d : Detection) (ctx : option RtosDetection) :
  d.(signals) <> [] -> (d.(combine) = weighted -> exists f, d.(min_confidence_score) = Some f) ->
  let seen := evaluated (bool_decide (d.(combine) = all_required)) (sorted_signals d) in
  let '(matched, evidence, score, ctx') := evaluate d ctx in
  (matched = true <-> rule_met d) /\ evidence = (fun s => (s.(kind), fires s)) <$> seen /\
  (matched = true -> score = score_of d) /\ ctx' = foldl next ctx seen.
Proof.
  intros Hne Hw seen. unfold _evaluate_detection. rewrite format_loop_spec. fold seen.
  destruct (tally_spec seen empty_tally) as (Hev & Hcount & Hsum & Hmax). cbn zeta. rewrite Hev, Hcount, Hsum, Hmax.
  assert (Hz : (zlen d.(signals) =? 0) = false).
  { destruct d.(signals) as [|x l]; [done|]. rewrite zlen_cons. pose proof (zlen_nonneg l). lia. }
  rewrite Hz, orb_false_r. pose proof (format_signals_perm d) as Hperm.
  unfold rule_met, score_of. unfold seen, evaluated in *.
  destruct (d.(combine)) eqn:Ec; cbn [bool_decide decide_rel negb orb].
  - rewrite bool_decide_eq_true_2 by done. cbn [negb orb].
    pose proof (forallb_elem fires d.(signals)) as Hall. rewrite <- (forallb_perm fires _ _ Hperm) in Hall.
    destruct (forallb fires (sorted_signals d)) eqn:Ef; cbn [negb].
    + rewrite until_miss_all, filter_all by done.
      rewrite (filter_all fires d.(signals)) by by rewrite <- (forallb_perm fires _ _ Hperm).
      replace (zlen (sorted_signals d)) with (zlen d.(signals)) by (unfold zlen; by rewrite Hperm).
      cbn [empty_tally matched_count]. rewrite Z.add_0_l, Z.eqb_refl. by split_and!; [apply Hall|..].
    + by split_and!; [apply Hall|..].
  - rewrite bool_decide_eq_false_2 by done. cbn [negb orb empty_tally matched_count]. rewrite Z.add_0_l.
    rewrite (zlen_filter_perm _ _ Hperm). by split_and!; [apply filter_count_pos|..].
  - rewrite bool_decide_eq_false_2 by done. cbn [negb orb]. destruct Hw as [f Hf]; [done|]. rewrite Hf.
    split_and!; try done. cbn [default]. split; [intros H; by exists f|]. by intros (f' & [= <-] & H).
Qed.
End EvaluateSpec.

(** ** Dispatch chains *)

Section Chain.
Context (isfile : string -> bool) (zip_names : string -> zip_listing).
Context (blob_head : bytes) (path : string) (ctx : option RtosDetection) (manifests : list FileFormatManifest).
#[local] Abbreviation target_of := (DISPATCH_EVALUATORS isfile zip_names blob_head path ctx).

(** [route ids m t]: dispatch leads from [m] to [t], leaving the manifests [ids]. *)
Inductive route : list string -> FileFormatManifest -> FileFormatManifest -> Prop :=
  | route_here m : route [] m m
  | route_step m id next ids t :
      m.(dispatch).(dispatch_kind) <> no_dispatch -> target_of m = Ok (Some id) ->
      snapshot_get manifests id = Some next -> route ids next t -> route (m.(format_id) :: ids) m t.

(** Why a chain that has left [ids] ends at [t]: no dispatch, no target, a target that was
    left before, or one that the snapshot does not hold. *)
Definition stops (ids : list string) (t : FileFormatManifest) : Prop :=
  t.(dispatch).(dispatch_kind) = no_dispatch \/
  exists target, target_of t = Ok target /\
    (truthy target = false \/ exists id, target = Some id /\ (id ∈ ids \/ snapshot_get manifests id = None)).

Lemma dispatch_error (m : FileFormatManifest) (e : resolve_error) :
  target_of m = Err e ->
  e = ZipError /\ zip_names path = ZipRaises /\ m.(dispatch).(dispatch_kind) = by_zip_inner_file.
Proof.
  unfold DISPATCH_EVALUATORS. destruct (dispatch_kind _); try done. unfold _dispatch_by_zip_inner_file.
  destruct (_ || _); [done|]. destruct (zip_names path); try done. by intros [= <-].
Qed.

Lemma follow_spec (budget : nat) (visited : list string) (m : FileFormatManifest) :
  match follow isfile zip_names blob_head path ctx manifests budget visited m with
  | Ok t => exists ids, route ids m t /\ (List.length ids <= budget)%nat /\
              (List.length ids = budget \/ stops (ids ++ visited) t)
  | Err e => e = ZipError /\ zip_names path = ZipRaises /\
             exists ids t, route ids m t /\ t.(dispatch).(dispatch_kind) = by_zip_inner_file
  end.
Proof.
  revert visited m. induction budget as [|budget IH]; intros visited m; cbn [follow].
  { exists []. split_and!; [constructor|done|by left]. }
  assert (Hstop : stops visited m -> exists ids, route ids m m /\ (List.length ids <= S budget)%nat /\
            (List.length ids = S budget \/ stops (ids ++ visited) m)).
  { intros H. exists []. split_and!; [constructor|cbn; lia|by right]. }
  case_bool_decide as Hk; [apply Hstop; by left|].
  destruct (target_of m) as [target|e] eqn:Et;
    [|apply dispatch_error in Et as (-> & Hz & Ht); split_and!; [done..|]; exists [], m; by split; [constructor|]].
  cbn [mbind res_bind].
  destruct target as [[|a id]|];
    [apply Hstop; right; eexists; split; [done|by left]| |apply Hstop; right; eexists; split; [done|by left]].
  case_bool_decide as Hv; [apply Hstop; right; eexists; split; [done|right; eexists; split; [done|by left]]|].
  destruct (snapshot_get manifests (String a id)) as [next|] eqn:Es;
    [|apply Hstop; right; eexists; split; [done|right; eexists; split; [done|by right]]].
  specialize (IH (m.(format_id) :: visited) next). destruct (follow _ _ _ _ _ _ _ _ _) as [t|e].
  2:{ destruct IH as (-> & Hz & ids & t & Hr & Ht). split_and!; [done..|]. exists (m.(format_id) :: ids), t.
      split; [by eapply route_step|done]. }
  destruct IH as (ids & Hr & Hl & Hs). exists (m.(format_id) :: ids). split_and!.
  - by eapply route_step.
  - cbn. lia.
  - destruct Hs as [Hs|Hs]; [left; cbn; lia|right]. destruct Hs as [Hs|(tg & Htg & Hs)]; [by left|right].
    exists tg. split; [done|]. destruct Hs as [Hs|(id' & -> & Hs)]; [by left|right]. exists id'. split; [done|].
    destruct Hs as [Hs|Hs]; [left|by right]. revert Hs. rewrite !elem_of_app, !elem_of_cons. tauto.
Qed.
End Chain.

(** ** Resolution of a blob *)

(** The fractions of up to 32 signals are percentages. *)
Definition percent_ok (score : spec_float) : bool :=
  let p := fmul score (float_of_Z 100) in SFleb (float_of_Z 0) p && SFleb p (float_of_Z 100).

Lemma fraction_percent (a n : Z) : 0 <= a <= n -> 1 <= n <= 32 -> percent_ok (fdiv (float_of_Z a) (float_of_Z n)) = true.
Proof.
  intros Ha Hn.
  assert (H : forallb (fun n => forallb (fun a => (n <? a)%nat ||
            percent_ok (fdiv (float_of_Z (Z.of_nat a)) (float_of_Z (Z.of_nat n)))) (seq 0 33)) (seq 1 32) = true)
    by (vm_compute; reflexivity).
  rewrite forallb_forall in H. specialize (H (Z.to_nat n)). rewrite forallb_forall in H.
  specialize (H ltac:(apply in_seq; lia) (Z.to_nat a) ltac:(apply in_seq; lia)).
  rewrite !Z2Nat.id in H by lia. apply orb_true_iff in H as [H|H]; [apply Nat.ltb_lt in H; lia|exact H].
Qed.

Lemma filter_count_range {A} (f : A -> bool) (l : list A) : 0 <= zlen (List.filter f l) <= zlen l.
Proof. unfold zlen. pose proof (List.filter_length_le f l). lia. Qed.

Lemma manifest_rules (m : FileFormatManifest) :
  manifest_ok m = true ->
  m.(detection).(signals) <> [] /\ zlen m.(detection).(signals) <= 32 /\
  (m.(detection).(combine) = weighted -> exists f, m.(detection).(min_confidence_score) = Some f) /\
  1 <= m.(dispatch).(depth_max) <= 4.
Proof.
  unfold manifest_ok, detection_ok, dispatch_ok. rewrite !andb_true_iff. intros H.
  assert (Hd : in_range 1 (zlen m.(detection).(signals)) 32 = true /\
    implb (bool_decide (m.(detection).(combine) = weighted)) (some_p m.(detection).(min_confidence_score)) = true /\
    in_range 1 m.(dispatch).(depth_max) 4 = true) by tauto.
  destruct Hd as (Hl & Hw & Hdepth). unfold in_range in Hl, Hdepth. split_and!; [..|lia|lia].
  - intros E. rewrite E in Hl. by vm_compute in Hl.
  - lia.
  - intros E. rewrite E in Hw. rewrite bool_decide_eq_true_2 in Hw by done. destruct (min_confidence_score _); [by eexists|done].
Qed.

Section ResolveSpec.
Context (isfile : string -> bool) (zip_names : string -> zip_listing) (plugins : registry).
Context (blob_head : bytes) (path : string) (size : Z).
#[local] Abbreviation evaluate := (_evaluate_detection isfile zip_names plugins blob_head path size).
#[local] Abbreviation met := (rule_met isfile zip_names plugins blob_head path size).
#[local] Abbreviation score := (score_of isfile zip_names plugins blob_head path size).
#[local] Abbreviation seen_by d :=
  (evaluated isfile zip_names plugins blob_head path size (bool_decide (d.(combine) = all_required)) (sorted_signals d)).

(** The context after the evaluation of a list of manifests. *)
Definition context_after (manifests : list FileFormatManifest) (ctx : option RtosDetection) : option RtosDetection :=
  foldl (fun ctx m => if live m then foldl (next_context plugins blob_head path size) ctx (seen_by m.(detection)) else ctx)
    ctx manifests.

Definition candidate_of (m : FileFormatManifest) : option candidate :=
  if live m then
    let '(matched, evidence, score, _) := evaluate m.(detection) None in
    if matched then Some {| c_manifest := m; c_evidence := evidence; c_score := score |} else None
  else None.

Lemma evaluate_context (d : Detection) (ctx : option RtosDetection) :
  evaluate d ctx = ((evaluate d None).1, foldl (next_context plugins blob_head path size) ctx (seen_by d)).
Proof.
  unfold _evaluate_detection. rewrite !format_loop_spec.
  destruct (negb _ || _); cbn [fst]; [done|]. by destruct (d.(combine)).
Qed.

Lemma collect_spec (manifests : list FileFormatManifest) (ctx : option RtosDetection) :
  collect isfile zip_names plugins blob_head path size manifests ctx =
    (omap candidate_of manifests, context_after manifests ctx).
Proof.
  revert ctx. induction manifests as [|m ms IH]; intros ctx; [done|]. cbn [collect context_after foldl].
  cbn [omap list_omap]. unfold candidate_of at 1. destruct (live m); [|by rewrite IH].
  rewrite (evaluate_context _ ctx), (evaluate_context _ None). cbn [fst].
  destruct ((evaluate _ None).1) as [[matched ev] sc]. rewrite IH. by destruct matched.
Qed.

Lemma candidate_of_spec (m : FileFormatManifest) :
  manifest_ok m = true ->
  match candidate_of m with
  | Some c => live m = true /\ met m.(detection) /\ c.(c_manifest) = m /\ c.(c_score) = score m.(detection) /\
              c.(c_evidence) = (fun s => (s.(kind), fires isfile zip_names plugins blob_head path size s)) <$> seen_by m.(detection)
  | None => live m = false \/ ~ met m.(detection)
  end.
Proof.
  intros (Hne & _ & Hw & _)%manifest_rules. unfold candidate_of. destruct (live m); [|by left].
  pose proof (evaluate_spec isfile zip_names plugins blob_head path size m.(detection) None Hne Hw) as H.
  cbn zeta in H. destruct (evaluate _ _) as [[[matched ev] sc] c]. destruct H as (Hm & -> & Hs & _).
  destruct matched; [|right; intros ?%Hm; done]. cbn. split_and!; [done|by apply Hm|done|by apply Hs|done].
Qed.
End ResolveSpec.

(** What is compared below equal specificities, as a manifest compares as text. *)
Definition name_of (m : FileFormatManifest) : string * string := (lower m.(vendor), lower (basename (or_str m.(source_path) ""))).

(** [x] outranks [m]: a higher tier; in one tier a higher source; of one source the lower
    precedence; at one precedence the higher specificity; and then the lesser vendor and
    file name. *)
Definition outranks (x m : FileFormatManifest) : Prop :=
  let tier y := _TIER_RANK y.(detection).(sort_tier) in
  let source y := _SOURCE_PRECEDENCE y.(manifest_source) in
  tier x < tier m \/ tier x = tier m /\
  (source m < source x \/ source x = source m /\
   (x.(precedence) < m.(precedence) \/ x.(precedence) = m.(precedence) /\
    (_rule_specificity m < _rule_specificity x \/ _rule_specificity x = _rule_specificity m /\
     ~ lex String.le String.le (name_of m) (name_of x)))).

Lemma outranks_key (x m : FileFormatManifest) :
  outranks x m <-> ~ sort_key_le (_compute_sort_key m) (_compute_sort_key x).
Proof.
  unfold sort_key_le. rewrite not_lex by apply _. rewrite not_lex by apply _. rewrite not_lex by apply _. rewrite not_lex by apply _.
  unfold outranks. cbn [_compute_sort_key fst snd]. change (lower (vendor m), _) with (name_of m). change (lower (vendor x), _) with (name_of x).
  set (P := ~ lex String.le String.le (name_of m) (name_of x)). clearbody P. intuition lia.
Qed.

(** The first manifest of the snapshot that meets [met] and that no other such one
    outranks. *)
Definition winner (met : FileFormatManifest -> Prop) (manifests : list FileFormatManifest) (m : FileFormatManifest) : Prop :=
  exists l1 l2, manifests = (l1 ++ m :: l2)%list /\ met m /\
    (forall x, x ∈ l1 -> met x -> outranks m x) /\
    (forall x, x ∈ l2 -> met x -> ~ outranks x m).

Lemma resolve_cases (isfile : string -> bool) (zip_names : string -> zip_listing) (plugins : registry)
    (blob_head : bytes) (path : string) (size : Z) (manifests : list FileFormatManifest) :
  let met m := live m = true /\ rule_met isfile zip_names plugins blob_head path size m.(detection) in
  let ctx := context_after isfile zip_names plugins blob_head path size manifests None in
  Forall (fun m => manifest_ok m = true) manifests ->
  match resolve isfile zip_names plugins blob_head path size manifests with
  | Ok None => forall m, m ∈ manifests -> ~ met m
  | Ok (Some r) =>
      exists m ids t, winner met manifests m /\ route isfile zip_names blob_head path ctx manifests ids m t /\
        Z.of_nat (List.length ids) <= m.(dispatch).(depth_max) /\
        (Z.of_nat (List.length ids) = m.(dispatch).(depth_max) \/
         stops isfile zip_names blob_head path ctx manifests ids t) /\
        r.(match_format_id) = t.(format_id) /\ r.(match_manifest_source) = m.(manifest_source) /\
        r.(confidence_score) = fmul (score_of isfile zip_names plugins blob_head path size m.(detection)) (float_of_Z 100)
  | Err ZipError =>
      zip_names path = ZipRaises /\
      exists m ids t, winner met manifests m /\ route isfile zip_names blob_head path ctx manifests ids m t /\
        t.(dispatch).(dispatch_kind) = by_zip_inner_file
  | Err ScoreOutOfRange => exists m, winner met manifests m /\ m.(detection).(combine) = weighted
  end.
Proof.
  intros met ctx Hok. unfold resolve. rewrite collect_spec. fold ctx.
  set (cand := candidate_of isfile zip_names plugins blob_head path size). set (cands := omap cand manifests).
  assert (Hspec : forall m, m ∈ manifests ->
     match cand m with
     | Some c => met m /\ c.(c_manifest) = m /\ c.(c_score) = score_of isfile zip_names plugins blob_head path size m.(detection)
     | None => ~ met m
     end).
  { intros m Hm. rewrite Forall_forall in Hok.
    pose proof (candidate_of_spec isfile zip_names plugins blob_head path size m (Hok m Hm)) as H. fold cand in H.
    destruct (cand m); [by destruct H as (? & ? & ? & ? & ?)|]. intros [Hl Hr]. destruct H; congruence. }
  assert (Hwin : forall x, x ∈ manifests -> met x -> exists c, cand x = Some c /\ c.(c_manifest) = x).
  { intros x Hx Hm. specialize (Hspec x Hx). destruct (cand x) as [c|]; [|done]. exists c. by destruct Hspec as (_ & ? & _). }
  destruct (sort_by candidate_le cands) as [|best rest] eqn:Es.
  { intros m Hm Hmet. destruct (Hwin m Hm Hmet) as (c & Ec & _).
    assert (Hin : c ∈ sort_by candidate_le cands) by (apply elem_of_sort_by, list_elem_of_omap; by exists m).
    rewrite Es in Hin. by apply not_elem_of_nil in Hin. }
  assert (Hhead : head (sort_by candidate_le cands) = Some best) by by rewrite Es.
  destruct (sort_by_head candidate_le _ _ Hhead) as (k1 & k2 & Hk & H1 & H2). clear Hhead Es rest.
  destruct (omap_split _ _ _ _ _ Hk) as (l1 & m & l2 & -> & E1 & Em & E2).
  pose proof (Hspec m ltac:(set_solver)) as Hb. rewrite Em in Hb. destruct Hb as (Hmet & Hbm & Hscore).
  pose proof (follow_spec isfile zip_names blob_head path ctx (l1 ++ m :: l2)
    (Z.to_nat best.(c_manifest).(dispatch).(depth_max)) [] best.(c_manifest)) as Hf.
  assert (Hwinner : winner met (l1 ++ m :: l2) m).
  { exists l1, l2. split_and!; [done|done| |].
    - intros x Hx Hm. apply outranks_key. intros Hle. destruct (Hwin x ltac:(set_solver) Hm) as (c & Ec & <-).
      rewrite Forall_forall in H1. apply (H1 c); [rewrite <- E1; apply list_elem_of_omap; by eexists|].
      unfold candidate_le, key_rel. by rewrite Hbm.
    - intros x Hx Hm Hout. apply outranks_key in Hout. apply Hout. destruct (Hwin x ltac:(set_solver) Hm) as (c & Ec & <-).
      rewrite Forall_forall in H2. rewrite <- Hbm. apply (H2 c). rewrite <- E2. apply list_elem_of_omap. by eexists. }
  rewrite Forall_forall in Hok. pose proof (manifest_rules m (Hok m ltac:(set_solver))) as (Hne & H32 & _ & Hdepth).
  destruct (follow _ _ _ _ _ _ _ _ _) as [t|e]; cbn [mbind res_bind]; rewrite Hbm in Hf.
  2:{ destruct Hf as (-> & Hz & ids & t & Hr & Ht). split; [done|]. by exists m, ids, t. }
  unfold match_of. rewrite Hscore, Hbm.
  destruct (_ && _) eqn:Ep; cbn [mbind res_bind].
  - destruct Hf as (ids & Hr & Hlen & Hs). rewrite app_nil_r in Hs. exists m, ids, t.
    split_and!; try done; [lia|destruct Hs as [Hs|Hs]; [left; lia|by right]].
  - exists m. split; [done|]. destruct (combine (detection m)) eqn:Ec; [| |done]; exfalso.
    all: enough (Hp : percent_ok (score_of isfile zip_names plugins blob_head path size m.(detection)) = true)
           by (unfold percent_ok in Hp; congruence).
    all: unfold score_of; rewrite Ec; apply fraction_percent; [apply filter_count_range|].
    all: destruct (signals (detection m)) as [|s l]; [done|]; rewrite zlen_cons in *; pose proof (zlen_nonneg l); lia.
Qed.

Lemma winner_met (met : FileFormatManifest -> Prop) (manifests : list FileFormatManifest) (m : FileFormatManifest) :
  winner met manifests m -> m ∈ manifests /\ met m.
Proof. intros (l1 & l2 & -> & H & _). split; [set_solver|done]. Qed.

(** C4. What [resolve] answers on a validated snapshot.  Nothing, exactly when no live
    manifest has its rule met.  Otherwise the winner is the first manifest of the snapshot
    that no other matching one outranks: tier, then source, then precedence, then
    specificity, then vendor and file; the answer carries the score of the winner and the
    identifier at the end of its dispatch chain, which is at most [depth_max] steps long and
    ends early only for want of a target or at a cycle.  An exception leaves it in two cases
    only: the archive reader raises one on the way, or the score of a weighted winner is not
    a percentage. *)
Theorem resolve_spec (isfile : string -> bool) (zip_names : string -> zip_listing) (plugins : registry)
    (blob_head : bytes) (path : string) (size : Z) (manifests : list FileFormatManifest) :
  let met m := live m = true /\ rule_met isfile zip_names plugins blob_head path size m.(detection) in
  let ctx := context_after isfile zip_names plugins blob_head path size manifests None in
  let answer := resolve isfile zip_names plugins blob_head path size manifests in
  Forall (fun m => manifest_ok m = true) manifests ->
  (answer = Ok None <-> forall m, m ∈ manifests -> ~ met m) /\
  (forall r, answer = Ok (Some r) ->
     exists m ids t, winner met manifests m /\ route isfile zip_names blob_head path ctx manifests ids m t /\
       Z.of_nat (List.length ids) <= m.(dispatch).(depth_max) /\
       (Z.of_nat (List.length ids) = m.(dispatch).(depth_max) \/
        stops isfile zip_names blob_head path ctx manifests ids t) /\
       r.(match_format_id) = t.(format_id) /\ r.(match_manifest_source) = m.(manifest_source) /\
       r.(confidence_score) = fmul (score_of isfile zip_names plugins blob_head path size m.(detection)) (float_of_Z 100)) /\
  (forall e, answer = Err e ->
     exists m, winner met manifests m /\
       (e = ScoreOutOfRange /\ m.(detection).(combine) = weighted \/
        e = ZipError /\ zip_names path = ZipRaises /\
        exists ids t, route isfile zip_names blob_head path ctx manifests ids m t /\
          t.(dispatch).(dispatch_kind) = by_zip_inner_file)).
Proof.
  intros met ctx answer Hok.
  pose proof (resolve_cases isfile zip_names plugins blob_head path size manifests Hok) as H. cbn zeta in H.
  fold ctx in H. fold answer in H. destruct answer as [[r|]|[]]; split_and!.
  - split; [done|]. intros Hn. exfalso. destruct H as (m & ids & t & Hw & _). apply winner_met in Hw as [Hm Hmet]. by apply (Hn m).
  - intros r' [= <-]. exact H.
  - done.
  - by split.
  - done.
  - done.
  - split; [done|]. intros Hn. exfalso. destruct H as (_ & m & ids & t & Hw & _). apply winner_met in Hw as [Hm Hmet]. by apply (Hn m).
  - done.
  - intros e [= <-]. destruct H as (Hz & m & ids & t & Hw & Hr & Ht). exists m. split; [exact Hw|]. right. split_and!; [done..|]. by exists ids, t.
  - split; [done|]. intros Hn. exfalso. destruct H as (m & Hw & _). apply winner_met in Hw as [Hm Hmet]. by apply (Hn m).
  - done.
  - intros e [= <-]. destruct H as (m & Hw & Hm). exists m. split; [exact Hw|]. by left.
Qed.

(** The image of a MediaTek system power manager: its magic wins, its name dispatches. *)
Definition sspm_head : bytes := Eval vm_compute in (byte_of_Z <$> [0x88; 0x16; 0x88; 0x58]).
Definition no_file (p : string) : bool := false.
Definition no_zip (p : string) : zip_listing := ZipRefused.

Lemma resolve_spec_witness :
  exists r, resolve no_file no_zip [] sspm_head "/x/sspm.img" 4096 shipped = Ok (Some r) /\
  exists m ids t, winner (fun m => live m = true /\ rule_met no_file no_zip [] sspm_head "/x/sspm.img" 4096 m.(detection)) shipped m /\
    route no_file no_zip sspm_head "/x/sspm.img" (context_after no_file no_zip [] sspm_head "/x/sspm.img" 4096 shipped None)
      shipped ids m t /\
    Z.of_nat (List.length ids) <= m.(dispatch).(depth_max) /\ t.(format_id) = "mtk_tinysys".
Proof.
  destruct (resolve no_file no_zip [] sspm_head "/x/sspm.img" 4096 shipped) as [[r|]|e] eqn:E.
  - exists r. split; [reflexivity|].
    destruct (resolve_spec no_file no_zip [] sspm_head "/x/sspm.img" 4096 shipped) as (_ & H & _).
    { apply Forall_forall. intros m Hm. apply list_elem_of_In in Hm. revert m Hm. apply forallb_forall. vm_compute. reflexivity. }
    destruct (H r E) as (m & ids & t & Hw & Hr & Hl & _ & Hid & _). exists m, ids, t. split_and!; [exact Hw|exact Hr|exact Hl|].
    rewrite <- Hid. vm_compute in E. injection E as <-. reflexivity.
  - vm_compute in E. discriminate.
  - vm_compute in E. discriminate.
Defined.
