(* ===== verification/TextFormat.v ===== *)
(** * Text formats ([_eval_text_format])

    The evaluator of record streams accepts exactly the heads described here: after the
    blank lines are left out, a run of records of the declared shape, preceded by other
    lines only where the constraint allows it. *)

From S2P Require Import Prelude PyText ManifestLib FormatSchema FormatData FormatResolver.
From Stdlib Require Import Ascii String SpecFloat.
Import (notations) Ascii String.
#[local] Open Scope Z_scope.

(** ** Lines *)

Definition eols : list bytes := [[]; [LF]; [CR]; [CR; LF]].

(** A line as [splitlines] yields it. *)
Definition line_shape (line : bytes) : Prop :=
  exists content eol, line = (content ++ eol)%list /\ eol ∈ eols /\ Forall (fun b => is_eol b = false) content.

Lemma is_eol_false (b : byte) : is_eol b = false <-> b <> LF /\ b <> CR.
Proof. unfold is_eol. rewrite orb_false_iff, !bool_decide_eq_false. done. Qed.

Lemma splitlines_shape (s line : bytes) : line ∈ splitlines s -> line_shape line.
Proof.
  assert (Hone : forall b, is_eol b = true -> line_shape [b]).
  { intros b Hb. exists [], [b]. split_and!; [done| |constructor]. unfold is_eol in Hb.
    repeat case_bool_decide; subst; try done; unfold eols; set_solver. }
  revert line. remember (List.length s) as n eqn:Hn. revert s Hn.
  induction (lt_wf n) as [n _ IH]. intros [|b s] -> line; [by intros ?%not_elem_of_nil|]. cbn [splitlines].
  case_bool_decide as H1; [|case_bool_decide as H2].
  - intros [->|H]%elem_of_cons; [apply Hone; by subst|]. eapply IH; [|done..|exact H]. cbn; lia.
  - destruct s as [|c s]; [intros ->%list_elem_of_singleton; apply Hone; by subst|]. case_bool_decide as H3.
    + intros [->|H]%elem_of_cons; [|eapply IH; [|done..|exact H]; cbn; lia].
      exists [], [b; c]. subst. split_and!; [done| |constructor]. unfold eols. set_solver.
    + intros [->|H]%elem_of_cons; [apply Hone; by subst|]. eapply IH; [|done..|exact H]. cbn; lia.
  - assert (Hb : is_eol b = false) by by apply is_eol_false.
    specialize (IH (List.length s) ltac:(cbn; lia) s eq_refl). destruct (splitlines s) as [|l ls].
    + intros ->%list_elem_of_singleton. exists [b], []. split_and!; [done|unfold eols; set_solver|by constructor].
    + intros [->|H]%elem_of_cons; [|apply IH; by right].
      destruct (IH l ltac:(left)) as (content & eol & -> & He & Hc). exists (b :: content), eol. split_and!; [done..|by constructor].
Qed.

Lemma trim_end_app {A} (f : A -> bool) (l k : list A) :
  Forall (fun x => f x = true) k -> Forall (fun x => f x = false) l -> trim_end f (l ++ k) = l.
Proof.
  intros Hk. induction l as [|x l IH]; intros Hl.
  - cbn. induction Hk as [|y k Hy Hk IH]; [done|]. cbn. by rewrite IH, Hy.
  - apply Forall_cons in Hl as [Hx Hl]. cbn. rewrite IH by done. destruct l; [by rewrite Hx|done].
Qed.

Lemma trim_end_split {A} (f : A -> bool) (l : list A) :
  exists k, l = (trim_end f l ++ k)%list /\ Forall (fun x => f x = true) k.
Proof.
  induction l as [|x l (k & E & Hk)]; [by exists []|]. cbn. destruct (trim_end f l) as [|y t].
  - destruct (f x) eqn:Ef; [exists (x :: k)|exists k]; cbn in *; subst; auto.
  - exists k. cbn in *. by rewrite <- E.
Qed.

Lemma line_content (content eol : bytes) :
  eol ∈ eols -> Forall (fun b => is_eol b = false) content -> trim_end is_eol (content ++ eol) = content.
Proof.
  intros He. apply trim_end_app. unfold eols in He.
  repeat (apply elem_of_cons in He as [->|He]; [repeat constructor|]). by apply not_elem_of_nil in He.
Qed.

(** ** Gathering records *)

Section Gather.
Context (c : TextFormatConstraint) (start : byte).

Definition nonblank (line : bytes) : Prop := trim_end is_eol line <> [].
#[export] Instance nonblank_dec line : Decision (nonblank line).
Proof. unfold nonblank. apply _. Defined.

Definition starts (line : bytes) : Prop := head (trim_end is_eol line) = Some start.

Lemma gather_nonblank (lines : list bytes) (seen : bool) (acc : list bytes) :
  gather c start lines seen acc = gather c start (filter nonblank lines) seen acc.
Proof.
  revert seen acc. induction lines as [|l lines IH]; intros seen acc; [done|]. rewrite filter_cons.
  destruct (decide (nonblank l)) as [H|H]; cbn [gather].
  - destruct (trim_end is_eol l) as [|b t]; [done|]. by rewrite !IH.
  - unfold nonblank in H. apply dec_stable in H. rewrite H. apply IH.
Qed.

Lemma gather_step (l : bytes) (lines : list bytes) (seen : bool) (acc : list bytes) :
  nonblank l ->
  gather c start (l :: lines) seen acc =
    if decide (starts l) then
      if c.(min_first_block_records) <=? zlen (acc ++ [l]) then Some (acc ++ [l])%list
      else gather c start lines true (acc ++ [l])
    else if seen then Some acc
    else if bool_decide (c.(first_line_must_match) = record_start) then None
    else gather c start lines seen acc.
Proof.
  intros H. unfold nonblank, starts in *. cbn [gather]. destruct (trim_end is_eol l) as [|b t]; [done|]. cbn [head].
  case_bool_decide as Hb; [rewrite decide_True by congruence|rewrite decide_False by congruence]; done.
Qed.

(** Once a record was seen, the run goes on. *)
Lemma gather_run (lines acc recs : list bytes) :
  Forall nonblank lines -> zlen acc < c.(min_first_block_records) -> c.(min_first_block_records) <= zlen recs ->
  gather c start lines true acc = Some recs <->
  exists run post, lines = (run ++ post)%list /\ recs = (acc ++ run)%list /\ Forall starts run /\
    zlen recs = c.(min_first_block_records).
Proof.
  intros Hl. revert acc. induction Hl as [|l lines Hn Hl IH]; intros acc Ha Hr.
  { cbn [gather]. split; [intros [= <-]; lia|]. intros (run & post & E & -> & _ & Hz).
    symmetry in E. apply app_nil in E as [-> ->]. rewrite app_nil_r in Hz. lia. }
  rewrite gather_step by done. case_decide as Hs.
  - destruct (Z.leb_spec c.(min_first_block_records) (zlen (acc ++ [l]))) as [Hm|Hm].
    + rewrite zlen_app in Hm. change (zlen [l]) with 1 in Hm. split.
      * intros [= <-]. exists [l], lines. rewrite zlen_app. change (zlen [l]) with 1. split_and!; try done; [by constructor|lia].
      * intros ([|x run] & post & E & -> & Hst & Hz); [rewrite app_nil_r in Hz; lia|]. injection E as <- E.
        rewrite zlen_app, zlen_cons in Hz. pose proof (zlen_nonneg run). destruct run; [done|].
        rewrite zlen_cons in Hz. pose proof (zlen_nonneg run). lia.
    + rewrite IH by done. split.
      * intros (run & post & -> & -> & Hst & Hz). exists (l :: run), post. rewrite <- app_assoc in *.
        split_and!; try done. by constructor.
      * intros ([|x run] & post & E & -> & Hst & Hz); [rewrite app_nil_r in Hz; lia|]. injection E as <- E.
        exists run, post. rewrite <- app_assoc. apply Forall_cons in Hst as [_ Hst]. by split_and!.
  - split; [intros [= <-]; lia|]. intros ([|x run] & post & E & -> & Hst & Hz); [rewrite app_nil_r in Hz; lia|].
    injection E as <- E. by apply Forall_cons in Hst as [? _].
Qed.

Lemma gather_spec (lines recs : list bytes) :
  Forall nonblank lines -> 1 <= c.(min_first_block_records) -> c.(min_first_block_records) <= zlen recs ->
  gather c start lines false [] = Some recs <->
  exists pre post, lines = (pre ++ recs ++ post)%list /\ Forall (fun l => ~ starts l) pre /\
    (c.(first_line_must_match) = record_start -> pre = []) /\ Forall starts recs /\
    zlen recs = c.(min_first_block_records).
Proof.
  intros Hl Hm Hr. induction Hl as [|l lines Hn Hl IH].
  { cbn [gather]. split; [intros [= <-]; unfold zlen in Hr; cbn in Hr; lia|]. intros (pre & post & E & _ & _ & _ & Hz).
    symmetry in E. apply app_nil in E as [-> E]. apply app_nil in E as [-> ->]. unfold zlen in Hr; cbn in Hr; lia. }
  assert (Hne : recs <> []) by (intros ->; unfold zlen in Hr; cbn in Hr; lia).
  rewrite gather_step by done. cbn [app]. case_decide as Hs.
  - assert (Hall : (exists run post, l :: lines = (run ++ post)%list /\ recs = run /\ Forall starts run /\
        zlen recs = c.(min_first_block_records)) <->
      (exists pre post, l :: lines = (pre ++ recs ++ post)%list /\ Forall (fun l => ~ starts l) pre /\
        (c.(first_line_must_match) = record_start -> pre = []) /\ Forall starts recs /\
        zlen recs = c.(min_first_block_records))).
    { split.
      - intros (run & post & E & -> & H1 & H2). by exists [], post.
      - intros ([|x pre] & post & E & H1 & _ & H2 & H3); [by exists recs, post|].
        injection E as <- E. by apply Forall_cons in H1 as [? _]. }
    rewrite <- Hall. destruct (Z.leb_spec c.(min_first_block_records) (zlen [l])) as [H1|H1].
    + change (zlen [l]) with 1 in H1. split.
      * intros [= <-]. exists [l], lines. change (zlen [l]) with 1. split_and!; try done; [by constructor|lia].
      * intros (run & post & E & -> & _ & Hz). destruct run as [|x [|y run]]; [done|by injection E as -> ->|].
        rewrite !zlen_cons in Hz. pose proof (zlen_nonneg run). lia.
    + rewrite gather_run by done. split.
      * intros (run & post & -> & -> & H2 & H3). exists (l :: run), post. split_and!; try done. by constructor.
      * intros ([|x run] & post & E & -> & H2 & H3); [done|]. injection E as <- E.
        apply Forall_cons in H2 as [_ H2]. by exists run, post.
  - case_bool_decide as Hf.
    + split; [done|]. intros (pre & post & E & H1 & H2 & H3 & _). rewrite (H2 Hf) in E.
      destruct recs as [|x recs]; [done|]. injection E as <- E. by apply Forall_cons in H3 as [? _].
    + rewrite IH. split.
      * intros (pre & post & -> & H1 & H2 & H3). exists (l :: pre), post. split_and!; [done|by constructor|done|apply H3..].
      * intros ([|x pre] & post & E & H1 & H2 & H3 & H4).
        { destruct recs as [|x recs]; [done|]. injection E as <- E. by apply Forall_cons in H3 as [? _]. }
        injection E as <- E. apply Forall_cons in H1 as [_ H1]. by exists pre, post.
Qed.
End Gather.

(** ** Records *)

Definition all_eol (l : bytes) : Prop := Forall (fun b => is_eol b = true) l.
Definition no_eol (l : bytes) : Prop := Forall (fun b => is_eol b = false) l.

Lemma no_all_eol (l : bytes) : no_eol l -> all_eol l -> l = [].
Proof. destruct 1 as [|b l Hb]; [done|]. intros [Hb' _]%Forall_cons. congruence. Qed.

Lemma eols_all (eol : bytes) : eol ∈ eols -> all_eol eol.
Proof.
  unfold eols. intros He. repeat (apply elem_of_cons in He as [->|He]; [repeat constructor|]). by apply not_elem_of_nil in He.
Qed.

(** A line has one content and one end. *)
Lemma line_unique (a b x y : bytes) :
  no_eol a -> no_eol b -> all_eol x -> all_eol y -> (a ++ x = b ++ y)%list -> a = b /\ x = y.
Proof.
  intros Ha Hb Hx Hy E. apply app_eq_inv in E as [(k & -> & ->)|(k & -> & ->)].
  - apply Forall_app in Ha as [_ Hk], Hy as [Hk' _]. rewrite (no_all_eol k Hk Hk'). by rewrite app_nil_r.
  - apply Forall_app in Hb as [_ Hk], Hx as [Hk' _]. rewrite (no_all_eol k Hk Hk'). by rewrite app_nil_r.
Qed.

Lemma bendswith_spec (s e : bytes) : bendswith s e = true <-> exists p, s = (p ++ e)%list.
Proof.
  unfold bendswith. rewrite andb_true_iff, bool_decide_eq_true, Z.leb_le. split.
  - intros [E Hl]. exists (take (Z.to_nat (zlen s - zlen e)) s). rewrite <- E at 2. rewrite zdrop_eq. by rewrite take_drop.
  - intros [p ->]. rewrite zlen_app. pose proof (zlen_nonneg p). split; [|lia].
    rewrite zdrop_eq. replace (Z.to_nat (zlen p + zlen e - zlen e)) with (List.length p) by (unfold zlen; lia).
    by rewrite drop_app_length.
Qed.

Lemma bendswith_line (content eol t : bytes) :
  no_eol content -> all_eol t -> bendswith (content ++ eol) t = bendswith eol t.
Proof.
  intros Hc Ht. apply Bool.eq_iff_eq_true. rewrite !bendswith_spec. split.
  - intros [p E]. apply app_eq_inv in E as [(k & -> & ->)|(k & -> & ->)]; [|by exists k].
    apply Forall_app in Hc as [_ Hk], Ht as [Hk' _]. rewrite (no_all_eol k Hk Hk'). by exists [].
  - intros [p ->]. exists (content ++ p)%list. by rewrite app_assoc.
Qed.

Lemma cut_line (terms : list bytes) (content eol : bytes) :
  no_eol content -> Forall all_eol terms ->
  cut_terminator terms (content ++ eol) =
    ((content ++ (cut_terminator terms eol).1)%list, (cut_terminator terms eol).2).
Proof.
  intros Hc. induction 1 as [|t terms Ht Hts IH]; [done|]. cbn [cut_terminator]. rewrite bendswith_line by done.
  destruct (bendswith eol t) eqn:E; [|done]. cbn [fst snd]. f_equal. apply bendswith_spec in E as [p ->].
  rewrite !ztake_eq. pose proof (zlen_nonneg p). rewrite app_assoc.
  replace (zlen ((content ++ p) ++ t) - zlen t) with (zlen (content ++ p)) by (rewrite !zlen_app; lia).
  replace (zlen (p ++ t) - zlen t) with (zlen p) by (rewrite !zlen_app; lia).
  unfold zlen. rewrite !Nat2Z.id. by rewrite !take_app_length.
Qed.

(** The ends a record may have: a declared terminator, or none where [any] is declared or
    the record is the last of the block. *)
Definition end_ok (t : TextFormatLineTerminator) (last : bool) (eol : bytes) : Prop :=
  eol ∈ _TEXT_FORMAT_TERMINATORS t \/ (eol = [] /\ (t = any_terminator \/ last = true)).

Definition record_shape (c : TextFormatConstraint) (start : byte) (header : option bytes) (first last : bool)
    (line : bytes) : Prop :=
  exists body eol, line = (start :: body ++ eol)%list /\ body <> [] /\ end_ok c.(line_terminator) last eol /\
    c.(min_line_length) <= 1 + zlen body <= c.(max_line_length) /\
    Forall (fun b => b ∈ _TEXT_FORMAT_CHARSET_BYTES c.(charset)) body /\
    (first = true -> forall h, header = Some h -> exists rest, body = (h ++ rest)%list).

Lemma charset_no_eol (cs : TextFormatCharset) (l : bytes) :
  Forall (fun b => b ∈ _TEXT_FORMAT_CHARSET_BYTES cs) l -> no_eol l.
Proof.
  assert (H : forallb (fun b => negb (is_eol b)) (_TEXT_FORMAT_CHARSET_BYTES cs) = true) by (destruct cs; vm_compute; reflexivity).
  rewrite forallb_forall in H. intros Hl. eapply Forall_impl; [exact Hl|]. intros b Hb.
  apply negb_true_iff, H. by apply list_elem_of_In.
Qed.

Lemma terminators_eol (t : TextFormatLineTerminator) : Forall all_eol (_TEXT_FORMAT_TERMINATORS t).
Proof. destruct t; repeat constructor. Qed.

Lemma end_ok_eol (t : TextFormatLineTerminator) (last : bool) (eol : bytes) : end_ok t last eol -> all_eol eol.
Proof.
  intros [H|[-> _]]; [|constructor]. pose proof (terminators_eol t) as Ht. rewrite Forall_forall in Ht. by apply Ht.
Qed.

(** The test of the terminator, over the few ends there are. *)
Lemma end_ok_cut (t : TextFormatLineTerminator) (last : bool) (eol : bytes) :
  eol ∈ eols ->
  end_ok t last eol <->
  (cut_terminator (_TEXT_FORMAT_TERMINATORS t) eol).1 = [] /\
  (bool_decide (t = any_terminator) || negb (bool_decide ((cut_terminator (_TEXT_FORMAT_TERMINATORS t) eol).2 = [])) || last) = true.
Proof.
  unfold eols, end_ok. intros He.
  repeat (apply elem_of_cons in He as [->|He]; [destruct t, last; vm_compute cut_terminator; cbn; set_solver|]).
  by apply not_elem_of_nil in He.
Qed.

Lemma cut_rest_eol (t : TextFormatLineTerminator) (eol : bytes) :
  eol ∈ eols -> all_eol (cut_terminator (_TEXT_FORMAT_TERMINATORS t) eol).1.
Proof.
  unfold eols. intros He.
  repeat (apply elem_of_cons in He as [->|He]; [destruct t; vm_compute cut_terminator; repeat constructor|]).
  by apply not_elem_of_nil in He.
Qed.

Lemma header_ok (h : option bytes) (start : byte) (body : bytes) :
  opt_ok (fun h => (1 + zlen h <=? zlen (start :: body)) && bool_decide (zslice 1 (1 + zlen h) (start :: body) = h)) h = true <->
  forall p, h = Some p -> exists rest, body = (p ++ rest)%list.
Proof.
  destruct h as [p|]; cbn [opt_ok]; [|by split]. rewrite andb_true_iff, bool_decide_eq_true, zlen_cons, Z.leb_le.
  change (start :: body) with ([start] ++ body)%list. rewrite zslice_app_r by (unfold zlen; cbn; lia).
  change (zlen [start]) with 1. replace (1 + zlen p - 1) with (zlen p) by lia. change (1 - 1) with 0.
  unfold zslice. rewrite zdrop_eq, drop_0, Z.sub_0_r. split.
  - intros [_ E] q [= <-]. exists (drop (List.length p) body). rewrite ztake_eq in E. unfold zlen in E.
    rewrite Nat2Z.id in E. rewrite <- E at 1. by rewrite take_drop.
  - intros H. destruct (H p eq_refl) as [rest ->]. rewrite zlen_app. pose proof (zlen_nonneg rest). split; [lia|].
    rewrite ztake_eq. unfold zlen. rewrite Nat2Z.id. by rewrite take_app_length.
Qed.

Lemma record_ok_spec (c : TextFormatConstraint) (start : byte) (header : option bytes) (first last : bool) (line : bytes) :
  is_eol start = false -> line_shape line -> starts start line ->
  record_ok c start header first last line = true <-> record_shape c start header first last line.
Proof.
  intros Hstart (content & eol & -> & He & Hc) Hs. unfold starts in Hs. rewrite line_content in Hs by done.
  destruct content as [|b body]; [done|]. injection Hs as ->.
  unfold record_ok. rewrite cut_line by (done || apply terminators_eol).
  pose proof (end_ok_cut c.(line_terminator) last eol He) as Hend.
  pose proof (cut_rest_eol c.(line_terminator) eol He) as Hrest.
  destruct (cut_terminator _ eol) as [p t]. cbn [fst snd] in *. unfold in_range. rewrite !andb_true_iff, !Z.leb_le. split.
  - intros [[[Hterm Hlen] Hbody] Hhead]. cbn [app] in Hbody.
    assert (Hb : (body ++ p)%list <> [] /\ Forall (fun b => b ∈ _TEXT_FORMAT_CHARSET_BYTES c.(charset)) (body ++ p)%list).
    { destruct (body ++ p)%list as [|x l]; [done|]. apply andb_true_iff in Hbody as [_ Hbody].
      split; [done|]. apply Forall_forall. intros y Hy. rewrite forallb_forall in Hbody.
      apply list_elem_of_In in Hy. specialize (Hbody y Hy). by apply bool_decide_eq_true in Hbody. }
    destruct Hb as [Hne Hcs]. pose proof (charset_no_eol _ _ Hcs) as Hno. apply Forall_app in Hno as [_ Hno].
    rewrite (no_all_eol p Hno Hrest), app_nil_r in *. exists body, eol. cbn [app] in Hlen. rewrite zlen_cons in Hlen.
    split_and!; try done; [by apply Hend|lia..|]. intros ->. cbn [negb orb] in Hhead. by apply (header_ok header start).
  - intros (body' & eol' & E & Hne & Hend' & Hlen & Hcs & Hhead).
    assert (E2 : start :: body = start :: body' /\ eol = eol').
    { apply line_unique; try done.
      - constructor; [done|]. by apply charset_no_eol in Hcs.
      - by apply eols_all.
      - by apply end_ok_eol in Hend'. }
    destruct E2 as [[= <-] <-]. apply Hend in Hend' as [-> Hterm]. rewrite app_nil_r, zlen_cons.
    split_and!; [done|lia|lia| |].
    + destruct body as [|x l]; [done|]. rewrite bool_decide_eq_true_2 by done. cbn [andb].
      apply forallb_forall. intros y Hy%list_elem_of_In. apply bool_decide_eq_true. rewrite Forall_forall in Hcs. by apply Hcs.
    + destruct first; [|done]. cbn [negb orb]. rewrite <- (zlen_cons start). apply header_ok. by apply Hhead.
Qed.

(** ** Heads *)

(** The blank lines are those without content; white lines at the end are dropped first. *)
Lemma trim_lines (start : byte) (lines recs : list bytes) :
  bspace start = false -> recs <> [] -> Forall (starts start) recs ->
  let kept := trim_end (fun l => bool_decide (trim_end bspace l = [])) lines in
  forall pre, (exists post, filter nonblank lines = (pre ++ recs ++ post)%list) <->
              (exists post, filter nonblank kept = (pre ++ recs ++ post)%list).
Proof.
  intros Hsp Hne Hrecs kept pre. destruct (trim_end_split (fun l => bool_decide (trim_end bspace l = [])) lines) as (tail & E & Ht).
  fold kept in E. clearbody kept. subst lines. rewrite filter_app.
  assert (Hno : forall l, l ∈ filter nonblank tail -> ~ starts start l).
  { intros l [_ Hl]%list_elem_of_filter. rewrite Forall_forall in Ht. specialize (Ht l Hl).
    apply bool_decide_eq_true in Ht. unfold starts. destruct (trim_end_split bspace l) as (k & El & Hk).
    rewrite Ht in El. cbn in El. subst k. intros Hs.
    destruct (trim_end_split is_eol l) as (k & El & _). destruct (trim_end is_eol l) as [|b t]; [done|]. injection Hs as ->.
    rewrite El in Hk. apply Forall_cons in Hk as [Hk _]. congruence. }
  split; [|intros [post ->]; exists (post ++ filter nonblank tail)%list; by rewrite <- !app_assoc].
  intros [post H]. rewrite app_assoc in H. apply app_eq_inv in H as [(k & H & ->)|(k & H & Hk)].
  - exists k. by rewrite H, <- app_assoc.
  - destruct (exists_last Hne) as (recs' & r & ->). destruct k as [|x k] using rev_ind.
    + rewrite app_nil_r in H. exists []. by rewrite <- H, !app_nil_r.
    + exfalso. clear IHk. rewrite !app_assoc in H. apply app_inj_tail in H as [_ ->].
      apply (Hno x); [rewrite Hk; set_solver|]. rewrite Forall_forall in Hrecs. apply Hrecs. set_solver.
Qed.

(** What a head must look like.  [start] and the header are the decoded bytes of the
    constraint. *)
Definition record_stream (c : TextFormatConstraint) (start : byte) (header : option bytes) (head : bytes) : Prop :=
  exists pre recs post, filter nonblank (splitlines head) = (pre ++ recs ++ post)%list /\
    Forall (fun l => ~ starts start l) pre /\ (c.(first_line_must_match) = record_start -> pre = []) /\
    Forall (starts start) recs /\ zlen recs = c.(min_first_block_records) /\
    forall i line, recs !! i = Some line ->
      record_shape c start header (bool_decide (i = O)) (bool_decide (S i = List.length recs)) line.

(** The tail of the head, or that the blob goes on behind it. *)
Definition tail_ok (c : TextFormatConstraint) (head : bytes) (size : Z) : Prop :=
  exists term, pattern_bytes c.(terminator_record_hex) = Some term /\
    forall t, term = Some t -> zlen head < size \/ bcontains t (zdrop (zlen head - 256) head) = true.

Lemma terminator_ok_spec (c : TextFormatConstraint) (head : bytes) (size : Z) :
  terminator_ok c head size = true <-> tail_ok c head size.
Proof.
  unfold terminator_ok, tail_ok. destruct (pattern_bytes _) as [[t|]|].
  - rewrite orb_true_iff, Z.ltb_lt. split; [|intros (? & [= <-] & H); destruct (H t eq_refl); auto].
    intros H. eexists. split; [done|]. intros ? [= <-]. tauto.
  - split; [|done]. intros _. by eexists.
  - split; [done|]. by intros (? & ? & _).
Qed.

Lemma records_ok_spec (c : TextFormatConstraint) (start : byte) (header : option bytes) (recs : list bytes) :
  is_eol start = false -> Forall line_shape recs -> Forall (starts start) recs ->
  records_ok c start header recs = true <->
  forall i line, recs !! i = Some line ->
    record_shape c start header (bool_decide (i = O)) (bool_decide (S i = List.length recs)) line.
Proof.
  intros Hs Hshape Hst. unfold records_ok. rewrite forallb_forall. rewrite Forall_lookup in Hshape, Hst.
  assert (Hrec : forall i line, recs !! i = Some line ->
    record_ok c start header (i =? 0)%nat (S i =? List.length recs)%nat line = true <->
    record_shape c start header (bool_decide (i = O)) (bool_decide (S i = List.length recs)) line).
  { intros i line Hi. rewrite record_ok_spec by eauto.
    replace (i =? 0)%nat with (bool_decide (i = O)) by (apply Bool.eq_iff_eq_true; by rewrite bool_decide_eq_true, Nat.eqb_eq).
    replace (S i =? List.length recs)%nat with (bool_decide (S i = List.length recs))
      by (apply Bool.eq_iff_eq_true; by rewrite bool_decide_eq_true, Nat.eqb_eq). done. }
  split.
  - intros H i line Hi. apply Hrec; [done|]. apply (H _). apply list_elem_of_In, list_elem_of_lookup. exists i.
    by rewrite list_lookup_imap, Hi.
  - intros H b (i & Hi)%list_elem_of_In%list_elem_of_lookup. rewrite list_lookup_imap in Hi.
    apply fmap_Some in Hi as (line & Hi & ->). apply Hrec; [done|]. by apply H.
Qed.

(** C16. The text-format evaluator decides the description of record streams: among the
    lines of the head that have content there is a run of the declared number of records,
    first of all when the constraint says so and otherwise behind lines that do not open
    like a record; each record is the start byte and a non-empty body over the declared
    characters, of the declared length, closed by a declared terminator (which only the last
    may lack), the first one with the declared header; and the terminator record occurs in
    the last 256 bytes unless the blob is longer than the head. *)
Theorem text_format_spec (s : DetectionSignal) (c : TextFormatConstraint) (start : byte) (header : option bytes)
    (head : bytes) (size : Z) :
  s.(text_format_constraint) = Some c -> text_format_ok c = true ->
  fromhex c.(record_start_byte_hex) = Some [start] -> pattern_bytes c.(header_pattern_hex) = Some header ->
  bspace start = false ->
  _eval_text_format s head size = true <-> record_stream c start header head /\ tail_ok c head size.
Proof.
  intros Hc Hok Hstart Hheader Hsp. unfold _eval_text_format. rewrite Hc, Hstart, Hheader.
  assert (Hm : 1 <= c.(min_first_block_records)) by (unfold text_format_ok, in_range in Hok; lia).
  assert (Heol : is_eol start = false).
  { apply is_eol_false. split; intros ->; vm_compute in Hsp; done. }
  set (f := fun l => bool_decide (trim_end bspace l = [])). set (kept := trim_end f (splitlines head)).
  assert (Hkept : forall recs, recs <> [] -> Forall (starts start) recs -> forall pre,
    (exists post, filter nonblank (splitlines head) = (pre ++ recs ++ post)%list) <->
    (exists post, filter nonblank kept = (pre ++ recs ++ post)%list)).
  { intros recs Hne Hst pre. by apply (trim_lines start). }
  assert (Hnb : Forall nonblank (filter nonblank kept)) by (apply Forall_forall; intros l Hl; by apply list_elem_of_filter in Hl as [? _]).
  assert (Hshape : forall l, l ∈ filter nonblank kept -> line_shape l).
  { intros l [_ Hl]%list_elem_of_filter. apply (splitlines_shape head).
    destruct (trim_end_split f (splitlines head)) as (k & -> & _). set_solver. }
  rewrite <- terminator_ok_spec.
  transitivity (exists recs, gather c start kept false [] = Some recs /\ c.(min_first_block_records) <= zlen recs /\
    records_ok c start header recs = true /\ terminator_ok c head size = true).
  { destruct kept as [|l kept'].
    - split; [done|]. intros (recs & [= <-] & Hr & _). unfold zlen in Hr. cbn in Hr. lia.
    - destruct (gather c start (l :: kept') false []) as [recs|].
      + rewrite !andb_true_iff, Z.leb_le. split; [intros [[H1 H2] H3]; by exists recs|]. by intros (? & [= <-] & H1 & H2 & H3).
      + split; [done|]. by intros (? & ? & _). }
  setoid_rewrite gather_nonblank. split.
  - intros (recs & Hg & Hr & Hrecs & Ht). split; [|done].
    apply (gather_spec c start _ recs Hnb Hm Hr) in Hg as (pre & post & E & H1 & H2 & H3 & H4).
    assert (Hne : recs <> []) by (intros ->; unfold zlen in Hr; cbn in Hr; lia).
    destruct (proj2 (Hkept recs Hne H3 pre) (ex_intro _ post E)) as [post' E'].
    exists pre, recs, post'. split_and!; try done. apply records_ok_spec; try done.
    apply Forall_forall. intros l Hl. apply Hshape. rewrite E. set_solver.
  - intros [(pre & recs & post & E & H1 & H2 & H3 & H4 & H5) Ht].
    assert (Hne : recs <> []) by (intros ->; unfold zlen in H4; cbn in H4; lia).
    destruct (proj1 (Hkept recs Hne H3 pre) (ex_intro _ post E)) as [post' E'].
    exists recs. split_and!; try done; [|lia|].
    + apply gather_spec; try done; [lia|]. by exists pre, post'.
    + apply records_ok_spec; try done. apply Forall_forall. intros l Hl. apply Hshape. rewrite E'. set_solver.
Qed.

(** A short stream of S-records. *)
Definition srec_head : bytes :=
  (bs "S00600004844521B" ++ [CR; LF] ++ [CR; LF] ++ bs "S1051000AABB89" ++ [LF] ++ bs "S1051002CCDD41" ++ [CR; LF] ++
   bs "S9031000EC" ++ [LF] ++ bs "   ")%list.

Lemma text_format_spec_witness : record_stream srec_constraint Byte.x53 None srec_head /\ tail_ok srec_constraint srec_head 80.
Proof.
  apply (text_format_spec (text_signal srec_constraint) srec_constraint Byte.x53 None srec_head 80); vm_compute; reflexivity.
Defined.

(** One character outside the set, a record too short, or a first line of another kind. *)
Example text_format_ex :
  let eval head := _eval_text_format (text_signal srec_constraint) head 80 in
  eval (bs "S00600004844521X" ++ [LF] ++ srec_head)%list = false /\
  eval (bs "S006" ++ [LF] ++ srec_head)%list = false /\
  eval (bs "; made by tool" ++ [LF] ++ srec_head)%list = false.
Proof. by vm_compute. Qed.
