(* ===== verification/FormatPlugins.v ===== *)
(** * Plugins of the format resolver ([services/file_format_catalog/resolver.py, plugins/])

    The registry and the bundled RTOS plugin, what the registry guarantees, and what the
    plugin's verdict does to the shipped manifests. *)

From S2P Require Import Prelude PyText PosixPath Json Sorting ManifestLib FormatSchema FormatData FormatResolver.
From Stdlib Require Import Ascii String SpecFloat.
Import (notations) Ascii String.
#[local] Open Scope Z_scope.

(** ** The bundled plugin *)

Definition NAME : string := "rtos_detection_default".
Definition COST_CLASS : Z := 3.

(** The dictionary [detect_rtos] returns, by the keys the plugin reads. *)
Record rtos_result := {
  rtos_name : option string;
  raw_confidence : option string;
  raw_version : option string;
  raw_metadata : option json
}.

(** [detect_rtos], which parses binaries with a third-party library, is a parameter. *)
Inductive rtos_answer := RtosRaises | RtosNone | RtosFound (r : rtos_result).

Definition confidence_of (raw : option string) : Confidence :=
  match raw with
  | Some "high" => conf_high
  | Some "low" => conf_low
  | _ => conf_medium
  end.

Definition default_detect (detect_rtos : string -> rtos_answer) (blob_head : bytes) (path : string) (size : Z) :
    detect_result :=
  if negb (truthy (Some path)) then NoDetection
  else match detect_rtos path with
       | RtosRaises | RtosNone => NoDetection
       | RtosFound r =>
           match r.(rtos_name) with
           | None | Some "" => NoDetection
           | Some family =>
               Detected {| rtos_family := family; rtos_confidence := confidence_of r.(raw_confidence);
                           rtos_version := r.(raw_version);
                           rtos_metadata := match r.(raw_metadata) with
                                            | Some m => if py_truthy m then Some m else None
                                            | None => None
                                            end |}
           end
       end.

Definition _DefaultRtosMatcher (detect_rtos : string -> rtos_answer) : MatcherProto :=
  {| cost_class := COST_CLASS; matcher_format_ids := ["rtos_blob"];
     rtos_families := ["zephyr"; "freertos"; "amazon-freertos"; "vxworks"; "threadx"; "qnx"; "ucos"; "ucos-ii";
                       "ucos-iii"; "safertos"];
     detect := default_detect detect_rtos |}.

(** [register] of the plugin. *)
Definition register (detect_rtos : string -> rtos_answer) (s : registry_state) : res registry_error registry_state :=
  if dict_has NAME s.(PLUGIN_REGISTRY) then Ok s else register_matcher s NAME (_DefaultRtosMatcher detect_rtos).

Definition register_default_plugins (detect_rtos : string -> rtos_answer) (freeze : bool) (s : registry_state) :
    registry_state :=
  let s := match register detect_rtos s with Ok s' => s' | Err _ => s end in
  if freeze then freeze_plugin_registry s else s.

(** ** The registry *)

(** The calls that change it. *)
Inductive registry_call :=
  | Register (name : string) (m : MatcherProto)
  | Defaults (detect_rtos : string -> rtos_answer) (freeze : bool)
  | Freeze | Unfreeze.

(** A call that raises leaves the registry as it was. *)
Definition apply_call (s : registry_state) (c : registry_call) : registry_state :=
  match c with
  | Register name m => match register_matcher s name m with Ok s' => s' | Err _ => s end
  | Defaults d f => register_default_plugins d f s
  | Freeze => freeze_plugin_registry s
  | Unfreeze => _unfreeze_plugin_registry_for_tests s
  end.

Definition families_disjoint (plugins : registry) : Prop :=
  forall n n' m m' f, dict_get n plugins = Some m -> dict_get n' plugins = Some m' ->
    f ∈ m.(rtos_families) -> f ∈ m'.(rtos_families) -> n = n'.

Lemma a7_free (plugins : registry) (name : string) (m : MatcherProto) :
  _a7_namespace_collision_check plugins name m = false ->
  forall n p f, dict_get n plugins = Some p -> n <> name -> f ∈ m.(rtos_families) -> f ∈ p.(rtos_families) -> False.
Proof.
  intros H n p f Hn Hne Hf Hp. apply not_true_iff_false in H. apply H. unfold _a7_namespace_collision_check.
  apply existsb_exists. exists (n, p). split; [by apply list_elem_of_In, dict_get_elem|]. cbn [fst snd].
  rewrite bool_decide_eq_false_2 by done. cbn [negb andb]. apply existsb_exists. exists f.
  split; [by apply list_elem_of_In|by apply bool_decide_eq_true].
Qed.

Lemma register_matcher_disjoint (s s' : registry_state) (name : string) (m : MatcherProto) :
  register_matcher s name m = Ok s' -> families_disjoint s.(PLUGIN_REGISTRY) -> families_disjoint s'.(PLUGIN_REGISTRY).
Proof.
  unfold register_matcher. destruct (_PLUGIN_REGISTRY_FROZEN s); [done|].
  destruct (_a7_namespace_collision_check _ _ _) eqn:E; [done|]. intros [= <-] H n n' p p' f. cbn [PLUGIN_REGISTRY].
  pose proof (a7_free _ _ _ E) as Hfree.
  destruct (decide (n = name)) as [->|Hn], (decide (n' = name)) as [->|Hn']; [done|..];
    rewrite ?dict_get_set_eq, ?dict_get_set_ne by done.
  - intros [= <-] Hp' Hf Hf'. exfalso. by eapply Hfree.
  - intros Hp [= <-] Hf Hf'. exfalso. by eapply Hfree.
  - apply H.
Qed.

Lemma apply_call_disjoint (s : registry_state) (c : registry_call) :
  families_disjoint s.(PLUGIN_REGISTRY) -> families_disjoint (apply_call s c).(PLUGIN_REGISTRY).
Proof.
  intros H.
  assert (Hreg : forall name m, families_disjoint
    (match register_matcher s name m with Ok s' => s' | Err _ => s end).(PLUGIN_REGISTRY)).
  { intros name m. destruct (register_matcher s name m) eqn:E; [|done]. by eapply register_matcher_disjoint. }
  destruct c as [name m|d f| |]; cbn [apply_call]; [apply Hreg| |done..].
  unfold register_default_plugins, register. destruct (dict_has _ _); [by destruct f|].
  specialize (Hreg NAME (_DefaultRtosMatcher d)). by destruct (register_matcher s NAME _), f.
Qed.

Lemma apply_call_frozen (s : registry_state) (c : registry_call) :
  c <> Unfreeze -> s.(_PLUGIN_REGISTRY_FROZEN) = true -> apply_call s c = s.
Proof.
  intros Hc Hf. destruct s as [r f]. cbn in Hf. subst f.
  destruct c as [name m|d f| |]; cbn [apply_call]; try done.
  unfold register_default_plugins, register. destruct (dict_has _ _); by destruct f.
Qed.

(** No sequence of calls ever gives two plugins of the registry a family in common, so
    that a family names at most one of them; and once the registry is frozen nothing but
    the hook of the tests changes it. *)
Theorem registry_disjoint (calls more : list registry_call) :
  let s := foldl apply_call no_plugins calls in
  families_disjoint s.(PLUGIN_REGISTRY) /\
  (Unfreeze ∉ more -> foldl apply_call (freeze_plugin_registry s) more = freeze_plugin_registry s).
Proof.
  intros s. split.
  - unfold s. assert (H : families_disjoint (PLUGIN_REGISTRY no_plugins)) by done. revert H.
    generalize no_plugins. induction calls as [|c calls IH]; intros t H; [done|]. by apply IH, apply_call_disjoint.
  - generalize s. induction more as [|c more IH]; intros t Hm; [done|]. rewrite not_elem_of_cons in Hm. destruct Hm as [Hc Hm].
    cbn [foldl]. rewrite apply_call_frozen by (done || congruence). by apply IH.
Qed.

Definition demo_matcher (families : list string) : MatcherProto :=
  {| cost_class := 0; matcher_format_ids := []; rtos_families := families; detect := fun _ _ _ => Verdict false |}.

Lemma registry_disjoint_witness :
  let calls := [Register "a" (demo_matcher ["zephyr"; "riot"]); Defaults (fun _ => RtosNone) false;
                Register "b" (demo_matcher ["riot"]); Register "b" (demo_matcher ["nuttx"])] in
  let s := foldl apply_call no_plugins calls in
  (PLUGIN_REGISTRY s).*1 = ["a"; "b"] /\ families_disjoint (PLUGIN_REGISTRY s) /\
  foldl apply_call (freeze_plugin_registry s) [Register "c" (demo_matcher []); Freeze] = freeze_plugin_registry s.
Proof.
  split; [vm_compute; reflexivity|].
  pose proof (registry_disjoint [Register "a" (demo_matcher ["zephyr"; "riot"]); Defaults (fun _ => RtosNone) false;
     Register "b" (demo_matcher ["riot"]); Register "b" (demo_matcher ["nuttx"])]
     [Register "c" (demo_matcher []); Freeze]) as [H1 H2].
  split; [exact H1|apply H2]. intros [H|[H|H]%elem_of_cons]%elem_of_cons; [discriminate..|by apply not_elem_of_nil in H].
Defined.

(** The sanitizer of family names lets a final newline through. *)
Example family_newline :
  _RTOS_FAMILY_SHAPE ("zephyr" +:+ String newline "") = true /\ _RTOS_FAMILY_SHAPE "zephyr;x" = false /\
  _RTOS_FAMILY_SHAPE "-x" = false /\ _RTOS_FAMILY_SHAPE "" = false.
Proof. by vm_compute. Qed.

(** ** An RTOS hit and the shipped manifests *)

Definition plugins (detect_rtos : string -> rtos_answer) : registry :=
  (register_default_plugins detect_rtos true no_plugins).(PLUGIN_REGISTRY).

(** A scan that recognises FreeRTOS. *)
Definition freertos_scan (p : string) : rtos_answer :=
  RtosFound {| rtos_name := Some "freertos"; raw_confidence := Some "high"; raw_version := None; raw_metadata := None |}.

Definition resolved (manifests : list FileFormatManifest) (plugins : registry) (head : bytes) (path : string) :
    option (string * ManifestSource) :=
  match resolve no_file no_zip plugins head path 4096 manifests with
  | Ok (Some r) => Some (r.(match_format_id), r.(match_manifest_source))
  | _ => None
  end.

Example sspm_ex :
  resolved shipped [] sspm_head "/x/sspm.img" = Some ("mtk_tinysys", src_core) /\
  resolved shipped (plugins freertos_scan) sspm_head "/x/sspm.img" = Some ("rtos_dispatch", src_system) /\
  resolved shipped (plugins (fun _ => RtosNone)) sspm_head "/x/sspm.img" = Some ("mtk_tinysys", src_core).
Proof. by vm_compute. Qed.

(** ** An RTOS hit outranks every other manifest *)

Lemma winner_beats (met : FileFormatManifest -> Prop) (manifests : list FileFormatManifest) (m x : FileFormatManifest) :
  winner met manifests m -> x ∈ manifests -> met x ->
  x = m \/ sort_key_le (_compute_sort_key m) (_compute_sort_key x).
Proof.
  intros (l1 & l2 & -> & _ & H1 & H2) Hx Hm. apply elem_of_app in Hx as [Hx|[->|Hx]%elem_of_cons]; [right|by left|right].
  - specialize (H1 x Hx Hm). apply outranks_key in H1.
    by destruct (total (lex Z.le (lex Z.le (lex Z.le (lex Z.le (lex String.le String.le)))))
                  (_compute_sort_key x) (_compute_sort_key m)).
  - apply dec_stable. intros H. by apply (H2 x Hx Hm), outranks_key.
Qed.

Lemma rtos_fires (isfile : string -> bool) (zip_names : string -> zip_listing) (detect_rtos : string -> rtos_answer)
    (blob_head : bytes) (path : string) (size : Z) (r : rtos_result) (family : string) :
  path <> "" -> detect_rtos path = RtosFound r -> r.(rtos_name) = Some family -> _RTOS_FAMILY_SHAPE family = true ->
  rule_met isfile zip_names (plugins detect_rtos) blob_head path size rtos_dispatch.(detection).
Proof.
  intros Hp Hr Hf Hs s ->%list_elem_of_singleton. unfold fires, SIGNAL_EVALUATORS. cbn [kind rtos_signal].
  unfold _eval_rtos_check. change (rtos_plugin_ref (rtos_signal "rtos_detection_default") ≫=
    (fun r0 => dict_get r0 (plugins detect_rtos))) with (Some (_DefaultRtosMatcher detect_rtos)).
  cbn [detect _DefaultRtosMatcher]. unfold default_detect. destruct path as [|a path]; [done|]. cbn [truthy negb].
  rewrite Hr, Hf. destruct family as [|b family]; [vm_compute in Hs; done|]. cbn [rtos_family]. by rewrite Hs.
Qed.

Lemma below_rtos_dispatch (m : FileFormatManifest) :
  manifest_ok m = true -> m.(detection).(sort_tier) = floor \/ m.(manifest_source) <> src_system ->
  ~ sort_key_le (_compute_sort_key m) (_compute_sort_key rtos_dispatch).
Proof.
  intros Hok Hm [H1 H2]. unfold _compute_sort_key in H1, H2. cbn [fst snd] in H1, H2.
  change (_TIER_RANK _) with 1 in H1 at 2. change (_TIER_RANK (sort_tier (detection rtos_dispatch))) with 1 in H2.
  assert (Ht : m.(manifest_source) <> src_system -> m.(detection).(sort_tier) = general).
  { intros Hs. unfold manifest_ok in Hok. rewrite !andb_true_iff in Hok. destruct Hok as [_ Hok].
    unfold _check_cross_field_invariants in Hok. rewrite !andb_true_iff in Hok.
    destruct Hok as [[_ Hok] _]. unfold is_system in Hok. rewrite (bool_decide_eq_false_2 _ Hs) in Hok.
    case_bool_decide as H; [done|]. by cbn in Hok. }
  destruct Hm as [Hm|Hm]; [rewrite Hm in H1; cbn in H1; lia|]. rewrite (Ht Hm) in H2.
  destruct (H2 ltac:(done)) as [H3 _]. cbn [fst] in H3. change (_SOURCE_PRECEDENCE (manifest_source rtos_dispatch)) with 100 in H3.
  destruct (m.(manifest_source)); cbn in H3; [done|lia..].
Qed.

Lemma rtos_hit_answer (isfile : string -> bool) (zip_names : string -> zip_listing) (detect_rtos : string -> rtos_answer)
    (blob_head : bytes) (path : string) (size : Z) (manifests : list FileFormatManifest) (r : rtos_result) (family : string) :
  Forall (fun m => manifest_ok m = true) manifests -> rtos_dispatch ∈ manifests ->
  (forall m, m ∈ manifests -> m = rtos_dispatch \/ m.(detection).(sort_tier) = floor \/ m.(manifest_source) <> src_system) ->
  (forall m, m ∈ manifests -> m.(format_id) ∉ rtos_dispatch.(dispatch).(cases).*2) ->
  path <> "" -> detect_rtos path = RtosFound r -> r.(rtos_name) = Some family -> _RTOS_FAMILY_SHAPE family = true ->
  exists a, resolve isfile zip_names (plugins detect_rtos) blob_head path size manifests = Ok (Some a) /\
    a.(match_format_id) = "rtos_dispatch" /\ a.(match_manifest_source) = src_system.
Proof.
  intros Hok Hin Hrank Hids Hp Hr Hf Hs.
  pose proof (resolve_cases isfile zip_names (plugins detect_rtos) blob_head path size manifests Hok) as H. cbn zeta in H.
  assert (Hmet : live rtos_dispatch = true /\
    rule_met isfile zip_names (plugins detect_rtos) blob_head path size rtos_dispatch.(detection))
    by (split; [done|by eapply rtos_fires]).
  assert (Hwin : forall m, winner (fun m => live m = true /\
      rule_met isfile zip_names (plugins detect_rtos) blob_head path size m.(detection)) manifests m -> m = rtos_dispatch).
  { intros m Hw. destruct (winner_met _ _ _ Hw) as [Hm _]. destruct (Hrank m Hm) as [->|Hlow]; [done|].
    destruct (winner_beats _ _ _ rtos_dispatch Hw Hin Hmet) as [<-|Hle]; [done|]. exfalso.
    rewrite Forall_forall in Hok. by apply (below_rtos_dispatch m (Hok m Hm) Hlow). }
  assert (Hroute : forall ctx ids t, route isfile zip_names blob_head path ctx manifests ids rtos_dispatch t -> t = rtos_dispatch).
  { intros ctx ids t Ht. inversion Ht as [|? id next ids' ? _ Htg Hnext]; subst; [done|]. exfalso.
    unfold snapshot_get in Hnext. apply find_some in Hnext as [Hn Hid%bool_decide_eq_true].
    apply (Hids next); [by apply list_elem_of_In|]. rewrite Hid. injection Htg as Htg. unfold _dispatch_by_rtos_family in Htg.
    destruct (ctx ≫= _) as [tg|] eqn:E; [|done]. injection Htg as ->. destruct ctx as [d|]; [|done]. cbn [mbind option_bind] in E.
    apply dict_get_elem in E. apply list_elem_of_fmap. by exists (rtos_family d, id). }
  destruct (resolve _ _ _ _ _ _ _) as [[a|]|[]].
  - destruct H as (m & ids & t & Hw & Hrt & _ & _ & Hid & Hsrc & _). rewrite (Hwin m Hw) in *. exists a. split; [done|].
    by rewrite Hid, Hsrc, (Hroute _ _ _ Hrt).
  - exfalso. by apply (H rtos_dispatch Hin).
  - exfalso. destruct H as (_ & m & ids & t & Hw & Hrt & Hk). rewrite (Hwin m Hw) in Hrt. apply Hroute in Hrt as ->. done.
  - exfalso. destruct H as (m & Hw & Hk). rewrite (Hwin m Hw) in Hk. done.
Qed.

(** A blob in which the bundled plugin recognises an RTOS is answered rtos_dispatch,
    whatever other manifests match it: of the manifests a deployment has, those of vendors
    and operators rank below the source of rtos_dispatch, the catch-all below its tier; and
    as long as no manifest has an identifier from its cases (none of the shipped ones does)
    the dispatch that was to name the family leads nowhere. *)
Theorem rtos_hit_shadows (isfile : string -> bool) (zip_names : string -> zip_listing) (detect_rtos : string -> rtos_answer)
    (blob_head : bytes) (path : string) (size : Z) (manifests : list FileFormatManifest) (r : rtos_result) (family : string) :
  Forall (fun m => manifest_ok m = true) manifests -> rtos_dispatch ∈ manifests ->
  (forall m, m ∈ manifests -> m = rtos_dispatch \/ m.(detection).(sort_tier) = floor \/ m.(manifest_source) <> src_system) ->
  (forall m, m ∈ manifests -> m.(format_id) ∉ rtos_dispatch.(dispatch).(cases).*2) ->
  path <> "" -> detect_rtos path = RtosFound r -> r.(rtos_name) = Some family -> _RTOS_FAMILY_SHAPE family = true ->
  exists a, resolve isfile zip_names (plugins detect_rtos) blob_head path size manifests = Ok (Some a) /\
    a.(match_format_id) = "rtos_dispatch" /\ a.(match_manifest_source) = src_system.
Proof. apply rtos_hit_answer. Qed.

(** The image that is mtk_tinysys without the plugin. *)
Lemma rtos_hit_shadows_witness :
  resolved [linux_blob_fallback; mtk_lk; mtk_tinysys; rtos_dispatch] [] sspm_head "/x/sspm.img" = Some ("mtk_tinysys", src_core) /\
  exists a, resolve no_file no_zip (plugins freertos_scan) sspm_head "/x/sspm.img" 4096
              [linux_blob_fallback; mtk_lk; mtk_tinysys; rtos_dispatch] = Ok (Some a) /\
    a.(match_format_id) = "rtos_dispatch" /\ a.(match_manifest_source) = src_system.
Proof.
  split; [vm_compute; reflexivity|]. eapply rtos_hit_shadows.
  - repeat constructor; vm_compute; reflexivity.
  - do 3 right. left.
  - intros m [->|[->|[->|[->|H]%elem_of_cons]%elem_of_cons]%elem_of_cons]%elem_of_cons.
    + right. left. reflexivity.
    + right. right. discriminate.
    + right. right. discriminate.
    + left. reflexivity.
    + by apply not_elem_of_nil in H.
  - intros m [->|[->|[->|[->|H]%elem_of_cons]%elem_of_cons]%elem_of_cons]%elem_of_cons.
    1-4: cbn -[elem_of]; rewrite !not_elem_of_cons; split_and!; [discriminate..|apply not_elem_of_nil].
    by apply not_elem_of_nil in H.
  - discriminate.
  - reflexivity.
  - reflexivity.
  - vm_compute. reflexivity.
Defined.

(** ** A catch-all of an operator *)

(** [always_matches] and the tier of the fallback are reserved to _system.  A weighted
    manifest with a threshold of zero needs neither. *)
Definition zero_threshold : FileFormatManifest :=
  simple_manifest "custom" "custom" src_operator 100 "other" "acme" conf_low
    {| combine := weighted; signals := [magic_signal 0 "00112233"]; min_confidence_score := Some (float_of_Z 0);
       catch_all := false; sort_tier := general |}
    no_dispatch_block "/data/file_formats.local/custom.yaml".

(** The schema keeps catch-all manifests to the _system tier, but it accepts an
    operator's weighted manifest with a threshold of zero, which matches every blob, whether
    its signals fire or not, and takes it from the fallback. *)
Theorem catch_all_bypass (isfile : string -> bool) (zip_names : string -> zip_listing) (plugins : registry)
    (blob_head : bytes) (path : string) (size : Z) :
  manifest_ok zero_threshold = true /\
  exists a, resolve isfile zip_names plugins blob_head path size [zero_threshold; linux_blob_fallback] = Ok (Some a) /\
    a.(match_format_id) = "custom" /\ a.(match_manifest_source) = src_operator.
Proof.
  split; [vm_compute; reflexivity|].
  unfold resolve. rewrite collect_spec. cbn [omap list_omap].
  unfold candidate_of, _evaluate_detection. rewrite !format_loop_spec.
  change (live zero_threshold) with true. change (live linux_blob_fallback) with true. cbv beta iota.
  change (sorted_signals (detection zero_threshold)) with [magic_signal 0 "00112233"].
  change (sorted_signals (detection linux_blob_fallback)) with [plain_signal always_matches].
  change (combine (detection zero_threshold)) with weighted. change (combine (detection linux_blob_fallback)) with any_signal.
  change (bool_decide (weighted = all_required)) with false. change (bool_decide (any_signal = all_required)) with false.
  cbn [evaluated foldl]. unfold add_signal.
  change (fires isfile zip_names plugins blob_head path size (plain_signal always_matches)) with true.
  destruct (fires isfile zip_names plugins blob_head path size (magic_signal 0 "00112233")); vm_compute; by eexists.
Qed.

(** The context variable outlives the manifest that set it: the weighted manifest does not
    match, but the family its plugin found routes the dispatch of the winner, which asks no
    plugin.  Without the losing manifest the winner answers for itself. *)
Example rtos_context_leak :
  let app := simple_manifest "zephyr_app" "zephyr_app" src_core 100 "mcu" "acme" conf_low
    (plain_detection all_required [filename_signal (Some ["nothing.bin"]) None]) no_dispatch_block "/f/app.yaml" in
  let probe := simple_manifest "probe" "probe" src_operator 100 "mcu" "acme" conf_low
    {| combine := weighted; signals := [rtos_signal NAME; filename_signal (Some ["nothing.bin"]) None];
       min_confidence_score := Some (float_of_Z 100); catch_all := false; sort_tier := general |}
    no_dispatch_block "/f/probe.yaml" in
  let router := simple_manifest "router" "router" src_operator 100 "mcu" "acme" conf_low
    (plain_detection all_required [filename_signal None (Some [".bin"])])
    {| dispatch_kind := by_rtos_family; cases := [("freertos", "zephyr_app")]; dispatch_default := None; depth_max := 2 |}
    "/f/router.yaml" in
  forallb manifest_ok [probe; router; app] = true /\
  resolved [probe; router; app] (plugins freertos_scan) sspm_head "/x/a.bin" = Some ("zephyr_app", src_operator) /\
  resolved [router; app] (plugins freertos_scan) sspm_head "/x/a.bin" = Some ("router", src_operator).
Proof. by vm_compute. Qed.
