(* ===== verification/FormatCatalog.v ===== *)
(** * File-format catalogue ([services/file_format_catalog/catalog.py], [snapshot.py])

    The cache of manifest files, refreshed one by one when their modification time changes,
    the passes that turn it into a catalogue (overlay modes, removed targets, colliding
    magics, expensive chains, tiers), and the cached snapshot.  Dictionaries are finite
    maps: the snapshot sorts what it takes from them.  Log calls, [last_warning] and the
    counters of the tests are left out. *)

From stdpp Require Import gmap.
From S2P Require Import Prelude PyText PosixPath Json Sorting ManifestLib FormatSchema FormatData FormatResolver.
From Stdlib Require Import Ascii String SpecFloat.
Import (notations) Ascii String.
#[local] Open Scope Z_scope.

Definition _AUTHORITY_FROM_SOURCE (s : ManifestSource) : VendorAuthority :=
  match s with
  | src_system | src_core => curated
  | src_operator | src_unauthenticated_external => operator_supplied
  | src_attested_external => external_attested
  end.

Definition derive_vendor_authority (m : FileFormatManifest) : VendorAuthority := _AUTHORITY_FROM_SOURCE m.(manifest_source).

Definition _EXPENSIVE_COST_CLASS_THRESHOLD : Z := _SIGNAL_COST_CLASS magic_bytes.

(** ** Files *)

(** What opening, reading and validating the types of one file gives.  Only the first of
    the failures is no [ValueError]. *)
Inductive yaml_doc := OpenError | Malformed | Doc (m : FileFormatManifest).

Inductive tree := SystemTree | LocalTree.

(** A path with the suffix .yaml that [rglob] yields: its text, its parts below the root,
    whether it is a regular file, its modification time ([None]: [stat] fails), its content. *)
Record yaml_file := {
  f_path : string;
  f_parts : list string;
  f_regular : bool;
  f_mtime : option Z;
  f_doc : yaml_doc
}.

(** The overlay is not below the bundled tree, so that a file belongs to the tree it was
    found in. *)
Definition _expected_source_for_path (t : tree) (parts : list string) : ManifestSource :=
  let first := head parts in
  match t with
  | SystemTree => if bool_decide (first = Some "_system") then src_system else src_core
  | LocalTree => if bool_decide (first = Some "_attested_external") then src_attested_external else src_operator
  end.

(** The two roots; [None]: no directory. *)
Record disk := { system_root : option (list yaml_file); local_root : option (list yaml_file) }.

Definition path_le (f g : yaml_file) : Prop := parts_leb f.(f_parts) g.(f_parts) = true.
#[export] Instance path_le_dec : RelDecision path_le.
Proof. intros f g. unfold path_le. apply _. Defined.

Definition hidden (f : yaml_file) : bool := startswith (List.last f.(f_parts) "") ".".

(** The files that [_walk_root] refreshes, in its order. *)
Definition walked (t : tree) (root : option (list yaml_file)) : list (tree * yaml_file) :=
  match root with
  | None => []
  | Some files => pair t <$> List.filter (fun f => f.(f_regular) && negb (hidden f)) (sort_by path_le files)
  end.

Definition all_walked (d : disk) : list (tree * yaml_file) :=
  (walked SystemTree d.(system_root) ++ walked LocalTree d.(local_root))%list.

(** ** The cache *)

Record snapshot := { manifests : list FileFormatManifest; snapshot_id : string; loaded_at_unix_ns : Z }.

(** [(format_id, source_path, mtime)] of every manifest. *)
Abbreviation cache_key := (list (string * (string * Z))).

Record catalog := {
  cache : gmap string (Z * FileFormatManifest);
  failed_mtime : gmap string Z;
  cached_snapshot : option snapshot;
  snapshot_cache_key : cache_key
}.

Definition new_catalog : catalog :=
  {| cache := ∅; failed_mtime := ∅; cached_snapshot := None; snapshot_cache_key := [] |}.

(** [model_copy(update={"source_path": str(path)})]. *)
Definition stamp (path : string) (m : FileFormatManifest) : FileFormatManifest :=
  {| format_id := m.(format_id); alias_of := m.(alias_of); mode := m.(mode); overrides := m.(overrides);
     manifest_source := m.(manifest_source); precedence := m.(precedence); tie_breakers := m.(tie_breakers);
     category := m.(category); vendor := m.(vendor); product := m.(product); confidence := m.(confidence);
     notes := m.(notes); detection := m.(detection); dispatch := m.(dispatch); refinement := m.(refinement);
     plugin := m.(plugin); output := m.(output); pre_upload := m.(pre_upload);
     external_manifests := m.(external_manifests); deprecation := m.(deprecation); provenance := m.(provenance);
     references := m.(references); source_path := Some path |}.

(** The manifest of a file that passes validation and the check of its tier. *)
Definition loaded (t : tree) (f : yaml_file) : option FileFormatManifest :=
  match f.(f_doc) with
  | Doc m =>
      if manifest_ok m && bool_decide (m.(manifest_source) = _expected_source_for_path t f.(f_parts))
      then Some (stamp f.(f_path) m) else None
  | _ => None
  end.

(** [true]: the call raises [OSError], which nothing catches. *)
Definition _refresh (st : catalog) (t : tree) (f : yaml_file) : catalog * bool :=
  match f.(f_mtime) with
  | None => (st, false)
  | Some mtime =>
      if bool_decide (st.(failed_mtime) !! f.(f_path) = Some mtime) then (st, false)
      else if bool_decide (fst <$> st.(cache) !! f.(f_path) = Some mtime) then (st, false)
      else
        match f.(f_doc), loaded t f with
        | OpenError, _ => (st, true)
        | _, Some m =>
            ({| cache := <[f.(f_path) := (mtime, m)]> st.(cache); failed_mtime := delete f.(f_path) st.(failed_mtime);
                cached_snapshot := None; snapshot_cache_key := st.(snapshot_cache_key) |}, false)
        | _, None =>
            ({| cache := st.(cache); failed_mtime := <[f.(f_path) := mtime]> st.(failed_mtime);
                cached_snapshot := None; snapshot_cache_key := st.(snapshot_cache_key) |}, false)
        end
  end.

(** The walk over both roots; an exception ends it and keeps what was refreshed. *)
Fixpoint refresh_all (st : catalog) (files : list (tree * yaml_file)) : catalog * bool :=
  match files with
  | [] => (st, false)
  | (t, f) :: files =>
      let '(st, raised) := _refresh st t f in
      if raised then (st, true) else refresh_all st files
  end.

(** The entries of files that vanished. *)
Definition drop_vanished (st : catalog) (paths : list string) : catalog :=
  {| cache := filter (fun kv => kv.1 ∈ paths) st.(cache); failed_mtime := filter (fun kv => kv.1 ∈ paths) st.(failed_mtime);
     cached_snapshot := st.(cached_snapshot); snapshot_cache_key := st.(snapshot_cache_key) |}.

(** ** The passes *)

Abbreviation by_id := (gmap string FileFormatManifest).

Definition source_rank (m : FileFormatManifest) : Z := _SOURCE_PRECEDENCE m.(manifest_source).

(** The order of the first pass: rank descending, then path. *)
Definition iter_key (e : string * (Z * FileFormatManifest)) : Z * string := (- source_rank e.2.2, e.1).

Definition iteration (c : gmap string (Z * FileFormatManifest)) : list FileFormatManifest :=
  (fun e : string * (Z * FileFormatManifest) => e.2.2) <$> sort_by (key_rel (lex Z.le String.le) iter_key) (map_to_list c).

Definition add_manifest (ids : by_id) (m : FileFormatManifest) : by_id :=
  match ids !! m.(format_id) with
  | None => <[m.(format_id) := m]> ids
  | Some existing =>
      match m.(mode) with
      | mode_new => ids
      | mode_override => if source_rank m <? source_rank existing then ids else <[m.(format_id) := m]> ids
      | mode_extend => <[m.(format_id) := m]> ids
      end
  end.

Definition first_pass (c : gmap string (Z * FileFormatManifest)) : by_id := foldl add_manifest ∅ (iteration c).

(** [cases.values()] and the default. *)
Definition targets_of (m : FileFormatManifest) : list string :=
  (m.(dispatch).(cases).*2 ++ match m.(dispatch).(dispatch_default) with
                              | Some (String _ _ as d) => [d]
                              | _ => []
                              end)%list.

Definition is_removed (m : FileFormatManifest) : bool := bool_decide (m.(deprecation).(status) = removed).

Definition removed_target (ids : by_id) (m : FileFormatManifest) : bool :=
  existsb (fun t => match ids !! t with Some target => is_removed target | None => false end) (targets_of m).

Definition pass_a3 (ids : by_id) : by_id := filter (fun kv => removed_target ids kv.2 = false) ids.

(** Precedence, offset and magic in lower case. *)
Abbreviation magic_key := (Z * Z * string)%type.

Definition magic_keys (m : FileFormatManifest) : list magic_key :=
  omap (fun s =>
    if bool_decide (s.(kind) = magic_bytes)
    then match s.(offset), s.(bytes_hex) with
         | Some off, Some hex => Some (m.(precedence), off, lower hex)
         | _, _ => None
         end
    else None) m.(detection).(signals).

Definition magic_index (ids : by_id) : list (magic_key * list string) :=
  grouped (e ← map_to_list ids; k ← magic_keys e.2; [(k, e.1)]).

(** [by_source] of one group: identifiers and vendors under their source. *)
Definition by_source (ids : by_id) (fmt_ids : list string) : list (ManifestSource * list (string * string)) :=
  grouped (omap (fun fid => (fun m => (m.(manifest_source), (fid, m.(vendor)))) <$> ids !! fid) fmt_ids).

Definition a4_drop (ids : by_id) : list string :=
  g ← magic_index ids;
  if zlen g.2 <? 2 then []
  else s ← by_source ids g.2; if 2 <=? zlen (remove_dups s.2.*2) then s.2.*1 else [].

Definition pass_a4 (ids : by_id) : by_id := filter (fun kv => kv.1 ∉ a4_drop ids) ids.

Section Plugins.
Context (plugins : registry).

Definition eager_expensive (m : FileFormatManifest) : bool :=
  match m.(plugin).(matcher) with
  | Some r =>
      bool_decide (r.(bind) = eager) &&
      match dict_get r.(ref) plugins with
      | Some p => _EXPENSIVE_COST_CLASS_THRESHOLD <=? p.(cost_class)
      | None => false
      end
  | None => false
  end.

(** The search along the dispatch targets; [None]: out of fuel. *)
Fixpoint chain_search (fuel : nat) (ids : by_id) (depth_limit : Z) (queue : list (string * Z)) (visited : list string) :
    option bool :=
  match fuel with
  | O => None
  | S fuel =>
      match queue with
      | [] => Some false
      | (target_id, depth) :: queue =>
          if bool_decide (target_id ∈ visited) || (depth_limit <? depth)
          then chain_search fuel ids depth_limit queue visited
          else
            let visited := target_id :: visited in
            match ids !! target_id with
            | None => chain_search fuel ids depth_limit queue visited
            | Some target =>
                if eager_expensive target then Some true
                else
                  let next := if bool_decide (target.(dispatch).(dispatch_kind) = no_dispatch) then []
                              else (fun t => (t, depth + 1)) <$> targets_of target in
                  chain_search fuel ids depth_limit (queue ++ next)%list visited
            end
      end
  end.

(** As many steps as there are dispatch targets in the catalogue. *)
Definition search_fuel (ids : by_id) (m : FileFormatManifest) : nat :=
  S (List.length (targets_of m) + sum_list_with (fun e => List.length (targets_of e.2)) (map_to_list ids)).

Definition chains_expensive (ids : by_id) (m : FileFormatManifest) : bool :=
  (2 <=? m.(dispatch).(depth_max)) &&
  default false (chain_search (search_fuel ids m) ids m.(dispatch).(depth_max) ((fun t => (t, 1)) <$> targets_of m) []).

Definition pass_a5 (ids : by_id) : by_id := filter (fun kv => chains_expensive ids kv.2 = false) ids.

(** The per-tier cap: the best by source, precedence and identifier stay. *)
Definition _SORT_TIER_MAX_CARDINALITY : list (SortTier * nat) := [(floor, 1%nat); (ceiling, 0%nat)].

Definition rank_key (e : string * FileFormatManifest) : Z * (Z * string) :=
  (- source_rank e.2, (e.2.(precedence), e.1)).

Definition tier_surplus (ids : by_id) (tier : SortTier) (max_count : nat) : list string :=
  let members := List.filter (fun e : string * FileFormatManifest => bool_decide (e.2.(detection).(sort_tier) = tier)) (map_to_list ids) in
  (drop max_count (sort_by (key_rel (lex Z.le (lex Z.le String.le)) rank_key) members)).*1.

Definition tier_pass (ids : by_id) : by_id :=
  filter (fun kv => kv.1 ∉ mjoin ((fun tc => tier_surplus ids tc.1 tc.2) <$> _SORT_TIER_MAX_CARDINALITY)) ids.

Definition _build_validated_catalog (c : gmap string (Z * FileFormatManifest)) : by_id :=
  tier_pass (pass_a5 (pass_a4 (pass_a3 (first_pass c)))).

(** ** The calls *)

(** The catalogue, unless the walk raised. *)
Definition get_catalog (st : catalog) (d : disk) : catalog * option by_id :=
  let '(st, raised) := refresh_all st (all_walked d) in
  if raised then (st, None)
  else
    let st := drop_vanished st ((fun e : tree * yaml_file => e.2.(f_path)) <$> all_walked d) in
    (st, Some (_build_validated_catalog st.(cache))).

Definition get_format (st : catalog) (d : disk) (id : string) : catalog * option (option FileFormatManifest) :=
  let '(st, r) := get_catalog st d in (st, (fun ids : by_id => ids !! id) <$> r).
End Plugins.

Section Snapshots.
(** The digest of the canonical JSON of the manifests. *)
Context (digest : list FileFormatManifest -> string).

Definition id_le : relation FileFormatManifest := key_rel String.le format_id.

Definition from_dict (ids : by_id) (loaded_at : Z) : snapshot :=
  let ms := sort_by id_le (map_to_list ids).*2 in
  {| manifests := ms; snapshot_id := digest ms; loaded_at_unix_ns := loaded_at |}.

Definition key_entry (c : gmap string (Z * FileFormatManifest)) (m : FileFormatManifest) : string * (string * Z) :=
  (m.(format_id), (default "" m.(source_path),
    match m.(source_path) with Some p => default 0 (fst <$> c !! p) | None => 0 end)).

Definition key_le : relation (string * (string * Z)) := lex String.le (lex String.le Z.le).

Definition compute_key (c : gmap string (Z * FileFormatManifest)) (ids : by_id) : cache_key :=
  sort_by key_le (key_entry c <$> (map_to_list ids).*2).

Definition get_snapshot (plugins : registry) (time_ns : Z) (st : catalog) (d : disk) : catalog * option snapshot :=
  let '(st, r) := get_catalog plugins st d in
  match r with
  | None => (st, None)
  | Some ids =>
      let key := compute_key st.(cache) ids in
      match st.(cached_snapshot) with
      | Some s =>
          if bool_decide (key = st.(snapshot_cache_key)) then (st, Some s)
          else let s := from_dict ids time_ns in
               ({| cache := st.(cache); failed_mtime := st.(failed_mtime); cached_snapshot := Some s;
                   snapshot_cache_key := key |}, Some s)
      | None =>
          let s := from_dict ids time_ns in
          ({| cache := st.(cache); failed_mtime := st.(failed_mtime); cached_snapshot := Some s;
              snapshot_cache_key := key |}, Some s)
      end
  end.
End Snapshots.

Definition cache_clear (st : catalog) : catalog := new_catalog.

(** ** The search along dispatch chains *)

Section Search.
Context (plugins : registry) (ids : by_id).
#[local] Abbreviation search := (chain_search plugins).

(** [linked m n t]: dispatch leads from [m] to the identifier [t] in [n] steps, through
    manifests of the catalogue. *)
Inductive linked (m : FileFormatManifest) : Z -> string -> Prop :=
  | linked_one t : t ∈ targets_of m -> linked m 1 t
  | linked_more n t mid t' :
      linked m n t -> ids !! t = Some mid -> mid.(dispatch).(dispatch_kind) <> no_dispatch ->
      t' ∈ targets_of mid -> linked m (n + 1) t'.

Definition children (m : FileFormatManifest) : list string :=
  if bool_decide (m.(dispatch).(dispatch_kind) = no_dispatch) then [] else targets_of m.

Lemma elem_of_children (m : FileFormatManifest) (t : string) :
  t ∈ children m <-> m.(dispatch).(dispatch_kind) <> no_dispatch /\ t ∈ targets_of m.
Proof.
  unfold children. case_bool_decide; [|naive_solver].
  split; [by intros ?%not_elem_of_nil|by intros [? _]].
Qed.

Lemma search_step (fuel : nat) (limit : Z) (t : string) (depth : Z) (queue : list (string * Z)) (visited : list string) :
  search (S fuel) ids limit ((t, depth) :: queue) visited =
    if bool_decide (t ∈ visited) || (limit <? depth) then search fuel ids limit queue visited
    else match ids !! t with
         | None => search fuel ids limit queue (t :: visited)
         | Some target =>
             if eager_expensive plugins target then Some true
             else search fuel ids limit (queue ++ ((fun c => (c, depth + 1)%Z) <$> children target))%list (t :: visited)
         end.
Proof.
  cbn [chain_search]. destruct (_ || _); [done|]. destruct (ids !! t) as [target|]; [|done].
  destruct (eager_expensive plugins target); [done|]. unfold children. by case_bool_decide.
Qed.

(** The targets of the manifests that were not visited yet. *)
Definition weight_of (visited : list string) (l : list (string * FileFormatManifest)) : nat :=
  sum_list_with (fun e => if decide (e.1 ∈ visited) then 0%nat else List.length (targets_of e.2)) l.

Lemma weight_of_nil (l : list (string * FileFormatManifest)) :
  weight_of [] l = sum_list_with (fun e => List.length (targets_of e.2)) l.
Proof.
  unfold weight_of. induction l as [|e l IH]; [done|]. cbn. rewrite IH.
  by rewrite decide_False by apply not_elem_of_nil.
Qed.

Lemma weight_of_visit (visited : list string) (l : list (string * FileFormatManifest)) (t : string) (m : FileFormatManifest) :
  NoDup l.*1 -> (t, m) ∈ l -> t ∉ visited ->
  (weight_of (t :: visited) l + List.length (targets_of m) = weight_of visited l)%nat.
Proof.
  intros Hnd Hin Ht. induction l as [|[t' m'] l IH]; [by apply not_elem_of_nil in Hin|].
  cbn in Hnd. apply NoDup_cons in Hnd as [Hk Hnd]. cbn.
  assert (Hsame : t ∉ l.*1 -> weight_of (t :: visited) l = weight_of visited l).
  { intros Hl. clear -Hl. induction l as [|[t2 m2] l IH]; [done|]. cbn in *. rewrite not_elem_of_cons in Hl. destruct Hl as [Hne Hl].
    unfold weight_of in IH. rewrite IH by done. f_equal. destruct (decide (t2 ∈ visited)) as [Hv|Hv].
    - by rewrite decide_True by by right.
    - rewrite decide_False; [done|]. intros [?|?]%elem_of_cons; [by subst|done]. }
  apply elem_of_cons in Hin as [[= <- <-]|Hin].
  - unfold weight_of in Hsame. rewrite Hsame by done. rewrite (decide_True (P := t ∈ t :: visited)) by left.
    rewrite (decide_False (P := t ∈ visited)) by done. lia.
  - unfold weight_of in IH. rewrite <- (IH Hnd Hin).
    assert (Hne : t' <> t) by (intros ->; apply Hk, list_elem_of_fmap; by exists (t, m)).
    destruct (decide (t' ∈ visited)) as [Hv|Hv].
    + rewrite (decide_True (P := t' ∈ t :: visited)) by by right. lia.
    + rewrite (decide_False (P := t' ∈ t :: visited)); [lia|]. intros [?|?]%elem_of_cons; done.
Qed.

Lemma weight_of_visit_le (visited : list string) (l : list (string * FileFormatManifest)) (t : string) :
  (weight_of (t :: visited) l <= weight_of visited l)%nat.
Proof.
  induction l as [|[t' m'] l IH]; [done|]. unfold weight_of in *. cbn.
  destruct (decide (t' ∈ visited)) as [Hv|Hv].
  - rewrite (decide_True (P := t' ∈ t :: visited)) by by right. lia.
  - destruct (decide (t' ∈ t :: visited)); lia.
Qed.

Lemma search_total (fuel : nat) (limit : Z) (queue : list (string * Z)) (visited : list string) :
  (List.length queue + weight_of visited (map_to_list ids) < fuel)%nat ->
  exists b, search fuel ids limit queue visited = Some b.
Proof.
  revert queue visited. induction fuel as [|fuel IH]; intros queue visited Hf; [lia|].
  destruct queue as [|[t depth] queue]; [by eexists|]. rewrite search_step. cbn [List.length] in Hf.
  destruct (_ || _) eqn:E; [apply IH; lia|]. apply orb_false_iff in E as [Hv%bool_decide_eq_false _].
  pose proof (weight_of_visit_le visited (map_to_list ids) t) as Hle.
  destruct (ids !! t) as [m|] eqn:Em; [|apply IH; lia]. destruct (eager_expensive plugins m); [by eexists|].
  pose proof (weight_of_visit visited (map_to_list ids) t m (NoDup_fst_map_to_list ids)
    (proj2 (elem_of_map_to_list ids t m) Em) Hv) as Hw.
  apply IH. rewrite List.length_app, length_fmap. unfold children. case_bool_decide; cbn [List.length]; lia.
Qed.

Lemma search_sound (m : FileFormatManifest) (limit : Z) (fuel : nat) (queue : list (string * Z)) (visited : list string) :
  (forall t d, (t, d) ∈ queue -> linked m d t) -> search fuel ids limit queue visited = Some true ->
  exists n t x, n <= limit /\ linked m n t /\ ids !! t = Some x /\ eager_expensive plugins x = true.
Proof.
  revert queue visited. induction fuel as [|fuel IH]; intros queue visited Hq; [done|].
  destruct queue as [|[t depth] queue]; [done|]. rewrite search_step.
  assert (Hq' : forall t d, (t, d) ∈ queue -> linked m d t) by (intros t' d Hin; apply Hq; by right).
  destruct (_ || _) eqn:E; [by apply IH|]. apply orb_false_iff in E as [_ Hd%Z.ltb_ge].
  destruct (ids !! t) as [x|] eqn:Ex; [|by apply IH]. destruct (eager_expensive plugins x) eqn:Ee.
  - intros _. exists depth, t, x. split_and!; [done|apply Hq; by left|done..].
  - apply IH. intros t' d [Hin|Hin]%elem_of_app; [by apply Hq'|].
    apply list_elem_of_fmap in Hin as (c & [= -> ->] & [Hk Hc]%elem_of_children).
    eapply linked_more; [apply Hq; by left|done..].
Qed.

(** A target is settled within [b] steps: it was visited, or it waits in the queue. *)
Definition settled (queue vis : list (string * Z)) (t : string) (b : Z) : Prop :=
  (exists d, (t, d) ∈ vis /\ d <= b) \/ (exists d, (t, d) ∈ queue /\ d <= b).

Record search_inv (m : FileFormatManifest) (limit k : Z) (queue vis : list (string * Z)) : Prop := {
  inv_sorted : StronglySorted (fun a b => a.2 <= b.2) queue;
  inv_window : forall x, x ∈ queue -> k <= x.2 <= k + 1;
  inv_visited : forall x, x ∈ vis -> x.2 <= k;
  inv_cheap : forall t d x, (t, d) ∈ vis -> ids !! t = Some x -> eager_expensive plugins x = false;
  inv_start : forall t, t ∈ targets_of m -> 1 <= limit -> settled queue vis t 1;
  inv_children : forall t d x c, (t, d) ∈ vis -> ids !! t = Some x -> c ∈ children x -> d + 1 <= limit ->
                   settled queue vis c (d + 1)
}.

Lemma settled_pop (t : string) (e : Z) (queue vis : list (string * Z)) (limit : Z) :
  (exists d, (t, d) ∈ vis /\ d <= e) \/ limit < e ->
  forall c b, b <= limit -> settled ((t, e) :: queue) vis c b -> settled queue vis c b.
Proof.
  intros Ht c b Hb [H|(d & Hd & Hle)]; [by left|]. apply elem_of_cons in Hd as [[= -> ->]|Hd]; [|right; by exists d].
  destruct Ht as [(d & Hd & Hde)|?]; [|lia]. left. exists d. split; [done|lia].
Qed.

Lemma inv_pop (m : FileFormatManifest) (limit k : Z) (t : string) (e : Z) (queue vis : list (string * Z)) :
  search_inv m limit k ((t, e) :: queue) vis -> t ∈ vis.*1 \/ limit < e -> search_inv m limit e queue vis.
Proof.
  intros [H1 H2 H3 H4 H5 H6] Ht. pose proof (H2 (t, e) ltac:(left)) as Hk. cbn in Hk.
  assert (Ht' : (exists d, (t, d) ∈ vis /\ d <= e) \/ limit < e).
  { destruct Ht as [Ht|?]; [left|by right]. apply list_elem_of_fmap in Ht as ([t' d] & -> & Hd). exists d.
    split; [done|]. specialize (H3 _ Hd). cbn in H3. lia. }
  apply StronglySorted_inv in H1 as [H1 Hs]. split; [done| | |done| |].
  - intros x Hx. rewrite Forall_forall in Hs. specialize (Hs x Hx). specialize (H2 x ltac:(by right)). cbn in Hs. lia.
  - intros x Hx. specialize (H3 x Hx). lia.
  - intros c Hc Hl. eapply settled_pop; [done..|]. by apply H5.
  - intros t' d x c Hv Hx Hc Hl. eapply settled_pop; [done..|]. by eapply H6.
Qed.

Lemma sorted_append (queue : list (string * Z)) (cs : list string) (e : Z) :
  StronglySorted (fun a b : string * Z => a.2 <= b.2) queue -> (forall x, x ∈ queue -> x.2 <= e) ->
  StronglySorted (fun a b : string * Z => a.2 <= b.2) (queue ++ ((fun c => (c, e)) <$> cs))%list.
Proof.
  intros Hs Hq. induction Hs as [|x l Hl IH Hx]; cbn [app].
  - induction cs as [|c cs IH]; [constructor|]. cbn. constructor; [done|]. apply Forall_forall.
    intros y (c' & -> & _)%list_elem_of_fmap. cbn. lia.
  - constructor; [apply IH; intros y Hy; apply Hq; by right|]. apply Forall_app. split; [done|].
    apply Forall_forall. intros y (c' & -> & _)%list_elem_of_fmap. cbn. apply Hq. by left.
Qed.

(** The children that a visit queues. *)
Definition queued (t : string) : list string :=
  match ids !! t with Some x => children x | None => [] end.

Lemma inv_visit (m : FileFormatManifest) (limit k : Z) (t : string) (e : Z) (queue vis : list (string * Z)) :
  search_inv m limit k ((t, e) :: queue) vis ->
  (forall x, ids !! t = Some x -> eager_expensive plugins x = false) ->
  search_inv m limit e (queue ++ ((fun c => (c, e + 1)%Z) <$> queued t))%list ((t, e) :: vis).
Proof.
  intros [H1 H2 H3 H4 H5 H6] Hx. pose proof (H2 (t, e) ltac:(left)) as Hk. cbn in Hk.
  apply StronglySorted_inv in H1 as [H1 Hs]. rewrite Forall_forall in Hs.
  assert (Hq : forall x, x ∈ queue -> e <= x.2 <= e + 1).
  { intros x Hin. specialize (Hs x Hin). specialize (H2 x ltac:(by right)). cbn in Hs. lia. }
  assert (Hold : forall c b, settled ((t, e) :: queue) vis c b ->
                   settled (queue ++ ((fun c => (c, e + 1)%Z) <$> queued t))%list ((t, e) :: vis) c b).
  { intros c b [(d & Hd & Hl)|(d & Hd & Hl)].
    - left. exists d. split; [by right|done].
    - apply elem_of_cons in Hd as [[= -> ->]|Hd]; [left; exists e; split; [by left|done]|].
      right. exists d. split; [apply elem_of_app; by left|done]. }
  split.
  - apply sorted_append; [done|]. intros x Hin. apply Hq in Hin. lia.
  - intros x [Hin|Hin]%elem_of_app; [by apply Hq|]. apply list_elem_of_fmap in Hin as (c & -> & _). cbn. lia.
  - intros x [->|Hin]%elem_of_cons; [cbn; lia|]. specialize (H3 x Hin). lia.
  - intros t' d x [[= -> ->]|Hin]%elem_of_cons; [apply Hx|by eapply H4].
  - intros c Hc Hl. apply Hold. by apply H5.
  - intros t' d x c [[= -> ->]|Hin]%elem_of_cons Hx' Hc Hl; [|apply Hold; by eapply H6].
    right. exists (e + 1). split; [|lia]. apply elem_of_app. right. apply list_elem_of_fmap. exists c.
    split; [done|]. unfold queued. by rewrite Hx'.
Qed.

Lemma search_inv_end (m : FileFormatManifest) (limit k : Z) (fuel : nat) (queue vis : list (string * Z)) :
  search_inv m limit k queue vis -> search fuel ids limit queue vis.*1 = Some false ->
  exists k' vis', search_inv m limit k' [] vis'.
Proof.
  revert k queue vis. induction fuel as [|fuel IH]; intros k queue vis Hi; [done|].
  destruct queue as [|[t e] queue]; [intros _; by exists k, vis|]. rewrite search_step.
  destruct (_ || _) eqn:E.
  { apply (IH e). eapply inv_pop; [done|]. apply orb_true_iff in E as [E|E]; [left; by apply bool_decide_eq_true in E|right; lia]. }
  destruct (ids !! t) as [x|] eqn:Ex.
  - destruct (eager_expensive plugins x) eqn:Ee; [done|]. change (t :: vis.*1) with ((t, e) :: vis).*1. apply (IH e).
    pose proof (inv_visit m limit k t e queue vis Hi) as H. unfold queued in H. rewrite Ex in H. apply H. by intros y [= <-].
  - change (t :: vis.*1) with ((t, e) :: vis).*1. apply (IH e).
    pose proof (inv_visit m limit k t e queue vis Hi) as H. unfold queued in H. rewrite Ex in H. cbn in H. rewrite app_nil_r in H.
    by apply H.
Qed.

Lemma search_complete (m : FileFormatManifest) (limit : Z) (fuel : nat) :
  search fuel ids limit ((fun t => (t, 1)) <$> targets_of m) [] = Some false ->
  forall n t x, linked m n t -> n <= limit -> ids !! t = Some x -> eager_expensive plugins x = false.
Proof.
  intros Hs.
  assert (Hi : search_inv m limit 1 ((fun t => (t, 1)) <$> targets_of m) []).
  { split.
    - apply (sorted_append [] (targets_of m) 1); [constructor|]. intros x Hx. by apply not_elem_of_nil in Hx.
    - intros x (c & -> & _)%list_elem_of_fmap. cbn. lia.
    - intros x Hx. by apply not_elem_of_nil in Hx.
    - intros t d x Hx. by apply not_elem_of_nil in Hx.
    - intros t Ht _. right. exists 1. split; [|done]. apply list_elem_of_fmap. by exists t.
    - intros t d x c Hx. by apply not_elem_of_nil in Hx. }
  destruct (search_inv_end m limit 1 fuel _ [] Hi Hs) as (k & vis & [_ _ _ H4 H5 H6]).
  assert (Hvis : forall n t, linked m n t -> n <= limit -> exists d, (t, d) ∈ vis /\ d <= n).
  { assert (Hset : forall t b, settled [] vis t b -> exists d, (t, d) ∈ vis /\ d <= b).
    { intros t b [H|(d & Hd & _)]; [done|by apply not_elem_of_nil in Hd]. }
    induction 1 as [t Ht|n t mid t' Hl IH Hmid Hk Ht']; intros Hn; apply Hset; [by apply H5|].
    destruct IH as (d & Hd & Hdn); [lia|]. destruct (H6 t d mid t' Hd Hmid) as [(d' & Hd' & ?)|(d' & Hd' & _)].
    - by apply elem_of_children.
    - lia.
    - left. exists d'. split; [done|lia].
    - by apply not_elem_of_nil in Hd'. }
  intros n t x Hl Hn Hx. destruct (Hvis n t Hl Hn) as (d & Hd & _). by eapply H4.
Qed.
End Search.

Lemma search_ends (plugins : registry) (ids : by_id) (m : FileFormatManifest) (limit : Z) :
  exists b, chain_search plugins (search_fuel ids m) ids limit ((fun t => (t, 1)) <$> targets_of m) [] = Some b.
Proof. apply search_total. unfold search_fuel. rewrite length_fmap, weight_of_nil. lia. Qed.

Lemma chains_expensive_aux (plugins : registry) (ids : by_id) (m : FileFormatManifest) :
  chains_expensive plugins ids m = true <->
  2 <= m.(dispatch).(depth_max) /\
  exists n t x, n <= m.(dispatch).(depth_max) /\ linked ids m n t /\ ids !! t = Some x /\ eager_expensive plugins x = true.
Proof.
  unfold chains_expensive. rewrite andb_true_iff, Z.leb_le.
  destruct (search_ends plugins ids m m.(dispatch).(depth_max)) as [b Hb]. rewrite Hb. change (default false (Some b)) with b.
  split; (intros [H2 H]; split; [done|]).
  - subst b. eapply search_sound; [|done]. intros t d (t' & [= -> ->] & Ht)%list_elem_of_fmap. by constructor.
  - destruct H as (n & t & x & Hn & Hl & Hx & He). destruct b; [done|].
    pose proof (search_complete plugins ids m _ _ Hb n t x Hl Hn Hx). congruence.
Qed.

(** The check of deep dispatch: within the fuel, which counts the dispatch targets of
    the catalogue, the breadth-first search always ends, and it condemns a manifest exactly
    when its chains are at least two steps deep and one of them leads, within that depth, to
    a manifest whose matcher is bound eagerly to a registered plugin of an expensive class. *)
Theorem chains_expensive_spec (plugins : registry) (ids : by_id) (m : FileFormatManifest) :
  (exists b, chain_search plugins (search_fuel ids m) ids m.(dispatch).(depth_max) ((fun t => (t, 1)) <$> targets_of m) [] = Some b) /\
  (chains_expensive plugins ids m = true <->
   2 <= m.(dispatch).(depth_max) /\
   exists n t x, n <= m.(dispatch).(depth_max) /\ linked ids m n t /\ ids !! t = Some x /\ eager_expensive plugins x = true).
Proof. split; [apply search_ends|apply chains_expensive_aux]. Qed.

(** ** The passes keep less and less *)

Lemma pass_a3_lookup (ids : by_id) (id : string) (m : FileFormatManifest) :
  pass_a3 ids !! id = Some m <-> ids !! id = Some m /\ removed_target ids m = false.
Proof. unfold pass_a3. by rewrite map_lookup_filter_Some. Qed.

Lemma pass_a4_lookup (ids : by_id) (id : string) (m : FileFormatManifest) :
  pass_a4 ids !! id = Some m <-> ids !! id = Some m /\ id ∉ a4_drop ids.
Proof. unfold pass_a4. by rewrite map_lookup_filter_Some. Qed.

Lemma pass_a5_lookup (plugins : registry) (ids : by_id) (id : string) (m : FileFormatManifest) :
  pass_a5 plugins ids !! id = Some m <-> ids !! id = Some m /\ chains_expensive plugins ids m = false.
Proof. unfold pass_a5. by rewrite map_lookup_filter_Some. Qed.

Lemma tier_pass_lookup (ids : by_id) (id : string) (m : FileFormatManifest) :
  tier_pass ids !! id = Some m <->
  ids !! id = Some m /\ id ∉ tier_surplus ids floor 1 /\ id ∉ tier_surplus ids ceiling 0.
Proof.
  unfold tier_pass. rewrite map_lookup_filter_Some. cbn [fst].
  change (mjoin ((fun tc : SortTier * nat => tier_surplus ids tc.1 tc.2) <$> _SORT_TIER_MAX_CARDINALITY))
    with (tier_surplus ids floor 1 ++ tier_surplus ids ceiling 0 ++ [])%list.
  rewrite app_nil_r, not_elem_of_app. tauto.
Qed.

Lemma removed_target_spec (ids : by_id) (m : FileFormatManifest) :
  removed_target ids m = false <-> forall t x, t ∈ targets_of m -> ids !! t = Some x -> is_removed x = false.
Proof.
  unfold removed_target. rewrite <- not_true_iff_false, existsb_exists. split.
  - intros H t x Ht Hx. apply not_true_is_false. intros Hr. apply H. exists t. rewrite <- list_elem_of_In. by rewrite Hx.
  - intros H (t & Ht & Hr). apply list_elem_of_In in Ht. destruct (ids !! t) as [x|] eqn:Hx; [|done]. by rewrite (H t x) in Hr.
Qed.

(** Two manifests of one source and two vendors that share a magic are both dropped. *)
Lemma a4_drop_spec (ids : by_id) (id id' : string) (m m' : FileFormatManifest) (k : magic_key) :
  ids !! id = Some m -> ids !! id' = Some m' -> k ∈ magic_keys m -> k ∈ magic_keys m' ->
  m.(manifest_source) = m'.(manifest_source) -> m.(vendor) <> m'.(vendor) -> id ∈ a4_drop ids.
Proof.
  intros Hm Hm' Hk Hk' Hs Hv.
  set (entries := e ← map_to_list ids; k ← magic_keys e.2; [(k, e.1)]).
  assert (Hin : forall i x, ids !! i = Some x -> k ∈ magic_keys x -> i ∈ members_of entries k).
  { intros i x Hi Hx. apply elem_of_members. unfold entries. apply list_elem_of_bind. exists (i, x).
    split; [|by apply elem_of_map_to_list]. apply list_elem_of_bind. exists k. split; [by apply list_elem_of_singleton|done]. }
  pose proof (Hin id m Hm Hk) as H1. pose proof (Hin id' m' Hm' Hk') as H2.
  assert (Hne : id <> id') by (intros ->; congruence).
  unfold a4_drop. apply list_elem_of_bind. exists (k, members_of entries k). split.
  2:{ unfold magic_index. fold entries. apply grouped_complete. intros E. rewrite E in H1. by apply not_elem_of_nil in H1. }
  cbn [snd]. assert (Hlen : (zlen (members_of entries k) <? 2) = false).
  { destruct (members_of entries k) as [|a [|b l]]; [by apply not_elem_of_nil in H1| |rewrite !zlen_cons; pose proof (zlen_nonneg l); lia].
    apply list_elem_of_singleton in H1, H2. congruence. }
  rewrite Hlen. set (fids := members_of entries k) in *. apply list_elem_of_bind.
  set (es := omap (fun fid => (fun m => (m.(manifest_source), (fid, m.(vendor)))) <$> ids !! fid) fids).
  assert (Hes : forall i x, ids !! i = Some x -> i ∈ fids -> (i, x.(vendor)) ∈ members_of es x.(manifest_source)).
  { intros i x Hi Hf. apply elem_of_members. unfold es. apply list_elem_of_omap. exists i. by rewrite Hi. }
  pose proof (Hes id m Hm H1) as E1. pose proof (Hes id' m' Hm' H2) as E2. rewrite <- Hs in E2.
  exists (m.(manifest_source), members_of es m.(manifest_source)). split.
  2:{ unfold by_source. fold es. apply grouped_complete. intros E. rewrite E in E1. by apply not_elem_of_nil in E1. }
  cbn [snd]. assert (Hv2 : (2 <=? zlen (remove_dups (members_of es (manifest_source m)).*2)) = true).
  { assert (V1 : m.(vendor) ∈ remove_dups (members_of es (manifest_source m)).*2)
      by (apply elem_of_remove_dups, list_elem_of_fmap; by exists (id, m.(vendor))).
    assert (V2 : m'.(vendor) ∈ remove_dups (members_of es (manifest_source m)).*2)
      by (apply elem_of_remove_dups, list_elem_of_fmap; by exists (id', m'.(vendor))).
    destruct (remove_dups _) as [|a [|b l]]; [by apply not_elem_of_nil in V1| |rewrite !zlen_cons; pose proof (zlen_nonneg l); lia].
    apply list_elem_of_singleton in V1, V2. congruence. }
  rewrite Hv2. apply list_elem_of_fmap. by exists (id, m.(vendor)).
Qed.

Lemma tier_members (ids : by_id) (tier : SortTier) (n : nat) (id : string) (m : FileFormatManifest) :
  ids !! id = Some m -> m.(detection).(sort_tier) = tier -> id ∉ tier_surplus ids tier n ->
  (id, m) ∈ take n (sort_by (key_rel (lex Z.le (lex Z.le String.le)) rank_key)
    (List.filter (fun e : string * FileFormatManifest => bool_decide (e.2.(detection).(sort_tier) = tier)) (map_to_list ids))).
Proof.
  intros Hm Ht Hn. unfold tier_surplus in Hn. set (l := sort_by _ _) in *.
  assert (Hin : (id, m) ∈ l).
  { unfold l. apply elem_of_sort_by, list_elem_of_In, List.filter_In. rewrite <- list_elem_of_In, elem_of_map_to_list.
    split; [done|]. by apply bool_decide_eq_true. }
  rewrite <- (take_drop n l) in Hin. apply elem_of_app in Hin as [Hin|Hin]; [done|]. exfalso. apply Hn.
  apply list_elem_of_fmap. by exists (id, m).
Qed.

Lemma no_ceiling (ids : by_id) (id : string) (m : FileFormatManifest) :
  tier_pass ids !! id = Some m -> m.(detection).(sort_tier) <> ceiling.
Proof.
  intros (Hm & _ & Hc)%tier_pass_lookup Ht. pose proof (tier_members ids ceiling 0 id m Hm Ht Hc) as H.
  by apply not_elem_of_nil in H.
Qed.

Lemma one_floor (ids : by_id) (id id' : string) (m m' : FileFormatManifest) :
  tier_pass ids !! id = Some m -> tier_pass ids !! id' = Some m' ->
  m.(detection).(sort_tier) = floor -> m'.(detection).(sort_tier) = floor -> id = id'.
Proof.
  intros (Hm & Hf & _)%tier_pass_lookup (Hm' & Hf' & _)%tier_pass_lookup Ht Ht'.
  pose proof (tier_members ids floor 1 id m Hm Ht Hf) as H. pose proof (tier_members ids floor 1 id' m' Hm' Ht' Hf') as H'.
  destruct (sort_by _ _) as [|a l]; [by apply not_elem_of_nil in H|]. apply list_elem_of_singleton in H, H'. congruence.
Qed.

(** Whatever [linked] reaches in a smaller catalogue it reaches in a larger one. *)
Lemma linked_subset (ids ids' : by_id) (m : FileFormatManifest) (n : Z) (t : string) :
  (forall i x, ids !! i = Some x -> ids' !! i = Some x) -> linked ids m n t -> linked ids' m n t.
Proof. intros H. induction 1; [by constructor|]. eapply linked_more; eauto. Qed.

(** *** The first pass *)

Lemma add_manifest_elem (ids : by_id) (m : FileFormatManifest) (id : string) (x : FileFormatManifest) :
  add_manifest ids m !! id = Some x -> ids !! id = Some x \/ (x = m /\ id = m.(format_id)).
Proof.
  unfold add_manifest.
  assert (Hins : <[m.(format_id) := m]> ids !! id = Some x -> ids !! id = Some x \/ (x = m /\ id = m.(format_id))).
  { intros [[<- <-]|[_ H]]%lookup_insert_Some; auto. }
  destruct (ids !! m.(format_id)); [|done]. destruct (m.(mode)); auto. destruct (_ <? _); auto.
Qed.

Lemma first_pass_elem (c : gmap string (Z * FileFormatManifest)) (id : string) (m : FileFormatManifest) :
  first_pass c !! id = Some m -> m.(format_id) = id /\ exists p mt, c !! p = Some (mt, m).
Proof.
  assert (H : forall l ids, (forall i x, ids !! i = Some x -> x.(format_id) = i /\ exists p mt, c !! p = Some (mt, x)) ->
    (forall x, x ∈ l -> exists p mt, c !! p = Some (mt, x)) ->
    foldl add_manifest ids l !! id = Some m -> m.(format_id) = id /\ exists p mt, c !! p = Some (mt, m)).
  { induction l as [|x l IH]; intros ids Hids Hl; [apply Hids|]. cbn [foldl]. apply IH; [|intros y Hy; apply Hl; by right].
    intros i y [Hi|[-> ->]]%add_manifest_elem; [by apply Hids|]. split; [done|]. apply Hl. by left. }
  apply H; [by intros i x; rewrite lookup_empty|].
  intros x Hx. unfold iteration in Hx. apply list_elem_of_fmap in Hx as ([p [mt y]] & -> & Hy).
  apply elem_of_sort_by, elem_of_map_to_list in Hy. by exists p, mt.
Qed.

(** ** The cache over a history of calls *)

Inductive call :=
  | GetCatalog (plugins : registry) (d : disk)
  | GetSnapshot (plugins : registry) (time_ns : Z) (d : disk)
  | Clear.

Definition apply_call (digest : list FileFormatManifest -> string) (st : catalog) (c : call) : catalog :=
  match c with
  | GetCatalog plugins d => (get_catalog plugins st d).1
  | GetSnapshot plugins t d => (get_snapshot digest plugins t st d).1
  | Clear => cache_clear st
  end.

Definition history (digest : list FileFormatManifest -> string) (calls : list call) : catalog :=
  foldl (apply_call digest) new_catalog calls.

Definition disk_of (c : call) : disk :=
  match c with
  | GetCatalog _ d | GetSnapshot _ _ d => d
  | Clear => {| system_root := None; local_root := None |}
  end.

Lemma get_snapshot_cache (digest : list FileFormatManifest -> string) (plugins : registry) (time_ns : Z) (st : catalog) (d : disk) :
  (get_snapshot digest plugins time_ns st d).1.(cache) = (get_catalog plugins st d).1.(cache).
Proof.
  unfold get_snapshot. destruct (get_catalog plugins st d) as [st' [ids|]]; [|done].
  destruct (cached_snapshot st'); [by case_bool_decide|done].
Qed.

(** A property of the cached entries that every file loaded from a good place has. *)
Section Entries.
Context (P : string -> Z * FileFormatManifest -> Prop) (good : tree -> yaml_file -> Prop).
Context (Hload : forall t f m mtime, good t f -> loaded t f = Some m -> P f.(f_path) (mtime, m)).

Definition all_good (d : disk) : Prop := forall t f, (t, f) ∈ all_walked d -> good t f.

Lemma refresh_entries (st : catalog) (t : tree) (f : yaml_file) :
  good t f -> map_Forall P st.(cache) -> map_Forall P (_refresh st t f).1.(cache).
Proof.
  intros Ht Hc. unfold _refresh. destruct (f_mtime f) as [mtime|]; [|done].
  repeat (case_bool_decide; [done|]). pose proof (Hload t f) as Hl.
  destruct (f_doc f) as [| |m']; [done| |]; (destruct (loaded t f) as [m|]; [|done]); cbn [fst cache].
  all: apply map_Forall_insert_2; [by apply Hl|done].
Qed.

Lemma refresh_all_entries (st : catalog) (files : list (tree * yaml_file)) :
  (forall t f, (t, f) ∈ files -> good t f) -> map_Forall P st.(cache) -> map_Forall P (refresh_all st files).1.(cache).
Proof.
  revert st. induction files as [|[t f] files IH]; intros st Hf Hc; [done|]. cbn [refresh_all].
  pose proof (refresh_entries st t f (Hf t f ltac:(left)) Hc) as H. destruct (_refresh st t f) as [st' []]; [done|].
  apply IH; [|done]. intros t' f' Hin. apply Hf. by right.
Qed.

Lemma get_catalog_entries (plugins : registry) (st : catalog) (d : disk) :
  all_good d -> map_Forall P st.(cache) -> map_Forall P (get_catalog plugins st d).1.(cache).
Proof.
  intros Hd Hc. unfold get_catalog. pose proof (refresh_all_entries st (all_walked d) Hd Hc) as H.
  destruct (refresh_all st (all_walked d)) as [st' []]; [done|]. cbn [fst drop_vanished cache] in *.
  intros p e [Hp _]%map_lookup_filter_Some. by apply H.
Qed.

Lemma history_entries (digest : list FileFormatManifest -> string) (calls : list call) :
  (forall c, c ∈ calls -> all_good (disk_of c)) -> map_Forall P (history digest calls).(cache).
Proof.
  unfold history. assert (H : map_Forall P new_catalog.(cache)) by by intros p e He.
  revert H. generalize new_catalog. induction calls as [|c calls IH]; intros st Hst Hp; [done|]. cbn [foldl].
  apply IH; [|intros c' Hc'; apply Hp; by right]. specialize (Hp c ltac:(left)).
  destruct c; cbn [disk_of apply_call] in *; [by apply get_catalog_entries| |by intros p e He].
  rewrite get_snapshot_cache. by apply get_catalog_entries.
Qed.
End Entries.

(** The tier of a path, which its place in the trees determines. *)
Definition in_place (tier : string -> ManifestSource) (t : tree) (f : yaml_file) : Prop :=
  _expected_source_for_path t f.(f_parts) = tier f.(f_path).

Definition placed (tier : string -> ManifestSource) : disk -> Prop := all_good (in_place tier).

Definition entry_ok (tier : string -> ManifestSource) (p : string) (e : Z * FileFormatManifest) : Prop :=
  manifest_ok e.2 = true /\ e.2.(source_path) = Some p /\ e.2.(manifest_source) = tier p.

Lemma loaded_stamped (t : tree) (f : yaml_file) (m : FileFormatManifest) :
  loaded t f = Some m -> m.(source_path) = Some f.(f_path).
Proof. unfold loaded. destruct (f_doc f) as [| |m']; try done. destruct (_ && _); [|done]. by intros [= <-]. Qed.

Lemma loaded_ok (tier : string -> ManifestSource) (t : tree) (f : yaml_file) (m : FileFormatManifest) (mtime : Z) :
  in_place tier t f -> loaded t f = Some m -> entry_ok tier f.(f_path) (mtime, m).
Proof.
  unfold in_place, loaded. intros Ht. destruct (f_doc f) as [| |m']; try done. destruct (_ && _) eqn:E; [|done]. intros [= <-].
  apply andb_true_iff in E as [E1 E2%bool_decide_eq_true]. unfold entry_ok. cbn [snd source_path stamp manifest_source].
  split_and!; [exact E1|done|by rewrite E2].
Qed.

(** C5. What any call of a catalogue answers, whatever the files went through before: every
    manifest is filed under its identifier, passed validation, carries the path it was read
    from and belongs to the tier of that path; none dispatches to a removed format of the
    catalogue; no two of one source and different vendors share a magic at one offset and
    precedence; no chain of at least two steps leads to an expensive eager plugin; no
    manifest sits in the ceiling tier and at most one in the floor tier. *)
Theorem format_catalog_sound (tier : string -> ManifestSource) (digest : list FileFormatManifest -> string) (calls : list call)
    (plugins : registry) (d : disk) (ids : by_id) :
  (forall c, c ∈ calls -> placed tier (disk_of c)) -> placed tier d ->
  (get_catalog plugins (history digest calls) d).2 = Some ids ->
  forall id m, ids !! id = Some m ->
    m.(format_id) = id /\ manifest_ok m = true /\
    (exists p, m.(source_path) = Some p /\ m.(manifest_source) = tier p) /\
    (forall t x, t ∈ targets_of m -> ids !! t = Some x -> x.(deprecation).(status) <> removed) /\
    (forall id' m' k, ids !! id' = Some m' -> k ∈ magic_keys m -> k ∈ magic_keys m' ->
       m.(manifest_source) = m'.(manifest_source) -> m.(vendor) = m'.(vendor)) /\
    (2 <= m.(dispatch).(depth_max) -> forall n t x, n <= m.(dispatch).(depth_max) -> linked ids m n t ->
       ids !! t = Some x -> eager_expensive plugins x = false) /\
    m.(detection).(sort_tier) <> ceiling /\
    (m.(detection).(sort_tier) = floor -> forall id' m', ids !! id' = Some m' -> m'.(detection).(sort_tier) = floor -> id' = id).
Proof.
  intros Hcalls Hd Hids id m Hm.
  pose proof (get_catalog_entries (entry_ok tier) (in_place tier) (loaded_ok tier) plugins _ d Hd
    (history_entries _ _ (loaded_ok tier) digest calls Hcalls)) as Hc.
  unfold get_catalog in Hids, Hc. destruct (refresh_all _ _) as [st []]; [done|]. cbn [fst snd] in *.
  set (c := cache (drop_vanished st _)) in *. injection Hids as <-. unfold _build_validated_catalog in *.
  set (ids1 := first_pass c) in *. set (ids3 := pass_a3 ids1) in *. set (ids4 := pass_a4 ids3) in *.
  set (ids5 := pass_a5 plugins ids4) in *.
  assert (H5 : forall i x, tier_pass ids5 !! i = Some x -> ids5 !! i = Some x) by (intros i x Hi; by apply tier_pass_lookup in Hi as [? _]).
  assert (H4 : forall i x, ids5 !! i = Some x -> ids4 !! i = Some x) by (intros i x Hi; by apply pass_a5_lookup in Hi as [? _]).
  assert (H3 : forall i x, ids4 !! i = Some x -> ids3 !! i = Some x) by (intros i x Hi; by apply pass_a4_lookup in Hi as [? _]).
  assert (H1 : forall i x, ids3 !! i = Some x -> ids1 !! i = Some x) by (intros i x Hi; by apply pass_a3_lookup in Hi as [? _]).
  pose proof (H5 _ _ Hm) as M5. pose proof (H4 _ _ M5) as M4. pose proof (H3 _ _ M4) as M3. pose proof (H1 _ _ M3) as M1.
  destruct (first_pass_elem _ _ _ M1) as (Hid & p & mt & Hp). destruct (Hc p _ Hp) as (Hok & Hsrc & Htier). cbn [snd] in *.
  split_and!; try done.
  - by exists p.
  - intros t x Ht Hx Hr. apply pass_a3_lookup in M3 as [_ M3]. rewrite removed_target_spec in M3.
    specialize (M3 t x Ht (H1 _ _ (H3 _ _ (H4 _ _ (H5 _ _ Hx))))). unfold is_removed in M3. by rewrite Hr in M3.
  - intros id' m' k Hm' Hk Hk' Hs. apply dec_stable. intros Hv. apply pass_a4_lookup in M4 as [_ M4]. apply M4.
    by apply (a4_drop_spec ids3 id id' m m' k); [|apply H3, H4, H5|..].
  - intros H2 n t x Hn Hl Hx. apply pass_a5_lookup in M5 as [_ M5]. apply not_true_is_false. intros He.
    apply not_true_iff_false in M5. apply M5. apply chains_expensive_aux. split; [done|]. exists n, t, x.
    split_and!; [done|by eapply linked_subset; [intros i y Hi; apply H4, H5, Hi|]|by apply H4, H5|done].
  - by eapply no_ceiling.
  - intros Hf id' m' Hm' Hf'. by eapply one_floor.
Qed.

(** *** A small disk *)

Definition file_at (path : string) (parts : list string) (mtime : Z) (doc : yaml_doc) : yaml_file :=
  {| f_path := path; f_parts := parts; f_regular := true; f_mtime := Some mtime; f_doc := doc |}.

Definition fallback_file : yaml_file :=
  file_at "/data/file_formats/_system/linux_blob_fallback.yaml" ["_system"; "linux_blob_fallback.yaml"] 1 (Doc linux_blob_fallback).
Definition lk_file : yaml_file := file_at "/data/file_formats/mediatek/mtk_lk.yaml" ["mediatek"; "mtk_lk.yaml"] 1 (Doc mtk_lk).
Definition tinysys_file : yaml_file :=
  file_at "/data/file_formats/mediatek/mtk_tinysys.yaml" ["mediatek"; "mtk_tinysys.yaml"] 1 (Doc mtk_tinysys).
(** An overlay that claims the identifier of a bundled format for the core tier. *)
Definition overlay_file : yaml_file := file_at "/data/file_formats.local/mine.yaml" ["mine.yaml"] 1 (Doc mtk_lk).

Definition small_disk : disk :=
  {| system_root := Some [tinysys_file; lk_file; fallback_file]; local_root := Some [overlay_file] |}.

Definition small_tier (p : string) : ManifestSource :=
  if startswith p "/data/file_formats.local/" then src_operator
  else if startswith p "/data/file_formats/_system/" then src_system else src_core.

Lemma small_disk_placed : placed small_tier small_disk.
Proof.
  assert (E : Forall (fun e => in_place small_tier e.1 e.2) (all_walked small_disk)) by (by vm_compute; repeat constructor).
  intros t f H. rewrite Forall_forall in E. exact (E (t, f) H).
Qed.

Definition small_calls : list call := [GetCatalog [] small_disk; Clear; GetSnapshot [] 7 small_disk].
Definition small_history : catalog := history (fun _ => "") small_calls.

Lemma small_calls_placed (c : call) : c ∈ small_calls -> placed small_tier (disk_of c).
Proof.
  unfold small_calls. intros [->|[->|[->|Hc]%elem_of_cons]%elem_of_cons]%elem_of_cons; [exact small_disk_placed| |exact small_disk_placed|by apply not_elem_of_nil in Hc].
  intros t f Hf. by apply not_elem_of_nil in Hf.
Qed.

Lemma small_answer :
  exists ids m, (get_catalog [] small_history small_disk).2 = Some ids /\ ids !! "mtk_lk"%string = Some m /\
    small_history.(cache) !! "/data/file_formats.local/mine.yaml"%string = None /\
    existsb (String.eqb "mtk_tinysys") (targets_of m) = true /\ is_Some (ids !! "mtk_tinysys"%string) /\
    m.(source_path) = Some "/data/file_formats/mediatek/mtk_lk.yaml".
Proof.
  assert (E : match (get_catalog [] small_history small_disk).2 with
              | Some ids =>
                  match ids !! "mtk_lk"%string with
                  | Some m => existsb (String.eqb "mtk_tinysys") (targets_of m) && bool_decide (is_Some (ids !! "mtk_tinysys"%string)) &&
                              bool_decide (m.(source_path) = Some "/data/file_formats/mediatek/mtk_lk.yaml")
                  | None => false
                  end
              | None => false
              end = true) by (by vm_compute).
  destruct (get_catalog [] small_history small_disk).2 as [ids|]; [|done].
  destruct (ids !! "mtk_lk"%string) as [m|] eqn:Em; [|done].
  apply andb_true_iff in E as [[E1 E2%bool_decide_eq_true]%andb_true_iff E3%bool_decide_eq_true].
  exists ids, m. split_and!; [done|done|by vm_compute|done..].
Qed.

Lemma format_catalog_sound_witness :
  exists ids m, (get_catalog [] small_history small_disk).2 = Some ids /\ ids !! "mtk_lk"%string = Some m /\
    small_history.(cache) !! "/data/file_formats.local/mine.yaml"%string = None /\
    existsb (String.eqb "mtk_tinysys") (targets_of m) = true /\ is_Some (ids !! "mtk_tinysys"%string) /\
    (exists p, m.(source_path) = Some p /\ m.(manifest_source) = small_tier p) /\ m.(detection).(sort_tier) <> ceiling.
Proof.
  destruct small_answer as (ids & m & H1 & H2 & H3 & H4 & H5 & _).
  pose proof (format_catalog_sound small_tier (fun _ => "") small_calls [] small_disk ids small_calls_placed small_disk_placed
    H1 _ m H2) as (_ & _ & Hp & _ & _ & _ & Hc & _).
  exists ids, m. by split_and!.
Defined.
