(* ===== verification/FormatCache.v ===== *)
(** * The cache of the file-format catalogue over time

    What a catalogue answers after any history of calls ([catalog.py], [FormatCatalog]): its
    cached snapshot, files that cannot be opened, and which of several files gets an
    identifier. *)

From stdpp Require Import gmap.
From S2P Require Import Prelude PyText PosixPath Json Sorting ManifestLib FormatSchema FormatData FormatResolver FormatCatalog.
From Stdlib Require Import Ascii String SpecFloat.
Import (notations) Ascii String.
#[local] Open Scope Z_scope.

(** ** The cached snapshot *)

Lemma build_elem (plugins : registry) (c : gmap string (Z * FileFormatManifest)) (id : string) (m : FileFormatManifest) :
  _build_validated_catalog plugins c !! id = Some m -> m.(format_id) = id /\ exists p mt, c !! p = Some (mt, m).
Proof.
  unfold _build_validated_catalog. rewrite tier_pass_lookup, pass_a5_lookup, pass_a4_lookup, pass_a3_lookup.
  intros [[[[H _] _] _] _]. by apply first_pass_elem.
Qed.

(** A catalogue made of entries of [c], each under its identifier and with its path. *)
Definition drawn_from (c : gmap string (Z * FileFormatManifest)) (ids : by_id) : Prop :=
  map_Forall (fun id m => m.(format_id) = id /\ exists p mt, m.(source_path) = Some p /\ c !! p = Some (mt, m)) ids.

Definition stamped (p : string) (e : Z * FileFormatManifest) : Prop := e.2.(source_path) = Some p.

Lemma build_drawn (plugins : registry) (c : gmap string (Z * FileFormatManifest)) :
  map_Forall stamped c -> drawn_from c (_build_validated_catalog plugins c).
Proof.
  intros Hc id m Hm. apply build_elem in Hm as (Hid & p & mt & Hp). split; [done|]. exists p, mt. split; [|done].
  by apply (Hc p (mt, m)).
Qed.

Lemma key_entry_drawn (c c0 : gmap string (Z * FileFormatManifest)) (ids ids0 : by_id) (id id0 : string) (m m0 : FileFormatManifest) :
  c ⊆ c0 -> drawn_from c ids -> drawn_from c0 ids0 -> ids !! id = Some m -> ids0 !! id0 = Some m0 ->
  key_entry c m = key_entry c0 m0 -> id = id0 /\ m = m0.
Proof.
  intros Hsub Hd Hd0 Hm Hm0 Hk. destruct (Hd id m Hm) as (Hid & p & mt & Hs & Hp).
  destruct (Hd0 id0 m0 Hm0) as (Hid0 & p0 & mt0 & Hs0 & Hp0). unfold key_entry in Hk. rewrite Hs, Hs0 in Hk.
  injection Hk as Hid' Hpp _. cbn in Hpp. subst p0. pose proof (lookup_weaken _ _ _ _ Hp Hsub). split; congruence.
Qed.

Lemma elem_of_key (c : gmap string (Z * FileFormatManifest)) (ids : by_id) (k : string * (string * Z)) :
  k ∈ compute_key c ids <-> exists id m, ids !! id = Some m /\ k = key_entry c m.
Proof.
  unfold compute_key. rewrite elem_of_sort_by, list_elem_of_fmap. split.
  - intros (m & -> & ([id m'] & -> & H)%list_elem_of_fmap). apply elem_of_map_to_list in H. by exists id, m'.
  - intros (id & m & H & ->). exists m. split; [done|]. apply list_elem_of_fmap. exists (id, m). split; [done|].
    by apply elem_of_map_to_list.
Qed.

(** The key tells catalogues apart, as long as the cache only lost entries. *)
Lemma compute_key_inj (c c0 : gmap string (Z * FileFormatManifest)) (ids ids0 : by_id) :
  c ⊆ c0 -> drawn_from c ids -> drawn_from c0 ids0 -> compute_key c ids = compute_key c0 ids0 -> ids = ids0.
Proof.
  intros Hsub Hd Hd0 Hk. apply map_eq. intros id. apply option_eq. intros m. split; intros Hm.
  - assert (H : key_entry c m ∈ compute_key c ids) by (apply elem_of_key; eauto). rewrite Hk in H.
    apply elem_of_key in H as (id0 & m0 & Hm0 & He).
    by destruct (key_entry_drawn c c0 ids ids0 id id0 m m0) as [-> ->].
  - assert (H : key_entry c0 m ∈ compute_key c0 ids0) by (apply elem_of_key; eauto). rewrite <- Hk in H.
    apply elem_of_key in H as (id1 & m1 & Hm1 & He).
    by destruct (key_entry_drawn c c0 ids ids0 id1 id m1 m) as [-> ->].
Qed.

Section Snapshot.
Context (digest : list FileFormatManifest -> string).

(** A cached snapshot is that of a catalogue drawn from a cache that only lost entries since. *)
Definition snapshot_ok (st : catalog) : Prop :=
  forall s, st.(cached_snapshot) = Some s ->
    exists c0 ids0 t0, s = from_dict digest ids0 t0 /\ st.(snapshot_cache_key) = compute_key c0 ids0 /\
                       st.(cache) ⊆ c0 /\ drawn_from c0 ids0.

Lemma refresh_snapshot (st : catalog) (t : tree) (f : yaml_file) : snapshot_ok st -> snapshot_ok (_refresh st t f).1.
Proof.
  intros H. unfold _refresh. destruct (f_mtime f); [|done]. repeat (case_bool_decide; [done|]).
  by destruct (f_doc f), (loaded t f).
Qed.

Lemma refresh_all_snapshot (st : catalog) (files : list (tree * yaml_file)) :
  snapshot_ok st -> snapshot_ok (refresh_all st files).1.
Proof.
  revert st. induction files as [|[t f] files IH]; intros st H; [done|]. cbn [refresh_all].
  pose proof (refresh_snapshot st t f H) as H'. destruct (_refresh st t f) as [st' []]; [done|]. by apply IH.
Qed.

Lemma get_catalog_snapshot (plugins : registry) (st : catalog) (d : disk) :
  snapshot_ok st -> snapshot_ok (get_catalog plugins st d).1.
Proof.
  intros H. unfold get_catalog. pose proof (refresh_all_snapshot st (all_walked d) H) as H'.
  destruct (refresh_all st (all_walked d)) as [st' []]; [done|]. cbn [fst] in *.
  intros s Hs. destruct (H' s Hs) as (c0 & ids0 & t0 & E1 & E2 & E3 & E4). exists c0, ids0, t0. split_and!; try done.
  etrans; [apply map_filter_subseteq|done].
Qed.

(** What one call of [get_snapshot] leaves and answers. *)
Lemma get_snapshot_step (plugins : registry) (time_ns : Z) (st : catalog) (d : disk) :
  map_Forall stamped st.(cache) -> snapshot_ok st ->
  snapshot_ok (get_snapshot digest plugins time_ns st d).1 /\
  match (get_catalog plugins st d).2, (get_snapshot digest plugins time_ns st d).2 with
  | Some ids, Some s => exists t0, s = from_dict digest ids t0
  | None, None => True
  | _, _ => False
  end.
Proof.
  intros Hc Hs. pose proof (get_catalog_snapshot plugins st d Hs) as Hs'.
  pose proof (get_catalog_entries stamped (fun _ _ => True) (fun t f m mt _ => loaded_stamped t f m) plugins st d
    ltac:(by intros ? ? ?) Hc) as Hc'.
  assert (Hids : forall ids, (get_catalog plugins st d).2 = Some ids -> drawn_from (get_catalog plugins st d).1.(cache) ids).
  { intros ids. unfold get_catalog in *. destruct (refresh_all _ _) as [st' []]; [done|]. intros [= <-]. by apply build_drawn. }
  unfold get_snapshot. destruct (get_catalog plugins st d) as [st' [ids|]]; cbn [fst snd] in *; [|done].
  specialize (Hids ids eq_refl).
  assert (Hnew : forall t0 fm, snapshot_ok {| cache := st'.(cache); failed_mtime := fm; cached_snapshot := Some (from_dict digest ids t0);
                                 snapshot_cache_key := compute_key st'.(cache) ids |}).
  { intros t0 fm s [= <-]. by exists st'.(cache), ids, t0. }
  destruct (cached_snapshot st') as [s|] eqn:E; [|split; [apply Hnew|by eexists]].
  case_bool_decide as Hk; [|split; [apply Hnew|by eexists]]. split; [done|].
  destruct (Hs' s E) as (c0 & ids0 & t0 & -> & Hk0 & Hsub & Hd0). exists t0. f_equal.
  symmetry. eapply compute_key_inj; [done..|by rewrite Hk].
Qed.

Lemma history_ok (calls : list call) :
  map_Forall stamped (history digest calls).(cache) /\ snapshot_ok (history digest calls).
Proof.
  split; [apply (history_entries _ (fun _ _ => True) (fun t f m mt _ => loaded_stamped t f m)); by intros|].
  induction calls as [|c calls IH] using rev_ind; [by intros s|].
  pose proof (history_entries stamped (fun _ _ => True) (fun t f m mt _ => loaded_stamped t f m) digest calls
    ltac:(by intros)) as Hc.
  unfold history in *. rewrite foldl_snoc. destruct c; cbn [apply_call].
  - by apply get_catalog_snapshot.
  - by apply get_snapshot_step.
  - by intros s.
Qed.
End Snapshot.

(** A look-up in a snapshot is one in the catalogue. *)
Lemma from_dict_get (digest : list FileFormatManifest -> string) (ids : by_id) (t0 : Z) :
  (forall id m, ids !! id = Some m -> m.(format_id) = id) ->
  forall id, snapshot_get (from_dict digest ids t0).(manifests) id = ids !! id.
Proof.
  intros Hids id. unfold from_dict, snapshot_get. cbn [manifests].
  assert (Hin : forall m, In m (sort_by id_le (map_to_list ids).*2) <-> ids !! m.(format_id) = Some m).
  { intros m. rewrite <- list_elem_of_In, elem_of_sort_by, list_elem_of_fmap. split.
    - intros ([i x] & -> & H%elem_of_map_to_list). cbn. by rewrite (Hids i x H).
    - intros H. exists (m.(format_id), m). split; [done|]. by apply elem_of_map_to_list. }
  destruct (find _ _) as [m|] eqn:E.
  - apply find_some in E as [H%Hin E%bool_decide_eq_true]. by rewrite <- E, H.
  - symmetry. apply eq_None_not_Some. intros [m Hm]. pose proof (Hids id m Hm) as Hid.
    assert (Hl : In m (sort_by id_le (map_to_list ids).*2)) by (apply Hin; by rewrite Hid).
    by pose proof (find_none _ _ E m Hl) as ?%bool_decide_eq_false.
Qed.

(** What the two calls answer on one disk. *)
Lemma snapshot_answer (digest : list FileFormatManifest -> string) (calls : list call) (plugins : registry) (time_ns : Z)
    (d : disk) :
  match (get_catalog plugins (history digest calls) d).2, (get_snapshot digest plugins time_ns (history digest calls) d).2 with
  | Some ids, Some s =>
      s.(manifests) = sort_by id_le (map_to_list ids).*2 /\ s.(snapshot_id) = digest s.(manifests) /\
      forall id, snapshot_get s.(manifests) id = ids !! id
  | None, None => True
  | _, _ => False
  end.
Proof.
  destruct (history_ok digest calls) as [Hc Hs].
  pose proof (get_snapshot_step digest plugins time_ns _ d Hc Hs) as [_ H].
  assert (Hids : forall ids, (get_catalog plugins (history digest calls) d).2 = Some ids -> forall id m, ids !! id = Some m -> m.(format_id) = id).
  { intros ids. unfold get_catalog. destruct (refresh_all _ _) as [st' []]; [done|]. intros [= <-] id m Hm. by apply build_elem in Hm as [? _]. }
  destruct (get_catalog _ _ d).2 as [ids|], (get_snapshot digest plugins time_ns _ d).2 as [s|]; try done.
  destruct H as [t0 ->]. split_and!; [done..|]. by apply from_dict_get, Hids.
Qed.

(** C11. The cached snapshot is never stale: after any calls over any states of the disk and
    any plugins, a snapshot is answered exactly when the catalogue is, and it is the
    snapshot of that very catalogue - its manifests in the order of their identifiers, the
    digest of these - although it may have been built at an earlier time.  A look-up in it
    finds what the catalogue has. *)
Theorem snapshot_current (digest : list FileFormatManifest -> string) (calls : list call) (plugins : registry) (time_ns : Z)
    (d : disk) :
  match (get_catalog plugins (history digest calls) d).2, (get_snapshot digest plugins time_ns (history digest calls) d).2 with
  | Some ids, Some s =>
      s.(manifests) = sort_by id_le (map_to_list ids).*2 /\ s.(snapshot_id) = digest s.(manifests) /\
      forall id, snapshot_get s.(manifests) id = ids !! id
  | None, None => True
  | _, _ => False
  end.
Proof. apply snapshot_answer. Qed.

(** ** Files that cannot be opened *)

(** The next refresh of the file opens it. *)
Definition stale (st : catalog) (f : yaml_file) : Prop :=
  st.(failed_mtime) !! f.(f_path) <> f.(f_mtime) /\ fst <$> st.(cache) !! f.(f_path) <> f.(f_mtime).

Lemma refresh_other (st : catalog) (t : tree) (f g : yaml_file) :
  g.(f_path) <> f.(f_path) -> stale st f -> stale (_refresh st t g).1 f.
Proof.
  intros Hp Hs. unfold _refresh. destruct (f_mtime g) as [mt|]; [|done]. repeat (case_bool_decide; [done|]).
  destruct (f_doc g), (loaded t g); try done; unfold stale in *; cbn [fst cache failed_mtime];
    by rewrite ?lookup_insert_ne, ?lookup_delete_ne by done.
Qed.

Lemma refresh_opens (st : catalog) (t : tree) (f : yaml_file) :
  f.(f_doc) = OpenError -> f.(f_mtime) <> None -> stale st f -> _refresh st t f = (st, true).
Proof.
  intros Hd Hm [H1 H2]. unfold _refresh. rewrite Hd. destruct (f_mtime f) as [mt|]; [|done].
  by rewrite !bool_decide_eq_false_2.
Qed.

Lemma refresh_all_blocked (st : catalog) (files : list (tree * yaml_file)) (t : tree) (f : yaml_file) :
  f.(f_doc) = OpenError -> f.(f_mtime) <> None -> stale st f -> (t, f) ∈ files ->
  (forall t' g, (t', g) ∈ files -> g.(f_path) = f.(f_path) -> g = f) ->
  (refresh_all st files).2 = true /\ stale (refresh_all st files).1 f.
Proof.
  intros Hd Hm. revert st. induction files as [|[t' g] files IH]; intros st Hs Hin Huniq; [by apply not_elem_of_nil in Hin|].
  cbn [refresh_all]. destruct (decide (g.(f_path) = f.(f_path))) as [E|E].
  - rewrite (Huniq t' g ltac:(left) E), refresh_opens by done. done.
  - pose proof (refresh_other st t' f g E Hs) as H. destruct (_refresh st t' g) as [st' []]; [done|]. apply IH; [done| |].
    + apply elem_of_cons in Hin as [[= _ ->]|Hin]; done.
    + intros t2 g2 H2. apply (Huniq t2). by right.
Qed.

(** A YAML file that is listed but cannot be opened is no malformed one: the exception
    leaves [get_catalog], with no catalogue, no snapshot and no look-up for any caller -
    however many other manifests there are - and so does every later call, until the file
    can be opened, is gone, or gets the modification time of its last good version. *)
Theorem open_error_blocks (digest : list FileFormatManifest -> string) (plugins : registry) (time_ns : Z) (st : catalog) (d : disk)
    (t : tree) (f : yaml_file) (n : nat) (id : string) :
  (t, f) ∈ all_walked d -> (forall t' g, (t', g) ∈ all_walked d -> g.(f_path) = f.(f_path) -> g = f) ->
  f.(f_doc) = OpenError -> f.(f_mtime) <> None -> stale st f ->
  let st' := Nat.iter n (fun st => (get_catalog plugins st d).1) st in
  (get_catalog plugins st' d).2 = None /\ (get_snapshot digest plugins time_ns st' d).2 = None /\
  (get_format plugins st' d id).2 = None.
Proof.
  intros Hin Huniq Hd Hm Hs. cbv zeta.
  assert (Hstep : forall st, stale st f -> (get_catalog plugins st d).2 = None /\ stale (get_catalog plugins st d).1 f).
  { intros s H. destruct (refresh_all_blocked s (all_walked d) t f Hd Hm H Hin Huniq) as [E1 E2].
    unfold get_catalog. destruct (refresh_all s (all_walked d)) as [s' []]; [done|discriminate E1]. }
  assert (Hn : stale (Nat.iter n (fun st => (get_catalog plugins st d).1) st) f).
  { induction n as [|n IH]; [done|]. cbn. by apply Hstep. }
  destruct (Hstep _ Hn) as [E _]. unfold get_snapshot, get_format.
  destruct (get_catalog plugins _ d) as [s [ids|]]; [discriminate E|done].
Qed.

(** One unreadable file beside the manifests of [small_disk], which answered before. *)
Definition unreadable : yaml_file := file_at "/data/file_formats.local/locked.yaml" ["locked.yaml"] 1 OpenError.
Definition locked_disk : disk :=
  {| system_root := small_disk.(system_root); local_root := Some [overlay_file; unreadable] |}.

Lemma open_error_blocks_witness :
  (get_catalog [] small_history small_disk).2 <> None /\
  forall n, (get_catalog [] (Nat.iter n (fun st => (get_catalog [] st locked_disk).1) small_history) locked_disk).2 = None.
Proof.
  split; [by destruct small_answer as (ids & m & -> & _)|]. intros n.
  apply (open_error_blocks (fun _ => "") [] 0 small_history locked_disk LocalTree unreadable n "").
  - vm_compute. do 3 right. left.
  - assert (E : Forall (fun e => e.2.(f_path) = unreadable.(f_path) -> e.2 = unreadable) (all_walked locked_disk))
      by (vm_compute; repeat constructor; done).
    intros t' g H. rewrite Forall_forall in E. exact (E (t', g) H).
  - done.
  - done.
  - split; by vm_compute.
Defined.

(** ** Overlays *)

#[local] Abbreviation iter_le := (key_rel (lex Z.le String.le) iter_key).

Lemma elem_of_iteration (c : gmap string (Z * FileFormatManifest)) (m : FileFormatManifest) :
  m ∈ iteration c <-> exists p mt, c !! p = Some (mt, m).
Proof.
  unfold iteration. rewrite list_elem_of_fmap. split.
  - intros ([p [mt y]] & -> & H). apply elem_of_sort_by, elem_of_map_to_list in H. by exists p, mt.
  - intros (p & mt & H). exists (p, (mt, m)). split; [done|]. by apply elem_of_sort_by, elem_of_map_to_list.
Qed.

Lemma iteration_ranks (c : gmap string (Z * FileFormatManifest)) :
  StronglySorted (fun a b => source_rank b <= source_rank a) (iteration c).
Proof.
  unfold iteration. pose proof (sort_by_sorted iter_le (map_to_list c)) as H. induction H as [|e l Hl IH He]; [constructor|].
  rewrite fmap_cons. constructor; [done|]. apply Forall_fmap. eapply Forall_impl; [exact He|].
  intros e' [H _]. cbn in *. lia.
Qed.

Lemma add_manifest_ne (ids : by_id) (m : FileFormatManifest) (id : string) :
  m.(format_id) <> id -> add_manifest ids m !! id = ids !! id.
Proof.
  intros Hne. unfold add_manifest. destruct (ids !! _) as [e|]; [destruct (mode m); [|destruct (source_rank m <? source_rank e)|]|];
    by rewrite ?lookup_insert_ne.
Qed.

Lemma add_manifest_eq (ids : by_id) (m : FileFormatManifest) :
  add_manifest ids m !! m.(format_id) =
    match ids !! m.(format_id) with
    | None => Some m
    | Some e =>
        if bool_decide (m.(mode) = mode_new) || bool_decide (m.(mode) = mode_override) && (source_rank m <? source_rank e)
        then Some e else Some m
    end.
Proof.
  unfold add_manifest. destruct (ids !! _) as [e|] eqn:E; [destruct (mode m); [|destruct (source_rank m <? source_rank e)|]|]; cbn;
    by rewrite ?lookup_insert_eq.
Qed.

Lemma add_manifests_ne (ids : by_id) (l : list FileFormatManifest) (id : string) :
  (forall m, m ∈ l -> m.(format_id) <> id) -> foldl add_manifest ids l !! id = ids !! id.
Proof.
  revert ids. induction l as [|m l IH]; intros ids Hl; [done|]. cbn [foldl]. rewrite IH; [|intros y Hy; apply Hl; by right].
  apply add_manifest_ne, Hl. by left.
Qed.

Lemma ranks_lookup (l : list FileFormatManifest) (i j : nat) (a b : FileFormatManifest) :
  StronglySorted (fun a b => source_rank b <= source_rank a) l -> l !! i = Some a -> l !! j = Some b -> (i < j)%nat ->
  source_rank b <= source_rank a.
Proof.
  intros Hs. revert i j. induction Hs as [|x l _ IH Hx]; intros i j Ha Hb Hij; [done|].
  destruct j as [|j]; [lia|]. destruct i as [|i]; [|by apply (IH i j); [..|lia]].
  cbn in Ha, Hb. injection Ha as <-. rewrite Forall_forall in Hx. by apply Hx, (list_elem_of_lookup_2 _ j).
Qed.

(** The manifests that name an identifier, in the order of the pass: by descending rank, then
    by path. *)
Definition claimants (c : gmap string (Z * FileFormatManifest)) (id : string) : list FileFormatManifest :=
  List.filter (fun m => bool_decide (m.(format_id) = id)) (iteration c).

(** What becomes of the holder of an identifier when the next claimant comes. *)
Definition hold (holder : option FileFormatManifest) (m : FileFormatManifest) : option FileFormatManifest :=
  match holder with
  | None => Some m
  | Some e =>
      if bool_decide (m.(mode) = mode_new) || bool_decide (m.(mode) = mode_override) && (source_rank m <? source_rank e)
      then Some e else Some m
  end.

Lemma add_manifests_hold (ids : by_id) (l : list FileFormatManifest) (id : string) :
  foldl add_manifest ids l !! id = foldl hold (ids !! id) (List.filter (fun m => bool_decide (m.(format_id) = id)) l).
Proof.
  revert ids. induction l as [|m l IH]; intros ids; [done|]. cbn [foldl List.filter]. rewrite IH. case_bool_decide as Hid.
  - cbn [foldl]. f_equal. subst id. apply add_manifest_eq.
  - by rewrite add_manifest_ne.
Qed.

(** The claimant at a place takes the identifier over: it is the first, or has the mode extend,
    or has the mode override and a claimant of its own rank came before it that was the first
    or has the mode extend. *)
Definition takes (l : list FileFormatManifest) (i : nat) : Prop :=
  exists x, l !! i = Some x /\
    (i = O \/ x.(mode) = mode_extend \/
     x.(mode) = mode_override /\
     exists j y, (j < i)%nat /\ l !! j = Some y /\ source_rank y = source_rank x /\ (j = O \/ y.(mode) = mode_extend)).

Definition last_taker (l : list FileFormatManifest) (i : nat) : Prop := takes l i /\ forall j, (i < j)%nat -> ~ takes l j.

Lemma takes_app (l : list FileFormatManifest) (x : FileFormatManifest) (i : nat) :
  (i < List.length l)%nat -> takes (l ++ [x])%list i <-> takes l i.
Proof.
  intros Hi. unfold takes. rewrite lookup_app_l by done.
  split; intros (y & Hy & [H|[H|(H & j & z & Hj & Hz & Hr)]]); exists y; (split; [done|]); [by left|right; by left| |by left|right; by left|];
    right; right; (split; [done|]); exists j, z; [rewrite lookup_app_l in Hz by lia|rewrite lookup_app_l by lia]; done.
Qed.

Lemma takes_last (l : list FileFormatManifest) (x : FileFormatManifest) :
  takes (l ++ [x])%list (List.length l) <->
  l = [] \/ x.(mode) = mode_extend \/
  x.(mode) = mode_override /\
  exists j y, l !! j = Some y /\ source_rank y = source_rank x /\ (j = O \/ y.(mode) = mode_extend).
Proof.
  unfold takes. rewrite lookup_app_r, Nat.sub_diag by done. cbn [lookup list_lookup]. split.
  - intros (y & [= <-] & [H|[H|(H & j & z & Hj & Hz & Hr)]]); [left; by apply nil_length_inv|right; by left|].
    right. right. split; [done|]. exists j, z. by rewrite lookup_app_l in Hz.
  - intros H. exists x. split; [done|]. destruct H as [->|[H|(H & j & z & Hz & Hr)]]; [by left|right; by left|].
    right. right. split; [done|]. assert (Hj := lookup_lt_Some _ _ _ Hz). exists j, z. by rewrite lookup_app_l.
Qed.

(** Among claimants of descending rank, one of override takes over from the last taker exactly
    if the two are of one rank. *)
Lemma override_takes (l : list FileFormatManifest) (i : nat) (e x : FileFormatManifest) :
  StronglySorted (fun a b => source_rank b <= source_rank a) (l ++ [x])%list -> last_taker l i -> l !! i = Some e ->
  source_rank e <= source_rank x <->
  exists j y, l !! j = Some y /\ source_rank y = source_rank x /\ (j = O \/ y.(mode) = mode_extend).
Proof.
  intros Hs [Hi Hlast] He. apply StronglySorted_app in Hs as (Hx & Hs & _). split.
  - intros Hr. assert (Heq : source_rank e = source_rank x).
    { specialize (Hx e x ltac:(by eapply list_elem_of_lookup_2) ltac:(by left)). lia. }
    destruct Hi as (e' & He' & Hi). rewrite He in He'. injection He' as <-.
    destruct Hi as [->|[H|(_ & j & y & _ & Hy & Hyr & Hj)]]; [exists O, e|exists i, e|exists j, y; rewrite Hyr]; naive_solver.
  - intros (j & y & Hy & Hyr & Hj). rewrite <- Hyr. destruct (decide (j = i)) as [->|Hne]; [by simplify_eq|].
    destruct (decide (i < j)%nat) as [Hlt|Hge].
    + exfalso. apply (Hlast j Hlt). exists y. split; [done|]. naive_solver.
    + eapply (ranks_lookup l j i); [done..|lia].
Qed.

Lemma hold_spec (l : list FileFormatManifest) :
  StronglySorted (fun a b => source_rank b <= source_rank a) l ->
  match foldl hold None l with
  | None => l = []
  | Some m => exists i, l !! i = Some m /\ last_taker l i
  end.
Proof.
  induction l as [|x l IH] using rev_ind; intros Hs; [done|]. rewrite foldl_snoc.
  specialize (IH (proj1 (proj2 (proj1 (StronglySorted_app _ _ _) Hs)))).
  assert (Hnew : takes (l ++ [x])%list (List.length l) -> exists i, (l ++ [x])%list !! i = Some x /\ last_taker (l ++ [x])%list i).
  { intros Ht. exists (List.length l). split; [by rewrite lookup_app_r, Nat.sub_diag|]. split; [done|].
    intros j Hj (y & Hy%lookup_lt_Some & _). rewrite length_app in Hy. cbn in Hy. lia. }
  destruct (foldl hold None l) as [e|]; [|subst l; by apply Hnew, takes_last; left].
  destruct IH as (i & He & Hi). assert (Hlen := lookup_lt_Some _ _ _ He). pose proof (override_takes _ _ _ _ Hs Hi He) as Hover.
  assert (Hkeep : ~ takes (l ++ [x])%list (List.length l) -> exists i, (l ++ [x])%list !! i = Some e /\ last_taker (l ++ [x])%list i).
  { intros Ht. exists i. split; [by rewrite lookup_app_l|]. split; [apply takes_app; [done|apply Hi]|]. intros j Hj Hjt.
    destruct (decide (j = List.length l)) as [->|Hne]; [done|]. destruct (decide (j < List.length l)%nat) as [Hlt|Hge].
    - by apply (proj2 Hi j Hj), (takes_app l x).
    - destruct Hjt as (y & Hy%lookup_lt_Some & _). rewrite length_app in Hy. cbn in Hy. lia. }
  assert (Hne : l <> []) by by intros ->. cbn [hold]. rewrite takes_last in Hnew, Hkeep.
  destruct (mode x) eqn:Ex; cbn; [apply Hkeep; naive_solver| |apply Hnew; right; by left].
  destruct (Z.ltb_spec (source_rank x) (source_rank e)); [apply Hkeep|apply Hnew]; [|right; right; by split; [|apply Hover]].
  intros [?|[?|[_ H2%Hover]]]; [done..|lia].
Qed.

Lemma claimants_sorted (c : gmap string (Z * FileFormatManifest)) (id : string) :
  StronglySorted (fun a b => source_rank b <= source_rank a) (claimants c id).
Proof.
  unfold claimants. induction (iteration_ranks c) as [|m l Hl IH Hm]; [constructor|]. cbn [List.filter].
  case_bool_decide; [|done]. constructor; [done|]. rewrite Forall_forall in *. intros x Hx. apply Hm.
  by apply list_elem_of_In, List.filter_In in Hx as [Hx%list_elem_of_In _].
Qed.

Lemma elem_of_claimants (c : gmap string (Z * FileFormatManifest)) (id : string) (m : FileFormatManifest) :
  m ∈ claimants c id <-> m.(format_id) = id /\ exists p mt, c !! p = Some (mt, m).
Proof. unfold claimants. rewrite list_elem_of_In, List.filter_In, bool_decide_eq_true, <- list_elem_of_In, elem_of_iteration. tauto. Qed.

(** C6. Overlays: who gets an identifier.  In the order of the pass - by descending rank, then
    by path - it is the last claimant that takes over: the first one takes the identifier, one
    with the mode extend always does, one with the mode override exactly within the rank of
    the holder, one with the mode new never.  So without the mode extend the winner has the
    highest rank, and with it a manifest of any lower tier can take the identifier away. *)
Theorem overlay_modes (c : gmap string (Z * FileFormatManifest)) (id : string) :
  (forall m, first_pass c !! id = Some m <-> exists i, claimants c id !! i = Some m /\ last_taker (claimants c id) i) /\
  ((forall m, m ∈ claimants c id -> m.(mode) <> mode_extend) ->
   forall m, first_pass c !! id = Some m -> forall x, x ∈ claimants c id -> source_rank x <= source_rank m).
Proof.
  assert (Hspec := hold_spec _ (claimants_sorted c id)).
  assert (E : first_pass c !! id = foldl hold None (claimants c id)) by apply add_manifests_hold. rewrite <- E in Hspec. clear E. split.
  - intros m. split; [intros Hm; by rewrite Hm in Hspec|]. intros (i & Hm & Hi1 & Hi2).
    destruct (first_pass c !! id) as [m'|]; [|by rewrite Hspec in Hm]. destruct Hspec as (i' & Hm' & Hj1 & Hj2).
    destruct (Nat.lt_trichotomy i i') as [Hlt|[->|Hlt]]; [by destruct (Hi2 _ Hlt)|by simplify_eq|by destruct (Hj2 _ Hlt)].
  - intros Hno m Hm x Hx. rewrite Hm in Hspec. destruct Hspec as (i & Hi & (m' & Hi' & Ht) & _). rewrite Hi in Hi'. injection Hi' as <-.
    assert (Hfirst : exists y, claimants c id !! 0%nat = Some y /\ source_rank y = source_rank m).
    { destruct Ht as [->|[H|(_ & j & y & _ & Hy & Hr & [->|H])]]; [by exists m|by destruct (Hno m ltac:(by eapply list_elem_of_lookup_2))|
        by exists y|by destruct (Hno y ltac:(by eapply list_elem_of_lookup_2))]. }
    destruct Hfirst as (y & Hy & <-). apply list_elem_of_lookup in Hx as [[|k] Hk]; [by simplify_eq|].
    eapply (ranks_lookup _ 0%nat (S k)); [apply claimants_sorted|done..|lia].
Qed.

Definition with_mode (mo : OverlayMode) (src : ManifestSource) (path : string) : FileFormatManifest :=
  let m := mtk_lk in
  {| format_id := m.(format_id); alias_of := m.(alias_of); mode := mo;
     overrides := if bool_decide (mo = mode_override) then Some m.(format_id) else None;
     manifest_source := src; precedence := m.(precedence); tie_breakers := m.(tie_breakers);
     category := m.(category); vendor := m.(vendor); product := m.(product); confidence := m.(confidence);
     notes := m.(notes); detection := m.(detection); dispatch := m.(dispatch); refinement := m.(refinement);
     plugin := m.(plugin); output := m.(output); pre_upload := m.(pre_upload);
     external_manifests := m.(external_manifests); deprecation := m.(deprecation); provenance := m.(provenance);
     references := m.(references); source_path := Some path |}.

(** A bundled format and an operator's manifest for its identifier. *)
Definition overlaid (mo : OverlayMode) : gmap string (Z * FileFormatManifest) :=
  {["/data/lk.yaml"%string := (1, mtk_lk); "/data.local/lk.yaml"%string := (1, with_mode mo src_operator "/data.local/lk.yaml")]}.

(** The mode override leaves the bundled format, extend hands it to the operator, and a second
    operator's manifest with override takes it over from the first. *)
Definition overlaid_twice : gmap string (Z * FileFormatManifest) :=
  <["/data.local/z.yaml"%string := (1, with_mode mode_override src_operator "/data.local/z.yaml")]> (overlaid mode_extend).

Lemma overlay_modes_witness :
  (forall m, first_pass (overlaid mode_override) !! "mtk_lk"%string = Some m -> 80 <= source_rank m) /\
  first_pass (overlaid mode_extend) !! "mtk_lk"%string = Some (with_mode mode_extend src_operator "/data.local/lk.yaml") /\
  first_pass overlaid_twice !! "mtk_lk"%string = Some (with_mode mode_override src_operator "/data.local/z.yaml").
Proof.
  assert (Ec : claimants (overlaid mode_override) "mtk_lk" = [mtk_lk; with_mode mode_override src_operator "/data.local/lk.yaml"]) by by vm_compute.
  split; [|split].
  - intros m Hm. destruct (overlay_modes (overlaid mode_override) "mtk_lk") as [_ H]. rewrite Ec in H.
    apply (H ltac:(intros x [->|[->|[]%not_elem_of_nil]%elem_of_cons]%elem_of_cons; done) m Hm mtk_lk). by left.
  - by vm_compute.
  - by vm_compute.
Defined.

(** ** Two calls on one disk *)

(** The next refresh of the file does nothing. *)
Definition fresh (st : catalog) (f : yaml_file) : Prop :=
  f.(f_mtime) = None \/ st.(failed_mtime) !! f.(f_path) = f.(f_mtime) \/ fst <$> st.(cache) !! f.(f_path) = f.(f_mtime).

Lemma refresh_fresh (st : catalog) (t : tree) (f : yaml_file) : fresh st f -> _refresh st t f = (st, false).
Proof.
  unfold _refresh. intros [->|[H|H]]; [done|..]; (destruct (f_mtime f) as [mt|]; [|done]); rewrite H.
  - by rewrite bool_decide_eq_true_2.
  - case_bool_decide; [done|]. by rewrite bool_decide_eq_true_2.
Qed.

Lemma refresh_settles (st : catalog) (t : tree) (f : yaml_file) :
  (_refresh st t f).2 = false -> fresh (_refresh st t f).1 f.
Proof.
  unfold _refresh, fresh. destruct (f_mtime f) as [mt|]; [|by left]. case_bool_decide as H1; [by right; left|].
  case_bool_decide as H2; [by right; right|].
  destruct (f_doc f), (loaded t f); try done; intros _; cbn [fst cache failed_mtime]; rewrite ?lookup_insert_eq; auto.
Qed.

Lemma refresh_fresh_ne (st : catalog) (t : tree) (f g : yaml_file) :
  g.(f_path) <> f.(f_path) -> fresh st f -> fresh (_refresh st t g).1 f.
Proof.
  intros Hp H. unfold _refresh. destruct (f_mtime g) as [mt|]; [|done]. repeat (case_bool_decide; [done|]).
  destruct (f_doc g), (loaded t g); try done; unfold fresh in *; cbn [fst cache failed_mtime];
    by rewrite ?lookup_insert_ne, ?lookup_delete_ne by done.
Qed.

Definition paths_of (files : list (tree * yaml_file)) : list string := (fun e : tree * yaml_file => e.2.(f_path)) <$> files.

Lemma refresh_all_settles (st : catalog) (files : list (tree * yaml_file)) :
  NoDup (paths_of files) -> (refresh_all st files).2 = false ->
  (forall t f, (t, f) ∈ files -> fresh (refresh_all st files).1 f) /\
  (forall f, f.(f_path) ∉ paths_of files -> fresh st f -> fresh (refresh_all st files).1 f).
Proof.
  revert st. induction files as [|[t f] files IH]; intros st Hn Hr; [split; [by intros t f ?%not_elem_of_nil|done]|].
  apply NoDup_cons in Hn as [Hf Hn]. cbn [refresh_all] in *. pose proof (refresh_settles st t f) as Hs.
  pose proof (refresh_fresh_ne st t) as Hne. destruct (_refresh st t f) as [st' []] eqn:E; [done|]. cbn [fst snd] in *.
  destruct (IH st' Hn Hr) as [I1 I2]. split.
  - intros t' f' [[= -> ->]|Hin]%elem_of_cons; [|by apply (I1 t')]. apply I2; [done|by apply Hs].
  - intros f' Hp Hfr. apply not_elem_of_cons in Hp as [Hp1 Hp2]. apply I2; [done|].
    specialize (Hne f' f). rewrite E in Hne. by apply Hne.
Qed.

Lemma refresh_all_fresh (st : catalog) (files : list (tree * yaml_file)) :
  (forall t f, (t, f) ∈ files -> fresh st f) -> refresh_all st files = (st, false).
Proof.
  intros H. induction files as [|[t f] files IH]; [done|]. cbn [refresh_all].
  rewrite (refresh_fresh st t f) by (apply (H t); by left). apply IH. intros t' f' Hin. apply (H t'). by right.
Qed.

(** What a call leaves: every file of the disk is fresh, and nothing else is remembered. *)
Definition settled_on (st : catalog) (d : disk) : Prop :=
  (forall t f, (t, f) ∈ all_walked d -> fresh st f) /\
  (forall p e, st.(cache) !! p = Some e -> p ∈ paths_of (all_walked d)) /\
  (forall p e, st.(failed_mtime) !! p = Some e -> p ∈ paths_of (all_walked d)).

Lemma get_catalog_settles (plugins : registry) (st : catalog) (d : disk) (ids : by_id) :
  NoDup (paths_of (all_walked d)) -> (get_catalog plugins st d).2 = Some ids -> settled_on (get_catalog plugins st d).1 d.
Proof.
  intros Hn. unfold get_catalog. pose proof (refresh_all_settles st (all_walked d) Hn) as H.
  destruct (refresh_all st (all_walked d)) as [st' []]; [done|]. intros _. cbn [fst snd] in *. destruct (H eq_refl) as [H1 _].
  unfold settled_on, drop_vanished, fresh in *. cbn [cache failed_mtime]. split_and!.
  - intros t f Hin. assert (Hp : f.(f_path) ∈ paths_of (all_walked d)) by (apply list_elem_of_fmap; by exists (t, f)).
    destruct (H1 t f Hin) as [?|[Hf|Hf]]; [by left|right; left|right; right].
    + destruct (f_mtime f) as [mt|] eqn:Em.
      * apply map_lookup_filter_Some. by split.
      * apply map_lookup_filter_None. by left.
    + destruct (cache st' !! f.(f_path)) as [e|] eqn:Ee; cbn in Hf.
      * rewrite (proj2 (map_lookup_filter_Some _ _ _ e)); [done|]. by split.
      * rewrite (proj2 (map_lookup_filter_None _ _ _)); [done|]. by left.
  - by intros p e [_ Hp]%map_lookup_filter_Some.
  - by intros p e [_ Hp]%map_lookup_filter_Some.
Qed.

Lemma settled_again (plugins : registry) (st : catalog) (d : disk) :
  settled_on st d -> get_catalog plugins st d = (st, Some (_build_validated_catalog plugins st.(cache))).
Proof.
  intros (H1 & H2 & H3). unfold get_catalog. rewrite refresh_all_fresh by done. unfold drop_vanished.
  fold (paths_of (all_walked d)).
  rewrite (map_filter_id _ st.(cache)) by exact H2. rewrite (map_filter_id _ st.(failed_mtime)) by exact H3. by destruct st.
Qed.

(** The second call of [get_catalog] on a disk, after a snapshot was answered, changes
    nothing and answers what the first one did. *)
Lemma snapshot_then_catalog (digest : list FileFormatManifest -> string) (plugins : registry) (time_ns : Z) (st : catalog) (d : disk)
    (ids : by_id) :
  NoDup (paths_of (all_walked d)) -> (get_catalog plugins st d).2 = Some ids ->
  let st' := (get_snapshot digest plugins time_ns st d).1 in get_catalog plugins st' d = (st', Some ids).
Proof.
  intros Hn Hids. pose proof (get_catalog_settles plugins st d ids Hn Hids) as Hs. cbv zeta.
  assert (Hids' : ids = _build_validated_catalog plugins (get_catalog plugins st d).1.(cache)).
  { unfold get_catalog in *. destruct (refresh_all _ _) as [st' []]; [done|]. by injection Hids. }
  rewrite Hids', <- (get_snapshot_cache digest plugins time_ns). apply settled_again.
  unfold settled_on, fresh, get_snapshot in *. destruct (get_catalog plugins st d) as [st' [ids'|]]; [|done]. cbn [fst] in *.
  destruct (cached_snapshot st'); [case_bool_decide|]; exact Hs.
Qed.

(** The manifests of any answer passed validation and are filed under their identifiers. *)
Lemma catalog_manifests_ok (digest : list FileFormatManifest -> string) (calls : list call) (plugins : registry) (d : disk) (ids : by_id) :
  (get_catalog plugins (history digest calls) d).2 = Some ids ->
  forall id m, ids !! id = Some m -> m.(format_id) = id /\ manifest_ok m = true.
Proof.
  assert (Hl : forall t f m (mt : Z), (fun _ _ => True) t f -> loaded t f = Some m ->
     (fun (_ : string) (e : Z * FileFormatManifest) => manifest_ok e.2 = true) f.(f_path) (mt, m)).
  { intros t f m mt _. unfold loaded. destruct (f_doc f) as [| |m']; try done. destruct (_ && _) eqn:E; [|done].
    intros [= <-]. by apply andb_true_iff in E as [E _]. }
  pose proof (get_catalog_entries _ (fun _ _ => True) Hl plugins _ d ltac:(by intros ? ? ?)
    (history_entries _ _ Hl digest calls ltac:(by intros))) as Hc.
  unfold get_catalog in *. destruct (refresh_all _ _) as [st []]; [done|]. cbn [fst snd] in *. intros [= <-] id m Hm.
  apply build_elem in Hm as (Hid & p & mt & Hp). split; [done|]. by apply (Hc p (mt, m)).
Qed.
