(* ===== verification/YamlCache.v ===== *)
(** * Hot-reloaded YAML files ([utils/yaml_cache.py])

    [MtimeCachedYamlLoader], generic in the parser of its file and in its defaults, as a
    state that every call reads and writes: one call is one step, since the lock is held
    throughout.  What the file system answers during a call is the argument of the call.
    The flags that keep a log line from repeating are left out; [last_warning], which a
    tool reports, is kept. *)

From S2P Require Import Prelude PyText Json.
From Stdlib Require Import Ascii String.
Import (notations) Ascii String.
#[local] Open Scope Z_scope.

(** ** One view of the file *)

(** What opening, decoding and parsing the file gives.  [yaml.YAMLError] and [OSError] are
    caught; a byte sequence that is not UTF-8 raises [UnicodeDecodeError], which is neither. *)
Inductive yaml_content :=
  | ReadError (exc : string)
  | DecodeError
  | Document (raw : json).

Inductive stat_result :=
  | Missing
  | StatError (exc : string)
  | Found (mtime_ns : Z) (content : yaml_content).

(** The path the resolver returns, and what is there. *)
Record view := { v_path : string; v_stat : stat_result }.

Definition type_name (v : json) : string :=
  match v with
  | JNull => "NoneType" | JBool _ => "bool" | JInt _ => "int" | JFloat _ => "float"
  | JStr _ => "str" | JList _ => "list" | JDict _ => "dict"
  end.

(** ** The loader *)

Section Loader.
Context {T : Type} (_parser : pydict -> res string T) (_defaults : T).

Record loader := {
  _cached : T;
  _cached_mtime_ns : option Z;
  _loaded_from_yaml : bool;
  _loaded_path : option string;
  stat_count : Z;
  reload_count : Z;
  last_warning : option string
}.

Definition new_loader : loader :=
  {| _cached := _defaults; _cached_mtime_ns := None; _loaded_from_yaml := false; _loaded_path := None;
     stat_count := 0; reload_count := 0; last_warning := None |}.

(** The counter, and the reset when the resolver names another file than the last load. *)
Definition enter (s : loader) (path : string) : loader :=
  let swapped := match s.(_loaded_path) with Some p => negb (bool_decide (path = p)) | None => false end in
  {| _cached := s.(_cached); _cached_mtime_ns := if swapped then None else s.(_cached_mtime_ns);
     _loaded_from_yaml := negb swapped && s.(_loaded_from_yaml); _loaded_path := s.(_loaded_path);
     stat_count := s.(stat_count) + 1; reload_count := s.(reload_count); last_warning := s.(last_warning) |}.

Definition warn (s : loader) (w : string) : loader :=
  {| _cached := s.(_cached); _cached_mtime_ns := s.(_cached_mtime_ns); _loaded_from_yaml := s.(_loaded_from_yaml);
     _loaded_path := s.(_loaded_path); stat_count := s.(stat_count); reload_count := s.(reload_count);
     last_warning := Some w |}.

Definition _handle_missing (s : loader) (path : string) : loader :=
  if s.(_loaded_from_yaml) then warn s ("file vanished after successful load: " +:+ path) else s.

(** A failed reload: the value stays, the cursor moves. *)
Definition keep (s : loader) (mtime_ns : Z) (w : string) : loader :=
  {| _cached := s.(_cached); _cached_mtime_ns := Some mtime_ns; _loaded_from_yaml := s.(_loaded_from_yaml);
     _loaded_path := s.(_loaded_path); stat_count := s.(stat_count); reload_count := s.(reload_count);
     last_warning := Some w |}.

Definition swap (s : loader) (path : string) (mtime_ns : Z) (value : T) : loader :=
  {| _cached := value; _cached_mtime_ns := Some mtime_ns; _loaded_from_yaml := true; _loaded_path := Some path;
     stat_count := s.(stat_count); reload_count := s.(reload_count) + 1; last_warning := None |}.

(** The value of a document, or why there is none. *)
Definition parsed (raw : json) : res string T :=
  match raw with
  | JNull => _parser []
  | JDict d => _parser d
  | _ => Err ("top-level must be a mapping, got " +:+ type_name raw)
  end.

(** The second component is [true] when an exception leaves the call. *)
Definition _reload (s : loader) (path : string) (mtime_ns : Z) (content : yaml_content) : loader * bool :=
  match content with
  | DecodeError => (s, true)
  | ReadError exc => (keep s mtime_ns exc, false)
  | Document raw =>
      match parsed raw with
      | Ok value => (swap s path mtime_ns value, false)
      | Err exc => (keep s mtime_ns exc, false)
      end
  end.

(** [get]: the next state, and the value unless an exception leaves the call. *)
Definition get (s : loader) (v : view) : loader * option T :=
  let s := enter s v.(v_path) in
  let '(s, raised) :=
    match v.(v_stat) with
    | Missing => (_handle_missing s v.(v_path), false)
    | StatError exc => (warn s exc, false)
    | Found mtime_ns content =>
        if bool_decide (s.(_cached_mtime_ns) = Some mtime_ns) && s.(_loaded_from_yaml) then (s, false)
        else _reload s v.(v_path) mtime_ns content
    end in
  (s, if raised then None else Some s.(_cached)).

Definition cache_clear (s : loader) : loader :=
  {| _cached := _defaults; _cached_mtime_ns := None; _loaded_from_yaml := false; _loaded_path := s.(_loaded_path);
     stat_count := 0; reload_count := 0; last_warning := None |}.

(** The field [status] of [surface_state_payload]. *)
Definition surface_status (s : loader) : string :=
  match s.(last_warning) with
  | Some _ => "malformed_fallback"
  | None => if s.(_loaded_from_yaml) then "loaded" else "defaults"
  end.

(** ** Runs *)

Inductive op := Get (v : view) | Clear.

Definition apply (s : loader) (o : op) : loader * option T :=
  match o with
  | Get v => get s v
  | Clear => (cache_clear s, None)
  end.

(** The replies to a list of operations, and the state they leave. *)
Fixpoint run (s : loader) (ops : list op) : loader * list (option T) :=
  match ops with
  | [] => (s, [])
  | o :: ops =>
      let '(s, r) := apply s o in
      let '(s, rs) := run s ops in (s, r :: rs)
  end.

(** *** The specification: no cache at all

    The value is that of the last view that could be read and parsed. *)
Definition good_value (v : view) : option T :=
  match v.(v_stat) with
  | Found _ (Document raw) => match parsed raw with Ok value => Some value | Err _ => None end
  | _ => None
  end.

Definition undecodable (v : view) : bool :=
  match v.(v_stat) with Found _ DecodeError => true | _ => false end.

Definition spec_step (value : T) (o : op) : T * option T :=
  match o with
  | Clear => (_defaults, None)
  | Get v => let value := default value (good_value v) in (value, if undecodable v then None else Some value)
  end.

Fixpoint spec_run (value : T) (ops : list op) : T * list (option T) :=
  match ops with
  | [] => (value, [])
  | o :: ops =>
      let '(value, r) := spec_step value o in
      let '(value, rs) := spec_run value ops in (value, r :: rs)
  end.

(** The views of a run: all of one path, and every change of the file gives it another
    modification time. *)
Definition found (o : op) : option (Z * yaml_content) :=
  match o with
  | Get v => match v.(v_stat) with Found mtime content => Some (mtime, content) | _ => None end
  | Clear => None
  end.

Definition on_path (path : string) (o : op) : Prop :=
  match o with Get v => v.(v_path) = path | Clear => True end.

Definition one_file (path : string) (ops : list op) : Prop :=
  Forall (on_path path) ops /\
  forall o o' mtime c c', o ∈ ops -> o' ∈ ops -> found o = Some (mtime, c) -> found o' = Some (mtime, c') -> c = c'.

(** What ties a state to the specification, after operations that saw [seen]. *)
Record tied (path : string) (seen : Z -> yaml_content -> Prop) (s : loader) (value : T) : Prop := {
  tied_value : s.(_cached) = value;
  tied_path : s.(_loaded_path) = None \/ s.(_loaded_path) = Some path;
  tied_cursor : forall mtime, s.(_cached_mtime_ns) = Some mtime -> s.(_loaded_from_yaml) = true ->
    exists c, seen mtime c /\ undecodable {| v_path := path; v_stat := Found mtime c |} = false /\
              default value (good_value {| v_path := path; v_stat := Found mtime c |}) = value
}.

Lemma enter_same (path : string) (s : loader) :
  s.(_loaded_path) = None \/ s.(_loaded_path) = Some path ->
  (enter s path).(_cached) = s.(_cached) /\ (enter s path).(_cached_mtime_ns) = s.(_cached_mtime_ns) /\
  (enter s path).(_loaded_from_yaml) = s.(_loaded_from_yaml) /\ (enter s path).(_loaded_path) = s.(_loaded_path).
Proof. intros [H|H]; unfold enter; rewrite H; cbn; rewrite ?bool_decide_eq_true_2 by done; done. Qed.

Lemma get_tied (path : string) (seen : Z -> yaml_content -> Prop) (s : loader) (value : T) (v : view) :
  tied path seen s value -> v.(v_path) = path ->
  (forall mtime c c', seen mtime c -> v.(v_stat) = Found mtime c' -> c = c') ->
  tied path (fun mtime c => seen mtime c \/ v.(v_stat) = Found mtime c) (get s v).1 (default value (good_value v)) /\
  (get s v).2 = if undecodable v then None else Some (default value (good_value v)).
Proof.
  intros [H1 H2 H3] Hp Hc. destruct v as [vp vs]. cbn in Hp. subst vp.
  destruct (enter_same path s H2) as (E1 & E2 & E3 & E4). unfold get, good_value, undecodable. cbn [v_path v_stat] in *.
  set (s0 := enter s path) in *. rewrite <- E1 in H1. rewrite <- E4 in H2. rewrite <- E2, <- E3 in H3. clearbody s0. clear E1 E2 E3 E4 s.
  assert (Hsame : tied path (fun mtime c => seen mtime c \/ vs = Found mtime c) s0 value).
  { split; [done..|]. intros mtime Hm Hl. destruct (H3 mtime Hm Hl) as (c & Hs & Hd & Hg). exists c. split_and!; [by left|done..]. }
  assert (Hwarn : forall w, tied path (fun mtime c => seen mtime c \/ vs = Found mtime c) (warn s0 w) value).
  { intros w. destruct Hsame as [A B C]. by split. }
  destruct vs as [|exc|mtime c]; [|by split; [apply Hwarn|cbn; congruence]|].
  - unfold _handle_missing. destruct (_loaded_from_yaml s0); split; (apply Hwarn || apply Hsame || cbn; congruence).
  - destruct (bool_decide _ && _) eqn:E.
    + apply andb_true_iff in E as [E%bool_decide_eq_true El]. destruct (H3 mtime E El) as (c' & Hs & Hd & Hg).
      rewrite <- (Hc mtime c' c Hs eq_refl). unfold good_value, undecodable in Hg, Hd. cbn [v_stat] in Hg, Hd.
      rewrite Hg, Hd. split; [|cbn; congruence].
      destruct Hsame as [A B C]. split; [done..|]. intros mt Hm Hl. destruct (H3 mt Hm Hl) as (c2 & ? & ? & ?).
      exists c2. split_and!; [by left|done..].
    + assert (Hkeep : forall w, undecodable {| v_path := path; v_stat := Found mtime c |} = false ->
        default value (good_value {| v_path := path; v_stat := Found mtime c |}) = value ->
        tied path (fun mt c' => seen mt c' \/ Found mtime c = Found mt c') (keep s0 mtime w) value).
      { intros w Hu Hg. split; [done|done|]. intros mt [= <-] _. exists c. split_and!; [by right|done..]. }
      destruct c as [exc| |raw]; cbn [_reload].
      * split; [by apply Hkeep|cbn; congruence].
      * split; [apply Hsame|done].
      * unfold good_value, undecodable in *. cbn [v_stat] in *. destruct (parsed raw) as [x|w] eqn:Ep.
        -- split; [|done]. split; [done|by right|]. intros mt [= <-] _. exists (Document raw).
           unfold good_value, undecodable. cbn [v_stat]. rewrite Ep. split_and!; [by right|done..].
        -- split; [by apply Hkeep|cbn; congruence].
Qed.

Lemma apply_tied (path : string) (seen : Z -> yaml_content -> Prop) (s : loader) (value : T) (o : op) :
  tied path seen s value -> on_path path o ->
  (forall mtime c c', seen mtime c -> found o = Some (mtime, c') -> c = c') ->
  tied path (fun mtime c => seen mtime c \/ found o = Some (mtime, c)) (apply s o).1 (spec_step value o).1 /\
  (apply s o).2 = (spec_step value o).2.
Proof.
  intros Ht Hp Hc. destruct o as [v|].
  - destruct (get_tied path seen s value v Ht Hp) as [H1 H2].
    { intros mtime c c' Hs Hv. apply (Hc mtime c c' Hs). cbn. by rewrite Hv. }
    split; [|done]. destruct H1 as [A B C]. split; [done..|]. intros mtime Hm Hl.
    destruct (C mtime Hm Hl) as (c & [Hs|Hs] & ? & ?); exists c; (split_and!; [|done..]); [by left|right; cbn; by rewrite Hs].
  - split; [|done]. destruct Ht as [A B C]. by split.
Qed.

Lemma run_tied (path : string) (ops : list op) (seen : Z -> yaml_content -> Prop) (s : loader) (value : T) :
  tied path seen s value -> one_file path ops ->
  (forall o mtime c c', o ∈ ops -> seen mtime c -> found o = Some (mtime, c') -> c = c') ->
  (run s ops).2 = (spec_run value ops).2.
Proof.
  revert seen s value. induction ops as [|o ops IH]; intros seen s value Ht [Hp Hc] Hs; [done|].
  apply Forall_cons in Hp as [Hp1 Hp]. cbn [run spec_run].
  destruct (apply_tied path seen s value o Ht Hp1) as [H1 H2]; [intros mtime c c'; apply Hs; by left|].
  destruct (apply s o) as [s' r], (spec_step value o) as [value' r']. cbn [fst snd] in *. subst r'.
  specialize (IH _ s' value' H1). destruct (run s' ops) as [s2 rs], (spec_run value' ops) as [value2 rs']. cbn [snd] in *.
  f_equal. apply IH.
  - split; [done|]. intros o1 o2 mtime c c' Ho1 Ho2. apply Hc; by right.
  - intros o' mtime c c' Ho' [Hseen|Hf] Hf'; [by apply (Hs o' mtime c c'); [right| |]|].
    apply (Hc o o' mtime c c'); [by left|by right|done..].
Qed.

(** C39. The cache cannot be observed.  In any run of [get] and [cache_clear] over one file
    every change of which gives it another modification time, the replies are those of a
    loader without a cache: the value of the last view that could be read and parsed, the
    defaults before the first and after a clear; a file that vanishes, fails or is
    malformed changes nothing.  Only bytes that are not UTF-8 let an exception out of the
    call. *)
Theorem loader_serves_last_good (path : string) (ops : list op) :
  one_file path ops -> (run new_loader ops).2 = (spec_run _defaults ops).2.
Proof.
  intros H. apply (run_tied path ops (fun _ _ => False)); [|done|done]. split; [done|by left|done].
Qed.

(** A view whose content is good for no value. *)
Definition malformed (v : view) : Prop := good_value v = None /\ undecodable v = false.

(** The cursor, whatever the path and the history: after a load from YAML a malformed
    version is read once - until its modification time changes the next call returns the
    earlier value whatever the file holds; but before the first load the cursor is not
    consulted, and every call reads and parses the malformed file again. *)
Theorem malformed_read_once (s : loader) (path : string) (mtime : Z) (c c' : yaml_content) :
  let v x := {| v_path := path; v_stat := Found mtime x |} in
  let s1 := (get s (v c)).1 in
  malformed (v c) ->
  (s.(_loaded_from_yaml) = true -> s.(_loaded_path) = Some path -> s.(_cached_mtime_ns) <> Some mtime ->
   get s1 (v c') = (enter s1 path, Some s.(_cached))) /\
  (s.(_loaded_from_yaml) = false ->
   s1.(_cached) = s.(_cached) /\ (get s1 (v c')).2 = if undecodable (v c') then None else Some (default s.(_cached) (good_value (v c')))).
Proof.
  intros v s1 [Hg Hu]. unfold good_value, undecodable in *. cbn [v_stat v] in *.
  assert (Hr : forall t, exists w, _reload t path mtime c = (keep t mtime w, false)).
  { intros t. unfold _reload. destruct c as [exc| |raw]; [by eexists|done|]. destruct (parsed raw); [done|by eexists]. }
  split.
  - intros Hl Hp Hm. destruct (enter_same path s (or_intror Hp)) as (E1 & E2 & E3 & E4).
    assert (Hs1 : exists w, s1 = keep (enter s path) mtime w).
    { unfold s1, get. cbn [v v_path v_stat]. rewrite E2, E3, Hl, (bool_decide_eq_false_2 _ Hm). cbn [andb].
      destruct (Hr (enter s path)) as [w ->]. by exists w. }
    destruct Hs1 as [w ->].
    destruct (enter_same path (keep (enter s path) mtime w)) as (F1 & F2 & F3 & _); [right; cbn [keep _loaded_path]; congruence|].
    unfold get. cbn [v v_path v_stat]. set (t := keep (enter s path) mtime w) in *. rewrite F2, F3.
    change (_cached_mtime_ns t) with (Some mtime). change (_loaded_from_yaml t) with (_loaded_from_yaml (enter s path)).
    rewrite E3, Hl, (bool_decide_eq_true_2 _ eq_refl). cbn [andb].
    rewrite F1. change (_cached t) with (_cached (enter s path)). by rewrite E1.
  - intros Hl. assert (E : exists t w, s1 = keep t mtime w /\ _cached t = _cached s /\ _loaded_from_yaml t = false).
    { unfold s1, get, v. cbn [v_stat v_path]. assert (El : _loaded_from_yaml (enter s path) = false) by (cbn; by rewrite Hl, andb_false_r).
      rewrite El, andb_false_r. destruct (Hr (enter s path)) as [w ->]. by exists (enter s path), w. }
    destruct E as (t & w & -> & Hc & Ht). split; [done|]. unfold get. cbn [v v_path v_stat].
    assert (El : _loaded_from_yaml (enter (keep t mtime w) path) = false) by (cbn; by rewrite Ht, andb_false_r).
    rewrite El, andb_false_r. unfold _reload. destruct c' as [exc| |raw]; [cbn; by rewrite Hc|done|].
    destruct (parsed raw); cbn; by rewrite ?Hc.
Qed.

End Loader.

(** ** Runs of a small loader *)

Definition count_patterns (d : pydict) : res string nat :=
  match dict_get "patterns" d with
  | Some (JList l) => Ok (List.length l)
  | _ => Err "ValueError: 'patterns' must be a list"
  end.

Definition patterns_doc (n : nat) : yaml_content := Document (JDict [("patterns", JList (replicate n JNull))]).
Definition at_mtime (mtime : Z) (c : yaml_content) : op := Get {| v_path := "/p.yaml"; v_stat := Found mtime c |}.
Definition gone : op := Get {| v_path := "/p.yaml"; v_stat := Missing |}.

(** Loaded, edited, broken, vanished, broken still, and cleared. *)
Definition small_run : list op :=
  [gone; at_mtime 1 (patterns_doc 3); at_mtime 2 (patterns_doc 4); at_mtime 3 (Document (JList [])); gone;
   at_mtime 3 (Document (JList [])); Clear; at_mtime 3 (Document (JList []))].

Lemma loader_serves_last_good_witness :
  one_file "/p.yaml" small_run /\
  (run count_patterns 0%nat (new_loader 0%nat) small_run).2 =
    [Some 0; Some 3; Some 4; Some 4; Some 4; Some 4; None; Some 0]%nat.
Proof.
  assert (H : one_file "/p.yaml" small_run).
  { split; [by repeat constructor|]. unfold small_run. intros o o' mtime c c' Ho Ho' Hf Hf'.
    repeat (apply elem_of_cons in Ho as [->|Ho]; [|]); try (by apply not_elem_of_nil in Ho); cbn in Hf; simplify_eq;
      repeat (apply elem_of_cons in Ho' as [->|Ho']; [|]); try (by apply not_elem_of_nil in Ho'); cbn in Hf'; by simplify_eq. }
  split; [exact H|]. rewrite (loader_serves_last_good count_patterns 0%nat "/p.yaml" small_run H). by vm_compute.
Defined.

(** What a first load leaves. *)
Definition warm : loader (T := nat) := (get count_patterns (new_loader 0%nat) {| v_path := "/p.yaml"; v_stat := Found 1 (patterns_doc 3) |}).1.

Lemma malformed_read_once_witness :
  let bad := {| v_path := "/p.yaml"; v_stat := Found 2 (Document JNull) |} in
  let good := {| v_path := "/p.yaml"; v_stat := Found 2 (patterns_doc 5) |} in
  (get count_patterns (get count_patterns warm bad).1 good).2 = Some 3%nat /\
  (get count_patterns (get count_patterns (new_loader 0%nat) bad).1 good).2 = Some 5%nat.
Proof.
  split.
  - destruct (malformed_read_once count_patterns warm "/p.yaml" 2 (Document JNull) (patterns_doc 5)) as [H _]; [done|].
    by rewrite H.
  - destruct (malformed_read_once count_patterns (new_loader 0%nat) "/p.yaml" 2 (Document JNull) (patterns_doc 5)) as [_ H]; [done|].
    destruct H as [_ H]; [done|]. by rewrite H.
Defined.

(** A file that vanished and came back unchanged is served, and reported as malformed. *)
Example stale_warning :
  let v := {| v_path := "/p.yaml"; v_stat := Found 1 (patterns_doc 3) |} in
  let s := (get count_patterns (get count_patterns warm {| v_path := "/p.yaml"; v_stat := Missing |}).1 v).1 in
  s.(_cached) = 3%nat /\ s.(_cached_mtime_ns) = Some 1 /\ surface_status s = "malformed_fallback".
Proof. by vm_compute. Qed.
