(* ===== verification/HwPatterns.v ===== *)
(** * File-name and path rules of firmware ([services/hardware_firmware/patterns_loader.py])

    The parsers of vendor_prefixes.yaml, of the two lists of firmware_patterns.yaml and of
    bt_realtek_project_ids.yaml, and the accessors over the tables they give.  A compiled
    regular expression is the predicate [search] on text; compiling is an argument, since
    the expressions come from files.  Entries that are skipped are only logged. *)

From S2P Require Import Prelude PyText Json Sorting YamlCache.
From Stdlib Require Import Ascii String.
Import (notations) Ascii String.
#[local] Open Scope Z_scope.

Definition _CORE_VENDORS : list string :=
  ["qualcomm"; "mediatek"; "samsung"; "broadcom"; "nvidia"; "imagination"; "arm"; "apple"; "cypress"; "unisoc";
   "hisilicon"; "intel"; "realtek"; "unknown"].

Record PatternMatch := {
  pm_vendor : string;
  pm_category : string;
  pm_product : option string;
  pm_confidence : string;
  pm_source : option string;
  pm_format : string
}.

Record PathContextMatch := {
  pc_vendor : string;
  pc_category : string;
  pc_product : option string;
  pc_confidence : string;
  pc_priority : Z
}.

Record _VendorTable := {
  canonical : gset string;
  aliases : list (string * string);
  display : list (string * string)
}.

(** ** Fields of an entry *)

(** [entry.get(k)]. *)
Definition field (d : pydict) (k : string) : json := default JNull (dict_get k d).

(** [raw.get(k) or []], which is to be a list. *)
Definition list_field (d : pydict) (k : string) : option (list json) :=
  let v := field d k in
  if py_truthy v then match v with JList l => Some l | _ => None end else Some [].

Definition as_str (v : json) : option string := match v with JStr s => Some s | _ => None end.

(** [v.strip() if isinstance(v, str) and v.strip() else None]. *)
Definition text_of (v : json) : option string :=
  match v with JStr s => if truthy (Some (strip s)) then Some (strip s) else None | _ => None end.

(** [str(v or dflt).strip().lower()]. *)
Definition word_of (v : json) (dflt : string) : string := lower (strip (if py_truthy v then py_str v else dflt)).

Definition confidence_field (d : pydict) : string :=
  let c := word_of (field d "confidence") "medium" in
  if bool_decide (c ∈ ["high"; "medium"; "low"]) then c else "medium".

(** ** Vendors *)

Definition set_default (d : list (string * string)) (kv : string * string) : list (string * string) :=
  if dict_has kv.1 d then d else dict_set kv.1 kv.2 d.

Definition fallback_display : list (string * string) :=
  [("qualcomm", "Qualcomm Technologies, Inc."); ("mediatek", "MediaTek Inc."); ("nvidia", "NVIDIA Corporation");
   ("realtek", "Realtek Semiconductor Corp."); ("unknown", "Unknown Vendor")].

Definition add_alias (prefix : string) (m : list (string * string)) (a : json) : list (string * string) :=
  let a_str := word_of a "" in
  if truthy (Some a_str) && negb (bool_decide (a_str = prefix)) then dict_set a_str prefix m else m.

Definition add_vendor (t : _VendorTable) (entry : json) : _VendorTable :=
  match entry with
  | JDict e =>
      let prefix := word_of (field e "prefix") "" in
      if truthy (Some prefix) then
        {| canonical := {[prefix]} ∪ t.(canonical);
           aliases := match list_field e "aliases" with
                      | Some l => foldl (add_alias prefix) t.(aliases) l
                      | None => t.(aliases)
                      end;
           display := match text_of (field e "display") with
                      | Some disp => dict_set prefix disp t.(display)
                      | None => t.(display)
                      end |}
      else t
  | _ => t
  end.

Definition _parse_vendors_data (raw : pydict) : res string _VendorTable :=
  match list_field raw "vendors" with
  | None => Err "ValueError: 'vendors' must be a list"
  | Some entries =>
      let t := foldl add_vendor {| canonical := list_to_set _CORE_VENDORS; aliases := []; display := [] |} entries in
      Ok {| canonical := t.(canonical); aliases := t.(aliases);
            display := foldl set_default t.(display) fallback_display |}
  end.

Definition resolve_vendor (table : _VendorTable) (name : option string) : string :=
  match name with
  | None | Some "" => "unknown"
  | Some name => let key := lower (strip name) in dict_get_or key key table.(aliases)
  end.

(** ** Patterns *)

Section Regex.
(** [re.compile(p, re.IGNORECASE)] with its [search]; [None]: [re.error]. *)
Context (compile : string -> option (string -> bool)).

Definition _PatternEntry : Type := (string -> bool) * PatternMatch.
Definition _PathContextEntry : Type := (string -> bool) * option (string -> bool) * PathContextMatch.

Definition pattern_entry (entry : json) : option _PatternEntry :=
  match entry with
  | JDict e =>
      pat ← as_str (field e "pattern"); vendor ← as_str (field e "vendor"); category ← as_str (field e "category");
      rx ← compile pat;
      Some (rx, {| pm_vendor := lower (strip vendor); pm_category := lower (strip category);
                   pm_product := text_of (field e "product"); pm_confidence := confidence_field e;
                   pm_source := text_of (field e "source");
                   pm_format := default "raw_bin" (text_of (field e "format")) |})
  | _ => None
  end.

Definition _parse_patterns_data (raw : pydict) : res string (list _PatternEntry) :=
  match list_field raw "patterns" with
  | None => Err "ValueError: 'patterns' must be a list"
  | Some entries => Ok (omap pattern_entry entries)
  end.

(** [filename_pattern]: none given; one that does not compile or is no text skips the entry. *)
Definition filename_rx (v : json) : option (option (string -> bool)) :=
  if py_truthy v then pat ← as_str v; rx ← compile pat; Some (Some rx) else Some None.

(** [int(priority_raw)], 0 where it raises [TypeError] or [ValueError]; [int] of an
    infinity raises [OverflowError], which nothing catches. *)
Definition priority_of (e : pydict) : res string Z :=
  match dict_get_or "priority" (JInt 0) e with
  | JFloat f =>
      match f.(f_trunc) with
      | Some z => Ok z
      | None => if bool_decide (f.(f_repr) = "nan") then Ok 0 else Err "OverflowError: cannot convert float infinity to integer"
      end
  | v => Ok (default 0 (py_int v))
  end.

(** What is needed of an entry before its priority is read. *)
Definition context_parts (entry : json) : option (pydict * (string -> bool) * option (string -> bool) * string * string) :=
  match entry with
  | JDict e =>
      pat ← as_str (field e "path_pattern"); vendor ← as_str (field e "vendor"); category ← as_str (field e "category");
      rx ← compile pat; frx ← filename_rx (field e "filename_pattern");
      Some (e, rx, frx, vendor, category)
  | _ => None
  end.

Fixpoint compiled_contexts (entries : list json) : res string (list _PathContextEntry) :=
  match entries with
  | [] => Ok []
  | entry :: entries =>
      match context_parts entry with
      | None => compiled_contexts entries
      | Some (e, rx, frx, vendor, category) =>
          priority ← priority_of e;
          rest ← compiled_contexts entries;
          Ok ((rx, frx, {| pc_vendor := lower (strip vendor); pc_category := lower (strip category);
                           pc_product := text_of (field e "product"); pc_confidence := confidence_field e;
                           pc_priority := priority |}) :: rest)
      end
  end.

Definition context_key (t : _PathContextEntry) : Z * (string * (string * string)) :=
  (- t.2.(pc_priority), (t.2.(pc_category), (t.2.(pc_vendor), or_str t.2.(pc_product) ""))).

Definition context_le : relation _PathContextEntry :=
  key_rel (lex Z.le (lex String.le (lex String.le String.le))) context_key.

Definition _parse_path_contexts_data (raw : pydict) : res string (list _PathContextEntry) :=
  match list_field raw "path_contexts" with
  | None => Err "ValueError: 'path_contexts' must be a list"
  | Some entries => compiled ← compiled_contexts entries; Ok (sort_by context_le compiled)
  end.
End Regex.

(** [s.rsplit(c, 1)[-1]]. *)
Fixpoint after_last (c : ascii) (s : string) : string :=
  match s with
  | "" => ""
  | String a s' => if has_char c s' then after_last c s' else if is_char c a then s' else s
  end.

Definition backslash : ascii := "\"%char.

(** The first entry whose expression is found in the base name. *)
Definition match_pattern (table : list _PatternEntry) (path : string) : option PatternMatch :=
  match after_last backslash (after_last "/"%char path) with
  | "" => None
  | base => snd <$> find (fun e : _PatternEntry => e.1 base) table
  end.

Definition context_hit (norm base : string) (t : _PathContextEntry) : bool :=
  t.1.1 norm && match t.1.2 with Some rx => rx base | None => true end.

Definition match_path_context (table : list _PathContextEntry) (path : string) : option PathContextMatch :=
  let norm := lower (replace_char backslash "/" path) in
  match after_last "/"%char norm with
  | "" => None
  | base => snd <$> find (context_hit norm base) table
  end.

(** ** Realtek chipsets *)

Record RealtekChipsetEntry := {
  project_id : Z;
  chipset : string;
  rt_display : option string;
  lmp_subver : option Z;
  hci_rev : option Z;
  hci_ver : option Z;
  bus : option string;
  rt_family : option string;
  filename_fw : option string;
  filename_config : option string
}.

Definition hex_digit_value (a : ascii) : option Z :=
  let n := Z.of_N (N_of_ascii (char_lower a)) in
  if is_digit a then Some (n - 48) else if bool_decide (97 <= n <= 102) then Some (n - 87) else None.

Fixpoint hex_digits_value (acc : Z) (last : bool) (s : string) : option Z :=
  match s with
  | "" => if last then None else Some acc
  | String a s' =>
      match hex_digit_value a with
      | Some d => hex_digits_value (16 * acc + d) false s'
      | None => if bool_decide (a = "_"%char) && negb last then hex_digits_value acc true s' else None
      end
  end.

(** [int("0x" + s, 16)]: an underscore may follow the prefix. *)
Definition hex_value_of (s : string) : option Z :=
  match s with
  | "" => None
  | String "_" s' => hex_digits_value 0 true s'
  | _ => hex_digits_value 0 true s
  end.

Definition _coerce_hex_int (v : json) : res string (option Z) :=
  match v with
  | JNull => Ok None
  | JInt z => Ok (Some z)
  | JStr s =>
      let s := lower (strip s) in
      match (if startswith s "0x" then hex_value_of (String.substring 2 (String.length s) s) else py_int_str s) with
      | Some z => Ok (Some z)
      | None => Err "ValueError"
      end
  | _ => Err "ValueError"
  end.

Definition bus_of (v : json) : res string (option string) :=
  match lower <$> text_of v with
  | None => Ok None
  | Some b => if bool_decide (b ∈ ["usb"; "uart"; "both"]) then Ok (Some b) else Err "ValueError"
  end.

Definition chipset_entry (seen : list Z) (entry : json) : res string RealtekChipsetEntry :=
  match entry with
  | JDict e =>
      match field e "project_id" with
      | JInt pid =>
          if (pid <? 0) || (255 <? pid) then Err "ValueError"
          else if bool_decide (pid ∈ seen) then Err "ValueError"
          else match text_of (field e "chipset") with
               | None => Err "ValueError"
               | Some chip =>
                   lmp ← _coerce_hex_int (field e "lmp_subver");
                   rev ← _coerce_hex_int (field e "hci_rev");
                   ver ← _coerce_hex_int (field e "hci_ver");
                   b ← bus_of (field e "bus");
                   Ok {| project_id := pid; chipset := lower chip; rt_display := text_of (field e "display");
                         lmp_subver := lmp; hci_rev := rev; hci_ver := ver; bus := b;
                         rt_family := text_of (field e "family"); filename_fw := text_of (field e "filename_fw");
                         filename_config := text_of (field e "filename_config") |}
               end
      | _ => Err "ValueError"
      end
  | _ => Err "ValueError"
  end.

Fixpoint chipset_entries (seen : list Z) (entries : list json) : res string (list RealtekChipsetEntry) :=
  match entries with
  | [] => Ok []
  | entry :: entries =>
      c ← chipset_entry seen entry;
      rest ← chipset_entries (c.(project_id) :: seen) entries;
      Ok (c :: rest)
  end.

Definition _parse_realtek_data (raw : pydict) : res string (list RealtekChipsetEntry) :=
  match field raw "chipsets" with
  | JList entries => chipset_entries [] entries
  | _ => Err "ValueError: 'chipsets' must be a list"
  end.

Definition get_realtek_chipset_by_project_id (table : list RealtekChipsetEntry) (pid : Z) : option RealtekChipsetEntry :=
  find (fun e => e.(project_id) =? pid) table.

(** ** The table of path contexts *)

Section Contexts.
Context (compile : string -> option (string -> bool)).

(** The rule of one entry of the file, if it is not skipped. *)
Definition context_of (entry : json) : option _PathContextEntry :=
  match context_parts compile entry with
  | Some (e, rx, frx, vendor, category) =>
      match priority_of e with
      | Ok priority => Some (rx, frx, {| pc_vendor := lower (strip vendor); pc_category := lower (strip category);
                                         pc_product := text_of (field e "product"); pc_confidence := confidence_field e;
                                         pc_priority := priority |})
      | Err _ => None
      end
  | None => None
  end.

Lemma compiled_contexts_omap (entries : list json) (l : list _PathContextEntry) :
  compiled_contexts compile entries = Ok l -> l = omap context_of entries.
Proof.
  revert l. induction entries as [|e entries IH]; intros l; cbn [compiled_contexts]; [by intros [= <-]|].
  change (omap context_of (e :: entries)) with
    (match context_of e with Some t => t :: omap context_of entries | None => omap context_of entries end).
  unfold context_of at 1. destruct (context_parts compile e) as [[[[[d rx] frx] v] c]|]; [|apply IH].
  destruct (priority_of d) as [p|]; [|done]. destruct (compiled_contexts compile entries) as [rest|]; [|done].
  intros [= <-]. by rewrite (IH rest).
Qed.

(** The rule found for a path is one of the entries of the file whose expressions are
    found in the normalised path and, if given, in its last component; no such entry has a
    higher priority, and among those of its priority it is first by category, vendor and
    product.  Nothing is found exactly when no entry matches or the path has no last
    component. *)
Theorem match_path_context_best (raw : pydict) (entries : list json) (table : list _PathContextEntry) (path : string) :
  list_field raw "path_contexts" = Some entries -> _parse_path_contexts_data compile raw = Ok table ->
  let norm := lower (replace_char backslash "/" path) in
  let base := after_last "/"%char norm in
  match match_path_context table path with
  | Some m => exists t, t ∈ omap context_of entries /\ t.2 = m /\ context_hit norm base t = true /\
                forall t', t' ∈ omap context_of entries -> context_hit norm base t' = true ->
                  t'.2.(pc_priority) <= m.(pc_priority) /\ context_le t t'
  | None => base = "" \/ forall t, t ∈ omap context_of entries -> context_hit norm base t = false
  end.
Proof.
  intros Hraw Hp. unfold _parse_path_contexts_data in Hp. rewrite Hraw in Hp.
  destruct (compiled_contexts compile entries) as [l|] eqn:E; [|done]. injection Hp as <-.
  apply compiled_contexts_omap in E. subst l. unfold match_path_context.
  set (norm := lower _). destruct (after_last "/" norm) as [|a s] eqn:Eb; [by left|].
  pose proof (find_sorted context_le (context_hit norm (String a s)) (omap context_of entries)) as H.
  destruct (find _ _) as [t|]; cbn [fmap option_fmap option_map]; [|by right].
  destruct H as (Hin & Hhit & Hbest). exists t. split_and!; [done..|]. intros t' Hin' Hhit'. specialize (Hbest t' Hin' Hhit').
  split; [|done]. destruct Hbest as [H1 _]. cbn in H1. lia.
Qed.
End Contexts.

(** Two rules for one path; expressions that are plain text match where they occur. *)
Definition literal (p : string) : option (string -> bool) := Some (contains p).
Definition context_rule (pat category : string) (priority : Z) : json :=
  JDict [("path_pattern", JStr pat); ("vendor", JStr "Unknown"); ("category", JStr category); ("priority", JInt priority)].
Definition two_rules : pydict :=
  [("path_contexts", JList [context_rule "/vendor/" "other" 1; context_rule "/camera/" "camera" 5; JNull])].

Lemma match_path_context_best_witness :
  exists table m, _parse_path_contexts_data literal two_rules = Ok table /\
    match_path_context table "/Vendor\Camera/isp.bin" = Some m /\ m.(pc_category) = "camera" /\
    forall t', t' ∈ omap (context_of literal) [context_rule "/vendor/" "other" 1; context_rule "/camera/" "camera" 5; JNull] ->
      context_hit "/vendor/camera/isp.bin" "isp.bin" t' = true -> t'.2.(pc_priority) <= m.(pc_priority).
Proof.
  destruct (_parse_path_contexts_data literal two_rules) as [table|] eqn:E; [|by vm_compute in E].
  pose proof (match_path_context_best literal two_rules _ table "/Vendor\Camera/isp.bin" eq_refl E) as H.
  destruct (match_path_context table _) as [m|] eqn:Em; [|exfalso; injection E as <-; by vm_compute in Em].
  exists table, m. split_and!; [done..| |].
  - injection E as <-. by vm_compute in Em; simplify_eq.
  - destruct H as (t & _ & _ & _ & H). intros t' Ht Hh. by apply H.
Defined.

(** ** The table of chipsets *)

Lemma chipset_entry_id (seen : list Z) (entry : json) (c : RealtekChipsetEntry) :
  chipset_entry seen entry = Ok c -> 0 <= c.(project_id) <= 255 /\ c.(project_id) ∉ seen.
Proof.
  unfold chipset_entry. destruct entry as [| | | | | |e]; try done. destruct (field e "project_id") as [| |pid| | | |]; try done.
  destruct (_ || _) eqn:Er; [done|]. apply orb_false_iff in Er as [E1 E2]. case_bool_decide as Hs; [done|].
  destruct (text_of _) as [chip|]; [|done].
  destruct (_coerce_hex_int (field e "lmp_subver")) as [lmp|]; [|done].
  destruct (_coerce_hex_int (field e "hci_rev")) as [rev|]; [|done].
  destruct (_coerce_hex_int (field e "hci_ver")) as [ver|]; [|done].
  destruct (bus_of _) as [b|]; [|done]. intros [= <-]. cbn. split; [lia|done].
Qed.

Lemma chipset_entries_ids (seen : list Z) (entries : list json) (table : list RealtekChipsetEntry) :
  chipset_entries seen entries = Ok table ->
  NoDup (project_id <$> table) /\ forall c, c ∈ table -> 0 <= c.(project_id) <= 255 /\ c.(project_id) ∉ seen.
Proof.
  revert seen table. induction entries as [|e entries IH]; intros seen table; cbn [chipset_entries].
  { intros [= <-]. split; [constructor|]. by intros c Hc%not_elem_of_nil. }
  destruct (chipset_entry seen e) as [c|] eqn:Ec; [|done]. cbn [mbind res_bind].
  destruct (chipset_entries _ entries) as [rest|] eqn:Er; [|done]. intros [= <-].
  apply chipset_entry_id in Ec. apply IH in Er as [Hn Hr]. split.
  - rewrite fmap_cons. constructor; [|done]. intros (c' & E & Hc')%list_elem_of_fmap. destruct (Hr c' Hc') as [_ H].
    apply H. rewrite <- E. by left.
  - intros c' [->|Hc']%elem_of_cons; [done|]. destruct (Hr c' Hc') as [H1 H2]. split; [done|]. intros H. apply H2. by right.
Qed.

(** The table read from a file has one row per project id, each a byte, and a look-up
    finds exactly that row. *)
Lemma realtek_table_ok (raw : pydict) (table : list RealtekChipsetEntry) :
  _parse_realtek_data raw = Ok table ->
  NoDup (project_id <$> table) /\ Forall (fun c => 0 <= c.(project_id) <= 255) table /\
  forall c, c ∈ table <-> get_realtek_chipset_by_project_id table c.(project_id) = Some c.
Proof.
  unfold _parse_realtek_data. destruct (field raw "chipsets") as [| | | | |entries|]; try done. intros H.
  apply chipset_entries_ids in H as [Hn Hr]. split_and!; [done|apply Forall_forall; intros c Hc; by apply Hr|].
  intros c. unfold get_realtek_chipset_by_project_id. split.
  - intros Hc. clear Hr. induction table as [|x t IH]; [by apply not_elem_of_nil in Hc|]. cbn [find].
    rewrite fmap_cons in Hn. apply NoDup_cons in Hn as [Hx Hn].
    apply elem_of_cons in Hc as [->|Hc]; [by rewrite Z.eqb_refl|]. destruct (x.(project_id) =? c.(project_id)) eqn:E; [|by apply IH].
    exfalso. apply Hx. apply list_elem_of_fmap. exists c. split; [lia|done].
  - intros [H _]%find_some. by apply list_elem_of_In.
Qed.
