(* ===== verification/MtkLk.v ===== *)
(** * MediaTek LK containers ([services/hardware_firmware/parsers/mediatek_gfh.py])

    The header of an LK record in its two layouts, the walk over the records of a
    container, the table of partition names, and the signature verdict.  Digits and white
    space are those of ASCII. *)

From S2P Require Import Prelude PyText Json.
From Stdlib Require Import Ascii String.
Import (notations) Ascii String.
#[local] Open Scope Z_scope.

Definition _LK_MAGIC : Z := 0x58881688.
Definition _LK_FILE_INFO_MAGIC : Z := 0x58891689.
Definition LK_CONTAINER_HEADER_SIZE : Z := 0x200.
Definition _SUBIMAGE_ALIGNMENT : Z := 16.

(** ** Names *)

Fixpoint until_nul (raw : bytes) : bytes :=
  match raw with
  | [] => []
  | b :: raw => if bool_decide (b = Byte.x00) then [] else b :: until_nul raw
  end.

(** [decode("ascii", errors="ignore")] drops the other bytes. *)
Definition _decode_cstr (raw : bytes) : string :=
  strip (decode_bytes (List.filter (fun b => byteZ b <? 128) (until_nul raw))).

(** The pattern [^[A-Za-z][A-Za-z0-9_\-]{0,30}$], on text that has no white space at its
    end. *)
Definition name_char (a : ascii) : bool :=
  is_lower a || is_upper a || is_digit a || is_char "_"%char a || is_char "-"%char a.
Definition _NAME_RE (s : string) : bool :=
  match s with
  | String a s' => (is_lower a || is_upper a) && forallb name_char (String.list_ascii_of_string s') &&
                   (Z.of_nat (String.length s') <=? 30)
  | "" => false
  end.

(** ** The header of a record *)

Inductive lk_layout := compact | legacy.

Record LkHeader := {
  lk_name : string;
  layout : lk_layout;
  file_info_offset : Z;
  has_file_info_magic : bool
}.

Definition parse_lk_header (data : bytes) : option LkHeader :=
  if zlen data <? 16 then None
  else
    magic_u32 ← u32le data 0;
    file_info_offset ← u32le data 4;
    if negb (magic_u32 =? _LK_MAGIC) then None
    else
      let compact_name := _decode_cstr (zslice 8 16 data) in
      if _NAME_RE compact_name then
        Some {| lk_name := compact_name; layout := compact; file_info_offset := file_info_offset;
                has_file_info_magic := (0x34 <=? zlen data) && bool_decide (u32le data 0x30 = Some _LK_FILE_INFO_MAGIC) |}
      else
        let legacy_name := _decode_cstr (zslice 0x20 0x40 data) in
        if (0x40 <=? zlen data) && _NAME_RE legacy_name then
          Some {| lk_name := legacy_name; layout := legacy; file_info_offset := file_info_offset; has_file_info_magic := false |}
        else
          Some {| lk_name := ""; layout := if file_info_offset <? 64 then compact else legacy;
                  file_info_offset := file_info_offset; has_file_info_magic := false |}.

(** ** The records of a container *)

Record SubImage := {
  si_name : string;
  si_offset : Z;
  payload_size : Z;
  payload_offset : Z;
  is_signature : bool
}.

(** Rounded up: [(end + 15) & ~15]. *)
Definition next_header (payload_end : Z) : Z :=
  Z.land (payload_end + _SUBIMAGE_ALIGNMENT - 1) (Z.lnot (_SUBIMAGE_ALIGNMENT - 1)).

Definition sub_image (data : bytes) (offset : Z) : option SubImage :=
  magic_u32 ← u32le data offset;
  size_u32 ← u32le data (offset + 4);
  if magic_u32 =? _LK_MAGIC then
    let name := _decode_cstr (zslice (offset + 8) (offset + 0x20) data) in
    Some {| si_name := name; si_offset := offset; payload_size := size_u32;
            payload_offset := offset + LK_CONTAINER_HEADER_SIZE; is_signature := bool_decide (name = "cert2") |}
  else None.

(** [safety] counts the records down; the fuel is the bound of the source. *)
Fixpoint walk_from (data : bytes) (safety : nat) (offset : Z) : list SubImage :=
  match safety with
  | O => []
  | S safety =>
      if offset + 0x40 <=? zlen data then
        match sub_image data offset with
        | None => []
        | Some s =>
            let next_off := next_header (s.(payload_offset) + s.(payload_size)) in
            s :: if next_off <=? offset then [] else walk_from data safety next_off
        end
      else []
  end.

Definition walk_sub_images (data : bytes) (max_subimages : nat) : list SubImage := walk_from data max_subimages 0.

(** A signature block and a payload, neither of them empty. *)
Definition signed_from_subimages (subimages : list SubImage) : string :=
  let has_payload := existsb (fun s => negb s.(is_signature) && (0 <? s.(payload_size))) subimages in
  let has_signature := existsb (fun s => s.(is_signature) && (0 <? s.(payload_size))) subimages in
  match subimages with
  | [] => "unknown"
  | _ => if has_payload && has_signature then "signed"
         else if has_payload && negb has_signature then "unsigned" else "unknown"
  end.

(** ** Partitions *)

Definition _MTK_PARTITIONS : list (string * (string * string)) :=
  [("preloader", ("bootloader", "preloader")); ("lk", ("bootloader", "lk")); ("lk_a", ("bootloader", "lk"));
   ("lk_b", ("bootloader", "lk")); ("lk2", ("bootloader", "lk")); ("boot", ("bootloader", "android_boot"));
   ("boot_a", ("bootloader", "android_boot")); ("boot_b", ("bootloader", "android_boot"));
   ("recovery", ("bootloader", "android_recovery")); ("vbmeta", ("bootloader", "vbmeta"));
   ("atf", ("tee", "atf")); ("tee", ("tee", "tee")); ("tee1", ("tee", "tee")); ("tee2", ("tee", "tee"));
   ("gz", ("tee", "geniezone"));
   ("spmfw", ("mcu", "spmfw")); ("sspm", ("mcu", "tinysys")); ("mcupm", ("mcu", "mcupm")); ("dpm", ("mcu", "dpm"));
   ("scp", ("mcu", "tinysys")); ("scp1", ("mcu", "tinysys")); ("scp2", ("mcu", "tinysys"));
   ("cam_vpu1", ("camera", "cam_vpu")); ("cam_vpu2", ("camera", "cam_vpu")); ("cam_vpu3", ("camera", "cam_vpu"));
   ("ccu", ("camera", "ccu")); ("ccu1", ("camera", "ccu"));
   ("vpu", ("dsp", "apu")); ("apu", ("dsp", "apu"));
   ("md1rom", ("modem", "modem")); ("md1dsp", ("modem", "modem_dsp")); ("md1drdi", ("modem", "modem_drdi"));
   ("md1img", ("modem", "modem")); ("md2img", ("modem", "modem")); ("cert_md", ("modem", "modem_cert"));
   ("dsp_bl", ("dsp", "modem_dsp_bl")); ("md1_filter", ("modem", "modem_filter"));
   ("md1_filter_hw", ("modem", "modem_filter"));
   ("logo", ("display", "logo")); ("gpueb", ("gpu", "mali_fw"));
   ("audio_dsp", ("audio", "adsp")); ("adsp", ("audio", "adsp"));
   ("dtb", ("dtb", "dtb")); ("dtbo", ("dtb", "dtbo"));
   ("wifi", ("wifi", "connsys")); ("connsys", ("wifi", "connsys")); ("wmt", ("wifi", "connsys"))].

Definition _STUB_CANDIDATES : list string := ["md1rom"; "md1dsp"; "md1drdi"; "cert_md"].
Definition _STUB_SIZE_THRESHOLD : Z := 4096.

Definition lookup_partition (name : string) : option (string * string) :=
  if negb (truthy (Some name)) then None
  else
    let key := strip (lower name) in
    match dict_get key _MTK_PARTITIONS with
    | Some hit => Some hit
    | None => if startswith key "tinysys" then Some ("mcu", "tinysys") else None
    end.

Definition is_stub_descriptor (name : string) (file_size : Z) : bool :=
  truthy (Some name) && bool_decide (lower name ∈ _STUB_CANDIDATES) && (file_size <? _STUB_SIZE_THRESHOLD).

(** ** The chip in a parser's metadata *)

Fixpoint digit_run (s : string) : string :=
  match s with
  | String a s' => if is_digit a then String a (digit_run s') else ""
  | "" => ""
  end.

Definition alnum (a : ascii) : bool := is_lower a || is_upper a || is_digit a.

(** [(?<![A-Za-z0-9])<prefix>(\d{4,5})(?!\d)], ignoring case: the digits of the first place
    where the prefix opens a word and a run of exactly four or five digits follows. *)
Fixpoint chip_search (prefix : string) (inside : bool) (s : string) : option string :=
  match s with
  | "" => None
  | String a s' =>
      let digits := digit_run (String.substring (String.length prefix) (String.length s) s) in
      if negb inside && startswith (lower s) prefix &&
         ((String.length digits =? 4)%nat || (String.length digits =? 5)%nat)
      then Some digits
      else chip_search prefix (alnum a) s'
  end.

Definition chip_of (v : json) : option string :=
  match v with
  | JStr s =>
      match chip_search "mt" false s with
      | Some digits => Some ("mt" +:+ digits)
      | None => (fun digits => "mt" +:+ digits) <$> chip_search "aiot" false s
      end
  | _ => None
  end.

Definition derive_chipset (metadata : pydict) : option string := head (omap chip_of metadata.*2).

Example chip_ex :
  derive_chipset [("a", JStr "kmt6771 mt677112"); ("b", JInt 6771); ("c", JStr "soc/MT6771-bsp")] = Some "mt6771" /\
  derive_chipset [("board", JStr "aiot8788ep1")] = Some "mt8788" /\
  derive_chipset [("board", JStr "mt123")] = None.
Proof. by vm_compute. Qed.

(** ** The walk *)

Lemma next_header_eq (e : Z) : next_header e = (e + 15) / 16 * 16.
Proof.
  unfold next_header, _SUBIMAGE_ALIGNMENT. change (16 - 1) with (Z.ones 4). rewrite <- Z.ldiff_land, Z.ldiff_ones_r by lia.
  rewrite Z.shiftl_mul_pow2, Z.shiftr_div_pow2 by lia. change (2 ^ 4) with 16. f_equal. f_equal. lia.
Qed.

Lemma next_header_range (e : Z) : e <= next_header e < e + 16 /\ (16 | next_header e).
Proof.
  rewrite next_header_eq. pose proof (Z.div_mod (e + 15) 16). pose proof (Z.mod_pos_bound (e + 15) 16).
  split; [lia|]. by exists ((e + 15) / 16).
Qed.

(** A record at [offset] with its header in the data. *)
Definition record_at (data : bytes) (s : SubImage) : Prop :=
  0 <= s.(si_offset) /\ (16 | s.(si_offset)) /\ s.(si_offset) + 0x40 <= zlen data /\
  u32le data s.(si_offset) = Some _LK_MAGIC /\ u32le data (s.(si_offset) + 4) = Some s.(payload_size) /\
  0 <= s.(payload_size) < 2 ^ 32 /\ s.(payload_offset) = s.(si_offset) + LK_CONTAINER_HEADER_SIZE.

Definition payload_end (s : SubImage) : Z := s.(payload_offset) + s.(payload_size).

(** The records from [offset] on: each begins at the first multiple of 16 behind the
    payload of the one before. *)
Inductive chained (data : bytes) : Z -> list SubImage -> Prop :=
  | chained_nil offset : chained data offset []
  | chained_cons offset s l : s.(si_offset) = offset -> record_at data s ->
      chained data (next_header (payload_end s)) l -> chained data offset (s :: l).

(** No record begins at [offset]. *)
Definition no_record (data : bytes) (offset : Z) : Prop :=
  zlen data < offset + 0x40 \/ u32le data offset <> Some _LK_MAGIC.

Definition chain_end (offset : Z) (l : list SubImage) : Z :=
  match last l with Some s => next_header (payload_end s) | None => offset end.

Lemma sub_image_spec (data : bytes) (offset : Z) :
  0 <= offset -> (16 | offset) -> offset + 0x40 <= zlen data ->
  match sub_image data offset with
  | Some s => s.(si_offset) = offset /\ record_at data s
  | None => u32le data offset <> Some _LK_MAGIC
  end.
Proof.
  intros H0 Hd Hl. unfold sub_image. destruct (u32le_Some data offset ltac:(lia)) as [m Em]. destruct (u32le_Some data (offset + 4) ltac:(lia)) as [z Ez].
  rewrite Em, Ez. cbn [mbind option_bind]. destruct (m =? _LK_MAGIC) eqn:E; [|intros [= ->]; lia].
  split; [done|]. unfold record_at. cbn [si_offset payload_size payload_offset]. apply u32le_range in Ez as Hz; [|lia].
  apply Z.eqb_eq in E. subst m. split_and!; (done || lia).
Qed.

Lemma walk_from_spec (data : bytes) (safety : nat) (offset : Z) :
  0 <= offset -> (16 | offset) ->
  chained data offset (walk_from data safety offset) /\ (List.length (walk_from data safety offset) <= safety)%nat /\
  (List.length (walk_from data safety offset) = safety \/ no_record data (chain_end offset (walk_from data safety offset))).
Proof.
  revert offset. induction safety as [|safety IH]; intros offset H0 Hd; cbn [walk_from]; [split_and!; [constructor|done|by left]|].
  destruct (offset + 0x40 <=? zlen data) eqn:El; [|split_and!; [constructor|cbn; lia|right; left; unfold chain_end; cbn [last]; lia]].
  pose proof (sub_image_spec data offset H0 Hd ltac:(lia)) as Hs. destruct (sub_image data offset) as [s|]; cycle 1.
  { split_and!; [constructor|cbn; lia|right; by right]. }
  destruct Hs as [Ho Hr]. change (payload_offset s + payload_size s) with (payload_end s).
  pose proof Hr as (_ & _ & _ & _ & _ & Hz & Hp).
  destruct (next_header_range (payload_end s)) as [Hn Hd']. assert (Hlt : offset < next_header (payload_end s)).
  { unfold payload_end in *. unfold LK_CONTAINER_HEADER_SIZE in Hp. lia. }
  destruct (next_header (payload_end s) <=? offset) eqn:E; [lia|].
  destruct (IH (next_header (payload_end s)) ltac:(lia) Hd') as (I1 & I2 & I3). split_and!.
  - by constructor.
  - cbn [List.length]. lia.
  - destruct I3 as [I3|I3]; [left; cbn [List.length]; lia|right]. unfold chain_end in *.
    destruct (walk_from data safety (next_header (payload_end s))) as [|t l]; [exact I3|]. rewrite last_cons_cons. rewrite (last_cons t) in I3 |- *. by destruct (last l).
Qed.

(** Payloads that follow each other do not overlap. *)
Lemma chained_order (data : bytes) (offset : Z) (l : list SubImage) (i j : nat) (s t : SubImage) :
  chained data offset l -> l !! i = Some s -> l !! j = Some t -> (i < j)%nat -> payload_end s <= t.(si_offset).
Proof.
  assert (Hge : forall o l, chained data o l -> forall t, t ∈ l -> o <= t.(si_offset)).
  { clear. induction 1 as [o|o s l Ho Hr Hl IH]; intros t Ht; [by apply not_elem_of_nil in Ht|].
    apply elem_of_cons in Ht as [->|Ht]; [lia|]. specialize (IH t Ht).
    destruct (next_header_range (payload_end s)) as [? _]. destruct Hr as (_ & _ & _ & _ & _ & ? & ?).
    unfold payload_end, LK_CONTAINER_HEADER_SIZE in *. lia. }
  intros Hc. revert i j. induction Hc as [o|o x l Ho Hr Hl IH]; intros i j Hi Hj Hij; [done|].
  destruct j as [|j]; [lia|]. destruct i as [|i]; [|cbn in Hi, Hj; apply (IH i j); [done..|lia]].
  cbn in Hi, Hj. injection Hi as <-. destruct (next_header_range (payload_end x)) as [? _].
  specialize (Hge _ _ Hl t (list_elem_of_lookup_2 _ _ _ Hj)). lia.
Qed.

(** C40. Any bytes walk to a chain of at most the given number of records: each lies with
    its header in the data at a multiple of 16, carries the magic and its own size, and
    begins at the first multiple of 16 behind the payload before it, so that no two
    payloads overlap; the chain is as long as it can be - below the bound it ends where the
    data or the magic does - and the guard against standing still never acts. *)
Theorem walk_sub_images_spec (data : bytes) (max_subimages : nat) :
  let l := walk_sub_images data max_subimages in
  chained data 0 l /\ (List.length l <= max_subimages)%nat /\
  (List.length l = max_subimages \/ no_record data (chain_end 0 l)) /\
  (forall i j s t, l !! i = Some s -> l !! j = Some t -> (i < j)%nat -> payload_end s <= t.(si_offset)).
Proof.
  intros l. destruct (walk_from_spec data max_subimages 0 ltac:(lia) ltac:(by exists 0)) as (H1 & H2 & H3).
  split_and!; [done..|]. intros i j s t. by apply (chained_order data 0).
Qed.

(** ** Written containers *)

Record lk_image := { img_name : bytes; img_payload : bytes }.

Definition zeros (n : Z) : bytes := replicate (Z.to_nat n) Byte.x00.

(** A header of 0x200 bytes, the payload, and zeros up to the next multiple of 16. *)
Definition write_image (i : lk_image) : bytes :=
  (le_enc 4 _LK_MAGIC ++ le_enc 4 (zlen i.(img_payload)) ++ (i.(img_name) ++ zeros (24 - zlen i.(img_name))) ++ zeros 480 ++
   i.(img_payload) ++ zeros (next_header (zlen i.(img_payload)) - zlen i.(img_payload)))%list.

Definition image_ok (i : lk_image) : Prop :=
  Forall (fun b => b <> Byte.x00 /\ byteZ b < 128) i.(img_name) /\ zlen i.(img_name) <= 24 /\ zlen i.(img_payload) < 2 ^ 32.

(** What the walk is to find. *)
Fixpoint images_at (offset : Z) (images : list lk_image) : list SubImage :=
  match images with
  | [] => []
  | i :: images =>
      let name := strip (decode_bytes i.(img_name)) in
      {| si_name := name; si_offset := offset; payload_size := zlen i.(img_payload);
         payload_offset := offset + LK_CONTAINER_HEADER_SIZE; is_signature := bool_decide (name = "cert2") |}
      :: images_at (offset + 0x200 + next_header (zlen i.(img_payload))) images
  end.

Lemma zlen_zeros (n : Z) : 0 <= n -> zlen (zeros n) = n.
Proof. intros. unfold zeros. rewrite zlen_replicate. lia. Qed.

Lemma zlen_name (i : lk_image) : image_ok i -> zlen (i.(img_name) ++ zeros (24 - zlen i.(img_name))) = 24.
Proof. intros (_ & H & _). rewrite zlen_app, zlen_zeros by lia. lia. Qed.

Lemma zlen_write (i : lk_image) : image_ok i -> zlen (write_image i) = 0x200 + next_header (zlen i.(img_payload)).
Proof.
  intros Hi. unfold write_image. rewrite !(zlen_app (le_enc _ _)), zlen_app, (zlen_name i Hi), !zlen_app, !zlen_le_enc.
  destruct (next_header_range (zlen i.(img_payload))) as [H _]. rewrite !zlen_zeros by lia. lia.
Qed.

(** The field of the name reads back. *)
Lemma decode_name (name : bytes) (n : Z) :
  Forall (fun b => b <> Byte.x00 /\ byteZ b < 128) name -> _decode_cstr (name ++ zeros n) = strip (decode_bytes name).
Proof.
  intros H. unfold _decode_cstr. f_equal. f_equal. induction H as [|b name [Hb Hlt] Hn IH].
  - unfold zeros. by destruct (Z.to_nat n).
  - change ((b :: name) ++ zeros n)%list with (b :: (name ++ zeros n))%list. cbn [until_nul]. rewrite bool_decide_eq_false_2 by done.
    cbn [List.filter]. destruct (byteZ b <? 128) eqn:E; [|lia]. by rewrite IH.
Qed.

Lemma sub_image_written (pre rest : bytes) (i : lk_image) :
  image_ok i ->
  sub_image (pre ++ write_image i ++ rest) (zlen pre) = head (images_at (zlen pre) [i]).
Proof.
  intros Hi. pose proof (zlen_name i Hi) as Hn. destruct Hi as (Hname & _ & Hlen). pose proof (zlen_nonneg (img_payload i)).
  unfold write_image. rewrite <- !app_assoc. set (tail := (zeros 480 ++ _)%list). unfold sub_image.
  rewrite (u32le_field pre _ (zlen pre) _LK_MAGIC) by (done || (unfold _LK_MAGIC; lia)). cbn [mbind option_bind].
  rewrite (app_assoc pre (le_enc 4 _LK_MAGIC)), (u32le_field (pre ++ le_enc 4 _LK_MAGIC) _ (zlen pre + 4) (zlen (img_payload i)))
    by (rewrite ?zlen_app, ?zlen_le_enc; lia). cbn [mbind option_bind]. rewrite Z.eqb_refl.
  rewrite (app_assoc (pre ++ le_enc 4 _LK_MAGIC)), (app_assoc (img_name i)), zslice_mid
    by (rewrite ?Hn, ?zlen_app, ?zlen_le_enc; lia).
  by rewrite decode_name.
Qed.

Lemma walk_written (images : list lk_image) (pre : bytes) (n : nat) :
  Forall image_ok images -> (16 | zlen pre) -> (List.length images <= n)%nat ->
  walk_from (pre ++ mjoin (write_image <$> images)) n (zlen pre) = images_at (zlen pre) images.
Proof.
  intros H. revert pre n. induction H as [|i images Hi Him IH]; intros pre n Hd Hn.
  { destruct n; [done|]. cbn [walk_from fmap list_fmap mjoin list_join]. rewrite app_nil_r. destruct (_ <=? _) eqn:E; [lia|done]. }
  destruct n as [|n]; [cbn in Hn; lia|].
  change (mjoin (write_image <$> i :: images)) with (write_image i ++ mjoin (write_image <$> images))%list. cbn [walk_from images_at].
  pose proof (zlen_write i Hi) as Hw. destruct (next_header_range (zlen i.(img_payload))) as [Hnr Hnd].
  pose proof (zlen_nonneg (img_payload i)). pose proof (zlen_nonneg pre). pose proof (zlen_nonneg (mjoin (write_image <$> images))).
  destruct (_ <=? _) eqn:E; [|rewrite !zlen_app in E; lia].
  rewrite (sub_image_written pre _ i Hi). cbn [images_at head payload_offset payload_size].
  assert (En : next_header (zlen pre + LK_CONTAINER_HEADER_SIZE + zlen (img_payload i)) = zlen pre + 0x200 + next_header (zlen (img_payload i))).
  { destruct Hd as [k Hk]. rewrite !next_header_eq, Hk. unfold LK_CONTAINER_HEADER_SIZE.
    replace (k * 16 + 512 + zlen (img_payload i) + 15) with (zlen (img_payload i) + 15 + (k + 32) * 16) by lia.
    rewrite Z.div_add by lia. lia. }
  clear E. rewrite En. destruct (_ <=? _) eqn:E2; [lia|]. f_equal.
  replace (zlen pre + 512 + next_header (zlen (img_payload i))) with (zlen (pre ++ write_image i)) by (rewrite zlen_app, Hw; lia).
  rewrite (app_assoc pre). apply IH.
  - rewrite zlen_app, Hw. apply Z.divide_add_r; [done|]. apply Z.divide_add_r; [by exists 32|done].
  - cbn in Hn. lia.
Qed.

(** A container written from images - each a header of 0x200 bytes with its name, its
    payload and padding - walks back to exactly these images: their names, places and
    sizes, and which of them are signatures. *)
Theorem lk_container_roundtrip (images : list lk_image) (max_subimages : nat) :
  Forall image_ok images -> (List.length images <= max_subimages)%nat ->
  walk_sub_images (mjoin (write_image <$> images)) max_subimages = images_at 0 images.
Proof. intros H Hn. apply (walk_written images [] max_subimages H ltac:(by exists 0) Hn). Qed.

Definition gz_images : list lk_image :=
  [{| img_name := encode "gz"; img_payload := replicate 20 Byte.x2a |};
   {| img_name := encode "cert2"; img_payload := replicate 5 Byte.x01 |};
   {| img_name := encode "unmap2"; img_payload := [] |}].

Lemma lk_container_roundtrip_witness :
  walk_sub_images (mjoin (write_image <$> gz_images)) 16 = images_at 0 gz_images /\
  images_at 0 gz_images =
    [{| si_name := "gz"; si_offset := 0; payload_size := 20; payload_offset := 512; is_signature := false |};
     {| si_name := "cert2"; si_offset := 544; payload_size := 5; payload_offset := 1056; is_signature := true |};
     {| si_name := "unmap2"; si_offset := 1072; payload_size := 0; payload_offset := 1584; is_signature := false |}] /\
  signed_from_subimages (images_at 0 gz_images) = "signed".
Proof.
  split; [|by split; vm_compute]. apply lk_container_roundtrip; [|cbn; lia].
  repeat constructor; by vm_compute.
Defined.

(** The header parser reads at most eight characters of a name that the walk reads whole:
    a record named md1_filter is looked up as md1_filt, which no table has. *)
Example long_partition_name :
  let data := mjoin (write_image <$> [{| img_name := encode "md1_filter"; img_payload := [] |}]) in
  (si_name <$> walk_sub_images data 16) = ["md1_filter"] /\ lookup_partition "md1_filter" = Some ("modem", "modem_filter") /\
  (lk_name <$> parse_lk_header data) = Some "md1_filt" /\ lookup_partition "md1_filt" = None.
Proof. by vm_compute. Qed.
