(* ===== verification/HwClassifier.v ===== *)
(** * Classification of firmware blobs ([services/hardware_firmware/classifier.py])

    From the head, the path and the size of a file to what it is: the file-format catalogue
    first, then the rules on names, and the rules on paths for what stays unspecific.  The
    tables of [HwPatterns] are arguments; the catalogue is that of [FormatCatalog], read
    once as a snapshot and once again for the manifest of the answer. *)

From stdpp Require Import gmap.
From S2P Require Import Prelude PyText PosixPath Json Sorting ManifestLib FormatSchema FormatData FormatResolver FormatPlugins FormatCatalog FormatCache HwPatterns MtkLk.
From Stdlib Require Import Ascii String SpecFloat.
Import (notations) Ascii String.
#[local] Open Scope Z_scope.

Definition CATEGORIES : list string :=
  ["modem"; "tee"; "wifi"; "bluetooth"; "gpu"; "dsp"; "camera"; "audio"; "sensor"; "touchpad"; "nfc"; "usb"; "display";
   "fingerprint"; "dtb"; "kernel_module"; "bootloader"; "mcu"; "kernel"; "other"].

Record Classification := {
  category : string;
  vendor : string;
  format : string;
  confidence : string;
  product : option string
}.

Definition plain (category vendor format confidence : string) : Classification :=
  {| category := category; vendor := vendor; format := format; confidence := confidence; product := None |}.

(** ** Names *)

(** A pattern that ends in [$] also ends before a last line feed. *)
Definition at_end (s suffix : string) : bool := endswith s suffix || endswith s (suffix +:+ String newline "").
Definition whole (s t : string) : bool := bool_decide (s = t) || bool_decide (s = t +:+ String newline "").

(** [re.search(r"\.(mbn|mdt|b0[0-9a-f])$", s, IGNORECASE)]. *)
Definition _QCOM_EXT (s : string) : bool :=
  existsb (at_end (lower s))
    ([".mbn"; ".mdt"] ++ ((fun d => ".b0" +:+ d) <$> ["0"; "1"; "2"; "3"; "4"; "5"; "6"; "7"; "8"; "9"; "a"; "b"; "c"; "d"; "e"; "f"]))%list.

Definition _QCOM_STEMS : list string :=
  ["xbl.elf"; "xbl_config.elf"; "tz.mbn"; "hyp.mbn"; "aop.mbn"; "adsp.mbn"; "cdsp.mbn"; "modem.mbn"; "slpi.mbn";
   "wlanmdsp.mbn"; "mba.mbn"; "abl.elf"; "rpm.mbn"; "sbl1.mbn"; "aboot.mbn"; "devcfg.mbn"; "cmnlib.mbn";
   "cmnlib64.mbn"; "keymaster.mbn"; "qupfw.mbn"; "tzbsp.mbn"].

Definition word_char (a : ascii) : bool := alnum a || is_char "_"%char a.

(** [\b] behind a word character. *)
Definition word_ends (s : string) : bool := match s with String a _ => negb (word_char a) | "" => true end.

(** What follows [p] in [s]. *)
Definition behind (p s : string) : option string :=
  if startswith s p then Some (String.substring (String.length p) (String.length s) s) else None.

(** [^a\d+_(zap|sqe|gmu)\b]. *)
Definition _ADRENO_RE (name : string) : bool :=
  match behind "a" (lower name) with
  | Some s =>
      let digits := digit_run s in
      truthy (Some digits) &&
      existsb (fun w => match behind (digits +:+ "_" +:+ w) s with Some t => word_ends t | None => false end) ["zap"; "sqe"; "gmu"]
  | None => false
  end.

Definition _VENUS_RE (name : string) : bool := whole (lower name) "venus.mbn" || whole (lower name) "video-firmware.elf".
Definition _IPA_RE (name : string) : bool := whole (lower name) "ipa_fws.elf" || whole (lower name) "ipa_uc.elf".
Definition _TLBIN_RE (s : string) : bool := at_end (lower s) ".tlbin".

Definition _FW_PARTITION_HINTS : list string := ["/vendor/firmware_mnt/"; "/firmware/image/"].
Definition _FIRMWARE_PATH_SIGNALS : list string :=
  ["/vendor/firmware/"; "/vendor/firmware_mnt/"; "/vendor/etc/firmware/"; "/vendor/dsp/"; "/vendor/rfs/";
   "/vendor/app/mcregistry/"; "/vendor/lib/modules/"; "/system/etc/firmware/"; "/system/vendor/firmware/";
   "/system/lib/modules/"; "/system_ext/etc/firmware/"; "/odm/firmware/"; "/odm/etc/firmware/"; "/product/firmware/"].

Definition _is_firmware_path (lpath : string) : bool := existsb (fun hint => contains hint lpath) _FIRMWARE_PATH_SIGNALS.

Definition _is_qcom_filename (name : string) : bool :=
  let lname := lower name in bool_decide (lname ∈ _QCOM_STEMS) || _QCOM_EXT lname.

Definition starts_any (s : string) (prefixes : list string) : bool := existsb (startswith s) prefixes.

Definition _category_from_qcom_name (name : string) : string :=
  let lname := lower name in
  if starts_any lname ["modem"; "mba"; "wlanmdsp"] || startswith lname "non-hlos" then "modem"
  else if starts_any lname ["tz"; "hyp"; "cmnlib"; "keymaster"; "tzbsp"] then "tee"
  else if starts_any lname ["xbl"; "sbl1"; "abl"; "aboot"; "aop"; "rpm"; "devcfg"; "qupfw"] then "bootloader"
  else if startswith lname "adsp" then "audio"
  else if startswith lname "cdsp" then "dsp"
  else if startswith lname "slpi" then "sensor"
  else "other".

Definition byte_at (data : bytes) (i : nat) : Z := match data !! i with Some b => byteZ b | None => 0 end.

Definition _is_elf_relocatable (magic : bytes) : bool :=
  if (zlen magic <? 18) || negb (_eval_elf_check magic) then false
  else if byte_at magic 5 =? 1 then (byte_at magic 16 =? 1) && (byte_at magic 17 =? 0)
  else (byte_at magic 16 =? 0) && (byte_at magic 17 =? 1).

(** ** Names, without the catalogue *)

Section Tables.
Context (patterns : list _PatternEntry) (contexts : list _PathContextEntry).

Definition of_pattern (pm : PatternMatch) (fmt : string) : Classification :=
  {| category := pm.(pm_category); vendor := pm.(pm_vendor); format := fmt; confidence := pm.(pm_confidence);
     product := pm.(pm_product) |}.

Definition kernel_module (name : string) : Classification :=
  match match_pattern patterns name with
  | Some pm => if bool_decide (pm.(pm_format) = "ko") then of_pattern pm "ko" else plain "kernel_module" "unknown" "ko" "high"
  | None => plain "kernel_module" "unknown" "ko" "high"
  end.

Definition _classify_inner (name lname lpath : string) (magic : bytes) : option Classification :=
  if endswith lname ".ko" && _eval_elf_check magic && _is_elf_relocatable magic then Some (kernel_module name)
  else if _eval_elf_check magic then
    if _ADRENO_RE name then Some (plain "gpu" "qualcomm" "elf" "high")
    else if _is_qcom_filename name then Some (plain (_category_from_qcom_name name) "qualcomm" "qcom_mbn" "high")
    else
      match match_pattern patterns name with
      | Some pm => Some (of_pattern pm "elf")
      | None =>
          if _VENUS_RE name || _IPA_RE name then Some (plain "other" "qualcomm" "elf" "medium")
          else if existsb (fun hint => contains hint lpath) _FW_PARTITION_HINTS then Some (plain "other" "qualcomm" "elf" "low")
          else if _is_firmware_path lpath then Some (plain "other" "unknown" "elf" "low")
          else None
      end
  else if _is_qcom_filename name then Some (plain (_category_from_qcom_name name) "qualcomm" "qcom_mbn" "medium")
  else
    match match_pattern patterns name with
    | Some pm => Some (of_pattern pm pm.(pm_format))
    | None =>
        if _TLBIN_RE lname || contains "mcregistry" lpath then Some (plain "tee" "unknown" "kinibi_mclf" "medium")
        else if endswith lname ".dtb" || endswith lname ".dtbo"
        then Some (plain "dtb" "unknown" (if endswith lname ".dtbo" then "dtbo" else "dtb") "medium")
        else if _is_firmware_path lpath then Some (plain "other" "unknown" "raw_bin" "low")
        else None
    end.

(** ** Paths *)

Definition specific (v : string) : bool := truthy (Some v) && negb (bool_decide (v = "unknown")).

Definition _apply_path_context (path : string) (result : option Classification) : option Classification :=
  match result with
  | Some c =>
      if bool_decide (c.(category) = "other") then
        match match_path_context contexts path with
        | None => result
        | Some pcm =>
            let filename_vendor := lower c.(vendor) in
            let new_vendor := if specific filename_vendor then filename_vendor
                              else if specific pcm.(pc_vendor) then pcm.(pc_vendor) else c.(vendor) in
            Some {| category := pcm.(pc_category); vendor := new_vendor; format := c.(format);
                    confidence := pcm.(pc_confidence); product := str_or pcm.(pc_product) c.(product) |}
        end
      else result
  | None =>
      (fun pcm => {| category := pcm.(pc_category);
                     vendor := if specific pcm.(pc_vendor) then pcm.(pc_vendor) else "unknown";
                     format := "raw_bin"; confidence := pcm.(pc_confidence); product := pcm.(pc_product) |})
      <$> match_path_context contexts path
  end.
End Tables.

(** ** The catalogue *)

Definition _CATALOG_FORMAT_TO_LEGACY : list (string * string) :=
  [("samsung_shannon_toc", "shannon_toc"); ("linux_fit_dtb", "dtb"); ("android_dtb", "dtb"); ("android_dtbo", "dtbo");
   ("linux_zimage", "zImage")].

(** The formats that are left to the rules on names. *)
Definition coarse_formats : list string :=
  ["linux_blob"; "pe_binary"; "iso_9660"; "zip_archive"; "tar_archive"; "wim_archive"; "windows_cab"; "windows_msi";
   "windows_msix"; "windows_msu"; "windows_psf"; "windows_vhdx"; "windows_driver_package"; "windows_installer_iso";
   "qnx_ifs"; "android_apk"; "android_ota"; "android_scatter"; "android_sparse"; "android_boot"; "uefi_firmware";
   "intel_hex"; "rtos_blob"; "acronis_backup"; "partition_dump_tar"; "rootfs_tar"; "linux_elf"; "linux_squashfs";
   "linux_cramfs"; "linux_jffs2"; "linux_uboot_uimage"; "bt_fw_banner"; "qcom_mbn_split"; "qcom_mbn"].

Definition confidence_text (c : Confidence) : string :=
  match c with conf_high => "high" | conf_medium => "medium" | conf_low => "low" end.

(** The category of an LK record whose name the table of partitions has. *)
Definition refined_category (id : string) (magic : bytes) (dflt : string) : string :=
  if bool_decide (id = "mtk_lk") then
    match parse_lk_header magic ≫= (fun hdr => lookup_partition hdr.(lk_name)) with
    | Some (cat, _) => cat
    | None => dflt
    end
  else dflt.

(** The answer of the resolver, and the manifest that a second look has under its name. *)
Definition _classify_via_catalog (magic : bytes) (result : option FormatMatch) (lookup : string -> option FileFormatManifest) :
    option Classification :=
  r ← result;
  if bool_decide (r.(match_format_id) ∈ coarse_formats) then None
  else
    cat ← lookup r.(match_format_id);
    let o := cat.(output) in
    Some {| category := refined_category r.(match_format_id) magic o.(classifier_category);
            vendor := o.(classifier_vendor);
            format := dict_get_or r.(match_format_id) r.(match_format_id) _CATALOG_FORMAT_TO_LEGACY;
            confidence := confidence_text o.(classifier_confidence); product := o.(classifier_product) |}.

Section Classify.
Context (patterns : list _PatternEntry) (contexts : list _PathContextEntry).

(** [classify] behind the catalogue. *)
Definition classify_from (path : string) (magic : bytes) (hit : option Classification) : option Classification :=
  let lpath := lower path in
  let result := match hit with
                | Some _ => hit
                | None => let name := basename path in _classify_inner patterns name (lower name) lpath magic
                end in
  _apply_path_context contexts lpath result.

Inductive classify_error := CatalogError | ResolveError (e : resolve_error).

Context (isfile : string -> bool) (zip_names : string -> zip_listing) (plugins : registry).
Context (digest : list FileFormatManifest -> string).

(** On a snapshot. *)
Definition classify_on (manifests : list FileFormatManifest) (lookup : string -> option FileFormatManifest)
    (path : string) (magic : bytes) (size : Z) : res classify_error (option Classification) :=
  match resolve isfile zip_names plugins magic path size manifests with
  | Ok r => Ok (classify_from path magic (_classify_via_catalog magic r lookup))
  | Err e => Err (ResolveError e)
  end.

(** On the catalogue: the snapshot for the resolver, and a second call for the manifest of
    an answer that is not coarse. *)
Definition classify (time_ns : Z) (st : catalog) (d : disk) (path : string) (magic : bytes) (size : Z) :
    catalog * res classify_error (option Classification) :=
  let '(st, snap) := get_snapshot digest plugins time_ns st d in
  match snap with
  | None => (st, Err CatalogError)
  | Some s =>
      match resolve isfile zip_names plugins magic path size s.(manifests) with
      | Err e => (st, Err (ResolveError e))
      | Ok r =>
          if match r with Some m => bool_decide (m.(match_format_id) ∉ coarse_formats) | None => false end then
            let '(st, ids) := get_catalog plugins st d in
            match ids with
            | None => (st, Err CatalogError)
            | Some ids => (st, Ok (classify_from path magic (_classify_via_catalog magic r (fun id => ids !! id))))
            end
          else (st, Ok (classify_from path magic None))
      end
  end.
End Classify.

(** Decides a closed proposition. *)
Ltac member := apply (bool_decide_unpack _); vm_compute; exact I.

(** ** One catalogue for both calls *)

Section Laws.
Context (patterns : list _PatternEntry) (contexts : list _PathContextEntry).
Context (isfile : string -> bool) (zip_names : string -> zip_listing) (plugins : registry).
Context (digest : list FileFormatManifest -> string).

Lemma coarse_drops (magic : bytes) (m : FormatMatch) (lookup : string -> option FileFormatManifest) :
  m.(match_format_id) ∈ coarse_formats -> _classify_via_catalog magic (Some m) lookup = None.
Proof. intros H. cbn [_classify_via_catalog mbind option_bind]. by rewrite bool_decide_eq_true_2. Qed.

Definition listing (ids : by_id) : list FileFormatManifest := sort_by id_le (map_to_list ids).*2.

Lemma classify_answer (calls : list call) (time_ns : Z) (d : disk) (path : string) (magic : bytes) (size : Z) :
  NoDup (paths_of (all_walked d)) ->
  (classify patterns contexts isfile zip_names plugins digest time_ns (history digest calls) d path magic size).2 =
    match (get_catalog plugins (history digest calls) d).2 with
    | None => Err CatalogError
    | Some ids => classify_on patterns contexts isfile zip_names plugins (listing ids) (fun id => ids !! id) path magic size
    end.
Proof.
  intros Hn. pose proof (snapshot_answer digest calls plugins time_ns d) as Ha.
  destruct ((get_catalog plugins (history digest calls) d).2) as [ids|] eqn:Ec.
  - pose proof (snapshot_then_catalog digest plugins time_ns _ d ids Hn Ec) as Hc. cbv zeta in Hc.
    unfold classify, classify_on. destruct (get_snapshot digest plugins time_ns _ d) as [st [s|]]; cbn [fst snd] in *; [|done].
    destruct Ha as (-> & _ & _). fold (listing ids). destruct (resolve _ _ _ _ _ _ _) as [[m|]|e]; [|done..].
    case_bool_decide as Hm; [by rewrite Hc|]. cbn [snd]. by rewrite coarse_drops.
  - unfold classify. by destruct (get_snapshot digest plugins time_ns _ d) as [st [s|]]; cbn [fst snd] in *.
Qed.

(** The manifest of an answer is in the catalogue. *)
Lemma answer_listed (calls : list call) (d : disk) (ids : by_id) (path : string) (magic : bytes) (size : Z) (r : FormatMatch) :
  (get_catalog plugins (history digest calls) d).2 = Some ids ->
  resolve isfile zip_names plugins magic path size (listing ids) = Ok (Some r) ->
  exists m, ids !! r.(match_format_id) = Some m.
Proof.
  intros Hids Hr. pose proof (catalog_manifests_ok digest calls plugins d ids Hids) as Hok.
  assert (Hin : forall m, m ∈ listing ids -> ids !! m.(format_id) = Some m).
  { intros m Hm. unfold listing in Hm. apply elem_of_sort_by, list_elem_of_fmap in Hm as ([i x] & -> & H%elem_of_map_to_list).
    cbn. by destruct (Hok i x H) as [-> _]. }
  pose proof (resolve_cases isfile zip_names plugins magic path size (listing ids)) as H. cbv zeta in H. rewrite Hr in H.
  destruct H as (m & l & t & Hw & Hrt & _ & _ & Hid & _).
  { apply Forall_forall. intros m Hm. by destruct (Hok _ m (Hin m Hm)). }
  exists t. rewrite Hid. apply Hin. destruct (winner_met _ _ _ Hw) as [Hm _]. clear Hw Hid Hr r.
  induction Hrt as [m|m id next l t _ _ Hnext _ IH]; [done|]. apply IH. unfold snapshot_get in Hnext.
  apply find_some in Hnext as [Hnext _]. by apply list_elem_of_In.
Qed.

(** A classification is a function of the catalogue as it is at the call, whatever
    snapshot was cached before and although the manifest of the answer is fetched by a
    second pass over the files: on one disk both passes see the same catalogue.  Where the
    catalogue cannot be read there is no answer. *)
Theorem classify_current (calls : list call) (time_ns : Z) (d : disk) (path : string) (magic : bytes) (size : Z) :
  NoDup (paths_of (all_walked d)) ->
  (classify patterns contexts isfile zip_names plugins digest time_ns (history digest calls) d path magic size).2 =
    match (get_catalog plugins (history digest calls) d).2 with
    | None => Err CatalogError
    | Some ids => classify_on patterns contexts isfile zip_names plugins (listing ids) (fun id => ids !! id) path magic size
    end.
Proof. apply classify_answer. Qed.

(** ** What is skipped *)

(** The reasons, in no order, for which the rules on names and paths take a blob. *)
Inductive recognised (name lpath : string) (magic : bytes) : Prop :=
  | by_module : endswith (lower name) ".ko" = true -> _is_elf_relocatable magic = true -> recognised name lpath magic
  | by_gpu : _eval_elf_check magic = true -> _ADRENO_RE name = true -> recognised name lpath magic
  | by_qualcomm : _is_qcom_filename name = true -> recognised name lpath magic
  | by_pattern e : e ∈ patterns -> e.1 (after_last backslash (after_last "/"%char name)) = true ->
      after_last backslash (after_last "/"%char name) <> "" -> recognised name lpath magic
  | by_media : _eval_elf_check magic = true -> _VENUS_RE name = true \/ _IPA_RE name = true -> recognised name lpath magic
  | by_partition hint : _eval_elf_check magic = true -> hint ∈ _FW_PARTITION_HINTS -> contains hint lpath = true ->
      recognised name lpath magic
  | by_trusted : _eval_elf_check magic = false -> _TLBIN_RE (lower name) = true \/ contains "mcregistry" lpath = true ->
      recognised name lpath magic
  | by_device_tree : _eval_elf_check magic = false -> endswith (lower name) ".dtb" = true \/ endswith (lower name) ".dtbo" = true ->
      recognised name lpath magic
  | by_path hint : hint ∈ _FIRMWARE_PATH_SIGNALS -> contains hint lpath = true -> recognised name lpath magic.

Lemma existsb_contains (hints : list string) (lpath : string) :
  existsb (fun hint => contains hint lpath) hints = true <-> exists hint, hint ∈ hints /\ contains hint lpath = true.
Proof. rewrite existsb_exists. split; intros (h & H1 & H2); exists h; split; try done; by apply list_elem_of_In. Qed.

Lemma match_pattern_None (path : string) :
  match_pattern patterns path = None <->
  after_last backslash (after_last "/"%char path) = "" \/
  forall e, e ∈ patterns -> e.1 (after_last backslash (after_last "/"%char path)) = false.
Proof.
  unfold match_pattern. destruct (after_last _ _) as [|a s]; [split; [by left|done]|].
  rewrite fmap_None. split.
  - intros H. right. intros e He. apply (find_none _ _ H). by apply list_elem_of_In.
  - intros [?|H]; [done|]. destruct (find _ _) as [e|] eqn:E; [|done]. apply find_some in E as [E1 E2].
    rewrite H in E2; [done|]. by apply list_elem_of_In.
Qed.

Lemma relocatable_elf (magic : bytes) : _is_elf_relocatable magic = true -> _eval_elf_check magic = true.
Proof. unfold _is_elf_relocatable. destruct (_eval_elf_check magic); [done|]. by rewrite orb_true_r. Qed.

(** A name is taken by its pattern. *)
Lemma pattern_recognised (name lpath : string) (magic : bytes) (pm : PatternMatch) :
  match_pattern patterns name = Some pm -> recognised name lpath magic.
Proof.
  unfold match_pattern. destruct (after_last _ _) as [|a s] eqn:E; [done|]. intros (e & He & _)%fmap_Some.
  apply find_some in He as [H1 H2]. apply (by_pattern _ _ _ e); [by apply list_elem_of_In|by rewrite E..].
Qed.

Lemma inner_taken (name lpath : string) (magic : bytes) (c : Classification) :
  _classify_inner patterns name (lower name) lpath magic = Some c -> recognised name lpath magic.
Proof.
  unfold _classify_inner. destruct (endswith (lower name) ".ko" && _ && _) eqn:Ek.
  { intros _. apply andb_true_iff in Ek as [[E1 _]%andb_true_iff E2]. by apply by_module. }
  destruct (_is_qcom_filename name) eqn:Eq; [intros _; by apply by_qualcomm|].
  destruct (match_pattern patterns name) as [pm|] eqn:Ep; [intros _; by eapply pattern_recognised|].
  destruct (_eval_elf_check magic) eqn:Ee.
  - destruct (_ADRENO_RE name) eqn:Ea; [intros _; by apply by_gpu|].
    destruct (_ || _) eqn:Em; [intros _; apply by_media; [done|]; by apply orb_true_iff|].
    destruct (existsb _ _) eqn:Eh; [intros _; apply existsb_contains in Eh as (h & ? & ?); by apply (by_partition _ _ _ h)|].
    destruct (_is_firmware_path lpath) eqn:Ef; [|done]. intros _. apply existsb_contains in Ef as (h & ? & ?).
    by apply (by_path _ _ _ h).
  - destruct (_TLBIN_RE (lower name) || contains "mcregistry" lpath) eqn:Et; [intros _; apply by_trusted; [done|]; by apply orb_true_iff|].
    destruct (endswith (lower name) ".dtb" || endswith (lower name) ".dtbo") eqn:Ed; [intros _; apply by_device_tree; [done|]; by apply orb_true_iff|].
    destruct (_is_firmware_path lpath) eqn:Ef; [|done]. intros _. apply existsb_contains in Ef as (h & ? & ?).
    by apply (by_path _ _ _ h).
Qed.

Lemma inner_None (name lpath : string) (magic : bytes) :
  _classify_inner patterns name (lower name) lpath magic = None ->
  endswith (lower name) ".ko" && _is_elf_relocatable magic = false /\ _is_qcom_filename name = false /\
  match_pattern patterns name = None /\ _is_firmware_path lpath = false /\
  if _eval_elf_check magic
  then _ADRENO_RE name = false /\ _VENUS_RE name || _IPA_RE name = false /\
       existsb (fun hint => contains hint lpath) _FW_PARTITION_HINTS = false
  else _TLBIN_RE (lower name) || contains "mcregistry" lpath = false /\
       endswith (lower name) ".dtb" || endswith (lower name) ".dtbo" = false.
Proof.
  unfold _classify_inner. pose proof (relocatable_elf magic) as Hr. destruct (_eval_elf_check magic).
  - rewrite andb_true_r. destruct (_ && _); [done|]. destruct (_ADRENO_RE name); [done|].
    destruct (_is_qcom_filename name); [done|]. destruct (match_pattern _ _); [done|].
    destruct (_VENUS_RE name || _IPA_RE name); [done|]. destruct (existsb _ _FW_PARTITION_HINTS); [done|].
    by destruct (_is_firmware_path lpath).
  - destruct (_is_elf_relocatable magic); [by specialize (Hr eq_refl)|]. rewrite !andb_false_r.
    destruct (_is_qcom_filename name); [done|]. destruct (match_pattern _ _); [done|].
    destruct (_TLBIN_RE (lower name) || contains "mcregistry" lpath); [done|].
    destruct (endswith (lower name) ".dtb" || endswith (lower name) ".dtbo"); [done|]. by destruct (_is_firmware_path lpath).
Qed.

Lemma inner_skips (name lpath : string) (magic : bytes) :
  _classify_inner patterns name (lower name) lpath magic = None <-> ~ recognised name lpath magic.
Proof.
  split.
  - intros (Hk & Hq & Hp & Hf & He)%inner_None H. rewrite match_pattern_None in Hp.
    assert (Hpath : forall hint, hint ∈ _FIRMWARE_PATH_SIGNALS -> contains hint lpath <> true).
    { intros h H1 H2. apply not_true_iff_false in Hf. apply Hf. apply existsb_contains. by exists h. }
    destruct H as [Hn Hr|He' Ha|?|e Hin Hm Hne|He' Hm|h He' Hin Hh|He' Ht|He' Hd|h Hin Hh].
    + by rewrite Hn, Hr in Hk.
    + rewrite He' in He. destruct He as (? & _). congruence.
    + congruence.
    + destruct Hp as [?|Hp]; [done|]. rewrite Hp in Hm by done. done.
    + rewrite He' in He. destruct He as (_ & E & _). apply orb_false_iff in E. destruct Hm, E; congruence.
    + rewrite He' in He. destruct He as (_ & _ & E). apply not_true_iff_false in E. apply E, existsb_contains. by exists h.
    + rewrite He' in He. destruct He as (E & _). apply orb_false_iff in E. destruct Ht, E; congruence.
    + rewrite He' in He. destruct He as (_ & E). apply orb_false_iff in E. destruct Hd, E; congruence.
    + by apply (Hpath h).
  - intros H. destruct (_classify_inner _ _ _ _ _) as [c|] eqn:E; [|done]. by destruct H; eapply inner_taken.
Qed.

(** The catalogue has nothing of its own to say. *)
Definition unspecific (r : option FormatMatch) : Prop :=
  match r with Some m => m.(match_format_id) ∈ coarse_formats | None => True end.

Lemma via_catalog_None (calls : list call) (d : disk) (ids : by_id) (path : string) (magic : bytes) (size : Z) (r : option FormatMatch) :
  (get_catalog plugins (history digest calls) d).2 = Some ids ->
  resolve isfile zip_names plugins magic path size (listing ids) = Ok r ->
  _classify_via_catalog magic r (fun id => ids !! id) = None <-> unspecific r.
Proof.
  intros Hids Hr. destruct r as [m|]; [|done]. unfold _classify_via_catalog. cbn [mbind option_bind unspecific].
  case_bool_decide as Hm; [done|]. destruct (answer_listed calls d ids path magic size m Hids Hr) as [x ->]. done.
Qed.

Lemma apply_context_None (path : string) (c : option Classification) :
  _apply_path_context contexts path c = None <-> c = None /\ match_path_context contexts path = None.
Proof.
  unfold _apply_path_context. destruct c as [c|]; [|rewrite fmap_None; by split; [|intros []]].
  split; [|by intros []]. case_bool_decide; [|done]. by destruct (match_path_context _ _).
Qed.

(** C37. A blob is skipped exactly when the catalogue is readable and has no answer, or one
    of the formats left to the names, no rule on names or paths takes it - in whatever order
    they are tried - and no path context rescues it. *)
Theorem classify_skips (calls : list call) (time_ns : Z) (d : disk) (path : string) (magic : bytes) (size : Z) :
  NoDup (paths_of (all_walked d)) ->
  (classify patterns contexts isfile zip_names plugins digest time_ns (history digest calls) d path magic size).2 = Ok None <->
  exists ids r, (get_catalog plugins (history digest calls) d).2 = Some ids /\
    resolve isfile zip_names plugins magic path size (listing ids) = Ok r /\ unspecific r /\
    ~ recognised (basename path) (lower path) magic /\ match_path_context contexts (lower path) = None.
Proof.
  intros Hn. rewrite classify_answer by done. destruct ((get_catalog _ _ _).2) as [ids|] eqn:Ec.
  2:{ split; [done|]. by intros (? & ? & ? & _). }
  unfold classify_on. destruct (resolve _ _ _ _ _ _ _) as [r|e] eqn:Er.
  2:{ split; [done|]. intros (? & ? & [= <-] & ? & _). congruence. }
  pose proof (via_catalog_None calls d ids path magic size r Ec Er) as Hv.
  assert (Hf : classify_from patterns contexts path magic (_classify_via_catalog magic r (fun id => ids !! id)) = None <->
     unspecific r /\ ~ recognised (basename path) (lower path) magic /\ match_path_context contexts (lower path) = None).
  { unfold classify_from. rewrite apply_context_None, <- Hv, <- inner_skips.
    destruct (_classify_via_catalog _ _ _); intuition congruence. }
  split.
  - intros [= H]. exists ids, r. by apply Hf in H.
  - intros (ids' & r' & [= <-] & Hr & H). rewrite Er in Hr. injection Hr as <-. by rewrite (proj2 Hf H).
Qed.

(** ** What an answer holds *)

Definition confidence_words : list string := ["high"; "medium"; "low"].

(** A category of the program, of one of the tables or of a manifest. *)
Definition known_category (ids : by_id) (category : string) : Prop :=
  category ∈ CATEGORIES \/ (exists e, e ∈ patterns /\ e.2.(pm_category) = category) \/
  (exists e, e ∈ contexts /\ e.2.(pc_category) = category) \/
  (exists id m, ids !! id = Some m /\ m.(output).(classifier_category) = category).

Definition answer_ok (ids : by_id) (c : Classification) : Prop :=
  c.(confidence) ∈ confidence_words /\ known_category ids c.(category).

Hypothesis patterns_worded : Forall (fun e : _PatternEntry => e.2.(pm_confidence) ∈ confidence_words) patterns.
Hypothesis contexts_worded : Forall (fun e : _PathContextEntry => e.2.(pc_confidence) ∈ confidence_words) contexts.

Lemma match_pattern_elem (name : string) (pm : PatternMatch) :
  match_pattern patterns name = Some pm -> exists e, e ∈ patterns /\ e.2 = pm.
Proof.
  unfold match_pattern. destruct (after_last _ _); [done|]. intros (e & [He _]%find_some & ->)%fmap_Some.
  exists e. by rewrite list_elem_of_In.
Qed.

Lemma match_context_elem (path : string) (pcm : PathContextMatch) :
  match_path_context contexts path = Some pcm -> exists e, e ∈ contexts /\ e.2 = pcm.
Proof.
  unfold match_path_context. destruct (after_last _ _); [done|]. intros (e & [He _]%find_some & ->)%fmap_Some.
  exists e. by rewrite list_elem_of_In.
Qed.

Lemma of_pattern_ok (ids : by_id) (name fmt : string) (pm : PatternMatch) :
  match_pattern patterns name = Some pm -> answer_ok ids (of_pattern pm fmt).
Proof.
  intros (e & He & <-)%match_pattern_elem. split; cbn [of_pattern confidence category].
  - by apply (proj1 (Forall_forall _ _) patterns_worded).
  - right. left. by exists e.
Qed.

Lemma plain_ok (ids : by_id) (category vendor fmt confidence : string) :
  category ∈ CATEGORIES -> confidence ∈ confidence_words -> answer_ok ids (plain category vendor fmt confidence).
Proof. intros H1 H2. by split; [|left]. Qed.

Ltac by_table := apply plain_ok; member.

Lemma qcom_category (name : string) : _category_from_qcom_name name ∈ CATEGORIES.
Proof.
  unfold _category_from_qcom_name.
  repeat match goal with |- context [if ?b then _ else _] => destruct b end; member.
Qed.

Lemma inner_ok (ids : by_id) (name lpath : string) (magic : bytes) (c : Classification) :
  _classify_inner patterns name (lower name) lpath magic = Some c -> answer_ok ids c.
Proof.
  assert (Hq : forall conf, conf ∈ confidence_words -> answer_ok ids (plain (_category_from_qcom_name name) "qualcomm" "qcom_mbn" conf)).
  { intros conf Hc. by apply plain_ok, Hc; apply qcom_category. }
  pose proof (fun fmt pm => of_pattern_ok ids name fmt pm) as Hp.
  unfold _classify_inner, kernel_module. destruct (_ && _ && _).
  { intros [= <-]. destruct (match_pattern _ _) as [pm|]; [case_bool_decide; [by apply Hp|by_table]|by_table]. }
  destruct (_eval_elf_check magic).
  - destruct (_ADRENO_RE name); [intros [= <-]; by_table|].
    destruct (_is_qcom_filename name); [intros [= <-]; apply Hq; member|].
    destruct (match_pattern _ _) as [pm|]; [intros [= <-]; by apply Hp|].
    repeat (match goal with |- context [if ?b then _ else _] => destruct b end; [intros [= <-]; by_table|]). done.
  - destruct (_is_qcom_filename name); [intros [= <-]; apply Hq; member|].
    destruct (match_pattern _ _) as [pm|]; [intros [= <-]; by apply Hp|].
    repeat (match goal with |- (if ?b then _ else _) = _ -> _ => destruct b end; [intros [= <-]; by_table|]). done.
Qed.

Lemma partition_category (name cat component : string) : lookup_partition name = Some (cat, component) -> cat ∈ CATEGORIES.
Proof.
  unfold lookup_partition. destruct (negb _); [done|]. destruct (dict_get _ _) as [[c k]|] eqn:E.
  - intros [= -> _]. apply dict_get_elem in E.
    assert (H : Forall (fun e : string * (string * string) => e.2.1 ∈ CATEGORIES) _MTK_PARTITIONS).
    { member. }
    by apply (proj1 (Forall_forall _ _) H) in E.
  - destruct (startswith _ _); [|done]. intros [= <- _]. member.
Qed.

Lemma catalog_ok (ids : by_id) (magic : bytes) (r : option FormatMatch) (c : Classification) :
  _classify_via_catalog magic r (fun id => ids !! id) = Some c -> answer_ok ids c.
Proof.
  unfold _classify_via_catalog. destruct r as [m|]; [|done]. cbn [mbind option_bind]. case_bool_decide; [done|].
  destruct (ids !! _) as [x|] eqn:E; [|done]. intros [= <-]. split; cbn [confidence category].
  - destruct (classifier_confidence _); member.
  - unfold refined_category.
    assert (Hx : known_category ids x.(output).(classifier_category)) by (do 3 right; by exists m.(match_format_id), x).
    case_bool_decide; [|done]. destruct (parse_lk_header magic ≫= _) as [[cat component]|] eqn:El; [|done]. left.
    apply bind_Some in El as (hdr & _ & El). by eapply partition_category.
Qed.

Lemma context_ok (ids : by_id) (path : string) (c0 : option Classification) (c : Classification) :
  (forall x, c0 = Some x -> answer_ok ids x) -> _apply_path_context contexts path c0 = Some c -> answer_ok ids c.
Proof.
  intros H0. unfold _apply_path_context. destruct c0 as [x|].
  - case_bool_decide; [|by intros [= <-]; apply H0]. destruct (match_path_context _ _) as [pcm|] eqn:E; [|by intros [= <-]; apply H0].
    apply match_context_elem in E as (e & He & <-). intros [= <-]. split; cbn [confidence category].
    + by apply (proj1 (Forall_forall _ _) contexts_worded).
    + right. right. left. by exists e.
  - intros (pcm & E & ->)%fmap_Some. apply match_context_elem in E as (e & He & <-). split; cbn [confidence category].
    + by apply (proj1 (Forall_forall _ _) contexts_worded).
    + right. right. left. by exists e.
Qed.
End Laws.

(** *** Tables read from files *)

Section Parsed.
Context (compile : string -> option (string -> bool)).

Lemma confidence_word (d : pydict) : confidence_field d ∈ confidence_words.
Proof. unfold confidence_field. case_bool_decide; [done|]. right. left. Qed.

Lemma patterns_confident (raw : pydict) (patterns : list _PatternEntry) :
  _parse_patterns_data compile raw = Ok patterns -> Forall (fun e : _PatternEntry => e.2.(pm_confidence) ∈ confidence_words) patterns.
Proof.
  unfold _parse_patterns_data. destruct (list_field _ _) as [entries|]; [|done]. intros [= <-]. apply Forall_forall.
  intros e (entry & _ & He)%list_elem_of_omap. unfold pattern_entry in He. destruct entry; try done.
  apply bind_Some in He as (? & _ & He). apply bind_Some in He as (? & _ & He). apply bind_Some in He as (? & _ & He).
  apply bind_Some in He as (? & _ & [= <-]). apply confidence_word.
Qed.

Lemma contexts_confident (raw : pydict) (contexts : list _PathContextEntry) :
  _parse_path_contexts_data compile raw = Ok contexts ->
  Forall (fun e : _PathContextEntry => e.2.(pc_confidence) ∈ confidence_words) contexts.
Proof.
  unfold _parse_path_contexts_data. destruct (list_field _ _) as [entries|]; [|done].
  destruct (compiled_contexts compile entries) as [l|] eqn:E; [|done]. intros [= <-]. apply compiled_contexts_omap in E. subst l.
  apply Forall_forall. intros e He. apply elem_of_sort_by, list_elem_of_omap in He as (entry & _ & He). unfold context_of in He.
  destruct (context_parts _ _) as [[[[[d rx] frx] v] c]|]; [|done]. destruct (priority_of d); [|done]. injection He as <-.
  apply confidence_word.
Qed.

(** C38. Every answer is typed: its confidence is high, medium or low; its category is one
    of the program's, of the pattern or path-context table, or of a manifest of the
    catalogue (the table of MediaTek partitions adds none of its own); and it stays other
    only where no path context says more. *)
Theorem classification_typed (raw_patterns raw_contexts : pydict) (patterns : list _PatternEntry) (contexts : list _PathContextEntry)
    (isfile : string -> bool) (zip_names : string -> zip_listing) (plugins : registry) (digest : list FileFormatManifest -> string)
    (calls : list call) (time_ns : Z) (d : disk) (path : string) (magic : bytes) (size : Z) (c : Classification) :
  _parse_patterns_data compile raw_patterns = Ok patterns -> _parse_path_contexts_data compile raw_contexts = Ok contexts ->
  NoDup (paths_of (all_walked d)) ->
  (classify patterns contexts isfile zip_names plugins digest time_ns (history digest calls) d path magic size).2 = Ok (Some c) ->
  exists ids, (get_catalog plugins (history digest calls) d).2 = Some ids /\
    c.(confidence) ∈ confidence_words /\ known_category patterns contexts ids c.(category) /\
    (c.(category) = "other" -> forall pcm, match_path_context contexts (lower path) = Some pcm -> pcm.(pc_category) = "other").
Proof.
  intros Hp%patterns_confident Hc%contexts_confident Hn. rewrite classify_answer by done.
  destruct ((get_catalog _ _ _).2) as [ids|]; [|done]. unfold classify_on. destruct (resolve _ _ _ _ _ _ _) as [r|]; [|done].
  intros [= H]. unfold classify_from in H. exists ids. split; [done|].
  assert (Hok : answer_ok patterns contexts ids c).
  { eapply (context_ok patterns contexts Hc); [|exact H]. intros x. destruct (_classify_via_catalog _ _ _) as [y|] eqn:E.
    - intros [= <-]. by eapply catalog_ok.
    - by apply inner_ok. }
  destruct Hok as [H1 H2]. split_and!; [done..|]. intros Ho pcm Hpcm. unfold _apply_path_context in H. rewrite Hpcm in H.
  destruct (match _classify_via_catalog _ _ _ with Some _ => _ | None => _ end) as [x|]; [|by injection H as <-].
  case_bool_decide as Hx; [by injection H as <-|]. congruence.
Qed.
End Parsed.

(** ** An RTOS *)

(** A blob in which the bundled plugin recognises an RTOS is reported with the format
    rtos_dispatch and the category rtos_blob, whatever its name and path say: the formats
    left to the names have rtos_blob among them, but that is the identifier of no manifest.
    The category is none of the program's. *)
Theorem rtos_hit_classified (patterns : list _PatternEntry) (contexts : list _PathContextEntry)
    (isfile : string -> bool) (zip_names : string -> zip_listing) (detect_rtos : string -> rtos_answer)
    (digest : list FileFormatManifest -> string) (calls : list call) (time_ns : Z) (d : disk) (path : string) (magic : bytes) (size : Z)
    (ids : by_id) (r : rtos_result) (family : string) :
  NoDup (paths_of (all_walked d)) -> (get_catalog (plugins detect_rtos) (history digest calls) d).2 = Some ids ->
  ids !! "rtos_dispatch"%string = Some rtos_dispatch ->
  (forall id m, ids !! id = Some m -> m = rtos_dispatch \/ m.(detection).(sort_tier) = floor \/ m.(manifest_source) <> src_system) ->
  (forall id, id ∈ rtos_dispatch.(dispatch).(cases).*2 -> ids !! id = None) ->
  path <> "" -> detect_rtos path = RtosFound r -> r.(rtos_name) = Some family -> _RTOS_FAMILY_SHAPE family = true ->
  (classify patterns contexts isfile zip_names (plugins detect_rtos) digest time_ns (history digest calls) d path magic size).2 =
    Ok (Some (plain "rtos_blob" "unknown" "rtos_dispatch" "medium")) /\ "rtos_blob" ∉ CATEGORIES.
Proof.
  intros Hn Hids Hin Hrank Hcases Hp Hr Hf Hs. split; [|member].
  rewrite classify_answer, Hids by done. unfold classify_on.
  pose proof (catalog_manifests_ok digest calls _ d ids Hids) as Hok.
  assert (Hl : forall m, m ∈ listing ids <-> ids !! m.(format_id) = Some m).
  { intros m. unfold listing. rewrite elem_of_sort_by, list_elem_of_fmap. split.
    - intros ([i x] & -> & H%elem_of_map_to_list). cbn. by destruct (Hok i x H) as [-> _].
    - intros H. exists (m.(format_id), m). split; [done|]. by apply elem_of_map_to_list. }
  destruct (rtos_hit_answer isfile zip_names detect_rtos magic path size (listing ids) r family) as (a & -> & Ha & _); try done.
  - apply Forall_forall. intros m Hm%Hl. by destruct (Hok _ m Hm).
  - by apply Hl.
  - intros m Hm%Hl. by eapply Hrank.
  - intros m Hm%Hl Hc. rewrite (Hcases _ Hc) in Hm. done.
  - unfold _classify_via_catalog. cbn [mbind option_bind]. rewrite Ha. rewrite bool_decide_eq_false_2 by member.
    rewrite Hin. done.
Qed.

(** ** On a small catalogue *)

Definition small_classify (patterns : list _PatternEntry) (contexts : list _PathContextEntry) (path : string) (magic : bytes) :
    res classify_error (option Classification) :=
  (classify patterns contexts no_file no_zip [] (fun _ => "") 7 small_history small_disk path magic (zlen magic)).2.

Definition partition_image (name : string) : bytes := write_image {| img_name := encode name; img_payload := [] |}.

Lemma small_paths : NoDup (paths_of (all_walked small_disk)).
Proof. member. Qed.

(** The image of a partition without a parser of its own: the manifest gives the format,
    the table of partitions the category. *)
Lemma classify_current_witness :
  small_classify [] [] "/fw/vpu.img" (partition_image "cam_vpu1") =
    Ok (Some (plain "camera" "mediatek" "mtk_lk" "high")) /\
  match (get_catalog [] small_history small_disk).2 with
  | None => Err CatalogError
  | Some ids => classify_on [] [] no_file no_zip [] (listing ids) (fun id => ids !! id) "/fw/vpu.img" (partition_image "cam_vpu1") 512
  end = Ok (Some (plain "camera" "mediatek" "mtk_lk" "high")).
Proof.
  split; [by vm_compute|].
  etrans; [symmetry; apply (classify_current [] [] no_file no_zip [] (fun _ => "") small_calls 7 small_disk "/fw/vpu.img"
    (partition_image "cam_vpu1") 512 small_paths)|by vm_compute].
Defined.

(** A text file outside the directories of firmware. *)
Lemma classify_skips_witness :
  small_classify [] [] "/etc/hosts" (encode "127.0.0.1 localhost") = Ok None /\
  ~ recognised [] "hosts" "/etc/hosts" (encode "127.0.0.1 localhost").
Proof.
  assert (H : small_classify [] [] "/etc/hosts" (encode "127.0.0.1 localhost") = Ok None) by by vm_compute.
  split; [done|].
  pose proof (classify_skips [] [] no_file no_zip [] (fun _ => "") small_calls 7 small_disk "/etc/hosts" (encode "127.0.0.1 localhost") 19
    small_paths) as [Hs _].
  by destruct (Hs H) as (ids & r & _ & _ & _ & Hr & _).
Defined.

(** A name rule of one product, and a rule for its directory. *)
Definition product_rule : json :=
  JDict [("pattern", JStr "isp"); ("vendor", JStr "Acme"); ("category", JStr "other"); ("confidence", JStr "LOW")].

Lemma classification_typed_witness :
  exists patterns contexts c,
    _parse_patterns_data literal [("patterns", JList [product_rule])] = Ok patterns /\
    _parse_path_contexts_data literal two_rules = Ok contexts /\
    small_classify patterns contexts "/vendor/Camera/isp_fw.bin" (encode "raw") = Ok (Some c) /\
    c.(category) = "camera" /\ c.(vendor) = "acme" /\ c.(confidence) ∈ confidence_words /\
    exists ids, known_category patterns contexts ids c.(category).
Proof.
  destruct (_parse_patterns_data literal [("patterns", JList [product_rule])]) as [patterns|] eqn:Ep; [|by vm_compute in Ep].
  destruct (_parse_path_contexts_data literal two_rules) as [contexts|] eqn:Ec; [|by vm_compute in Ec].
  destruct (small_classify patterns contexts "/vendor/Camera/isp_fw.bin" (encode "raw")) as [[c|]|] eqn:E;
    [|exfalso; injection Ep as <-; injection Ec as <-; by vm_compute in E..].
  destruct (classification_typed literal _ _ patterns contexts no_file no_zip [] (fun _ => "") small_calls 7 small_disk
    "/vendor/Camera/isp_fw.bin" (encode "raw") (zlen (encode "raw")) c Ep Ec small_paths E) as (ids & _ & H1 & H2 & _).
  exists patterns, contexts, c. split_and!; [done..| | |done|by exists ids];
    injection Ep as <-; injection Ec as <-; by vm_compute in E; simplify_eq.
Defined.

(** The names of the Venus branch that have the extension of a Qualcomm image never reach it. *)
Example venus_is_qcom : _VENUS_RE "venus.mbn" = true /\ _is_qcom_filename "venus.mbn" = true /\
  small_classify [] [] "/x/venus.mbn" (ELF_MAGIC ++ encode "0") = Ok (Some (plain "other" "qualcomm" "qcom_mbn" "high")).
Proof. by vm_compute. Qed.

(** The small disk with the manifest of the plugin, and the image of a coprocessor. *)
Definition rtos_file : yaml_file :=
  file_at "/data/file_formats/_system/rtos_dispatch.yaml" ["_system"; "rtos_dispatch.yaml"] 1 (Doc rtos_dispatch).
Definition rtos_disk : disk := {| system_root := Some [fallback_file; lk_file; tinysys_file; rtos_file]; local_root := None |}.

Definition rtos_ids : by_id :=
  list_to_map ((fun m => (m.(format_id), m)) <$> [linux_blob_fallback; mtk_lk; mtk_tinysys; rtos_dispatch]).

Lemma rtos_disk_answer : (get_catalog (plugins freertos_scan) (history (fun _ => "") []) rtos_disk).2 = Some rtos_ids.
Proof. vm_cast_no_check (eq_refl (Some rtos_ids)). Qed.

Lemma rtos_ids_elem (id : string) (m : FileFormatManifest) :
  rtos_ids !! id = Some m -> m ∈ [linux_blob_fallback; mtk_lk; mtk_tinysys; rtos_dispatch] /\ m.(format_id) = id.
Proof. intros H%elem_of_list_to_map_2. by apply list_elem_of_fmap in H as (x & [= -> ->] & H). Qed.

Lemma rtos_hit_classified_witness :
  exists c, (classify [] [] no_file no_zip (plugins freertos_scan) (fun _ => "") 7 (history (fun _ => "") []) rtos_disk
               "/vendor/firmware/sspm.img" (partition_image "sspm") 512).2 = Ok (Some c) /\ c.(category) ∉ CATEGORIES.
Proof.
  exists (plain "rtos_blob" "unknown" "rtos_dispatch" "medium").
  eapply (rtos_hit_classified [] [] no_file no_zip freertos_scan (fun _ => "") [] 7 rtos_disk "/vendor/firmware/sspm.img"
    (partition_image "sspm") 512 rtos_ids _ "freertos").
  - member.
  - exact rtos_disk_answer.
  - by vm_compute.
  - intros id m [H _]%rtos_ids_elem. rewrite !elem_of_cons in H.
    destruct H as [->|[->|[->|[->|H%not_elem_of_nil]]]]; [right; left; reflexivity|right; right; discriminate..|by left|done].
  - assert (H : Forall (fun id => rtos_ids !! id = None) rtos_dispatch.(dispatch).(cases).*2) by (vm_compute; repeat constructor).
    by apply Forall_forall.
  - discriminate.
  - reflexivity.
  - reflexivity.
  - by vm_compute.
Defined.
