(* ===== verification/WalkStatus.v ===== *)
(** * The walk state machine ([ai/tools/ics_protocol.py], [services/ics_protocol_walker.py])

    The status columns of an ICS walk: the tool that queues a walk, the background runner,
    the automatic run after unpacking, and the system they form with crashes of the tool
    process and restarts of the back end, whose start-up runs the sweep of [Reaper].
    Every other walker of the registry has a trigger and a runner of this shape. *)

From S2P Require Import Prelude PyText Json JsonbColumns FirmwareModel Reaper.
From Stdlib Require Import Ascii String.
Import (notations) Ascii String.
#[local] Open Scope Z_scope.

(** ** [uuid.UUID(text)] *)

(** [s.replace(sub, "")] for a non-empty [sub]. *)
Fixpoint remove_sub (sub : string) (skip : nat) (s : string) : string :=
  match s with
  | "" => ""
  | String a s' =>
      match skip with
      | S k => remove_sub sub k s'
      | O => if startswith s sub then remove_sub sub (String.length sub - 1) s'
             else String a (remove_sub sub 0 s')
      end
  end.

Definition nibble (a : ascii) : option Z :=
  let n := Z.of_N (N_of_ascii a) in
  if bool_decide (48 <= n <= 57) then Some (n - 48)
  else if bool_decide (97 <= n <= 102) then Some (n - 87)
  else if bool_decide (65 <= n <= 70) then Some (n - 55)
  else None.

(** Hexadecimal digits with single underscores between them. *)
Fixpoint nibbles (acc : Z) (last : bool) (s : string) : option Z :=
  match s with
  | "" => if last then None else Some acc
  | String a s' =>
      match nibble a with
      | Some v => nibbles (16 * acc + v) false s'
      | None => if bool_decide (a = "_"%char) && negb last then nibbles acc true s' else None
      end
  end.

(** Digits must start with a digit; after a base prefix one underscore may come first. *)
Definition hex_digits (after_prefix : bool) (s : string) : option Z :=
  match s with
  | "" => None
  | String "_" s' => if after_prefix then (match s' with "" => None | _ => nibbles 0 true s' end) else None
  | _ => nibbles 0 false s
  end.

(** [int(s, 16)]. *)
Definition py_int16 (s : string) : option Z :=
  let unsigned (s : string) :=
    match s with
    | String "0" (String "x" s') | String "0" (String "X" s') => hex_digits true s'
    | _ => hex_digits false s
    end in
  match strip s with
  | String "+" s' => unsigned s'
  | String "-" s' => Z.opp <$> unsigned s'
  | s' => unsigned s'
  end.

Definition is_brace (a : ascii) : bool := is_char "{"%char a || is_char "}"%char a.

(** [uuid.UUID(s)], by its 128-bit integer; [None] where it raises [ValueError]. *)
Definition py_uuid (s : string) : option Z :=
  let hex := remove_sub "uuid:" 0 (remove_sub "urn:" 0 s) in
  let hex := replace_char "-" "" (rstrip_if is_brace (lstrip_if is_brace hex)) in
  if negb (py_len hex =? 32) then None
  else match py_int16 hex with
       | Some z => if bool_decide (0 <= z < 2 ^ 128) then Some z else None
       | None => None
       end.

Example py_uuid_ex :
  py_uuid "{12345678-1234-5678-1234-567812345678}" = Some 24197857161011715162171839636988778104 /\
  py_uuid "urn:uuid:00000000-0000-0000-0000-0000000000fF" = Some 255 /\
  py_uuid "1234" = None /\ py_uuid "g0000000000000000000000000000000" = None.
Proof. by vm_compute. Qed.

(** ** The handlers *)

Definition STATUS : string := "ics_protocol_walk_status".
Definition STARTED : string := "ics_protocol_walk_started_at".
Definition FINISHED : string := "ics_protocol_walk_finished_at".
Definition ERROR : string := "ics_protocol_walk_error".
Definition RESULT : string := "ics_protocol_walk_result".

(** The firmware table, by identifier. *)
Abbreviation firmware_table := (gmap Z row).

Inductive ident := IdStr (s : string) | IdUuid (z : Z).

Record trigger_context := { tc_project_id : option ident; tc_firmware_id : option ident }.

Inductive trigger_error := ValueError | StatementError.

Inductive trigger_reply :=
  | MissingFirmwareId
  | NoActiveProject
  | NotInProject (firmware_id project_id : Z)
  | Conflict (status started_at : cell) (firmware_id : Z)
  | Scheduled (firmware_id : Z).

Definition ident_uuid (i : ident) : res trigger_error Z :=
  match i with
  | IdUuid z => Ok z
  | IdStr s => match py_uuid s with Some z => Ok z | None => Err ValueError end
  end.

Definition ident_truthy (i : option ident) : bool :=
  match i with None => false | Some (IdStr s) => negb (bool_decide (s = "")) | Some (IdUuid _) => true end.

(** [input.get("firmware_id") or context.firmware_id]: a truthy value that is no text
    reaches the query, which rejects it. *)
Inductive raw_id := RawNone | RawIdent (i : ident) | RawOther.

Definition firmware_id_raw (input : pydict) (c : trigger_context) : raw_id :=
  let v := dict_get_or "firmware_id" JNull input in
  if py_truthy v
  then match v with JStr s => RawIdent (IdStr s) | _ => RawOther end
  else match c.(tc_firmware_id) with None => RawNone | Some i => RawIdent i end.

(** [SELECT ... WHERE id = ... AND project_id = ...]. *)
Definition select_firmware (db : firmware_table) (firmware_id project_id : Z) : option row :=
  match db !! firmware_id with
  | Some r => match field r "project_id" with
              | CUuid p => if bool_decide (p = project_id) then Some r else None
              | _ => None
              end
  | None => None
  end.

Definition in_flight (r : row) : bool := text_in (field r STATUS) ["queued"; "running"].

(** The part of the trigger that reads: a reply that ends the call, or the firmware. *)
Definition trigger_check (db : firmware_table) (input : pydict) (c : trigger_context)
    : res trigger_error (trigger_reply + Z) :=
  match firmware_id_raw input c with
  | RawNone => Ok (inl MissingFirmwareId)
  | raw =>
      firmware_id ← match raw with RawIdent i => Some <$> ident_uuid i | _ => Ok None end;
      if negb (ident_truthy c.(tc_project_id)) then Ok (inl NoActiveProject)
      else
        project_id ← match c.(tc_project_id) with Some i => ident_uuid i | None => Err ValueError end;
        match firmware_id with
        | None => Err StatementError
        | Some fid =>
            match select_firmware db fid project_id with
            | None => Ok (inl (NotInProject fid project_id))
            | Some r =>
                if in_flight r then Ok (inl (Conflict (field r STATUS) (field r STARTED) fid))
                else Ok (inr fid)
            end
        end
  end.

(** The assignments of the trigger, of the runner's entry, of its clean exit and of its
    failure; the error is the last two thousand characters of the traceback.  A result
    set to [None] reads as [CNull]. *)
Definition queued_values : list (string * cell) :=
  [(STATUS, CText "queued"); (STARTED, CNull); (FINISHED, CNull); (ERROR, CNull); (RESULT, CNull)].

Definition running_values (now : Z) : list (string * cell) :=
  [(STATUS, CText "running"); (STARTED, CTime now); (ERROR, CNull)].

Definition completed_values (now : Z) (result : pydict) : list (string * cell) :=
  [(STATUS, CText "completed"); (FINISHED, CTime now);
   (RESULT, CJson (JDict (_stamp_firmware_ics_protocol_walk_result result)))].

Definition failed_values (now : Z) (traceback : string) : list (string * cell) :=
  [(STATUS, CText "failed"); (FINISHED, CTime now); (ERROR, CText (last_chars 2000 traceback)); (RESULT, CNull)].

Definition walk_queued (r : row) : row := set_columns r queued_values.
Definition walk_running (now : Z) (r : row) : row := set_columns r (running_values now).
Definition walk_completed (now : Z) (result : pydict) (r : row) : row := set_columns r (completed_values now result).
Definition walk_failed (now : Z) (traceback : string) (r : row) : row := set_columns r (failed_values now traceback).

(** The whole tool call, its commit included, when nothing runs beside it: the reply,
    the table, and the firmware whose runner is started. *)
Definition _handle_trigger_ics_protocol_walk (db : firmware_table) (input : pydict) (c : trigger_context)
    : res trigger_error (trigger_reply * firmware_table * option Z) :=
  r ← trigger_check db input c;
  match r with
  | inl reply => Ok (reply, db, None)
  | inr fid => Ok (Scheduled fid, alter walk_queued fid db, Some fid)
  end.

(** What happens to one run: whether its first commit goes through, what the inner walk
    does, whether the session that records a failure commits. *)
Record run_env := {
  re_begin : Z; re_end : Z;
  re_begin_ok : bool;
  re_outcome : pydict + string;
  re_fail_ok : bool
}.

Definition run_ics_protocol_walk_background (firmware_id : Z) (e : run_env) (db : firmware_table) : firmware_table :=
  match db !! firmware_id with
  | None => db
  | Some _ =>
      if negb e.(re_begin_ok) then db
      else
        let db := alter (walk_running e.(re_begin)) firmware_id db in
        match e.(re_outcome) with
        | inl result => alter (walk_completed e.(re_end) result) firmware_id db
        | inr traceback =>
            if e.(re_fail_ok) then alter (walk_failed e.(re_end) traceback) firmware_id db else db
        end
  end.

(** The automatic run: the result alone, cleared on failure when the session that clears
    it commits. *)
Definition auto_result (outcome : pydict + string) (r : row) : row :=
  match outcome with
  | inl result => <[RESULT := CJson (JDict (_stamp_firmware_ics_protocol_walk_result result))]> r
  | inr _ => <[RESULT := CNull]> r
  end.

Definition auto_ics_protocol_walk_firmware_safe (firmware_id : Z) (outcome : pydict + string) (fail_ok : bool)
    (db : firmware_table) : firmware_table :=
  match outcome with
  | inr _ => if fail_ok then alter (auto_result outcome) firmware_id db else db
  | _ => alter (auto_result outcome) firmware_id db
  end.

(** ** Reading the handlers' effect *)

Definition status_of (r : row) : cell := field r STATUS.

Ltac columns :=
  unfold status_of, walk_queued, walk_running, walk_completed, walk_failed, set_columns,
    queued_values, running_values, completed_values, failed_values, STATUS, STARTED, FINISHED, ERROR, RESULT in *;
  cbn [foldl fst snd] in *; rewrite ?field_insert_eq, ?field_insert_ne by done.

Lemma queued_fields (r : row) :
  field (walk_queued r) STATUS = CText "queued" /\ field (walk_queued r) STARTED = CNull /\
  field (walk_queued r) FINISHED = CNull /\ field (walk_queued r) ERROR = CNull /\
  field (walk_queued r) RESULT = CNull.
Proof. split_and!; columns; repeat (rewrite ?field_insert_eq, ?field_insert_ne by done); done. Qed.

Lemma running_fields (now : Z) (r : row) :
  field (walk_running now r) STATUS = CText "running" /\ field (walk_running now r) STARTED = CTime now /\
  field (walk_running now r) FINISHED = field r FINISHED /\ field (walk_running now r) ERROR = CNull /\
  field (walk_running now r) RESULT = field r RESULT.
Proof. split_and!; columns; repeat (rewrite ?field_insert_eq, ?field_insert_ne by done); done. Qed.

Lemma completed_fields (now : Z) (d : pydict) (r : row) :
  field (walk_completed now d r) STATUS = CText "completed" /\
  field (walk_completed now d r) STARTED = field r STARTED /\
  field (walk_completed now d r) FINISHED = CTime now /\ field (walk_completed now d r) ERROR = field r ERROR /\
  field (walk_completed now d r) RESULT = CJson (JDict (_stamp_firmware_ics_protocol_walk_result d)).
Proof. split_and!; columns; repeat (rewrite ?field_insert_eq, ?field_insert_ne by done); done. Qed.

Lemma failed_fields (now : Z) (tb : string) (r : row) :
  field (walk_failed now tb r) STATUS = CText "failed" /\
  field (walk_failed now tb r) STARTED = field r STARTED /\
  field (walk_failed now tb r) FINISHED = CTime now /\
  field (walk_failed now tb r) ERROR = CText (last_chars 2000 tb) /\
  field (walk_failed now tb r) RESULT = CNull.
Proof. split_and!; columns; repeat (rewrite ?field_insert_eq, ?field_insert_ne by done); done. Qed.

Lemma auto_fields (o : pydict + string) (r : row) (c : string) :
  c <> RESULT -> field (auto_result o r) c = field r c.
Proof. intros H. destruct o; cbn; by rewrite field_insert_ne. Qed.

Lemma alter_as_insert (f : row -> row) (db : firmware_table) (fid : Z) (r : row) :
  db !! fid = Some r -> alter f fid db = <[fid := f r]> db.
Proof.
  intros Hd. apply map_eq. intros k. destruct (decide (fid = k)) as [<-|Hne].
  - by rewrite lookup_alter_eq, Hd, lookup_insert_eq.
  - by rewrite lookup_alter_ne, lookup_insert_ne.
Qed.

(** The firmware and the project a call names. *)
Definition names_firmware (input : pydict) (c : trigger_context) (fid pid : Z) : Prop :=
  exists i j, firmware_id_raw input c = RawIdent i /\ ident_uuid i = Ok fid /\
    c.(tc_project_id) = Some j /\ ident_truthy (Some j) = true /\ ident_uuid j = Ok pid.

Lemma select_firmware_spec (db : firmware_table) (fid pid : Z) (r : row) :
  select_firmware db fid pid = Some r <-> db !! fid = Some r /\ field r "project_id" = CUuid pid.
Proof.
  unfold select_firmware. destruct (db !! fid) as [r'|]; [|split; [done|by intros [? _]]]. split.
  - destruct (field r' "project_id") eqn:E; try done. case_bool_decide; [|done]. intros [= <-]. by subst.
  - intros [[= ->] E]. rewrite E. by rewrite bool_decide_eq_true_2.
Qed.

Lemma trigger_check_pass (db : firmware_table) (input : pydict) (c : trigger_context) (fid : Z) :
  trigger_check db input c = Ok (inr fid) <->
  exists pid r, names_firmware input c fid pid /\ db !! fid = Some r /\ field r "project_id" = CUuid pid /\
    in_flight r = false.
Proof.
  unfold trigger_check, names_firmware. split.
  - destruct (firmware_id_raw input c) as [|i|] eqn:Er; [done|..]; cbn [mbind res_bind].
    + intros (f & Hf & H)%res_bind_ok. destruct (ident_uuid i) as [f'|] eqn:Ei; [|done].
      injection Hf as <-. destruct (ident_truthy (tc_project_id c)) eqn:Et; [|done]. cbn [negb] in H.
      destruct (tc_project_id c) as [j|] eqn:Ej; [|done]. apply res_bind_ok in H as (p & Hp & H).
      destruct (select_firmware db f' p) as [r|] eqn:Es; [|done]. destruct (in_flight r) eqn:Ef; [done|].
      injection H as <-. apply select_firmware_spec in Es as [Hd Hpr]. exists p, r. split_and!; try done.
      by exists i, j.
    + destruct (ident_truthy _); [|done]. cbn [negb]. by intros (p & _ & ?)%res_bind_ok.
  - intros (pid & r & (i & j & Hr & Hi & Hj & Ht & Hp) & Hd & Hpr & Hf).
    rewrite Hr, Hi. cbn [fmap res_fmap mbind res_bind]. rewrite Hj, Ht. cbn [negb]. rewrite Hp.
    cbn [mbind res_bind]. rewrite (proj2 (select_firmware_spec db fid pid r)) by done. by rewrite Hf.
Qed.

Lemma trigger_named (db : firmware_table) (input : pydict) (c : trigger_context) (fid pid : Z) :
  names_firmware input c fid pid ->
  _handle_trigger_ics_protocol_walk db input c =
    match select_firmware db fid pid with
    | None => Ok (NotInProject fid pid, db, None)
    | Some r => if in_flight r then Ok (Conflict (field r STATUS) (field r STARTED) fid, db, None)
                else Ok (Scheduled fid, alter walk_queued fid db, Some fid)
    end.
Proof.
  intros (i & j & Hr & Hi & Hj & Ht & Hp). unfold _handle_trigger_ics_protocol_walk, trigger_check.
  rewrite Hr, Hi. cbn [fmap res_fmap mbind res_bind].
  rewrite Hj, Ht. cbn [negb]. rewrite Hp. cbn [mbind res_bind].
  destruct (select_firmware db fid pid) as [r'|]; [|done]. by destruct (in_flight r').
Qed.

(** The trigger starts a runner exactly for a firmware of the caller's project whose
    walk is not queued or running; it then queues that row, with the traces of the last
    run cleared, and touches no other.  Every other call leaves the table as it was and
    starts nothing; a queued or running walk of the project is answered with a conflict
    that carries its status. *)
Theorem trigger_spec (db : firmware_table) (input : pydict) (c : trigger_context) (fid pid : Z) (r : row) :
  names_firmware input c fid pid ->
  db !! fid = Some r ->
  (_handle_trigger_ics_protocol_walk db input c = Ok (Scheduled fid, <[fid := walk_queued r]> db, Some fid) <->
     field r "project_id" = CUuid pid /\ in_flight r = false) /\
  (field r "project_id" = CUuid pid -> in_flight r = true ->
     _handle_trigger_ics_protocol_walk db input c = Ok (Conflict (field r STATUS) (field r STARTED) fid, db, None)) /\
  (field r "project_id" <> CUuid pid ->
     _handle_trigger_ics_protocol_walk db input c = Ok (NotInProject fid pid, db, None)).
Proof.
  intros Hn Hd. pose proof (trigger_named db input c fid pid Hn) as Hc.
  assert (Ha : alter walk_queued fid db = <[fid := walk_queued r]> db) by by apply alter_as_insert.
  rewrite Hc, Ha. destruct (select_firmware db fid pid) as [r'|] eqn:Es.
  - apply select_firmware_spec in Es as [Hd' Hpr]. rewrite Hd in Hd'. injection Hd' as <-.
    destruct (in_flight r); naive_solver.
  - assert (Hne : field r "project_id" <> CUuid pid).
    { intros Hpr. by rewrite (proj2 (select_firmware_spec db fid pid r)) in Es. }
    naive_solver.
Qed.

Definition fw1 : row :=
  <["project_id" := CUuid 7]> (<[STATUS := CText "completed"]> (<[ERROR := CText "old"]> new_row)).

Definition call1 : pydict * trigger_context :=
  ([("firmware_id", JStr "00000000-0000-0000-0000-000000000001")],
   {| tc_project_id := Some (IdUuid 7); tc_firmware_id := None |}).

Lemma trigger_spec_witness :
  exists db', _handle_trigger_ics_protocol_walk {[ 1 := fw1 ]} call1.1 call1.2 = Ok (Scheduled 1, db', Some 1) /\
    match db' !! 1 with Some r => field r ERROR = CNull | None => False end.
Proof.
  assert (Hn : names_firmware call1.1 call1.2 1 7).
  { exists (IdStr "00000000-0000-0000-0000-000000000001"), (IdUuid 7).
    repeat split; vm_compute; reflexivity. }
  assert (Hp : field fw1 "project_id" = CUuid 7) by (unfold fw1; by rewrite field_insert_eq).
  assert (Hf : in_flight fw1 = false) by (unfold fw1, in_flight; by rewrite field_insert_ne, field_insert_eq).
  exists (<[1 := walk_queued fw1]> {[ 1 := fw1 ]}). split;
    [|rewrite lookup_insert_eq; exact (proj1 (proj2 (proj2 (proj2 (queued_fields fw1)))))].
  exact (proj2 (proj1 (trigger_spec {[ 1 := fw1 ]} call1.1 call1.2 1 7 fw1 Hn (lookup_singleton_eq 1 fw1)))
           (conj Hp Hf)).
Defined.

(** ** The system

    The tool process handles calls concurrently: a call reads the row, and writes and
    commits later; the runner it starts is a task of the same process.  The back end is
    another process, whose restart sweeps the table.  Each step is one transaction; a
    session writes the columns whose value differs from the one it loaded, so a call or a
    run that ends after another writer keeps what that writer left in the others. *)

(** [==] of two values: numbers by value, dictionaries whatever their order. *)
Fixpoint py_eq (a b : json) : bool :=
  match a, b with
  | JNull, JNull => true
  | JBool x, _ => py_eq_int b (if x then 1 else 0)
  | JInt x, _ => py_eq_int b x
  | JFloat f, JFloat g => bool_decide (f.(f_repr) = g.(f_repr)) && negb (bool_decide (f.(f_repr) = "nan"))
  | JFloat f, JBool _ | JFloat f, JInt _ =>
      match py_int b with Some z => py_eq_int a z | None => false end
  | JStr x, JStr y => bool_decide (x = y)
  | JList l, JList m =>
      (fix go (l m : list json) : bool :=
         match l, m with
         | [], [] => true
         | x :: l', y :: m' => py_eq x y && go l' m'
         | _, _ => false
         end) l m
  | JDict d, JDict e =>
      bool_decide (List.length d = List.length e) &&
      forallb (fun kv => match dict_get kv.1 e with Some v => py_eq kv.2 v | None => false end) d
  | _, _ => false
  end.

(** Whether a session that loaded [a] writes the column when it is set to [b]. *)
Definition differs (a b : cell) : bool :=
  negb match a, b with
       | CNull, CNull => true
       | CText x, CText y => bool_decide (x = y)
       | CInt x, CInt y | CUuid x, CUuid y | CTime x, CTime y => bool_decide (x = y)
       | CJson x, CJson y => py_eq x y
       | _, _ => false
       end.

(** The update of a session that loaded [loaded]. *)
Definition write_changed (loaded : row) (values : list (string * cell)) (r : row) : row :=
  foldl (fun r nc => if differs (field loaded nc.1) nc.2 then <[nc.1:=nc.2]> r else r) r values.

Inductive phase := Pending | Walking (loaded : row).

Record system := {
  s_db : firmware_table;
  s_checked : list (Z * row);
  s_tasks : list (Z * phase)
}.

Inductive label :=
  | LCheck (fid : Z)
  | LCommit (fid : Z)
  | LRollback (fid : Z)
  | LBegin (fid now : Z)
  | LDone (fid now : Z) (result : pydict)
  | LFail (fid now : Z) (traceback : string)
  | LLost (fid : Z)
  | LAuto (fid : Z) (outcome : pydict + string) (fail_ok : bool)
  | LToolCrash
  | LRestart (evs : nat -> reap_event).

Definition sweep_table (evs : nat -> reap_event) (db : firmware_table) : firmware_table :=
  reap_row_from 0 evs reaper_configs <$> db.

Inductive step : system -> label -> system -> Prop :=
  | S_check db ch ts input c fid r :
      trigger_check db input c = Ok (inr fid) -> db !! fid = Some r ->
      step {| s_db := db; s_checked := ch; s_tasks := ts |} (LCheck fid)
           {| s_db := db; s_checked := (fid, r) :: ch; s_tasks := ts |}
  | S_commit db ch1 ch2 ts fid l :
      step {| s_db := db; s_checked := ch1 ++ (fid, l) :: ch2; s_tasks := ts |} (LCommit fid)
           {| s_db := alter (write_changed l queued_values) fid db; s_checked := ch1 ++ ch2;
              s_tasks := (fid, Pending) :: ts |}
  | S_rollback db ch1 ch2 ts fid l :
      (** the commit fails after the task was created *)
      step {| s_db := db; s_checked := ch1 ++ (fid, l) :: ch2; s_tasks := ts |} (LRollback fid)
           {| s_db := db; s_checked := ch1 ++ ch2; s_tasks := (fid, Pending) :: ts |}
  | S_begin db ch t1 t2 fid now r :
      db !! fid = Some r ->
      step {| s_db := db; s_checked := ch; s_tasks := t1 ++ (fid, Pending) :: t2 |} (LBegin fid now)
           {| s_db := alter (walk_running now) fid db; s_checked := ch;
              s_tasks := t1 ++ (fid, Walking (walk_running now r)) :: t2 |}
  | S_gone db ch t1 t2 fid now :
      db !! fid = None ->
      step {| s_db := db; s_checked := ch; s_tasks := t1 ++ (fid, Pending) :: t2 |} (LBegin fid now)
           {| s_db := db; s_checked := ch; s_tasks := t1 ++ t2 |}
  | S_done db ch t1 t2 fid l now d :
      step {| s_db := db; s_checked := ch; s_tasks := t1 ++ (fid, Walking l) :: t2 |} (LDone fid now d)
           {| s_db := alter (write_changed l (completed_values now d)) fid db; s_checked := ch; s_tasks := t1 ++ t2 |}
  | S_fail db ch t1 t2 fid l now tb :
      (** a fresh session loads the row again *)
      step {| s_db := db; s_checked := ch; s_tasks := t1 ++ (fid, Walking l) :: t2 |} (LFail fid now tb)
           {| s_db := alter (walk_failed now tb) fid db; s_checked := ch; s_tasks := t1 ++ t2 |}
  | S_lost db ch t1 t2 fid ph :
      (** the runner's outer guard: a session that cannot be opened or committed *)
      step {| s_db := db; s_checked := ch; s_tasks := t1 ++ (fid, ph) :: t2 |} (LLost fid)
           {| s_db := db; s_checked := ch; s_tasks := t1 ++ t2 |}
  | S_auto db ch ts fid o ok :
      step {| s_db := db; s_checked := ch; s_tasks := ts |} (LAuto fid o ok)
           {| s_db := auto_ics_protocol_walk_firmware_safe fid o ok db; s_checked := ch; s_tasks := ts |}
  | S_tool_crash db ch ts :
      step {| s_db := db; s_checked := ch; s_tasks := ts |} LToolCrash
           {| s_db := db; s_checked := []; s_tasks := [] |}
  | S_restart db ch ts evs :
      step {| s_db := db; s_checked := ch; s_tasks := ts |} (LRestart evs)
           {| s_db := sweep_table evs db; s_checked := ch; s_tasks := ts |}.

Inductive run : system -> list label -> system -> Prop :=
  | run_nil s : run s [] s
  | run_cons s l s' ls s'' : step s l s' -> run s' ls s'' -> run s (l :: ls) s''.

(** ** Reading a partial update *)

Lemma field_write_changed_other (l r : row) (vs : list (string * cell)) (n : string) :
  n ∉ vs.*1 -> field (write_changed l vs r) n = field r n.
Proof.
  unfold write_changed. revert r. induction vs as [|[k v] vs IH]; intros r Hn; cbn; [done|].
  cbn in Hn. rewrite not_elem_of_cons in Hn. destruct Hn as [Hk Hn]. rewrite IH by done.
  destruct (differs _ _); [by rewrite field_insert_ne|done].
Qed.

(** A column set once: written when it differs from what the session loaded. *)
Lemma field_write_changed (l r : row) (vs1 vs2 : list (string * cell)) (n : string) (v : cell) :
  n ∉ vs1.*1 -> n ∉ vs2.*1 ->
  field (write_changed l (vs1 ++ (n, v) :: vs2) r) n = if differs (field l n) v then v else field r n.
Proof.
  intros H1 H2. unfold write_changed. rewrite foldl_app. cbn [foldl fst snd].
  fold (write_changed l vs1 r).
  change (foldl _ ?x vs2) with (write_changed l vs2 x). rewrite field_write_changed_other by done.
  destruct (differs _ _); [by rewrite field_insert_eq|by rewrite field_write_changed_other].
Qed.

(** A simple cell that does not differ is equal. *)
Lemma differs_false (a b : cell) :
  match b with CJson _ => False | _ => True end -> differs a b = false -> a = b.
Proof.
  unfold differs. intros Hj. destruct a, b; try done; rewrite negb_false_iff, bool_decide_eq_true; by intros ->.
Qed.

(** ** The sweep on the columns of a walk *)

Lemma lookup_alter_row (f : row -> row) (fid k : Z) (db : firmware_table) :
  alter f fid db !! k = if decide (fid = k) then f <$> db !! k else db !! k.
Proof. case_decide; [subst; by rewrite lookup_alter_eq|by rewrite lookup_alter_ne]. Qed.

Definition walk_columns : list string := [STATUS; STARTED; FINISHED; ERROR; RESULT].

(** Every entry either leaves the columns of the walk alone or is an entry for them. *)
Definition walk_entry_ok (c : WalkerReaperConfig) : bool :=
  forallb (fun n => bool_decide (n ∉ writes c)) walk_columns ||
  (bool_decide (c.(column_name) = STATUS) && bool_decide (c.(in_progress_states) = ["queued"; "running"]) &&
   bool_decide (given c.(error_column) = Some ERROR) && bool_decide (given c.(finished_at_column) = Some FINISHED) &&
   bool_decide (c.(grace_minutes) = None)).

Lemma walk_entries_ok : forallb walk_entry_ok reaper_configs = true.
Proof. vm_compute. reflexivity. Qed.

(** What one entry does to a walk. *)
Lemma reap_row_walk (now : Z) (c : WalkerReaperConfig) (r : row) :
  entry_ok c = true -> walk_entry_ok c = true ->
  (forall n, n ∈ walk_columns -> field (reap_row now c r) n = field r n) \/
  (in_flight r = true /\ field (reap_row now c r) STATUS = CText "failed" /\
   (exists e, field (reap_row now c r) ERROR = CText e) /\ field (reap_row now c r) FINISHED = CTime now).
Proof.
  intros Hok Hw. apply orb_true_iff in Hw as [Hw|Hw].
  - left. intros n Hn. apply field_reap_row_other; [done|].
    pose proof (proj1 (forallb_elem _ _) Hw _ Hn) as H. by apply bool_decide_eq_true_1 in H.
  - rewrite !andb_true_iff, !bool_decide_eq_true in Hw. destruct Hw as [[[[Hc Hs] He] Hf] Hg].
    destruct (reap_where now c r) eqn:Ew; [right|left; intros n _; unfold reap_row; by rewrite Ew].
    assert (Hfl : in_flight r = true).
    { unfold reap_where in Ew. apply andb_true_iff in Ew as [Ew _]. unfold in_flight. by rewrite <- Hc, <- Hs. }
    assert (Hv : reap_values now c = [(STATUS, CText "failed"); (ERROR, CText (failure_message c)); (FINISHED, CTime now)]).
    { unfold reap_values. by rewrite Hc, He, Hf. }
    split; [done|]. rewrite !field_reap_row, Ew, Hv by done. split_and!; [done|by eexists|done].
Qed.

Lemma sweep_walk (P : row -> Prop) :
  (forall r r', (forall n, n ∈ walk_columns -> field r' n = field r n) -> P r -> P r') ->
  (forall r r' now, in_flight r = true -> field r' STATUS = CText "failed" ->
     (exists e, field r' ERROR = CText e) -> field r' FINISHED = CTime now -> P r -> P r') ->
  forall n evs cs r, forallb entry_ok cs = true -> forallb walk_entry_ok cs = true -> P r ->
  P (reap_row_from n evs cs r).
Proof.
  intros Hsame Hfail n evs cs. revert n. induction cs as [|c cs IH]; intros n r Hok Hw HP; [done|].
  apply andb_true_iff in Hok as [Hc Hok], Hw as [Hcw Hw]. apply IH; [done|done|].
  destruct (ev_db_ok (evs n)); [|done].
  destruct (reap_row_walk (ev_now (evs n)) c r Hc Hcw) as [H|(Hf & Hs & He & Hfin)]; eauto.
Qed.

Lemma in_flight_columns (r r' : row) :
  (forall n, n ∈ walk_columns -> field r' n = field r n) -> in_flight r' = in_flight r.
Proof. intros H. unfold in_flight. rewrite (H STATUS); [done|]. left. Qed.

Lemma in_flight_status (r : row) (s : string) :
  field r STATUS = CText s -> in_flight r = bool_decide (s ∈ ["queued"; "running"]).
Proof. intros H. unfold in_flight. by rewrite H. Qed.

Lemma sweep_in_flight (evs : nat -> reap_event) (r : row) :
  in_flight (reap_row_from 0 evs reaper_configs r) = true -> in_flight r = true.
Proof.
  apply (sweep_walk (fun r' => in_flight r' = true -> in_flight r = true)).
  - intros r1 r2 H HP. by rewrite (in_flight_columns r1 r2 H).
  - intros r1 r2 now _ Hs _ _ _ Hf. by rewrite (in_flight_status r2 "failed" Hs) in Hf.
  - apply reaper_configs_ok.
  - apply walk_entries_ok.
  - done.
Qed.

(** ** In-flight rows have tasks *)

(** Every queued or running row has a task that will end it, and a walking task loaded
    its row when it was running. *)
Record covered (s : system) : Prop := {
  cov_task : forall fid r, s.(s_db) !! fid = Some r -> in_flight r = true -> exists ph, (fid, ph) ∈ s.(s_tasks);
  cov_loaded : forall fid l, (fid, Walking l) ∈ s.(s_tasks) -> field l STATUS = CText "running"
}.

(** The steps in which no task is lost. *)
Definition orderly (l : label) : Prop :=
  match l with LLost _ | LToolCrash => False | _ => True end.

Lemma elem_of_drop_task (t1 t2 : list (Z * phase)) (x y : Z * phase) :
  x ∈ (t1 ++ y :: t2)%list -> x <> y -> x ∈ (t1 ++ t2)%list.
Proof. rewrite !elem_of_app, elem_of_cons. tauto. Qed.

Lemma elem_of_add_task (t1 t2 : list (Z * phase)) (x y : Z * phase) :
  x ∈ (t1 ++ t2)%list -> x ∈ (t1 ++ y :: t2)%list.
Proof. rewrite !elem_of_app, elem_of_cons. tauto. Qed.

(** A new phase for one task. *)
Lemma elem_of_set_task (t1 t2 : list (Z * phase)) (x y z : Z * phase) :
  x ∈ (t1 ++ z :: t2)%list -> x = z \/ x ∈ (t1 ++ y :: t2)%list.
Proof. rewrite !elem_of_app, !elem_of_cons. tauto. Qed.

Lemma terminal_status (f : row -> row) (s : string) (db : firmware_table) (fid : Z) (r : row) :
  (forall r, field (f r) STATUS = CText s) -> s ∉ ["queued"; "running"] ->
  alter f fid db !! fid = Some r -> in_flight r = true -> False.
Proof.
  intros Hf Hs Hr Hin. rewrite lookup_alter_eq in Hr. apply fmap_Some in Hr as (r0 & _ & ->).
  rewrite (in_flight_status _ s (Hf r0)) in Hin. by apply bool_decide_eq_true_1 in Hin.
Qed.

(** A task that leaves the list by writing a terminal status. *)
Lemma covered_finish (f : row -> row) (s : string) (db : firmware_table) ch t1 t2 (fid : Z) (ph : phase) :
  (forall r, field (f r) STATUS = CText s) -> s ∉ ["queued"; "running"] ->
  covered {| s_db := db; s_checked := ch; s_tasks := t1 ++ (fid, ph) :: t2 |} ->
  covered {| s_db := alter f fid db; s_checked := ch; s_tasks := t1 ++ t2 |}.
Proof.
  intros Hf Hs [Hc Hl]. cbn in *. split; cbn.
  - intros k r Hr Hin. destruct (decide (fid = k)) as [<-|Hk].
    + exfalso. eapply terminal_status; [exact Hf|exact Hs|exact Hr|exact Hin].
    + rewrite lookup_alter_ne in Hr by done. destruct (Hc k r Hr Hin) as [ph' Hin']. exists ph'.
      eapply elem_of_drop_task; [exact Hin'|]. by intros [= -> _].
  - intros k l H. apply (Hl k l). by apply elem_of_add_task.
Qed.

Lemma not_in_flight (s : string) : s = "completed" \/ s = "failed" -> s ∉ ["queued"; "running"].
Proof. intros [->| ->] H; by repeat (apply elem_of_cons in H as [?|H]; [done|]); apply not_elem_of_nil in H. Qed.

Lemma done_status (l r : row) (now : Z) (d : pydict) :
  field l STATUS = CText "running" -> field (write_changed l (completed_values now d) r) STATUS = CText "completed".
Proof.
  intros Hl. etransitivity; [apply (field_write_changed l r [] _ STATUS)|by rewrite Hl].
  - by apply not_elem_of_nil.
  - intros H. cbn in H. by repeat (apply elem_of_cons in H as [?|H]; [done|]); apply not_elem_of_nil in H.
Qed.

Lemma auto_in_flight (fid k : Z) (o : pydict + string) (ok : bool) (db : firmware_table) (r : row) :
  auto_ics_protocol_walk_firmware_safe fid o ok db !! k = Some r ->
  exists r1, db !! k = Some r1 /\ (forall n, n <> RESULT -> field r n = field r1 n).
Proof.
  assert (Ha : alter (auto_result o) fid db !! k = Some r ->
    exists r1, db !! k = Some r1 /\ (forall n, n <> RESULT -> field r n = field r1 n)).
  { rewrite lookup_alter_row. case_decide; [|by exists r].
    intros (r1 & Hr1 & ->)%fmap_Some. exists r1. split; [done|]. intros n Hn. by apply auto_fields. }
  unfold auto_ics_protocol_walk_firmware_safe. destruct o; [exact Ha|]. destruct ok; [exact Ha|by exists r].
Qed.

Lemma covered_step (s s' : system) (l : label) :
  step s l s' -> orderly l -> covered s -> covered s'.
Proof.
  intros Hst Ho Hc. destruct Hst; cbn in Ho; try done; pose proof Hc as [Hct Hcl]; cbn in Hct, Hcl.
  - by split.
  - split; cbn; [|intros k l' [H|H]%elem_of_cons; [done|exact (Hcl k l' H)]].
    intros k r0 Hr Hin. rewrite lookup_alter_row in Hr. case_decide as Hk; [subst; exists Pending; left|].
    destruct (Hct k r0 Hr Hin) as [ph Hph]. exists ph. by right.
  - split; cbn; [|intros k l' [H|H]%elem_of_cons; [done|exact (Hcl k l' H)]].
    intros k r0 Hr Hin. destruct (Hct k r0 Hr Hin) as [ph Hph]. exists ph. by right.
  - split; cbn.
    + intros k r0 Hr Hin. rewrite lookup_alter_row in Hr. destruct (decide (fid = k)) as [<-|Hk].
      * eexists. apply elem_of_app. right. left.
      * destruct (Hct k r0 Hr Hin) as [ph Hph]. exists ph.
        apply elem_of_add_task. eapply elem_of_drop_task; [exact Hph|]. by intros [= -> _].
    + intros k l' [[= -> ->]|Hx]%(elem_of_set_task t1 t2 _ (fid, Pending)); [apply running_fields|].
      exact (Hcl k l' Hx).
  - split; cbn.
    + intros k r0 Hr Hin. destruct (Hct k r0 Hr Hin) as [ph Hph]. exists ph.
      eapply elem_of_drop_task; [exact Hph|]. intros [= -> _]. congruence.
    + intros k l' Hx. apply (Hcl k l'). by apply elem_of_add_task.
  - eapply (covered_finish _ "completed"); [|by apply not_in_flight; left|exact Hc].
    intros r. apply done_status. eapply Hcl, elem_of_app. right. left.
  - eapply (covered_finish _ "failed"); [intros r; apply failed_fields|by apply not_in_flight; right|exact Hc].
  - split; cbn; [|exact Hcl]. intros k r0 (r1 & Hr1 & He)%auto_in_flight Hin. apply (Hct k r1 Hr1).
    unfold in_flight in Hin |- *. by rewrite <- He.
  - split; cbn; [|exact Hcl]. intros k r0 Hr Hin. unfold sweep_table in Hr. rewrite lookup_fmap in Hr.
    apply fmap_Some in Hr as (r1 & Hr1 & ->). exact (Hct k r1 Hr1 (sweep_in_flight _ _ Hin)).
Qed.

Lemma covered_run (s s' : system) (ls : list label) :
  run s ls s' -> Forall orderly ls -> covered s -> covered s'.
Proof. induction 1; intros Hls Hc; [done|]. inversion Hls; subst. eauto using covered_step. Qed.

(** ** Runs end *)

Definition task_label (l : label) : bool :=
  match l with LBegin _ _ | LDone _ _ _ | LFail _ _ _ => true | _ => false end.

Definition phase_steps (p : Z * phase) : nat := match p.2 with Pending => 2 | Walking _ => 1 end.

(** The transactions the tasks have still to make, at most. *)
Definition steps_left (s : system) : nat := sum_list_with phase_steps s.(s_tasks).

Definition quiet (s : system) : Prop := forall fid r, s.(s_db) !! fid = Some r -> in_flight r = false.

Lemma task_step_measure (s s' : system) (l : label) :
  step s l s' -> task_label l = true -> (steps_left s' < steps_left s)%nat.
Proof.
  intros Hst Hl. destruct Hst; cbn in Hl; try done; unfold steps_left; cbn [s_tasks];
    rewrite !sum_list_with_app; cbn; lia.
Qed.

Lemma task_run_bound (s s' : system) (ls : list label) :
  run s ls s' -> forallb task_label ls = true -> (List.length ls + steps_left s' <= steps_left s)%nat.
Proof.
  induction 1 as [|s l s1 ls s2 Hst Hr IH]; cbn [forallb List.length]; [lia|].
  intros [Hl Hls]%andb_true_iff. pose proof (task_step_measure _ _ _ Hst Hl). specialize (IH Hls). lia.
Qed.

Lemma task_step_enabled (s : system) :
  s.(s_tasks) <> [] -> exists l s', task_label l = true /\ step s l s'.
Proof.
  destruct s as [db ch [|[fid [|l]] ts]]; cbn; [done| |]; intros _.
  - destruct (db !! fid) as [r|] eqn:E; (exists (LBegin fid 0); eexists; split; [done|]).
    + by eapply (S_begin db ch [] ts).
    + by eapply (S_gone db ch [] ts).
  - exists (LDone fid 0 []). eexists. split; [done|]. apply (S_done db ch [] ts).
Qed.

Lemma covered_quiet (s : system) : covered s -> s.(s_tasks) = [] -> quiet s.
Proof.
  intros [Hc _] Ht fid r Hr. destruct (in_flight r) eqn:E; [|done].
  destruct (Hc fid r Hr E) as [ph H]. rewrite Ht in H. by apply not_elem_of_nil in H.
Qed.

Lemma quiet_covered (s : system) : quiet s -> s.(s_tasks) = [] -> covered s.
Proof.
  intros Hq Ht. split.
  - intros fid r Hr. by rewrite (Hq fid r Hr).
  - intros fid l. rewrite Ht. by intros H%not_elem_of_nil.
Qed.

Lemma tasks_drain (n : nat) (s : system) :
  (steps_left s <= n)%nat -> exists ls s', run s ls s' /\ forallb task_label ls = true /\ s'.(s_tasks) = [].
Proof.
  revert s. induction n as [|n IH]; intros s Hn.
  - exists [], s. split; [constructor|]. split; [done|]. destruct s as [db ch [|[fid [|l]] ts]]; cbn in *; [done|lia..].
  - destruct (decide (s.(s_tasks) = [])) as [Ht|Ht]; [exists [], s; split; [constructor|done]|].
    destruct (task_step_enabled s Ht) as (l & s1 & Hl & Hst).
    destruct (IH s1) as (ls & s' & Hr & Hls & Ht'); [pose proof (task_step_measure _ _ _ Hst Hl); lia|].
    exists (l :: ls), s'. split; [by econstructor|]. split; [|done]. cbn. by rewrite Hl, Hls.
Qed.

Lemma task_labels_orderly (ls : list label) : forallb task_label ls = true -> Forall orderly ls.
Proof.
  induction ls as [|l ls IH]; cbn; [constructor|]. intros [Hl Hls]%andb_true_iff.
  constructor; [by destruct l|auto].
Qed.

(** C3. Every walk ends: whatever the order in which calls, runners, automatic runs and
    restarts of the back end interleave, as long as no task is lost, every run of the tasks
    alone takes at most two transactions for a queued walk and one for a walking one, can
    be completed, and once it can go no further no firmware is queued or running. *)
Theorem walks_finish (s0 s : system) (ls : list label) :
  quiet s0 -> s0.(s_tasks) = [] -> run s0 ls s -> Forall orderly ls ->
  (exists ls1 s1, run s ls1 s1 /\ forallb task_label ls1 = true /\ quiet s1) /\
  (forall ls1 s1, run s ls1 s1 -> forallb task_label ls1 = true ->
     (List.length ls1 <= steps_left s)%nat /\
     ((forall l s2, task_label l = true -> ~ step s1 l s2) -> quiet s1)).
Proof.
  intros Hq Ht Hr Hls. pose proof (covered_run _ _ _ Hr Hls (quiet_covered _ Hq Ht)) as Hc.
  pose proof task_labels_orderly as Ho.
  split.
  - destruct (tasks_drain _ s (le_n _)) as (ls1 & s1 & Hr1 & Hl1 & Ht1). exists ls1, s1. split_and!; [done..|].
    apply covered_quiet; [|done]. eapply covered_run; eauto.
  - intros ls1 s1 Hr1 Hl1. split; [pose proof (task_run_bound _ _ _ Hr1 Hl1); lia|].
    intros Hmax. apply covered_quiet; [eapply covered_run; eauto|].
    destruct (decide (s1.(s_tasks) = [])) as [|Hne]; [done|].
    destruct (task_step_enabled s1 Hne) as (l & s2 & Hl & Hst). by destruct (Hmax l s2 Hl).
Qed.

Definition sys1 : system := {| s_db := {[ 1 := fw1 ]}; s_checked := []; s_tasks := [] |}.

Definition sys1_queued : system :=
  {| s_db := alter (write_changed fw1 queued_values) 1 {[ 1 := fw1 ]}; s_checked := []; s_tasks := [(1, Pending)] |}.

Lemma call1_names : names_firmware call1.1 call1.2 1 7.
Proof.
  exists (IdStr "00000000-0000-0000-0000-000000000001"), (IdUuid 7). repeat split; vm_compute; reflexivity.
Qed.

Lemma fw1_checked : trigger_check {[ 1 := fw1 ]} call1.1 call1.2 = Ok (inr 1).
Proof.
  apply trigger_check_pass. exists 7, fw1. split; [exact call1_names|split; [apply lookup_singleton_eq|split]].
  - unfold fw1. by rewrite field_insert_eq.
  - unfold fw1, in_flight. by rewrite field_insert_ne, field_insert_eq.
Qed.

Lemma sys1_quiet : quiet sys1.
Proof.
  intros fid r Hr. cbn in Hr. apply lookup_singleton_Some in Hr as [_ <-].
  unfold fw1, in_flight. by rewrite field_insert_ne, field_insert_eq.
Qed.

Lemma sys1_run : run sys1 [LCheck 1; LCommit 1] sys1_queued.
Proof.
  econstructor; [apply (S_check _ _ _ _ _ _ fw1 fw1_checked), lookup_singleton_eq|].
  econstructor; [apply (S_commit _ [] [])|constructor].
Qed.

Lemma walks_finish_witness :
  exists ls1 s1, run sys1_queued ls1 s1 /\ forallb task_label ls1 = true /\ quiet s1.
Proof.
  assert (Ho : Forall orderly [LCheck 1; LCommit 1]) by repeat constructor.
  exact (proj1 (walks_finish sys1 sys1_queued _ sys1_quiet eq_refl sys1_run Ho)).
Defined.

(** ** Recovery *)

Lemma walk_entry_in_progress (c : WalkerReaperConfig) (r : row) :
  walk_entry_ok c = true -> c.(column_name) = STATUS ->
  c.(grace_minutes) = None /\ in_progress c r = in_flight r.
Proof.
  intros Hw Hc. apply orb_true_iff in Hw as [Hw|Hw].
  - exfalso. pose proof (proj1 (forallb_elem _ _) Hw STATUS) as H. cbn beta in H.
    rewrite bool_decide_eq_true in H. apply H; [left|]. rewrite <- Hc. apply column_written.
  - rewrite !andb_true_iff, !bool_decide_eq_true in Hw. destruct Hw as [[[[_ Hs] _] _] Hg].
    split; [done|]. unfold in_progress, in_flight. by rewrite Hc, Hs.
Qed.

(** A row after the sweep: the walk's columns as before, or a failure. *)
Definition reaped_walk (r' : row) : Prop :=
  (exists e, field r' ERROR = CText e) /\ (exists t, field r' FINISHED = CTime t) /\ field r' STATUS = CText "failed".

Definition swept_walk (r r' : row) : Prop :=
  (forall n, n ∈ walk_columns -> field r' n = field r n) \/ (in_flight r = true /\ reaped_walk r').

Lemma swept_walk_same (r0 r1 r2 : row) :
  (forall n, n ∈ walk_columns -> field r2 n = field r1 n) -> swept_walk r0 r1 -> swept_walk r0 r2.
Proof.
  intros H [Hs|(Hin & [e He] & [t Ht] & Hs)]; [left; intros n Hn; by rewrite H, Hs|right; split; [done|]].
  assert (Hw : STATUS ∈ walk_columns /\ FINISHED ∈ walk_columns /\ ERROR ∈ walk_columns).
  { split; [left|split; [do 2 right; left|do 3 right; left]]. }
  destruct Hw as (Hw1 & Hw2 & Hw3). split; [exists e|split; [exists t|]]; by rewrite H.
Qed.

Lemma swept_walk_failed (r0 r1 r2 : row) (now : Z) :
  in_flight r1 = true -> field r2 STATUS = CText "failed" -> (exists e, field r2 ERROR = CText e) ->
  field r2 FINISHED = CTime now -> swept_walk r0 r1 -> swept_walk r0 r2.
Proof.
  intros Hf Hs He Ht HP. right. split; [|split; [done|split; [by exists now|done]]].
  destruct HP as [HP|[HP _]]; [|done]. rewrite <- Hf. symmetry. by apply in_flight_columns.
Qed.

Lemma sweep_reaps_gen (n : nat) (evs : nat -> reap_event) (cs : list WalkerReaperConfig) (r : row) :
  forallb entry_ok cs = true -> forallb walk_entry_ok cs = true -> swept_walk r (reap_row_from n evs cs r).
Proof.
  intros Hok Hw. apply (sweep_walk (swept_walk r)); [|eauto using swept_walk_failed|done|done|by left].
  intros r1 r2. apply swept_walk_same.
Qed.

Lemma sweep_reaps (evs : nat -> reap_event) (r : row) : swept_walk r (reap_row_from 0 evs reaper_configs r).
Proof. exact (sweep_reaps_gen 0 evs reaper_configs r (proj1 reaper_configs_ok) walk_entries_ok). Qed.

Lemma sweep_quiet (evs : nat -> reap_event) (k : nat) (c : WalkerReaperConfig) (r : row) :
  reaper_configs !! k = Some c -> c.(column_name) = STATUS -> (evs k).(ev_db_ok) = true ->
  in_flight (reap_row_from 0 evs reaper_configs r) = false.
Proof.
  intros Hk Hc Hdb. pose proof (proj1 (forallb_elem _ _) walk_entries_ok _ (list_elem_of_lookup_2 _ _ _ Hk)) as Hw.
  destruct (walk_entry_in_progress c (reap_row_from 0 evs reaper_configs r) Hw Hc) as [Hg Hp].
  rewrite <- Hp. destruct (in_progress c _) eqn:E; [exfalso|reflexivity].
  exact (proj1 (reap_row_from_live evs reaper_configs k c r (proj1 reaper_configs_ok)
                  (proj2 reaper_configs_ok) Hk Hdb E) Hg).
Qed.

(** A crash of the tool process leaves its walks queued or running, with nothing that
    will end them; the next restart of the back end whose sweep statement for the walk goes
    through ends them all: the rows in flight become failures with an error and a time, and
    every other row keeps its walk as it was. *)
Theorem crash_recovered (s s1 s2 : system) (evs : nat -> reap_event) (k : nat) (c : WalkerReaperConfig) :
  step s LToolCrash s1 -> step s1 (LRestart evs) s2 ->
  reaper_configs !! k = Some c -> c.(column_name) = STATUS -> (evs k).(ev_db_ok) = true ->
  s1.(s_db) = s.(s_db) /\ s2.(s_tasks) = [] /\ quiet s2 /\
  forall fid r, s.(s_db) !! fid = Some r -> exists r', s2.(s_db) !! fid = Some r' /\
    if in_flight r then reaped_walk r' else forall n, n ∈ walk_columns -> field r' n = field r n.
Proof.
  intros H1 H2 Hk Hc Hdb. inversion H1; subst. inversion H2; subst. cbn [s_db s_tasks].
  split; [reflexivity|]. split; [reflexivity|]. split.
  - intros fid r Hr. unfold sweep_table in Hr. cbn [s_db] in Hr. rewrite lookup_fmap in Hr.
    apply fmap_Some in Hr as (r0 & _ & ->). exact (sweep_quiet evs k c r0 Hk Hc Hdb).
  - intros fid r Hr. exists (reap_row_from 0 evs reaper_configs r). unfold sweep_table. rewrite lookup_fmap, Hr.
    split; [reflexivity|]. pose proof (sweep_quiet evs k c r Hk Hc Hdb) as Hq.
    destruct (sweep_reaps evs r) as [Hs|[Hin Hf]].
    + rewrite <- (in_flight_columns _ _ Hs), Hq. exact Hs.
    + rewrite Hin. exact Hf.
Qed.

Definition ics_entry : WalkerReaperConfig :=
  {| column_name := STATUS; in_progress_states := ["queued"; "running"];
     failure_message := "Backend restarted; runner state lost"; finished_at_column := Some FINISHED;
     error_column := Some ERROR; started_at_column := None; grace_minutes := None |}.

Lemma ics_entry_at : reaper_configs !! 9%nat = Some ics_entry.
Proof. vm_compute. reflexivity. Qed.

Definition always_ok : nat -> reap_event := fun _ => {| ev_now := 50; ev_db_ok := true |}.

Lemma queued_db1 :
  alter (write_changed fw1 queued_values) 1 ({[ 1 := fw1 ]} : firmware_table) =
    {[ 1 := write_changed fw1 queued_values fw1 ]}.
Proof. by rewrite alter_singleton_eq. Qed.

Lemma crash_recovered_witness :
  exists s2 r', s2.(s_tasks) = [] /\ quiet s2 /\ s2.(s_db) !! 1 = Some r' /\ reaped_walk r'.
Proof.
  pose proof (crash_recovered sys1_queued _ _ always_ok 9%nat ics_entry
    (S_tool_crash _ _ _) (S_restart _ _ _ always_ok) ics_entry_at eq_refl eq_refl) as (_ & Ht & Hq & H).
  destruct (H 1 (write_changed fw1 queued_values fw1)) as (r' & Hr' & Hf).
  { unfold sys1_queued. cbn [s_db]. rewrite queued_db1. apply lookup_singleton_eq. }
  eexists _, r'. split; [exact Ht|split; [exact Hq|split; [exact Hr'|]]].
  assert (Hin : in_flight (write_changed fw1 queued_values fw1) = true) by (vm_compute; reflexivity).
  rewrite Hin in Hf. exact Hf.
Defined.

(** ** One call at a time *)

(** The columns of a walk tell its true outcome. *)
Definition tells_outcome (r : row) : Prop :=
  match field r STATUS with
  | CText s =>
      if bool_decide (s = "completed") then field r ERROR = CNull /\ exists t, field r FINISHED = CTime t
      else if bool_decide (s = "failed") then
        (exists e, field r ERROR = CText e) /\ exists t, field r FINISHED = CTime t
      else True
  | _ => True
  end.








Lemma write_changed_self (r : row) (vs1 vs2 : list (string * cell)) (n : string) (v : cell) :
  match v with CJson _ => False | _ => True end -> n ∉ vs1.*1 -> n ∉ vs2.*1 ->
  field (write_changed r (vs1 ++ (n, v) :: vs2) r) n = v.
Proof.
  intros Hv H1 H2. rewrite field_write_changed by done.
  destruct (differs (field r n) v) eqn:E; [done|]. by apply differs_false.
Qed.

Ltac not_named := let H := fresh in
  intros H; cbn in H; repeat (apply elem_of_cons in H as [?|H]; [done|]); by apply not_elem_of_nil in H.

Lemma queued_self (r : row) :
  field (write_changed r queued_values r) STATUS = CText "queued" /\
  field (write_changed r queued_values r) ERROR = CNull.
Proof.
  split; [apply (write_changed_self r [] _ STATUS); [done|not_named..]|].
  apply (write_changed_self r [_; _; _] [_] ERROR); [done|not_named..].
Qed.













(** ** A table of one firmware *)

Definition at_one (r : row) : firmware_table := {[ 1 := r ]}.

Lemma alter_one (f : row -> row) (r : row) : alter f 1 (at_one r) = at_one (f r).
Proof. apply alter_singleton_eq. Qed.

Definition one (r : row) (ch : list (Z * row)) (ts : list (Z * phase)) : system :=
  {| s_db := at_one r; s_checked := ch; s_tasks := ts |}.

Section one.
Context (r l : row) (ch ch1 ch2 : list (Z * row)) (t1 t2 : list (Z * phase)) (now : Z).

Lemma check_one ts :
  in_flight r = false -> field r "project_id" = CUuid 7 -> step (one r ch ts) (LCheck 1) (one r ((1, r) :: ch) ts).
Proof.
  intros Hf Hp. apply (S_check _ _ _ call1.1 call1.2); [|apply lookup_singleton_eq].
  apply trigger_check_pass. exists 7, r. split; [exact call1_names|split; [apply lookup_singleton_eq|done]].
Qed.

Lemma commit_one ts :
  step (one r (ch1 ++ (1, l) :: ch2) ts) (LCommit 1)
    (one (write_changed l queued_values r) (ch1 ++ ch2) ((1, Pending) :: ts)).
Proof. unfold one. rewrite <- alter_one. apply S_commit. Qed.

Lemma begin_one :
  step (one r ch (t1 ++ (1, Pending) :: t2)) (LBegin 1 now)
    (one (walk_running now r) ch (t1 ++ (1, Walking (walk_running now r)) :: t2)).
Proof. unfold one. rewrite <- (alter_one (walk_running now)). apply S_begin, lookup_singleton_eq. Qed.

Lemma done_one d :
  step (one r ch (t1 ++ (1, Walking l) :: t2)) (LDone 1 now d)
    (one (write_changed l (completed_values now d) r) ch (t1 ++ t2)).
Proof. unfold one. rewrite <- alter_one. apply S_done. Qed.

Lemma fail_one tb :
  step (one r ch (t1 ++ (1, Walking l) :: t2)) (LFail 1 now tb) (one (walk_failed now tb r) ch (t1 ++ t2)).
Proof. unfold one. rewrite <- (alter_one (walk_failed now tb)). apply S_fail. Qed.
End one.

Lemma restart_one (r : row) ch ts evs :
  step (one r ch ts) (LRestart evs) (one (reap_row_from 0 evs reaper_configs r) ch ts).
Proof.
  assert (H : sweep_table evs (at_one r) = at_one (reap_row_from 0 evs reaper_configs r)).
  { unfold sweep_table, at_one. apply map_fmap_singleton. }
  unfold one. rewrite <- H. apply S_restart.
Qed.

(** A row of the caller's project that is queued or running. *)
Lemma conflict_one (r : row) :
  field r "project_id" = CUuid 7 -> in_flight r = true ->
  _handle_trigger_ics_protocol_walk (at_one r) call1.1 call1.2 =
    Ok (Conflict (field r STATUS) (field r STARTED) 1, at_one r, None).
Proof.
  intros Hp Hf. rewrite (trigger_named _ _ _ 1 7 call1_names).
  rewrite (proj2 (select_firmware_spec (at_one r) 1 7 r)) by (split; [apply lookup_singleton_eq|exact Hp]).
  by rewrite Hf.
Qed.

Definition fw2 : row := <["project_id" := CUuid 7]> new_row.

Lemma fw2_idle : in_flight fw2 = false /\ field fw2 "project_id" = CUuid 7 /\ tells_outcome fw2.
Proof.
  assert (H : field fw2 STATUS = CText "idle") by (vm_compute; reflexivity).
  split; [unfold in_flight; by rewrite H|split; [unfold fw2; apply field_insert_eq|]].
  unfold tells_outcome. by rewrite H.
Qed.


(** ** What overlapping does *)

(** A walk of firmware 1 that is completed and carries an error. *)
Definition completed_with_error (s : system) : Prop :=
  exists r e, s.(s_db) !! 1 = Some r /\ field r STATUS = CText "completed" /\ field r ERROR = CText e.

Lemma lies_one (r : row) ch ts (e : string) :
  field r STATUS = CText "completed" -> field r ERROR = CText e -> completed_with_error (one r ch ts).
Proof. intros Hs He. exists r, e. split; [apply lookup_singleton_eq|done]. Qed.

(** The walk is not protected against overlap.  Two calls that both read the row before
    either commits start two runners of one firmware, and the failure of one under the other
    ends as a completed walk with an error.  So does a restart of the back end while the tool
    process walks: the sweep fails the walk and the runner completes it.  And after a crash
    of the tool process the row answers every call with a conflict until a restart of the
    back end. *)
Theorem walk_races :
  (exists s s', run (one fw2 [] []) [LCheck 1; LCheck 1; LCommit 1; LCommit 1; LBegin 1 10; LBegin 1 11] s /\
     s.(s_tasks).*1 = [1; 1] /\ run s [LFail 1 20 "boom"; LDone 1 30 []] s' /\ completed_with_error s') /\
  (exists s', run (one fw2 [] []) [LCheck 1; LCommit 1; LBegin 1 10; LRestart always_ok; LDone 1 30 []] s' /\
     completed_with_error s') /\
  (exists s', run (one fw2 [] []) [LCheck 1; LCommit 1; LToolCrash] s' /\ s'.(s_tasks) = [] /\
     _handle_trigger_ics_protocol_walk s'.(s_db) call1.1 call1.2 =
       Ok (Conflict (CText "queued") CNull 1, s'.(s_db), None)).
Proof.
  destruct fw2_idle as (Hf & Hp & _). split; [|split].
  - do 2 eexists. split; [|split; [|split]].
    + econstructor; [apply check_one; [exact Hf|exact Hp]|]. econstructor; [apply check_one; [exact Hf|exact Hp]|].
      econstructor; [apply (commit_one _ _ [] [_])|]. econstructor; [apply (commit_one _ _ [] [])|].
      econstructor; [apply (begin_one _ _ [] [_] 10)|]. econstructor; [apply (begin_one _ _ [_] [] 11)|]. constructor.
    + reflexivity.
    + econstructor; [apply (fail_one _ _ _ [] [_] 20)|]. econstructor; [apply (done_one _ _ _ [] [] 30 [])|]. constructor.
    + apply (lies_one _ _ _ "boom"); vm_compute; reflexivity.
  - eexists. split.
    + econstructor; [apply check_one; [exact Hf|exact Hp]|]. econstructor; [apply (commit_one _ _ [] [])|].
      econstructor; [apply (begin_one _ _ [] [] 10)|]. econstructor; [apply restart_one|].
      econstructor; [apply (done_one _ _ _ [] [] 30 [])|]. constructor.
    + apply (lies_one _ _ _ "Backend restarted; runner state lost"); vm_compute; reflexivity.
  - exists (one (write_changed fw2 queued_values fw2) [] []). split; [|split; [reflexivity|]].
    + econstructor; [apply check_one; [exact Hf|exact Hp]|]. econstructor; [apply (commit_one _ _ [] [])|].
      econstructor; [apply S_tool_crash|]. constructor.
    + assert (Hs : field (write_changed fw2 queued_values fw2) STARTED = CNull) by (vm_compute; reflexivity).
      assert (Hq : field (write_changed fw2 queued_values fw2) STATUS = CText "queued") by apply queued_self.
      cbn [s_db one]. rewrite <- Hs, <- Hq. apply conflict_one; [|exact (in_flight_status _ _ Hq)].
      rewrite field_write_changed_other; [exact Hp|not_named].
Qed.
