(* ===== verification/OtaPayload.v ===== *)
(** * Android OTA payload ([services/hardware_firmware/parsers/android_ota_payload.py])

    The reader of the [CrAU] header and of the protobuf manifest behind it, and the verdict
    on the boot partition.  The three message loops of the source share their header (read
    a tag, split it, hand over to a branch), which is [message_loop] here; its fuel is the
    length of the buffer, and [ota_loops_terminate] shows that it never runs out. *)

From S2P Require Import Prelude PyText.
From Stdlib Require Import Ascii String Strings.Byte.
Import (notations) Ascii String.
#[local] Open Scope Z_scope.

Definition _CRAU_MAGIC : bytes := bs "CrAU".
Definition _CRAU_HEADER_FIXED : Z := 24.
Definition _MAX_MANIFEST_BYTES : Z := 64 * 1024 * 1024.

Definition _OP_REPLACE : Z := 0.
Definition _OP_REPLACE_BZ : Z := 1.
Definition _OP_REPLACE_XZ : Z := 8.
Definition _STANDARD_OP_TYPES : list Z := [_OP_REPLACE; _OP_REPLACE_BZ; _OP_REPLACE_XZ].

(** ** [bytes.decode("utf-8", errors="replace")] *)

(** The length of the sequence at the head of [b] and whether it is a character; a
    sequence that is none is its longest prefix of one, at least one byte. *)
Definition within (lo hi : Z) (x : byte) : bool := (lo <=? byteZ x) && (byteZ x <=? hi).

Fixpoint tail_run (n : nat) (b : bytes) : nat :=
  match n, b with
  | S n, x :: b => if within 128 191 x then S (tail_run n b) else 0%nat
  | _, _ => 0%nat
  end.

(** [need] bytes after the lead byte, the first of them between [lo] and [hi]. *)
Definition sequence (need : nat) (lo hi : Z) (b : bytes) : nat * bool :=
  match b with
  | x :: b' => if within lo hi x
               then let n := S (tail_run (need - 1) b') in (S n, bool_decide (n = need))
               else (1%nat, false)
  | [] => (1%nat, false)
  end.

Definition utf8_head (x : byte) (b : bytes) : nat * bool :=
  let n := byteZ x in
  if n <? 128 then (1%nat, true)
  else if n <? 194 then (1%nat, false)
  else if n <? 224 then sequence 1 128 191 b
  else if n =? 224 then sequence 2 160 191 b
  else if n =? 237 then sequence 2 128 159 b
  else if n <? 240 then sequence 2 128 191 b
  else if n =? 240 then sequence 3 144 191 b
  else if n <? 244 then sequence 3 128 191 b
  else if n =? 244 then sequence 3 128 143 b
  else (1%nat, false).

Definition REPLACEMENT : bytes := [xef; xbf; xbd].

(** [todo] bytes of the current sequence are still to come, copied or passed over. *)
Fixpoint utf8_replace (todo : nat) (copy : bool) (b : bytes) : bytes :=
  match b with
  | [] => []
  | x :: b' =>
      match todo with
      | S todo => ((if copy then [x] else []) ++ utf8_replace todo copy b')%list
      | O => let '(n, ok) := utf8_head x b' in
             ((if ok then [x] else REPLACEMENT) ++ utf8_replace (n - 1) ok b')%list
      end
  end.

Definition decode_utf8_replace (b : bytes) : string := decode_bytes (utf8_replace 0 true b).

Example decode_utf8_replace_ex :
  encode (decode_utf8_replace (bs "boot")) = bs "boot" /\
  encode (decode_utf8_replace [x61; xff; x62]) = ([x61] ++ REPLACEMENT ++ [x62])%list /\
  encode (decode_utf8_replace [xe2; x82; xac; xe2; x82; x41]) = ([xe2; x82; xac] ++ REPLACEMENT ++ [x41])%list /\
  encode (decode_utf8_replace [xed; xa0; x80]) = (REPLACEMENT ++ REPLACEMENT ++ REPLACEMENT)%list /\
  encode (decode_utf8_replace [xf0; x9f; x98]) = REPLACEMENT.
Proof. by vm_compute. Qed.

(** ** The wire format *)

Inductive wire_error := VarintTruncated | VarintTooLong | UnsupportedWireType (wire_type : Z) | OutOfFuel.

(** One turn of the loop: the end of the buffer is tested before the length. *)
Fixpoint varint_loop (todo : nat) (buf : bytes) (pos result shift : Z) : res wire_error (Z * Z) :=
  match buf !! Z.to_nat pos with
  | None => Err VarintTruncated
  | Some b =>
      match todo with
      | O => Err VarintTooLong
      | S todo =>
          let result := Z.lor result (Z.shiftl (Z.land (byteZ b) 127) shift) in
          if Z.land (byteZ b) 128 =? 0 then Ok (result, pos + 1)
          else varint_loop todo buf (pos + 1) result (shift + 7)
      end
  end.

Definition _read_varint (buf : bytes) (pos : Z) : res wire_error (Z * Z) := varint_loop 10 buf pos 0 0.

Definition _skip_field (buf : bytes) (pos wire_type : Z) : res wire_error Z :=
  if wire_type =? 0 then r ← _read_varint buf pos; Ok r.2
  else if wire_type =? 1 then Ok (pos + 8)
  else if wire_type =? 2 then r ← _read_varint buf pos; Ok (r.2 + r.1)
  else if wire_type =? 5 then Ok (pos + 4)
  else Err (UnsupportedWireType wire_type).

(** [while pos < len(buf)]: the state reached, and the exception that ended the loop. *)
Fixpoint message_loop {St} (fuel : nat) (branch : Z -> Z -> Z -> St -> res wire_error (St * Z))
    (buf : bytes) (pos : Z) (st : St) : St * option wire_error :=
  if zlen buf <=? pos then (st, None)
  else match fuel with
       | O => (st, Some OutOfFuel)
       | S fuel =>
           match _read_varint buf pos with
           | Err e => (st, Some e)
           | Ok (tag, pos) =>
               match branch (Z.shiftr tag 3) (Z.land tag 7) pos st with
               | Err e => (st, Some e)
               | Ok (st, pos) => message_loop fuel branch buf pos st
               end
           end
       end.

Definition raised {St} (r : St * option wire_error) : res wire_error St :=
  match r.2 with None => Ok r.1 | Some e => Err e end.

Definition skip {St} (buf : bytes) (wire_type pos : Z) (st : St) : res wire_error (St * Z) :=
  pos ← _skip_field buf pos wire_type; Ok (st, pos).

(** ** Messages *)

Definition op_branch (buf : bytes) (field_num wire_type pos : Z) (op_type : option Z)
    : res wire_error (option Z * Z) :=
  if (field_num =? 1) && (wire_type =? 0)
  then r ← _read_varint buf pos; Ok (Some r.1, r.2)
  else skip buf wire_type pos op_type.

Definition parse_op_fuel (fuel : nat) (buf : bytes) : res wire_error (option Z) :=
  raised (message_loop fuel (op_branch buf) buf 0 None).

Definition _parse_install_operation (buf : bytes) : res wire_error (option Z) :=
  parse_op_fuel (List.length buf) buf.

Record PayloadPartition := { name : string; op_types : list Z }.

Definition all_standard (p : PayloadPartition) : bool :=
  negb (bool_decide (p.(op_types) = [])) && forallb (fun t => bool_decide (t ∈ _STANDARD_OP_TYPES)) p.(op_types).

Definition has_nonstandard_op (p : PayloadPartition) : bool :=
  existsb (fun t => negb (bool_decide (t ∈ _STANDARD_OP_TYPES))) p.(op_types).

Definition partition_branch (parse_op : bytes -> res wire_error (option Z)) (buf : bytes)
    (field_num wire_type pos : Z) (st : option string * list Z)
    : res wire_error ((option string * list Z) * Z) :=
  if (field_num =? 1) && (wire_type =? 2) then
    r ← _read_varint buf pos;
    Ok ((Some (decode_utf8_replace (zslice r.2 (r.2 + r.1) buf)), st.2), r.2 + r.1)
  else if (field_num =? 8) && (wire_type =? 2) then
    r ← _read_varint buf pos;
    op_type ← parse_op (zslice r.2 (r.2 + r.1) buf);
    Ok ((st.1, st.2 ++ match op_type with Some t => [t] | None => [] end)%list, r.2 + r.1)
  else skip buf wire_type pos st.

Definition partition_of (st : option string * list Z) : option PayloadPartition :=
  match st.1 with Some n => Some {| name := n; op_types := st.2 |} | None => None end.

Definition parse_partition_fuel (fuel : nat) (buf : bytes) : res wire_error (option PayloadPartition) :=
  partition_of <$> raised (message_loop fuel (partition_branch _parse_install_operation buf) buf 0 (None, [])).

Definition _parse_partition_update (buf : bytes) : res wire_error (option PayloadPartition) :=
  parse_partition_fuel (List.length buf) buf.

Record PayloadManifest := { version : Z; partitions : list PayloadPartition }.

Definition manifest_branch (buf : bytes) (field_num wire_type pos : Z) (parts : list PayloadPartition)
    : res wire_error (list PayloadPartition * Z) :=
  if (field_num =? 13) && (wire_type =? 2) then
    r ← _read_varint buf pos;
    part ← _parse_partition_update (zslice r.2 (r.2 + r.1) buf);
    Ok (parts ++ match part with Some p => [p] | None => [] end, r.2 + r.1)%list
  else skip buf wire_type pos parts.

(** The partitions recovered before the first error, and that error. *)
Definition manifest_fuel (fuel : nat) (buf : bytes) : list PayloadPartition * option wire_error :=
  message_loop fuel (manifest_branch buf) buf 0 [].

Definition parse_payload_manifest (data : bytes) : option PayloadManifest :=
  if negb (bool_decide (ztake 4 data = _CRAU_MAGIC)) then None
  else if zlen data <? _CRAU_HEADER_FIXED then None
  else
    let version := be_val (zslice 4 12 data) in
    let manifest_size := be_val (zslice 12 20 data) in
    if negb (version =? 2) then None
    else if (manifest_size <=? 0) || (_MAX_MANIFEST_BYTES <? manifest_size) then None
    else
      let manifest_end := _CRAU_HEADER_FIXED + manifest_size in
      if zlen data <? manifest_end then None
      else
        let manifest_buf := zslice _CRAU_HEADER_FIXED manifest_end data in
        Some {| version := version; partitions := (manifest_fuel (List.length manifest_buf) manifest_buf).1 |}.

(** ** The verdict *)

Definition boot_partition (m : PayloadManifest) : option PayloadPartition :=
  find (fun p => bool_decide (p.(name) = "boot")) m.(partitions).

Record PayloadBootVerdict := {
  extraction_status : string;
  blocked_reason : option string;
  recommendation : option string;
  boot_op_types : list Z
}.

Definition classify_boot_partition (m : PayloadManifest) : PayloadBootVerdict :=
  match boot_partition m with
  | None => {| extraction_status := "no_boot_partition"; blocked_reason := None; recommendation := None;
               boot_op_types := [] |}
  | Some boot =>
      if has_nonstandard_op boot
      then {| extraction_status := "blocked"; blocked_reason := Some "ff12d941_proprietary_block";
              recommendation := Some "live_adb_or_vendor_tool"; boot_op_types := boot.(op_types) |}
      else if all_standard boot
      then {| extraction_status := "standard"; blocked_reason := None; recommendation := None;
              boot_op_types := boot.(op_types) |}
      else {| extraction_status := "blocked"; blocked_reason := Some "boot_ops_unparseable";
              recommendation := Some "live_adb_or_vendor_tool"; boot_op_types := boot.(op_types) |}
  end.

(** ** The loops end *)

(** A branch never moves back and never reports missing fuel. *)
Definition forward {St} (branch : Z -> Z -> Z -> St -> res wire_error (St * Z)) : Prop :=
  (forall f w p st st' p', branch f w p st = Ok (st', p') -> p <= p') /\
  (forall f w p st, branch f w p st <> Err OutOfFuel).

Lemma varint_loop_pos (n : nat) (buf : bytes) (pos result shift v p : Z) :
  varint_loop n buf pos result shift = Ok (v, p) -> 0 <= result -> 0 <= v /\ pos < p.
Proof.
  revert pos result shift. induction n as [|n IH]; intros pos result shift; cbn [varint_loop];
    (destruct (buf !! Z.to_nat pos) as [b|]; [|done]); [done|]. intros H Hr.
  assert (Hr' : 0 <= Z.lor result (Z.shiftl (Z.land (byteZ b) 127) shift)).
  { apply Z.lor_nonneg. split; [done|]. apply Z.shiftl_nonneg, Z.land_nonneg. lia. }
  destruct (_ =? 0).
  - injection H as <- <-. lia.
  - apply IH in H as [? ?]; [lia|done].
Qed.

Lemma varint_loop_fuel (n : nat) (buf : bytes) (pos result shift : Z) :
  varint_loop n buf pos result shift <> Err OutOfFuel.
Proof.
  revert pos result shift. induction n as [|n IH]; intros pos result shift; cbn [varint_loop];
    (destruct (buf !! Z.to_nat pos) as [b|]; [|done]); [done|]. by destruct (_ =? 0).
Qed.

Lemma read_varint_pos (buf : bytes) (pos v p : Z) : _read_varint buf pos = Ok (v, p) -> 0 <= v /\ pos < p.
Proof. intros H. by apply (varint_loop_pos _ _ _ _ _ _ _ H). Qed.

Lemma res_bind_fuel {A B} (r : res wire_error A) (f : A -> res wire_error B) :
  r <> Err OutOfFuel -> (forall a, f a <> Err OutOfFuel) -> (r ≫= f) <> Err OutOfFuel.
Proof. destruct r; cbn; [auto|congruence]. Qed.

Lemma read_varint_fuel (buf : bytes) (pos : Z) : _read_varint buf pos <> Err OutOfFuel.
Proof. apply varint_loop_fuel. Qed.

Lemma skip_forward {St} (buf : bytes) (w p : Z) (st : St) :
  (forall st' p', skip buf w p st = Ok (st', p') -> p <= p') /\ skip buf w p st <> Err OutOfFuel.
Proof.
  unfold skip, _skip_field. split.
  - intros st' p' (q & H & [= <- <-])%res_bind_ok. repeat case_match; try done; try (injection H as <-; lia).
    + apply res_bind_ok in H as ([v q'] & Hv & [= <-]). apply read_varint_pos in Hv. cbn. lia.
    + apply res_bind_ok in H as ([v q'] & Hv & [= <-]). apply read_varint_pos in Hv. cbn. lia.
  - repeat case_match; try done; apply res_bind_fuel; try done; try (intros ?; done); apply res_bind_fuel; try done; apply read_varint_fuel.
Qed.

Lemma message_loop_enough {St} (branch : Z -> Z -> Z -> St -> res wire_error (St * Z)) (buf : bytes) :
  forward branch -> forall fuel k pos st, zlen buf - pos <= Z.of_nat fuel ->
  message_loop (fuel + k) branch buf pos st = message_loop fuel branch buf pos st /\
  (message_loop fuel branch buf pos st).2 <> Some OutOfFuel.
Proof.
  intros [Hpos Hf]. induction fuel as [|fuel IH]; intros k pos st Hle.
  - assert (E : zlen buf <=? pos = true) by lia. destruct k; cbn; by rewrite E.
  - cbn [Nat.add message_loop]. destruct (zlen buf <=? pos); [done|].
    destruct (_read_varint buf pos) as [[tag p]|e] eqn:Hr.
    + destruct (branch _ _ p st) as [[st' p']|e] eqn:Hb.
      * apply IH. apply read_varint_pos in Hr. apply Hpos in Hb. lia.
      * split; [done|]. intros [= ->]. by apply (Hf _ _ _ _ Hb).
    + split; [done|]. intros [= ->]. by apply (read_varint_fuel _ _ Hr).
Qed.

Lemma raised_fuel {St} (r : St * option wire_error) : r.2 <> Some OutOfFuel -> raised r <> Err OutOfFuel.
Proof. unfold raised. destruct r as [st [e|]]; cbn; congruence. Qed.

Lemma start_fuel (buf : bytes) : zlen buf - 0 <= Z.of_nat (List.length buf).
Proof. unfold zlen. lia. Qed.

Lemma op_forward (buf : bytes) : forward (op_branch buf).
Proof.
  unfold op_branch. split.
  - intros f w p st st' p'. case_match; [|apply skip_forward].
    intros ([v q] & Hv & [= <- <-])%res_bind_ok. apply read_varint_pos in Hv. cbn. lia.
  - intros f w p st. case_match; [|apply skip_forward]. apply res_bind_fuel; [apply read_varint_fuel|done].
Qed.

Lemma parse_op_fuel_ok (buf : bytes) : _parse_install_operation buf <> Err OutOfFuel.
Proof. by apply raised_fuel, (message_loop_enough _ _ (op_forward buf) _ 0), start_fuel. Qed.

Lemma partition_forward (buf : bytes) : forward (partition_branch _parse_install_operation buf).
Proof.
  unfold partition_branch. split.
  - intros f w p st st' p'. case_match; [|case_match; [|apply skip_forward]].
    + intros ([v q] & Hv & [= <- <-])%res_bind_ok. apply read_varint_pos in Hv. cbn. lia.
    + intros ([v q] & Hv & (t & _ & [= <- <-])%res_bind_ok)%res_bind_ok. apply read_varint_pos in Hv. cbn. lia.
  - intros f w p st. case_match; [|case_match; [|apply skip_forward]].
    + apply res_bind_fuel; [apply read_varint_fuel|done].
    + apply res_bind_fuel; [apply read_varint_fuel|]. intros r. by apply res_bind_fuel; [apply parse_op_fuel_ok|].
Qed.

Lemma parse_partition_fuel_ok (buf : bytes) : _parse_partition_update buf <> Err OutOfFuel.
Proof.
  unfold _parse_partition_update, parse_partition_fuel.
  destruct (message_loop_enough _ _ (partition_forward buf) _ 0 _ (None, []) (start_fuel buf)) as [_ H].
  apply raised_fuel in H. intros E. apply H. destruct (raised _) as [st|e]; [done|]. by injection E as ->.
Qed.

Lemma manifest_forward (buf : bytes) : forward (manifest_branch buf).
Proof.
  unfold manifest_branch. split.
  - intros f w p st st' p'. case_match; [|apply skip_forward].
    intros ([v q] & Hv & (t & _ & [= <- <-])%res_bind_ok)%res_bind_ok. apply read_varint_pos in Hv. cbn. lia.
  - intros f w p st. case_match; [|apply skip_forward].
    apply res_bind_fuel; [apply read_varint_fuel|]. intros r. by apply res_bind_fuel; [apply parse_partition_fuel_ok|].
Qed.

(** C34. The three message loops end on every input, however hostile its varints, lengths
    and tags: each turn consumes at least one byte, so the length of the buffer is fuel
    enough, the result with more fuel is the same, and none of them ever runs out. *)
Theorem ota_loops_terminate (buf : bytes) (k : nat) :
  (parse_op_fuel (List.length buf + k) buf = _parse_install_operation buf /\
   _parse_install_operation buf <> Err OutOfFuel) /\
  (parse_partition_fuel (List.length buf + k) buf = _parse_partition_update buf /\
   _parse_partition_update buf <> Err OutOfFuel) /\
  (manifest_fuel (List.length buf + k) buf = manifest_fuel (List.length buf) buf /\
   (manifest_fuel (List.length buf) buf).2 <> Some OutOfFuel).
Proof.
  pose proof (start_fuel buf) as Hl. split; [|split].
  - split; [|apply parse_op_fuel_ok]. unfold _parse_install_operation, parse_op_fuel. f_equal.
    by apply message_loop_enough; [apply op_forward|].
  - split; [|apply parse_partition_fuel_ok]. unfold _parse_partition_update, parse_partition_fuel. do 2 f_equal.
    by apply message_loop_enough; [apply partition_forward|].
  - by apply message_loop_enough; [apply manifest_forward|].
Qed.

(** ** Writing the format *)

(** Base-128, least significant group first, at most [n + 1] bytes. *)
Fixpoint enc_varint (n : nat) (v : Z) : bytes :=
  match n with
  | O => [byte_of_Z v]
  | S n => if v <? 128 then [byte_of_Z v] else byte_of_Z (v mod 128 + 128) :: enc_varint n (v / 128)
  end.

Definition varint (v : Z) : bytes := enc_varint 9 v.

Inductive wire_field :=
  | WVarint (num v : Z)
  | WFixed64 (num : Z) (b : bytes)
  | WBytes (num : Z) (b : bytes)
  | WFixed32 (num : Z) (b : bytes).

Definition w_num (f : wire_field) : Z :=
  match f with WVarint n _ | WFixed64 n _ | WBytes n _ | WFixed32 n _ => n end.
Definition w_type (f : wire_field) : Z :=
  match f with WVarint _ _ => 0 | WFixed64 _ _ => 1 | WBytes _ _ => 2 | WFixed32 _ _ => 5 end.
Definition w_payload (f : wire_field) : bytes :=
  match f with
  | WVarint _ v => varint v
  | WBytes _ b => (varint (zlen b) ++ b)%list
  | WFixed64 _ b | WFixed32 _ b => b
  end.

(** A field of the format: a 29-bit number and a payload of its size. *)
Definition wire_ok (f : wire_field) : Prop :=
  0 <= w_num f < 2 ^ 29 /\
  match f with
  | WVarint _ v => 0 <= v < 2 ^ 64
  | WFixed64 _ b => zlen b = 8
  | WBytes _ b => zlen b < 2 ^ 64
  | WFixed32 _ b => zlen b = 4
  end.

Definition encode_field (f : wire_field) : bytes := (varint (w_num f * 8 + w_type f) ++ w_payload f)%list.
Definition encode_fields (fs : list wire_field) : bytes := mjoin (encode_field <$> fs).

(** ** Reading what was written *)

(** [rest] is what the buffer holds from [pos] on. *)
Definition rest_at (buf : bytes) (pos : Z) (rest : bytes) : Prop := 0 <= pos /\ zdrop pos buf = rest.

Lemma rest_lookup (buf : bytes) (pos : Z) (rest : bytes) :
  rest_at buf pos rest -> buf !! Z.to_nat pos = head rest.
Proof. intros [Hp <-]. rewrite zdrop_eq. rewrite <- (Nat.add_0_r (Z.to_nat pos)) at 1. rewrite <- lookup_drop. by destruct (drop _ _). Qed.

Lemma rest_skip (buf : bytes) (pos : Z) (a b : bytes) :
  rest_at buf pos (a ++ b)%list -> rest_at buf (pos + zlen a) b.
Proof.
  intros [Hp H]. pose proof (zlen_nonneg a). split; [lia|].
  rewrite Z.add_comm, <- zdrop_zdrop, H by lia. by apply zdrop_app.
Qed.

Lemma rest_slice (buf : bytes) (pos : Z) (a b : bytes) :
  rest_at buf pos (a ++ b)%list -> zslice pos (pos + zlen a) buf = a.
Proof. intros [Hp H]. unfold zslice. rewrite H. apply ztake_app. lia. Qed.

Lemma rest_end (buf : bytes) (pos : Z) (rest : bytes) :
  rest_at buf pos rest -> (zlen buf <=? pos) = bool_decide (rest = []).
Proof.
  intros [Hp <-]. pose proof (zlen_zdrop pos buf Hp) as Hl. case_bool_decide as E.
  - rewrite E, zlen_nil in Hl. lia.
  - destruct (zdrop pos buf); [done|]. rewrite zlen_cons in Hl. pose proof (zlen_nonneg l). lia.
Qed.

Lemma byte_bits (b : byte) :
  Z.land (byteZ b) 127 = byteZ b mod 128 /\ (Z.land (byteZ b) 128 =? 0) = (byteZ b <? 128).
Proof. by destruct b. Qed.

Lemma lor_shift (r x s : Z) : 0 <= s -> 0 <= r < 2 ^ s -> Z.lor r (Z.shiftl x s) = r + x * 2 ^ s.
Proof.
  intros Hs Hr. rewrite <- Z.add_nocarry_lor; [by rewrite Z.shiftl_mul_pow2|].
  apply Z.bits_inj'. intros i Hi. rewrite Z.land_spec, Z.bits_0.
  destruct (decide (i < s)) as [Hl|Hl].
  - rewrite Z.shiftl_spec_low by done. apply andb_false_r.
  - rewrite <- (Z.mod_small r (2 ^ s)) by done. rewrite Z.mod_pow2_bits_high by lia. done.
Qed.

Lemma varint_loop_enc (n : nat) (v : Z) (buf : bytes) (pos result shift : Z) (rest : bytes) :
  0 <= v < 2 ^ (7 * (Z.of_nat n + 1)) -> 0 <= shift -> 0 <= result < 2 ^ shift ->
  rest_at buf pos (enc_varint n v ++ rest)%list ->
  varint_loop (S n) buf pos result shift = Ok (result + v * 2 ^ shift, pos + zlen (enc_varint n v)).
Proof.
  revert v pos result shift. induction n as [|n IH]; intros v pos result shift Hv Hs Hr Hat.
  - cbn [enc_varint] in *. cbn [varint_loop]. rewrite (rest_lookup _ _ _ Hat). cbn [app head hd_error].
    destruct (byte_bits (byte_of_Z v)) as [-> ->]. rewrite byteZ_of_Z.
    rewrite (Z.mod_small v 256), (Z.mod_small v 128) by lia. destruct (v <? 128) eqn:E; [|lia].
    rewrite lor_shift by lia. by rewrite zlen_cons.
  - cbn [enc_varint] in Hat |- *. destruct (v <? 128) eqn:E.
    + cbn [varint_loop]. rewrite (rest_lookup _ _ _ Hat). cbn [app head hd_error].
      destruct (byte_bits (byte_of_Z v)) as [-> ->]. rewrite byteZ_of_Z.
      rewrite (Z.mod_small v 256), (Z.mod_small v 128), E by lia. rewrite lor_shift by lia. by rewrite zlen_cons.
    + rewrite Nat2Z.inj_succ in Hv. assert (Hm : 0 <= v mod 128 < 128) by (apply Z.mod_pos_bound; lia).
      cbn [app] in Hat. pose proof (rest_lookup _ _ _ Hat) as Hl. cbn [head hd_error] in Hl.
      remember (S n) as n1 eqn:En. cbn [varint_loop]. rewrite Hl. subst n1.
      destruct (byte_bits (byte_of_Z (v mod 128 + 128))) as [-> ->].
      rewrite byteZ_of_Z, (Z.mod_small (v mod 128 + 128) 256) by lia.
      replace ((v mod 128 + 128) mod 128) with (v mod 128) by (rewrite <- Z.add_mod_idemp_r, Z.mod_same, Z.add_0_r, Z.mod_mod by lia; done).
      destruct (v mod 128 + 128 <? 128) eqn:E2; [lia|]. rewrite lor_shift by lia.
      rewrite (IH (v / 128)).
      * rewrite zlen_cons, Z.pow_add_r by lia. f_equal. f_equal; [|lia].
        rewrite (Z.div_mod v 128) at 3 by lia. change (2 ^ 7) with 128. ring.
      * split; [apply Z.div_pos; lia|]. apply Z.div_lt_upper_bound; [lia|].
        replace (7 * (Z.succ (Z.of_nat n) + 1)) with (7 + 7 * (Z.of_nat n + 1)) in Hv by lia.
        rewrite Z.pow_add_r in Hv by lia. lia.
      * lia.
      * rewrite Z.pow_add_r by lia. change (2 ^ 7) with 128. nia.
      * replace (pos + 1) with (pos + zlen [byte_of_Z (v mod 128 + 128)]) by done. by apply rest_skip.
Qed.

Lemma read_varint_enc (v : Z) (buf : bytes) (pos : Z) (rest : bytes) :
  0 <= v < 2 ^ 64 -> rest_at buf pos (varint v ++ rest)%list ->
  _read_varint buf pos = Ok (v, pos + zlen (varint v)).
Proof.
  intros Hv Hat. unfold _read_varint, varint in *.
  rewrite (varint_loop_enc 9 v _ _ _ _ rest); [f_equal; f_equal; lia| |lia|lia|done].
  change (Z.of_nat 9) with 9. assert (2 ^ 64 < 2 ^ (7 * (9 + 1))) by (by vm_compute). lia.
Qed.

Lemma tag_split (f : wire_field) :
  Z.shiftr (w_num f * 8 + w_type f) 3 = w_num f /\ Z.land (w_num f * 8 + w_type f) 7 = w_type f /\
  0 <= w_type f < 8.
Proof.
  assert (Ht : 0 <= w_type f < 8) by (destruct f; cbn; lia). split; [|split; [|done]].
  - rewrite Z.shiftr_div_pow2 by lia. change (2 ^ 3) with 8. rewrite Z.div_add_l by lia. rewrite Z.div_small; lia.
  - change 7 with (Z.ones 3). rewrite Z.land_ones by lia. change (2 ^ 3) with 8.
    rewrite Z.add_comm, Z.mod_add, Z.mod_small by lia. done.
Qed.

Lemma read_tag (f : wire_field) (buf : bytes) (pos : Z) (rest : bytes) :
  wire_ok f -> rest_at buf pos (encode_field f ++ rest)%list ->
  _read_varint buf pos = Ok (w_num f * 8 + w_type f, pos + zlen (varint (w_num f * 8 + w_type f))).
Proof.
  intros [Hn _] Hat. unfold encode_field in Hat. rewrite <- app_assoc in Hat.
  apply (read_varint_enc _ _ _ _) in Hat; [done|]. destruct (tag_split f) as (_ & _ & Ht). lia.
Qed.

Lemma skip_field_enc (f : wire_field) (buf : bytes) (pos : Z) (rest : bytes) :
  wire_ok f -> rest_at buf pos (w_payload f ++ rest)%list ->
  _skip_field buf pos (w_type f) = Ok (pos + zlen (w_payload f)).
Proof.
  intros [_ Hf] Hat. unfold _skip_field. destruct f; cbn [w_payload w_type Z.eqb Pos.eqb] in *.
  - by rewrite (read_varint_enc v _ _ rest).
  - by rewrite Hf.
  - rewrite <- app_assoc in Hat. rewrite (read_varint_enc (zlen b) _ _ (b ++ rest)%list);
      [|pose proof (zlen_nonneg b); lia|done].
    cbn [mbind res_bind fst snd]. rewrite zlen_app. f_equal. lia.
  - by rewrite Hf.
Qed.

Lemma encode_fields_cons (f : wire_field) (fs : list wire_field) :
  encode_fields (f :: fs) = (encode_field f ++ encode_fields fs)%list.
Proof. done. Qed.

Section loop.
Context {St : Type} (branch : Z -> Z -> Z -> St -> res wire_error (St * Z)) (buf : bytes)
  (act : wire_field -> St -> St).

(** What a branch does to one field. *)
Definition acts_on (f : wire_field) : Prop :=
  forall pos rest st, rest_at buf pos (w_payload f ++ rest)%list ->
  branch (w_num f) (w_type f) pos st = Ok (act f st, pos + zlen (w_payload f)).

Lemma loop_fields (fs : list wire_field) (fuel : nat) (pos : Z) (st : St) (rest : bytes) :
  forward branch -> Forall wire_ok fs -> Forall acts_on fs ->
  rest_at buf pos (encode_fields fs ++ rest)%list -> zlen buf - pos <= Z.of_nat fuel ->
  exists fuel', message_loop fuel branch buf pos st =
      message_loop fuel' branch buf (pos + zlen (encode_fields fs)) (foldl (fun st f => act f st) st fs) /\
    zlen buf - (pos + zlen (encode_fields fs)) <= Z.of_nat fuel'.
Proof.
  intros Hfw. revert fuel pos st. induction fs as [|f fs IH]; intros fuel pos st Hok Hact Hat Hle.
  - exists fuel. cbn. rewrite zlen_nil, Z.add_0_r. done.
  - inversion Hok as [|? ? Hf Hok']; subst. inversion Hact as [|? ? Ha Hact']; subst.
    rewrite encode_fields_cons, <- app_assoc in Hat. pose proof (rest_end _ _ _ Hat) as He.
    pose proof (read_tag f buf pos _ Hf Hat) as Ht. destruct (tag_split f) as (Hs1 & Hs2 & _).
    pose proof (rest_skip _ _ _ _ Hat) as Hat'. unfold encode_field in Hat. rewrite <- app_assoc in Hat.
    pose proof (rest_skip _ _ _ _ Hat) as Hpay. pose proof (Ha _ _ st Hpay) as Hb.
    pose proof (read_varint_pos _ _ _ _ Ht) as [_ Hadv].
    rewrite bool_decide_eq_false_2 in He.
    2: { intros E. apply (f_equal zlen) in E. rewrite zlen_app, zlen_nil in E.
         pose proof (zlen_nonneg (encode_fields fs ++ rest)). unfold encode_field in E. rewrite zlen_app in E.
         pose proof (zlen_nonneg (w_payload f)). lia. }
    destruct fuel as [|fuel]; [lia|].
    replace (pos + zlen (encode_fields (f :: fs))) with (pos + zlen (encode_field f) + zlen (encode_fields fs))
      by (rewrite encode_fields_cons, zlen_app; lia).
    cbn [message_loop foldl]. rewrite He, Ht. rewrite Hs1, Hs2, Hb.
    replace (pos + zlen (varint (w_num f * 8 + w_type f)) + zlen (w_payload f)) with (pos + zlen (encode_field f))
      by (unfold encode_field; rewrite zlen_app; lia).
    apply IH; [done|done|done|]. unfold encode_field. rewrite zlen_app. pose proof (zlen_nonneg (w_payload f)). lia.
Qed.
End loop.

(** Bytes that are no field: the tag cannot be read or names a group or an unused type. *)
Definition no_field (junk : bytes) : Prop :=
  match _read_varint junk 0 with
  | Ok (tag, _) => Z.land tag 7 ∈ [3; 4; 6; 7]
  | Err _ => junk <> []
  end.

Lemma varint_loop_rest (n : nat) (buf rest : bytes) (p q result shift : Z) :
  0 <= q -> rest_at buf p rest ->
  varint_loop n buf (p + q) result shift =
    match varint_loop n rest q result shift with Ok (v, e) => Ok (v, p + e) | Err e => Err e end.
Proof.
  intros Hq [Hp H]. revert q result shift Hq. induction n as [|n IH]; intros q result shift Hq; cbn [varint_loop];
    replace (buf !! Z.to_nat (p + q)) with (rest !! Z.to_nat q)
      by (rewrite <- H, zdrop_eq, lookup_drop; f_equal; lia);
    (destruct (rest !! Z.to_nat q) as [b|]; [|done]); [done|].
  destruct (_ =? 0); [f_equal; f_equal; lia|]. rewrite <- Z.add_assoc. apply IH. lia.
Qed.

Lemma rest_whole (buf : bytes) : rest_at buf 0 buf.
Proof. split; [lia|]. by rewrite zdrop_eq. Qed.

Lemma skip_enc {St} (f : wire_field) (buf : bytes) (pos : Z) (rest : bytes) (st : St) :
  wire_ok f -> rest_at buf pos (w_payload f ++ rest)%list ->
  skip buf (w_type f) pos st = Ok (st, pos + zlen (w_payload f)).
Proof. intros Hf Hat. unfold skip. by rewrite (skip_field_enc f buf pos rest). Qed.

(** A whole message that is nothing but fields, or fields and junk. *)
Lemma loop_message {St} (branch : Z -> Z -> Z -> St -> res wire_error (St * Z)) (act : wire_field -> St -> St)
    (fs : list wire_field) (junk : bytes) (st : St) :
  let buf := (encode_fields fs ++ junk)%list in
  forward branch -> Forall wire_ok fs -> Forall (acts_on branch buf act) fs ->
  (junk = [] -> message_loop (List.length buf) branch buf 0 st = (foldl (fun st f => act f st) st fs, None)) /\
  ((forall w p st, w ∈ [3; 4; 6; 7] -> exists e, forall f, branch f w p st = Err e) -> no_field junk ->
     (message_loop (List.length buf) branch buf 0 st).1 = foldl (fun st f => act f st) st fs).
Proof.
  intros buf Hfw Hok Hact.
  destruct (loop_fields branch buf act fs _ 0 st junk Hfw Hok Hact (rest_whole buf) (start_fuel buf))
    as (fuel & -> & Hle).
  rewrite Z.add_0_l in *. pose proof (rest_skip _ _ _ _ (rest_whole buf)) as Hat. rewrite Z.add_0_l in Hat.
  pose proof (rest_end _ _ _ Hat) as He. split.
  - intros ->. rewrite bool_decide_eq_true_2 in He by done. by destruct fuel; cbn; rewrite He.
  - intros Hbad Hj. destruct fuel as [|fuel]; cbn [message_loop]; destruct (zlen buf <=? zlen (encode_fields fs)); try done.
    unfold no_field, _read_varint in *. rewrite <- (Z.add_0_r (zlen (encode_fields fs))).
    rewrite (varint_loop_rest _ _ _ _ _ _ _ (Z.le_refl 0) Hat).
    destruct (varint_loop 10 junk 0 0 0) as [[tag p]|e]; [|done].
    destruct (Hbad (Z.land tag 7) (zlen (encode_fields fs) + p) (foldl (fun st f => act f st) st fs) Hj) as [e Hbe].
    by rewrite Hbe.
Qed.

(** *** Install operations *)

Definition op_act (f : wire_field) (st : option Z) : option Z :=
  match f with WVarint 1 v => Some v | _ => st end.

(** The last value of field 1. *)
Definition op_value (f : wire_field) : option Z := match f with WVarint 1 v => Some v | _ => None end.
Definition op_type_of (fs : list wire_field) : option Z := last (omap op_value fs).

Lemma op_acts (buf : bytes) (f : wire_field) : wire_ok f -> acts_on (op_branch buf) buf op_act f.
Proof.
  intros Hf pos rest st Hat. unfold op_branch.
  destruct (decide (w_num f = 1 /\ w_type f = 0)) as [[Hn Ht]|Hne].
  - destruct f as [n v| | |]; try done. cbn in Hn. subst n. cbn [w_num w_type w_payload Z.eqb Pos.eqb andb op_act] in *.
    destruct Hf as [_ Hv]. by rewrite (read_varint_enc v _ _ rest).
  - replace ((w_num f =? 1) && (w_type f =? 0)) with false by lia. rewrite (skip_enc f buf pos rest) by done.
    f_equal. f_equal. destruct f as [[|[]|] v| | |]; try done. by destruct Hne.
Qed.

Lemma last_omap_foldl {A B} (g : A -> option B) (l : list A) (st : option B) :
  foldl (fun st f => match g f with Some v => Some v | None => st end) st l =
  match last (omap g l) with Some v => Some v | None => st end.
Proof.
  revert st. induction l as [|x l IH]; intros st; [done|]. cbn [foldl omap list_omap]. rewrite IH.
  destruct (g x) as [v|]; [|done]. destruct (omap g l) as [|y k]; [done|]. rewrite last_cons_cons.
  destruct (last (y :: k)) eqn:El; [done|]. by apply last_None in El.
Qed.

Lemma parse_op_enc (fs : list wire_field) :
  Forall wire_ok fs -> _parse_install_operation (encode_fields fs) = Ok (op_type_of fs).
Proof.
  intros Hok. unfold _parse_install_operation, parse_op_fuel.
  pose proof (loop_message (op_branch (encode_fields fs ++ [])) op_act fs [] None (op_forward _) Hok
    ltac:(eapply Forall_impl; [exact Hok|intros f Hf; by apply op_acts])) as [H _].
  rewrite app_nil_r in H. rewrite H by done. unfold raised. cbn [fst snd]. f_equal.
  transitivity (foldl (fun st f => match op_value f with Some v => Some v | None => st end) None fs).
  - clear. generalize (@None Z). induction fs as [|f fs IH]; intros st; [done|]. cbn [foldl]. rewrite IH.
    f_equal. by destruct f as [[|[]|] v| | |].
  - rewrite last_omap_foldl. unfold op_type_of. by destruct (last (omap op_value fs)).
Qed.

(** *** Partitions *)

Inductive partition_field :=
  | PName (s : string)
  | POp (fs : list wire_field)
  | POther (f : wire_field).

Definition p_wire (p : partition_field) : wire_field :=
  match p with
  | PName s => WBytes 1 (encode s)
  | POp fs => WBytes 8 (encode_fields fs)
  | POther f => f
  end.

(** Names are valid UTF-8; the other fields are none of the two that are read. *)
Definition p_ok (p : partition_field) : Prop :=
  wire_ok (p_wire p) /\
  match p with
  | PName s => decode_utf8_replace (encode s) = s
  | POp fs => Forall wire_ok fs
  | POther f => ~ (w_type f = 2 /\ (w_num f = 1 \/ w_num f = 8))
  end.

(** The last name, and the type of every operation that has one. *)
Definition part_name (ps : list partition_field) : option string :=
  last (omap (fun p => match p with PName s => Some s | _ => None end) ps).
Definition part_ops (ps : list partition_field) : list Z :=
  omap (fun p => match p with POp fs => op_type_of fs | _ => None end) ps.
Definition part_of (ps : list partition_field) : option PayloadPartition := partition_of (part_name ps, part_ops ps).

Definition encode_partition (ps : list partition_field) : bytes := encode_fields (p_wire <$> ps).

Definition option_items {A} (o : option A) : list A := match o with Some a => [a] | None => [] end.

Definition part_act (f : wire_field) (st : option string * list Z) : option string * list Z :=
  match f with
  | WBytes 1 b => (Some (decode_utf8_replace b), st.2)
  | WBytes 8 b => (st.1, st.2 ++ match _parse_install_operation b with Ok (Some t) => [t] | _ => [] end)%list
  | _ => st
  end.

Lemma read_block (b buf : bytes) (pos : Z) (rest : bytes) :
  zlen b < 2 ^ 64 -> rest_at buf pos ((varint (zlen b) ++ b) ++ rest)%list ->
  let q := pos + zlen (varint (zlen b)) in
  _read_varint buf pos = Ok (zlen b, q) /\ zslice q (q + zlen b) buf = b /\
  q + zlen b = pos + zlen (varint (zlen b) ++ b)%list.
Proof.
  intros Hb Hat q. rewrite <- app_assoc in Hat. pose proof (zlen_nonneg b). split; [|split].
  - by apply (read_varint_enc _ _ _ (b ++ rest)%list).
  - apply (rest_slice _ _ _ rest). by apply rest_skip.
  - rewrite zlen_app. lia.
Qed.

Lemma part_acts (buf : bytes) (p : partition_field) :
  p_ok p -> acts_on (partition_branch _parse_install_operation buf) buf part_act (p_wire p).
Proof.
  intros [Hw Hp] pos rest st Hat. unfold partition_branch. destruct p as [s|fs|f]; cbn [p_wire] in *.
  - destruct Hw as [_ Hl]. cbn [w_num w_type w_payload Z.eqb Pos.eqb andb part_act] in *.
    destruct (read_block _ _ _ _ Hl Hat) as (Hr & Hs & He). rewrite Hr. cbn [mbind res_bind fst snd].
    by rewrite Hs, He.
  - destruct Hw as [_ Hl]. cbn [w_num w_type w_payload Z.eqb Pos.eqb andb part_act] in *.
    destruct (read_block _ _ _ _ Hl Hat) as (Hr & Hs & He). rewrite Hr. cbn [mbind res_bind fst snd].
    rewrite Hs, He, (parse_op_enc fs) by done. cbn [mbind res_bind]. by destruct (op_type_of fs).
  - replace ((w_num f =? 1) && (w_type f =? 2)) with false by lia.
    replace ((w_num f =? 8) && (w_type f =? 2)) with false by lia.
    rewrite (skip_enc f buf pos rest) by done. f_equal. f_equal.
    destruct f as [| |n b|]; try done. cbn in Hp. unfold part_act.
    repeat case_match; try done; subst; exfalso; apply Hp; lia.
Qed.

Lemma part_foldl (ps : list partition_field) (n : option string) (ts : list Z) :
  Forall p_ok ps ->
  foldl (fun st f => part_act f st) (n, ts) (p_wire <$> ps) =
  (match part_name ps with Some s => Some s | None => n end, (ts ++ part_ops ps)%list).
Proof.
  revert n ts. induction ps as [|p ps IH]; intros n ts Hok; [by rewrite app_nil_r|].
  inversion Hok as [|? ? [_ Hp] Hok']; subst. cbn [fmap list_fmap foldl]. destruct p as [s|fs|f]; cbn [p_wire part_act].
  - rewrite Hp, IH by done. f_equal. unfold part_name. cbn [omap list_omap].
    destruct (omap _ ps) as [|y k]; [done|]. rewrite last_cons_cons.
    destruct (last (y :: k)) eqn:El; [done|]. by apply last_None in El.
  - rewrite (parse_op_enc fs), IH by done. f_equal. cbn [fst snd]. rewrite <- app_assoc. f_equal.
    unfold part_ops. cbn [omap list_omap]. by destruct (op_type_of fs).
  - replace (part_act f (n, ts)) with (n, ts); [by rewrite IH|].
    destruct f as [| |m b|]; try done. cbn in Hp. unfold part_act.
    repeat case_match; try done; subst; exfalso; apply Hp; lia.
Qed.

Lemma parse_partition_enc (ps : list partition_field) :
  Forall p_ok ps -> _parse_partition_update (encode_partition ps) = Ok (part_of ps).
Proof.
  intros Hok. unfold _parse_partition_update, parse_partition_fuel, encode_partition.
  pose proof (loop_message (partition_branch _parse_install_operation (encode_fields (p_wire <$> ps) ++ [])) part_act
    (p_wire <$> ps) [] (None, []) (partition_forward _)) as H. rewrite app_nil_r in H.
  rewrite (proj1 (H
    ltac:(apply Forall_fmap; eapply Forall_impl; [exact Hok|by intros p [Hp _]])
    ltac:(apply Forall_fmap; eapply Forall_impl; [exact Hok|intros p Hp; by apply part_acts]))) by done.
  unfold raised. cbn [fst snd fmap res_fmap]. rewrite part_foldl by done. cbn [app]. unfold part_of.
  by destruct (part_name ps).
Qed.

(** *** The manifest and the file *)

Inductive manifest_field :=
  | MPartition (ps : list partition_field)
  | MOther (f : wire_field).

Definition m_wire (m : manifest_field) : wire_field :=
  match m with MPartition ps => WBytes 13 (encode_partition ps) | MOther f => f end.

Definition m_ok (m : manifest_field) : Prop :=
  wire_ok (m_wire m) /\
  match m with
  | MPartition ps => Forall p_ok ps
  | MOther f => ~ (w_type f = 2 /\ w_num f = 13)
  end.

(** Every partition that has a name, in order. *)
Definition manifest_parts (ms : list manifest_field) : list PayloadPartition :=
  omap (fun m => match m with MPartition ps => part_of ps | MOther _ => None end) ms.

Definition encode_manifest (ms : list manifest_field) : bytes := encode_fields (m_wire <$> ms).

(** [struct.pack(">Q", z)]. *)
Definition be64 (z : Z) : bytes := rev (le_enc 8 z).

Definition payload_file (body signature_size trailer : bytes) : bytes :=
  (_CRAU_MAGIC ++ be64 2 ++ be64 (zlen body) ++ signature_size ++ body ++ trailer)%list.

Definition manifest_act (f : wire_field) (parts : list PayloadPartition) : list PayloadPartition :=
  match f with
  | WBytes 13 b => (parts ++ match _parse_partition_update b with Ok (Some p) => [p] | _ => [] end)%list
  | _ => parts
  end.

Lemma manifest_acts (buf : bytes) (m : manifest_field) :
  m_ok m -> acts_on (manifest_branch buf) buf manifest_act (m_wire m).
Proof.
  intros [Hw Hm] pos rest st Hat. unfold manifest_branch. destruct m as [ps|f]; cbn [m_wire] in *.
  - destruct Hw as [_ Hl]. cbn [w_num w_type w_payload Z.eqb Pos.eqb andb manifest_act] in *.
    destruct (read_block _ _ _ _ Hl Hat) as (Hr & Hs & He). rewrite Hr. cbn [mbind res_bind fst snd].
    rewrite Hs, He, (parse_partition_enc ps) by done. cbn [mbind res_bind]. by destruct (part_of ps).
  - replace ((w_num f =? 13) && (w_type f =? 2)) with false by lia.
    rewrite (skip_enc f buf pos rest) by done. f_equal. f_equal.
    destruct f as [| |n b|]; try done. cbn in Hm. unfold manifest_act.
    repeat case_match; try done; subst; exfalso; apply Hm; lia.
Qed.

Lemma manifest_foldl (ms : list manifest_field) (parts : list PayloadPartition) :
  Forall m_ok ms ->
  foldl (fun st f => manifest_act f st) parts (m_wire <$> ms) = (parts ++ manifest_parts ms)%list.
Proof.
  revert parts. induction ms as [|m ms IH]; intros parts Hok; [by rewrite app_nil_r|].
  inversion Hok as [|? ? [_ Hm] Hok']; subst. cbn [fmap list_fmap foldl]. destruct m as [ps|f]; cbn [m_wire manifest_act].
  - rewrite (parse_partition_enc ps), IH by done. rewrite <- app_assoc. f_equal.
    unfold manifest_parts. cbn [omap list_omap]. by destruct (part_of ps).
  - replace (manifest_act f parts) with parts; [by rewrite IH|].
    destruct f as [| |n b|]; try done. cbn in Hm. unfold manifest_act.
    repeat case_match; try done; subst; exfalso; apply Hm; lia.
Qed.

Lemma skip_group {St} (buf : bytes) (w p : Z) (st : St) :
  w ∈ [3; 4; 6; 7] -> skip buf w p st = Err (UnsupportedWireType w).
Proof.
  intros Hw. repeat (apply elem_of_cons in Hw as [->|Hw]; [done|]). by apply not_elem_of_nil in Hw.
Qed.

(** The partitions before the junk survive it. *)
Lemma manifest_enc (ms : list manifest_field) (junk : bytes) :
  Forall m_ok ms -> junk = [] \/ no_field junk ->
  (manifest_fuel (List.length (encode_manifest ms ++ junk)) (encode_manifest ms ++ junk)).1 = manifest_parts ms.
Proof.
  intros Hok Hj. unfold manifest_fuel, encode_manifest.
  pose proof (loop_message (manifest_branch (encode_fields (m_wire <$> ms) ++ junk)) manifest_act
    (m_wire <$> ms) junk [] (manifest_forward _)
    ltac:(apply Forall_fmap; eapply Forall_impl; [exact Hok|by intros m [Hm _]])
    ltac:(apply Forall_fmap; eapply Forall_impl; [exact Hok|intros m Hm; by apply manifest_acts])) as [H1 H2].
  rewrite manifest_foldl in H1, H2 by done. destruct Hj as [Hj|Hj]; [by rewrite H1|].
  rewrite H2; [done| |done]. intros w p st Hw. exists (UnsupportedWireType w). intros f. unfold manifest_branch.
  replace ((f =? 13) && (w =? 2)) with false; [by apply skip_group|].
  repeat (apply elem_of_cons in Hw as [->|Hw]; [by rewrite andb_false_r|]). by apply not_elem_of_nil in Hw.
Qed.

Lemma be_val_rev (l : bytes) : be_val (rev l) = le_val l.
Proof.
  unfold be_val. induction l as [|b l IH]; [done|]. cbn [rev le_val]. rewrite be_acc_app, IH. cbn. lia.
Qed.

Lemma be64_val (z : Z) : 0 <= z < 2 ^ 64 -> be_val (be64 z) = z.
Proof. intros Hz. unfold be64. by rewrite be_val_rev, le_val_enc. Qed.

Lemma zlen_be64 (z : Z) : zlen (be64 z) = 8.
Proof. unfold be64, zlen. by rewrite length_rev, length_le_enc. Qed.

(** The header of a well-formed file. *)
Lemma parse_file (body signature_size trailer : bytes) :
  zlen signature_size = 4 -> 0 < zlen body <= _MAX_MANIFEST_BYTES ->
  parse_payload_manifest (payload_file body signature_size trailer) =
  Some {| version := 2; partitions := (manifest_fuel (List.length body) body).1 |}.
Proof.
  intros Hs Hb. unfold parse_payload_manifest, payload_file.
  pose proof (zlen_be64 2) as Hv. pose proof (zlen_be64 (zlen body)) as Hl.
  assert (Hm : zlen _CRAU_MAGIC = 4) by done.
  rewrite (ztake_app 4) by done. rewrite bool_decide_eq_true_2 by done. cbn [negb].
  assert (H1 : zslice 4 12 (_CRAU_MAGIC ++ be64 2 ++ be64 (zlen body) ++ signature_size ++ body ++ trailer) = be64 2)
    by (apply zslice_mid; lia).
  assert (H2 : zslice 12 20 (_CRAU_MAGIC ++ be64 2 ++ be64 (zlen body) ++ signature_size ++ body ++ trailer) =
               be64 (zlen body)).
  { rewrite (app_assoc _CRAU_MAGIC). apply zslice_mid; rewrite zlen_app; lia. }
  assert (H3 : zslice _CRAU_HEADER_FIXED (_CRAU_HEADER_FIXED + zlen body)
      (_CRAU_MAGIC ++ be64 2 ++ be64 (zlen body) ++ signature_size ++ body ++ trailer) = body).
  { rewrite (app_assoc _CRAU_MAGIC), (app_assoc (_CRAU_MAGIC ++ be64 2)),
      (app_assoc ((_CRAU_MAGIC ++ be64 2) ++ be64 (zlen body))).
    unfold _CRAU_HEADER_FIXED. apply zslice_mid; rewrite !zlen_app; lia. }
  assert (Hn : zlen (_CRAU_MAGIC ++ be64 2 ++ be64 (zlen body) ++ signature_size ++ body ++ trailer) =
               24 + zlen body + zlen trailer) by (rewrite !zlen_app; lia).
  pose proof (zlen_nonneg trailer). unfold _MAX_MANIFEST_BYTES in *.
  rewrite Hn, H1, H2, (be64_val 2), (be64_val (zlen body)) by lia. unfold _CRAU_HEADER_FIXED in *.
  destruct (24 + zlen body + zlen trailer <? 24) eqn:E1; [lia|]. cbn [Z.eqb Pos.eqb negb].
  destruct ((zlen body <=? 0) || (64 * 1024 * 1024 <? zlen body)) eqn:E2; [lia|].
  destruct (24 + zlen body + zlen trailer <? 24 + zlen body) eqn:E3; [lia|].
  by rewrite H3.
Qed.

Lemma existsb_false_elem {A} (f : A -> bool) (l : list A) (x : A) :
  existsb f l = false -> x ∈ l -> f x = false.
Proof.
  intros H Hx. destruct (f x) eqn:E; [|done]. rewrite <- H. symmetry. apply existsb_exists. exists x.
  by rewrite <- list_elem_of_In.
Qed.

(** C33. The reader inverts the format: from any file whose manifest holds partitions and
    unknown fields in any order, whatever the signature size and whatever follows the
    manifest, it recovers the named partitions in order, each with its last name and the
    types of its operations; and when the manifest goes on with bytes that are no field,
    it still recovers every partition before them.  The boot partition is then ready for
    extraction exactly when the first partition of that name has operations and all of
    them are replacements. *)
Theorem ota_payload_roundtrip (ms : list manifest_field) (junk signature_size trailer : bytes) :
  Forall m_ok ms -> junk = [] \/ no_field junk ->
  zlen signature_size = 4 -> 0 < zlen (encode_manifest ms ++ junk) <= _MAX_MANIFEST_BYTES ->
  exists m, parse_payload_manifest (payload_file (encode_manifest ms ++ junk) signature_size trailer) = Some m /\
    m.(version) = 2 /\ m.(partitions) = manifest_parts ms /\
    ((classify_boot_partition m).(extraction_status) = "standard" <->
     exists p, find (fun p => bool_decide (p.(name) = "boot")) (manifest_parts ms) = Some p /\
       p.(op_types) <> [] /\ forall t, t ∈ p.(op_types) -> t = 0 \/ t = 1 \/ t = 8).
Proof.
  intros Hok Hj Hs Hb. rewrite parse_file by done. eexists. split; [done|]. split; [done|].
  split; [by apply manifest_enc|]. unfold classify_boot_partition, boot_partition. cbn [partitions].
  rewrite manifest_enc by done. destruct (find _ _) as [p|]; [|by split; [|intros (? & ? & _)]].
  split.
  - unfold has_nonstandard_op, all_standard. intros H. exists p. split; [done|].
    destruct (existsb _ _) eqn:Ee; [done|]. destruct (decide (op_types p = [])) as [Hn|Hn].
    + rewrite Hn in H. by rewrite bool_decide_eq_true_2 in H.
    + split; [done|]. intros t Ht. apply existsb_false_elem with (x := t) in Ee; [|done].
      apply negb_false_iff, bool_decide_eq_true_1 in Ee. unfold _STANDARD_OP_TYPES in Ee.
      rewrite !elem_of_cons in Ee. unfold _OP_REPLACE, _OP_REPLACE_BZ, _OP_REPLACE_XZ in Ee.
      destruct Ee as [->|[->|[->|[]%not_elem_of_nil]]]; auto.
  - intros (p' & [= <-] & Hn & Hall).
    assert (Hstd : forall t, t ∈ op_types p -> t ∈ _STANDARD_OP_TYPES).
    { intros t Ht. unfold _STANDARD_OP_TYPES, _OP_REPLACE, _OP_REPLACE_BZ, _OP_REPLACE_XZ.
      rewrite !elem_of_cons. destruct (Hall t Ht) as [->|[->| ->]]; auto. }
    destruct (has_nonstandard_op p) eqn:En.
    { apply existsb_exists in En as (t & Ht & Hx). apply list_elem_of_In in Ht.
      rewrite bool_decide_eq_true_2 in Hx by auto. done. }
    assert (Ha : all_standard p = true); [|by rewrite Ha].
    unfold all_standard. rewrite bool_decide_eq_false_2 by done. cbn [negb andb]. apply forallb_forall.
    intros t Ht. apply bool_decide_eq_true_2, Hstd. by apply list_elem_of_In.
Qed.

(** A manifest with a block size, a boot partition of two compressed operations and a
    system partition with a vendor operation, followed by the start of a group. *)
Definition boot_update : list partition_field :=
  [PName "boot"; POp [WVarint 1 8; WVarint 2 4096]; POther (WFixed32 9 [x01; x02; x03; x04]);
   POp [WVarint 1 0]].
Definition system_update : list partition_field := [POp [WVarint 1 200]; PName "system"].
Definition sample_manifest : list manifest_field :=
  [MOther (WVarint 3 4096); MPartition boot_update; MPartition system_update].

Lemma sample_ok : Forall m_ok sample_manifest.
Proof.
  assert (Hb : Forall p_ok boot_update).
  { repeat constructor; try (by vm_compute); try (intros [? ?]; cbn in *; lia). }
  assert (Hs : Forall p_ok system_update).
  { repeat constructor; try (by vm_compute); try (intros [? ?]; cbn in *; lia). }
  repeat constructor; try (by vm_compute); try done; try (intros [? ?]; cbn in *; lia).
Qed.

Lemma ota_payload_roundtrip_witness :
  exists m, parse_payload_manifest (payload_file (encode_manifest sample_manifest ++ [x0b]) [x00; x00; x00; x00] [x50])
      = Some m /\
    m.(partitions) = [{| name := "boot"; op_types := [8; 0] |}; {| name := "system"; op_types := [200] |}] /\
    (classify_boot_partition m).(extraction_status) = "standard".
Proof.
  assert (Hj : no_field [x0b]) by (vm_compute; left).
  assert (Hb : 0 < zlen (encode_manifest sample_manifest ++ [x0b]) <= _MAX_MANIFEST_BYTES) by (vm_compute; done).
  destruct (ota_payload_roundtrip sample_manifest [x0b] [x00; x00; x00; x00] [x50] sample_ok (or_intror Hj) eq_refl Hb)
    as (m & Hm & _ & Hp & Hc).
  exists m. split; [exact Hm|]. split; [rewrite Hp; vm_compute; reflexivity|]. apply Hc.
  exists {| name := "boot"; op_types := [8; 0] |}. split; [vm_compute; reflexivity|]. split; [done|].
  cbn [op_types]. intros t [->|[->|[]%not_elem_of_nil]%elem_of_cons]%elem_of_cons; auto.
Defined.
