(* ===== verification/UploadStore.v ===== *)
(** * Upload of a firmware image ([services/firmware_service.py])

    The part of an upload that runs inside the request: the file name, the storage check,
    the stream to disk with its limit, the duplicate check, the 7z wrapper, the version
    label and the new row; and the tests that classify a ZIP archive by its names.  SHA-256,
    the 7z tool and the free space are inputs. *)

From S2P Require Import Prelude PyText PosixPath Json FirmwareModel VirtualFs DetectLinux.
From Stdlib Require Import Ascii String.
Import (notations) Ascii String.
#[local] Open Scope Z_scope.

(** ** [_sanitize_filename] *)

(** The characters of a text: each with the continuation bytes that follow it. *)
Fixpoint chars (s : string) : list string :=
  match s with
  | "" => []
  | String a s' =>
      match chars s' with
      | String b c :: cs => if is_cont b then String a (String b c) :: cs else String a "" :: String b c :: cs
      | cs => String a "" :: cs
      end
  end.

Definition is_ascii (a : ascii) : bool := (N_of_ascii a <? 128)%N.

Section Filename.
(** Whether a character beyond ASCII is a letter, a digit or an underscore of [\w]. *)
Context (unicode_word : string -> bool).

(** [[\w.\-]]. *)
Definition safe_char (c : string) : bool :=
  match c with
  | String a "" => is_upper a || is_lower a || is_digit a || bool_decide (a ∈ ["_"; "."; "-"]%char)
                   || (negb (is_ascii a) && unicode_word c)
  | String a _ => negb (is_ascii a) && unicode_word c
  | "" => false
  end.

Definition sub_unsafe (s : string) : string :=
  String.concat "" ((fun c => if safe_char c then c else "_") <$> chars s).

(** [re.sub(r"__+", "_", s)]. *)
Fixpoint collapse (s : string) : string :=
  match s with
  | String "_" s' => match s' with String "_" _ => collapse s' | _ => String "_" (collapse s') end
  | String a s' => String a (collapse s')
  | "" => ""
  end.

Definition is_dot_underscore (a : ascii) : bool := is_char "."%char a || is_char "_"%char a.

Definition _sanitize_filename (name : string) : string :=
  let name := basename name in
  let name := collapse (sub_unsafe name) in
  let name := take_chars 200 (lstrip_if is_dot_underscore name) in
  if bool_decide (name = "") then "firmware.bin" else name.
End Filename.

Example sanitize_filename_ex :
  let f := _sanitize_filename (fun _ => false) in
  f "../../etc/passwd" = "passwd" /\ f "my firmware (v1).bin" = "my_firmware_v1_.bin" /\ f ".._.hidden" = "hidden" /\
  f "dir/" = "firmware.bin" /\ f "__init__.py" = "init_.py".
Proof. by vm_compute. Qed.

(** ** ZIP archives by their names *)

Definition rootfs_markers : list string := ["etc"; "usr"; "bin"; "lib"; "sbin"].

(** [len(a & b)] of a set literal and a set given by its members. *)
Definition common (a b : list string) : Z := zlen (List.filter (fun x => bool_decide (x ∈ b)) a).

Definition parts (name : string) : list string := split_char slash (strip_char slash name).

Definition _zip_contains_rootfs (filenames : list string) : bool :=
  let names := List.filter (fun n => negb (startswith n ".") && negb (startswith n "__")) filenames in
  let top_level_dirs := omap (fun n => head (parts n)) names in
  if 3 <=? common rootfs_markers top_level_dirs then true
  else match remove_dups top_level_dirs with
       | [wrapper] =>
           let second := omap (fun n => match parts n with
                                        | p :: q :: _ => if bool_decide (p = wrapper) then Some q else None
                                        | _ => None end) names in
           3 <=? common rootfs_markers second
       | _ => false
       end.

Definition android_meta : list string :=
  ["META-INF/com/google/android/updater-script"; "META-INF/com/google/android/update-binary";
   "META-INF/com/android/metadata"].

Definition android_partitions : list string :=
  ["system.img"; "boot.img"; "vendor.img"; "super.img"; "recovery.img"; "vbmeta.img"; "dtbo.img"; "product.img";
   "system_ext.img"; "odm.img"].

(** A name without a slash is its own base name, so the first set is the names. *)
Definition _is_android_firmware_zip (namelist : list string) : bool :=
  let basenames := basename <$> namelist in
  bool_decide ("payload.bin" ∈ basenames) || (0 <? common android_meta namelist) ||
  (2 <=? common android_partitions basenames).

Definition has_markers (names : list string) (prefix : string) : bool :=
  existsb (fun n => startswith n (prefix +:+ "etc/") || bool_decide (n = prefix +:+ "etc")) names &&
  existsb (fun n => existsb (fun d => startswith n (prefix +:+ d +:+ "/") || bool_decide (n = prefix +:+ d))
                      ["usr"; "bin"]) names.

Definition _zip_is_rootfs (names : list string) : bool :=
  has_markers names "" ||
  existsb (fun n => match split_char slash n with
                    | top :: _ :: _ => has_markers names (top +:+ "/")
                    | _ => false end) names.

(** The members a primary file is chosen from; [is_dir] is a trailing slash. *)
Definition zip_candidates (names : list string) : list string :=
  List.filter (fun n => negb (endswith n "/") && negb (bool_decide (basename n = "")) &&
                        negb (startswith (basename n) ".") && negb (startswith (basename n) "__")) names.

(** Whether [_extract_firmware_from_zip] goes on to unpack into zip_contents/. *)
Definition unpacks_contents (names : list string) : bool :=
  negb (_zip_is_rootfs names) && negb (bool_decide (zip_candidates names = [])).

Example zip_tests_ex :
  _zip_contains_rootfs ["rootfs/etc/passwd"; "rootfs/bin/sh"; "rootfs/lib/libc.so"] = true /\
  _zip_contains_rootfs ["etc/passwd"; "bin/sh"] = false /\ _zip_is_rootfs ["etc/passwd"; "bin/sh"] = true /\
  _is_android_firmware_zip ["a/boot.img"; "b/vendor.img"] = true /\
  unpacks_contents ["fw/image.bin"; "fw/"; "__MACOSX/._x"] = true.
Proof. by vm_compute. Qed.

(** ** Version labels *)

(** The number of a label [V<n>]; [None] for any other label. *)
Definition label_number (label : cell) : option Z :=
  match label with
  | CText s =>
      match strip s with
      | String a s' =>
          if bool_decide (a ∈ ["V"; "v"]%char) && negb (bool_decide (s' = "")) &&
             forallb is_digit (String.list_ascii_of_string s')
          then unsigned_value s' else None
      | "" => None
      end
  | _ => None
  end.

Definition _next_auto_version_label (labels : list cell) : string :=
  "V" +:+ str_int (foldl (fun highest l => match label_number l with Some n => Z.max highest n | None => highest end)
                      0 labels + 1).

(** ** [upload_bytes_only] *)

Inductive upload_error :=
  | InsufficientStorage          (** 507 *)
  | UploadTooLarge               (** 413 *)
  | AlreadyPresent (id : Z)      (** 409 *)
  | PasswordProtected            (** [ValueError] of the 7z step: 400 *)
  | MultipleResultsFound
  | IOFailure.

(** What the 7z step does to a file with the 7z magic: the largest inner file, nothing
    usable, a password prompt, another failure of the tool, or a tool or directory that
    cannot be used at all. *)
Inductive seven_zip :=
  | Extracted (largest : string) (content : bytes) | NothingInside | Encrypted | ToolFailed | SpawnFailed.

Definition _7Z_MAGIC : bytes := Eval vm_compute in (byte_of_Z <$> [55; 122; 188; 175; 39; 28]).

(** [int(required_bytes * 1.5)]: exact for the sizes at hand, below 2^51. *)
Definition needed_bytes (required : Z) : Z := required * 3 / 2.

(** [None]: the volume cannot be queried. *)
Definition _check_storage_available (free : option Z) (required : Z) : res upload_error () :=
  match free with
  | None => Ok ()
  | Some free => if free <? needed_bytes required then Err InsufficientStorage else Ok ()
  end.

Definition CHUNK : Z := 8192.

(** The stream: written first, tested afterwards. *)
Fixpoint stream_loop (max_bytes : Z) (chunks : list bytes) (file_size : Z) (written : bytes)
    : res upload_error (Z * bytes) :=
  match chunks with
  | [] => Ok (file_size, written)
  | chunk :: chunks =>
      let written := (written ++ chunk)%list in
      let file_size := file_size + zlen chunk in
      if max_bytes <? file_size then Err UploadTooLarge else stream_loop max_bytes chunks file_size written
  end.

Record upload_request := {
  up_project : Z;
  up_filename : option string;
  up_size : option Z;
  up_chunks : list bytes;
  up_label : option string
}.

Section Upload.
Context (unicode_word : string -> bool) (sha256 : bytes -> string) (max_bytes : Z) (storage_root : string)
  (str_uuid : Z -> string).

Record upload_env := {
  ue_free : option Z;
  ue_id : Z;
  ue_seven_zip : seven_zip;
  ue_now : Z
}.

(** Rows by identifier, files by path. *)
Record store := { st_rows : gmap Z row; st_files : gmap string bytes }.

Definition of_project (p : Z) (r : row) : bool :=
  match field r "project_id" with CUuid q => bool_decide (q = p) | _ => false end.

Definition has_digest (digest : string) (r : row) : bool :=
  match field r "sha256" with CText d => bool_decide (d = digest) | _ => false end.

(** [SELECT id ... WHERE project_id = ... AND sha256 = ...]. *)
Definition duplicates (rows : gmap Z row) (p : Z) (digest : string) : list Z :=
  (List.filter (fun ir => of_project p ir.2 && has_digest digest ir.2)
     (map_to_list rows)).*1.

Definition labels_of (rows : gmap Z row) (p : Z) : list cell :=
  (fun ir => field ir.2 "version_label") <$> List.filter (fun ir => of_project p ir.2) (map_to_list rows).

Definition firmware_dir (p id : Z) : string :=
  path_join (path_join (path_join (path_join storage_root "projects") (str_uuid p)) "firmware") (str_uuid id).

Definition firmware_row (id p : Z) (raw_filename digest : string) (file_size : Z) (path label : string) (now : Z) : row :=
  <["id" := CUuid id]> (<["project_id" := CUuid p]> (<["original_filename" := CText raw_filename]>
  (<["sha256" := CText digest]> (<["file_size" := CInt file_size]> (<["storage_path" := CText path]>
  (<["version_label" := CText label]> (<["upload_stage" := CText "detecting"]>
  (<["upload_stage_started_at" := CTime now]> new_row)))))))).

(** The label given, stripped, or the next automatic one. *)
Definition version_label_of (rows : gmap Z row) (p : Z) (given : option string) : string :=
  match given with
  | Some l => if bool_decide (strip l = "") then _next_auto_version_label (labels_of rows p) else strip l
  | None => _next_auto_version_label (labels_of rows p)
  end.

(** Where the inner file goes. *)
Definition extracted_path (files : gmap string bytes) (dir largest : string) : string :=
  let target_name := _sanitize_filename unicode_word largest in
  let target_path := path_join dir target_name in
  if bool_decide (is_Some (files !! target_path))
  then let ext := splitext target_name in
       let base := String.substring 0 (String.length target_name - String.length ext) target_name in
       path_join dir (base +:+ "_extracted" +:+ ext)
  else target_path.

(** The result, and the store as the request leaves it; rows are committed at the end
    only, files as the steps go. *)
Definition upload_bytes_only (u : upload_request) (e : upload_env) (s : store) : res upload_error Z * store :=
  let probable_size := default max_bytes u.(up_size) in
  match _check_storage_available e.(ue_free) probable_size with
  | Err x => (Err x, s)
  | Ok _ =>
      let raw_filename := match u.(up_filename) with Some n => if bool_decide (n = "") then "firmware.bin" else n
                                                | None => "firmware.bin" end in
      let filename := _sanitize_filename unicode_word raw_filename in
      let dir := firmware_dir u.(up_project) e.(ue_id) in
      let storage_path := path_join dir filename in
      match stream_loop max_bytes u.(up_chunks) 0 [] with
      | Err x => (Err x, {| st_rows := s.(st_rows); st_files := delete storage_path s.(st_files) |})
      | Ok (file_size, written) =>
          let digest := sha256 written in
          let files := <[storage_path := written]> s.(st_files) in
          match duplicates s.(st_rows) u.(up_project) digest with
          | _ :: _ :: _ => (Err MultipleResultsFound, {| st_rows := s.(st_rows); st_files := files |})
          | [i] => (Err (AlreadyPresent i), {| st_rows := s.(st_rows); st_files := delete storage_path files |})
          | [] =>
              let add file_size path files :=
                let label := version_label_of s.(st_rows) u.(up_project) u.(up_label) in
                (Ok e.(ue_id),
                 {| st_rows := <[e.(ue_id) := firmware_row e.(ue_id) u.(up_project) raw_filename digest file_size
                                                path label e.(ue_now)]> s.(st_rows);
                    st_files := files |}) in
              if bool_decide (ztake 6 written = _7Z_MAGIC)
              then match e.(ue_seven_zip) with
                   | Extracted largest content =>
                       let path := extracted_path files dir largest in
                       add (zlen content) path (<[path := content]> (delete storage_path files))
                   | NothingInside | ToolFailed => add file_size storage_path files
                   | SpawnFailed => (Err IOFailure, {| st_rows := s.(st_rows); st_files := files |})
                   | Encrypted => (Err PasswordProtected, {| st_rows := s.(st_rows); st_files := files |})
                   end
              else add file_size storage_path files
          end
      end
  end.
End Upload.

(** ** File names *)

(** No slash, not empty, neither dot nor underscore first. *)
Definition plain_name (s : string) : Prop :=
  s <> "" /\ has_char slash s = false /\ match s with String a _ => is_dot_underscore a = false | "" => True end.

Lemma has_char_app_eq (c : ascii) (s t : string) : has_char c (s +:+ t) = has_char c s || has_char c t.
Proof. induction s as [|a s IH]; [done|]. rewrite append_cons. cbn. by rewrite IH, orb_assoc. Qed.

Lemma concat_no_slash (l : list string) :
  Forall (fun c => has_char slash c = false) l -> has_char slash (String.concat "" l) = false.
Proof.
  induction l as [|c l IH]; [done|]. intros [Hc Hl]%Forall_cons. destruct l as [|d l]; [done|].
  change (String.concat "" (c :: d :: l)) with (c +:+ String.concat "" (d :: l)).
  by rewrite has_char_app_eq, Hc, IH.
Qed.

(** A continuation byte is no slash, so the characters of a text hold one exactly where
    they are one. *)
Lemma chars_tail (s : string) :
  Forall (fun c => match c with String _ t => has_char slash t = false | "" => False end) (chars s).
Proof.
  induction s as [|a s IH]; [constructor|]. cbn [chars]. destruct (chars s) as [|[|b c] cs] eqn:E.
  - by repeat constructor.
  - by apply Forall_cons in IH as [[] _].
  - apply Forall_cons in IH as [Hb Hcs]. destruct (is_cont b) eqn:Ec.
    + constructor; [|done]. cbn. rewrite Hb, orb_false_r. apply bool_decide_eq_false_2. by intros ->.
    + by repeat constructor.
Qed.

Lemma sub_unsafe_no_slash (uw : string -> bool) (s : string) : has_char slash (sub_unsafe uw s) = false.
Proof.
  apply concat_no_slash, Forall_fmap. eapply Forall_impl; [apply chars_tail|].
  intros c Hc. cbn. destruct (safe_char uw c) eqn:E; [|done]. destruct c as [|a t]; [done|]. cbn.
  rewrite Hc, orb_false_r. apply bool_decide_eq_false_2. intros ->. destruct t; vm_compute in E; done.
Qed.

Lemma collapse_no_slash (s : string) : has_char slash s = false -> has_char slash (collapse s) = false.
Proof.
  induction s as [|a s IH]; [done|]. cbn [has_char]. rewrite orb_false_iff. intros [Ha Hs]. specialize (IH Hs).
  assert (H : has_char slash (String a (collapse s)) = false) by (cbn; by rewrite Ha, IH).
  cbn [collapse]. destruct a as [[] [] [] [] [] [] [] []]; try exact H. destruct s as [|b s']; [exact H|].
  destruct b as [[] [] [] [] [] [] [] []]; first [exact H|exact IH].
Qed.

Lemma lstrip_no_slash (f : ascii -> bool) (s : string) : has_char slash s = false -> has_char slash (lstrip_if f s) = false.
Proof.
  induction s as [|a s IH]; [done|]. cbn. rewrite orb_false_iff. intros [Ha Hs]. destruct (f a); [auto|].
  cbn. by rewrite Ha, Hs.
Qed.

Lemma take_no_slash (n : nat) (s : string) : has_char slash s = false -> has_char slash (take_chars n s) = false.
Proof.
  revert n. induction s as [|a s IH]; intros n; [done|]. cbn. rewrite orb_false_iff. intros [Ha Hs].
  destruct (is_cont a); [cbn; by rewrite Ha, IH|]. destruct n; [done|]. cbn. by rewrite Ha, IH.
Qed.

Lemma lstrip_head (f : ascii -> bool) (s : string) :
  match lstrip_if f s with String a _ => f a = false | "" => True end.
Proof. induction s as [|a s IH]; cbn; [done|]. by destruct (f a) eqn:E. Qed.

Lemma sanitize_plain (unicode_word : string -> bool) (name : string) :
  plain_name (_sanitize_filename unicode_word name) /\ py_len (_sanitize_filename unicode_word name) <= 200.
Proof.
  unfold _sanitize_filename.
  set (t := lstrip_if is_dot_underscore (collapse (sub_unsafe unicode_word (basename name)))).
  assert (Ht : has_char slash (take_chars 200 t) = false).
  { by apply take_no_slash, lstrip_no_slash, collapse_no_slash, sub_unsafe_no_slash. }
  pose proof (lstrip_head is_dot_underscore (collapse (sub_unsafe unicode_word (basename name)))) as Hh. fold t in Hh.
  pose proof (py_len_take_chars 200 t) as Hl. cbn zeta.
  case_bool_decide as E; [split; [split_and!|]; by vm_compute|]. split; [|lia]. split_and!; [done|done|].
  destruct t as [|a t]; [done|]. cbn. by destruct (is_cont a).
Qed.

(** Whatever name a client sends, the file name derived from it is not empty, has at
    most two hundred characters, no slash, and no dot or underscore in front, so that the
    file it names lies in the directory of its firmware. *)
Theorem sanitize_filename_safe (unicode_word : string -> bool) (name dir : string) :
  let f := _sanitize_filename unicode_word name in
  plain_name f /\ py_len f <= 200 /\ f <> "." /\ f <> ".." /\
  (dir <> "" -> endswith dir "/" = false -> path_join dir f = dir +:+ "/" +:+ f).
Proof.
  cbn zeta. destruct (sanitize_plain unicode_word name) as [Hp Hlen]. split_and!; [exact Hp|exact Hlen|..].
  - intros E. rewrite E in Hp. by destruct Hp as (_ & _ & ?).
  - intros E. rewrite E in Hp. by destruct Hp as (_ & _ & ?).
  - intros Hd He. destruct Hp as (_ & Hs & _). unfold path_join. rewrite (has_char_isabs _ Hs).
    by rewrite bool_decide_eq_false_2, He.
Qed.

(** ** Labels *)

Lemma digit_char (n : N) : (n < 10)%N ->
  is_digit (pretty_N_char n) = true /\ Z.of_N (N_of_ascii (pretty_N_char n)) - 48 = Z.of_N n.
Proof.
  intros Hn. destruct n as [|p]; [done|]. by do 4 (destruct p as [p|p|]; [try lia|try lia|done]).
Qed.

Lemma digits_value_go (x : N) :
  exists k, forall s acc, digits_value acc false (pretty_N_go x s) = digits_value (acc * k + Z.of_N x) false s.
Proof.
  induction (N.lt_wf_0 x) as [x _ IH]. destruct (decide (x = 0)%N) as [->|Hx].
  - exists 1. intros s acc. rewrite pretty_N_go_0. f_equal. lia.
  - destruct (IH (x / 10)%N) as [k Hk]; [apply N.div_lt; lia|]. exists (k * 10). intros s acc.
    rewrite pretty_N_go_step by lia. rewrite Hk.
    assert (Hm : (x `mod` 10 < 10)%N) by (apply N.mod_lt; lia).
    destruct (digit_char _ Hm) as [Hd Hv]. cbn [digits_value]. rewrite Hd, Hv. f_equal.
    pose proof (N.div_mod x 10 ltac:(lia)). lia.
Qed.

Lemma all_digits_go (x : N) (s : string) :
  forallb is_digit (String.list_ascii_of_string s) = true ->
  forallb is_digit (String.list_ascii_of_string (pretty_N_go x s)) = true /\ (x <> 0%N \/ s <> "" -> pretty_N_go x s <> "").
Proof.
  revert s. induction (N.lt_wf_0 x) as [x _ IH]. intros s Hs. destruct (decide (x = 0)%N) as [->|Hx].
  - rewrite pretty_N_go_0. split; [done|]. by intros [?|?].
  - rewrite pretty_N_go_step by lia. destruct (digit_char (x `mod` 10)%N) as [Hd _]; [apply N.mod_lt; lia|].
    destruct (IH (x / 10)%N (N.div_lt x 10 ltac:(lia) ltac:(lia)) (String (pretty_N_char (x `mod` 10)) s)) as [H1 H2].
    { cbn. by rewrite Hd, Hs. }
    split; [exact H1|]. intros _. apply H2. by right.
Qed.

Lemma unsigned_value_digits (a : ascii) (s : string) :
  is_digit a = true -> unsigned_value (String a s) = digits_value 0 false (String a s).
Proof. intros Ha. cbn. by rewrite Ha. Qed.

(** The decimal text of a positive number reads back. *)
Lemma str_int_digits (z : Z) :
  0 < z -> str_int z <> "" /\ forallb is_digit (String.list_ascii_of_string (str_int z)) = true /\
    unsigned_value (str_int z) = Some z.
Proof.
  intros Hz. destruct z as [|p|p]; try lia.
  change (str_int (Z.pos p)) with (pretty (N.pos p)). unfold pretty, pretty_N. rewrite decide_False by done.
  destruct (all_digits_go (N.pos p) "" eq_refl) as [H1 H2]. specialize (H2 ltac:(left; done)).
  split; [done|]. split; [done|]. destruct (digits_value_go (N.pos p)) as [k Hk]. specialize (Hk "" 0).
  destruct (pretty_N_go (N.pos p) "") as [|a s]; [done|]. cbn in H1. apply andb_true_iff in H1 as [Ha _].
  rewrite unsigned_value_digits by done. rewrite Hk. cbn. f_equal.
Qed.

Lemma digit_not_space (a : ascii) : is_digit a = true -> is_space a = false.
Proof. destruct a as [[] [] [] [] [] [] [] []]; by vm_compute. Qed.

Lemma lstrip_none (f : ascii -> bool) (s : string) :
  forallb (fun a => negb (f a)) (String.list_ascii_of_string s) = true -> lstrip_if f s = s.
Proof. destruct s as [|a s]; [done|]. cbn. rewrite andb_true_iff, negb_true_iff. by intros [-> _]. Qed.

Lemma rstrip_none (f : ascii -> bool) (s : string) :
  forallb (fun a => negb (f a)) (String.list_ascii_of_string s) = true -> rstrip_if f s = s.
Proof.
  induction s as [|a s IH]; [done|]. cbn [String.list_ascii_of_string forallb]. rewrite andb_true_iff, negb_true_iff.
  intros [Ha Hs]. rewrite rstrip_if_cons, IH, Ha by done. case_decide as E; [by rewrite E|done].
Qed.

Lemma strip_none (s : string) :
  forallb (fun a => negb (is_space a)) (String.list_ascii_of_string s) = true -> strip s = s.
Proof. intros H. unfold strip. by rewrite lstrip_none, rstrip_none. Qed.

(** The number of an automatic label. *)
Lemma label_number_auto (n : Z) : 0 < n -> label_number (CText ("V" +:+ str_int n)) = Some n.
Proof.
  intros Hn. destruct (str_int_digits n Hn) as (Hne & Hd & Hv). unfold label_number. rewrite strip_none.
  - change ("V" +:+ str_int n) with (String "V" (str_int n)). cbn match. rewrite Hd, Hv.
    by rewrite (bool_decide_eq_false_2 (str_int n = "") Hne).
  - change ("V" +:+ str_int n) with (String "V" (str_int n)). cbn [String.list_ascii_of_string forallb]. cbn.
    apply forallb_forall. intros a Ha. rewrite forallb_forall in Hd. by rewrite digit_not_space by auto.
Qed.

Lemma highest_ge (labels : list cell) (z : Z) :
  let h := foldl (fun highest l => match label_number l with Some n => Z.max highest n | None => highest end) z labels in
  z <= h /\ (forall l n, l ∈ labels -> label_number l = Some n -> n <= h).
Proof.
  cbn zeta. revert z. induction labels as [|l labels IH]; intros z; cbn [foldl].
  - split; [lia|]. by intros l n ?%not_elem_of_nil.
  - destruct (IH (match label_number l with Some n => Z.max z n | None => z end)) as [H1 H2]. split.
    + destruct (label_number l); lia.
    + intros l' n [->|Hl]%elem_of_cons Hn; [rewrite Hn in H1 |- *; lia|]. by apply (H2 l').
Qed.

(** The label given to an upload without one is [V<n>] with a number above that of
    every numbered label of the project, so no row of the project carries it yet, in either
    case and whatever spaces surround it. *)
Theorem next_label_fresh (labels : list cell) :
  exists n, _next_auto_version_label labels = "V" +:+ str_int n /\ 0 < n /\
    label_number (CText (_next_auto_version_label labels)) = Some n /\
    (forall l m, l ∈ labels -> label_number l = Some m -> m < n) /\
    CText (_next_auto_version_label labels) ∉ labels.
Proof.
  destruct (highest_ge labels 0) as [H0 Hall]. unfold _next_auto_version_label.
  set (h := foldl _ 0 labels) in *. exists (h + 1).
  pose proof (label_number_auto (h + 1) ltac:(lia)) as Hn.
  split_and!; [done|lia|exact Hn|..].
  - intros l m Hl Hm. specialize (Hall l m Hl Hm). lia.
  - intros Hl. specialize (Hall _ _ Hl Hn). lia.
Qed.

(** ** Paths of the store *)

Definition good_dir (d : string) : Prop := d <> "" /\ endswith d "/" = false.
Definition good_part (f : string) : Prop := f <> "" /\ has_char slash f = false.

Lemma rsplit_slash_free (f : string) : has_char slash f = false -> rsplit_slash f = ("", f).
Proof.
  induction f as [|a f IH]; [done|]. cbn. rewrite orb_false_iff, bool_decide_eq_false. intros [Ha Hf].
  rewrite IH by done. by rewrite decide_False.
Qed.

Lemma rsplit_slash_join (d f : string) : has_char slash f = false -> rsplit_slash (d +:+ "/" +:+ f) = (d +:+ "/", f).
Proof.
  intros Hf. assert (H : rsplit_slash ("/" +:+ f) = ("/", f)).
  { change ("/" +:+ f) with (String slash f). cbn [rsplit_slash]. rewrite rsplit_slash_free by done.
    by rewrite decide_True. }
  rewrite rsplit_slash_app by by rewrite H. by rewrite H.
Qed.

Lemma append_inj_l (s t u : string) : s +:+ u = t +:+ u -> s = t.
Proof.
  revert t. induction s as [|a s IH]; intros [|b t]; [done|..]; rewrite ?append_cons, ?append_nil_l; intros H.
  - apply (f_equal String.length) in H. cbn in H. rewrite length_append in H. lia.
  - apply (f_equal String.length) in H. cbn in H. rewrite length_append in H. lia.
  - injection H as -> H. f_equal. by apply IH.
Qed.

Lemma dir_file_inj (d d' f f' : string) :
  has_char slash f = false -> has_char slash f' = false -> d +:+ "/" +:+ f = d' +:+ "/" +:+ f' -> d = d' /\ f = f'.
Proof.
  intros Hf Hf' H. apply (f_equal rsplit_slash) in H. rewrite !rsplit_slash_join in H by done.
  injection H as H ->. by apply append_inj_l in H.
Qed.

Lemma path_join_part (d f : string) : good_dir d -> good_part f -> path_join d f = d +:+ "/" +:+ f.
Proof.
  intros [Hd He] [_ Hf]. unfold path_join. by rewrite (has_char_isabs _ Hf), bool_decide_eq_false_2, He.
Qed.

Lemma good_dir_join (d f : string) : good_dir d -> good_part f -> good_dir (d +:+ "/" +:+ f).
Proof.
  intros [Hd He] [Hne Hf]. split; [intros E; by apply append_eq_nil in E as [E _]|].
  destruct (endswith (_ +:+ _) _) eqn:E; [|done]. apply endswith_spec in E as [t Ht].
  change (t +:+ "/") with (t +:+ "/" +:+ "") in Ht. by apply dir_file_inj in Ht as [_ ->].
Qed.

Lemma has_char_substring (c : ascii) (n : nat) (s : string) :
  has_char c s = false -> has_char c (String.substring 0 n s) = false /\ has_char c (sdrop n s) = false.
Proof.
  revert n. induction s as [|a s IH]; intros [|n]; cbn; try done. rewrite orb_false_iff. intros [Ha Hs].
  destruct (IH n Hs) as [H1 H2]. by rewrite Ha, H1.
Qed.

(** Where a row's file is. *)
Section Store.
Context (unicode_word : string -> bool) (sha256 : bytes -> string) (max_bytes : Z) (storage_root : string)
  (str_uuid : Z -> string).
Context (root_good : good_dir storage_root) (uuid_good : forall i, good_part (str_uuid i))
  (uuid_inj : forall i j, str_uuid i = str_uuid j -> i = j).

#[local] Abbreviation dir := (firmware_dir storage_root str_uuid).

Lemma firmware_dir_eq (p id : Z) :
  exists d, good_dir d /\ dir p id = d +:+ "/" +:+ str_uuid id.
Proof.
  unfold firmware_dir. assert (Hp : good_part "projects" /\ good_part "firmware") by (split; split; by vm_compute).
  destruct Hp as [Hp Hf].
  rewrite (path_join_part storage_root), (path_join_part (storage_root +:+ _)) by auto using good_dir_join.
  rewrite (path_join_part _ "firmware") by auto using good_dir_join.
  rewrite path_join_part by auto using good_dir_join. eexists. split; [|done]. auto using good_dir_join.
Qed.

Lemma firmware_dir_good (p id : Z) : good_dir (dir p id).
Proof. destruct (firmware_dir_eq p id) as (d & Hd & ->). by apply good_dir_join. Qed.

Lemma firmware_dir_inj (p p' id id' : Z) (f f' : string) :
  good_part f -> good_part f' -> path_join (dir p id) f = path_join (dir p' id') f' -> id = id'.
Proof.
  intros Hf Hf'. rewrite !path_join_part by (done || apply firmware_dir_good). intros H.
  apply dir_file_inj in H as [H _]; [|apply Hf|apply Hf'].
  destruct (firmware_dir_eq p id) as (d & _ & E), (firmware_dir_eq p' id') as (d' & _ & E'). rewrite E, E' in H.
  apply dir_file_inj in H as [_ H]; [by apply uuid_inj|apply uuid_good..].
Qed.

Lemma sanitize_part (name : string) : good_part (_sanitize_filename unicode_word name).
Proof. destruct (sanitize_plain unicode_word name) as [(H1 & H2 & _) _]. by split. Qed.

(** The inner file of an archive lands beside it. *)
Lemma extracted_path_part (files : gmap string bytes) (d largest : string) :
  exists f, good_part f /\ extracted_path unicode_word files d largest = path_join d f.
Proof.
  unfold extracted_path. pose proof (sanitize_part largest) as [Hne Hs]. case_bool_decide; [|exists (_sanitize_filename unicode_word largest); by repeat split].
  eexists. split; [|reflexivity]. split; [intros E; apply append_eq_nil in E as [_ E]; by apply append_eq_nil in E as [E _]|].
  rewrite !has_char_app_eq. apply orb_false_iff. split; [by apply has_char_substring|].
  apply orb_false_iff. split; [by vm_compute|]. unfold splitext.
  destruct (rfind_dot _); [|done]. case_bool_decide; [done|]. by apply has_char_substring.
Qed.

#[local] Abbreviation upload := (upload_bytes_only unicode_word sha256 max_bytes storage_root str_uuid).

(** Each row names a file of its own directory, of the size it says, and no two rows of a
    project have the same digest. *)
Definition row_stored (files : gmap string bytes) (i : Z) (r : row) : Prop :=
  field r "id" = CUuid i /\
  exists p f content, field r "project_id" = CUuid p /\ good_part f /\
    field r "storage_path" = CText (path_join (dir p i) f) /\
    files !! path_join (dir p i) f = Some content /\ field r "file_size" = CInt (zlen content).

Definition store_ok (s : store) : Prop :=
  (forall i r, s.(st_rows) !! i = Some r -> row_stored s.(st_files) i r) /\
  (forall p d i j r r', s.(st_rows) !! i = Some r -> s.(st_rows) !! j = Some r' ->
     of_project p r = true -> has_digest d r = true -> of_project p r' = true -> has_digest d r' = true -> i = j).

Lemma stream_loop_spec (chunks : list bytes) (n : Z) (w : bytes) :
  n <= max_bytes ->
  stream_loop max_bytes chunks n w =
    if max_bytes <? n + zlen (List.concat chunks) then Err UploadTooLarge
    else Ok (n + zlen (List.concat chunks), (w ++ List.concat chunks)%list).
Proof.
  revert n w. induction chunks as [|c chunks IH]; intros n w Hn; cbn [stream_loop List.concat].
  - rewrite zlen_nil, Z.add_0_r, app_nil_r. by rewrite (proj2 (Z.ltb_ge _ _) Hn).
  - rewrite zlen_app, Z.add_assoc, app_assoc. pose proof (zlen_nonneg (List.concat chunks)) as H0.
    destruct (max_bytes <? n + zlen c) eqn:E.
    + apply Z.ltb_lt in E. by rewrite (proj2 (Z.ltb_lt _ _)) by lia.
    + apply Z.ltb_ge in E. by apply IH.
Qed.

(** The rows the duplicate check finds. *)
Lemma duplicates_spec (rows : gmap Z row) (p : Z) (d : string) (i : Z) :
  i ∈ duplicates rows p d <-> exists r, rows !! i = Some r /\ of_project p r = true /\ has_digest d r = true.
Proof.
  unfold duplicates. rewrite list_elem_of_fmap. split.
  - intros ([j r] & -> & H). apply list_elem_of_In, filter_In in H as [H Hb]. apply andb_true_iff in Hb.
    apply list_elem_of_In, elem_of_map_to_list in H. by exists r.
  - intros (r & Hr & Hb). exists (i, r). split; [done|]. apply list_elem_of_In, filter_In. split.
    + by apply list_elem_of_In, elem_of_map_to_list.
    + by apply andb_true_iff.
Qed.

(** A path that names no file directly in [d]. *)
Definition outside (d q : string) : Prop := forall f, good_part f -> q <> path_join d f.

Definition agree (d : string) (files files' : gmap string bytes) : Prop :=
  forall q, outside d q -> files' !! q = files !! q.

Lemma agree_refl (d : string) (files : gmap string bytes) : agree d files files.
Proof. by intros q. Qed.

Lemma agree_delete (d f : string) (files files' : gmap string bytes) :
  good_part f -> agree d files files' -> agree d files (delete (path_join d f) files').
Proof. intros Hf H q Hq. rewrite lookup_delete_ne; [by apply H|]. intros E. by apply (Hq f). Qed.

Lemma agree_insert (d f : string) (b : bytes) (files files' : gmap string bytes) :
  good_part f -> agree d files files' -> agree d files (<[path_join d f := b]> files').
Proof. intros Hf H q Hq. rewrite lookup_insert_ne; [by apply H|]. intros E. by apply (Hq f). Qed.

(** What an upload that is accepted leaves. *)
Definition accepted (u : upload_request) (e : upload_env) (s s' : store) : Prop :=
  let p := u.(up_project) in let content := List.concat u.(up_chunks) in
  duplicates s.(st_rows) p (sha256 content) = [] /\ zlen content <= max_bytes /\
  exists raw f inner label, good_part f /\
    s'.(st_rows) = <[e.(ue_id) := firmware_row e.(ue_id) p raw (sha256 content) (zlen inner)
                                    (path_join (dir p e.(ue_id)) f) label e.(ue_now)]> s.(st_rows) /\
    s'.(st_files) !! path_join (dir p e.(ue_id)) f = Some inner.

Lemma upload_cases (u : upload_request) (e : upload_env) (s s' : store) (r : res upload_error Z) :
  0 <= max_bytes -> upload u e s = (r, s') ->
  agree (dir u.(up_project) e.(ue_id)) s.(st_files) s'.(st_files) /\
  match r with
  | Ok i => i = e.(ue_id) /\ accepted u e s s'
  | Err _ => s'.(st_rows) = s.(st_rows)
  end.
Proof.
  intros Hmax. unfold upload_bytes_only. destruct (_check_storage_available _ _); [|intros [= <- <-]; by split].
  set (raw := match up_filename u with Some n => _ | None => _ end).
  pose proof (sanitize_part raw) as Hf. set (f := _sanitize_filename unicode_word raw) in *. cbn zeta.
  rewrite stream_loop_spec by done. rewrite Z.add_0_l, app_nil_l.
  destruct (_ <? _) eqn:Ez; [intros [= <- <-]; split; [by apply agree_delete|done]|]. apply Z.ltb_ge in Ez.
  set (content := List.concat (up_chunks u)) in *. set (d := dir (up_project u) (ue_id e)).
  assert (Hins : agree d (st_files s) (<[path_join d f := content]> (st_files s))) by by apply agree_insert.
  destruct (duplicates _ _ _) as [|i [|? ?]] eqn:Ed;
    [|intros [= <- <-]; split; [by apply agree_delete|done]|intros [= <- <-]; by split].
  assert (Hadd : forall g inner files', good_part g -> agree d (st_files s) files' -> files' !! path_join d g = Some inner ->
    forall r0 s0, (Ok (ue_id e) : res upload_error Z, {| st_rows := <[ue_id e := firmware_row (ue_id e) (up_project u) raw (sha256 content) (zlen inner)
        (path_join d g) (version_label_of (st_rows s) (up_project u) (up_label u)) (ue_now e)]> (st_rows s);
        st_files := files' |}) = (r0, s0) ->
    agree d (st_files s) (st_files s0) /\ match r0 with Ok i => i = ue_id e /\ accepted u e s s0 | Err _ => st_rows s0 = st_rows s end).
  { intros g inner files' Hg Ha Hl r0 s0 [= <- <-]. split; [done|]. split; [done|]. split; [done|]. split; [done|].
    by exists raw, g, inner, (version_label_of (st_rows s) (up_project u) (up_label u)). }
  case_bool_decide; [|apply Hadd; [done..|by rewrite lookup_insert_eq]].
  destruct (ue_seven_zip e) as [largest inner| | | |]; [|apply Hadd; [done..|by rewrite lookup_insert_eq]| |
    apply Hadd; [done..|by rewrite lookup_insert_eq]|]; [|intros [= <- <-]; by split..].
  destruct (extracted_path_part (<[path_join d f := content]> (st_files s)) d largest) as (g & Hg & E).
  rewrite E. apply Hadd; [done| |by rewrite lookup_insert_eq]. by apply agree_insert, agree_delete.
Qed.

Lemma of_project_new (q id p : Z) (raw digest path label : string) (size now : Z) :
  of_project q (firmware_row id p raw digest size path label now) = true <-> p = q.
Proof. unfold of_project, firmware_row. autorewrite with firmware. apply bool_decide_eq_true. Qed.

Lemma has_digest_new (d : string) (id p : Z) (raw digest path label : string) (size now : Z) :
  has_digest d (firmware_row id p raw digest size path label now) = true <-> digest = d.
Proof. unfold has_digest, firmware_row. autorewrite with firmware. apply bool_decide_eq_true. Qed.

(** A row's file is outside the directory of another row. *)
Lemma outside_other (p p' i id : Z) (f : string) : i <> id -> good_part f -> outside (dir p id) (path_join (dir p' i) f).
Proof. intros Hi Hf g Hg E. by apply firmware_dir_inj in E. Qed.

Lemma row_stored_agree (files files' : gmap string bytes) (p id i : Z) (r : row) :
  i <> id -> agree (dir p id) files files' -> row_stored files i r -> row_stored files' i r.
Proof.
  intros Hi Ha (Hid & p' & f & c & H1 & Hf & H2 & H3 & H4). split; [done|]. exists p', f, c. split_and!; try done.
  rewrite Ha; [done|]. by apply outside_other.
Qed.

Lemma upload_step_ok (u : upload_request) (e : upload_env) (s s' : store) (r : res upload_error Z) :
  0 <= max_bytes -> s.(st_rows) !! e.(ue_id) = None -> store_ok s -> upload u e s = (r, s') -> store_ok s'.
Proof.
  intros Hmax Hfresh [Hrows Huniq] Hu. destruct (upload_cases u e s s' r Hmax Hu) as [Hagree Hr].
  destruct r as [i|x].
  - destruct Hr as (-> & Hdup & Hsize & raw & f & inner & label & Hf & Hs & Hfile). split.
    + intros i r Hi. rewrite Hs in Hi. apply lookup_insert_Some in Hi as [[<- <-]|[Hne Hi]].
      * unfold row_stored, firmware_row. autorewrite with firmware. split; [done|].
        exists (up_project u), f, inner. by split_and!.
      * eapply row_stored_agree; [by apply not_eq_sym|apply Hagree|]. by apply Hrows.
    + assert (Hold : forall p d j r, st_rows s !! j = Some r -> of_project p r = true -> has_digest d r = true ->
                       up_project u = p -> sha256 (List.concat (up_chunks u)) = d -> False).
      { intros p d j r Hj Hp Hd Ep Ed. assert (Hin : j ∈ duplicates (st_rows s) (up_project u) (sha256 (List.concat (up_chunks u)))).
        { apply duplicates_spec. exists r. by rewrite Ep, Ed. }
        rewrite Hdup in Hin. by apply not_elem_of_nil in Hin. }
      intros p d i j r r' Hi Hj Hp Hd Hp' Hd'. rewrite Hs in Hi, Hj.
      apply lookup_insert_Some in Hi as [[<- <-]|[Hne Hi]], Hj as [[<- <-]|[Hne' Hj]].
      * done.
      * apply of_project_new in Hp. apply has_digest_new in Hd. by destruct (Hold p d j r').
      * apply of_project_new in Hp'. apply has_digest_new in Hd'. by destruct (Hold p d i r).
      * by apply (Huniq p d i j r r').
  - rewrite <- Hr in Hfresh. destruct s' as [rows' files']. cbn in Hr |- *. subst rows'. split; [|done]. cbn.
    intros i r Hi. eapply row_stored_agree; [|apply Hagree|by apply Hrows]. intros ->. cbn in Hfresh. congruence.
Qed.

Lemma filter_fst_nodup {A B} (f : A * B -> bool) (l : list (A * B)) : NoDup l.*1 -> NoDup (List.filter f l).*1.
Proof.
  induction l as [|x l IH]; [done|]. cbn. intros [Hx Hl]%NoDup_cons. destruct (f x); [|by apply IH].
  cbn. apply NoDup_cons. split; [|by apply IH]. intros (y & E & [Hy _]%list_elem_of_In%filter_In)%list_elem_of_fmap.
  apply Hx. rewrite E. apply list_elem_of_fmap_2. by apply list_elem_of_In.
Qed.

Lemma nodup_singleton {A} (l : list A) (x : A) : NoDup l -> (forall y, y ∈ l <-> y = x) -> l = [x].
Proof.
  intros Hnd H. destruct l as [|y l]; [by destruct (not_elem_of_nil x); apply H|].
  pose proof (proj1 (H y) (list_elem_of_here _ _)) as ->. destruct l as [|z l]; [done|].
  assert (z = x) as -> by (apply H; right; left). apply NoDup_cons in Hnd as [Hn _]. destruct Hn. left.
Qed.

(** An accepted upload is the only row of its project with its digest. *)
Lemma accepted_unique (u : upload_request) (e : upload_env) (s s' : store) :
  accepted u e s s' -> duplicates s'.(st_rows) u.(up_project) (sha256 (List.concat u.(up_chunks))) = [e.(ue_id)].
Proof.
  intros (Hdup & _ & raw & f & inner & label & _ & Hs & _). apply nodup_singleton.
  - apply filter_fst_nodup, NoDup_fst_map_to_list.
  - intros j. rewrite duplicates_spec, Hs. split.
    + intros (r & Hj & Hp & Hd). apply lookup_insert_Some in Hj as [[<- _]|[_ Hj]]; [done|].
      assert (Hin : j ∈ duplicates (st_rows s) (up_project u) (sha256 (List.concat (up_chunks u)))).
      { apply duplicates_spec. by exists r. }
      rewrite Hdup in Hin. by apply not_elem_of_nil in Hin.
    + intros ->. rewrite lookup_insert_eq. eexists. split; [done|]. by rewrite of_project_new, has_digest_new.
Qed.

(** Uploads one after the other. *)
Definition uploads (us : list (upload_request * upload_env)) (s : store) : store :=
  foldl (fun s ue => (upload ue.1 ue.2 s).2) s us.

End Store.

(** C8. From an empty store, any sequence of uploads under fresh identifiers, whatever they
    send and however each step ends, leaves rows that all name a file of their own
    directory with the size they record, and no two rows of a project with one digest. *)
Theorem uploads_store_ok (unicode_word : string -> bool) (sha256 : bytes -> string) (max_bytes : Z)
    (storage_root : string) (str_uuid : Z -> string) (us : list (upload_request * upload_env)) :
  good_dir storage_root -> (forall i, good_part (str_uuid i)) -> (forall i j, str_uuid i = str_uuid j -> i = j) ->
  0 <= max_bytes -> NoDup ((fun ue => ue.2.(ue_id)) <$> us) ->
  store_ok storage_root str_uuid (uploads unicode_word sha256 max_bytes storage_root str_uuid us
                                    {| st_rows := ∅; st_files := ∅ |}).
Proof.
  intros Hroot Huuid Hinj Hmax Hids.
  assert (H : forall us s, NoDup ((fun ue => ue.2.(ue_id)) <$> us) ->
    (forall ue, ue ∈ us -> s.(st_rows) !! ue.2.(ue_id) = None) -> store_ok storage_root str_uuid s ->
    store_ok storage_root str_uuid (uploads unicode_word sha256 max_bytes storage_root str_uuid us s)).
  { clear us Hids. intros us. induction us as [|[u e] us IH]; intros s Hnd Hfresh Hok; [done|].
    apply NoDup_cons in Hnd as [Hnin Hnd]. cbn. destruct (upload_bytes_only _ _ _ _ _ u e s) as [r s'] eqn:E. cbn.
    apply IH; [done| |].
    - intros ue Hue. pose proof (Hfresh ue (list_elem_of_further _ _ _ Hue)) as Hn.
      destruct (upload_cases _ _ _ _ _ u e s s' r Hmax E) as [_ Hr]. destruct r.
      + destruct Hr as (_ & _ & _ & raw & f & inner & label & _ & -> & _). rewrite lookup_insert_ne; [done|].
        intros Eid. apply Hnin. cbn. rewrite Eid. by apply (list_elem_of_fmap_2 (fun ue => ue_id ue.2)).
      + by rewrite Hr.
    - eapply upload_step_ok; [done..| |exact Hok|exact E]. apply (Hfresh (u, e)). by left. }
  apply H; [done| |].
  - intros ue _. apply lookup_empty.
  - split; cbn; intros *; rewrite ?lookup_empty; done.
Qed.

(** Once an upload is accepted, the same bytes sent again to the same project, in
    whatever pieces and under whatever name and label, are refused with the identifier of
    the first one: no row is added and the copy is removed from disk. *)
Theorem upload_twice_refused (unicode_word : string -> bool) (sha256 : bytes -> string) (max_bytes : Z)
    (storage_root : string) (str_uuid : Z -> string) (u u' : upload_request) (e e' : upload_env) (s s' : store) (i : Z) :
  let upload := upload_bytes_only unicode_word sha256 max_bytes storage_root str_uuid in
  0 <= max_bytes -> upload u e s = (Ok i, s') ->
  u'.(up_project) = u.(up_project) -> List.concat u'.(up_chunks) = List.concat u.(up_chunks) ->
  _check_storage_available e'.(ue_free) (default max_bytes u'.(up_size)) = Ok () ->
  exists s'', upload u' e' s' = (Err (AlreadyPresent i), s'') /\ s''.(st_rows) = s'.(st_rows) /\
    exists path, s''.(st_files) = delete path s'.(st_files) /\
      exists f, good_part f /\ path = path_join (firmware_dir storage_root str_uuid u'.(up_project) e'.(ue_id)) f.
Proof.
  cbn zeta. intros Hmax Hu Hp Hc Hcheck. destruct (upload_cases _ _ _ _ _ u e s s' (Ok i) Hmax Hu) as [_ [-> Hacc]].
  pose proof (accepted_unique _ _ _ _ u e s s' Hacc) as Hdup. destruct Hacc as (_ & Hsize & _).
  unfold upload_bytes_only. rewrite Hcheck. cbn zeta. rewrite stream_loop_spec by done.
  rewrite Z.add_0_l, app_nil_l, Hc, Hp, (proj2 (Z.ltb_ge _ _) Hsize), Hdup.
  eexists. split; [reflexivity|]. split; [done|]. eexists. split; [cbn; by rewrite delete_insert_eq|].
  eexists. split; [apply sanitize_part|]. done.
Qed.

(** ** Concrete uploads *)

Lemma digits_no_slash (s : string) : forallb is_digit (String.list_ascii_of_string s) = true -> has_char slash s = false.
Proof.
  induction s as [|a s IH]; [done|]. cbn. rewrite andb_true_iff. intros [Ha Hs]. rewrite IH by done.
  rewrite orb_false_r. apply bool_decide_eq_false_2. by intros ->.
Qed.

Lemma str_int_part (z : Z) : good_part (str_int z).
Proof.
  destruct (Z.lt_trichotomy z 0) as [Hz|[->|Hz]]; [|by vm_compute|].
  - destruct z as [|p|p]; try lia. destruct (str_int_digits (Z.pos p) ltac:(lia)) as (Hne & Hd & _).
    change (str_int (Z.neg p)) with ("-" +:+ str_int (Z.pos p)). split; [done|].
    rewrite has_char_app_eq, (digits_no_slash (str_int _)) by exact Hd. by vm_compute.
  - destruct (str_int_digits z Hz) as (Hne & Hd & _). split; [done|]. by apply digits_no_slash.
Qed.

Definition demo_upload (u : upload_request) (e : upload_env) (s : store) : res upload_error Z * store :=
  upload_bytes_only (fun _ => false) (fun b => str_int (zlen b)) 1000 "/data" str_int u e s.

Definition demo_request (name : string) (chunks : list bytes) : upload_request :=
  {| up_project := 7; up_filename := Some name; up_size := None; up_chunks := chunks; up_label := None |}.

Definition demo_env (id : Z) (z : seven_zip) : upload_env :=
  {| ue_free := Some 5000; ue_id := id; ue_seven_zip := z; ue_now := 100 |}.

Definition demo_wrapper : bytes := Eval vm_compute in (_7Z_MAGIC ++ [Byte.x01; Byte.x02])%list.
Definition demo_image : bytes := [Byte.x10; Byte.x11; Byte.x12].

Definition demo_store : store :=
  (demo_upload (demo_request "ota.img" [demo_wrapper]) (demo_env 1 (Extracted "fw/image.bin" demo_image))
     {| st_rows := ∅; st_files := ∅ |}).2.

(** The row of an unwrapped image keeps the digest of the archive, so the image itself is
    not recognised when it is sent later; nothing is stored for an image too large. *)
Example upload_ex :
  let r := st_rows demo_store !! 1 in
  ((fun r => field r "sha256") <$> r) = Some (CText "8") /\
  ((fun r => field r "file_size") <$> r) = Some (CInt 3) /\
  ((fun r => field r "version_label") <$> r) = Some (CText "V1") /\
  st_files demo_store !! "/data/projects/7/firmware/1/image.bin" = Some demo_image /\
  (demo_upload (demo_request "image.bin" [demo_image]) (demo_env 2 ToolFailed) demo_store).1 = Ok 2 /\
  (demo_upload (demo_request "big.bin" (replicate 200 demo_wrapper)) (demo_env 3 ToolFailed) demo_store).1
    = Err UploadTooLarge.
Proof. by vm_compute. Qed.

Lemma uploads_store_ok_witness :
  store_ok "/data" str_int
    (uploads (fun _ => false) (fun b => str_int (zlen b)) 1000 "/data" str_int
       [(demo_request "ota.img" [demo_wrapper], demo_env 1 (Extracted "fw/image.bin" demo_image));
        (demo_request "image.bin" [demo_image], demo_env 2 ToolFailed);
        (demo_request "again.bin" [demo_image], demo_env 3 Encrypted)] {| st_rows := ∅; st_files := ∅ |}).
Proof.
  apply (uploads_store_ok (fun _ => false) (fun b => str_int (zlen b)) 1000 "/data" str_int).
  - by vm_compute.
  - exact str_int_part.
  - intros i j H. by apply (inj pretty) in H.
  - lia.
  - apply (bool_decide_unpack _). by vm_compute.
Defined.

Lemma fst_pair {A B} (p : A * B) (a : A) : p.1 = a -> p = (a, p.2).
Proof. destruct p. by intros <-. Qed.

Lemma upload_twice_refused_witness :
  exists s'', demo_upload (demo_request "again.img" [[Byte.x37; Byte.x7a]; [Byte.xbc; Byte.xaf; Byte.x27; Byte.x1c; Byte.x01; Byte.x02]])
                (demo_env 5 ToolFailed) demo_store = (Err (AlreadyPresent 1), s'') /\
    s''.(st_rows) = demo_store.(st_rows) /\
    exists path, s''.(st_files) = delete path demo_store.(st_files) /\
      exists f, good_part f /\ path = path_join (firmware_dir "/data" str_int 7 5) f.
Proof.
  apply (upload_twice_refused (fun _ => false) (fun b => str_int (zlen b)) 1000 "/data" str_int
           (demo_request "ota.img" [demo_wrapper])
           (demo_request "again.img" [[Byte.x37; Byte.x7a]; [Byte.xbc; Byte.xaf; Byte.x27; Byte.x1c; Byte.x01; Byte.x02]])
           (demo_env 1 (Extracted "fw/image.bin" demo_image)) (demo_env 5 ToolFailed)
           {| st_rows := ∅; st_files := ∅ |} demo_store 1).
  - lia.
  - apply fst_pair. vm_compute. reflexivity.
  - reflexivity.
  - reflexivity.
  - reflexivity.
Defined.

Lemma sanitize_filename_safe_witness :
  let f := _sanitize_filename (fun _ => false) "../../etc/cron.d/x" in
  plain_name f /\ py_len f <= 200 /\ f <> "." /\ f <> ".." /\
  ("/data" <> "" -> endswith "/data" "/" = false -> path_join "/data" f = "/data" +:+ "/" +:+ f).
Proof. apply (sanitize_filename_safe (fun _ => false) "../../etc/cron.d/x" "/data"). Defined.
