(* ===== verification/UploadPipeline.v ===== *)
(** * Post-processing of an upload ([services/firmware_service.py])

    The pipeline that takes a stored upload from [detecting] to [ready], and its background
    runner, which turns an exception into a [failed] row.  The pipeline runs in a state and
    exception monad: the row the session holds, the rows it committed, the diagnostics and
    the archive on disk.  What the extraction and detection helpers return or raise is an
    input ([pipeline_env]), and so is whether each commit reaches the database; a commit of
    a cell its column does not take is refused.  Only this task writes the row meanwhile. *)

From S2P Require Import Prelude PyText PosixPath Json JsonbColumns FirmwareModel Reaper UploadStore.
From Stdlib Require Import Ascii String.
Import (notations) Ascii String.
#[local] Open Scope Z_scope.

(** ** The monad *)

Inductive exc := BadZipFile | OSError | EOFError | OtherException.

#[export] Instance exc_eq_dec : EqDecision exc.
Proof. solve_decision. Defined.

Record pstate := {
  p_row : row;                  (** the attributes of the object in the session *)
  p_commits : list row;         (** the rows committed, in order *)
  p_diagnostics : pydict;       (** [extraction_diagnostics] *)
  p_shortcut : bool;            (** [extracted_via_shortcut] *)
  p_archive : bool;             (** the file at [storage_path] *)
  p_zip_contents : bool;        (** the directory zip_contents/ *)
  p_spawned : bool              (** the detection task *)
}.

Definition M (A : Type) : Type := pstate -> res exc A * pstate.

#[export] Instance m_ret : MRet M := fun A a s => (Ok a, s).
#[export] Instance m_bind : MBind M :=
  fun A B f m s => match m s with (Ok a, s) => f a s | (Err x, s) => (Err x, s) end.

(** What a helper returns or raises. *)
Definition lift {A} (r : res exc A) : M A := fun s => (r, s).

(** [try: m except p: h]: what [m] did before it raised stays done. *)
Definition catch {A} (p : exc -> bool) (h : M A) (m : M A) : M A :=
  fun s => match m s with (Err x, s) => if p x then h s else (Err x, s) | r => r end.

Definition any_exception (x : exc) : bool := true.
Definition zip_errors (x : exc) : bool := bool_decide (x ∈ [BadZipFile; OSError; EOFError]).
Definition file_errors (x : exc) : bool := bool_decide (x ∈ [BadZipFile; OSError]).

Definition get_row : M row := fun s => (Ok s.(p_row), s).
Definition get_state : M pstate := fun s => (Ok s, s).

Definition assign (name : string) (c : cell) : M () := fun s =>
  (Ok (), {| p_row := <[name := c]> s.(p_row); p_commits := s.(p_commits); p_diagnostics := s.(p_diagnostics);
             p_shortcut := s.(p_shortcut); p_archive := s.(p_archive); p_zip_contents := s.(p_zip_contents);
             p_spawned := s.(p_spawned) |}).

Definition set_diagnostics (d : pydict) : M () := fun s =>
  (Ok (), {| p_row := s.(p_row); p_commits := s.(p_commits); p_diagnostics := d; p_shortcut := s.(p_shortcut);
             p_archive := s.(p_archive); p_zip_contents := s.(p_zip_contents); p_spawned := s.(p_spawned) |}).

Definition set_shortcut : M () := fun s =>
  (Ok (), {| p_row := s.(p_row); p_commits := s.(p_commits); p_diagnostics := s.(p_diagnostics); p_shortcut := true;
             p_archive := s.(p_archive); p_zip_contents := s.(p_zip_contents); p_spawned := s.(p_spawned) |}).

Definition set_archive (b : bool) : M () := fun s =>
  (Ok (), {| p_row := s.(p_row); p_commits := s.(p_commits); p_diagnostics := s.(p_diagnostics);
             p_shortcut := s.(p_shortcut); p_archive := b; p_zip_contents := s.(p_zip_contents);
             p_spawned := s.(p_spawned) |}).

Definition make_zip_contents : M () := fun s =>
  (Ok (), {| p_row := s.(p_row); p_commits := s.(p_commits); p_diagnostics := s.(p_diagnostics);
             p_shortcut := s.(p_shortcut); p_archive := s.(p_archive); p_zip_contents := true;
             p_spawned := s.(p_spawned) |}).

Definition mark_spawned : M () := fun s =>
  (Ok (), {| p_row := s.(p_row); p_commits := s.(p_commits); p_diagnostics := s.(p_diagnostics);
             p_shortcut := s.(p_shortcut); p_archive := s.(p_archive); p_zip_contents := s.(p_zip_contents);
             p_spawned := true |}).

(** ** What the helpers do *)

Record tar_env := {
  te_is_tarfile : res exc bool;
  te_extract : res exc ();                  (** [_extract_tar], its directory included *)
  te_widen : res exc ();
  te_root : res exc (option string);        (** [find_filesystem_root] *)
  te_dense : res exc bool;                  (** [_is_archive_dense_layout] *)
  te_nested : res exc (list string);        (** [_recursive_extract_nested] *)
  te_widen_nested : res exc ();
  te_strict : res exc (option string)       (** [find_filesystem_root_strict] *)
}.

Record zip_env := {
  ze_is_zipfile : res exc bool;
  ze_names : res exc (list string);         (** the names of the archive, as each open reads them *)
  ze_extract : res exc ();                  (** [_extract_archive], its directory included *)
  ze_remove : bool;                         (** whether [os.remove] succeeds *)
  ze_widen : res exc ();
  ze_root : res exc (option string);
  ze_unpack : res exc ();                   (** the loop of [_extract_firmware_from_zip] *)
  ze_nested : res exc ();
  ze_widen_contents : res exc ();
  ze_diagnose : res exc pydict              (** [diagnose_failed_archives] *)
}.

Record analysis_env := {
  ae_arch : res exc (option string * option string);
  ae_os_info : res exc (option string);
  ae_kernel : res exc (option string);
  ae_roots : res exc (list json)            (** [_compute_roots_sync] *)
}.

Record pipeline_env := {
  pe_detect : res exc string;
  pe_tar : tar_env;
  pe_zip : zip_env;
  pe_analysis : analysis_env;
  pe_commit : nat -> bool;                  (** whether the n-th commit reaches the database *)
  pe_now : Z;
  pe_spawn : res exc ()
}.

Definition text_of (c : cell) : option string := match c with CText s => Some s | _ => None end.
Definition text_cell (s : option string) : cell := match s with Some s => CText s | None => CNull end.

(** The value of a JSONB cell. *)
Definition json_of (c : cell) : json := match c with CJson j => j | _ => JNull end.

Definition json_cell (d : option pydict) : cell := match d with Some d => CJson (JDict d) | None => CNull end.

Section Pipeline.
Context (e : pipeline_env) (update_stage : bool).

Definition commit : M () := fun s =>
  if pe_commit e (List.length s.(p_commits)) &&
     forallb (fun nc => cell_ok nc.2 (field s.(p_row) nc.1)) firmware_columns
  then (Ok (), {| p_row := s.(p_row); p_commits := (s.(p_commits) ++ [s.(p_row)])%list; p_diagnostics := s.(p_diagnostics);
                  p_shortcut := s.(p_shortcut); p_archive := s.(p_archive); p_zip_contents := s.(p_zip_contents);
                  p_spawned := s.(p_spawned) |})
  else (Err OtherException, s).

(** [if update_stage: ...]. *)
Definition when_stage (m : M ()) : M () := if update_stage then m else mret ().

Definition enter_stage (stage : string) : M () :=
  when_stage (assign "upload_stage" (CText stage) ≫= fun _ => commit).

Definition detect_step : M () :=
  catch any_exception (assign "detected_format" (CText "unknown"))
    (f ← lift (pe_detect e); assign "detected_format" (CText f)).

Definition tar_suffixes : list string := [".tar.gz"; ".tar"; ".tgz"; ".tar.bz2"; ".tar.xz"].

(** [extraction_diagnostics.get("nested_extract", {}).get("levels_expanded")]. *)
Definition levels_expanded (d : pydict) : json :=
  match dict_get "nested_extract" d with
  | Some (JDict n) => dict_get_or "levels_expanded" JNull n
  | _ => JNull
  end.

Definition set_levels (n : Z) : M () :=
  s ← get_state;
  let inner := match dict_get "nested_extract" s.(p_diagnostics) with Some (JDict d) => d | _ => [] end in
  set_diagnostics (dict_set "nested_extract" (JDict (dict_set "levels_expanded" (JInt n) inner)) s.(p_diagnostics)).

Definition tar_log (d : pydict) : string :=
  if negb (py_truthy (levels_expanded d)) then "Tarball detected; extracted directly as rootfs."
  else "Tarball detected; recursively expanded " +:+
       match levels_expanded d with JInt n => str_int n | _ => "" end +:+
       " nested archive(s) before classification.".

(** The body of the tarball shortcut's [try]. *)
Definition tar_body (firmware_dir : string) : M () :=
  let t := pe_tar e in
  let extraction_dir := path_join firmware_dir "extracted" in
  is_tarfile ← lift (te_is_tarfile t);
  if is_tarfile : bool then
    _ ← lift (te_extract t); _ ← lift (te_widen t);
    fs_root ← lift (te_root t);
    fs_root ← (if truthy fs_root
               then is_dense ← lift (te_dense t);
                    if is_dense : bool
                    then new_dirs ← lift (te_nested t);
                         _ ← lift (te_widen_nested t);
                         _ ← set_levels (zlen new_dirs);
                         new_fs_root ← lift (te_strict t);
                         mret (Some (default extraction_dir new_fs_root))
                    else mret fs_root
               else mret fs_root);
    if truthy fs_root then
      _ ← assign "extracted_path" (text_cell fs_root);
      s ← get_state;
      _ ← assign "unpack_log" (CText (tar_log s.(p_diagnostics)));
      set_shortcut
    else mret ()
  else mret ().

Definition tar_shortcut (raw_filename : string) (storage_path firmware_dir : option string) : M () :=
  if existsb (endswith (lower raw_filename)) tar_suffixes && truthy firmware_dir && truthy storage_path
  then catch any_exception (mret ()) (tar_body (default "" firmware_dir))
  else mret ().

(** [_extract_firmware_from_zip]: [_zip_is_rootfs] takes an unreadable archive for no root
    file system and the next open raises. *)
Definition _extract_firmware_from_zip : M () :=
  is_rootfs ← catch file_errors (mret false) (names ← lift (ze_names (pe_zip e)); mret (_zip_is_rootfs names));
  if is_rootfs : bool then mret ()
  else
    names ← lift (ze_names (pe_zip e));
    if bool_decide (zip_candidates names = []) then mret ()
    else _ ← make_zip_contents; lift (ze_unpack (pe_zip e)).

Definition rootfs_zip (firmware_dir : string) : M () :=
  let z := pe_zip e in
  _ ← lift (ze_extract z);
  _ ← (if ze_remove z then set_archive false else mret ());
  _ ← lift (ze_widen z);
  fs_root ← lift (ze_root z);
  if truthy fs_root then
    _ ← assign "extracted_path" (text_cell fs_root);
    _ ← assign "unpack_log" (CText "Rootfs ZIP detected; extracted directly without binwalk.");
    set_shortcut
  else mret ().

Definition generic_zip (firmware_dir : string) : M () :=
  let z := pe_zip e in
  catch zip_errors (mret ())
    (_ ← _extract_firmware_from_zip;
     s ← get_state;
     if s.(p_zip_contents) then
       _ ← lift (ze_nested z); _ ← lift (ze_widen_contents z);
       _ ← catch any_exception (mret ()) (d ← lift (ze_diagnose z); set_diagnostics d);
       assign "extracted_path" (CText (path_join firmware_dir "zip_contents"))
     else mret ()).

Definition zip_shortcut (raw_filename : string) (storage_path firmware_dir : option string) : M () :=
  let z := pe_zip e in
  s ← get_state;
  if negb s.(p_shortcut) && truthy storage_path && truthy firmware_dir then
    is_zip ← catch file_errors (mret false)
               (if endswith (lower raw_filename) ".zip" then lift (ze_is_zipfile z) else mret false);
    if is_zip : bool then
      is_android ← catch zip_errors (mret false) (names ← lift (ze_names z); mret (_is_android_firmware_zip names));
      is_rootfs ← (if is_android : bool then mret false
                   else catch zip_errors (mret false) (names ← lift (ze_names z); mret (_zip_contains_rootfs names)));
      if is_rootfs : bool then rootfs_zip (default "" firmware_dir)
      else if negb is_android then generic_zip (default "" firmware_dir)
      else mret ()
    else mret ()
  else mret ().

(** Merge a key into [device_metadata]. *)
Definition merge_metadata (key : string) (v : json) : M () :=
  r ← get_row;
  let existing := match _normalize_firmware_device_metadata (json_of (field r "device_metadata")) with
                  | JDict d => d | _ => [] end in
  assign "device_metadata" (json_cell (_stamp_firmware_device_metadata (Some (dict_set key v existing)))).

Definition stamp_diagnostics : M () :=
  s ← get_state;
  if bool_decide (s.(p_diagnostics) = []) then mret ()
  else merge_metadata "extraction_diagnostics" (JDict s.(p_diagnostics)).

(** [populate_detection_roots] without extra roots. *)
Definition populate_detection_roots (roots : res exc (list json)) : M () :=
  r ← get_row;
  if truthy (text_of (field r "extracted_path"))
  then roots ← lift roots; merge_metadata "detection_roots" (JList roots)
  else mret ().

Definition analyze_step : M () :=
  let a := pe_analysis e in
  r ← get_row;
  let fs_root := text_of (field r "extracted_path") in
  if truthy fs_root then
    catch any_exception (mret ())
      (ae ← lift (ae_arch a);
       _ ← assign "architecture" (text_cell ae.1);
       _ ← assign "endianness" (text_cell ae.2);
       os ← lift (ae_os_info a);
       _ ← assign "os_info" (text_cell os);
       _ ← (if bool_decide (dirname (default "" fs_root) = "") then mret ()
            else k ← lift (ae_kernel a); assign "kernel_path" (text_cell k));
       populate_detection_roots (ae_roots a))
  else mret ().

Definition spawn_detection : M () :=
  r ← get_row;
  if truthy (text_of (field r "extracted_path"))
  then _ ← lift (pe_spawn e); mark_spawned
  else mret ().

Definition _post_process_pipeline : M () :=
  r ← get_row;
  let storage_path := text_of (field r "storage_path") in
  let raw_filename := default "firmware.bin" (str_or (text_of (field r "original_filename")) (Some "firmware.bin")) in
  let firmware_dir := if truthy storage_path then dirname <$> storage_path else None in
  _ ← enter_stage "detecting";
  _ ← (if truthy storage_path then detect_step else assign "detected_format" (CText "unknown"));
  _ ← when_stage commit;
  _ ← enter_stage "extracting";
  _ ← tar_shortcut raw_filename storage_path firmware_dir;
  _ ← zip_shortcut raw_filename storage_path firmware_dir;
  _ ← stamp_diagnostics;
  _ ← enter_stage "analyzing";
  _ ← analyze_step;
  when_stage
    (_ ← assign "upload_stage" (CText "ready");
     _ ← assign "upload_stage_finished_at" (CTime (pe_now e));
     _ ← commit;
     spawn_detection).
End Pipeline.

(** ** The background runner *)

Definition start (r : row) : pstate :=
  {| p_row := r; p_commits := []; p_diagnostics := []; p_shortcut := false; p_archive := true;
     p_zip_contents := false; p_spawned := false |}.

Record runner_env := {
  ru_load : bool;               (** whether the row can be read *)
  ru_pipeline : pipeline_env;
  ru_traceback : string;        (** [traceback.format_exception], joined *)
  ru_fail : bool;               (** whether the rollback and the second session go through *)
  ru_fail_now : Z
}.

Definition fail_row (u : runner_env) (r : row) : row :=
  <["upload_stage_finished_at" := CTime (ru_fail_now u)]>
  (<["upload_stage_error" := CText (last_chars 2000 (ru_traceback u))]>
  (<["upload_stage" := CText "failed"]> r)).

(** The result of the pipeline on a row and the rows it committed; a row that cannot be
    read is an exception before the first commit. *)
Definition pipeline_run (u : runner_env) (r : row) : res exc () * list row :=
  if ru_load u
  then let '(x, s) := _post_process_pipeline (ru_pipeline u) true (start r) in (x, s.(p_commits))
  else (Err OtherException, []).

(** The row in the database, after each commit of the run. *)
Definition upload_history (u : runner_env) (r : row) : list row :=
  let '(x, commits) := pipeline_run u r in
  (commits ++ match x with
              | Ok _ => []
              | Err _ => if ru_fail u then [fail_row u (default r (last commits))] else []
              end)%list.

Definition _run_upload_post_processing_background (firmware_id : Z) (u : runner_env) (db : gmap Z row) : gmap Z row :=
  match db !! firmware_id with
  | None => db
  | Some r => foldl (fun db r' => <[firmware_id := r']> db) db (upload_history u r)
  end.

(** ** Steps that commit nothing *)

(** What the pipeline never assigns, and the stage. *)
Definition fixed_columns : list string :=
  ["id"; "project_id"; "original_filename"; "sha256"; "file_size"; "storage_path"; "version_label";
   "upload_stage_started_at"; "upload_stage_error"].

Definition fixed (r r' : row) : Prop := forall n, n ∈ fixed_columns -> field r' n = field r n.

Definition quiet_columns : list string := "upload_stage" :: "upload_stage_finished_at" :: fixed_columns.

Definition quiet {A} (m : M A) : Prop := forall s r s', m s = (r, s') ->
  s'.(p_commits) = s.(p_commits) /\ s'.(p_spawned) = s.(p_spawned) /\
  (forall n, n ∈ quiet_columns -> field s'.(p_row) n = field s.(p_row) n).

Lemma quiet_ret {A} (a : A) : quiet (mret a).
Proof. by intros s r s' [= <- <-]. Qed.

Lemma quiet_lift {A} (x : res exc A) : quiet (lift x).
Proof. by intros s r s' [= <- <-]. Qed.

Lemma quiet_bind {A B} (m : M A) (f : A -> M B) : quiet m -> (forall a, quiet (f a)) -> quiet (m ≫= f).
Proof.
  intros Hm Hf s r s' E. unfold mbind, m_bind in E. destruct (m s) as [x s1] eqn:E1.
  destruct (Hm s x s1 E1) as (H1 & H2 & H3). destruct x as [a|x]; [|by injection E as <- <-].
  destruct (Hf a s1 r s' E) as (H4 & H5 & H6). split_and!; [congruence..|].
  intros n Hn. rewrite H6, H3; done.
Qed.

Lemma quiet_catch {A} (p : exc -> bool) (h m : M A) : quiet h -> quiet m -> quiet (catch p h m).
Proof.
  intros Hh Hm s r s' E. unfold catch in E. destruct (m s) as [x s1] eqn:E1.
  destruct (Hm s x s1 E1) as (H1 & H2 & H3). destruct x as [a|x]; [by injection E as <- <-|].
  destruct (p x); [|by injection E as <- <-]. destruct (Hh s1 r s' E) as (H4 & H5 & H6).
  split_and!; [congruence..|]. intros n Hn. rewrite H6, H3; done.
Qed.

Lemma quiet_assign (n : string) (c : cell) : bool_decide (n ∈ quiet_columns) = false -> quiet (assign n c).
Proof.
  intros Hn s r s' [= <- <-]. cbn. split_and!; [done..|]. intros n' Hn'. apply field_insert_ne. intros ->.
  by apply bool_decide_eq_false in Hn.
Qed.

Lemma quiet_if {A} (b : bool) (m m' : M A) : quiet m -> quiet m' -> quiet (if b then m else m').
Proof. by destruct b. Qed.

Lemma quiet_get_row : quiet get_row.
Proof. by intros s r s' [= <- <-]. Qed.
Lemma quiet_get_state : quiet get_state.
Proof. by intros s r s' [= <- <-]. Qed.
Lemma quiet_diagnostics (d : pydict) : quiet (set_diagnostics d).
Proof. by intros s r s' [= <- <-]. Qed.
Lemma quiet_shortcut : quiet set_shortcut.
Proof. by intros s r s' [= <- <-]. Qed.
Lemma quiet_archive (b : bool) : quiet (set_archive b).
Proof. by intros s r s' [= <- <-]. Qed.
Lemma quiet_zip_contents : quiet make_zip_contents.
Proof. by intros s r s' [= <- <-]. Qed.

Create HintDb quiet discriminated.
#[export] Hint Resolve quiet_ret quiet_lift quiet_get_row quiet_get_state quiet_diagnostics quiet_shortcut
  quiet_archive quiet_zip_contents : quiet.
#[export] Hint Extern 1 (quiet (assign _ _)) => (apply quiet_assign; vm_compute; reflexivity) : quiet.

(** Takes a computation apart down to its steps. *)
Ltac quiet_step :=
  match goal with
  | |- quiet (_ ≫= _) => apply quiet_bind; [|intros ?]
  | |- quiet (catch _ _ _) => apply quiet_catch
  | |- quiet (if _ then _ else _) => apply quiet_if
  | |- quiet _ => solve [auto with quiet nocore]
  end.
Ltac quiet_tac := cbv zeta; repeat quiet_step.

Section Quiet.
Context (e : pipeline_env).

Lemma detect_quiet : quiet (detect_step e).
Proof. unfold detect_step. quiet_tac. Qed.

Lemma tar_body_quiet (d : string) : quiet (tar_body e d).
Proof. unfold tar_body, set_levels. quiet_tac. Qed.

Lemma tar_quiet (f : string) (p d : option string) : quiet (tar_shortcut e f p d).
Proof. unfold tar_shortcut. apply quiet_if; [|apply quiet_ret]. apply quiet_catch; [apply quiet_ret|apply tar_body_quiet]. Qed.

Lemma zip_quiet (f : string) (p d : option string) : quiet (zip_shortcut e f p d).
Proof. unfold zip_shortcut, rootfs_zip, generic_zip, _extract_firmware_from_zip. quiet_tac. Qed.

Lemma merge_quiet (key : string) (v : json) : quiet (merge_metadata key v).
Proof. unfold merge_metadata. quiet_tac. Qed.

Lemma stamp_quiet : quiet stamp_diagnostics.
Proof. unfold stamp_diagnostics, merge_metadata. quiet_tac. Qed.

Lemma analyze_quiet : quiet (analyze_step e).
Proof. unfold analyze_step, populate_detection_roots, merge_metadata. quiet_tac. Qed.
End Quiet.

(** ** The stages committed *)

Definition cells_ok (r : row) : Prop :=
  forall name col, dict_get name firmware_columns = Some col -> cell_ok col (field r name) = true.

Definition stage (r : row) : cell := field r "upload_stage".

(** [m], started in stage [st], commits rows in the stages [l] and ends in [st'], or raises
    on the way; the rows fit their columns and keep the fixed ones. *)
Definition runs {A} (st st' : string) (m : M A) (l : list string) : Prop := forall s r s',
  stage s.(p_row) = CText st -> m s = (r, s') ->
  exists rows, s'.(p_commits) = (s.(p_commits) ++ rows)%list /\
    Forall (fun r => cells_ok r /\ fixed s.(p_row) r) rows /\ fixed s.(p_row) s'.(p_row) /\
    (stage <$> rows) `prefix_of` (CText <$> l) /\
    (is_ok r = true -> stage <$> rows = CText <$> l /\ stage s'.(p_row) = CText st').

Lemma fixed_trans (r1 r2 r3 : row) : fixed r1 r2 -> fixed r2 r3 -> fixed r1 r3.
Proof. intros H1 H2 n Hn. rewrite H2, H1; done. Qed.

Lemma quiet_fixed (r r' : row) : (forall n, n ∈ quiet_columns -> field r' n = field r n) -> fixed r r'.
Proof. intros H n Hn. apply H. by right; right. Qed.

Lemma runs_quiet {A} (st : string) (m : M A) : quiet m -> runs st st m [].
Proof.
  intros Hm s r s' Hst E. destruct (Hm s r s' E) as (H1 & H2 & H3). exists []. rewrite app_nil_r.
  split_and!; [done|constructor|by apply quiet_fixed|done|]. intros _. split; [done|].
  unfold stage. rewrite H3; [done|left].
Qed.

Lemma runs_bind {A B} (st st1 st2 : string) (m : M A) (f : A -> M B) (l k : list string) :
  runs st st1 m l -> (forall a, runs st1 st2 (f a) k) -> runs st st2 (m ≫= f) (l ++ k).
Proof.
  intros Hm Hf s r s' Hst E. unfold mbind, m_bind in E. destruct (m s) as [x s1] eqn:E1.
  destruct (Hm s x s1 Hst E1) as (rows & H1 & H2 & H3 & H4 & H5). destruct x as [a|x].
  - destruct (H5 eq_refl) as [H6 H7]. destruct (Hf a s1 r s' H7 E) as (rows' & G1 & G2 & G3 & G4 & G5).
    exists (rows ++ rows')%list. rewrite G1, H1, app_assoc, !fmap_app. split_and!.
    + done.
    + apply Forall_app. split; [done|]. eapply Forall_impl; [exact G2|]. cbn. intros r' [? ?]. split; [done|].
      by eapply fixed_trans.
    + by eapply fixed_trans.
    + rewrite H6. by apply prefix_app.
    + intros Hr. destruct (G5 Hr) as [G6 G7]. by rewrite H6, G6.
  - injection E as <- <-. exists rows. split_and!; [done..| |done]. rewrite fmap_app. by apply prefix_app_r.
Qed.

Lemma stage_not_fixed : "upload_stage" ∉ fixed_columns /\ "upload_stage_finished_at" ∉ fixed_columns.
Proof. split; apply (bool_decide_unpack _); vm_compute; exact I. Qed.

Lemma assign_fixed (n : string) (c : cell) (r : row) : n ∉ fixed_columns -> fixed r (<[n := c]> r).
Proof. intros Hn n' Hn'. apply field_insert_ne. by intros ->. Qed.

Section Trace.
Context (e : pipeline_env).

Lemma commit_runs (st : string) : runs st st (commit e) [st].
Proof.
  intros s r s' Hst E. unfold commit in E.
  destruct (pe_commit e _); cbn [andb] in E;
    [destruct (forallb _ firmware_columns) eqn:Ec|]; injection E as <- <-; cbn.
  - assert (Hc : cells_ok (p_row s)).
    { intros n col Hn%dict_get_elem. rewrite forallb_forall in Ec. by apply (Ec (n, col)), list_elem_of_In. }
    exists [p_row s]. cbn. rewrite Hst. by split_and!; [|apply Forall_singleton|..].
  - exists []. rewrite app_nil_r. split_and!; [done|constructor|done|by exists [CText st]|done].
  - exists []. rewrite app_nil_r. split_and!; [done|constructor|done|by exists [CText st]|done].
Qed.

Lemma assign_stage_runs (st st' : string) : runs st st' (assign "upload_stage" (CText st')) [].
Proof.
  intros s r s' Hst [= <- <-]. exists []. cbn. rewrite app_nil_r. split_and!; [done|constructor| |done|].
  - apply assign_fixed, stage_not_fixed.
  - intros _. split; [done|]. apply field_insert_eq.
Qed.

Lemma enter_stage_runs (st st' : string) : runs st st' (enter_stage e true st') [st'].
Proof. apply (runs_bind st st' st' _ _ [] [st']); [apply assign_stage_runs|intros _; apply commit_runs]. Qed.

Lemma assign_runs (st n : string) (c : cell) :
  n ∉ fixed_columns -> n <> "upload_stage" -> runs st st (assign n c) [].
Proof.
  intros Hn Hs s r s' Hst [= <- <-]. exists []. cbn. rewrite app_nil_r.
  split_and!; [done|constructor|by apply assign_fixed|done|]. intros _. split; [done|].
  unfold stage in *. by rewrite field_insert_ne.
Qed.

Lemma spawn_eq (s : pstate) :
  spawn_detection e s =
    if truthy (text_of (field s.(p_row) "extracted_path"))
    then match pe_spawn e with Ok _ => mark_spawned s | Err x => (Err x, s) end else (Ok (), s).
Proof.
  unfold spawn_detection, get_row, lift, mbind, m_bind. destruct (truthy (text_of (field (p_row s) _))); [|reflexivity].
  by destruct (pe_spawn e).
Qed.

Lemma spawn_runs (st : string) : runs st st (spawn_detection e) [].
Proof.
  intros s r s' Hst E. assert (H : p_commits s' = p_commits s /\ p_row s' = p_row s).
  { rewrite spawn_eq in E. destruct (truthy _); [destruct (pe_spawn e)|]; by injection E as <- <-. }
  destruct H as [-> ->]. exists []. rewrite app_nil_r. split_and!; [done|constructor|done|done|done].
Qed.

Lemma ready_runs (st : string) :
  runs st "ready" (_ ← assign "upload_stage" (CText "ready");
                   _ ← assign "upload_stage_finished_at" (CTime (pe_now e));
                   _ ← commit e; spawn_detection e) ["ready"].
Proof.
  apply (runs_bind _ "ready" _ _ _ [] ["ready"]); [apply assign_stage_runs|intros _].
  apply (runs_bind _ "ready" _ _ _ [] ["ready"]); [by apply assign_runs; [apply stage_not_fixed|]|intros _].
  apply (runs_bind _ "ready" _ _ _ ["ready"] []); [apply commit_runs|intros _; apply spawn_runs].
Qed.

Definition all_stages : list string := ["detecting"; "detecting"; "extracting"; "analyzing"; "ready"].

Lemma pipeline_runs (st : string) : runs st "ready" (_post_process_pipeline e true) all_stages.
Proof.
  unfold _post_process_pipeline. apply (runs_bind _ st _ _ _ [] all_stages); [apply runs_quiet, quiet_get_row|intros r].
  cbv zeta. set (p := text_of (field r "storage_path")).
  apply (runs_bind _ "detecting" _ _ _ ["detecting"] _); [apply enter_stage_runs|intros _].
  apply (runs_bind _ "detecting" _ _ _ [] _); [apply runs_quiet, quiet_if; [apply detect_quiet|auto with quiet]|intros _].
  apply (runs_bind _ "detecting" _ _ _ ["detecting"] _); [apply commit_runs|intros _].
  apply (runs_bind _ "extracting" _ _ _ ["extracting"] _); [apply enter_stage_runs|intros _].
  apply (runs_bind _ "extracting" _ _ _ [] _); [apply runs_quiet, tar_quiet|intros _].
  apply (runs_bind _ "extracting" _ _ _ [] _); [apply runs_quiet, zip_quiet|intros _].
  apply (runs_bind _ "extracting" _ _ _ [] _); [apply runs_quiet, stamp_quiet|intros _].
  apply (runs_bind _ "analyzing" _ _ _ ["analyzing"] _); [apply enter_stage_runs|intros _].
  apply (runs_bind _ "analyzing" _ _ _ [] _); [apply runs_quiet, analyze_quiet|intros _]. apply ready_runs.
Qed.

(** ** The end of a run *)

Lemma bind_ok {A B} (m : M A) (f : A -> M B) (s s' : pstate) (b : B) :
  (m ≫= f) s = (Ok b, s') -> exists a s1, f a s1 = (Ok b, s').
Proof. unfold mbind, m_bind. destruct (m s) as [[a|x] s1]; [by exists a, s1|done]. Qed.

(** What holds when the pipeline returns: the last row committed is the one in the
    session, ready and with its time, and detection was started exactly if there is an
    extracted path. *)
Definition ended (s' : pstate) : Prop :=
  last s'.(p_commits) = Some s'.(p_row) /\ stage s'.(p_row) = CText "ready" /\
  field s'.(p_row) "upload_stage_finished_at" = CTime (pe_now e) /\
  (truthy (text_of (field s'.(p_row) "extracted_path")) = true -> s'.(p_spawned) = true).

Lemma ready_ended (s s' : pstate) :
  (_ ← assign "upload_stage" (CText "ready");
   _ ← assign "upload_stage_finished_at" (CTime (pe_now e));
   _ ← commit e; spawn_detection e) s = (Ok (), s') -> ended s'.
Proof.
  unfold mbind, m_bind, assign. cbn beta iota zeta. intros E.
  match type of E with context [commit e ?s0] => set (s1 := s0) in E end.
  assert (Hr : stage (p_row s1) = CText "ready" /\ field (p_row s1) "upload_stage_finished_at" = CTime (pe_now e)).
  { unfold stage. cbn [p_row s1]. by autorewrite with firmware. }
  destruct Hr as [Hr1 Hr2]. clearbody s1. unfold commit in E. destruct (_ && _); [|done].
  rewrite spawn_eq in E. cbn [p_row] in E. unfold ended. destruct (truthy _) eqn:Et.
  - destruct (pe_spawn e); [|done]. injection E as <-. cbn. by rewrite last_snoc.
  - injection E as <-. cbn [p_commits p_row]. by rewrite last_snoc, Et.
Qed.

Lemma pipeline_ended (s s' : pstate) : _post_process_pipeline e true s = (Ok (), s') -> ended s'.
Proof.
  unfold _post_process_pipeline. cbv zeta. intros H. do 10 apply bind_ok in H as (? & ? & H).
  by apply ready_ended in H.
Qed.
End Trace.

(** ** Runs from an uploaded row *)

Lemma pipeline_run_spec (u : runner_env) (r : row) :
  stage r = CText "detecting" ->
  let '(x, commits) := pipeline_run u r in
  Forall (fun r' => cells_ok r' /\ fixed r r') commits /\
  (stage <$> commits) `prefix_of` (CText <$> all_stages) /\
  (is_ok x = true -> stage <$> commits = CText <$> all_stages /\
     exists r', last commits = Some r' /\ stage r' = CText "ready" /\
       field r' "upload_stage_finished_at" = CTime (pe_now (ru_pipeline u))).
Proof.
  intros Hst. unfold pipeline_run. destruct (ru_load u).
  - destruct (_post_process_pipeline _ _ _) as [x s] eqn:E.
    destruct (pipeline_runs _ "detecting" (start r) x s Hst E) as (rows & H1 & H2 & _ & H4 & H5).
    cbn in H1. rewrite H1. split_and!; [done..|]. intros Hx. destruct (H5 Hx) as [H6 _]. split; [done|].
    destruct x as [[]|]; [|done]. destruct (pipeline_ended _ _ _ E) as (H7 & H8 & H9 & _). rewrite H1 in H7.
    by exists (p_row s).
  - split_and!; [constructor|apply prefix_nil|done].
Qed.

Lemma fail_row_spec (u : runner_env) (r : row) :
  stage (fail_row u r) = CText "failed" /\
  field (fail_row u r) "upload_stage_error" = CText (last_chars 2000 (ru_traceback u)) /\
  field (fail_row u r) "upload_stage_finished_at" = CTime (ru_fail_now u) /\
  (forall n, n ∉ ["upload_stage"; "upload_stage_error"; "upload_stage_finished_at"] -> field (fail_row u r) n = field r n).
Proof.
  unfold stage, fail_row. autorewrite with firmware. split_and!; [done..|]. intros n Hn.
  rewrite !field_insert_ne; [done|..]; intros <-; apply Hn; set_solver.
Qed.

Lemma cells_ok_insert (r : row) (n : string) (c : cell) : assign_ok n c = true -> cells_ok r -> cells_ok (<[n := c]> r).
Proof.
  intros Hn Hr n' col Hc. destruct (decide (n = n')) as [<-|Hne].
  - rewrite field_insert_eq. unfold assign_ok in Hn. by rewrite Hc in Hn.
  - rewrite field_insert_ne by done. by apply Hr.
Qed.

Lemma fail_row_ok (u : runner_env) (r : row) : cells_ok r -> cells_ok (fail_row u r).
Proof. intros Hr. by do 3 (apply cells_ok_insert; [by vm_compute|]). Qed.

(** Columns that no part of a run writes: the fixed ones but for the error. *)
Definition kept_columns : list string :=
  ["id"; "project_id"; "original_filename"; "sha256"; "file_size"; "storage_path"; "version_label";
   "upload_stage_started_at"].

Definition kept (r r' : row) : Prop := forall n, n ∈ kept_columns -> field r' n = field r n.

Lemma fixed_kept (r r' : row) : fixed r r' -> kept r r'.
Proof. intros H n Hn. apply H. revert Hn. unfold kept_columns, fixed_columns. set_solver. Qed.

Lemma fail_row_kept (u : runner_env) (r r' : row) : kept r r' -> kept r (fail_row u r').
Proof.
  intros H n Hn. rewrite (proj2 (proj2 (proj2 (fail_row_spec u r')))); [by apply H|].
  revert Hn. unfold kept_columns. set_solver.
Qed.

(** The rows a run leaves in the table, each of them one a crash can leave for good. *)
Lemma upload_history_spec (u : runner_env) (r : row) :
  stage r = CText "detecting" -> cells_ok r ->
  Forall (fun r' => cells_ok r' /\ kept r r' /\ text_in (stage r') ("failed" :: all_stages) = true) (upload_history u r).
Proof.
  intros Hst Hok. pose proof (pipeline_run_spec u r Hst) as H. unfold upload_history.
  destruct (pipeline_run u r) as [x commits]. destruct H as (H1 & H2 & _).
  assert (Hc : Forall (fun r' => cells_ok r' /\ kept r r' /\ text_in (stage r') ("failed" :: all_stages) = true) commits).
  { apply Forall_forall. intros r' Hr'. rewrite Forall_forall in H1. destruct (H1 r' Hr') as [? ?].
    split_and!; [done|by apply fixed_kept|]. destruct H2 as [k Hk].
    assert (Hin : stage r' ∈ CText <$> all_stages).
    { rewrite Hk. apply elem_of_app. left. by apply list_elem_of_fmap_2. }
    apply list_elem_of_fmap in Hin as (st & -> & Hin). cbn. apply bool_decide_eq_true_2. by right. }
  apply Forall_app. split; [done|]. destruct x; [constructor|]. destruct (ru_fail u); [|constructor].
  apply Forall_singleton. assert (Hl : cells_ok (default r (last commits)) /\ kept r (default r (last commits))).
  { destruct (last commits) as [r'|] eqn:El; [|by split]. apply last_Some_elem_of in El.
    rewrite Forall_forall in Hc. by destruct (Hc r' El) as (? & ? & _). }
  destruct Hl. split_and!; [by apply fail_row_ok|by apply fail_row_kept|].
  by rewrite (proj1 (fail_row_spec u _)).
Qed.

Lemma foldl_insert (id : Z) (l : list row) (db : gmap Z row) :
  foldl (fun db r => <[id := r]> db) db l = match last l with Some r => <[id := r]> db | None => db end.
Proof.
  induction l as [|r l IH] using rev_ind; [done|]. rewrite foldl_app, last_snoc, IH. cbn.
  destruct (last l); [apply insert_insert_eq|done].
Qed.

(** C7. The background runner settles every upload: it goes through the five commits of
    its stages in order, or through some of them and then the failure; in either case the
    row it leaves is ready or failed, with the time, an error of at most two thousand
    characters when it failed, and the identity, file and digest of the upload as they
    were, provided the session that records a failure goes through. *)
Theorem upload_run_settles (u : runner_env) (id : Z) (r : row) (db : gmap Z row) :
  db !! id = Some r -> stage r = CText "detecting" -> cells_ok r -> ru_fail u = true ->
  exists r', _run_upload_post_processing_background id u db = <[id := r']> db /\ cells_ok r' /\ kept r r' /\
    ((stage <$> upload_history u r = CText <$> all_stages /\ stage r' = CText "ready" /\
      field r' "upload_stage_finished_at" = CTime (pe_now (ru_pipeline u)))
     \/
     (exists stages, stages `prefix_of` all_stages /\
      stage <$> upload_history u r = (CText <$> (stages ++ ["failed"])) /\ stage r' = CText "failed" /\
      field r' "upload_stage_finished_at" = CTime (ru_fail_now u) /\
      exists err, field r' "upload_stage_error" = CText err /\ py_len err <= 2000)).
Proof.
  intros Hdb Hst Hok Hfail. pose proof (upload_history_spec u r Hst Hok) as Hh.
  pose proof (pipeline_run_spec u r Hst) as H. unfold _run_upload_post_processing_background.
  rewrite Hdb, foldl_insert. unfold upload_history in *. destruct (pipeline_run u r) as [x commits].
  destruct H as (_ & [k Hk] & Hx). destruct x as [a|x].
  - destruct (Hx eq_refl) as (Hs & r' & Hl & Hr & Hf). rewrite app_nil_r in *. rewrite Hl. exists r'.
    apply last_Some_elem_of in Hl. rewrite Forall_forall in Hh. destruct (Hh r' Hl) as (? & ? & _).
    split_and!; [done..|by left].
  - rewrite Hfail in *. rewrite last_snoc. set (r' := fail_row u _) in *. exists r'.
    rewrite Forall_app, Forall_singleton in Hh. destruct Hh as (_ & ? & ? & _).
    split_and!; [done..|right].
    destruct (fail_row_spec u (default r (last commits))) as (F1 & F2 & F3 & _). fold r' in F1, F2, F3.
    destruct (fmap_app_inv _ _ _ _ Hk) as (st & st' & E1 & E2 & E3).
    exists st. split; [by exists st'|]. rewrite !fmap_app, E1. cbn. rewrite F1.
    split_and!; [done..|]. eexists. split; [exact F2|]. by apply last_chars_bound.
Qed.

Lemma upload_owner : owner 0 "upload_stage" reaper_configs = Some (14%nat, upload_config).
Proof. vm_compute. reflexivity. Qed.

Lemma upload_error_owner : owner 0 "upload_stage_error" reaper_configs = Some (14%nat, upload_config).
Proof. vm_compute. reflexivity. Qed.

Lemma upload_where (now t : Z) (r : row) :
  field r "upload_stage_started_at" = CTime t -> t < cutoff now 15 ->
  reap_where now upload_config r = text_in (stage r) ["detecting"; "extracting"; "analyzing"].
Proof.
  intros Ht Hlt. unfold reap_where.
  change (given (started_at_column upload_config)) with (Some "upload_stage_started_at").
  change (grace_minutes upload_config) with (Some 15). cbv iota beta. rewrite Ht.
  change (column_name upload_config) with "upload_stage".
  change (in_progress_states upload_config) with ["detecting"; "extracting"; "analyzing"].
  by rewrite (bool_decide_eq_true_2 (t < _)), andb_true_r.
Qed.

Lemma upload_values (now : Z) (c d : cell) :
  default c (dict_get "upload_stage" (reap_values now upload_config)) = CText "failed" /\
  default d (dict_get "upload_stage_error" (reap_values now upload_config)) =
    CText "Backend restarted; upload runner state lost".
Proof. split; vm_compute; reflexivity. Qed.

Lemma swept_upload (evs : nat -> reap_event) (r : row) (t : Z) :
  (forall k, (evs k).(ev_db_ok) = true) -> field r "upload_stage_started_at" = CTime t ->
  t < cutoff (evs 14%nat).(ev_now) 15 ->
  let swept := reap_row_from 0 evs reaper_configs r in
  if text_in (stage r) ["detecting"; "extracting"; "analyzing"]
  then stage swept = CText "failed" /\
       field swept "upload_stage_error" = CText "Backend restarted; upload runner state lost"
  else stage swept = stage r /\ field swept "upload_stage_error" = field r "upload_stage_error".
Proof.
  intros Hdb Ht Hlt. cbn zeta. unfold stage at 2 3 4.
  rewrite !(reap_row_from_spec evs reaper_configs 0 r _ Hdb (proj1 reaper_configs_ok) (proj2 reaper_configs_ok)).
  unfold reaped. rewrite upload_owner, upload_error_owner. rewrite (upload_where _ t) by done.
  destruct (text_in _ _); [apply upload_values|by split].
Qed.

(** Wherever the back end stops during a run, the row it leaves is settled by the next
    start: once the upload is fifteen minutes old, a sweep whose statements succeed turns
    a row still in a stage of the pipeline into a failure that says so, and keeps the
    stage and the error of one that had ended. *)
Theorem upload_crash_swept (u : runner_env) (r r' : row) (evs : nat -> reap_event) (t : Z) :
  stage r = CText "detecting" -> cells_ok r -> r' ∈ r :: upload_history u r ->
  field r "upload_stage_started_at" = CTime t -> (forall k, (evs k).(ev_db_ok) = true) ->
  t < cutoff (evs 14%nat).(ev_now) 15 ->
  exists swept, reaper_sweep evs [r'] = [swept] /\
    if text_in (stage r') ["ready"; "failed"]
    then stage swept = stage r' /\ field swept "upload_stage_error" = field r' "upload_stage_error"
    else stage swept = CText "failed" /\
         field swept "upload_stage_error" = CText "Backend restarted; upload runner state lost".
Proof.
  intros Hst Hok Hr' Ht Hdb Hlt. exists (reap_row_from 0 evs reaper_configs r').
  split; [apply (reaper_sweep_rows evs [r'])|].
  assert (H : kept r r' /\ text_in (stage r') ("failed" :: all_stages) = true).
  { apply elem_of_cons in Hr' as [->|Hr']; [by rewrite Hst|].
    pose proof (upload_history_spec u r Hst Hok) as Hh. rewrite Forall_forall in Hh.
    by destruct (Hh r' Hr') as (_ & ? & ?). }
  destruct H as [Hk Hs]. assert (Ht' : field r' "upload_stage_started_at" = CTime t).
  { rewrite Hk; [exact Ht|]. unfold kept_columns. set_solver. }
  pose proof (swept_upload evs r' t Hdb Ht' Hlt) as Hsw. cbn zeta in Hsw.
  set (swept := reap_row_from 0 evs reaper_configs r') in *. clearbody swept.
  apply text_in_true in Hs as (s & Es & Hs). rewrite Es in *. clear -Hs Hsw.
  unfold all_stages in Hs. rewrite !elem_of_cons in Hs.
  destruct Hs as [->|[->|[->|[->|[->|[->|Hs]]]]]]; [exact Hsw..|by apply not_elem_of_nil in Hs].
Qed.

(** ** Concrete runs *)

Definition demo_row : row :=
  <["upload_stage_started_at" := CTime 0]> (<["upload_stage" := CText "detecting"]>
  (<["storage_path" := CText "/data/projects/7/firmware/1/fw.zip"]>
  (<["original_filename" := CText "fw.zip"]> new_row))).

Lemma demo_row_ok : cells_ok demo_row.
Proof. refine (proj1 (row_okb_sound demo_row _)). vm_compute. reflexivity. Qed.

Definition demo_tar : tar_env :=
  {| te_is_tarfile := Ok false; te_extract := Ok (); te_widen := Ok (); te_root := Ok None; te_dense := Ok false;
     te_nested := Ok []; te_widen_nested := Ok (); te_strict := Ok None |}.

Definition demo_zip (names : list string) (extract unpack : res exc ()) (root : option string) : zip_env :=
  {| ze_is_zipfile := Ok true; ze_names := Ok names; ze_extract := extract; ze_remove := true; ze_widen := Ok ();
     ze_root := Ok root; ze_unpack := unpack; ze_nested := Ok (); ze_widen_contents := Ok ();
     ze_diagnose := Ok [] |}.

Definition demo_pipeline (z : zip_env) : pipeline_env :=
  {| pe_detect := Ok "zip"; pe_tar := demo_tar; pe_zip := z;
     pe_analysis := {| ae_arch := Ok (Some "arm", Some "little"); ae_os_info := Ok None; ae_kernel := Err OSError;
                       ae_roots := Ok [] |};
     pe_commit := fun _ => true; pe_now := 9000000; pe_spawn := Ok () |}.

Definition demo_runner (z : zip_env) : runner_env :=
  {| ru_load := true; ru_pipeline := demo_pipeline z; ru_traceback := "Traceback"; ru_fail := true;
     ru_fail_now := 9000001 |}.

Definition demo_run (z : zip_env) : res exc () * pstate := _post_process_pipeline (demo_pipeline z) true (start demo_row).

(** With two directories of a root file system a ZIP is neither unpacked as one nor
    unpacked for browsing. *)
Example two_marker_zip :
  let '(r, s) := demo_run (demo_zip ["etc/passwd"; "bin/sh"] (Ok ()) (Ok ()) None) in
  r = Ok () /\ stage s.(p_row) = CText "ready" /\ field s.(p_row) "extracted_path" = CNull /\ s.(p_archive) = true.
Proof. by vm_compute. Qed.

(** A generic ZIP: an error of the archive is tolerated, another one fails the upload; a
    failure of the analysis after a step keeps what that step found. *)
Example generic_zip_ex :
  let run unpack := demo_run (demo_zip ["a.bin"; "b.bin"] (Ok ()) unpack None) in
  (run (Ok ())).1 = Ok () /\
  field (run (Ok ())).2.(p_row) "extracted_path" = CText "/data/projects/7/firmware/1/zip_contents" /\
  field (run (Ok ())).2.(p_row) "architecture" = CText "arm" /\
  field (run (Ok ())).2.(p_row) "device_metadata" = CNull /\
  (run (Ok ())).2.(p_spawned) = true /\
  (run (Err BadZipFile)).1 = Ok () /\ field (run (Err BadZipFile)).2.(p_row) "extracted_path" = CNull /\
  (run (Err OtherException)).1 = Err OtherException.
Proof. by vm_compute. Qed.

Definition demo_failing : runner_env := demo_runner (demo_zip ["a.bin"] (Ok ()) (Err OtherException) None).

Lemma upload_run_settles_witness :
  let u := demo_failing in
  exists r', _run_upload_post_processing_background 1 u {[ 1 := demo_row ]} = <[1 := r']> {[ 1 := demo_row ]} /\
    cells_ok r' /\ kept demo_row r' /\
    ((stage <$> upload_history u demo_row = CText <$> all_stages /\ stage r' = CText "ready" /\
      field r' "upload_stage_finished_at" = CTime (pe_now (ru_pipeline u)))
     \/
     (exists stages, stages `prefix_of` all_stages /\
      stage <$> upload_history u demo_row = (CText <$> (stages ++ ["failed"])) /\ stage r' = CText "failed" /\
      field r' "upload_stage_finished_at" = CTime (ru_fail_now u) /\
      exists err, field r' "upload_stage_error" = CText err /\ py_len err <= 2000)).
Proof.
  apply (upload_run_settles demo_failing 1 demo_row {[ 1 := demo_row ]});
    [apply lookup_singleton_eq|reflexivity|exact demo_row_ok|reflexivity].
Defined.

(** A run cut after its third commit. *)
Definition demo_crashed : row := default demo_row (upload_history demo_failing demo_row !! 2%nat).

Lemma demo_crashed_in : demo_crashed ∈ demo_row :: upload_history demo_failing demo_row.
Proof.
  right. apply (list_elem_of_lookup_2 _ 2). unfold demo_crashed.
  assert (H : (2 < List.length (upload_history demo_failing demo_row))%nat) by (vm_compute; repeat constructor).
  apply lookup_lt_is_Some_2 in H as [r ->]. reflexivity.
Qed.

Lemma upload_crash_swept_witness :
  stage demo_crashed = CText "extracting" /\
  exists swept, reaper_sweep (restart_at 3600000000) [demo_crashed] = [swept] /\
    if text_in (stage demo_crashed) ["ready"; "failed"]
    then stage swept = stage demo_crashed /\ field swept "upload_stage_error" = field demo_crashed "upload_stage_error"
    else stage swept = CText "failed" /\
         field swept "upload_stage_error" = CText "Backend restarted; upload runner state lost".
Proof.
  split; [vm_compute; reflexivity|].
  apply (upload_crash_swept demo_failing demo_row demo_crashed (restart_at 3600000000) 0);
    [reflexivity|exact demo_row_ok|exact demo_crashed_in|reflexivity|reflexivity|reflexivity].
Defined.
