(* ===== verification/RootSearch.v ===== *)
(** * The search for the root file system ([workers/unpack_common.py])

    What happens on an extracted tree before it is analysed: the test for a wrapper of
    nested archives, the expansion of those archives, and the search for the directory
    that is the root file system.  The first two never follow links and are functions on
    trees; the search asks the operating system ([os]) and walks the list that [os.walk]
    yields. *)

From S2P Require Import Prelude PyText PosixPath Json FirmwareModel VirtualFs DetectLinux Sorting UploadStore UploadPipeline.
From Stdlib Require Import Ascii String.
Import (notations) Ascii String.
#[local] Open Scope Z_scope.

(** ** Tables *)

Definition _NESTED_ARCHIVE_SUFFIXES : list string :=
  [".tar.md5"; ".tar.gz"; ".tar.xz"; ".tar.bz2"; ".tar.lz4"; ".tar"; ".zip"; ".lz4"; ".apex"; ".img"].

Definition _SIDECAR_SUFFIXES : list string :=
  [".md5"; ".md5sum"; ".sha"; ".sha1"; ".sha256"; ".sha512"; ".sig"; ".asc"; ".gpg"; ".pgp"; ".manifest";
   ".crt"; ".der"; ".pem"].

Definition _ROOTFS_MARKER_DIRS : list string :=
  ["bin"; "etc"; "usr"; "lib"; "lib64"; "var"; "sbin"; "dev"; "proc"; "sys"; "tmp"; "boot"; "root"; "home"; "opt";
   "media"; "mnt"; "run"; "system"; "vendor"; "product"; "system_ext"; "apex"; "data"].

Definition _is_sidecar_filename (name : string) : bool := existsb (endswith (lower name)) _SIDECAR_SUFFIXES.

Definition _looks_like_archive_filename (name : string) : bool :=
  existsb (endswith (lower name)) _NESTED_ARCHIVE_SUFFIXES.

(** ** Trees *)

(** A regular file with its size, unless [stat] fails; a directory with its entries in the
    order of [os.scandir], unless that fails; a link, with whether its target exists; or
    something else. *)
Inductive node :=
  | NFile (size : option Z)
  | NDir (entries : option (list (string * node)))
  | NLink (live : bool)
  | NOther.

Section NodeInd.
Context (P : node -> Prop) (file : forall s, P (NFile s)) (unlisted : P (NDir None))
  (dir : forall l, Forall (fun e => P e.2) l -> P (NDir (Some l))) (link : forall b, P (NLink b)) (other : P NOther).

Fixpoint node_induction (n : node) : P n :=
  match n with
  | NFile s => file s
  | NDir None => unlisted
  | NDir (Some l) =>
      dir l ((fix go (l : list (string * node)) : Forall (fun e => P e.2) l :=
                match l with
                | [] => Forall_nil_2 _
                | e :: l => Forall_cons_2 (fun e => P e.2) e l (node_induction e.2) (go l)
                end) l)
  | NLink b => link b
  | NOther => other
  end.
End NodeInd.

Definition is_dir_node (n : node) : bool := match n with NDir _ => true | _ => false end.
Definition is_file_node (n : node) : bool := match n with NFile _ => true | _ => false end.

(** ** [_is_archive_dense_layout] *)

Definition min_archive_size_bytes : Z := 1 * 1024 * 1024.

(** The names of the directories, in lower case. *)
Definition top_dir_names (entries : list (string * node)) : list string :=
  (fun e => lower e.1) <$> List.filter (fun e => is_dir_node e.2) entries.

Definition markers_present (entries : list (string * node)) : Z :=
  zlen (List.filter (fun m => bool_decide (m ∈ top_dir_names entries)) _ROOTFS_MARKER_DIRS).

(** The three totals of the loop over the files. *)
Record totals := { archive_bytes : Z; non_sidecar_bytes : Z; max_archive_size : Z }.

Definition count_file (t : totals) (e : string * node) : totals :=
  match e.2 with
  | NFile (Some size) =>
      if _is_sidecar_filename e.1 then t
      else
        let n := t.(non_sidecar_bytes) + size in
        if _looks_like_archive_filename e.1
        then {| archive_bytes := t.(archive_bytes) + size; non_sidecar_bytes := n;
                max_archive_size := if t.(max_archive_size) <? size then size else t.(max_archive_size) |}
        else {| archive_bytes := t.(archive_bytes); non_sidecar_bytes := n; max_archive_size := t.(max_archive_size) |}
  | _ => t
  end.

Definition file_totals (entries : list (string * node)) : totals :=
  foldl count_file {| archive_bytes := 0; non_sidecar_bytes := 0; max_archive_size := 0 |} entries.

(** [fraction >= 0.70] of a quotient of integers, exact as long as the sizes stay below
    10^14. *)
Definition dense_fraction (t : totals) : bool := 7 * t.(non_sidecar_bytes) <=? 10 * t.(archive_bytes).

(** The files of one directory say it is a wrapper. *)
Definition dense_here (entries : list (string * node)) : bool :=
  let t := file_totals entries in
  (0 <? t.(non_sidecar_bytes)) && (min_archive_size_bytes <=? t.(max_archive_size)) && dense_fraction t.

(** [_probe_subdirs_for_archive_density] and its caller call each other, so the probe goes
    down as long as directories hold nothing but directories. *)
Fixpoint _is_archive_dense_layout (n : node) : bool :=
  match n with
  | NDir (Some entries) =>
      if 2 <=? markers_present entries then false
      else if dense_here entries then true
      else
        (** [_probe_subdirs_for_archive_density] *)
        let subdirs := zlen (List.filter (fun e => is_dir_node e.2) entries) in
        if existsb (fun e => is_file_node e.2) entries || (subdirs =? 0) then false
        else if 8 <? subdirs then false
        else existsb (fun e => _is_archive_dense_layout e.2) entries
  | _ => false
  end.

Definition file (name : string) (size : Z) : string * node := (name, NFile (Some size)).
Definition dir (name : string) (entries : list (string * node)) : string * node := (name, NDir (Some entries)).

Example dense_ex :
  _is_archive_dense_layout (NDir (Some [file "a.tar.gz" 2000000; file "a.tar.gz.md5" 60; file "notes" 100])) = true /\
  _is_archive_dense_layout (NDir (Some [dir "payloads" [file "b.zip" 1048576]])) = true /\
  _is_archive_dense_layout (NDir (Some [dir "payloads" [file "b.zip" 1048575]])) = false /\
  _is_archive_dense_layout (NDir (Some [dir "bin" []; dir "etc" []; file "b.zip" 1048576])) = false /\
  _is_archive_dense_layout (NDir (Some [file "AP_x.tar.md5" 4000000000])) = false.
Proof. by vm_compute. Qed.

(** ** [_recursive_extract_nested] *)

(** What [_extract_single_archive] does with an archive: it returns True or False and
    leaves a directory, or it raises and the directory is removed again. *)
Inductive extraction := Extracted (contents : list (string * node)) | Declined (left : list (string * node)) | Raised.

Definition matched_suffix (name : string) : option string :=
  find (endswith (lower name)) _NESTED_ARCHIVE_SUFFIXES.

Definition out_name (name : string) : string := name +:+ "_extracted".

(** What a visit makes of an entry: left alone, a directory to descend into, or a new one. *)
Inductive mark := Leave | Sub | New.

Section Nested.
(** By path and suffix of the archive. *)
Context (extract : string -> string -> extraction).

Definition name_taken (name : string) (entries : list (string * node)) : bool :=
  existsb (fun e => bool_decide (e.1 = name)) entries.

(** One turn of the loop.  If the output directory exists the archive is skipped; if a
    broken link has its name, [os.makedirs] raises and it is skipped as well.  A new
    directory is listed after its archive. *)
Definition visit_entry (current : string) (entries : list (string * node)) (e : string * node)
    : list ((string * node) * mark) :=
  match e.2 with
  | NDir _ => [(e, Sub)]
  | NFile _ =>
      match matched_suffix e.1 with
      | None => [(e, Leave)]
      | Some suffix =>
          if name_taken (out_name e.1) entries then [(e, Leave)]
          else match extract (path_join current e.1) suffix with
               | Extracted l => [(e, Leave); ((out_name e.1, NDir (Some l)), New)]
               | Declined l => [(e, Leave); ((out_name e.1, NDir (Some l)), Leave)]
               | Raised => [(e, Leave)]
               end
      end
  | _ => [(e, Leave)]
  end.

Definition visit (current : string) (entries : list (string * node)) : list ((string * node) * mark) :=
  entries ≫= visit_entry current entries.

(** [todo] is [max_depth - depth].  The tree afterwards and the paths of the new
    directories, in the order in which they are appended: those of a directory first, then
    those of its children. *)
Fixpoint _recursive_extract_nested_inner (todo : nat) (current : string) (n : node) : node * list string :=
  match todo, n with
  | S todo, NDir (Some entries) =>
      let visited := visit current entries in
      let children :=
        (fun v => match v.2 with
                  | Leave => (v.1, [])
                  | Sub | New =>
                      let '(child, more) := _recursive_extract_nested_inner todo (path_join current v.1.1) v.1.2 in
                      ((v.1.1, child), more)
                  end) <$> visited in
      (NDir (Some children.*1),
       ((fun v => path_join current v.1.1) <$> List.filter (fun v => match v.2 with New => true | _ => false end) visited)
         ++ mjoin children.*2)%list
  | _, _ => (n, [])
  end.

Definition _recursive_extract_nested (root : string) (max_depth : nat) (n : node) : node * list string :=
  _recursive_extract_nested_inner max_depth root n.
End Nested.

Example nested_ex :
  let extract p s := if bool_decide (p = "/r/a.zip") then Extracted [file "b.tar" 5; file "c.txt" 1]
                     else if bool_decide (p = "/r/a.zip_extracted/b.tar") then Extracted [file "d.img" 1]
                     else if bool_decide (s = ".img") then Declined [] else Raised in
  let '(t, new) := _recursive_extract_nested extract "/r" 3 (NDir (Some [file "a.zip" 9; file "bad.TAR" 9])) in
  new = ["/r/a.zip_extracted"; "/r/a.zip_extracted/b.tar_extracted"] /\
  _recursive_extract_nested extract "/r" 3 t = (t, []) /\
  (_recursive_extract_nested extract "/r" 1 (NDir (Some [file "a.zip" 9]))).2 = ["/r/a.zip_extracted"].
Proof. by vm_compute. Qed.

(** ** Images: [_extract_img_recursive] and [_file_looks_like_fs_image] *)

Definition _ANDROID_SPARSE_MAGIC : bytes := Eval vm_compute in (byte_of_Z <$> [0x3a; 0xff; 0x26; 0xed]).
Definition _EXT4_MAGIC_OFFSET : Z := 1080.
Definition _EXT4_MAGIC : bytes := Eval vm_compute in (byte_of_Z <$> [0x53; 0xef]).
Definition _GPT_MAGIC : bytes := bs "EFI PART".
Definition _BOOT_ANDROID_MAGIC : bytes := bs "ANDROID!".
Definition _IMG_RECURSE_MIN_SIZE : Z := 1024 * 1024.

(** Which tool an image goes to; [Skip]: the function returns False. *)
Inductive img_action := Simg2img | Unblob | Skip.

(** By the contents and the size of the file; a file that cannot be opened is [None]. *)
Definition _extract_img_recursive (contents : option bytes) (size : Z) : img_action :=
  match contents with
  | None => Skip
  | Some data =>
      let head := ztake 8192 data in
      if bool_decide (ztake 4 head = _ANDROID_SPARSE_MAGIC) then Simg2img
      else if bool_decide (ztake 8 head = _BOOT_ANDROID_MAGIC) then Unblob
      else if bool_decide (zslice (_EXT4_MAGIC_OFFSET - 2) _EXT4_MAGIC_OFFSET data = _EXT4_MAGIC) then Unblob
      else if bool_decide (zslice 512 520 data = _GPT_MAGIC) then Unblob
      else if size <? _IMG_RECURSE_MIN_SIZE then Skip else Unblob
  end.

Definition fs_magics : list bytes :=
  Eval vm_compute in [bs "hsqs"; bs "sqsh"; bs "UBI!"; byte_of_Z <$> [0x45; 0x3d; 0xcd; 0x28]].
Definition jffs2_magics : list bytes :=
  Eval vm_compute in [byte_of_Z <$> [0x19; 0x85]; byte_of_Z <$> [0x85; 0x19]].
Definition fat_names : list bytes := [bs "FAT12"; bs "FAT16"; bs "FAT32"].

Definition _file_looks_like_fs_image (contents : option bytes) : bool :=
  match contents with
  | None => false
  | Some data =>
      let head := ztake 4 data in
      bool_decide (head ∈ fs_magics) || bool_decide (ztake 2 head ∈ jffs2_magics) ||
      existsb (fun offset => existsb (fun t => prefixb t (zslice offset (offset + 8) data)) fat_names) [54; 82] ||
      bool_decide (zslice 0x438 (0x438 + 2) data = _EXT4_MAGIC)
  end.

(** ** [find_filesystem_root] *)

Section Search.
Context (fs : os) (content : string -> option bytes).
(** [os.walk]: the directories from the top down, each with the number of its entries. *)
Context (walk : string -> list (string * Z)).

Definition _dir_has_filesystem_image (path : string) : bool :=
  match fs.(scandir) path with
  | None => false
  | Some entries =>
      existsb (fun e => d_is_file e && _file_looks_like_fs_image (content (path_join path (d_name e)))) entries
  end.

Definition _has_linux_markers (path : string) : bool :=
  match listdir fs path with
  | None => false
  | Some all_entries =>
      let has n := bool_decide (n ∈ all_entries) in
      if (has "etc" || has "etc_ro") && (has "usr" || has "bin") then true
      else has "system" &&
           ((fs.(isdir) (path_join path "system") &&
             bool_decide ("build.prop" ∈ default [] (listdir fs (path_join path "system"))))
            || has "vendor" || has "product")
  end.

(** The first of etc and etc_ro that can be listed, directly or as an absolute link below
    [path]. *)
Definition etc_count_of (path name : string) : option Z :=
  let etc_path := path_join path name in
  match (if fs.(isdir) etc_path then listdir fs etc_path else None) with
  | Some l => Some (zlen l)
  | None =>
      match fs.(readlink) etc_path with
      | Some target =>
          if startswith target "/" then
            let relative_target := path_join path (lstrip_char slash target) in
            if fs.(isdir) relative_target then zlen <$> listdir fs relative_target else None
          else None
      | None => None
      end
  end.

Definition _etc_entry_count (path : string) : Z :=
  match etc_count_of path "etc" with
  | Some n => n
  | None => default 0 (etc_count_of path "etc_ro")
  end.

Definition root_priority (root : string) : Z :=
  let entries := default [] (listdir fs root) in
  let has n := bool_decide (n ∈ entries) in
  if has "init" && has "system" && (has "bin" || has "apex") then 20
  else if bool_decide (basename root ∈ _FS_ROOT_NAMES) then 10 else 0.

Record root_candidate := { rc_root : string; rc_priority : Z; rc_etc : Z; rc_total : Z }.

Definition root_candidate_of (root : string) : option root_candidate :=
  if _has_linux_markers root
  then Some {| rc_root := root; rc_priority := root_priority root; rc_etc := _etc_entry_count root;
               rc_total := zlen (default [] (listdir fs root)) |}
  else None.

(** The tuples compare lexicographically. *)
Definition candidate_ltb (a b : root_candidate) : bool :=
  (a.(rc_priority) <? b.(rc_priority)) ||
  ((a.(rc_priority) =? b.(rc_priority)) &&
   ((a.(rc_etc) <? b.(rc_etc)) || ((a.(rc_etc) =? b.(rc_etc)) && (a.(rc_total) <? b.(rc_total))))).

(** The order of [sort(reverse=True)], which keeps equal elements as they are. *)
Definition candidate_ge (a b : root_candidate) : Prop := candidate_ltb a b = false.

#[export] Instance candidate_ge_dec : RelDecision candidate_ge.
Proof. intros a b. unfold candidate_ge. apply _. Defined.

Definition find_filesystem_root_strict (extraction_dir : string) : option string :=
  let candidates := omap (fun w => root_candidate_of w.1) (walk extraction_dir) in
  rc_root <$> head (sort_by candidate_ge candidates).

(** The first directory with the most entries. *)
Definition fullest (l : list (string * Z)) : option string * Z :=
  foldl (fun best w => if best.2 <? w.2 then (Some w.1, w.2) else best) (None, 0) l.

Definition find_filesystem_root (extraction_dir : string) : option string :=
  match find_filesystem_root_strict extraction_dir with
  | Some root => Some root
  | None =>
      match (fullest (walk extraction_dir)).1 with
      | Some best => if truthy (Some best) && _dir_has_filesystem_image best then None else Some best
      | None => None
      end
  end.
End Search.

(** ** The directory found *)

Lemma candidate_ltb_spec (a b : root_candidate) :
  candidate_ltb a b = true <->
    a.(rc_priority) < b.(rc_priority) \/
    (a.(rc_priority) = b.(rc_priority) /\
      (a.(rc_etc) < b.(rc_etc) \/ (a.(rc_etc) = b.(rc_etc) /\ a.(rc_total) < b.(rc_total)))).
Proof. unfold candidate_ltb. rewrite !orb_true_iff, !andb_true_iff, orb_true_iff, andb_true_iff, !Z.ltb_lt, !Z.eqb_eq. lia. Qed.

Lemma candidate_ge_spec (a b : root_candidate) :
  candidate_ge a b <->
    ~ (a.(rc_priority) < b.(rc_priority) \/
       (a.(rc_priority) = b.(rc_priority) /\
         (a.(rc_etc) < b.(rc_etc) \/ (a.(rc_etc) = b.(rc_etc) /\ a.(rc_total) < b.(rc_total))))).
Proof. unfold candidate_ge. rewrite <- candidate_ltb_spec. by destruct (candidate_ltb a b). Qed.

#[export] Instance candidate_ge_trans : Transitive candidate_ge.
Proof. intros a b c. rewrite !candidate_ge_spec. lia. Qed.

#[export] Instance candidate_ge_total : Total candidate_ge.
Proof. intros a b. rewrite !candidate_ge_spec. lia. Qed.

(** [x] is the first element of the largest count. *)
Definition first_largest (l : list (string * Z)) (d : string) (n : Z) : Prop :=
  exists l1 l2, l = (l1 ++ (d, n) :: l2)%list /\ 0 < n /\ Forall (fun w => w.2 < n) l1 /\ Forall (fun w => w.2 <= n) l2.

Lemma fullest_spec (l : list (string * Z)) :
  match fullest l with
  | (Some d, n) => first_largest l d n
  | (None, n) => n = 0 /\ Forall (fun w => w.2 <= 0) l
  end.
Proof.
  unfold fullest. induction l as [|w l IH] using rev_ind; [by repeat constructor|].
  rewrite foldl_app. cbn [foldl]. set (b := foldl _ _ l) in *. destruct b as [[d|] n]; cbn [snd fst].
  - destruct IH as (l1 & l2 & -> & Hn & H1 & H2). destruct (Z.ltb_spec n w.2).
    + exists (l1 ++ (d, n) :: l2)%list, []. destruct w as [d' n']. cbn in *. split_and!; [done|lia| |constructor].
      apply Forall_app. split; [|constructor; [done|]]; eapply Forall_impl; try done; cbn; lia.
    + exists l1, (l2 ++ [w])%list. rewrite <- app_assoc. split_and!; [done..|]. apply Forall_app. by repeat constructor.
  - destruct IH as [-> H]. destruct (Z.ltb_spec 0 w.2).
    + exists l, []. destruct w as [d' n']. cbn in *. split_and!; [done|lia| |constructor].
      eapply Forall_impl; [done|]. cbn; lia.
    + split; [done|]. apply Forall_app. by repeat constructor.
Qed.

(** C15. The directory that is found: the first, in the order of the walk, that no other
    with the markers of a root file system beats in priority, then in the size of its etc,
    then in its entries; if none has markers, the first with the most entries, unless an
    image of a file system lies in it.  None is found exactly when no directory has
    markers and either all are empty or that one holds an image. *)
Theorem find_root_spec (fs : os) (content : string -> option bytes) (walk : string -> list (string * Z)) (d : string) :
  let candidates := omap (fun w => root_candidate_of fs w.1) (walk d) in
  match find_filesystem_root fs content walk d with
  | Some root =>
      (exists l1 c l2, candidates = (l1 ++ c :: l2)%list /\ c.(rc_root) = root /\
         Forall (fun x => candidate_ltb x c = true) l1 /\ Forall (fun x => candidate_ltb c x = false) l2)
      \/ (candidates = [] /\ exists n, first_largest (walk d) root n /\
            (root = "" \/ _dir_has_filesystem_image fs content root = false))
  | None =>
      candidates = [] /\
      (Forall (fun w => w.2 <= 0) (walk d) \/
       exists root n, first_largest (walk d) root n /\ _dir_has_filesystem_image fs content root = true)
  end.
Proof.
  cbn zeta. unfold find_filesystem_root, find_filesystem_root_strict.
  set (candidates := omap _ (walk d)). destruct (head (sort_by candidate_ge candidates)) as [c|] eqn:E.
  - cbn. left. destruct (sort_by_head candidate_ge _ _ E) as (l1 & l2 & Hl & H1 & H2).
    exists l1, c, l2. split_and!; [done..| |done]. eapply Forall_impl; [exact H1|]. intros x Hx.
    unfold candidate_ge in Hx. by destruct (candidate_ltb x c).
  - cbn. assert (Hc : candidates = []).
    { apply length_zero_iff_nil. rewrite <- (length_sort_by candidate_ge). by destruct (sort_by _ _). }
    pose proof (fullest_spec (walk d)) as Hf. destruct (fullest (walk d)) as [[best|] n]; cbn [fst].
    + destruct best as [|a best]; cbn [andb]; [right; split; [done|]; exists n; split; [done|by left]|].
      destruct (_dir_has_filesystem_image fs content (String a best)) eqn:Ei.
      * split; [done|]. right. by eexists _, n.
      * right. split; [done|]. exists n. split; [done|by right].
    + split; [done|]. left. apply Hf.
Qed.

(** ** Wrappers *)

Definition sizes_of (f : string -> bool) (entries : list (string * node)) : list Z :=
  omap (fun e => match e.2 with
                 | NFile (Some size) => if f e.1 then Some size else None
                 | _ => None end) entries.

Definition payload (name : string) : bool := negb (_is_sidecar_filename name).
Definition archive (name : string) : bool := payload name && _looks_like_archive_filename name.

Definition total (l : list Z) : Z := foldr Z.add 0 l.
Definition largest (l : list Z) : Z := foldr Z.max 0 l.

Lemma total_snoc (l : list Z) (x : Z) : total (l ++ [x]) = total l + x.
Proof. unfold total. induction l as [|y l IH]; cbn; lia. Qed.
Lemma largest_snoc (l : list Z) (x : Z) : largest (l ++ [x]) = Z.max (largest l) x \/ x < 0.
Proof. unfold largest. induction l as [|y l IH]; cbn; lia. Qed.

Lemma sizes_of_snoc (f : string -> bool) (l : list (string * node)) (name : string) (n : node) :
  sizes_of f (l ++ [(name, n)]) =
    (sizes_of f l ++ match n with NFile (Some size) => if f name then [size] else [] | _ => [] end)%list.
Proof. unfold sizes_of. rewrite omap_app. f_equal. cbn. destruct n as [[size|]| | |]; try done. by destruct (f name). Qed.

(** The loop computes the three totals, of files of sizes that are not negative. *)
Definition sizes_ok (entries : list (string * node)) : Prop :=
  forall e size, e ∈ entries -> e.2 = NFile (Some size) -> 0 <= size.

Lemma file_totals_spec (entries : list (string * node)) :
  sizes_ok entries ->
  archive_bytes (file_totals entries) = total (sizes_of archive entries) /\
  non_sidecar_bytes (file_totals entries) = total (sizes_of payload entries) /\
  max_archive_size (file_totals entries) = largest (sizes_of archive entries).
Proof.
  unfold file_totals. induction entries as [|e l IH] using rev_ind; [done|]. intros Hok.
  destruct IH as (H1 & H2 & H3); [intros e' size He'; apply Hok, elem_of_app; by left|].
  rewrite foldl_app. cbn [foldl]. set (t := foldl _ _ l) in *. destruct e as [name n]. rewrite !sizes_of_snoc.
  destruct n as [[size|]| | |]; cbn [count_file fst snd]; rewrite ?app_nil_r; try done.
  assert (Hs : 0 <= size) by (apply (Hok (name, NFile (Some size))); [apply elem_of_app; right; left|done]).
  assert (Ep : payload name = negb (_is_sidecar_filename name)) by done.
  assert (Ea : archive name = negb (_is_sidecar_filename name) && _looks_like_archive_filename name) by done.
  rewrite Ep, Ea. clear Ep Ea. unfold count_file. cbn [fst snd]. destruct (_is_sidecar_filename name); cbn [negb andb]; rewrite ?app_nil_r; [done|].
  destruct (_looks_like_archive_filename name); cbn [archive_bytes non_sidecar_bytes max_archive_size];
    rewrite ?app_nil_r, ?total_snoc, ?H1, ?H2; split_and!; try done.
  rewrite H3. destruct (largest_snoc (sizes_of archive l) size) as [->|?]; [|lia].
  destruct (Z.ltb_spec (largest (sizes_of archive l)) size); lia.
Qed.

Lemma largest_ge (l : list Z) (m : Z) : 0 < m -> m <= largest l <-> exists x, x ∈ l /\ m <= x.
Proof.
  intros Hm. induction l as [|y l IH]; cbn.
  - split; [lia|]. intros (x & Hx & _). by apply not_elem_of_nil in Hx.
  - rewrite Z.max_le_iff, IH. split.
    + intros [H|(x & Hx & H)]; [exists y; split; [left|done]|exists x; split; [by right|done]].
    + intros (x & [->|Hx]%elem_of_cons & H); [by left|right; by exists x].
Qed.

(** What the files of a directory must be: one archive of a mebibyte, and seven tenths of
    the bytes that are not side files in archives. *)
Definition packed (entries : list (string * node)) : Prop :=
  (exists name size, (name, NFile (Some size)) ∈ entries /\ archive name = true /\ 2 ^ 20 <= size) /\
  7 * total (sizes_of payload entries) <= 10 * total (sizes_of archive entries).

Lemma elem_of_sizes (f : string -> bool) (entries : list (string * node)) (size : Z) :
  size ∈ sizes_of f entries <-> exists name, (name, NFile (Some size)) ∈ entries /\ f name = true.
Proof.
  unfold sizes_of. rewrite list_elem_of_omap. split.
  - intros ([name [[s|]| | |]] & He & H); try done. cbn in H. destruct (f name) eqn:Ef; [|done].
    injection H as ->. by exists name.
  - intros (name & He & Hf). exists (name, NFile (Some size)). cbn. by rewrite Hf.
Qed.

Lemma total_ge (l : list Z) (x : Z) : Forall (fun y => 0 <= y) l -> x ∈ l -> x <= total l.
Proof.
  induction 1 as [|y l Hy Hl IH]; [by intros ?%not_elem_of_nil|].
  change (total (y :: l)) with (y + total l).
  assert (0 <= total l) by (clear -Hl; unfold total; induction Hl; cbn; lia).
  intros [->|Hx]%elem_of_cons; [lia|]. specialize (IH Hx). lia.
Qed.

Lemma dense_here_spec (entries : list (string * node)) : sizes_ok entries -> dense_here entries = true <-> packed entries.
Proof.
  intros Hok. unfold dense_here, dense_fraction, packed. destruct (file_totals_spec entries Hok) as (-> & -> & ->).
  rewrite !andb_true_iff, Z.ltb_lt, !Z.leb_le, largest_ge by done. split.
  - intros [[_ (x & Hx & Hm)] H]. split; [|done]. apply elem_of_sizes in Hx as (name & Hn & Ha). by exists name, x.
  - intros [(name & size & Hn & Ha & Hm) H]. split_and!; [|exists size; split; [apply elem_of_sizes; by exists name|done]|done].
    assert (Hp : size <= total (sizes_of payload entries)).
    { apply total_ge.
      - apply Forall_forall. intros x (n & Hx & _)%elem_of_sizes. by apply (Hok (n, NFile (Some x))).
      - apply elem_of_sizes. exists name. split; [done|]. by apply andb_true_iff in Ha as [? _]. }
    lia.
Qed.

(** A wrapper: packed itself, or nothing but one to eight directories one of which is a
    wrapper; in either case with at most one directory named as of a root file system. *)
Inductive wrapper : node -> Prop :=
  | wrapper_packed l : markers_present l < 2 -> packed l -> wrapper (NDir (Some l))
  | wrapper_below l e :
      markers_present l < 2 -> Forall (fun e => is_file_node e.2 = false) l ->
      zlen (List.filter (fun e => is_dir_node e.2) l) <= 8 -> e ∈ l -> wrapper e.2 -> wrapper (NDir (Some l)).

Fixpoint tree_ok (n : node) : Prop :=
  match n with
  | NDir (Some l) => sizes_ok l /\ foldr and True ((fun e => tree_ok e.2) <$> l)
  | _ => True
  end.

Lemma foldr_and {A} (P : A -> Prop) (l : list A) : foldr and True (P <$> l) <-> Forall P l.
Proof. induction l as [|x l IH]; cbn; [by split|]. by rewrite IH, Forall_cons. Qed.

Lemma zero_filter {A} (f : A -> bool) (l : list A) (x : A) : x ∈ l -> f x = true -> (zlen (List.filter f l) =? 0) = false.
Proof.
  intros Hx Hf. apply Z.eqb_neq. assert (H : In x (List.filter f l)) by by apply filter_In, conj; [apply list_elem_of_In|].
  destruct (List.filter f l); [done|]. rewrite zlen_cons. pose proof (zlen_nonneg l0). lia.
Qed.

Lemma wrapper_is_dir (n : node) : wrapper n -> is_dir_node n = true.
Proof. by intros []. Qed.

(** The test for a wrapper of archives, which its two functions compute by calling
    each other, holds exactly of the trees that lead, through directories that hold nothing
    but at most eight directories, to one where an archive of a mebibyte lies and archives
    make up seven tenths of the bytes that are not side files, as long as none of the
    directories on the way looks like a root file system.  There is no bound on the length
    of the way. *)
Theorem archive_dense_spec (n : node) : tree_ok n -> _is_archive_dense_layout n = true <-> wrapper n.
Proof.
  induction n as [s| |l IH|b|] using node_induction; cbn [tree_ok _is_archive_dense_layout];
    try (intros _; split; [done|by inversion 1]).
  rewrite foldr_and. intros [Hs Hl]. pose proof (dense_here_spec l Hs) as Hd.
  destruct (Z.leb_spec 2 (markers_present l)) as [Hm|Hm]; [split; [done|inversion 1; lia]|].
  destruct (dense_here l) eqn:Ed; [split; [intros _; apply wrapper_packed; [done|by apply Hd]|done]|].
  split.
  - destruct (existsb _ l) eqn:Ef; [done|]. cbn [orb]. destruct (_ =? 0); [done|].
    destruct (Z.ltb_spec 8 (zlen (List.filter (fun e => is_dir_node e.2) l))) as [|H8]; [done|].
    intros (e & He & Hw)%existsb_exists. apply list_elem_of_In in He. rewrite Forall_forall in IH, Hl.
    apply (wrapper_below l e); [done| |done|done|by apply IH; [|apply Hl|]].
    apply Forall_forall. intros e' He'. apply not_true_is_false. intros Hf.
    enough (H : existsb (fun e => is_file_node e.2) l = true) by by rewrite H in Ef.
    apply existsb_exists. exists e'. by rewrite <- list_elem_of_In.
  - inversion 1 as [? _ Hp|? e _ Hf H8 He Hw]; subst; [apply Hd in Hp; by rewrite Hp in Ed|].
    rewrite (zero_filter _ l e) by (done || by apply wrapper_is_dir). rewrite orb_false_r.
    destruct (existsb _ l) eqn:Ef.
    { apply existsb_exists in Ef as (e' & He' & Hf'). rewrite Forall_forall in Hf.
      apply list_elem_of_In in He'. by rewrite Hf in Hf'. }
    rewrite (proj2 (Z.ltb_ge _ _) H8). apply existsb_exists. exists e. rewrite <- list_elem_of_In.
    split; [done|]. rewrite Forall_forall in IH, Hl. by apply IH; [|apply Hl|].
Qed.

(** A package below three wrapping directories. *)
Definition deep_package : node :=
  NDir (Some [dir "a" [dir "b" [dir "c" [file "x.tar.gz" 2000000; file "x.sha256" 64]]; dir "d" []]]).

Lemma archive_dense_spec_witness : tree_ok deep_package /\ wrapper deep_package.
Proof.
  assert (H : tree_ok deep_package).
  { cbn. unfold sizes_ok. repeat split; intros e size He Hsize;
      repeat (apply elem_of_cons in He as [->|He]; [cbn in Hsize; simplify_eq; lia|]); by apply not_elem_of_nil in He. }
  split; [exact H|]. apply (archive_dense_spec deep_package H). vm_compute. reflexivity.
Defined.

(** ** Expanding archives again *)

Section Again.
Context (extract : string -> string -> extraction).
#[local] Abbreviation inner := (_recursive_extract_nested_inner extract).

Definition step (todo : nat) (current : string) (v : (string * node) * mark) : (string * node) * list string :=
  match v.2 with
  | Leave => (v.1, [])
  | Sub | New => let '(child, more) := inner todo (path_join current v.1.1) v.1.2 in ((v.1.1, child), more)
  end.

Lemma step_name (todo : nat) (current : string) (v : (string * node) * mark) : (step todo current v).1.1 = v.1.1.
Proof. unfold step. destruct v as [[name n] []]; cbn; [done|..]; by destruct (inner _ _ _). Qed.

(** The names after a visit. *)
Lemma name_taken_spec (name : string) (l : list (string * node)) : name_taken name l = true <-> name ∈ l.*1.
Proof.
  unfold name_taken. rewrite existsb_exists, list_elem_of_fmap. split.
  - intros (e & He & Hn%bool_decide_eq_true). exists e. by rewrite list_elem_of_In.
  - intros (e & Hn & He). exists e. by rewrite <- list_elem_of_In, bool_decide_eq_true.
Qed.

Definition settled (n : node) : Prop := forall todo current, inner todo current n = (n, []).

Context (declined_settled : forall p suffix l, extract p suffix = Declined l -> settled (NDir (Some l))).

(** What the second visit makes of an entry. *)
Definition again (e : string * node) : (string * node) * mark := (e, if is_dir_node e.2 then Sub else Leave).

Lemma inner_dir (todo : nat) (current : string) (n : node) : is_dir_node (inner todo current n).1 = is_dir_node n.
Proof. by destruct todo, n as [|[]| |]. Qed.

(** The entries of the first visit and the visit that left each of them. *)
Lemma visited_cases (current : string) (l : list (string * node)) (v : (string * node) * mark) :
  v ∈ visit extract current l ->
  (v.2 <> Leave /\ is_dir_node v.1.2 = true) \/
  (v.2 = Leave /\ is_dir_node v.1.2 = true /\ settled v.1.2) \/
  (v.2 = Leave /\ is_dir_node v.1.2 = false /\ v.1 ∈ l /\
     forall suffix, is_file_node v.1.2 = true -> matched_suffix v.1.1 = Some suffix ->
       extract (path_join current v.1.1) suffix = Raised \/
       out_name v.1.1 ∈ (fun w => w.1.1) <$> visit extract current l).
Proof.
  intros (e & Hv & He)%list_elem_of_bind.
  assert (Hall : forall w, w ∈ visit_entry extract current l e -> w.1.1 ∈ (fun w => w.1.1) <$> visit extract current l).
  { intros w Hw. apply (list_elem_of_fmap_2 (fun w => w.1.1)), list_elem_of_bind. by exists e. }
  assert (Hself : e.1 ∈ l.*1) by by apply list_elem_of_fmap_2.
  unfold visit_entry in Hv, Hall. destruct e as [name [s|d|b|]]; cbn [fst snd] in *.
  - destruct (matched_suffix name) as [suffix|] eqn:Es.
    + destruct (name_taken (out_name name) l) eqn:Et.
      * apply list_elem_of_singleton in Hv as ->. right. right. split_and!; [done..|]. intros suffix' _ _. right.
        apply name_taken_spec, list_elem_of_fmap in Et as (e' & Ee & He').
        apply list_elem_of_fmap. exists (e', if is_dir_node e'.2 then Sub else Leave). split; [done|].
        apply list_elem_of_bind. exists e'. split; [|done]. unfold visit_entry.
        destruct e' as [name' [s'|d'|b'|]]; cbn [fst snd is_dir_node]; try by left.
        destruct (matched_suffix name'); [|by left]. destruct (name_taken _ _); [by left|].
        destruct (extract _ _); by left.
      * destruct (extract (path_join current name) suffix) as [c|c|] eqn:Ex.
        -- apply elem_of_cons in Hv as [->|Hv%list_elem_of_singleton]; [|left; by rewrite Hv].
           right. right. split_and!; [done..|]. intros suffix' _ _. right.
           apply (Hall ((out_name name, NDir (Some c)), New)). right. by left.
        -- apply elem_of_cons in Hv as [->|Hv%list_elem_of_singleton].
           ++ right. right. split_and!; [done..|]. intros suffix' _ _. right.
              apply (Hall ((out_name name, NDir (Some c)), Leave)). right. by left.
           ++ right. left. rewrite Hv. split_and!; [done..|]. by apply (declined_settled _ _ _ Ex).
        -- apply list_elem_of_singleton in Hv as ->. right. right. split_and!; [done..|].
           intros suffix' _ Hs. left. change (matched_suffix name = Some suffix') in Hs. rewrite Es in Hs. by injection Hs as <-.
    + apply list_elem_of_singleton in Hv as ->. right. right. split_and!; [done..|]. intros suffix _ Hs.
      change (matched_suffix name = Some suffix) in Hs. congruence.
  - apply list_elem_of_singleton in Hv as ->. by left.
  - apply list_elem_of_singleton in Hv as ->. right. right. by split_and!.
  - apply list_elem_of_singleton in Hv as ->. right. right. by split_and!.
Qed.

Lemma inner_dir_eq (todo : nat) (current : string) (l : list (string * node)) :
  inner (S todo) current (NDir (Some l)) =
    (NDir (Some (step todo current <$> visit extract current l).*1),
     ((fun v => path_join current v.1.1) <$>
        List.filter (fun v => match v.2 with New => true | _ => false end) (visit extract current l))
       ++ mjoin (step todo current <$> visit extract current l).*2)%list.
Proof. reflexivity. Qed.

(** The second visit leaves an entry or descends into it. *)
Lemma visit_again (todo : nat) (current : string) (l : list (string * node)) (v : (string * node) * mark) :
  v ∈ visit extract current l ->
  let l' := (step todo current <$> visit extract current l).*1 in
  visit_entry extract current l' (step todo current v).1 = [again (step todo current v).1].
Proof.
  intros Hv l'. destruct (visited_cases current l v Hv) as [[Hm Hd]|[(Hm & Hd & _)|(Hm & Hd & _ & Hx)]].
  - unfold again. destruct v as [[name n] m]. cbn [fst snd] in *.
    assert (Hd' : is_dir_node (step todo current (name, n, m)).1.2 = true).
    { pose proof (inner_dir todo (path_join current name) n) as Hi.
      unfold step. destruct m; cbn [fst snd]; [done|..]; destruct (inner _ _ _); cbn in *; congruence. }
    destruct ((step todo current (name, n, m)).1) as [name' [s|d|b|]]; by cbn in *.
  - unfold step. rewrite Hm. cbn [fst snd]. unfold again. rewrite Hd. by destruct v as [[name [s|d|b|]] m].
  - unfold step. rewrite Hm. cbn [fst snd]. unfold again. rewrite Hd. destruct v as [[name [s|d|b|]] m]; try done.
    cbn [fst snd] in *. unfold visit_entry. cbn [fst snd]. destruct (matched_suffix name) as [suffix|] eqn:Es; [|done].
    destruct (name_taken (out_name name) l') eqn:Et; [done|]. destruct (Hx suffix eq_refl eq_refl) as [->|Hin]; [done|].
    exfalso. apply not_true_iff_false in Et. apply Et, name_taken_spec. unfold l'.
    apply list_elem_of_fmap in Hin as (w & -> & Hw). rewrite <- (step_name todo current w).
    apply list_elem_of_fmap_2, list_elem_of_fmap_2, list_elem_of_fmap_2, Hw.
Qed.

Lemma bind_singletons {A B} (f : A -> list B) (g : A -> B) (l : list A) :
  (forall x, x ∈ l -> f x = [g x]) -> l ≫= f = g <$> l.
Proof.
  induction l as [|x l IH]; intros H; [done|]. cbn. rewrite (H x) by left. rewrite IH; [done|].
  intros y Hy. apply H. by right.
Qed.

Lemma mjoin_nil {A B} (f : A -> list B) (l : list A) : (forall x, x ∈ l -> f x = []) -> mjoin (f <$> l) = [].
Proof.
  induction l as [|x l IH]; intros H; [done|]. cbn. rewrite (H x) by left. apply IH. intros y Hy. apply H. by right.
Qed.

Lemma inner_again (todo : nat) (current : string) (n : node) :
  inner todo current (inner todo current n).1 = ((inner todo current n).1, []).
Proof.
  revert current n. induction todo as [|todo IH]; intros current n; [done|]. destruct n as [s|[l|]|b|]; try done.
  rewrite inner_dir_eq. cbn [fst]. set (V := visit extract current l). set (l' := (step todo current <$> V).*1).
  assert (HV : visit extract current l' = again <$> l').
  { unfold visit. apply bind_singletons. intros e He. unfold l' in He.
    apply list_elem_of_fmap in He as ([e' more] & -> & He). apply list_elem_of_fmap in He as (v & Ev & Hv).
    pose proof (visit_again todo current l v Hv) as H. rewrite <- Ev in H. exact H. }
  rewrite inner_dir_eq, HV. rewrite <- !list_fmap_compose.
  assert (Hstep : forall e, e ∈ l' -> step todo current (again e) = (e, [])).
  { intros e He. unfold l' in He. apply list_elem_of_fmap in He as ([e' more] & -> & He).
    apply list_elem_of_fmap in He as (v & Ev & Hv). cbn [fst]. unfold again, step at 1. cbn [fst snd].
    destruct (visited_cases current l v Hv) as [[Hm Hd]|[(Hm & Hd & Hs)|(Hm & Hd & _)]].
    - destruct v as [[name m] k]. cbn [fst snd] in *.
      assert (E : e' = (name, (inner todo (path_join current name) m).1)).
      { unfold step in Ev. cbn [fst snd] in Ev. destruct k; [done|..]; destruct (inner _ _ _); by injection Ev as -> ->. }
      subst e'. cbn [fst snd]. rewrite inner_dir, Hd. by rewrite IH.
    - unfold step in Ev. rewrite Hm in Ev. injection Ev as -> ->. rewrite Hd. rewrite Hs. by destruct v as [[? ?] ?].
    - unfold step in Ev. rewrite Hm in Ev. injection Ev as -> ->. by rewrite Hd. }
  f_equal.
  - do 2 f_equal. rewrite <- (list_fmap_id l') at 2. apply list_fmap_ext. intros i e He%list_elem_of_lookup_2. cbn.
    by rewrite Hstep.
  - assert (E1 : List.filter (fun v : string * node * mark => match v.2 with New => true | _ => false end) (again <$> l') = []).
    { clear. induction l' as [|e l' IH]; [done|]. cbn. rewrite IH. by destruct (is_dir_node e.2). }
    rewrite E1, fmap_nil, app_nil_l. apply mjoin_nil. intros e He. cbn. by rewrite Hstep.
Qed.
End Again.

(** Expanding nested archives twice is expanding them once: on the tree that a run
    leaves, a second run to the same depth finds nothing to do, whatever each archive
    holds and whichever of them fail, as long as an archive that is declined leaves nothing
    to expand behind. *)
Theorem nested_extract_idempotent (extract : string -> string -> extraction) (root : string) (max_depth : nat) (n : node) :
  (forall p suffix l, extract p suffix = Declined l -> settled extract (NDir (Some l))) ->
  let '(t, new) := _recursive_extract_nested extract root max_depth n in
  _recursive_extract_nested extract root max_depth t = (t, []).
Proof.
  intros Hd. unfold _recursive_extract_nested. pose proof (inner_again extract Hd max_depth root n) as H.
  by destruct (_recursive_extract_nested_inner extract max_depth root n).
Qed.

(** An archive in an archive, one that cannot be read and an image that is declined. *)
Definition demo_extract (p suffix : string) : extraction :=
  if bool_decide (p = "/r/a.zip") then Extracted [file "b.tar" 5; file "c.img" 1]
  else if bool_decide (suffix = ".tar") then Raised
  else Declined [].

Lemma nested_extract_idempotent_witness :
  let '(t, new) := _recursive_extract_nested demo_extract "/r" 3 (NDir (Some [file "a.zip" 9; dir "x" [file "y.TAR" 2]])) in
  _recursive_extract_nested demo_extract "/r" 3 t = (t, []).
Proof.
  apply (nested_extract_idempotent demo_extract "/r" 3). intros p suffix l. unfold demo_extract.
  repeat case_bool_decide; try done. intros [= <-] [|todo] current; reflexivity.
Defined.

(** ** A package the search declines *)

(** The magic of an ext4 image lies at 1080; the dispatch of images reads two bytes before
    it, so that only the size decides, while the test that gates the search finds it. *)
Example ext4_dispatch :
  let image := (replicate 1080 Byte.x00 ++ _EXT4_MAGIC)%list in
  _file_looks_like_fs_image (Some image) = true /\
  _extract_img_recursive (Some image) 200000 = Skip /\
  _extract_img_recursive (Some (replicate 1078 Byte.x00 ++ _EXT4_MAGIC)%list) 200000 = Unblob.
Proof. by vm_compute. Qed.

(** A package of three directories of scripts and tools around an image. *)
Definition package_names : list string := ["bin/flash"; "lib/tool.so"; "sbin/init.sh"; "rootfs.squashfs"].

Definition package_dir : string := "/data/projects/7/firmware/1/extracted".

Definition package_os : os :=
  plain_os ((fun n => package_dir +:+ "/" +:+ n) <$> package_names)
    (package_dir :: ((fun n => package_dir +:+ "/" +:+ n) <$> ["bin"; "lib"; "sbin"])).

Definition package_content (path : string) : option bytes :=
  if endswith path "squashfs" then Some (bs "hsqs") else Some (bs "#!/bin/sh").

Definition package_walk (d : string) : list (string * Z) :=
  [(d, 4); (d +:+ "/bin", 1); (d +:+ "/lib", 1); (d +:+ "/sbin", 1)].

Definition package_root : option string := find_filesystem_root package_os package_content package_walk package_dir.

(** A ZIP with bin, lib and sbin around a file-system image is taken for a root file
    system and unpacked as one; the search declines it, because of the image, so that the
    recursive extractors get their turn; but the archive has been deleted, and the upload
    ends ready with neither a file system nor an archive to unpack. *)
Theorem rootfs_zip_lost :
  _zip_contains_rootfs package_names = true /\ package_root = None /\
  _dir_has_filesystem_image package_os package_content package_dir = true /\
  let '(r, s) := demo_run (demo_zip package_names (Ok ()) (Ok ()) package_root) in
  r = Ok () /\ stage s.(p_row) = CText "ready" /\ field s.(p_row) "extracted_path" = CNull /\
  s.(p_archive) = false /\ s.(p_spawned) = false.
Proof. by vm_compute. Qed.
