(* ===== verification/PersistWalk.v ===== *)
(** * The walk over persistence artefacts ([services/linux_persistence_walker.py])

    The scanners that pick histories, crontabs and ld.so.preload files under the detection
    roots, the walk that stores one row per line and makes an aggregate, and its runners.  The operating
    system is the record of [VirtualFs], reading a file a function; a value that a column
    does not take makes the flush raise. *)

From S2P Require Import Prelude PyText PosixPath Regex PyLines Json Jsonb JsonbColumns VirtualFs FirmwareModel Reaper LinuxPersist.
From Stdlib Require Import Ascii String.
Import (notations) Ascii String.
#[local] Open Scope Z_scope.

(** ** Scanners *)

(** A file that was picked: its real path, and its path in the firmware; of a crontab also
    whether its name is the user. *)
Abbreviation hit := (string * string)%type.
Abbreviation cron_hit := (string * string * bool)%type.

Section Scan.
Context (o : os).

Definition noisy (name : string) : bool := bool_decide (name ∈ ["proc"; "sys"; "dev"; "run"]).

Definition bash_visit (real_root : string) (hits : list hit) (full : string) : list hit :=
  let real_full := realpath o full in
  if negb (startswith real_full real_root) || bool_decide (real_full ∈ hits.*1) then hits
  else (hits ++ [(real_full, relpath real_full real_root)])%list.

(** The full paths of the histories below a root. *)
Definition histories (depth : nat) (root : string) : list string :=
  os_walk o (fun name => negb (noisy name)) depth root ≫= fun d => (fun name => path_join d.1 name) <$> List.filter (fun name => bool_decide (name = ".bash_history")) d.2.

Definition _scan_bash_history_candidates_sync (depth : nat) (roots : list string) : list hit :=
  foldl (fun hits root => foldl (bash_visit (realpath o root)) hits (histories depth root)) [] roots.

Definition _maybe_add (hits : list cron_hit) (full rel : string) (user_from_filename : bool) : list cron_hit :=
  let real_full := realpath o full in
  if bool_decide (real_full ∈ (fun h : cron_hit => h.1.1) <$> hits) || negb (isfile o real_full) then hits
  else (hits ++ [(real_full, rel, user_from_filename)])%list.

Definition spool (real_root : string) (hits : list cron_hit) (spool_dir : string) : list cron_hit :=
  let full_spool := path_join real_root spool_dir in
  if isdir o full_spool then
    foldl (fun hits entry =>
             let full := path_join full_spool entry in
             if isdir o full then hits else _maybe_add hits full (path_join spool_dir entry) true)
      hits (default [] (listdir o full_spool))
  else hits.

Definition cron_root (hits : list cron_hit) (root : string) : list cron_hit :=
  let real_root := realpath o root in
  let candidate := path_join real_root "etc/crontab" in
  let hits := if isfile o candidate then _maybe_add hits candidate "etc/crontab" false else hits in
  let cron_d_dir := path_join real_root "etc/cron.d" in
  let hits := if isdir o cron_d_dir then
                foldl (fun hits entry => _maybe_add hits (path_join cron_d_dir entry) (path_join "etc/cron.d" entry) false)
                  hits (default [] (listdir o cron_d_dir))
              else hits in
  foldl (spool real_root) hits ["var/spool/cron"; "var/spool/cron/crontabs"].

Definition _scan_crontab_candidates_sync (roots : list string) : list cron_hit := foldl cron_root [] roots.

Definition home_visit (real_root home_dir : string) (hits : list hit) (ud : string) : list hit :=
  let cand := path_join (path_join home_dir ud) ".ld.so.preload" in
  if isfile o cand then
    let real_full := realpath o cand in
    if bool_decide (real_full ∈ hits.*1) || negb (startswith real_full real_root) then hits
    else (hits ++ [(real_full, path_join (path_join "home" ud) ".ld.so.preload")])%list
  else hits.

Definition preload_root (hits : list hit) (root : string) : list hit :=
  let real_root := realpath o root in
  let candidate := path_join real_root "etc/ld.so.preload" in
  let hits := if isfile o candidate && negb (bool_decide (realpath o candidate ∈ hits.*1))
              then (hits ++ [(realpath o candidate, "etc/ld.so.preload")])%list else hits in
  let home_dir := path_join real_root "home" in
  if isdir o home_dir then foldl (home_visit real_root home_dir) hits (default [] (listdir o home_dir)) else hits.

Definition _scan_ld_preload_candidates_sync (roots : list string) : list hit := foldl preload_root [] roots.
End Scan.

(** ** Rows *)

(** What PostgreSQL stores in a TEXT and in a VARCHAR(n) column. *)
Definition text_ok (s : string) : bool := negb (has_char (ascii_of_N 0) s).
Definition varchar (n : Z) (s : string) : bool := (py_len s <=? n) && text_ok s.

Record LinuxBashHistoryEntry := {
  b_source_file : string;
  b_line_number : Z;
  b_command : string;
  b_suspicious_flags : json
}.

Record LinuxCronJob := {
  c_source_file : string;
  c_line_number : Z;
  c_schedule_spec : option string;
  c_user : option string;
  c_command : string;
  c_suspicious_flags : json
}.

Record LinuxLdPreloadEntry := {
  l_source_file : string;
  l_line_number : Z;
  l_library_path : string;
  l_suspicious_flags : json
}.

Definition bash_fits (r : LinuxBashHistoryEntry) : bool := varchar 2048 r.(b_source_file) && text_ok r.(b_command).
Definition opt_varchar (n : Z) (s : option string) : bool := match s with Some s => varchar n s | None => true end.
Definition cron_fits (r : LinuxCronJob) : bool :=
  varchar 2048 r.(c_source_file) && opt_varchar 128 r.(c_schedule_spec) && opt_varchar 64 r.(c_user) && text_ok r.(c_command).
Definition preload_fits (r : LinuxLdPreloadEntry) : bool := varchar 2048 r.(l_source_file) && varchar 2048 r.(l_library_path).

(** The rows of one firmware. *)
Record tables := {
  bash_rows : list LinuxBashHistoryEntry;
  cron_rows : list LinuxCronJob;
  preload_rows : list LinuxLdPreloadEntry
}.

Definition bash_row (rel : string) (e : bash_entry) : LinuxBashHistoryEntry :=
  {| b_source_file := take_chars 2048 rel; b_line_number := e.(be_line_number); b_command := e.(be_command);
     b_suspicious_flags := JDict (_stamp_linux_bash_history_suspicious_flags (classify_bash_history_line e.(be_command))) |}.

Definition cron_row (rel : string) (e : cron_entry) : LinuxCronJob :=
  {| c_source_file := take_chars 2048 rel; c_line_number := e.(ce_line_number); c_schedule_spec := e.(ce_schedule_spec);
     c_user := e.(ce_user); c_command := e.(ce_command);
     c_suspicious_flags := JDict (_stamp_linux_cron_suspicious_flags (classify_cron_line e.(ce_schedule_spec) e.(ce_command))) |}.

Definition preload_row (rel : string) (e : preload_entry) : LinuxLdPreloadEntry :=
  {| l_source_file := take_chars 2048 rel; l_line_number := e.(pe_line_number); l_library_path := take_chars 2048 e.(pe_library_path);
     l_suspicious_flags := JDict (_stamp_linux_ld_preload_suspicious_flags (classify_ld_preload_line e.(pe_library_path))) |}.

(** ** The walk *)

(** A value that its column refuses. *)
Inductive db_error := DataError.

Section Family.
Context {F E R : Type} (parse : F -> list E) (row_of : F -> E -> R) (fits : R -> bool) (max_lines : Z).

(** The loop over the files of one kind: each file that is opened with the entries that are
    stored of it, until [max_lines] are. *)
Fixpoint walk_files (persisted : Z) (files : list F) : list (F * list E) :=
  match files with
  | [] => []
  | f :: files =>
      if max_lines <=? persisted then []
      else
        let taken := ztake (max_lines - persisted) (parse f) in
        (f, taken) :: walk_files (persisted + zlen taken) files
  end.

Definition stored (walked : list (F * list E)) : list (F * E) := walked ≫= fun fe => pair fe.1 <$> fe.2.

Definition rows_of (walked : list (F * list E)) : list R := (fun fe => row_of fe.1 fe.2) <$> stored walked.

(** The rows are flushed file by file. *)
Definition persist (files : list F) : res db_error (list (F * list E)) :=
  let walked := walk_files 0 files in
  if forallb fits (rows_of walked) then Ok walked else Err DataError.
End Family.

(** How many entries have a flag. *)
Definition count_flag {E} (flags : E -> pydict) (key : string) (l : list E) : Z :=
  zlen (List.filter (fun e => py_truthy (dict_get_or key JNull (flags e))) l).

Definition bash_flags (e : bash_entry) : pydict := classify_bash_history_line e.(be_command).
Definition cron_flags (e : cron_entry) : pydict := classify_cron_line e.(ce_schedule_spec) e.(ce_command).
Definition preload_flags (e : preload_entry) : pydict := classify_ld_preload_line e.(pe_library_path).

(** The flags, each counted under its name with a suffix. *)
Definition bash_keys : list string := ["clear_marker"; "download_pattern"; "priv_esc_pattern"].
Definition cron_keys : list string := ["temp_path_command"; "reboot_persistence"; "network_egress_pattern"].
Definition preload_keys : list string := ["temp_path_library"; "unusual_extension"; "world_writable_dir"].
Definition counter (key : string) : string := key +:+ "_count".

Section Aggregate.
Context {F E : Type} (rel : F -> string) (flags : E -> pydict) (keys : list string).

(** The entry of one file in [per_artefact]. *)
Definition artefact (kind : string) (fe : F * list E) : json :=
  JDict ([("artefact_type", JStr kind); ("path", JStr (rel fe.1)); ("lines_persisted", JInt (zlen fe.2))] ++
         ((fun key => (counter key, JInt (count_flag flags key fe.2))) <$> keys))%list.

(** A counter of the aggregate: the counts of the files added up. *)
Definition sum_flag (walked : list (F * list E)) (key : string) : Z :=
  foldl (fun n fe => n + count_flag flags key fe.2) 0 walked.

Definition totals (prefix : string) (walked : list (F * list E)) : pydict :=
  (fun key => (prefix +:+ counter key, JInt (sum_flag walked key))) <$> keys.

Definition lines_persisted (walked : list (F * list E)) : Z := foldl (fun n fe => n + zlen fe.2) 0 walked.
End Aggregate.

Definition zsum (l : list Z) : Z := foldl Z.add 0 l.

Definition result_dict (run_seconds : json) (scanned persisted : Z * Z * Z) (counters : pydict) (anomaly_total : Z)
    (per_artefact : list json) : pydict :=
  ([("run_seconds", run_seconds);
    ("bash_history_files_scanned", JInt scanned.1.1); ("bash_history_lines_persisted", JInt persisted.1.1);
    ("cron_files_scanned", JInt scanned.1.2); ("cron_lines_persisted", JInt persisted.1.2);
    ("ld_preload_files_scanned", JInt scanned.2); ("ld_preload_lines_persisted", JInt persisted.2)] ++
   counters ++
   [("anomaly_total", JInt anomaly_total); ("errors", JList []); ("per_artefact", JList per_artefact)])%list.

Definition _empty_walk_result (run_seconds : json) : pydict :=
  result_dict run_seconds (0, 0, 0) (0, 0, 0)
    (((fun key => ("bash_" +:+ counter key, JInt 0)) <$> bash_keys) ++
     ((fun key => ("cron_" +:+ counter key, JInt 0)) <$> cron_keys) ++
     ((fun key => ("ld_preload_" +:+ counter key, JInt 0)) <$> preload_keys))%list 0 [].

Section Walk.
Context (o : os) (read : string -> option bytes) (depth : nat).

Definition bash_parse (f : hit) : list bash_entry := _parse_bash_history_file (read f.1).
Definition cron_parse (f : cron_hit) : list cron_entry :=
  _parse_crontab_file (if f.2 then Some (basename f.1.1) else None) (read f.1.1).
Definition preload_parse (f : hit) : list preload_entry := _parse_ld_so_preload_file (read f.1).

Section Aggregates.
Context (bash_candidates : list hit) (cron_candidates : list cron_hit) (ld_candidates : list hit).
Context (bash : list (hit * list bash_entry)) (cron : list (cron_hit * list cron_entry)) (ld : list (hit * list preload_entry)).

(** The rows that were flushed, and the aggregate. *)
Definition add_rows (t : tables) : tables :=
  {| bash_rows := t.(bash_rows) ++ rows_of (fun f => bash_row f.2) bash;
     cron_rows := t.(cron_rows) ++ rows_of (fun f => cron_row f.1.2) cron;
     preload_rows := t.(preload_rows) ++ rows_of (fun f => preload_row f.2) ld |}%list.

Definition aggregate (run_seconds : json) : pydict :=
  result_dict run_seconds (zlen bash_candidates, zlen cron_candidates, zlen ld_candidates)
    (lines_persisted bash, lines_persisted cron, lines_persisted ld)
    (totals bash_flags bash_keys "bash_" bash ++ totals cron_flags cron_keys "cron_" cron ++
     totals preload_flags preload_keys "ld_preload_" ld)%list
    (zsum ((sum_flag bash_flags bash <$> bash_keys) ++ (sum_flag cron_flags cron <$> cron_keys) ++
           (sum_flag preload_flags ld <$> preload_keys))%list)
    ((artefact (fun f : hit => f.2) bash_flags bash_keys "bash_history" <$> bash) ++
     (artefact (fun f : cron_hit => f.1.2) cron_flags cron_keys "cron" <$> cron) ++
     (artefact (fun f : hit => f.2) preload_flags preload_keys "ld_preload" <$> ld))%list.
End Aggregates.

Definition walk_roots (max_lines : Z) (run_seconds : json) (roots : list string) (t : tables) : res db_error (tables * pydict) :=
  let bash_candidates := _scan_bash_history_candidates_sync o depth roots in
  let cron_candidates := _scan_crontab_candidates_sync o roots in
  let ld_candidates := _scan_ld_preload_candidates_sync o roots in
  bash ← persist bash_parse (fun f => bash_row f.2) bash_fits max_lines bash_candidates;
  cron ← persist cron_parse (fun f => cron_row f.1.2) cron_fits max_lines cron_candidates;
  ld ← persist preload_parse (fun f => preload_row f.2) preload_fits max_lines ld_candidates;
  Ok (add_rows bash cron ld t, aggregate bash_candidates cron_candidates ld_candidates bash cron ld run_seconds).

(** [roots]: [None] without a firmware.  [run_seconds] is the time the walk took, rounded. *)
Definition _do_linux_persistence_walk (max_lines : Z) (run_seconds : json) (roots : option (list string)) (t : tables)
    : res db_error (tables * pydict) :=
  match roots with
  | None | Some [] => Ok (t, _empty_walk_result run_seconds)
  | Some roots => walk_roots max_lines run_seconds roots t
  end.
End Walk.

(** ** The runners *)

Definition STATUS : string := "persistence_walk_status".
Definition STARTED : string := "persistence_walk_started_at".
Definition FINISHED : string := "persistence_walk_finished_at".
Definition ERROR : string := "persistence_walk_error".
Definition RESULT : string := "persistence_walk_result".

(** What happens to one run: when it begins and ends, whether the commits of its beginning
    and of its end and the session that records a failure go through, what a failure has to
    say. *)
Record run_env := {
  begins : Z;
  ends : Z;
  begin_ok : bool;
  commit_ok : bool;
  fail_ok : bool;
  traceback : string
}.

Section Runners.
(** The walk in its session: its rows are kept by a commit. *)
Context (inner : tables -> res db_error (tables * pydict)).

Definition result_cell (result : pydict) : cell := CJson (JDict (_stamp_firmware_persistence_walk_result result)).

Definition run_linux_persistence_walk_background (e : run_env) (s : option row * tables) : option row * tables :=
  match s.1 with
  | None => s
  | Some r =>
      if negb e.(begin_ok) then s
      else
        let running := set_columns r [(STATUS, CText "running"); (STARTED, CTime e.(begins))] in
        let failed := set_columns running [(STATUS, CText "failed"); (FINISHED, CTime e.(ends)); (ERROR, CText (last_chars 2000 e.(traceback)))] in
        match inner s.2 with
        | Ok (t, result) =>
            if e.(commit_ok)
            then (Some (set_columns running [(STATUS, CText "completed"); (FINISHED, CTime e.(ends)); (RESULT, result_cell result)]), t)
            else (Some (if e.(fail_ok) then failed else running), s.2)
        | Err _ => (Some (if e.(fail_ok) then failed else running), s.2)
        end
  end.

(** The automatic run leaves the status alone. *)
Definition auto_linux_persistence_walk_firmware_safe (commit_ok : bool) (s : option row * tables) : option row * tables :=
  match s.1, inner s.2 with
  | Some r, Ok (t, result) => if commit_ok then (Some (<[RESULT := result_cell result]> r), t) else s
  | _, _ => s
  end.

Inductive walk_run := Manual (e : run_env) | Auto (commit_ok : bool).

Definition do_run (s : option row * tables) (w : walk_run) : option row * tables :=
  match w with
  | Manual e => run_linux_persistence_walk_background e s
  | Auto commit_ok => auto_linux_persistence_walk_firmware_safe commit_ok s
  end.
End Runners.

(** ** Which files are picked *)

(** A step that adds keys of hits, none twice: those that [P] tells of its argument. *)
Definition picks {H X} (keys : list H -> list string) (f : list H -> X -> list H) (P : X -> string -> Prop) : Prop :=
  forall hits x, NoDup (keys hits) -> NoDup (keys (f hits x)) /\ forall r, r ∈ keys (f hits x) <-> r ∈ keys hits \/ P x r.

Lemma picks_foldl {H X} (keys : list H -> list string) (f : list H -> X -> list H) (P : X -> string -> Prop) :
  picks keys f P -> picks keys (foldl f) (fun l r => exists x, x ∈ l /\ P x r).
Proof.
  intros Hf hits l. revert hits. induction l as [|x l IH]; intros hits Hn; cbn [foldl].
  { split; [done|]. intros r. split; [by left|]. intros [?|(x & Hx & _)]; [done|]. by apply not_elem_of_nil in Hx. }
  destruct (Hf hits x Hn) as [Hn1 H1]. destruct (IH _ Hn1) as [Hn2 H2]. split; [done|]. intros r. rewrite H2, H1.
  split; [intros [[?|?]|(y & Hy & ?)]|intros [?|(y & Hy & ?)]]; try (by left); try (by left; left).
  - right. exists x. by split; [left|].
  - right. exists y. by split; [right|].
  - apply elem_of_cons in Hy as [->|Hy]; [by left; right|]. right. by exists y.
Qed.

Lemma picks_seq {H X} (keys : list H -> list string) (f g : list H -> X -> list H) (P Q : X -> string -> Prop) :
  picks keys f P -> picks keys g Q -> picks keys (fun hits x => g (f hits x) x) (fun x r => P x r \/ Q x r).
Proof.
  intros Hf Hg hits x Hn. destruct (Hf hits x Hn) as [Hn1 H1]. destruct (Hg _ x Hn1) as [Hn2 H2].
  split; [done|]. intros r. rewrite H2, H1. tauto.
Qed.

Lemma picks_if {H X} (keys : list H -> list string) (b : X -> bool) (f : list H -> X -> list H) (P : X -> string -> Prop) :
  picks keys f P -> picks keys (fun hits x => if b x then f hits x else hits) (fun x r => b x = true /\ P x r).
Proof.
  intros Hf hits x Hn. destruct (b x) eqn:E; [|split; [done|]; intros r; split; [by left|intros [?|[? _]]; done]].
  destruct (Hf hits x Hn) as [Hn1 H1]. split; [done|]. intros r. rewrite H1. naive_solver.
Qed.

(** Taking a file whose key is new. *)
Lemma picks_add {H X} (key : H -> string) (mk : X -> H) (ok : X -> bool) :
  picks (fmap key) (fun hits x => if bool_decide (key (mk x) ∈ key <$> hits) || negb (ok x) then hits else (hits ++ [mk x])%list)
    (fun x r => r = key (mk x) /\ ok x = true).
Proof.
  intros hits x Hn. destruct (ok x) eqn:Eo; cbn [negb]; rewrite ?orb_true_r, ?orb_false_r.
  2: { split; [done|]. intros r. split; [by left|]. by intros [?|[_ ?]]. }
  case_bool_decide as Hin.
  - split; [done|]. intros r. split; [by left|]. by intros [?|[-> _]].
  - rewrite fmap_app. cbn [fmap list_fmap]. split.
    + apply NoDup_app. split_and!; [done| |apply NoDup_singleton]. intros r Hr ->%list_elem_of_singleton. by apply Hin.
    + intros r. rewrite elem_of_app, list_elem_of_singleton. naive_solver.
Qed.

Lemma picks_ext {H X} (keys : list H -> list string) (f g : list H -> X -> list H) (P Q : X -> string -> Prop) :
  picks keys f P -> (forall hits x, g hits x = f hits x) -> (forall x r, P x r <-> Q x r) -> picks keys g Q.
Proof. intros Hf Hg HPQ hits x Hn. rewrite Hg. destruct (Hf hits x Hn) as [H1 H2]. split; [done|]. intros r. by rewrite H2, HPQ. Qed.

Lemma picks_map {H X Y} (keys : list H -> list string) (f : list H -> X -> list H) (P : X -> string -> Prop) (m : Y -> X) :
  picks keys f P -> picks keys (fun hits y => f hits (m y)) (fun y r => P (m y) r).
Proof. intros Hf hits y. apply Hf. Qed.

Section Scans.
Context (o : os) (depth : nat).

(** The paths that the scans look at below a root. *)
Definition listed (dir : string) : list string := if isdir o dir then path_join dir <$> default [] (listdir o dir) else [].
Definition when_file (p : string) : list string := if isfile o p then [p] else [].

Definition cron_paths (root : string) : list string :=
  let sub := path_join (realpath o root) in
  (when_file (sub "etc/crontab") ++ listed (sub "etc/cron.d") ++
   List.filter (fun p => negb (isdir o p)) (listed (sub "var/spool/cron") ++ listed (sub "var/spool/cron/crontabs")))%list.

Definition system_paths (root : string) : list string := when_file (path_join (realpath o root) "etc/ld.so.preload").
Definition home_paths (root : string) : list string :=
  listed (path_join (realpath o root) "home") ≫= fun dir => when_file (path_join dir ".ld.so.preload").

Definition cron_keys_of : list cron_hit -> list string := fmap (fun h : cron_hit => h.1.1).

Lemma bash_picks :
  picks (fmap fst) (fun hits root => foldl (bash_visit o (realpath o root)) hits (histories o depth root))
    (fun root r => exists full, full ∈ histories o depth root /\ r = realpath o full /\ startswith r (realpath o root) = true).
Proof.
  intros hits root. apply picks_foldl.
  eapply picks_ext; [apply (picks_add fst (fun full => (realpath o full, relpath (realpath o full) (realpath o root)))
    (fun full => startswith (realpath o full) (realpath o root)))| |].
  - intros h full. unfold bash_visit. cbn [fst]. by rewrite orb_comm.
  - intros full r. cbn [fst]. split; intros [-> ?]; by split.
Qed.

Lemma maybe_add_picks {X} (full rel : X -> string) (b : bool) :
  picks cron_keys_of (fun hits x => _maybe_add o hits (full x) (rel x) b) (fun x r => r = realpath o (full x) /\ isfile o r = true).
Proof.
  eapply picks_ext; [apply (picks_add (fun h : cron_hit => h.1.1) (fun x => (realpath o (full x), rel x, b))
    (fun x => isfile o (realpath o (full x))))|done|].
  intros x r. cbn [fst]. split; intros [-> ?]; by split.
Qed.

Lemma elem_of_listed (dir p : string) :
  p ∈ listed dir <-> isdir o dir = true /\ exists entry, entry ∈ default [] (listdir o dir) /\ p = path_join dir entry.
Proof.
  unfold listed. destruct (isdir o dir); [|split; [by intros ?%not_elem_of_nil|by intros [? _]]].
  rewrite list_elem_of_fmap. split; [intros (e & -> & He); split; [done|]; by exists e|intros (_ & e & He & ->); by exists e].
Qed.

Lemma elem_of_when_file (q p : string) : p ∈ when_file q <-> p = q /\ isfile o q = true.
Proof. unfold when_file. destruct (isfile o q); rewrite ?list_elem_of_singleton, ?elem_of_nil; naive_solver. Qed.

Lemma spool_picks (rr : string) :
  picks cron_keys_of (spool o rr)
    (fun d r => exists full, full ∈ List.filter (fun p => negb (isdir o p)) (listed (path_join rr d)) /\
                             r = realpath o full /\ isfile o r = true).
Proof.
  intros hits d. unfold spool.
  assert (H : picks cron_keys_of (fun hits entry => if isdir o (path_join (path_join rr d) entry) then hits
      else _maybe_add o hits (path_join (path_join rr d) entry) (path_join d entry) true)
    (fun entry r => isdir o (path_join (path_join rr d) entry) = false /\
       r = realpath o (path_join (path_join rr d) entry) /\ isfile o r = true)).
  { eapply picks_ext; [apply (picks_if _ (fun e => negb (isdir o (path_join (path_join rr d) e))));
      apply (maybe_add_picks (fun e => path_join (path_join rr d) e) (fun e => path_join d e) true)| |].
    - intros h e. cbn. destruct (isdir o _); reflexivity.
    - intros e r. cbn. rewrite negb_true_iff. tauto. }
  intros Hn. destruct (isdir o (path_join rr d)) eqn:Ed.
  - destruct (picks_foldl _ _ _ H hits (default [] (listdir o (path_join rr d))) Hn) as [H1 H2]. split; [exact H1|].
    intros r. rewrite H2. split; (intros [?|Hx]; [by left|right]).
    + destruct Hx as (e & He & Hd & Hr & Hf). exists (path_join (path_join rr d) e). split_and!; [|done..].
      apply elem_of_filter_bool. rewrite elem_of_listed, negb_true_iff. split; [|done]. split; [done|]. by exists e.
    + destruct Hx as (full & Hfull & Hr & Hf). apply elem_of_filter_bool in Hfull as [Hl Hd%negb_true_iff].
      apply elem_of_listed in Hl as (_ & e & He & ->). exists e. by split_and!.
  - split; [done|]. intros r. split; [by left|]. intros [?|(full & Hfull & _)]; [done|].
    apply elem_of_filter_bool in Hfull as [[Hl _]%elem_of_listed _]. congruence.
Qed.

Lemma exists_app {A} (l k : list A) (P : A -> Prop) :
  (exists x, x ∈ (l ++ k)%list /\ P x) <-> (exists x, x ∈ l /\ P x) \/ (exists x, x ∈ k /\ P x).
Proof.
  split.
  - intros (x & [Hx|Hx]%elem_of_app & HP); [left|right]; eauto.
  - intros [(x & Hx & HP)|(x & Hx & HP)]; exists x; (split; [|done]); apply elem_of_app; tauto.
Qed.

Lemma exists_when_file (q : string) (P : string -> Prop) :
  (exists x, x ∈ when_file q /\ P x) <-> isfile o q = true /\ P q.
Proof.
  split; [by intros (x & [-> ?]%elem_of_when_file & ?)|]. intros [? ?]. exists q. split; [|done]. by apply elem_of_when_file.
Qed.

Lemma exists_listed (dir : string) (P : string -> Prop) :
  (exists x, x ∈ listed dir /\ P x) <->
  isdir o dir = true /\ exists entry, entry ∈ default [] (listdir o dir) /\ P (path_join dir entry).
Proof.
  split.
  - intros (x & [? (e & He & ->)]%elem_of_listed & ?). split; [done|]. by exists e.
  - intros [? (e & He & ?)]. exists (path_join dir e). split; [|done]. apply elem_of_listed. split; [done|]. by exists e.
Qed.

Lemma exists_pair {A} (a b : A) (P : A -> Prop) : (exists x, x ∈ [a; b] /\ P x) <-> P a \/ P b.
Proof.
  split.
  - intros (x & [->|Hx]%elem_of_cons & HP); [by left|]. apply list_elem_of_singleton in Hx as ->. by right.
  - intros [?|?]; [exists a|exists b]; (split; [|done]); [by left|by right; left].
Qed.

Lemma cron_picks :
  picks cron_keys_of (cron_root o)
    (fun root r => exists full, full ∈ cron_paths root /\ r = realpath o full /\ isfile o r = true).
Proof.
  pose (rr := realpath o).
  assert (H1 : picks cron_keys_of (fun hits root => if isfile o (path_join (rr root) "etc/crontab")
      then _maybe_add o hits (path_join (rr root) "etc/crontab") "etc/crontab" false else hits)
    (fun root r => isfile o (path_join (rr root) "etc/crontab") = true /\
       r = realpath o (path_join (rr root) "etc/crontab") /\ isfile o r = true)).
  { apply picks_if, (maybe_add_picks (fun root => path_join (rr root) "etc/crontab") (fun _ => "etc/crontab")). }
  assert (H2 : picks cron_keys_of (fun hits root => if isdir o (path_join (rr root) "etc/cron.d")
      then foldl (fun hits entry => _maybe_add o hits (path_join (path_join (rr root) "etc/cron.d") entry)
                    (path_join "etc/cron.d" entry) false) hits (default [] (listdir o (path_join (rr root) "etc/cron.d")))
      else hits)
    (fun root r => isdir o (path_join (rr root) "etc/cron.d") = true /\
       exists entry, entry ∈ default [] (listdir o (path_join (rr root) "etc/cron.d")) /\
         r = realpath o (path_join (path_join (rr root) "etc/cron.d") entry) /\ isfile o r = true)).
  { apply picks_if. intros hits root. apply picks_foldl.
    apply (maybe_add_picks (fun e => path_join (path_join (rr root) "etc/cron.d") e) (fun e => path_join "etc/cron.d" e)). }
  assert (H3 : picks cron_keys_of (fun hits root => foldl (spool o (rr root)) hits ["var/spool/cron"; "var/spool/cron/crontabs"])
    (fun root r => exists d, d ∈ ["var/spool/cron"; "var/spool/cron/crontabs"] /\
       exists full, full ∈ List.filter (fun p => negb (isdir o p)) (listed (path_join (rr root) d)) /\
         r = realpath o full /\ isfile o r = true)).
  { intros hits root. apply picks_foldl, spool_picks. }
  eapply picks_ext; [exact (picks_seq _ _ _ _ _ (picks_seq _ _ _ _ _ H1 H2) H3)|done|].
  intros root r. unfold cron_paths. rewrite List.filter_app, !exists_app, exists_when_file, exists_listed, exists_pair. unfold rr. tauto.
Qed.

Lemma preload_picks :
  picks (fmap fst) (preload_root o)
    (fun root r => (exists full, full ∈ system_paths root /\ r = realpath o full) \/
                   (exists full, full ∈ home_paths root /\ r = realpath o full /\ startswith r (realpath o root) = true)).
Proof.
  pose (rr := realpath o). pose (sys := fun root => path_join (rr root) "etc/ld.so.preload").
  assert (H1 : picks (fmap fst) (fun hits root => if isfile o (sys root) && negb (bool_decide (realpath o (sys root) ∈ hits.*1))
      then (hits ++ [(realpath o (sys root), "etc/ld.so.preload")])%list else hits)
    (fun root r => isfile o (sys root) = true /\ r = realpath o (sys root))).
  { eapply picks_ext; [apply (picks_add fst (fun root => (realpath o (sys root), "etc/ld.so.preload")) (fun root => isfile o (sys root)))| |].
    - intros h root. cbn [fst]. destruct (isfile o _), (bool_decide _); reflexivity.
    - intros root r. cbn [fst]. tauto. }
  assert (H2 : picks (fmap fst) (fun hits root => if isdir o (path_join (rr root) "home")
      then foldl (home_visit o (rr root) (path_join (rr root) "home")) hits (default [] (listdir o (path_join (rr root) "home"))) else hits)
    (fun root r => isdir o (path_join (rr root) "home") = true /\ exists ud, ud ∈ default [] (listdir o (path_join (rr root) "home")) /\
       let cand := path_join (path_join (path_join (rr root) "home") ud) ".ld.so.preload" in
       isfile o cand = true /\ r = realpath o cand /\ startswith r (rr root) = true)).
  { apply picks_if. intros hits root. apply picks_foldl.
    pose (cand := fun ud => path_join (path_join (path_join (rr root) "home") ud) ".ld.so.preload").
    eapply picks_ext; [apply (picks_add fst (fun ud => (realpath o (cand ud), path_join (path_join "home" ud) ".ld.so.preload"))
      (fun ud => isfile o (cand ud) && startswith (realpath o (cand ud)) (rr root)))| |].
    - intros h ud. unfold home_visit. cbn [fst]. fold (cand ud).
      destruct (isfile o (cand ud)); cbn [andb negb]; [reflexivity|by rewrite orb_true_r].
    - intros ud r. cbn [fst]. fold (cand ud). rewrite andb_true_iff. split; [by intros [-> [? ?]]|by intros [? [-> ?]]]. }
  eapply picks_ext; [exact (picks_seq _ _ _ _ _ H1 H2)|done|].
  intros root r. unfold system_paths, home_paths. setoid_rewrite elem_of_when_file.
  split; (intros [H|H]; [left|right]).
  - destruct H as [? ->]. by eexists.
  - destruct H as (Hd & ud & Hud & Hf & -> & Hs). eexists. split; [|by split]. apply list_elem_of_bind.
    eexists. split; [by apply elem_of_when_file|]. apply elem_of_listed. split; [done|]. by exists ud.
  - destruct H as (full & [-> ?] & ->). done.
  - destruct H as (full & Hfull & -> & Hs). apply list_elem_of_bind in Hfull as (dir & [-> Hf]%elem_of_when_file & Hl).
    apply elem_of_listed in Hl as (Hd & ud & Hud & ->). split; [done|]. by exists ud.
Qed.

Lemma in_nil_or {A} (x : A) (Q : Prop) : x ∈ [] \/ Q <-> Q.
Proof. split; [intros [[]%not_elem_of_nil|]; done|by right]. Qed.

(** C30. The three scans, as sets of real paths.  No file is picked twice.  The histories are
    exactly the files named so whose real path begins with the real root.  The crontabs are
    exactly the regular files that /etc/crontab, the entries of /etc/cron.d and of the two
    spools lead to, and the system's ld.so.preload is what etc/ld.so.preload leads to -
    wherever that is: only a preload file below /home must again begin with the root. *)
Theorem scans_spec (roots : list string) :
  let bash := (_scan_bash_history_candidates_sync o depth roots).*1 in
  let cron := cron_keys_of (_scan_crontab_candidates_sync o roots) in
  let preload := (_scan_ld_preload_candidates_sync o roots).*1 in
  NoDup bash /\ NoDup cron /\ NoDup preload /\
  (forall r, r ∈ bash <-> exists root, root ∈ roots /\ exists full, full ∈ histories o depth root /\
     r = realpath o full /\ startswith r (realpath o root) = true) /\
  (forall r, r ∈ cron <-> exists root, root ∈ roots /\ exists full, full ∈ cron_paths root /\
     r = realpath o full /\ isfile o r = true) /\
  (forall r, r ∈ preload <-> exists root, root ∈ roots /\
     ((exists full, full ∈ system_paths root /\ r = realpath o full) \/
      (exists full, full ∈ home_paths root /\ r = realpath o full /\ startswith r (realpath o root) = true))).
Proof.
  intros bash cron preload.
  destruct (picks_foldl _ _ _ bash_picks [] roots (NoDup_nil_2)) as [Hb1 Hb2].
  destruct (picks_foldl _ _ _ cron_picks [] roots (NoDup_nil_2)) as [Hc1 Hc2].
  destruct (picks_foldl _ _ _ preload_picks [] roots (NoDup_nil_2)) as [Hp1 Hp2].
  split_and!; [exact Hb1|exact Hc1|exact Hp1|intros r..].
  - exact (iff_trans (Hb2 r) (in_nil_or r _)).
  - exact (iff_trans (Hc2 r) (in_nil_or r _)).
  - exact (iff_trans (Hp2 r) (in_nil_or r _)).
Qed.
End Scans.

(** A tree with a crontab that is a link to a file of the host, a history that is a link to
    one, another that is a link into a directory beside the root whose name begins like the
    root's, and the history of a user named dev. *)
Definition leaky_os : os :=
  {| realpath := fun p =>
       match (list_to_map [("/fw/r/etc/crontab", "/app/.env"); ("/fw/r/home/bob/.bash_history", "/app/.env");
                          ("/fw/r/home/eve/.bash_history", "/fw/r-backup/log")] : gmap string string) !! p with
       | Some q => q
       | None => p
       end;
     readlink := fun _ => None;
     os_exists := fun _ => true;
     isdir := fun p => bool_decide (p ∈ ["/fw/r"; "/fw/r/home"; "/fw/r/home/bob"; "/fw/r/home/eve"; "/fw/r/home/dev"]);
     isfile := fun p => bool_decide (p ∈ ["/fw/r/etc/crontab"; "/app/.env"; "/fw/r-backup/log"; "/fw/r/home/dev/.bash_history"]);
     scandir := fun p =>
       let dir name := {| d_name := name; d_is_dir := true; d_is_file := false |} in
       let reg name := {| d_name := name; d_is_dir := false; d_is_file := true |} in
       (list_to_map [("/fw/r", [dir "home"]); ("/fw/r/home", [dir "bob"; dir "eve"; dir "dev"]);
                    ("/fw/r/home/bob", [reg ".bash_history"]); ("/fw/r/home/eve", [reg ".bash_history"]);
                    ("/fw/r/home/dev", [reg ".bash_history"])] : gmap string (list dentry)) !! p |}.

Example scans_leak :
  _scan_crontab_candidates_sync leaky_os ["/fw/r"] = [("/app/.env", "etc/crontab", false)] /\
  _scan_bash_history_candidates_sync leaky_os 5 ["/fw/r"] = [("/fw/r-backup/log", "../r-backup/log")].
Proof. by vm_compute. Qed.

(** ** The walk as a whole *)

Section Lines.
Context {F E R : Type} (parse : F -> list E) (row_of : F -> E -> R) (fits : R -> bool) (max_lines : Z).

(** All lines of the files, one after the other. *)
Definition all_lines (files : list F) : list (F * E) := files ≫= fun f => pair f <$> parse f.

Lemma stored_walk (p : Z) (files : list F) :
  stored (walk_files parse max_lines p files) = ztake (max_lines - p) (all_lines files).
Proof.
  revert p. induction files as [|f files IH]; intros p.
  - rewrite ztake_eq. by destruct (Z.to_nat _).
  - cbn [walk_files]. rewrite (ztake_eq _ (all_lines _)). destruct (max_lines <=? p) eqn:El.
    + rewrite (Z2Nat.nonpos (max_lines - p)) by lia. by rewrite take_0.
    + unfold stored, all_lines in *. rewrite !bind_cons. cbn [fst snd].
      rewrite IH, !ztake_eq, take_app, length_fmap, fmap_take. f_equal. f_equal. unfold zlen. rewrite length_take. lia.
Qed.

Lemma persist_spec (files : list F) :
  persist parse row_of fits max_lines files =
    if forallb (fun fe => fits (row_of fe.1 fe.2)) (ztake max_lines (all_lines files))
    then Ok (walk_files parse max_lines 0 files) else Err DataError.
Proof.
  unfold persist, rows_of. by rewrite stored_walk, Z.sub_0_r, forallb_fmap.
Qed.
End Lines.

(** ** What a walk stores and counts *)

Section Counting.
Context {F E : Type} (flags : E -> pydict).

Lemma count_app (key : string) (l k : list E) : count_flag flags key (l ++ k)%list = count_flag flags key l + count_flag flags key k.
Proof. unfold count_flag. by rewrite List.filter_app, zlen_app. Qed.

(** The loop adds the counts of the files up to the count over all of their lines. *)
Lemma sum_flag_stored (key : string) (walked : list (F * list E)) :
  sum_flag flags walked key = count_flag flags key (stored walked).*2.
Proof.
  assert (H : forall n, foldl (fun n fe => n + count_flag flags key fe.2) n walked = n + count_flag flags key (stored walked).*2).
  { induction walked as [|[f es] l IH]; intros n; [unfold count_flag, zlen; cbn; lia|]. cbn [foldl]. rewrite IH. unfold stored.
    rewrite bind_cons, fmap_app, count_app. cbn [fst snd]. rewrite <- list_fmap_compose. cbn. rewrite list_fmap_id. lia. }
  apply H.
Qed.

Lemma lines_persisted_stored (walked : list (F * list E)) : lines_persisted walked = zlen (stored walked).
Proof.
  assert (H : forall n, foldl (fun n (fe : F * list E) => n + zlen fe.2) n walked = n + zlen (stored walked)).
  { induction walked as [|[f es] l IH]; intros n; [unfold zlen; cbn; lia|]. cbn [foldl]. rewrite IH. unfold stored.
    rewrite bind_cons, zlen_app, zlen_fmap. cbn [fst snd]. lia. }
  apply H.
Qed.

(** The flags raised by a line. *)
Definition raised (keys : list string) (e : E) : Z := zlen (List.filter (fun key => py_truthy (dict_get_or key JNull (flags e))) keys).

Lemma zsum_cons (x : Z) (l : list Z) : zsum (x :: l) = x + zsum l.
Proof.
  unfold zsum. cbn [foldl]. assert (H : forall n m, foldl Z.add (n + m) l = n + foldl Z.add m l).
  { induction l as [|y l IH]; intros n m; [done|]. cbn [foldl]. by rewrite <- Z.add_assoc, IH. }
  by rewrite Z.add_comm, H.
Qed.

Lemma zsum_app (l k : list Z) : zsum (l ++ k)%list = zsum l + zsum k.
Proof. induction l as [|x l IH]; [done|]. rewrite <- app_comm_cons, !zsum_cons, IH. lia. Qed.

(** Counting by flags and counting by lines. *)
Lemma counts_by_line (keys : list string) (l : list E) :
  zsum ((fun key => count_flag flags key l) <$> keys) = zsum (raised keys <$> l).
Proof.
  induction l as [|e l IH].
  - induction keys as [|key keys IH]; [done|]. rewrite fmap_cons, zsum_cons, IH. done.
  - rewrite fmap_cons, zsum_cons, <- IH. clear IH. induction keys as [|key keys IH]; [done|].
    rewrite !fmap_cons, !zsum_cons, IH. unfold raised, count_flag. cbn [List.filter].
    destruct (py_truthy _); rewrite ?zlen_cons; lia.
Qed.
End Counting.

Section Result.
Context (o : os) (read : string -> option bytes) (depth : nat) (max_lines : Z) (roots : list string).

(** The lines that are stored: the first [max_lines] of each kind. *)
Definition bash_lines : list (hit * bash_entry) :=
  ztake max_lines (all_lines (bash_parse read) (_scan_bash_history_candidates_sync o depth roots)).
Definition cron_lines : list (cron_hit * cron_entry) :=
  ztake max_lines (all_lines (cron_parse read) (_scan_crontab_candidates_sync o roots)).
Definition preload_lines : list (hit * preload_entry) :=
  ztake max_lines (all_lines (preload_parse read) (_scan_ld_preload_candidates_sync o roots)).

Definition bash_new : list LinuxBashHistoryEntry := (fun fe => bash_row fe.1.2 fe.2) <$> bash_lines.
Definition cron_new : list LinuxCronJob := (fun fe => cron_row fe.1.1.2 fe.2) <$> cron_lines.
Definition preload_new : list LinuxLdPreloadEntry := (fun fe => preload_row fe.1.2 fe.2) <$> preload_lines.

Definition all_fit : bool := forallb bash_fits bash_new && forallb cron_fits cron_new && forallb preload_fits preload_new.

Definition with_new (t : tables) : tables :=
  {| bash_rows := t.(bash_rows) ++ bash_new; cron_rows := t.(cron_rows) ++ cron_new;
     preload_rows := t.(preload_rows) ++ preload_new |}%list.

Definition counted {E} (flags : E -> pydict) (keys : list string) (prefix : string) (l : list E) (agg : pydict) : Prop :=
  forall key, key ∈ keys -> dict_get (prefix +:+ counter key) agg = Some (JInt (count_flag flags key l)).

Definition anomalies : Z :=
  zsum (raised bash_flags bash_keys <$> bash_lines.*2) + zsum (raised cron_flags cron_keys <$> cron_lines.*2) +
  zsum (raised preload_flags preload_keys <$> preload_lines.*2).

Definition describes (agg : pydict) : Prop :=
  dict_get "bash_history_lines_persisted" agg = Some (JInt (zlen bash_new)) /\
  dict_get "cron_lines_persisted" agg = Some (JInt (zlen cron_new)) /\
  dict_get "ld_preload_lines_persisted" agg = Some (JInt (zlen preload_new)) /\
  counted bash_flags bash_keys "bash_" bash_lines.*2 agg /\ counted cron_flags cron_keys "cron_" cron_lines.*2 agg /\
  counted preload_flags preload_keys "ld_preload_" preload_lines.*2 agg /\
  dict_get "anomaly_total" agg = Some (JInt anomalies) /\ dict_get "errors" agg = Some (JList []).

Lemma describes_dict (s : json) (n : Z) (scanned persisted : Z * Z * Z) (per : list json) (fb fc fl : string -> Z) :
  persisted = (zlen bash_new, zlen cron_new, zlen preload_new) -> n = anomalies ->
  (forall key, fb key = count_flag bash_flags key bash_lines.*2) ->
  (forall key, fc key = count_flag cron_flags key cron_lines.*2) ->
  (forall key, fl key = count_flag preload_flags key preload_lines.*2) ->
  describes (result_dict s scanned persisted
    (((fun key => ("bash_" +:+ counter key, JInt (fb key))) <$> bash_keys) ++
     ((fun key => ("cron_" +:+ counter key, JInt (fc key))) <$> cron_keys) ++
     ((fun key => ("ld_preload_" +:+ counter key, JInt (fl key))) <$> preload_keys))%list n per).
Proof.
  intros -> -> Hb Hc Hl. unfold describes, counted, bash_keys, cron_keys, preload_keys.
  split_and!; try done; intros key Hkey; repeat (apply elem_of_cons in Hkey as [->|Hkey]); try (by apply not_elem_of_nil in Hkey).
  all: rewrite <- ?Hb, <- ?Hc, <- ?Hl; done.
Qed.

Lemma no_roots : roots = [] -> bash_lines = [] /\ cron_lines = [] /\ preload_lines = [].
Proof. unfold bash_lines, cron_lines, preload_lines. intros ->. rewrite !ztake_eq. cbn. by destruct (Z.to_nat max_lines). Qed.

Lemma walk_nonempty (run_seconds : json) (t : tables) :
  roots <> [] -> _do_linux_persistence_walk o read depth max_lines run_seconds (Some roots) t =
                 walk_roots o read depth max_lines run_seconds roots t.
Proof. by destruct roots. Qed.

Lemma walk_cases (run_seconds : json) (t : tables) :
  match _do_linux_persistence_walk o read depth max_lines run_seconds (Some roots) t with
  | Ok (t', agg) => all_fit = true /\ t' = with_new t /\ describes agg
  | Err DataError => all_fit = false
  end.
Proof.
  unfold all_fit, with_new. destruct (decide (roots = [])) as [E|Hne].
  - destruct no_roots as (Hb & Hc & Hl); [done|]. unfold bash_new, cron_new, preload_new. rewrite E, Hb, Hc, Hl.
    cbn [_do_linux_persistence_walk fmap list_fmap forallb andb]. rewrite !app_nil_r. split_and!; [done|by destruct t|].
    unfold _empty_walk_result. apply describes_dict; unfold bash_new, cron_new, preload_new, anomalies; by rewrite ?Hb, ?Hc, ?Hl.
  - rewrite walk_nonempty by done. unfold walk_roots. rewrite !persist_spec. unfold bash_new, cron_new, preload_new, bash_lines, cron_lines, preload_lines.
    rewrite !forallb_fmap. set (fl := forallb _ _). set (fc := forallb _ _). set (fb := forallb _ _).
    destruct fb; [|by destruct fc, fl]. destruct fc; [|by destruct fl]. destruct fl; [|done]. cbn [mbind res_bind andb].
    split_and!; [done| |].
    + unfold add_rows, rows_of. by rewrite !stored_walk, !Z.sub_0_r.
    + apply describes_dict.
      * unfold bash_new, cron_new, preload_new. by rewrite !lines_persisted_stored, !stored_walk, !Z.sub_0_r, !zlen_fmap.
      * unfold anomalies. rewrite !zsum_app, <- !counts_by_line, Z.add_assoc. unfold bash_keys, cron_keys, preload_keys.
        cbn [fmap list_fmap]. by rewrite !sum_flag_stored, !stored_walk, !Z.sub_0_r.
      * intros key. by rewrite sum_flag_stored, stored_walk, Z.sub_0_r.
      * intros key. by rewrite sum_flag_stored, stored_walk, Z.sub_0_r.
      * intros key. by rewrite sum_flag_stored, stored_walk, Z.sub_0_r.
Qed.

(** C28. What a walk does.  The rows it adds are the first [max_lines] lines of the
    histories, of the crontabs and of the ld.so.preload files, in the order in which the
    scans pick the files; nothing that was stored before is removed.  The aggregate counts
    them: lines, lines per flag, and as total the flags of all lines.  It fails exactly when
    a column refuses one of these rows, and then no row is added. *)
Theorem walk_spec (run_seconds : json) (t : tables) :
  match _do_linux_persistence_walk o read depth max_lines run_seconds (Some roots) t with
  | Ok (t', agg) => all_fit = true /\ t' = with_new t /\ describes agg
  | Err DataError => all_fit = false
  end.
Proof. exact (walk_cases run_seconds t). Qed.

(** ** Runs one after the other *)

(** The tables with the rows of [n] walks. *)
Fixpoint walked (n : nat) (t : tables) : tables := match n with O => t | S n => with_new (walked n t) end.

(** The runs that end with a commit. *)
Definition commits (w : walk_run) : bool := match w with Manual e => e.(begin_ok) && e.(commit_ok) | Auto ok => ok end.

Lemma do_run_spec (run_seconds : json) (w : walk_run) (r : row) (t : tables) :
  exists r', do_run (_do_linux_persistence_walk o read depth max_lines run_seconds (Some roots)) (Some r, t) w =
    (Some r', if all_fit && commits w then with_new t else t).
Proof.
  pose proof (walk_cases run_seconds t) as H. unfold do_run, run_linux_persistence_walk_background, auto_linux_persistence_walk_firmware_safe.
  cbn [fst snd]. destruct (_do_linux_persistence_walk _ _ _ _ _ _ _) as [[t' agg]|[]].
  - destruct H as (-> & -> & _). destruct w as [e|[]]; cbn [commits andb]; [|by eexists..].
    destruct (begin_ok e), (commit_ok e); cbn [negb andb]; by eexists.
  - rewrite H. destruct w as [e|[]]; cbn [commits andb]; [|by eexists..]. destruct (begin_ok e); cbn [negb]; by eexists.
Qed.

(** The rows of a firmware after any runs of its walk, automatic or started by hand.  If
    a column refuses one line, no run ever stores a row of any kind; otherwise every run that
    commits adds all rows again to those of the runs before it. *)
Theorem runs_accumulate (ws : list (json * walk_run)) (r : row) (t : tables) :
  exists r', foldl (fun s w => do_run (_do_linux_persistence_walk o read depth max_lines w.1 (Some roots)) s w.2) (Some r, t) ws =
    (Some r', if all_fit then walked (List.length (List.filter (fun w => commits w.2) ws)) t else t).
Proof.
  assert (Hw : forall n t, walked n (with_new t) = with_new (walked n t)).
  { induction n as [|n IH]; intros u; [done|]. cbn [walked]. by rewrite IH. }
  revert r t. induction ws as [|w ws IH]; intros r t; cbn [foldl].
  { exists r. by destruct all_fit. }
  destruct (do_run_spec w.1 w.2 r t) as [r1 ->]. destruct (IH r1 (if all_fit && commits w.2 then with_new t else t)) as [r2 ->].
  exists r2. f_equal. cbn [List.filter]. destruct all_fit; [|done]. destruct (commits w.2); cbn [andb List.length walked]; [|done]. apply Hw.
Qed.
End Result.

(** ** A walk on concrete files *)

Definition demo_os : os :=
  plain_os ["/fw/r/etc/crontab"; "/fw/r/root/.bash_history"; "/fw/r/etc/ld.so.preload"] ["/fw"; "/fw/r"; "/fw/r/etc"; "/fw/r/root"].

Definition demo_read (preload : string) (p : string) : option bytes :=
  if bool_decide (p = "/fw/r/etc/crontab") then file ("@reboot root /tmp/.x" +:+ nl +:+ "0 3 * * * root sync" +:+ nl)
  else if bool_decide (p = "/fw/r/root/.bash_history") then file ("ls" +:+ nl +:+ "history -c" +:+ nl)
  else if bool_decide (p = "/fw/r/etc/ld.so.preload") then file preload
  else None.

Definition no_rows : tables := {| bash_rows := []; cron_rows := []; preload_rows := [] |}.

Definition demo_walk (preload : string) : res db_error (tables * pydict) :=
  _do_linux_persistence_walk demo_os (demo_read preload) 5 100000 (JInt 0) (Some ["/fw/r"]) no_rows.

Example demo_walk_ex :
  match demo_walk "/tmp/evil.so" with
  | Ok (t, agg) =>
      b_command <$> t.(bash_rows) = ["ls"; "history -c"] /\
      (fun r => (r.(c_schedule_spec), r.(c_user), r.(c_command))) <$> t.(cron_rows) =
        [(Some "@reboot", Some "root", "/tmp/.x"); (Some "0 3 * * *", Some "root", "sync")] /\
      l_library_path <$> t.(preload_rows) = ["/tmp/evil.so"] /\
      dict_get "anomaly_total" agg = Some (JInt 5)
  | Err _ => False
  end.
Proof. by vm_compute. Qed.

(** One NUL byte in a file makes the whole walk fail. *)
Example nul_fails : demo_walk ("/lib/a" +:+ String (ascii_of_N 0) "b.so") = Err DataError.
Proof. by vm_compute. Qed.

(** So does a spool file whose name is longer than the column for users. *)
Example long_user_fails :
  forallb (fun e => cron_fits (cron_row "var/spool/cron/u" e))
    (_parse_crontab_file (Some (PyText.join "" (replicate 65 "u"))) (file "0 3 * * * sync")) = false /\
  forallb (fun e => cron_fits (cron_row "var/spool/cron/u" e))
    (_parse_crontab_file (Some (PyText.join "" (replicate 64 "u"))) (file "0 3 * * * sync")) = true.
Proof. by vm_compute. Qed.
