(* ===== verification/PersistFindings.v ===== *)
(** * Findings on persistence artefacts ([services/finding_service.py])

    The classifiers of the rows that [PersistWalk] stores and the emission over them.  A row
    comes back from the database with the keys of its flags in an order of the database's;
    creating a finding fails where a column of [findings] refuses a value. *)

From S2P Require Import Prelude PyText PosixPath Regex PyLines Json Jsonb JsonbColumns VirtualFs Findings LinuxPersist PersistWalk.
From Stdlib Require Import Ascii String.
Import (notations) Ascii String.
#[local] Open Scope Z_scope.

Definition _SOURCE_LINUX_BASH_HISTORY_CLEAR : string := "linux_bash_history_clear".
Definition _SOURCE_LINUX_CRON_SUSPICIOUS_COMMAND : string := "linux_cron_suspicious_command".
Definition _SOURCE_LINUX_LD_PRELOAD_HIJACK : string := "linux_ld_preload_hijack".

(** ** Evidence *)

(** [(command or '')[:200]!r] *)
Definition shown_command (command : option string) : string := repr_str (take_chars 200 (default "" command)).

Definition _bash_history_evidence_lines (source_file : string) (line_number : Z) (command : option string)
    (suspicious_flags : pydict) (tier_label : string) : list string :=
  ["Tier: " +:+ tier_label;
   "Source file: " +:+ source_file;
   "Line number: " +:+ str_int line_number;
   "Command: " +:+ shown_command command;
   "Suspicious flags: " +:+ py_repr (JDict suspicious_flags)].

Definition _cron_evidence_lines (source_file : string) (line_number : Z) (schedule_spec user command : option string)
    (suspicious_flags : pydict) (tier_label : string) : list string :=
  ["Tier: " +:+ tier_label;
   "Source file: " +:+ source_file;
   "Line number: " +:+ str_int line_number;
   "Schedule: " +:+ or_str schedule_spec "(unparseable)";
   "User: " +:+ or_str user "(unspecified)";
   "Command: " +:+ shown_command command;
   "Suspicious flags: " +:+ py_repr (JDict suspicious_flags)].

Definition _ld_preload_evidence_lines (source_file : string) (line_number : Z) (library_path : option string)
    (suspicious_flags : pydict) (tier_label : string) : list string :=
  ["Tier: " +:+ tier_label;
   "Source file: " +:+ source_file;
   "Line number: " +:+ str_int line_number;
   "Library path: " +:+ or_str library_path "(empty)";
   "Suspicious flags: " +:+ py_repr (JDict suspicious_flags)].

(** ** Classifiers *)

Definition bash_clear_draft (source_file : string) (line_number : Z) (command : option string) (suspicious_flags : pydict)
    : FindingDraft :=
  {| source := _SOURCE_LINUX_BASH_HISTORY_CLEAR;
     severity := sev_high;
     title := "bash_history clear attempt: " +:+ source_file +:+ ":" +:+ str_int line_number;
     description :=
   "A bash_history line invokes a clear-history primitive " +:+
   "(`history -c`, `: > ~/.bash_history`, `rm -f ~/.bash_history`, `unset HISTFILE`, `export HISTSIZE=0`, " +:+
   "`set +o history`). T1070.003 Indicator Removal: Clear " +:+
   "Command History. The cleanup attempt itself remains in the " +:+
   "ON-DISK .bash_history file BELOW the cleanup line (and in " +:+
   "wairz's persisted rows) — adversaries who clear interactive " +:+
   "history typically leave the cleanup command itself behind. " +:+
   "PARSE-ONLY: wairz NEVER executes the recorded commands. " +:+
   "Operator should correlate with the surrounding lines " +:+
   "(line_number-10 .. line_number+10) to identify what the " +:+
   "adversary tried to hide.";
     evidence := lines (_bash_history_evidence_lines source_file line_number command suspicious_flags
       ("HIGH (T1070.003 Indicator Removal: Clear Command History — the " +:+
        "command itself attempts to clear bash_history; its presence in " +:+
        "the persisted history is the evidence.)"));
     confidence := conf_high |}.

Definition classify_bash_history_findings_persistence (source_file : string) (line_number : Z) (command : option string)
    (suspicious_flags : pydict) : list FindingDraft :=
  if negb (flag "clear_marker" suspicious_flags) then []
  else [bash_clear_draft source_file line_number command suspicious_flags].

Definition cron_draft (source_file : string) (line_number : Z) (schedule_spec user command : option string)
    (suspicious_flags : pydict) : FindingDraft :=
  let tactics_parts :=
    ((if flag "temp_path_command" suspicious_flags then ["T1543.002 / T1053.003 (command from /tmp/ or /dev/shm/)"] else []) ++
     (if flag "reboot_persistence" suspicious_flags then ["T1547 (Boot or Logon Autostart)"] else []) ++
     (if flag "network_egress_pattern" suspicious_flags then ["T1105 + T1071 (network egress in cron)"] else []))%list in
  {| source := _SOURCE_LINUX_CRON_SUSPICIOUS_COMMAND;
     severity := sev_medium;
     title := "Suspicious cron entry: " +:+ source_file +:+ ":" +:+ str_int line_number;
     description :=
   "A crontab line combines suspicious-shape indicators worth " +:+
   "operator review. Possible patterns: (a) the command runs " +:+
   "from /tmp/, /dev/shm/, /var/tmp/, or /run/shm/ — canonical " +:+
   "adversary-staging directories; T1543.002 / T1053.003. " +:+
   "(b) the schedule includes @reboot — boot-time re-execution " +:+
   "of a staged payload; T1547. (c) the command pipes through " +:+
   "curl / wget / nc / ncat / socat — network fetch in a " +:+
   "scheduled context, T1105 + T1071. wairz fires this finding " +:+
   "when at least one suspicious bit is set AND, if " +:+
   "reboot_persistence is the only bit, additionally requires " +:+
   "temp_path_command OR network_egress_pattern (to keep the " +:+
   "false-positive rate manageable; legitimate @reboot tasks " +:+
   "are common). PARSE-ONLY: wairz NEVER invokes the cron " +:+
   "command. Operator should examine the command, the user " +:+
   "field, and what the binary at that path actually does.";
     evidence := lines (_cron_evidence_lines source_file line_number schedule_spec user command suspicious_flags
       ("MEDIUM (" +:+ PyText.join ", " tactics_parts +:+
        " — cron line combines suspicious-shape flags warranting operator review.)"));
     confidence := conf_medium |}.

Definition classify_cron_findings_persistence (source_file : string) (line_number : Z) (schedule_spec user command : option string)
    (suspicious_flags : pydict) : list FindingDraft :=
  let temp_path := flag "temp_path_command" suspicious_flags in
  let reboot := flag "reboot_persistence" suspicious_flags in
  let egress := flag "network_egress_pattern" suspicious_flags in
  if negb (temp_path || egress || reboot && (temp_path || egress)) then []
  else [cron_draft source_file line_number schedule_spec user command suspicious_flags].

Definition preload_draft (source_file : string) (line_number : Z) (library_path : option string) (suspicious_flags : pydict)
    : FindingDraft :=
  let tier_label :=
    if flag "temp_path_library" suspicious_flags || flag "unusual_extension" suspicious_flags ||
       flag "world_writable_dir" suspicious_flags then
      "HIGH (T1574.006 Hijack Execution Flow: Dynamic Linker " +:+
      "Hijacking + suspicious indicators — library_path under " +:+
      "world-writable directory, /tmp/, /dev/shm/, /var/tmp/, " +:+
      "/run/shm/, OR unusual extension. Common Linux rootkit shape: " +:+
      "libprocesshider, Diamorphine variants, Reptile.)"
    else
      "HIGH (T1574.006 Hijack Execution Flow: Dynamic Linker " +:+
      "Hijacking — ANY ld.so.preload entry is inherently " +:+
      "sensitive; every dynamically-linked process loads listed " +:+
      "libraries BEFORE its own deps. Even without suspicious-shape " +:+
      "indicators, operator MUST verify legitimacy.)" in
  {| source := _SOURCE_LINUX_LD_PRELOAD_HIJACK;
     severity := sev_high;
     title := "ld.so.preload entry: " +:+ or_str library_path "(empty)" +:+ " in " +:+ source_file +:+ ":" +:+ str_int line_number;
     description :=
   "An entry was found in ld.so.preload. Every dynamically-" +:+
   "linked process spawned AFTER this file is written will " +:+
   "load the listed library BEFORE its own dependencies " +:+
   "resolve — adversary library functions can shadow libc " +:+
   "functions (open, read, write, stat, opendir) and hide " +:+
   "files / processes / network connections from every " +:+
   "userspace tool that doesn't make a raw syscall. T1574.006 " +:+
   "Hijack Execution Flow: Dynamic Linker Hijacking. Common " +:+
   "Linux rootkits using this primitive: libprocesshider, " +:+
   "Diamorphine variants, Reptile. PARSE-ONLY: wairz NEVER " +:+
   "loads any listed library, NEVER invokes ldconfig, NEVER " +:+
   "runs ldd against the path. Operator MUST verify whether " +:+
   "the library is legitimate — even one entry in this file " +:+
   "warrants thorough review.";
     evidence := lines (_ld_preload_evidence_lines source_file line_number library_path suspicious_flags tier_label);
     confidence := conf_high |}.

Definition classify_ld_preload_findings_persistence (source_file : string) (line_number : Z) (library_path : option string)
    (suspicious_flags : pydict) : list FindingDraft :=
  [preload_draft source_file line_number library_path suspicious_flags].

(** ** Emission *)

(** The columns of [findings] that take text of a draft. *)
Definition finding_fits (f : Finding) : bool :=
  varchar 1024 f.(f_draft).(title) && text_ok f.(f_draft).(description) && text_ok f.(f_draft).(evidence) &&
  varchar 2048 f.(f_file_path).

(** [create]: the insertion is flushed. *)
Definition create (f : Finding) : res db_error Finding := if finding_fits f then Ok f else Err DataError.

Definition as_dict (v : json) : pydict := match v with JDict d => d | _ => [] end.

Definition emit_rows {R} (path : R -> string) (classify : R -> list FindingDraft) (rows : list R) : res db_error (list Finding) :=
  mjoin <$> mapM (fun record => mapM (fun draft => create {| f_draft := draft; f_file_path := path record |}) (classify record)) rows.

Definition classify_bash_record (record : LinuxBashHistoryEntry) : list FindingDraft :=
  classify_bash_history_findings_persistence record.(b_source_file) record.(b_line_number) (Some record.(b_command))
    (as_dict (_normalize_linux_bash_history_suspicious_flags record.(b_suspicious_flags))).

Definition classify_cron_record (record : LinuxCronJob) : list FindingDraft :=
  classify_cron_findings_persistence record.(c_source_file) record.(c_line_number) record.(c_schedule_spec) record.(c_user)
    (Some record.(c_command)) (as_dict (_normalize_linux_cron_suspicious_flags record.(c_suspicious_flags))).

Definition classify_preload_record (record : LinuxLdPreloadEntry) : list FindingDraft :=
  classify_ld_preload_findings_persistence record.(l_source_file) record.(l_line_number) (Some record.(l_library_path))
    (as_dict (_normalize_linux_ld_preload_suspicious_flags record.(l_suspicious_flags))).

Definition emit_linux_persistence_findings_from_walk (t : tables) : res db_error (list Finding) :=
  bash ← emit_rows b_source_file classify_bash_record t.(bash_rows);
  cron ← emit_rows c_source_file classify_cron_record t.(cron_rows);
  ld ← emit_rows l_source_file classify_preload_record t.(preload_rows);
  Ok (bash ++ cron ++ ld)%list.

(** ** Reading rows back *)

Lemma dict_get_NoDup {A} (k : string) (v : A) (d : list (string * A)) : NoDup d.*1 -> (k, v) ∈ d -> dict_get k d = Some v.
Proof.
  induction d as [|[k' v'] d IH]; cbn; intros Hn H; [by apply not_elem_of_nil in H|]. apply NoDup_cons in Hn as [Hk Hn].
  apply elem_of_cons in H as [[= <- <-]|H]; [by rewrite decide_True|]. rewrite decide_False; [by apply IH|].
  intros ->. apply Hk, list_elem_of_fmap. by exists (k, v).
Qed.

(** A dict is read the same in any order of its keys. *)
Lemma dict_get_perm {A} (k : string) (d d' : list (string * A)) : NoDup d.*1 -> d' ≡ₚ d -> dict_get k d' = dict_get k d.
Proof.
  intros Hn Hp. assert (Hn' : NoDup d'.*1) by by rewrite Hp.
  destruct (dict_get k d) as [v|] eqn:E.
  - apply dict_get_elem in E. apply dict_get_NoDup; [done|]. by rewrite Hp.
  - destruct (dict_get k d') as [v|] eqn:E'; [|done]. apply dict_get_elem in E'. rewrite Hp in E'.
    by rewrite (dict_get_NoDup k v d Hn E') in E.
Qed.

Lemma emit_rows_spec {R} (path : R -> string) (classify : R -> list FindingDraft) (rows : list R) :
  let fs := rows ≫= fun record => (fun draft => {| f_draft := draft; f_file_path := path record |}) <$> classify record in
  emit_rows path classify rows = if forallb finding_fits fs then Ok fs else Err DataError.
Proof.
  assert (Hm : forall (mk : FindingDraft -> Finding) l, mapM (fun d => create (mk d)) l =
    if forallb finding_fits (mk <$> l) then Ok (mk <$> l) else Err DataError : res db_error _).
  { intros mk l. induction l as [|d l IH]; [done|]. cbn [mapM fmap list_fmap forallb]. rewrite IH. unfold create.
    destruct (finding_fits (mk d)); [|done]. by destruct (forallb _ _). }
  cbn zeta. unfold emit_rows. induction rows as [|r rows IH]; [done|]. rewrite bind_cons. cbn [mapM]. rewrite Hm, forallb_app.
  destruct (forallb finding_fits (_ <$> classify r)); [|done]. cbn [andb].
  revert IH. destruct (mapM _ rows) as [fss|[]]; cbn; destruct (forallb _ _); intros IH; try discriminate IH; [|done].
  injection IH as E. exact (f_equal (fun x => Ok (_ ++ x)%list) E).
Qed.

Section Findings.
(** What PostgreSQL makes of a JSON object: its keys in another order. *)
Context (jsonb : pydict -> pydict) (Hjsonb : forall d, NoDup d.*1 -> jsonb d ≡ₚ d).

Definition read_bash (r : LinuxBashHistoryEntry) : LinuxBashHistoryEntry :=
  {| b_source_file := r.(b_source_file); b_line_number := r.(b_line_number); b_command := r.(b_command);
     b_suspicious_flags := JDict (jsonb (as_dict r.(b_suspicious_flags))) |}.
Definition read_cron (r : LinuxCronJob) : LinuxCronJob :=
  {| c_source_file := r.(c_source_file); c_line_number := r.(c_line_number); c_schedule_spec := r.(c_schedule_spec);
     c_user := r.(c_user); c_command := r.(c_command); c_suspicious_flags := JDict (jsonb (as_dict r.(c_suspicious_flags))) |}.
Definition read_preload (r : LinuxLdPreloadEntry) : LinuxLdPreloadEntry :=
  {| l_source_file := r.(l_source_file); l_line_number := r.(l_line_number); l_library_path := r.(l_library_path);
     l_suspicious_flags := JDict (jsonb (as_dict r.(l_suspicious_flags))) |}.

(** The rows of three queries without an order. *)
Definition selected (stored r : tables) : Prop :=
  r.(bash_rows) ≡ₚ read_bash <$> stored.(bash_rows) /\ r.(cron_rows) ≡ₚ read_cron <$> stored.(cron_rows) /\
  r.(preload_rows) ≡ₚ read_preload <$> stored.(preload_rows).

Lemma flag_jsonb (key : string) (d : pydict) (b : bool) : NoDup d.*1 -> dict_get key d = Some (JBool b) -> flag key (jsonb d) = b.
Proof. intros Hn Hd. unfold flag, dict_get_or. rewrite (dict_get_perm key d) by auto. by rewrite Hd. Qed.

Definition finding_of (path : string) (draft : FindingDraft) : Finding := {| f_draft := draft; f_file_path := path |}.

(** The findings that are due to the lines of a firmware. *)
Definition clears (e : bash_entry) : bool := search _RE_BASH_CLEAR_HISTORY e.(be_command).
Definition bash_finding (fe : hit * bash_entry) : Finding :=
  let path := take_chars 2048 fe.1.2 in
  finding_of path (bash_clear_draft path fe.2.(be_line_number) (Some fe.2.(be_command))
    (jsonb (_stamp_linux_bash_history_suspicious_flags (bash_flags fe.2)))).

Definition fetches (e : cron_entry) : bool := search _RE_CRON_TEMP_PATH e.(ce_command) || search _RE_CRON_NETWORK_EGRESS e.(ce_command).
Definition cron_finding (fe : cron_hit * cron_entry) : Finding :=
  let path := take_chars 2048 fe.1.1.2 in
  finding_of path (cron_draft path fe.2.(ce_line_number) fe.2.(ce_schedule_spec) fe.2.(ce_user) (Some fe.2.(ce_command))
    (jsonb (_stamp_linux_cron_suspicious_flags (cron_flags fe.2)))).

Definition preload_finding (fe : hit * preload_entry) : Finding :=
  let path := take_chars 2048 fe.1.2 in
  finding_of path (preload_draft path fe.2.(pe_line_number) (Some (take_chars 2048 fe.2.(pe_library_path)))
    (jsonb (_stamp_linux_ld_preload_suspicious_flags (preload_flags fe.2)))).

Lemma classify_bash (fe : hit * bash_entry) :
  (fun d => finding_of (take_chars 2048 fe.1.2) d) <$> classify_bash_record (read_bash (bash_row fe.1.2 fe.2)) =
    if clears fe.2 then [bash_finding fe] else [].
Proof.
  unfold classify_bash_record, classify_bash_history_findings_persistence. cbn [read_bash bash_row b_suspicious_flags b_source_file b_line_number b_command as_dict].
  change (as_dict (_normalize_linux_bash_history_suspicious_flags (JDict ?d))) with d.
  rewrite (flag_jsonb _ _ (clears fe.2)); [by destruct (clears _)| |done]. by repeat (constructor; [set_solver|]); constructor.
Qed.

Lemma classify_cron (fe : cron_hit * cron_entry) :
  (fun d => finding_of (take_chars 2048 fe.1.1.2) d) <$> classify_cron_record (read_cron (cron_row fe.1.1.2 fe.2)) =
    if fetches fe.2 then [cron_finding fe] else [].
Proof.
  unfold classify_cron_record, classify_cron_findings_persistence. cbn [read_cron cron_row c_suspicious_flags c_source_file c_line_number c_command c_user c_schedule_spec as_dict].
  change (as_dict (_normalize_linux_cron_suspicious_flags (JDict ?d))) with d.
  assert (Hn : NoDup (_stamp_linux_cron_suspicious_flags (cron_flags fe.2)).*1) by (by repeat (constructor; [set_solver|]); constructor).
  rewrite (flag_jsonb _ _ (search _RE_CRON_TEMP_PATH fe.2.(ce_command))) by done.
  rewrite (flag_jsonb _ _ (search _RE_CRON_NETWORK_EGRESS fe.2.(ce_command))) by done.
  unfold fetches. destruct (search _RE_CRON_TEMP_PATH _), (search _RE_CRON_NETWORK_EGRESS _); cbn [orb andb negb]; try done.
  by rewrite andb_false_r.
Qed.

Lemma classify_preload (fe : hit * preload_entry) :
  (fun d => finding_of (take_chars 2048 fe.1.2) d) <$> classify_preload_record (read_preload (preload_row fe.1.2 fe.2)) =
    [preload_finding fe].
Proof. done. Qed.

Lemma py_len_take_eq (n : nat) (s : string) : py_len (take_chars n s) = Z.min (Z.of_nat n) (py_len s).
Proof.
  revert n. induction s as [|a s IH]; intros n; cbn [py_len take_chars]; [lia|]. pose proof (py_len_nonneg s).
  destruct (is_cont a) eqn:E; cbn [py_len]; [rewrite E, IH; lia|]. destruct n as [|n]; cbn [py_len]; [lia|]. rewrite E, IH. lia.
Qed.

Section Walked.
Context (o : os) (read : string -> option bytes) (depth : nat) (max_lines : Z) (roots : list string).

Definition expected : list Finding :=
  ((bash_finding <$> List.filter (fun fe => clears fe.2) (bash_lines o read depth max_lines roots)) ++
   (cron_finding <$> List.filter (fun fe => fetches fe.2) (cron_lines o read max_lines roots)) ++
   (preload_finding <$> preload_lines o read max_lines roots))%list.

Lemma bind_if {A B} (p : A -> bool) (f : A -> B) (g : A -> list B) (l : list A) :
  (forall x, g x = if p x then [f x] else []) -> l ≫= g = f <$> List.filter p l.
Proof.
  intros H. induction l as [|x l IH]; [done|]. rewrite bind_cons, IH, H. cbn [List.filter]. by destruct (p x).
Qed.

Lemma eq_subrelation_perm (l k : list Finding) : l = k -> l ≡ₚ k.
Proof. by intros ->. Qed.

(** [n] copies of a list. *)
Definition times {A} (n : nat) (l : list A) : list A := mjoin (replicate n l).

Lemma times_S {A} (n : nat) (l : list A) : times (S n) l = (times n l ++ l)%list.
Proof. unfold times. rewrite replicate_S_end, join_app. cbn. by rewrite app_nil_r. Qed.

Lemma times_bind {A B} (n : nat) (g : A -> list B) (l : list A) : times n l ≫= g = times n (l ≫= g).
Proof. induction n as [|n IH]; [done|]. by rewrite !times_S, bind_app, IH. Qed.

Lemma times_fmap {A B} (n : nat) (f : A -> B) (l : list A) : f <$> times n l = times n (f <$> l).
Proof. induction n as [|n IH]; [done|]. by rewrite !times_S, fmap_app, IH. Qed.

Lemma times_app {A} (n : nat) (l k : list A) : (times n l ++ times n k)%list ≡ₚ times n (l ++ k)%list.
Proof. induction n as [|n IH]; [done|]. rewrite !times_S, <- IH. solve_Permutation. Qed.

Lemma walked_rows (n : nat) :
  let t := walked o read depth max_lines roots n no_rows in
  t.(bash_rows) = times n (bash_new o read depth max_lines roots) /\ t.(cron_rows) = times n (cron_new o read max_lines roots) /\
  t.(preload_rows) = times n (preload_new o read max_lines roots).
Proof.
  induction n as [|n (H1 & H2 & H3)]; [done|]. cbn zeta in *. cbn [walked with_new bash_rows cron_rows preload_rows].
  by rewrite H1, H2, H3, !times_S.
Qed.

Lemma emit_walked (n : nat) (r : tables) :
  selected (walked o read depth max_lines roots n no_rows) r ->
  exists fs, fs ≡ₚ times n expected /\
    emit_linux_persistence_findings_from_walk r = if forallb finding_fits fs then Ok fs else Err DataError.
Proof.
  unfold selected. destruct (walked_rows n) as (-> & -> & ->). intros (Hb & Hc & Hl). unfold emit_linux_persistence_findings_from_walk. rewrite !emit_rows_spec.
  set (fb := r.(bash_rows) ≫= _). set (fc := r.(cron_rows) ≫= _). set (fl := r.(preload_rows) ≫= _).
  exists (fb ++ fc ++ fl)%list. split.
  - unfold expected, fb, fc, fl. rewrite <- times_app, <- times_app, Hb, Hc, Hl, !times_fmap, !times_bind. unfold bash_new, cron_new, preload_new.
    rewrite !list_fmap_bind. apply eq_subrelation_perm. repeat apply (f_equal2 app); apply (f_equal (times n)).
    + apply bind_if. exact classify_bash.
    + apply bind_if. exact classify_cron.
    + rewrite (bind_if (fun _ => true) preload_finding); [|exact classify_preload]. f_equal. apply List.forallb_filter_id.
      by induction (preload_lines _ _ _ _).
  - rewrite !forallb_app. destruct (forallb finding_fits fb); [|done]. destruct (forallb finding_fits fc); [|done].
    by destruct (forallb finding_fits fl).
Qed.

Lemma expected_refused (f : Finding) (r : tables) :
  selected (with_new o read depth max_lines roots no_rows) r -> f ∈ expected -> finding_fits f = false ->
  emit_linux_persistence_findings_from_walk r = Err DataError.
Proof.
  intros Hr Hf Hfit. destruct (emit_walked 1 r Hr) as (fs & Hp & ->). rewrite (forallb_perm _ _ _ Hp).
  change (times 1 expected) with (expected ++ [])%list. rewrite app_nil_r.
  destruct (forallb finding_fits expected) eqn:E; [|done]. rewrite forallb_forall in E.
  specialize (E f). rewrite <- list_elem_of_In in E. by rewrite E in Hfit.
Qed.

(** The title of an entry with a long path. *)
Lemma long_title (fe : hit * preload_entry) : 1000 <= py_len fe.2.(pe_library_path) -> finding_fits (preload_finding fe) = false.
Proof.
  intros H. unfold finding_fits. assert (Ht : varchar 1024 (title (f_draft (preload_finding fe))) = false); [|by rewrite Ht].
  unfold varchar. apply andb_false_intro1, Z.leb_gt.
  set (p := take_chars 2048 fe.2.(pe_library_path)). assert (Hp : 1000 <= py_len p) by (unfold p; rewrite py_len_take_eq; lia).
  cbn [preload_finding finding_of f_draft preload_draft title]. fold p.
  assert (Ho : or_str (Some p) "(empty)" = p) by by destruct p. rewrite Ho, !py_len_app.
  change (py_len "ld.so.preload entry: ") with 21. change (py_len " in ") with 4.
  pose proof (py_len_nonneg (take_chars 2048 fe.1.2)). pose proof (py_len_nonneg (str_int fe.2.(pe_line_number))).
  change (py_len ":") with 1. lia.
Qed.

(** C29. From the files of a firmware to its findings, when the tables hold the rows of [n]
    committed walks.  Emission, in whatever order the queries return the rows and the database
    keeps the keys of their flags, gives exactly [n] findings for each stored history line that
    clears the history, for each cron line that runs from a temporary directory or fetches from
    the network, and for each entry of an ld.so.preload file: one if there was one walk, two
    after the automatic walk and one by hand, which no walk prevents.  It raises exactly when
    there was a walk and a column refuses one of these findings. *)
Theorem persistence_findings (n : nat) (r : tables) :
  selected (walked o read depth max_lines roots n no_rows) r ->
  match emit_linux_persistence_findings_from_walk r with
  | Ok fs => fs ≡ₚ times n expected /\ (n <> O -> Forall (fun f => finding_fits f = true) expected)
  | Err DataError => n <> O /\ Exists (fun f => finding_fits f = false) expected
  end.
Proof.
  intros Hr. destruct (emit_walked n r Hr) as (fs & Hp & ->). rewrite (forallb_perm _ _ _ Hp).
  assert (E : forall m, forallb finding_fits (times m expected) = (m =? 0)%nat || forallb finding_fits expected).
  { induction m as [|m IH]; [done|]. rewrite times_S, forallb_app, IH. by destruct m, (forallb finding_fits expected). }
  rewrite E. destruct n as [|n]; cbn [Nat.eqb orb]; [by split|]. clear E. destruct (forallb finding_fits expected) eqn:E.
  - split; [done|]. intros _. rewrite forallb_forall in E. apply Forall_forall. intros f Hf. by apply E, list_elem_of_In.
  - split; [done|]. clear -E. induction expected as [|f l IH]; [done|]. cbn [forallb] in E. destruct (finding_fits f) eqn:Ef; [|by left].
    right. by apply IH.
Qed.

(** One entry of an ld.so.preload file with a path of a thousand characters or more -
    which the table of entries takes - makes the emission raise: the title of its finding
    would not fit its column, and no finding of the firmware is created, of whatever kind. *)
Theorem long_path_silences (fe : hit * preload_entry) (r : tables) :
  fe ∈ preload_lines o read max_lines roots -> 1000 <= py_len fe.2.(pe_library_path) ->
  selected (with_new o read depth max_lines roots no_rows) r ->
  emit_linux_persistence_findings_from_walk r = Err DataError.
Proof.
  intros Hfe Hlen Hr. apply (expected_refused (preload_finding fe)); [done| |by apply long_title].
  unfold expected. rewrite !elem_of_app. right; right. by apply list_elem_of_fmap_2.
Qed.
End Walked.
End Findings.

(** ** On concrete files *)

Lemma no_change_perm (d : pydict) : NoDup d.*1 -> id d ≡ₚ d.
Proof. done. Qed.

(** The rows of a walk, read back as they were stored. *)
Definition read_back (t : tables) : tables :=
  {| bash_rows := read_bash id <$> t.(bash_rows); cron_rows := read_cron id <$> t.(cron_rows);
     preload_rows := read_preload id <$> t.(preload_rows) |}.

Definition demo_rows (preload : string) : tables := read_back (with_new demo_os (demo_read preload) 5 100000 ["/fw/r"] no_rows).

Lemma demo_selected (preload : string) : selected id (with_new demo_os (demo_read preload) 5 100000 ["/fw/r"] no_rows) (demo_rows preload).
Proof. split_and!; reflexivity. Qed.

Definition twice_walked : tables := read_back (walked demo_os (demo_read "/tmp/evil.so") 5 100000 ["/fw/r"] 2 no_rows).

Lemma persistence_findings_witness :
  match emit_linux_persistence_findings_from_walk (demo_rows "/tmp/evil.so") with
  | Ok fs => (fun f => title f.(f_draft)) <$> fs =
      ["bash_history clear attempt: root/.bash_history:2"; "Suspicious cron entry: etc/crontab:1";
       "ld.so.preload entry: /tmp/evil.so in etc/ld.so.preload:1"] /\
      fs ≡ₚ expected id demo_os (demo_read "/tmp/evil.so") 5 100000 ["/fw/r"]
  | Err _ => False
  end /\
  match emit_linux_persistence_findings_from_walk twice_walked with
  | Ok fs => List.length fs = 6%nat /\ fs ≡ₚ times 2 (expected id demo_os (demo_read "/tmp/evil.so") 5 100000 ["/fw/r"])
  | Err _ => False
  end.
Proof.
  split.
  - pose proof (persistence_findings id no_change_perm demo_os (demo_read "/tmp/evil.so") 5 100000 ["/fw/r"] 1
                  (demo_rows "/tmp/evil.so") (demo_selected _)) as H.
    destruct (emit_linux_persistence_findings_from_walk _) as [fs|] eqn:E; [|by vm_compute in E].
    destruct H as [H _]. change (times 1 ?l) with (l ++ [])%list in H. rewrite app_nil_r in H.
    split; [|exact H]. revert E. vm_compute. by intros [= <-].
  - pose proof (persistence_findings id no_change_perm demo_os (demo_read "/tmp/evil.so") 5 100000 ["/fw/r"] 2 twice_walked) as H.
    destruct (emit_linux_persistence_findings_from_walk twice_walked) as [fs|] eqn:E; [|by vm_compute in E].
    destruct H as [H _]; [split_and!; reflexivity|]. split; [|exact H]. revert E. vm_compute. by intros [= <-].
Defined.

Definition long_path : string := "/" +:+ PyText.join "" (replicate 999 "a").

Lemma long_path_silences_witness :
  is_ok (demo_walk long_path) = true /\ emit_linux_persistence_findings_from_walk (demo_rows long_path) = Err DataError.
Proof.
  split; [by vm_compute|].
  apply (long_path_silences id no_change_perm demo_os (demo_read long_path) 5 100000 ["/fw/r"]
    ("/fw/r/etc/ld.so.preload", "etc/ld.so.preload", {| pe_line_number := 1; pe_library_path := long_path |})).
  - assert (E : preload_lines demo_os (demo_read long_path) 100000 ["/fw/r"] =
                [("/fw/r/etc/ld.so.preload", "etc/ld.so.preload", {| pe_line_number := 1; pe_library_path := long_path |})])
      by by vm_compute.
    rewrite E. left.
  - by vm_compute.
  - apply demo_selected.
Defined.
