(* ===== verification/SbomPackages.v ===== *)
(** * Package databases ([services/sbom/strategies/])

    The strategies that read a list of packages from files of the firmware: the dpkg and opkg
    databases, loose .deb archives and Python metadata, on Debian control blocks and other
    lines of text.  A file is what reading it gives; ar and tar are parameters. *)

From S2P Require Import Prelude PyText PosixPath PyLines Json Jsonb VirtualFs SbomData ComponentStore Enrichment.
From Stdlib Require Import Ascii String.
Import (notations) Ascii String.
#[local] Open Scope Z_scope.

Inductive scan_error := IndexError | UnicodeDecodeError | EnrichError (e : py_error).

(** ** Text files *)

(** What text mode makes of line ends. *)
Fixpoint universal_newlines (s : string) : string :=
  match s with
  | "" => ""
  | String a s1 =>
      if code 13 a then
        nl +:+ match s1 with
               | String b s2 => if code 10 b then universal_newlines s2 else universal_newlines s1
               | "" => ""
               end
      else String a (universal_newlines s1)
  end.

(** [open(path, errors="replace").read()] *)
Definition read_text (raw : bytes) : string := universal_newlines (decode raw).

(** Strict decoding in text mode; replacing bytes changes exactly the bytes that are no UTF-8. *)
Definition decode_strict (raw : bytes) : res scan_error string :=
  if bool_decide (decode_replace raw = raw) then Ok (universal_newlines (decode_bytes raw)) else Err UnicodeDecodeError.

(** [s.split("\n")], and the lines a file object yields, without their ends. *)
Fixpoint split_lf (s : string) : list string :=
  match s with
  | "" => [""]
  | String a t => if code 10 a then "" :: split_lf t else push a (split_lf t)
  end.

(** [s.split("\n\n")] *)
Fixpoint split_blank (s : string) : list string :=
  match s with
  | "" => [""]
  | String a t =>
      match t with
      | String b u => if code 10 a && code 10 b then "" :: split_blank u else push a (split_blank t)
      | "" => push a (split_blank t)
      end
  end.

(** [s.partition(c)], without the separator. *)
Definition partition (c : ascii) (s : string) : string * string :=
  let '(head, rest) := span (fun a => negb (is_char c a)) s in
  (head, match rest with String _ t => t | "" => "" end).

(** [s.rsplit("-", 1)]: the last part, if there are two. *)
Fixpoint rsplit_dash (s : string) : string * option string :=
  match s with
  | "" => ("", None)
  | String a t =>
      match rsplit_dash t with
      | (h, Some r) => (String a h, Some r)
      | (h, None) => if is_char "-"%char a then ("", Some t) else (String a h, None)
      end
  end.

(** ** Control blocks *)

Record control_state := { fields : list (string * string); current_key : string; current_val : string }.

Definition save (st : control_state) : list (string * string) :=
  if truthy (Some st.(current_key)) then dict_set (lower st.(current_key)) st.(current_val) st.(fields) else st.(fields).

Definition control_line (st : control_state) (line : string) : control_state :=
  if startswith line " " || startswith line (String (ascii_of_N 9) "") then
    {| fields := st.(fields); current_key := st.(current_key); current_val := st.(current_val) +:+ nl +:+ strip line |}
  else if has_char ":" line then
    let '(key, val) := partition ":" line in
    {| fields := save st; current_key := strip key; current_val := strip val |}
  else st.

Definition parse_control_block (block : string) : list (string * string) :=
  save (foldl control_line {| fields := []; current_key := ""; current_val := "" |} (splitlines block)).

Definition field_or (name : string) (fields : list (string * string)) : string := default "" (dict_get name fields).

(** [s or None] *)
Definition or_none (s : string) : option string := if truthy (Some s) then Some s else None.

(** ** dpkg and opkg *)

Section Packages.
Context (package_url : string -> string -> string -> option string).

Definition package_component (source : string) (pkg_type : string) (fields : list (string * string)) : IdentifiedComponent :=
  let name := strip (field_or "package" fields) in
  let version := or_none (strip (field_or "version" fields)) in
  let vendor_product := dict_get (lower name) CPE_VENDOR_MAP in
  {| name := name; version := version; type_ := "application";
     cpe := vp ← vendor_product; build_cpe vp.1 vp.2 version "a";
     purl := build_purl package_url name version pkg_type;
     supplier := fst <$> vendor_product;
     detection_source := "package_manager"; detection_confidence := "high"; file_paths := [];
     metadata := [("arch", JStr (field_or "architecture" fields)); ("description", JStr (field_or "description" fields));
                  ("source", JStr source)];
     source_partition := None |}.

Definition dpkg_block (block : string) : option IdentifiedComponent :=
  if negb (truthy (Some (strip block))) then None
  else
    let fields := parse_control_block block in
    if negb (truthy (Some (strip (field_or "package" fields)))) then None
    else if negb (contains "installed" (lower (field_or "status" fields))) then None
    else Some (package_component "dpkg" "deb" fields).

Definition opkg_block (block : string) : option IdentifiedComponent :=
  if negb (truthy (Some (strip block))) then None
  else
    let fields := parse_control_block block in
    if negb (truthy (Some (strip (field_or "package" fields)))) then None
    else Some (package_component "opkg" "opkg" fields).

Definition dpkg_parse (content : string) : list IdentifiedComponent := omap dpkg_block (split_blank content).
Definition opkg_parse (content : string) : list IdentifiedComponent := omap opkg_block (split_blank content).

Section Files.
(** Reading a file; [None] on OSError. *)
Context (o : os) (read : string -> option bytes).

Definition abs_path (root rel_path : string) : string := path_join root (lstrip_char slash rel_path).

Definition parsed (parse : string -> list IdentifiedComponent) (path : string) : list IdentifiedComponent :=
  match read path with Some raw => parse (read_text raw) | None => [] end.

Definition DpkgStrategy_run (root : string) : list IdentifiedComponent :=
  let path := abs_path root "/var/lib/dpkg/status" in
  if negb (isfile o path) then [] else parsed dpkg_parse path.

Definition _OPKG_STATUS_PATHS : list string := ["/usr/lib/opkg/status"; "/var/lib/opkg/status"; "/usr/lib/opkg/info"].

Definition OpkgStrategy_run (root : string) : list IdentifiedComponent :=
  _OPKG_STATUS_PATHS ≫= fun rel_path =>
    let path := abs_path root rel_path in if isfile o path then parsed opkg_parse path else [].

(** ** Loose archives *)

Definition _MAX_DEBS_PER_ROOT : nat := 1000.

(** [ar t] on an archive - exit code, output and messages - and [ar p] on a member piped into
    tar with arguments; [None] on OSError or after the time limit. *)
Context (ar_t : string -> option (Z * bytes * bytes)) (ar_p_tar : string -> string -> list string -> option (Z * bytes)).

Definition _CONTROL_MEMBER_NAMES : list string := ["control.tar.gz"; "control.tar.xz"; "control.tar.zst"; "control.tar.bz2"; "control.tar"].

Definition _list_deb_members (deb_path : string) : res scan_error (option (list string)) :=
  match ar_t deb_path with
  | None => Ok None
  | Some (returncode, stdout, stderr) =>
      stdout ← decode_strict stdout;
      _ ← decode_strict stderr;
      Ok (if returncode =? 0 then Some (List.filter (fun line => truthy (Some line)) (strip <$> splitlines stdout)) else None)
  end.

Definition tar_flag (control_member : string) : list string :=
  if endswith control_member ".gz" then ["-z"] else if endswith control_member ".xz" then ["-J"]
  else if endswith control_member ".bz2" then ["-j"] else if endswith control_member ".zst" then ["--zstd"] else [].
Definition tar_args (control_member inner : string) : list string := ("tar" :: tar_flag control_member ++ ["-xO"; "-f"; "-"; inner])%list.

(** What one run of tar gives, if it gives something. *)
Definition tar_output (deb_path control_member inner : string) : option string :=
  r ← ar_p_tar deb_path control_member (tar_args control_member inner);
  match r.2 with [] => None | _ => if r.1 =? 0 then Some (decode r.2) else None end.

Definition _extract_control_file (deb_path control_member : string) : option string :=
  match ar_p_tar deb_path control_member (tar_args control_member "./control") with
  | None => None
  | Some _ =>
      match tar_output deb_path control_member "./control" with
      | Some body => Some body
      | None => tar_output deb_path control_member "control"
      end
  end.

Definition deb_purl (name : string) (version arch : option string) : option string :=
  v ← version; Some ("pkg:deb/" +:+ name +:+ "@" +:+ v +:+ match arch with Some a => "?arch=" +:+ a | None => "" end).

Definition opt_json (s : option string) : json := match s with Some s => JStr s | None => JNull end.

Definition deb_component (root deb_path body : string) : option IdentifiedComponent :=
  let fields := parse_control_block body in
  let get key := or_none (strip (field_or key fields)) in
  name ← get "package";
  let version := get "version" in
  let arch := get "architecture" in
  Some {| name := name; version := version; type_ := "application"; cpe := None; purl := deb_purl name version arch;
          supplier := get "maintainer"; detection_source := "loose_deb"; detection_confidence := "high";
          file_paths := ["/" +:+ relpath deb_path root];
          metadata := [("section", opt_json (get "section")); ("homepage", opt_json (get "homepage"));
                       ("description", JStr (take_chars 200 (field_or "description" fields))); ("arch", opt_json arch);
                       ("source", JStr "loose_deb")];
          source_partition := None |}.

Definition _process_deb (root deb_path : string) : res scan_error (option IdentifiedComponent) :=
  members ← _list_deb_members deb_path;
  Ok (members ← members;
      control_member ← List.find (fun m => bool_decide (m ∈ _CONTROL_MEMBER_NAMES)) members;
      control_body ← _extract_control_file deb_path control_member;
      if truthy (Some control_body) then deb_component root deb_path control_body else None).

Fixpoint process_debs (root : string) (deb_paths : list string) : res scan_error (list IdentifiedComponent) :=
  match deb_paths with
  | [] => Ok []
  | deb_path :: deb_paths =>
      c ← _process_deb root deb_path;
      l ← process_debs root deb_paths;
      Ok (match c with Some c => c :: l | None => l end)
  end.

Definition cap_sentinel : IdentifiedComponent :=
  {| name := "_loose_deb_scan_cap_hit"; version := Some "1000"; type_ := "application"; cpe := None; purl := None; supplier := None;
     detection_source := "loose_deb"; detection_confidence := "high"; file_paths := [];
     metadata := [("cap", JInt 1000);
                  ("note", JStr ("loose-deb walker stopped at the per-root cap; " +:+
                                 "additional .deb files in this scan root were " +:+
                                 "not processed. Re-run with a raised cap if the " +:+
                                 "BSP genuinely ships >cap packages."))];
     source_partition := None |}.

Definition deb_paths (depth : nat) (root : string) : list string :=
  take _MAX_DEBS_PER_ROOT (os_walk o (fun _ => true) depth root ≫= fun d =>
    path_join d.1 <$> List.filter (fun fn => endswith fn ".deb") d.2).

Definition LooseDebStrategy_run (depth : nat) (root : string) : res scan_error (list IdentifiedComponent) :=
  l ← process_debs root (deb_paths depth root);
  Ok (l ++ (if (_MAX_DEBS_PER_ROOT <=? List.length (deb_paths depth root))%nat then [cap_sentinel] else []))%list.

(** ** Python packages *)

(** The loop over the lines of a metadata file. *)
Fixpoint python_fields (name version : option string) (lines : list string) : option string * option string :=
  match lines with
  | [] => (name, version)
  | line :: lines =>
      if startswith line "Name:" then python_fields (Some (lower (strip (drop_start 5 line)))) version lines
      else if startswith line "Version:" then python_fields name (Some (strip (drop_start 8 line))) lines
      else if startswith line " " || startswith line (String (ascii_of_N 9) "") then python_fields name version lines
      else if truthy name && truthy version then (name, version)
      else python_fields name version lines
  end.

Definition _parse_python_metadata (meta_file : string) : option string * option string :=
  if negb (isfile o meta_file) then (None, None)
  else match read meta_file with
       | Some raw => python_fields None None (split_lf (read_text raw))
       | None => (None, None)
       end.

(** Name and version of a directory or file called [name-version] and a suffix. *)
Definition from_entry (stem : string) : option string * option string :=
  let '(n, v) := rsplit_dash stem in (Some (replace_char "_" "-" (lower n)), v).

Definition python_ident (site_dir entry : string) : option string * option string :=
  if endswith entry ".dist-info" then
    let meta := path_join (path_join site_dir entry) "METADATA" in
    let r := _parse_python_metadata (if isfile o meta then meta else path_join (path_join site_dir entry) "PKG-INFO") in
    if truthy r.1 then r else from_entry (drop_end 10 entry)
  else if endswith entry ".egg-info" then
    let meta := path_join site_dir entry in
    let r := _parse_python_metadata (if isdir o meta then path_join meta "PKG-INFO" else meta) in
    if truthy r.1 then r else from_entry (drop_end 9 entry)
  else (None, None).

Definition _process_entry (root site_dir entry : string) : option IdentifiedComponent :=
  let '(name, version) := python_ident site_dir entry in
  name ← name;
  if negb (truthy (Some name)) || bool_decide (name = "unknown") then None
  else
    let version := if bool_decide (version = Some "0.0.0") then None else version in
    Some {| name := name; version := version; type_ := "library"; cpe := None; purl := build_purl package_url name version "pypi";
            supplier := None; detection_source := "python_package"; detection_confidence := "high";
            file_paths := ["/" +:+ relpath (path_join site_dir entry) root];
            metadata := [("source", JStr "python"); ("ecosystem", JStr "pypi")]; source_partition := None |}.

(** [glob] of a pattern whose only wildcard is the star at the end of the middle part. *)
Definition glob (lib middle last : string) : list string :=
  entry ← List.filter (fun name => startswith name middle) (default [] (listdir o lib));
  let p := path_join (path_join lib entry) last in if os_exists o p then [p] else [].

Definition site_dirs (root : string) : list string :=
  (glob (path_join root "usr/lib") "python" "site-packages" ++ glob (path_join root "usr/lib") "python" "dist-packages" ++
   glob (path_join root "usr/local/lib") "python" "site-packages")%list.

Definition PythonPackagesStrategy_run (root : string) : list IdentifiedComponent :=
  List.filter (isdir o) (site_dirs root) ≫= fun site_dir =>
    omap (_process_entry root site_dir) (default [] (listdir o site_dir)).
End Files.
End Packages.

(** ** Writing control blocks *)

(** A field: its key, its first line and the lines that continue it. *)
Record control_field := { cf_key : string; cf_val : string; cf_more : list string }.

Definition field_lines (f : control_field) : list string :=
  (f.(cf_key) +:+ ": " +:+ f.(cf_val)) :: ((fun l => " " +:+ l) <$> f.(cf_more)).
Definition block_text (fs : list control_field) : string := PyText.join nl (fs ≫= field_lines).

(** What is read of it. *)
Definition field_pair (f : control_field) : string * string := (lower f.(cf_key), PyText.join nl (f.(cf_val) :: f.(cf_more))).

(** Text on one line that [strip] leaves alone. *)
Definition value_ok (s : string) : Prop := all_chars inline s = true /\ strip s = s.

Definition field_ok (f : control_field) : Prop :=
  f.(cf_key) <> "" /\ all_chars (fun a => inline a && negb (is_char ":" a)) f.(cf_key) = true /\ strip f.(cf_key) = f.(cf_key) /\
  value_ok f.(cf_val) /\ Forall value_ok f.(cf_more).

Definition block_ok (fs : list control_field) : Prop := fs <> [] /\ Forall field_ok fs /\ NoDup (lower ∘ cf_key <$> fs).

Lemma all_chars_append (f : ascii -> bool) (s t : string) : all_chars f (s +:+ t) = all_chars f s && all_chars f t.
Proof. unfold all_chars. induction s as [|a s IH]; [done|]. rewrite append_cons. cbn. by rewrite IH, andb_assoc. Qed.

Lemma all_chars_weaken (f g : ascii -> bool) (s : string) :
  (forall a, f a = true -> g a = true) -> all_chars f s = true -> all_chars g s = true.
Proof. unfold all_chars. intros H. induction s as [|a s IH]; [done|]. cbn. intros [Ha Hs]%andb_true_iff. by rewrite (H a Ha), IH. Qed.

(** Lines without a break at the end of the last one. *)
Lemma splitlines_join (ls : list string) :
  Forall (fun l => l <> "" /\ all_chars inline l = true) ls -> splitlines (PyText.join nl ls) = ls.
Proof.
  assert (H1 : forall l, l <> "" -> all_chars inline l = true -> splitlines l = [l]).
  { unfold all_chars. induction l as [|a l IH]; [done|]. cbn [String.list_ascii_of_string forallb]. intros _ [Ha H]%andb_true_iff.
    cbn [splitlines]. destruct (inline_code a Ha) as (-> & -> & -> & ->). destruct l as [|b l]; [done|]. by rewrite IH. }
  induction 1 as [|l ls [Hne Hl] Hls IH]; [done|]. destruct ls as [|l2 ls]; [by apply H1|].
  change (PyText.join nl (l :: l2 :: ls)) with (l +:+ nl +:+ PyText.join nl (l2 :: ls)). by rewrite splitlines_line, IH.
Qed.

Lemma strip_first (a : ascii) (s : string) : strip (String a s) = String a s -> is_space a = false.
Proof.
  intros H. destruct (is_space a) eqn:Ea; [|done]. exfalso. unfold strip in H. cbn [lstrip_if] in H. rewrite Ea in H.
  assert (Hlen : forall f u, (String.length (rstrip_if f u) <= String.length u)%nat).
  { intros f u. induction u as [|b u IH]; [done|]. rewrite rstrip_if_cons. cbn. repeat case_match; cbn in *; lia. }
  assert (Hlen2 : forall f u, (String.length (lstrip_if f u) <= String.length u)%nat).
  { intros f u. induction u as [|b u IH]; [done|]. cbn. case_match; cbn; lia. }
  pose proof (Hlen is_space (lstrip_if is_space s)) as H1. pose proof (Hlen2 is_space s) as H2. rewrite H in H1. cbn in H1. lia.
Qed.

Lemma field_lines_ok (f : control_field) : field_ok f -> Forall (fun l => l <> "" /\ all_chars inline l = true) (field_lines f).
Proof.
  intros (Hne & Hk & _ & [Hv _] & Hm). constructor.
  - split; [by destruct f.(cf_key)|]. rewrite !all_chars_append, Hv, (all_chars_weaken _ inline _ (fun a H => proj1 (proj1 (andb_true_iff _ _) H)) Hk). done.
  - apply Forall_fmap. eapply Forall_impl; [exact Hm|]. intros l [Hl _]. split; [done|]. cbn. by rewrite all_chars_append, Hl.
Qed.

Lemma strip_blank (s : string) : strip (" " +:+ s) = strip s.
Proof. done. Qed.

Lemma join_foldl (v : string) (more : list string) : foldl (fun v l => v +:+ nl +:+ l) v more = PyText.join nl (v :: more).
Proof.
  revert v. induction more as [|l more IH]; intros v; [done|]. cbn [foldl]. rewrite IH. destruct more as [|m more]; [done|].
  change (PyText.join nl (v :: l :: m :: more)) with (v +:+ nl +:+ PyText.join nl (l :: m :: more)).
  change (PyText.join nl ((v +:+ nl +:+ l) :: m :: more)) with ((v +:+ nl +:+ l) +:+ nl +:+ PyText.join nl (m :: more)).
  change (PyText.join nl (l :: m :: more)) with (l +:+ nl +:+ PyText.join nl (m :: more)). by rewrite !append_assoc.
Qed.

Lemma more_lines (st : control_state) (more : list string) :
  Forall value_ok more ->
  foldl control_line st ((fun l => " " +:+ l) <$> more) =
    {| fields := st.(fields); current_key := st.(current_key);
       current_val := foldl (fun v l => v +:+ nl +:+ l) st.(current_val) more |}.
Proof.
  intros H. revert st. induction H as [|l more [_ Hl] _ IH]; intros st; [by destruct st|]. rewrite fmap_cons. cbn [foldl].
  rewrite IH. unfold control_line. change (startswith (" " +:+ l) " ") with true. cbn [orb fields current_key current_val].
  by rewrite strip_blank, Hl.
Qed.

Lemma head_line (st : control_state) (f : control_field) :
  field_ok f -> control_line st (f.(cf_key) +:+ ": " +:+ f.(cf_val)) =
    {| fields := save st; current_key := f.(cf_key); current_val := f.(cf_val) |}.
Proof.
  intros (Hne & Hk & Hs & [_ Hv] & _). destruct f as [key val more]. cbn [cf_key cf_val] in *. unfold control_line.
  assert (Hp : partition ":" (key +:+ ": " +:+ val) = (key, " " +:+ val)).
  { unfold partition. assert (Hsp : span (fun a => negb (is_char ":" a)) (key +:+ ": " +:+ val) = (key, ": " +:+ val)).
    { apply span_spec. split_and!; [done| |done]. eapply all_chars_weaken; [|exact Hk]. intros a Ha. by apply andb_true_iff in Ha as [_ ?]. }
    by rewrite Hsp. }
  assert (Hc : has_char ":" (key +:+ ": " +:+ val) = true).
  { clear. induction key as [|a key IH]; [done|]. rewrite append_cons. cbn. by rewrite IH, orb_true_r. }
  rewrite Hp, Hc, Hs, strip_blank, Hv. destruct key as [|a key]; [done|]. rewrite append_cons.
  pose proof (strip_first a key Hs) as Ha. unfold startswith.
  destruct (decide (a = " "%char)) as [->|]; [done|].
  destruct (decide (a = ascii_of_N 9)) as [->|]; [done|].
  repeat case_decide; done.
Qed.

Lemma field_parsed (st : control_state) (f : control_field) :
  field_ok f -> foldl control_line st (field_lines f) =
    {| fields := save st; current_key := f.(cf_key); current_val := PyText.join nl (f.(cf_val) :: f.(cf_more)) |}.
Proof.
  intros Hf. unfold field_lines. cbn [foldl]. rewrite head_line by done. destruct Hf as (_ & _ & _ & _ & Hm).
  rewrite more_lines by done. cbn [fields current_key current_val]. by rewrite join_foldl.
Qed.

(** The fields read so far, when [done_] are behind. *)
Lemma fields_parsed (done_ fs : list control_field) (st : control_state) :
  Forall field_ok fs -> NoDup (lower ∘ cf_key <$> done_ ++ fs) -> save st = field_pair <$> done_ ->
  save (foldl control_line st (fs ≫= field_lines)) = field_pair <$> (done_ ++ fs)%list.
Proof.
  intros Hf. revert done_ st. induction Hf as [|f fs Hf _ IH]; intros done_ st Hn Hst; [by rewrite app_nil_r|].
  rewrite bind_cons, foldl_app, field_parsed by done. rewrite cons_middle, app_assoc. apply IH; [by rewrite <- app_assoc|].
  unfold save at 1. cbn [current_key current_val fields]. destruct Hf as (Hne & _). destruct (cf_key f) as [|a k] eqn:Ek; [done|]. rewrite <- Ek.
  assert (Ht : truthy (Some (cf_key f)) = true) by by rewrite Ek. rewrite Ht, Hst, fmap_app. cbn [fmap list_fmap].
  rewrite fmap_app in Hn. apply NoDup_app in Hn as (_ & Hn & _).
  assert (Hout : lower (cf_key f) ∉ (field_pair <$> done_).*1).
  { rewrite <- list_fmap_compose. intros Hin. apply (Hn (lower (cf_key f))); [exact Hin|]. by left. }
  clear -Hout. induction (field_pair <$> done_) as [|[k v] l IH]; [done|]. cbn in *. rewrite decide_False by set_solver.
  by rewrite IH by set_solver.
Qed.

Lemma block_parsed (fs : list control_field) :
  Forall field_ok fs -> NoDup (lower ∘ cf_key <$> fs) -> parse_control_block (block_text fs) = field_pair <$> fs.
Proof.
  intros Hf Hn. unfold parse_control_block, block_text. rewrite splitlines_join.
  - by apply (fields_parsed [] fs).
  - clear Hn. induction Hf as [|f fs Hf _ IH]; [constructor|]. rewrite bind_cons. apply Forall_app. by split; [apply field_lines_ok|].
Qed.

(** ** Writing a database *)

Definition status_text (ps : list (list control_field)) : string := foldr (fun p t => block_text p +:+ nl +:+ nl +:+ t) "" ps.

Definition push_line (l : string) (blocks : list string) : list string :=
  match blocks with b :: bs => (l +:+ b) :: bs | [] => [l] end.

Lemma push_push_line (a : ascii) (l : string) (bs : list string) : push a (push_line l bs) = push_line (String a l) bs.
Proof. by destruct bs. Qed.

Lemma split_blank_cons (t : string) : exists b bs, split_blank t = b :: bs.
Proof.
  assert (Hp : forall a bs, exists b' bs', push a bs = b' :: bs') by (intros a [|b bs]; cbn; eauto).
  destruct t as [|a [|b t]]; cbn [split_blank]; eauto. destruct (code 10 a && code 10 b); eauto.
Qed.

(** A line in front of more text. *)
Lemma split_blank_line (l t : string) : all_chars inline l = true -> split_blank (l +:+ t) = push_line l (split_blank t).
Proof.
  unfold all_chars. induction l as [|a l IH]; intros H.
  - destruct (split_blank_cons t) as (b & bs & E). by rewrite E.
  - cbn in H. apply andb_true_iff in H as [Ha H]. rewrite append_cons, <- push_push_line, <- IH by done.
    assert (Hc : code 10 a = false).
    { unfold inline, simple_break, in_range in Ha. unfold code. apply andb_true_iff in Ha as [[_ Ha]%andb_true_iff _]. lia. }
    destruct (l +:+ t) as [|b u] eqn:E; cbn [split_blank]; [done|]. by rewrite Hc.
Qed.

Lemma split_blank_two (a b : ascii) (u : string) :
  split_blank (String a (String b u)) = if code 10 a && code 10 b then "" :: split_blank u else push a (split_blank (String b u)).
Proof. done. Qed.

(** A line feed in front of a line. *)
Lemma split_blank_lf (l t : string) :
  l <> "" -> all_chars inline l = true -> split_blank (nl +:+ l +:+ t) = push_line nl (split_blank (l +:+ t)).
Proof.
  intros Hne H. destruct l as [|a l]; [done|]. unfold all_chars in H. cbn in H. apply andb_true_iff in H as [Ha _].
  assert (Hc : code 10 a = false).
  { unfold inline, simple_break, in_range in Ha. unfold code. apply andb_true_iff in Ha as [[_ Ha]%andb_true_iff _]. lia. }
  rewrite append_cons. change (nl +:+ String a (l +:+ t)) with (String (ascii_of_N 10) (String a (l +:+ t))).
  rewrite split_blank_two, Hc, andb_false_r. by destruct (split_blank_cons (String a (l +:+ t))) as (b & bs & ->).
Qed.

Lemma split_block (ls : list string) (t : string) :
  ls <> [] -> Forall (fun l => l <> "" /\ all_chars inline l = true) ls ->
  split_blank (PyText.join nl ls +:+ nl +:+ nl +:+ t) = PyText.join nl ls :: split_blank t.
Proof.
  intros Hne H. induction H as [|l ls [Hl1 Hl2] Hls IH]; [done|]. destruct ls as [|m ls].
  - change (PyText.join nl [l]) with l. rewrite split_blank_line by done. change (split_blank (nl +:+ nl +:+ t)) with ("" :: split_blank t).
    cbn [push_line]. by rewrite append_nil_r.
  - change (PyText.join nl (l :: m :: ls)) with (l +:+ nl +:+ PyText.join nl (m :: ls)). rewrite !append_assoc, split_blank_line by done.
    assert (E : PyText.join nl (m :: ls) = m +:+ match ls with [] => "" | _ => nl +:+ PyText.join nl ls end).
    { destruct ls; [by rewrite append_nil_r|done]. }
    inversion Hls as [|? ? [Hm1 Hm2] _]; subst. specialize (IH ltac:(done)). set (j := PyText.join nl (m :: ls)) in *.
    assert (E2 : split_blank (nl +:+ j +:+ nl +:+ nl +:+ t) = push_line nl (split_blank (j +:+ nl +:+ nl +:+ t))).
    { rewrite E, append_assoc. by apply split_blank_lf. }
    by rewrite E2, IH.
Qed.

Lemma blocks_of_status (ps : list (list control_field)) : Forall block_ok ps -> split_blank (status_text ps) = ((block_text <$> ps) ++ [""])%list.
Proof.
  induction 1 as [|p ps (Hne & Hf & _) _ IH]; [done|]. rewrite fmap_cons.
  change (status_text (p :: ps)) with (block_text p +:+ nl +:+ nl +:+ status_text ps). unfold block_text at 1.
  rewrite split_block; [by rewrite IH| |].
  - destruct p as [|f p]; [done|]. by rewrite bind_cons.
  - clear Hne. induction Hf as [|f p Hf _ IHp]; [constructor|]. rewrite bind_cons. apply Forall_app. by split; [apply field_lines_ok|].
Qed.

(** ** Reading a database back *)

Definition pairs (p : list control_field) : list (string * string) := field_pair <$> p.

Definition names_package (p : list control_field) : bool := truthy (Some (strip (field_or "package" (pairs p)))).

(** The status of a package contains the word that the dpkg strategy looks for. *)
Definition says_installed (p : list control_field) : bool := contains "installed" (lower (field_or "status" (pairs p))).

Lemma inline_text (ps : list (list control_field)) : Forall block_ok ps ->
  all_chars (fun a => (Z.of_N (N_of_ascii a) <? 128) && negb (code 13 a)) (status_text ps) = true.
Proof.
  assert (Hj : forall ls, Forall (fun l => l <> "" /\ all_chars inline l = true) ls ->
    all_chars (fun a => (Z.of_N (N_of_ascii a) <? 128) && negb (code 13 a)) (PyText.join nl ls) = true).
  { induction 1 as [|l ls [_ Hl] _ IH]; [done|].
    assert (Hl' : all_chars (fun a => (Z.of_N (N_of_ascii a) <? 128) && negb (code 13 a)) l = true).
    { eapply all_chars_weaken; [|exact Hl]. intros a Ha. unfold inline in Ha. apply andb_true_iff in Ha as [[H1 _]%andb_true_iff H2].
      by rewrite H1, H2. }
    destruct ls as [|m ls]; [done|]. change (PyText.join nl (l :: m :: ls)) with (l +:+ nl +:+ PyText.join nl (m :: ls)).
    by rewrite !all_chars_append, Hl', IH. }
  induction 1 as [|p ps (_ & Hf & _) _ IH]; [done|].
  change (status_text (p :: ps)) with (block_text p +:+ nl +:+ nl +:+ status_text ps). rewrite !all_chars_append, IH. unfold block_text.
  rewrite Hj; [done|]. clear IH. induction Hf as [|f p Hf _ IHp]; [constructor|]. rewrite bind_cons. apply Forall_app.
  by split; [apply field_lines_ok|].
Qed.

Lemma read_text_plain (s : string) :
  all_chars (fun a => (Z.of_N (N_of_ascii a) <? 128) && negb (code 13 a)) s = true -> read_text (encode s) = s.
Proof.
  intros H. unfold read_text.
  assert (Hu : utf8 (encode s)).
  { unfold all_chars in H. induction s as [|a s IH]; [constructor|]. cbn in H. apply andb_true_iff in H as [Ha H].
    apply u_ascii; [|by apply IH]. clear -Ha. by destruct a as [[] [] [] [] [] [] [] []]. }
  unfold decode. rewrite (decode_utf8 _ Hu), decode_encode. clear Hu. unfold all_chars in H.
  induction s as [|a s IH]; [done|]. cbn in H. apply andb_true_iff in H as [[_ Ha%negb_true_iff]%andb_true_iff H]. cbn. by rewrite Ha, IH.
Qed.

Lemma omap_filter {A B C} (f : B -> option C) (g : A -> B) (p : A -> bool) (h : A -> C) (l : list A) :
  Forall (fun x => f (g x) = if p x then Some (h x) else None) l -> omap f (g <$> l) = h <$> List.filter p l.
Proof. induction 1 as [|x l Hx _ IH]; [done|]. cbn. rewrite Hx. destruct (p x); cbn; by rewrite IH. Qed.

Section Databases.
Context (package_url : string -> string -> string -> option string).

Lemma block_not_blank (p : list control_field) : block_ok p -> truthy (Some (strip (block_text p))) = true.
Proof.
  intros (Hne & Hf & _). destruct p as [|f p]; [done|]. inversion Hf as [|? ? (Hk & _ & Hs & _) _]; subst.
  assert (H : exists a t, block_text (f :: p) = String a t /\ is_space a = false).
  { unfold block_text. rewrite bind_cons. unfold field_lines. cbn [app]. destruct (cf_key f) as [|a k]; [done|].
    exists a. pose proof (strip_first a k Hs). destruct ((_ <$> cf_more f) ++ _)%list; eexists; by split. }
  destruct H as (a & t & -> & Ha). unfold strip. cbn [lstrip_if]. rewrite Ha, rstrip_if_cons, Ha. by destruct (rstrip_if is_space t).
Qed.

Lemma dpkg_block_parsed (p : list control_field) : block_ok p ->
  dpkg_block package_url (block_text p) =
    if names_package p && says_installed p then Some (package_component package_url "dpkg" "deb" (pairs p)) else None.
Proof.
  intros Hp. unfold dpkg_block, names_package, says_installed, pairs. rewrite block_not_blank by done. destruct Hp as (_ & Hf & Hn).
  rewrite block_parsed by done. cbn [negb]. destruct (truthy _); [|done]. cbn [negb andb]. by destruct (contains _ _).
Qed.

Lemma opkg_block_parsed (p : list control_field) : block_ok p ->
  opkg_block package_url (block_text p) = if names_package p then Some (package_component package_url "opkg" "opkg" (pairs p)) else None.
Proof.
  intros Hp. unfold opkg_block, names_package, pairs. rewrite block_not_blank by done. destruct Hp as (_ & Hf & Hn).
  rewrite block_parsed by done. cbn [negb]. by destruct (truthy _).
Qed.

Lemma omap_snoc_none {A B} (f : A -> option B) (l : list A) (x : A) : f x = None -> omap f (l ++ [x])%list = omap f l.
Proof. intros H. induction l as [|y l IH]; cbn; [by rewrite H|]. by rewrite IH. Qed.

(** C25. Package databases read back.  A database written block by block - fields with any
    number of continuation lines, blocks separated by an empty line - gives one component for
    each package, in order: of an opkg database for every block that names a package, of a
    dpkg database for every such block whose status contains the word installed. *)
Theorem package_databases (ps : list (list control_field)) :
  Forall block_ok ps ->
  let content := read_text (encode (status_text ps)) in
  dpkg_parse package_url content =
    (fun p => package_component package_url "dpkg" "deb" (pairs p)) <$> List.filter (fun p => names_package p && says_installed p) ps /\
  opkg_parse package_url content =
    (fun p => package_component package_url "opkg" "opkg" (pairs p)) <$> List.filter names_package ps.
Proof.
  intros Hps content. unfold content, dpkg_parse, opkg_parse. rewrite read_text_plain by by apply inline_text.
  rewrite blocks_of_status by done. rewrite !omap_snoc_none by done. split; apply omap_filter.
  - eapply Forall_impl; [exact Hps|]. exact dpkg_block_parsed.
  - eapply Forall_impl; [exact Hps|]. exact opkg_block_parsed.
Qed.
End Databases.

Definition cf (key val : string) (more : list string) : control_field := {| cf_key := key; cf_val := val; cf_more := more |}.

Definition two_packages : list (list control_field) :=
  [[cf "Package" "busybox" []; cf "Status" "install ok installed" []; cf "Version" "1:1.36.1" [];
    cf "Description" "Tiny utilities" ["a single binary: sh, ls"; "."]];
   [cf "Package" "telnetd" []; cf "Status" "deinstall ok not-installed" []; cf "Version" "0.17" []]].

Definition simple_purl (pkg_type name version : string) : option string := Some ("pkg:" +:+ pkg_type +:+ "/" +:+ name +:+ "@" +:+ version).

(** The conditions on a block, decided. *)
Definition field_okb (f : control_field) : bool :=
  bool_decide (f.(cf_key) <> "") && all_chars (fun a => inline a && negb (is_char ":" a)) f.(cf_key) && bool_decide (strip f.(cf_key) = f.(cf_key)) &&
  forallb (fun s => all_chars inline s && bool_decide (strip s = s)) (f.(cf_val) :: f.(cf_more)).

Definition block_okb (p : list control_field) : bool :=
  bool_decide (p <> []) && forallb field_okb p && bool_decide (NoDup (lower ∘ cf_key <$> p)).

Lemma blocks_okb (ps : list (list control_field)) : forallb block_okb ps = true -> Forall block_ok ps.
Proof.
  rewrite forallb_forall, Forall_forall. intros H p Hp%list_elem_of_In. specialize (H p Hp). unfold block_okb in H.
  apply andb_true_iff in H as [[H1%bool_decide_eq_true H2]%andb_true_iff H3%bool_decide_eq_true]. split_and!; [done| |done].
  rewrite forallb_forall in H2. apply Forall_forall. intros f Hf%list_elem_of_In. specialize (H2 f Hf). unfold field_okb in H2.
  apply andb_true_iff in H2 as [[[K1%bool_decide_eq_true K2]%andb_true_iff K3%bool_decide_eq_true]%andb_true_iff K4].
  assert (K5 : Forall value_ok (f.(cf_val) :: f.(cf_more))).
  { rewrite forallb_forall in K4. apply Forall_forall. intros s Hs%list_elem_of_In. specialize (K4 s Hs).
    apply andb_true_iff in K4 as [? ?%bool_decide_eq_true]. by split. }
  inversion K5; subst. by split_and!.
Qed.

(** A package that is not installed is reported as well: its status contains the word. *)
Lemma package_databases_witness :
  let cs := dpkg_parse simple_purl (read_text (encode (status_text two_packages))) in
  name <$> cs = ["busybox"; "telnetd"] /\
  cpe <$> cs = [Some "cpe:2.3:a:busybox:busybox:1:1.36.1:*:*:*:*:*:*:*"; None] /\
  dict_get "description" <$> (metadata <$> cs) = [Some (JStr ("Tiny utilities" +:+ nl +:+ "a single binary: sh, ls" +:+ nl +:+ ".")); Some (JStr "")].
Proof.
  destruct (package_databases simple_purl two_packages) as [E _].
  { apply blocks_okb. by vm_compute. }
  cbn zeta. rewrite E. clear E. by vm_compute.
Defined.

(** A version keeps the epoch of Debian in the CPE, unescaped: the colon ends the field. *)
Example epoch_ex : build_cpe "busybox" "busybox" (Some "1:1.36.1") "a" = Some "cpe:2.3:a:busybox:busybox:1:1.36.1:*:*:*:*:*:*:*".
Proof. done. Qed.

(** A control file keeps a break that is none of Debian's: the text behind it is a field. *)
Example break_ex : parse_control_block ("Package: a" +:+ nl +:+ "Description: x" +:+ String (ascii_of_N 11) "Package: b") =
  [("package", "b"); ("description", "x")].
Proof. done. Qed.
