(* ===== verification/SbomScan.v ===== *)
(** * The component scan ([services/sbom/service.py], [strategies/])

    The strategies for kernel and distribution, and the coordinator: the roots it scans, the
    strategies it runs over one store, the passes behind them and the rows it returns.  The
    strategies that read binaries are parameters, as are Syft and the program strings. *)

From S2P Require Import Prelude PyText PosixPath PyLines Json Jsonb JsonbColumns Sorting VirtualFs SbomData ComponentStore Enrichment SbomPackages.
From Stdlib Require Import Ascii String.
Import (notations) Ascii String.
#[local] Open Scope Z_scope.

(** ** Kernel *)

(** [s.replace(sub, "")] *)
Fixpoint remove_from (sub : string) (skip : nat) (s : string) : string :=
  match s with
  | "" => ""
  | String a t =>
      match skip with
      | S skip => remove_from sub skip t
      | O => if startswith s sub then remove_from sub (String.length sub - 1) t else String a (remove_from sub 0 t)
      end
  end.
Definition remove (sub s : string) : string := if truthy (Some sub) then remove_from sub 0 s else s.

(** [line.split("=", 1)[1]] of a line that holds the sign. *)
Definition after_equals (line : string) : string := (partition "=" line).2.

Section Kernel.
Context (package_url : string -> string -> string -> option string).
(** The output of the program strings on a file; [None] if it cannot run or takes too long. *)
Context (o : os) (read strings : string -> option string) (depth : nat).

Definition linux_component (version source path full_version : string) : IdentifiedComponent :=
  {| name := "linux-kernel"; version := Some version; type_ := "operating-system";
     cpe := Some ("cpe:2.3:o:linux:linux_kernel:" +:+ version +:+ ":*:*:*:*:*:*:*");
     purl := build_purl package_url "linux" (Some version) "generic"; supplier := Some "linux";
     detection_source := source; detection_confidence := "high"; file_paths := [path];
     metadata := [("full_version", JStr full_version)]; source_partition := None |}.

(** [re.match(r"(\d+\.\d+\.\d+)", s)] *)
Definition semver_start (s : string) : option string := fst <$> dotted 2 s.

Definition module_dir (modules_dir : string) (entry : string) : bool :=
  isdir o (path_join modules_dir entry) && bool_decide (is_Some (dotted 1 entry)).

Definition kernel_modules (root : string) : option IdentifiedComponent :=
  let modules_dir := abs_path root "/lib/modules" in
  if isdir o modules_dir then
    (fun entry => linux_component (default entry (semver_start entry)) "kernel_modules" ("/lib/modules/" +:+ entry) entry)
      <$> List.find (module_dir modules_dir) (default [] (listdir o modules_dir))
  else None.

(** The loop over the lines of one module: a line that only has the key raises. *)
Fixpoint vermagic_lines (root ko_path : string) (lines : list string) : res scan_error (option IdentifiedComponent) :=
  match lines with
  | [] => Ok None
  | line :: lines =>
      if startswith line "vermagic=" then
        match PyLines.split (after_equals line) with
        | [] => Err IndexError
        | ver_str :: _ =>
            match semver_start ver_str with
            | Some v => Ok (Some (linux_component v "kernel_vermagic" (remove root ko_path) ver_str))
            | None => vermagic_lines root ko_path lines
            end
        end
      else vermagic_lines root ko_path lines
  end.

Definition first_module (dir : string) : option string :=
  head (os_walk o (fun _ => true) depth dir ≫= fun d => path_join d.1 <$> List.filter (fun fn => endswith fn ".ko") d.2).

Definition search_dirs (root : string) : list string :=
  let parent := dirname root in
  root :: (if isdir o parent then
             List.filter (fun sibling => isdir o sibling && negb (bool_decide (sibling = root)))
               (path_join parent <$> default [] (listdir o parent))
           else []).

Fixpoint vermagic_dirs (root : string) (dirs : list string) : res scan_error (option IdentifiedComponent) :=
  match dirs with
  | [] => Ok None
  | dir :: dirs =>
      match first_module dir with
      | None => vermagic_dirs root dirs
      | Some ko_path =>
          match strings ko_path with
          | None => vermagic_dirs root dirs
          | Some stdout =>
              r ← vermagic_lines root ko_path (splitlines stdout);
              match r with Some c => Ok (Some c) | None => vermagic_dirs root dirs end
          end
      end
  end.

Definition _scan_from_vermagic (root : string) : res scan_error (option IdentifiedComponent) := vermagic_dirs root (search_dirs root).

(** ** Distribution *)

Definition quote_char (a : ascii) : bool := is_char "'" a || is_char dquote a.

Definition release_field (fields : list (string * string)) (line : string) : list (string * string) :=
  let line := strip line in
  if has_char "=" line && negb (startswith line "#") then
    let '(key, val) := partition "=" line in
    dict_set (strip key) (rstrip_if quote_char (lstrip_if quote_char (strip val))) fields
  else fields.

(** [fields.get(a, fields.get(b, dflt))] *)
Definition get_either (a b dflt : string) (fields : list (string * string)) : string :=
  default (default dflt (dict_get b fields)) (dict_get a fields).

Definition _parse_os_release (rel_path content : string) : option IdentifiedComponent :=
  let fields := foldl release_field [] (splitlines (take_chars 4096 content)) in
  let distro_id := lower (get_either "ID" "DISTRIB_ID" "" fields) in
  let distro_version := get_either "VERSION_ID" "DISTRIB_RELEASE" "" fields in
  let distro_name := get_either "NAME" "DISTRIB_DESCRIPTION" distro_id fields in
  if truthy (Some distro_id) && truthy (Some distro_version) then
    Some {| name := distro_id; version := Some distro_version; type_ := "operating-system";
            cpe := build_cpe distro_id distro_id (Some distro_version) "a";
            purl := build_purl package_url distro_id (Some distro_version) "generic"; supplier := Some distro_id;
            detection_source := "config_file"; detection_confidence := "high"; file_paths := [rel_path];
            metadata := [("display_name", JStr distro_name)]; source_partition := None |}
  else None.

Definition os_release_files : list string := ["/etc/os-release"; "/etc/openwrt_release"].

(** [read] gives the text of a file here. *)
Definition KernelStrategy_run (root : string) : res scan_error (list IdentifiedComponent) :=
  kernel ← match kernel_modules root with Some c => Ok (Some c) | None => _scan_from_vermagic root end;
  Ok ((match kernel with Some c => [c] | None => [] end) ++
      omap (fun rel_file =>
              let path := abs_path root rel_file in
              if isfile o path then content ← read path; _parse_os_release rel_file content else None) os_release_files)%list.

(** ** Marker files *)

(** [re.search(r"(\d+\.\d+(?:\.\d+)?)", s)] *)
Fixpoint search_version (s : string) : option string :=
  match dotted 2 s with
  | Some (v, _) => Some v
  | None =>
      match dotted 1 s with
      | Some (v, _) => Some v
      | None => match s with String _ t => search_version t | "" => None end
      end
  end.

Definition FIRMWARE_MARKERS : list (string * list string) :=
  [("dd-wrt", ["/etc/dd-wrt_version"]); ("buildroot", ["/etc/buildroot_version"; "/etc/br-version"]);
   ("yocto", ["/etc/version"; "/etc/build"])].

Definition marker (root distro_id rel_path : string) : option IdentifiedComponent :=
  let path := abs_path root rel_path in
  if negb (isfile o path) then None
  else
    text ← read path;
    let content := strip (take_chars 1024 text) in
    if negb (truthy (Some content)) then None
    else
      let version := default (take_chars 50 content) (search_version content) in
      Some {| name := distro_id; version := Some version; type_ := "operating-system";
              cpe := build_cpe distro_id distro_id (Some version) "a";
              purl := build_purl package_url distro_id (Some version) "generic"; supplier := Some distro_id;
              detection_source := "config_file"; detection_confidence := "high"; file_paths := [rel_path];
              metadata := [("marker_file", JStr rel_path); ("raw_content", JStr (take_chars 200 content))];
              source_partition := None |}.

Definition FirmwareMarkersStrategy_run (root : string) : list IdentifiedComponent :=
  omap (fun dm : string * list string => head (omap (marker root dm.1) dm.2)) FIRMWARE_MARKERS.
End Kernel.

(** ** The coordinator *)

Record SbomService := { extracted_root : string; _detection_roots : list string }.

(** The columns of the firmware that are read. *)
Record firmware_arg := { fw_extracted_path : option string; fw_device_metadata : json }.

Section Service.
Context (o : os).

Definition str_list (l : list json) : option (list string) := mapM (fun v => match v with JStr s => Some s | _ => None end) l.

(** The roots cached in the metadata, if all of them are directories. *)
Definition cached_roots (meta : json) : option (list string) :=
  match _normalize_firmware_device_metadata meta with
  | JDict d =>
      match dict_get "detection_roots" d with
      | Some (JList l) => ps ← str_list l; if forallb (isdir o) ps then Some ps else None
      | _ => None
      end
  | _ => None
  end.

Definition init_roots (extracted_root : option string) (firmware : option firmware_arg) (detection_roots : option (list string))
    : list string :=
  match detection_roots, firmware with
  | Some l, _ => l
  | None, Some fw =>
      default (match fw.(fw_extracted_path) with Some fp => if truthy (Some fp) then [fp] else [] | None => [] end)
        (cached_roots fw.(fw_device_metadata))
  | None, None => match extracted_root with Some r => if truthy (Some r) then [r] else [] | None => [] end
  end.

Definition SbomService_init (root : option string) (firmware : option firmware_arg) (detection_roots : option (list string))
    : SbomService :=
  let roots := realpath o <$> List.filter (fun r => truthy (Some r) && isdir o r) (init_roots root firmware detection_roots) in
  let primary := fw ← firmware; fp ← fw.(fw_extracted_path);
                 if truthy (Some fp) && isdir o fp then Some (realpath o fp) else None in
  match primary, roots, root with
  | Some p, _, _ => {| extracted_root := p; _detection_roots := p :: List.filter (fun r => negb (bool_decide (r = p))) roots |}
  | None, r :: _, _ => {| extracted_root := r; _detection_roots := roots |}
  | None, [], Some r =>
      if truthy (Some r) then {| extracted_root := realpath o r; _detection_roots := [realpath o r] |}
      else {| extracted_root := ""; _detection_roots := [] |}
  | None, [], None => {| extracted_root := ""; _detection_roots := [] |}
  end.

(** A list of roots with the real paths that were seen. *)
Abbreviation root_list := (list (string * option string) * list string)%type.

Definition add_root (st : root_list) (root : string) : root_list :=
  if bool_decide (root ∈ st.2) then st
  else ((st.1 ++ [(root, let b := basename (rstrip_char slash root) in if truthy (Some b) then Some b else None)])%list, st.2 ++ [root])%list.

Definition add_sibling (parent primary_name : string) (st : root_list) (entry : string) : root_list :=
  let sibling_path := path_join parent entry in
  if negb (bool_decide (entry = primary_name)) && isdir o sibling_path && negb (startswith entry ".") then
    let real := realpath o sibling_path in
    if bool_decide (real ∈ st.2) then st else ((st.1 ++ [(sibling_path, Some entry)])%list, (st.2 ++ [real])%list)
  else st.

Definition scan_roots_state (s : SbomService) : root_list :=
  let st := foldl add_root ([(s.(extracted_root), None)], [s.(extracted_root)]) (tail s.(_detection_roots)) in
  if (List.length s.(_detection_roots) <=? 1)%nat && truthy (Some s.(extracted_root)) then
    let parent := dirname s.(extracted_root) in
    if bool_decide (basename parent ∈ ["rootfs"; "partitions"; "images"])
    then foldl (add_sibling parent (basename s.(extracted_root))) st (sort_by String.le (default [] (listdir o parent)))
    else st
  else st.

Definition _get_all_scan_roots (s : SbomService) : list (string * option string) := (scan_roots_state s).1.
End Service.

(** ** [generate_sbom] *)

Section Generate.
Context `{S : SetOrder}.

(** A strategy: a root and the shared store. *)
Definition strategy : Type := string -> ComponentStore -> res scan_error ComponentStore.

(** One that adds what it found. *)
Definition reporting (run : string -> res scan_error (list IdentifiedComponent)) : strategy :=
  fun root s => l ← run root; Ok (foldl (fun s c => add c s) s l).

Fixpoint run_strategies (strategies : list strategy) (root : string) (s : ComponentStore) : res scan_error ComponentStore :=
  match strategies with
  | [] => Ok s
  | run :: strategies => s ← run root s; run_strategies strategies root s
  end.

Fixpoint run_roots (strategies : list strategy) (roots : list (string * option string)) (s : ComponentStore)
    : res scan_error ComponentStore :=
  match roots with
  | [] => Ok s
  | (root, partition) :: roots => s ← run_strategies strategies root (set_partition partition s); run_roots strategies roots s
  end.

Record sbom_row := {
  r_name : string; r_version : option string; r_type : string; r_cpe : option string; r_purl : option string;
  r_supplier : option string; r_source : string; r_confidence : string; r_paths : option (list string); r_metadata : pydict
}.

Definition serialise (c : IdentifiedComponent) : sbom_row :=
  {| r_name := c.(name); r_version := c.(version); r_type := c.(type_); r_cpe := c.(cpe); r_purl := c.(purl);
     r_supplier := c.(supplier); r_source := c.(detection_source); r_confidence := c.(detection_confidence);
     r_paths := match c.(file_paths) with [] => None | l => Some l end;
     r_metadata := match c.(source_partition) with
                   | Some p => if truthy (Some p) then dict_set "source_partition" (JStr p) c.(metadata) else c.(metadata)
                   | None => c.(metadata)
                   end |}.

Context (o : os) (lookup_fuzzy : string -> string -> option cpe_match).

Definition list_dir (path : string) : option (list string) := if isdir o path then listdir o path else None.

Definition generate_sbom (syft : strategy) (strategies : list strategy) (svc : SbomService) : res scan_error (list sbom_row) :=
  s ← syft svc.(extracted_root) empty_store;
  s ← run_roots strategies (_get_all_scan_roots o svc) s;
  let s := annotate_service_risks list_dir svc.(extracted_root) (set_partition None s) in
  match enrich_cpes lookup_fuzzy s with
  | Ok s => Ok ((fun kc => serialise kc.2) <$> components s)
  | Err e => Err (EnrichError e)
  end.
End Generate.

(** ** Which roots are scanned *)

Section Roots.
Context (o : os) {laws : RealpathLaws o}.

Definition real_of (r : string * option string) : string := realpath o r.1.

(** The list and the real paths that were seen go together. *)
Definition roots_ok (st : list (string * option string) * list string) : Prop := real_of <$> st.1 = st.2 /\ NoDup st.2.

Lemma roots_ok_snoc (l : list (string * option string)) (seen : list string) (r : string * option string) :
  roots_ok (l, seen) -> real_of r ∉ seen -> roots_ok ((l ++ [r])%list, (seen ++ [real_of r])%list).
Proof.
  intros [H1 H2] Hr. cbn [fst snd] in *. split; cbn [fst snd]; [by rewrite fmap_app, H1|]. apply NoDup_app. split_and!; [done| |apply NoDup_singleton].
  intros x Hx ->%list_elem_of_singleton. done.
Qed.

Lemma add_root_ok (st : list (string * option string) * list string) (root : string) :
  realpath o root = root -> roots_ok st -> roots_ok (add_root st root) /\ root ∈ (add_root st root).2 /\ st.2 ⊆ (add_root st root).2 /\
  exists tl, (add_root st root).1 = (st.1 ++ tl)%list.
Proof.
  intros Hr Hst. unfold add_root. case_bool_decide as Hin.
  - split_and!; [done|done|done|]. exists []. by rewrite app_nil_r.
  - destruct st as [l seen]. cbn [fst snd] in *. pose proof (roots_ok_snoc l seen (root, let b := basename (rstrip_char slash root) in if truthy (Some b) then Some b else None)) as H.
    unfold real_of in H. cbn [fst] in H. rewrite Hr in H. split_and!; [by apply H|set_solver|set_solver|by eexists].
Qed.

Lemma add_roots_ok (l : list string) (st : list (string * option string) * list string) :
  Forall (fun r => realpath o r = r) l -> roots_ok st ->
  roots_ok (foldl add_root st l) /\ (forall r, r ∈ l -> r ∈ (foldl add_root st l).2) /\ st.2 ⊆ (foldl add_root st l).2 /\
  exists tl, (foldl add_root st l).1 = (st.1 ++ tl)%list.
Proof.
  intros Hl. revert st. induction Hl as [|r l Hr _ IH]; intros st Hst; cbn [foldl].
  { split_and!; [done|by intros ? ?%not_elem_of_nil|done|]. exists []. by rewrite app_nil_r. }
  destruct (add_root_ok st r Hr Hst) as (H1 & H2 & H3 & tl1 & E1). destruct (IH _ H1) as (K1 & K2 & K3 & tl2 & E2).
  split_and!; [done| |set_solver|].
  - intros x [->|Hx]%elem_of_cons; [by apply K3|by apply K2].
  - exists (tl1 ++ tl2)%list. by rewrite E2, E1, app_assoc.
Qed.

Lemma add_siblings_ok (parent primary_name : string) (l : list string) (st : list (string * option string) * list string) :
  roots_ok st -> roots_ok (foldl (add_sibling o parent primary_name) st l) /\ st.2 ⊆ (foldl (add_sibling o parent primary_name) st l).2 /\
  exists tl, (foldl (add_sibling o parent primary_name) st l).1 = (st.1 ++ tl)%list.
Proof.
  revert st. induction l as [|e l IH]; intros st Hst; cbn [foldl].
  { split_and!; [done|done|]. exists []. by rewrite app_nil_r. }
  assert (H : roots_ok (add_sibling o parent primary_name st e) /\ st.2 ⊆ (add_sibling o parent primary_name st e).2 /\
    exists tl, (add_sibling o parent primary_name st e).1 = (st.1 ++ tl)%list).
  { unfold add_sibling. destruct (_ && _); [|split_and!; [done|done|exists []; by rewrite app_nil_r]]. case_bool_decide as Hin.
    - split_and!; [done|done|exists []; by rewrite app_nil_r].
    - destruct st as [rs seen]. split_and!; [by apply (roots_ok_snoc rs seen (path_join parent e, Some e))|cbn; set_solver|by eexists]. }
  destruct H as (H1 & H2 & tl1 & E1). destruct (IH _ H1) as (K1 & K2 & tl2 & E2).
  split_and!; [done|set_solver|]. exists (tl1 ++ tl2)%list. by rewrite E2, E1, app_assoc.
Qed.

Lemma init_real (root : option string) (firmware : option firmware_arg) (detection_roots : option (list string)) :
  let svc := SbomService_init o root firmware detection_roots in
  (svc = {| extracted_root := ""; _detection_roots := [] |}) \/
  (exists l, svc.(_detection_roots) = svc.(extracted_root) :: l /\ Forall (fun r => realpath o r = r) (svc.(_detection_roots))).
Proof.
  cbn zeta. unfold SbomService_init. set (roots := realpath o <$> List.filter _ _).
  assert (Hr : Forall (fun r => realpath o r = r) roots).
  { unfold roots. apply Forall_fmap, Forall_forall. intros x _. apply realpath_idem. }
  destruct (firmware ≫= _) as [p|] eqn:Ep.
  - right. eexists. split; [done|]. cbn. constructor.
    + destruct firmware as [fw|]; [|done]. cbn in Ep. destruct (fw_extracted_path fw) as [fp|]; [|done]. cbn in Ep.
      destruct (_ && _); [|done]. injection Ep as <-. apply realpath_idem.
    + apply Forall_forall. intros x Hx. apply elem_of_filter_bool in Hx as [Hx _]. rewrite Forall_forall in Hr. by apply Hr.
  - destruct roots as [|r l]; [|by right; exists l]. destruct root as [r|]; [|by left]. destruct (truthy (Some r)); [|by left].
    right. exists []. split; [done|]. repeat constructor. apply realpath_idem.
Qed.

(** C26. The roots of a component scan: the primary root comes first and without a partition,
    every detection root is scanned, and no directory is scanned twice, whatever links lead
    to it. *)
Theorem scan_roots_spec (root : option string) (firmware : option firmware_arg) (detection_roots : option (list string)) :
  let svc := SbomService_init o root firmware detection_roots in
  let roots := _get_all_scan_roots o svc in
  NoDup (real_of <$> roots) /\ head roots = Some (svc.(extracted_root), None) /\
  (forall r, r ∈ svc.(_detection_roots) -> r ∈ real_of <$> roots).
Proof.
  cbn zeta. destruct (init_real root firmware detection_roots) as [->|(l & E & Hr)].
  { split_and!; [apply NoDup_singleton|done|by intros ? ?%not_elem_of_nil]. }
  set (svc := SbomService_init o root firmware detection_roots) in *. rewrite E in Hr. inversion Hr as [|? ? H0 Hl]; subst.
  assert (H1 : roots_ok ([(svc.(extracted_root), None)], [svc.(extracted_root)])).
  { split; cbn; [unfold real_of; cbn; by rewrite H0|apply NoDup_singleton]. }
  destruct (add_roots_ok l _ Hl H1) as (K1 & K2 & K3 & tl & Etl).
  assert (Hfin : forall st, roots_ok st -> (foldl add_root ([(svc.(extracted_root), None)], [svc.(extracted_root)]) l).2 ⊆ st.2 ->
    (exists tl, st.1 = ([(svc.(extracted_root), None)] ++ tl)%list) ->
    NoDup (real_of <$> st.1) /\ head st.1 = Some (svc.(extracted_root), None) /\
    (forall r, r ∈ svc.(extracted_root) :: l -> r ∈ real_of <$> st.1)).
  { intros st [Hs1 Hs2] Hsub (tl' & Etl'). rewrite Hs1. split_and!; [done|by rewrite Etl'|].
    intros r [->|Hin]%elem_of_cons; apply Hsub; [apply K3; by left|by apply K2]. }
  unfold _get_all_scan_roots, scan_roots_state. rewrite E. cbn [tail].
  destruct (_ && _); [|apply Hfin; [done|done|by exists tl]]. case_bool_decide; [|apply Hfin; [done|done|by exists tl]].
  destruct (add_siblings_ok (dirname svc.(extracted_root)) (basename svc.(extracted_root))
    (sort_by String.le (default [] (listdir o (dirname svc.(extracted_root))))) _ K1) as (S1 & S2 & tl2 & Es).
  apply Hfin; [done|done|]. exists (tl ++ tl2)%list. by rewrite Es, Etl, app_assoc.
Qed.
End Roots.

(** ** What a scan returns *)

Definition keys (s : ComponentStore) : list key := (components s).*1.

Definition store_ok (s : ComponentStore) : Prop := NoDup (keys s) /\ Forall (fun kc => comp_key kc.2 = kc.1) (components s).

Lemma dict_set_ok (k : key) (c : IdentifiedComponent) (d : list (key * IdentifiedComponent)) :
  comp_key c = k -> NoDup d.*1 -> Forall (fun kc => comp_key kc.2 = kc.1) d ->
  NoDup (dict_set k c d).*1 /\ Forall (fun kc => comp_key kc.2 = kc.1) (dict_set k c d) /\
  forall k', k' ∈ (dict_set k c d).*1 <-> k' = k \/ k' ∈ d.*1.
Proof.
  intros Hc Hn Hf. destruct (dict_set_nodup_keys k c d Hn) as [H1 H2]. split_and!; [done| |done]. clear -Hc Hf.
  induction Hf as [|[k1 c1] d Hc1 Hf IH]; cbn [dict_set]; [by repeat constructor|]. case_decide; by constructor.
Qed.

Section Complete.
Context `{S : SetOrder}.

(** [s'] holds what [s] holds and is well-formed if [s] is. *)
Definition grows (s s' : ComponentStore) : Prop := store_ok s -> store_ok s' /\ keys s ⊆ keys s'.

Lemma grows_refl (s : ComponentStore) : grows s s.
Proof. by intros ?. Qed.

Lemma grows_trans (s1 s2 s3 : ComponentStore) : grows s1 s2 -> grows s2 s3 -> grows s1 s3.
Proof. intros H1 H2 H. destruct (H1 H) as [K1 L1]. destruct (H2 K1) as [K2 L2]. split; [done|set_solver]. Qed.

Lemma add_grows (c : IdentifiedComponent) (s : ComponentStore) : grows s (add c s) /\ (store_ok s -> comp_key c ∈ keys (add c s)).
Proof.
  assert (Hk : comp_key (stamp_partition (current_partition s) c) = comp_key c) by (unfold stamp_partition; by destruct (_ && _)).
  assert (H : store_ok s -> store_ok (add c s) /\ (forall k, k ∈ keys (add c s) <-> k = comp_key c \/ k ∈ keys s)).
  { intros [Hn Hf]. unfold add, keys. cbn [components]. rewrite Hk.
    destruct (dict_get (comp_key c) (components s)) as [e|] eqn:E.
    - assert (He : comp_key e = comp_key c).
      { apply dict_get_elem in E. rewrite Forall_forall in Hf. by apply (Hf (comp_key c, e)). }
      destruct (rank _ >? rank e).
      + destruct (dict_set_ok (comp_key c) (set_file_paths (set_list (file_paths e ++ file_paths (stamp_partition (current_partition s) c))%list)
          (stamp_partition (current_partition s) c)) (components s)) as (H1 & H2 & H3); [exact Hk|done|done|]. by split_and!.
      + destruct (dict_set_ok (comp_key c) (set_file_paths (set_list (file_paths e ++ file_paths (stamp_partition (current_partition s) c))%list) e)
          (components s)) as (H1 & H2 & H3); [exact He|done|done|]. by split_and!.
    - destruct (dict_set_ok (comp_key c) (stamp_partition (current_partition s) c) (components s)) as (H1 & H2 & H3); [exact Hk|done|done|].
      by split_and!. }
  split; [intros Hs; destruct (H Hs) as [H1 H2]; split; [done|]; intros k Hin; apply H2; by right|].
  intros Hs. destruct (H Hs) as [_ H2]. apply H2. by left.
Qed.

Lemma adds_grow (l : list IdentifiedComponent) (s : ComponentStore) :
  grows s (foldl (fun s c => add c s) s l) /\ (store_ok s -> forall c, c ∈ l -> comp_key c ∈ keys (foldl (fun s c => add c s) s l)).
Proof.
  revert s. induction l as [|c l IH]; intros s; cbn [foldl]; [split; [apply grows_refl|by intros ? ? ?%not_elem_of_nil]|].
  destruct (add_grows c s) as [H1 H2]. destruct (IH (add c s)) as [K1 K2]. split; [by eapply grows_trans|].
  intros Hs x [->|Hx]%elem_of_cons; [|by apply K2; [apply H1|]]. destruct (H1 Hs) as [Hs1 _]. apply (K1 Hs1). by apply H2.
Qed.

(** What is asked of a strategy that is not modelled: it only adds to the store. *)
Definition additive (run : strategy) : Prop := forall root s s', run root s = Ok s' -> grows s s'.

Lemma reporting_additive (run : string -> res scan_error (list IdentifiedComponent)) : additive (reporting run).
Proof. intros root s s'. unfold reporting. destruct (run root) as [l|]; [|done]. intros [= <-]. apply adds_grow. Qed.

Lemma run_strategies_spec (strategies : list strategy) (root : string) (s s' : ComponentStore) :
  Forall additive strategies -> run_strategies strategies root s = Ok s' ->
  grows s s' /\ forall run l c, reporting run ∈ strategies -> run root = Ok l -> c ∈ l -> store_ok s -> comp_key c ∈ keys s'.
Proof.
  intros Ha. revert s. induction Ha as [|st sts Hst _ IH]; intros s; cbn [run_strategies].
  { intros [= ->]. split; [apply grows_refl|by intros ? ? ? ?%not_elem_of_nil]. }
  rewrite res_bind_ok. intros (s1 & E1 & E2). destruct (IH s1 E2) as [H1 H2]. pose proof (Hst _ _ _ E1) as H0. split; [by eapply grows_trans|].
  intros run l c [<-|Hin]%elem_of_cons Hl Hc Hs.
  - unfold reporting in E1. rewrite Hl in E1. injection E1 as <-. destruct (adds_grow l s) as [_ H3]. destruct (H0 Hs) as [Hs1 _].
    apply (H1 Hs1). by apply H3.
  - eapply H2; [done..|]. by apply H0.
Qed.

Lemma run_roots_spec (strategies : list strategy) (roots : list (string * option string)) (s s' : ComponentStore) :
  Forall additive strategies -> run_roots strategies roots s = Ok s' ->
  grows s s' /\ forall root part run l c, (root, part) ∈ roots -> reporting run ∈ strategies -> run root = Ok l -> c ∈ l ->
    store_ok s -> comp_key c ∈ keys s'.
Proof.
  intros Ha. revert s. induction roots as [|[root part] roots IH]; intros s; cbn [run_roots].
  { intros [= ->]. split; [apply grows_refl|by intros ? ? ? ? ? ?%not_elem_of_nil]. }
  rewrite res_bind_ok. intros (s1 & E1 & E2). destruct (IH s1 E2) as [H1 H2].
  destruct (run_strategies_spec _ _ _ _ Ha E1) as [K1 K2]. assert (K0 : grows s s1) by exact K1. split; [by eapply grows_trans|].
  intros r p run l c [[= -> ->]|Hin]%elem_of_cons Hrun Hl Hc Hs.
  - destruct (K0 Hs) as [Hs1 _]. apply (H1 Hs1). by eapply K2.
  - eapply H2; [done..|]. by apply K0.
Qed.

Lemma tag_first_ok (entry risk : string) (l l' : list (key * IdentifiedComponent)) :
  tag_first entry risk l = Some l' -> l'.*1 = l.*1 /\
  (Forall (fun kc => comp_key kc.2 = kc.1) l -> Forall (fun kc => comp_key kc.2 = kc.1) l').
Proof.
  revert l'. induction l as [|[k c] l IH]; intros l'; [done|]. cbn [tag_first]. destruct (names_service entry c).
  - intros [= <-]. split; [done|]. intros H. inversion H; subst. by constructor.
  - destruct (tag_first entry risk l) as [r|]; [|done]. intros [= <-]. destruct (IH r eq_refl) as [H1 H2]. split; [by rewrite !fmap_cons, H1|].
    intros H. inversion H; subst. constructor; [done|by apply H2].
Qed.

Lemma annotate_entry_grows (dir : string) (s : ComponentStore) (entry : string) : grows s (annotate_entry dir s entry).
Proof.
  unfold annotate_entry. destruct (dict_get entry KNOWN_SERVICE_RISKS) as [risk|]; [|apply grows_refl].
  destruct (tag_first entry risk (components s)) as [l|] eqn:E; [|apply add_grows].
  apply tag_first_ok in E as [H1 H2]. intros [Hn Hf]. unfold store_ok, keys in *. cbn [components]. rewrite H1. split; [|done]. split; [done|by apply H2].
Qed.

Lemma foldl_grows {A} (f : ComponentStore -> A -> ComponentStore) (l : list A) (s : ComponentStore) :
  (forall s x, grows s (f s x)) -> grows s (foldl f s l).
Proof. intros Hf. revert s. induction l as [|x l IH]; intros s; cbn [foldl]; [apply grows_refl|]. by eapply grows_trans. Qed.

Lemma annotate_grows (ld : string -> option (list string)) (root : string) (s : ComponentStore) :
  grows s (annotate_service_risks ld root s).
Proof.
  apply foldl_grows. intros s1 dir. destruct (ld _) as [entries|]; [|apply grows_refl]. apply foldl_grows, annotate_entry_grows.
Qed.

Definition row_key (r : sbom_row) : key := (normalize_name r.(r_name), normalize_version r.(r_version)).

Context (lookup_fuzzy : string -> string -> option cpe_match) (o : os).
Context (Hlookup : forall n v m, lookup_fuzzy n v = Some m -> cpe23 m <> "").

Lemma enriched_keys (s s' : ComponentStore) : enrich_cpes lookup_fuzzy s = Ok s' -> store_ok s ->
  row_key <$> ((fun kc => serialise kc.2) <$> components s') = keys s.
Proof.
  unfold enrich_cpes. rewrite res_bind_ok. intros (l & E & [= <-]) [_ Hf]. cbn [components]. apply enrich_all_spec in E as [H _]; [|done].
  unfold keys. revert Hf. induction H as [|kc kc' l0 l1 (Hk & (Hn & Hv & _) & _) _ IH]; intros Hf; [done|]. inversion Hf as [|? ? Hc Hf']; subst.
  rewrite !fmap_cons, IH by done. f_equal. rewrite <- Hc. unfold row_key, comp_key, serialise. cbn. by rewrite Hn, Hv.
Qed.

(** C24. A component scan that returns loses nothing and repeats nothing: its rows differ in
    normalised name and version, and every component that a strategy reports in some root -
    package databases, kernel, marker files - has its row, whatever the other strategies add
    and whatever the passes behind them do. *)
Theorem sbom_complete (syft : strategy) (strategies : list strategy) (svc : SbomService) (rows : list sbom_row) :
  additive syft -> Forall additive strategies -> generate_sbom o lookup_fuzzy syft strategies svc = Ok rows ->
  NoDup (row_key <$> rows) /\
  forall root part run l c,
    (root, part) ∈ _get_all_scan_roots o svc -> reporting run ∈ strategies -> run root = Ok l -> c ∈ l ->
    exists row, row ∈ rows /\ row_key row = comp_key c.
Proof.
  intros Hsy Ha. unfold generate_sbom. rewrite res_bind_ok. intros (s1 & E1 & H). apply res_bind_ok in H as (s2 & E2 & H).
  destruct (enrich_cpes _ _) as [s4|e] eqn:E4; [|done]. injection H as <-.
  assert (H0 : store_ok empty_store) by (split; [apply NoDup_nil_2|constructor]).
  destruct (Hsy _ _ _ E1 H0) as [Hs1 _]. destruct (run_roots_spec _ _ _ _ Ha E2) as [G1 G2]. destruct (G1 Hs1) as [Hs2 _].
  destruct (annotate_grows (list_dir o) svc.(extracted_root) (set_partition None s2) Hs2) as [Hs3 L3].
  pose proof (enriched_keys _ _ E4 Hs3) as Ek. rewrite Ek. split; [apply Hs3|].
  intros root part run l c Hroot Hrun Hl Hc. assert (Hin : comp_key c ∈ row_key <$> ((fun kc => serialise kc.2) <$> components s4)).
  { rewrite Ek. apply L3. by eapply G2. }
  apply list_elem_of_fmap in Hin as (row & -> & Hrow). by exists row.
Qed.
End Complete.

(** ** A module without a version *)

Section Stops.
Context `{S : SetOrder} (package_url : string -> string -> string -> option string) (lookup_fuzzy : string -> string -> option cpe_match).
Context (o : os) (read strings : string -> option string) (depth : nat).
Context (ar_t : string -> option (Z * bytes * bytes)) (ar_p_tar : string -> string -> list string -> option (Z * bytes)).

(** A strategy that fails in one root fails the scan. *)
Definition fails (run : strategy) (root : string) : Prop := forall s, exists e, run root s = Err e.

Lemma run_strategies_fails (strategies : list strategy) (run : strategy) (root : string) (s : ComponentStore) :
  run ∈ strategies -> fails run root -> exists e, run_strategies strategies root s = Err e.
Proof.
  intros Hin Hf. revert s. induction Hin as [strategies|? st strategies _ IH]; intros s; cbn [run_strategies].
  - destruct (Hf s) as [e ->]. by exists e.
  - destruct (st root s) as [s1|e]; [apply IH, Hf|by exists e].
Qed.

Lemma run_roots_fails (strategies : list strategy) (run : strategy) (roots : list (string * option string)) (root : string)
    (part : option string) (s : ComponentStore) :
  (root, part) ∈ roots -> run ∈ strategies -> fails run root -> exists e, run_roots strategies roots s = Err e.
Proof.
  intros Hin Hrun Hf. revert s. remember (root, part) as rp eqn:Erp. induction Hin as [? roots|? [r p] roots _ IH]; intros s; subst.
  - cbn [run_roots]. destruct (run_strategies_fails strategies run root (set_partition part s)) as [e ->]; [done..|]. by exists e.
  - cbn [run_roots]. destruct (run_strategies strategies r _) as [s1|e]; [by apply IH|by exists e].
Qed.

Lemma generate_fails (syft run : strategy) (strategies : list strategy) (svc : SbomService) (root : string) (part : option string) :
  (root, part) ∈ _get_all_scan_roots o svc -> run ∈ strategies -> fails run root ->
  exists e, generate_sbom o lookup_fuzzy syft strategies svc = Err e.
Proof.
  intros Hin Hrun Hf. unfold generate_sbom. destruct (syft _ _) as [s1|e]; [|by exists e].
  change (exists e, (run_roots strategies (_get_all_scan_roots o svc) s1 ≫= fun s =>
    match enrich_cpes lookup_fuzzy (annotate_service_risks (list_dir o) svc.(extracted_root) (set_partition None s)) with
    | Ok s => Ok ((fun kc => serialise kc.2) <$> components s) | Err e => Err (EnrichError e) end) = Err e).
  destruct (run_roots_fails strategies run _ root part s1 Hin Hrun Hf) as [e ->]. by exists e.
Qed.

Lemma vermagic_lines_stops (root ko_path line : string) (pre post : list string) :
  Forall (fun l => startswith l "vermagic=" = false) pre -> startswith line "vermagic=" = true ->
  PyLines.split (after_equals line) = [] -> vermagic_lines package_url root ko_path (pre ++ line :: post)%list = Err IndexError.
Proof. intros H Hl Hs. induction H as [|l pre Hpre _ IH]; cbn [vermagic_lines app]; [by rewrite Hl, Hs|]. by rewrite Hpre. Qed.

Lemma process_debs_stops (root deb_path : string) (paths : list string) (e0 : scan_error) :
  deb_path ∈ paths -> _list_deb_members ar_t deb_path = Err e0 -> exists e, process_debs ar_t ar_p_tar root paths = Err e.
Proof.
  intros Hin He. induction Hin as [paths|? p paths _ IH]; cbn [process_debs].
  - unfold _process_deb. rewrite He. by exists e0.
  - destruct (_process_deb ar_t ar_p_tar root p) as [c|e1]; [|by exists e1]. destruct (IH He) as [e1 IH1]. exists e1. cbn. by rewrite IH1.
Qed.

(** C27. One file stops the whole component scan.  If the first kernel module of a scanned root
    that has no versioned module directory has a bare vermagic line before any other, the
    kernel strategy raises an IndexError; if ar prints a name that is not UTF-8 for one of the
    files called .deb that are read (up to a number), the strategy for loose archives raises a UnicodeDecodeError.  Nothing catches
    either: whatever the other strategies find, there are no rows. *)
Theorem one_file_stops (syft : strategy) (strategies : list strategy) (svc : SbomService) (root : string) (part : option string) :
  (root, part) ∈ _get_all_scan_roots o svc ->
  (forall ko_path stdout line pre post,
    reporting (KernelStrategy_run package_url o read strings depth) ∈ strategies ->
    kernel_modules package_url o root = None -> first_module o depth root = Some ko_path -> strings ko_path = Some stdout ->
    splitlines stdout = (pre ++ line :: post)%list -> Forall (fun l => startswith l "vermagic=" = false) pre ->
    startswith line "vermagic=" = true -> PyLines.split (after_equals line) = [] ->
    exists e, generate_sbom o lookup_fuzzy syft strategies svc = Err e) /\
  (forall deb_path returncode stdout stderr,
    reporting (LooseDebStrategy_run o ar_t ar_p_tar depth) ∈ strategies ->
    deb_path ∈ deb_paths o depth root -> ar_t deb_path = Some (returncode, stdout, stderr) -> decode_replace stdout <> stdout ->
    exists e, generate_sbom o lookup_fuzzy syft strategies svc = Err e).
Proof.
  intros Hin. split.
  - intros ko_path stdout line pre post Hrun Hk Hm Hs Hl Hpre Hline Hblank. eapply generate_fails; [done|done|]. intros s. exists IndexError.
    unfold reporting, KernelStrategy_run. rewrite Hk. unfold _scan_from_vermagic, search_dirs. cbn [vermagic_dirs].
    rewrite Hm, Hs, Hl. by rewrite vermagic_lines_stops.
  - intros deb_path rc out err Hrun Hdeb Har Hout. eapply generate_fails; [done|done|]. intros s.
    destruct (process_debs_stops root deb_path (deb_paths o depth root) UnicodeDecodeError) as [e He]; [exact Hdeb| |].
    + unfold _list_deb_members, decode_strict. rewrite Har. cbv beta iota. by rewrite (bool_decide_eq_false_2 _ Hout).
    + exists e. unfold reporting, LooseDebStrategy_run. by rewrite He.
Qed.
End Stops.

(** ** A scan of concrete files *)

Definition scan_os : os :=
  plain_os ["/fw/rootfs/system/var/lib/dpkg/status"; "/fw/rootfs/system/etc/os-release"; "/fw/rootfs/vendor/wifi.ko"]
    ["/fw"; "/fw/rootfs"; "/fw/rootfs/system"; "/fw/rootfs/system/var"; "/fw/rootfs/system/var/lib"; "/fw/rootfs/system/var/lib/dpkg";
     "/fw/rootfs/system/etc"; "/fw/rootfs/vendor"].

Definition scan_bytes (path : string) : option bytes :=
  if bool_decide (path = "/fw/rootfs/system/var/lib/dpkg/status") then Some (encode (status_text two_packages)) else None.

Definition scan_text (path : string) : option string :=
  if bool_decide (path = "/fw/rootfs/system/etc/os-release") then Some ("ID=openwrt" +:+ nl +:+ "VERSION_ID='22.03'" +:+ nl) else None.

(** What strings prints of the module of the vendor partition. *)
Definition scan_strings (vermagic : string) (path : string) : option string :=
  if bool_decide (path = "/fw/rootfs/vendor/wifi.ko") then Some ("license=GPL" +:+ nl +:+ vermagic +:+ nl) else None.

Definition dpkg_run (root : string) : res scan_error (list IdentifiedComponent) :=
  Ok (DpkgStrategy_run simple_purl scan_os scan_bytes root).
Definition kernel_run (vermagic root : string) : res scan_error (list IdentifiedComponent) :=
  KernelStrategy_run simple_purl scan_os scan_text (scan_strings vermagic) 4 root.

Definition no_syft : strategy := fun _ s => Ok s.
Definition scan_service : SbomService := SbomService_init scan_os (Some "/fw/rootfs/system/") None None.
Definition no_cpes (_ _ : string) : option cpe_match := None.
Definition scan_strategies (vermagic : string) : list strategy := [reporting dpkg_run; reporting (kernel_run vermagic)].
Definition scan (vermagic : string) : res scan_error (list sbom_row) :=
  generate_sbom scan_os no_cpes no_syft (scan_strategies vermagic) scan_service.

(** The sibling partition is scanned under the name of its directory. *)
Lemma scan_roots_spec_witness :
  _get_all_scan_roots scan_os scan_service = [("/fw/rootfs/system", None); ("/fw/rootfs/vendor", Some "vendor")] /\
  NoDup (real_of scan_os <$> _get_all_scan_roots scan_os scan_service).
Proof.
  split; [by vm_compute|]. exact (proj1 (scan_roots_spec scan_os (laws := plain_os_laws _ _) (Some "/fw/rootfs/system/") None None)).
Defined.

Definition scan_rows : list sbom_row := match scan "vermagic=5.10.66-g1 SMP" with Ok rows => rows | Err _ => [] end.

Example scan_ex :
  (fun r => (r.(r_name), r.(r_version), r.(r_paths))) <$> scan_rows =
    [("busybox", Some "1:1.36.1", None); ("telnetd", Some "0.17", None);
     ("linux-kernel", Some "5.10.66", Some ["/fw/rootfs/vendor/wifi.ko"; "/wifi.ko"]);
     ("openwrt", Some "22.03", Some ["/etc/os-release"])].
Proof. by vm_compute. Qed.

Lemma scan_roots_demo :
  _get_all_scan_roots scan_os scan_service = [("/fw/rootfs/system", None); ("/fw/rootfs/vendor", Some "vendor")].
Proof. by vm_compute. Qed.

Lemma no_syft_additive : additive no_syft.
Proof. intros root s s' [= <-]. apply grows_refl. Qed.

Lemma scan_returns :
  generate_sbom scan_os no_cpes no_syft (scan_strategies "vermagic=5.10.66-g1 SMP") scan_service = Ok scan_rows.
Proof. by vm_compute. Qed.

Lemma sbom_complete_witness :
  NoDup (row_key <$> scan_rows) /\
  forall c, c ∈ DpkgStrategy_run simple_purl scan_os scan_bytes "/fw/rootfs/system" ->
    exists row, row ∈ scan_rows /\ row_key row = comp_key c.
Proof.
  assert (A : Forall additive (scan_strategies "vermagic=5.10.66-g1 SMP")).
  { apply List.Forall_cons; [apply reporting_additive|]. apply List.Forall_cons; [apply reporting_additive|constructor]. }
  destruct (sbom_complete no_cpes scan_os ltac:(done) no_syft (scan_strategies "vermagic=5.10.66-g1 SMP") scan_service scan_rows
    no_syft_additive A scan_returns) as [H1 H2].
  split; [exact H1|]. intros c Hc. eapply (H2 "/fw/rootfs/system" None dpkg_run); [|by left|reflexivity|exact Hc].
  rewrite scan_roots_demo. by left.
Defined.

(** An archive in the vendor partition, what ar prints of it, and the control file in it. *)
Definition deb_os : os := plain_os ["/fw/rootfs/vendor/app.deb"] ["/fw"; "/fw/rootfs"; "/fw/rootfs/vendor"].
Definition deb_ar (members : bytes) (_ : string) : option (Z * bytes * bytes) := Some (0, members, []).
Definition deb_tar (_ member : string) (args : list string) : option (Z * bytes) :=
  if bool_decide (args = ["tar"; "-J"; "-xO"; "-f"; "-"; "control"]) then Some (0, encode ("Package: app" +:+ nl +:+ "Version: 2"))
  else Some (2, []).
Definition deb_run (members : bytes) (root : string) : res scan_error (list IdentifiedComponent) :=
  LooseDebStrategy_run deb_os (deb_ar members) deb_tar 3 root.

Definition member_list (first : bytes) : bytes := (first ++ encode (nl +:+ "control.tar.xz" +:+ nl))%list.

Example deb_ex :
  deb_run (member_list (encode "debian-binary")) "/fw/rootfs/vendor" =
    Ok [{| name := "app"; version := Some "2"; type_ := "application"; cpe := None; purl := Some "pkg:deb/app@2"; supplier := None;
           detection_source := "loose_deb"; detection_confidence := "high"; file_paths := ["/app.deb"];
           metadata := [("section", JNull); ("homepage", JNull); ("description", JStr ""); ("arch", JNull); ("source", JStr "loose_deb")];
           source_partition := None |}].
Proof. by vm_compute. Qed.

Definition deb_service : SbomService := SbomService_init deb_os (Some "/fw/rootfs/vendor") None None.
Definition bad_members : bytes := member_list [byte_of_Z 0xff].

Lemma one_file_stops_witness :
  (exists e, scan "vermagic=" = Err e) /\
  (exists e, generate_sbom deb_os no_cpes no_syft [reporting (deb_run bad_members)] deb_service = Err e).
Proof.
  split.
  - refine (proj1 (one_file_stops simple_purl no_cpes scan_os scan_text (scan_strings "vermagic=") 4 (fun _ => None) (fun _ _ _ => None)
      no_syft (scan_strategies "vermagic=") scan_service "/fw/rootfs/vendor" (Some "vendor") _)
      "/fw/rootfs/vendor/wifi.ko" ("license=GPL" +:+ nl +:+ "vermagic=" +:+ nl) "vermagic=" ["license=GPL"] [] _ _ _ _ _ _ _ _).
    + rewrite scan_roots_demo. right. by left.
    + right. by left.
    + by vm_compute.
    + by vm_compute.
    + by vm_compute.
    + by vm_compute.
    + by repeat constructor.
    + done.
    + done.
  - refine (proj2 (one_file_stops simple_purl no_cpes deb_os scan_text (fun _ => None) 3 (deb_ar bad_members) deb_tar
      no_syft [reporting (deb_run bad_members)] deb_service "/fw/rootfs/vendor" None _)
      "/fw/rootfs/vendor/app.deb" 0 bad_members [] _ _ _ _).
    + assert (E : _get_all_scan_roots deb_os deb_service = [("/fw/rootfs/vendor", None)]) by by vm_compute. rewrite E. by left.
    + by left.
    + assert (E : deb_paths deb_os 3 "/fw/rootfs/vendor" = ["/fw/rootfs/vendor/app.deb"]) by by vm_compute. rewrite E. by left.
    + done.
    + by vm_compute.
Defined.
