(* ===== verification/KernelVulns.v ===== *)
(** * The index of kernel CVEs ([services/hardware_firmware/kernel_vulns_index.py])

    The records of the kernel's CVE list, projected to entries per directory of the kernel
    tree with a range of versions, their storage in Redis with a time to live, and the lookup
    for one directory and one kernel version.  Versions are those of packaging, a parameter:
    parsing and the order.  A stored value is what [json.loads] makes of it. *)

From S2P Require Import Prelude PyText PosixPath Json Jsonb.
From Stdlib Require Import Ascii String.
Import (notations) Ascii String.
#[local] Open Scope Z_scope.

(** ** Untyped access

    The exceptions that the functions here and in the CVE matcher raise. *)

Inductive exc := AttributeError | TypeErr | KeyErr | ReError | UnicodeErr | DataErr.

(** [v.get(k)] *)
Definition get (v : json) (k : string) : res exc json :=
  match v with JDict d => Ok (default JNull (dict_get k d)) | _ => Err AttributeError end.

(** [v.get(k) or dflt] *)
Definition get_or (v : json) (k : string) (dflt : json) : res exc json :=
  x ← get v k; Ok (if py_truthy x then x else dflt).

(** The value, when a method of [str] is called on it. *)
Definition as_text (v : json) : res exc string := match v with JStr s => Ok s | _ => Err AttributeError end.

(** [for x in v] *)
Definition iter (v : json) : res exc (list json) := match py_list v with Ok l => Ok l | Err _ => Err TypeErr end.

(** A loop that appends what each turn gives. *)
Fixpoint collect {A B} (f : A -> res exc (list B)) (l : list A) : res exc (list B) :=
  match l with
  | [] => Ok []
  | x :: l => a ← f x; b ← collect f l; Ok (a ++ b)%list
  end.

(** ** Entries of one record *)

Definition dots_and_slashes (a : ascii) : bool := is_char "." a || is_char "/" a.

Definition _subsystem_from_programfile (program_file : json) : option string :=
  match program_file with
  | JStr s =>
      let cleaned := lstrip_if dots_and_slashes (strip (replace_char "\" "/" s)) in
      if has_char "/" cleaned then Some (rsplit_slash cleaned).1 else None
  | _ => None
  end.

Definition isdigit (p : string) : bool := bool_decide (p <> "") && forallb is_digit (String.list_ascii_of_string p).

Fixpoint bump_last (parts : list Z) : list Z :=
  match parts with [] => [] | [n] => [n + 1] | n :: parts => n :: bump_last parts end.

Definition _next_patch (version_str : string) : option string :=
  parts ← mapM py_int_str (List.filter isdigit (split_char "." version_str));
  match parts with
  | [] => None
  | [n] => Some (join "." (str_int <$> [n; 0; 1]))
  | [m; n] => Some (join "." (str_int <$> [m; n; 1]))
  | _ => Some (join "." (str_int <$> bump_last parts))
  end.

Fixpoint english_description (descriptions : list json) : res exc string :=
  match descriptions with
  | [] => Ok ""
  | desc :: descriptions =>
      lang ← get_or desc "lang" (JStr ""); lang ← as_text lang;
      if startswith (lower lang) "en" then (value ← get_or desc "value" (JStr ""); value ← as_text value; Ok (strip value))
      else english_description descriptions
  end.

Definition vx_keys : list string := ["cvssV3_1"; "cvssV3_0"; "cvssV3"; "cvssV4_0"].

Fixpoint metric_severity (metric : json) (keys : list string) : res exc string :=
  match keys with
  | [] => Ok "unknown"
  | vx_key :: keys =>
      v ← get metric vx_key;
      match v with
      | JDict d =>
          let base := default JNull (dict_get "baseSeverity" d) in
          if py_truthy base then Ok (lower (py_str base)) else metric_severity metric keys
      | _ => metric_severity metric keys
      end
  end.

Fixpoint cvss_severity (metrics : list json) : res exc string :=
  match metrics with
  | [] => Ok "unknown"
  | metric :: metrics => s ← metric_severity metric vx_keys; if bool_decide (s = "unknown") then cvss_severity metrics else Ok s
  end.

(** The intervals of one version block, their bounds [None] or texts of versions. *)
Definition block_of (status version_str : string) (less_than : json) : list (json * json) :=
  if bool_decide (status = "affected") then
    let min_v := if bool_decide (version_str ∈ ["0"; ""]) then JNull else JStr version_str in
    let max_v :=
      if py_truthy less_than then less_than
      else if truthy (Some version_str) then match _next_patch version_str with Some s => JStr s | None => JNull end
      else JNull in
    [(min_v, max_v)]
  else if bool_decide (status = "unaffected") then
    if truthy (Some version_str) && negb (bool_decide (version_str = "0")) then [(JNull, JStr version_str)] else []
  else [].

Definition version_block (v : json) : res exc (list (json * json)) :=
  status ← get_or v "status" (JStr ""); status ← as_text status;
  vtype ← get_or v "versionType" (JStr ""); vtype ← as_text vtype;
  if bool_decide (lower vtype ∉ ["semver"; "custom"; ""]) then Ok []
  else
    raw_version ← get v "version";
    less_than ← get v "lessThan"; less_or_equal ← get v "lessThanOrEqual";
    Ok (block_of (lower status) (if is_null raw_version then "" else strip (py_str raw_version))
          (if py_truthy less_than then less_than else less_or_equal)).

Definition index_entry (cve_id : json) (severity description : string) (b : json * json) : json :=
  JDict [("cve_id", cve_id); ("min_version", b.1); ("max_version_excl", b.2); ("severity", JStr severity);
         ("description", JStr description)].

Definition affected_entries (cve_id : json) (severity description : string) (affected : json) : res exc (list (string * json)) :=
  program_files ← get_or affected "programFiles" (JList []);
  if negb (py_truthy program_files) then Ok []
  else
    versions ← get_or affected "versions" (JList []);
    versions ← iter versions;
    version_blocks ← collect version_block versions;
    let version_blocks := match version_blocks with [] => [(JNull, JNull)] | _ => version_blocks end in
    program_files ← iter program_files;
    Ok (program_files ≫= fun program_file =>
          match _subsystem_from_programfile program_file with
          | Some subsystem => (fun b => (subsystem, index_entry cve_id severity description b)) <$> version_blocks
          | None => []
          end).

Definition _extract_entries (cve_json : json) : res exc (list (string * json)) :=
  cve_metadata ← get_or cve_json "cveMetadata" (JDict []);
  id1 ← get cve_metadata "cveID"; id2 ← get cve_metadata "cveId"; id3 ← get cve_metadata "cve_id";
  let cve_id := if py_truthy id1 then id1 else if py_truthy id2 then id2 else id3 in
  if negb (py_truthy cve_id) then Ok []
  else
    containers ← get_or cve_json "containers" (JDict []);
    cna ← get_or containers "cna" (JDict []);
    descriptions ← get_or cna "descriptions" (JList []); descriptions ← iter descriptions;
    description ← english_description descriptions;
    metrics ← get_or cna "metrics" (JList []); metrics ← iter metrics;
    severity ← cvss_severity metrics;
    affected ← get_or cna "affected" (JList []); affected ← iter affected;
    collect (affected_entries cve_id severity description) affected.

(** ** The store *)

Definition _SUBSYSTEM_KEY_PREFIX : string := "kernel_vulns:subsystem:".
Definition _SUBSYSTEM_TTL_SECONDS : Z := 24 * 60 * 60.
Definition _PIPELINE_CHUNK : Z := 500.

(** Keys with their values ([None]: text that is not JSON) and the time they expire. *)
Record redis := { subsystems : gmap string (option json * Z); last_sync : option Z }.

Definition redis_get (client : redis) (now : Z) (key : string) : option (option json) :=
  match client.(subsystems) !! key with
  | Some (v, expiry) => if now <? expiry then Some v else None
  | None => None
  end.

Definition is_populated (client : option redis) (now : Z) : bool :=
  match client with
  | None => false
  | Some client =>
      existsb (fun kv : string * (option json * Z) => startswith kv.1 _SUBSYSTEM_KEY_PREFIX && (now <? kv.2.2)) (map_to_list client.(subsystems))
  end.

(** ** [sync] *)

(** What reading a file of the repository gives: an OSError or text that is not JSON is
    skipped, bytes that are not UTF-8 raise. *)
Inductive file_read := Unreadable | NotUtf8 | Loaded (v : json).

Inductive sync_status := no_git | clone_failed | no_redis | sync_error | sync_ok (cve_count subsystem_count : Z).

Definition _read_and_extract (f : file_read) : res exc (list (string * json)) :=
  match f with
  | Unreadable => Ok []
  | NotUtf8 => Err UnicodeErr
  | Loaded data => _extract_entries data
  end.

(** [subsystem_map.setdefault(subsystem, []).append(entry)] *)
Definition add_pair (subsystem_map : list (string * list json)) (p : string * json) : list (string * list json) :=
  dict_set p.1 (dict_get_or p.1 [] subsystem_map ++ [p.2])%list subsystem_map.

(** The loop over the files: the map, and how many files had entries. *)
Fixpoint read_files (files : list file_read) (st : list (string * list json) * Z) : res exc (list (string * list json) * Z) :=
  match files with
  | [] => Ok st
  | f :: files =>
      pairs ← _read_and_extract f;
      read_files files (foldl add_pair st.1 pairs, match pairs with [] => st.2 | _ => st.2 + 1 end)
  end.

Definition write_key (now : Z) (m : gmap string (option json * Z)) (kv : string * list json) : gmap string (option json * Z) :=
  <[_SUBSYSTEM_KEY_PREFIX +:+ kv.1 := (Some (JList kv.2), now + _SUBSYSTEM_TTL_SECONDS)]> m.

(** A pipeline collects commands: a key with its entries, or the time of the last run. *)
Inductive command := set_entries (kv : string * list json) | set_last_sync.

Definition run_command (now : Z) (r : redis) (c : command) : redis :=
  match c with
  | set_entries kv => {| subsystems := write_key now r.(subsystems) kv; last_sync := r.(last_sync) |}
  | set_last_sync => {| subsystems := r.(subsystems); last_sync := Some now |}
  end.

(** [pipe.execute()].  The pipeline is no transaction: one that raises has run some of its
    commands, those [applied] says. *)
Definition execute (now : Z) (outcome : option (nat -> bool)) (pipe : list command) (r : redis) : redis * bool :=
  match outcome with
  | None => (foldl (run_command now) r pipe, true)
  | Some applied => (foldl (run_command now) r (omap id (imap (fun i c => if applied i then Some c else None) pipe)), false)
  end.

(** The loop over the map, and the last pipeline: [i] keys so far, [k] pipelines executed. *)
Fixpoint write_loop (now : Z) (pipes : nat -> option (nat -> bool)) (i : Z) (k : nat) (pipe : list command)
    (items : list (string * list json)) (r : redis) : redis * bool :=
  match items with
  | [] => execute now (pipes k) (pipe ++ [set_last_sync])%list r
  | kv :: items =>
      let pipe := (pipe ++ [set_entries kv])%list in
      if (i + 1) mod _PIPELINE_CHUNK =? 0 then
        match execute now (pipes k) pipe r with
        | (r, true) => write_loop now pipes (i + 1) (S k) [] items r
        | (r, false) => (r, false)
        end
      else write_loop now pipes (i + 1) k pipe items r
  end.

(** [git] and [cloned] tell whether git is there and did its work, [client] is the store if it
    answers, [published] the files below [cve/published], if it is a directory, [pipes] what
    becomes of the pipelines. *)
Definition sync (git cloned : bool) (client : option redis) (published : option (list file_read))
    (pipes : nat -> option (nat -> bool)) (now : Z) : option redis * sync_status :=
  if negb git then (client, no_git)
  else if negb cloned then (client, clone_failed)
  else
    match client, published with
    | None, _ => (None, no_redis)
    | Some r, None => (Some r, sync_error)
    | Some r, Some files =>
        match read_files files ([], 0) with
        | Err _ => (Some r, sync_error)
        | Ok (subsystem_map, cve_count) =>
            match write_loop now pipes 0 0 [] subsystem_map r with
            | (r, true) => (Some r, sync_ok cve_count (Z.of_nat (List.length subsystem_map)))
            | (r, false) => (Some r, sync_error)
            end
        end
    end.

(** ** [lookup] *)

Section Lookup.
Context {V : Type} (Version : string -> option V) (vlt : V -> V -> bool).

(** A lower and an upper bound; one that is no version counts as none. *)
Definition min_ok (target : V) (min_v_raw : json) : bool :=
  match min_v_raw with
  | JNull => true
  | v => match Version (py_str v) with Some min_v => negb (vlt target min_v) | None => true end
  end.
Definition max_ok (target : V) (max_v_raw : json) : bool :=
  match max_v_raw with
  | JNull => true
  | v => match Version (py_str v) with Some max_v => vlt target max_v | None => true end
  end.

Definition applies (target : V) (entry : json) : res exc (list json) :=
  min_v_raw ← get entry "min_version";
  max_v_raw ← get entry "max_version_excl";
  Ok (if min_ok target min_v_raw && max_ok target max_v_raw then [entry] else []).

Definition _filter_by_version (entries : list json) (kernel_version : json) : res exc (list json) :=
  match kernel_version with
  | JStr s => match Version s with Some target => collect (applies target) entries | None => Ok [] end
  | _ => Err TypeErr
  end.

Definition lookup (client : option redis) (now : Z) (subsystem_path : string) (kernel_version : json) : res exc (list json) :=
  if negb (truthy (Some subsystem_path) && py_truthy kernel_version) then Ok []
  else
    match client with
    | None => Ok []
    | Some client =>
        match redis_get client now (_SUBSYSTEM_KEY_PREFIX +:+ subsystem_path) with
        | Some (Some (JList entries)) => _filter_by_version entries kernel_version
        | _ => Ok []
        end
    end.
End Lookup.

(** ** Loops *)

Lemma collect_app {A B} (f : A -> res exc (list B)) (l1 l2 : list A) :
  collect f (l1 ++ l2)%list = (a ← collect f l1; b ← collect f l2; Ok (a ++ b)%list).
Proof.
  induction l1 as [|x l1 IH]; [by cbn; destruct (collect f l2)|]. cbn [collect app]. rewrite IH.
  destruct (f x) as [a|]; [|done]. cbn. destruct (collect f l1) as [b|]; [|done]. cbn. destruct (collect f l2) as [c|]; [|done].
  cbn. by rewrite app_assoc.
Qed.

Lemma collect_all {A B} (f : A -> res exc (list B)) (g : A -> list B) (l : list A) :
  Forall (fun x => f x = Ok (g x)) l -> collect f l = Ok (l ≫= g).
Proof. induction 1 as [|x l Hx _ IH]; [done|]. cbn [collect]. rewrite Hx, IH. done. Qed.

Lemma collect_err {A B} (f : A -> res exc (list B)) (l : list A) (x : A) (e : exc) :
  x ∈ l -> f x = Err e -> exists e', collect f l = Err e'.
Proof.
  intros Hin He. induction Hin as [l|y z l _ IH].
  - exists e. cbn. by rewrite He.
  - cbn [collect]. destruct (f z) as [a|e1]; [|by exists e1]. destruct (IH He) as [e' ->]. by exists e'.
Qed.

(** ** What a synchronisation leaves in the store *)

Definition of_subsystem (subsystem : string) (pairs : list (string * json)) : list json :=
  (List.filter (fun p => bool_decide (p.1 = subsystem)) pairs).*2.

Lemma add_pairs_spec (pairs : list (string * json)) (m : list (string * list json)) (s : string) :
  NoDup m.*1 ->
  NoDup (foldl add_pair m pairs).*1 /\
  dict_get s (foldl add_pair m pairs) =
    match dict_get s m, of_subsystem s pairs with
    | None, [] => None
    | o, l => Some (default [] o ++ l)%list
    end.
Proof.
  revert m. induction pairs as [|[k e] pairs IH]; intros m Hn; cbn [foldl].
  { split; [done|]. cbn. destruct (dict_get s m); cbn; [by rewrite app_nil_r|done]. }
  assert (Hn' : NoDup (add_pair m (k, e)).*1) by by apply dict_set_nodup_keys.
  destruct (IH _ Hn') as [H1 H2]. split; [done|]. rewrite H2. unfold add_pair, of_subsystem. cbn [fst snd List.filter].
  destruct (decide (k = s)) as [->|Hk].
  - rewrite bool_decide_eq_true_2, dict_get_set_eq by done. unfold dict_get_or. destruct (dict_get s m); cbn; by rewrite <- ?app_assoc.
  - rewrite bool_decide_eq_false_2, dict_get_set_ne by done. done.
Qed.

Lemma read_files_spec (files : list file_read) (st : list (string * list json) * Z) (m : list (string * list json)) (n : Z) :
  read_files files st = Ok (m, n) -> exists pairs, collect _read_and_extract files = Ok pairs /\ m = foldl add_pair st.1 pairs.
Proof.
  revert st. induction files as [|f files IH]; intros [m0 n0]; cbn [read_files collect]; [intros [= <- <-]; by exists []|].
  rewrite res_bind_ok. intros (pairs & Ef & H). destruct (IH _ H) as (pairs' & Ec & ->). exists (pairs ++ pairs')%list.
  rewrite Ef. cbn. rewrite Ec. split; [done|]. by rewrite foldl_app.
Qed.

Lemma read_files_err (files : list file_read) (st : list (string * list json) * Z) :
  (exists e, read_files files st = Err e) <-> exists e, collect _read_and_extract files = Err e.
Proof.
  revert st. induction files as [|f files IH]; intros st; cbn [read_files collect]; [naive_solver|].
  destruct (_read_and_extract f) as [pairs|e]; [|cbn; naive_solver]. cbn. rewrite IH. split.
  - intros [e ->]. by exists e.
  - intros [e H]. destruct (collect _read_and_extract files) as [l|e1]; [done|by exists e1].
Qed.

Lemma append_inj (p s t : string) : p +:+ s = p +:+ t -> s = t.
Proof. induction p as [|a p IH]; [done|]. rewrite !append_cons. intros [= H]. by apply IH. Qed.

Lemma write_keys_spec (now : Z) (kvs : list (string * list json)) (m : gmap string (option json * Z)) (s : string) :
  NoDup kvs.*1 ->
  foldl (write_key now) m kvs !! (_SUBSYSTEM_KEY_PREFIX +:+ s) =
    match dict_get s kvs with
    | Some l => Some (Some (JList l), now + _SUBSYSTEM_TTL_SECONDS)
    | None => m !! (_SUBSYSTEM_KEY_PREFIX +:+ s)
    end.
Proof.
  revert m. induction kvs as [|[k l] kvs IH]; intros m Hn; cbn [foldl dict_get]; [done|].
  cbn in Hn. apply NoDup_cons in Hn as [Hk Hn]. rewrite IH by done. unfold write_key. cbn [fst snd]. case_decide as E.
  - subst k. replace (dict_get s kvs) with (@None (list json)); [by rewrite lookup_insert_eq|]. symmetry.
    destruct (dict_get s kvs) as [l1|] eqn:Eg; [|done]. exfalso. apply Hk. apply dict_get_elem in Eg.
    apply list_elem_of_fmap. by exists (s, l1).
  - destruct (dict_get s kvs); [done|]. rewrite lookup_insert_ne; [done|]. intros H. by apply append_inj in H.
Qed.

(** The loop runs a part of its commands in order, and all of them if it succeeds. *)
Lemma execute_part (now : Z) (outcome : option (nat -> bool)) (pipe : list command) (r r' : redis) (ok : bool) :
  execute now outcome pipe r = (r', ok) ->
  exists cs, cs `sublist_of` pipe /\ r' = foldl (run_command now) r cs /\ (ok = true -> cs = pipe).
Proof.
  unfold execute. destruct outcome as [applied|]; intros [= <- <-]; [|by exists pipe].
  eexists. split_and!; [|done|done]. revert applied. clear. induction pipe as [|c pipe IH]; intros applied; [done|].
  rewrite imap_cons. cbn [omap list_omap id]. destruct (applied O); cbn; [apply sublist_skip|apply sublist_cons]; apply (IH (fun i => applied (S i))).
Qed.

Lemma write_loop_part (now : Z) (pipes : nat -> option (nat -> bool)) (i : Z) (k : nat) (pipe : list command)
    (items : list (string * list json)) (r r' : redis) (ok : bool) :
  write_loop now pipes i k pipe items r = (r', ok) ->
  let all := (pipe ++ (set_entries <$> items) ++ [set_last_sync])%list in
  exists cs, cs `sublist_of` all /\ r' = foldl (run_command now) r cs /\ (ok = true -> cs = all).
Proof.
  cbn zeta. revert i k pipe r. induction items as [|kv items IH]; intros i k pipe r; cbn [write_loop]; [apply execute_part|].
  rewrite fmap_cons. replace (pipe ++ (set_entries kv :: (set_entries <$> items)) ++ [set_last_sync])%list
    with ((pipe ++ [set_entries kv]) ++ (set_entries <$> items) ++ [set_last_sync])%list by by rewrite <- app_assoc.
  destruct (_ =? 0); [|apply IH]. destruct (execute now (pipes k) _ r) as [r1 ok1] eqn:E.
  destruct (execute_part _ _ _ _ _ _ E) as (cs1 & H1 & -> & Hok1). destruct ok1.
  - intros H. destruct (IH _ _ _ _ H) as (cs2 & H2 & -> & Hok2). exists (cs1 ++ cs2)%list. split_and!.
    + by apply sublist_app.
    + by rewrite foldl_app.
    + intros Hok. by rewrite (Hok1 eq_refl), (Hok2 Hok).
  - intros [= <- <-]. exists cs1. split_and!; [|done|done]. by apply sublist_inserts_r.
Qed.

Definition entries_of (c : command) : option (string * list json) := match c with set_entries kv => Some kv | set_last_sync => None end.

Lemma run_commands (now : Z) (cs : list command) (r : redis) :
  (foldl (run_command now) r cs).(subsystems) = foldl (write_key now) r.(subsystems) (omap entries_of cs).
Proof. revert r. induction cs as [|[kv|] cs IH]; intros r; [done|..]; cbn [foldl omap list_omap entries_of]; by rewrite IH. Qed.

Lemma entries_of_all (kvs : list (string * list json)) : omap entries_of ((set_entries <$> kvs) ++ [set_last_sync])%list = kvs.
Proof. induction kvs as [|kv kvs IH]; [done|]. cbn. by f_equal. Qed.

Lemma omap_sublist {A B} (f : A -> option B) (l1 l2 : list A) : l1 `sublist_of` l2 -> omap f l1 `sublist_of` omap f l2.
Proof. induction 1 as [|x l1 l2 _ IH|x l1 l2 _ IH]; cbn; [done| |]; destruct (f x); [by apply sublist_skip|done|by apply sublist_cons|done]. Qed.

Lemma dict_get_nodup (kvs : list (string * list json)) (s : string) (l : list json) :
  NoDup kvs.*1 -> dict_get s kvs = Some l <-> (s, l) ∈ kvs.
Proof.
  intros Hn. split; [apply dict_get_elem|]. induction kvs as [|[k v] kvs IH]; [by intros ?%not_elem_of_nil|]. cbn in Hn |- *.
  apply NoDup_cons in Hn as [Hk Hn]. intros [[= <- <-]|H]%elem_of_cons; [by rewrite decide_True|].
  rewrite decide_False; [by apply IH|]. intros ->. apply Hk, list_elem_of_fmap. by exists (s, l).
Qed.

(** After the loop each key is the old one or the new one, and the new one if the loop succeeds. *)
Lemma write_loop_keys (now : Z) (pipes : nat -> option (nat -> bool)) (items : list (string * list json)) (r r' : redis) (ok : bool) (s : string) :
  write_loop now pipes 0 0 [] items r = (r', ok) -> NoDup items.*1 ->
  let key := _SUBSYSTEM_KEY_PREFIX +:+ s in
  match dict_get s items with
  | Some l =>
      (ok = false /\ r'.(subsystems) !! key = r.(subsystems) !! key) \/
      r'.(subsystems) !! key = Some (Some (JList l), now + _SUBSYSTEM_TTL_SECONDS)
  | None => r'.(subsystems) !! key = r.(subsystems) !! key
  end.
Proof.
  intros H Hn. cbn zeta. destruct (write_loop_part _ _ _ _ _ _ _ _ _ H) as (cs & Hcs & -> & Hall). cbn [app] in Hcs, Hall.
  apply (omap_sublist entries_of) in Hcs. rewrite entries_of_all in Hcs. rewrite run_commands.
  assert (Hn' : NoDup (omap entries_of cs).*1) by (eapply sublist_NoDup; [exact Hn|by apply fmap_sublist]).
  rewrite write_keys_spec by done. destruct (dict_get s (omap entries_of cs)) as [l|] eqn:E.
  - apply dict_get_elem in E. eapply elem_of_sublist in E; [|exact Hcs]. apply dict_get_nodup in E; [|done]. rewrite E. by right.
  - destruct (dict_get s items) as [l|] eqn:El; [|done]. left. split; [|done]. destruct ok; [|done]. rewrite (Hall eq_refl), entries_of_all in E. by rewrite E in El.
Qed.

Section Index.
Context {V : Type} (Version : string -> option V) (vlt : V -> V -> bool).

(** C20. What a synchronisation of the kernel CVE index does to the store.  If it succeeds, then
    for a day a lookup in a directory that occurs in the files answers from the entries of
    these files, in their order, and from nothing older; keys of directories that no longer
    occur stay as they were.  An error may come before the writing or between its pipelines,
    which are no transaction; then each directory has its old key or its new one, never a
    mixture.  Without git, the clone or Redis nothing is written. *)
Theorem index_spec (git cloned : bool) (client : option redis) (published : option (list file_read))
    (pipes : nat -> option (nat -> bool)) (now : Z) :
  match sync git cloned client published pipes now with
  | (client', sync_ok _ _) =>
      exists r r' files pairs, client = Some r /\ client' = Some r' /\ published = Some files /\
        collect _read_and_extract files = Ok pairs /\
        forall subsystem,
          if bool_decide (of_subsystem subsystem pairs = []) then
            r'.(subsystems) !! (_SUBSYSTEM_KEY_PREFIX +:+ subsystem) = r.(subsystems) !! (_SUBSYSTEM_KEY_PREFIX +:+ subsystem)
          else
            forall t v, now <= t < now + _SUBSYSTEM_TTL_SECONDS -> truthy (Some subsystem) = true -> py_truthy v = true ->
              lookup Version vlt client' t subsystem v = _filter_by_version Version vlt (of_subsystem subsystem pairs) v
  | (client', sync_error) =>
      client' = client \/
      exists r r' files pairs, client = Some r /\ client' = Some r' /\ published = Some files /\
        collect _read_and_extract files = Ok pairs /\
        forall subsystem, let key := _SUBSYSTEM_KEY_PREFIX +:+ subsystem in
          r'.(subsystems) !! key = r.(subsystems) !! key \/
          of_subsystem subsystem pairs <> [] /\
          r'.(subsystems) !! key = Some (Some (JList (of_subsystem subsystem pairs)), now + _SUBSYSTEM_TTL_SECONDS)
  | (client', _) => client' = client
  end.
Proof.
  unfold sync. destruct git, cloned; cbn -[truthy py_truthy lookup]; try done.
  destruct client as [r|], published as [files|]; [|by left|done..]. destruct (read_files files ([], 0)) as [[m n]|e] eqn:E; [|by left].
  apply read_files_spec in E as (pairs & Ec & ->). cbn [fst].
  destruct (write_loop now pipes 0 0 [] _ r) as [r' ok] eqn:Ew.
  assert (Hkeys : forall s, let key := _SUBSYSTEM_KEY_PREFIX +:+ s in
    match of_subsystem s pairs with
    | [] => r'.(subsystems) !! key = r.(subsystems) !! key
    | l => (ok = false /\ r'.(subsystems) !! key = r.(subsystems) !! key) \/
           r'.(subsystems) !! key = Some (Some (JList l), now + _SUBSYSTEM_TTL_SECONDS)
    end).
  { intros s. destruct (add_pairs_spec pairs [] s) as [Hn Hs]; [constructor|]. cbn [dict_get] in Hs.
    pose proof (write_loop_keys _ _ _ _ _ _ s Ew Hn) as H. rewrite Hs in H. by destruct (of_subsystem s pairs). }
  destruct ok.
  - exists r, r', files, pairs. split_and!; [done..|]. intros s. specialize (Hkeys s). cbn zeta in Hkeys.
    case_bool_decide as Eo; [by rewrite Eo in Hkeys|]. intros t v Ht Hsub Hv. destruct (of_subsystem s pairs) as [|x l]; [done|].
    destruct Hkeys as [[? _]|Hk]; [done|]. unfold lookup. rewrite Hsub, Hv. cbn. unfold redis_get. rewrite Hk.
    by replace (t <? now + _SUBSYSTEM_TTL_SECONDS) with true by lia.
  - right. exists r, r', files, pairs. split_and!; [done..|]. intros s. specialize (Hkeys s). cbn zeta in Hkeys |- *.
    destruct (of_subsystem s pairs); [by left|]. destruct Hkeys as [[_ ?]|?]; [by left|by right].
Qed.

(** One file stops the synchronisation.  A file of the repository that is not UTF-8 or
    whose JSON is not an object - or any other record on which the projection raises - makes
    the whole run an error that writes nothing, however good the other files are; when the
    keys of the last good run have expired, every lookup is empty. *)
Theorem one_record_stops_sync (r : redis) (files : list file_read) (f : file_read) (pipes : nat -> option (nat -> bool)) (now : Z) :
  f ∈ files -> f = NotUtf8 \/ (exists l, f = Loaded (JList l)) \/ (exists e, _read_and_extract f = Err e) ->
  sync true true (Some r) (Some files) pipes now = (Some r, sync_error) /\
  forall t, map_Forall (fun _ (kv : option json * Z) => kv.2 <= t) r.(subsystems) ->
    forall subsystem v, lookup Version vlt (Some r) t subsystem v = Ok [].
Proof.
  intros Hin Hf. assert (He : exists e, _read_and_extract f = Err e) by by destruct Hf as [->|[[l ->]|He]]; [eexists..|].
  destruct He as [e He]. destruct (proj2 (read_files_err files ([], 0)) (collect_err _ _ _ _ Hin He)) as [e' E].
  split; [unfold sync; cbn; by rewrite E|]. intros t Ht s v. unfold lookup. destruct (negb _); [done|]. unfold redis_get.
  destruct (subsystems r !! _) as [[w expiry]|] eqn:Ew; [|done]. specialize (Ht _ _ Ew). cbn in Ht.
  by replace (t <? expiry) with false by lia.
Qed.
End Index.

(** ** The versions that are reported *)

(** Version blocks of a record as the CNA writes them: a range of versions or a single one that
    is affected, the first fixed version of a series, everything before the bug, and blocks in
    commits of git or another scheme. *)
Inductive cna_block :=
  | Affected (from until : string) | Exactly (v : string) | Fixed (v series : string) | Before (until : string)
  | Commits (scheme from until status : string).

Definition block_json (b : cna_block) : json :=
  match b with
  | Affected from until =>
      JDict [("version", JStr from); ("lessThan", JStr until); ("status", JStr "affected"); ("versionType", JStr "semver")]
  | Exactly v => JDict [("version", JStr v); ("status", JStr "affected")]
  | Fixed v series =>
      JDict [("version", JStr v); ("lessThanOrEqual", JStr series); ("status", JStr "unaffected"); ("versionType", JStr "semver")]
  | Before until =>
      JDict [("version", JStr "0"); ("lessThan", JStr until); ("status", JStr "unaffected"); ("versionType", JStr "semver")]
  | Commits scheme from until status =>
      JDict [("version", JStr from); ("lessThan", JStr until); ("status", JStr status); ("versionType", JStr scheme)]
  end.

(** One element of [affected]: source files and version blocks. *)
Definition cna_affected := (list string * list cna_block)%type.

Definition affected_json (a : cna_affected) : json :=
  JDict [("programFiles", JList (JStr <$> a.1)); ("versions", JList (block_json <$> a.2))].

Definition cna_json (cve_id description : string) (affected : list cna_affected) : json :=
  JDict [("containers", JDict [("cna", JDict [
            ("affected", JList (affected_json <$> affected));
            ("descriptions", JList [JDict [("lang", JStr "en"); ("value", JStr description)]])])]);
         ("cveMetadata", JDict [("cveID", JStr cve_id)])].

(** The intervals that are stored for a block, and for the blocks of one element. *)
Definition block_bounds (b : cna_block) : list (json * json) :=
  match b with
  | Affected from until => [(JStr from, JStr until)]
  | Exactly v => [(JStr v, match _next_patch v with Some s => JStr s | None => JNull end)]
  | Fixed v _ => [(JNull, JStr v)]
  | Before _ | Commits _ _ _ _ => []
  end.

Definition intervals (blocks : list cna_block) : list (json * json) :=
  match blocks ≫= block_bounds with [] => [(JNull, JNull)] | l => l end.

Definition version_text (v : string) : Prop := strip v = v /\ v <> "" /\ v <> "0".

Definition block_ok (b : cna_block) : Prop :=
  match b with
  | Affected from until => version_text from /\ until <> ""
  | Exactly v => version_text v
  | Fixed v series => version_text v /\ series <> ""
  | Before _ => True
  | Commits scheme _ _ _ => lower scheme ∉ ["semver"; "custom"; ""]
  end.

Lemma block_extracted (b : cna_block) : block_ok b -> version_block (block_json b) = Ok (block_bounds b).
Proof.
  assert (Ht : forall s, s <> "" -> truthy (Some s) = true) by by intros [|a s].
  assert (Hp : forall s, s <> "" -> py_truthy (JStr s) = true) by (intros s Hs; by apply bool_decide_eq_true_2).
  assert (Hz : forall s, s <> "" -> s <> "0" -> bool_decide (s ∈ ["0"; ""]) = false).
  { intros s H1 H2. apply bool_decide_eq_false_2. rewrite !elem_of_cons. by intros [?|[?|?%not_elem_of_nil]]. }
  destruct b as [from until|v|v series|until|scheme from until status]; cbn [block_ok]; intros H.
  - destruct H as ((H1 & H2 & H3) & H4).
    transitivity (Ok (E := exc) (block_of "affected" (strip from) (if py_truthy (JStr until) then JStr until else JNull))); [reflexivity|].
    rewrite Hp, H1 by done. unfold block_of. by rewrite Hp, Hz.
  - destruct H as (H1 & H2 & H3). transitivity (Ok (E := exc) (block_of "affected" (strip v) JNull)); [reflexivity|].
    rewrite H1. unfold block_of. by rewrite Hz, Ht.
  - destruct H as ((H1 & H2 & H3) & H4). transitivity (Ok (E := exc) (block_of "unaffected" (strip v) (JStr series))); [reflexivity|].
    rewrite H1. unfold block_of. by rewrite Ht, (bool_decide_eq_false_2 (v = "0")).
  - reflexivity.
  - assert (Hs : scheme <> "") by (intros ->; apply H; by do 2 right; left). unfold version_block.
    assert (Hst : get_or (block_json (Commits scheme from until status)) "status" (JStr "") = Ok (JStr status)) by by destruct status.
    assert (Hv : get_or (block_json (Commits scheme from until status)) "versionType" (JStr "") = Ok (JStr scheme)) by by destruct scheme.
    rewrite Hst, Hv. cbn [mbind res_bind as_text]. by rewrite bool_decide_eq_true_2.
Qed.

Lemma blocks_extracted (blocks : list cna_block) :
  Forall block_ok blocks -> collect version_block (block_json <$> blocks) = Ok (blocks ≫= block_bounds).
Proof. induction 1 as [|b blocks Hb _ IH]; [done|]. rewrite fmap_cons. cbn [collect]. by rewrite block_extracted, IH. Qed.

(** The kernel versions that an interval contains. *)
Section Ranges.
Context {V : Type} (Version : string -> option V) (vlt : V -> V -> bool).

Definition covers (target : V) (b : json * json) : bool := min_ok Version vlt target b.1 && max_ok Version vlt target b.2.

Definition in_subsystem (subsystem : string) (file : string) : bool :=
  bool_decide (_subsystem_from_programfile (JStr file) = Some subsystem).

Lemma entry_applies (cve_id : json) (severity description : string) (b : json * json) (target : V) :
  let e := index_entry cve_id severity description b in
  applies Version vlt target e = Ok (if covers target b then [e] else []).
Proof. done. Qed.

(** The pairs of one element. *)
Definition element_pairs (entry : json * json -> json) (a : cna_affected) : list (string * json) :=
  a.1 ≫= fun file =>
    match _subsystem_from_programfile (JStr file) with
    | Some subsystem => (fun b => (subsystem, entry b)) <$> intervals a.2
    | None => []
    end.

Lemma affected_extracted (cve_id : json) (severity description : string) (a : cna_affected) :
  Forall block_ok a.2 ->
  affected_entries cve_id severity description (affected_json a) = Ok (element_pairs (index_entry cve_id severity description) a).
Proof.
  destruct a as [files blocks]. cbn [snd]. intros Hok. destruct files as [|f fs]; [done|].
  transitivity (version_blocks ← collect version_block (block_json <$> blocks);
    Ok ((JStr <$> f :: fs) ≫= fun program_file =>
          match _subsystem_from_programfile program_file with
          | Some subsystem => (fun b => (subsystem, index_entry cve_id severity description b)) <$>
              match version_blocks with [] => [(JNull, JNull)] | _ => version_blocks end
          | None => []
          end)).
  { by destruct blocks. }
  rewrite blocks_extracted by done. cbn [mbind res_bind]. f_equal. unfold element_pairs, intervals. cbn [fst snd].
  generalize (f :: fs) (blocks ≫= block_bounds). intros l bs. destruct bs; (induction l as [|x l IH]; [done|]);
    rewrite (fmap_cons JStr), !bind_cons; by rewrite IH.
Qed.

Lemma extracted (cve_id description : string) (affected : list cna_affected) :
  cve_id <> "" -> Forall (fun a => Forall block_ok a.2) affected ->
  _extract_entries (cna_json cve_id description affected) =
    Ok (affected ≫= element_pairs (index_entry (JStr cve_id) "unknown" (strip description))).
Proof.
  intros Hid Hok. destruct cve_id as [|c id]; [done|].
  transitivity (collect (affected_entries (JStr (String c id)) "unknown" (strip description)) (affected_json <$> affected)).
  { by destruct description, affected. }
  induction Hok as [|a affected Ha _ IH]; [done|]. rewrite fmap_cons. cbn [collect]. by rewrite affected_extracted, IH.
Qed.

Lemma of_subsystem_app (s : string) (l1 l2 : list (string * json)) : of_subsystem s (l1 ++ l2)%list = (of_subsystem s l1 ++ of_subsystem s l2)%list.
Proof. unfold of_subsystem. by rewrite List.filter_app, fmap_app. Qed.

Lemma of_subsystem_all (s k : string) (es : list json) :
  of_subsystem s ((fun e => (k, e)) <$> es) = if bool_decide (k = s) then es else [].
Proof.
  unfold of_subsystem. induction es as [|e es IH]; [by case_bool_decide|]. rewrite fmap_cons. cbn [List.filter fst].
  case_bool_decide; [|done]. by rewrite fmap_cons, IH.
Qed.

Lemma intervals_apply (entry : json * json -> json) (bs : list (json * json)) (target : V) :
  (forall b, applies Version vlt target (entry b) = Ok (if covers target b then [entry b] else [])) ->
  collect (applies Version vlt target) (entry <$> bs) = Ok (entry <$> List.filter (covers target) bs).
Proof.
  intros He. induction bs as [|b bs IH]; [done|]. rewrite fmap_cons. cbn [collect List.filter]. rewrite He, IH.
  cbn [mbind res_bind]. by destruct (covers target b).
Qed.

(** What is reported of one element. *)
Definition element_reports (entry : json * json -> json) (subsystem : string) (target : V) (a : cna_affected) : list json :=
  List.filter (in_subsystem subsystem) a.1 ≫= fun _ => entry <$> List.filter (covers target) (intervals a.2).

Lemma element_filtered (entry : json * json -> json) (subsystem : string) (target : V) (a : cna_affected) :
  (forall b, applies Version vlt target (entry b) = Ok (if covers target b then [entry b] else [])) ->
  collect (applies Version vlt target) (of_subsystem subsystem (element_pairs entry a)) = Ok (element_reports entry subsystem target a).
Proof.
  intros He. destruct a as [files blocks]. unfold element_pairs, element_reports. cbn [fst snd].
  induction files as [|f files IH]; [done|]. rewrite bind_cons, of_subsystem_app, collect_app. cbn [List.filter].
  assert (E : of_subsystem subsystem
      match _subsystem_from_programfile (JStr f) with
      | Some k => (fun b => (k, entry b)) <$> intervals blocks
      | None => []
      end = if in_subsystem subsystem f then entry <$> intervals blocks else []).
  { unfold in_subsystem. destruct (_subsystem_from_programfile (JStr f)) as [k|]; [|done].
    rewrite (list_fmap_compose entry (fun e => (k, e))), of_subsystem_all.
    destruct (decide (k = subsystem)) as [->|Hk]; [by rewrite !bool_decide_eq_true_2|].
    rewrite !bool_decide_eq_false_2; [done| |done]. by intros [=]. }
  rewrite E, IH. destruct (in_subsystem subsystem f); [|done]. by rewrite intervals_apply.
Qed.

(** C21. Which kernel versions a record of the CNA is reported for, a record being any list of
    elements with source files and version blocks of the five kinds: once for each element,
    each of its files in the directory and each interval of its blocks that contains the
    version.  The interval of a fixed series holds every version before the first fixed one,
    from the oldest on, and intervals are not combined: a version that one block declares
    fixed is reported if a later series was fixed at a higher version.  And an element whose
    blocks all name commits has the interval of all versions, also beside another element
    that gives the versions. *)
Theorem reported_versions (cve_id description subsystem kernel_version : string) (affected : list cna_affected) (target : V) :
  cve_id <> "" -> Forall (fun a => Forall block_ok a.2) affected -> Version kernel_version = Some target ->
  let entry := index_entry (JStr cve_id) "unknown" (strip description) in
  (exists pairs, _extract_entries (cna_json cve_id description affected) = Ok pairs /\
    _filter_by_version Version vlt (of_subsystem subsystem pairs) (JStr kernel_version) =
      Ok (affected ≫= element_reports entry subsystem target)) /\
  (forall fixed series bound, Version fixed = Some bound ->
     List.filter (covers target) (block_bounds (Fixed fixed series)) = if vlt target bound then [(JNull, JStr fixed)] else []) /\
  (forall files blocks, Forall (fun b => match b with Commits _ _ _ _ => True | _ => False end) blocks ->
     element_reports entry subsystem target (files, blocks) =
       (fun _ => entry (JNull, JNull)) <$> List.filter (in_subsystem subsystem) files).
Proof.
  intros Hid Hok Hv. cbn zeta. split_and!.
  - eexists. split; [by apply extracted|]. unfold _filter_by_version. rewrite Hv. clear Hok.
    induction affected as [|a affected IH]; [done|]. rewrite !bind_cons, of_subsystem_app, collect_app, IH.
    by rewrite element_filtered by (intros b; apply entry_applies).
  - intros fixed series bound Hb. cbn. unfold covers. cbn. by rewrite Hb.
  - intros files blocks Hc. unfold element_reports. cbn [fst snd].
    assert (E : intervals blocks = [(JNull, JNull)]).
    { unfold intervals. replace (blocks ≫= block_bounds) with (@nil (json * json)); [done|]. induction Hc as [|b bs Hb _ IH]; [done|].
      rewrite bind_cons, <- IH. by destruct b. }
    rewrite E. induction (List.filter (in_subsystem subsystem) files) as [|f fs IH]; [done|]. rewrite bind_cons, fmap_cons, IH. done.
Qed.
End Ranges.

(** ** The index on concrete records *)

(** Versions that are numbers with dots, by their parts. *)
Definition dotted_version (s : string) : option (list Z) :=
  if forallb isdigit (split_char "." s) then mapM py_int_str (split_char "." s) else None.

Fixpoint parts_lt (a b : list Z) : bool :=
  match a, b with
  | _, [] => false
  | [], y :: b => (0 <? y) || parts_lt [] b
  | x :: a, y :: b => (x <? y) || ((x =? y) && parts_lt a b)
  end.

(** Introduced with 6.1, fixed in the series 6.6 with 6.6.70 and upstream with 6.12; and the
    same in commits, which is how the CNA writes the first element of a record. *)
Definition uaf_files : list string := ["net/bluetooth/smp.c"; "net/bluetooth/l2cap.c"].
Definition uaf_blocks : list cna_block := [Affected "6.1" "6.12"; Before "6.1"; Fixed "6.6.70" "6.6.*"; Fixed "6.12" "*"].
Definition uaf : json := cna_json "CVE-2025-1" "use after free" [(uaf_files, uaf_blocks)].
Definition uaf_commits : list cna_block := [Commits "git" "c03185f4a23e" "9a3a2ae5efbb" "affected"].
Definition uaf_both : list cna_affected := [(uaf_files, uaf_commits); (uaf_files, uaf_blocks)].

Definition id_of (e : json) : json := match e with JDict d => default JNull (dict_get "cve_id" d) | _ => JNull end.
Definition ids (r : res exc (list json)) : option (list json) := match r with Ok l => Some (id_of <$> l) | Err _ => None end.

Definition empty_index : redis := {| subsystems := ∅; last_sync := None |}.
Definition synced (files : list file_read) : option redis := (sync true true (Some empty_index) (Some files) (fun _ => None) 0).1.

(** The kernel 6.6.102 has the fix and is reported four times for the versions and twice for the
    commits, 5.10.1 is older than the bug, and 6.13 is reported for the commits alone. *)
Lemma reported_versions_witness :
  (exists pairs, _extract_entries (cna_json "CVE-2025-1" "use after free" uaf_both) = Ok pairs /\
    ids (_filter_by_version dotted_version parts_lt (of_subsystem "net/bluetooth/" pairs) (JStr "6.6.102")) =
      Some (JStr <$> replicate 6 "CVE-2025-1") /\
    ids (_filter_by_version dotted_version parts_lt (of_subsystem "net/bluetooth/" pairs) (JStr "6.13")) =
      Some (JStr <$> replicate 2 "CVE-2025-1")) /\
  ids (lookup dotted_version parts_lt (synced [Loaded uaf]) 60 "net/bluetooth/" (JStr "5.10.1")) = Some (JStr <$> replicate 4 "CVE-2025-1").
Proof.
  split; [|by vm_compute].
  assert (Hok : Forall (fun a : cna_affected => Forall block_ok a.2) uaf_both)
    by (repeat constructor; try (by vm_compute); intros [?|[?|[?|?%not_elem_of_nil]%elem_of_cons]%elem_of_cons]%elem_of_cons; done).
  destruct (reported_versions dotted_version parts_lt "CVE-2025-1" "use after free" "net/bluetooth/" "6.6.102" uaf_both [6; 6; 102]
    ltac:(done) Hok ltac:(by vm_compute)) as [(pairs & E & H) _].
  destruct (reported_versions dotted_version parts_lt "CVE-2025-1" "use after free" "net/bluetooth/" "6.13" uaf_both [6; 13]
    ltac:(done) Hok ltac:(by vm_compute)) as [(pairs' & E' & H') _].
  rewrite E in E'. injection E' as <-. exists pairs. split; [exact E|]. rewrite H, H'. clear. split; by vm_compute.
Defined.

(** Two directories, and a pipeline that breaks after its first command. *)
Example torn_ex :
  let files := [Loaded uaf; Loaded (cna_json "CVE-2025-2" "" [(["fs/ext4/inode.c"], [Exactly "6.6.102"])])] in
  match sync true true (Some empty_index) (Some files) (fun _ => Some (fun i => (i =? 0)%nat)) 0 with
  | (Some r, sync_error) =>
      ids (lookup dotted_version parts_lt (Some r) 60 "net/bluetooth/" (JStr "6.6.102")) = Some (JStr <$> replicate 4 "CVE-2025-1") /\
      ids (lookup dotted_version parts_lt (Some r) 60 "fs/ext4/" (JStr "6.6.102")) = Some [] /\ r.(last_sync) = None
  | _ => False
  end.
Proof. by vm_compute. Qed.

(** A day after a good run of [sync] the index is empty, if each later run meets one file that
    is a list. *)
Lemma one_record_stops_sync_witness :
  is_populated (synced [Loaded uaf]) 60 = true /\
  match synced [Loaded uaf] with
  | Some r =>
      sync true true (Some r) (Some [Loaded uaf; Loaded (JList [])]) (fun _ => None) 80000 = (Some r, sync_error) /\
      lookup dotted_version parts_lt (Some r) 86400 "net/bluetooth/" (JStr "6.6.102") = Ok []
  | None => False
  end.
Proof.
  split; [by vm_compute|].
  assert (E : exists m, synced [Loaded uaf] = Some {| subsystems := {[ _SUBSYSTEM_KEY_PREFIX +:+ "net/bluetooth/" := (m, 86400) ]}; last_sync := Some 0 |}).
  { eexists. by vm_compute. }
  destruct E as [m ->].
  destruct (one_record_stops_sync dotted_version parts_lt
    {| subsystems := {[ _SUBSYSTEM_KEY_PREFIX +:+ "net/bluetooth/" := (m, 86400) ]}; last_sync := Some 0 |}
    [Loaded uaf; Loaded (JList [])] (Loaded (JList [])) (fun _ => None) 80000) as [H1 H2].
  - right. by left.
  - right. left. by eexists.
  - split; [exact H1|]. apply H2. apply map_Forall_singleton. done.
Defined.

(** Bounds that are no versions, and boundary cases of the projection. *)
Example bounds_ex :
  _next_patch "6.11" = Some "6.11.1" /\ _next_patch "6.11-rc1" = Some "6.0.1" /\
  version_block (JDict [("version", JStr "6.1"); ("lessThanOrEqual", JStr "6.6.70"); ("status", JStr "affected")]) =
    Ok [(JStr "6.1", JStr "6.6.70")] /\
  max_ok dotted_version parts_lt [6; 6; 70] (JStr "6.6.70") = false /\
  _subsystem_from_programfile (JStr "./net/bluetooth/smp.c") = Some "net/bluetooth/".
Proof. by vm_compute. Qed.
