(* ===== verification/CveMatcher.v ===== *)
(** * The CVE matcher of hardware firmware ([services/hardware_firmware/cve_matcher.py])

    From the blobs of a firmware to rows of sbom_vulnerabilities: CVEs that a parser pinned,
    curated families, the kernel's CVEs mirrored onto its modules, and the kernel index of
    [KernelVulns]; the loading of the curated file, and the loops that store each pair of
    blob and CVE once.  [re.search] on patterns of the file and the rounding of a score by the
    database are parameters.  The two tiers that always answer nothing are left out. *)

From S2P Require Import Prelude PyText PosixPath Json Jsonb JsonbColumns YamlCache KernelVulns.
From Stdlib Require Import Ascii String.
Import (notations) Ascii String.
#[local] Open Scope Z_scope.

(** ** The curated file *)

Definition _KNOWN_FIRMWARE_NARROWING_FIELDS : list string :=
  ["chipset_regex"; "category_regex"; "version_regex"; "vendor_regex"; "config_required"].

(** The counters of one load. *)
Record load_rejections := {
  advisory_missing_advisory_id : Z; advisory_id_too_long : Z; advisory_id_duplicate_warn : Z; f_forensic_10_no_narrowing : Z
}.

Definition no_rejections : load_rejections :=
  {| advisory_missing_advisory_id := 0; advisory_id_too_long := 0; advisory_id_duplicate_warn := 0; f_forensic_10_no_narrowing := 0 |}.

Definition count_if (b : bool) (n : Z) : Z := if b then n + 1 else n.

(** [fam.get(k)] and [fam.get(k, dflt)] *)
Definition fget (fam : pydict) (k : string) : json := default JNull (dict_get k fam).
Definition fget_or (fam : pydict) (k : string) (dflt : json) : json := default dflt (dict_get k fam).

Record load_state := { accepted : list pydict; seen_advisory_ids : list (string * bool); rejected : load_rejections }.

(** An entry without CVEs: it is accepted, and only counted. *)
Definition advisory_step (st : load_state) (fam : pydict) : load_state :=
  let adv_id := fget fam "advisory_id" in
  let shared_flag := py_truthy (fget_or fam "shared_advisory_id" (JBool false)) in
  let c := st.(rejected) in
  let accepted := (st.(accepted) ++ [fam])%list in
  if negb (py_truthy adv_id) then
    {| accepted := accepted; seen_advisory_ids := st.(seen_advisory_ids);
       rejected := {| advisory_missing_advisory_id := c.(advisory_missing_advisory_id) + 1; advisory_id_too_long := c.(advisory_id_too_long);
                      advisory_id_duplicate_warn := c.(advisory_id_duplicate_warn);
                      f_forensic_10_no_narrowing := c.(f_forensic_10_no_narrowing) |} |}
  else
    match adv_id with
    | JStr id =>
        let prior := dict_get id st.(seen_advisory_ids) in
        {| accepted := accepted;
           seen_advisory_ids := dict_set id (shared_flag || default false prior) st.(seen_advisory_ids);
           rejected :=
             {| advisory_missing_advisory_id := c.(advisory_missing_advisory_id);
                advisory_id_too_long := count_if (20 <? py_len id) c.(advisory_id_too_long);
                advisory_id_duplicate_warn :=
                  count_if (match prior with Some prior_shared => negb (shared_flag && prior_shared) | None => false end)
                    c.(advisory_id_duplicate_warn);
                f_forensic_10_no_narrowing := c.(f_forensic_10_no_narrowing) |} |}
    | _ => {| accepted := accepted; seen_advisory_ids := st.(seen_advisory_ids); rejected := c |}
    end.

Definition has_narrowing (fam : pydict) : bool :=
  existsb (fun field => negb (is_null (fget fam field))) _KNOWN_FIRMWARE_NARROWING_FIELDS.

Definition family_step (st : load_state) (entry : json) : load_state :=
  match entry with
  | JDict fam =>
      if negb (py_truthy (fget fam "cves")) then advisory_step st fam
      else if negb (has_narrowing fam) then
        let c := st.(rejected) in
        {| accepted := st.(accepted); seen_advisory_ids := st.(seen_advisory_ids);
           rejected := {| advisory_missing_advisory_id := c.(advisory_missing_advisory_id); advisory_id_too_long := c.(advisory_id_too_long);
                          advisory_id_duplicate_warn := c.(advisory_id_duplicate_warn);
                          f_forensic_10_no_narrowing := c.(f_forensic_10_no_narrowing) + 1 |} |}
      else {| accepted := (st.(accepted) ++ [fam])%list; seen_advisory_ids := st.(seen_advisory_ids); rejected := st.(rejected) |}
  | _ => st
  end.

Definition load_families (raw : pydict) : res string load_state :=
  match fget_or raw "families" (JList []) with
  | JList families => Ok (foldl family_step {| accepted := []; seen_advisory_ids := []; rejected := no_rejections |} families)
  | _ => Err "'families' must be a list"
  end.

Definition _parse_known_firmware_data (raw : pydict) : res string (list pydict) :=
  st ← load_families raw; Ok st.(accepted).

(** [_KNOWN_FIRMWARE_LOADER] and one call of [_load_known_firmware]. *)
Definition _KNOWN_FIRMWARE_LOADER : loader := new_loader (T := list pydict) [].
Definition _load_known_firmware (s : loader) (v : view) : loader * option (list pydict) := YamlCache.get _parse_known_firmware_data s v.

(** ** Blobs and matches *)

Record HardwareFirmwareBlob := {
  b_id : Z; blob_path : string; category : string; vendor : option string; version : option string;
  chipset_target : option string; metadata_ : json; detection_confidence : option string
}.

Record CveMatch := {
  m_blob_id : Z; m_cve_id : json; m_severity : json; m_cvss_score : json; m_description : json; m_confidence : json; m_tier : string
}.

Definition blob_metadata (blob : HardwareFirmwareBlob) : pydict :=
  match _normalize_hardware_firmware_blobs_metadata blob.(metadata_) with JDict d => d | _ => [] end.

(** [v.get(k) or dflt] of a dictionary. *)
Definition or_default (d : pydict) (k : string) (dflt : json) : json := let v := fget d k in if py_truthy v then v else dflt.

Definition _stringify_metadata (md : pydict) : list string :=
  md ≫= fun kv =>
    match kv.2 with
    | JStr s => [s]
    | JList l => omap (fun x => match x with JStr s => Some s | _ => None end) l
    | _ => []
    end.

(** Tier 0. *)
Definition known_match (blob : HardwareFirmwareBlob) (v : json) : option CveMatch :=
  match v with
  | JDict d =>
      let cve_id := fget d "cve_id" in
      if negb (py_truthy cve_id) then None
      else Some {| m_blob_id := blob.(b_id); m_cve_id := cve_id; m_severity := or_default d "severity" (JStr "medium"); m_cvss_score := JNull;
                   m_description := or_default d "rationale" (JStr ""); m_confidence := or_default d "confidence" (JStr "high");
                   m_tier := "parser_version_pin" |}
  | _ => None
  end.

Definition _match_parser_detected (blobs : list HardwareFirmwareBlob) : list CveMatch :=
  blobs ≫= fun blob =>
    match fget (blob_metadata blob) "known_vulnerabilities" with JList known => omap (known_match blob) known | _ => [] end.

(** ** Curated families *)

Section Curated.
(** [re.search(pattern, text, re.IGNORECASE)]; [None] if the pattern is none. *)
Context (search : string -> string -> option bool).

Definition re_search (pattern : json) (text : string) : res exc bool :=
  match pattern with
  | JStr p => match search p text with Some b => Ok b | None => Err ReError end
  | _ => Err TypeErr
  end.

Definition text_or_empty (s : option string) : string := default "" s.

Definition vendor_matches (fam : pydict) (blob_vendor : string) : res exc bool :=
  let vendor_re := fget fam "vendor_regex" in
  if py_truthy vendor_re then (if truthy (Some blob_vendor) then re_search vendor_re blob_vendor else Ok false)
  else v ← as_text (fget_or fam "vendor" (JStr "")); Ok (bool_decide (lower v = blob_vendor)).

Definition category_matches (fam : pydict) (blob_category : string) : res exc bool :=
  let cat_re := fget fam "category_regex" in
  if py_truthy cat_re then re_search cat_re blob_category
  else c ← as_text (fget_or fam "category" (JStr "")); Ok (bool_decide (lower c = blob_category)).

(** [None]: no match; [Some true]: a match without evidence for the chipset. *)
Definition chipset_gate (fam : pydict) (blob_chipset : string) : res exc (option bool) :=
  let chipset_re := fget fam "chipset_regex" in
  if negb (py_truthy chipset_re) then Ok (Some false)
  else if negb (truthy (Some blob_chipset)) then
    Ok (if py_truthy (fget_or fam "strict_chipset" (JBool false)) then None else Some true)
  else b ← re_search chipset_re blob_chipset; Ok (if b : bool then Some false else None).

Fixpoint any_search (pattern : json) (texts : list string) : res exc bool :=
  match texts with
  | [] => Ok false
  | text :: texts => b ← re_search pattern text; if b : bool then Ok true else any_search pattern texts
  end.

Definition version_gate (fam : pydict) (blob_version : string) (metadata_values : list string) : res exc bool :=
  let version_re := fget fam "version_regex" in
  if negb (py_truthy version_re) then Ok true
  else any_search version_re (if truthy (Some blob_version) then blob_version :: metadata_values else metadata_values).

(** [a == b] in Python. *)
Definition number_of (v : json) : option Z :=
  match v with
  | JBool b => Some (if b then 1 else 0)
  | JInt z => Some z
  | JFloat f => if f.(f_integral) then f.(f_trunc) else None
  | _ => None
  end.

Fixpoint json_eqb (a b : json) {struct a} : bool :=
  match a, b with
  | JNull, JNull => true
  | JStr s, JStr t => bool_decide (s = t)
  | JList l, JList m =>
      (fix list_eqb (l m : list json) : bool :=
         match l, m with
         | [], [] => true
         | x :: l, y :: m => json_eqb x y && list_eqb l m
         | _, _ => false
         end) l m
  | JDict d, JDict e =>
      (List.length d =? List.length e)%nat &&
      (fix dict_eqb (d : pydict) : bool :=
         match d with
         | [] => true
         | (k, x) :: d => match dict_get k e with Some y => json_eqb x y | None => false end && dict_eqb d
         end) d
  | JFloat f, JFloat g =>
      if f.(f_integral) && g.(f_integral) then bool_decide (f.(f_trunc) = g.(f_trunc))
      else bool_decide (f.(f_repr) = g.(f_repr)) && negb (bool_decide (f.(f_repr) = "nan"))
  | _, _ => match number_of a, number_of b with Some m, Some n => m =? n | _, _ => false end
  end.

Definition unquoted (actual : json) : json :=
  match actual with JStr s => JStr (strip_char "'" (strip_char dquote s)) | v => v end.

Definition config_gate (fam md : pydict) : bool :=
  let config_required := fget fam "config_required" in
  if negb (py_truthy config_required) then true
  else
    match config_required, fget md "kernel_config" with
    | JDict required, JDict kernel_config =>
        forallb (fun r : string * json => json_eqb (unquoted (fget kernel_config r.1)) r.2) required
    | _, _ => false
    end.

Fixpoint keep_chars (f : ascii -> bool) (s : string) : string :=
  match s with "" => "" | String a s => if f a then String a (keep_chars f s) else keep_chars f s end.

(** The identifier of a family without CVEs. *)
Definition advisory_cve_id (fam : pydict) : res exc string :=
  let advisory_id := fget fam "advisory_id" in
  if py_truthy advisory_id then Ok (take_chars 20 (py_str advisory_id))
  else
    name ← as_text (fget_or fam "name" (JStr "unknown"));
    Ok (take_chars 20 ("ADVISORY-" +:+ keep_chars (fun a => is_upper a || is_digit a || is_char "-" a) (replace_char " " "-" (upper name)))).

Definition family_match (blob : HardwareFirmwareBlob) (fam : pydict) (chipset_soft : bool) (desc : string) (cve_id : json) : CveMatch :=
  {| m_blob_id := blob.(b_id); m_cve_id := cve_id; m_severity := fget_or fam "severity" (JStr "medium");
     m_cvss_score := fget fam "cvss_score"; m_description := JStr desc;
     m_confidence := or_default fam "confidence" (JStr (if chipset_soft then "medium" else "high")); m_tier := "curated_yaml" |}.

(** What a family whose gates are passed gives. *)
Definition family_matches (blob : HardwareFirmwareBlob) (fam : pydict) (chipset_soft : bool) : res exc (list CveMatch) :=
  let cves := fget_or fam "cves" (JList []) in
  notes ← as_text (fget_or fam "notes" (JStr ""));
  let desc := py_str (fget_or fam "name" (JStr "(unnamed)")) +:+ ": " +:+ strip notes in
  if negb (py_truthy cves) then cve_id ← advisory_cve_id fam; Ok [family_match blob fam chipset_soft desc (JStr cve_id)]
  else iter cves ≫= fun cves : list json => Ok (family_match blob fam chipset_soft desc <$> cves).

Definition match_family (blob : HardwareFirmwareBlob) (fam : pydict) : res exc (list CveMatch) :=
  v ← vendor_matches fam (lower (text_or_empty blob.(vendor)));
  if negb v then Ok []
  else
    c ← category_matches fam (lower blob.(category));
    if negb c then Ok []
    else
      soft ← chipset_gate fam (text_or_empty blob.(chipset_target));
      match soft with
      | None => Ok []
      | Some chipset_soft =>
          ok ← version_gate fam (text_or_empty blob.(version)) (_stringify_metadata (blob_metadata blob));
          if negb ok then Ok []
          else if config_gate fam (blob_metadata blob) then family_matches blob fam chipset_soft else Ok []
      end.

Definition _match_curated (blob : HardwareFirmwareBlob) (families : list pydict) : res exc (list CveMatch) :=
  if bool_decide (lower (if truthy blob.(detection_confidence) then text_or_empty blob.(detection_confidence) else "medium") = "low")
  then Ok []
  else collect (match_family blob) families.
End Curated.

(** ** Kernel modules *)

Definition _KMOD_TO_SUBSYSTEM : list (string * string) :=
  [("cfg80211", "net/wireless/"); ("mac80211", "net/mac80211/"); ("wlan", "drivers/net/wireless/");
   ("ath9k", "drivers/net/wireless/ath/ath9k/"); ("ath9k_common", "drivers/net/wireless/ath/ath9k/");
   ("ath9k_htc", "drivers/net/wireless/ath/ath9k/"); ("ath10k_core", "drivers/net/wireless/ath/ath10k/");
   ("ath10k_pci", "drivers/net/wireless/ath/ath10k/"); ("ath10k_sdio", "drivers/net/wireless/ath/ath10k/");
   ("ath11k", "drivers/net/wireless/ath/ath11k/"); ("ath11k_pci", "drivers/net/wireless/ath/ath11k/");
   ("iwlwifi", "drivers/net/wireless/intel/iwlwifi/"); ("iwlmvm", "drivers/net/wireless/intel/iwlwifi/mvm/");
   ("rtl8xxxu", "drivers/net/wireless/realtek/rtl8xxxu/"); ("rtw88_core", "drivers/net/wireless/realtek/rtw88/");
   ("rtw89_core", "drivers/net/wireless/realtek/rtw89/"); ("brcmfmac", "drivers/net/wireless/broadcom/brcm80211/brcmfmac/");
   ("brcmutil", "drivers/net/wireless/broadcom/brcm80211/"); ("bcmdhd", "drivers/net/wireless/broadcom/");
   ("bluetooth", "net/bluetooth/"); ("btusb", "drivers/bluetooth/"); ("btbcm", "drivers/bluetooth/");
   ("hci_uart", "drivers/bluetooth/"); ("ipv4", "net/ipv4/"); ("ipv6", "net/ipv6/"); ("nf_tables", "net/netfilter/");
   ("nft_ct", "net/netfilter/"); ("nft_chain_nat", "net/netfilter/"); ("nfnetlink", "net/netfilter/"); ("nfc", "net/nfc/");
   ("exfat", "fs/exfat/"); ("f2fs", "fs/f2fs/"); ("ext4", "fs/ext4/"); ("fuse", "fs/fuse/"); ("btrfs", "fs/btrfs/");
   ("overlay", "fs/overlayfs/"); ("zsmalloc", "mm/"); ("ksm", "mm/"); ("io_uring", "io_uring/");
   ("mali_kbase", "drivers/gpu/arm/"); ("msm_drm", "drivers/gpu/drm/msm/"); ("msm", "drivers/gpu/drm/msm/");
   ("hwcomposer", "drivers/gpu/drm/"); ("drm", "drivers/gpu/drm/"); ("drm_kms_helper", "drivers/gpu/drm/");
   ("binder_linux", "drivers/android/"); ("ashmem_linux", "drivers/android/"); ("usbhid", "drivers/hid/usbhid/");
   ("uhid", "drivers/hid/"); ("snd_soc_core", "sound/soc/"); ("snd_usb_audio", "sound/usb/")].

Definition kmod_anchors : list string := ["mali_kbase"; "bcmdhd"; "iwlmvm"; "iwlwifi"; "brcmfmac"; "brcmutil"; "rtw88"; "rtw89"].

Definition drop_suffix (n : nat) (s : string) : string := String.substring 0 (String.length s - n) s.

Definition _kmod_basename (path : string) : string :=
  let name := basename path in
  let name :=
    if endswith name ".ko" then drop_suffix 3 name
    else if endswith name ".ko.xz" || endswith name ".ko.gz" then drop_suffix 6 name else name in
  if dict_has name _KMOD_TO_SUBSYSTEM then name
  else default name (List.find (fun anchor => startswith name (anchor +:+ "_") || bool_decide (name = anchor)) kmod_anchors).

Definition is_kmod (blob : HardwareFirmwareBlob) : bool := bool_decide (lower blob.(category) = "kernel_module").

(** Rows of the two tables that are read and written. *)
Record component_row := { c_id : Z; c_firmware_id : Z; c_name : string; c_type : string; c_detection_source : string }.

Record vuln := {
  v_component_id : option Z; v_firmware_id : Z; v_blob_id : option Z; v_cve_id : string; v_severity : string; v_cvss_score : json;
  v_description : option string; v_match_confidence : option string; v_match_tier : option string; v_resolution_status : string
}.

(** [LIKE 'kernel_%'], in which the underscore stands for any character. *)
Definition like_kernel (s : string) : bool := startswith s "kernel" && (7 <=? py_len s).

Definition is_kernel_component (firmware_id : Z) (c : component_row) : bool :=
  (c.(c_firmware_id) =? firmware_id) && bool_decide (lower c.(c_name) ∈ ["linux-kernel"; "linux_kernel"; "linux"]) &&
  (bool_decide (c.(c_type) = "operating-system") || like_kernel c.(c_detection_source)).

Definition kernel_row (firmware_id blob_id : Z) (v : vuln) : vuln :=
  {| v_component_id := None; v_firmware_id := firmware_id; v_blob_id := Some blob_id; v_cve_id := v.(v_cve_id);
     v_severity := if truthy (Some v.(v_severity)) then v.(v_severity) else "unknown"; v_cvss_score := v.(v_cvss_score);
     v_description := Some (text_or_empty v.(v_description)); v_match_confidence := Some "low"; v_match_tier := Some "kernel_cpe";
     v_resolution_status := "open" |}.

(** Tier 4: the rows, one by one. *)
Definition _iter_kernel_cve_rows (blobs : list HardwareFirmwareBlob) (firmware_id : Z) (components : list component_row) (vulns : list vuln)
    : list vuln :=
  let kmod_blobs := List.filter is_kmod blobs in
  let comp_ids := c_id <$> List.filter (is_kernel_component firmware_id) components in
  v ← List.filter (fun v => match v.(v_component_id) with Some c => bool_decide (c ∈ comp_ids) | None => false end) vulns;
  (fun blob => kernel_row firmware_id blob.(b_id) v) <$> kmod_blobs.

(** Tier 5. *)
Section Subsystem.
Context {V : Type} (Version : string -> option V) (vlt : V -> V -> bool) (client : option redis) (now : Z).

(** [cve["cve_id"]] and the optional fields of one entry. *)
Definition subsystem_match (blob : HardwareFirmwareBlob) (cve : json) : res exc (list CveMatch) :=
  match cve with
  | JDict d =>
      match dict_get "cve_id" d with
      | Some cve_id =>
          Ok [{| m_blob_id := blob.(b_id); m_cve_id := cve_id; m_severity := or_default d "severity" (JStr "medium"); m_cvss_score := JNull;
                 m_description := or_default d "description" (JStr ""); m_confidence := JStr "high"; m_tier := "kernel_subsystem" |}]
      | None => Err KeyErr
      end
  | _ => Err TypeErr
  end.

Definition subsystem_matches (blob : HardwareFirmwareBlob) : res exc (list CveMatch) :=
  match dict_get (_kmod_basename blob.(blob_path)) _KMOD_TO_SUBSYSTEM with
  | None => Ok []
  | Some subsystem =>
      let kernel_version := fget (blob_metadata blob) "kernel_semver" in
      if negb (py_truthy kernel_version) then Ok []
      else
        match lookup Version vlt client now subsystem kernel_version with
        | Err _ => Ok []
        | Ok cves => collect (subsystem_match blob) cves
        end
  end.

Definition _match_kernel_subsystem (blobs : list HardwareFirmwareBlob) : res exc (list CveMatch) :=
  if is_populated client now then collect subsystem_matches (List.filter is_kmod blobs) else Ok [].
End Subsystem.

(** ** [match_firmware_cves] *)

Section Match.
Context (search : string -> string -> option bool).
Context {V : Type} (Version : string -> option V) (vlt : V -> V -> bool).
(** The value a column of three digits with one decimal stores; [None]: it refuses. *)
Context (numeric : json -> option json).

Definition _TIER4_BATCH_SIZE : nat := 5000.

(** A value for a column of text, at most [n] characters long if there is a limit. *)
Definition text_fits (n : option Z) (v : json) : option string :=
  match v with
  | JStr s =>
      if has_char (ascii_of_N 0) s || match n with Some n => n <? py_len s | None => false end then None else Some s
  | _ => None
  end.

(** The row of a match; [None]: a column refuses it. *)
Definition to_row (firmware_id : Z) (m : CveMatch) : option vuln :=
  cve_id ← text_fits (Some 20) m.(m_cve_id);
  severity ← text_fits (Some 20) m.(m_severity);
  cvss_score ← match m.(m_cvss_score) with JNull => Some JNull | v => numeric v end;
  description ← text_fits None m.(m_description);
  confidence ← text_fits (Some 16) m.(m_confidence);
  Some {| v_component_id := None; v_firmware_id := firmware_id; v_blob_id := Some m.(m_blob_id); v_cve_id := cve_id;
          v_severity := severity; v_cvss_score := cvss_score; v_description := Some description;
          v_match_confidence := Some confidence; v_match_tier := Some m.(m_tier); v_resolution_status := "open" |}.

Abbreviation pair := (Z * string)%type.

(** The pairs of blob and CVE that the firmware has rows for. *)
Definition existing_pairs (firmware_id : Z) (table : list vuln) : list pair :=
  omap (fun v => if v.(v_firmware_id) =? firmware_id then (fun b => (b, v.(v_cve_id))) <$> v.(v_blob_id) else None) table.

Record tier4_state := {
  t4_table : list vuln; t4_batch : list vuln; t4_existing : list pair; t4_total : Z; t4_inserted : Z; t4_distinct : gset string
}.

Definition _flush_tier4_batch (s : tier4_state) : tier4_state :=
  {| t4_table := (s.(t4_table) ++ s.(t4_batch))%list; t4_batch := []; t4_existing := s.(t4_existing); t4_total := s.(t4_total);
     t4_inserted := s.(t4_inserted); t4_distinct := s.(t4_distinct) |}.

Definition tier4_step (force_rescan : bool) (s : tier4_state) (row : vuln) : tier4_state :=
  let key := (default 0 row.(v_blob_id), row.(v_cve_id)) in
  let total := s.(t4_total) + 1 in
  let distinct := {[ row.(v_cve_id) ]} ∪ s.(t4_distinct) in
  if bool_decide (key ∈ s.(t4_existing)) && negb force_rescan then
    {| t4_table := s.(t4_table); t4_batch := s.(t4_batch); t4_existing := s.(t4_existing); t4_total := total;
       t4_inserted := s.(t4_inserted); t4_distinct := distinct |}
  else
    let s := {| t4_table := s.(t4_table); t4_batch := (s.(t4_batch) ++ [row])%list; t4_existing := key :: s.(t4_existing);
                t4_total := total; t4_inserted := s.(t4_inserted) + 1; t4_distinct := distinct |} in
    if (_TIER4_BATCH_SIZE <=? List.length s.(t4_batch))%nat then _flush_tier4_batch s else s.

(** The loop over the other matches: the rows that are queued.  An identifier that is a list
    or a dictionary cannot be looked up in a set; one that is another value than text is
    equal to none in the table, and the flush refuses it. *)
Fixpoint persist_loop (force_rescan : bool) (existing : list pair) (all_matches : list CveMatch) : res exc (list CveMatch) :=
  match all_matches with
  | [] => Ok []
  | m :: all_matches =>
      match m.(m_cve_id) with
      | JList _ | JDict _ => Err TypeErr
      | JStr cve_id =>
          let key := (m.(m_blob_id), cve_id) in
          if bool_decide (key ∈ existing) && negb force_rescan then persist_loop force_rescan existing all_matches
          else queued ← persist_loop force_rescan (key :: existing) all_matches; Ok (m :: queued)
      | _ => queued ← persist_loop force_rescan existing all_matches; Ok (m :: queued)
      end
  end.

Record MatchResult := {
  matches : list CveMatch; tier4_rows : Z; tier4_inserted : Z; tier4_distinct_cves : gset string; inserted : Z
}.

(** What is read besides the table that is written. *)
Record inputs := {
  blobs : list HardwareFirmwareBlob; components : list component_row; families : list pydict; client : option redis; now : Z
}.

Definition match_firmware_cves (i : inputs) (firmware_id : Z) (force_rescan : bool) (table : list vuln) : res exc (list vuln * MatchResult) :=
  match i.(blobs) with
  | [] => Ok (table, {| matches := []; tier4_rows := 0; tier4_inserted := 0; tier4_distinct_cves := ∅; inserted := 0 |})
  | _ =>
      let tier0 := _match_parser_detected i.(blobs) in
      tier3 ← collect (fun blob => _match_curated search blob i.(families)) i.(blobs);
      let t4 := _flush_tier4_batch
                  (foldl (tier4_step force_rescan)
                     {| t4_table := table; t4_batch := []; t4_existing := existing_pairs firmware_id table; t4_total := 0; t4_inserted := 0;
                        t4_distinct := ∅ |}
                     (_iter_kernel_cve_rows i.(blobs) firmware_id i.(components) table)) in
      tier5 ← _match_kernel_subsystem Version vlt i.(client) i.(now) i.(blobs);
      let all_matches := (tier0 ++ tier3 ++ tier5)%list in
      queued ← persist_loop force_rescan t4.(t4_existing) all_matches;
      match mapM (to_row firmware_id) queued with
      | None => Err DataErr
      | Some rows =>
          Ok ((t4.(t4_table) ++ rows)%list,
              {| matches := all_matches; tier4_rows := t4.(t4_total); tier4_inserted := t4.(t4_inserted);
                 tier4_distinct_cves := t4.(t4_distinct); inserted := Z.of_nat (List.length rows) + t4.(t4_inserted) |})
      end
  end.

(** ** One row for each pair of blob and CVE *)

Definition key_of (v : vuln) : pair := (default 0 v.(v_blob_id), v.(v_cve_id)).

(** The reference: of the rows with a key that is not there yet, the first. *)
Fixpoint first_of (seen : list pair) (rows : list vuln) : list vuln :=
  match rows with
  | [] => []
  | row :: rows =>
      if bool_decide (key_of row ∈ seen) then first_of seen rows else row :: first_of (key_of row :: seen) rows
  end.

Lemma first_of_equiv (seen seen' : list pair) (rows : list vuln) :
  (forall k, k ∈ seen <-> k ∈ seen') -> first_of seen rows = first_of seen' rows.
Proof.
  revert seen seen'. induction rows as [|row rows IH]; intros seen seen' H; [done|]. cbn [first_of].
  rewrite (bool_decide_ext _ _ (H (key_of row))). case_bool_decide; [by apply IH|]. f_equal. apply IH. intros k. rewrite !elem_of_cons. by rewrite H.
Qed.

Lemma first_of_app (seen : list pair) (rows1 rows2 : list vuln) :
  first_of seen (rows1 ++ rows2)%list =
    (first_of seen rows1 ++ first_of (reverse (key_of <$> first_of seen rows1) ++ seen)%list rows2)%list.
Proof.
  revert seen. induction rows1 as [|row rows1 IH]; intros seen; [done|]. cbn [first_of app]. case_bool_decide as Hin; [by apply IH|].
  rewrite IH, fmap_cons, reverse_cons. cbn [app]. by rewrite <- app_assoc.
Qed.

Lemma first_of_spec (seen : list pair) (rows : list vuln) :
  NoDup (key_of <$> first_of seen rows) /\ (forall k, k ∈ key_of <$> first_of seen rows -> k ∉ seen) /\
  (forall k, k ∈ key_of <$> rows -> k ∈ seen \/ k ∈ key_of <$> first_of seen rows).
Proof.
  revert seen. induction rows as [|row rows IH]; intros seen; cbn [first_of].
  { split_and!; [constructor|by intros k ?%not_elem_of_nil|by intros k ?%not_elem_of_nil]. }
  case_bool_decide as Hin.
  - destruct (IH seen) as (H1 & H2 & H3). split_and!; [done..|]. intros k. rewrite fmap_cons, elem_of_cons. intros [->|Hk]; [by left|by apply H3].
  - destruct (IH (key_of row :: seen)) as (H1 & H2 & H3). rewrite !fmap_cons. split_and!.
    + apply NoDup_cons. split; [|done]. intros Hk%H2. apply Hk. by left.
    + intros k [->|Hk]%elem_of_cons; [done|]. intros Hs. apply (H2 k Hk). by right.
    + intros k [->|Hk]%elem_of_cons; [right; by left|]. destruct (H3 k Hk) as [[->|Hs]%elem_of_cons|Hk']; [right; by left|by left|right; by right].
Qed.

(** Nothing is left when all keys are there. *)
Lemma first_of_none (seen : list pair) (rows : list vuln) : (forall k, k ∈ key_of <$> rows -> k ∈ seen) -> first_of seen rows = [].
Proof.
  induction rows as [|row rows IH]; [done|]. intros H. cbn [first_of]. rewrite bool_decide_eq_true_2 by (apply H; by left). apply IH.
  intros k Hk. apply H. by right.
Qed.

(** The batches of tier 4 are invisible. *)
Lemma tier4_loop (s : tier4_state) (rows : list vuln) :
  let s' := _flush_tier4_batch (foldl (tier4_step false) s rows) in
  s'.(t4_table) = (s.(t4_table) ++ s.(t4_batch) ++ first_of s.(t4_existing) rows)%list /\
  s'.(t4_existing) = (reverse (key_of <$> first_of s.(t4_existing) rows) ++ s.(t4_existing))%list /\
  s'.(t4_total) = s.(t4_total) + zlen rows /\
  s'.(t4_inserted) = s.(t4_inserted) + zlen (first_of s.(t4_existing) rows) /\
  s'.(t4_distinct) = list_to_set (v_cve_id <$> rows) ∪ s.(t4_distinct).
Proof.
  cbn zeta. revert s. induction rows as [|row rows IH]; intros s; cbn [foldl].
  { cbn. unfold zlen. cbn. split_and!; [by rewrite app_nil_r|done|lia|lia|set_solver]. }
  destruct (IH (tier4_step false s row)) as (H1 & H2 & H3 & H4 & H5). rewrite H1, H2, H3, H4, H5. clear IH H1 H2 H3 H4 H5.
  unfold tier4_step. cbn [first_of]. change (default 0 (v_blob_id row), v_cve_id row) with (key_of row).
  rewrite andb_true_r. case_bool_decide as Hin; cbn [t4_table t4_batch t4_existing t4_total t4_inserted t4_distinct].
  - unfold zlen. split_and!; [done|done|cbn [List.length]; lia|done|rewrite fmap_cons; set_solver].
  - destruct (_TIER4_BATCH_SIZE <=? _)%nat; cbn [_flush_tier4_batch t4_table t4_batch t4_existing t4_total t4_inserted t4_distinct];
      (unfold zlen; split_and!; [by rewrite <- ?app_assoc|rewrite fmap_cons, reverse_cons; by rewrite <- app_assoc|cbn [List.length]; lia|
        cbn [List.length]; lia|rewrite fmap_cons; set_solver]).
Qed.

Lemma to_row_key (firmware_id : Z) (m : CveMatch) (row : vuln) :
  to_row firmware_id m = Some row ->
  m.(m_cve_id) = JStr row.(v_cve_id) /\ key_of row = (m.(m_blob_id), row.(v_cve_id)) /\ row.(v_firmware_id) = firmware_id /\
  row.(v_component_id) = None /\ row.(v_blob_id) = Some m.(m_blob_id).
Proof.
  unfold to_row. destruct (m_cve_id m) as [| | | |s| |]; try done. cbn [text_fits]. destruct (_ || _); [done|]. cbn [mbind option_bind].
  destruct (text_fits (Some 20) (m_severity m)); [|done]. cbn. destruct (match m_cvss_score m with JNull => _ | _ => _ end); [|done]. cbn.
  destruct (text_fits None (m_description m)); [|done]. cbn. destruct (text_fits (Some 16) (m_confidence m)); [|done]. cbn. by intros [= <-].
Qed.

(** The loop over the other matches, and the flush. *)
Lemma persist_rows (firmware_id : Z) (existing : list pair) (ms queued : list CveMatch) (rows : list vuln) :
  persist_loop false existing ms = Ok queued -> mapM (to_row firmware_id) queued = Some rows ->
  rows = first_of existing (omap (to_row firmware_id) ms) /\
  Forall (fun m => match m.(m_cve_id) with
                   | JStr cve_id => (m.(m_blob_id), cve_id) ∈ existing \/ (m.(m_blob_id), cve_id) ∈ key_of <$> rows
                   | _ => False end) ms.
Proof.
  revert existing queued rows. induction ms as [|m ms IH]; intros existing queued rows; cbn [persist_loop omap list_omap].
  { intros [= <-] [= <-]. by split. }
  assert (Hrefuse : forall q, match m_cve_id m with JStr _ => False | _ => True end -> mapM (to_row firmware_id) (m :: q) = None).
  { intros q Hm. cbn. destruct (to_row firmware_id m) as [row|] eqn:E; [|done]. apply to_row_key in E as (E & _). by rewrite E in Hm. }
  destruct (m_cve_id m) as [| | | |s| |] eqn:Em; try done.
  1-4: intros H Hrows; apply res_bind_ok in H as (q & _ & [= <-]); by rewrite Hrefuse in Hrows.
  rewrite andb_true_r. case_bool_decide as Hin.
  - intros Hq Hr. destruct (IH _ _ _ Hq Hr) as [-> Hf]. split; [|constructor; [by rewrite Em; left|done]].
    destruct (to_row firmware_id m) as [row|] eqn:E; [|done]. cbn [first_of]. apply to_row_key in E as (E1 & E2 & _).
    rewrite Em in E1. injection E1 as ->. by rewrite E2, bool_decide_eq_true_2.
  - intros H Hr. apply res_bind_ok in H as (q & Hq & [= <-]). cbn in Hr. destruct (to_row firmware_id m) as [row|] eqn:E; [|done]. cbn in Hr.
    destruct (mapM (to_row firmware_id) q) as [rows'|] eqn:Er; [|done]. injection Hr as <-. destruct (IH _ _ _ Hq Er) as [-> Hf].
    apply to_row_key in E as (E1 & E2 & _). rewrite Em in E1. injection E1 as ->. cbn [first_of]. rewrite E2, bool_decide_eq_false_2 by done.
    split; [done|]. constructor; [rewrite Em; right; rewrite fmap_cons, E2; by left|]. eapply Forall_impl; [exact Hf|]. cbn beta.
    intros m' Hm'. destruct (m_cve_id m') as [| | | |s'| |]; try done. rewrite fmap_cons, E2. rewrite !elem_of_cons in *. tauto.
Qed.

Lemma existing_pairs_app (firmware_id : Z) (t1 t2 : list vuln) :
  existing_pairs firmware_id (t1 ++ t2)%list = (existing_pairs firmware_id t1 ++ existing_pairs firmware_id t2)%list.
Proof. unfold existing_pairs. by rewrite omap_app. Qed.

(** Rows of the firmware that belong to a blob and to no component. *)
Definition blob_row (firmware_id : Z) (v : vuln) : Prop :=
  v.(v_firmware_id) = firmware_id /\ v.(v_component_id) = None /\ is_Some v.(v_blob_id).

Lemma existing_pairs_rows (firmware_id : Z) (rows : list vuln) :
  Forall (blob_row firmware_id) rows -> existing_pairs firmware_id rows = key_of <$> rows.
Proof.
  induction 1 as [|row rows (H1 & _ & b & H3) _ IH]; [done|]. unfold existing_pairs in *. cbn. unfold key_of at 1. rewrite H1, Z.eqb_refl, H3. cbn.
  by rewrite IH.
Qed.

Lemma first_of_Forall (P : vuln -> Prop) (seen : list pair) (rows : list vuln) : Forall P rows -> Forall P (first_of seen rows).
Proof. intros H. revert seen. induction H as [|row rows Hr _ IH]; intros seen; cbn [first_of]; [constructor|]. case_bool_decide; [done|by constructor]. Qed.

Lemma kernel_rows_blob (bs : list HardwareFirmwareBlob) (firmware_id : Z) (cs : list component_row) (table : list vuln) :
  Forall (blob_row firmware_id) (_iter_kernel_cve_rows bs firmware_id cs table).
Proof.
  apply Forall_forall. intros row Hrow. unfold _iter_kernel_cve_rows in Hrow. apply list_elem_of_bind in Hrow as (v & Hrow & _).
  apply list_elem_of_fmap in Hrow as (b & -> & _). by split_and!.
Qed.

Lemma match_rows_blob (firmware_id : Z) (ms : list CveMatch) : Forall (blob_row firmware_id) (omap (to_row firmware_id) ms).
Proof.
  apply Forall_forall. intros row Hrow. apply list_elem_of_omap in Hrow as (m & _ & Hm). apply to_row_key in Hm as (_ & _ & H1 & H2 & H3).
  split_and!; [done|done|by rewrite H3].
Qed.

(** Rows of blobs do not add to what is mirrored. *)
Lemma kernel_rows_app (bs : list HardwareFirmwareBlob) (firmware_id : Z) (cs : list component_row) (table new : list vuln) :
  Forall (blob_row firmware_id) new ->
  _iter_kernel_cve_rows bs firmware_id cs (table ++ new)%list = _iter_kernel_cve_rows bs firmware_id cs table.
Proof.
  intros H. unfold _iter_kernel_cve_rows. rewrite List.filter_app.
  assert (E : List.filter (fun v => match v.(v_component_id) with
      | Some c => bool_decide (c ∈ c_id <$> List.filter (is_kernel_component firmware_id) cs) | None => false end) new = []).
  { induction H as [|row rows (_ & H2 & _) _ IH]; [done|]. cbn [List.filter]. by rewrite H2. }
  by rewrite E, app_nil_r.
Qed.

Definition candidate_rows (i : inputs) (firmware_id : Z) (table : list vuln) (ms : list CveMatch) : list vuln :=
  (_iter_kernel_cve_rows i.(blobs) firmware_id i.(components) table ++ omap (to_row firmware_id) ms)%list.

Lemma match_new_rows (i : inputs) (firmware_id : Z) (table table' : list vuln) (r : MatchResult) :
  match_firmware_cves i firmware_id false table = Ok (table', r) ->
  let new := first_of (existing_pairs firmware_id table) (candidate_rows i firmware_id table r.(matches)) in
  table' = (table ++ new)%list /\ r.(inserted) = zlen new /\
  Forall (fun m => match m.(m_cve_id) with
                   | JStr cve_id => (m.(m_blob_id), cve_id) ∈ existing_pairs firmware_id table' | _ => False end) r.(matches) /\
  exists tier3 tier5,
    collect (fun blob => _match_curated search blob i.(families)) i.(blobs) = Ok tier3 /\
    _match_kernel_subsystem Version vlt i.(client) i.(now) i.(blobs) = Ok tier5 /\
    r.(matches) = (_match_parser_detected i.(blobs) ++ tier3 ++ tier5)%list.
Proof.
  unfold match_firmware_cves. destruct i.(blobs) as [|b bs] eqn:Eb.
  { intros [= <- <-]. cbn [matches inserted]. unfold candidate_rows. rewrite Eb.
    replace (_iter_kernel_cve_rows [] firmware_id (components i) table) with (@nil vuln).
    - cbn. unfold zlen. cbn. rewrite app_nil_r. split_and!; [done|done|constructor|]. exists [], []. split_and!; [done| |done].
      unfold _match_kernel_subsystem. by destruct (is_populated _ _).
    - unfold _iter_kernel_cve_rows. cbn. set (l := List.filter _ table). clearbody l. by induction l. }
  rewrite <- Eb. clear b bs Eb. cbn zeta. remember (_flush_tier4_batch _) as s4 eqn:E4.
  rewrite res_bind_ok. intros (tier3 & E3 & H). apply res_bind_ok in H as (tier5 & E5 & H).
  apply res_bind_ok in H as (queued & Eq & H). destruct (mapM (to_row firmware_id) queued) as [rows|] eqn:Er; [|done]. injection H as <- <-.
  cbn [matches inserted].
  destruct (tier4_loop {| t4_table := table; t4_batch := []; t4_existing := existing_pairs firmware_id table; t4_total := 0;
      t4_inserted := 0; t4_distinct := ∅ |} (_iter_kernel_cve_rows (blobs i) firmware_id (components i) table)) as (H1 & H2 & _ & H4 & _).
  rewrite <- E4 in H1, H2, H4. rewrite H2 in Eq. destruct (persist_rows _ _ _ _ _ Eq Er) as [Hrows Hall]. rewrite H1, H4. clear H1 H2 H4 Eq Er.
  cbn [t4_table t4_batch t4_existing t4_inserted app]. unfold candidate_rows. rewrite first_of_app. cbn [t4_existing] in Hrows. rewrite <- Hrows.
  split_and!; [by rewrite app_assoc|unfold zlen; rewrite length_app; lia| |by exists tier3, tier5].
  eapply Forall_impl; [exact Hall|]. cbn beta. intros m Hm. destruct (m_cve_id m) as [| | | |s| |]; try done.
  rewrite !existing_pairs_app, (existing_pairs_rows _ (first_of _ _)) by apply first_of_Forall, kernel_rows_blob.
  rewrite (existing_pairs_rows _ rows) by (rewrite Hrows; apply first_of_Forall, match_rows_blob).
  cbn [t4_existing] in Hm. rewrite !elem_of_app, elem_of_reverse in *. tauto.
Qed.

(** A forced run stores everything again. *)
Lemma tier4_forced (s : tier4_state) (rows : list vuln) :
  let s' := _flush_tier4_batch (foldl (tier4_step true) s rows) in
  s'.(t4_table) = (s.(t4_table) ++ s.(t4_batch) ++ rows)%list /\ s'.(t4_inserted) = s.(t4_inserted) + zlen rows.
Proof.
  cbn zeta. revert s. induction rows as [|row rows IH]; intros s; cbn [foldl].
  { cbn. unfold zlen. cbn. split; [by rewrite app_nil_r|lia]. }
  destruct (IH (tier4_step true s row)) as [-> ->]. unfold tier4_step. rewrite andb_false_r. cbn [t4_table t4_batch t4_inserted].
  destruct (_TIER4_BATCH_SIZE <=? _)%nat; cbn [_flush_tier4_batch t4_table t4_batch t4_inserted];
    (unfold zlen; split; [by rewrite <- ?app_assoc|cbn [List.length]; lia]).
Qed.

Lemma persist_forced (firmware_id : Z) (existing : list pair) (ms queued : list CveMatch) (rows : list vuln) :
  persist_loop true existing ms = Ok queued -> mapM (to_row firmware_id) queued = Some rows -> rows = omap (to_row firmware_id) ms.
Proof.
  assert (H : forall q, persist_loop true existing ms = Ok q -> q = ms).
  { revert existing. induction ms as [|m ms IH]; intros existing q; cbn [persist_loop]; [by intros [= <-]|].
    destruct (m_cve_id m); try done; rewrite ?andb_false_r; rewrite res_bind_ok; intros (q' & Hq & [= <-]); f_equal; by eapply IH. }
  intros ->%H Hr. clear H. revert rows Hr. induction ms as [|m ms IH]; intros rows Hr; cbn in Hr; [by injection Hr as <-|].
  cbn [omap list_omap]. destruct (to_row firmware_id m) as [row|]; [|done]. cbn in Hr.
  destruct (mapM (to_row firmware_id) ms) as [rows'|]; [|done]. injection Hr as <-. f_equal. by apply IH.
Qed.

Definition all_tiers (i : inputs) (ms : list CveMatch) : Prop :=
  exists tier3 tier5,
    collect (fun blob => _match_curated search blob i.(families)) i.(blobs) = Ok tier3 /\
    _match_kernel_subsystem Version vlt i.(client) i.(now) i.(blobs) = Ok tier5 /\
    ms = (_match_parser_detected i.(blobs) ++ tier3 ++ tier5)%list.

Lemma match_forced_rows (i : inputs) (firmware_id : Z) (table table' : list vuln) (r : MatchResult) :
  match_firmware_cves i firmware_id true table = Ok (table', r) ->
  let new := candidate_rows i firmware_id table r.(matches) in
  table' = (table ++ new)%list /\ r.(inserted) = zlen new /\ all_tiers i r.(matches).
Proof.
  unfold match_firmware_cves, all_tiers, candidate_rows. destruct i.(blobs) as [|b bs] eqn:Eb.
  { intros [= <- <-]. cbn [matches inserted]. unfold _iter_kernel_cve_rows. cbn. set (l := List.filter _ table). clearbody l.
    replace (l ≫= fun _ : vuln => []) with (@nil vuln) by by induction l. cbn. rewrite app_nil_r. split_and!; [done|done|].
    exists [], []. split_and!; [done| |done]. unfold _match_kernel_subsystem. by destruct (is_populated _ _). }
  rewrite <- Eb. clear b bs Eb. cbn zeta. remember (_flush_tier4_batch _) as s4 eqn:E4.
  rewrite res_bind_ok. intros (tier3 & E3 & H). apply res_bind_ok in H as (tier5 & E5 & H).
  apply res_bind_ok in H as (queued & Eq & H). destruct (mapM (to_row firmware_id) queued) as [rows|] eqn:Er; [|done]. injection H as <- <-.
  cbn [matches inserted]. rewrite (persist_forced _ _ _ _ _ Eq Er).
  destruct (tier4_forced {| t4_table := table; t4_batch := []; t4_existing := existing_pairs firmware_id table; t4_total := 0;
      t4_inserted := 0; t4_distinct := ∅ |} (_iter_kernel_cve_rows (blobs i) firmware_id (components i) table)) as [H1 H2].
  rewrite <- E4 in H1, H2. rewrite H1, H2. cbn [t4_table t4_batch t4_inserted app].
  split_and!; [by rewrite <- app_assoc|unfold zlen; rewrite length_app; lia|by exists tier3, tier5].
Qed.

(** C17. What a run of the matcher stores.  Its candidates are the kernel's CVEs mirrored onto
    the modules and then the matches of the other tiers in order: parsers, curated families,
    kernel index.  A forced run adds a row for every candidate, also for pairs of blob and CVE
    that have one.  Any other run adds the first candidate of each pair that has no row yet, so
    a mirrored row of low confidence takes the place of any better match for the same pair.
    The batches of the kernel tier change nothing. *)
Theorem matcher_spec (i : inputs) (firmware_id : Z) (force_rescan : bool) (table table' : list vuln) (r : MatchResult) :
  match_firmware_cves i firmware_id force_rescan table = Ok (table', r) ->
  let candidates := candidate_rows i firmware_id table r.(matches) in
  let new := if force_rescan then candidates else first_of (existing_pairs firmware_id table) candidates in
  table' = (table ++ new)%list /\ r.(inserted) = zlen new /\ all_tiers i r.(matches).
Proof.
  destruct force_rescan; [apply match_forced_rows|]. intros H. destruct (match_new_rows _ _ _ _ _ H) as (H1 & H2 & _ & H3). by split.
Qed.

Lemma match_pairs (i : inputs) (firmware_id : Z) (table table' : list vuln) (r : MatchResult) :
  match_firmware_cves i firmware_id false table = Ok (table', r) ->
  let new := first_of (existing_pairs firmware_id table) (candidate_rows i firmware_id table r.(matches)) in
  Forall (blob_row firmware_id) new /\
  existing_pairs firmware_id table' = (existing_pairs firmware_id table ++ (key_of <$> new))%list.
Proof.
  intros H. destruct (match_new_rows _ _ _ _ _ H) as (-> & _). cbn zeta.
  assert (Hf : Forall (blob_row firmware_id) (candidate_rows i firmware_id table (matches r))).
  { apply Forall_app. split; [apply kernel_rows_blob|apply match_rows_blob]. }
  split; [by apply first_of_Forall|]. rewrite existing_pairs_app. by rewrite (existing_pairs_rows _ (first_of _ _)) by by apply first_of_Forall.
Qed.

(** C18. Matching without a forced rescan is idempotent.  If the firmware has one row for each
    pair of blob and CVE, it has so after a run; every match of the run and every mirrored
    CVE of the kernel has its row; and a second run with the same inputs returns the same
    matches and stores nothing. *)
Theorem rescan_idempotent (i : inputs) (firmware_id : Z) (table table' : list vuln) (r : MatchResult) :
  match_firmware_cves i firmware_id false table = Ok (table', r) -> NoDup (existing_pairs firmware_id table) ->
  NoDup (existing_pairs firmware_id table') /\
  (forall row, row ∈ _iter_kernel_cve_rows i.(blobs) firmware_id i.(components) table -> key_of row ∈ existing_pairs firmware_id table') /\
  Forall (fun m => exists cve_id, m.(m_cve_id) = JStr cve_id /\ (m.(m_blob_id), cve_id) ∈ existing_pairs firmware_id table') r.(matches) /\
  exists r2, match_firmware_cves i firmware_id false table' = Ok (table', r2) /\ r2.(matches) = r.(matches) /\ r2.(inserted) = 0.
Proof.
  intros Hok Hn. destruct (match_new_rows _ _ _ _ _ Hok) as (Ht & _ & Hall & tier3 & tier5 & E3 & E5 & Em).
  destruct (match_pairs _ _ _ _ _ Hok) as [Hb Ep].
  set (new := first_of (existing_pairs firmware_id table) (candidate_rows i firmware_id table (matches r))) in *.
  destruct (first_of_spec (existing_pairs firmware_id table) (candidate_rows i firmware_id table (matches r))) as (F1 & F2 & F3).
  fold new in F1, F2, F3.
  assert (Hcand : forall k, k ∈ key_of <$> candidate_rows i firmware_id table (matches r) -> k ∈ existing_pairs firmware_id table').
  { intros k Hk. rewrite Ep, elem_of_app. by apply F3. }
  assert (Hkern : forall row, row ∈ _iter_kernel_cve_rows i.(blobs) firmware_id i.(components) table -> key_of row ∈ existing_pairs firmware_id table').
  { intros row Hrow. apply Hcand. unfold candidate_rows. rewrite fmap_app, elem_of_app. left. by apply list_elem_of_fmap_2. }
  split_and!; [rewrite Ep; apply NoDup_app; split_and!; [done|by intros k Hk Hk2%F2|done]|done| |].
  { eapply Forall_impl; [exact Hall|]. cbn beta. intros m Hm. destruct (m_cve_id m) as [| | | |s| |]; try done. by exists s. }
  unfold match_firmware_cves. destruct (blobs i) as [|b bs] eqn:Eb.
  { eexists. split_and!; [done| |done]. cbn [matches]. rewrite Em. cbn in E3. injection E3 as <-.
    unfold _match_kernel_subsystem in E5. destruct (is_populated _ _); by injection E5 as <-. }
  rewrite <- Eb in *. clear b bs Eb. rewrite E3. cbn [mbind res_bind]. rewrite E5. cbn [mbind res_bind].
  destruct (tier4_loop {| t4_table := table'; t4_batch := []; t4_existing := existing_pairs firmware_id table'; t4_total := 0;
      t4_inserted := 0; t4_distinct := ∅ |} (_iter_kernel_cve_rows (blobs i) firmware_id (components i) table')) as (H1 & H2 & _ & H4 & _).
  assert (Ek : _iter_kernel_cve_rows (blobs i) firmware_id (components i) table' = _iter_kernel_cve_rows (blobs i) firmware_id (components i) table).
  { rewrite Ht. by apply kernel_rows_app. }
  assert (En : first_of (existing_pairs firmware_id table') (_iter_kernel_cve_rows (blobs i) firmware_id (components i) table') = []).
  { apply first_of_none. rewrite Ek. intros k Hk. apply list_elem_of_fmap in Hk as (row & -> & Hrow). by apply Hkern. }
  cbn [t4_existing t4_table t4_batch t4_inserted] in H1, H2, H4. rewrite En in H1, H2, H4. rewrite H1, H2, H4. cbn [fmap list_fmap reverse rev_append app].
  rewrite <- Em.
  assert (Eq : persist_loop false (existing_pairs firmware_id table') (matches r) = Ok []).
  { clear -Hall. induction Hall as [|m ms Hm _ IH]; [done|]. cbn [persist_loop]. destruct (m_cve_id m) as [| | | |s| |]; try done.
    by rewrite bool_decide_eq_true_2. }
  rewrite Eq. cbn. eexists. split_and!; [by rewrite !app_nil_r|done|done].
Qed.
End Match.

(** ** The curated tier *)

(** The entries of the file that are kept. *)
Definition kept_family (entry : json) : option pydict :=
  match entry with
  | JDict fam => if negb (py_truthy (fget fam "cves")) || has_narrowing fam then Some fam else None
  | _ => None
  end.

Lemma families_loaded (entries : list json) (raw : pydict) :
  fget_or raw "families" (JList []) = JList entries -> _parse_known_firmware_data raw = Ok (omap kept_family entries).
Proof.
  intros H. unfold _parse_known_firmware_data, load_families. rewrite H. cbn [mbind res_bind]. f_equal.
  assert (Hf : forall st, (foldl family_step st entries).(accepted) = (st.(accepted) ++ omap kept_family entries)%list).
  { clear H. induction entries as [|e entries IH]; intros st; cbn [foldl omap list_omap]; [by rewrite app_nil_r|]. rewrite IH.
    destruct e as [| | | | | |fam]; try done. cbn [family_step kept_family]. destruct (py_truthy (fget fam "cves")); cbn [negb orb].
    - destruct (has_narrowing fam); cbn [negb accepted]; [by rewrite <- app_assoc|done].
    - unfold advisory_step. destruct (negb _); [cbn [accepted]; by rewrite <- app_assoc|].
      destruct (fget fam "advisory_id"); cbn [accepted]; by rewrite <- app_assoc. }
  by rewrite Hf.
Qed.

Lemma collect_elem {A B} (f : A -> res exc (list B)) (l : list A) (bs : list B) (y : B) :
  collect f l = Ok bs -> y ∈ bs -> exists x ys, x ∈ l /\ f x = Ok ys /\ y ∈ ys.
Proof.
  revert bs. induction l as [|x l IH]; intros bs; cbn [collect]; [intros [= <-] ?%not_elem_of_nil; done|].
  rewrite res_bind_ok. intros (ys & Ex & H). apply res_bind_ok in H as (zs & El & [= <-]). intros [Hy|Hy]%elem_of_app.
  - exists x, ys. split_and!; [by left|done|done].
  - destruct (IH _ El Hy) as (x' & ys' & Hx & Hf & Hin). exists x', ys'. split_and!; [by right|done|done].
Qed.

Section Evidence.
Context (search : string -> string -> option bool).

Definition hits (pattern : json) (text : string) : Prop := exists p, pattern = JStr p /\ search p text = Some true.

Lemma re_search_hits (pattern : json) (text : string) : re_search search pattern text = Ok true -> hits pattern text.
Proof. destruct pattern as [| | | |p| |]; try done. cbn. destruct (search p text) as [b|] eqn:E; [|done]. intros [= ->]. by exists p. Qed.

Lemma any_search_hits (pattern : json) (texts : list string) :
  any_search search pattern texts = Ok true -> exists text, text ∈ texts /\ hits pattern text.
Proof.
  induction texts as [|t texts IH]; [done|]. cbn [any_search]. rewrite res_bind_ok. intros ([|] & E & H).
  - exists t. split; [by left|by apply re_search_hits].
  - destruct (IH H) as (t' & Hin & Ht). exists t'. split; [by right|done].
Qed.

Definition is_low (blob : HardwareFirmwareBlob) : bool :=
  bool_decide (lower (if truthy blob.(detection_confidence) then text_or_empty blob.(detection_confidence) else "medium") = "low").

(** The evidence that a family asks for and a blob has. *)
Definition chipset_evidence (fam : pydict) (blob : HardwareFirmwareBlob) (confidence : json) : Prop :=
  let pattern := fget fam "chipset_regex" in
  py_truthy pattern = false \/ hits pattern (text_or_empty blob.(chipset_target)) \/
  (text_or_empty blob.(chipset_target) = "" /\ py_truthy (fget_or fam "strict_chipset" (JBool false)) = false /\
   confidence = or_default fam "confidence" (JStr "medium")).
Definition version_evidence (fam : pydict) (blob : HardwareFirmwareBlob) : Prop :=
  let pattern := fget fam "version_regex" in
  py_truthy pattern = false \/ hits pattern (text_or_empty blob.(version)) \/
  exists text, text ∈ _stringify_metadata (blob_metadata blob) /\ hits pattern text.
Definition config_evidence (fam : pydict) (blob : HardwareFirmwareBlob) : Prop :=
  py_truthy (fget fam "config_required") = false \/
  exists required kernel_config, fget fam "config_required" = JDict required /\ fget (blob_metadata blob) "kernel_config" = JDict kernel_config /\
    Forall (fun r : string * json => json_eqb (unquoted (fget kernel_config r.1)) r.2 = true) required.
Definition vendor_evidence (fam : pydict) (blob : HardwareFirmwareBlob) : Prop :=
  let v := lower (text_or_empty blob.(vendor)) in
  (py_truthy (fget fam "vendor_regex") = true /\ v <> "" /\ hits (fget fam "vendor_regex") v) \/
  exists s, fget_or fam "vendor" (JStr "") = JStr s /\ lower s = v.

Lemma version_gate_evidence (fam : pydict) (blob : HardwareFirmwareBlob) :
  version_gate search fam (text_or_empty blob.(version)) (_stringify_metadata (blob_metadata blob)) = Ok true -> version_evidence fam blob.
Proof.
  unfold version_gate, version_evidence. destruct (py_truthy (fget fam "version_regex")); cbn [negb]; [|by left].
  intros (t & Hin & Ht)%any_search_hits. right. destruct (truthy _); [|right; by exists t].
  apply elem_of_cons in Hin as [->|Hin]; [by left|]. right. by exists t.
Qed.

Lemma chipset_gate_evidence (fam : pydict) (blob : HardwareFirmwareBlob) (soft : bool) :
  chipset_gate search fam (text_or_empty blob.(chipset_target)) = Ok (Some soft) ->
  chipset_evidence fam blob (or_default fam "confidence" (JStr (if soft then "medium" else "high"))).
Proof.
  unfold chipset_gate, chipset_evidence. destruct (py_truthy (fget fam "chipset_regex")); cbn [negb]; [|by left].
  destruct (truthy (Some (text_or_empty (chipset_target blob)))) eqn:Et; cbn [negb].
  - rewrite res_bind_ok. intros ([|] & E & [= <-]). right. left. by apply re_search_hits.
  - destruct (py_truthy (fget_or fam "strict_chipset" _)) eqn:Es; [done|]. intros [= <-]. right. right.
    split_and!; [|done|done]. by destruct (text_or_empty (chipset_target blob)).
Qed.

Lemma config_gate_evidence (fam : pydict) (blob : HardwareFirmwareBlob) : config_gate fam (blob_metadata blob) = true -> config_evidence fam blob.
Proof.
  unfold config_gate, config_evidence. destruct (py_truthy (fget fam "config_required")); cbn [negb]; [|by left]. right.
  destruct (fget fam "config_required") as [| | | | | |required]; try done.
  destruct (fget (blob_metadata blob) "kernel_config") as [| | | | | |kc]; try done. exists required, kc. split_and!; [done|done|].
  apply Forall_forall. intros r Hr. rewrite forallb_forall in H. by apply H, list_elem_of_In.
Qed.

Lemma vendor_matches_evidence (fam : pydict) (blob : HardwareFirmwareBlob) :
  vendor_matches search fam (lower (text_or_empty blob.(vendor))) = Ok true -> vendor_evidence fam blob.
Proof.
  unfold vendor_matches, vendor_evidence. destruct (py_truthy (fget fam "vendor_regex")).
  - destruct (truthy _) eqn:Et; [|done]. intros H%re_search_hits. left. split_and!; [done| |done]. by intros E; rewrite E in Et.
  - rewrite res_bind_ok. intros (s & Es & [= E%bool_decide_eq_true]). right. exists s. split; [|done].
    destruct (fget_or fam "vendor" (JStr "")); try done. by injection Es as ->.
Qed.

(** C19. A curated match has its evidence.  It comes from a family of the loaded file, for a
    blob that was not detected with low confidence, whose vendor the family names; a pattern
    for the version is found in the version or the metadata; a required kernel option has the
    required value in the configuration read from the blob; and a pattern for the chipset is
    found, or the blob names no chipset, the family is not strict, and the match says medium
    unless the family fixes another confidence. *)
Theorem curated_evidence (raw : pydict) (entries : list json) (fams : list pydict) (blob : HardwareFirmwareBlob) (ms : list CveMatch) (m : CveMatch) :
  fget_or raw "families" (JList []) = JList entries -> _parse_known_firmware_data raw = Ok fams ->
  _match_curated search blob fams = Ok ms -> m ∈ ms ->
  is_low blob = false /\ m.(m_blob_id) = blob.(b_id) /\
  exists fam, JDict fam ∈ entries /\ (py_truthy (fget fam "cves") = true -> has_narrowing fam = true) /\
    vendor_evidence fam blob /\ version_evidence fam blob /\ config_evidence fam blob /\ chipset_evidence fam blob m.(m_confidence).
Proof.
  intros Hraw Hload Hm Hin. rewrite (families_loaded _ _ Hraw) in Hload. injection Hload as <-. unfold _match_curated in Hm. fold (is_low blob) in Hm.
  destruct (is_low blob); [by injection Hm as <-; apply not_elem_of_nil in Hin|]. split; [done|].
  destruct (collect_elem _ _ _ _ Hm Hin) as (fam & fms & Hfam & Hf & Hmf). apply list_elem_of_omap in Hfam as (e & He & Hkept).
  unfold match_family in Hf. apply res_bind_ok in Hf as ([|] & Ev & Hf); [|by injection Hf as <-; apply not_elem_of_nil in Hmf]. cbn [negb] in Hf.
  apply res_bind_ok in Hf as ([|] & Ec & Hf); [|by injection Hf as <-; apply not_elem_of_nil in Hmf]. cbn [negb] in Hf.
  apply res_bind_ok in Hf as ([soft|] & Ech & Hf); [|by injection Hf as <-; apply not_elem_of_nil in Hmf].
  apply res_bind_ok in Hf as ([|] & Eve & Hf); [|by injection Hf as <-; apply not_elem_of_nil in Hmf]. cbn [negb] in Hf.
  destruct (config_gate fam (blob_metadata blob)) eqn:Ecf; [|by injection Hf as <-; apply not_elem_of_nil in Hmf].
  assert (Hmatch : exists desc cve_id, m = family_match blob fam soft desc cve_id).
  { unfold family_matches in Hf. apply res_bind_ok in Hf as (notes & _ & Hf). destruct (negb _).
    - apply res_bind_ok in Hf as (id & _ & [= <-]). apply list_elem_of_singleton in Hmf. by eexists _, _.
    - apply res_bind_ok in Hf as (cves & _ & [= <-]). apply list_elem_of_fmap in Hmf as (c & -> & _). by eexists _, _. }
  destruct Hmatch as (desc & cve_id & ->). split; [done|]. exists fam.
  assert (He' : e = JDict fam /\ (py_truthy (fget fam "cves") = true -> has_narrowing fam = true)).
  { destruct e as [| | | | | |d]; try done. cbn in Hkept. destruct (negb _ || _) eqn:E; [|done]. injection Hkept as ->. split; [done|].
    intros Hc. by rewrite Hc in E. }
  destruct He' as [-> Hnarrow].
  split_and!; [done|done|by apply vendor_matches_evidence|by apply version_gate_evidence|by apply config_gate_evidence|].
  by apply chipset_gate_evidence.
Qed.
End Evidence.

(** C23. One loaded family stops the matcher.  Take a family among those the load accepted - it
    has no CVEs, or a narrowing field - that has no pattern for vendors and whose vendor is not
    text, such as a key that was left empty.  Then every run for a firmware with a blob that
    was not detected with low confidence raises, and none of its CVEs of any tier is stored. *)
Theorem one_family_stops (search : string -> string -> option bool) {V : Type} (Version : string -> option V) (vlt : V -> V -> bool)
    (numeric : json -> option json) (fam : pydict) (blob : HardwareFirmwareBlob) (i : inputs) (firmware_id : Z) (force_rescan : bool)
    (table : list vuln) :
  fam ∈ i.(families) -> blob ∈ i.(blobs) -> is_low blob = false -> py_truthy (fget fam "vendor_regex") = false ->
  is_str (fget_or fam "vendor" (JStr "")) = false ->
  exists e, match_firmware_cves search Version vlt numeric i firmware_id force_rescan table = Err e.
Proof.
  intros Hfam Hblob Hlow Hre Hv.
  assert (Hf : match_family search blob fam = Err AttributeError).
  { unfold match_family, vendor_matches. rewrite Hre. by destruct (fget_or fam "vendor" (JStr "")). }
  assert (Hc : exists e, _match_curated search blob i.(families) = Err e).
  { unfold _match_curated. fold (is_low blob). rewrite Hlow. by eapply collect_err. }
  destruct Hc as [e He]. destruct (collect_err (fun blob => _match_curated search blob i.(families)) _ _ _ Hblob He) as [e' E].
  unfold match_firmware_cves. destruct (blobs i) as [|b bs] eqn:Eb; [by apply not_elem_of_nil in Hblob|]. rewrite <- Eb in *. rewrite E. by exists e'.
Qed.

(** ** The matcher on concrete rows *)

(** Patterns that are taken literally, and scores as they are. *)
Definition literally (pattern text : string) : option bool := Some (contains pattern text).

Definition bluetooth_ko : HardwareFirmwareBlob :=
  {| b_id := 1; blob_path := "/vendor/lib/modules/bluetooth.ko"; category := "kernel_module"; vendor := None; version := None;
     chipset_target := None; metadata_ := JDict [("kernel_semver", JStr "6.6.102")]; detection_confidence := Some "high" |}.
Definition wifi_fw : HardwareFirmwareBlob :=
  {| b_id := 2; blob_path := "/vendor/firmware/wlan.bin"; category := "wifi"; vendor := Some "Broadcom"; version := Some "7.35";
     chipset_target := None; metadata_ := JNull; detection_confidence := None |}.

(** An empty pattern for the chipset passes the gate of the loading. *)
Definition open_family : pydict :=
  [("name", JStr "open"); ("vendor", JStr "broadcom"); ("category", JStr "wifi"); ("chipset_regex", JStr ""); ("cves", JList [JStr "CVE-2017-9417"])].
Definition scalar_family : pydict :=
  [("vendor", JStr "broadcom"); ("category", JStr "wifi"); ("version_regex", JStr "7."); ("cves", JStr "CVE-2")].
Definition null_family : pydict := [("vendor", JNull); ("category", JStr "modem"); ("version_regex", JStr "1"); ("cves", JList [JStr "CVE-2020-1"])].
Definition curated_file (fams : list pydict) : pydict := [("families", JList (JDict <$> fams))].

Definition kernel_component : component_row :=
  {| c_id := 7; c_firmware_id := 10; c_name := "Linux-Kernel"; c_type := "operating-system"; c_detection_source := "kernel_vermagic" |}.
Definition grype_row : vuln :=
  {| v_component_id := Some 7; v_firmware_id := 10; v_blob_id := None; v_cve_id := "CVE-2025-1"; v_severity := "high"; v_cvss_score := JNull;
     v_description := None; v_match_confidence := None; v_match_tier := None; v_resolution_status := "open" |}.

Definition demo_inputs (fams : list pydict) : inputs :=
  {| blobs := [bluetooth_ko; wifi_fw]; components := [kernel_component];
     families := match _parse_known_firmware_data (curated_file fams) with Ok l => l | Err _ => [] end;
     client := synced [Loaded uaf]; now := 60 |}.
Definition demo_match (fams : list pydict) (force : bool) (table : list vuln) : res exc (list vuln * MatchResult) :=
  match_firmware_cves literally dotted_version parts_lt Some (demo_inputs fams) 10 force table.
Definition demo_result (fams : list pydict) : list vuln * MatchResult :=
  match demo_match fams false [grype_row] with
  | Ok p => p
  | Err _ => ([], {| matches := []; tier4_rows := 0; tier4_inserted := 0; tier4_distinct_cves := ∅; inserted := 0 |})
  end.

Definition summary (v : vuln) : option Z * string * option string * option string := (v.(v_blob_id), v.(v_cve_id), v.(v_match_tier), v.(v_match_confidence)).

Lemma demo_runs : demo_match [open_family] false [grype_row] = Ok (demo_result [open_family]).
Proof. by vm_compute. Qed.

Lemma demo_splits : demo_result [open_family] = ((demo_result [open_family]).1, (demo_result [open_family]).2).
Proof. by destruct (demo_result [open_family]). Qed.

(** The kernel index reports CVE-2025-1 for the module with high confidence; what is stored is
    the mirrored row of low confidence. *)
Lemma matcher_spec_witness :
  (fun m => (m.(m_cve_id), m.(m_tier), m.(m_confidence))) <$> (demo_result [open_family]).2.(matches) =
    (JStr "CVE-2017-9417", "curated_yaml", JStr "high") :: replicate 4 (JStr "CVE-2025-1", "kernel_subsystem", JStr "high") /\
  summary <$> (demo_result [open_family]).1 =
    [(None, "CVE-2025-1", None, None); (Some 1, "CVE-2025-1", Some "kernel_cpe", Some "low");
     (Some 2, "CVE-2017-9417", Some "curated_yaml", Some "high")] /\
  (demo_result [open_family]).1 =
    (grype_row :: first_of [] (candidate_rows Some (demo_inputs [open_family]) 10 [grype_row] (demo_result [open_family]).2.(matches))).
Proof.
  split; [by vm_compute|]. split; [by vm_compute|].
  destruct (matcher_spec literally dotted_version parts_lt Some (demo_inputs [open_family]) 10 false [grype_row] (demo_result [open_family]).1
    (demo_result [open_family]).2) as [H _]; [rewrite <- demo_splits; exact demo_runs|exact H].
Defined.

Lemma rescan_idempotent_witness :
  exists r2, demo_match [open_family] false (demo_result [open_family]).1 = Ok ((demo_result [open_family]).1, r2) /\ r2.(inserted) = 0.
Proof.
  destruct (rescan_idempotent literally dotted_version parts_lt Some (demo_inputs [open_family]) 10 [grype_row] (demo_result [open_family]).1
    (demo_result [open_family]).2) as (_ & _ & _ & r2 & H1 & _ & H2).
  - rewrite <- demo_splits. exact demo_runs.
  - apply NoDup_nil_2.
  - exists r2. split; [exact H1|exact H2].
Defined.

(** A forced rescan stores the four matches of the module again, beside the mirrored row. *)
Example forced_ex :
  match demo_match [open_family] true (demo_result [open_family]).1 with
  | Ok (table, r) => List.length table = 9%nat /\ r.(inserted) = 6
  | Err _ => False
  end.
Proof. by vm_compute. Qed.

(** CVEs given as one text are taken character by character. *)
Example scalar_ex :
  match _match_curated literally wifi_fw (demo_inputs [scalar_family]).(families) with
  | Ok ms => m_cve_id <$> ms = JStr <$> ["C"; "V"; "E"; "-"; "2"]
  | Err _ => False
  end.
Proof. by vm_compute. Qed.

Lemma curated_evidence_witness :
  exists m, _match_curated literally wifi_fw (demo_inputs [open_family]).(families) = Ok [m] /\
    m.(m_confidence) = JStr "high" /\ m.(m_blob_id) = 2.
Proof.
  eexists. split; [reflexivity|]. split; [reflexivity|].
  refine (proj1 (proj2 (curated_evidence literally (curated_file [open_family]) [JDict open_family] (demo_inputs [open_family]).(families) wifi_fw _ _
    eq_refl eq_refl eq_refl _))). by left.
Defined.

Lemma one_family_stops_witness : exists e, demo_match [open_family; null_family] false [grype_row] = Err e.
Proof.
  apply (one_family_stops literally dotted_version parts_lt Some null_family wifi_fw (demo_inputs [open_family; null_family]) 10 false [grype_row]).
  - right. by left.
  - right. by left.
  - reflexivity.
  - reflexivity.
  - reflexivity.
Defined.

(** Module names: two of the anchors lead to no directory, and a hyphen is not an underscore. *)
Example kmod_ex :
  dict_get (_kmod_basename "/lib/modules/mali_kbase_mt6771_r49p0.ko") _KMOD_TO_SUBSYSTEM = Some "drivers/gpu/arm/" /\
  dict_get (_kmod_basename "/lib/modules/rtw88_usb.ko") _KMOD_TO_SUBSYSTEM = None /\
  dict_get (_kmod_basename "/lib/modules/snd-usb-audio.ko") _KMOD_TO_SUBSYSTEM = None /\
  dict_get (_kmod_basename "/lib/modules/bluetooth.ko.zst") _KMOD_TO_SUBSYSTEM = None.
Proof. by vm_compute. Qed.

(** The identifier of an advisory fits its column. *)
Lemma advisory_fits (fam : pydict) (id : string) : advisory_cve_id fam = Ok id -> py_len id <= 20.
Proof.
  assert (H : forall s, py_len (take_chars 20 s) <= 20) by (intros s; apply (py_len_take_chars 20)).
  assert (E : forall s t : string, Ok (E := exc) s = Ok t -> s = t) by by intros ? ? [= ->].
  unfold advisory_cve_id. destruct (py_truthy _); [by intros <-%E|].
  rewrite res_bind_ok. intros (name & _ & Hn). apply E in Hn as <-. apply H.
Qed.
