(* ===== verification/CveRun.v ===== *)
(** * Runs of the CVE matcher ([routers/hardware_firmware.py], [routers/sbom.py])

    The request that starts a run, its background runner, and the run that follows a finished
    component scan, each as a function on the firmware row and the table of vulnerabilities.
    The findings made from the rows afterwards are not modelled; what matters of them is
    whether their session can still be used. *)

From S2P Require Import Prelude PyText Json FirmwareModel Reaper KernelVulns CveMatcher.
From Stdlib Require Import Ascii String.
Import (notations) Ascii String.
#[local] Open Scope Z_scope.

Definition STATUS : string := "cve_match_status".
Definition STARTED : string := "cve_match_started_at".
Definition FINISHED : string := "cve_match_finished_at".
Definition ERROR : string := "cve_match_error".
Definition RESULT : string := "cve_match_result".

(** ** The result of a run *)

Definition _KERNEL_TIERS : list string := ["kernel_cpe"; "kernel_subsystem"].

Definition cve_set (ms : list CveMatch) : gset string :=
  list_to_set (omap (fun m => match m.(m_cve_id) with JStr s => Some s | _ => None end) ms).

Definition _aggregate_match_result (result : MatchResult) : pydict :=
  let tier5_kernel := List.filter (fun m => bool_decide (m.(m_tier) = "kernel_subsystem")) result.(matches) in
  let hwfw_matches := List.filter (fun m => negb (bool_decide (m.(m_tier) ∈ _KERNEL_TIERS))) result.(matches) in
  let hwfw_cves := cve_set hwfw_matches in
  let kernel_distinct := result.(tier4_distinct_cves) ∪ cve_set tier5_kernel in
  [("count", JInt (Z.of_nat (size (hwfw_cves ∪ kernel_distinct))));
   ("rows", JInt (zlen hwfw_matches + zlen tier5_kernel + result.(tier4_rows)));
   ("hw_firmware_cves", JInt (Z.of_nat (size hwfw_cves)));
   ("kernel_cves", JInt (Z.of_nat (size kernel_distinct)));
   ("kernel_module_rows", JInt (zlen tier5_kernel + result.(tier4_rows)))].

(** ** Requests *)

(** What happens to one run: its clock, whether the commit of [queued], the commit of
    [running], that of the rows, the last one, and the session that records a failure go
    through, whether the session survives the making of findings, and the text of a failure. *)
Record run_env := {
  begins : Z; ends : Z; queue_ok : bool; begin_ok : bool; commit_ok : bool; session_ok : bool; end_ok : bool; fail_ok : bool;
  traceback : string
}.

Section Runs.
(** [match_firmware_cves] for the firmware, and the number of its blobs. *)
Context (matcher : bool -> list vuln -> res exc (list vuln * MatchResult)) (blob_count : Z).

Abbreviation state := (option row * list vuln)%type.

Definition in_flight (r : row) : bool := text_in (field r STATUS) ["queued"; "running"].

Definition failed (e : run_env) (r : row) : row :=
  if e.(fail_ok) then set_columns r [(STATUS, CText "failed"); (FINISHED, CTime e.(ends)); (ERROR, CText (last_chars 2000 e.(traceback)))]
  else r.

Definition _run_cve_match_background (e : run_env) (force_rescan : bool) (s : state) : state :=
  match s.1 with
  | None => s
  | Some r =>
      if negb e.(begin_ok) then (Some (failed e r), s.2)
      else
        let running := set_columns r [(STATUS, CText "running"); (STARTED, CTime e.(begins)); (ERROR, CNull); (RESULT, CNull)] in
        match matcher force_rescan s.2 with
        | Err _ => (Some (failed e running), s.2)
        | Ok (table, result) =>
            if negb e.(commit_ok) then (Some (failed e running), s.2)
            else if e.(session_ok) && e.(end_ok) then
              (Some (set_columns running [(STATUS, CText "completed"); (FINISHED, CTime e.(ends));
                                          (RESULT, CJson (JDict (_aggregate_match_result result))); (ERROR, CNull)]), table)
            else (Some (failed e running), table)
        end
  end.

(** The request, and the run it starts: [true] when it is refused with 409. *)
Definition run_cve_match (e : run_env) (force_rescan : bool) (s : state) : state * bool :=
  match s.1 with
  | None => (s, false)
  | Some r =>
      if in_flight r then (s, true)
      else if negb e.(queue_ok) then (s, false)
      else
        let queued := set_columns r [(STATUS, CText "queued"); (STARTED, CNull); (FINISHED, CNull); (ERROR, CNull); (RESULT, CNull)] in
        (_run_cve_match_background e force_rescan (Some queued, s.2), false)
  end.

Definition _auto_cve_match (e : run_env) (s : state) : state :=
  match s.1 with
  | None => s
  | Some r =>
      if in_flight r || (blob_count =? 0) || negb e.(queue_ok) then s
      else
        let queued := set_columns r [(STATUS, CText "queued")] in
        if negb e.(begin_ok) then (Some queued, s.2)
        else
          let running := set_columns queued [(STATUS, CText "running"); (STARTED, CTime e.(begins))] in
          match matcher false s.2 with
          | Err _ => (Some running, s.2)
          | Ok (table, _) =>
              if negb e.(commit_ok) then (Some running, s.2)
              else if e.(session_ok) && e.(end_ok)
              then (Some (set_columns running [(STATUS, CText "completed"); (FINISHED, CTime e.(ends))]), table)
              else (Some running, table)
          end
  end.

Inductive request := Manual (e : run_env) (force_rescan : bool) | Auto (e : run_env).

Definition do_request (s : state) (q : request) : state :=
  match q with
  | Manual e force_rescan => (run_cve_match e force_rescan s).1
  | Auto e => _auto_cve_match e s
  end.

(** ** How they end *)

Lemma in_flight_stays (r : row) (table : list vuln) (qs : list request) :
  in_flight r = true -> foldl do_request (Some r, table) qs = (Some r, table).
Proof.
  intros H. induction qs as [|q qs IH]; [done|]. cbn [foldl].
  assert (E : do_request (Some r, table) q = (Some r, table)).
  { destruct q as [e force|e]; cbn [do_request]; [unfold run_cve_match|unfold _auto_cve_match]; cbn [fst]; by rewrite H. }
  by rewrite E.
Qed.

(** C22. A requested run ends, a run that follows a scan may not.  From a row that no run holds,
    a request whose session can record a failure leaves completed or failed, and failed with
    no rows when the matcher raises.  The run after a component scan that meets the same
    exception leaves running for ever: every later request is refused, every later automatic
    run returns at once, and nothing is stored, until the back end restarts. *)
Theorem auto_match_sticks (r : row) (table : list vuln) (e : run_env) (force_rescan : bool) :
  in_flight r = false -> e.(queue_ok) = true ->
  (e.(fail_ok) = true ->
    exists r', (run_cve_match e force_rescan (Some r, table)).1.1 = Some r' /\ text_in (field r' STATUS) ["completed"; "failed"] = true) /\
  (e.(fail_ok) = true -> forall x, matcher force_rescan table = Err x ->
    exists r', run_cve_match e force_rescan (Some r, table) = ((Some r', table), false) /\ field r' STATUS = CText "failed") /\
  (blob_count <> 0 -> e.(begin_ok) = true -> forall x, matcher false table = Err x ->
    exists r', field r' STATUS = CText "running" /\
      forall qs, foldl do_request (Some r, table) (Auto e :: qs) = (Some r', table) /\
        forall e' force', run_cve_match e' force' (foldl do_request (Some r, table) (Auto e :: qs)) = ((Some r', table), true)).
Proof.
  intros Hr Hq.
  assert (Hf : forall r1, e.(fail_ok) = true -> field (failed e r1) STATUS = CText "failed") 
    by (intros r1 H; unfold failed, set_columns; rewrite H; cbn [foldl fst snd]; by row_simpl).
  split_and!.
  - intros Hfail. unfold run_cve_match. cbn [fst]. rewrite Hr, Hq. cbn [negb fst]. unfold _run_cve_match_background. cbn [fst].
    destruct (begin_ok e); cbn [negb]; [|eexists; split; [done|by rewrite Hf]].
    destruct (matcher _ _) as [[t m]|x]; [|eexists; split; [done|by rewrite Hf]].
    destruct (commit_ok e); cbn [negb]; [|eexists; split; [done|by rewrite Hf]].
    destruct (_ && _); (eexists; split; [done|]); [|by rewrite Hf].
    unfold set_columns. cbn [foldl fst snd]. by row_simpl.
  - intros Hfail x Hx. unfold run_cve_match. cbn [fst]. rewrite Hr, Hq. cbn [negb fst]. unfold _run_cve_match_background. cbn [fst snd].
    rewrite Hx. destruct (begin_ok e); cbn [negb]; (eexists; split; [done|by rewrite Hf]).
  - intros Hb Hbegin x Hx.
    set (r' := set_columns (set_columns r [(STATUS, CText "queued")]) [(STATUS, CText "running"); (STARTED, CTime e.(begins))]).
    assert (Hr' : field r' STATUS = CText "running").
    { unfold r', set_columns. cbn [foldl fst snd]. rewrite field_insert_ne by done. by rewrite field_insert_eq. }
    assert (Hfl : in_flight r' = true) by (unfold in_flight; by rewrite Hr').
    assert (Hauto : do_request (Some r, table) (Auto e) = (Some r', table)).
    { cbn [do_request]. unfold _auto_cve_match. cbn [fst snd]. rewrite Hr, Hq, Hbegin, Hx. by replace (blob_count =? 0) with false by lia. }
    exists r'. split; [done|]. intros qs. cbn [foldl]. rewrite Hauto, in_flight_stays by done. split; [done|].
    intros e' force'. unfold run_cve_match. cbn [fst]. by rewrite Hfl.
Qed.
End Runs.

(** ** A file with an empty vendor *)

Definition good_env : run_env :=
  {| begins := 1; ends := 2; queue_ok := true; begin_ok := true; commit_ok := true; session_ok := true; end_ok := true; fail_ok := true;
     traceback := "AttributeError: 'NoneType' object has no attribute 'lower'" |}.

Definition null_matcher : bool -> list vuln -> res exc (list vuln * MatchResult) := demo_match [open_family; null_family].

Lemma null_matcher_raises : null_matcher false [grype_row] = Err AttributeError.
Proof. by vm_compute. Qed.

Lemma auto_match_sticks_witness :
  (exists r', run_cve_match null_matcher good_env false (Some new_row, [grype_row]) = ((Some r', [grype_row]), false) /\
     field r' STATUS = CText "failed") /\
  (exists r', field r' STATUS = CText "running" /\
     (forall qs, foldl (do_request null_matcher 2) (Some new_row, [grype_row]) (Auto good_env :: qs) = (Some r', [grype_row]))).
Proof.
  destruct (auto_match_sticks null_matcher 2 new_row [grype_row] good_env false eq_refl eq_refl) as (_ & H2 & H3). split.
  - exact (H2 eq_refl AttributeError null_matcher_raises).
  - destruct (H3 ltac:(done) eq_refl AttributeError null_matcher_raises) as (r' & Hr & H). exists r'. split; [exact Hr|].
    intros qs. exact (proj1 (H qs)).
Defined.

(** Only the sweep of a restart ends such a run. *)
Example restart_ends :
  match (foldl (do_request null_matcher 2) (Some new_row, [grype_row]) [Auto good_env; Auto good_env; Manual good_env true]).1 with
  | Some r => match reaper_sweep (restart_at 7) [r] with [r'] => field r' STATUS = CText "failed" | _ => False end
  | None => False
  end.
Proof. by vm_compute. Qed.

Example aggregate_ex :
  _aggregate_match_result (demo_result [open_family]).2 =
    [("count", JInt 2); ("rows", JInt 6); ("hw_firmware_cves", JInt 1); ("kernel_cves", JInt 1); ("kernel_module_rows", JInt 5)].
Proof. by vm_compute. Qed.
